(* ===== verification/_CoqProject ===== *)
-Q . S2P
Prelude.v
Pmm.v
Vmm.v
Heap.v
CStr.v
Disk.v
Fat32.v
Fat32Fat.v
Fat32File.v
Fat32Dir.v
Fat32Files.v
Pages.v
Kernel.v
Sched.v
Proc.v
Ipc.v
IpcExit.v
Loader.v
Syscall.v
Terminal.v
Printf.v
Console.v
Editor.v
Pager.v
Interrupts.v
Clock.v
Multiboot.v
Acpi.v
Smp.v
Blocks.v
Vector.v
KString.v
Runtime.v
World.v
Commands.v
Shell.v
ShellRun.v
ShellTyping.v
AliasTable.v
ShellStart.v
Elf.v
DynLink.v
Ata.v
Mount.v
VmmBoot.v
BootMemory.v
Boot.v
