(* ===== verification/Prelude.v ===== *)
(** * Pocky: a verification development of the kernel

    Pocky is a 64-bit kernel in C++ (src/kernel/src/): frames and page tables, a heap, a
    FAT32 file system on an ATA disk, processes with a scheduler, messages and
    shared memory between them, system calls, the descriptor tables, interrupts,
    keyboard and clocks of the machine, and on the screen a shell with an editor
    and a pager.  Each component is a file here, with its data, its operations
    written the way the source has them, the lemmas about them and the theorems
    that make it correct.  All paths below are under src/kernel/src/.

    ** How the code is represented

    An operation is an executable function with an [outcome]: [Ok], [UB] where the
    C++ rules give no meaning (a null or dangling pointer followed, an index out of
    range, a conversion of a format without its argument), or [OutOfFuel] where a
    loop without a structural bound was cut short.  State is passed in [ST S], the
    monad defined below; a component that works on another one's state reaches it
    through a lens ([on_part] of World.v, [part] of Boot.v).  Integers are Z with
    the wrap-around written out ([u8] ... [u64]), memory is functions or finite maps
    from addresses, arrays are lists read and written by [aget] and [aset], which
    are undefined out of range, pointers to objects are keys of finite maps, and
    strings are lists of character codes with their terminator where the code sees
    it.  Loops on a counter are Fixpoints on the number of rounds; the others take
    fuel.

    ** The files

    Memory.
    - Pmm.v: memory/physical_memory.cpp, the bitmap of frames.
    - Vmm.v: memory/virtual_memory.cpp, entries, the walk, mapping and translation;
      [vmm_inv] says that the tables form a tree.  VmmBoot.v: its initialize and
      load_page_directory with their text and the control registers.  Pages.v: the loops over runs of
      pages in core/process.cpp, ipc.cpp and syscall.cpp.
    - Heap.v: memory/heap.cpp, first fit, splitting and merging of blocks.
    - Blocks.v, Vector.v, KString.v: operator new and delete of lib/lib.cpp as checked
      blocks, and lib/vector.hpp and lib/string.hpp over them.
    - Elf.v, DynLink.v, Loader.v: core/elf.cpp, core/dynamic_linker.cpp and the
      loading of programs in core/process.cpp.

    Files.
    - Disk.v: the interface [BlockDevice] the file system uses and the laws
      [DeviceLaws] it relies on, with a disk in memory.  Ata.v: drivers/ata.cpp over
      the ports of a drive; [AtaDrive] is the protocol the ATA standard promises,
      under which the driver is a [DeviceLaws] disk.
    - Fat32.v: fs/fat32.cpp.  Fat32Fat.v, Fat32File.v, Fat32Dir.v, Fat32Files.v: its
      theorems on the table, on contents, on directories and on creating and
      deleting files.  Mount.v: mounting, and files
      through the driver.

    Processes.
    - Kernel.v: the shared state of core/; Sched.v, Proc.v, Ipc.v, Syscall.v:
      core/scheduler.cpp, process.cpp, ipc.cpp and syscall.cpp.  IpcExit.v: the
      destructor of the manager in ipc.cpp.

    Machine.
    - Interrupts.v: hw/gdt.cpp, idt.cpp, pic.cpp, drivers/keyboard.cpp.  Clock.v: hw/timer.cpp,
      rtc.cpp.  Multiboot.v: core/multiboot2.cpp.  Acpi.v, Smp.v: hw/acpi.cpp, smp.cpp.
    - BootMemory.v, Boot.v: core/kernel.cpp, [kernel_main] over all the others.

    Screen.
    - CStr.v: the string functions of lib/lib.cpp.  Runtime.v: its strtok, and
      lib/cxxabi.cpp and core/init.cpp.  Terminal.v: shell/terminal.cpp,
      vga.cpp, screen_state.cpp.  Printf.v: lib/printf.cpp.  Console.v: colours,
      prompt and the interface [Files] of the console programs.  Editor.v, Pager.v:
      shell/editor.cpp, pager.cpp.
    - World.v: the state the commands share, and the interface [Directories].
      Commands.v: shell/commands/; AliasTable.v: the theorems on the aliases.
      Shell.v: shell/shell.cpp; ShellRun.v, ShellTyping.v and ShellStart.v: its
      theorems on a line's commands, on typing and on the start.

    Interfaces are classes: the file system is proved against [DeviceLaws], which
    the memory disk and the ATA driver satisfy; editor, pager and commands run
    against [Files] and [Directories], which [fat32_as_files] and
    [fat32_as_directories] implement.

    ** What the theorems show

    - Allocation is safe: the heap never touches memory outside its blocks and
      refines a map of disjoint blocks; frames are counted and never given twice;
      page tables stay a tree, and mapping and unmapping change one page; after boot
      the heap is mapped and never given out as frames.
    - Files: mounting finds the volume the boot sector describes; what is written is
      read back, on the drive, in a file and in a directory; the table is a map; a
      chain that ends is freed exactly.
    - Containers: vectors are lists and strings are texts, whatever is done with
      them, and they leave no block behind.
    - Scheduling: round robin starves nobody; creation and termination keep the
      queues and the table; a message queue is a bounded queue of messages; system calls keep the
      invariants, with their errors.
    - Screen: the terminal is a page of cells with a position; the editor does what
      its keys describe; the pager steps through its pages and restores the screen;
      the shell runs the commands of its line and shows what is typed; the table of
      aliases holds terminated strings whatever its file says.
    - Machine: text typed as scan codes arrives; boot information and ACPI tables
      are read inside their bounds; exactly the processors announced are started;
      [kernel_main] comes to the shell's prompt, ready for a line, or says why not.
    - Loops end: the formatter, the search of directories and of boot tags, the
      wildcard match.

    Where the code does something else than it means to, a lemma or an Example
    shows it and says so; the theorems state the conditions under which the
    behaviour is the intended one.

    ** Fuel

    Loops over a chain of clusters take fuel from their caller: a chain that ends
    needs its length, and the theorems give it.  The heap walks with the number of
    its headers, the formatter with the lengths of its strings, the tags of the boot
    information and of the ACPI tables with their size; the theorems show that it is
    enough.  [wait_data] of Ata.v waits without a bound for the drive, as the code does.

    ** What is not modelled

    - The assembly (src/kernel/src/asm/) and inline assembly: stubs are addresses,
      the switch of stacks, the processor's stores to mapped pages and the halting
      loops are parameters or end states; hw/io.cpp is the port instructions, which
      are logged writes or the class [Ports].
    - Interrupts between the statements of other code: each handler is a step of
      its own.  The kernel runs with interrupts at statement boundaries only where a
      theorem says so.
    - The destructors of the singletons but the one of ipc.cpp: none ever runs; the
      ramdisk and build files.
    - The contents of memory that nothing was written to, and what the firmware
      left in memory, are parameters. *)

From stdpp Require Export base numbers list gmap.
From Stdlib Require Export Lia ZArith ZifyBool.

#[global] Open Scope Z_scope.

(** ** Outcomes

    Every operation of the model returns an [outcome].  [UB] is what the C++
    abstract machine leaves undefined: a null or dangling pointer followed, an
    array indexed out of bounds.  [OutOfFuel] is a loop cut short by the fuel
    given to its Fixpoint; theorems about looping code show it is not
    produced. *)
Inductive outcome (A : Type) : Type :=
| Ok (a : A)
| UB
| OutOfFuel.
Arguments Ok {A} a.
Arguments UB {A}.
Arguments OutOfFuel {A}.

#[export] Instance outcome_ret : MRet outcome := fun A => @Ok A.
#[export] Instance outcome_bind : MBind outcome := fun A B f m =>
  match m with Ok a => f a | UB => UB | OutOfFuel => OutOfFuel end.

Definition is_ok {A} (m : outcome A) : Prop := exists a, m = Ok a.

Lemma bind_Ok {A B} (f : A → outcome B) (a : A) : (Ok a ≫= f) = f a.
Proof. done. Qed.

Lemma outcome_bind_ext {A B} (m : outcome A) (f g : A → outcome B) : (∀ a, f a = g a) → (m ≫= f) = (m ≫= g).
Proof. intros H. destruct m; cbn; auto. Qed.

Lemma outcome_bind_assoc {A B C} (m : outcome A) (f : A → outcome B) (g : B → outcome C) :
  ((m ≫= f) ≫= g) = (m ≫= λ a, f a ≫= g).
Proof. by destruct m. Qed.

Lemma outcome_bind_id {A} (m : outcome A) : (m ≫= λ a, Ok a) = m.
Proof. by destruct m. Qed.

Lemma bind_Ok_inv {A B} (m : outcome A) (f : A → outcome B) (b : B) :
  (m ≫= f) = Ok b → exists a, m = Ok a ∧ f a = Ok b.
Proof. destruct m; [eauto | done | done]. Qed.

(** The value of an outcome, for witnesses that evaluate. *)
Definition ok_or {A} (d : A) (m : outcome A) : A :=
  match m with Ok a => a | _ => d end.

(** ** Stateful computations

    [ST S A]: a computation on a state [S] that may be undefined. *)
Definition ST (S A : Type) : Type := S → outcome (A * S).

#[export] Instance st_ret S : MRet (ST S) := λ A a s, Ok (a, s).
#[export] Instance st_bind S : MBind (ST S) := λ A B f m s,
  match m s with Ok (a, s') => f a s' | UB => UB | OutOfFuel => OutOfFuel end.

Section state_monad.
Context {S : Type}.

Definition gets {A} (f : S → A) : ST S A := λ s, Ok (f s, s).
Definition modify (f : S → S) : ST S unit := λ s, Ok (tt, f s).
Definition lift {A} (m : outcome A) : ST S A := λ s, a ← m; Ok (a, s).
Definition no_fuel {A} : ST S A := λ s, OutOfFuel.

Lemma bind_run {A B} (m : ST S A) (f : A → ST S B) s a s' :
  m s = Ok (a, s') → (m ≫= f) s = f a s'.
Proof. intros E. unfold mbind, st_bind. by rewrite E. Qed.

Lemma bind_UB {A B} (m : ST S A) (f : A → ST S B) s : m s = UB → (m ≫= f) s = UB.
Proof. intros E. unfold mbind, st_bind. by rewrite E. Qed.

Lemma bind_run_inv {A B} (m : ST S A) (f : A → ST S B) s b s'' :
  (m ≫= f) s = Ok (b, s'') → exists a s', m s = Ok (a, s') ∧ f a s' = Ok (b, s'').
Proof. unfold mbind, st_bind. destruct (m s) as [[a s']| |]; [eauto|done|done]. Qed.

Lemma bind_gets {A B} (g : S → A) (f : A → ST S B) s : (gets g ≫= f) s = f (g s) s.
Proof. done. Qed.

Lemma bind_modify {B} g (f : unit → ST S B) s : (modify g ≫= f) s = f tt (g s).
Proof. done. Qed.

Lemma bind_ret {A B} (a : A) (f : A → ST S B) s : ((mret a : ST S A) ≫= f) s = f a s.
Proof. done. Qed.

Lemma bind_lift {A B} (m : outcome A) a (f : A → ST S B) s :
  m = Ok a → (lift m ≫= f) s = f a s.
Proof. intros ->. done. Qed.

Lemma bind_lift_Ok {A B} (a : A) (f : A → ST S B) s : (lift (Ok a) ≫= f) s = f a s.
Proof. done. Qed.
End state_monad.

Create Rewrite HintDb st.
#[export] Hint Rewrite @bind_gets @bind_modify @bind_ret @bind_lift_Ok : st.

(** [st]: runs the reads and writes of fields at the head of a computation. *)
Ltac st := autorewrite with st.

(** ** Invariants of computations

    [preserves I m]: when [m] returns from a state of [I], the state after it is
    in [I] again.  The lemmas are in the database [preserves], so that [auto]
    goes through the binds of an operation. *)
Definition preserves {S A} (I : S → Prop) (m : ST S A) : Prop :=
  forall s a s', I s → m s = Ok (a, s') → I s'.

Section preserves.
Context {S : Type} (I : S → Prop).

Lemma preserves_ret {A} (a : A) : preserves I (mret a).
Proof. intros s b s' HI [= <- <-]. done. Qed.

Lemma preserves_gets {A} (f : S → A) : preserves I (gets f).
Proof. intros s b s' HI [= <- <-]. done. Qed.

Lemma preserves_lift {A} (m : outcome A) : preserves I (lift m).
Proof. intros s b s' HI. unfold lift. destruct m; cbn; [intros [= <- <-]|..]; done. Qed.

Lemma preserves_no_fuel {A} : preserves I (no_fuel : ST S A).
Proof. done. Qed.

Lemma preserves_bind {A B} (m : ST S A) (f : A → ST S B) :
  preserves I m → (∀ a, preserves I (f a)) → preserves I (m ≫= f).
Proof. intros Hm Hf s b s' HI (a & s1 & E1 & E2)%bind_run_inv. eapply Hf; [|exact E2]. by eapply Hm. Qed.

Lemma preserves_modify (f : S → S) : (∀ s, I s → I (f s)) → preserves I (modify f).
Proof. intros Hf s b s' HI [= <- <-]. auto. Qed.

Lemma preserves_if {A} (b : bool) (m n : ST S A) :
  preserves I m → preserves I n → preserves I (if b then m else n).
Proof. by destruct b. Qed.

Lemma preserves_decide {A} P `{!Decision P} (m n : ST S A) :
  preserves I m → preserves I n → preserves I (if decide P then m else n).
Proof. by destruct (decide P). Qed.
End preserves.

Create HintDb preserves.
#[export] Hint Resolve preserves_ret preserves_gets preserves_lift preserves_no_fuel preserves_bind
  preserves_if preserves_decide : preserves.

(** [preserves]: goes through an operation's text, branching on its matches. *)
Ltac preserves :=
  repeat match goal with
  | |- preserves _ (_ ≫= _) => apply preserves_bind; [|intros ?]
  | |- preserves _ (if decide _ then _ else _) => apply preserves_decide
  | |- preserves _ (if _ then _ else _) => apply preserves_if
  | |- preserves _ (match ?x with _ => _ end) => destruct x
  | |- preserves _ _ => solve [eauto with preserves]
  end.

(** ** Machine integers

    A [w]-bit integer is a [Z]; the wrap-around is written where the source's
    type makes it happen. *)
Definition u8 (x : Z) : Z := x `mod` 2 ^ 8.
Definition u16 (x : Z) : Z := x `mod` 2 ^ 16.
Definition u32 (x : Z) : Z := x `mod` 2 ^ 32.
Definition u64 (x : Z) : Z := x `mod` 2 ^ 64.
Definition i32 (x : Z) : Z := (x + 2 ^ 31) `mod` 2 ^ 32 - 2 ^ 31.
Definition i64 (x : Z) : Z := (x + 2 ^ 63) `mod` 2 ^ 64 - 2 ^ 63.

Definition is_u8 (x : Z) : Prop := 0 ≤ x < 2 ^ 8.
Definition is_u32 (x : Z) : Prop := 0 ≤ x < 2 ^ 32.
Definition is_u64 (x : Z) : Prop := 0 ≤ x < 2 ^ 64.

Lemma u8_small x : is_u8 x → u8 x = x.
Proof. unfold is_u8, u8. intros. by apply Z.mod_small. Qed.
Lemma u16_small x : 0 ≤ x < 2 ^ 16 → u16 x = x.
Proof. unfold u16. intros. by apply Z.mod_small. Qed.
Lemma u32_small x : 0 ≤ x < 2 ^ 32 → u32 x = x.
Proof. unfold u32. intros. by apply Z.mod_small. Qed.
Lemma u64_small x : 0 ≤ x < 2 ^ 64 → u64 x = x.
Proof. unfold u64. intros. by apply Z.mod_small. Qed.
Lemma i32_small x : - 2 ^ 31 ≤ x < 2 ^ 31 → i32 x = x.
Proof. unfold i32. intros. rewrite Z.mod_small; lia. Qed.
Lemma i64_small x : - 2 ^ 63 ≤ x < 2 ^ 63 → i64 x = x.
Proof. unfold i64. intros. rewrite Z.mod_small; lia. Qed.
Lemma u8_range x : is_u8 (u8 x).
Proof. unfold is_u8, u8. apply Z.mod_pos_bound. lia. Qed.
Lemma u32_range x : 0 ≤ u32 x < 2 ^ 32.
Proof. unfold u32. apply Z.mod_pos_bound. lia. Qed.
Lemma u64_range x : 0 ≤ u64 x < 2 ^ 64.
Proof. unfold u64. apply Z.mod_pos_bound. lia. Qed.

(** Bits put together: nothing is carried. *)
Lemma lor_add_pow a c k : 0 < k → 0 ≤ c < 2 ^ k → Z.lor (a * 2 ^ k) c = a * 2 ^ k + c.
Proof.
  intros Hk Hc. rewrite <- Z.lxor_lor, <- Z.add_nocarry_lxor; [done|..].
  all: apply Z.bits_inj_0; intros b; rewrite Z.land_spec;
    (destruct (Z.lt_ge_cases b 0); [by rewrite Z.testbit_neg_r|]);
    (destruct (Z.lt_ge_cases b k); [by rewrite Z.mul_pow2_bits_low|]);
    rewrite andb_comm; rewrite (Z.bits_above_log2 c); [done|lia|];
    (destruct (decide (c = 0)) as [->|]; [cbn; lia|]);
    (assert (Z.log2 c < k) by (apply Z.log2_lt_pow2; lia)); lia.
Qed.

(** ** Arrays

    [aget] and [aset] are a C array access: out of range is undefined. *)
Definition aget {A} (l : list A) (i : Z) : outcome A :=
  if 0 <=? i then
    match l !! Z.to_nat i with Some x => Ok x | None => UB end
  else UB.

Definition aset {A} (l : list A) (i : Z) (x : A) : outcome (list A) :=
  if (0 <=? i) && (i <? Z.of_nat (length l))
  then Ok (<[Z.to_nat i := x]> l) else UB.

(** Total read of a list of bytes or words, for specifications. *)
Definition nthz (l : list Z) (i : Z) : Z :=
  if 0 <=? i then default 0 (l !! Z.to_nat i) else 0.

Section arrays.
Context {A : Type}.
Implicit Types (l : list A) (i : Z) (x : A).

Lemma aget_Ok l i x :
  aget l i = Ok x ↔ 0 ≤ i ∧ l !! Z.to_nat i = Some x.
Proof.
  unfold aget. destruct (Z.leb_spec 0 i); [|split; [done|lia]].
  destruct (l !! Z.to_nat i); naive_solver.
Qed.

Lemma aget_lookup l (n : nat) x : l !! n = Some x → aget l (Z.of_nat n) = Ok x.
Proof. intros. apply aget_Ok. rewrite Nat2Z.id. split; [lia|done]. Qed.

Lemma aget_is_ok l i : 0 ≤ i < Z.of_nat (length l) → exists x, aget l i = Ok x.
Proof.
  intros. destruct (lookup_lt_is_Some_2 l (Z.to_nat i)) as [x Hx]; [lia|].
  exists x. apply aget_Ok. auto with lia.
Qed.

Lemma aset_Ok l i x :
  0 ≤ i < Z.of_nat (length l) → aset l i x = Ok (<[Z.to_nat i := x]> l).
Proof.
  intros. unfold aset.
  rewrite (proj2 (Z.leb_le 0 i)), (proj2 (Z.ltb_lt i _)) by lia. done.
Qed.

Lemma aset_Ok_inv l i x l' :
  aset l i x = Ok l' →
  0 ≤ i < Z.of_nat (length l) ∧ l' = <[Z.to_nat i := x]> l.
Proof.
  unfold aset. destruct (Z.leb_spec 0 i); simpl; [|done].
  destruct (Z.ltb_spec i (Z.of_nat (length l))); naive_solver.
Qed.

Lemma aset_UB l i x : ¬ (0 ≤ i < Z.of_nat (length l)) → aset l i x = UB.
Proof.
  intros. unfold aset. destruct (Z.leb_spec 0 i); simpl; [|done].
  destruct (Z.ltb_spec i (Z.of_nat (length l))); [lia|done].
Qed.
End arrays.

Lemma nthz_lookup l (n : nat) x : l !! n = Some x → nthz l (Z.of_nat n) = x.
Proof.
  intros H. unfold nthz. rewrite (proj2 (Z.leb_le 0 _)) by lia.
  by rewrite Nat2Z.id, H.
Qed.

(** ** Automation *)

(** [ok_inv]: takes apart every hypothesis that says a bind succeeded. *)
Ltac ok_inv :=
  repeat match goal with
  | H : (_ ≫= _) = Ok _ |- _ =>
      apply bind_Ok_inv in H; destruct H as (? & ? & H)
  | H : mret _ = Ok _ |- _ => injection H as H
  | H : Ok _ = Ok _ |- _ => injection H as H
  | H : UB = Ok _ |- _ => discriminate H
  | H : OutOfFuel = Ok _ |- _ => discriminate H
  end; simplify_eq/=.

(** [case_bool]: case analysis on a boolean integer comparison in the goal or
    a hypothesis, leaving the comparison as a [Z] fact. *)
Ltac case_bool :=
  match goal with
  | |- context [?a <=? ?b] => destruct (Z.leb_spec a b)
  | |- context [?a <? ?b] => destruct (Z.ltb_spec a b)
  | |- context [?a =? ?b] => destruct (Z.eqb_spec a b)
  | H : context [?a <=? ?b] |- _ => destruct (Z.leb_spec a b)
  | H : context [?a <? ?b] |- _ => destruct (Z.ltb_spec a b)
  | H : context [?a =? ?b] |- _ => destruct (Z.eqb_spec a b)
  end.
