(* ===== verification/Pmm.v ===== *)
(** * The physical memory manager (src/kernel/src/memory/physical_memory.cpp)

    A bitmap of page frames.  [PhysicalMemoryManager] is the C++ object; the
    bitmap is the 16384-word static array [initial_bitmap] it points to.  The
    abstract view is [used s i], "frame [i] is taken"; [pmm_wf] is the class
    invariant, with [m_free_frames] the number of frames not taken. *)

From S2P Require Import Prelude.

Definition PAGE_SIZE : Z := 4096.
Definition BITMAP_WORDS : nat := Z.to_nat 16384.
Arguments BITMAP_WORDS : simpl never.

Record PhysicalMemoryManager := Pmm {
  m_bitmap : list Z;
  m_total_frames : Z;
  m_free_frames : Z;
  m_memory_start : Z
}.

(** The object before [initialize]: the member initialisers, and the static
    array, which C++ zero-initialises. *)
Definition pmm_unset : PhysicalMemoryManager := Pmm (replicate BITMAP_WORDS 0) 0 0 0.

Definition set_bitmap (s : PhysicalMemoryManager) (bm : list Z) (free : Z) :=
  Pmm bm (m_total_frames s) free (m_memory_start s).

(** [1u << bit] *)
Definition bit_mask (i : Z) : Z := u32 (Z.shiftl 1 (i `mod` 32)).

(** [memset(m_bitmap, 0, words * 4)]: past the end of the array it is undefined. *)
Definition memset_bitmap (bm : list Z) (words : Z) : outcome (list Z) :=
  if words <=? Z.of_nat (length bm)
  then Ok (replicate (Z.to_nat words) 0 ++ drop (Z.to_nat words) bm) else UB.

(** One of the three marking loops of [initialize]: [n] iterations from [i]. *)
Fixpoint mark_range (n : nat) (i : Z) (s : PhysicalMemoryManager) : outcome PhysicalMemoryManager :=
  match n with
  | O => Ok s
  | S n' =>
      w ← aget (m_bitmap s) (i / 32);
      bm ← aset (m_bitmap s) (i / 32) (Z.lor w (bit_mask i));
      mark_range n' (i + 1) (set_bitmap s bm (u64 (m_free_frames s - 1)))
  end.

Definition first_mb_frames : Z := 0x100000 / PAGE_SIZE.
Definition heap_frames : Z := 16 * 1024 * 1024 / PAGE_SIZE.
Definition heap_start_frame (memory_size : Z) : Z :=
  u64 (memory_size - 16 * 1024 * 1024) / PAGE_SIZE.
Definition page_table_frames : Z := 5.

Definition pmm_initialize (s : PhysicalMemoryManager) (memory_start memory_size : Z)
    : outcome PhysicalMemoryManager :=
  let total := memory_size / PAGE_SIZE in
  bm ← memset_bitmap (m_bitmap s) ((total + 31) / 32);
  let s := Pmm bm total total memory_start in
  s ← mark_range (Z.to_nat first_mb_frames) 0 s;
  s ← mark_range (Z.to_nat heap_frames) (heap_start_frame memory_size) s;
  mark_range (Z.to_nat page_table_frames) first_mb_frames s.

(** The search loop of [allocate_frame]: [n] frames are left to look at, from [i]. *)
Fixpoint allocate_from (n : nat) (i : Z) (s : PhysicalMemoryManager)
    : outcome (Z * PhysicalMemoryManager) :=
  match n with
  | O => Ok (0, s)
  | S n' =>
      w ← aget (m_bitmap s) (i / 32);
      if Z.land w (bit_mask i) =? 0 then
        bm ← aset (m_bitmap s) (i / 32) (Z.lor w (bit_mask i));
        Ok (u64 (m_memory_start s + i * PAGE_SIZE),
            set_bitmap s bm (u64 (m_free_frames s - 1)))
      else allocate_from n' (i + 1) s
  end.

(** The frame's address, 0 for the null pointer. *)
Definition allocate_frame (s : PhysicalMemoryManager) : outcome (Z * PhysicalMemoryManager) :=
  if m_free_frames s =? 0 then Ok (0, s)
  else allocate_from (Z.to_nat (m_total_frames s)) 0 s.

Definition free_frame (s : PhysicalMemoryManager) (addr : Z) : outcome PhysicalMemoryManager :=
  if addr <? m_memory_start s then Ok s else
  let i := (addr - m_memory_start s) / PAGE_SIZE in
  if m_total_frames s <=? i then Ok s else
  w ← aget (m_bitmap s) (i / 32);
  if Z.land w (bit_mask i) =? 0 then Ok s else
  bm ← aset (m_bitmap s) (i / 32) (Z.land w (u32 (Z.lnot (bit_mask i))));
  Ok (set_bitmap s bm (u64 (m_free_frames s + 1))).

Definition get_free_frames (s : PhysicalMemoryManager) : Z := m_free_frames s.
Definition get_total_frames (s : PhysicalMemoryManager) : Z := m_total_frames s.

(** ** Abstract view and invariant *)

Definition used (s : PhysicalMemoryManager) (i : Z) : bool :=
  Z.testbit (nthz (m_bitmap s) (i / 32)) (i `mod` 32).

Fixpoint count_free (f : Z → bool) (n : nat) : Z :=
  match n with
  | O => 0
  | S n' => count_free f n' + (if f (Z.of_nat n') then 0 else 1)
  end.

(** The bitmap part of the invariant: everything but the counter. *)
Record pmm_shape (s : PhysicalMemoryManager) : Prop := {
  sh_length : length (m_bitmap s) = BITMAP_WORDS;
  sh_words : Forall is_u32 (m_bitmap s);
  sh_total : 0 ≤ m_total_frames s ≤ 16384 * 32;
  sh_start : 0 < m_memory_start s;
  sh_end : m_memory_start s + m_total_frames s * PAGE_SIZE ≤ 2 ^ 64
}.

Record pmm_wf (s : PhysicalMemoryManager) : Prop := {
  wf_shape : pmm_shape s;
  wf_free : m_free_frames s = count_free (used s) (Z.to_nat (m_total_frames s))
}.

(** The address of frame [i], and what "the frame at [a] is taken" means. *)
Definition frame_addr (s : PhysicalMemoryManager) (i : Z) : Z :=
  m_memory_start s + i * PAGE_SIZE.

Definition same_layout (s s' : PhysicalMemoryManager) : Prop :=
  m_total_frames s' = m_total_frames s ∧ m_memory_start s' = m_memory_start s.

(** [takes s i s']: frame [i] was free and is the only change from [s] to [s']. *)
Record takes (s : PhysicalMemoryManager) (i : Z) (s' : PhysicalMemoryManager) : Prop := {
  tk_range : 0 ≤ i < m_total_frames s;
  tk_was_free : used s i = false;
  tk_used : ∀ j, 0 ≤ j → used s' j = (used s j || (j =? i));
  tk_layout : same_layout s s';
  tk_free : m_free_frames s' = m_free_frames s - 1;
  tk_wf : pmm_wf s'
}.

(** ** Bit lemmas *)

Lemma bit_mask_pow i : bit_mask i = 2 ^ (i `mod` 32).
Proof.
  unfold bit_mask. pose proof (Z.mod_pos_bound i 32 ltac:(lia)).
  rewrite Z.shiftl_1_l. apply u32_small. split; [lia|].
  apply Z.pow_lt_mono_r; lia.
Qed.

Lemma mod32_range i : 0 ≤ i `mod` 32 < 32.
Proof. apply Z.mod_pos_bound. lia. Qed.

Lemma bit_mask_testbit i b :
  0 ≤ b → Z.testbit (bit_mask i) b = (b =? i `mod` 32).
Proof.
  intros. rewrite bit_mask_pow, Z.pow2_bits_eqb by apply mod32_range.
  apply Z.eqb_sym.
Qed.

Lemma land_bit_mask w i :
  (Z.land w (bit_mask i) =? 0) = negb (Z.testbit w (i `mod` 32)).
Proof.
  pose proof (mod32_range i).
  destruct (Z.eqb_spec (Z.land w (bit_mask i)) 0) as [Hz|Hz]; symmetry.
  - apply negb_true_iff. pose proof (f_equal (λ x, Z.testbit x (i `mod` 32)) Hz) as Hb.
    cbv beta in Hb.
    rewrite Z.land_spec, bit_mask_testbit, Z.eqb_refl, andb_true_r, Z.bits_0 in Hb by lia.
    done.
  - apply negb_false_iff. destruct (Z.testbit w (i `mod` 32)) eqn:E; [done|].
    destruct Hz. apply Z.bits_inj'. intros b Hb.
    rewrite Z.land_spec, bit_mask_testbit, Z.bits_0 by lia.
    destruct (Z.eqb_spec b (i `mod` 32)); subst; [by rewrite E|apply andb_false_r].
Qed.

Lemma is_u32_bits w : is_u32 w ↔ 0 ≤ w ∧ ∀ b, 32 ≤ b → Z.testbit w b = false.
Proof.
  unfold is_u32. split.
  - intros Hw. split; [lia|]. intros b Hb. rewrite <- (Z.mod_small w (2 ^ 32)) by lia.
    apply Z.mod_pow2_bits_high. lia.
  - intros [? Hb]. split; [lia|].
    assert (w = w `mod` 2 ^ 32) as ->; [|apply Z.mod_pos_bound; lia].
    apply Z.bits_inj'. intros b ?.
    destruct (decide (b < 32)); [by rewrite Z.mod_pow2_bits_low by lia|].
    rewrite Z.mod_pow2_bits_high by lia. apply Hb. lia.
Qed.

Lemma is_u32_lor w i : is_u32 w → is_u32 (Z.lor w (bit_mask i)).
Proof.
  rewrite !is_u32_bits. intros [? Hw]. split.
  - apply Z.lor_nonneg. split; [done|]. rewrite bit_mask_pow. lia.
  - intros b ?. pose proof (mod32_range i).
    rewrite Z.lor_spec, Hw, bit_mask_testbit by lia. simpl.
    apply Z.eqb_neq. lia.
Qed.

Lemma clear_mask_testbit i b :
  0 ≤ b < 32 → Z.testbit (u32 (Z.lnot (bit_mask i))) b = negb (b =? i `mod` 32).
Proof.
  intros. unfold u32. rewrite Z.mod_pow2_bits_low, Z.lnot_spec, bit_mask_testbit by lia.
  done.
Qed.

Lemma is_u32_land w v : is_u32 w → is_u32 (Z.land w v).
Proof.
  rewrite !is_u32_bits. intros [? Hw]. split.
  - apply Z.land_nonneg. auto.
  - intros b ?. by rewrite Z.land_spec, Hw by lia.
Qed.

(** Setting and then clearing a clear bit gives the word back. *)
Lemma clear_set_word w i :
  is_u32 w → Z.testbit w (i `mod` 32) = false →
  Z.land (Z.lor w (bit_mask i)) (u32 (Z.lnot (bit_mask i))) = w.
Proof.
  intros Hw Hb. apply Z.bits_inj'. intros b ?. rewrite Z.land_spec, Z.lor_spec.
  destruct (decide (b < 32)).
  - rewrite clear_mask_testbit, bit_mask_testbit by lia.
    destruct (Z.eqb_spec b (i `mod` 32)); subst; [by rewrite Hb|].
    by rewrite orb_false_r, andb_true_r.
  - apply is_u32_bits in Hw as [? Hw]. rewrite Hw, bit_mask_testbit by lia.
    pose proof (mod32_range i). rewrite (proj2 (Z.eqb_neq b _)) by lia. done.
Qed.

(** ** Frames and the bitmap *)

Lemma div_mod_32_inj i j : i / 32 = j / 32 → i `mod` 32 = j `mod` 32 → i = j.
Proof. intros. rewrite (Z.div_mod i 32), (Z.div_mod j 32) by lia. congruence. Qed.

Lemma nthz_insert (l : list Z) i j x :
  0 ≤ i < Z.of_nat (length l) → 0 ≤ j →
  nthz (<[Z.to_nat i := x]> l) j = if i =? j then x else nthz l j.
Proof.
  intros. unfold nthz. rewrite (proj2 (Z.leb_le 0 j)) by lia.
  destruct (Z.eqb_spec i j) as [->|].
  - by rewrite list_lookup_insert_eq by lia.
  - by rewrite list_lookup_insert_ne by lia.
Qed.

Lemma aget_nthz (l : list Z) i :
  0 ≤ i < Z.of_nat (length l) → aget l i = Ok (nthz l i).
Proof.
  intros. destruct (aget_is_ok l i) as [x Hx]; [done|]. rewrite Hx.
  apply aget_Ok in Hx as [? Hx]. unfold nthz. rewrite Hx.
  by rewrite (proj2 (Z.leb_le 0 i)) by lia.
Qed.

Lemma nthz_u32 (l : list Z) i : Forall is_u32 l → is_u32 (nthz l i).
Proof.
  intros Hl. unfold nthz. case_bool; [|unfold is_u32; lia].
  destruct (l !! Z.to_nat i) eqn:E; simpl; [|unfold is_u32; lia].
  by eapply Forall_lookup_1 in Hl.
Qed.

Section frames.
Context (s : PhysicalMemoryManager) (Hs : pmm_shape s).

Lemma word_index i : 0 ≤ i < m_total_frames s → 0 ≤ i / 32 < Z.of_nat (length (m_bitmap s)).
Proof.
  intros. destruct Hs as [-> _ ? _ _]. unfold BITMAP_WORDS.
  pose proof (Z.div_pos i 32). split; [lia|]. apply Z.div_lt_upper_bound; lia.
Qed.

Lemma get_word i : 0 ≤ i < m_total_frames s →
  aget (m_bitmap s) (i / 32) = Ok (nthz (m_bitmap s) (i / 32)).
Proof. intros. apply aget_nthz. by apply word_index. Qed.

Lemma set_word i x : 0 ≤ i < m_total_frames s →
  aset (m_bitmap s) (i / 32) x = Ok (<[Z.to_nat (i / 32) := x]> (m_bitmap s)).
Proof. intros. apply aset_Ok. by apply word_index. Qed.

(** Writing a word whose bits differ from the old word's only at frame [i]. *)
Lemma used_set_word i x free (v : bool) j :
  0 ≤ i < m_total_frames s → 0 ≤ j →
  (∀ b, 0 ≤ b < 32 →
    Z.testbit x b = if b =? i `mod` 32 then v
                    else Z.testbit (nthz (m_bitmap s) (i / 32)) b) →
  used (set_bitmap s (<[Z.to_nat (i / 32) := x]> (m_bitmap s)) free) j =
  if j =? i then v else used s j.
Proof.
  intros Hi Hj Hx. unfold used. simpl.
  rewrite nthz_insert by (auto using word_index; apply Z.div_pos; lia).
  pose proof (mod32_range j).
  destruct (Z.eqb_spec (i / 32) (j / 32)) as [E|E].
  - rewrite Hx by done. destruct (Z.eqb_spec (j `mod` 32) (i `mod` 32)).
    + rewrite (div_mod_32_inj j i) by done. by rewrite Z.eqb_refl.
    + rewrite (proj2 (Z.eqb_neq j i)) by congruence. by rewrite E.
  - by rewrite (proj2 (Z.eqb_neq j i)) by congruence.
Qed.

Lemma shape_set_word i x free :
  is_u32 x →
  pmm_shape (set_bitmap s (<[Z.to_nat (i / 32) := x]> (m_bitmap s)) free).
Proof.
  intros. destruct Hs. constructor; simpl; [|by apply Forall_insert|done..].
  by rewrite length_insert.
Qed.

Definition set_used_word i := Z.lor (nthz (m_bitmap s) (i / 32)) (bit_mask i).

Lemma used_lor i free j :
  0 ≤ i < m_total_frames s → 0 ≤ j →
  used (set_bitmap s (<[Z.to_nat (i / 32) := set_used_word i]> (m_bitmap s)) free) j =
  (used s j || (j =? i)).
Proof.
  intros. erewrite used_set_word with (v := true); [|done..|].
  - destruct (j =? i); [by rewrite orb_true_r|by rewrite orb_false_r].
  - intros b ?. unfold set_used_word. rewrite Z.lor_spec, bit_mask_testbit by lia.
    destruct (b =? _); [by rewrite orb_true_r|by rewrite orb_false_r].
Qed.

Lemma set_used_word_u32 i : is_u32 (set_used_word i).
Proof. apply is_u32_lor, nthz_u32, Hs. Qed.
End frames.

(** ** Counting *)

Lemma count_free_bound f n : 0 ≤ count_free f n ≤ Z.of_nat n.
Proof. induction n as [|n IH]; simpl; [lia|]. destruct (f _); lia. Qed.

Lemma count_free_ext f g n :
  (∀ j, 0 ≤ j < Z.of_nat n → f j = g j) → count_free f n = count_free g n.
Proof.
  induction n as [|n IH]; intros H; simpl; [done|].
  rewrite IH, (H (Z.of_nat n)) by (intros; try apply H; lia). done.
Qed.

Lemma count_free_flip f g i n :
  0 ≤ i < Z.of_nat n → f i = false → g i = true →
  (∀ j, 0 ≤ j < Z.of_nat n → j ≠ i → f j = g j) →
  count_free g n = count_free f n - 1.
Proof.
  intros Hi Hf Hg. revert Hi. induction n as [|n IH]; intros Hi H; simpl; [lia|].
  destruct (decide (i = Z.of_nat n)) as [->|].
  - rewrite Hf, Hg, (count_free_ext g f); [lia|].
      intros j ?. symmetry. apply H; lia.
  - rewrite IH; [|lia|intros; apply H; lia].
    rewrite (H (Z.of_nat n)) by lia. destruct (g _); lia.
Qed.

Lemma count_free_zero f n j :
  count_free f n = 0 → 0 ≤ j < Z.of_nat n → f j = true.
Proof.
  induction n as [|n IH]; simpl; intros H Hj; [lia|].
  pose proof (count_free_bound f n). destruct (f (Z.of_nat n)) eqn:E; [|lia].
  destruct (decide (j = Z.of_nat n)) as [->|]; [done|]. apply IH; lia.
Qed.

Lemma count_free_all_used f n :
  (∀ j, 0 ≤ j < Z.of_nat n → f j = true) → count_free f n = 0.
Proof.
  intros H. induction n as [|n IH]; simpl; [done|].
  rewrite IH, (H (Z.of_nat n)) by (intros; try apply H; lia). done.
Qed.

(** ** allocate_frame *)

Lemma takes_set_word s i :
  pmm_wf s → 0 ≤ i < m_total_frames s → used s i = false →
  takes s i (set_bitmap s (<[Z.to_nat (i / 32) := set_used_word s i]> (m_bitmap s))
              (u64 (m_free_frames s - 1))).
Proof.
  intros [Hs Hf] Hi Hu.
  pose proof (sh_total s Hs). set (s' := set_bitmap _ _ _).
  pose proof (count_free_bound (used s) (Z.to_nat (m_total_frames s))).
  assert (Hcount : count_free (used s') (Z.to_nat (m_total_frames s)) =
                   m_free_frames s - 1).
  { rewrite Hf. apply (count_free_flip _ _ i); [lia|done|..].
    - unfold s'. rewrite used_lor, Z.eqb_refl by (done || lia). apply orb_true_r.
    - intros j ??. unfold s'. rewrite used_lor by (done || lia).
      by rewrite (proj2 (Z.eqb_neq j i)), orb_false_r by done. }
  pose proof (count_free_bound (used s') (Z.to_nat (m_total_frames s))).
  assert (Hfree : m_free_frames s' = m_free_frames s - 1) by (apply u64_small; lia).
  constructor; try done.
  - intros. by apply used_lor.
  - constructor; [apply shape_set_word; auto using set_used_word_u32|].
    rewrite Hfree. by symmetry.
Qed.

Lemma allocate_from_spec n i s :
  pmm_wf s → 0 ≤ i → i + Z.of_nat n = m_total_frames s →
  (exists k s', i ≤ k ∧ (∀ j, i ≤ j < k → used s j = true) ∧ takes s k s' ∧
     allocate_from n i s = Ok (frame_addr s k, s')) ∨
  ((∀ j, i ≤ j < m_total_frames s → used s j = true) ∧ allocate_from n i s = Ok (0, s)).
Proof.
  revert i. induction n as [|n IH]; intros i Hwf Hi Hn; simpl.
  { right. split; [lia|done]. }
  pose proof (wf_shape s Hwf) as Hs.
  rewrite get_word by (done || lia). simpl. rewrite land_bit_mask.
  change (Z.testbit _ _) with (used s i). destruct (used s i) eqn:Hu; simpl.
  - destruct (IH (i + 1)) as [(k & s' & Hk & Hb & Ht & E)|[Hall E]]; [done|lia|lia|..].
    + left. exists k, s'. split_and!; [lia| |done|done].
      intros j ?. destruct (decide (j = i)) as [->|]; [done|apply Hb; lia].
    + right. split; [|done]. intros j ?.
      destruct (decide (j = i)) as [->|]; [done|apply Hall; lia].
  - rewrite set_word by (done || lia). simpl. left. exists i.
    eexists. split_and!; [lia|lia|apply takes_set_word; auto with lia|].
    rewrite u64_small; [done|]. pose proof (sh_start s Hs). pose proof (sh_end s Hs).
    unfold PAGE_SIZE in *. lia.
Qed.

Lemma allocate_frame_ok s :
  pmm_wf s →
  (exists i s', (∀ j, 0 ≤ j < i → used s j = true) ∧ takes s i s' ∧
     allocate_frame s = Ok (frame_addr s i, s')) ∨
  ((∀ j, 0 ≤ j < m_total_frames s → used s j = true) ∧ allocate_frame s = Ok (0, s)).
Proof.
  intros Hwf. pose proof (sh_total s (wf_shape s Hwf)). unfold allocate_frame.
  destruct (Z.eqb_spec (m_free_frames s) 0) as [E|E].
  - right. split; [|done]. intros j Hj. eapply (count_free_zero (used s)); [|].
    + by rewrite <- (wf_free s Hwf).
    + lia.
  - destruct (allocate_from_spec (Z.to_nat (m_total_frames s)) 0 s)
      as [(k & s' & _ & ? & ? & ?)|[? ?]]; [done|lia|lia|left; eauto|right; eauto].
Qed.

(** [C25] [allocate_frame] hands out the lowest free frame: on a well-formed
    manager it either marks exactly that frame as taken, decrements the free
    counter and returns the frame's address, or, when every frame is taken,
    returns null and changes nothing.  It never runs out of bounds, and the
    invariant is kept. *)
Theorem allocate_frame_spec s :
  pmm_wf s →
  (exists i s', (∀ j, 0 ≤ j < i → used s j = true) ∧ takes s i s' ∧
     allocate_frame s = Ok (frame_addr s i, s')) ∨
  ((∀ j, 0 ≤ j < m_total_frames s → used s j = true) ∧ allocate_frame s = Ok (0, s)).
Proof. exact (allocate_frame_ok s). Qed.

Lemma allocate_frame_cases s a s' :
  pmm_wf s → allocate_frame s = Ok (a, s') →
  (a = 0 ∧ s' = s) ∨ (a ≠ 0 ∧ exists i, a = frame_addr s i ∧ takes s i s').
Proof.
  intros Hwf E. destruct (allocate_frame_ok s Hwf) as [(i & s1 & _ & Ht & E')|[_ E']];
    rewrite E' in E; simplify_eq; [right|by left].
  split; [|by eauto]. pose proof (tk_range _ _ _ Ht).
  pose proof (sh_start s (wf_shape s Hwf)). unfold frame_addr, PAGE_SIZE. lia.
Qed.

Lemma allocate_frame_takes s :
  pmm_wf s → 1 ≤ m_free_frames s →
  exists k s', takes s k s' ∧ allocate_frame s = Ok (frame_addr s k, s').
Proof.
  intros Hwf Hf. destruct (allocate_frame_ok s Hwf) as [(k & s' & _ & Ht & E)|[Hall E]]; [eauto|].
  rewrite (wf_free s Hwf) in Hf. rewrite count_free_all_used in Hf; [lia|].
  pose proof (sh_total s (wf_shape s Hwf)). intros. apply Hall. lia.
Qed.

Lemma allocate_frame_wf s a s' :
  pmm_wf s → allocate_frame s = Ok (a, s') → pmm_wf s' ∧ same_layout s s'.
Proof.
  intros Hwf E. destruct (allocate_frame_cases s a s' Hwf E) as [[-> ->]|(_ & i & -> & Ht)].
  - done.
  - split; apply Ht.
Qed.

(** ** free_frame *)

Record releases (s : PhysicalMemoryManager) (i : Z) (s' : PhysicalMemoryManager) : Prop := {
  rl_range : 0 ≤ i < m_total_frames s;
  rl_was_used : used s i = true;
  rl_used : ∀ j, 0 ≤ j → used s' j = (used s j && negb (j =? i));
  rl_layout : same_layout s s';
  rl_free : m_free_frames s' = m_free_frames s + 1;
  rl_wf : pmm_wf s'
}.

Definition frame_index (s : PhysicalMemoryManager) (addr : Z) : Z :=
  (addr - m_memory_start s) / PAGE_SIZE.

Definition owns_addr (s : PhysicalMemoryManager) (addr : Z) : Prop :=
  m_memory_start s ≤ addr < m_memory_start s + m_total_frames s * PAGE_SIZE.

Lemma releases_clear_word s i :
  pmm_wf s → 0 ≤ i < m_total_frames s → used s i = true →
  releases s i
    (set_bitmap s (<[Z.to_nat (i / 32) :=
        Z.land (nthz (m_bitmap s) (i / 32)) (u32 (Z.lnot (bit_mask i)))]> (m_bitmap s))
        (u64 (m_free_frames s + 1))).
Proof.
  intros [Hs Hf] Hi Hu. pose proof (sh_total s Hs). set (s' := set_bitmap _ _ _).
  pose proof (count_free_bound (used s) (Z.to_nat (m_total_frames s))).
  assert (Hused : ∀ j, 0 ≤ j → used s' j = (used s j && negb (j =? i))).
  { intros j ?. unfold s'. erewrite (used_set_word s Hs) with (v := false); [|done..|].
    - destruct (j =? i); [by rewrite andb_false_r|by rewrite andb_true_r].
    - intros b ?. rewrite Z.land_spec, clear_mask_testbit by lia.
      destruct (b =? _); [by rewrite andb_false_r|by rewrite andb_true_r]. }
  assert (Hcount : count_free (used s') (Z.to_nat (m_total_frames s)) =
                   m_free_frames s + 1).
  { rewrite Hf. rewrite (count_free_flip (used s') (used s) i (Z.to_nat (m_total_frames s))); cycle 1.
    - lia.
    - by rewrite Hused, Z.eqb_refl, andb_false_r by lia.
    - done.
    - intros j ??. by rewrite Hused, (proj2 (Z.eqb_neq j i)), andb_true_r by (done || lia).
    - lia. }
  pose proof (count_free_bound (used s') (Z.to_nat (m_total_frames s))).
  assert (Hfree : m_free_frames s' = m_free_frames s + 1) by (apply u64_small; lia).
  constructor; try done.
  constructor; [apply (shape_set_word s Hs), is_u32_land, nthz_u32, Hs|].
  rewrite Hfree. by symmetry.
Qed.

Lemma free_frame_ok s addr :
  pmm_wf s →
  (owns_addr s addr ∧ used s (frame_index s addr) = true ∧
     exists s', free_frame s addr = Ok s' ∧ releases s (frame_index s addr) s') ∨
  (¬ (owns_addr s addr ∧ used s (frame_index s addr) = true) ∧ free_frame s addr = Ok s).
Proof.
  intros Hwf. pose proof (wf_shape s Hwf) as Hs.
  unfold free_frame, owns_addr.
  destruct (Z.ltb_spec addr (m_memory_start s)); [right; split; [lia|done]|].
  fold (frame_index s addr). set (i := frame_index s addr).
  assert (0 ≤ i) by (apply Z.div_pos; unfold PAGE_SIZE; lia).
  assert (Hrange : i < m_total_frames s ↔
            addr < m_memory_start s + m_total_frames s * PAGE_SIZE).
  { unfold i, frame_index. split; intros.
    - assert ((addr - m_memory_start s) < m_total_frames s * PAGE_SIZE); [|lia].
      pose proof (Z.mul_succ_div_gt (addr - m_memory_start s) PAGE_SIZE). unfold PAGE_SIZE in *. lia.
    - apply Z.div_lt_upper_bound; unfold PAGE_SIZE in *; lia. }
  destruct (Z.leb_spec (m_total_frames s) i); [right; split; [lia|done]|].
  rewrite (get_word s Hs) by lia. simpl. rewrite land_bit_mask.
  change (Z.testbit _ _) with (used s i). destruct (used s i) eqn:Hu; simpl.
  - left. split_and!; [lia|lia|done|]. rewrite (set_word s Hs) by lia. simpl.
    eexists. split; [done|]. apply releases_clear_word; auto with lia.
  - right. split; [|done]. intros [_ ?]. congruence.
Qed.

(** [free_frame] releases the frame that contains the given address when
    the address lies in the managed range and the frame is taken, and is a
    no-op on every other address, so a double free is harmless. *)
Theorem free_frame_spec s addr :
  pmm_wf s →
  (owns_addr s addr ∧ used s (frame_index s addr) = true ∧
     exists s', free_frame s addr = Ok s' ∧ releases s (frame_index s addr) s') ∨
  (¬ (owns_addr s addr ∧ used s (frame_index s addr) = true) ∧ free_frame s addr = Ok s).
Proof. exact (free_frame_ok s addr). Qed.

Lemma free_frame_wf s addr s' :
  pmm_wf s → free_frame s addr = Ok s' → pmm_wf s' ∧ same_layout s s'.
Proof.
  intros Hwf E. destruct (free_frame_ok s addr Hwf) as [(_ & _ & s1 & E' & Hr)|[_ E']];
    rewrite E' in E; simplify_eq; [|done]. split; apply Hr.
Qed.

Lemma frame_index_addr s i : frame_index s (frame_addr s i) = i.
Proof.
  unfold frame_index, frame_addr, PAGE_SIZE.
  replace (m_memory_start s + i * 4096 - m_memory_start s) with (i * 4096) by lia.
  apply Z.div_mul. lia.
Qed.

Lemma frame_addr_inj s i j : frame_addr s i = frame_addr s j → i = j.
Proof. unfold frame_addr, PAGE_SIZE. lia. Qed.

Lemma count_free_pos f n j :
  0 ≤ j < Z.of_nat n → f j = false → 1 ≤ count_free f n.
Proof.
  intros Hj Hf. induction n as [|n IH]; simpl; [lia|].
  pose proof (count_free_bound f n).
  destruct (decide (j = Z.of_nat n)) as [->|]; [rewrite Hf; lia|].
  specialize (IH ltac:(lia)). destruct (f (Z.of_nat n)); lia.
Qed.

(** Two managers with the same frames taken are the same manager. *)
Lemma pmm_ext s1 s2 :
  pmm_shape s1 → pmm_shape s2 → same_layout s1 s2 →
  m_free_frames s1 = m_free_frames s2 →
  (∀ j, 0 ≤ j → used s1 j = used s2 j) → s1 = s2.
Proof.
  intros [Hl1 Hw1 _ _ _] [Hl2 Hw2 _ _ _] [Ht Hm] Hf Hu.
  destruct s1 as [b1 t1 f1 m1], s2 as [b2 t2 f2 m2]; simpl in *. subst. f_equal.
  apply (list_eq_same_length _ _ (length b1)); [congruence|done|].
  intros k x y Hk Hx Hy.
  pose proof (Forall_lookup_1 _ _ _ _ Hw1 Hx) as [? Bx]%is_u32_bits.
  pose proof (Forall_lookup_1 _ _ _ _ Hw2 Hy) as [? By]%is_u32_bits.
  apply Z.bits_inj'. intros b Hb.
  destruct (decide (b < 32)); [|by rewrite Bx, By by lia].
  specialize (Hu (Z.of_nat k * 32 + b) ltac:(lia)). unfold used in Hu. simpl in Hu.
  rewrite Z.div_add_l, Z.div_small, Z.add_0_r in Hu by lia.
  rewrite Z.add_comm, Z.mod_add, Z.mod_small in Hu by lia.
  by rewrite (nthz_lookup b1 k x), (nthz_lookup b2 k y) in Hu.
Qed.

(** Round trip: freeing the frame that [allocate_frame] returned restores
    the manager's state exactly, bitmap and counter. *)
Theorem allocate_free_frame s a s' :
  pmm_wf s → a ≠ 0 → allocate_frame s = Ok (a, s') → free_frame s' a = Ok s.
Proof.
  intros Hwf Ha E. pose proof (wf_shape s Hwf) as Hs.
  unfold allocate_frame in E. case_bool; [simplify_eq|].
  destruct (allocate_from_spec (Z.to_nat (m_total_frames s)) 0 s)
    as [(i & s1 & Hi & _ & Ht & E')|[_ E']];
    [done|lia|pose proof (sh_total s Hs); lia| |rewrite E' in E; simplify_eq].
  assert (s1 = s') as -> by congruence. assert (a = frame_addr s i) as -> by congruence.
  clear E. destruct Ht as [Hr Hu Hu' [Htot Hst] Hfree Hwf'].
  destruct (free_frame_ok s' (frame_addr s i) Hwf')
    as [(Ho & Hu1 & s2 & E2 & Hrel)|[Hno _]].
  - rewrite E2. f_equal. destruct Hrel as [_ _ Hu2 [Htot2 Hst2] Hfree2 Hwf2].
    assert (Hix : frame_index s' (frame_addr s i) = i).
    { unfold frame_index. rewrite Hst. apply frame_index_addr. }
    rewrite Hix in *. apply pmm_ext; [apply Hwf2|done|split; congruence|lia|].
    intros j Hj. rewrite Hu2, Hu' by done.
    destruct (Z.eqb_spec j i) as [->|]; simpl; [by rewrite andb_false_r, Hu|].
    by rewrite orb_false_r, andb_true_r.
  - exfalso. apply Hno. unfold frame_index. rewrite Hst. fold (frame_index s (frame_addr s i)).
    rewrite frame_index_addr, Hu', Z.eqb_refl, orb_true_r by lia. split; [|done].
    unfold owns_addr, frame_addr, PAGE_SIZE in *. rewrite Hst, Htot. lia.
Qed.

(** ** Sequences of operations *)

Inductive pmm_step : PhysicalMemoryManager → PhysicalMemoryManager → Prop :=
| step_alloc s a s' : allocate_frame s = Ok (a, s') → pmm_step s s'
| step_free s a s' : free_frame s a = Ok s' → pmm_step s s'.

(** [n] calls of [allocate_frame]; the list holds the non-null results. *)
Fixpoint allocate_many (n : nat) (s : PhysicalMemoryManager)
    : outcome (list Z * PhysicalMemoryManager) :=
  match n with
  | O => Ok ([], s)
  | S n' =>
      '(a, s) ← allocate_frame s;
      '(l, s) ← allocate_many n' s;
      Ok ((if a =? 0 then [] else [a]) ++ l, s)
  end.

Lemma pmm_step_wf s s' : pmm_step s s' → pmm_wf s → pmm_wf s' ∧ same_layout s s'.
Proof.
  intros [? ? ? E|? ? ? E] Hwf; [by eapply allocate_frame_wf|by eapply free_frame_wf].
Qed.

(** [C24] The invariant, and so the exactness of the free-frame counter, holds
    in every state reachable by allocations and frees, in any order. *)
Theorem pmm_reachable_wf s s' :
  rtc pmm_step s s' → pmm_wf s →
  pmm_wf s' ∧ same_layout s s' ∧
  get_free_frames s' = count_free (used s') (Z.to_nat (get_total_frames s')).
Proof.
  induction 1 as [s|s s1 s' Hstep _ IH]; intros Hwf.
  - split_and!; [done|done|apply Hwf].
  - destruct (pmm_step_wf _ _ Hstep Hwf) as [Hwf1 [? ?]].
    destruct (IH Hwf1) as (? & [? ?] & ?). split_and!; [done| |done].
    split; congruence.
Qed.

Lemma allocate_many_spec n s l s' :
  pmm_wf s → allocate_many n s = Ok (l, s') →
  pmm_wf s' ∧ same_layout s s' ∧
  (∀ j, 0 ≤ j → used s j = true → used s' j = true) ∧
  (∀ a, a ∈ l → exists i, a = frame_addr s i ∧ 0 ≤ i < m_total_frames s ∧
      used s i = false ∧ used s' i = true) ∧
  NoDup l.
Proof.
  revert s l s'. induction n as [|n IH]; simpl; intros s l s' Hwf E.
  { simplify_eq. split_and!; [done|done|done|set_solver|constructor]. }
  apply bind_Ok_inv in E as ([a s1] & E1 & E). apply bind_Ok_inv in E as ([l1 s2] & E2 & E).
  simplify_eq. pose proof (allocate_frame_wf _ _ _ Hwf E1) as [Hwf1 [Ht1 Hm1]].
  destruct (IH s1 l1 s' Hwf1 E2) as (Hwf2 & [Ht2 Hm2] & Hmono & Hall & Hnd).
  destruct (allocate_frame_cases _ _ _ Hwf E1) as [[-> ->]|(Ha & i & -> & Hti)].
  { simpl. split_and!; done. }
  destruct Hti as [Hi Hf Hu [Ht Hm] _ _]. rewrite (proj2 (Z.eqb_neq _ 0)) by done. simpl.
  assert (Hfa : ∀ k, frame_addr s1 k = frame_addr s k).
  { intros. unfold frame_addr. by rewrite Hm1. }
  split_and!; [done|split; congruence|..].
  - intros j Hj Hj'. apply Hmono; [done|]. by rewrite Hu, Hj' by done.
  - intros a [->|Hin]%elem_of_cons.
    + exists i. split_and!; [done|lia|lia|done|]. apply Hmono; [lia|].
      by rewrite Hu, Z.eqb_refl, orb_true_r by lia.
    + destruct (Hall a Hin) as (k & -> & Hk & Huk & Huk'). exists k.
      rewrite Hfa. split_and!; [done|lia|lia| |done].
      rewrite Hu in Huk by lia. by apply orb_false_iff in Huk as [? _].
  - constructor; [|done]. intros Hin. destruct (Hall _ Hin) as (k & Hk & Hk' & Huk & _).
    rewrite Hfa in Hk. apply frame_addr_inj in Hk as <-.
    by rewrite Hu, Z.eqb_refl, orb_true_r in Huk by lia.
Qed.

(** Frames handed out by any sequence of allocations are pairwise
    distinct, were free before it and lie in the managed memory: no two
    callers are given the same page. *)
Theorem allocate_many_distinct n s l s' :
  pmm_wf s → allocate_many n s = Ok (l, s') →
  NoDup l ∧ ∀ a, a ∈ l → owns_addr s a ∧ used s (frame_index s a) = false.
Proof.
  intros Hwf E. destruct (allocate_many_spec _ _ _ _ Hwf E) as (_ & _ & _ & Hall & Hnd).
  split; [done|]. intros a Ha. destruct (Hall a Ha) as (i & -> & Hi & Hu & _).
  rewrite frame_index_addr. split; [|done].
  unfold owns_addr, frame_addr, PAGE_SIZE. lia.
Qed.

(** ** Initialisation *)

Lemma mark_range_spec n i s :
  pmm_wf s → 0 ≤ i → i + Z.of_nat n ≤ m_total_frames s →
  (∀ j, i ≤ j < i + Z.of_nat n → used s j = false) →
  exists s', mark_range n i s = Ok s' ∧ pmm_wf s' ∧ same_layout s s' ∧
    m_free_frames s' = m_free_frames s - Z.of_nat n ∧
    ∀ j, 0 ≤ j → used s' j = (used s j || ((i <=? j) && (j <? i + Z.of_nat n))).
Proof.
  revert i s. induction n as [|n IH]; intros i s Hwf Hi Hn Hu; simpl.
  { exists s. split_and!; [done|done|done|lia|].
    intros j ?. lia. }
  pose proof (wf_shape s Hwf) as Hs.
  rewrite (get_word s Hs), bind_Ok, (set_word s Hs), bind_Ok by lia.
  pose proof (takes_set_word s i Hwf ltac:(lia) (Hu i ltac:(lia))) as Ht.
  unfold set_used_word in Ht. set (s1 := set_bitmap _ _ _) in *.
  destruct Ht as [_ _ Hu1 [Ht1 Hm1] Hf1 Hwf1].
  destruct (IH (i + 1) s1) as (s' & E & Hwf' & [Ht' Hm'] & Hf' & Hu'); [done|lia|lia|..].
  { intros j ?. rewrite Hu1, (Hu j) by lia. apply Z.eqb_neq. lia. }
  exists s'. split_and!; [done|done|split; congruence|lia|].
  intros j ?. rewrite Hu', Hu1 by done. rewrite <- orb_assoc. f_equal.
  lia.
Qed.

Lemma cleared_wf bm total start :
  length bm = BITMAP_WORDS → Forall is_u32 bm → 0 ≤ total ≤ 16384 * 32 →
  0 < start → start + total * PAGE_SIZE ≤ 2 ^ 64 →
  exists bm', memset_bitmap bm ((total + 31) / 32) = Ok bm' ∧
    pmm_wf (Pmm bm' total total start) ∧
    ∀ j, 0 ≤ j < total → used (Pmm bm' total total start) j = false.
Proof.
  intros Hl Hw Ht Hm He. set (n := Z.to_nat ((total + 31) / 32)).
  pose proof (Z.div_pos (total + 31) 32 ltac:(lia) ltac:(lia)).
  assert ((total + 31) / 32 < 16385) by (apply Z.div_lt_upper_bound; lia).
  exists (replicate n 0 ++ drop n bm).
  assert (Hu : ∀ j, 0 ≤ j < total →
    used (Pmm (replicate n 0 ++ drop n bm) total total start) j = false).
  { intros j ?. unfold used, nthz. simpl. pose proof (Z.div_pos j 32).
    rewrite (proj2 (Z.leb_le 0 (j / 32))) by lia. rewrite lookup_app_l.
    - rewrite lookup_replicate_2; [apply Z.bits_0|].
      assert (j / 32 < (total + 31) / 32); [|lia].
      apply Z.div_lt_upper_bound; [lia|].
      pose proof (Z.mul_succ_div_gt (total + 31) 32 ltac:(lia)). lia.
    - rewrite length_replicate. unfold n.
      assert (j / 32 < (total + 31) / 32); [|lia].
      apply Z.div_lt_upper_bound; [lia|].
      pose proof (Z.mul_succ_div_gt (total + 31) 32 ltac:(lia)). lia. }
  split_and!; [|constructor; [constructor|]|done]; simpl.
  - unfold memset_bitmap. rewrite (proj2 (Z.leb_le _ _)); [done|].
    rewrite Hl. unfold BITMAP_WORDS. lia.
  - rewrite length_app, length_replicate, length_drop, Hl. unfold n, BITMAP_WORDS in *. lia.
  - apply Forall_app. split; [apply Forall_replicate; unfold is_u32; lia|by apply Forall_drop].
  - done.
  - done.
  - done.
  - symmetry. transitivity (count_free (λ _, false) (Z.to_nat total)).
    + apply count_free_ext. intros j ?. apply Hu. lia.
    + clear -Ht. rewrite <- (Z2Nat.id total) at 2 by lia. induction (Z.to_nat total); simpl; lia.
Qed.

(** The frames [initialize] reserves: the first megabyte of the managed
    memory, the page-table frames after it, and the last 16 MB, the heap. *)
Definition reserved (total j : Z) : bool :=
  (j <? first_mb_frames + page_table_frames) || ((total - heap_frames <=? j) && (j <? total)).

Lemma pmm_initialize_ok s memory_start memory_size :
  length (m_bitmap s) = BITMAP_WORDS → Forall is_u32 (m_bitmap s) →
  0 < memory_start → memory_start + memory_size ≤ 2 ^ 64 →
  0x100000 + 5 * PAGE_SIZE + 16 * 1024 * 1024 ≤ memory_size ≤ 2 ^ 31 →
  exists s', pmm_initialize s memory_start memory_size = Ok s' ∧ pmm_wf s' ∧
    m_memory_start s' = memory_start ∧ m_total_frames s' = memory_size / PAGE_SIZE ∧
    m_free_frames s' = memory_size / PAGE_SIZE - 4357 ∧
    ∀ j, 0 ≤ j < m_total_frames s' → used s' j = reserved (m_total_frames s') j.
Proof.
  intros Hl Hw Hm He Hsize. unfold pmm_initialize, reserved.
  set (total := memory_size / PAGE_SIZE).
  assert (Htot : 4357 ≤ total ≤ 16384 * 32).
  { unfold total, PAGE_SIZE in *. split; [apply Z.div_le_lower_bound|apply Z.div_le_upper_bound]; lia. }
  assert (Hh : heap_start_frame memory_size = total - 4096).
  { unfold heap_start_frame, total, PAGE_SIZE in *. rewrite u64_small by lia.
    replace (memory_size - 16 * 1024 * 1024) with (memory_size + (-4096) * 4096) by lia.
    rewrite Z.div_add by lia. lia. }
  assert (Hmul : total * PAGE_SIZE ≤ memory_size).
  { unfold total, PAGE_SIZE. pose proof (Z.mul_div_le memory_size 4096). lia. }
  destruct (cleared_wf (m_bitmap s) total memory_start) as (bm & -> & Hwf0 & Hu0);
    [done|done|lia|done|lia|]. rewrite bind_Ok. set (s0 := Pmm bm total total memory_start) in *.
  rewrite Hh. change (Z.to_nat first_mb_frames) with 256%nat.
  change (Z.to_nat heap_frames) with (Z.to_nat 4096).
  change (Z.to_nat page_table_frames) with 5%nat.
  change heap_frames with 4096. change (first_mb_frames + page_table_frames) with 261.
  change first_mb_frames with 256.
  destruct (mark_range_spec 256 0 s0) as (s1 & -> & Hwf1 & [Ht1 Hm1] & Hf1 & Hu1);
    [done|lia|change (m_total_frames s0) with total; lia|intros; apply Hu0; lia|].
  change (m_total_frames s0) with total in *. change (m_free_frames s0) with total in *.
  rewrite bind_Ok.
  destruct (mark_range_spec (Z.to_nat 4096) (total - 4096) s1)
    as (s2 & -> & Hwf2 & [Ht2 Hm2] & Hf2 & Hu2); [done|lia|lia|..].
  { intros j ?. rewrite Hu1, Hu0 by lia. lia. }
  rewrite bind_Ok.
  destruct (mark_range_spec 5 256 s2) as (s3 & -> & Hwf3 & [Ht3 Hm3] & Hf3 & Hu3);
    [done|lia|lia|..].
  { intros j ?. rewrite Hu2, Hu1, Hu0 by lia.
    lia. }
  exists s3. rewrite Ht3, Ht2, Ht1. split_and!; [done|done|by rewrite Hm3, Hm2, Hm1|done|lia|].
  intros j ?. rewrite Hu3, Hu2, Hu1, Hu0 by lia.
  lia.
Qed.

(** [initialize] establishes the invariant for every memory that holds
    the reserved regions and fits the bitmap: exactly the first megabyte, five
    page-table frames and the 16 MB heap at the end are taken, and the counter
    is the number of frames left. *)
Theorem pmm_initialize_wf s memory_start memory_size :
  length (m_bitmap s) = BITMAP_WORDS → Forall is_u32 (m_bitmap s) →
  0 < memory_start → memory_start + memory_size ≤ 2 ^ 64 →
  0x100000 + 5 * PAGE_SIZE + 16 * 1024 * 1024 ≤ memory_size ≤ 2 ^ 31 →
  exists s', pmm_initialize s memory_start memory_size = Ok s' ∧ pmm_wf s' ∧
    get_free_frames s' = memory_size / PAGE_SIZE - 4357 ∧
    ∀ j, 0 ≤ j < get_total_frames s' → used s' j = reserved (get_total_frames s') j.
Proof.
  intros. destruct (pmm_initialize_ok s memory_start memory_size)
    as (s' & ? & ? & _ & ? & ? & ?); [done..|].
  exists s'. auto.
Qed.

(** ** Concrete states *)

(** The manager as kernel.cpp boots it: 64 MB from the first megabyte. *)
Definition MEMORY_START : Z := 0x100000.
Definition MEMORY_SIZE : Z := 64 * 1024 * 1024.

Lemma unset_bitmap : length (m_bitmap pmm_unset) = BITMAP_WORDS ∧ Forall is_u32 (m_bitmap pmm_unset).
Proof.
  split; [apply length_replicate|]. apply Forall_replicate. unfold is_u32. lia.
Qed.

(** A manager of [n] free frames, for evaluation: none is reserved. *)
Definition pmm_all_free (n : Z) : PhysicalMemoryManager := Pmm (m_bitmap pmm_unset) n n MEMORY_START.
Definition pmm_small : PhysicalMemoryManager := pmm_all_free 64.

Lemma nthz_replicate_0 n i : nthz (replicate n 0) i = 0.
Proof.
  unfold nthz. case_bool; [|done]. destruct (replicate n 0 !! Z.to_nat i) eqn:E; [|done].
  by apply lookup_replicate in E as [-> _].
Qed.

Lemma pmm_all_free_unused n j : used (pmm_all_free n) j = false.
Proof.
  unfold used. change (m_bitmap (pmm_all_free n)) with (replicate BITMAP_WORDS 0).
  rewrite nthz_replicate_0. apply Z.bits_0.
Qed.

Lemma count_free_none n : count_free (λ _, false) n = Z.of_nat n.
Proof. induction n as [|n IH]; [done|]. cbn [count_free]. lia. Qed.

Lemma pmm_all_free_wf n : 0 ≤ n ≤ 16384 * 32 → pmm_wf (pmm_all_free n).
Proof.
  intros Hn. constructor; [constructor|].
  - exact (proj1 unset_bitmap).
  - exact (proj2 unset_bitmap).
  - done.
  - done.
  - change (m_memory_start (pmm_all_free n)) with 0x100000. change (m_total_frames (pmm_all_free n)) with n.
    unfold PAGE_SIZE. lia.
  - rewrite (count_free_ext _ (λ _, false)) by (intros; apply pmm_all_free_unused).
    rewrite count_free_none. change (m_total_frames (pmm_all_free n)) with n.
    change (m_free_frames (pmm_all_free n)) with n. lia.
Qed.

Lemma pmm_small_unused j : used pmm_small j = false.
Proof. apply pmm_all_free_unused. Qed.

Lemma pmm_small_wf : pmm_wf pmm_small.
Proof. apply pmm_all_free_wf. lia. Qed.

Lemma allocate_many_ok n s : pmm_wf s → exists l s', allocate_many n s = Ok (l, s').
Proof.
  revert s. induction n as [|n IH]; intros s Hwf; simpl; [eauto|].
  destruct (allocate_frame_ok s Hwf) as [(i & s1 & _ & Ht & E)|[_ E]]; rewrite E, bind_Ok.
  - destruct (IH s1 (tk_wf _ _ _ Ht)) as (l & s' & E'). rewrite E'. simpl. eauto.
  - destruct (IH s Hwf) as (l & s' & E'). rewrite E'. simpl. eauto.
Qed.

Lemma allocate_frame_spec_witness :
  pmm_wf pmm_small ∧
  ((exists i s', (∀ j, 0 ≤ j < i → used pmm_small j = true) ∧ takes pmm_small i s' ∧
     allocate_frame pmm_small = Ok (frame_addr pmm_small i, s')) ∨
   ((∀ j, 0 ≤ j < m_total_frames pmm_small → used pmm_small j = true) ∧
     allocate_frame pmm_small = Ok (0, pmm_small))).
Proof. exact (conj pmm_small_wf (allocate_frame_spec pmm_small pmm_small_wf)). Defined.

(** The first frame handed out, and the manager after it. *)
Definition pmm_small1 : PhysicalMemoryManager :=
  (ok_or (0, pmm_unset) (allocate_frame pmm_small)).2.

Lemma pmm_small_alloc :
  allocate_frame pmm_small = Ok (MEMORY_START, pmm_small1) ∧ pmm_wf pmm_small1.
Proof.
  destruct (allocate_frame_ok pmm_small pmm_small_wf) as [(i & s' & Hb & Ht & E)|[Hall _]].
  - destruct (decide (i = 0)) as [->|].
    + unfold pmm_small1. rewrite E. split; [done|apply Ht].
    + pose proof (tk_range _ _ _ Ht). specialize (Hb 0 ltac:(lia)).
      by rewrite pmm_small_unused in Hb.
  - specialize (Hall 0). change (m_total_frames pmm_small) with 64 in Hall.
    specialize (Hall ltac:(lia)). by rewrite pmm_small_unused in Hall.
Qed.

Lemma free_frame_spec_witness :
  pmm_wf pmm_small1 ∧
  ((owns_addr pmm_small1 MEMORY_START ∧ used pmm_small1 (frame_index pmm_small1 MEMORY_START) = true ∧
     exists s', free_frame pmm_small1 MEMORY_START = Ok s' ∧
       releases pmm_small1 (frame_index pmm_small1 MEMORY_START) s') ∨
   (¬ (owns_addr pmm_small1 MEMORY_START ∧
       used pmm_small1 (frame_index pmm_small1 MEMORY_START) = true) ∧
     free_frame pmm_small1 MEMORY_START = Ok pmm_small1)).
Proof.
  exact (conj (proj2 pmm_small_alloc)
    (free_frame_spec pmm_small1 MEMORY_START (proj2 pmm_small_alloc))).
Defined.

Lemma allocate_free_frame_witness :
  pmm_wf pmm_small ∧ MEMORY_START ≠ 0 ∧
  allocate_frame pmm_small = Ok (MEMORY_START, pmm_small1) ∧
  free_frame pmm_small1 MEMORY_START = Ok pmm_small.
Proof.
  assert (Ha : MEMORY_START ≠ 0) by (unfold MEMORY_START; lia).
  pose proof (proj1 pmm_small_alloc) as E.
  exact (conj pmm_small_wf (conj Ha (conj E
    (allocate_free_frame pmm_small MEMORY_START pmm_small1 pmm_small_wf Ha E)))).
Defined.

Lemma pmm_reachable_wf_witness :
  rtc pmm_step pmm_small pmm_small1 ∧ pmm_wf pmm_small ∧
  (pmm_wf pmm_small1 ∧ same_layout pmm_small pmm_small1 ∧
   get_free_frames pmm_small1 =
     count_free (used pmm_small1) (Z.to_nat (get_total_frames pmm_small1))).
Proof.
  assert (rtc pmm_step pmm_small pmm_small1) as Hr.
  { apply rtc_once. exact (step_alloc _ _ _ (proj1 pmm_small_alloc)). }
  exact (conj Hr (conj pmm_small_wf (pmm_reachable_wf pmm_small pmm_small1 Hr pmm_small_wf))).
Defined.

Lemma allocate_many_distinct_witness :
  exists l s', pmm_wf pmm_small ∧ allocate_many 3 pmm_small = Ok (l, s') ∧
    NoDup l ∧ ∀ a, a ∈ l → owns_addr pmm_small a ∧ used pmm_small (frame_index pmm_small a) = false.
Proof.
  destruct (allocate_many_ok 3 pmm_small pmm_small_wf) as (l & s' & E). exists l, s'.
  exact (conj pmm_small_wf (conj E (allocate_many_distinct 3 pmm_small l s' pmm_small_wf E))).
Defined.

Lemma pmm_initialize_wf_witness :
  exists s', pmm_initialize pmm_unset MEMORY_START MEMORY_SIZE = Ok s' ∧ pmm_wf s' ∧
    get_free_frames s' = 12027 ∧
    ∀ j, 0 ≤ j < get_total_frames s' → used s' j = reserved (get_total_frames s') j.
Proof.
  destruct (pmm_initialize_wf pmm_unset MEMORY_START MEMORY_SIZE) as (s' & E & Hwf & Hf & Hu);
    [exact (proj1 unset_bitmap)|exact (proj2 unset_bitmap)|
     unfold MEMORY_START, MEMORY_SIZE, PAGE_SIZE; lia..|].
  exists s'. split; [exact E|]. split; [exact Hwf|]. split; [exact Hf|exact Hu].
Defined.
