(* ===== verification/Vmm.v ===== *)
(** * The virtual memory manager (src/kernel/src/memory/virtual_memory.{hpp,cpp})

    Four-level page tables held in physical frames.  Memory is the function
    [v_mem] from the physical address of a page-table entry to its 64-bit
    value (the tables are reached through the identity map, as in the code);
    its initial contents are arbitrary.  The abstract view of a state is a map
    [tab] from paths (the list of indices walked from the root) to table
    addresses; [ent vm tab p i] is entry [i] of the table at path [p]. *)

From S2P Require Import Prelude Pmm.

(** ** Page table entries *)

(** [value & (1ULL << n)] read as a bool, and the setters' pattern. *)
Definition flag (n value : Z) : bool := negb (Z.land value (Z.shiftl 1 n) =? 0).
Definition set_flag (n value : Z) (x : bool) : Z :=
  Z.lor (Z.land value (u64 (Z.lnot (Z.shiftl 1 n)))) (if x then Z.shiftl 1 n else 0).

Definition present (v : Z) : bool := flag 0 v.
Definition writable (v : Z) : bool := flag 1 v.
Definition user (v : Z) : bool := flag 2 v.
Definition huge_page (v : Z) : bool := flag 7 v.
Definition set_present (v : Z) (x : bool) : Z := set_flag 0 v x.
Definition set_writable (v : Z) (x : bool) : Z := set_flag 1 v x.
Definition set_user (v : Z) (x : bool) : Z := set_flag 2 v x.
Definition set_pwt (v : Z) (x : bool) : Z := set_flag 3 v x.
Definition set_pcd (v : Z) (x : bool) : Z := set_flag 4 v x.
Definition set_accessed (v : Z) (x : bool) : Z := set_flag 5 v x.
Definition set_huge_page (v : Z) (x : bool) : Z := set_flag 7 v x.

Definition address (v : Z) : Z :=
  if huge_page v then Z.land v 0xFFFFFFFE00000 else Z.land v 0xFFFFFFFFF000.

Definition set_address (v addr : Z) : Z :=
  if huge_page v
  then Z.lor (Z.land v 0x1FFFFF) (Z.land addr (u64 (Z.lnot 0x1FFFFF)))
  else Z.lor (Z.land v 0xFFF) (Z.land addr (u64 (Z.lnot 0xFFF))).

(** ** State and operations *)

Record VirtualMemoryManager := Vmm {
  v_pmm : PhysicalMemoryManager;
  v_mem : Z → Z;
  m_pml4 : Z
}.

Definition ENTRIES_PER_TABLE : Z := 512.
Definition PAGE_MASK : Z := 0xFFFFFFFFFFFFF000.

Definition pml4_index (va : Z) : Z := Z.land (Z.shiftr va 39) 0x1FF.
Definition pdpt_index (va : Z) : Z := Z.land (Z.shiftr va 30) 0x1FF.
Definition pd_index (va : Z) : Z := Z.land (Z.shiftr va 21) 0x1FF.
Definition pt_index (va : Z) : Z := Z.land (Z.shiftr va 12) 0x1FF.

Definition set_pmm (vm : VirtualMemoryManager) (s : PhysicalMemoryManager) :=
  Vmm s (v_mem vm) (m_pml4 vm).
Definition set_mem (vm : VirtualMemoryManager) (m : Z → Z) := Vmm (v_pmm vm) m (m_pml4 vm).

Definition upd (m : Z → Z) (a v : Z) : Z → Z := λ x, if x =? a then v else m x.

(** [table[index].value]: through a null table pointer it is undefined. *)
Definition rd_pte (vm : VirtualMemoryManager) (table index : Z) : outcome Z :=
  if table =? 0 then UB else Ok (v_mem vm (table + 8 * index)).
Definition wr_pte (vm : VirtualMemoryManager) (table index v : Z) : outcome VirtualMemoryManager :=
  if table =? 0 then UB else Ok (set_mem vm (upd (v_mem vm) (table + 8 * index) v)).

(** The zeroing of a whole table, by [memset] or entry by entry. *)
Definition zero_table (vm : VirtualMemoryManager) (table : Z) : outcome VirtualMemoryManager :=
  if table =? 0 then UB else
  Ok (set_mem vm (λ x, if (table <=? x) && (x <? table + 8 * ENTRIES_PER_TABLE)
                       then 0 else v_mem vm x)).

Definition create_page_table (vm : VirtualMemoryManager) : outcome (Z * VirtualMemoryManager) :=
  '(table, s) ← allocate_frame (v_pmm vm);
  vm ← zero_table (set_pmm vm s) table;
  Ok (table, vm).

(** The value written into a table entry that points to the next level. *)
Definition table_entry (v next : Z) : Z :=
  set_user (set_writable (set_present (set_address v next) true) true) false.

Definition get_next_level (vm : VirtualMemoryManager) (table index : Z) (create : bool)
    : outcome (Z * VirtualMemoryManager) :=
  v ← rd_pte vm table index;
  vm ← (if negb (present v) && create then
          '(next, vm) ← create_page_table vm;
          wr_pte vm table index (table_entry v next)
        else Ok vm);
  v ← rd_pte vm table index;
  if negb (present v) then Ok (0, vm) else Ok (address v, vm).

Definition leaf_entry (v pa : Z) (w : bool) : Z :=
  set_user (set_writable (set_present (set_address v pa) true) w) false.

Definition map_page (vm : VirtualMemoryManager) (virtual_addr physical_addr : Z) (w : bool)
    : outcome VirtualMemoryManager :=
  let va := Z.land virtual_addr PAGE_MASK in
  let pa := Z.land physical_addr PAGE_MASK in
  '(pdpt, vm) ← get_next_level vm (m_pml4 vm) (pml4_index va) true;
  if pdpt =? 0 then Ok vm else
  '(pd, vm) ← get_next_level vm pdpt (pdpt_index va) true;
  if pd =? 0 then Ok vm else
  '(pt, vm) ← get_next_level vm pd (pd_index va) true;
  if pt =? 0 then Ok vm else
  v ← rd_pte vm pt (pt_index va);
  if negb (present v) then wr_pte vm pt (pt_index va) (leaf_entry v pa w) else Ok vm.

Definition unmap_page (vm : VirtualMemoryManager) (virtual_addr : Z) : outcome VirtualMemoryManager :=
  let va := Z.land virtual_addr PAGE_MASK in
  '(pdpt, vm) ← get_next_level vm (m_pml4 vm) (pml4_index va) false;
  if pdpt =? 0 then Ok vm else
  '(pd, vm) ← get_next_level vm pdpt (pdpt_index va) false;
  if pd =? 0 then Ok vm else
  '(pt, vm) ← get_next_level vm pd (pd_index va) false;
  if pt =? 0 then Ok vm else
  wr_pte vm pt (pt_index va) 0.

Definition get_physical_address (vm : VirtualMemoryManager) (virtual_addr : Z) : outcome Z :=
  let va := Z.land virtual_addr PAGE_MASK in
  '(pdpt, vm) ← get_next_level vm (m_pml4 vm) (pml4_index va) false;
  if pdpt =? 0 then Ok 0 else
  '(pd, vm) ← get_next_level vm pdpt (pdpt_index va) false;
  if pd =? 0 then Ok 0 else
  '(pt, vm) ← get_next_level vm pd (pd_index va) false;
  if pt =? 0 then Ok 0 else
  v ← rd_pte vm pt (pt_index va);
  if negb (present v) then Ok 0 else
  Ok (Z.lor (Z.land (address v) PAGE_MASK) (Z.land va (u64 (Z.lnot PAGE_MASK)))).

(** The loop that maps the first 16 MB with eight 2 MB entries. *)
Fixpoint map_huge (n : nat) (i : Z) (vm : VirtualMemoryManager) (pd : Z)
    : outcome VirtualMemoryManager :=
  match n with
  | O => Ok vm
  | S n' =>
      let v := set_huge_page 0 true in
      let v := set_address v (i * 0x200000) in
      let v := set_user (set_writable (set_present v true) true) false in
      vm ← wr_pte vm pd i v;
      map_huge n' (i + 1) vm pd
  end.

Definition pdpt_entry (pd : Z) : Z :=
  let v := set_user (set_writable (set_present 0 true) true) false in
  set_address (set_accessed (set_pcd (set_pwt v false) false) false) pd.

(** [initialize], without its VGA debug output. *)
Definition vmm_initialize (vm : VirtualMemoryManager) : outcome VirtualMemoryManager :=
  '(pml4, s) ← allocate_frame (v_pmm vm);
  let vm := Vmm s (v_mem vm) pml4 in
  if pml4 =? 0 then Ok vm else
  vm ← zero_table vm pml4;
  '(pdpt, vm) ← create_page_table vm;
  if pdpt =? 0 then Ok vm else
  vm ← wr_pte vm pml4 0 (table_entry 0 pdpt);
  '(pd, vm) ← create_page_table vm;
  if pd =? 0 then Ok vm else
  vm ← wr_pte vm pdpt 0 (pdpt_entry pd);
  vm ← map_huge 8 0 vm pd;
  '(kernel_pdpt, vm) ← create_page_table vm;
  if kernel_pdpt =? 0 then Ok vm else
  v ← rd_pte vm pml4 511;
  vm ← wr_pte vm pml4 511 (table_entry v kernel_pdpt);
  map_page vm 0xB8000 0xB8000 true.

(** ** Bits of an entry *)

Lemma flag_testbit n v : 0 ≤ n → flag n v = Z.testbit v n.
Proof.
  intros. unfold flag. rewrite Z.shiftl_1_l.
  destruct (Z.testbit v n) eqn:E.
  - apply negb_true_iff, Z.eqb_neq. intros H0.
    pose proof (f_equal (λ x, Z.testbit x n) H0) as Hb. cbv beta in Hb.
    by rewrite Z.land_spec, E, Z.pow2_bits_true, Z.bits_0 in Hb by lia.
  - apply negb_false_iff, Z.eqb_eq, Z.bits_inj'. intros b ?.
    rewrite Z.land_spec, Z.pow2_bits_eqb, Z.bits_0 by lia.
    destruct (Z.eqb_spec n b) as [<-|]; [by rewrite E|apply andb_false_r].
Qed.

Lemma lnot_u64_testbit x b : 0 ≤ b → Z.testbit (u64 (Z.lnot x)) b = (b <? 64) && negb (Z.testbit x b).
Proof.
  intros. unfold u64. destruct (Z.ltb_spec b 64).
  - by rewrite Z.mod_pow2_bits_low, Z.lnot_spec by lia.
  - by rewrite Z.mod_pow2_bits_high by lia.
Qed.

Lemma set_flag_testbit n v x b :
  0 ≤ n < 64 → 0 ≤ b →
  Z.testbit (set_flag n v x) b = if b =? n then x else (b <? 64) && Z.testbit v b.
Proof.
  intros. unfold set_flag. rewrite Z.lor_spec, Z.land_spec, lnot_u64_testbit, !Z.shiftl_1_l by lia.
  rewrite Z.pow2_bits_eqb by lia.
  assert (Hx : Z.testbit (if x then 2 ^ n else 0) b = (x && (n =? b))).
  { destruct x; [by rewrite Z.pow2_bits_eqb by lia|apply Z.bits_0]. }
  rewrite Hx, (Z.eqb_sym n b). destruct (Z.eqb_spec b n), (Z.ltb_spec b 64);
    destruct x, (Z.testbit v b); done || lia.
Qed.

(** The low 12 bits, as a mask. *)
Lemma ones_testbit n b : 0 ≤ n → 0 ≤ b → Z.testbit (Z.ones n) b = (b <? n).
Proof. intros. destruct (Z.ltb_spec b n); [by apply Z.ones_spec_low|apply Z.ones_spec_high; lia]. Qed.

Lemma range_mask_testbit lo hi b :
  0 ≤ lo ≤ hi → 0 ≤ b →
  Z.testbit (Z.shiftl (Z.ones (hi - lo)) lo) b = (lo <=? b) && (b <? hi).
Proof.
  intros. rewrite Z.shiftl_spec by lia. destruct (Z.leb_spec lo b).
  - rewrite ones_testbit by lia. lia.
  - rewrite Z.testbit_neg_r by lia. lia.
Qed.

Lemma addr_mask_testbit b : 0 ≤ b → Z.testbit 0xFFFFFFFFF000 b = (12 <=? b) && (b <? 48).
Proof. intros. rewrite <- (range_mask_testbit 12 48) by lia. done. Qed.
Lemma page_mask_testbit b : 0 ≤ b → Z.testbit PAGE_MASK b = (12 <=? b) && (b <? 64).
Proof. intros. rewrite <- (range_mask_testbit 12 64) by lia. done. Qed.
Lemma low12_testbit b : 0 ≤ b → Z.testbit 0xFFF b = (b <? 12).
Proof. intros. rewrite <- (ones_testbit 12) by lia. done. Qed.

Lemma set_address_testbit v addr b :
  huge_page v = false → 0 ≤ b →
  Z.testbit (set_address v addr) b =
  if b <? 12 then Z.testbit v b else (b <? 64) && Z.testbit addr b.
Proof.
  intros Hh Hb. unfold set_address. rewrite Hh.
  rewrite Z.lor_spec, !Z.land_spec, lnot_u64_testbit, low12_testbit by lia.
  destruct (Z.ltb_spec b 12), (Z.ltb_spec b 64), (Z.testbit v b), (Z.testbit addr b); done || lia.
Qed.

Lemma address_testbit v b :
  huge_page v = false → 0 ≤ b →
  Z.testbit (address v) b = (12 <=? b) && (b <? 48) && Z.testbit v b.
Proof.
  intros Hh Hb. unfold address. rewrite Hh, Z.land_spec, addr_mask_testbit by done.
  apply andb_comm.
Qed.

Ltac entry_bits :=
  unfold leaf_entry, table_entry, set_user, set_writable, set_present;
  rewrite ?set_flag_testbit by lia.

(** What the entry written by [map_page] and [get_next_level] says. *)
Section entries.
Context (pa : Z) (w : bool).

Lemma leaf_entry_testbit b :
  0 ≤ b →
  Z.testbit (leaf_entry 0 pa w) b =
  if b =? 2 then false else if b =? 1 then w else if b =? 0 then true
  else (12 <=? b) && (b <? 64) && Z.testbit pa b.
Proof.
  intros. entry_bits. rewrite set_address_testbit by done.
  destruct (Z.eqb_spec b 2), (Z.eqb_spec b 1), (Z.eqb_spec b 0),
    (Z.ltb_spec b 64), (Z.ltb_spec b 12), (Z.leb_spec 12 b);
    rewrite ?Z.bits_0; done || lia.
Qed.

Lemma leaf_entry_present : present (leaf_entry 0 pa w) = true.
Proof. unfold present. by rewrite flag_testbit, leaf_entry_testbit by lia. Qed.
Lemma leaf_entry_writable : writable (leaf_entry 0 pa w) = w.
Proof. unfold writable. by rewrite flag_testbit, leaf_entry_testbit by lia. Qed.
Lemma leaf_entry_user : user (leaf_entry 0 pa w) = false.
Proof. unfold user. by rewrite flag_testbit, leaf_entry_testbit by lia. Qed.
Lemma leaf_entry_not_huge : huge_page (leaf_entry 0 pa w) = false.
Proof. unfold huge_page. by rewrite flag_testbit, leaf_entry_testbit by lia. Qed.

Lemma leaf_entry_address : address (leaf_entry 0 pa w) = Z.land pa 0xFFFFFFFFF000.
Proof.
  apply Z.bits_inj'. intros b ?.
  rewrite address_testbit, leaf_entry_testbit by (done || apply leaf_entry_not_huge).
  rewrite Z.land_spec, addr_mask_testbit by done.
  destruct (Z.eqb_spec b 2), (Z.eqb_spec b 1), (Z.eqb_spec b 0), (Z.leb_spec 12 b),
    (Z.ltb_spec b 48), (Z.ltb_spec b 64), (Z.testbit pa b); done || lia.
Qed.
End entries.

Lemma table_entry_leaf next : table_entry 0 next = leaf_entry 0 next true.
Proof. done. Qed.

(** A page-aligned address below 2^48 survives the address mask. *)
Lemma land_addr_mask a : 0 ≤ a < 2 ^ 48 → a `mod` 4096 = 0 → Z.land a 0xFFFFFFFFF000 = a.
Proof.
  intros Ha Hm. apply Z.bits_inj'. intros b ?. rewrite Z.land_spec, addr_mask_testbit by done.
  destruct (Z.leb_spec 12 b); simpl.
  - destruct (Z.ltb_spec b 48); [apply andb_true_r|]. rewrite andb_false_r. symmetry.
    rewrite <- (Z.mod_small a (2 ^ 48)) by lia. apply Z.mod_pow2_bits_high. lia.
  - rewrite andb_false_r. symmetry. rewrite <- (Z.mod_pow2_bits_low a 12 b) by lia.
    change (2 ^ 12) with 4096. rewrite Hm. apply Z.bits_0.
Qed.

(** ** The page-table tree *)

Section tree.
Implicit Types (vm : VirtualMemoryManager) (tab : gmap (list Z) Z) (p q : list Z).

Definition ent vm tab p (i : Z) : Z :=
  match tab !! p with Some a => v_mem vm (a + 8 * i) | None => 0 end.

Definition index_ok (i : Z) : Prop := 0 ≤ i < ENTRIES_PER_TABLE.

(** A frame that holds a page table: managed, taken. *)
Definition table_frame (s : PhysicalMemoryManager) (a : Z) : Prop :=
  exists k, a = frame_addr s k ∧ 0 ≤ k < m_total_frames s ∧ used s k = true.

(** [points_down v]: a present entry that is not a huge page. *)
Definition points_down (v : Z) : bool := present v && negb (huge_page v).

Record vmm_inv vm tab : Prop := {
  vi_pmm : pmm_wf (v_pmm vm);
  vi_aligned : m_memory_start (v_pmm vm) `mod` 4096 = 0;
  vi_below : m_memory_start (v_pmm vm) + m_total_frames (v_pmm vm) * PAGE_SIZE ≤ 2 ^ 48;
  vi_root : tab !! [] = Some (m_pml4 vm);
  vi_frame p a : tab !! p = Some a → table_frame (v_pmm vm) a ∧ (length p ≤ 3)%nat;
  vi_inj p q a : tab !! p = Some a → tab !! q = Some a → p = q;
  vi_closed p i a : tab !! (p ++ [i]) = Some a → is_Some (tab !! p) ∧ index_ok i;
  vi_child p i : (length p < 3)%nat → index_ok i →
    tab !! (p ++ [i]) = if points_down (ent vm tab p i)
                        then Some (address (ent vm tab p i)) else None;
  vi_absent p i : index_ok i → present (ent vm tab p i) = false → ent vm tab p i = 0;
  vi_leaf p i : length p = 3%nat → index_ok i → huge_page (ent vm tab p i) = false
}.

(** The path of tables an address is translated through, and the final index. *)
Definition path (va : Z) : list Z := [pml4_index va; pdpt_index va; pd_index va].

(** No table entry on the way is a huge page: the code's walk, which does
    not look at that bit, is then a walk of the tree. *)
Definition no_huge vm tab (va : Z) : Prop :=
  huge_page (ent vm tab [] (pml4_index va)) = false ∧
  huge_page (ent vm tab [pml4_index va] (pdpt_index va)) = false ∧
  huge_page (ent vm tab [pml4_index va; pdpt_index va] (pd_index va)) = false.

Lemma table_frame_range s a :
  pmm_wf s → m_memory_start s `mod` 4096 = 0 →
  m_memory_start s + m_total_frames s * PAGE_SIZE ≤ 2 ^ 48 →
  table_frame s a → 0 < a < 2 ^ 48 ∧ a `mod` 4096 = 0.
Proof.
  intros Hwf Hal Hb (k & -> & Hk & _). pose proof (sh_start s (wf_shape s Hwf)).
  unfold frame_addr, PAGE_SIZE in *. split; [lia|].
  by rewrite Z.mod_add by lia.
Qed.

Lemma inv_table vm tab p a :
  vmm_inv vm tab → tab !! p = Some a → 0 < a < 2 ^ 48 ∧ a `mod` 4096 = 0.
Proof.
  intros Hi Hp. eapply table_frame_range; [apply Hi..|]. by eapply vi_frame.
Qed.

(** Entries of different page-aligned tables are at different addresses. *)
Lemma entry_addr_inj a b i j :
  a `mod` 4096 = 0 → b `mod` 4096 = 0 → index_ok i → index_ok j →
  a + 8 * i = b + 8 * j → a = b ∧ i = j.
Proof.
  unfold index_ok, ENTRIES_PER_TABLE. intros Ha Hb Hi Hj E.
  apply Z.mod_divide in Ha as [x ->]; [|done]. apply Z.mod_divide in Hb as [y ->]; [|done]. lia.
Qed.

Lemma rd_pte_ent vm tab p a i :
  vmm_inv vm tab → tab !! p = Some a → rd_pte vm a i = Ok (ent vm tab p i).
Proof.
  intros Hi Hp. pose proof (inv_table _ _ _ _ Hi Hp). unfold rd_pte, ent.
  rewrite (proj2 (Z.eqb_neq a 0)), Hp by lia. done.
Qed.

(** Writing entry [i] of the table at [p] changes that entry only. *)
Lemma ent_upd_gen vm tab p a i v q j :
  (∀ p a, tab !! p = Some a → a `mod` 4096 = 0) →
  (∀ p q a, tab !! p = Some a → tab !! q = Some a → p = q) →
  tab !! p = Some a → index_ok i → index_ok j →
  ent (set_mem vm (upd (v_mem vm) (a + 8 * i) v)) tab q j =
  if decide (q = p ∧ j = i) then v else ent vm tab q j.
Proof.
  intros Hal Hinj Hp Hii Hj. unfold ent, upd. simpl.
  destruct (tab !! q) as [b|] eqn:Hq.
  - destruct (Z.eqb_spec (b + 8 * j) (a + 8 * i)) as [E|E].
    + apply entry_addr_inj in E as [-> ->]; [|by eapply Hal..|done|done].
      rewrite decide_True; [done|]. split; [|done]. by eapply Hinj.
    + rewrite decide_False; [done|]. intros [-> ->]. congruence.
  - rewrite decide_False; [done|]. intros [-> ->]. congruence.
Qed.

Lemma ent_upd vm tab p a i v q j :
  vmm_inv vm tab → tab !! p = Some a → index_ok i → index_ok j →
  ent (set_mem vm (upd (v_mem vm) (a + 8 * i) v)) tab q j =
  if decide (q = p ∧ j = i) then v else ent vm tab q j.
Proof.
  intros Hi. apply ent_upd_gen; [|exact (vi_inj _ _ Hi)].
  intros p' a' Hp'. apply (inv_table _ _ _ _ Hi Hp').
Qed.

(** A newly allocated frame, zeroed and entered at a path that had no
    table, leaves every entry as it was. *)
Lemma ent_fresh vm tab s' c r q j :
  vmm_inv vm tab → (∀ p a, tab !! p = Some a → a ≠ c) → c `mod` 4096 = 0 → index_ok j →
  tab !! r = None →
  ent (Vmm s' (λ x, if (c <=? x) && (x <? c + 8 * ENTRIES_PER_TABLE) then 0 else v_mem vm x)
         (m_pml4 vm)) (<[r := c]> tab) q j = ent vm tab q j.
Proof.
  intros Hi Hc Hm Hj Hr. unfold ent. simpl. destruct (decide (q = r)) as [->|].
  - rewrite lookup_insert_eq, Hr. unfold index_ok in Hj.
    rewrite (proj2 (Z.leb_le _ _)), (proj2 (Z.ltb_lt _ _)) by lia. done.
  - rewrite lookup_insert_ne by done. destruct (tab !! q) as [b|] eqn:Hq; [|done].
    destruct (_ && _) eqn:E; [|done]. exfalso.
    pose proof (inv_table _ _ _ _ Hi Hq) as [_ Hb]. specialize (Hc q b Hq).
    unfold index_ok, ENTRIES_PER_TABLE in *.
    apply Z.mod_divide in Hb as [x ->]; [|done]. apply Z.mod_divide in Hm as [y ->]; [|done]. lia.
Qed.

(** *** Walking *)

Lemma next_level_found vm tab p a i create :
  vmm_inv vm tab → tab !! p = Some a → (length p < 3)%nat → index_ok i →
  points_down (ent vm tab p i) = true →
  get_next_level vm a i create = Ok (address (ent vm tab p i), vm) ∧
  tab !! (p ++ [i]) = Some (address (ent vm tab p i)).
Proof.
  intros Hi Hp Hl Hii Hd. rewrite (vi_child _ _ Hi p i), Hd by done. split; [|done].
  apply andb_true_iff in Hd as [Hd _]. unfold get_next_level.
  rewrite (rd_pte_ent _ _ _ _ _ Hi Hp), bind_Ok, Hd. simpl.
  by rewrite (rd_pte_ent _ _ _ _ _ Hi Hp), bind_Ok, Hd.
Qed.

Lemma next_level_absent vm tab p a i :
  vmm_inv vm tab → tab !! p = Some a → present (ent vm tab p i) = false →
  get_next_level vm a i false = Ok (0, vm).
Proof.
  intros Hi Hp Hd. unfold get_next_level. rewrite (rd_pte_ent _ _ _ _ _ Hi Hp), bind_Ok, Hd.
  simpl. by rewrite (rd_pte_ent _ _ _ _ _ Hi Hp), bind_Ok, Hd.
Qed.

(** Frames taken are not given back, and a new table is in a frame that was
    not taken. *)
Definition unused_frame (s : PhysicalMemoryManager) (a : Z) : Prop :=
  forall k, 0 ≤ k → a = frame_addr s k → used s k = false.

Record grown vm tab vm' tab' : Prop := {
  gr_layout : same_layout (v_pmm vm) (v_pmm vm');
  gr_used k : 0 ≤ k → used (v_pmm vm) k = true → used (v_pmm vm') k = true;
  gr_new q a : tab' !! q = Some a → tab !! q = Some a ∨ unused_frame (v_pmm vm) a
}.

Lemma grown_same vm tab vm' : v_pmm vm' = v_pmm vm → grown vm tab vm' tab.
Proof. intros E. constructor; rewrite ?E; [done|done|by left]. Qed.

Lemma grown_trans vm tab vm1 tab1 vm2 tab2 :
  grown vm tab vm1 tab1 → grown vm1 tab1 vm2 tab2 → grown vm tab vm2 tab2.
Proof.
  intros [[L1 L1'] U1 N1] [[L2 L2'] U2 N2]. constructor; [split; congruence|auto|].
  intros q a Hq. destruct (N2 q a Hq) as [Hq1|Hn]; [by apply N1|right].
  intros k Hk Ea. destruct (used (v_pmm vm) k) eqn:Eu; [|done].
  rewrite <- (U1 k Hk Eu). apply Hn; [done|]. unfold frame_addr in *. congruence.
Qed.

(** What a step that may add a table to the tree leaves alone. *)
Record extends vm tab vm' tab' p i : Prop := {
  ex_inv : vmm_inv vm' tab';
  ex_tab : tab ⊆ tab';
  ex_root : m_pml4 vm' = m_pml4 vm;
  ex_free : m_free_frames (v_pmm vm) - 1 ≤ m_free_frames (v_pmm vm') ≤ m_free_frames (v_pmm vm);
  ex_ent q j : index_ok j → ¬ (q = p ∧ j = i) → ent vm' tab' q j = ent vm tab q j;
  ex_grown : grown vm tab vm' tab'
}.

Lemma child_path_inj p q (i j : Z) : p ++ [i] = q ++ [j] → p = q ∧ i = j.
Proof. intros E. apply app_inj_2 in E as [-> E]; [|done]. by simplify_eq. Qed.

Lemma child_not_self p (i : Z) : p ++ [i] ≠ p.
Proof. intros E%(f_equal length). rewrite length_app in E. simpl in E. lia. Qed.

Lemma takes_table_frame s k s' a :
  takes s k s' → table_frame s a → table_frame s' a ∧ a ≠ frame_addr s k.
Proof.
  intros Ht (k' & -> & Hk & Hu). destruct Ht as [Hr Hf Hu' [Htot Hst] _ _]. split.
  - exists k'. split; [|split; [lia|by rewrite Hu', Hu by lia]].
    unfold frame_addr. by rewrite Hst.
  - intros E%frame_addr_inj. congruence.
Qed.

(** *** A table added below entry [i] of the table at [p] *)

Section create.
Context (vm : VirtualMemoryManager) (tab : gmap (list Z) Z) (p : list Z) (a i k : Z).
Context (s' : PhysicalMemoryManager).
Context (Hi : vmm_inv vm tab) (Hp : tab !! p = Some a) (Hl : (length p < 3)%nat).
Context (Hii : index_ok i) (H0 : ent vm tab p i = 0) (Hnone : tab !! (p ++ [i]) = None).
Context (Ht : takes (v_pmm vm) k s').

#[local] Abbreviation c := (frame_addr (v_pmm vm) k).
#[local] Abbreviation m1 :=
  (λ x, if (c <=? x) && (x <? c + 8 * ENTRIES_PER_TABLE) then 0 else v_mem vm x).
#[local] Abbreviation vm' := (Vmm s' (upd m1 (a + 8 * i) (table_entry 0 c)) (m_pml4 vm)).
#[local] Abbreviation tab' := (<[p ++ [i] := c]> tab).

Lemma create_pmm :
  pmm_wf s' ∧ m_memory_start s' `mod` 4096 = 0 ∧
  m_memory_start s' + m_total_frames s' * PAGE_SIZE ≤ 2 ^ 48.
Proof.
  destruct (tk_layout _ _ _ Ht) as [-> ->].
  split; [apply Ht|]. split; apply Hi.
Qed.

Lemma create_new_frame : table_frame s' c.
Proof.
  exists k. destruct Ht as [Hr _ Hu [Htot Hst] _ _]. unfold frame_addr. rewrite Hst, Htot.
  split; [done|]. split; [done|]. by rewrite Hu, Z.eqb_refl, orb_true_r by lia.
Qed.

Lemma create_frame q b : tab' !! q = Some b → table_frame s' b ∧ (length q ≤ 3)%nat.
Proof.
  rewrite lookup_insert. case_decide as Hq.
  - subst q. intros [= <-]. split; [apply create_new_frame|].
    rewrite length_app. simpl. lia.
  - intros Hb. destruct (vi_frame _ _ Hi _ _ Hb) as [Hb' ?]. split; [|done].
    by apply (takes_table_frame _ _ _ _ Ht Hb').
Qed.

Lemma create_range q b : tab' !! q = Some b → 0 < b < 2 ^ 48 ∧ b `mod` 4096 = 0.
Proof.
  intros Hb. destruct create_pmm as (? & ? & ?).
  eapply table_frame_range; [done..|]. by eapply create_frame.
Qed.

Lemma create_fresh q b : tab !! q = Some b → b ≠ c.
Proof.
  intros Hb. destruct (vi_frame _ _ Hi _ _ Hb) as [Hb' _].
  by apply (takes_table_frame _ _ _ _ Ht Hb').
Qed.

Lemma create_inj q r b : tab' !! q = Some b → tab' !! r = Some b → q = r.
Proof.
  rewrite !lookup_insert. repeat case_decide; intros E1 E2.
  - congruence.
  - simplify_eq. by destruct (create_fresh _ _ E2).
  - simplify_eq. by destruct (create_fresh _ _ E1).
  - by eapply (vi_inj _ _ Hi).
Qed.

Lemma create_lookup_new : tab' !! (p ++ [i]) = Some c.
Proof. apply lookup_insert_eq. Qed.

Lemma create_lookup_parent : tab' !! p = Some a.
Proof. by rewrite lookup_insert_ne by apply child_not_self. Qed.

Lemma create_ent q j : index_ok j →
  ent vm' tab' q j = if decide (q = p ∧ j = i) then table_entry 0 c else ent vm tab q j.
Proof.
  intros Hj. transitivity (if decide (q = p ∧ j = i) then table_entry 0 c
                           else ent (Vmm s' m1 (m_pml4 vm)) tab' q j).
  - apply (ent_upd_gen (Vmm s' m1 (m_pml4 vm)) tab' p a i); [| | |done|done].
    + intros. by eapply create_range.
    + exact create_inj.
    + exact create_lookup_parent.
  - case_decide; [done|]. apply ent_fresh; [exact Hi|exact create_fresh| |exact Hj|exact Hnone].
    apply (create_range _ _ create_lookup_new).
Qed.

Lemma create_entry :
  present (table_entry 0 c) = true ∧ huge_page (table_entry 0 c) = false ∧
  address (table_entry 0 c) = c.
Proof.
  rewrite table_entry_leaf, leaf_entry_present, leaf_entry_not_huge, leaf_entry_address.
  split_and!; [done|done|]. pose proof (create_range _ _ create_lookup_new).
  apply land_addr_mask; lia.
Qed.

Lemma create_vmm_inv : vmm_inv vm' tab'.
Proof.
  destruct create_pmm as (? & ? & ?). destruct create_entry as (Hpr & Hhu & Hac).
  constructor; [done|done|done|..].
  - rewrite lookup_insert_ne; [apply Hi|]. by destruct p.
  - exact create_frame.
  - exact create_inj.
  - intros q j b. rewrite lookup_insert. case_decide as Hq.
    + apply child_path_inj in Hq as [-> ->]. intros _. split; [|done].
      rewrite lookup_insert_ne by apply child_not_self. eauto.
    + intros Hb. destruct (vi_closed _ _ Hi _ _ _ Hb) as [[x Hx] ?]. split; [|done].
      rewrite lookup_insert. case_decide; eauto.
  - intros q j Hq Hj. rewrite create_ent by done. rewrite lookup_insert.
    case_decide as Hqp.
    + apply child_path_inj in Hqp as [<- <-]. rewrite decide_True by done.
      unfold points_down. by rewrite Hpr, Hhu, Hac.
    + rewrite decide_False; [by apply Hi|]. intros [-> ->]. done.
  - intros q j Hj. rewrite create_ent by done. case_decide; [congruence|by apply Hi].
  - intros q j Hq Hj. rewrite create_ent by done. case_decide; [done|by apply Hi].
Qed.

Lemma create_grown : grown vm tab vm' tab'.
Proof.
  constructor; [apply Ht|..]; simpl.
  - intros j Hj Hu. by rewrite (tk_used _ _ _ Ht), Hu.
  - intros q b [[<- <-]|[_ Hq]]%lookup_insert_Some; [right|by left].
    intros j Hj <-%frame_addr_inj. apply Ht.
Qed.

Lemma create_extends :
  extends vm tab vm' tab' p i ∧ ent vm' tab' p i = table_entry 0 c ∧
  tab' !! (p ++ [i]) = Some c.
Proof.
  split; [|split; [by rewrite create_ent, decide_True by done|apply create_lookup_new]].
  constructor.
  - exact create_vmm_inv.
  - by apply insert_subseteq.
  - done.
  - simpl. rewrite (tk_free _ _ _ Ht). lia.
  - intros q j Hj Hqp. by rewrite create_ent, decide_False.
  - exact create_grown.
Qed.
End create.

(** *** get_next_level *)

Lemma next_level_create vm tab p a i :
  vmm_inv vm tab → tab !! p = Some a → (length p < 3)%nat → index_ok i →
  huge_page (ent vm tab p i) = false → 1 ≤ m_free_frames (v_pmm vm) →
  exists c vm' tab', get_next_level vm a i true = Ok (c, vm') ∧
    extends vm tab vm' tab' p i ∧ tab' !! (p ++ [i]) = Some c ∧
    huge_page (ent vm' tab' p i) = false.
Proof.
  intros Hi Hp Hl Hii Hh Hfree. destruct (present (ent vm tab p i)) eqn:Hpr.
  - assert (Hd : points_down (ent vm tab p i) = true) by (unfold points_down; by rewrite Hpr, Hh).
    destruct (next_level_found _ _ _ _ _ true Hi Hp Hl Hii Hd) as [E Hc].
    exists (address (ent vm tab p i)), vm, tab. split_and!; [done| |done|done].
    constructor; [done|done|done|lia|done|by apply grown_same].
  - pose proof (vi_absent _ _ Hi p i Hii Hpr) as H0.
    assert (Hnone : tab !! (p ++ [i]) = None).
    { rewrite (vi_child _ _ Hi p i) by done. unfold points_down. by rewrite Hpr. }
    unfold get_next_level. rewrite (rd_pte_ent _ _ _ _ _ Hi Hp), bind_Ok, Hpr. simpl.
    unfold create_page_table.
    destruct (allocate_frame_takes (v_pmm vm)) as (k & s' & Ht & ->); [apply Hi|done|].
    destruct (create_extends vm tab p a i k s') as (He & Hen & Hnew); [done..|].
    destruct (create_entry vm tab p i k s') as (Hpr' & Hhu' & Hac); [done..|].
    set (c := frame_addr (v_pmm vm) k) in *.
    pose proof (inv_table _ _ _ _ (ex_inv _ _ _ _ _ _ He) Hnew) as [Hc _].
    rewrite bind_Ok. unfold zero_table. rewrite (proj2 (Z.eqb_neq c 0)) by lia. simpl.
    unfold wr_pte. pose proof (inv_table _ _ _ _ Hi Hp) as [Ha _].
    rewrite (proj2 (Z.eqb_neq a 0)) by lia. simpl. rewrite H0.
    pose proof (rd_pte_ent _ _ _ _ i (ex_inv _ _ _ _ _ _ He)
      (lookup_weaken _ _ _ _ Hp (ex_tab _ _ _ _ _ _ He))) as Hrd.
    unfold set_mem, set_pmm. simpl. rewrite Hrd, bind_Ok, Hen, Hpr', Hac. simpl.
    eexists _, _, _. split; [reflexivity|]. split_and!; [done|done|by rewrite Hen].
Qed.

(** Without [create] the walk follows the tree. *)
Lemma next_level_look vm tab p a i :
  vmm_inv vm tab → tab !! p = Some a → (length p < 3)%nat → index_ok i →
  huge_page (ent vm tab p i) = false →
  get_next_level vm a i false = Ok (default 0 (tab !! (p ++ [i])), vm).
Proof.
  intros Hi Hp Hl Hii Hh. destruct (present (ent vm tab p i)) eqn:Hpr.
  - destruct (next_level_found _ _ _ _ _ false Hi Hp Hl Hii) as [E ->]; [|done].
    unfold points_down. by rewrite Hpr, Hh.
  - rewrite (next_level_absent vm tab p) by done.
    rewrite (vi_child _ _ Hi p i) by done. unfold points_down. by rewrite Hpr.
Qed.

Lemma root_closed vm tab p i : vmm_inv vm tab → tab !! p = None → tab !! (p ++ [i]) = None.
Proof.
  intros Hi Hp. destruct (tab !! (p ++ [i])) eqn:E; [|done].
  destruct (vi_closed _ _ Hi _ _ _ E) as [[x Hx] _]. congruence.
Qed.

(** *** Indices *)

Lemma index_mask_ok x n : index_ok (Z.land (Z.shiftr x n) 0x1FF).
Proof.
  unfold index_ok, ENTRIES_PER_TABLE. change 0x1FF with (Z.ones 9).
  rewrite Z.land_ones by lia. apply Z.mod_pos_bound. lia.
Qed.

Lemma index_of_masked x n :
  12 ≤ n ≤ 55 →
  Z.land (Z.shiftr (Z.land x PAGE_MASK) n) 0x1FF = Z.land (Z.shiftr x n) 0x1FF.
Proof.
  intros. change 0x1FF with (Z.ones 9). apply Z.bits_inj'. intros b ?.
  rewrite !Z.land_spec, ones_testbit, !Z.shiftr_spec, Z.land_spec, page_mask_testbit by lia.
  destruct (Z.ltb_spec b 9); [|by rewrite !andb_false_r].
  rewrite (proj2 (Z.leb_le 12 _)), (proj2 (Z.ltb_lt _ 64)) by lia. by rewrite andb_true_r.
Qed.

Lemma indices_masked va :
  pml4_index (Z.land va PAGE_MASK) = pml4_index va ∧
  pdpt_index (Z.land va PAGE_MASK) = pdpt_index va ∧
  pd_index (Z.land va PAGE_MASK) = pd_index va ∧
  pt_index (Z.land va PAGE_MASK) = pt_index va.
Proof. split_and!; apply index_of_masked; lia. Qed.

Lemma offset_of_masked va : Z.land (Z.land va PAGE_MASK) (u64 (Z.lnot PAGE_MASK)) = 0.
Proof.
  apply Z.bits_inj'. intros b ?. rewrite !Z.land_spec, lnot_u64_testbit, Z.bits_0 by lia.
  destruct (Z.testbit PAGE_MASK b); simpl; by rewrite ?andb_false_r.
Qed.

Lemma address_page_masked v : huge_page v = false → Z.land (address v) PAGE_MASK = address v.
Proof.
  intros Hv. apply Z.bits_inj'. intros b ?.
  rewrite Z.land_spec, address_testbit, page_mask_testbit by done.
  destruct (Z.leb_spec 12 b), (Z.ltb_spec b 48), (Z.ltb_spec b 64); simpl;
    rewrite ?andb_false_r, ?andb_true_r; done || lia.
Qed.

(** *** Translation *)

Definition leaf vm tab (va : Z) : Z := ent vm tab (path va) (pt_index va).

Definition translate vm tab (va : Z) : Z :=
  if present (leaf vm tab va) then address (leaf vm tab va) else 0.

Lemma get_physical_address_translate vm tab va :
  vmm_inv vm tab → no_huge vm tab va →
  get_physical_address vm va = Ok (translate vm tab va).
Proof.
  intros Hi (H4 & H3 & H2). unfold get_physical_address.
  destruct (indices_masked va) as (-> & -> & -> & ->). rewrite offset_of_masked.
  unfold translate, leaf, path.
  rewrite (next_level_look vm tab [] _ _ Hi (vi_root _ _ Hi)) by (apply index_mask_ok || done || (simpl; lia)).
  rewrite bind_Ok. simpl app.
  destruct (tab !! [pml4_index va]) as [pdpt|] eqn:E4; simpl; cycle 1.
  { pose proof (root_closed vm tab _ (pdpt_index va) Hi E4) as E3.
    pose proof (root_closed vm tab _ (pd_index va) Hi E3) as E2. simpl in E2.
    unfold ent. by rewrite E2. }
  pose proof (inv_table _ _ _ _ Hi E4). rewrite (proj2 (Z.eqb_neq pdpt 0)) by lia.
  rewrite (next_level_look vm tab _ _ _ Hi E4) by (apply index_mask_ok || done || (simpl; lia)).
  rewrite bind_Ok. simpl app.
  destruct (tab !! [pml4_index va; pdpt_index va]) as [pd|] eqn:E3; simpl; cycle 1.
  { pose proof (root_closed vm tab _ (pd_index va) Hi E3) as E2. simpl in E2.
    unfold ent. by rewrite E2. }
  pose proof (inv_table _ _ _ _ Hi E3). rewrite (proj2 (Z.eqb_neq pd 0)) by lia.
  rewrite (next_level_look vm tab _ _ _ Hi E3) by (apply index_mask_ok || done || (simpl; lia)).
  rewrite bind_Ok. simpl app.
  destruct (tab !! [pml4_index va; pdpt_index va; pd_index va]) as [pt|] eqn:E2; simpl; cycle 1.
  { unfold ent. by rewrite E2. }
  pose proof (inv_table _ _ _ _ Hi E2). rewrite (proj2 (Z.eqb_neq pt 0)) by lia.
  rewrite (rd_pte_ent _ _ _ _ _ Hi E2), bind_Ok.
  destruct (present _); simpl; [|done]. rewrite Z.lor_0_r, address_page_masked; [done|].
  apply (vi_leaf _ _ Hi); [done|apply index_mask_ok].
Qed.

(** *** Mapping and unmapping *)

(** [retains vm tab vm' tab' q0 j0]: a step that keeps the tree, the
    non-huge entries non-huge, and every last-level entry but [(q0, j0)]. *)
Record retains vm tab vm' tab' q0 (j0 : Z) : Prop := {
  rt_inv : vmm_inv vm' tab';
  rt_tab : tab ⊆ tab';
  rt_root : m_pml4 vm' = m_pml4 vm;
  rt_leaf q j : length q = 3%nat → index_ok j → ¬ (q = q0 ∧ j = j0) →
    ent vm' tab' q j = ent vm tab q j;
  rt_huge q j : index_ok j → huge_page (ent vm tab q j) = false →
    huge_page (ent vm' tab' q j) = false;
  rt_grown : grown vm tab vm' tab'
}.

Lemma retains_refl vm tab q0 j0 : vmm_inv vm tab → retains vm tab vm tab q0 j0.
Proof. constructor; try done. by apply grown_same. Qed.

Lemma retains_trans vm tab vm1 tab1 vm2 tab2 q0 j0 :
  retains vm tab vm1 tab1 q0 j0 → retains vm1 tab1 vm2 tab2 q0 j0 →
  retains vm tab vm2 tab2 q0 j0.
Proof.
  intros [? ? ? L1 H1 G1] [? ? ? L2 H2 G2]. constructor; [done|by etrans|congruence|..].
  - intros. by rewrite L2, L1.
  - auto.
  - by eapply grown_trans.
Qed.

(** A step of the walk below the last level keeps every last-level entry. *)
Lemma extends_retains vm tab vm' tab' p i q0 j0 :
  (length p < 3)%nat → huge_page (ent vm' tab' p i) = false →
  extends vm tab vm' tab' p i → retains vm tab vm' tab' q0 j0.
Proof.
  intros Hl Hh [? ? ? ? He G]. constructor; [done..| | |done].
  - intros q j Hq Hj _. apply He; [done|]. intros [-> _]. lia.
  - intros q j Hj Hq. destruct (decide (q = p ∧ j = i)) as [[-> ->]|]; [done|]. by rewrite He.
Qed.

Lemma next_level_retains vm tab p a i q0 j0 :
  vmm_inv vm tab → tab !! p = Some a → (length p < 3)%nat → index_ok i →
  huge_page (ent vm tab p i) = false → 1 ≤ m_free_frames (v_pmm vm) →
  exists c vm' tab', get_next_level vm a i true = Ok (c, vm') ∧ c ≠ 0 ∧
    tab' !! (p ++ [i]) = Some c ∧ retains vm tab vm' tab' q0 j0 ∧
    m_free_frames (v_pmm vm) - 1 ≤ m_free_frames (v_pmm vm').
Proof.
  intros Hi Hp Hl Hii Hh Hf.
  destruct (next_level_create vm tab p a i) as (c & vm' & tab' & E & He & Hc & Hh'); [done..|].
  exists c, vm', tab'. pose proof (inv_table _ _ _ _ (ex_inv _ _ _ _ _ _ He) Hc).
  split_and!; [done|lia|done|by eapply extends_retains|apply He].
Qed.

(** Writing a last-level entry. *)
Lemma leaf_write vm tab p a i v :
  vmm_inv vm tab → tab !! p = Some a → length p = 3%nat → index_ok i →
  huge_page v = false → (present v = false → v = 0) →
  let vm' := set_mem vm (upd (v_mem vm) (a + 8 * i) v) in
  retains vm tab vm' tab p i ∧ ent vm' tab p i = v.
Proof.
  intros Hi Hp Hl Hii Hh H0 vm'.
  assert (Hent : ∀ q j, index_ok j →
    ent vm' tab q j = if decide (q = p ∧ j = i) then v else ent vm tab q j).
  { intros. by apply ent_upd. }
  split; [|by rewrite Hent, decide_True].
  constructor; [|done|done|..|by apply grown_same].
  - destruct Hi. constructor; [done..| | |].
    + intros q j Hq Hj. rewrite Hent, decide_False by (done || intros [-> _]; lia). auto.
    + intros q j Hj. rewrite Hent by done. case_decide; auto.
    + intros q j Hq Hj. rewrite Hent by done. case_decide; auto.
  - intros q j Hq Hj Hne. by rewrite Hent, decide_False.
  - intros q j Hj. rewrite Hent by done. by case_decide.
Qed.

(** Steps below the last level keep every last-level entry. *)
Lemma retains_weaken vm tab vm' tab' q j : retains vm tab vm' tab' [] 0 → retains vm tab vm' tab' q j.
Proof.
  intros [? ? ? L ? ?]. constructor; [done..| |done|done].
  intros q' j' Hq ??. apply L; [done..|]. intros [-> _]. done.
Qed.

Lemma path_length va : length (path va) = 3%nat.
Proof. done. Qed.

(** The three tables on the way of [map_page], created where missing. *)
Lemma map_walk vm tab va :
  vmm_inv vm tab → no_huge vm tab va → 3 ≤ m_free_frames (v_pmm vm) →
  exists pdpt vm1 pd vm2 pt vm3 tab3,
    get_next_level vm (m_pml4 vm) (pml4_index va) true = Ok (pdpt, vm1) ∧ pdpt ≠ 0 ∧
    get_next_level vm1 pdpt (pdpt_index va) true = Ok (pd, vm2) ∧ pd ≠ 0 ∧
    get_next_level vm2 pd (pd_index va) true = Ok (pt, vm3) ∧ pt ≠ 0 ∧
    tab3 !! path va = Some pt ∧ retains vm tab vm3 tab3 [] 0 ∧
    m_free_frames (v_pmm vm) - 3 ≤ m_free_frames (v_pmm vm3).
Proof.
  intros Hi (H4 & H3 & H2) Hf.
  destruct (next_level_retains vm tab [] (m_pml4 vm) (pml4_index va) [] 0)
    as (pdpt & vm1 & tab1 & E1 & Z1 & T1 & R1 & F1);
    [done|apply Hi|simpl; lia|apply index_mask_ok|done|lia|].
  destruct (next_level_retains vm1 tab1 [pml4_index va] pdpt (pdpt_index va) [] 0)
    as (pd & vm2 & tab2 & E2 & Z2 & T2 & R2 & F2);
    [apply R1|done|simpl; lia|apply index_mask_ok| |lia|].
  { apply (rt_huge _ _ _ _ _ _ R1); [apply index_mask_ok|done]. }
  destruct (next_level_retains vm2 tab2 [pml4_index va; pdpt_index va] pd (pd_index va) [] 0)
    as (pt & vm3 & tab3 & E3 & Z3 & T3 & R3 & F3);
    [apply R2|done|simpl; lia|apply index_mask_ok| |lia|].
  { apply (rt_huge _ _ _ _ _ _ R2), (rt_huge _ _ _ _ _ _ R1); [apply index_mask_ok..|done]. }
  exists pdpt, vm1, pd, vm2, pt, vm3, tab3. split_and!; [done..| |lia].
  eauto using retains_trans.
Qed.

Lemma map_page_ok vm tab va pa w :
  vmm_inv vm tab → no_huge vm tab va → 3 ≤ m_free_frames (v_pmm vm) →
  exists vm' tab', map_page vm va pa w = Ok vm' ∧
    retains vm tab vm' tab' (path va) (pt_index va) ∧
    leaf vm' tab' va = (if present (leaf vm tab va) then leaf vm tab va
                        else leaf_entry 0 (Z.land pa PAGE_MASK) w) ∧
    m_free_frames (v_pmm vm) - 3 ≤ m_free_frames (v_pmm vm').
Proof.
  intros Hi Hn Hf. unfold map_page. destruct (indices_masked va) as (-> & -> & -> & ->).
  destruct (map_walk vm tab va) as (pdpt & vm1 & pd & vm2 & pt & vm3 & tab3 &
    E1 & Z1 & E2 & Z2 & E3 & Z3 & T & R & F); [done..|].
  rewrite E1, bind_Ok, (proj2 (Z.eqb_neq pdpt 0)) by done.
  rewrite E2, bind_Ok, (proj2 (Z.eqb_neq pd 0)) by done.
  rewrite E3, bind_Ok, (proj2 (Z.eqb_neq pt 0)) by done.
  pose proof (rt_inv _ _ _ _ _ _ R) as Hi3. assert (Hj : index_ok (pt_index va)) by apply index_mask_ok.
  assert (Hsame : leaf vm3 tab3 va = leaf vm tab va).
  { apply (rt_leaf _ _ _ _ _ _ R); [done|done|]. by intros [? _]. }
  rewrite (rd_pte_ent vm3 tab3 (path va) pt (pt_index va) Hi3 T), bind_Ok.
  change (ent vm3 tab3 (path va) (pt_index va)) with (leaf vm3 tab3 va). rewrite Hsame.
  destruct (present (leaf vm tab va)) eqn:Hpr; simpl.
  { exists vm3, tab3. split_and!; [done|by apply retains_weaken|done|done]. }
  assert (H0 : leaf vm tab va = 0) by (by apply (vi_absent _ _ Hi)).
  unfold wr_pte. rewrite (proj2 (Z.eqb_neq pt 0)), H0 by done.
  destruct (leaf_write vm3 tab3 (path va) pt (pt_index va)
    (leaf_entry 0 (Z.land pa PAGE_MASK) w)) as [Rw Ew]; [done..| | |].
  { apply leaf_entry_not_huge. }
  { by rewrite leaf_entry_present. }
  eexists _, tab3. split_and!; [reflexivity| |exact Ew|exact F].
  eapply retains_trans; [by apply retains_weaken|exact Rw].
Qed.

Lemma unmap_page_ok vm tab va :
  vmm_inv vm tab → no_huge vm tab va →
  exists vm', unmap_page vm va = Ok vm' ∧ v_pmm vm' = v_pmm vm ∧
    retains vm tab vm' tab (path va) (pt_index va) ∧ leaf vm' tab va = 0.
Proof.
  intros Hi (H4 & H3 & H2). unfold unmap_page, leaf.
  destruct (indices_masked va) as (-> & -> & -> & ->).
  assert (Hnone : tab !! path va = None →
    retains vm tab vm tab (path va) (pt_index va) ∧ ent vm tab (path va) (pt_index va) = 0).
  { intros E. split; [by apply retains_refl|]. unfold ent. by rewrite E. }
  rewrite (next_level_look vm tab [] _ _ Hi (vi_root _ _ Hi))
    by (apply index_mask_ok || done || (simpl; lia)). rewrite bind_Ok. simpl app.
  destruct (tab !! [pml4_index va]) as [pdpt|] eqn:E4; simpl; cycle 1.
  { exists vm. split_and!; [done..| |]; apply Hnone;
      exact (root_closed vm tab _ (pd_index va) Hi (root_closed vm tab _ (pdpt_index va) Hi E4)). }
  pose proof (inv_table _ _ _ _ Hi E4). rewrite (proj2 (Z.eqb_neq pdpt 0)) by lia.
  rewrite (next_level_look vm tab _ _ _ Hi E4) by (apply index_mask_ok || done || (simpl; lia)).
  rewrite bind_Ok. simpl app.
  destruct (tab !! [pml4_index va; pdpt_index va]) as [pd|] eqn:E3; simpl; cycle 1.
  { exists vm. split_and!; [done..| |]; apply Hnone;
      exact (root_closed vm tab _ (pd_index va) Hi E3). }
  pose proof (inv_table _ _ _ _ Hi E3). rewrite (proj2 (Z.eqb_neq pd 0)) by lia.
  rewrite (next_level_look vm tab _ _ _ Hi E3) by (apply index_mask_ok || done || (simpl; lia)).
  rewrite bind_Ok. simpl app. fold (path va).
  destruct (tab !! path va) as [pt|] eqn:E2; simpl; [|exists vm; split_and!; [done..| |]; by apply Hnone].
  pose proof (inv_table _ _ _ _ Hi E2). unfold wr_pte. rewrite (proj2 (Z.eqb_neq pt 0)) by lia.
  destruct (leaf_write vm tab (path va) pt (pt_index va) 0) as [Rw Ew];
    [done|done|done|apply index_mask_ok|done|done|].
  eexists. split_and!; [reflexivity|done|exact Rw|exact Ew].
Qed.

(** *** Initialisation *)

Lemma create_page_table_ok vm k s' :
  takes (v_pmm vm) k s' → frame_addr (v_pmm vm) k ≠ 0 →
  allocate_frame (v_pmm vm) = Ok (frame_addr (v_pmm vm) k, s') →
  create_page_table vm =
  Ok (frame_addr (v_pmm vm) k,
      Vmm s' (λ x, if (frame_addr (v_pmm vm) k <=? x) &&
                      (x <? frame_addr (v_pmm vm) k + 8 * ENTRIES_PER_TABLE)
                   then 0 else v_mem vm x) (m_pml4 vm)).
Proof.
  intros Ht Hz E. unfold create_page_table. rewrite E, bind_Ok. unfold zero_table.
  by rewrite (proj2 (Z.eqb_neq _ 0)).
Qed.

(** Creating a table and entering it below an empty entry, as [initialize]
    does by hand. *)
Lemma create_and_enter vm tab p a i :
  vmm_inv vm tab → tab !! p = Some a → (length p < 3)%nat → index_ok i →
  ent vm tab p i = 0 → 1 ≤ m_free_frames (v_pmm vm) →
  exists c vm1 vm2, create_page_table vm = Ok (c, vm1) ∧ c ≠ 0 ∧
    wr_pte vm1 a i (table_entry 0 c) = Ok vm2 ∧
    rd_pte vm1 a i = Ok 0 ∧
    extends vm tab vm2 (<[p ++ [i] := c]> tab) p i ∧
    ent vm2 (<[p ++ [i] := c]> tab) p i = table_entry 0 c ∧
    (∀ j, index_ok j → ent vm2 (<[p ++ [i] := c]> tab) (p ++ [i]) j = 0).
Proof.
  intros Hi Hp Hl Hii H0 Hf.
  assert (Hnone : tab !! (p ++ [i]) = None).
  { rewrite (vi_child _ _ Hi p i) by done. by rewrite H0. }
  destruct (allocate_frame_takes (v_pmm vm)) as (k & s' & Ht & E); [apply Hi|done|].
  destruct (create_extends vm tab p a i k s') as (He & Hen & Hnew); [done..|].
  pose proof (inv_table _ _ _ _ (ex_inv _ _ _ _ _ _ He) Hnew) as [Hc _].
  pose proof (inv_table _ _ _ _ Hi Hp) as [Ha _].
  eexists (frame_addr (v_pmm vm) k), _, _.
  split; [apply (create_page_table_ok _ _ _ Ht); [lia|done]|].
  split; [lia|]. split.
  { unfold wr_pte. rewrite (proj2 (Z.eqb_neq a 0)) by lia. reflexivity. }
  split; [|split_and!; [exact He|exact Hen|]].
  - unfold rd_pte. rewrite (proj2 (Z.eqb_neq a 0)) by lia. simpl. f_equal.
    unfold ent in H0. rewrite Hp in H0. by destruct (_ && _).
  - intros j Hj. rewrite (ex_ent _ _ _ _ _ _ He) by (done || (intros [E' _]; by apply child_not_self in E')).
    unfold ent. by rewrite Hnone.
Qed.

(** Entering a huge page in an empty entry. *)
Lemma huge_write vm tab p a i v :
  vmm_inv vm tab → tab !! p = Some a → (length p < 3)%nat → index_ok i →
  ent vm tab p i = 0 → present v = true → huge_page v = true →
  let vm' := set_mem vm (upd (v_mem vm) (a + 8 * i) v) in
  wr_pte vm a i v = Ok vm' ∧ extends vm tab vm' tab p i ∧ ent vm' tab p i = v.
Proof.
  intros Hi Hp Hl Hii H0 Hpr Hh vm'. pose proof (inv_table _ _ _ _ Hi Hp) as [Ha _].
  assert (Hent : ∀ q j, index_ok j →
    ent vm' tab q j = if decide (q = p ∧ j = i) then v else ent vm tab q j).
  { intros. by apply ent_upd. }
  split; [unfold wr_pte; by rewrite (proj2 (Z.eqb_neq a 0)) by lia|].
  split; [|by rewrite Hent, decide_True].
  constructor; [|done|done|simpl; lia|by intros; rewrite Hent, decide_False|by apply grown_same].
  destruct Hi as [? ? ? ? ? ? ? Hch Hab Hlf]. constructor; [done..| | |].
  - intros q j Hq Hj. rewrite Hent by done. case_decide as E; [|auto].
    destruct E as [-> ->]. rewrite Hch, H0 by done. unfold points_down. by rewrite Hpr, Hh.
  - intros q j Hj. rewrite Hent by done. case_decide; [congruence|auto].
  - intros q j Hq Hj. rewrite Hent by done. case_decide as E; [|auto]. destruct E as [-> _]. lia.
Qed.

(** The [i]-th 2 MB entry of the boot page directory. *)
Definition huge_entry (i : Z) : Z :=
  set_user (set_writable (set_present (set_address (set_huge_page 0 true) (i * 0x200000))
    true) true) false.

Lemma map_huge_ok n i vm tab p pd :
  vmm_inv vm tab → tab !! p = Some pd → (length p < 3)%nat → 0 ≤ i → i + Z.of_nat n ≤ 8 →
  (∀ j, i ≤ j < 8 → ent vm tab p j = 0) →
  exists vm', map_huge n i vm pd = Ok vm' ∧ vmm_inv vm' tab ∧ m_pml4 vm' = m_pml4 vm ∧
    v_pmm vm' = v_pmm vm ∧
    ∀ q j, index_ok j → ent vm' tab q j =
      if decide (q = p ∧ i ≤ j < i + Z.of_nat n) then huge_entry j else ent vm tab q j.
Proof.
  revert i vm. induction n as [|n IH]; intros i vm Hi Hp Hl H0 Hn Hz; simpl.
  { exists vm. split_and!; [done..|]. intros. rewrite decide_False; [done|lia]. }
  assert (Hii : index_ok i) by (unfold index_ok, ENTRIES_PER_TABLE; lia).
  assert (Hc : i = 0 ∨ i = 1 ∨ i = 2 ∨ i = 3 ∨ i = 4 ∨ i = 5 ∨ i = 6 ∨ i = 7) by lia.
  destruct (huge_write vm tab p pd i (huge_entry i)) as (E & He & Hen);
    [done|done|done|done|apply Hz; lia|destruct_or! Hc; by subst..|].
  fold (huge_entry i). rewrite E, bind_Ok.
  destruct (IH (i + 1) _ (ex_inv _ _ _ _ _ _ He) Hp) as (vm' & E' & Hi' & Hr' & Hpm' & Hent');
    [done|lia|lia|..].
  { intros j ?. rewrite (ex_ent _ _ _ _ _ _ He); [apply Hz; lia| |intros [_ ?]; lia].
    unfold index_ok, ENTRIES_PER_TABLE; lia. }
  exists vm'. split_and!; [done|done|by rewrite Hr'|by rewrite Hpm'|].
  intros q j Hj. rewrite Hent' by done. destruct (decide (q = p ∧ j = i)) as [[-> ->]|Hne].
  - rewrite decide_False, Hen by lia. by rewrite decide_True by (split; [done|lia]).
  - rewrite (ex_ent _ _ _ _ _ _ He) by done.
    destruct (decide (q = p ∧ i + 1 ≤ j < i + 1 + Z.of_nat n)) as [[-> ?]|Hno].
    + by rewrite decide_True by (split; [done|lia]).
    + rewrite decide_False; [done|]. intros [-> ?]. apply Hno. split; [done|].
      destruct (decide (j = i)) as [->|]; [by destruct Hne|lia].
Qed.

(** A zeroed root table is a tree by itself. *)
Lemma root_inv s s' k mem :
  takes s k s' → m_memory_start s `mod` 4096 = 0 →
  m_memory_start s + m_total_frames s * PAGE_SIZE ≤ 2 ^ 48 →
  let c := frame_addr s k in
  let vm := Vmm s' (λ x, if (c <=? x) && (x <? c + 8 * ENTRIES_PER_TABLE) then 0 else mem x) c in
  c ≠ 0 ∧ vmm_inv vm {[ [] := c ]} ∧ ∀ q j, index_ok j → ent vm {[ [] := c ]} q j = 0.
Proof.
  intros Ht Hal Hb c vm. destruct (tk_layout _ _ _ Ht) as [Htot Hst].
  assert (Hf : table_frame s' c).
  { exists k. destruct Ht as [Hr _ Hu _ _ _]. unfold c, frame_addr. rewrite Hst, Htot.
    split; [done|]. split; [done|]. by rewrite Hu, Z.eqb_refl, orb_true_r by lia. }
  assert (Hc : 0 < c < 2 ^ 48 ∧ c `mod` 4096 = 0).
  { apply (table_frame_range s'); [apply Ht|by rewrite Hst|by rewrite Hst, Htot|done]. }
  assert (H0 : ∀ q j, index_ok j → ent vm {[ [] := c ]} q j = 0).
  { intros q j Hj. unfold ent. rewrite lookup_singleton. case_decide; [|done]. simpl.
    unfold index_ok in Hj. by rewrite (proj2 (Z.leb_le _ _)), (proj2 (Z.ltb_lt _ _)) by lia. }
  split; [lia|]. split; [|done]. constructor; [apply Ht|..]; simpl.
  - by rewrite Hst.
  - by rewrite Hst, Htot.
  - apply lookup_singleton_eq.
  - intros p a [<- <-]%lookup_singleton_Some. split; [done|simpl; lia].
  - intros p q a [<- <-]%lookup_singleton_Some [<- _]%lookup_singleton_Some. done.
  - intros p i a [E _]%lookup_singleton_Some. by destruct p.
  - intros p i Hp Hi. rewrite H0 by done. simpl. apply lookup_singleton_ne. by destruct p.
  - intros p i Hi _. by apply H0.
  - intros p i Hp Hi. by rewrite H0.
Qed.

Lemma pdpt_entry_eq c : pdpt_entry c = table_entry 0 c.
Proof.
  apply Z.bits_inj'. intros b ?. rewrite table_entry_leaf, leaf_entry_testbit by done.
  unfold pdpt_entry, set_accessed, set_pcd, set_pwt. entry_bits.
  rewrite set_address_testbit by done. rewrite !set_flag_testbit by lia. rewrite Z.bits_0.
  destruct (Z.eqb_spec b 2), (Z.eqb_spec b 1), (Z.eqb_spec b 0), (Z.eqb_spec b 3),
    (Z.eqb_spec b 4), (Z.eqb_spec b 5), (Z.ltb_spec b 12), (Z.leb_spec 12 b), (Z.ltb_spec b 64);
    done || lia.
Qed.

(** What the boot tables hold: eight 2 MB pages at the bottom of memory, the
    two tables on the way to them, an empty table for the kernel half, and
    nothing else. *)
Record boot_tables vm tab : Prop := {
  bt_inv : vmm_inv vm tab;
  bt_huge i : 0 ≤ i < 8 → ent vm tab [0; 0] i = huge_entry i;
  bt_tables : points_down (ent vm tab [] 0) = true ∧ points_down (ent vm tab [0] 0) = true ∧
              points_down (ent vm tab [] 511) = true;
  bt_other q j : index_ok j → ¬ (q = [] ∧ (j = 0 ∨ j = 511)) → ¬ (q = [0] ∧ j = 0) →
    ¬ (q = [0; 0] ∧ j < 8) → ent vm tab q j = 0
}.

Lemma table_entry_down c : points_down (table_entry 0 c) = true.
Proof.
  rewrite table_entry_leaf. unfold points_down. by rewrite leaf_entry_present, leaf_entry_not_huge.
Qed.

(** With the boot tables in place, [map_page] of a page of the first two
    megabytes, as the VGA page is, changes nothing: its walk ends at the huge page
    whose base address is 0. *)
Lemma boot_map_low vm tab va pa w : path (Z.land va PAGE_MASK) = [0; 0; 0] →
  boot_tables vm tab → map_page vm va pa w = Ok vm.
Proof.
  intros [= E4 E3 E2] [Hi Hh (D1 & D2 & _) _]. unfold map_page. rewrite E4, E3, E2.
  assert (I0 : index_ok 0) by (unfold index_ok, ENTRIES_PER_TABLE; lia).
  destruct (next_level_found vm tab [] (m_pml4 vm) 0 true Hi (vi_root _ _ Hi)) as [-> T1];
    [simpl; lia|done|done|]. simpl in T1.
  rewrite bind_Ok. destruct (inv_table _ _ _ _ Hi T1). rewrite (proj2 (Z.eqb_neq _ 0)) by lia.
  destruct (next_level_found vm tab [0] _ 0 true Hi T1) as [-> T2]; [simpl; lia|done|done|].
  simpl in T2. rewrite bind_Ok. destruct (inv_table _ _ _ _ Hi T2).
  rewrite (proj2 (Z.eqb_neq _ 0)) by lia.
  assert (Hp : present (ent vm tab [0; 0] 0) = true) by (rewrite Hh by lia; done).
  assert (Ha : address (ent vm tab [0; 0] 0) = 0) by (rewrite Hh by lia; done).
  unfold get_next_level. rewrite (rd_pte_ent _ _ _ _ _ Hi T2), bind_Ok, Hp. simpl.
  rewrite (rd_pte_ent _ _ _ _ _ Hi T2), bind_Ok, Hp. simpl. by rewrite Ha.
Qed.

Lemma boot_map_vga vm tab : boot_tables vm tab → map_page vm 0xB8000 0xB8000 true = Ok vm.
Proof. by apply boot_map_low. Qed.

(** The part of [initialize] between the zeroed root and the eight huge
    pages: the tables at [[0]] and [[0; 0]] are created and entered. *)
Lemma boot_lower vm0 tab0 :
  vmm_inv vm0 tab0 → (∀ q j, index_ok j → ent vm0 tab0 q j = 0) →
  2 ≤ m_free_frames (v_pmm vm0) →
  exists pdpt v1 vm1 pd v2 vm2 vm3 tab,
    create_page_table vm0 = Ok (pdpt, v1) ∧ pdpt ≠ 0 ∧
    wr_pte v1 (m_pml4 vm0) 0 (table_entry 0 pdpt) = Ok vm1 ∧
    create_page_table vm1 = Ok (pd, v2) ∧ pd ≠ 0 ∧
    wr_pte v2 pdpt 0 (pdpt_entry pd) = Ok vm2 ∧
    map_huge 8 0 vm2 pd = Ok vm3 ∧
    vmm_inv vm3 tab ∧ m_pml4 vm3 = m_pml4 vm0 ∧
    m_free_frames (v_pmm vm0) - 2 ≤ m_free_frames (v_pmm vm3) ∧
    ∀ q j, index_ok j → ent vm3 tab q j =
      if decide (q = [0; 0] ∧ 0 ≤ j < 8) then huge_entry j
      else if decide (q = [0] ∧ j = 0) then table_entry 0 pd
      else if decide (q = [] ∧ j = 0) then table_entry 0 pdpt else 0.
Proof.
  intros Hi0 He0 Hf. assert (I0 : index_ok 0) by (unfold index_ok, ENTRIES_PER_TABLE; lia).
  destruct (create_and_enter vm0 tab0 [] (m_pml4 vm0) 0)
    as (pdpt & v1 & vm1 & E1 & Z1 & W1 & _ & X1 & N1 & A1);
    [done|apply (vi_root _ _ Hi0)|simpl; lia|done|by apply He0|lia|]. simpl app in *.
  pose proof (ex_free _ _ _ _ _ _ X1) as Hf1.
  destruct (create_and_enter vm1 (<[[0] := pdpt]> tab0) [0] pdpt 0)
    as (pd & v2 & vm2 & E2 & Z2 & W2 & _ & X2 & N2 & A2);
    [apply X1|apply lookup_insert_eq|simpl; lia|done|by apply A1|lia|]. simpl app in *.
  pose proof (ex_free _ _ _ _ _ _ X2) as Hf2. rewrite <- pdpt_entry_eq in W2.
  destruct (map_huge_ok 8 0 vm2 (<[[0; 0] := pd]> (<[[0] := pdpt]> tab0)) [0; 0] pd)
    as (vm3 & E3 & Hi3 & Hr3 & Hp3 & He3);
    [apply X2|apply lookup_insert_eq|simpl; lia|lia|lia|
     intros; apply A2; unfold index_ok, ENTRIES_PER_TABLE; lia|].
  exists pdpt, v1, vm1, pd, v2, vm2, vm3. eexists. split_and!;
    [exact E1|exact Z1|exact W1|exact E2|exact Z2|exact W2|exact E3|exact Hi3| |rewrite Hp3; lia|].
  { by rewrite Hr3, (ex_root _ _ _ _ _ _ X2), (ex_root _ _ _ _ _ _ X1). }
  intros q j Hj. rewrite He3 by done.
  destruct (decide (q = [0; 0] ∧ 0 ≤ j < 0 + Z.of_nat 8)) as [[-> ?]|Hn].
  { rewrite decide_True by (split; [done|lia]). done. }
  rewrite (decide_False (P := q = [0; 0] ∧ _)) by (intros [-> ?]; apply Hn; split; [done|lia]).
  case_decide as Hq; [by destruct Hq as [-> ->]|].
  rewrite (ex_ent _ _ _ _ _ _ X2) by done.
  case_decide as Hq'; [by destruct Hq' as [-> ->]|].
  rewrite (ex_ent _ _ _ _ _ _ X1) by done. by apply He0.
Qed.

Lemma vmm_initialize_ok vm :
  pmm_wf (v_pmm vm) → m_memory_start (v_pmm vm) `mod` 4096 = 0 →
  m_memory_start (v_pmm vm) + m_total_frames (v_pmm vm) * PAGE_SIZE ≤ 2 ^ 48 →
  4 ≤ m_free_frames (v_pmm vm) →
  exists vm' tab, vmm_initialize vm = Ok vm' ∧ boot_tables vm' tab ∧
    m_free_frames (v_pmm vm) - 4 ≤ m_free_frames (v_pmm vm').
Proof.
  intros Hwf Hal Hb Hf. unfold vmm_initialize.
  assert (I0 : index_ok 0) by (unfold index_ok, ENTRIES_PER_TABLE; lia).
  assert (I511 : index_ok 511) by (unfold index_ok, ENTRIES_PER_TABLE; lia).
  destruct (allocate_frame_takes (v_pmm vm)) as (k & s0 & Ht & ->); [done|lia|].
  destruct (root_inv (v_pmm vm) s0 k (v_mem vm) Ht Hal Hb) as (Hc & Hi0 & He0).
  pose proof (tk_free _ _ _ Ht) as Hf0. rewrite bind_Ok, (proj2 (Z.eqb_neq _ 0)) by done.
  unfold zero_table at 1. rewrite (proj2 (Z.eqb_neq (frame_addr (v_pmm vm) k) 0)), bind_Ok by done.
  match type of Hi0 with vmm_inv ?x ?t => set (vm0 := x) in *; set (tab0 := t) in * end.
  change (set_mem _ _) with vm0. change (frame_addr (v_pmm vm) k) with (m_pml4 vm0).
  destruct (boot_lower vm0 tab0 Hi0 He0) as (pdpt & v1 & vm1 & pd & v2 & vm2 & vm3 & tab &
    E1 & Z1 & W1 & E2 & Z2 & W2 & E3 & Hi3 & Hr3 & Hf3 & He3); [simpl; lia|].
  change (m_free_frames (v_pmm vm0)) with (m_free_frames s0) in Hf3.
  rewrite E1, bind_Ok, (proj2 (Z.eqb_neq pdpt 0)), W1, bind_Ok by done.
  rewrite E2, bind_Ok, (proj2 (Z.eqb_neq pd 0)), W2, bind_Ok, E3, bind_Ok by done.
  destruct (create_and_enter vm3 tab [] (m_pml4 vm0) 511)
    as (kp & v4 & vm4 & E4 & Z4 & W4 & R4 & X4 & N4 & A4);
    [done|rewrite <- Hr3; apply Hi3|simpl; lia|done|by rewrite He3 by done|lia|].
  rewrite E4, bind_Ok, (proj2 (Z.eqb_neq kp 0)), R4, bind_Ok, W4, bind_Ok by done. simpl app in *.
  pose proof (ex_free _ _ _ _ _ _ X4) as Hf4. pose proof (ex_ent _ _ _ _ _ _ X4) as He4.
  assert (Hb4 : boot_tables vm4 (<[[511] := kp]> tab)).
  { constructor; [apply X4|..].
    - intros i ?. assert (index_ok i) by (unfold index_ok, ENTRIES_PER_TABLE; lia).
      rewrite He4, He3 by (done || naive_solver). by rewrite decide_True.
    - rewrite N4, !He4, !He3 by (done || naive_solver). simpl. by rewrite !table_entry_down.
    - intros q j Hj Hq1 Hq2 Hq3. unfold index_ok in Hj. rewrite He4, He3 by (done || naive_solver).
      rewrite decide_False by (intros [-> ?]; apply Hq3; split; [done|lia]).
      rewrite !decide_False; [done|naive_solver..]. }
  exists vm4, (<[[511] := kp]> tab). split; [by eapply boot_map_vga|]. split; [done|]. lia.
Qed.
End tree.

Lemma retains_no_huge vm tab vm' tab' q j va :
  retains vm tab vm' tab' q j → no_huge vm tab va → no_huge vm' tab' va.
Proof.
  intros R (H4 & H3 & H2).
  split_and!; apply (rt_huge _ _ _ _ _ _ R); by try apply index_mask_ok.
Qed.

Lemma retains_translate vm tab vm' tab' va va' :
  retains vm tab vm' tab' (path va) (pt_index va) → vmm_inv vm tab → no_huge vm tab va' →
  ¬ (path va' = path va ∧ pt_index va' = pt_index va) →
  get_physical_address vm' va' = get_physical_address vm va'.
Proof.
  intros R Hi Hn Hne.
  rewrite (get_physical_address_translate vm tab), (get_physical_address_translate vm' tab');
    [|apply R|by eapply retains_no_huge|done|done].
  unfold translate, leaf.
  by rewrite (rt_leaf _ _ _ _ _ _ R (path va') (pt_index va') eq_refl (index_mask_ok _ _) Hne).
Qed.

(** Two addresses in the same page, as far as the walk can tell. *)
Definition same_page (va va' : Z) : Prop := path va' = path va ∧ pt_index va' = pt_index va.

Lemma land_masks pa :
  Z.land (Z.land pa PAGE_MASK) 0xFFFFFFFFF000 = Z.land pa 0xFFFFFFFFF000.
Proof. rewrite <- Z.land_assoc. done. Qed.

(** [C19] [map_page] and [get_physical_address]: on a well-formed tree, with
    three free frames, mapping an unmapped page succeeds, the page then
    translates to the physical page asked for, and every other page
    translates as before.  A page already mapped keeps its old translation:
    the request is silently ignored. *)
Theorem map_page_spec vm tab va pa w :
  vmm_inv vm tab → no_huge vm tab va → 3 ≤ m_free_frames (v_pmm vm) →
  exists vm' tab', map_page vm va pa w = Ok vm' ∧ vmm_inv vm' tab' ∧
    get_physical_address vm' va =
      Ok (if present (leaf vm tab va) then translate vm tab va else Z.land pa 0xFFFFFFFFF000) ∧
    ∀ va', no_huge vm tab va' → ¬ same_page va va' →
      get_physical_address vm' va' = get_physical_address vm va'.
Proof.
  intros Hi Hn Hf. destruct (map_page_ok vm tab va pa w Hi Hn Hf) as (vm' & tab' & E & R & L & _).
  exists vm', tab'. split_and!; [done|apply R| |].
  - rewrite (get_physical_address_translate vm' tab') by (apply R || by eapply retains_no_huge).
    f_equal. unfold translate. rewrite L.
    destruct (present (leaf vm tab va)) eqn:Hpr; [by rewrite Hpr|].
    by rewrite leaf_entry_present, leaf_entry_address, land_masks.
  - intros va' Hn' Hne. by apply (retains_translate vm tab vm' tab' va).
Qed.

(** [C20] [unmap_page] removes exactly the page's translation. *)
Theorem unmap_page_spec vm tab va :
  vmm_inv vm tab → no_huge vm tab va →
  exists vm', unmap_page vm va = Ok vm' ∧ vmm_inv vm' tab ∧ v_pmm vm' = v_pmm vm ∧
    get_physical_address vm' va = Ok 0 ∧
    ∀ va', no_huge vm tab va' → ¬ same_page va va' →
      get_physical_address vm' va' = get_physical_address vm va'.
Proof.
  intros Hi Hn. destruct (unmap_page_ok vm tab va Hi Hn) as (vm' & E & Hp & R & L).
  exists vm'. split_and!; [done|apply R|done| |].
  - rewrite (get_physical_address_translate vm' tab) by (apply R || by eapply retains_no_huge).
    unfold translate. by rewrite L.
  - intros va' Hn' Hne. by apply (retains_translate vm tab vm' tab va).
Qed.

Lemma boot_mappable vm tab va :
  boot_tables vm tab → ¬ (pml4_index va = 0 ∧ pdpt_index va = 0 ∧ pd_index va < 8) →
  no_huge vm tab va ∧ present (leaf vm tab va) = false.
Proof.
  intros B Hva. destruct (bt_tables _ _ B) as (D0 & D1 & D2).
  assert (Hd : ∀ v, points_down v = true → huge_page v = false).
  { unfold points_down. intros v [_ ?]%andb_true_iff. by apply negb_true_iff. }
  assert (I : index_ok (pml4_index va) ∧ index_ok (pdpt_index va) ∧ index_ok (pd_index va))
    by (split_and!; apply index_mask_ok). destruct I as (I4 & I3 & I2).
  split; [split_and!|].
  - destruct (decide (pml4_index va = 0)) as [->|]; [by apply Hd|].
    destruct (decide (pml4_index va = 511)) as [->|]; [by apply Hd|].
    by rewrite (bt_other _ _ B) by (done || naive_solver).
  - destruct (decide (pml4_index va = 0 ∧ pdpt_index va = 0)) as [[-> ->]|]; [by apply Hd|].
    by rewrite (bt_other _ _ B) by (done || naive_solver).
  - by rewrite (bt_other _ _ B) by (done || naive_solver).
  - unfold leaf. by rewrite (bt_other _ _ B) by (apply index_mask_ok || done || (unfold path; intros [E _]; discriminate)).
Qed.

(** [initialize] builds a well-formed tree whose only pages are the eight
    2 MB pages at the bottom of memory, so every address outside the first
    16 MB is untranslated and mappable. *)
Theorem vmm_initialize_spec vm :
  pmm_wf (v_pmm vm) → m_memory_start (v_pmm vm) `mod` 4096 = 0 →
  m_memory_start (v_pmm vm) + m_total_frames (v_pmm vm) * PAGE_SIZE ≤ 2 ^ 48 →
  4 ≤ m_free_frames (v_pmm vm) →
  exists vm' tab, vmm_initialize vm = Ok vm' ∧ vmm_inv vm' tab ∧
    (∀ i, 0 ≤ i < 8 → let e := ent vm' tab [0; 0] i in
       present e = true ∧ writable e = true ∧ user e = false ∧ huge_page e = true ∧
       address e = i * 0x200000) ∧
    ∀ va, ¬ (pml4_index va = 0 ∧ pdpt_index va = 0 ∧ pd_index va < 8) →
      no_huge vm' tab va ∧ get_physical_address vm' va = Ok 0.
Proof.
  intros Hwf Hal Hb Hf. destruct (vmm_initialize_ok vm) as (vm' & tab & E & B & _); [done..|].
  exists vm', tab. split; [done|]. split; [apply B|]. split.
  - intros i Hi e. unfold e. rewrite (bt_huge _ _ B) by done.
    assert (Hc : i = 0 ∨ i = 1 ∨ i = 2 ∨ i = 3 ∨ i = 4 ∨ i = 5 ∨ i = 6 ∨ i = 7) by lia.
    destruct_or! Hc; by subst.
  - intros va Hva.
    destruct (boot_mappable vm' tab va B Hva) as [Hn Hl]. split; [done|].
    rewrite (get_physical_address_translate vm' tab) by (apply B || done). unfold translate. by rewrite Hl.
Qed.

(** [get_physical_address] loses the offset within the page: whatever
    the address, the result is a multiple of the page size. *)
Theorem get_physical_address_aligned vm va r :
  get_physical_address vm va = Ok r → r `mod` 4096 = 0.
Proof.
  unfold get_physical_address. rewrite offset_of_masked. intros E.
  repeat (apply bind_Ok_inv in E as ([? ?] & _ & E); destruct (_ =? 0) in E; [by simplify_eq|]).
  apply bind_Ok_inv in E as (pte & _ & E). destruct (negb (present pte)); simplify_eq; [done|].
  rewrite Z.lor_0_r. change 4096 with (2 ^ 12). apply Z.bits_inj'. intros b ?. rewrite Z.bits_0.
  destruct (decide (b < 12)); [|by rewrite Z.mod_pow2_bits_high by lia].
  rewrite Z.mod_pow2_bits_low, Z.land_spec, page_mask_testbit by lia.
  rewrite (proj2 (Z.leb_gt 12 b)) by lia. apply andb_false_r.
Qed.

(** [map_page] does not look at the huge-page bit: asked for a page that
    lies in a 2 MB page with a non-zero base, it takes the data of that page
    for a page table and overwrites a word of it. *)
Theorem map_page_huge_overwrites vm tab va pa w :
  vmm_inv vm tab →
  points_down (ent vm tab [] (pml4_index va)) = true →
  points_down (ent vm tab [pml4_index va] (pdpt_index va)) = true →
  let e := ent vm tab [pml4_index va; pdpt_index va] (pd_index va) in
  present e = true → huge_page e = true → address e ≠ 0 →
  let word := address e + 8 * pt_index va in
  present (v_mem vm word) = false →
  exists vm', map_page vm va pa w = Ok vm' ∧
    v_mem vm' word = leaf_entry (v_mem vm word) (Z.land pa PAGE_MASK) w ∧
    v_mem vm' word ≠ v_mem vm word.
Proof.
  intros Hi D4 D3 e Hp Hh Ha word Hw. unfold map_page.
  destruct (indices_masked va) as (-> & -> & -> & ->).
  destruct (next_level_found vm tab [] (m_pml4 vm) (pml4_index va) true Hi (vi_root _ _ Hi))
    as [-> T1]; [simpl; lia|apply index_mask_ok|done|]. simpl in T1.
  rewrite bind_Ok. destruct (inv_table _ _ _ _ Hi T1). rewrite (proj2 (Z.eqb_neq _ 0)) by lia.
  destruct (next_level_found vm tab [pml4_index va] _ (pdpt_index va) true Hi T1)
    as [-> T2]; [simpl; lia|apply index_mask_ok|done|]. simpl in T2.
  rewrite bind_Ok. destruct (inv_table _ _ _ _ Hi T2). rewrite (proj2 (Z.eqb_neq _ 0)) by lia.
  unfold get_next_level. rewrite (rd_pte_ent _ _ _ _ _ Hi T2), bind_Ok. fold e. rewrite Hp. simpl.
  rewrite (rd_pte_ent _ _ _ _ _ Hi T2), bind_Ok. fold e. rewrite Hp. simpl.
  rewrite (proj2 (Z.eqb_neq (address e) 0)) by done. unfold rd_pte, wr_pte.
  rewrite (proj2 (Z.eqb_neq (address e) 0)), bind_Ok by done. fold word. rewrite Hw. simpl.
  eexists. split; [done|]. unfold set_mem, upd. simpl. rewrite Z.eqb_refl.
  split; [done|]. intros E. apply (f_equal present) in E. rewrite Hw in E.
  unfold present, leaf_entry, set_user, set_writable, set_present in E.
  rewrite flag_testbit, !set_flag_testbit in E by lia. done.
Qed.

(** ** Concrete states: boot tables in a small memory *)

Definition vmm_all_free (n : Z) : VirtualMemoryManager := Vmm (pmm_all_free n) (λ _, 0) 0.
Definition vmm_booted (n : Z) : VirtualMemoryManager :=
  ok_or (vmm_all_free n) (vmm_initialize (vmm_all_free n)).
Definition vmm_unset : VirtualMemoryManager := vmm_all_free 64.
Definition vmm_boot : VirtualMemoryManager := vmm_booted 64.

Lemma vmm_all_free_hyps n :
  4 ≤ n ≤ 16384 * 32 →
  pmm_wf (v_pmm (vmm_all_free n)) ∧ m_memory_start (v_pmm (vmm_all_free n)) `mod` 4096 = 0 ∧
  m_memory_start (v_pmm (vmm_all_free n)) + m_total_frames (v_pmm (vmm_all_free n)) * PAGE_SIZE ≤ 2 ^ 48 ∧
  4 ≤ m_free_frames (v_pmm (vmm_all_free n)).
Proof.
  intros Hn. split; [apply pmm_all_free_wf; lia|]. split; [reflexivity|].
  change (m_memory_start (v_pmm (vmm_all_free n))) with 0x100000.
  change (m_total_frames (v_pmm (vmm_all_free n))) with n.
  change (m_free_frames (v_pmm (vmm_all_free n))) with n. unfold PAGE_SIZE. lia.
Qed.

Lemma vmm_unset_hyps :
  pmm_wf (v_pmm vmm_unset) ∧ m_memory_start (v_pmm vmm_unset) `mod` 4096 = 0 ∧
  m_memory_start (v_pmm vmm_unset) + m_total_frames (v_pmm vmm_unset) * PAGE_SIZE ≤ 2 ^ 48 ∧
  4 ≤ m_free_frames (v_pmm vmm_unset).
Proof. apply vmm_all_free_hyps. lia. Qed.

Lemma vmm_booted_tables n :
  4 ≤ n ≤ 16384 * 32 →
  exists tab, boot_tables (vmm_booted n) tab ∧ n - 4 ≤ m_free_frames (v_pmm (vmm_booted n)).
Proof.
  intros Hn. destruct (vmm_all_free_hyps n Hn) as (H1 & H2 & H3 & H4).
  destruct (vmm_initialize_ok (vmm_all_free n) H1 H2 H3 H4) as (vm' & tab & E & B & F).
  exists tab. unfold vmm_booted. rewrite E. unfold ok_or. split; [exact B|].
  change (m_free_frames (v_pmm (vmm_all_free n))) with n in F. exact F.
Qed.

Lemma vmm_boot_tables :
  exists tab, boot_tables vmm_boot tab ∧ 60 ≤ m_free_frames (v_pmm vmm_boot).
Proof. apply (vmm_booted_tables 64). lia. Qed.

(** The first page of the kernel heap, outside the boot huge pages. *)
Definition heap_page : Z := 0x3100000.

Lemma boot_heap_page_free tab : boot_tables vmm_boot tab → no_huge vmm_boot tab heap_page.
Proof.
  intros B. destruct (bt_tables _ _ B) as (D0 & D1 & _).
  assert (Hd : ∀ v, points_down v = true → huge_page v = false).
  { unfold points_down. intros v [_ ?]%andb_true_iff. by apply negb_true_iff. }
  split_and!; [by apply Hd|by apply Hd|].
  change (pd_index heap_page) with 24. change (pml4_index heap_page) with 0.
  change (pdpt_index heap_page) with 0. rewrite (bt_other _ _ B); [done|..].
  - unfold index_ok, ENTRIES_PER_TABLE; lia.
  - by intros [].
  - by intros [].
  - intros [_ ?]. lia.
Qed.

Lemma map_page_spec_witness :
  exists tab, vmm_inv vmm_boot tab ∧ no_huge vmm_boot tab heap_page ∧
    3 ≤ m_free_frames (v_pmm vmm_boot) ∧
    exists vm' tab', map_page vmm_boot heap_page heap_page true = Ok vm' ∧ vmm_inv vm' tab' ∧
      get_physical_address vm' heap_page =
        Ok (if present (leaf vmm_boot tab heap_page) then translate vmm_boot tab heap_page
            else Z.land heap_page 0xFFFFFFFFF000) ∧
      ∀ va', no_huge vmm_boot tab va' → ¬ same_page heap_page va' →
        get_physical_address vm' va' = get_physical_address vmm_boot va'.
Proof.
  destruct vmm_boot_tables as (tab & B & F60). exists tab.
  assert (F : 3 ≤ m_free_frames (v_pmm vmm_boot)) by lia.
  pose proof (bt_inv _ _ B) as Hi. pose proof (boot_heap_page_free tab B) as Hn.
  exact (conj Hi (conj Hn (conj F (map_page_spec vmm_boot tab heap_page heap_page true Hi Hn F)))).
Defined.

Lemma unmap_page_spec_witness :
  exists tab, vmm_inv vmm_boot tab ∧ no_huge vmm_boot tab heap_page ∧
    exists vm', unmap_page vmm_boot heap_page = Ok vm' ∧ vmm_inv vm' tab ∧
      v_pmm vm' = v_pmm vmm_boot ∧ get_physical_address vm' heap_page = Ok 0 ∧
      ∀ va', no_huge vmm_boot tab va' → ¬ same_page heap_page va' →
        get_physical_address vm' va' = get_physical_address vmm_boot va'.
Proof.
  destruct vmm_boot_tables as (tab & B & F60). exists tab.
  assert (F : 3 ≤ m_free_frames (v_pmm vmm_boot)) by lia.
  pose proof (bt_inv _ _ B) as Hi. pose proof (boot_heap_page_free tab B) as Hn.
  exact (conj Hi (conj Hn (unmap_page_spec vmm_boot tab heap_page Hi Hn))).
Defined.

Lemma vmm_initialize_spec_witness :
  exists vm' tab, vmm_initialize vmm_unset = Ok vm' ∧ vmm_inv vm' tab.
Proof.
  destruct vmm_unset_hyps as (H1 & H2 & H3 & H4).
  destruct (vmm_initialize_spec vmm_unset H1 H2 H3 H4) as (vm' & tab & E & Hi & _).
  exists vm', tab. exact (conj E Hi).
Defined.

(** The page at 4 MB, where a user program is usually linked, lies in the
    third boot huge page. *)
Definition user_page : Z := 0x400000.

Lemma map_page_huge_overwrites_witness :
  exists vm', map_page vmm_boot user_page 0x300000 true = Ok vm' ∧
    v_mem vm' 0x400000 ≠ v_mem vmm_boot 0x400000.
Proof.
  destruct vmm_boot_tables as (tab & B & _).
  pose proof (bt_inv _ _ B) as Hi. destruct (bt_tables _ _ B) as (D0 & D1 & _).
  pose proof (bt_huge _ _ B 2 ltac:(lia)) as Hh.
  assert (Hw : present (v_mem vmm_boot 0x400000) = false) by (vm_compute; reflexivity).
  assert (Hp : present (ent vmm_boot tab [0; 0] 2) = true) by (rewrite Hh; vm_compute; reflexivity).
  assert (Hg : huge_page (ent vmm_boot tab [0; 0] 2) = true) by (rewrite Hh; vm_compute; reflexivity).
  assert (Ha : address (ent vmm_boot tab [0; 0] 2) = 0x400000) by (rewrite Hh; vm_compute; reflexivity).
  destruct (map_page_huge_overwrites vmm_boot tab user_page 0x300000 true Hi D0 D1 Hp Hg)
    as (vm' & E & _ & Hne).
  - change (address (ent vmm_boot tab [0; 0] 2) ≠ 0). rewrite Ha. clear. lia.
  - change (present (v_mem vmm_boot (address (ent vmm_boot tab [0; 0] 2) + 8 * 0)) = false).
    rewrite Ha. exact Hw.
  - exists vm'. split; [exact E|].
    change (v_mem vm' (address (ent vmm_boot tab [0; 0] 2) + 8 * 0) ≠
            v_mem vmm_boot (address (ent vmm_boot tab [0; 0] 2) + 8 * 0)) in Hne.
    rewrite Ha in Hne. exact Hne.
Defined.

Lemma get_physical_address_aligned_witness :
  get_physical_address vmm_boot 0x123 = Ok 0 ∧ 0 `mod` 4096 = 0.
Proof.
  assert (E : get_physical_address vmm_boot 0x123 = Ok 0) by (vm_compute; reflexivity).
  exact (conj E (get_physical_address_aligned vmm_boot 0x123 0 E)).
Defined.
