(* ===== verification/Heap.v ===== *)
(** * The kernel heap (src/kernel/src/memory/heap.{hpp,cpp})

    [h_blocks] is the memory that holds the block headers, by address; the
    linked list of the code is followed through it, so a pointer that is not a
    header is undefined to follow.  The allocator also takes and returns page
    frames, as the code does, so its state includes the frame allocator.  The
    abstract view is a list of segments [(address, size, free)] that tiles the
    heap; allocation refines first fit and [free] refines coalescing on it. *)

From S2P Require Import Prelude Pmm.

(** ** State and operations *)

Record HeapBlock := Blk { b_size : Z; b_free : bool; b_next : Z }.

Record HeapAllocator := HeapA {
  h_blocks : gmap Z HeapBlock;
  m_first_block : Z;
  m_total_size : Z;
  m_used_memory : Z;
  h_pmm : PhysicalMemoryManager
}.

(** [sizeof(HeapBlock)]: a size_t, a bool padded to eight bytes, a pointer. *)
Definition sizeof_HeapBlock : Z := 24.

Definition set_blocks (h : HeapAllocator) (bs : gmap Z HeapBlock) (used : Z) :=
  HeapA bs (m_first_block h) (m_total_size h) used (h_pmm h).
Definition set_heap_pmm (h : HeapAllocator) (s : PhysicalMemoryManager) :=
  HeapA (h_blocks h) (m_first_block h) (m_total_size h) (m_used_memory h) s.

Definition block_at (bs : gmap Z HeapBlock) (p : Z) : outcome HeapBlock :=
  match bs !! p with Some b => Ok b | None => UB end.

Lemma block_at_Some bs p b : bs !! p = Some b → block_at bs p = Ok b.
Proof. intros E. unfold block_at. by rewrite E. Qed.

Definition heap_initialize (h : HeapAllocator) (heap_start heap_size : Z) : HeapAllocator :=
  HeapA (<[heap_start := Blk (u64 (heap_size - sizeof_HeapBlock)) true 0]> (h_blocks h))
    heap_start heap_size sizeof_HeapBlock (h_pmm h).

(** Enough fuel to visit every header once. *)
Definition list_fuel (bs : gmap Z HeapBlock) : nat := S (size bs).

Fixpoint find_from (fuel : nat) (bs : gmap Z HeapBlock) (current size : Z) : outcome Z :=
  match fuel with
  | O => OutOfFuel
  | S fuel' =>
      if current =? 0 then Ok 0 else
      b ← block_at bs current;
      if b_free b && (size <=? b_size b) then Ok current
      else find_from fuel' bs (b_next b) size
  end.

Definition find_free_block (h : HeapAllocator) (size : Z) : outcome Z :=
  find_from (list_fuel (h_blocks h)) (h_blocks h) (m_first_block h) size.

Definition split_block (h : HeapAllocator) (block size : Z) : outcome HeapAllocator :=
  b ← block_at (h_blocks h) block;
  if u64 (size + sizeof_HeapBlock + 32) <=? b_size b then
    let new_block := block + sizeof_HeapBlock + size in
    let nb := Blk (u64 (b_size b - size - sizeof_HeapBlock)) true (b_next b) in
    Ok (set_blocks h (<[block := Blk size (b_free b) new_block]> (<[new_block := nb]> (h_blocks h)))
          (u64 (m_used_memory h + sizeof_HeapBlock)))
  else Ok h.

(** [n] calls of [free_frame] on consecutive pages from [addr]. *)
Fixpoint free_pages (n : nat) (addr : Z) (s : PhysicalMemoryManager)
    : outcome PhysicalMemoryManager :=
  match n with
  | O => Ok s
  | S n' => s ← free_frame s addr; free_pages n' (addr + PAGE_SIZE) s
  end.

(** The frame loop of [allocate]: [n] frames left to take, [i] taken.  When the
    frames run out it frees [i] pages counted from the block's own address. *)
Fixpoint take_frames (n i : nat) (block : Z) (s : PhysicalMemoryManager)
    : outcome (bool * PhysicalMemoryManager) :=
  match n with
  | O => Ok (true, s)
  | S n' =>
      '(frame, s) ← allocate_frame s;
      if frame =? 0 then
        s ← free_pages i block s;
        Ok (false, s)
      else take_frames n' (S i) block s
  end.

Definition round16 (size : Z) : Z := Z.land (u64 (size + 15)) (u64 (Z.lnot 15)).
Definition num_pages (size : Z) : nat := Z.to_nat (u64 (size + PAGE_SIZE - 1) / PAGE_SIZE).

Definition allocate (h : HeapAllocator) (size : Z) : outcome (Z * HeapAllocator) :=
  if size =? 0 then Ok (0, h) else
  let size := round16 size in
  block ← find_free_block h size;
  if block =? 0 then Ok (0, h) else
  h ← split_block h block size;
  b ← block_at (h_blocks h) block;
  let h := set_blocks h (<[block := Blk (b_size b) false (b_next b)]> (h_blocks h))
             (u64 (m_used_memory h + size)) in
  '(ok, s) ← take_frames (num_pages size) 0 block (h_pmm h);
  Ok (if (ok : bool) then block + sizeof_HeapBlock else 0, set_heap_pmm h s).

Fixpoint merge_from (fuel : nat) (bs : gmap Z HeapBlock) (used current : Z)
    : outcome (gmap Z HeapBlock * Z) :=
  match fuel with
  | O => OutOfFuel
  | S fuel' =>
      if current =? 0 then Ok (bs, used) else
      b ← block_at bs current;
      if b_next b =? 0 then Ok (bs, used) else
      n ← block_at bs (b_next b);
      if b_free b && b_free n then
        merge_from fuel'
          (<[current := Blk (u64 (b_size b + sizeof_HeapBlock + b_size n)) (b_free b) (b_next n)]> bs)
          (u64 (used - sizeof_HeapBlock)) current
      else merge_from fuel' bs used (b_next b)
  end.

Definition merge_free_blocks (h : HeapAllocator) : outcome HeapAllocator :=
  '(bs, used) ← merge_from (list_fuel (h_blocks h)) (h_blocks h) (m_used_memory h) (m_first_block h);
  Ok (set_blocks h bs used).

Definition heap_free (h : HeapAllocator) (ptr : Z) : outcome HeapAllocator :=
  if ptr =? 0 then Ok h else
  let block := ptr - sizeof_HeapBlock in
  b ← block_at (h_blocks h) block;
  s ← free_pages (num_pages (b_size b)) block (h_pmm h);
  let h := set_heap_pmm h s in
  merge_free_blocks
    (set_blocks h (<[block := Blk (b_size b) true (b_next b)]> (h_blocks h))
       (u64 (m_used_memory h - b_size b))).

Definition get_free_memory (h : HeapAllocator) : Z := u64 (m_total_size h - m_used_memory h).
Definition get_used_memory (h : HeapAllocator) : Z := m_used_memory h.

(** ** Abstract specification *)

Record seg := Seg { s_addr : Z; s_size : Z; s_free : bool }.
#[export] Instance seg_eq_dec : EqDecision seg.
Proof. solve_decision. Defined.

(** The memory segments tile [[p, e)]. *)
Fixpoint tiles (p : Z) (l : list seg) (e : Z) : Prop :=
  match l with
  | [] => p = e
  | g :: l => s_addr g = p ∧ 0 ≤ s_size g ∧ tiles (p + sizeof_HeapBlock + s_size g) l e
  end.

(** The linked list from [p] runs through the segments and ends at [q]. *)
Fixpoint chain (bs : gmap Z HeapBlock) (p : Z) (l : list seg) (q : Z) : Prop :=
  match l with
  | [] => p = q
  | g :: l => s_addr g = p ∧ p ≠ 0 ∧
      exists nx, bs !! p = Some (Blk (s_size g) (s_free g) nx) ∧ chain bs nx l q
  end.

Record heap_rep (h : HeapAllocator) (start end_ : Z) (l : list seg) : Prop := {
  hr_chain : chain (h_blocks h) (m_first_block h) l 0;
  hr_tiles : tiles start l end_;
  hr_start : 0 < start;
  hr_end : end_ < 2 ^ 63;
  hr_pmm : pmm_wf (h_pmm h)
}.

(** First fit, with the split rule: a segment is split when the rest holds a
    header and 32 bytes. *)
Definition carve (g : seg) (n : Z) : list seg :=
  if n + 56 <=? s_size g
  then [Seg (s_addr g) n false;
        Seg (s_addr g + sizeof_HeapBlock + n) (s_size g - n - sizeof_HeapBlock) true]
  else [Seg (s_addr g) (s_size g) false].

Fixpoint first_fit (n : Z) (l : list seg) : option (Z * list seg) :=
  match l with
  | [] => None
  | g :: l =>
      if s_free g && (n <=? s_size g) then Some (s_addr g, carve g n ++ l)
      else '(a, l') ← first_fit n l; Some (a, g :: l')
  end.

(** Coalescing: a free segment absorbs the free segments after it. *)
Fixpoint coalesce_into (g : seg) (l : list seg) : list seg :=
  match l with
  | [] => [g]
  | g' :: l =>
      if s_free g && s_free g'
      then coalesce_into (Seg (s_addr g) (s_size g + sizeof_HeapBlock + s_size g') true) l
      else g :: coalesce_into g' l
  end.

Definition coalesce (l : list seg) : list seg :=
  match l with [] => [] | g :: l => coalesce_into g l end.

Definition release (a : Z) (l : list seg) : list seg :=
  (λ g, if s_addr g =? a then Seg (s_addr g) (s_size g) true else g) <$> l.

(** The bytes of a segment its user may touch. *)
Definition in_payload (g : seg) (x : Z) : Prop :=
  s_addr g + sizeof_HeapBlock ≤ x < s_addr g + sizeof_HeapBlock + s_size g.

(** Segments that are neighbours are not both free. *)
Fixpoint no_adjacent_free (l : list seg) : Prop :=
  match l with
  | [] => True
  | g :: l =>
      match l with
      | [] => True
      | g' :: _ => s_free g && s_free g' = false ∧ no_adjacent_free l
      end
  end.

(** ** Segment lists *)

Lemma tiles_app p l1 l2 e :
  tiles p (l1 ++ l2) e ↔ exists m, tiles p l1 m ∧ tiles m l2 e.
Proof. revert p. induction l1 as [|g l1 IH]; intros p; simpl; [naive_solver|]. rewrite IH. naive_solver. Qed.

Lemma tiles_le p l e : tiles p l e → p ≤ e.
Proof.
  revert p. induction l as [|g l IH]; simpl; intros p; [lia|].
  intros (? & ? & ?%IH). unfold sizeof_HeapBlock in *. lia.
Qed.

Lemma tiles_in p l e g :
  tiles p l e → g ∈ l →
  p ≤ s_addr g ∧ 0 ≤ s_size g ∧ s_addr g + sizeof_HeapBlock + s_size g ≤ e.
Proof.
  intros Ht (l1 & l2 & ->)%list_elem_of_split.
  apply tiles_app in Ht as (m & Ht1 & Ha & ? & Ht2).
  apply tiles_le in Ht1, Ht2. lia.
Qed.

Lemma tiles_NoDup p l e : tiles p l e → NoDup (s_addr <$> l).
Proof.
  revert p. induction l as [|g l IH]; simpl; intros p; [constructor|].
  intros (Ha & ? & Ht). constructor; [|by eapply IH].
  intros (g' & E & Hin)%list_elem_of_fmap.
  pose proof (tiles_in _ _ _ _ Ht Hin). unfold sizeof_HeapBlock in *. lia.
Qed.

(** Two segments of a tiling have no byte in common, headers included. *)
Lemma tiles_disjoint p l e g1 g2 x :
  tiles p l e → g1 ∈ l → g2 ∈ l → g1 ≠ g2 →
  s_addr g1 ≤ x < s_addr g1 + sizeof_HeapBlock + s_size g1 →
  s_addr g2 ≤ x < s_addr g2 + sizeof_HeapBlock + s_size g2 → False.
Proof.
  revert p. induction l as [|g l IH]; simpl; intros p; [set_solver|].
  intros (Ha & ? & Ht) H1 H2 Hne ??.
  apply elem_of_cons in H1 as [->|H1], H2 as [->|H2]; [done|..|by eapply IH].
  - pose proof (tiles_in _ _ _ _ Ht H2). lia.
  - pose proof (tiles_in _ _ _ _ Ht H1). lia.
Qed.

Lemma chain_app bs p l1 l2 q :
  chain bs p (l1 ++ l2) q ↔ exists m, chain bs p l1 m ∧ chain bs m l2 q.
Proof.
  revert p. induction l1 as [|g l1 IH]; intros p; simpl; [naive_solver|].
  setoid_rewrite IH. naive_solver.
Qed.

Lemma chain_ext bs bs' p l q :
  (∀ a, a ∈ s_addr <$> l → bs' !! a = bs !! a) → chain bs p l q → chain bs' p l q.
Proof.
  revert p. induction l as [|g l IH]; simpl; intros p Heq; [done|].
  intros (Ha & ? & nx & E & Hc). split_and!; [done|done|].
  exists nx. rewrite Heq by set_solver. split; [done|]. apply IH; set_solver.
Qed.

Lemma chain_insert bs a b p l q :
  a ∉ s_addr <$> l → chain bs p l q → chain (<[a := b]> bs) p l q.
Proof.
  intros Ha. apply chain_ext. intros a' ?. rewrite lookup_insert_ne; [done|congruence].
Qed.

Lemma chain_length bs p l q :
  chain bs p l q → NoDup (s_addr <$> l) → (length l ≤ size bs)%nat.
Proof.
  intros Hc Hnd. rewrite <- (length_fmap s_addr), <- size_dom.
  rewrite <- (size_list_to_set (C:=gset Z)) by done. apply subseteq_size.
  revert p Hc. clear Hnd. induction l as [|g l IH]; simpl; intros p; [set_solver|].
  intros (-> & _ & nx & E & Hc). pose proof (IH _ Hc). apply elem_of_dom_2 in E. set_solver.
Qed.

(** ** First fit *)

Lemma first_fit_split n l a l' :
  first_fit n l = Some (a, l') →
  exists l1 g l2, l = l1 ++ g :: l2 ∧ a = s_addr g ∧ s_free g = true ∧ n ≤ s_size g ∧
    l' = l1 ++ carve g n ++ l2.
Proof.
  revert a l'. induction l as [|g l IH]; simpl; intros a l'; [done|].
  destruct (s_free g) eqn:Ef; simpl; [destruct (Z.leb_spec n (s_size g))|].
  - intros [= <- <-]. by exists [], g, l.
  - destruct (first_fit n l) as [[a1 l1']|] eqn:E; [|done]. intros [= <- <-].
    destruct (IH _ _ eq_refl) as (l1 & g' & l2 & -> & -> & ? & ? & ->).
    by exists (g :: l1), g', l2.
  - destruct (first_fit n l) as [[a1 l1']|] eqn:E; [|done]. intros [= <- <-].
    destruct (IH _ _ eq_refl) as (l1 & g' & l2 & -> & -> & ? & ? & ->).
    by exists (g :: l1), g', l2.
Qed.

Lemma find_from_first_fit fuel bs p l n :
  chain bs p l 0 → (length l < fuel)%nat →
  find_from fuel bs p n = Ok (from_option fst 0 (first_fit n l)).
Proof.
  revert p l. induction fuel as [|fuel IH]; intros p l Hc Hf; [lia|].
  destruct l as [|g l]; simpl in *; [by subst|].
  destruct Hc as (Ha & Hp & nx & E & Hc). rewrite (proj2 (Z.eqb_neq p 0)) by done.
  unfold block_at. rewrite E. simpl.
  destruct (s_free g && (n <=? s_size g)); simpl; [by subst|].
  rewrite (IH nx l) by (done || lia). by destruct (first_fit n l) as [[??]|].
Qed.

(** ** The representation *)

Section rep.
Context (h : HeapAllocator) (start end_ : Z) (l : list seg).
Context (Hr : heap_rep h start end_ l).

Lemma rep_NoDup : NoDup (s_addr <$> l).
Proof. by eapply tiles_NoDup, (hr_tiles _ _ _ _ Hr). Qed.

Lemma rep_fuel : (length l < list_fuel (h_blocks h))%nat.
Proof.
  unfold list_fuel. pose proof (chain_length _ _ _ _ (hr_chain _ _ _ _ Hr) rep_NoDup). lia.
Qed.

Lemma rep_range g : g ∈ l →
  0 < s_addr g ∧ 0 ≤ s_size g ∧ s_addr g + sizeof_HeapBlock + s_size g < 2 ^ 63.
Proof.
  intros Hg. pose proof (tiles_in _ _ _ _ (hr_tiles _ _ _ _ Hr) Hg).
  pose proof (hr_start _ _ _ _ Hr). pose proof (hr_end _ _ _ _ Hr). lia.
Qed.

Lemma find_free_block_first_fit n :
  find_free_block h n = Ok (from_option fst 0 (first_fit n l)).
Proof. apply find_from_first_fit; [apply Hr|apply rep_fuel]. Qed.
End rep.

(** Cutting the chain at a segment. *)
Lemma chain_focus bs p l1 g l2 :
  chain bs p (l1 ++ g :: l2) 0 ↔
  s_addr g ≠ 0 ∧ exists nx, chain bs p l1 (s_addr g) ∧
    bs !! s_addr g = Some (Blk (s_size g) (s_free g) nx) ∧ chain bs nx l2 0.
Proof. rewrite chain_app. simpl. naive_solver. Qed.

(** Rewriting the focused segment's header, and adding one that is not in use. *)
Lemma chain_put bs p l1 g l2 nx b :
  NoDup (s_addr <$> l1 ++ g :: l2) →
  chain bs p l1 (s_addr g) → chain bs nx l2 0 →
  chain (<[s_addr g := b]> bs) p l1 (s_addr g) ∧ chain (<[s_addr g := b]> bs) nx l2 0.
Proof.
  rewrite fmap_app, fmap_cons, NoDup_app, NoDup_cons. intros (_ & Hn & Hn' & _) ??.
  split; apply chain_insert; try done. intros ?. apply (Hn (s_addr g)); set_solver.
Qed.

Definition carve_overhead (g : seg) (n : Z) : Z :=
  if n + 56 <=? s_size g then sizeof_HeapBlock else 0.

Definition taken_size (g : seg) (n : Z) : Z :=
  if n + 56 <=? s_size g then n else s_size g.

Lemma tiles_carve l1 g n l2 start end_ :
  0 ≤ n ≤ s_size g →
  tiles start (l1 ++ g :: l2) end_ → tiles start (l1 ++ carve g n ++ l2) end_.
Proof.
  intros ?. rewrite !tiles_app. intros (m & ? & Ha & ? & ?). exists m. split; [done|].
  unfold carve. destruct (Z.leb_spec (n + 56) (s_size g)); simpl; [|done].
  unfold sizeof_HeapBlock in *. split_and!; [done|lia|lia|lia|].
  by replace (m + 24 + n + 24 + (s_size g - n - 24)) with (m + 24 + s_size g) by lia.
Qed.

(** A fresh header inside a free segment's payload is not a live header. *)
Lemma carve_fresh l1 g n l2 start end_ :
  0 ≤ n → n + 56 <= s_size g →
  tiles start (l1 ++ g :: l2) end_ →
  s_addr g + sizeof_HeapBlock + n ∉ s_addr <$> (l1 ++ g :: l2).
Proof.
  intros ?? Ht (g' & E & Hin)%list_elem_of_fmap.
  pose proof (tiles_in _ _ _ _ Ht Hin). unfold sizeof_HeapBlock in *.
  destruct (decide (g' = g)) as [->|Hne]; [lia|].
  eapply (tiles_disjoint _ _ _ g' g (s_addr g') Ht); unfold sizeof_HeapBlock;
    [done|set_solver|done|lia|lia].
Qed.

(** ** allocate *)

Lemma free_pages_ok n addr s :
  pmm_wf s → exists s', free_pages n addr s = Ok s' ∧ pmm_wf s' ∧ same_layout s s'.
Proof.
  revert addr s. induction n as [|n IH]; intros addr s Hwf; simpl; [by exists s|].
  assert (exists s1, free_frame s addr = Ok s1) as [s1 E].
  { destruct (free_frame_ok s addr Hwf) as [(_ & _ & s1 & E & _)|[_ E]]; eauto. }
  rewrite E, bind_Ok. destruct (free_frame_wf _ _ _ Hwf E) as [Hwf1 [??]].
  destruct (IH (addr + PAGE_SIZE) s1 Hwf1) as (s' & E' & ? & ? & ?).
  exists s'. split_and!; [done|done|split; congruence].
Qed.

Lemma pmm_free_nonneg s : pmm_wf s → 0 ≤ m_free_frames s.
Proof. intros [_ ->]. apply count_free_bound. Qed.

Lemma take_frames_ok n i block s :
  pmm_wf s →
  exists s', take_frames n i block s = Ok (Z.of_nat n <=? m_free_frames s, s') ∧ pmm_wf s' ∧
    (Z.of_nat n ≤ m_free_frames s → m_free_frames s' = m_free_frames s - Z.of_nat n).
Proof.
  revert i s. induction n as [|n IH]; intros i s Hwf; cbn [take_frames].
  { pose proof (pmm_free_nonneg s Hwf). exists s. split_and!; [f_equal; f_equal; lia|done|lia]. }
  pose proof (pmm_free_nonneg s Hwf).
  destruct (decide (1 ≤ m_free_frames s)) as [Hf|Hf].
  - destruct (allocate_frame_takes s Hwf Hf) as (k & s1 & Ht & E).
    pose proof (sh_start s (wf_shape s Hwf)). pose proof (tk_range _ _ _ Ht).
    rewrite E, bind_Ok, (proj2 (Z.eqb_neq _ 0)) by (unfold frame_addr, PAGE_SIZE; lia).
    pose proof (tk_free _ _ _ Ht).
    destruct (IH (S i) s1 (tk_wf _ _ _ Ht)) as (s' & E' & ? & ?).
    exists s'. rewrite E'. split_and!; [f_equal; f_equal; lia|done|lia].
  - unfold allocate_frame. rewrite (proj2 (Z.eqb_eq _ 0)) by lia.
    cbn [mbind outcome_bind]. rewrite Z.eqb_refl.
    destruct (free_pages_ok i block s Hwf) as (s' & E' & ? & _).
    exists s'. rewrite E'. split_and!; [cbn; f_equal; f_equal; lia|done|lia].
Qed.

Lemma split_mark h start end_ l1 g l2 n used :
  heap_rep h start end_ (l1 ++ g :: l2) → 0 ≤ n ≤ s_size g → s_free g = true →
  exists h1 b, split_block h (s_addr g) n = Ok h1 ∧ block_at (h_blocks h1) (s_addr g) = Ok b ∧
    h_pmm h1 = h_pmm h ∧ m_used_memory h1 =
      (if n + 56 <=? s_size g then u64 (m_used_memory h + sizeof_HeapBlock) else m_used_memory h) ∧
    heap_rep (set_blocks h1 (<[s_addr g := Blk (b_size b) false (b_next b)]> (h_blocks h1)) used)
      start end_ (l1 ++ carve g n ++ l2).
Proof.
  intros Hr Hn Hf. pose proof (rep_NoDup _ _ _ _ Hr) as Hnd.
  destruct (rep_range _ _ _ _ Hr g) as (Hg0 & _ & Hg1); [set_solver|].
  destruct Hr as [Hc Ht Hs He Hp].
  apply chain_focus in Hc as (Hne & nx & Hc1 & E & Hc2).
  pose proof (tiles_carve l1 g n l2 _ _ Hn Ht) as Ht'.
  unfold split_block, block_at at 1. rewrite E. cbn [mbind outcome_bind b_size b_next b_free].
  unfold sizeof_HeapBlock in *. rewrite u64_small by lia.
  replace (n + 24 + 32) with (n + 56) by lia. revert Ht'. unfold carve.
  destruct (Z.leb_spec (n + 56) (s_size g)) as [Hbig|Hsm]; intros Ht'.
  - set (nb := s_addr g + 24 + n).
    pose proof (carve_fresh l1 g n l2 _ _ ltac:(lia) Hbig Ht) as Hfr.
    unfold sizeof_HeapBlock in Hfr. fold nb in Hfr.
    eexists _, (Blk n (s_free g) nb). split_and!; [done| |done|done|].
    { unfold block_at. simpl. by rewrite lookup_insert_eq. }
    constructor; simpl; [|done..]. apply chain_focus. cbn. split; [lia|]. exists nb.
    rewrite insert_insert_eq.
    rewrite fmap_app, fmap_cons in Hfr.
    destruct (chain_put (<[nb := Blk (u64 (s_size g - n - 24)) true nx]> (h_blocks h))
       (m_first_block h) l1 g l2 nx (Blk n false nb) Hnd) as [Hc1' Hc2'];
      [apply chain_insert; [set_solver|done]..|].
    split_and!; [done|by rewrite lookup_insert_eq|done|lia|].
    exists nx. split; [|done]. rewrite lookup_insert_ne by (subst nb; lia).
    rewrite lookup_insert_eq. by rewrite u64_small by lia.
  - eexists _, _. split_and!; [done| |done|done|].
    { unfold block_at. by rewrite E. }
    constructor; simpl; [|done..]. apply chain_focus. cbn. split; [lia|]. exists nx.
    destruct (chain_put (h_blocks h) (m_first_block h) l1 g l2 nx
      (Blk (s_size g) false nx) Hnd) as [Hc1' Hc2']; [done..|].
    split_and!; [done|by rewrite lookup_insert_eq|done].
Qed.

(** Masking with [~15]: the low four bits go. *)
Lemma land_not15 q r :
  0 ≤ q < 2 ^ 60 → 0 ≤ r < 16 → Z.land (16 * q + r) (u64 (Z.lnot 15)) = 16 * q.
Proof.
  intros Hq Hr. replace (u64 (Z.lnot 15)) with (Z.shiftl (Z.ones 60) 4) by done.
  replace (16 * q) with (Z.shiftl q 4) by (rewrite Z.shiftl_mul_pow2 by lia; lia).
  apply Z.bits_inj'. intros b Hb. rewrite Z.land_spec.
  destruct (decide (b < 4)).
  { rewrite !(Z.shiftl_spec_low _ _ b) by lia. apply andb_false_r. }
  assert (Hbit : Z.testbit (Z.shiftl q 4 + r) b = Z.testbit q (b - 4)).
  { replace b with ((b - 4) + 4) at 1 by lia. rewrite <- Z.div_pow2_bits by lia.
    f_equal. rewrite Z.shiftl_mul_pow2 by lia.
    rewrite Z.div_add_l, Z.div_small by lia. lia. }
  rewrite Hbit, !Z.shiftl_spec by lia. destruct (decide (b - 4 < 60)).
  - rewrite Z.ones_spec_low by lia. apply andb_true_r.
  - rewrite Z.ones_spec_high by lia. rewrite andb_false_r. symmetry.
    rewrite <- (Z.mod_small q (2 ^ 60)) by lia. apply Z.mod_pow2_bits_high. lia.
Qed.

Lemma round16_small size : 0 ≤ size < 2 ^ 64 - 15 → round16 size = 16 * ((size + 15) / 16).
Proof.
  intros. unfold round16. rewrite u64_small by lia.
  rewrite (Z.div_mod (size + 15) 16) at 1 by lia.
  apply land_not15; [|apply Z.mod_pos_bound; lia].
  split; [apply Z.div_pos|apply Z.div_lt_upper_bound]; lia.
Qed.

(** Rounded sizes are multiples of 16 between the size and the size plus 15. *)
Lemma round16_bounds size :
  0 ≤ size < 2 ^ 64 - 15 → size ≤ round16 size < size + 16 ∧ (16 | round16 size).
Proof.
  intros. rewrite round16_small by lia.
  pose proof (Z.div_mod (size + 15) 16 ltac:(lia)).
  pose proof (Z.mod_pos_bound (size + 15) 16 ltac:(lia)).
  split; [lia|]. by exists ((size + 15) / 16); lia.
Qed.

Definition used_after (h : HeapAllocator) (g : seg) (n : Z) : Z :=
  u64 ((if n + 56 <=? s_size g then u64 (m_used_memory h + sizeof_HeapBlock)
        else m_used_memory h) + n).

Lemma num_pages_small n : 0 ≤ n < 2 ^ 63 → Z.of_nat (num_pages n) = (n + 4095) / 4096.
Proof.
  intros. unfold num_pages, PAGE_SIZE. rewrite u64_small by lia.
  replace (n + 4096 - 1) with (n + 4095) by lia.
  rewrite Z2Nat.id; [done|]. apply Z.div_pos; lia.
Qed.

Lemma allocate_at h start end_ l1 g l2 n :
  heap_rep h start end_ (l1 ++ g :: l2) → s_free g = true → 0 ≤ n ≤ s_size g →
  first_fit n (l1 ++ g :: l2) = Some (s_addr g, l1 ++ carve g n ++ l2) →
  ∀ size, size ≠ 0 → round16 size = n →
  exists h', allocate h size =
      Ok (if (n + 4095) / 4096 <=? m_free_frames (h_pmm h)
          then s_addr g + sizeof_HeapBlock else 0, h') ∧
    heap_rep h' start end_ (l1 ++ carve g n ++ l2) ∧ m_used_memory h' = used_after h g n.
Proof.
  intros Hr Hf Hn Hff size Hsz Hround.
  destruct (rep_range _ _ _ _ Hr g) as (Hg0 & _ & Hg1); [set_solver|].
  destruct (split_mark h start end_ l1 g l2 n (used_after h g n) Hr Hn Hf)
    as (h1 & b & E1 & Eb & Ep & Eu & Hr1).
  unfold sizeof_HeapBlock in Hg1.
  destruct (take_frames_ok (num_pages n) 0 (s_addr g) (h_pmm h) (hr_pmm _ _ _ _ Hr))
    as (s' & Et & Hwf & _).
  unfold allocate. rewrite (proj2 (Z.eqb_neq size 0)), Hround by done.
  rewrite (find_free_block_first_fit h start end_ _ Hr), bind_Ok, Hff. cbn [from_option fst].
  rewrite (proj2 (Z.eqb_neq (s_addr g) 0)) by lia.
  rewrite E1, bind_Ok, Eb, bind_Ok, Eu. fold (used_after h g n).
  cbn [set_blocks h_pmm]. rewrite Ep, Et, bind_Ok.
  rewrite num_pages_small by lia. eexists. split; [done|]. split; [|done].
  destruct Hr1 as [Hc Ht Hs He _]. by constructor.
Qed.

(** ** free *)

Lemma coalesce_into_head g l :
  exists sz r, coalesce_into g l = Seg (s_addr g) sz (s_free g) :: r.
Proof.
  revert g. induction l as [|g' l IH]; intros g; simpl.
  { destruct g. by eexists _, []. }
  destruct (s_free g) eqn:E; simpl; [destruct (s_free g') eqn:E'|].
  - destruct (IH (Seg (s_addr g) (s_size g + sizeof_HeapBlock + s_size g') true)) as (?&?&->).
    simpl. eauto.
  - destruct g; simpl in *; subst; eauto.
  - destruct g; simpl in *; subst; eauto.
Qed.

Lemma coalesce_into_tiles p g l e :
  tiles p (g :: l) e → tiles p (coalesce_into g l) e.
Proof.
  revert p g. induction l as [|g' l IH]; intros p g; simpl; [done|].
  intros (? & ? & ? & ? & ?). unfold sizeof_HeapBlock in *.
  destruct (s_free g && s_free g').
  - apply IH. simpl. unfold sizeof_HeapBlock. split_and!; [done|lia|].
    replace (p + 24 + (s_size g + 24 + s_size g'))
      with (p + 24 + s_size g + 24 + s_size g') by lia. done.
  - simpl. split_and!; [done|done|]. apply IH. done.
Qed.

Lemma coalesce_into_canonical g l : no_adjacent_free (coalesce_into g l).
Proof.
  revert g. induction l as [|g' l IH]; intros g; simpl; [done|].
  destruct (s_free g && s_free g') eqn:E; [apply IH|].
  destruct (coalesce_into_head g' l) as (sz & r & E'). specialize (IH g').
  rewrite E' in *. by split.
Qed.

Lemma coalesce_into_length g l : (length (coalesce_into g l) ≤ S (length l))%nat.
Proof.
  revert g. induction l as [|g' l IH]; intros g; simpl; [lia|].
  destruct (_ && _); simpl; [|specialize (IH g'); lia].
  specialize (IH (Seg (s_addr g) (s_size g + sizeof_HeapBlock + s_size g') true)). lia.
Qed.

Lemma merge_from_ok fuel bs used p g l e :
  chain bs p (g :: l) 0 → tiles p (g :: l) e → 0 < p → e < 2 ^ 63 → is_u64 used →
  (S (length l) < fuel)%nat →
  exists bs', merge_from fuel bs used p =
      Ok (bs', u64 (used - sizeof_HeapBlock *
                 (1 + Z.of_nat (length l) - Z.of_nat (length (coalesce_into g l))))) ∧
    chain bs' p (coalesce_into g l) 0 ∧
    (∀ a, a ∉ s_addr <$> g :: l → bs' !! a = bs !! a).
Proof.
  revert bs used p g l. induction fuel as [|fuel IH]; intros bs used p g l; [lia|].
  intros Hc Ht Hp He Hu Hf. pose proof (tiles_NoDup _ _ _ Ht) as Hnd.
  destruct Hc as (Ha & Hp' & nx & E & Hc). subst p.
  cbn [merge_from]. rewrite (proj2 (Z.eqb_neq _ 0)) by done.
  rewrite (block_at_Some _ _ _ E), bind_Ok. cbn [b_next b_free b_size].
  destruct l as [|g' l].
  { cbn in Hc. subst nx. rewrite Z.eqb_refl. exists bs. cbn [coalesce_into length].
    split_and!; [by f_equal; f_equal; rewrite u64_small by (unfold is_u64 in Hu; lia); lia| |done].
    cbn. split_and!; [done|done|]. by exists 0. }
  cbn [tiles] in Ht. destruct Ht as (_ & Hsz & Ha' & Hsz' & Ht).
  destruct Hc as (<- & Hnz & nx' & E' & Hc).
  rewrite (proj2 (Z.eqb_neq _ 0)) by done.
  rewrite (block_at_Some _ _ _ E'), bind_Ok. cbn [b_next b_free b_size coalesce_into].
  rewrite !fmap_cons in Hnd. apply NoDup_cons in Hnd as [Hn1 Hnd].
  pose proof (tiles_le _ _ _ Ht). unfold sizeof_HeapBlock in *.
  destruct (s_free g && s_free g') eqn:Ef.
  - apply andb_true_iff in Ef as [Ef Ef'].
    set (gm := Seg (s_addr g) (s_size g + 24 + s_size g') true).
    destruct (IH (<[s_addr g := Blk (s_size g + 24 + s_size g') true nx']> bs)
      (u64 (used - 24)) (s_addr g) gm l) as (bs' & Em & Hc' & Hsame).
    + cbn. split_and!; [done|done|]. exists nx'. rewrite lookup_insert_eq. split; [done|].
      apply chain_insert; [set_solver|done].
    + cbn. unfold sizeof_HeapBlock. split_and!; [done|lia|].
      replace (s_addr g + 24 + (s_size g + 24 + s_size g'))
        with (s_addr g + 24 + s_size g + 24 + s_size g') by lia. done.
    + done.
    + done.
    + apply u64_range.
    + simpl in Hf. lia.
    + rewrite u64_small by lia. rewrite Ef, Em. exists bs'. split_and!; [|done|].
      * f_equal. f_equal. unfold u64. rewrite Zminus_mod_idemp_l. f_equal. simpl. lia.
      * intros a Hin. rewrite Hsame by set_solver. rewrite lookup_insert_ne; set_solver.
  - destruct (IH bs used (s_addr g') g' l) as (bs' & Em & Hc' & Hsame).
    + cbn. split_and!; [done|done|]. by exists nx'.
    + cbn. unfold sizeof_HeapBlock. split_and!; [done|done|].
      by rewrite Ha'.
    + lia.
    + done.
    + done.
    + simpl in Hf. lia.
    + cbn [length] in *. rewrite <- Ha' in *. rewrite Em. exists bs'. split_and!; [f_equal; f_equal; f_equal; lia| |].
      * cbn. split_and!; [done|done|]. exists (s_addr g'). split; [|done].
        rewrite Hsame by done. done.
      * intros a Hin. apply Hsame. set_solver.
Qed.

Lemma release_split l1 g l2 :
  NoDup (s_addr <$> l1 ++ g :: l2) →
  release (s_addr g) (l1 ++ g :: l2) = l1 ++ Seg (s_addr g) (s_size g) true :: l2.
Proof.
  intros Hnd. unfold release.
  assert (Hid : ∀ k, s_addr g ∉ s_addr <$> k →
    ((λ g0, if s_addr g0 =? s_addr g then Seg (s_addr g0) (s_size g0) true else g0) <$> k) = (k : list seg)).
  { intros k Hk. rewrite <- (list_fmap_id k) at 2. apply list_fmap_ext. intros i x Hx.
    rewrite (proj2 (Z.eqb_neq _ _)); [done|]. intros Hxa. apply Hk.
    rewrite <- Hxa. by eapply list_elem_of_fmap_2, list_elem_of_lookup_2. }
  rewrite fmap_app, fmap_cons, NoDup_app, NoDup_cons in Hnd. destruct Hnd as (_ & Hn & Hn' & _).
  rewrite fmap_app, fmap_cons, Z.eqb_refl, !Hid; [done|done|].
  intros ?. apply (Hn (s_addr g)); set_solver.
Qed.

Lemma coalesce_tiles p l e : tiles p l e → tiles p (coalesce l) e.
Proof. destruct l; [done|]. apply coalesce_into_tiles. Qed.

Definition merged (l : list seg) : Z := Z.of_nat (length l) - Z.of_nat (length (coalesce l)).

Lemma heap_free_ok h start end_ l g :
  heap_rep h start end_ l → g ∈ l →
  exists h', heap_free h (s_addr g + sizeof_HeapBlock) = Ok h' ∧
    heap_rep h' start end_ (coalesce (release (s_addr g) l)) ∧
    m_used_memory h' = u64 (m_used_memory h - s_size g
                            - sizeof_HeapBlock * merged (release (s_addr g) l)).
Proof.
  intros Hr (l1 & l2 & ->)%list_elem_of_split. pose proof (rep_NoDup _ _ _ _ Hr) as Hnd.
  destruct (rep_range _ _ _ _ Hr g) as (Hg0 & Hg1 & Hg2); [set_solver|].
  pose proof (rep_fuel _ _ _ _ Hr) as Hfuel.
  rewrite release_split by done. destruct Hr as [Hc Ht Hs He Hp].
  set (l' := l1 ++ Seg (s_addr g) (s_size g) true :: l2).
  assert (Ht' : tiles start l' end_).
  { unfold l'. rewrite tiles_app in Ht |- *. done. }
  apply chain_focus in Hc as (Hne & nx & Hc1 & E & Hc2).
  unfold heap_free. replace (s_addr g + sizeof_HeapBlock - sizeof_HeapBlock) with (s_addr g) by lia.
  unfold sizeof_HeapBlock at 1. rewrite (proj2 (Z.eqb_neq _ 0)) by lia.
  rewrite (block_at_Some _ _ _ E), bind_Ok. cbn [b_size b_next].
  destruct (free_pages_ok (num_pages (s_size g)) (s_addr g) (h_pmm h) Hp) as (s' & -> & Hwf & _).
  rewrite bind_Ok. unfold merge_free_blocks. cbn [set_heap_pmm set_blocks h_blocks m_used_memory m_first_block].
  set (bs := <[s_addr g := _]> (h_blocks h)).
  assert (Hch : chain bs (m_first_block h) l' 0).
  { apply chain_focus. cbn. split; [done|]. exists nx. unfold bs.
    destruct (chain_put (h_blocks h) (m_first_block h) l1 g l2 nx (Blk (s_size g) true nx) Hnd Hc1 Hc2).
    split_and!; [done|by rewrite lookup_insert_eq|done]. }
  assert (Hlen : length l' = length (l1 ++ g :: l2)) by (unfold l'; by rewrite !length_app).
  assert (Hsz : (length l' < list_fuel bs)%nat).
  { rewrite Hlen. unfold list_fuel in *. unfold bs. rewrite map_size_insert, E. done. }
  destruct l' as [|g0 r] eqn:El'; [by destruct l1|].
  pose proof Hch as (Ha0 & _). pose proof Ht' as (Ha1 & _).
  destruct (merge_from_ok (list_fuel bs) bs (u64 (m_used_memory h - s_size g))
    (m_first_block h) g0 r end_) as (bs' & -> & Hc' & _); [done| |lia|done|apply u64_range|done|].
  { rewrite <- Ha0, Ha1. done. }
  rewrite bind_Ok. eexists. split; [done|]. split.
  - constructor; simpl; [done|by apply coalesce_into_tiles|done..].
  - cbn [m_used_memory set_blocks]. unfold merged, u64. rewrite Zminus_mod_idemp_l.
    f_equal. cbn [length coalesce]. lia.
Qed.

(** ** Canonical lists *)

Lemma coalesce_into_cons g g' l :
  coalesce_into g (g' :: l) =
  if s_free g && s_free g'
  then coalesce_into (Seg (s_addr g) (s_size g + sizeof_HeapBlock + s_size g') true) l
  else g :: coalesce_into g' l.
Proof. done. Qed.

Lemma no_adjacent_cons g l : no_adjacent_free (g :: l) → no_adjacent_free l.
Proof. destruct l; simpl; naive_solver. Qed.

Lemma coalesce_into_fixed g l : no_adjacent_free (g :: l) → coalesce_into g l = g :: l.
Proof.
  revert g. induction l as [|g' l IH]; intros g; [done|]. intros [E Hn].
  cbn [coalesce_into]. rewrite E. by rewrite IH.
Qed.

Lemma coalesce_canonical l : no_adjacent_free (coalesce l).
Proof. destruct l; [done|]. apply coalesce_into_canonical. Qed.

(** A free segment cut in two comes back whole. *)
Lemma coalesce_merge l1 x y l2 :
  s_free x = true → s_free y = true →
  let m := Seg (s_addr x) (s_size x + sizeof_HeapBlock + s_size y) true in
  no_adjacent_free (l1 ++ m :: l2) → coalesce (l1 ++ x :: y :: l2) = l1 ++ m :: l2.
Proof.
  intros Hx Hy m Hn.
  assert (Hm : ∀ k, no_adjacent_free (m :: k) → coalesce_into x (y :: k) = m :: k).
  { intros k Hk. cbn [coalesce_into]. rewrite Hx, Hy. by apply coalesce_into_fixed. }
  destruct l1 as [|g l1]; [by apply Hm|]. cbn [app coalesce]. revert g Hn.
  induction l1 as [|g' l1 IH]; intros g Hn.
  - destruct Hn as [E Hn]. cbn [app] in *. rewrite coalesce_into_cons, Hx.
    simpl in E. rewrite E. f_equal. by apply Hm.
  - destruct Hn as [E Hn]. cbn [app coalesce_into]. rewrite E. f_equal. by apply IH.
Qed.

Lemma no_adjacent_carve l1 g n l2 :
  s_free g = true → no_adjacent_free (l1 ++ g :: l2) →
  no_adjacent_free (l1 ++ carve g n ++ l2).
Proof.
  intros Hf. induction l1 as [|g1 l1 IH]; cbn [app].
  - intros Hn. unfold carve. cbn [app] in Hn. destruct (_ <=? _); cbn [app].
    + split; [done|]. destruct l2 as [|g2 l2]; [done|]. destruct Hn as [E Hn].
      split; [|done]. simpl. by rewrite Hf in E.
    + destruct l2 as [|g2 l2]; [done|]. destruct Hn as [E Hn]. by split.
  - intros Hn. pose proof (no_adjacent_cons _ _ Hn) as Hn'. specialize (IH Hn').
    destruct l1 as [|g1' l1]; cbn [app] in *.
    + revert IH. unfold carve. destruct (_ <=? _); cbn [app]; intros IH;
        (split; [apply andb_false_r|done]).
    + destruct Hn. by split.
Qed.

Lemma coalesce_keeps l g : g ∈ l → s_free g = false → g ∈ coalesce l.
Proof.
  destruct l as [|g0 l]; [done|]. cbn [coalesce]. revert g0.
  induction l as [|g1 l IH]; intros g0 Hin Hf; [done|]. cbn [coalesce_into].
  destruct (s_free g0 && s_free g1) eqn:E.
  - apply andb_true_iff in E as [E0 E1].
    apply IH; [|done]. apply elem_of_cons in Hin as [->|[->|Hin]%elem_of_cons]; [congruence..|set_solver].
  - apply elem_of_cons in Hin as [->|Hin]; [set_solver|].
    apply elem_of_cons; right. by apply IH.
Qed.

(** Releasing the carved segment undoes the carving. *)
Lemma carve_coalesce l1 g n l2 :
  s_free g = true → no_adjacent_free (l1 ++ g :: l2) →
  let g' := Seg (s_addr g) (taken_size g n) false in
  exists k, carve g n = g' :: k ∧
    coalesce (l1 ++ Seg (s_addr g) (s_size g') true :: k ++ l2) = l1 ++ g :: l2 ∧
    merged (l1 ++ Seg (s_addr g) (s_size g') true :: k ++ l2) =
      if n + 56 <=? s_size g then 1 else 0.
Proof.
  intros Hf Hn. unfold carve, taken_size, merged.
  assert (Hg : Seg (s_addr g) (s_size g) true = g) by (destruct g; simpl in *; by subst).
  destruct (_ <=? s_size g).
  - eexists. split; [done|]. cbn [app s_size].
    rewrite coalesce_merge; cbn [s_addr s_size]; try done.
    + replace (n + sizeof_HeapBlock + (s_size g - n - sizeof_HeapBlock)) with (s_size g) by lia.
      rewrite Hg. split; [done|]. rewrite !length_app. cbn [length]. lia.
    + replace (n + sizeof_HeapBlock + (s_size g - n - sizeof_HeapBlock)) with (s_size g) by lia.
      by rewrite Hg.
  - exists []. cbn [app s_size]. rewrite Hg. split; [done|].
    assert (Hc : coalesce (l1 ++ g :: l2) = l1 ++ g :: l2).
    { destruct l1; by apply coalesce_into_fixed. }
    rewrite Hc. split; [done|lia].
Qed.

(** ** What the heap promises *)

(** [C2] [allocate] is first fit: for a request whose rounding does not wrap,
    it returns null and changes nothing when no free segment is large enough,
    and otherwise carves the first one that is.  The segment list and the
    accounting are the specification's.  The pointer is null when too few page
    frames are free, and then the carved segment stays taken. *)
Theorem allocate_refines h start end_ l size :
  heap_rep h start end_ l → 0 < size < 2 ^ 64 - 15 →
  match first_fit (round16 size) l with
  | None => allocate h size = Ok (0, h)
  | Some (a, l') =>
      exists h', allocate h size =
          Ok (if (round16 size + 4095) / 4096 <=? m_free_frames (h_pmm h)
              then a + sizeof_HeapBlock else 0, h') ∧
        heap_rep h' start end_ l'
  end.
Proof.
  intros Hr Hs. destruct (first_fit (round16 size) l) as [[a l']|] eqn:E.
  - pose proof E as E0. apply first_fit_split in E as (l1 & g & l2 & -> & -> & Hf & Hn & ->).
    pose proof (round16_bounds size ltac:(lia)) as [? _].
    destruct (allocate_at h start end_ l1 g l2 (round16 size) Hr Hf ltac:(lia) E0 size
      ltac:(lia) eq_refl) as (h' & ? & ? & _). eauto.
  - unfold allocate. rewrite (proj2 (Z.eqb_neq size 0)) by lia.
    rewrite (find_free_block_first_fit h start end_ l Hr), bind_Ok, E. done.
Qed.

(** [C3] [free] of a segment's payload pointer marks it free and coalesces the
    whole list: the result has the same bytes, and no two free neighbours. *)
Theorem heap_free_refines h start end_ l g :
  heap_rep h start end_ l → g ∈ l →
  exists h', heap_free h (s_addr g + sizeof_HeapBlock) = Ok h' ∧
    heap_rep h' start end_ (coalesce (release (s_addr g) l)) ∧
    no_adjacent_free (coalesce (release (s_addr g) l)).
Proof.
  intros Hr Hg. destruct (heap_free_ok h start end_ l g Hr Hg) as (h' & ? & ? & _).
  exists h'. split_and!; [done|done|apply coalesce_canonical].
Qed.

(** Round trip: a successful allocation followed by [free] of its pointer
    gives back the segment list.  The used-memory counter comes back only when
    the segment was split: an unsplit one is charged the rounded request and
    refunded its whole size, so the counter loses the difference. *)
Theorem allocate_free_roundtrip h start end_ l size p h' :
  heap_rep h start end_ l → no_adjacent_free l → 0 < size < 2 ^ 64 - 15 →
  allocate h size = Ok (p, h') → p ≠ 0 →
  exists h'' g, g ∈ l ∧ p = s_addr g + sizeof_HeapBlock ∧
    heap_free h' p = Ok h'' ∧ heap_rep h'' start end_ l ∧
    m_used_memory h'' = u64 (m_used_memory h +
      (if round16 size + 56 <=? s_size g then 0 else round16 size - s_size g)).
Proof.
  intros Hr Hn Hs Ea Hp. pose proof (round16_bounds size ltac:(lia)) as [? _].
  destruct (first_fit (round16 size) l) as [[a l']|] eqn:E; cycle 1.
  { exfalso. revert Ea. unfold allocate. rewrite (proj2 (Z.eqb_neq size 0)) by lia.
    rewrite (find_free_block_first_fit h start end_ l Hr), bind_Ok, E. cbn. congruence. }
  pose proof E as E0. apply first_fit_split in E as (l1 & g & l2 & -> & -> & Hf & Hfit & ->).
  destruct (allocate_at h start end_ l1 g l2 (round16 size) Hr Hf ltac:(lia) E0 size
    ltac:(lia) eq_refl) as (h1 & Ea' & Hr' & Hu).
  rewrite Ea' in Ea. injection Ea as <- <-.
  destruct (_ <=? m_free_frames _); [|done].
  set (g' := Seg (s_addr g) (taken_size g (round16 size)) false).
  assert (Hg' : exists k, carve g (round16 size) = g' :: k ∧
    coalesce (l1 ++ Seg (s_addr g) (s_size g') true :: k ++ l2) = l1 ++ g :: l2 ∧
    merged (l1 ++ Seg (s_addr g) (s_size g') true :: k ++ l2) =
      if round16 size + 56 <=? s_size g then 1 else 0) by exact (carve_coalesce _ _ _ _ Hf Hn).
  destruct Hg' as (k & Hk & Hco & Hme). rewrite Hk in Hr'. cbn [app] in Hr'.
  destruct (heap_free_ok h1 start end_ _ g' Hr') as (h'' & Ef & Hr'' & Hu''); [set_solver|].
  pose proof (rep_NoDup _ _ _ _ Hr') as Hnd.
  rewrite (release_split l1 g' (k ++ l2) Hnd) in Hr'', Hu''.
  change (s_addr g') with (s_addr g) in *. rewrite Hco in Hr''. rewrite Hme in Hu''.
  exists h'', g. split_and!; [set_solver|done|done|done|].
  rewrite Hu'', Hu. unfold used_after, g', taken_size, sizeof_HeapBlock. cbn [s_size].
  destruct (_ <=? s_size g); unfold u64.
  all: rewrite <- Z.sub_add_distr, Zminus_mod_idemp_l, <- Z.add_sub_assoc, ?Zplus_mod_idemp_l.
  all: f_equal; lia.
Qed.

(** ** Any sequence of requests *)

(** A client's request: a size to allocate, or one of its live pointers, by
    position, to free.  A live pointer is kept with the size asked for. *)
Inductive request := Alloc (size : Z) | Free (k : nat).

Definition heap_do (st : HeapAllocator * list (Z * Z)) (r : request)
    : outcome (HeapAllocator * list (Z * Z)) :=
  let '(h, live) := st in
  match r with
  | Alloc size =>
      '(p, h) ← allocate h size;
      Ok (h, if p =? 0 then live else (p, size) :: live)
  | Free k =>
      match live !! k with
      | None => Ok (h, live)
      | Some (p, _) => h ← heap_free h p; Ok (h, delete k live)
      end
  end.

Fixpoint heap_run (st : HeapAllocator * list (Z * Z)) (rs : list request)
    : outcome (HeapAllocator * list (Z * Z)) :=
  match rs with
  | [] => Ok st
  | r :: rs => st ← heap_do st r; heap_run st rs
  end.

Definition request_ok (r : request) : Prop :=
  match r with Alloc size => 0 ≤ size < 2 ^ 64 - 15 | Free _ => True end.

(** [owned l p n]: the pointer is the payload of a taken segment of at least [n] bytes. *)
Definition owned (l : list seg) (p n : Z) : Prop :=
  exists g, g ∈ l ∧ s_free g = false ∧ p = s_addr g + sizeof_HeapBlock ∧ n ≤ s_size g.

Record heap_inv (start end_ : Z) (st : HeapAllocator * list (Z * Z)) (l : list seg) : Prop := {
  hi_rep : heap_rep st.1 start end_ l;
  hi_canonical : no_adjacent_free l;
  hi_live : Forall (λ pn, owned l pn.1 pn.2) st.2;
  hi_distinct : NoDup st.2.*1
}.

Lemma owned_carve l1 g n l2 p m :
  s_free g = true → owned (l1 ++ g :: l2) p m → owned (l1 ++ carve g n ++ l2) p m.
Proof.
  intros Hf (g' & Hin & Hf' & ? & ?). exists g'. split_and!; [|done..].
  rewrite !elem_of_app. apply elem_of_app in Hin as [?|[->|?]%elem_of_cons]; [auto|congruence|auto].
Qed.

Lemma owned_release l a p m :
  p ≠ a + sizeof_HeapBlock → owned l p m → owned (coalesce (release a l)) p m.
Proof.
  intros Hne (g' & Hin & Hf' & -> & ?). exists g'. split_and!; [|done..].
  apply coalesce_keeps; [|done]. unfold release. apply list_elem_of_fmap. exists g'.
  rewrite (proj2 (Z.eqb_neq _ _)) by lia. done.
Qed.

Lemma heap_do_alloc start end_ h live l size :
  heap_inv start end_ (h, live) l → 0 ≤ size < 2 ^ 64 - 15 →
  exists st' l', heap_do (h, live) (Alloc size) = Ok st' ∧ heap_inv start end_ st' l'.
Proof.
  intros [Hr Hn Hl Hd] Hs. simpl in *. unfold heap_do.
  destruct (decide (size = 0)) as [->|].
  { exists (h, live), l. split; done. }
  pose proof (round16_bounds size Hs) as [? _].
  destruct (first_fit (round16 size) l) as [[a l']|] eqn:E; cycle 1.
  { exists (h, live), l. split; [|done]. unfold allocate. rewrite (proj2 (Z.eqb_neq size 0)) by done.
    rewrite (find_free_block_first_fit h start end_ l Hr), bind_Ok, E. done. }
  pose proof E as E0. apply first_fit_split in E as (l1 & g & l2 & -> & -> & Hf & Hfit & ->).
  destruct (allocate_at h start end_ l1 g l2 (round16 size) Hr Hf ltac:(lia) E0 size
    ltac:(lia) eq_refl) as (h' & -> & Hr' & _).
  rewrite bind_Ok. destruct (rep_range _ _ _ _ Hr g) as (? & ? & ?); [set_solver|].
  eexists _, _. split; [done|]. unfold sizeof_HeapBlock in *.
  assert (Hold : Forall (λ pn, owned (l1 ++ carve g (round16 size) ++ l2) pn.1 pn.2) live).
  { eapply Forall_impl; [done|]. intros [p m]. by apply owned_carve. }
  pose proof (no_adjacent_carve l1 g (round16 size) l2 Hf Hn).
  destruct (_ <=? m_free_frames _); [|by constructor].
  rewrite (proj2 (Z.eqb_neq _ 0)) by lia. constructor; simpl; [done|done|..].
  - constructor; [|done].
    exists (Seg (s_addr g) (taken_size g (round16 size)) false). unfold taken_size, carve.
    simpl. destruct (_ <=? s_size g); (split_and!; [set_solver|done|done|simpl; lia]).
  - constructor; [|done]. intros ([p m] & Hp & Hin)%list_elem_of_fmap. simpl in Hp.
    rewrite Forall_forall in Hl. destruct (Hl _ Hin) as (g' & Hg' & Hfg & Hpg & _).
    simpl in Hpg. unfold sizeof_HeapBlock in Hpg.
    eapply (tiles_disjoint _ _ _ g g' (s_addr g) (hr_tiles _ _ _ _ Hr));
      unfold sizeof_HeapBlock; [set_solver|done|congruence|lia|].
    pose proof (rep_range _ _ _ _ Hr g' Hg'). lia.
Qed.

Lemma heap_do_free start end_ h live l k :
  heap_inv start end_ (h, live) l →
  exists st' l', heap_do (h, live) (Free k) = Ok st' ∧ heap_inv start end_ st' l'.
Proof.
  intros [Hr Hn Hl Hd]. simpl in *. unfold heap_do.
  destruct (live !! k) as [[p m]|] eqn:Ek; [|by exists (h, live), l].
  pose proof (Forall_lookup_1 _ _ _ _ Hl Ek) as (g & Hg & Hf & Hp & _). simpl in Hp. subst p.
  destruct (heap_free_ok h start end_ l g Hr Hg) as (h' & -> & Hr' & _).
  rewrite bind_Ok. eexists _, _. split; [done|].
  pose proof (delete_Permutation _ _ _ Ek) as Hperm.
  constructor; simpl; [done|apply coalesce_canonical|..].
  - rewrite Hperm in Hl, Hd. apply Forall_cons in Hl as [_ Hl].
    rewrite fmap_cons, NoDup_cons in Hd. destruct Hd as [Hnin _].
    rewrite Forall_forall in Hl |- *. intros [q n] Hin. apply owned_release; [|by apply Hl].
    simpl. intros ->. apply Hnin. apply list_elem_of_fmap. eexists (_, _). split; [|done]. done.
  - rewrite Hperm, fmap_cons, NoDup_cons in Hd. apply Hd.
Qed.

Lemma heap_run_inv start end_ rs st l :
  heap_inv start end_ st l → Forall request_ok rs →
  exists st' l', heap_run st rs = Ok st' ∧ heap_inv start end_ st' l'.
Proof.
  revert st l. induction rs as [|r rs IH]; intros [h live] l Hi Hok; [by exists (h, live), l|].
  apply Forall_cons in Hok as [Hr Hok]. cbn [heap_run].
  assert (exists st' l', heap_do (h, live) r = Ok st' ∧ heap_inv start end_ st' l')
    as (st' & l' & -> & Hi').
  { destruct r; [by eapply heap_do_alloc|by eapply heap_do_free]. }
  rewrite bind_Ok. by eapply IH.
Qed.

Lemma owned_disjoint start end_ l p n q m :
  tiles start l end_ → owned l p n → owned l q m → p ≠ q → p + n ≤ q ∨ q + m ≤ p.
Proof.
  intros Ht (g1 & H1 & _ & -> & ?) (g2 & H2 & _ & -> & ?) Hne.
  assert (g1 ≠ g2) by congruence.
  pose proof (tiles_in _ _ _ _ Ht H1). pose proof (tiles_in _ _ _ _ Ht H2).
  pose proof (tiles_disjoint _ _ _ g1 g2 (Z.max (s_addr g1) (s_addr g2)) Ht H1 H2) as Hd.
  unfold sizeof_HeapBlock in *.
  destruct (Z.le_gt_cases (s_addr g1 + 24 + s_size g1) (s_addr g2)); [lia|].
  destruct (Z.le_gt_cases (s_addr g2 + 24 + s_size g2) (s_addr g1)); [lia|].
  exfalso. apply Hd; [done|lia|lia].
Qed.

Lemma heap_initialize_rep h start size :
  0 < start → sizeof_HeapBlock ≤ size → start + size < 2 ^ 63 → pmm_wf (h_pmm h) →
  heap_rep (heap_initialize h start size) start (start + size)
    [Seg start (size - sizeof_HeapBlock) true].
Proof.
  unfold sizeof_HeapBlock. intros ????. constructor; simpl; [|unfold sizeof_HeapBlock; lia|done..].
  split_and!; [done|lia|]. exists 0. rewrite lookup_insert_eq. unfold sizeof_HeapBlock.
  rewrite u64_small by lia. done.
Qed.

(** [C1] Memory safety for every client: from a freshly initialised heap, any
    sequence of allocations (of sizes whose rounding does not wrap) and frees
    of live pointers runs without undefined behaviour and terminates, and the
    live blocks lie inside the heap and are pairwise disjoint. *)
Theorem heap_memory_safe h start size rs :
  0 < start → sizeof_HeapBlock ≤ size → start + size < 2 ^ 63 → pmm_wf (h_pmm h) →
  Forall request_ok rs →
  exists h' live, heap_run (heap_initialize h start size, []) rs = Ok (h', live) ∧
    (∀ p n, (p, n) ∈ live → start + sizeof_HeapBlock ≤ p ∧ p + n ≤ start + size) ∧
    (∀ i j p n q m, live !! i = Some (p, n) → live !! j = Some (q, m) → i ≠ j →
       p + n ≤ q ∨ q + m ≤ p).
Proof.
  intros Hst Hsz Hend Hp Hok.
  pose proof (heap_initialize_rep h start size Hst Hsz Hend Hp) as Hr.
  destruct (heap_run_inv start (start + size) rs (heap_initialize h start size, []) _
    ltac:(constructor; [exact Hr|done|constructor|constructor]) Hok)
    as ([h' live] & l & E & [Hr' _ Hl Hd]). simpl in *.
  exists h', live. split_and!; [done|..].
  - intros p n Hin. rewrite Forall_forall in Hl. destruct (Hl _ Hin) as (g & Hg & _ & Hpg & ?).
    simpl in *. pose proof (tiles_in _ _ _ _ (hr_tiles _ _ _ _ Hr') Hg). lia.
  - intros i j p n q m Hi Hj Hij.
    eapply (owned_disjoint _ _ l); [apply Hr'|by apply (Forall_lookup_1 _ _ _ _ Hl Hi)
      |by apply (Forall_lookup_1 _ _ _ _ Hl Hj)|].
    simpl. intros ->. apply Hij. eapply NoDup_lookup; [exact Hd|..].
    + by rewrite list_lookup_fmap, Hi.
    + by rewrite list_lookup_fmap, Hj.
Qed.

(** A request within 15 bytes of [2^64] wraps to size zero: when the first
    block has room for a header and 32 bytes and is free, [allocate] answers
    with a non-null pointer to a block of no bytes. *)
Theorem allocate_wraps h start end_ g l size :
  heap_rep h start end_ (g :: l) → s_free g = true → 56 ≤ s_size g →
  2 ^ 64 - 15 ≤ size < 2 ^ 64 →
  exists h', allocate h size = Ok (s_addr g + sizeof_HeapBlock, h') ∧
    heap_rep h' start end_ (carve g 0 ++ l) ∧ s_size <$> head (carve g 0) = Some 0.
Proof.
  intros Hr Hf Hsz Hs.
  assert (Hw : round16 size = 0).
  { unfold round16, u64 at 1. replace (size + 15) with ((size + 15 - 2 ^ 64) + 1 * 2 ^ 64) by lia.
    rewrite Z.mod_add, Z.mod_small by lia.
    replace (size + 15 - 2 ^ 64) with (16 * 0 + (size + 15 - 2 ^ 64)) by lia.
    rewrite land_not15; lia. }
  destruct (allocate_at h start end_ [] g l 0 Hr Hf ltac:(lia)) with (size := size)
    as (h' & E & Hr' & _); [|lia|done|].
  { cbn. rewrite Hf, (proj2 (Z.leb_le 0 _)) by lia. done. }
  exists h'. pose proof (pmm_free_nonneg _ (hr_pmm _ _ _ _ Hr)).
  rewrite (proj2 (Z.leb_le _ _)) in E by (change ((0 + 4095) / 4096) with 0; lia).
  split_and!; [done|done|]. unfold carve. by rewrite (proj2 (Z.leb_le _ _)) by lia.
Qed.

(** ** Witnesses *)

(** A heap of one page at 0x300000, over a small frame allocator. *)
Definition heap_unset : HeapAllocator := HeapA ∅ 0 0 0 pmm_small.
Definition heap_small : HeapAllocator := heap_initialize heap_unset 0x300000 4096.
Definition heap_small_segs : list seg := [Seg 0x300000 4072 true].

Lemma heap_small_rep : heap_rep heap_small 0x300000 0x301000 heap_small_segs.
Proof.
  apply (heap_initialize_rep heap_unset 0x300000 4096);
    unfold sizeof_HeapBlock; try lia. exact pmm_small_wf.
Qed.

Lemma heap_small_alloc size : 0 < size ≤ 100 →
  exists h', allocate heap_small size = Ok (0x300018, h').
Proof.
  intros Hs. pose proof (round16_bounds size ltac:(lia)) as [? _].
  destruct (allocate_at heap_small _ _ [] (Seg 0x300000 4072 true) [] (round16 size)
    heap_small_rep eq_refl) with (size := size) as (h' & E & _); [simpl; lia| |lia|done|].
  - cbn. rewrite (proj2 (Z.leb_le _ _)) by lia. done.
  - exists h'. rewrite (proj2 (Z.leb_le _ _)) in E; [exact E|].
    apply Z.le_trans with 1; [|done]. apply Z.lt_succ_r, Z.div_lt_upper_bound; lia.
Qed.

Lemma allocate_refines_witness :
  exists h', allocate heap_small 100 = Ok (0x300018, h') ∧
    heap_rep h' 0x300000 0x301000 [Seg 0x300000 112 false; Seg 0x300088 3936 true].
Proof.
  exact (allocate_refines heap_small 0x300000 0x301000 heap_small_segs 100 heap_small_rep
    (conj (eq_refl : 0 < 100) (eq_refl : 100 < 2 ^ 64 - 15))).
Defined.

Lemma heap_free_refines_witness :
  exists h', heap_free heap_small 0x300018 = Ok h' ∧
    heap_rep h' 0x300000 0x301000 heap_small_segs ∧ no_adjacent_free heap_small_segs.
Proof.
  exact (heap_free_refines heap_small 0x300000 0x301000 heap_small_segs _ heap_small_rep
    (list_elem_of_here _ _)).
Defined.

Lemma allocate_free_roundtrip_witness :
  exists p h' h'', allocate heap_small 100 = Ok (p, h') ∧ heap_free h' p = Ok h'' ∧
    heap_rep h'' 0x300000 0x301000 heap_small_segs.
Proof.
  destruct (heap_small_alloc 100 ltac:(lia)) as [h' E].
  destruct (allocate_free_roundtrip heap_small 0x300000 0x301000 heap_small_segs 100 _ h'
    heap_small_rep I ltac:(lia) E ltac:(lia)) as (h'' & g & _ & _ & Ef & Hr & _).
  exact (ex_intro _ _ (ex_intro _ h' (ex_intro _ h'' (conj E (conj Ef Hr))))).
Defined.

Lemma heap_memory_safe_witness :
  exists h' live,
    heap_run (heap_small, []) [Alloc 100; Alloc 10; Free 1; Alloc 50; Alloc 5000] = Ok (h', live) ∧
    (∀ p n, (p, n) ∈ live → 0x300018 ≤ p ∧ p + n ≤ 0x301000) ∧
    (∀ i j p n q m, live !! i = Some (p, n) → live !! j = Some (q, m) → i ≠ j →
       p + n ≤ q ∨ q + m ≤ p).
Proof.
  apply (heap_memory_safe heap_unset 0x300000 4096);
    [lia|unfold sizeof_HeapBlock; lia|lia|exact pmm_small_wf|].
  repeat (constructor; [simpl; lia || exact I|]). constructor.
Defined.

Lemma allocate_wraps_witness :
  exists h', allocate heap_small (2 ^ 64 - 1) = Ok (0x300018, h') ∧
    heap_rep h' 0x300000 0x301000 (carve (Seg 0x300000 4072 true) 0 ++ []) ∧
    s_size <$> head (carve (Seg 0x300000 4072 true) 0) = Some 0.
Proof.
  apply (allocate_wraps heap_small 0x300000 0x301000 (Seg 0x300000 4072 true) []);
    [exact heap_small_rep|reflexivity|simpl; lia|lia].
Defined.
