(* ===== verification/CStr.v ===== *)
(** * The C string library (src/kernel/src/lib/lib.cpp)

    A pointer into an array of bytes is the list of the bytes from it to the
    end of the array, so pointer arithmetic is taking suffixes and the
    difference of two pointers is a difference of lengths.  Running off the
    array is [UB].  [cstr buf s] says that the C string at [buf] is [s].  A
    function that writes returns the array as it leaves it. *)

From Stdlib Require Strings.String Strings.Ascii.
From S2P Require Import Prelude.

(** The characters of a string literal, without its terminating zero. *)
Definition text (s : String.string) : list Z := map (λ c, Z.of_N (Ascii.N_of_ascii c)) (String.list_ascii_of_string s).

(** ** The functions *)

Fixpoint strlen (str : list Z) : outcome Z :=
  match str with
  | [] => UB
  | c :: str' => if c =? 0 then Ok 0 else n ← strlen str'; Ok (n + 1)
  end.

Fixpoint strcmp (s1 s2 : list Z) : outcome Z :=
  match s1, s2 with
  | c1 :: s1', c2 :: s2' =>
      if negb (c1 =? 0) && (c1 =? c2) then strcmp s1' s2' else Ok (c1 - c2)
  | _, _ => UB
  end.

Fixpoint strncmp (s1 s2 : list Z) (n : nat) : outcome Z :=
  match n with
  | O => Ok 0
  | S n' =>
      match s1, s2 with
      | c1 :: s1', c2 :: s2' =>
          if negb (c1 =? c2) then Ok (c1 - c2)
          else if c1 =? 0 then Ok 0 else strncmp s1' s2' n'
      | _, _ => UB
      end
  end.

Fixpoint memset (d : list Z) (ch : Z) (count : nat) : outcome (list Z) :=
  match count, d with
  | O, _ => Ok d
  | S n, _ :: d' => r ← memset d' ch n; Ok (u8 ch :: r)
  | S _, [] => UB
  end.

(** [memcpy] between two different arrays. *)
Fixpoint memcpy (d s : list Z) (count : nat) : outcome (list Z) :=
  match count, d, s with
  | O, _, _ => Ok d
  | S n, _ :: d', c :: s' => r ← memcpy d' s' n; Ok (c :: r)
  | _, _, _ => UB
  end.

Fixpoint memcmp (p1 p2 : list Z) (n : nat) : outcome Z :=
  match n, p1, p2 with
  | O, _, _ => Ok 0
  | S n', c1 :: p1', c2 :: p2' =>
      if negb (c1 =? c2) then Ok (c1 - c2) else memcmp p1' p2' n'
  | _, _, _ => UB
  end.

Fixpoint strcpy (d src : list Z) : outcome (list Z) :=
  match d, src with
  | _ :: d', c :: src' =>
      if c =? 0 then Ok (0 :: d') else r ← strcpy d' src'; Ok (c :: r)
  | _, _ => UB
  end.

(** After the source's terminator every remaining byte is set to zero; a source
    as long as [count] leaves no terminator. *)
Fixpoint strncpy (d src : list Z) (count : nat) : outcome (list Z) :=
  match count with
  | O => Ok d
  | S n =>
      match src, d with
      | c :: src', _ :: d' =>
          if c =? 0 then memset d 0 count
          else r ← strncpy d' src' n; Ok (c :: r)
      | _, _ => UB
      end
  end.

Fixpoint strchr (str : list Z) (ch : Z) : outcome (option (list Z)) :=
  match str with
  | [] => UB
  | c :: str' =>
      if negb (c =? 0) && negb (c =? ch) then strchr str' ch
      else Ok (if c =? ch then Some str else None)
  end.

Fixpoint strrchr_from (str : list Z) (ch : Z) (last : option (list Z))
    : outcome (option (list Z)) :=
  match str with
  | [] => UB
  | c :: str' =>
      if c =? 0 then Ok last
      else strrchr_from str' ch (if c =? ch then Some str else last)
  end.

Definition strrchr (str : list Z) (ch : Z) : outcome (option (list Z)) :=
  strrchr_from str ch None.

Fixpoint strcat (d src : list Z) : outcome (list Z) :=
  match d with
  | [] => UB
  | c :: d' => if c =? 0 then strcpy d src else r ← strcat d' src; Ok (c :: r)
  end.

(** The kernel's [snprintf] looks at neither the conversions nor the arguments:
    it copies the format. *)
Definition snprintf (str : list Z) (size : nat) (format : list Z) : outcome (Z * list Z) :=
  match size with
  | O => Ok (0, str)
  | S n =>
      str ← strncpy str format n;
      str ← aset str (Z.of_nat n) 0;
      len ← strlen str;
      Ok (len, str)
  end.

Definition star : Z := 42.

(** The tail loop of [match_wildcard]: the pattern's stars are skipped. *)
Fixpoint only_stars (pattern : list Z) : outcome bool :=
  match pattern with
  | [] => UB
  | p :: pattern' => if p =? star then only_stars pattern' else Ok (p =? 0)
  end.

(** The inner loop: some suffix of the string, short of its end, matches. *)
Fixpoint some_suffix (mw : list Z → outcome bool) (str : list Z) : outcome bool :=
  match str with
  | [] => UB
  | c :: str' =>
      if c =? 0 then Ok false
      else b ← mw str; if (b : bool) then Ok true else some_suffix mw str'
  end.

Fixpoint match_wildcard (pattern str : list Z) : outcome bool :=
  match str with
  | [] => UB
  | c :: str' =>
      if c =? 0 then only_stars pattern
      else match pattern with
      | [] => UB
      | p :: pattern' =>
          if p =? star then
            match pattern' with
            | [] => UB
            | p' :: _ => if p' =? 0 then Ok true else some_suffix (match_wildcard pattern') str
            end
          else if negb (p =? c) then Ok false
          else match_wildcard pattern' str'
      end
  end.

(** [memmove], on one memory: source and destination may overlap.  The memory is
    a function of the address. *)
Definition mem_set (mem : Z → Z) (a v : Z) : Z → Z := λ x, if x =? a then v else mem x.

Fixpoint copy_up (count : nat) (mem : Z → Z) (d s : Z) : Z → Z :=
  match count with
  | O => mem
  | S n => copy_up n (mem_set mem d (mem s)) (d + 1) (s + 1)
  end.

Fixpoint copy_down (count : nat) (mem : Z → Z) (d s : Z) : Z → Z :=
  match count with
  | O => mem
  | S n => copy_down n (mem_set mem (d - 1) (mem (s - 1))) (d - 1) (s - 1)
  end.

Definition memmove (mem : Z → Z) (dest src : Z) (count : nat) : Z → Z :=
  if dest <? src then copy_up count mem dest src
  else copy_down count mem (dest + Z.of_nat count) (src + Z.of_nat count).

(** ** Specification *)

(** The bytes of a C string: none is the terminator. *)
Definition chars (s : list Z) : Prop := Forall (λ c, c ≠ 0) s.

Definition cstr (buf s : list Z) : Prop := chars s ∧ exists r, buf = s ++ 0 :: r.

(** What a shell pattern means: [*] is any run of characters. *)
Inductive glob : list Z → list Z → Prop :=
| glob_nil : glob [] []
| glob_star p s1 s2 : glob p s2 → glob (star :: p) (s1 ++ s2)
| glob_char c p s : c ≠ star → glob p s → glob (c :: p) (c :: s).

(** Zero-padded copy: what [strncpy] leaves in the first [n] bytes. *)
Definition padded (n : nat) (s : list Z) : list Z := take n (s ++ replicate n 0).

(** The parts of a text between the characters [sep]. *)
Fixpoint split_on (sep : Z) (l : list Z) : list (list Z) :=
  match l with
  | [] => [[]]
  | c :: l =>
      if c =? sep then [] :: split_on sep l
      else match split_on sep l with s :: ss => (c :: s) :: ss | [] => [[c]] end
  end.

(** ** Lemmas on terminated strings *)

Lemma first_on (sep : Z) (l : list Z) : (exists s r, l = s ++ sep :: r ∧ sep ∉ s) ∨ sep ∉ l.
Proof.
  induction l as [|c l IH]; [right; set_solver|]. destruct (decide (c = sep)) as [->|Hc].
  - left. exists [], l. split; [done|set_solver].
  - destruct IH as [(s & r & -> & Hs)|Hl].
    + left. exists (c :: s), r. split; [done|set_solver].
    + right. set_solver.
Qed.

Lemma split_on_none (sep : Z) l : sep ∉ l → split_on sep l = [l].
Proof.
  induction l as [|c l IH]; [done|]. intros Hl. cbn [split_on].
  rewrite (proj2 (Z.eqb_neq c _)) by set_solver. rewrite IH by set_solver. done.
Qed.

Lemma split_on_first (sep : Z) (s r : list Z) : sep ∉ s → split_on sep (s ++ sep :: r) = s :: split_on sep r.
Proof.
  induction s as [|c s IH]; intros Hs; cbn [split_on app]; [by rewrite Z.eqb_refl|].
  rewrite (proj2 (Z.eqb_neq c _)) by set_solver. rewrite IH by set_solver. done.
Qed.

Lemma chars_cons c s : chars (c :: s) ↔ c ≠ 0 ∧ chars s.
Proof. unfold chars. by rewrite Forall_cons. Qed.

Lemma chars_app s1 s2 : chars (s1 ++ s2) ↔ chars s1 ∧ chars s2.
Proof. unfold chars. by rewrite Forall_app. Qed.

Lemma cstr_intro s r : chars s → cstr (s ++ 0 :: r) s.
Proof. intros. split; eauto. Qed.

Lemma cstr_inj buf s1 s2 : cstr buf s1 → cstr buf s2 → s1 = s2.
Proof.
  intros [H1 [r1 E1]] [H2 [r2 E2]]. rewrite E1 in E2. clear E1. revert s2 H2 E2.
  induction s1 as [|c s1 IH]; intros [|c2 s2] H2 E2; simpl in *; [done|..].
  - injection E2 as <- _. by apply chars_cons in H2 as [? _].
  - injection E2 as -> _. by apply chars_cons in H1 as [? _].
  - injection E2 as -> E2. apply chars_cons in H1 as [_ H1], H2 as [_ H2].
    f_equal. by apply IH.
Qed.

Lemma strlen_app s r : chars s → strlen (s ++ 0 :: r) = Ok (Z.of_nat (length s)).
Proof.
  induction s as [|c s IH]; intros Hs; simpl; [done|].
  apply chars_cons in Hs as [Hc Hs]. rewrite (proj2 (Z.eqb_neq c 0)) by done.
  rewrite IH by done. simpl. f_equal. lia.
Qed.

Lemma strlen_cstr buf s : cstr buf s → strlen buf = Ok (Z.of_nat (length s)).
Proof. intros [? [r ->]]. by apply strlen_app. Qed.

(** [strcmp] is zero exactly on equal strings. *)
Lemma strcmp_app s1 r1 s2 r2 :
  chars s1 → chars s2 →
  exists z, strcmp (s1 ++ 0 :: r1) (s2 ++ 0 :: r2) = Ok z ∧ (z = 0 ↔ s1 = s2).
Proof.
  revert s2. induction s1 as [|c1 s1 IH]; intros [|c2 s2] H1 H2; simpl.
  - by exists 0.
  - apply chars_cons in H2 as [? _]. exists (0 - c2). split; [done|]. split; [lia|done].
  - apply chars_cons in H1 as [Hc _]. exists (c1 - 0). rewrite (proj2 (Z.eqb_neq c1 0)) by done.
    simpl. split; [done|]. split; [lia|done].
  - apply chars_cons in H1 as [Hc H1], H2 as [? H2].
    rewrite (proj2 (Z.eqb_neq c1 0)) by done. simpl.
    destruct (Z.eqb_spec c1 c2) as [->|Hne].
    + destruct (IH s2 H1 H2) as (z & Ez & Hz). exists z. split; [done|]. rewrite Hz.
      split; congruence.
    + exists (c1 - c2). split; [done|]. split; [lia|congruence].
Qed.

(** The result as the code uses it: tested against zero. *)
Lemma strcmp_eqb s1 r1 s2 r2 :
  chars s1 → chars s2 →
  exists z, strcmp (s1 ++ 0 :: r1) (s2 ++ 0 :: r2) = Ok z ∧ (z =? 0) = bool_decide (s1 = s2).
Proof.
  intros H1 H2. destruct (strcmp_app s1 r1 s2 r2 H1 H2) as (z & Ez & Hz). exists z.
  split; [done|]. destruct (Z.eqb_spec z 0); symmetry;
    [apply bool_decide_eq_true_2|apply bool_decide_eq_false_2]; tauto.
Qed.

Lemma memset_ok d ch n :
  (n ≤ length d)%nat → memset d ch n = Ok (replicate n (u8 ch) ++ drop n d).
Proof.
  revert d. induction n as [|n IH]; intros [|x d] Hn; simpl in *; [done|done|lia|].
  by rewrite IH by lia.
Qed.

Lemma memcpy_ok d s n :
  (n ≤ length d)%nat → (n ≤ length s)%nat → memcpy d s n = Ok (take n s ++ drop n d).
Proof.
  revert d s. induction n as [|n IH]; intros [|x d] [|c s] Hd Hs; simpl in *; try lia; try done.
  by rewrite IH by lia.
Qed.

Lemma strcpy_ok d s r :
  chars s → (length s < length d)%nat →
  strcpy d (s ++ 0 :: r) = Ok (s ++ 0 :: drop (S (length s)) d).
Proof.
  revert d. induction s as [|c s IH]; intros [|x d] Hs Hd; simpl in *; try lia; [done|].
  apply chars_cons in Hs as [Hc Hs]. rewrite (proj2 (Z.eqb_neq c 0)) by done.
  rewrite IH by (done || lia). done.
Qed.

(** A copy that does not fit is written behind the buffer. *)
Lemma strcpy_overflow s : ∀ d r, chars s → (length d ≤ length s)%nat → strcpy d (s ++ 0 :: r) = UB.
Proof.
  induction s as [|c s IH]; intros [|x d] r Hs Hd; simpl in *; try done; [lia|].
  apply chars_cons in Hs as [Hc Hs]. rewrite (proj2 (Z.eqb_neq c 0)) by done. by rewrite IH by (done || lia).
Qed.

(** [strcat] to a buffer: the text when it fits, and undefined otherwise. *)
Lemma strcat_cstr d s t r : cstr d s → chars t →
  if decide (length s + length t < length d)%nat
  then exists d', strcat d (t ++ 0 :: r) = Ok d' ∧ cstr d' (s ++ t) ∧ length d' = length d
  else strcat d (t ++ 0 :: r) = UB.
Proof.
  intros [Hs [q ->]] Ht. rewrite length_app. cbn [length]. destruct (decide _) as [Hl|Hl].
  - exists (s ++ t ++ 0 :: drop (length t) q). split; [|split].
    + induction s as [|c s IH]; cbn [app strcat].
      * rewrite Z.eqb_refl. rewrite strcpy_ok by (done || simpl in *; lia). done.
      * apply chars_cons in Hs as [Hc Hs]. rewrite (proj2 (Z.eqb_neq c 0)) by done. by rewrite IH by (done || simpl in *; lia).
    + split; [by apply chars_app|]. exists (drop (length t) q). by rewrite <- app_assoc.
    + rewrite !length_app. cbn. rewrite length_drop. lia.
  - induction s as [|c s IH]; cbn [app strcat].
    + rewrite Z.eqb_refl. apply strcpy_overflow; [done|]. simpl in *. lia.
    + apply chars_cons in Hs as [Hc Hs]. rewrite (proj2 (Z.eqb_neq c 0)) by done. by rewrite IH by (done || simpl in *; lia).
Qed.

(** What lies behind the terminator of the source does not matter. *)
Lemma strcat_ext d s r : chars s → strcat d (s ++ 0 :: r) = strcat d (s ++ [0]).
Proof.
  intros Hs. induction d as [|c d IH]; cbn [strcat]; [done|]. rewrite IH. destruct (c =? 0); [|done].
  generalize (c :: d). clear IH. induction s as [|x s IH]; intros l; destruct l as [|y l]; cbn [strcpy app]; try done.
  apply chars_cons in Hs as [Hx Hs]. by rewrite (proj2 (Z.eqb_neq x 0)), IH.
Qed.

Lemma replicate_take_min (n k : nat) (x : Z) : (n ≤ k)%nat → take n (replicate k x) = replicate n x.
Proof. intros. rewrite take_replicate. f_equal. lia. Qed.

Lemma strncpy_ok d s r n :
  chars s → (n ≤ length d)%nat →
  strncpy d (s ++ 0 :: r) n = Ok (padded n s ++ drop n d).
Proof.
  revert d s. induction n as [|n IH]; intros [|x d] [|c s] Hs Hd; simpl in Hd; try lia; try done.
  - cbn [strncpy app]. rewrite Z.eqb_refl, memset_ok by (simpl; lia).
    unfold padded. cbn [app]. by rewrite replicate_take_min.
  - apply chars_cons in Hs as [Hc Hs]. cbn [strncpy app].
    rewrite (proj2 (Z.eqb_neq c 0)) by done. rewrite IH by (done || lia).
    simpl. unfold padded. cbn [app take]. do 3 f_equal.
    try change (0 :: replicate n 0) with (replicate (S n) 0).
    rewrite replicate_S_end, app_assoc. symmetry. apply take_app_le.
    rewrite length_app, length_replicate. lia.
Qed.

Lemma length_padded n s : length (padded n s) = n.
Proof. unfold padded. rewrite length_take, length_app, length_replicate. lia. Qed.

Lemma padded_short n s : (length s ≤ n)%nat → padded n s = s ++ replicate (n - length s) 0.
Proof.
  intros. unfold padded. rewrite take_app_ge by lia. f_equal.
  rewrite replicate_take_min by lia. done.
Qed.

Lemma padded_long n s : (n ≤ length s)%nat → padded n s = take n s.
Proof. intros. unfold padded. by rewrite take_app_le. Qed.

Lemma strchr_found s1 ch r :
  chars s1 → ch ≠ 0 → ch ∉ s1 → strchr (s1 ++ ch :: r) ch = Ok (Some (ch :: r)).
Proof.
  induction s1 as [|c s1 IH]; intros Hs Hch Hn; simpl.
  - rewrite Z.eqb_refl. simpl. by rewrite andb_false_r.
  - apply chars_cons in Hs as [Hc Hs]. apply not_elem_of_cons in Hn as [Hne Hn].
    rewrite (proj2 (Z.eqb_neq c 0)), (proj2 (Z.eqb_neq c ch)) by done. simpl. by apply IH.
Qed.

Lemma strchr_none s ch r :
  chars s → ch ≠ 0 → ch ∉ s → strchr (s ++ 0 :: r) ch = Ok None.
Proof.
  induction s as [|c s IH]; intros Hs Hch Hn; cbn [app strchr].
  - rewrite Z.eqb_refl, (proj2 (Z.eqb_neq 0 ch)) by done. done.
  - apply chars_cons in Hs as [Hc Hs]. apply not_elem_of_cons in Hn as [Hne Hn].
    rewrite (proj2 (Z.eqb_neq c 0)), (proj2 (Z.eqb_neq c ch)) by done. simpl. by apply IH.
Qed.

Lemma strrchr_from_none s ch r last :
  chars s → ch ∉ s → strrchr_from (s ++ 0 :: r) ch last = Ok last.
Proof.
  revert last. induction s as [|c s IH]; intros last Hs Hn; simpl; [done|].
  apply chars_cons in Hs as [Hc Hs]. apply not_elem_of_cons in Hn as [Hne Hn].
  rewrite (proj2 (Z.eqb_neq c 0)), (proj2 (Z.eqb_neq c ch)) by done. by apply IH.
Qed.

Lemma strrchr_found s1 ch s2 r :
  chars s1 → ch ≠ 0 → chars s2 → ch ∉ s2 →
  strrchr (s1 ++ ch :: s2 ++ 0 :: r) ch = Ok (Some (ch :: s2 ++ 0 :: r)).
Proof.
  unfold strrchr. generalize (@None (list Z)). induction s1 as [|c s1 IH]; intros last H1 Hch H2 Hn; simpl.
  - rewrite Z.eqb_refl, (proj2 (Z.eqb_neq ch 0)) by done. by apply strrchr_from_none.
  - apply chars_cons in H1 as [Hc H1]. rewrite (proj2 (Z.eqb_neq c 0)) by done. by apply IH.
Qed.

Lemma strrchr_none s ch r : chars s → ch ∉ s → strrchr (s ++ 0 :: r) ch = Ok None.
Proof. apply strrchr_from_none. Qed.

(** ** match_wildcard *)

Lemma glob_nil_any p s : glob p [] → p ≠ [] → glob p s.
Proof.
  intros H. inversion H as [|p' s1 s2 H' Hp E|]; subst; [done|]. intros _.
  apply app_nil in E as [-> ->]. rewrite <- (app_nil_r s). by constructor.
Qed.

Lemma glob_star_inv p s : glob (star :: p) s ↔ exists s1 s2, s = s1 ++ s2 ∧ glob p s2.
Proof.
  split.
  - intros H. inversion H; subst; [eauto|done].
  - intros (s1 & s2 & -> & ?). by constructor.
Qed.

Lemma glob_char_inv c p x s : c ≠ star → glob (c :: p) (x :: s) ↔ c = x ∧ glob p s.
Proof.
  intros Hc. split.
  - intros H. inversion H; subst; [done|]. done.
  - intros [<- ?]. by constructor.
Qed.

Lemma only_stars_glob p r :
  chars p → exists b, only_stars (p ++ 0 :: r) = Ok b ∧ (b = true ↔ glob p []).
Proof.
  induction p as [|c p IH]; intros Hp; simpl.
  { exists true. split; [done|]. split; [by constructor|done]. }
  apply chars_cons in Hp as [Hc Hp]. destruct (Z.eqb_spec c star) as [->|Hs].
  - destruct (IH Hp) as (b & -> & Hb). exists b. split; [done|]. rewrite Hb, glob_star_inv.
    split; [intros; by exists [], []|]. by intros ([] & [] & ? & ?).
  - exists false. rewrite (proj2 (Z.eqb_neq c 0)) by done. split; [done|].
    split; [done|]. intros H. by inversion H.
Qed.

Lemma some_suffix_spec (mw : list Z → outcome bool) (P : list Z → Prop) s r :
  (∀ s, chars s → exists b, mw (s ++ 0 :: r) = Ok b ∧ (b = true ↔ P s)) →
  chars s →
  exists b, some_suffix mw (s ++ 0 :: r) = Ok b ∧
    (b = true ↔ exists s1 s2, s = s1 ++ s2 ∧ s2 ≠ [] ∧ P s2).
Proof.
  intros Hmw. induction s as [|c s IH]; intros Hs.
  { exists false. split; [done|]. split; [done|]. by intros ([] & [] & ? & ? & ?). }
  pose proof Hs as Hs'. apply chars_cons in Hs' as [Hc Hs'].
  destruct (Hmw (c :: s) Hs) as (b & Eb & Hb). destruct (IH Hs') as (b' & Eb' & Hb').
  cbn [app some_suffix]. cbn [app] in Eb.
  rewrite (proj2 (Z.eqb_neq c 0)), Eb, bind_Ok by done. destruct b.
  - exists true. split; [done|]. split; [|done]. intros _. exists [], (c :: s). naive_solver.
  - exists b'. split; [done|]. rewrite Hb'. split.
    + intros (s1 & s2 & -> & ? & ?). by exists (c :: s1), s2.
    + intros ([|c1 s1] & s2 & E & ? & HP); simpl in E.
      * subst s2. apply Hb in HP. done.
      * injection E as -> ->. eauto.
Qed.

Lemma match_wildcard_ok p s rp rs :
  chars p → chars s →
  exists b, match_wildcard (p ++ 0 :: rp) (s ++ 0 :: rs) = Ok b ∧ (b = true ↔ glob p s).
Proof.
  revert s. induction p as [|c p IH]; intros s Hp Hs.
  { destruct s as [|x s]; cbn [app match_wildcard].
    - exists true. split; [done|]. split; [constructor|done].
    - apply chars_cons in Hs as [Hx _]. rewrite (proj2 (Z.eqb_neq x 0)) by done.
      exists false. change (0 =? star) with false.
      rewrite (proj2 (Z.eqb_neq 0 x)) by done. split; [done|]. split; [done|].
      intros H. by inversion H. }
  pose proof Hp as Hp'. apply chars_cons in Hp' as [Hc Hp'].
  destruct s as [|x s].
  { exact (only_stars_glob (c :: p) rp Hp). }
  pose proof Hs as Hs'. apply chars_cons in Hs' as [Hx Hs'].
  cbn [app match_wildcard]. rewrite (proj2 (Z.eqb_neq x 0)) by done.
  destruct (Z.eqb_spec c star) as [->|Hns].
  - destruct p as [|c' p]; cbn [app].
    { exists true. split; [done|]. split; [|done]. intros _. rewrite glob_star_inv.
      exists (x :: s), []. rewrite app_nil_r. split; [done|constructor]. }
    pose proof Hp' as Hp2. apply chars_cons in Hp2 as [Hc' _].
    rewrite (proj2 (Z.eqb_neq c' 0)) by done.
    destruct (some_suffix_spec (match_wildcard ((c' :: p) ++ 0 :: rp)) (glob (c' :: p))
      (x :: s) rs) as (b & Eb & Hb); [intros; by apply IH|done|].
    exists b. split; [exact Eb|]. rewrite Hb, glob_star_inv. split.
    + intros (s1 & s2 & ? & _ & ?). eauto.
    + intros (s1 & s2 & E & Hg). destruct s2 as [|y s2]; [|eauto].
      exists [], (x :: s). split_and!; [done|done|]. by apply glob_nil_any.
  - destruct (Z.eqb_spec c x) as [<-|Hne]; simpl.
    + destruct (IH s Hp' Hs') as (b & Eb & Hb). exists b. split; [done|].
      rewrite Hb, glob_char_inv by done. tauto.
    + exists false. split; [done|]. split; [done|]. by rewrite glob_char_inv by done; intros [].
Qed.

(** [C23] [match_wildcard] decides the glob relation: on terminated strings it
    terminates inside both arrays and answers true exactly when the pattern
    matches the string. *)
Theorem match_wildcard_correct p s rp rs :
  chars p → chars s →
  exists b, match_wildcard (p ++ 0 :: rp) (s ++ 0 :: rs) = Ok b ∧ (b = true ↔ glob p s).
Proof. exact (match_wildcard_ok p s rp rs). Qed.

(** ** memmove *)

Lemma copy_up_spec n mem d s x :
  d < s →
  copy_up n mem d s x = if (d <=? x) && (x <? d + Z.of_nat n) then mem (s + (x - d)) else mem x.
Proof.
  revert mem d s. induction n as [|n IH]; intros mem d s Hds; cbn [copy_up].
  { destruct (Z.leb_spec d x), (Z.ltb_spec x (d + Z.of_nat 0)); simpl; [lia|done..]. }
  rewrite IH by lia. unfold mem_set.
  destruct (Z.leb_spec (d + 1) x), (Z.ltb_spec x (d + 1 + Z.of_nat n)); simpl.
  - rewrite (proj2 (Z.leb_le d x)), (proj2 (Z.ltb_lt x _)) by lia. simpl.
    rewrite (proj2 (Z.eqb_neq _ d)) by lia. f_equal. lia.
  - rewrite (proj2 (Z.ltb_ge x _)), andb_false_r by lia.
    by rewrite (proj2 (Z.eqb_neq x d)) by lia.
  - destruct (Z.eqb_spec x d) as [->|].
    + rewrite (proj2 (Z.leb_le d d)), (proj2 (Z.ltb_lt d _)) by lia. simpl. f_equal. lia.
    + by rewrite (proj2 (Z.leb_gt d x)) by lia.
  - lia.
Qed.

Lemma copy_down_spec n mem d s x :
  s ≤ d →
  copy_down n mem d s x =
    if (d - Z.of_nat n <=? x) && (x <? d) then mem (s + (x - d)) else mem x.
Proof.
  revert mem d s. induction n as [|n IH]; intros mem d s Hds; cbn [copy_down].
  { destruct (Z.leb_spec (d - Z.of_nat 0) x), (Z.ltb_spec x d); simpl; [lia|done..]. }
  rewrite IH by lia. unfold mem_set.
  destruct (Z.leb_spec (d - 1 - Z.of_nat n) x), (Z.ltb_spec x (d - 1)); simpl.
  - rewrite (proj2 (Z.leb_le _ x)), (proj2 (Z.ltb_lt x _)) by lia. simpl.
    rewrite (proj2 (Z.eqb_neq _ (d - 1))) by lia. f_equal. lia.
  - destruct (Z.eqb_spec x (d - 1)) as [->|].
    + rewrite (proj2 (Z.leb_le _ (d - 1))), (proj2 (Z.ltb_lt (d - 1) _)) by lia. simpl. f_equal. lia.
    + by rewrite (proj2 (Z.ltb_ge x d)), andb_false_r by lia.
  - rewrite (proj2 (Z.leb_gt _ x)) by lia. by rewrite (proj2 (Z.eqb_neq x _)) by lia.
  - lia.
Qed.

Lemma memmove_ok mem dest src n x :
  memmove mem dest src n x =
    if (dest <=? x) && (x <? dest + Z.of_nat n) then mem (src + (x - dest)) else mem x.
Proof.
  unfold memmove. destruct (Z.ltb_spec dest src).
  - by apply copy_up_spec.
  - rewrite copy_down_spec by lia.
    replace (dest + Z.of_nat n - Z.of_nat n) with dest by lia.
    replace (src + Z.of_nat n + (x - (dest + Z.of_nat n))) with (src + (x - dest)) by lia. done.
Qed.

(** [memmove] copies as if through a temporary: whatever the overlap of
    source and destination, each destination byte ends with the byte the
    source held before the call, and no other byte changes. *)
Theorem memmove_correct mem dest src n x :
  memmove mem dest src n x =
    if (dest <=? x) && (x <? dest + Z.of_nat n) then mem (src + (x - dest)) else mem x.
Proof. apply memmove_ok. Qed.

(** The string "a*.c" against "ab.c". *)
Lemma match_wildcard_correct_witness :
  exists b, match_wildcard ([97; 42; 46; 99] ++ [0]) ([97; 98; 46; 99] ++ [0]) = Ok b ∧
    (b = true ↔ glob [97; 42; 46; 99] [97; 98; 46; 99]).
Proof.
  apply (match_wildcard_correct [97; 42; 46; 99] [97; 98; 46; 99] [] []);
    repeat (constructor; [discriminate|]); constructor.
Defined.
