(* ===== verification/Disk.v ===== *)
(** * The disk interface

    The file system reaches the disk only through [initialize],
    [read_sectors] and [write_sectors] of the ATA driver
    (src/kernel/src/drivers/ata.hpp).  [BlockDevice] is those three calls on a
    state of the driver and its drive; [DeviceLaws] is what a working drive
    promises about them, one 512-byte sector at a time.  The file system's
    definitions use the first and its theorems the second.  [MemDisk] is a
    drive that satisfies the laws. *)

From S2P Require Import Prelude.

Definition SECTOR : nat := 512.

(** A read returns the bytes it stores in the buffer, or [None] when the driver
    returns false; a write takes the bytes the driver reads from the buffer. *)
Class BlockDevice (D : Type) := {
  dev_initialize : D → bool * D;
  dev_read : D → Z → Z → option (list Z) * D;
  dev_write : D → Z → Z → list Z → bool * D
}.

(** [dev_sector d s] is the content of sector [s], [dev_limit] the number of
    sectors.  Reading and initialising may change the driver's state but not
    the contents. *)
Class DeviceLaws (D : Type) `{BlockDevice D} := {
  dev_ready : D → Prop;
  dev_sector : D → Z → list Z;
  dev_limit : D → Z;
  dev_limit_bound d : dev_ready d → dev_limit d ≤ 2 ^ 32;
  dev_sector_length d s : dev_ready d → length (dev_sector d s) = SECTOR;
  dev_sector_bytes d s : dev_ready d → Forall is_u8 (dev_sector d s);
  dev_initialize_law d : dev_ready d →
    exists d', dev_initialize d = (true, d') ∧ dev_ready d' ∧ dev_limit d' = dev_limit d ∧
      ∀ s, dev_sector d' s = dev_sector d s;
  dev_read_law d s : dev_ready d → 0 ≤ s < dev_limit d →
    exists d', dev_read d s 1 = (Some (dev_sector d s), d') ∧ dev_ready d' ∧
      dev_limit d' = dev_limit d ∧ ∀ k, dev_sector d' k = dev_sector d k;
  dev_write_law d s data : dev_ready d → 0 ≤ s < dev_limit d →
    length data = SECTOR → Forall is_u8 data →
    exists d', dev_write d s 1 data = (true, d') ∧ dev_ready d' ∧
      dev_limit d' = dev_limit d ∧
      ∀ k, dev_sector d' k = if k =? s then data else dev_sector d k
}.

(** A drive in memory: a function from sector numbers to contents. *)
Definition MemDisk : Type := Z → list Z.

Definition mem_write (d : MemDisk) (s n : Z) (data : list Z) : MemDisk := λ k,
  if (s <=? k) && (k <? s + n) then take SECTOR (drop (Z.to_nat (k - s) * SECTOR) data) else d k.

#[export] Instance mem_device : BlockDevice MemDisk := {
  dev_initialize d := (true, d);
  dev_read d s n := (Some (concat ((λ i, d (s + Z.of_nat i)) <$> seq 0 (Z.to_nat n))), d);
  dev_write d s n data := (true, mem_write d s n data)
}.

Definition mem_ready (d : MemDisk) : Prop :=
  ∀ s, length (d s) = SECTOR ∧ Forall is_u8 (d s).

#[export] Program Instance mem_laws : DeviceLaws MemDisk := {
  dev_ready := mem_ready;
  dev_sector d s := d s;
  dev_limit _ := 2 ^ 28
}.
Next Obligation. simpl. lia. Qed.
Next Obligation. intros d s Hd. apply Hd. Qed.
Next Obligation. intros d s Hd. apply Hd. Qed.
Next Obligation. intros d Hd. by exists d. Qed.
Next Obligation.
  intros d s Hd Hs. exists d. split_and!; try done. unfold dev_read, mem_device.
  change (seq 0 (Z.to_nat 1)) with [0%nat]. cbn [fmap list_fmap concat].
  replace (s + Z.of_nat 0) with s by lia. by rewrite app_nil_r.
Qed.
Next Obligation.
  intros d s data Hd Hs Hl Hb. eexists. split; [done|].
  assert (Hw : ∀ k, mem_write d s 1 data k = if k =? s then data else d k).
  { intros k. unfold mem_write. destruct (Z.eqb_spec k s) as [->|].
    - rewrite (proj2 (Z.leb_le s s)), (proj2 (Z.ltb_lt s _)) by lia. cbn [andb].
      rewrite Z.sub_diag, drop_0, take_ge; [done|lia].
    - destruct (Z.leb_spec s k), (Z.ltb_spec k (s + 1)); simpl; try done. lia. }
  split; [|by split]. intros k. rewrite Hw. destruct (k =? s); [done|apply Hd].
Qed.
