(* ===== verification/Fat32.v ===== *)
(** * The FAT32 file system (src/kernel/src/fs/fat32.{hpp,cpp})

    [CFat32FileSystem] is the C++ object together with the disk it reaches
    through the ATA driver, an instance of [BlockDevice].  A method is a
    computation in [FS]: it reads and changes the object, and may be undefined.
    A sector buffer is a list of bytes, a [char] array a list of bytes, and
    names are pointers in the sense of CStr.v.  The diagnostics printed on
    failure are left out.

    The loops along a cluster chain have no bound in the code.  Here they take
    the fuel given as the first argument of the methods that contain one, and
    each iteration is one cluster of the chain. *)

From S2P Require Import Prelude CStr Disk.

Definition MAX_PATH : nat := 256.
Definition ROOT_CLUSTER : Z := 2.
Definition MAX_DIR_STACK : Z := 32.

(** ** Data *)

Record SFat32BPB := BPB {
  m_bootJmp : list Z;
  m_oemName : list Z;
  m_bytesPerSector : Z;
  m_sectorsPerCluster : Z;
  m_reservedSectorCount : Z;
  m_tableCount : Z;
  m_rootEntryCount : Z;
  m_totalSectors16 : Z;
  m_mediaType : Z;
  m_tableSize16 : Z;
  m_sectorsPerTrack : Z;
  m_headSideCount : Z;
  m_hiddenSectorCount : Z;
  m_totalSectors32 : Z;
  m_tableSize32 : Z;
  m_extFlags : Z;
  m_fatVersion : Z;
  m_rootCluster : Z;
  m_fsInfo_sector : Z;
  m_backupBootSector : Z;
  m_reserved : list Z;
  m_driveNumber : Z;
  m_reserved1 : Z;
  m_bootSignature : Z;
  m_volumeId : Z;
  m_volumeLabel : list Z;
  m_fatTypeLabel : list Z
}.

Record SFat32FSInfo := FSInfo { m_freeCount : Z; m_nextFree : Z }.

Record SDirStackEntry := DirStackEntry { d_name : list Z; d_path : list Z; d_cluster : Z }.

Record CFat32FileSystem (D : Type) := Fat32 {
  m_dirStack : list SDirStackEntry;
  m_dirStackSize : Z;
  m_bpb : SFat32BPB;
  m_fsInfo : SFat32FSInfo;
  m_firstDataSector : Z;
  m_dataSectors : Z;
  m_totalClusters : Z;
  m_firstFatSector : Z;
  m_currentPath : list Z;
  m_currentDirName : list Z;
  m_currentDirectoryCluster : Z;
  m_disk : D
}.
Arguments Fat32 {D}.
Arguments m_dirStack {D}. Arguments m_dirStackSize {D}. Arguments m_bpb {D}.
Arguments m_fsInfo {D}. Arguments m_firstDataSector {D}. Arguments m_dataSectors {D}.
Arguments m_totalClusters {D}. Arguments m_firstFatSector {D}. Arguments m_currentPath {D}.
Arguments m_currentDirName {D}. Arguments m_currentDirectoryCluster {D}. Arguments m_disk {D}.

(** ** Little-endian fields of a byte array *)

Definition get16 (b : list Z) (o : Z) : outcome Z :=
  x0 ← aget b o; x1 ← aget b (o + 1); Ok (x0 + x1 * 2 ^ 8).

Definition get32 (b : list Z) (o : Z) : outcome Z :=
  x0 ← aget b o; x1 ← aget b (o + 1); x2 ← aget b (o + 2); x3 ← aget b (o + 3);
  Ok (x0 + x1 * 2 ^ 8 + x2 * 2 ^ 16 + x3 * 2 ^ 24).

(** Writing bytes at an offset. *)
Definition put (b : list Z) (o : Z) (new : list Z) : outcome (list Z) :=
  if (0 <=? o) && (o + Z.of_nat (length new) <=? Z.of_nat (length b))
  then Ok (take (Z.to_nat o) b ++ new ++ drop (Z.to_nat o + length new) b) else UB.

Definition bytes32 (v : Z) : list Z :=
  [u8 v; u8 (v / 2 ^ 8); u8 (v / 2 ^ 16); u8 (v / 2 ^ 24)].

(** The pointer [o] bytes into an array. *)
Definition at_offset (b : list Z) (o : Z) : list Z := drop (Z.to_nat o) b.

(** [memcpy] of the first 90 bytes of the boot sector over the packed struct. *)
Definition read_bpb (b : list Z) : outcome SFat32BPB :=
  bps ← get16 b 11; spc ← aget b 13; rsvd ← get16 b 14; nfat ← aget b 16;
  root ← get16 b 17; tot16 ← get16 b 19; media ← aget b 21; fat16 ← get16 b 22;
  spt ← get16 b 24; heads ← get16 b 26; hidden ← get32 b 28; tot32 ← get32 b 32;
  fat32 ← get32 b 36; ext ← get16 b 40; ver ← get16 b 42; rootc ← get32 b 44;
  info ← get16 b 48; back ← get16 b 50; drive ← aget b 64; res1 ← aget b 65;
  sig ← aget b 66; vol ← get32 b 67; _ ← aget b 89;
  Ok (BPB (take 3 b) (take 8 (drop 3 b)) bps spc rsvd nfat root tot16 media fat16 spt heads
        hidden tot32 fat32 ext ver rootc info back (take 12 (drop 52 b)) drive res1 sig vol
        (take 11 (drop 71 b)) (take 8 (drop 82 b))).

Definition zero_bpb : SFat32BPB :=
  BPB (replicate 3 0) (replicate 8 0) 0 0 0 0 0 0 0 0 0 0 0 0 0 0 0 0 0 0 (replicate 12 0) 0 0 0 0
    (replicate 11 0) (replicate 8 0).

(** ** The monad *)

Section fat32.
Context {D : Type} {HD : BlockDevice D}.

#[local] Abbreviation FS := (ST (CFat32FileSystem D)).

Definition set_disk (s : CFat32FileSystem D) (d : D) : CFat32FileSystem D :=
  Fat32 (m_dirStack s) (m_dirStackSize s) (m_bpb s) (m_fsInfo s) (m_firstDataSector s)
    (m_dataSectors s) (m_totalClusters s) (m_firstFatSector s) (m_currentPath s)
    (m_currentDirName s) (m_currentDirectoryCluster s) d.

Definition set_volume (s : CFat32FileSystem D) (bpb : SFat32BPB) (info : SFat32FSInfo)
    (firstData dataSectors clusters firstFat : Z) : CFat32FileSystem D :=
  Fat32 (m_dirStack s) (m_dirStackSize s) bpb info firstData dataSectors clusters firstFat
    (m_currentPath s) (m_currentDirName s) (m_currentDirectoryCluster s) (m_disk s).

Definition set_current (s : CFat32FileSystem D) (path name : list Z) (cluster : Z)
    : CFat32FileSystem D :=
  Fat32 (m_dirStack s) (m_dirStackSize s) (m_bpb s) (m_fsInfo s) (m_firstDataSector s)
    (m_dataSectors s) (m_totalClusters s) (m_firstFatSector s) path name cluster (m_disk s).

Definition set_stack (s : CFat32FileSystem D) (st : list SDirStackEntry) (n : Z)
    : CFat32FileSystem D :=
  Fat32 st n (m_bpb s) (m_fsInfo s) (m_firstDataSector s)
    (m_dataSectors s) (m_totalClusters s) (m_firstFatSector s) (m_currentPath s)
    (m_currentDirName s) (m_currentDirectoryCluster s) (m_disk s).

Definition bps (s : CFat32FileSystem D) : Z := m_bytesPerSector (m_bpb s).
Definition spc (s : CFat32FileSystem D) : Z := m_sectorsPerCluster (m_bpb s).

(** ** Construction and the directory stack *)

Definition slash : Z := 47.
Definition root_path : list Z := [slash; 0].
Definition zero_path : list Z := replicate MAX_PATH 0.

(** The static object: zeroed memory, then the constructor. *)
Definition construct (d : D) : outcome (CFat32FileSystem D) :=
  p ← strncpy zero_path root_path (MAX_PATH - 1);
  let zero_entry := DirStackEntry zero_path zero_path 0 in
  Ok (Fat32 (DirStackEntry p p ROOT_CLUSTER :: replicate 31 zero_entry) 1 zero_bpb (FSInfo 0 0)
        0 0 0 0 p p 2 d).

Definition push_directory (name path : list Z) (cluster : Z) : FS bool :=
  n ← gets m_dirStackSize;
  if MAX_DIR_STACK <=? n then mret false else
  st ← gets m_dirStack;
  e ← lift (aget st n);
  nm ← lift (strncpy (d_name e) name (MAX_PATH - 1));
  pt ← lift (strncpy (d_path e) path (MAX_PATH - 1));
  st ← lift (aset st n (DirStackEntry nm pt cluster));
  modify (λ s, set_stack s st (n + 1));;
  mret true.

Definition pop_directory : FS bool :=
  n ← gets m_dirStackSize;
  if n <=? 1 then mret false else
  let n := n - 1 in
  st ← gets m_dirStack;
  e ← lift (aget st (n - 1));
  path ← gets m_currentPath;
  name ← gets m_currentDirName;
  path ← lift (strncpy path (d_path e) (MAX_PATH - 1));
  name ← lift (strncpy name (d_name e) (MAX_PATH - 1));
  modify (λ s, set_current (set_stack s st n) path name (d_cluster e));;
  mret true.

Definition get_current_dir_entry (s : CFat32FileSystem D) : outcome (option SDirStackEntry) :=
  if m_dirStackSize s =? 0 then Ok None
  else e ← aget (m_dirStack s) (m_dirStackSize s - 1); Ok (Some e).

Definition get_parent_dir_entry (s : CFat32FileSystem D) : outcome (option SDirStackEntry) :=
  if m_dirStackSize s <=? 1 then Ok None
  else e ← aget (m_dirStack s) (m_dirStackSize s - 2); Ok (Some e).

(** A fixed array receives a string and its last byte is set to zero. *)
Definition bounded_copy (dest src : list Z) : outcome (list Z) :=
  d ← strncpy dest src (MAX_PATH - 1);
  aset d (Z.of_nat MAX_PATH - 1) 0.

Definition set_current_path (path : list Z) : FS unit :=
  old ← gets m_currentPath;
  p ← lift (bounded_copy old path);
  modify (λ s, set_current s p (m_currentDirName s) (m_currentDirectoryCluster s)).

Definition set_current_dir_name (name : list Z) : FS unit :=
  old ← gets m_currentDirName;
  p ← lift (bounded_copy old name);
  modify (λ s, set_current s (m_currentPath s) p (m_currentDirectoryCluster s)).

Definition set_current_directory_cluster (cluster : Z) : FS unit :=
  modify (λ s, set_current s (m_currentPath s) (m_currentDirName s) cluster).

(** ** Mounting *)

Definition power_of_two_or_zero (x : Z) : bool := Z.land x (x - 1) =? 0.

Definition fat_size (b : SFat32BPB) : Z :=
  if negb (m_tableSize16 b =? 0) then m_tableSize16 b else m_tableSize32 b.

Definition validateBootSector (b : SFat32BPB) : bool :=
  if (m_bytesPerSector b =? 0) || negb (power_of_two_or_zero (m_bytesPerSector b)) then false
  else if (m_sectorsPerCluster b =? 0) || negb (power_of_two_or_zero (m_sectorsPerCluster b))
  then false
  else if m_reservedSectorCount b =? 0 then false
  else if m_tableCount b =? 0 then false
  else if fat_size b =? 0 then false
  else if negb (m_bootSignature b =? 0x28) && negb (m_bootSignature b =? 0x29) then false
  else true.

(** [memcpy] has already replaced the parameter block when validation fails. *)
Definition initialize (bootSector : list Z) : FS bool :=
  b ← lift (read_bpb bootSector);
  modify (λ s, set_volume s b (m_fsInfo s) (m_firstDataSector s) (m_dataSectors s)
                 (m_totalClusters s) (m_firstFatSector s));;
  if negb (validateBootSector b) then mret false else
  let fatSize := fat_size b in
  let rootDirSectors :=
    u32 ((m_rootEntryCount b * 32 + (m_bytesPerSector b - 1)) / m_bytesPerSector b) in
  let totalSectors :=
    if negb (m_totalSectors16 b =? 0) then m_totalSectors16 b else m_totalSectors32 b in
  let firstData :=
    u32 (m_reservedSectorCount b + u32 (m_tableCount b * fatSize) + rootDirSectors) in
  let dataSectors := u32 (totalSectors - firstData) in
  modify (λ s, set_volume s b (m_fsInfo s) firstData dataSectors
                 (dataSectors / m_sectorsPerCluster b) (m_reservedSectorCount b));;
  mret true.

(** The driver call behind both disk functions: it is initialised first. *)
Definition ata_initialize : FS bool :=
  λ s, let '(ok, d) := dev_initialize (m_disk s) in Ok (ok, set_disk s d).

Definition ata_read (sector sectors : Z) : FS (option (list Z)) :=
  λ s, let '(r, d) := dev_read (m_disk s) sector sectors in Ok (r, set_disk s d).

Definition ata_write (sector sectors : Z) (data : list Z) : FS bool :=
  λ s, let '(ok, d) := dev_write (m_disk s) sector sectors data in Ok (ok, set_disk s d).

Definition sector_count (size : Z) : Z :=
  let sectors := u8 ((size + 511) / 512) in if sectors =? 0 then 1 else sectors.

(** The driver stores the bytes it read at the front of the buffer. *)
Definition store (buffer data : list Z) : outcome (list Z) := put buffer 0 data.

Definition diskRead (sector : Z) (buffer : list Z) (size : Z) : FS (option (list Z)) :=
  if size =? 0 then mret None else
  ok ← ata_initialize;
  if negb ok then mret None else
  r ← ata_read sector (sector_count size);
  match r with
  | None => mret None
  | Some data => b ← lift (store buffer data); mret (Some b)
  end.

(** The driver reads whole sectors from the data pointer. *)
Definition diskWrite (sector : Z) (data : list Z) (size : Z) : FS bool :=
  if size =? 0 then mret false else
  ok ← ata_initialize;
  if negb ok then mret false else
  let n := (Z.to_nat (sector_count size) * SECTOR)%nat in
  if (n <=? length data)%nat then ata_write sector (sector_count size) (take n data) else lift UB.

Definition readSector (sectorNumber : Z) (buffer : list Z) : FS (option (list Z)) :=
  n ← gets bps;
  if n =? 0 then mret None else diskRead sectorNumber buffer n.

(** [uint8_t sectorData[m_bpb.m_bytesPerSector]], before it is filled. *)
Definition new_sector : FS (list Z) := n ← gets bps; mret (replicate (Z.to_nat n) 0).

Definition firstSector (cluster : Z) : FS Z :=
  k ← gets spc; first ← gets m_firstDataSector;
  mret (u32 (u32 (u32 (cluster - 2) * k) + first)).

Definition readFSInfo : FS bool :=
  info ← gets (λ s, m_fsInfo_sector (m_bpb s));
  if info =? 0 then mret true else
  buf ← new_sector;
  r ← readSector info buf;
  match r with
  | None => mret false
  | Some b =>
      lead ← lift (get32 b 0); str ← lift (get32 b 484); free ← lift (get32 b 488);
      next ← lift (get32 b 492); trail ← lift (get32 b 508);
      if negb (lead =? 0x41615252) || negb (str =? 0x61417272) || negb (trail =? 0xAA550000)
      then mret false
      else
        modify (λ s, set_volume s (m_bpb s) (FSInfo free next) (m_firstDataSector s)
                       (m_dataSectors s) (m_totalClusters s) (m_firstFatSector s));;
        mret true
  end.

Definition space : Z := 32.
Definition dot : Z := 46.
Definition ATTR_DIRECTORY : Z := 0x10.

(** A [.] or [..] entry as [mount] writes it: the name padded with spaces. *)
Definition mount_dot_entry (b : list Z) (o : Z) (name : list Z) : outcome (list Z) :=
  b ← put b o name;
  b ← aset b (o + 11) ATTR_DIRECTORY;
  b ← aset b (o + 26) (Z.land ROOT_CLUSTER 0xFF);
  aset b (o + 27) (Z.land (Z.shiftr ROOT_CLUSTER 8) 0xFF).

Definition mount : FS bool :=
  ok ← ata_initialize;
  if negb ok then mret false else
  r ← ata_read 0 1;
  match r with
  | None => mret false
  | Some boot =>
  boot ← lift (store (replicate 512 0) boot);
  ok ← initialize boot;
  if negb ok then mret false else
  ok ← readFSInfo;
  if negb ok then mret false else
  buf ← new_sector;
  rootSector ← firstSector ROOT_CLUSTER;
  r ← readSector rootSector buf;
  match r with
  | None => mret false
  | Some rootBuffer =>
      b0 ← lift (aget rootBuffer 0);
      n ← gets bps;
      if b0 =? 0 then
        b ← lift (memset rootBuffer 0 (Z.to_nat n));
        b ← lift (mount_dot_entry b 0 (dot :: replicate 10 space));
        b ← lift (mount_dot_entry b 32 (dot :: dot :: replicate 9 space));
        diskWrite rootSector b n
      else mret true
  end
  end.

Definition unmount : FS unit :=
  modify (λ s, set_volume s zero_bpb (FSInfo 0 0) 0 0 0 0).

(** ** The file allocation table *)

Definition BAD_CLUSTER : Z := 0x0FFFFFF7.
Definition END_OF_CHAIN : Z := 0x0FFFFFF8.
Definition ENTRY_MASK : Z := 0x0FFFFFFF.

Definition readFatEntry (cluster : Z) : FS Z :=
  n ← gets bps;
  if n =? 0 then mret BAD_CLUSTER else
  fat ← gets m_firstFatSector;
  let fatOffset := u32 (cluster * 4) in
  let fatSector := u32 (fat + fatOffset / n) in
  let entOffset := fatOffset `mod` n in
  buf ← new_sector;
  r ← readSector fatSector buf;
  match r with
  | None => mret BAD_CLUSTER
  | Some sectorData => v ← lift (get32 sectorData entOffset); mret (Z.land v ENTRY_MASK)
  end.

(** The loop that writes the sector to every copy of the table: [k] copies
    left, [i] written. *)
Fixpoint write_fats (k : nat) (i fatSector : Z) (sectorData : list Z) : FS bool :=
  match k with
  | O => mret true
  | S k' =>
      size ← gets (λ s, m_tableSize32 (m_bpb s));
      n ← gets bps;
      ok ← diskWrite (u32 (fatSector + u32 (i * size))) sectorData n;
      if negb ok then mret false else write_fats k' (i + 1) fatSector sectorData
  end.

Definition updateFatEntry (cluster value : Z) : FS bool :=
  n ← gets bps;
  if n =? 0 then lift UB else
  fat ← gets m_firstFatSector;
  let fatOffset := u32 (cluster * 4) in
  let fatSector := u32 (fat + fatOffset / n) in
  let entOffset := fatOffset `mod` n in
  buf ← new_sector;
  r ← readSector fatSector buf;
  match r with
  | None => mret false
  | Some sectorData =>
      sectorData ← lift (put sectorData entOffset (bytes32 (Z.land value ENTRY_MASK)));
      k ← gets (λ s, m_tableCount (m_bpb s));
      write_fats (Z.to_nat k) 0 fatSector sectorData
  end.

(** The search loop of [allocateCluster]: [n] clusters left to look at. *)
Fixpoint allocate_cluster_from (n : nat) (cluster : Z) : FS Z :=
  match n with
  | O => mret 0
  | S n' =>
      fatEntry ← readFatEntry cluster;
      if fatEntry =? 0 then
        _ ← updateFatEntry cluster END_OF_CHAIN;
        mret cluster
      else allocate_cluster_from n' (cluster + 1)
  end.

Definition allocateCluster : FS Z :=
  total ← gets m_totalClusters;
  allocate_cluster_from (Z.to_nat (total - 2)) 2.

Definition freeCluster (cluster : Z) : FS unit :=
  total ← gets m_totalClusters;
  if (cluster <? 2) || (total <=? cluster) then mret tt
  else _ ← updateFatEntry cluster 0; mret tt.

(** The loop at the end of [deleteFile] and of [deleteDirectory]. *)
Fixpoint free_chain (fuel : nat) (cluster : Z) : FS unit :=
  match fuel with
  | O => no_fuel
  | S fuel' =>
      if cluster <? END_OF_CHAIN then
        nextCluster ← readFatEntry cluster;
        freeCluster cluster;;
        if END_OF_CHAIN <=? nextCluster then mret tt
        else if nextCluster =? BAD_CLUSTER then mret tt
        else free_chain fuel' nextCluster
      else mret tt
  end.

(** ** Walking a directory

    Seven methods walk a directory with the same three nested loops: along the
    cluster chain, over the cluster's sectors, over the sector's 32-byte
    entries.  They differ in what they do with an entry, the [body] here: it may
    change the sector buffer, and goes on to the next entry, leaves the sector,
    or returns from the method. *)

Inductive flow (A : Type) : Type := Next | Break | Return (a : A).
Arguments Next {A}. Arguments Break {A}. Arguments Return {A} a.

(** The body gets the sector's number, the entry's offset and the buffer. *)
Definition entry_body (A : Type) : Type := Z → Z → list Z → FS (flow A * list Z).

Fixpoint scan_entries {A} (n : nat) (body : entry_body A) (sector j : Z) (data : list Z)
    : FS (option A) :=
  match n with
  | O => mret None
  | S n' =>
      r ← body sector j data;
      match r with
      | (Next, data) => scan_entries n' body sector (j + 32) data
      | (Break, _) => mret None
      | (Return a, _) => mret (Some a)
      end
  end.

Definition entries_per_sector (n : Z) : nat := Z.to_nat ((n + 31) / 32).

(** [k] sectors left, from sector [i] of the cluster; [fail] is returned when a
    sector cannot be read. *)
Fixpoint scan_sectors {A} (k : nat) (fail : A) (body : entry_body A) (sector i : Z)
    : FS (option A) :=
  match k with
  | O => mret None
  | S k' =>
      buf ← new_sector;
      r ← readSector (u32 (sector + i)) buf;
      match r with
      | None => mret (Some fail)
      | Some data =>
          n ← gets bps;
          r ← scan_entries (entries_per_sector n) body (u32 (sector + i)) 0 data;
          match r with
          | Some a => mret (Some a)
          | None => scan_sectors k' fail body sector (i + 1)
          end
      end
  end.

(** [None] when the end of the chain is reached. *)
Fixpoint scan_chain {A} (fuel : nat) (fail : A) (body : entry_body A) (currentCluster : Z)
    : FS (option A) :=
  match fuel with
  | O => no_fuel
  | S fuel' =>
      sector ← firstSector currentCluster;
      k ← gets spc;
      r ← scan_sectors (Z.to_nat k) fail body sector 0;
      match r with
      | Some a => mret (Some a)
      | None =>
          nextCluster ← readFatEntry currentCluster;
          if END_OF_CHAIN <=? nextCluster then mret None
          else if nextCluster =? BAD_CLUSTER then mret (Some fail)
          else scan_chain fuel' fail body nextCluster
      end
  end.

Definition DELETED : Z := 0xE5.
Definition ATTR_LFN : Z := 0x0F.

(** The trailing spaces of the eleven name bytes become terminators. *)
Fixpoint trim_spaces (k : nat) (name : list Z) : outcome (list Z) :=
  match k with
  | O => Ok name
  | S k' =>
      c ← aget name (Z.of_nat k');
      if c =? space then name ← aset name (Z.of_nat k') 0; trim_spaces k' name else Ok name
  end.

Definition entry_name (entry : list Z) : outcome (list Z) :=
  name ← memcpy (replicate 13 0) entry 11;
  trim_spaces 11 name.

(** How the walks see the entry at [j]: the end of the sector's entries, one to
    pass over (deleted, or part of a long name), or a named entry. *)
Inductive entry_kind := EndMark | Skipped | Named (name : list Z).

Definition classify (data : list Z) (j : Z) : outcome entry_kind :=
  e0 ← aget data j;
  if e0 =? 0 then Ok EndMark
  else if e0 =? DELETED then Ok Skipped
  else
    attr ← aget data (j + 11);
    if attr =? ATTR_LFN then Ok Skipped
    else name ← entry_name (at_offset data j); Ok (Named name).

(** The walks that act on the entries called [name]. *)
Definition on_match {A} (name : list Z) (act : entry_body A) : entry_body A :=
  λ sector j data,
    k ← lift (classify data j);
    match k with
    | EndMark => mret (Break, data)
    | Skipped => mret (Next, data)
    | Named n =>
        z ← lift (strcmp n name);
        if z =? 0 then act sector j data else mret (Next, data)
    end.

(** The cluster, size and attributes of an entry; only 16 bits of the cluster
    are read. *)
Definition entry_fields (data : list Z) (j : Z) : outcome (Z * Z * Z) :=
  c0 ← aget data (j + 26); c1 ← aget data (j + 27);
  s0 ← aget data (j + 28); s1 ← aget data (j + 29);
  s2 ← aget data (j + 30); s3 ← aget data (j + 31);
  a ← aget data (j + 11);
  Ok (c0 + c1 * 2 ^ 8, s0 + s1 * 2 ^ 8 + s2 * 2 ^ 16 + s3 * 2 ^ 24, a).

(** [Some (cluster, size, attributes)] when the method returns true. *)
Definition findFileInDirectory (fuel : nat) (dirCluster : Z) (name : list Z)
    : FS (option (Z * Z * Z)) :=
  r ← scan_chain fuel None
        (on_match name (λ _ j data, f ← lift (entry_fields data j); mret (Return (Some f), data)))
        dirCluster;
  mret (default None r).

Definition pointer_diff (p q : list Z) : nat := length q - length p.

(** [n] bounds the number of path components. *)
Fixpoint findFile_from (fuel n : nat) (name : list Z) (startCluster : Z)
    : FS (option (Z * Z * Z)) :=
  match n with
  | O => no_fuel
  | S n' =>
      c ← lift (aget name 0);
      if c =? 0 then mret (Some (startCluster, 0, ATTR_DIRECTORY)) else
      s ← lift (strchr name slash);
      match s with
      | Some slash_ptr =>
          dirname ← lift (strncpy zero_path name (pointer_diff slash_ptr name));
          r ← findFileInDirectory fuel startCluster dirname;
          match r with
          | None => mret None
          | Some (dirCluster, dirSize, dirAttrs) =>
              if Z.land dirAttrs ATTR_DIRECTORY =? 0 then mret None else
              c1 ← lift (aget slash_ptr 1);
              if negb (c1 =? 0) then findFile_from fuel n' (drop 1 slash_ptr) dirCluster
              else mret (Some (dirCluster, dirSize, dirAttrs))
          end
      | None => findFileInDirectory fuel startCluster name
      end
  end.

(** The public [findFile]: as [findFile_from], from the root for an absolute
    path and from the current directory otherwise. *)
Definition findFile (fuel : nat) (name : list Z) : FS (option (Z * Z * Z)) :=
  current ← gets m_currentDirectoryCluster;
  c ← lift (aget name 0);
  if c =? slash then findFile_from fuel (S (length name)) (drop 1 name) ROOT_CLUSTER
  else findFile_from fuel (S (length name)) name current.

(** The start of the methods that change an entry: the directory that holds
    [name] and the pointer to its last component.  [None] when they return
    false. *)
Definition locate (fuel : nat) (name : list Z) : FS (option (Z * list Z)) :=
  current ← gets m_currentDirectoryCluster;
  c ← lift (aget name 0);
  let '(directoryCluster, fileName) :=
    if c =? slash then (ROOT_CLUSTER, drop 1 name) else (current, name) in
  s ← lift (strrchr fileName slash);
  match s with
  | None => mret (Some (directoryCluster, fileName))
  | Some lastSlash =>
      dirPath ← lift (strncpy zero_path fileName (pointer_diff lastSlash fileName));
      r ← findFile fuel dirPath;
      match r with
      | None => mret None
      | Some (tempCluster, _, tempAttributes) =>
          if Z.land tempAttributes ATTR_DIRECTORY =? 0 then mret None
          else mret (Some (tempCluster, drop 1 lastSlash))
      end
  end.

(** ** Writing directory entries *)

Definition calculateShortNameChecksum (shortName : list Z) : outcome Z :=
  (fix go (n : nat) (i : Z) (sum : Z) : outcome Z :=
     match n with
     | O => Ok sum
     | S n' =>
         c ← aget shortName i;
         go n' (i + 1) (u8 ((if Z.testbit sum 0 then 0x80 else 0) + Z.shiftr sum 1 + c))
     end) 11%nat 0 0.

(** The offset in its sector of the first unused entry. *)
Definition free_body : entry_body (option Z) := λ _ j data,
  e0 ← lift (aget data j);
  if (e0 =? 0) || (e0 =? DELETED) then mret (Return (Some j), data) else mret (Next, data).

Definition findFreeDirectoryEntry (fuel : nat) (cluster : Z) : FS (option Z) :=
  r ← scan_chain fuel None free_body cluster;
  mret (default None r).

(** The 32 bytes that [writeDirectoryEntry] stores. *)
Definition entry_bytes (shortName : list Z) (attributes fileCluster fileSize : Z) : list Z :=
  take 11 shortName ++ [attributes] ++ replicate 14 0 ++
  [Z.land fileCluster 0xFF; Z.land (Z.shiftr fileCluster 8) 0xFF] ++ bytes32 fileSize.

Definition writeDirectoryEntry (fuel : nat) (cluster : Z) (name : list Z)
    (attributes fileCluster fileSize : Z) : FS bool :=
  r ← findFreeDirectoryEntry fuel cluster;
  match r with
  | None => mret false
  | Some entryIndex =>
      buf ← new_sector;
      sector ← firstSector cluster;
      r ← readSector sector buf;
      match r with
      | None => mret false
      | Some sectorData =>
          shortName ← lift (strncpy (replicate 12 0) name 11);
          data ← lift (put sectorData entryIndex
                         (entry_bytes shortName attributes fileCluster fileSize));
          n ← gets bps;
          diskWrite sector data n
      end
  end.

(** Byte [k] of the long name, or 0 past its end. *)
Definition lfn_char (longName : list Z) (nameLen k : Z) : outcome Z :=
  if k <? nameLen then aget longName k else Ok 0.

(** Two-byte characters [from], [from+1], ... of one long-name entry. *)
Fixpoint lfn_units (n : nat) (longName : list Z) (nameLen from : Z) : outcome (list Z) :=
  match n with
  | O => Ok []
  | S n' =>
      c ← lfn_char longName nameLen from;
      r ← lfn_units n' longName nameLen (from + 1);
      Ok (c :: 0 :: r)
  end.

(** The 32 bytes of long-name entry [i] of [numEntries]. *)
Definition lfn_entry (longName : list Z) (nameLen numEntries i checksum : Z) : outcome (list Z) :=
  name1 ← lfn_units 5 longName nameLen (i * 13);
  name2 ← lfn_units 6 longName nameLen (i * 13 + 5);
  name3 ← lfn_units 2 longName nameLen (i * 13 + 11);
  let order := if i =? numEntries - 1 then Z.lor 0x40 (i + 1) else i + 1 in
  Ok ([order] ++ name1 ++ [ATTR_LFN; 0; checksum] ++ name2 ++ [0; 0] ++ name3).

(** The loop of [writeLFNEntries]: [k] entries left, from [i].  The offset is a
    [size_t], so it wraps below zero, and then the next sector is read over the
    buffer. *)
Fixpoint write_lfn_loop (k : nat) (i numEntries nameLen entryIndex checksum : Z)
    (longName : list Z) (sector : Z) (data : list Z) : FS (option (Z * list Z)) :=
  match k with
  | O => mret (Some (sector, data))
  | S k' =>
      n ← gets bps;
      let entryOffset := u64 (entryIndex - (numEntries - 1 - i) * 32) in
      e ← lift (lfn_entry longName nameLen numEntries i checksum);
      if n <=? entryOffset then
        r ← readSector (u32 (sector + 1)) data;
        match r with
        | None => mret None
        | Some data =>
            data ← lift (put data 0 e);
            write_lfn_loop k' (i + 1) numEntries nameLen entryIndex checksum longName
              (u32 (sector + 1)) data
        end
      else
        data ← lift (put data entryOffset e);
        write_lfn_loop k' (i + 1) numEntries nameLen entryIndex checksum longName sector data
  end.

Definition writeLFNEntries (fuel : nat) (cluster : Z) (longName : list Z) (checksum : Z)
    : FS bool :=
  nameLen ← lift (strlen longName);
  let numEntries := (nameLen + 12) / 13 in
  if 20 <? numEntries then mret false else
  r ← findFreeDirectoryEntry fuel cluster;
  match r with
  | None => mret false
  | Some entryIndex =>
      buf ← new_sector;
      sector ← firstSector cluster;
      r ← readSector sector buf;
      match r with
      | None => mret false
      | Some sectorData =>
          r ← write_lfn_loop (Z.to_nat numEntries) 0 numEntries nameLen entryIndex checksum
                longName sector sectorData;
          match r with
          | None => mret false
          | Some (sector, data) => n ← gets bps; diskWrite sector data n
          end
      end
  end.

(** The characters no name may contain: <>: quote / backslash |?* *)
Definition invalid_chars : list Z := [60; 62; 58; 34; 47; 92; 124; 63; 42; 0].

Fixpoint no_invalid (name : list Z) : outcome bool :=
  match name with
  | [] => UB
  | c :: name' =>
      if c =? 0 then Ok true
      else s ← strchr invalid_chars c;
           match s with Some _ => Ok false | None => no_invalid name' end
  end.

Definition validateFileName (name : list Z) : outcome bool :=
  c ← aget name 0;
  if c =? 0 then Ok false else
  len ← strlen name;
  if 255 <? len then Ok false else no_invalid name.

(** [strncmp] of the eleven name bytes with a dot or two dots. *)
Definition is_dot_entry (entry : list Z) : outcome bool :=
  z1 ← strncmp entry [dot; 0] 11;
  if z1 =? 0 then Ok true else
  z2 ← strncmp entry [dot; dot; 0] 11;
  Ok (z2 =? 0).

Definition empty_body : entry_body bool := λ _ j data,
  e0 ← lift (aget data j);
  if e0 =? 0 then mret (Return true, data)
  else if e0 =? DELETED then mret (Next, data)
  else
    d ← lift (is_dot_entry (at_offset data j));
    if (d : bool) then mret (Next, data) else mret (Return false, data).

Definition isDirectoryEmpty (fuel : nat) (cluster : Z) : FS bool :=
  r ← scan_chain fuel false empty_body cluster;
  mret (default true r).

Fixpoint clear_entries (n : nat) (i : Z) (data : list Z) : outcome (list Z) :=
  match n with
  | O => Ok data
  | S n' =>
      e0 ← aget data i;
      if e0 =? 0 then Ok data else
      d ← is_dot_entry (at_offset data i);
      data ← (if (d : bool) then Ok data else aset data i DELETED);
      clear_entries n' (i + 32) data
  end.

Definition clearDirectory (cluster : Z) : FS unit :=
  buf ← new_sector;
  sector ← firstSector cluster;
  r ← readSector sector buf;
  match r with
  | None => mret tt
  | Some data =>
      n ← gets bps;
      data ← lift (clear_entries (entries_per_sector n) 0 data);
      _ ← diskWrite sector data n;
      mret tt
  end.

(** ** Creating *)

(** The common part of [createFile] and [createDirectory]: the parent and the
    new cluster, or [None] when they return false. *)
Definition create_entry (fuel : nat) (name : list Z) (attributes : Z) : FS (option (Z * Z)) :=
  valid ← lift (validateFileName name);
  if negb valid then mret None else
  current ← gets m_currentDirectoryCluster;
  c ← lift (aget name 0);
  let '(parentCluster, name) :=
    if c =? slash then (ROOT_CLUSTER, drop 1 name) else (current, name) in
  c ← lift (aget name 0);
  if c =? 0 then mret None else
  existing ← findFileInDirectory fuel parentCluster name;
  match existing with
  | Some _ => mret None
  | None =>
      cluster ← allocateCluster;
      if cluster =? 0 then mret None else
      shortName ← lift (strncpy (replicate 12 0) name 11);
      checksum ← lift (calculateShortNameChecksum shortName);
      len ← lift (strlen name);
      ok ← (if 11 <? len then writeLFNEntries fuel parentCluster name checksum else mret true);
      if negb ok then freeCluster cluster;; mret None else
      ok ← writeDirectoryEntry fuel parentCluster shortName attributes cluster 0;
      if negb ok then freeCluster cluster;; mret None else
      mret (Some (parentCluster, cluster))
  end.

Definition createFile (fuel : nat) (name : list Z) (attributes : Z) : FS bool :=
  r ← create_entry fuel name attributes;
  mret (match r with Some _ => true | None => false end).

(** A [.] or [..] entry as [createDirectory] writes it: the name terminated. *)
Definition dot_entry (b : list Z) (o : Z) (name : list Z) (cluster : Z) : outcome (list Z) :=
  b ← put b o name;
  b ← aset b (o + 11) ATTR_DIRECTORY;
  b ← aset b (o + 26) (Z.land cluster 0xFF);
  aset b (o + 27) (Z.land (Z.shiftr cluster 8) 0xFF).

Definition createDirectory (fuel : nat) (name : list Z) : FS bool :=
  r ← create_entry fuel name ATTR_DIRECTORY;
  match r with
  | None => mret false
  | Some (parentCluster, cluster) =>
      n ← gets bps;
      sector ← firstSector cluster;
      b ← lift (dot_entry (replicate (Z.to_nat n) 0) 0 [dot; 0] cluster);
      b ← lift (dot_entry b 32 [dot; dot; 0] parentCluster);
      diskWrite sector b n
  end.

(** ** Deleting, renaming, resizing *)

(** Marks the entry deleted and leaves the sector; the walk goes on. *)
Definition delete_body (name : list Z) : entry_body bool :=
  on_match name (λ sector j data,
    data ← lift (aset data j DELETED);
    n ← gets bps;
    ok ← diskWrite sector data n;
    if (ok : bool) then mret (Break, data) else mret (Return false, data)).

(** The end of [deleteFile] and [deleteDirectory]: the entry, then the chain. *)
Definition remove_entry (fuel : nat) (directoryCluster : Z) (name : list Z) (cluster : Z)
    : FS bool :=
  r ← scan_chain fuel false (delete_body name) directoryCluster;
  match r with
  | Some b => mret b
  | None => free_chain fuel cluster;; mret true
  end.

Definition deleteFile (fuel : nat) (name : list Z) : FS bool :=
  f ← findFile fuel name;
  match f with
  | None => mret false
  | Some (cluster, _, attributes) =>
      if negb (Z.land attributes ATTR_DIRECTORY =? 0) then mret false else
      l ← locate fuel name;
      match l with
      | None => mret false
      | Some (directoryCluster, fileName) =>
          remove_entry fuel directoryCluster fileName cluster
      end
  end.

Definition deleteDirectory (fuel : nat) (name : list Z) : FS bool :=
  f ← findFile fuel name;
  match f with
  | None => mret false
  | Some (cluster, _, attributes) =>
      if Z.land attributes ATTR_DIRECTORY =? 0 then mret false else
      empty ← isDirectoryEmpty fuel cluster;
      if negb empty then mret false else
      l ← locate fuel name;
      match l with
      | None => mret false
      | Some (directoryCluster, dirName) =>
          remove_entry fuel directoryCluster dirName cluster
      end
  end.

(** The walks that return true once the entry is found and rewritten. *)
Definition rewrite_body (name : list Z) (change : list Z → Z → outcome (list Z))
    : entry_body bool :=
  on_match name (λ sector j data,
    data ← lift (change data j);
    n ← gets bps;
    ok ← diskWrite sector data n;
    mret (Return ok, data)).

(** [memset] to spaces, then [strncpy] of the whole new name over the entry. *)
Definition rename_entry (newName : list Z) (data : list Z) (j : Z) : outcome (list Z) :=
  data ← put data j (replicate 11 space);
  len ← strlen newName;
  e ← strncpy (at_offset data j) newName (Z.to_nat len);
  Ok (take (Z.to_nat j) data ++ e).

Definition mark_deleted (data : list Z) (j : Z) : outcome (list Z) := aset data j DELETED.

Definition renameFile (fuel : nat) (oldName newName : list Z) : FS bool :=
  valid ← lift (validateFileName newName);
  if negb valid then mret false else
  f ← findFile fuel oldName;
  match f with
  | None => mret false
  | Some (sourceCluster, sourceSize, sourceAttributes) =>
  l ← locate fuel oldName;
  match l with
  | None => mret false
  | Some (sourceDir, sourceName) =>
  g ← findFile fuel newName;
  dest ←
    (match g with
     | Some (destCluster, _, destAttributes) =>
         if negb (Z.land destAttributes ATTR_DIRECTORY =? 0)
         then mret (Some (destCluster, sourceName)) else mret None
     | None => locate fuel newName
     end);
  match dest with
  | None => mret false
  | Some (destDir, destName) =>
      same ← (if sourceDir =? destDir
              then z ← lift (strcmp sourceName destName); mret (z =? 0) else mret false);
      if (same : bool) then mret true
      else if sourceDir =? destDir then
        r ← scan_chain fuel false (rewrite_body sourceName (rename_entry destName)) sourceDir;
        mret (default false r)
      else
        ok ← writeDirectoryEntry fuel destDir destName sourceAttributes sourceCluster sourceSize;
        if negb ok then mret false else
        r ← scan_chain fuel false (rewrite_body sourceName mark_deleted) sourceDir;
        mret (default false r)
  end
  end
  end.

Definition set_size (newSize : Z) (data : list Z) (j : Z) : outcome (list Z) :=
  put data (j + 28) (bytes32 newSize).

Definition updateFileSize (fuel : nat) (filename : list Z) (newSize : Z) : FS bool :=
  l ← locate fuel filename;
  match l with
  | None => mret false
  | Some (directoryCluster, fileName) =>
      r ← scan_chain fuel false (rewrite_body fileName (set_size newSize)) directoryCluster;
      mret (default false r)
  end.

(** The formats of [deleteDirectoryRecursive], as [snprintf] copies them. *)
Definition fmt_join : list Z := [37; 115; 37; 115; 0].
Definition fmt_join_slash : list Z := [37; 115; slash; 37; 115; 0].

Definition full_path (name : list Z) : FS (list Z) :=
  c ← lift (aget name 0);
  if c =? slash then lift (strncpy zero_path name (MAX_PATH - 1)) else
  path ← gets m_currentPath;
  len ← lift (strlen path);
  last ← lift (aget path (len - 1));
  r ← lift (snprintf zero_path (MAX_PATH - 1) (if last =? slash then fmt_join else fmt_join_slash));
  mret r.2.

(** What the walk over a directory to delete does with an entry: anything but
    the two dot entries is deleted by the path built for it. *)
Definition delete_children (recurse : list Z → FS bool) (delete_file : list Z → FS bool)
    : entry_body bool := λ _ j data,
  k ← lift (classify data j);
  match k with
  | EndMark => mret (Break, data)
  | Skipped => mret (Next, data)
  | Named n =>
      z1 ← lift (strcmp n [dot; 0]);
      z2 ← (if z1 =? 0 then mret 0 else lift (strcmp n [dot; dot; 0]));
      if z2 =? 0 then mret (Next, data) else
      p ← lift (snprintf zero_path (MAX_PATH - 1) fmt_join_slash);
      attributes ← lift (aget data (j + 11));
      _ ← (if negb (Z.land attributes ATTR_DIRECTORY =? 0) then recurse p.2 else delete_file p.2);
      mret (Next, data)
  end.

(** The last walk: the directory's own entry, then its chain. *)
Definition delete_self_body (fuel : nat) (name : list Z) (dirCluster : Z) : entry_body bool :=
  on_match name (λ sector j data,
    data ← lift (aset data j DELETED);
    n ← gets bps;
    ok ← diskWrite sector data n;
    if negb ok then mret (Return false, data) else
    free_chain fuel dirCluster;; mret (Return true, data)).

(** [depth] bounds the nesting of the calls. *)
Fixpoint deleteDirectoryRecursive (fuel depth : nat) (name : list Z) : FS bool :=
  match depth with
  | O => no_fuel
  | S depth' =>
      f ← findFile fuel name;
      match f with
      | None => mret false
      | Some (dirCluster, _, dirAttributes) =>
          if Z.land dirAttributes ATTR_DIRECTORY =? 0 then mret false else
          _ ← full_path name;
          r ← scan_chain fuel false
                (delete_children (deleteDirectoryRecursive fuel depth') (deleteFile fuel)) dirCluster;
          match r with
          | Some b => mret b
          | None =>
              l ← locate fuel name;
              match l with
              | None => mret false
              | Some (directoryCluster, dirName) =>
                  r ← scan_chain fuel false (delete_self_body fuel dirName dirCluster)
                        directoryCluster;
                  mret (default false r)
              end
          end
      end
  end.

(** ** File contents *)

(** The sector loop of [readFile]: [k] sectors of the cluster left; the flag is
    false when a read failed. *)
Fixpoint read_sectors (k : nat) (sector i bytesRead bufferSize : Z) (buffer : list Z)
    : FS (bool * Z * list Z) :=
  match k with
  | O => mret (true, bytesRead, buffer)
  | S k' =>
      if bufferSize <=? bytesRead then mret (true, bytesRead, buffer) else
      buf ← new_sector;
      r ← readSector (u32 (sector + i)) buf;
      match r with
      | None => mret (false, bytesRead, buffer)
      | Some data =>
          n ← gets bps;
          let bytesToCopy := Z.min (bufferSize - bytesRead) n in
          buffer ← lift (put buffer bytesRead (take (Z.to_nat bytesToCopy) data));
          read_sectors k' sector (i + 1) (bytesRead + bytesToCopy) bufferSize buffer
      end
  end.

Fixpoint read_chain (fuel : nat) (currentCluster bytesRead bufferSize : Z) (buffer : list Z)
    : FS (list Z) :=
  match fuel with
  | O => no_fuel
  | S fuel' =>
      if bufferSize <=? bytesRead then mret buffer else
      sector ← firstSector currentCluster;
      k ← gets spc;
      r ← read_sectors (Z.to_nat k) sector 0 bytesRead bufferSize buffer;
      match r with
      | (ok, bytesRead, buffer) =>
          if negb ok then mret buffer
          else if bufferSize <=? bytesRead then mret buffer
          else
            nextCluster ← readFatEntry currentCluster;
            if END_OF_CHAIN <=? nextCluster then mret buffer
            else if nextCluster =? BAD_CLUSTER then mret buffer
            else read_chain fuel' nextCluster bytesRead bufferSize buffer
      end
  end.

(** The buffer as [readFile] leaves it; nothing tells how much was read. *)
Definition readFile (fuel : nat) (startCluster : Z) (buffer : list Z) (bufferSize : Z)
    : FS (list Z) :=
  k ← gets spc; n ← gets bps;
  if (k =? 0) || (n =? 0) then mret buffer
  else read_chain fuel startCluster 0 bufferSize buffer.

(** The sector loop of [writeFile]: each write takes a whole sector from the
    data, however little of it is left. *)
Fixpoint write_sectors (k : nat) (sector i bytesWritten dataSize : Z) (data : list Z)
    : FS (bool * Z) :=
  match k with
  | O => mret (true, bytesWritten)
  | S k' =>
      if dataSize <=? bytesWritten then mret (true, bytesWritten) else
      n ← gets bps;
      ok ← diskWrite (u32 (sector + i)) (at_offset data bytesWritten) n;
      if negb ok then mret (false, bytesWritten)
      else write_sectors k' sector (i + 1) (bytesWritten + n) dataSize data
  end.

(** The result is the cluster the loop ends on, or [None] when it fails. *)
Fixpoint write_chain (fuel : nat) (currentCluster bytesWritten dataSize : Z) (data : list Z)
    : FS (option Z) :=
  match fuel with
  | O => no_fuel
  | S fuel' =>
      if dataSize <=? bytesWritten then mret (Some currentCluster) else
      sector ← firstSector currentCluster;
      k ← gets spc;
      r ← write_sectors (Z.to_nat k) sector 0 bytesWritten dataSize data;
      match r with
      | (ok, bytesWritten) =>
          if negb ok then mret None else
          nextCluster ← readFatEntry currentCluster;
          if END_OF_CHAIN <=? nextCluster then
            if bytesWritten <? dataSize then
              newCluster ← allocateCluster;
              if newCluster =? 0 then mret None else
              ok ← updateFatEntry currentCluster newCluster;
              if negb ok then mret None
              else write_chain fuel' newCluster bytesWritten dataSize data
            else mret (Some currentCluster)
          else if nextCluster =? BAD_CLUSTER then mret None
          else write_chain fuel' nextCluster bytesWritten dataSize data
      end
  end.

Definition writeFile (fuel : nat) (startCluster : Z) (data : list Z) (dataSize : Z) : FS bool :=
  k ← gets spc; n ← gets bps;
  if (k =? 0) || (n =? 0) then mret false else
  r ← write_chain fuel startCluster 0 dataSize data;
  match r with
  | None => mret false
  | Some currentCluster => updateFatEntry currentCluster END_OF_CHAIN
  end.

(** ** Operations by path *)

(** The last component of a path, less a trailing slash. *)
Definition get_dir_name (path : list Z) : outcome (list Z) :=
  c ← aget path 0;
  if c =? 0 then strcpy zero_path root_path else
  z ← strcmp path root_path;
  if z =? 0 then strcpy zero_path root_path else
  b ← bounded_copy zero_path path;
  len ← strlen b;
  last ← aget b (len - 1);
  b ← (if (1 <? len) && (last =? slash) then aset b (len - 1) 0 else Ok b);
  s ← strrchr b slash;
  match s with None => Ok b | Some p => Ok (drop 1 p) end.

(** [dir_path] and [filename] as the three methods split [path]. *)
Definition split_path (path : list Z) : FS (list Z * list Z) :=
  s ← lift (strrchr path slash);
  match s with
  | Some last_slash =>
      let dir_len := pointer_diff last_slash path in
      dir_path ← lift (strncpy zero_path path dir_len);
      dir_path ← lift (aset dir_path (Z.of_nat dir_len) 0);
      filename ← lift (strcpy zero_path (drop 1 last_slash));
      c ← lift (aget dir_path 0);
      dir_path ← lift (if c =? 0 then strcpy dir_path root_path else Ok dir_path);
      mret (dir_path, filename)
  | None =>
      current ← gets m_currentPath;
      dir_path ← lift (strcpy zero_path current);
      filename ← lift (strcpy zero_path path);
      mret (dir_path, filename)
  end.

(** The frame the three methods share: the current directory is saved, changed
    to the path's directory (unless that is the root, when it stays), and
    restored after the work; [fail] is the result when the directory cannot be
    entered. *)
Definition by_path {A} (fuel : nat) (path : list Z) (fail : A) (work : list Z → FS A) : FS A :=
  saved_cluster ← gets m_currentDirectoryCluster;
  path0 ← gets m_currentPath;
  name0 ← gets m_currentDirName;
  saved_path ← lift (strcpy zero_path path0);
  saved_dir_name ← lift (strcpy zero_path name0);
  dirs ← split_path path;
  z ← lift (strcmp dirs.1 root_path);
  entered ←
    (if z =? 0 then mret true else
     f ← findFile fuel dirs.1;
     match f with
     | None => mret false
     | Some (dir_cluster, _, attrs) =>
         if Z.land attrs ATTR_DIRECTORY =? 0 then mret false else
         set_current_directory_cluster dir_cluster;;
         set_current_path dirs.1;;
         name ← lift (get_dir_name dirs.1);
         set_current_dir_name name;;
         mret true
     end);
  result ← (if (entered : bool) then work dirs.2 else mret fail);
  set_current_directory_cluster saved_cluster;;
  set_current_path saved_path;;
  set_current_dir_name saved_dir_name;;
  mret result.

(** Finds the file, writes the data and records the size. *)
Definition write_named (fuel : nat) (data : list Z) (dataSize : Z) (filename : list Z) : FS bool :=
  f ← findFile fuel filename;
  match f with
  | None => mret false
  | Some (file_cluster, _, _) =>
      ok ← writeFile fuel file_cluster data dataSize;
      if negb ok then mret false else updateFileSize fuel filename (u32 dataSize)
  end.

Definition createFileWithContent (fuel : nat) (path data : list Z) (dataSize attributes : Z)
    : FS bool :=
  by_path fuel path false (λ filename,
    ok ← createFile fuel filename attributes;
    if negb ok then mret false else write_named fuel data dataSize filename).

Definition writeFileByPath (fuel : nat) (path data : list Z) (dataSize : Z) : FS bool :=
  by_path fuel path false (write_named fuel data dataSize).

(** The result and the caller's buffer. *)
Definition readFileByPath (fuel : nat) (path buffer : list Z) (bufferSize : Z)
    : FS (bool * list Z) :=
  by_path fuel path (false, buffer) (λ filename,
    f ← findFile fuel filename;
    match f with
    | None => mret (false, buffer)
    | Some (file_cluster, _, _) =>
        buffer ← readFile fuel file_cluster buffer bufferSize;
        mret (true, buffer)
    end).

(** ** Listing *)

(** The thirteen low bytes of a long-name entry, appended to the 256-byte name
    without a bound check. *)
Definition lfn_offsets : list Z := [1; 3; 5; 7; 9; 14; 16; 18; 20; 22; 24; 28; 30].

Fixpoint append_lfn (offsets : list Z) (data : list Z) (i : Z) (name : list Z) (k : Z)
    : outcome (list Z * Z) :=
  match offsets with
  | [] => Ok (name, k)
  | o :: offsets =>
      c ← aget data (i + o);
      name ← aset name k c;
      append_lfn offsets data i name (k + 1)
  end.

Definition zero_name : list Z := replicate 256 0.

(** The files a sector buffer lists, as (short name, long name), with the long
    name carried across entries. *)
Fixpoint list_entries (n : nat) (i : Z) (data longFileName : list Z) (lfnIndex : Z)
    : outcome (list (list Z * list Z) * list Z * Z) :=
  match n with
  | O => Ok ([], longFileName, lfnIndex)
  | S n' =>
      e0 ← aget data i;
      if e0 =? 0 then Ok ([], longFileName, lfnIndex)
      else if e0 =? DELETED then list_entries n' (i + 32) data longFileName lfnIndex
      else
        attr ← aget data (i + 11);
        if attr =? ATTR_LFN then
          r ← append_lfn lfn_offsets data i longFileName lfnIndex;
          list_entries n' (i + 32) data r.1 r.2
        else
          shortName ← memcpy (replicate 12 0) (at_offset data i) 11;
          r ← list_entries n' (i + 32) data zero_name 0;
          Ok ((shortName, longFileName) :: r.1.1, r.1.2, r.2)
  end.

Definition parseDirectoryEntries (sectorData : list Z) : FS (list (list Z * list Z)) :=
  n ← gets bps;
  r ← lift (list_entries (entries_per_sector n) 0 sectorData zero_name 0);
  mret r.1.1.

(** All sectors of a cluster, read into one buffer; [None] when a read fails. *)
Fixpoint read_cluster (k : nat) (sector i : Z) (acc : list Z) : FS (option (list Z)) :=
  match k with
  | O => mret (Some acc)
  | S k' =>
      buf ← new_sector;
      r ← readSector (u32 (sector + i)) buf;
      match r with
      | None => mret None
      | Some data => read_cluster k' sector (i + 1) (acc ++ data)
      end
  end.

Fixpoint list_chain (fuel : nat) (currentCluster : Z) (longFileName : list Z) (lfnIndex : Z)
    : FS (list (list Z * list Z)) :=
  match fuel with
  | O => no_fuel
  | S fuel' =>
      sector ← firstSector currentCluster;
      k ← gets spc;
      n ← gets bps;
      r ← read_cluster (Z.to_nat k) sector 0 [];
      match r with
      | None => mret []
      | Some clusterData =>
          l ← lift (list_entries (entries_per_sector (n * k)) 0 clusterData longFileName lfnIndex);
          nextCluster ← readFatEntry currentCluster;
          if END_OF_CHAIN <=? nextCluster then mret l.1.1
          else if nextCluster =? BAD_CLUSTER then mret l.1.1
          else rest ← list_chain fuel' nextCluster l.1.2 l.2; mret (l.1.1 ++ rest)
      end
  end.

(** The files listed (printed, in the code) by [readDirectoryEntry]. *)
Definition readDirectoryEntry (fuel : nat) (startCluster : Z) : FS (list (list Z * list Z)) :=
  list_chain fuel startCluster zero_name 0.

(** The files printed by [followClusterChain]: it parses only the first sector
    of each cluster, and not the chain's last cluster. *)
Fixpoint followClusterChain (fuel : nat) (currentCluster : Z) : FS (list (list Z * list Z)) :=
  match fuel with
  | O => no_fuel
  | S fuel' =>
      nextCluster ← readFatEntry currentCluster;
      if END_OF_CHAIN <=? nextCluster then mret []
      else if nextCluster =? BAD_CLUSTER then mret []
      else
        sector ← firstSector currentCluster;
        k ← gets spc;
        r ← read_cluster (Z.to_nat k) sector 0 [];
        match r with
        | None => mret []
        | Some clusterData =>
            l ← parseDirectoryEntries clusterData;
            rest ← followClusterChain fuel' nextCluster;
            mret (l ++ rest)
        end
  end.
End fat32.

Arguments Next {A}.
Arguments Break {A}.
Arguments Return {A} a.
