(* ===== verification/Fat32Fat.v ===== *)
(** * Proofs for Fat32.v: sectors and the file allocation table

    [volume_wf] is a mounted volume with 512-byte sectors on a working drive.
    On it every sector operation succeeds, and the table is seen as a function
    [fat_entry] from clusters to 28-bit entries that [updateFatEntry] updates at
    one point; clusters are allocated and chains freed on that function. *)

From S2P Require Import Prelude CStr Disk Fat32.

(** ** Byte arrays *)

Lemma put_ok b o new :
  0 ≤ o → o + Z.of_nat (length new) ≤ Z.of_nat (length b) →
  put b o new = Ok (take (Z.to_nat o) b ++ new ++ drop (Z.to_nat o + length new) b).
Proof.
  intros. unfold put. by rewrite (proj2 (Z.leb_le 0 o)), (proj2 (Z.leb_le (o + _) _)) by lia.
Qed.

Lemma put_inv b o new b' :
  put b o new = Ok b' →
  0 ≤ o ∧ o + Z.of_nat (length new) ≤ Z.of_nat (length b) ∧
  b' = take (Z.to_nat o) b ++ new ++ drop (Z.to_nat o + length new) b.
Proof.
  unfold put. destruct (Z.leb_spec 0 o); simpl; [|done].
  destruct (Z.leb_spec (o + Z.of_nat (length new)) (Z.of_nat (length b))); [|done].
  intros [= <-]. done.
Qed.

Lemma put_length b o new b' : put b o new = Ok b' → length b' = length b.
Proof.
  intros (? & ? & ->)%put_inv. rewrite !length_app, length_take, length_drop. lia.
Qed.

Lemma nthz_put b o new b' i :
  put b o new = Ok b' → 0 ≤ i →
  nthz b' i = if (o <=? i) && (i <? o + Z.of_nat (length new)) then nthz new (i - o) else nthz b i.
Proof.
  intros (Ho & Hl & ->)%put_inv Hi. unfold nthz. rewrite (proj2 (Z.leb_le 0 i)) by lia.
  destruct (Z.leb_spec o i); cbn [andb]; [destruct (Z.ltb_spec i (o + Z.of_nat (length new)))|].
  - rewrite (proj2 (Z.leb_le 0 (i - o))) by lia. f_equal.
    rewrite lookup_app_r by (rewrite length_take; lia).
    rewrite lookup_app_l by (rewrite length_take; lia). f_equal. rewrite length_take. lia.
  - f_equal. rewrite lookup_app_r by (rewrite length_take; lia).
    rewrite lookup_app_r by (rewrite length_take; lia).
    rewrite lookup_drop, length_take. f_equal. lia.
  - f_equal. rewrite lookup_app_l by (rewrite length_take; lia).
    apply lookup_take_lt. lia.
Qed.

Lemma put_bytes b o new b' :
  put b o new = Ok b' → Forall is_u8 b → Forall is_u8 new → Forall is_u8 b'.
Proof.
  intros (_ & _ & ->)%put_inv Hb Hn. rewrite !Forall_app. split_and!; [|done|].
  - by apply Forall_take.
  - by apply Forall_drop.
Qed.

Definition le32 (b : list Z) (o : Z) : Z :=
  nthz b o + nthz b (o + 1) * 2 ^ 8 + nthz b (o + 2) * 2 ^ 16 + nthz b (o + 3) * 2 ^ 24.

Lemma aget_nthz_ok (l : list Z) i : 0 ≤ i < Z.of_nat (length l) → aget l i = Ok (nthz l i).
Proof.
  intros. destruct (aget_is_ok l i) as [x Hx]; [done|]. rewrite Hx.
  apply aget_Ok in Hx as [? Hx]. unfold nthz. rewrite Hx.
  by rewrite (proj2 (Z.leb_le 0 i)) by lia.
Qed.

Lemma get32_ok b o : 0 ≤ o → o + 4 ≤ Z.of_nat (length b) → get32 b o = Ok (le32 b o).
Proof. intros. unfold get32. by rewrite !aget_nthz_ok by lia. Qed.

Lemma u8_bytes v : Forall is_u8 (bytes32 v).
Proof. unfold bytes32. repeat constructor; apply u8_range. Qed.

Lemma le32_bytes32 v : 0 ≤ v < 2 ^ 32 → le32 (bytes32 v) 0 = v.
Proof.
  intros Hv.
  assert (le32 (bytes32 v) 0 = v `mod` 256 + (v / 256) `mod` 256 * 256 +
    (v / 65536) `mod` 256 * 65536 + (v / 16777216) `mod` 256 * 16777216) as -> by reflexivity.
  replace (v / 65536) with (v / 256 / 256) by (rewrite Z.div_div by lia; done).
  replace (v / 16777216) with (v / 256 / 256 / 256) by (rewrite !Z.div_div by lia; done).
  pose proof (Z.div_mod v 256). pose proof (Z.div_mod (v / 256) 256).
  pose proof (Z.div_mod (v / 256 / 256) 256).
  rewrite (Z.mod_small (v / 256 / 256 / 256)); [lia|].
  rewrite !Z.div_div by lia. split; [apply Z.div_pos; lia|apply Z.div_lt_upper_bound; lia].
Qed.

(** Writing a 32-bit word and reading one at an offset that is the same or
    does not overlap. *)
Lemma le32_put b o v b' o' :
  put b o (bytes32 v) = Ok b' → 0 ≤ o' → 0 ≤ v < 2 ^ 32 → o' = o ∨ o' + 4 ≤ o ∨ o + 4 ≤ o' →
  le32 b' o' = if o' =? o then v else le32 b o'.
Proof.
  intros Hp Ho' Hv Hd.
  assert (Hk : ∀ k, 0 ≤ k < 4 →
    nthz b' (o' + k) = if o' =? o then nthz (bytes32 v) (0 + k) else nthz b (o' + k)).
  { intros k Hk. rewrite (nthz_put _ _ _ _ _ Hp) by lia.
    change (Z.of_nat (length (bytes32 v))) with 4.
    destruct (Z.eqb_spec o' o) as [->|Hne].
    - rewrite (proj2 (Z.leb_le o _)), (proj2 (Z.ltb_lt _ (o + 4))) by lia. cbn [andb].
      f_equal. lia.
    - assert ((o <=? o' + k) && (o' + k <? o + 4) = false) as -> by lia. done. }
  pose proof (Hk 0 ltac:(lia)) as H0. rewrite !Z.add_0_r in H0.
  unfold le32. rewrite H0, !Hk by lia. destruct (o' =? o); [by apply le32_bytes32|done].
Qed.

(** ** The monad *)

Section monad.
Context {D : Type} {HD : BlockDevice D}.
Implicit Types s : CFat32FileSystem D.

#[local] Abbreviation FS := (ST (CFat32FileSystem D)).

Lemma bind_new_sector {B} (f : list Z → FS B) s :
  (new_sector ≫= f) s = f (replicate (Z.to_nat (bps s)) 0) s.
Proof. done. Qed.

Lemma bind_firstSector {B} c (f : Z → FS B) s :
  (firstSector c ≫= f) s =
  f (u32 (u32 (u32 (c - 2) * spc s) + m_firstDataSector s)) s.
Proof. done. Qed.
End monad.

#[export] Hint Rewrite @bind_new_sector @bind_firstSector : st.

(** ** Volumes *)

Section volume.
Context {D : Type} {HD : BlockDevice D} {HL : DeviceLaws D}.
Implicit Types s : CFat32FileSystem D.
#[local] Abbreviation FS := (ST (CFat32FileSystem D)).

Definition contents s : Z → list Z := dev_sector (m_disk s).
Definition fat_sectors s : Z := m_tableSize32 (m_bpb s).
Definition fat_copies s : Z := m_tableCount (m_bpb s).

(** A mounted volume: 512-byte sectors, the copies of the table between the
    reserved sectors and the data, the clusters of the count on the disk, and
    their entries in the table. *)
Record volume_wf s : Prop := {
  vw_ready : dev_ready (m_disk s);
  vw_bps : bps s = 512;
  vw_spc : 1 ≤ spc s;
  vw_fat : 0 ≤ m_firstFatSector s;
  vw_copies : 1 ≤ fat_copies s;
  vw_fat_sectors : 0 ≤ fat_sectors s;
  vw_data : m_firstFatSector s + fat_copies s * fat_sectors s ≤ m_firstDataSector s;
  vw_clusters : 0 ≤ m_totalClusters s ≤ 2 ^ 27;
  vw_disk : m_firstDataSector s + m_totalClusters s * spc s ≤ dev_limit (m_disk s);
  vw_entries : m_totalClusters s + 2 ≤ fat_sectors s * 128
}.

(** [disk_is s s' f]: [s'] is [s] with sector contents [f]. *)
Record disk_is s s' (f : Z → list Z) : Prop := {
  di_rest : s' = set_disk s (m_disk s');
  di_ready : dev_ready (m_disk s');
  di_limit : dev_limit (m_disk s') = dev_limit (m_disk s);
  di_contents : ∀ k, contents s' k = f k
}.

Definition same_disk s s' : Prop := disk_is s s' (contents s).

Lemma disk_is_fields s s' f : disk_is s s' f →
  bps s' = bps s ∧ spc s' = spc s ∧ m_firstFatSector s' = m_firstFatSector s ∧
  m_firstDataSector s' = m_firstDataSector s ∧ m_totalClusters s' = m_totalClusters s ∧
  fat_sectors s' = fat_sectors s ∧ fat_copies s' = fat_copies s ∧
  m_currentDirectoryCluster s' = m_currentDirectoryCluster s.
Proof. intros [-> _ _ _]. done. Qed.

Lemma disk_is_wf s s' f : disk_is s s' f → volume_wf s → volume_wf s'.
Proof.
  intros Hd [? ? ? ? ? ? ? ? ? ?].
  destruct (disk_is_fields _ _ _ Hd) as (E1 & E2 & E3 & E4 & E5 & E6 & E7 & _).
  destruct Hd as [_ Hr Hl _].
  constructor; rewrite ?E1, ?E2, ?E3, ?E4, ?E5, ?E6, ?E7, ?Hl; done.
Qed.

Lemma disk_is_trans s1 s2 s3 f g : disk_is s1 s2 f → disk_is s2 s3 g → disk_is s1 s3 g.
Proof.
  intros [E1 _ L1 _] [E2 R2 L2 C2]. constructor; [|done|congruence|done].
  rewrite E2, E1. done.
Qed.

Lemma disk_is_ext s s' f g : disk_is s s' f → (∀ k, f k = g k) → disk_is s s' g.
Proof. intros [? ? ? C] E. constructor; [done..|]. intros k. by rewrite C. Qed.

Lemma same_disk_refl s : dev_ready (m_disk s) → same_disk s s.
Proof. intros. constructor; [by destruct s|done..]. Qed.

Lemma same_disk_trans s1 s2 s3 f : same_disk s1 s2 → disk_is s2 s3 f → disk_is s1 s3 f.
Proof. apply disk_is_trans. Qed.

Lemma disk_is_same s1 s2 s3 f : disk_is s1 s2 f → same_disk s2 s3 → disk_is s1 s3 f.
Proof.
  intros H1 H2. eapply disk_is_ext; [by eapply disk_is_trans|]. intros k.
  apply (di_contents _ _ _ H1).
Qed.

Lemma same_same s1 s2 s3 : same_disk s1 s2 → same_disk s2 s3 → same_disk s1 s3.
Proof. apply disk_is_same. Qed.

Section one.
Context s (Hs : volume_wf s).

Lemma sector_length k : length (contents s k) = 512%nat.
Proof. apply dev_sector_length, Hs. Qed.

Lemma sector_bytes k : Forall is_u8 (contents s k).
Proof. apply dev_sector_bytes, Hs. Qed.

Lemma limit_bound : dev_limit (m_disk s) ≤ 2 ^ 32.
Proof. apply dev_limit_bound, Hs. Qed.

Lemma ata_initialize_run {B} (f : bool → FS B) :
  exists s', (ata_initialize ≫= f) s = f true s' ∧ same_disk s s'.
Proof.
  destruct (dev_initialize_law (m_disk s) (vw_ready s Hs)) as (d & E & ? & ? & ?).
  exists (set_disk s d). split; [|by constructor].
  unfold mbind, st_bind, ata_initialize. by rewrite E.
Qed.

Lemma readSector_ok k buf :
  0 ≤ k < dev_limit (m_disk s) → length buf = 512%nat →
  exists s', readSector k buf s = Ok (Some (contents s k), s') ∧ same_disk s s'.
Proof.
  intros Hk Hbuf. unfold readSector. st. rewrite (vw_bps s Hs). cbn [Z.eqb].
  unfold diskRead. cbn [Z.eqb].
  destruct (dev_initialize_law (m_disk s) (vw_ready s Hs)) as (d1 & E1 & R1 & L1 & C1).
  assert (E1' : ata_initialize s = Ok (true, set_disk s d1)).
  { unfold ata_initialize. by rewrite E1. }
  rewrite (bind_run _ _ _ _ _ E1'). cbn [negb].
  change (sector_count 512) with 1.
  destruct (dev_read_law d1 k R1 ltac:(lia)) as (d2 & E2 & R2 & L2 & C2).
  assert (E2' : ata_read k 1 (set_disk s d1) = Ok (Some (contents s k), set_disk s d2)).
  { unfold ata_read. cbn [m_disk set_disk]. rewrite E2. by rewrite C1. }
  rewrite (bind_run _ _ _ _ _ E2').
  pose proof (sector_length k) as Hlen.
  exists (set_disk s d2). split.
  - rewrite (bind_lift _ (contents s k)); [done|]. unfold store.
    rewrite put_ok by lia. rewrite Hlen. cbn [Z.to_nat take app].
    rewrite drop_ge by lia. by rewrite app_nil_r.
  - constructor; [done|done|simpl; congruence|]. intros j. unfold contents. simpl.
    by rewrite C2, C1.
Qed.

Lemma diskWrite_ok k data :
  0 ≤ k < dev_limit (m_disk s) → length data = 512%nat → Forall is_u8 data →
  exists s', diskWrite k data 512 s = Ok (true, s') ∧
    disk_is s s' (λ j, if j =? k then data else contents s j).
Proof.
  intros Hk Hlen Hb. unfold diskWrite. cbn [Z.eqb].
  destruct (dev_initialize_law (m_disk s) (vw_ready s Hs)) as (d1 & E1 & R1 & L1 & C1).
  assert (E1' : ata_initialize s = Ok (true, set_disk s d1)).
  { unfold ata_initialize. by rewrite E1. }
  rewrite (bind_run _ _ _ _ _ E1'). cbn [negb].
  change (sector_count 512) with 1. change ((Z.to_nat 1 * SECTOR)%nat) with 512%nat.
  rewrite Hlen, Nat.leb_refl, take_ge by lia.
  destruct (dev_write_law d1 k data R1 ltac:(lia) Hlen Hb) as (d2 & E2 & R2 & L2 & C2).
  exists (set_disk s d2). split.
  - unfold ata_write. cbn [m_disk set_disk]. by rewrite E2.
  - constructor; [done|done|simpl; congruence|]. intros j. unfold contents. simpl.
    rewrite C2. by rewrite C1.
Qed.
End one.

(** ** Table entries *)

Definition fat_sector s (c : Z) : Z := m_firstFatSector s + c / 128.

Definition fat_entry s (c : Z) : Z :=
  Z.land (le32 (contents s (fat_sector s c)) (c `mod` 128 * 4)) ENTRY_MASK.

(** A cluster number whose entry is in the table. *)
Definition in_table s (c : Z) : Prop := 0 ≤ c < m_totalClusters s + 2.

Definition fupd (F : Z → Z) (c v : Z) : Z → Z := λ x, if x =? c then v else F x.

(** [fat_is s s' F]: [s'] is [s] with the table holding [F], and the data
    sectors and everything else as they were. *)
Record fat_is s s' (F : Z → Z) : Prop := {
  fi_disk : disk_is s s' (contents s');
  fi_entry : ∀ c, in_table s c → fat_entry s' c = F c;
  fi_data : ∀ k, m_firstDataSector s ≤ k → contents s' k = contents s k
}.

Lemma disk_is_in_table s s' f c : disk_is s s' f → in_table s' c ↔ in_table s c.
Proof.
  intros Hd. destruct (disk_is_fields _ _ _ Hd) as (_ & _ & _ & _ & E & _).
  unfold in_table. by rewrite E.
Qed.

Lemma fat_is_trans s1 s2 s3 F G : fat_is s1 s2 F → fat_is s2 s3 G → fat_is s1 s3 G.
Proof.
  intros [D1 E1 C1] [D2 E2 C2].
  destruct (disk_is_fields _ _ _ D1) as (_ & _ & _ & Ed & _). constructor.
  - by eapply disk_is_trans.
  - intros c Hc. apply E2. by eapply disk_is_in_table.
  - intros k Hk. rewrite C2, C1 by congruence. done.
Qed.

Lemma fat_is_ext s s' F G :
  fat_is s s' F → (∀ c, in_table s c → F c = G c) → fat_is s s' G.
Proof. intros [? E ?] H. constructor; [done| |done]. intros. rewrite E by done. by apply H. Qed.

Lemma same_disk_entry s s' c : same_disk s s' → fat_entry s' c = fat_entry s c.
Proof.
  intros Hd. destruct (disk_is_fields _ _ _ Hd) as (_ & _ & E & _).
  unfold fat_entry, fat_sector. by rewrite E, (di_contents _ _ _ Hd).
Qed.

Lemma same_disk_fat s s' : same_disk s s' → fat_is s s' (fat_entry s).
Proof.
  intros Hd. constructor.
  - eapply disk_is_ext; [done|]. intros. symmetry. apply (di_contents _ _ _ Hd).
  - intros. by apply same_disk_entry.
  - intros. apply (di_contents _ _ _ Hd).
Qed.

Lemma fat_is_wf s s' F : fat_is s s' F → volume_wf s → volume_wf s'.
Proof. intros [? _ _]. by eapply disk_is_wf. Qed.

Lemma mask_range v : 0 ≤ Z.land v ENTRY_MASK < 2 ^ 28.
Proof.
  change ENTRY_MASK with (Z.ones 28). rewrite Z.land_ones by lia. apply Z.mod_pos_bound. lia.
Qed.

Lemma mask_idem v : Z.land (Z.land v ENTRY_MASK) ENTRY_MASK = Z.land v ENTRY_MASK.
Proof. by rewrite <- Z.land_assoc, Z.land_diag. Qed.

Lemma entry_offset c :
  0 ≤ c → (c * 4) / 512 = c / 128 ∧ (c * 4) `mod` 512 = c `mod` 128 * 4.
Proof.
  intros. change 512 with (128 * 4). rewrite Z.div_mul_cancel_r, Z.mul_mod_distr_r by lia. done.
Qed.

Section entries.
Context s (Hs : volume_wf s).

Lemma fat_sector_range c :
  in_table s c →
  m_firstFatSector s ≤ fat_sector s c < m_firstFatSector s + fat_sectors s ∧
  fat_sector s c < m_firstDataSector s ∧
  m_firstDataSector s ≤ dev_limit (m_disk s) ∧ 0 ≤ c * 4 < 2 ^ 32.
Proof.
  unfold in_table, fat_sector. intros Hc.
  destruct Hs as [_ _ ? ? ? ? ? ? ? ?].
  assert (c / 128 < fat_sectors s) by (apply Z.div_lt_upper_bound; lia).
  pose proof (Z.div_pos c 128). nia.
Qed.

Lemma readFatEntry_ok c :
  in_table s c →
  exists s', readFatEntry c s = Ok (fat_entry s c, s') ∧ same_disk s s'.
Proof.
  intros Hc. pose proof (fat_sector_range c Hc) as (Hf & Hd & Hl & Hr).
  pose proof (limit_bound s Hs). unfold in_table in Hc.
  destruct (entry_offset c ltac:(lia)) as [Ed Em].
  unfold readFatEntry. st. rewrite (vw_bps s Hs). cbn [Z.eqb]. st. rewrite (vw_bps s Hs).
  rewrite (u32_small (c * 4)), Ed, Em by lia. fold (fat_sector s c).
  pose proof (vw_fat s Hs). rewrite (u32_small (fat_sector s c)) by lia.
  destruct (readSector_ok s Hs (fat_sector s c) (replicate (Z.to_nat 512) 0)) as (s' & E & Hsame);
    [lia|by rewrite length_replicate|].
  rewrite (bind_run _ _ _ _ _ E). exists s'. split; [|done].
  rewrite (bind_lift _ (le32 (contents s (fat_sector s c)) (c `mod` 128 * 4))); [done|].
  apply get32_ok; rewrite ?(sector_length s Hs);
    pose proof (Z.mod_pos_bound c 128 ltac:(lia)); lia.
Qed.

(** The table's copies, each sector written in turn. *)
Fixpoint write_copies (n : nat) (i sector : Z) (data : list Z) (f : Z → list Z) : Z → list Z :=
  match n with
  | O => f
  | S n' => write_copies n' (i + 1) sector data
              (λ j, if j =? sector + i * fat_sectors s then data else f j)
  end.

Lemma write_copies_spec n i sector data f k :
  write_copies n i sector data f k = data ∨
  (write_copies n i sector data f k = f k ∧
   ∀ j, i ≤ j < i + Z.of_nat n → k ≠ sector + j * fat_sectors s).
Proof.
  revert i f. induction n as [|n IH]; intros i f; cbn [write_copies]; [right; split; [done|lia]|].
  destruct (IH (i + 1) (λ j, if j =? sector + i * fat_sectors s then data else f j))
    as [->|[-> Hne]]; [by left|]. destruct (Z.eqb_spec k (sector + i * fat_sectors s)); [by left|].
  right. split; [done|]. intros j Hj. destruct (decide (j = i)) as [->|]; [done|].
  apply Hne. lia.
Qed.

Lemma write_copies_none n i sector data f k :
  (∀ j, i ≤ j < i + Z.of_nat n → k ≠ sector + j * fat_sectors s) →
  write_copies n i sector data f k = f k.
Proof.
  revert i f. induction n as [|n IH]; intros i f H; cbn [write_copies]; [done|].
  rewrite IH by (intros; apply H; lia).
  by rewrite (proj2 (Z.eqb_neq _ _)) by (apply H; lia).
Qed.
End entries.

Lemma write_fats_ok n i sector data s :
  volume_wf s → length data = 512%nat → Forall is_u8 data → 0 ≤ i →
  m_firstFatSector s ≤ sector < m_firstFatSector s + fat_sectors s →
  i + Z.of_nat n ≤ fat_copies s →
  exists s', write_fats n i sector data s = Ok (true, s') ∧
    disk_is s s' (write_copies s n i sector data (contents s)).
Proof.
  revert i s. induction n as [|n IH]; intros i s Hs Hl Hb Hi Hsec Hn; cbn [write_fats].
  { exists s. split; [done|]. apply same_disk_refl, Hs. }
  st. rewrite (vw_bps s Hs). fold (fat_sectors s).
  pose proof (limit_bound s Hs). pose proof Hs as [_ _ ? ? ? ? ? ? ? ?].
  assert (sector + i * fat_sectors s < m_firstDataSector s) by nia.
  rewrite (u32_small (i * fat_sectors s)), u32_small by nia.
  destruct (diskWrite_ok s Hs (sector + i * fat_sectors s) data) as (s1 & E & Hd); [nia|done|done|].
  rewrite (bind_run _ _ _ _ _ E). cbn [negb].
  destruct (disk_is_fields _ _ _ Hd) as (_ & _ & E1 & _ & _ & E2 & E3 & _).
  destruct (IH (i + 1) s1) as (s' & E' & Hd'); [by eapply disk_is_wf|done|done|lia| |lia|].
  { rewrite E1, E2. done. }
  exists s'. split; [done|]. eapply disk_is_ext; [by eapply disk_is_trans|].
  intros k. cbn [write_copies]. clear -Hd E2.
  assert (Hgen : ∀ m j f g, (∀ k, f k = g k) →
    ∀ k, write_copies s1 m j sector data f k = write_copies s m j sector data g k).
  { induction m as [|m IHm]; intros j f g Hfg k'; cbn [write_copies]; [done|].
    apply IHm. intros x. by rewrite E2, Hfg. }
  apply Hgen. intros x. apply (di_contents _ _ _ Hd).
Qed.

(** What the written copies mean for the entries. *)
Lemma fat_written s s1 s2 c v data :
  volume_wf s → in_table s c → same_disk s s1 →
  put (contents s (fat_sector s c)) (c `mod` 128 * 4) (bytes32 (Z.land v ENTRY_MASK)) = Ok data →
  disk_is s1 s2 (write_copies s1 (Z.to_nat (fat_copies s)) 0 (fat_sector s c) data (contents s1)) →
  fat_is s s2 (fupd (fat_entry s) c (Z.land v ENTRY_MASK)).
Proof.
  intros Hs Hc H1 Hp H2. pose proof (fat_sector_range s Hs c Hc) as (Hf & Hd & _ & _).
  destruct (disk_is_fields _ _ _ H1) as (_ & _ & _ & _ & _ & F2 & _).
  pose proof (disk_is_trans _ _ _ _ _ H1 H2) as H12.
  destruct (disk_is_fields _ _ _ H12) as (_ & _ & G & _).
  pose proof Hs as [_ _ ? ? ? ? ? ? ? ?].
  constructor.
  - eapply disk_is_ext; [done|]. intros. symmetry. apply (di_contents _ _ _ H12).
  - intros c' Hc'. pose proof (fat_sector_range s Hs c' Hc') as (Hf' & _ & _ & _).
    unfold fat_entry at 1, fat_sector. rewrite G. fold (fat_sector s c').
    rewrite (di_contents _ _ _ H12). unfold fupd.
    destruct (decide (c' / 128 = c / 128)) as [Eq|Ne].
    + assert (fat_sector s c' = fat_sector s c) as Esec by (unfold fat_sector; lia).
      rewrite Esec.
      destruct (write_copies_spec s1 (Z.to_nat (fat_copies s)) 0 (fat_sector s c) data
        (contents s1) (fat_sector s c)) as [->|[_ Hno]]; [|specialize (Hno 0); lia].
      pose proof (Z.mod_pos_bound c 128 ltac:(lia)). pose proof (Z.mod_pos_bound c' 128 ltac:(lia)).
      rewrite (le32_put _ _ _ _ _ Hp); [|lia|pose proof (mask_range v); lia|lia].
      pose proof (Z.div_mod c 128). pose proof (Z.div_mod c' 128).
      destruct (Z.eqb_spec (c' `mod` 128 * 4) (c `mod` 128 * 4)), (Z.eqb_spec c' c);
        [apply mask_idem|lia|subst; lia|unfold fat_entry; by rewrite Esec].
    + rewrite write_copies_none.
      * rewrite (di_contents _ _ _ H1). rewrite (proj2 (Z.eqb_neq c' c)) by congruence. done.
      * intros j Hj. rewrite F2. unfold fat_sector in *.
        destruct (decide (j = 0)) as [->|]; [lia|]. nia.
  - intros k Hk. rewrite (di_contents _ _ _ H12), write_copies_none.
    + apply (di_contents _ _ _ H1).
    + intros j Hj. rewrite F2. nia.
Qed.

Lemma updateFatEntry_ok s c v :
  volume_wf s → in_table s c →
  exists s', updateFatEntry c v s = Ok (true, s') ∧
    fat_is s s' (fupd (fat_entry s) c (Z.land v ENTRY_MASK)).
Proof.
  intros Hs Hc. pose proof (fat_sector_range s Hs c Hc) as (Hf & Hd & Hl & Hr).
  pose proof (limit_bound s Hs). pose proof Hc as Hc0. unfold in_table in Hc0.
  destruct (entry_offset c ltac:(lia)) as [Ed Em].
  unfold updateFatEntry. st. rewrite (vw_bps s Hs). cbn [Z.eqb]. st. rewrite (vw_bps s Hs).
  rewrite (u32_small (c * 4)), Ed, Em by lia. fold (fat_sector s c).
  pose proof (vw_fat s Hs). rewrite (u32_small (fat_sector s c)) by lia.
  destruct (readSector_ok s Hs (fat_sector s c) (replicate (Z.to_nat 512) 0)) as (s1 & E1 & H1);
    [lia|by rewrite length_replicate|].
  rewrite (bind_run _ _ _ _ _ E1).
  pose proof (Z.mod_pos_bound c 128 ltac:(lia)) as Hmod.
  set (w := Z.land v ENTRY_MASK). set (sec := contents s (fat_sector s c)).
  assert (Hsl : length sec = 512%nat) by (apply sector_length; done).
  destruct (put sec (c `mod` 128 * 4) (bytes32 w)) as [data| |] eqn:Ep.
  2, 3: rewrite put_ok in Ep by (rewrite ?Hsl; simpl; lia); done.
  rewrite (bind_lift _ data) by done. st.
  pose proof (disk_is_wf _ _ _ H1 Hs) as Hs1.
  destruct (disk_is_fields _ _ _ H1) as (_ & _ & F1 & _ & _ & F2 & F3 & _).
  fold (fat_copies s1). rewrite F3.
  assert (Hbytes : Forall is_u8 data).
  { eapply put_bytes; [done|apply sector_bytes; done|apply u8_bytes]. }
  destruct (write_fats_ok (Z.to_nat (fat_copies s)) 0 (fat_sector s c) data s1 Hs1)
    as (s2 & E2 & H2); [by rewrite (put_length _ _ _ _ Ep)|done|lia|by rewrite F1, F2|
      pose proof (vw_copies s Hs); rewrite F3; lia|].
  exists s2. split; [exact E2|]. by apply (fat_written s s1 s2 c v data).
Qed.

(** ** Clusters *)

Lemma bind_readFatEntry {B} s c (f : Z → FS B) :
  volume_wf s → in_table s c →
  exists s', (readFatEntry c ≫= f) s = f (fat_entry s c) s' ∧ same_disk s s' ∧ volume_wf s'.
Proof.
  intros Hs Hc. destruct (readFatEntry_ok s Hs c Hc) as (s' & E & H).
  exists s'. rewrite (bind_run _ _ _ _ _ E). split_and!; [done|done|by eapply disk_is_wf].
Qed.

Lemma fat_is_same_l s1 s2 s3 F :
  same_disk s1 s2 → fat_is s2 s3 F → fat_is s1 s3 F.
Proof. intros H1 H2. eapply fat_is_trans; [by apply same_disk_fat|done]. Qed.

Lemma fat_is_entries s s' F c : fat_is s s' F → in_table s c → fat_entry s' c = F c.
Proof. intros [_ E _]. apply E. Qed.

(** [c] is the first free cluster at or after [from]. *)
Definition first_free (F : Z → Z) (from c : Z) : Prop :=
  from ≤ c ∧ F c = 0 ∧ ∀ x, from ≤ x < c → F x ≠ 0.

Lemma allocate_cluster_from_ok n c s :
  volume_wf s → 2 ≤ c → c + Z.of_nat n ≤ m_totalClusters s →
  (exists k s', first_free (fat_entry s) c k ∧ k < c + Z.of_nat n ∧
     allocate_cluster_from n c s = Ok (k, s') ∧
     fat_is s s' (fupd (fat_entry s) k END_OF_CHAIN)) ∨
  ((∀ x, c ≤ x < c + Z.of_nat n → fat_entry s x ≠ 0) ∧
   exists s', allocate_cluster_from n c s = Ok (0, s') ∧ same_disk s s').
Proof.
  revert c s. induction n as [|n IH]; intros c s Hs Hc Hn; cbn [allocate_cluster_from].
  { right. split; [lia|]. exists s. split; [done|]. apply same_disk_refl, Hs. }
  destruct (bind_readFatEntry s c (λ fatEntry : Z,
      if fatEntry =? 0 then _ ← updateFatEntry c END_OF_CHAIN; mret c
      else allocate_cluster_from n (c + 1)) Hs) as (s1 & -> & H1 & Hs1); [unfold in_table; lia|].
  destruct (Z.eqb_spec (fat_entry s c) 0) as [E0|E0].
  - left. destruct (updateFatEntry_ok s1 c END_OF_CHAIN Hs1) as (s2 & E2 & H2).
    { eapply disk_is_in_table; [exact H1|]. unfold in_table. lia. }
    exists c, s2. split_and!; [split_and!; [lia|done|lia]|lia|by rewrite (bind_run _ _ _ _ _ E2)|].
    eapply fat_is_ext; [by eapply fat_is_same_l|]. intros x Hx. unfold fupd.
    rewrite (same_disk_entry _ _ _ H1). by destruct (x =? c).
  - destruct (disk_is_fields _ _ _ H1) as (_ & _ & _ & _ & Et & _).
    destruct (IH (c + 1) s1 Hs1) as [(k & s' & (Hk1 & Hk2 & Hk3) & Hk4 & E & Hf)|(Hno & s' & E & Hsame)];
      [lia|lia|left|right].
    + exists k, s'. rewrite (same_disk_entry _ _ _ H1) in Hk2.
      split_and!; [split_and!; [lia|done|]|lia|done|].
      * intros x Hx. destruct (decide (x = c)) as [->|]; [done|].
        rewrite <- (same_disk_entry _ _ _ H1). apply Hk3. lia.
      * eapply fat_is_ext; [by eapply fat_is_same_l|]. intros x Hx. unfold fupd.
        rewrite (same_disk_entry _ _ _ H1). by destruct (x =? k).
    + split; [|exists s'; split; [done|by eapply same_same]].
      intros x Hx. destruct (decide (x = c)) as [->|]; [done|].
      rewrite <- (same_disk_entry _ _ _ H1). apply Hno. lia.
Qed.

Lemma allocateCluster_ok s :
  volume_wf s →
  (exists c s', first_free (fat_entry s) 2 c ∧ c < m_totalClusters s ∧
     allocateCluster s = Ok (c, s') ∧ fat_is s s' (fupd (fat_entry s) c END_OF_CHAIN)) ∨
  ((∀ x, 2 ≤ x < m_totalClusters s → fat_entry s x ≠ 0) ∧
   exists s', allocateCluster s = Ok (0, s') ∧ same_disk s s').
Proof.
  intros Hs. unfold allocateCluster. st.
  destruct (decide (2 ≤ m_totalClusters s)).
  - destruct (allocate_cluster_from_ok (Z.to_nat (m_totalClusters s - 2)) 2 s Hs)
      as [(c & s' & ? & ? & ? & ?)|(Hno & ?)]; [lia|lia|left; exists c, s'|right].
    + split_and!; [done|lia|done|done].
    + split; [|done]. intros. apply Hno. lia.
  - right. split; [lia|]. replace (Z.to_nat (m_totalClusters s - 2)) with 0%nat by lia.
    exists s. split; [done|]. apply same_disk_refl, Hs.
Qed.

Lemma freeCluster_ok s c :
  volume_wf s → 2 ≤ c < m_totalClusters s →
  exists s', freeCluster c s = Ok (tt, s') ∧ fat_is s s' (fupd (fat_entry s) c 0).
Proof.
  intros Hs Hc. unfold freeCluster. st.
  rewrite (proj2 (Z.ltb_ge c 2)), (proj2 (Z.leb_gt (m_totalClusters s) c)) by lia. cbn [orb].
  destruct (updateFatEntry_ok s c 0 Hs) as (s' & E & H); [unfold in_table; lia|].
  exists s'. by rewrite (bind_run _ _ _ _ _ E).
Qed.

(** ** Chains *)

(** The clusters from [c] to the end of its chain are [l]. *)
Fixpoint fat_chain (F : Z → Z) (c : Z) (l : list Z) : Prop :=
  match l with
  | [] => False
  | x :: l => x = c ∧ (if END_OF_CHAIN <=? F c then l = [] else fat_chain F (F c) l)
  end.

Lemma fat_chain_det F c l1 l2 : fat_chain F c l1 → fat_chain F c l2 → l1 = l2.
Proof.
  revert c l2. induction l1 as [|x l1 IH]; intros c [|y l2]; simpl; try done.
  intros [-> H1] [-> H2]. destruct (END_OF_CHAIN <=? F c); [congruence|]. f_equal. by eapply IH.
Qed.

Lemma fat_chain_suffix F c l x : fat_chain F c l → x ∈ l → exists l1 l2, l = l1 ++ l2 ∧ fat_chain F x l2.
Proof.
  revert c. induction l as [|y l IH]; intros c; [done|]. intros Hc Hin.
  apply elem_of_cons in Hin as [->|Hin].
  - exists [], (y :: l). split; [done|]. by destruct Hc as [-> ?].
  - destruct Hc as [-> Hc]. destruct (END_OF_CHAIN <=? F c); [subst; by inversion Hin|].
    destruct (IH _ Hc Hin) as (l1 & l2 & -> & ?). by exists (c :: l1), l2.
Qed.

(** A chain that ends does not repeat. *)
Lemma fat_chain_NoDup F c l : fat_chain F c l → NoDup l.
Proof.
  revert c. induction l as [|x l IH]; intros c; [done|]. intros Hc.
  pose proof Hc as [-> Ht]. destruct (END_OF_CHAIN <=? F c) eqn:E; [subst; apply NoDup_singleton|].
  constructor; [|by eapply IH]. intros Hin.
  destruct (fat_chain_suffix _ _ _ _ Ht Hin) as (l1 & l2 & -> & H2).
  pose proof (fat_chain_det _ _ _ _ Hc H2) as Heq. apply (f_equal length) in Heq.
  rewrite length_cons, length_app in Heq. lia.
Qed.

Lemma fat_chain_ext F G c l : (∀ x, x ∈ l → F x = G x) → fat_chain F c l → fat_chain G c l.
Proof.
  revert c. induction l as [|x l IH]; intros c H; simpl; [done|].
  intros [-> Hc]. split; [done|]. rewrite <- (H c) by apply list_elem_of_here.
  destruct (END_OF_CHAIN <=? F c); [done|]. apply IH; [set_solver|done].
Qed.

Definition chain_clusters s (l : list Z) : Prop := Forall (λ c, 2 ≤ c < m_totalClusters s) l.

Lemma free_chain_ok fuel s c l :
  volume_wf s → fat_chain (fat_entry s) c l → chain_clusters s l → (length l ≤ fuel)%nat →
  exists s', free_chain fuel c s = Ok (tt, s') ∧
    fat_is s s' (λ x, if decide (x ∈ l) then 0 else fat_entry s x).
Proof.
  revert s c l. induction fuel as [|fuel IH]; intros s c l Hs Hc Hl Hf; [destruct l; simpl in *; [done|lia]|].
  pose proof (fat_chain_NoDup _ _ _ Hc) as Hnd.
  destruct l as [|x l]; [done|]. destruct Hc as [-> Hc].
  apply Forall_cons in Hl as [Hr Hl]. apply NoDup_cons in Hnd as [Hn _].
  cbn [free_chain]. pose proof Hs as [_ _ _ _ _ _ _ Htot _ _].
  rewrite (proj2 (Z.ltb_lt c END_OF_CHAIN)) by (unfold END_OF_CHAIN; lia).
  destruct (bind_readFatEntry s c (λ nextCluster : Z, freeCluster c;;
      if END_OF_CHAIN <=? nextCluster then mret tt
      else if nextCluster =? BAD_CLUSTER then mret tt else free_chain fuel nextCluster) Hs)
    as (s1 & -> & H1 & Hs1); [unfold in_table; lia|].
  destruct (disk_is_fields _ _ _ H1) as (_ & _ & _ & _ & Et & _).
  destruct (freeCluster_ok s1 c Hs1) as (s2 & E2 & H2); [lia|].
  rewrite (bind_run _ _ _ _ _ E2).
  assert (H2' : fat_is s s2 (fupd (fat_entry s) c 0)).
  { eapply fat_is_ext; [by eapply fat_is_same_l|]. intros y _. unfold fupd.
    rewrite (same_disk_entry _ _ _ H1). done. }
  destruct (END_OF_CHAIN <=? fat_entry s c) eqn:Ee.
  { subst l. exists s2. split; [done|]. eapply fat_is_ext; [done|]. intros y _. unfold fupd.
    destruct (Z.eqb_spec y c) as [->|]; [by rewrite decide_True by set_solver|].
    by rewrite decide_False by set_solver. }
  pose proof Hl as Hl'. destruct l as [|y l]; [done|]. pose proof Hc as [Ey _].
  apply Forall_cons in Hl' as [Hy _]. subst y.
  rewrite (proj2 (Z.eqb_neq _ BAD_CLUSTER)) by (unfold BAD_CLUSTER; lia).
  pose proof (fat_is_wf _ _ _ H2' Hs) as Hs2.
  destruct (disk_is_fields _ _ _ (fi_disk _ _ _ H2')) as (_ & _ & _ & _ & Et2 & _).
  destruct (IH s2 (fat_entry s c) (fat_entry s c :: l)) as (s3 & E3 & H3); [done| | |simpl in *; lia|].
  - eapply fat_chain_ext; [|done]. intros z Hz. symmetry.
    rewrite (fat_is_entries _ _ _ z H2').
    + unfold fupd. rewrite (proj2 (Z.eqb_neq z c)); [done|]. intros ->. done.
    + unfold chain_clusters in Hl. rewrite Forall_forall in Hl. pose proof (Hl z Hz).
      unfold in_table. lia.
  - unfold chain_clusters in *. by rewrite Et2.
  - exists s3. split; [done|]. eapply fat_is_ext; [by eapply fat_is_trans|].
    intros z Hz. cbv beta. destruct (decide (z ∈ fat_entry s c :: l)).
    { by rewrite decide_True by set_solver. }
    rewrite (fat_is_entries _ _ _ z H2' Hz). unfold fupd.
    destruct (Z.eqb_spec z c) as [->|]; [by rewrite decide_True by set_solver|].
    by rewrite decide_False by set_solver.
Qed.


(** ** Properties *)

(** The table is a map: after [updateFatEntry] every entry reads back as
    written at the cluster and as before everywhere else (entries keep 28
    bits), and no data sector has changed. *)
Theorem fat_read_write s c v c' :
  volume_wf s → in_table s c → in_table s c' →
  exists s1 s2, updateFatEntry c v s = Ok (true, s1) ∧
    readFatEntry c' s1 = Ok (if c' =? c then Z.land v ENTRY_MASK else fat_entry s c', s2) ∧
    ∀ k, m_firstDataSector s ≤ k → contents s2 k = contents s k.
Proof.
  intros Hs Hc Hc'. destruct (updateFatEntry_ok s c v Hs Hc) as (s1 & E1 & H1).
  pose proof (fat_is_wf _ _ _ H1 Hs) as Hs1.
  destruct (readFatEntry_ok s1 Hs1 c') as (s2 & E2 & H2).
  { eapply disk_is_in_table; [apply H1|done]. }
  exists s1, s2. split_and!; [done| |].
  - rewrite E2, (fat_is_entries _ _ _ _ H1 Hc'). done.
  - intros k Hk. rewrite (di_contents _ _ _ H2). by apply (fi_data _ _ _ H1).
Qed.

(** [allocateCluster] takes the lowest free cluster below the cluster
    count and marks it as an end of chain, changing no other entry and no data;
    when there is none it returns 0 and the disk is as it was. *)
Theorem allocateCluster_spec s :
  volume_wf s →
  (exists c s', first_free (fat_entry s) 2 c ∧ c < m_totalClusters s ∧
     allocateCluster s = Ok (c, s') ∧ fat_is s s' (fupd (fat_entry s) c END_OF_CHAIN)) ∨
  ((∀ x, 2 ≤ x < m_totalClusters s → fat_entry s x ≠ 0) ∧
   exists s', allocateCluster s = Ok (0, s') ∧ same_disk s s').
Proof. exact (allocateCluster_ok s). Qed.

(** [C26] Deleting frees exactly the chain: on a chain that ends, the freeing
    loop terminates, sets the entries of the chain's clusters to zero and
    leaves every other entry and all data alone. *)
Theorem free_chain_spec fuel s c l :
  volume_wf s → fat_chain (fat_entry s) c l → chain_clusters s l → (length l ≤ fuel)%nat →
  exists s', free_chain fuel c s = Ok (tt, s') ∧
    fat_is s s' (λ x, if decide (x ∈ l) then 0 else fat_entry s x).
Proof. exact (free_chain_ok fuel s c l). Qed.

(** The two clusters past the count of a volume are the last two of its
    data area, but [freeCluster] leaves their entries alone. *)
Theorem freeCluster_skips_last s c :
  volume_wf s → m_totalClusters s ≤ c < m_totalClusters s + 2 →
  in_table s c ∧ freeCluster c s = Ok (tt, s).
Proof.
  intros Hs Hc. pose proof (vw_clusters s Hs). split; [unfold in_table; lia|].
  unfold freeCluster. st. by rewrite (proj2 (Z.leb_le _ c)), orb_true_r by lia.
Qed.
End volume.

(** ** A volume for the witnesses *)

(** One table sector at sector 1: the chain 2, 3 and nothing else; the data
    starts at sector 2. *)
Definition table0 : list Z :=
  [248; 255; 255; 15; 255; 255; 255; 15; 3; 0; 0; 0; 248; 255; 255; 15] ++ replicate 496 0.
Definition disk0 : MemDisk := λ s, if s =? 1 then table0 else replicate 512 0.
Definition bpb0 : SFat32BPB :=
  BPB [] [] 512 1 1 1 0 0 0 0 0 0 0 102 1 0 0 2 0 0 [] 0 0 0x29 0 [] [].
Definition vol0 : CFat32FileSystem MemDisk :=
  Fat32 [] 1 bpb0 (FSInfo 0 0) 2 100 100 1 root_path root_path 2 disk0.

Lemma disk0_ready : mem_ready disk0.
Proof.
  intros s. unfold disk0. destruct (s =? 1).
  - split; [done|]. unfold table0. rewrite Forall_app. split.
    + repeat (constructor; [unfold is_u8; lia|]). constructor.
    + apply Forall_replicate. unfold is_u8. lia.
  - split; [done|]. apply Forall_replicate. unfold is_u8. lia.
Qed.

Lemma vol0_wf : volume_wf vol0.
Proof. constructor; try done; try exact disk0_ready; unfold fat_sectors, fat_copies; simpl; lia. Qed.

Lemma vol0_chain : fat_chain (fat_entry vol0) 2 [2; 3].
Proof.
  assert (fat_entry vol0 2 = 3) as E2 by reflexivity.
  assert (fat_entry vol0 3 = END_OF_CHAIN) as E3 by reflexivity.
  cbn [fat_chain]. rewrite E2. split; [done|]. rewrite E3. done.
Qed.

Lemma fat_read_write_witness :
  exists s1 s2, updateFatEntry 5 9 vol0 = Ok (true, s1) ∧
    readFatEntry 5 s1 = Ok (if 5 =? 5 then Z.land 9 ENTRY_MASK else fat_entry vol0 5, s2) ∧
    ∀ k, 2 ≤ k → contents s2 k = contents vol0 k.
Proof.
  assert (in_table vol0 5) as H by (unfold in_table; simpl; lia).
  exact (fat_read_write vol0 5 9 5 vol0_wf H H).
Defined.

Lemma allocateCluster_spec_witness :
  (exists c s', first_free (fat_entry vol0) 2 c ∧ c < 100 ∧
     allocateCluster vol0 = Ok (c, s') ∧ fat_is vol0 s' (fupd (fat_entry vol0) c END_OF_CHAIN)) ∨
  ((∀ x, 2 ≤ x < 100 → fat_entry vol0 x ≠ 0) ∧
   exists s', allocateCluster vol0 = Ok (0, s') ∧ same_disk vol0 s').
Proof. exact (allocateCluster_spec vol0 vol0_wf). Defined.

Lemma free_chain_spec_witness :
  exists s', free_chain 2 2 vol0 = Ok (tt, s') ∧
    fat_is vol0 s' (λ x, if decide (x ∈ [2; 3]) then 0 else fat_entry vol0 x).
Proof.
  apply (free_chain_spec 2 vol0 2 [2; 3] vol0_wf vol0_chain); [|simpl; lia].
  repeat (constructor; [simpl; lia|]). constructor.
Defined.

Lemma freeCluster_skips_last_witness :
  in_table vol0 101 ∧ freeCluster 101 vol0 = Ok (tt, vol0).
Proof. apply (freeCluster_skips_last vol0 101 vol0_wf). simpl. lia. Defined.
