(* ===== verification/Fat32File.v ===== *)
(** * Proofs for Fat32.v: file contents

    The data of a chain is the concatenation of its clusters' sectors.
    [readFile] fills the caller's buffer with its front, [writeFile] stores data
    of whole sectors in it, and reading gives back what was written. *)

From S2P Require Import Prelude CStr Disk Fat32 Fat32Fat.

(** ** Lists *)

(** The front of [acc] over [b], [sz] bytes at most: a buffer part-way through
    the read. *)
Definition overlay (sz : Z) (acc b : list Z) : list Z :=
  let n := Nat.min (Z.to_nat sz) (length acc) in take n acc ++ drop n b.

Definition filled (sz : Z) (acc : list Z) : Z := Z.min sz (Z.of_nat (length acc)).

Lemma overlay_nil sz b : overlay sz [] b = b.
Proof. unfold overlay. cbn [length]. by rewrite Nat.min_0_r. Qed.

Lemma filled_nil sz : 0 ≤ sz → filled sz [] = 0.
Proof. unfold filled. simpl. lia. Qed.

Lemma overlay_full sz acc1 acc2 b :
  0 ≤ sz → sz ≤ filled sz acc1 → overlay sz (acc1 ++ acc2) b = overlay sz acc1 b ∧
  filled sz (acc1 ++ acc2) = filled sz acc1.
Proof.
  unfold overlay, filled. rewrite length_app. intros ? H.
  replace (Z.to_nat sz `min` (length acc1 + length acc2))%nat with (Z.to_nat sz) by lia.
  replace (Z.to_nat sz `min` length acc1)%nat with (Z.to_nat sz) by lia.
  split; [|lia]. f_equal. rewrite take_app_le; [done|lia].
Qed.

Lemma overlay_put sz acc data b :
  0 ≤ sz → Z.of_nat (length b) = sz → Z.of_nat (length acc) < sz →
  put (overlay sz acc b) (filled sz acc)
    (take (Z.to_nat (Z.min (sz - filled sz acc) (Z.of_nat (length data)))) data) =
  Ok (overlay sz (acc ++ data) b) ∧
  filled sz acc + Z.min (sz - filled sz acc) (Z.of_nat (length data)) = filled sz (acc ++ data).
Proof.
  unfold overlay, filled. rewrite length_app. intros ? Hb Ha.
  replace (Z.to_nat sz `min` length acc)%nat with (length acc) by lia.
  rewrite (Z.min_r sz) by lia.
  set (n := Z.min (sz - Z.of_nat (length acc)) (Z.of_nat (length data))).
  split; [|lia]. rewrite firstn_all.
  rewrite put_ok; cycle 1.
  { lia. }
  { rewrite length_take, length_app, length_drop. lia. }
  f_equal. rewrite Nat2Z.id, take_app_length.
  replace (Z.to_nat sz `min` (length acc + length data))%nat
    with (length acc + Z.to_nat n)%nat by lia.
  rewrite firstn_app_2, <- app_assoc. do 2 f_equal.
  rewrite length_take. replace (Z.to_nat n `min` length data)%nat with (Z.to_nat n) by lia.
  rewrite <- drop_drop, drop_app_length, drop_drop. f_equal.
Qed.

(** ** Clusters and their sectors *)

Section file.
Context {D : Type} {HD : BlockDevice D} {HL : DeviceLaws D}.
Implicit Types s : CFat32FileSystem D.
#[local] Abbreviation FS := (ST (CFat32FileSystem D)).

(** A cluster of the data area. *)
Definition data_cluster s (c : Z) : Prop := 2 ≤ c < m_totalClusters s + 2.

Definition first_sector s (c : Z) : Z := m_firstDataSector s + (c - 2) * spc s.

(** [n] sector numbers from [k]. *)
Fixpoint sectors_from (n : nat) (k : Z) : list Z :=
  match n with O => [] | S n' => k :: sectors_from n' (k + 1) end.

Definition cluster_sectors s (c : Z) : list Z := sectors_from (Z.to_nat (spc s)) (first_sector s c).
Definition chain_sectors s (l : list Z) : list Z := concat (cluster_sectors s <$> l).

Definition bytes_of (f : Z → list Z) (secs : list Z) : list Z := concat (f <$> secs).

Definition file_data s (l : list Z) : list Z := bytes_of (contents s) (chain_sectors s l).

Lemma bytes_of_app f l1 l2 : bytes_of f (l1 ++ l2) = bytes_of f l1 ++ bytes_of f l2.
Proof. unfold bytes_of. by rewrite fmap_app, concat_app. Qed.

Lemma bytes_of_ext f g l : (∀ k, k ∈ l → f k = g k) → bytes_of f l = bytes_of g l.
Proof.
  intros H. unfold bytes_of. f_equal. apply list_fmap_ext. intros i k Hk.
  by apply H, list_elem_of_lookup_2 with i.
Qed.

Lemma chain_sectors_cons s c l : chain_sectors s (c :: l) = cluster_sectors s c ++ chain_sectors s l.
Proof. done. Qed.

Lemma elem_of_sectors_from n k x : x ∈ sectors_from n k ↔ k ≤ x < k + Z.of_nat n.
Proof.
  revert k. induction n as [|n IH]; intros k; cbn [sectors_from].
  - split; [by intros ?%not_elem_of_nil|lia].
  - rewrite elem_of_cons, IH. lia.
Qed.

Lemma length_sectors_from n k : length (sectors_from n k) = n.
Proof. revert k. induction n as [|n IH]; intros k; simpl; [done|]. by rewrite IH. Qed.

Lemma data_cluster_sectors s c k :
  volume_wf s → data_cluster s c → k ∈ cluster_sectors s c →
  m_firstDataSector s ≤ k ∧ (c - 2) * spc s ≤ k - m_firstDataSector s < (c - 1) * spc s ∧
  k < dev_limit (m_disk s).
Proof.
  intros Hs Hc Hk. unfold cluster_sectors in Hk. rewrite elem_of_sectors_from in Hk.
  unfold first_sector, data_cluster in *. destruct Hs as [_ _ ? ? ? ? ? ? ? _].
  rewrite Z2Nat.id in Hk by lia. nia.
Qed.

Lemma firstSector_value s c :
  volume_wf s → data_cluster s c →
  u32 (u32 (u32 (c - 2) * spc s) + m_firstDataSector s) = first_sector s c ∧
  0 ≤ first_sector s c ∧ first_sector s c + spc s ≤ dev_limit (m_disk s).
Proof.
  intros Hs Hc. pose proof (limit_bound s Hs). unfold data_cluster, first_sector in *.
  destruct Hs as [_ _ ? ? ? ? ? ? ? _].
  assert (0 ≤ (c - 2) * spc s) by nia.
  assert ((c - 2) * spc s + spc s ≤ m_totalClusters s * spc s) by nia.
  rewrite (u32_small (c - 2)), (u32_small ((c - 2) * spc s)) by nia.
  rewrite u32_small by nia. lia.
Qed.

Lemma same_disk_file s s' l : same_disk s s' → file_data s' l = file_data s l.
Proof.
  intros H. destruct (disk_is_fields _ _ _ H) as (_ & E1 & _ & E2 & _).
  unfold file_data, chain_sectors, cluster_sectors, first_sector. rewrite E1, E2.
  apply bytes_of_ext. intros. apply (di_contents _ _ _ H).
Qed.

(** ** Reading *)

Lemma read_sectors_ok k s sector i sz acc b :
  volume_wf s → 0 ≤ sector → 0 ≤ i → sector + i + Z.of_nat k ≤ dev_limit (m_disk s) →
  0 ≤ sz → Z.of_nat (length b) = sz →
  let acc' := acc ++ bytes_of (contents s) (sectors_from k (sector + i)) in
  exists s', read_sectors k sector i (filled sz acc) sz (overlay sz acc b) s =
      Ok ((true, filled sz acc', overlay sz acc' b), s') ∧ same_disk s s'.
Proof.
  revert s i acc. induction k as [|k IH]; intros s i acc Hs Hsec Hi Hlim Hsz Hb;
    cbn [read_sectors sectors_from].
  { cbv zeta. unfold bytes_of. cbn. rewrite app_nil_r. exists s. split; [done|].
    apply same_disk_refl, Hs. }
  pose proof (limit_bound s Hs).
  destruct (Z.leb_spec sz (filled sz acc)) as [Hfull|Hmore].
  { exists s. split; [|apply same_disk_refl, Hs].
    destruct (overlay_full sz acc (bytes_of (contents s) (sector + i :: sectors_from k (sector + i + 1))) b
      Hsz Hfull) as [-> ->]. done. }
  st. rewrite (vw_bps s Hs), u32_small by lia.
  destruct (readSector_ok s Hs (sector + i) (replicate (Z.to_nat 512) 0)) as (s1 & E1 & H1);
    [lia|by rewrite length_replicate|].
  rewrite (bind_run _ _ _ _ _ E1). st.
  pose proof (disk_is_wf _ _ _ H1 Hs) as Hs1. rewrite (vw_bps s1 Hs1).
  set (data := contents s (sector + i)).
  assert (Hdl : Z.of_nat (length data) = 512) by (unfold data; rewrite (sector_length s Hs); done).
  assert (Hacc : Z.of_nat (length acc) < sz) by (unfold filled in Hmore; lia).
  destruct (overlay_put sz acc data b Hsz Hb Hacc) as [Ep Ef]. rewrite Hdl in Ep, Ef.
  rewrite (bind_lift _ _ _ _ Ep), Ef.
  replace (sector + i + 1) with (sector + (i + 1)) by lia.
  destruct (IH s1 (i + 1) (acc ++ data) Hs1) as (s2 & E2 & H2);
    [lia|lia|rewrite (di_limit _ _ _ H1); lia|done|done|].
  exists s2. split; [|by eapply same_same]. rewrite E2.
  assert (Hbytes : (acc ++ data) ++ bytes_of (contents s1) (sectors_from k (sector + (i + 1))) =
    acc ++ bytes_of (contents s) (sector + i :: sectors_from k (sector + (i + 1)))).
  { rewrite <- app_assoc. f_equal. unfold bytes_of at 2. cbn [fmap list_fmap concat]. f_equal.
    apply bytes_of_ext. intros. apply (di_contents _ _ _ H1). }
  by rewrite Hbytes.
Qed.

Definition data_clusters s (l : list Z) : Prop := Forall (data_cluster s) l.

Lemma same_disk_clusters s s' f l : disk_is s s' f → data_clusters s l → data_clusters s' l.
Proof.
  intros H. destruct (disk_is_fields _ _ _ H) as (_ & _ & _ & _ & E & _).
  unfold data_clusters, data_cluster. by rewrite E.
Qed.

Lemma same_disk_chain s s' c l :
  same_disk s s' → fat_chain (fat_entry s) c l → fat_chain (fat_entry s') c l.
Proof. intros H. apply fat_chain_ext. intros. symmetry. by apply same_disk_entry. Qed.

(** The next cluster of a chain that goes on is a cluster, not a mark. *)
Lemma chain_next F c x l (P : Z → Prop) :
  fat_chain F c (x :: l) → Forall P (x :: l) → (∀ y, P y → y < BAD_CLUSTER) →
  x = c ∧ P c ∧
  ((END_OF_CHAIN <=? F c) = true ∧ l = [] ∨
   (END_OF_CHAIN <=? F c) = false ∧ (F c =? BAD_CLUSTER) = false ∧ P (F c) ∧
    fat_chain F (F c) l ∧ Forall P l).
Proof.
  intros [-> Hc] [Hp Hl]%Forall_cons HP. split_and!; [done|done|].
  destruct (END_OF_CHAIN <=? F c) eqn:E; [by left|right].
  destruct l as [|y l]; [done|]. pose proof Hc as [-> _].
  pose proof Hl as [Hy _]%Forall_cons. split_and!; [done| |done|done|done].
  pose proof (HP _ Hy). apply Z.eqb_neq. lia.
Qed.

Lemma data_cluster_bound s y : volume_wf s → data_cluster s y → y < BAD_CLUSTER.
Proof. intros Hs Hy. pose proof (vw_clusters s Hs). unfold data_cluster, BAD_CLUSTER in *. lia. Qed.

Lemma read_chain_ok fuel s c l sz acc b :
  volume_wf s → fat_chain (fat_entry s) c l → data_clusters s l → (length l ≤ fuel)%nat →
  0 ≤ sz → Z.of_nat (length b) = sz →
  exists s', read_chain fuel c (filled sz acc) sz (overlay sz acc b) s =
      Ok (overlay sz (acc ++ file_data s l) b, s') ∧ same_disk s s'.
Proof.
  revert s c l acc. induction fuel as [|fuel IH]; intros s c l acc Hs Hc Hl Hf Hsz Hb;
    destruct l as [|x l]; [done|simpl in Hf; lia|done|].
  destruct (chain_next _ _ _ _ _ Hc Hl (λ y, data_cluster_bound s y Hs)) as (-> & Hdc & Hcase).
  cbn [read_chain].
  destruct (Z.leb_spec sz (filled sz acc)) as [Hfull|Hmore].
  { exists s. split; [|apply same_disk_refl, Hs].
    by destruct (overlay_full sz acc (file_data s (c :: l)) b Hsz Hfull) as [-> _]. }
  st. destruct (firstSector_value s c Hs Hdc) as (-> & Hpos & Hlim).
  pose proof (vw_spc s Hs).
  destruct (read_sectors_ok (Z.to_nat (spc s)) s (first_sector s c) 0 sz acc b Hs Hpos)
    as (s1 & E1 & H1); [lia|lia|done|done|].
  rewrite (bind_run _ _ _ _ _ E1). cbn [negb]. rewrite Z.add_0_r in *.
  fold (cluster_sectors s c).
  set (acc1 := acc ++ bytes_of (contents s) (cluster_sectors s c)).
  assert (Hdata : acc ++ file_data s (c :: l) = acc1 ++ file_data s l).
  { unfold acc1, file_data. rewrite chain_sectors_cons, bytes_of_app. by rewrite app_assoc. }
  rewrite Hdata. pose proof (disk_is_wf _ _ _ H1 Hs) as Hs1.
  destruct (Z.leb_spec sz (filled sz acc1)) as [Hfull1|Hmore1].
  { exists s1. split; [|done].
    by destruct (overlay_full sz acc1 (file_data s l) b Hsz Hfull1) as [-> _]. }
  destruct (bind_readFatEntry s1 c (λ nextCluster : Z,
      if END_OF_CHAIN <=? nextCluster then mret (overlay sz acc1 b)
      else if nextCluster =? BAD_CLUSTER then mret (overlay sz acc1 b)
      else read_chain fuel nextCluster (filled sz acc1) sz (overlay sz acc1 b)) Hs1)
    as (s2 & -> & H2 & Hs2).
  { eapply disk_is_in_table; [exact H1|]. unfold in_table, data_cluster in *. lia. }
  rewrite (same_disk_entry _ _ c H1). pose proof (same_same _ _ _ H1 H2) as H12.
  destruct Hcase as [[-> ->]|(-> & -> & Hnext & Hc' & Hl')].
  - exists s2. split; [|done]. unfold file_data, chain_sectors, bytes_of. cbn.
    by rewrite app_nil_r.
  - destruct (IH s2 (fat_entry s c) l acc1 Hs2) as (s3 & E3 & H3);
      [by eapply same_disk_chain|by eapply same_disk_clusters|simpl in Hf; lia|done|done|].
    exists s3. split; [|by eapply same_same]. rewrite E3.
    by rewrite (same_disk_file _ _ l H12).
Qed.

Lemma readFile_ok fuel s c l b :
  volume_wf s → fat_chain (fat_entry s) c l → data_clusters s l → (length l ≤ fuel)%nat →
  exists s', readFile fuel c b (Z.of_nat (length b)) s =
      Ok (overlay (Z.of_nat (length b)) (file_data s l) b, s') ∧ same_disk s s'.
Proof.
  intros Hs Hc Hl Hf. unfold readFile. st. pose proof (vw_spc s Hs). rewrite (vw_bps s Hs).
  rewrite (proj2 (Z.eqb_neq (spc s) 0)) by lia. cbn [Z.eqb orb].
  destruct (read_chain_ok fuel s c l (Z.of_nat (length b)) [] b Hs Hc Hl Hf) as (s' & E & H1);
    [lia|done|].
  exists s'. split; [|done]. rewrite filled_nil, overlay_nil in E by lia. exact E.
Qed.

(** A write takes one sector from the front of its data. *)
Lemma diskWrite_take s k data :
  (512 ≤ length data)%nat → diskWrite k (take 512 data) 512 s = diskWrite k data 512 s.
Proof.
  intros Hl. unfold diskWrite. cbn [Z.eqb].
  change (sector_count 512) with 1. change ((Z.to_nat 1 * SECTOR)%nat) with 512%nat.
  unfold mbind, st_bind. destruct (ata_initialize s) as [[[] s1]| |]; try done. cbn [negb].
  rewrite length_take, Nat.min_l by lia. rewrite Nat.leb_refl, (proj2 (Nat.leb_le 512 _)) by lia.
  rewrite take_take. done.
Qed.

(** ** Writing *)

(** The sectors [secs] receive the data, 512 bytes each, until it runs out. *)
Fixpoint put_sectors (secs : list Z) (data : list Z) (f : Z → list Z) : Z → list Z :=
  match secs with
  | [] => f
  | k :: secs =>
      match data with
      | [] => f
      | _ => put_sectors secs (drop 512 data) (λ j, if j =? k then take 512 data else f j)
      end
  end.

Lemma put_sectors_nil secs f : put_sectors secs [] f = f.
Proof. by destruct secs. Qed.

Lemma put_sectors_ext l d f g x : (∀ j, f j = g j) → put_sectors l d f x = put_sectors l d g x.
Proof.
  revert d f g. induction l as [|a l IH]; intros d f g H; cbn [put_sectors]; [done|].
  destruct d; [done|]. apply IH. intros j. by rewrite H.
Qed.

Lemma put_sectors_app l1 l2 d f x :
  put_sectors (l1 ++ l2) d f x = put_sectors l2 (drop (512 * length l1) d) (put_sectors l1 d f) x.
Proof.
  revert d f. induction l1 as [|k l1 IH]; intros d f.
  { cbn [app length]. by rewrite Nat.mul_0_r, drop_0. }
  cbn [app length]. destruct d as [|y d].
  { by rewrite drop_nil, !put_sectors_nil. }
  cbn [put_sectors]. rewrite IH, drop_drop.
  replace (512 + 512 * length l1)%nat with (512 * S (length l1))%nat by lia. done.
Qed.

Lemma put_sectors_notin l d f x : x ∉ l → put_sectors l d f x = f x.
Proof.
  revert d f. induction l as [|k l IH]; intros d f Hx; cbn [put_sectors]; [done|].
  apply not_elem_of_cons in Hx as [Hne Hx]. destruct d; [done|]. rewrite IH by done.
  by rewrite (proj2 (Z.eqb_neq x k)).
Qed.

(** What is put is what is read. *)
Lemma put_sectors_read m secs data f :
  NoDup secs → length data = (512 * m)%nat → (m ≤ length secs)%nat →
  bytes_of (put_sectors secs data f) secs = data ++ bytes_of f (drop m secs).
Proof.
  revert m data f. induction secs as [|k secs IH]; intros m data f Hnd Hl Hm.
  { simpl in Hm. assert (data = []) as ->; [destruct data; [done|simpl in Hl; lia]|].
    by rewrite drop_nil. }
  destruct m as [|m].
  { assert (data = []) as -> by (destruct data; [done|simpl in Hl; lia]). done. }
  apply NoDup_cons in Hnd as [Hn Hnd].
  destruct data as [|y data]; [simpl in Hl; lia|]. set (d := y :: data) in *.
  change (bytes_of (put_sectors (k :: secs) d f) (k :: secs)) with
    (put_sectors secs (drop 512 d) (λ j, if j =? k then take 512 d else f j) k ++
     bytes_of (put_sectors secs (drop 512 d) (λ j, if j =? k then take 512 d else f j)) secs).
  rewrite put_sectors_notin, Z.eqb_refl by done.
  rewrite (IH m) by (done || (rewrite length_drop; lia) || (simpl in Hm; lia)).
  rewrite app_assoc, take_drop. cbn [drop]. f_equal. apply bytes_of_ext.
  intros j Hj. rewrite (proj2 (Z.eqb_neq j k)); [done|]. intros ->. apply Hn.
  rewrite <- (take_drop m secs). apply elem_of_app. by right.
Qed.

Definition whole_sectors (n : Z) : Prop := exists m : nat, n = 512 * Z.of_nat m.

Lemma write_sectors_ok k s sector i w size data :
  size = Z.of_nat (length data) →
  volume_wf s → 0 ≤ sector → 0 ≤ i → sector + i + Z.of_nat k ≤ dev_limit (m_disk s) →
  Forall is_u8 data → whole_sectors (Z.of_nat (length data)) → whole_sectors w →
  w ≤ Z.of_nat (length data) →
  exists s', write_sectors k sector i w size data s =
      Ok ((true, Z.min size (w + 512 * Z.of_nat k)), s') ∧
    disk_is s s' (put_sectors (sectors_from k (sector + i)) (at_offset data w) (contents s)).
Proof.
  intros Hsize Hs Hsec Hi Hlim Hb [m Hm] [v Hv] Hw. revert s i w v Hs Hi Hlim Hv Hw.
  induction k as [|k IH]; intros s i w v Hs Hi Hlim Hv Hw; cbn [write_sectors sectors_from].
  { replace (Z.min size (w + 512 * Z.of_nat 0)) with w by lia.
    exists s. split; [done|]. apply same_disk_refl, Hs. }
  pose proof (limit_bound s Hs). unfold at_offset. destruct (Z.leb_spec size w) as [Hfull|Hmore].
  { exists s. rewrite drop_ge, put_sectors_nil by lia. split; [|apply same_disk_refl, Hs].
    replace (Z.min size (w + 512 * Z.of_nat (S k))) with w by lia. done. }
  st. rewrite (vw_bps s Hs), u32_small by lia.
  assert (E : exists s1, diskWrite (sector + i) (at_offset data w) 512 s = Ok (true, s1) ∧
    disk_is s s1 (λ j, if j =? sector + i then take 512 (drop (Z.to_nat w) data) else contents s j)).
  { destruct (diskWrite_ok s Hs (sector + i) (take 512 (drop (Z.to_nat w) data)))
      as (s1 & E1 & H1); [lia|rewrite length_take, length_drop; lia|by apply Forall_take, Forall_drop|].
    exists s1. split; [|done]. rewrite <- E1. symmetry. apply diskWrite_take.
    unfold at_offset. rewrite length_drop. lia. }
  destruct E as (s1 & E1 & H1). rewrite (bind_run _ _ _ _ _ E1). cbn [negb].
  replace (sector + i + 1) with (sector + (i + 1)) by lia.
  destruct (IH s1 (i + 1) (w + 512) (S v)) as (s2 & E2 & H2);
    [by eapply disk_is_wf|lia|rewrite (di_limit _ _ _ H1); lia|lia|lia|].
  exists s2. split.
  { rewrite E2. by replace (w + 512 + 512 * Z.of_nat k) with (w + 512 * Z.of_nat (S k)) by lia. }
  eapply disk_is_ext; [by eapply disk_is_trans|]. intros j.
  destruct (drop (Z.to_nat w) data) as [|y r] eqn:Ed.
  { apply (f_equal length) in Ed. rewrite length_drop in Ed. simpl in Ed. lia. }
  cbn [put_sectors]. rewrite <- Ed. unfold at_offset. rewrite drop_drop.
  replace (Z.to_nat (w + 512)) with (Z.to_nat w + 512)%nat by lia.
  apply put_sectors_ext. intros x. rewrite (di_contents _ _ _ H1). by rewrite Ed.
Qed.

(** Writes above the table leave the entries. *)
Lemma disk_is_data_entries s s' f c :
  volume_wf s → disk_is s s' f → (∀ k, k < m_firstDataSector s → f k = contents s k) →
  in_table s c → fat_entry s' c = fat_entry s c.
Proof.
  intros Hs H Hf Hc. destruct (disk_is_fields _ _ _ H) as (_ & _ & E & _).
  pose proof (fat_sector_range s Hs c Hc) as (_ & ? & _).
  unfold fat_entry, fat_sector. rewrite E, (di_contents _ _ _ H). fold (fat_sector s c).
  by rewrite Hf.
Qed.

Lemma cluster_sectors_data s c k :
  volume_wf s → data_cluster s c → k < m_firstDataSector s → k ∉ cluster_sectors s c.
Proof.
  intros Hs Hc Hk Hin. pose proof (data_cluster_sectors _ _ _ Hs Hc Hin). lia.
Qed.

Lemma length_cluster_sectors s c :
  volume_wf s → Z.of_nat (length (cluster_sectors s c)) = spc s.
Proof.
  intros Hs. pose proof (vw_spc s Hs). unfold cluster_sectors. rewrite length_sectors_from. lia.
Qed.

Lemma disk_is_chain_sectors s s' f l : disk_is s s' f → chain_sectors s' l = chain_sectors s l.
Proof.
  intros H. destruct (disk_is_fields _ _ _ H) as (_ & E1 & _ & E2 & _).
  unfold chain_sectors, cluster_sectors, first_sector. by rewrite E1, E2.
Qed.

(** The disk after the cluster [c] of the chain [c :: l] is written. *)
Lemma put_cluster s s1 s2 c l data w f :
  volume_wf s → 0 ≤ w →
  disk_is s s1 (put_sectors (cluster_sectors s c) (at_offset data w) (contents s)) →
  (∀ k, f k = put_sectors (chain_sectors s l) (at_offset data (w + 512 * spc s)) (contents s1) k) →
  disk_is s1 s2 f →
  disk_is s s2 (put_sectors (chain_sectors s (c :: l)) (at_offset data w) (contents s)).
Proof.
  intros Hs Hw H1 Hf H2. eapply disk_is_ext; [by eapply disk_is_trans|]. intros k.
  rewrite chain_sectors_cons, put_sectors_app. unfold at_offset in *.
  pose proof (length_cluster_sectors s c Hs). pose proof (vw_spc s Hs).
  rewrite drop_drop.
  replace (Z.to_nat w + 512 * length (cluster_sectors s c))%nat with (Z.to_nat (w + 512 * spc s)) by lia.
  rewrite Hf. apply put_sectors_ext. intros j. apply (di_contents _ _ _ H1).
Qed.

Lemma write_chain_ok fuel s c l w size data :
  size = Z.of_nat (length data) → volume_wf s → fat_chain (fat_entry s) c l →
  data_clusters s l → (length l ≤ fuel)%nat →
  Forall is_u8 data → whole_sectors size → whole_sectors w → 0 ≤ w ≤ size →
  size - w ≤ 512 * spc s * Z.of_nat (length l) →
  exists s' l1 cur l2, l = l1 ++ cur :: l2 ∧
    write_chain fuel c w size data s = Ok (Some cur, s') ∧
    disk_is s s' (put_sectors (chain_sectors s l) (at_offset data w) (contents s)) ∧
    size - w ≤ 512 * spc s * (Z.of_nat (length l1) + 1).
Proof.
  intros Hsize. revert s c l w. induction fuel as [|fuel IH]; intros s c l w Hs Hc Hl Hf Hb Hm Hv Hw Hcap;
    destruct l as [|x l]; [done|simpl in Hf; lia|done|].
  destruct (chain_next _ _ _ _ _ Hc Hl (λ y, data_cluster_bound s y Hs)) as (-> & Hdc & Hcase).
  pose proof (vw_spc s Hs). cbn [write_chain].
  destruct (Z.leb_spec size w) as [Hfull|Hmore].
  { exists s, [], c, l. split_and!; [done|done| |nia].
    unfold at_offset. rewrite drop_ge, put_sectors_nil by lia. apply same_disk_refl, Hs. }
  st. destruct (firstSector_value s c Hs Hdc) as (-> & Hpos & Hlim).
  assert (Hm' : whole_sectors (Z.of_nat (length data))) by (by rewrite <- Hsize).
  destruct (write_sectors_ok (Z.to_nat (spc s)) s (first_sector s c) 0 w size data Hsize Hs Hpos)
    as (s1 & E1 & H1); [lia|lia|done|done|done|lia|].
  rewrite (bind_run _ _ _ _ _ E1). cbn [negb]. rewrite Z.add_0_r, Z2Nat.id in * by lia.
  fold (cluster_sectors s c) in H1. pose proof (disk_is_wf _ _ _ H1 Hs) as Hs1.
  destruct (bind_readFatEntry s1 c (λ nextCluster : Z,
      if END_OF_CHAIN <=? nextCluster then
        if Z.min size (w + 512 * spc s) <? size then
          newCluster ← allocateCluster;
          if newCluster =? 0 then mret None else
          ok ← updateFatEntry c newCluster;
          if negb ok then mret None
          else write_chain fuel newCluster (Z.min size (w + 512 * spc s)) size data
        else mret (Some c)
      else if nextCluster =? BAD_CLUSTER then mret None
      else write_chain fuel nextCluster (Z.min size (w + 512 * spc s)) size data) Hs1)
    as (s2 & -> & H2 & Hs2).
  { eapply disk_is_in_table; [exact H1|]. unfold in_table, data_cluster in *. lia. }
  assert (Hkeep : ∀ y, in_table s y → fat_entry s1 y = fat_entry s y).
  { intros y. apply (disk_is_data_entries _ _ _ _ Hs H1). intros k Hk.
    by apply put_sectors_notin, cluster_sectors_data. }
  rewrite Hkeep by (unfold in_table, data_cluster in *; lia).
  destruct Hcase as [[-> ->]|(-> & -> & Hnext & Hc' & Hl')].
  - rewrite (proj2 (Z.ltb_ge _ size)) by (simpl in Hcap; lia).
    exists s2, [], c, []. split_and!; [done|done| |simpl in *; lia].
    unfold chain_sectors. cbn. rewrite app_nil_r. by eapply disk_is_same.
  - destruct (IH s2 (fat_entry s c) l (Z.min size (w + 512 * spc s))) as
      (s3 & l1 & cur & l2 & El & E3 & H3 & Hcap3).
    1: done.
    { eapply fat_chain_ext; [|exact Hc']. intros y Hy.
      rewrite (same_disk_entry _ _ _ H2). symmetry. apply Hkeep.
      unfold data_clusters in Hl'. rewrite Forall_forall in Hl'. pose proof (Hl' y Hy).
      unfold in_table, data_cluster in *. lia. }
    { eapply same_disk_clusters; [exact H2|]. by eapply same_disk_clusters. }
    { simpl in Hf. lia. }
    1, 2: done.
    { destruct Hm as [m0 Hm0], Hv as [v0 Hv0].
      destruct (Z.min_spec size (w + 512 * spc s)) as [[_ ->]|[_ ->]]; [by exists m0|].
      exists (v0 + Z.to_nat (spc s))%nat. lia. }
    { lia. }
    { destruct (disk_is_fields _ _ _ (disk_is_trans _ _ _ _ _ H1 H2)) as (_ & -> & _).
      rewrite length_cons in Hcap. lia. }
    destruct (disk_is_fields _ _ _ (disk_is_trans _ _ _ _ _ H1 H2)) as (_ & Espc & _).
    exists s3, (c :: l1), cur, l2. rewrite El. split_and!; [done|done| |].
    + rewrite <- El. eapply (put_cluster s s1 s3 c l data w); [done|lia|exact H1| |].
      2: { eapply same_disk_trans; [exact H2|exact H3]. }
      intros k. rewrite (disk_is_chain_sectors _ _ _ _ (disk_is_trans _ _ _ _ _ H1 H2)).
      destruct (Z.min_spec size (w + 512 * spc s)) as [[Hlt ->]|[Hge ->]].
      * unfold at_offset. rewrite !drop_ge by lia. rewrite !put_sectors_nil.
        apply (di_contents _ _ _ H2).
      * apply put_sectors_ext. apply (di_contents _ _ _ H2).
    + rewrite Espc in Hcap3. rewrite length_cons. lia.
Qed.

Lemma sectors_disjoint s c1 c2 x :
  volume_wf s → data_cluster s c1 → data_cluster s c2 →
  x ∈ cluster_sectors s c1 → x ∈ cluster_sectors s c2 → c1 = c2.
Proof.
  intros Hs H1 H2 Hx1 Hx2.
  pose proof (data_cluster_sectors _ _ _ Hs H1 Hx1). pose proof (data_cluster_sectors _ _ _ Hs H2 Hx2).
  pose proof (vw_spc s Hs). nia.
Qed.

Lemma sectors_from_NoDup n k : NoDup (sectors_from n k).
Proof.
  revert k. induction n as [|n IH]; intros k; cbn [sectors_from]; [constructor|].
  constructor; [|apply IH]. rewrite elem_of_sectors_from. lia.
Qed.

Lemma chain_sectors_NoDup s l :
  volume_wf s → data_clusters s l → NoDup l → NoDup (chain_sectors s l).
Proof.
  intros Hs. induction l as [|c l IH]; intros Hl Hnd; [constructor|].
  apply Forall_cons in Hl as [Hc Hl]. apply NoDup_cons in Hnd as [Hn Hnd].
  rewrite chain_sectors_cons. apply NoDup_app. split_and!; [apply sectors_from_NoDup| |by apply IH].
  intros x Hx Hin. unfold chain_sectors in Hin.
  apply list_elem_of_In, in_concat in Hin as (secs & Hsecs & Hxs).
  apply list_elem_of_In, list_elem_of_fmap in Hsecs as (c' & -> & Hc').
  apply list_elem_of_In in Hxs. unfold data_clusters in Hl. rewrite Forall_forall in Hl.
  pose proof (sectors_disjoint _ _ _ _ Hs Hc (Hl _ Hc') Hx Hxs) as ->. done.
Qed.

Lemma length_chain_sectors s l :
  volume_wf s → Z.of_nat (length (chain_sectors s l)) = spc s * Z.of_nat (length l).
Proof.
  intros Hs. induction l as [|c l IH]; [unfold chain_sectors; simpl; lia|].
  rewrite chain_sectors_cons, length_app, Nat2Z.inj_add, IH, length_cluster_sectors by done.
  simpl length. lia.
Qed.

Lemma length_bytes_of s secs :
  volume_wf s → length (bytes_of (contents s) secs) = (512 * length secs)%nat.
Proof.
  intros Hs. unfold bytes_of. induction secs as [|k secs IH]; cbn; [done|].
  rewrite length_app, (sector_length s Hs), IH. lia.
Qed.

(** Cutting a chain at one of its clusters. *)
Lemma fat_chain_cut F c l1 x l2 :
  fat_chain F c (l1 ++ x :: l2) → fat_chain (fupd F x END_OF_CHAIN) c (l1 ++ [x]).
Proof.
  intros Hc. pose proof (fat_chain_NoDup _ _ _ Hc) as Hnd. revert c Hc Hnd.
  induction l1 as [|y l1 IH]; intros c; cbn [app].
  - intros [-> _] _. simpl. unfold fupd. by rewrite Z.eqb_refl.
  - intros [-> Hc] Hnd. apply NoDup_cons in Hnd as [Hn Hnd]. cbn [fat_chain].
    split; [done|]. unfold fupd at 1.
    rewrite (proj2 (Z.eqb_neq c x)) by (intros ->; set_solver).
    destruct (END_OF_CHAIN <=? F c); [by destruct l1|].
    assert (fupd F x END_OF_CHAIN c = F c) as ->; [|by apply IH].
    unfold fupd. by rewrite (proj2 (Z.eqb_neq c x)) by (intros ->; set_solver).
Qed.

(** Reading back the front of a chain that was written whole. *)
Lemma file_written s s1 s2 l1 cur l2 data :
  volume_wf s → volume_wf s2 → data_clusters s (l1 ++ cur :: l2) → NoDup (l1 ++ cur :: l2) →
  disk_is s s1 (put_sectors (chain_sectors s (l1 ++ cur :: l2)) (at_offset data 0) (contents s)) →
  chain_sectors s2 (l1 ++ [cur]) = chain_sectors s (l1 ++ [cur]) →
  (∀ k, m_firstDataSector s ≤ k → contents s2 k =
     put_sectors (chain_sectors s (l1 ++ cur :: l2)) (at_offset data 0) (contents s) k) →
  whole_sectors (Z.of_nat (length data)) →
  Z.of_nat (length data) ≤ 512 * spc s * Z.of_nat (length (l1 ++ cur :: l2)) →
  Z.of_nat (length data) - 0 ≤ 512 * spc s * (Z.of_nat (length l1) + 1) →
  take (length data) (file_data s2 (l1 ++ [cur])) = data.
Proof.
  intros Hs Hs2 Hl Hnd H1 Esec Hcont [m Hm] Hcap Hlen.
  unfold file_data. rewrite Esec. unfold at_offset in Hcont. cbn [Z.to_nat] in Hcont.
  rewrite drop_0 in Hcont. set (secs := chain_sectors s (l1 ++ cur :: l2)) in *.
  set (front := chain_sectors s (l1 ++ [cur])).
  assert (Hsplit : exists rest, secs = front ++ rest).
  { exists (chain_sectors s l2). unfold secs, front, chain_sectors.
    rewrite <- concat_app, <- fmap_app, <- app_assoc. done. }
  destruct Hsplit as [rest Hsplit].
  pose proof (length_chain_sectors s (l1 ++ [cur]) Hs) as Hfl. fold front in Hfl.
  pose proof (length_chain_sectors s (l1 ++ cur :: l2) Hs) as Hsl. fold secs in Hsl.
  rewrite length_app in Hfl. simpl in Hfl.
  assert (Hread : bytes_of (contents s2) secs = data ++ bytes_of (contents s) (drop m secs)).
  { rewrite <- (put_sectors_read m secs data (contents s)); [|by apply chain_sectors_NoDup|lia|lia].
    apply bytes_of_ext. intros k Hk. apply Hcont.
    unfold secs, chain_sectors in Hk. apply list_elem_of_In, in_concat in Hk as (cs & Hcs & Hx).
    apply list_elem_of_In, list_elem_of_fmap in Hcs as (c' & -> & Hc').
    apply list_elem_of_In in Hx. unfold data_clusters in Hl. rewrite Forall_forall in Hl.
    apply (data_cluster_sectors _ _ _ Hs (Hl c' Hc') Hx). }
  rewrite Hsplit, bytes_of_app in Hread.
  apply (f_equal (take (length data))) in Hread.
  rewrite take_app_length, take_app_le in Hread; [done|].
  rewrite length_bytes_of by done. nia.
Qed.

Lemma writeFile_ok fuel s c l data :
  volume_wf s → fat_chain (fat_entry s) c l → data_clusters s l → (length l ≤ fuel)%nat →
  Forall is_u8 data → whole_sectors (Z.of_nat (length data)) →
  Z.of_nat (length data) ≤ 512 * spc s * Z.of_nat (length l) →
  exists s' l', writeFile fuel c data (Z.of_nat (length data)) s = Ok (true, s') ∧
    volume_wf s' ∧ fat_chain (fat_entry s') c l' ∧ data_clusters s' l' ∧
    (length l' ≤ length l)%nat ∧ take (length data) (file_data s' l') = data.
Proof.
  intros Hs Hc Hl Hf Hb Hm Hcap. pose proof (vw_spc s Hs).
  unfold writeFile. st. rewrite (vw_bps s Hs), (proj2 (Z.eqb_neq (spc s) 0)) by lia. cbn [Z.eqb orb].
  destruct (write_chain_ok fuel s c l 0 (Z.of_nat (length data)) data) as
    (s1 & l1 & cur & l2 & -> & E1 & H1 & Hlen); try done; [by exists 0%nat|lia|lia|].
  rewrite (bind_run _ _ _ _ _ E1). pose proof (disk_is_wf _ _ _ H1 Hs) as Hs1.
  pose proof (fat_chain_NoDup _ _ _ Hc) as Hnd.
  assert (Hcur : in_table s1 cur).
  { eapply disk_is_in_table; [exact H1|]. unfold data_clusters in Hl. rewrite Forall_forall in Hl.
    pose proof (Hl cur ltac:(set_solver)). unfold in_table, data_cluster in *. lia. }
  destruct (updateFatEntry_ok s1 cur END_OF_CHAIN Hs1 Hcur) as (s2 & E2 & H2).
  exists s2, (l1 ++ [cur]). pose proof (fat_is_wf _ _ _ H2 Hs1) as Hs2.
  assert (Hsub : ∀ y, y ∈ l1 ++ [cur] → y ∈ l1 ++ cur :: l2) by set_solver.
  assert (Hin : ∀ y, y ∈ l1 ++ cur :: l2 → in_table s y).
  { intros y Hy. unfold data_clusters in Hl. rewrite Forall_forall in Hl. pose proof (Hl y Hy).
    unfold in_table, data_cluster in *. lia. }
  split_and!; [exact E2|done| | |rewrite !length_app; simpl; lia|].
  - eapply fat_chain_ext; [|by eapply fat_chain_cut]. intros y Hy. symmetry.
    rewrite (fat_is_entries _ _ _ y H2).
    + unfold fupd. change (Z.land END_OF_CHAIN ENTRY_MASK) with END_OF_CHAIN.
      destruct (y =? cur); [done|]. eapply disk_is_data_entries; [exact Hs|exact H1| |by apply Hin, Hsub].
      intros k Hk. apply put_sectors_notin. unfold chain_sectors. intros Hin'.
      apply list_elem_of_In, in_concat in Hin' as (secs & Hsecs & Hxs).
      apply list_elem_of_In, list_elem_of_fmap in Hsecs as (c' & -> & Hc').
      apply list_elem_of_In in Hxs. unfold data_clusters in Hl. rewrite Forall_forall in Hl.
      by apply (cluster_sectors_data s c' k Hs (Hl c' Hc') Hk).
    + eapply disk_is_in_table; [exact H1|]. by apply Hin, Hsub.
  - eapply same_disk_clusters; [apply H2|]. eapply same_disk_clusters; [exact H1|].
    unfold data_clusters in *. rewrite Forall_forall in Hl |- *. intros y Hy. by apply Hl, Hsub.
  - apply (file_written s s1 s2 l1 cur l2 data); try done.
    { rewrite (disk_is_chain_sectors _ _ _ _ (fi_disk _ _ _ H2)).
      apply (disk_is_chain_sectors _ _ _ _ H1). }
    intros k Hk. rewrite (fi_data _ _ _ H2); [apply (di_contents _ _ _ H1)|].
    by destruct (disk_is_fields _ _ _ H1) as (_ & _ & _ & -> & _).
Qed.

(** ** Properties *)

(** [readFile] terminates on a chain that ends and fills the caller's
    buffer with the front of the chain's data, in cluster order; when the chain
    is shorter the rest of the buffer is untouched.  The disk is as it was. *)
Theorem readFile_spec fuel s c l b :
  volume_wf s → fat_chain (fat_entry s) c l → data_clusters s l → (length l ≤ fuel)%nat →
  exists s', readFile fuel c b (Z.of_nat (length b)) s =
      Ok (take (Nat.min (length b) (length (file_data s l))) (file_data s l) ++
          drop (Nat.min (length b) (length (file_data s l))) b, s') ∧ same_disk s s'.
Proof.
  intros Hs Hc Hl Hf. destruct (readFile_ok fuel s c l b Hs Hc Hl Hf) as (s' & E & H).
  exists s'. split; [|done]. rewrite E. unfold overlay. by rewrite Nat2Z.id.
Qed.

Lemma write_read_ok fuel s c l data b :
  volume_wf s → fat_chain (fat_entry s) c l → data_clusters s l → (length l ≤ fuel)%nat →
  Forall is_u8 data → whole_sectors (Z.of_nat (length data)) →
  Z.of_nat (length data) ≤ 512 * spc s * Z.of_nat (length l) → length b = length data →
  exists s1 s2, writeFile fuel c data (Z.of_nat (length data)) s = Ok (true, s1) ∧
    readFile fuel c b (Z.of_nat (length b)) s1 = Ok (data, s2).
Proof.
  intros Hs Hc Hl Hf Hb Hm Hcap Hlen.
  destruct (writeFile_ok fuel s c l data Hs Hc Hl Hf Hb Hm Hcap)
    as (s1 & l' & E1 & Hs1 & Hc1 & Hl1 & Hf1 & Hread).
  destruct (readFile_ok fuel s1 c l' b Hs1 Hc1 Hl1) as (s2 & E2 & _); [lia|].
  exists s1, s2. split; [done|]. rewrite E2. f_equal. f_equal.
  assert (length data ≤ length (file_data s1 l'))%nat.
  { rewrite <- Hread at 1. rewrite length_take. lia. }
  unfold overlay. rewrite Nat2Z.id, Nat.min_l, Hlen, Hread, drop_ge, app_nil_r by lia. done.
Qed.

(** [C4] Round trip: data of whole sectors that fits the chain is written,
    and reading the file back gives exactly the data. *)
Theorem write_read_file fuel s c l data b :
  volume_wf s → fat_chain (fat_entry s) c l → data_clusters s l → (length l ≤ fuel)%nat →
  Forall is_u8 data → whole_sectors (Z.of_nat (length data)) →
  Z.of_nat (length data) ≤ 512 * spc s * Z.of_nat (length l) → length b = length data →
  exists s1 s2, writeFile fuel c data (Z.of_nat (length data)) s = Ok (true, s1) ∧
    readFile fuel c b (Z.of_nat (length b)) s1 = Ok (data, s2).
Proof. exact (write_read_ok fuel s c l data b). Qed.

(** The writer reads whole sectors: data shorter than a sector makes
    [writeFile] read past the end of the caller's buffer. *)
Theorem writeFile_overreads fuel s c data :
  volume_wf s → 0 < Z.of_nat (length data) < 512 →
  writeFile (S fuel) c data (Z.of_nat (length data)) s = UB.
Proof.
  intros Hs Hd. pose proof (vw_spc s Hs).
  unfold writeFile. st. rewrite (vw_bps s Hs), (proj2 (Z.eqb_neq (spc s) 0)) by lia.
  cbn [Z.eqb orb]. apply bind_UB. cbn [write_chain].
  rewrite (proj2 (Z.leb_gt (Z.of_nat (length data)) 0)) by lia. st.
  assert (Hw : ∀ k sector, write_sectors (S k) sector 0 0 (Z.of_nat (length data)) data s = UB).
  { intros k sector. cbn [write_sectors].
    rewrite (proj2 (Z.leb_gt (Z.of_nat (length data)) 0)) by lia. st. rewrite (vw_bps s Hs).
    unfold diskWrite. cbn [Z.eqb]. unfold at_offset. cbn [Z.to_nat]. rewrite drop_0.
    change (sector_count 512) with 1. change ((Z.to_nat 1 * SECTOR)%nat) with 512%nat.
    rewrite (proj2 (Nat.leb_gt 512 (length data))) by lia.
    unfold mbind, st_bind.
    destruct (dev_initialize_law (m_disk s) (vw_ready s Hs)) as (d & E & _).
    unfold ata_initialize. by rewrite E. }
  replace (Z.to_nat (spc s)) with (S (Z.to_nat (spc s) - 1)) by lia.
  apply bind_UB, Hw.
Qed.
End file.

(** ** Witnesses *)

Lemma vol0_clusters : data_clusters vol0 [2; 3].
Proof. repeat (constructor; [unfold data_cluster; simpl; lia|]). constructor. Qed.

Lemma readFile_spec_witness :
  exists s', readFile 2 2 (replicate 700 9) (Z.of_nat (length (replicate 700 9))) vol0 =
    Ok (take (Nat.min (length (replicate 700 9)) (length (file_data vol0 [2; 3])))
          (file_data vol0 [2; 3]) ++
        drop (Nat.min (length (replicate 700 9)) (length (file_data vol0 [2; 3])))
          (replicate 700 9), s') ∧ same_disk vol0 s'.
Proof.
  exact (readFile_spec 2 vol0 2 [2; 3] (replicate 700 9) vol0_wf vol0_chain vol0_clusters
    (le_n 2)).
Defined.

Lemma write_read_file_witness :
  exists s1 s2, writeFile 2 2 (replicate 1024 7) (Z.of_nat (length (replicate 1024 7))) vol0 =
      Ok (true, s1) ∧
    readFile 2 2 (replicate 1024 9) (Z.of_nat (length (replicate 1024 9))) s1 =
      Ok (replicate 1024 7, s2).
Proof.
  apply (write_read_file 2 vol0 2 [2; 3] (replicate 1024 7) (replicate 1024 9)
    vol0_wf vol0_chain vol0_clusters (le_n 2)).
  - apply Forall_replicate. unfold is_u8. lia.
  - rewrite length_replicate. exists 2%nat. lia.
  - rewrite length_replicate. change (spc vol0) with 1. simpl length. lia.
  - by rewrite !length_replicate.
Defined.

Lemma writeFile_overreads_witness :
  writeFile 1 2 [104; 105] (Z.of_nat (length [104; 105])) vol0 = UB.
Proof. apply (writeFile_overreads 0 vol0 2 [104; 105] vol0_wf). simpl. lia. Defined.
