(* ===== verification/Fat32Dir.v ===== *)
(** * Proofs for Fat32.v: directories

    A directory is searched by short name.  [short_name] is the name an entry's
    eleven bytes stand for, [dir_lookup] the first visible entry of that name
    along the directory's sectors, as the walks of the code see it: each sector
    is read up to its first entry with a zero byte.  The walks that look for a
    name are shown to stop at [dir_lookup]. *)

From S2P Require Import Prelude CStr Disk Fat32 Fat32Fat Fat32File.

(** ** Names *)

(** A list without its trailing spaces. *)
Fixpoint rtrim (l : list Z) : list Z :=
  match l with
  | [] => []
  | c :: l =>
      match rtrim l with
      | [] => if c =? space then [] else [c]
      | l' => c :: l'
      end
  end.

Fixpoint until0 (l : list Z) : list Z :=
  match l with [] => [] | c :: l => if c =? 0 then [] else c :: until0 l end.

Definition short_name (entry : list Z) : list Z := until0 (rtrim (take 11 entry)).

Lemma rtrim_snoc l c : rtrim (l ++ [c]) = if c =? space then rtrim l else l ++ [c].
Proof.
  induction l as [|x l IH]; cbn; [done|]. rewrite IH.
  destruct (c =? space); [done|]. by destruct l.
Qed.

Lemma length_rtrim l : (length (rtrim l) ≤ length l)%nat.
Proof.
  induction l as [|c l IH]; cbn; [lia|]. destruct (rtrim l); cbn in *; [destruct (c =? space); cbn|]; lia.
Qed.

Lemma length_until0 l : (length (until0 l) ≤ length l)%nat.
Proof. induction l as [|c l IH]; cbn; [lia|]. destruct (c =? 0); cbn; lia. Qed.

Lemma length_short_name e : (length (short_name e) ≤ 11)%nat.
Proof.
  unfold short_name. pose proof (length_until0 (rtrim (take 11 e))).
  pose proof (length_rtrim (take 11 e)). rewrite length_take in *. lia.
Qed.

Lemma until0_cstr l r : cstr (l ++ 0 :: r) (until0 l).
Proof.
  unfold cstr. induction l as [|c l IH]; cbn.
  - split; [constructor|by exists r].
  - destruct (Z.eqb_spec c 0) as [->|Hc].
    + split; [constructor|]. eexists. done.
    + destruct IH as [Hs [r' E]]. split; [by constructor|]. exists r'. simpl. by rewrite E.
Qed.

Lemma trim_spaces_ok k name :
  (k ≤ length name)%nat →
  trim_spaces k name =
  Ok (rtrim (take k name) ++ replicate (k - length (rtrim (take k name))) 0 ++ drop k name).
Proof.
  revert name. induction k as [|k IH]; intros name Hk; cbn [trim_spaces]; [done|].
  destruct (lookup_lt_is_Some_2 name k) as [c Hc]; [lia|].
  rewrite (aget_lookup _ _ _ Hc), bind_Ok, (take_S_r _ _ _ Hc), rtrim_snoc.
  destruct (Z.eqb_spec c space) as [->|Hne].
  - rewrite aset_Ok by lia. rewrite bind_Ok, IH by (rewrite length_insert; lia).
    rewrite Nat2Z.id, take_insert_ge by lia. do 2 f_equal.
    pose proof (length_rtrim (take k name)). rewrite length_take in H.
    replace (S k - length (rtrim (take k name)))%nat
      with (S (k - length (rtrim (take k name)))) by lia.
    rewrite replicate_S_end, <- app_assoc. f_equal. cbn [app].
    rewrite (drop_S (<[k:=0]> name) 0 k) by (apply list_lookup_insert_eq; lia). f_equal.
    apply drop_insert_lt. lia.
  - f_equal. rewrite length_app, length_take. cbn [length].
    replace (S k - (k `min` length name + 1))%nat with 0%nat by lia.
    cbn [replicate app]. rewrite <- app_assoc. cbn [app].
    rewrite <- (drop_S _ _ _ Hc). by rewrite take_drop.
Qed.

Lemma entry_name_ok e :
  (11 ≤ length e)%nat → exists n, entry_name e = Ok n ∧ cstr n (short_name e).
Proof.
  intros He. unfold entry_name. rewrite memcpy_ok by (rewrite ?length_replicate; lia).
  rewrite bind_Ok. cbn [drop replicate]. rewrite trim_spaces_ok.
  - eexists. split; [done|].
    assert (Htk : take 11 (take 11 e ++ [0; 0]) = take 11 e).
    { rewrite take_app_le by (rewrite length_take; lia). rewrite take_take. done. }
    rewrite Htk. unfold short_name. rewrite drop_app_ge by (rewrite length_take; lia).
    rewrite length_take. replace (11 - 11 `min` length e)%nat with 0%nat by lia. cbn [drop].
    destruct (11 - length (rtrim (take 11 e)))%nat as [|m]; cbn [replicate app]; apply until0_cstr.
  - rewrite length_app, length_take. cbn [length]. lia.
Qed.

(** ** Searching *)

(** The abstract view of the entry at [j]. *)
Definition kind_of (data : list Z) (j : Z) : entry_kind :=
  if nthz data j =? 0 then EndMark
  else if nthz data j =? DELETED then Skipped
  else if nthz data (j + 11) =? ATTR_LFN then Skipped
  else Named (short_name (at_offset data j)).

Lemma kind_of_named data j nm : kind_of data j = Named nm → nm = short_name (at_offset data j).
Proof.
  unfold kind_of. destruct (_ =? 0); [done|]. destruct (_ =? DELETED); [done|].
  destruct (_ =? ATTR_LFN); [done|]. congruence.
Qed.

Lemma classify_ok data j :
  0 ≤ j → j + 32 ≤ Z.of_nat (length data) →
  match kind_of data j with
  | Named nm => exists n, classify data j = Ok (Named n) ∧ cstr n nm
  | k => classify data j = Ok k
  end.
Proof.
  intros Hj Hl. unfold kind_of, classify. rewrite !aget_nthz_ok by lia.
  cbn [mbind outcome_bind].
  destruct (_ =? 0); [done|]. destruct (_ =? DELETED); [done|]. destruct (_ =? ATTR_LFN); [done|].
  destruct (entry_name_ok (at_offset data j)) as (n & -> & Hn).
  { unfold at_offset. rewrite length_drop. lia. }
  exists n. done.
Qed.

(** The first entry called [name] among [n] from [j], before the end mark. *)
Fixpoint find_in_sector (n : nat) (j : Z) (data name : list Z) : option Z :=
  match n with
  | O => None
  | S n' =>
      match kind_of data j with
      | EndMark => None
      | Skipped => find_in_sector n' (j + 32) data name
      | Named nm => if decide (nm = name) then Some j else find_in_sector n' (j + 32) data name
      end
  end.

Definition sector_lookup (data name : list Z) : option Z := find_in_sector 16 0 data name.
Arguments sector_lookup : simpl never.

(** The sector and the offset of the first entry called [name]. *)
Fixpoint find_in_sectors (f : Z → list Z) (secs : list Z) (name : list Z) : option (Z * Z) :=
  match secs with
  | [] => None
  | k :: secs =>
      match sector_lookup (f k) name with
      | Some j => Some (k, j)
      | None => find_in_sectors f secs name
      end
  end.

Lemma find_in_sectors_app f l1 l2 name :
  find_in_sectors f (l1 ++ l2) name =
  match find_in_sectors f l1 name with Some r => Some r | None => find_in_sectors f l2 name end.
Proof. induction l1 as [|k l1 IH]; cbn; [done|]. destruct (sector_lookup (f k) name); [done|]. apply IH. Qed.

Lemma find_in_sectors_ext f g secs name :
  (∀ k, k ∈ secs → f k = g k) → find_in_sectors f secs name = find_in_sectors g secs name.
Proof.
  induction secs as [|k secs IH]; cbn; intros H; [done|].
  rewrite (H k) by apply list_elem_of_here. rewrite IH; [done|].
  intros x Hx. apply H. by apply list_elem_of_further.
Qed.

Lemma find_in_sector_range n j data name r :
  find_in_sector n j data name = Some r → j ≤ r ≤ j + 32 * (Z.of_nat n - 1) ∧ (32 | r - j).
Proof.
  revert j. induction n as [|n IH]; intros j; cbn [find_in_sector]; [done|].
  assert (Hr : find_in_sector n (j + 32) data name = Some r →
    j ≤ r ≤ j + 32 * (Z.of_nat (S n) - 1) ∧ (32 | r - j)).
  { intros H. destruct (IH _ H) as [? [q Hq]]. split; [lia|]. exists (q + 1). lia. }
  destruct (kind_of data j); [done|by apply Hr|]. destruct (decide _); [|by apply Hr].
  intros [= <-]. split; [lia|]. exists 0. lia.
Qed.

Lemma sector_lookup_range data name j :
  sector_lookup data name = Some j → 0 ≤ j ∧ j + 32 ≤ 512 ∧ (32 | j).
Proof.
  intros H. destruct (find_in_sector_range _ _ _ _ _ H) as [? [q Hq]].
  split_and!; [lia|lia|]. exists q. lia.
Qed.

(** A name of more than eleven characters is the short name of no entry. *)
Lemma find_in_sectors_long f secs name :
  (11 < length name)%nat → find_in_sectors f secs name = None.
Proof.
  intros Hn. assert (Hs : ∀ n j data, find_in_sector n j data name = None).
  { induction n as [|n IH]; intros j data; cbn [find_in_sector]; [done|].
    destruct (kind_of data j) eqn:E; [done|apply IH|].
    destruct (decide (_ = name)) as [->|]; [|apply IH]. apply kind_of_named in E.
    pose proof (length_short_name (at_offset data j)) as Hl. rewrite <- E in Hl. lia. }
  induction secs as [|k secs IH]; cbn; [done|]. unfold sector_lookup. by rewrite Hs.
Qed.

(** ** Unused entries *)

(** The offset of the first unused entry among [n] from [j]. *)
Fixpoint free_in (n : nat) (j : Z) (data : list Z) : option Z :=
  match n with
  | O => None
  | S n' =>
      if (nthz data j =? 0) || (nthz data j =? DELETED) then Some j else free_in n' (j + 32) data
  end.
Arguments free_in : simpl never.

(** The same over sectors; the code does not return which sector it was. *)
Fixpoint free_slot (f : Z → list Z) (secs : list Z) : option Z :=
  match secs with
  | [] => None
  | k :: secs => match free_in 16 0 (f k) with Some j => Some j | None => free_slot f secs end
  end.

Lemma free_in_S n j data :
  free_in (S n) j data =
  if (nthz data j =? 0) || (nthz data j =? DELETED) then Some j else free_in n (j + 32) data.
Proof. done. Qed.

Lemma free_in_range n j data r :
  free_in n j data = Some r → j ≤ r ∧ r + 32 ≤ j + 32 * Z.of_nat n.
Proof.
  revert j. induction n as [|n IH]; intros j; [done|]. rewrite free_in_S.
  destruct (_ || _); [intros [= <-]; lia|]. intros H%IH. lia.
Qed.

Lemma free_slot_range f secs r : free_slot f secs = Some r → 0 ≤ r ∧ r + 32 ≤ 512.
Proof.
  induction secs as [|k secs IH]; cbn; [done|].
  destruct (free_in 16 0 (f k)) eqn:E; [|done]. intros [= <-].
  pose proof (free_in_range _ _ _ _ E). lia.
Qed.

Lemma free_slot_ext f g secs :
  (∀ k, k ∈ secs → f k = g k) → free_slot f secs = free_slot g secs.
Proof.
  induction secs as [|k secs IH]; cbn; intros H; [done|].
  rewrite (H k) by apply list_elem_of_here. rewrite IH; [done|].
  intros x Hx. apply H. by apply list_elem_of_further.
Qed.

Lemma free_in_aligned n i data r :
  free_in n i data = Some r → exists m : nat, r = i + 32 * Z.of_nat m ∧ (m < n)%nat.
Proof.
  revert i. induction n as [|n IH]; intros i; [done|]. rewrite free_in_S.
  destruct (_ || _); [intros [= <-]; exists 0%nat; lia|].
  intros (m & -> & ?)%IH. exists (S m). lia.
Qed.

Lemma free_slot_aligned f secs r :
  free_slot f secs = Some r → exists m : nat, r = 32 * Z.of_nat m ∧ (m < 16)%nat.
Proof.
  induction secs as [|k secs IH]; cbn; [done|].
  destruct (free_in 16 0 (f k)) eqn:E; [|done]. intros [= <-].
  apply (free_in_aligned _ _ _ _ E).
Qed.

(** In a full sector no entry is an end mark. *)
Lemma free_in_none n i data m :
  free_in n i data = None → (m < n)%nat → kind_of data (i + 32 * Z.of_nat m) ≠ EndMark.
Proof.
  revert i m. induction n as [|n IH]; intros i m; [lia|]. rewrite free_in_S.
  destruct ((nthz data i =? 0) || (nthz data i =? DELETED)) eqn:E; [done|].
  apply orb_false_iff in E as [E0 E5]. intros Hf Hm. destruct m as [|m].
  - rewrite Z.mul_0_r, Z.add_0_r. unfold kind_of. rewrite E0, E5. by destruct (_ =? ATTR_LFN).
  - replace (i + 32 * Z.of_nat (S m)) with (i + 32 + 32 * Z.of_nat m) by lia.
    apply IH; [done|lia].
Qed.

(** ** Entries that agree byte for byte *)

Lemma lookup_nthz (l : list Z) (k : nat) : (k < length l)%nat → l !! k = Some (nthz l (Z.of_nat k)).
Proof.
  intros Hk. destruct (lookup_lt_is_Some_2 l k Hk) as [x Hx]. by rewrite (nthz_lookup _ _ _ Hx).
Qed.

Lemma take_offset_ext data data' i :
  0 ≤ i → i + 11 ≤ Z.of_nat (length data) → length data' = length data →
  (∀ x, i ≤ x < i + 11 → nthz data' x = nthz data x) →
  take 11 (at_offset data' i) = take 11 (at_offset data i).
Proof.
  intros Hi Hl Hl' H. unfold at_offset. apply list_eq. intros k.
  destruct (decide (k < 11)%nat) as [Hk|Hk].
  - rewrite !lookup_take_lt, !lookup_drop by lia. rewrite !lookup_nthz by lia. f_equal.
    apply H. lia.
  - by rewrite !lookup_take_ge by lia.
Qed.

Lemma kind_of_ext data data' i :
  0 ≤ i → i + 12 ≤ Z.of_nat (length data) → length data' = length data →
  (∀ x, i ≤ x < i + 12 → nthz data' x = nthz data x) → kind_of data' i = kind_of data i.
Proof.
  intros Hi Hl Hl' H. unfold kind_of, short_name.
  rewrite (H i), (H (i + 11)) by lia.
  rewrite (take_offset_ext data data'); [done|lia|lia|done|]. intros. apply H. lia.
Qed.

(** A search that failed succeeds once the first unused entry gets the name. *)
Lemma find_in_sector_put n i data data' j name :
  0 ≤ i → i + 32 * Z.of_nat n ≤ Z.of_nat (length data) → length data' = length data →
  free_in n i data = Some j → find_in_sector n i data name = None →
  (∀ x, i ≤ x < j → nthz data' x = nthz data x) → kind_of data' j = Named name →
  find_in_sector n i data' name = Some j.
Proof.
  revert i. induction n as [|n IH]; intros i Hi Hl Hl'; [done|].
  rewrite free_in_S. cbn [find_in_sector].
  destruct ((nthz data i =? 0) || (nthz data i =? DELETED)) eqn:Efree.
  - intros [= <-] _ _ ->. by rewrite decide_True.
  - intros Hfree Hfind Heq Hj. pose proof (free_in_range _ _ _ _ Hfree).
    rewrite (kind_of_ext data data') by (lia || done || (intros; apply Heq; lia)).
    apply orb_false_iff in Efree as [E0 E5].
    assert (Hrest : find_in_sector n (i + 32) data name = None →
      find_in_sector n (i + 32) data' name = Some j).
    { intros Hf. apply IH; [lia|lia|done|done|done| |done]. intros. apply Heq. lia. }
    assert (Hk : kind_of data i ≠ EndMark).
    { unfold kind_of. rewrite E0, E5. by destruct (_ =? ATTR_LFN). }
    destruct (kind_of data i); [done|by apply Hrest|].
    destruct (decide (name0 = name)); [done|by apply Hrest].
Qed.

Definition dir_fields (data : list Z) (j : Z) : Z * Z * Z :=
  (nthz data (j + 26) + nthz data (j + 27) * 2 ^ 8,
   nthz data (j + 28) + nthz data (j + 29) * 2 ^ 8 + nthz data (j + 30) * 2 ^ 16 +
     nthz data (j + 31) * 2 ^ 24,
   nthz data (j + 11)).

(** ** The stored bytes *)

Lemma length_entry_bytes sn a fc sz : length sn = 12%nat → length (entry_bytes sn a fc sz) = 32%nat.
Proof. intros H. unfold entry_bytes. rewrite length_app, length_take, H. done. Qed.

Lemma entry_bytes_u8 sn a fc sz : Forall is_u8 sn → is_u8 a → Forall is_u8 (entry_bytes sn a fc sz).
Proof.
  intros Hsn Ha. unfold entry_bytes. rewrite !Forall_app. split_and!.
  - by apply Forall_take.
  - by constructor.
  - apply Forall_replicate. unfold is_u8. lia.
  - assert (H : ∀ x, is_u8 (Z.land x 0xFF)).
    { intros x. change 0xFF with (Z.ones 8). rewrite Z.land_ones by lia. apply u8_range. }
    repeat constructor; apply H.
  - apply u8_bytes.
Qed.

Lemma padded_u8 n name : Forall is_u8 name → Forall is_u8 (padded n name).
Proof.
  intros. unfold padded. apply Forall_take, Forall_app. split; [done|].
  apply Forall_replicate. unfold is_u8. lia.
Qed.

(** ** Names that survive being stored *)

Record good_name (name : list Z) : Prop := {
  gn_chars : chars name;
  gn_bytes : Forall is_u8 name;
  gn_length : (0 < length name ≤ 11)%nat;
  gn_head : head name ≠ Some DELETED;
  gn_last : last name ≠ Some space
}.

Lemma rtrim_last l c : c ≠ space → rtrim (l ++ [c]) = l ++ [c].
Proof. intros. rewrite rtrim_snoc. by rewrite (proj2 (Z.eqb_neq c space)). Qed.

Lemma until0_app_zeros l n : chars l → until0 (l ++ replicate n 0) = l.
Proof.
  induction l as [|c l IH]; intros Hl; cbn; [by destruct n|].
  apply chars_cons in Hl as [Hc Hl]. rewrite (proj2 (Z.eqb_neq c 0)), IH by done. done.
Qed.

Lemma short_name_padded name rest :
  good_name name → short_name (padded 11 name ++ rest) = name.
Proof.
  intros [Hc _ [Hl0 Hl] _ Hlast]. unfold short_name.
  rewrite take_app_le by (rewrite length_padded; done).
  rewrite take_ge by (rewrite length_padded; done). rewrite padded_short by lia.
  destruct (11 - length name)%nat as [|m] eqn:E.
  - cbn [replicate]. rewrite app_nil_r.
    destruct (exists_last (l := name)) as (l & c & ->); [by intros ->|].
    rewrite last_snoc in Hlast. rewrite rtrim_last by congruence.
    rewrite <- (app_nil_r (l ++ [c])) at 1. by apply (until0_app_zeros (l ++ [c]) 0).
  - rewrite replicate_S_end, app_assoc, rtrim_last by done.
    rewrite <- app_assoc, <- replicate_S_end. by apply until0_app_zeros.
Qed.

Definition low16 (x : Z) : Z := x `mod` 2 ^ 16.

Lemma low16_bytes fc : Z.land fc 0xFF + Z.land (Z.shiftr fc 8) 0xFF * 2 ^ 8 = low16 fc.
Proof.
  change 0xFF with (Z.ones 8). rewrite !Z.land_ones, Z.shiftr_div_pow2 by lia. unfold low16.
  change (2 ^ 16) with (2 ^ 8 * 2 ^ 8). rewrite Z.rem_mul_r by lia. lia.
Qed.

(** What the stored entry says. *)
Lemma put_entry data data' j name attr fc size :
  length data = 512%nat → good_name name → 0 ≤ attr → attr ≠ ATTR_LFN → 0 ≤ size < 2 ^ 32 →
  put data j (entry_bytes (padded 11 name ++ [0]) attr fc size) = Ok data' →
  kind_of data' j = Named name ∧ dir_fields data' j = (low16 fc, size, attr) ∧
  (∀ x, 0 ≤ x < j → nthz data' x = nthz data x).
Proof.
  intros Hlen Hname Ha Hlfn Hsz Hp. pose proof (put_inv _ _ _ _ Hp) as (Hj & Hj2 & Hd').
  set (e := entry_bytes (padded 11 name ++ [0]) attr fc size) in *.
  assert (He : length e = 32%nat).
  { apply length_entry_bytes. rewrite length_app, length_padded. done. }
  rewrite He in Hj2.
  assert (Hn : ∀ k, 0 ≤ k < 32 → nthz data' (j + k) = nthz e k).
  { intros k Hk. rewrite (nthz_put _ _ _ _ _ Hp) by lia. rewrite He.
    assert ((j <=? j + k) && (j + k <? j + Z.of_nat 32) = true) as -> by lia. f_equal. lia. }
  assert (Het : e = padded 11 name ++ [attr] ++ replicate 14 0 ++
      [Z.land fc 0xFF; Z.land (Z.shiftr fc 8) 0xFF] ++ bytes32 size).
  { unfold e, entry_bytes. rewrite take_app_le by (rewrite length_padded; done).
    by rewrite take_ge by (rewrite length_padded; done). }
  assert (Hk : ∀ k, 11 ≤ k < 32 → nthz e k = nthz ([attr] ++ replicate 14 0 ++
      [Z.land fc 0xFF; Z.land (Z.shiftr fc 8) 0xFF] ++ bytes32 size) (k - 11)).
  { intros k Hk. unfold nthz. rewrite (proj2 (Z.leb_le 0 k)), (proj2 (Z.leb_le 0 (k - 11))) by lia.
    rewrite Het, lookup_app_r by (rewrite length_padded; lia). rewrite length_padded.
    do 2 f_equal. lia. }
  split_and!.
  - unfold kind_of.
    destruct name as [|c name]; [by destruct Hname as [_ _ [] _ _]; simpl in *; lia|].
    assert (nthz data' j = c) as ->.
    { rewrite <- (Z.add_0_r j), (Hn 0) by lia. by rewrite Het. }
    rewrite (Hn 11), (Hk 11) by lia. change (nthz _ (11 - 11)) with attr.
    pose proof (gn_chars _ Hname) as [Hc0 _]%chars_cons.
    pose proof (gn_head _ Hname) as Hhd. cbn in Hhd.
    rewrite (proj2 (Z.eqb_neq c 0)), (proj2 (Z.eqb_neq c DELETED)),
      (proj2 (Z.eqb_neq attr ATTR_LFN)) by congruence. f_equal.
    unfold at_offset. rewrite Hd', drop_app_ge by (rewrite length_take; lia).
    rewrite length_take. replace (Z.to_nat j - Z.to_nat j `min` length data)%nat with 0%nat by lia.
    rewrite drop_0, Het, <- app_assoc. by apply short_name_padded.
  - unfold dir_fields. rewrite !Hn, !Hk by lia.
    change (nthz _ (26 - 11)) with (Z.land fc 0xFF).
    change (nthz _ (27 - 11)) with (Z.land (Z.shiftr fc 8) 0xFF).
    change (nthz _ (28 - 11)) with (nthz (bytes32 size) 0).
    change (nthz _ (29 - 11)) with (nthz (bytes32 size) (0 + 1)).
    change (nthz _ (30 - 11)) with (nthz (bytes32 size) (0 + 2)).
    change (nthz _ (31 - 11)) with (nthz (bytes32 size) (0 + 3)).
    change (nthz _ (11 - 11)) with attr. fold (le32 (bytes32 size) 0).
    by rewrite low16_bytes, le32_bytes32.
  - intros x Hx. rewrite (nthz_put _ _ _ _ _ Hp) by lia.
    by rewrite (proj2 (Z.leb_gt j x)) by lia.
Qed.

Section dir.
Context {D : Type} {HD : BlockDevice D} {HL : DeviceLaws D}.
Implicit Types s : CFat32FileSystem D.
#[local] Abbreviation FS := (ST (CFat32FileSystem D)).

Definition dir_lookup s (l : list Z) (name : list Z) : option (Z * Z) :=
  find_in_sectors (contents s) (chain_sectors s l) name.

(** The walk over one sector stops at the first entry called [name]. *)
Lemma scan_entries_match {A} s n sector j data buf name (act : entry_body A) :
  cstr buf name → 0 ≤ j → j + 32 * Z.of_nat n ≤ Z.of_nat (length data) →
  scan_entries n (on_match buf act) sector j data s =
  match find_in_sector n j data name with
  | None => Ok (None, s)
  | Some i =>
      match act sector i data s with
      | Ok ((Return a, _), s') => Ok (Some a, s')
      | Ok ((Break, _), s') => Ok (None, s')
      | Ok ((Next, d), s') =>
          scan_entries (n - Z.to_nat ((i - j) / 32) - 1) (on_match buf act) sector (i + 32) d s'
      | UB => UB
      | OutOfFuel => OutOfFuel
      end
  end.
Proof.
  intros [Hch [r ->]]. revert j. induction n as [|n IH]; intros j Hj Hl;
    cbn [scan_entries find_in_sector]; [done|].
  pose proof (classify_ok data j Hj ltac:(lia)) as Hk.
  assert (Hstep : ∀ k (f : flow A * list Z → FS (option A)), classify data j = Ok k →
    (on_match (name ++ 0 :: r) act sector j data ≫= f) s =
    ((match k with
      | EndMark => mret (Break, data)
      | Skipped => mret (Next, data)
      | Named n => z ← lift (strcmp n (name ++ 0 :: r));
                   if z =? 0 then act sector j data else mret (Next, data)
      end : FS (flow A * list Z)) ≫= f) s).
  { intros k f E. unfold on_match, mbind, st_bind, lift. by rewrite E. }
  assert (Hrec : (32 | j - j) → ∀ i, find_in_sector n (j + 32) data name = Some i →
    (S n - Z.to_nat ((i - j) / 32) - 1)%nat = (n - Z.to_nat ((i - (j + 32)) / 32) - 1)%nat).
  { intros _ i Hi. destruct (find_in_sector_range _ _ _ _ _ Hi) as [? [q Hq]].
    replace (i - j) with ((q + 1) * 32) by lia. rewrite Hq, !Z.div_mul by lia. lia. }
  specialize (Hrec ltac:(exists 0; lia)).
  assert (Hnext : scan_entries n (on_match (name ++ 0 :: r) act) sector (j + 32) data s =
    match find_in_sector n (j + 32) data name with
    | None => Ok (None, s)
    | Some i =>
        match act sector i data s with
        | Ok ((Return a, _), s') => Ok (Some a, s')
        | Ok ((Break, _), s') => Ok (None, s')
        | Ok ((Next, d), s') =>
            scan_entries (S n - Z.to_nat ((i - j) / 32) - 1)
              (on_match (name ++ 0 :: r) act) sector (i + 32) d s'
        | UB => UB
        | OutOfFuel => OutOfFuel
        end
    end).
  { rewrite IH by lia. destruct (find_in_sector n (j + 32) data name) eqn:E; [|done].
    by rewrite (Hrec _ eq_refl). }
  destruct (kind_of data j) as [| |nm].
  - by rewrite (Hstep _ _ Hk).
  - rewrite (Hstep _ _ Hk). exact Hnext.
  - destruct Hk as (nb & Ek & Hnch & [r' ->]). rewrite (Hstep _ _ Ek).
    destruct (strcmp_eqb nm r' name r Hnch Hch) as (z & Ez & Hz).
    unfold lift, mbind, st_bind. rewrite Ez. cbn [outcome_bind mbind]. rewrite Hz.
    destruct (decide (nm = name)) as [->|Hne].
    + rewrite bool_decide_eq_true_2 by done. rewrite Z.sub_diag, Z.div_0_l by lia.
      change (Z.to_nat 0) with 0%nat. replace (S n - 0 - 1)%nat with n by lia.
      destruct (act sector j data s) as [[[[| |a] d] s']| |]; done.
    + rewrite bool_decide_eq_false_2 by done. exact Hnext.
Qed.

(** The result of a walk that returns at the first match [(k, j)]: the action on
    that entry decides; with no match the walk ends without effect. *)
Definition walk_result {A} (m : FS (option A)) s (act : entry_body A) (r : option (Z * Z)) : Prop :=
  match r with
  | None => exists s1, m s = Ok (None, s1) ∧ same_disk s s1
  | Some (k, j) => exists s1, same_disk s s1 ∧
      ∀ a d s2, act k j (contents s k) s1 = Ok ((Return a, d), s2) → m s = Ok (Some a, s2)
  end.

(** A walk may go first through a step that leaves the disk as it is. *)
Lemma walk_result_step {A} (m m' : FS (option A)) s s1 act r :
  same_disk s s1 → m s = m' s1 → walk_result m' s1 act r → walk_result m s act r.
Proof.
  intros H1 E. destruct r as [[k j]|]; simpl; rewrite E.
  - intros (s2 & H2 & Hact). exists s2. split; [by eapply same_same|].
    intros a d s3 Ha. apply (Hact a d). by rewrite (di_contents _ _ _ H1).
  - intros (s2 & E2 & H2). exists s2. split; [done|by eapply same_same].
Qed.

Lemma find_in_sectors_same s s1 secs name :
  same_disk s s1 → find_in_sectors (contents s1) secs name = find_in_sectors (contents s) secs name.
Proof. intros H. apply find_in_sectors_ext. intros. apply (di_contents _ _ _ H). Qed.

Lemma scan_sectors_match {A} k s sector i buf name (fail : A) act :
  volume_wf s → cstr buf name → 0 ≤ sector → 0 ≤ i →
  sector + i + Z.of_nat k ≤ dev_limit (m_disk s) →
  walk_result (scan_sectors k fail (on_match buf act) sector i) s act
    (find_in_sectors (contents s) (sectors_from k (sector + i)) name).
Proof.
  intros Hs Hn Hsec. revert s i Hs. induction k as [|k IH]; intros s i Hs Hi Hlim;
    cbn [scan_sectors sectors_from find_in_sectors].
  { exists s. split; [done|]. apply same_disk_refl, Hs. }
  pose proof (limit_bound s Hs).
  destruct (readSector_ok s Hs (sector + i) (replicate (Z.to_nat 512) 0)) as (s1 & E1 & H1);
    [lia|by rewrite length_replicate|].
  pose proof (disk_is_wf _ _ _ H1 Hs) as Hs1.
  pose proof (scan_entries_match s1 16 (sector + i) 0 (contents s (sector + i)) buf name act Hn
    ltac:(lia)) as Hscan. rewrite (sector_length s Hs) in Hscan. specialize (Hscan ltac:(lia)).
  fold (sector_lookup (contents s (sector + i)) name) in Hscan.
  set (m := scan_sectors (S k) fail (on_match buf act) sector i).
  assert (Hm : m s = (r ← scan_entries 16 (on_match buf act) (sector + i) 0 (contents s (sector + i));
      match r with
      | Some a => mret (Some a)
      | None => scan_sectors k fail (on_match buf act) sector (i + 1)
      end) s1).
  { unfold m. cbn [scan_sectors]. st. rewrite (vw_bps s Hs), u32_small by lia.
    rewrite (bind_run _ _ _ _ _ E1). st. by rewrite (vw_bps s1 Hs1). }
  change (walk_result m s act (match sector_lookup (contents s (sector + i)) name with
    | Some j => Some (sector + i, j)
    | None => find_in_sectors (contents s) (sectors_from k (sector + i + 1)) name end)).
  destruct (sector_lookup (contents s (sector + i)) name) as [j|] eqn:El.
  - exists s1. split; [done|]. intros a d s2 Ha. rewrite Hm.
    rewrite Ha in Hscan. by rewrite (bind_run _ _ _ _ _ Hscan).
  - rewrite (bind_run _ _ _ _ _ Hscan) in Hm.
    eapply walk_result_step; [exact H1|exact Hm|].
    rewrite <- (find_in_sectors_same s s1) by done.
    replace (sector + i + 1) with (sector + (i + 1)) by lia.
    apply IH; [done|lia|]. rewrite (di_limit _ _ _ H1). lia.
Qed.

Lemma scan_chain_match {A} fuel s c l buf name (fail : A) act :
  volume_wf s → fat_chain (fat_entry s) c l → data_clusters s l → (length l ≤ fuel)%nat →
  cstr buf name →
  walk_result (scan_chain fuel fail (on_match buf act) c) s act (dir_lookup s l name).
Proof.
  intros Hs Hc Hl Hf Hn. revert s c l Hs Hc Hl Hf.
  induction fuel as [|fuel IH]; intros s c l Hs Hc Hl Hf;
    destruct l as [|x l]; [done|simpl in Hf; lia|done|].
  destruct (chain_next _ _ _ _ _ Hc Hl (λ y, data_cluster_bound s y Hs)) as (-> & Hdc & Hcase).
  pose proof (vw_spc s Hs). destruct (firstSector_value s c Hs Hdc) as (Efirst & Hpos & Hlim).
  pose proof (scan_sectors_match (Z.to_nat (spc s)) s (first_sector s c) 0 buf name fail act
    Hs Hn Hpos ltac:(lia) ltac:(lia)) as Hw.
  rewrite Z.add_0_r in Hw. fold (cluster_sectors s c) in Hw.
  unfold dir_lookup. rewrite chain_sectors_cons, find_in_sectors_app.
  set (m := scan_chain (S fuel) fail (on_match buf act) c).
  assert (Hm : m s = (r ← scan_sectors (Z.to_nat (spc s)) fail (on_match buf act) (first_sector s c) 0;
      match r with
      | Some a => mret (Some a)
      | None =>
          nextCluster ← readFatEntry c;
          if END_OF_CHAIN <=? nextCluster then mret None
          else if nextCluster =? BAD_CLUSTER then mret (Some fail)
          else scan_chain fuel fail (on_match buf act) nextCluster
      end) s).
  { unfold m. cbn [scan_chain]. st. by rewrite Efirst. }
  destruct (find_in_sectors (contents s) (cluster_sectors s c) name) as [[k j]|].
  - destruct Hw as (s1 & H1 & Hact). exists s1. split; [done|]. intros a d s2 Ha.
    rewrite Hm. by rewrite (bind_run _ _ _ _ _ (Hact _ _ _ Ha)).
  - destruct Hw as (s1 & E1 & H1). rewrite (bind_run _ _ _ _ _ E1) in Hm.
    pose proof (disk_is_wf _ _ _ H1 Hs) as Hs1.
    destruct (bind_readFatEntry s1 c (λ nextCluster : Z,
        if END_OF_CHAIN <=? nextCluster then mret None
        else if nextCluster =? BAD_CLUSTER then mret (Some fail)
        else scan_chain fuel fail (on_match buf act) nextCluster) Hs1) as (s2 & E2 & H2 & Hs2).
    { eapply disk_is_in_table; [exact H1|]. unfold in_table, data_cluster in *. lia. }
    rewrite E2, (same_disk_entry _ _ _ H1) in Hm. pose proof (same_same _ _ _ H1 H2) as H12.
    destruct Hcase as [(Ee & ->)|(Ee & Eb & Hnext & Hc' & Hl')]; rewrite Ee in Hm.
    + exists s2. split; [exact Hm|done].
    + rewrite Eb in Hm. eapply walk_result_step; [exact H12|exact Hm|].
      rewrite <- (find_in_sectors_same s s2), <- (disk_is_chain_sectors _ _ _ _ H12) by done.
      apply IH; [done|by eapply same_disk_chain|by eapply same_disk_clusters|simpl in Hf; lia].
Qed.

(** ** Finding *)

Lemma entry_fields_ok data j :
  0 ≤ j → j + 32 ≤ Z.of_nat (length data) → entry_fields data j = Ok (dir_fields data j).
Proof. intros. unfold entry_fields. by rewrite !aget_nthz_ok by lia. Qed.

Lemma dir_lookup_range s l name k j :
  volume_wf s → dir_lookup s l name = Some (k, j) →
  k ∈ chain_sectors s l ∧ 0 ≤ j ∧ j + 32 ≤ 512 ∧ (32 | j).
Proof.
  intros Hs. unfold dir_lookup. generalize (chain_sectors s l). intros secs.
  induction secs as [|x secs IH]; cbn; [done|].
  destruct (sector_lookup (contents s x) name) as [i|] eqn:E.
  - intros [= <- <-]. pose proof (sector_lookup_range _ _ _ E). split; [set_solver|done].
  - intros H. destruct (IH H). split; [set_solver|done].
Qed.

Definition found s (r : option (Z * Z)) : option (Z * Z * Z) :=
  match r with Some (k, j) => Some (dir_fields (contents s k) j) | None => None end.

Lemma findFileInDirectory_ok fuel s c l buf name :
  volume_wf s → fat_chain (fat_entry s) c l → data_clusters s l → (length l ≤ fuel)%nat →
  cstr buf name →
  exists s', findFileInDirectory fuel c buf s = Ok (found s (dir_lookup s l name), s') ∧
    same_disk s s'.
Proof.
  intros Hs Hc Hl Hf Hn. unfold findFileInDirectory.
  match goal with |- context [scan_chain fuel None ?body c] =>
    match body with on_match buf ?a => set (act := a) end end.
  pose proof (scan_chain_match fuel s c l buf name None act Hs Hc Hl Hf Hn) as Hw.
  destruct (dir_lookup s l name) as [[k j]|] eqn:El.
  - destruct Hw as (s1 & H1 & Hact). exists s1. split; [|done].
    destruct (dir_lookup_range _ _ _ _ _ Hs El) as (_ & Hj & Hj' & _).
    assert (Ha : act k j (contents s k) s1 =
      Ok ((Return (Some (dir_fields (contents s k) j)), contents s k), s1)).
    { unfold act. rewrite (bind_lift _ _ _ _ (entry_fields_ok (contents s k) j Hj
        ltac:(rewrite (sector_length s Hs); lia))). done. }
    by rewrite (bind_run _ _ _ _ _ (Hact _ _ _ Ha)).
  - destruct Hw as (s1 & E1 & H1). exists s1. split; [|done].
    by rewrite (bind_run _ _ _ _ _ E1).
Qed.

(** ** The free slot *)

Lemma scan_entries_free s n sector j data :
  0 ≤ j → j + 32 * Z.of_nat n ≤ Z.of_nat (length data) →
  scan_entries n free_body sector j data s =
  Ok (match free_in n j data with Some i => Some (Some i) | None => None end, s).
Proof.
  revert j. induction n as [|n IH]; intros j Hj Hl; [done|]. cbn [scan_entries].
  rewrite free_in_S.
  assert (E : free_body sector j data s =
    Ok (if (nthz data j =? 0) || (nthz data j =? DELETED) then Return (Some j) else Next, data, s)).
  { unfold free_body. rewrite (bind_lift _ _ _ _ (aget_nthz_ok data j ltac:(lia))).
    by destruct (_ || _). }
  rewrite (bind_run _ _ _ _ _ E). destruct (_ || _); [done|]. apply IH; lia.
Qed.

Lemma scan_sectors_free k s sector i :
  volume_wf s → 0 ≤ sector → 0 ≤ i → sector + i + Z.of_nat k ≤ dev_limit (m_disk s) →
  exists s1, scan_sectors k None free_body sector i s =
      Ok (match free_slot (contents s) (sectors_from k (sector + i)) with
          | Some j => Some (Some j) | None => None end, s1) ∧ same_disk s s1.
Proof.
  intros Hs Hsec. revert s i Hs. induction k as [|k IH]; intros s i Hs Hi Hlim;
    cbn [scan_sectors sectors_from free_slot].
  { exists s. split; [done|]. apply same_disk_refl, Hs. }
  pose proof (limit_bound s Hs).
  destruct (readSector_ok s Hs (sector + i) (replicate (Z.to_nat 512) 0)) as (s1 & E1 & H1);
    [lia|by rewrite length_replicate|].
  pose proof (disk_is_wf _ _ _ H1 Hs) as Hs1.
  st. rewrite (vw_bps s Hs), u32_small by lia. rewrite (bind_run _ _ _ _ _ E1). st.
  rewrite (vw_bps s1 Hs1). change (entries_per_sector 512) with 16%nat.
  pose proof (scan_entries_free s1 16 (sector + i) 0 (contents s (sector + i)) ltac:(lia)
    ltac:(rewrite (sector_length s Hs); lia)) as Hscan.
  rewrite (bind_run _ _ _ _ _ Hscan).
  destruct (free_in 16 0 (contents s (sector + i))) as [j|]; [by exists s1|].
  destruct (IH s1 (i + 1) Hs1) as (s2 & E2 & H2); [lia|rewrite (di_limit _ _ _ H1); lia|].
  exists s2. split; [|by eapply same_same]. rewrite E2.
  replace (sector + i + 1) with (sector + (i + 1)) by lia.
  rewrite (free_slot_ext (contents s1) (contents s)); [done|].
  intros. apply (di_contents _ _ _ H1).
Qed.

Lemma findFreeDirectoryEntry_ok fuel s c j :
  volume_wf s → data_cluster s c → free_slot (contents s) (cluster_sectors s c) = Some j →
  exists s1, findFreeDirectoryEntry (S fuel) c s = Ok (Some j, s1) ∧ same_disk s s1.
Proof.
  intros Hs Hc Hj. pose proof (vw_spc s Hs).
  destruct (firstSector_value s c Hs Hc) as (Efirst & Hpos & Hlim).
  destruct (scan_sectors_free (Z.to_nat (spc s)) s (first_sector s c) 0 Hs Hpos)
    as (s1 & E1 & H1); [lia|lia|].
  rewrite Z.add_0_r in E1. fold (cluster_sectors s c) in E1. rewrite Hj in E1.
  assert (E : scan_chain (S fuel) None free_body c s = Ok (Some (Some j), s1)).
  { cbn [scan_chain]. st. rewrite Efirst. by rewrite (bind_run _ _ _ _ _ E1). }
  exists s1. split; [|done]. unfold findFreeDirectoryEntry. by rewrite (bind_run _ _ _ _ _ E).
Qed.

(** ** Writing an entry *)

(** The entry goes to the first sector of the cluster, wherever the unused
    entry at that offset was found. *)
Lemma writeDirectoryEntry_ok fuel s c j name r attr fc size :
  volume_wf s → data_cluster s c → free_slot (contents s) (cluster_sectors s c) = Some j →
  chars name → Forall is_u8 name → is_u8 attr →
  exists s' data', writeDirectoryEntry (S fuel) c (name ++ 0 :: r) attr fc size s = Ok (true, s') ∧
    put (contents s (first_sector s c)) j
      (entry_bytes (padded 11 name ++ [0]) attr fc size) = Ok data' ∧
    disk_is s s' (λ k, if k =? first_sector s c then data' else contents s k).
Proof.
  intros Hs Hc Hj Hch Hu8 Ha. pose proof (vw_spc s Hs). pose proof (limit_bound s Hs).
  destruct (firstSector_value s c Hs Hc) as (Efirst & Hpos & Hlim).
  destruct (free_slot_range _ _ _ Hj) as [Hj0 Hj1].
  destruct (findFreeDirectoryEntry_ok fuel s c j Hs Hc Hj) as (s1 & E1 & H1).
  pose proof (disk_is_wf _ _ _ H1 Hs) as Hs1.
  destruct (disk_is_fields _ _ _ H1) as (_ & Espc & _ & Edata & _).
  unfold writeDirectoryEntry. rewrite (bind_run _ _ _ _ _ E1). st.
  rewrite (vw_bps s1 Hs1), Espc, Edata, Efirst.
  destruct (readSector_ok s1 Hs1 (first_sector s c) (replicate (Z.to_nat 512) 0)) as (s2 & E2 & H2);
    [rewrite (di_limit _ _ _ H1); lia|by rewrite length_replicate|].
  rewrite (bind_run _ _ _ _ _ E2), (di_contents _ _ _ H1).
  pose proof (same_same _ _ _ H1 H2) as H12. pose proof (disk_is_wf _ _ _ H12 Hs) as Hs2.
  assert (Esn : strncpy (replicate 12 0) (name ++ 0 :: r) 11 = Ok (padded 11 name ++ [0])).
  { rewrite strncpy_ok by (done || (simpl; lia)). done. }
  rewrite (bind_lift _ _ _ _ Esn).
  set (e := entry_bytes (padded 11 name ++ [0]) attr fc size).
  assert (He : length e = 32%nat).
  { apply length_entry_bytes. rewrite length_app, length_padded. done. }
  assert (exists data', put (contents s (first_sector s c)) j e = Ok data') as [data' Ep].
  { eexists. apply put_ok; rewrite ?He, ?(sector_length s Hs); lia. }
  rewrite (bind_lift _ _ _ _ Ep). st. rewrite (vw_bps s2 Hs2).
  destruct (diskWrite_ok s2 Hs2 (first_sector s c) data') as (s3 & E3 & H3).
  { rewrite (di_limit _ _ _ H12). lia. }
  { rewrite (put_length _ _ _ _ Ep). by apply sector_length. }
  { eapply put_bytes; [exact Ep|by apply sector_bytes|]. apply entry_bytes_u8; [|done].
    apply Forall_app. split; [by apply padded_u8|]. constructor; [unfold is_u8; lia|constructor]. }
  exists s3, data'. split_and!; [exact E3|done|].
  eapply disk_is_ext; [by eapply same_disk_trans|]. intros k. cbv beta.
  destruct (k =? first_sector s c); [done|]. apply (di_contents _ _ _ H12).
Qed.

Lemma cluster_sectors_first s c :
  volume_wf s → exists rest, cluster_sectors s c = first_sector s c :: rest.
Proof.
  intros Hs. pose proof (vw_spc s Hs). unfold cluster_sectors.
  replace (Z.to_nat (spc s)) with (S (Z.to_nat (spc s) - 1)) by lia. cbn [sectors_from]. eauto.
Qed.

Lemma dir_lookup_first s c l name :
  volume_wf s → dir_lookup s (c :: l) name = None →
  sector_lookup (contents s (first_sector s c)) name = None.
Proof.
  intros Hs. destruct (cluster_sectors_first s c Hs) as [rest E].
  unfold dir_lookup. rewrite chain_sectors_cons, E. cbn [app find_in_sectors].
  by destruct (sector_lookup _ name).
Qed.

(** Writes in the data area keep chains. *)
Lemma disk_is_chain s s' f c l :
  volume_wf s → disk_is s s' f → (∀ k, k < m_firstDataSector s → f k = contents s k) →
  data_clusters s l → fat_chain (fat_entry s) c l → fat_chain (fat_entry s') c l.
Proof.
  intros Hs Hd Hf Hl. apply fat_chain_ext. intros x Hx. symmetry.
  eapply disk_is_data_entries; [exact Hs|exact Hd|exact Hf|].
  unfold data_clusters in Hl. rewrite Forall_forall in Hl. pose proof (Hl x Hx).
  unfold in_table, data_cluster in *. lia.
Qed.

Lemma first_sector_data s c : volume_wf s → data_cluster s c → m_firstDataSector s ≤ first_sector s c.
Proof. intros Hs Hc. pose proof (vw_spc s Hs). unfold first_sector, data_cluster in *. nia. Qed.

(** An entry written to an unused slot of the directory's first sector is the one
    its name leads to. *)
Lemma write_entry_ok fuel s c l name r attr fc size j :
  volume_wf s → fat_chain (fat_entry s) c (c :: l) → data_clusters s (c :: l) →
  (length (c :: l) ≤ fuel)%nat → good_name name → is_u8 attr → attr ≠ ATTR_LFN →
  0 ≤ size < 2 ^ 32 → dir_lookup s (c :: l) name = None →
  free_in 16 0 (contents s (first_sector s c)) = Some j →
  exists s1 data', writeDirectoryEntry fuel c (name ++ 0 :: r) attr fc size s = Ok (true, s1) ∧
    disk_is s s1 (λ k, if k =? first_sector s c then data' else contents s k) ∧
    put (contents s (first_sector s c)) j (entry_bytes (padded 11 name ++ [0]) attr fc size) = Ok data' ∧
    dir_fields data' j = (low16 fc, size, attr) ∧ fat_chain (fat_entry s1) c (c :: l) ∧
    sector_lookup data' name = Some j ∧ dir_lookup s1 (c :: l) name = Some (first_sector s c, j).
Proof.
  intros Hs Hc Hl Hf Hname Ha Hlfn Hsz Hnone Hfree.
  pose proof Hl as [Hdc _]%Forall_cons. destruct fuel as [|fuel]; [simpl in Hf; lia|].
  destruct (cluster_sectors_first s c Hs) as [rest Erest].
  assert (Hslot : free_slot (contents s) (cluster_sectors s c) = Some j).
  { rewrite Erest. cbn [free_slot]. by rewrite Hfree. }
  destruct (writeDirectoryEntry_ok fuel s c j name r attr fc size Hs Hdc Hslot
    (gn_chars _ Hname) (gn_bytes _ Hname) Ha) as (s1 & data' & E1 & Ep & H1).
  pose proof (sector_length s Hs (first_sector s c)) as Hlen.
  destruct (put_entry _ _ _ _ _ _ _ Hlen Hname (proj1 Ha) Hlfn Hsz Ep) as (Hkind & Hfields & Hsame).
  assert (Hbelow : ∀ k, k < m_firstDataSector s →
    (if k =? first_sector s c then data' else contents s k) = contents s k).
  { intros k Hk. pose proof (first_sector_data s c Hs Hdc).
    by rewrite (proj2 (Z.eqb_neq k _)) by lia. }
  assert (Hfirst : contents s1 (first_sector s c) = data').
  { rewrite (di_contents _ _ _ H1). by rewrite Z.eqb_refl. }
  assert (Hlook : sector_lookup data' name = Some j).
  { apply (find_in_sector_put 16 0 (contents s (first_sector s c))); try done.
    - rewrite Hlen. lia.
    - by rewrite (put_length _ _ _ _ Ep).
    - exact (dir_lookup_first s c l name Hs Hnone). }
  exists s1, data'. split_and!; [done|done|done|done|exact (disk_is_chain _ _ _ _ _ Hs H1 Hbelow Hl Hc)|done|].
  unfold dir_lookup. rewrite (disk_is_chain_sectors _ _ _ _ H1), chain_sectors_cons, Erest.
  cbn [app find_in_sectors]. by rewrite Hfirst, Hlook.
Qed.

(** ** Properties *)

(** [C27] Looking a name up terminates on a directory whose chain ends, and
    returns the cluster (its low 16 bits), size and attributes of the first
    visible entry with that short name, or nothing when there is none; the disk
    is as it was. *)
Theorem findFileInDirectory_spec fuel s c l buf name :
  volume_wf s → fat_chain (fat_entry s) c l → data_clusters s l → (length l ≤ fuel)%nat →
  cstr buf name →
  exists s', findFileInDirectory fuel c buf s = Ok (found s (dir_lookup s l name), s') ∧
    same_disk s s'.
Proof. exact (findFileInDirectory_ok fuel s c l buf name). Qed.

(** Round trip: an entry written to a directory with an unused slot in its
    first sector is found again by its name, with the attributes and the size
    it was given, and the low 16 bits of its cluster: the high half of the
    cluster number is lost. *)
Theorem write_entry_find fuel s c l name r attr fc size j :
  volume_wf s → fat_chain (fat_entry s) c (c :: l) → data_clusters s (c :: l) →
  (length (c :: l) ≤ fuel)%nat → good_name name → is_u8 attr → attr ≠ ATTR_LFN →
  0 ≤ size < 2 ^ 32 → dir_lookup s (c :: l) name = None →
  free_in 16 0 (contents s (first_sector s c)) = Some j →
  exists s1 s2, writeDirectoryEntry fuel c (name ++ 0 :: r) attr fc size s = Ok (true, s1) ∧
    findFileInDirectory fuel c (name ++ 0 :: r) s1 = Ok (Some (low16 fc, size, attr), s2).
Proof.
  intros Hs Hc Hl Hf Hname Ha Hlfn Hsz Hnone Hfree.
  destruct (write_entry_ok fuel s c l name r attr fc size j Hs Hc Hl Hf Hname Ha Hlfn Hsz Hnone Hfree)
    as (s1 & data' & E1 & H1 & _ & Hfields & Hc1 & _ & Hlook).
  destruct (findFileInDirectory_ok fuel s1 c (c :: l) (name ++ 0 :: r) name)
    as (s2 & E2 & _); [by eapply disk_is_wf|done|by eapply same_disk_clusters|done|by apply cstr_intro, gn_chars|].
  exists s1, s2. split; [done|]. rewrite E2, Hlook. cbn [found].
  by rewrite (di_contents _ _ _ H1), Z.eqb_refl, Hfields.
Qed.

(** Names of more than eleven characters are never found: whatever the
    directory holds, the long-name entries included, the lookup answers no. *)
Theorem long_names_not_found fuel s c l buf name :
  volume_wf s → fat_chain (fat_entry s) c l → data_clusters s l → (length l ≤ fuel)%nat →
  cstr buf name → (11 < length name)%nat →
  exists s', findFileInDirectory fuel c buf s = Ok (None, s') ∧ same_disk s s'.
Proof.
  intros Hs Hc Hl Hf Hn Hlong.
  destruct (findFileInDirectory_ok fuel s c l buf name Hs Hc Hl Hf Hn) as (s' & E & H).
  exists s'. split; [|done]. rewrite E. unfold dir_lookup. by rewrite find_in_sectors_long.
Qed.

(** The walks trust the table: on a directory whose cluster points to
    itself, the lookup of a name it does not hold never returns, however much
    fuel the loop is given. *)
Theorem find_loops fuel s c buf name :
  volume_wf s → data_cluster s c → fat_entry s c = c → cstr buf name →
  find_in_sectors (contents s) (cluster_sectors s c) name = None →
  findFileInDirectory fuel c buf s = OutOfFuel.
Proof.
  intros Hs Hc Hloop Hn Hnone. unfold findFileInDirectory.
  match goal with |- context [scan_chain fuel None ?body c] =>
    match body with on_match buf ?a => set (act := a) end end.
  assert (Hloops : scan_chain fuel None (on_match buf act) c s = OutOfFuel);
    [|unfold mbind, st_bind; by rewrite Hloops].
  revert s Hs Hc Hloop Hnone. induction fuel as [|fuel IH]; intros s Hs Hc Hloop Hnone; [done|].
  pose proof (vw_spc s Hs). destruct (firstSector_value s c Hs Hc) as (Efirst & Hpos & Hlim).
  pose proof (scan_sectors_match (Z.to_nat (spc s)) s (first_sector s c) 0 buf name None act
    Hs Hn Hpos ltac:(lia) ltac:(lia)) as Hw.
  rewrite Z.add_0_r in Hw. fold (cluster_sectors s c) in Hw. rewrite Hnone in Hw.
  destruct Hw as (s1 & E1 & H1). pose proof (disk_is_wf _ _ _ H1 Hs) as Hs1.
  cbn [scan_chain]. st. rewrite Efirst, (bind_run _ _ _ _ _ E1).
  destruct (bind_readFatEntry s1 c (λ nextCluster : Z,
      if END_OF_CHAIN <=? nextCluster then mret None
      else if nextCluster =? BAD_CLUSTER then mret (Some None)
      else scan_chain fuel None (on_match buf act) nextCluster) Hs1) as (s2 & -> & H2 & Hs2).
  { eapply disk_is_in_table; [exact H1|]. unfold in_table, data_cluster in *. lia. }
  pose proof (same_same _ _ _ H1 H2) as H12.
  rewrite (same_disk_entry _ _ _ H1), Hloop. pose proof (data_cluster_bound s c Hs Hc).
  rewrite (proj2 (Z.leb_gt END_OF_CHAIN c)), (proj2 (Z.eqb_neq c BAD_CLUSTER))
    by (unfold END_OF_CHAIN, BAD_CLUSTER in *; lia).
  destruct (disk_is_fields _ _ _ H12) as (_ & Espc & _ & Edata & Etot & _).
  apply IH; [done|unfold data_cluster in *; by rewrite Etot|by rewrite (same_disk_entry _ _ _ H12)|].
  rewrite (find_in_sectors_same _ _ _ _ H12).
  unfold cluster_sectors, first_sector in *. by rewrite Espc, Edata.
Qed.

(** When the unused entry lies in a later sector of the directory's
    cluster, [writeDirectoryEntry] reports success but stores the entry at that
    offset of the first sector, over an entry in use, and leaves the sector
    with the unused entry as it was. *)
Theorem write_entry_overwrites fuel s c name r attr fc size j :
  volume_wf s → data_cluster s c → good_name name → is_u8 attr → attr ≠ ATTR_LFN →
  0 ≤ size < 2 ^ 32 → free_in 16 0 (contents s (first_sector s c)) = None →
  free_slot (contents s) (cluster_sectors s c) = Some j →
  exists s', writeDirectoryEntry (S fuel) c (name ++ 0 :: r) attr fc size s = Ok (true, s') ∧
    kind_of (contents s (first_sector s c)) j ≠ EndMark ∧
    kind_of (contents s' (first_sector s c)) j = Named name ∧
    ∀ k, k ≠ first_sector s c → contents s' k = contents s k.
Proof.
  intros Hs Hc Hname Ha Hlfn Hsz Hfull Hslot.
  destruct (writeDirectoryEntry_ok fuel s c j name r attr fc size Hs Hc Hslot
    (gn_chars _ Hname) (gn_bytes _ Hname) Ha) as (s' & data' & E & Ep & H).
  destruct (put_entry _ _ _ _ _ _ _ (sector_length s Hs _) Hname (proj1 Ha) Hlfn Hsz Ep)
    as (Hkind & _).
  exists s'. split_and!; [done| | |].
  - assert (Hj : exists m : nat, j = 32 * Z.of_nat m ∧ (m < 16)%nat).
    { eapply free_slot_aligned. exact Hslot. }
    destruct Hj as (m & -> & Hm). exact (free_in_none 16 0 _ m Hfull Hm).
  - rewrite (di_contents _ _ _ H), Z.eqb_refl. done.
  - intros k Hk. rewrite (di_contents _ _ _ H). by rewrite (proj2 (Z.eqb_neq k _)).
Qed.
End dir.

(** ** Witnesses *)

(** A volume of two-sector clusters whose cluster 2 points to itself; its first
    sector is full of entries AAAAAAAAAAA, the second is unused. *)
Definition table1 : list Z :=
  [248; 255; 255; 15; 255; 255; 255; 15; 2; 0; 0; 0] ++ replicate 500 0.
Definition disk1 : MemDisk := λ s,
  if s =? 1 then table1 else if s =? 2 then replicate 512 65 else replicate 512 0.
Definition bpb1 : SFat32BPB :=
  BPB [] [] 512 2 1 1 0 0 0 0 0 0 0 102 1 0 0 2 0 0 [] 0 0 0x29 0 [] [].
Definition vol1 : CFat32FileSystem MemDisk :=
  Fat32 [] 1 bpb1 (FSInfo 0 0) 2 100 50 1 root_path root_path 2 disk1.

Lemma disk1_ready : mem_ready disk1.
Proof.
  intros s. unfold disk1. destruct (s =? 1); [|destruct (s =? 2)].
  - split; [done|]. unfold table1. rewrite Forall_app. split.
    + repeat (constructor; [unfold is_u8; lia|]). constructor.
    + apply Forall_replicate. unfold is_u8. lia.
  - split; [done|]. apply Forall_replicate. unfold is_u8. lia.
  - split; [done|]. apply Forall_replicate. unfold is_u8. lia.
Qed.

Lemma vol1_wf : volume_wf vol1.
Proof. constructor; try done; try exact disk1_ready; unfold fat_sectors, fat_copies; simpl; lia. Qed.

(** The name HELLO. *)
Definition hello : list Z := [72; 69; 76; 76; 79].

Lemma hello_good : good_name hello.
Proof.
  constructor; [..|done|done].
  - repeat (constructor; [discriminate|]). constructor.
  - repeat (constructor; [unfold is_u8; lia|]). constructor.
  - simpl. lia.
Qed.

Lemma findFileInDirectory_spec_witness :
  exists s', findFileInDirectory 2 2 (hello ++ [0]) vol0 =
    Ok (found vol0 (dir_lookup vol0 [2; 3] hello), s') ∧ same_disk vol0 s'.
Proof.
  exact (findFileInDirectory_spec 2 vol0 2 [2; 3] (hello ++ [0]) hello vol0_wf vol0_chain
    vol0_clusters (le_n 2) (cstr_intro hello [] (gn_chars _ hello_good))).
Defined.

Lemma write_entry_find_witness :
  exists s1 s2, writeDirectoryEntry 2 2 (hello ++ [0]) 0x20 0x10005 77 vol0 = Ok (true, s1) ∧
    findFileInDirectory 2 2 (hello ++ [0]) s1 = Ok (Some (low16 0x10005, 77, 0x20), s2).
Proof.
  apply (write_entry_find 2 vol0 2 [3] hello [] 0x20 0x10005 77 0 vol0_wf vol0_chain
    vol0_clusters (le_n 2) hello_good); [unfold is_u8; lia|discriminate|lia|reflexivity|reflexivity].
Defined.

(** The name LONGNAME.TEXT. *)
Definition long_name : list Z := [76; 79; 78; 71; 78; 65; 77; 69; 46; 84; 69; 88; 84].

Lemma long_names_not_found_witness :
  exists s', findFileInDirectory 2 2 (long_name ++ [0]) vol0 = Ok (None, s') ∧ same_disk vol0 s'.
Proof.
  apply (long_names_not_found 2 vol0 2 [2; 3] (long_name ++ [0]) long_name vol0_wf vol0_chain
    vol0_clusters (le_n 2)); [|simpl; lia].
  apply (cstr_intro long_name []). repeat (constructor; [discriminate|]). constructor.
Defined.

Lemma find_loops_witness : findFileInDirectory 1000 2 (hello ++ [0]) vol1 = OutOfFuel.
Proof.
  apply (find_loops 1000 vol1 2 (hello ++ [0]) hello vol1_wf);
    [unfold data_cluster; simpl; lia|reflexivity|
     exact (cstr_intro hello [] (gn_chars _ hello_good))|reflexivity].
Defined.

Lemma write_entry_overwrites_witness :
  exists s', writeDirectoryEntry 1 2 (hello ++ [0]) 0x20 5 0 vol1 = Ok (true, s') ∧
    kind_of (contents vol1 (first_sector vol1 2)) 0 ≠ EndMark ∧
    kind_of (contents s' (first_sector vol1 2)) 0 = Named hello ∧
    ∀ k, k ≠ first_sector vol1 2 → contents s' k = contents vol1 k.
Proof.
  apply (write_entry_overwrites 0 vol1 2 hello [] 0x20 5 0 0 vol1_wf);
    [unfold data_cluster; simpl; lia|exact hello_good|unfold is_u8; lia|discriminate|lia|
     reflexivity|reflexivity].
Defined.
