(* ===== verification/Fat32Files.v ===== *)
(** * Files come and go (createFile, findFile and deleteFile of src/kernel/src/fs/fat32.cpp)

    A file that is created is found by its name with the cluster it was given, and
    deleting it takes the name out of its directory and the clusters back into the
    table. *)

From S2P Require Import Prelude CStr Disk Fat32 Fat32Fat Fat32File Fat32Dir.

(** ** Names *)

(** A character that a name may have. *)
Definition valid_char (c : Z) : Prop := c ∉ [60; 62; 58; 34; 47; 92; 124; 63; 42].

Lemma no_invalid_ok name r : chars name → Forall valid_char name → no_invalid (name ++ 0 :: r) = Ok true.
Proof.
  induction name as [|c name IH]; intros Hc Hv; [done|]. apply chars_cons in Hc as [Hc0 Hc]. apply Forall_cons in Hv as [Hv0 Hv].
  cbn [app no_invalid]. rewrite (proj2 (Z.eqb_neq c 0)) by done.
  assert (E : strchr invalid_chars c = Ok None).
  { apply (strchr_none [60; 62; 58; 34; 47; 92; 124; 63; 42] c []); [|done|exact Hv0]. repeat (constructor; [discriminate|]). constructor. }
  rewrite E. cbn [mbind outcome_bind]. by apply IH.
Qed.

Lemma aget_cstr_head name r : good_name name → exists c, aget (name ++ 0 :: r) 0 = Ok c ∧ c ≠ 0 ∧ c ∈ name.
Proof.
  intros Hn. pose proof (gn_length _ Hn) as Hl. pose proof (gn_chars _ Hn) as Hc. destruct name as [|c name]; [simpl in Hl; lia|].
  apply chars_cons in Hc as [Hc _]. exists c. split; [done|]. split; [done|]. apply list_elem_of_here.
Qed.

Lemma validateFileName_ok name r : good_name name → Forall valid_char name → validateFileName (name ++ 0 :: r) = Ok true.
Proof.
  intros Hn Hv. unfold validateFileName. destruct (aget_cstr_head name r Hn) as (c & E & Hc & _). rewrite E. cbn [mbind outcome_bind].
  rewrite (proj2 (Z.eqb_neq c 0)), strlen_app by (done || apply gn_chars, Hn). cbn [mbind outcome_bind].
  pose proof (gn_length _ Hn). rewrite (proj2 (Z.ltb_ge 255 _)) by lia. apply no_invalid_ok; [apply Hn|done].
Qed.

Lemma no_slash name : Forall valid_char name → slash ∉ name.
Proof. intros Hv Hin. pose proof (proj1 (Forall_forall _ _) Hv slash Hin) as H. apply H. unfold slash. set_solver. Qed.

Lemma checksum_ok l : length l = 12%nat → exists v, calculateShortNameChecksum l = Ok v.
Proof. intros H. do 12 (destruct l as [|? l]; [done|]). eexists. reflexivity. Qed.

(** The array [shortName] of a name that fits. *)
Lemma short_array name r : good_name name → strncpy (replicate 12 0) (name ++ 0 :: r) 11 = Ok (name ++ 0 :: replicate (11 - length name) 0).
Proof.
  intros Hn. pose proof (gn_length _ Hn). rewrite strncpy_ok by (apply Hn || (rewrite length_replicate; lia)).
  rewrite padded_short by lia. f_equal. change (drop 11 (replicate 12 0)) with [0]. rewrite <- app_assoc. f_equal.
  by rewrite <- replicate_S_end.
Qed.

Section files.
Context {D : Type} {HD : BlockDevice D} {HL : DeviceLaws D}.
Implicit Types s : CFat32FileSystem D.
#[local] Abbreviation FS := (ST (CFat32FileSystem D)).

(** ** Directories while the table changes *)

Lemma chain_nonzero F c l x : fat_chain F c l → Forall (λ y, 2 ≤ y) l → x ∈ l → F x ≠ 0.
Proof.
  intros Hc Hl Hx E. destruct (fat_chain_suffix _ _ _ _ Hc Hx) as (l1 & l2 & -> & H2).
  destruct l2 as [|y l2]; [done|]. destruct H2 as [-> H2]. rewrite E in H2. cbn in H2.
  destruct l2 as [|z l2]; [done|]. destruct H2 as [-> _]. apply Forall_app in Hl as [_ Hl].
  apply Forall_cons in Hl as [_ Hl]. apply Forall_cons in Hl as [Hl _]. lia.
Qed.

Lemma data_clusters_2 s l : data_clusters s l → Forall (λ y, 2 ≤ y) l.
Proof. intros H. eapply Forall_impl; [exact H|]. unfold data_cluster. cbn. lia. Qed.

(** The table has changed, outside the directory's chain. *)
Lemma fat_is_chain s s' F c l : fat_is s s' F → data_clusters s l → (∀ x, x ∈ l → F x = fat_entry s x) →
  fat_chain (fat_entry s) c l → fat_chain (fat_entry s') c l.
Proof.
  intros Hf Hl HF. apply fat_chain_ext. intros x Hx. rewrite (fat_is_entries _ _ _ _ Hf); [by rewrite HF|].
  pose proof (proj1 (Forall_forall _ _) Hl x Hx). unfold in_table, data_cluster in *. lia.
Qed.

Lemma chain_sector_data s l k : volume_wf s → data_clusters s l → k ∈ chain_sectors s l → m_firstDataSector s ≤ k < dev_limit (m_disk s).
Proof.
  intros Hs Hl Hk. unfold chain_sectors in Hk. apply list_elem_of_In, in_concat in Hk as (secs & Hsecs & Hk).
  apply list_elem_of_In, list_elem_of_fmap in Hsecs as (x & -> & Hx). apply list_elem_of_In in Hk.
  destruct (data_cluster_sectors s x k Hs (proj1 (Forall_forall _ _) Hl x Hx) Hk) as (? & _ & ?). lia.
Qed.

Lemma fat_is_lookup s s' F l name : volume_wf s → fat_is s s' F → data_clusters s l → dir_lookup s' l name = dir_lookup s l name.
Proof.
  intros Hs Hf Hl. unfold dir_lookup. rewrite (disk_is_chain_sectors _ _ _ _ (fi_disk _ _ _ Hf)). apply find_in_sectors_ext.
  intros k Hk. apply (fi_data _ _ _ Hf). by destruct (chain_sector_data s l k Hs Hl Hk).
Qed.

(** ** Looking a name up *)

(** A name without a slash is looked up in the current directory. *)
Lemma findFile_name fuel s l name r : volume_wf s → good_name name → Forall valid_char name →
  let cur := m_currentDirectoryCluster s in
  fat_chain (fat_entry s) cur l → data_clusters s l → (length l ≤ fuel)%nat →
  exists s', findFile fuel (name ++ 0 :: r) s = Ok (found s (dir_lookup s l name), s') ∧ same_disk s s'.
Proof.
  intros Hs Hn Hv cur Hc Hl Hf. destruct (findFileInDirectory_ok fuel s cur l (name ++ 0 :: r) name Hs Hc Hl Hf) as (s' & E & H); [by apply cstr_intro, gn_chars|].
  exists s'. split; [|done]. destruct (aget_cstr_head name r Hn) as (c & Ec & Hc0 & Hin). unfold findFile. st.
  rewrite (bind_lift _ _ _ _ Ec). rewrite (proj2 (Z.eqb_neq c slash)) by (intros ->; by apply (no_slash name)).
  cbn [findFile_from]. rewrite (bind_lift _ _ _ _ Ec), (proj2 (Z.eqb_neq c 0)) by done.
  rewrite (bind_lift _ None) by (apply strchr_none; [apply Hn|done|by apply no_slash]). exact E.
Qed.

(** ** Creating *)

Definition created s l (name : list Z) (attr j c : Z) s1 : Prop :=
  exists data', disk_is s s1 (contents s1) ∧
    put (contents s (first_sector s (m_currentDirectoryCluster s))) j (entry_bytes (padded 11 name ++ [0]) attr c 0) = Ok data' ∧
    (∀ k, m_firstDataSector s ≤ k → contents s1 k = if k =? first_sector s (m_currentDirectoryCluster s) then data' else contents s k) ∧
    (∀ x, in_table s x → fat_entry s1 x = fupd (fat_entry s) c END_OF_CHAIN x) ∧
    fat_chain (fat_entry s1) (m_currentDirectoryCluster s) l ∧
    sector_lookup data' name = Some j ∧ dir_lookup s1 l name = Some (first_sector s (m_currentDirectoryCluster s), j) ∧
    dir_fields data' j = (low16 c, 0, attr).

(** The way through [create_entry] when every step succeeds. *)
Lemma create_entry_run fuel name r attr c s s1 s2 s3 : let cur := m_currentDirectoryCluster s in
  good_name name → Forall valid_char name → findFileInDirectory fuel cur (name ++ 0 :: r) s = Ok (None, s1) →
  allocateCluster s1 = Ok (c, s2) → c ≠ 0 →
  writeDirectoryEntry fuel cur (name ++ 0 :: replicate (11 - length name) 0) attr c 0 s2 = Ok (true, s3) →
  create_entry fuel (name ++ 0 :: r) attr s = Ok (Some (cur, c), s3).
Proof.
  intros cur Hn Hv E1 E2 Hc E3. destruct (aget_cstr_head name r Hn) as (ch & Ech & Hch0 & Hin). pose proof (gn_length _ Hn).
  unfold create_entry. rewrite (bind_lift _ _ _ _ (validateFileName_ok name r Hn Hv)). cbn [negb]. st. rewrite (bind_lift _ _ _ _ Ech).
  rewrite (proj2 (Z.eqb_neq ch slash)) by (intros ->; by apply (no_slash name)). fold cur. rewrite (bind_lift _ _ _ _ Ech), (proj2 (Z.eqb_neq ch 0)) by done.
  rewrite (bind_run _ _ _ _ _ E1), (bind_run _ _ _ _ _ E2), (proj2 (Z.eqb_neq c 0)) by done.
  rewrite (bind_lift _ _ _ _ (short_array name r Hn)). destruct (checksum_ok (name ++ 0 :: replicate (11 - length name) 0)) as [v Ev].
  { rewrite length_app. cbn. rewrite length_replicate. lia. }
  rewrite (bind_lift _ _ _ _ Ev), (bind_lift _ _ _ _ (strlen_app name r (gn_chars _ Hn))).
  rewrite (proj2 (Z.ltb_ge 11 _)) by lia. st. cbn [negb]. by rewrite (bind_run _ _ _ _ _ E3).
Qed.

Lemma createFile_ok fuel s l name r attr j : let cur := m_currentDirectoryCluster s in
  volume_wf s → fat_chain (fat_entry s) cur (cur :: l) → data_clusters s (cur :: l) → (length (cur :: l) ≤ fuel)%nat →
  good_name name → Forall valid_char name → is_u8 attr → attr ≠ ATTR_LFN → dir_lookup s (cur :: l) name = None →
  free_in 16 0 (contents s (first_sector s cur)) = Some j → (exists x, 2 ≤ x < m_totalClusters s ∧ fat_entry s x = 0) →
  exists c s1, createFile fuel (name ++ 0 :: r) attr s = Ok (true, s1) ∧ first_free (fat_entry s) 2 c ∧ c < m_totalClusters s ∧
    created s (cur :: l) name attr j c s1.
Proof.
  intros cur Hs Hc Hl Hf Hn Hv Ha Hlfn Hnone Hfree (x0 & Hx0 & Ex0).
  destruct (findFileInDirectory_ok fuel s cur (cur :: l) (name ++ 0 :: r) name Hs Hc Hl Hf) as (s1 & E1 & H1); [by apply cstr_intro, gn_chars|].
  rewrite Hnone in E1. cbn [found] in E1. pose proof (disk_is_wf _ _ _ H1 Hs) as Hs1.
  assert (Etot : m_totalClusters s1 = m_totalClusters s) by (by rewrite (di_rest _ _ _ H1)).
  destruct (allocateCluster_ok s1 Hs1) as [(c & s2 & Hff & Hct & E2 & H2)|(Hno & _)]; cycle 1.
  { exfalso. apply (Hno x0); [by rewrite Etot|]. by rewrite (same_disk_entry _ _ _ H1). }
  rewrite Etot in Hct.
  assert (Hff0 : first_free (fat_entry s) 2 c).
  { destruct Hff as (? & Hz & Hx). split; [done|]. rewrite <- (same_disk_entry _ _ c H1). split; [done|]. intros x Hx'.
    rewrite <- (same_disk_entry _ _ x H1). by apply Hx. }
  assert (H2' : fat_is s s2 (fupd (fat_entry s) c END_OF_CHAIN)).
  { eapply fat_is_ext; [by eapply fat_is_same_l|]. intros y _. unfold fupd. by rewrite (same_disk_entry _ _ _ H1). }
  pose proof (fat_is_wf _ _ _ H2' Hs) as Hs2.
  assert (Hne : ∀ x, x ∈ cur :: l → x ≠ c).
  { intros x Hx ->. apply (chain_nonzero _ _ _ c Hc (data_clusters_2 _ _ Hl) Hx). apply Hff0. }
  assert (Hc2 : fat_chain (fat_entry s2) cur (cur :: l)).
  { apply (fat_is_chain s s2 _ cur _ H2' Hl); [|done]. intros x Hx. unfold fupd. by rewrite (proj2 (Z.eqb_neq x c)) by (by apply Hne). }
  assert (Hl2 : data_clusters s2 (cur :: l)) by (by eapply same_disk_clusters; [apply H2'|]).
  assert (Hd2 : contents s2 (first_sector s cur) = contents s (first_sector s cur)).
  { apply (fi_data _ _ _ H2'). apply first_sector_data; [done|]. by apply Forall_cons in Hl as [? _]. }
  assert (Efs : first_sector s2 cur = first_sector s cur) by (by rewrite (di_rest _ _ _ (fi_disk _ _ _ H2'))).
  destruct (write_entry_ok fuel s2 cur l name (replicate (11 - length name) 0) attr c 0 j Hs2 Hc2 Hl2 Hf Hn Ha Hlfn) as (s3 & data' & E3 & H3 & Ep & Efd & Hc3 & Esl & Elk).
  { lia. } { by rewrite (fat_is_lookup s s2 _ _ _ Hs H2' Hl). } { by rewrite Efs, Hd2. }
  rewrite Efs in *. rewrite Hd2 in Ep. exists c, s3. split; [|split; [done|split; [done|]]].
  - unfold createFile. rewrite (bind_run _ _ _ _ _ (create_entry_run fuel name r attr c s s1 s2 s3 Hn Hv E1 E2 ltac:(destruct Hff0; lia) E3)). done.
  - exists data'. fold cur. split_and!; try done.
    + eapply disk_is_ext; [eapply disk_is_trans; [apply H2'|apply H3]|]. intros k. symmetry. apply (di_contents _ _ _ H3).
    + intros k Hk. rewrite (di_contents _ _ _ H3). destruct (k =? first_sector s cur); [done|]. by apply (fi_data _ _ _ H2').
    + intros x Hx. rewrite <- (fat_is_entries _ _ _ x H2' Hx). eapply disk_is_data_entries; [exact Hs2|exact H3| |by eapply disk_is_in_table; [apply H2'|]].
      intros k Hk. cbv beta. rewrite (proj2 (Z.eqb_neq k _)); [done|]. apply Forall_cons in Hl2 as [Hd _]. pose proof (first_sector_data s2 cur Hs2 Hd). lia.
Qed.

(** ** Deleting *)

(** A sector without the first entry called [name]. *)
Definition unlinked (name data : list Z) : list Z :=
  match sector_lookup data name with Some j => <[Z.to_nat j := DELETED]> data | None => data end.

Lemma scan_sectors_delete k s sector i buf name :
  volume_wf s → cstr buf name → 0 ≤ sector → 0 ≤ i → sector + i + Z.of_nat k ≤ dev_limit (m_disk s) →
  exists s', scan_sectors k false (delete_body buf) sector i s = Ok (None, s') ∧
    disk_is s s' (λ q, if decide (q ∈ sectors_from k (sector + i)) then unlinked name (contents s q) else contents s q).
Proof.
  intros Hs Hn Hsec. revert s i Hs. induction k as [|k IH]; intros s i Hs Hi Hlim; cbn [scan_sectors sectors_from].
  { exists s. split; [done|]. apply same_disk_refl, Hs. }
  pose proof (limit_bound s Hs). pose proof (sector_length s Hs (sector + i)) as Hlen.
  destruct (readSector_ok s Hs (sector + i) (replicate (Z.to_nat 512) 0)) as (s1 & E1 & H1); [lia|by rewrite length_replicate|].
  pose proof (disk_is_wf _ _ _ H1 Hs) as Hs1. st. rewrite (vw_bps s Hs), u32_small by lia. rewrite (bind_run _ _ _ _ _ E1). st.
  rewrite (vw_bps s1 Hs1). change (entries_per_sector 512) with 16%nat.
  assert (Hstep : exists s2, scan_entries 16 (delete_body buf) (sector + i) 0 (contents s (sector + i)) s1 = Ok (None, s2) ∧
    disk_is s s2 (λ q, if q =? sector + i then unlinked name (contents s q) else contents s q)).
  { unfold delete_body. rewrite (scan_entries_match s1 16 (sector + i) 0 _ buf name _ Hn) by lia.
    fold (sector_lookup (contents s (sector + i)) name). destruct (sector_lookup (contents s (sector + i)) name) as [j|] eqn:El; cycle 1.
    - exists s1. split; [done|]. eapply disk_is_ext; [exact H1|]. intros q. destruct (Z.eqb_spec q (sector + i)) as [->|]; [|done].
      unfold unlinked. by rewrite El.
    - destruct (sector_lookup_range _ _ _ El) as (Hj0 & Hj & _).
      assert (Hj' : 0 ≤ j < Z.of_nat (length (contents s (sector + i)))) by (rewrite Hlen; lia).
      rewrite (bind_lift _ _ _ _ (aset_Ok (contents s (sector + i)) j DELETED Hj')). st. rewrite (vw_bps s1 Hs1).
      destruct (diskWrite_ok s1 Hs1 (sector + i) (<[Z.to_nat j := DELETED]> (contents s (sector + i)))) as (s2 & E2 & H2).
      { rewrite (di_limit _ _ _ H1). lia. } { by rewrite length_insert. }
      { apply Forall_insert; [by apply sector_bytes|]. unfold is_u8, DELETED. lia. }
      rewrite (bind_run _ _ _ _ _ E2). exists s2. split; [done|]. eapply disk_is_ext; [by eapply disk_is_trans|]. intros q. cbv beta.
      destruct (Z.eqb_spec q (sector + i)) as [->|]; [by unfold unlinked; rewrite El|]. apply (di_contents _ _ _ H1). }
  destruct Hstep as (s2 & E2 & H2). rewrite (bind_run _ _ _ _ _ E2). pose proof (disk_is_wf _ _ _ H2 Hs) as Hs2.
  destruct (IH s2 (i + 1) Hs2) as (s3 & E3 & H3); [lia|rewrite (di_limit _ _ _ H2); lia|]. exists s3. split; [exact E3|].
  eapply disk_is_ext; [by eapply disk_is_trans|]. intros q. cbv beta. rewrite (di_contents _ _ _ H2).
  replace (sector + (i + 1)) with (sector + i + 1) by lia.
  destruct (Z.eqb_spec q (sector + i)) as [->|Hne].
  - rewrite decide_False by (rewrite elem_of_sectors_from; lia). by rewrite decide_True by apply list_elem_of_here.
  - destruct (decide (q ∈ sectors_from k (sector + i + 1))) as [Hin|Hin].
    + by rewrite decide_True by (by apply list_elem_of_further).
    + rewrite decide_False; [done|]. intros [?|?]%elem_of_cons; done.
Qed.

Lemma scan_chain_delete fuel buf name : ∀ s c l,
  volume_wf s → cstr buf name → fat_chain (fat_entry s) c l → data_clusters s l → (length l ≤ fuel)%nat →
  exists s', scan_chain fuel false (delete_body buf) c s = Ok (None, s') ∧
    disk_is s s' (λ q, if decide (q ∈ chain_sectors s l) then unlinked name (contents s q) else contents s q).
Proof.
  induction fuel as [|fuel IH]; intros s c l Hs Hn Hc Hl Hf; destruct l as [|x l]; [done|simpl in Hf; lia|done|].
  pose proof (fat_chain_NoDup _ _ _ Hc) as Hnd. apply NoDup_cons in Hnd as [Hnotin _].
  destruct (chain_next _ _ _ _ _ Hc Hl (λ y, data_cluster_bound s y Hs)) as (-> & Hdc & Hcase).
  pose proof (vw_spc s Hs). destruct (firstSector_value s c Hs Hdc) as (Efirst & Hpos & Hlim).
  destruct (scan_sectors_delete (Z.to_nat (spc s)) s (first_sector s c) 0 buf name Hs Hn Hpos) as (s1 & E1 & H1); [lia|lia|].
  rewrite Z.add_0_r in H1. fold (cluster_sectors s c) in H1. cbn [scan_chain]. st. rewrite Efirst, (bind_run _ _ _ _ _ E1).
  pose proof (disk_is_wf _ _ _ H1 Hs) as Hs1.
  assert (Hdata : ∀ k, k < m_firstDataSector s → (if decide (k ∈ cluster_sectors s c) then unlinked name (contents s k) else contents s k) = contents s k).
  { intros k Hk. by rewrite decide_False by (by apply cluster_sectors_data). }
  assert (Hent : ∀ y, in_table s y → fat_entry s1 y = fat_entry s y) by (intros y Hy; by eapply disk_is_data_entries).
  assert (Htab : in_table s c) by (unfold in_table, data_cluster in *; lia).
  destruct (bind_readFatEntry s1 c (λ nextCluster : Z, if END_OF_CHAIN <=? nextCluster then mret None
      else if nextCluster =? BAD_CLUSTER then mret (Some false) else scan_chain fuel false (delete_body buf) nextCluster) Hs1) as (s2 & E2 & H2 & Hs2).
  { by eapply disk_is_in_table. }
  rewrite E2, (Hent c Htab). pose proof (disk_is_same _ _ _ _ H1 H2) as H12. rewrite chain_sectors_cons.
  destruct Hcase as [(-> & ->)|(-> & -> & Hnext & Hc' & Hl')].
  - exists s2. split; [done|]. eapply disk_is_ext; [exact H12|]. intros q. unfold chain_sectors. cbn. by rewrite app_nil_r.
  - destruct (IH s2 (fat_entry s c) l Hs2 Hn) as (s3 & E3 & H3).
    { eapply disk_is_chain; [exact Hs|exact H12|exact Hdata|done|done]. } { by eapply same_disk_clusters. } { simpl in Hf; lia. }
    exists s3. split; [exact E3|]. eapply disk_is_ext; [by eapply disk_is_trans|]. intros q. cbv beta.
    rewrite (disk_is_chain_sectors _ _ _ _ H12), (di_contents _ _ _ H12). destruct (decide (q ∈ chain_sectors s l)) as [Hin|Hin].
    + rewrite (decide_True (P := q ∈ cluster_sectors s c ++ chain_sectors s l)) by set_solver. rewrite decide_False; [done|]. intros Hq.
      unfold chain_sectors in Hin. apply list_elem_of_In, in_concat in Hin as (secs & Hsecs & Hin).
      apply list_elem_of_In, list_elem_of_fmap in Hsecs as (y & -> & Hy). apply list_elem_of_In in Hin.
      apply Hnotin. rewrite (sectors_disjoint s c y q Hs Hdc); [done| |done|done]. exact (proj1 (Forall_forall _ _) Hl' y Hy).
    + destruct (decide (q ∈ cluster_sectors s c)); [by rewrite decide_True by set_solver|by rewrite decide_False by set_solver].
Qed.

Lemma deleteFile_ok fuel s l name r k j cl size attr lf : let cur := m_currentDirectoryCluster s in
  volume_wf s → fat_chain (fat_entry s) cur l → data_clusters s l → (length l ≤ fuel)%nat → good_name name → Forall valid_char name →
  dir_lookup s l name = Some (k, j) → dir_fields (contents s k) j = (cl, size, attr) → Z.land attr ATTR_DIRECTORY = 0 →
  fat_chain (fat_entry s) cl lf → chain_clusters s lf → (length lf ≤ fuel)%nat →
  exists s', deleteFile fuel (name ++ 0 :: r) s = Ok (true, s') ∧ disk_is s s' (contents s') ∧
    (∀ q, m_firstDataSector s ≤ q → contents s' q = if decide (q ∈ chain_sectors s l) then unlinked name (contents s q) else contents s q) ∧
    (∀ x, in_table s x → fat_entry s' x = if decide (x ∈ lf) then 0 else fat_entry s x).
Proof.
  intros cur Hs Hc Hl Hf Hn Hv Hlook Hfields Ha Hcf Hlf Hff.
  destruct (findFile_name fuel s l name r Hs Hn Hv Hc Hl Hf) as (s1 & E1 & H1). rewrite Hlook in E1. cbn [found] in E1. rewrite Hfields in E1.
  unfold deleteFile. rewrite (bind_run _ _ _ _ _ E1), Ha. cbn [Z.eqb negb]. pose proof (disk_is_wf _ _ _ H1 Hs) as Hs1.
  destruct (disk_is_fields _ _ _ H1) as (_ & _ & _ & _ & _ & _ & _ & Ecur).
  assert (Eloc : locate fuel (name ++ 0 :: r) s1 = Ok (Some (cur, name ++ 0 :: r), s1)).
  { destruct (aget_cstr_head name r Hn) as (c & Ec & Hc0 & Hin). unfold locate. st. rewrite (bind_lift _ _ _ _ Ec).
    rewrite (proj2 (Z.eqb_neq c slash)) by (intros ->; by apply (no_slash name)).
    rewrite (bind_lift _ None) by (apply strrchr_none; [apply Hn|by apply no_slash]). by rewrite Ecur. }
  rewrite (bind_run _ _ _ _ _ Eloc). unfold remove_entry.
  destruct (scan_chain_delete fuel (name ++ 0 :: r) name s1 cur l Hs1) as (s2 & E2 & H2); [by apply cstr_intro, gn_chars|by eapply same_disk_chain|by eapply same_disk_clusters|done|].
  rewrite (bind_run _ _ _ _ _ E2). rewrite (disk_is_chain_sectors _ _ _ _ H1) in H2. pose proof (disk_is_trans _ _ _ _ _ H1 H2) as H12.
  pose proof (disk_is_wf _ _ _ H12 Hs) as Hs2. cbv beta in H12.
  assert (Hdata : ∀ q, q < m_firstDataSector s → (if decide (q ∈ chain_sectors s l) then unlinked name (contents s1 q) else contents s1 q) = contents s q).
  { intros q Hq. rewrite decide_False; [apply (di_contents _ _ _ H1)|]. intros Hin. pose proof (chain_sector_data s l q Hs Hl Hin). lia. }
  assert (Hent : ∀ y, in_table s y → fat_entry s2 y = fat_entry s y) by (intros y Hy; by eapply disk_is_data_entries).
  destruct (free_chain_ok fuel s2 cl lf Hs2) as (s3 & E3 & H3); [| |done|].
  { eapply fat_chain_ext; [|exact Hcf]. intros x Hx. symmetry. apply Hent. pose proof (proj1 (Forall_forall _ _) Hlf x Hx). unfold in_table. cbn in *. lia. }
  { unfold chain_clusters. destruct (disk_is_fields _ _ _ H12) as (_ & _ & _ & _ & -> & _). exact Hlf. }
  rewrite (bind_run _ _ _ _ _ E3). exists s3. split; [done|]. split; [|split].
  - eapply disk_is_ext; [eapply disk_is_trans; [exact H12|apply H3]|done].
  - intros q Hq. rewrite (fi_data _ _ _ H3) by (by destruct (disk_is_fields _ _ _ H12) as (_ & _ & _ & -> & _)). rewrite (di_contents _ _ _ H12).
    by rewrite (di_contents _ _ _ H1).
  - intros x Hx. rewrite (fat_is_entries _ _ _ x H3) by (by eapply disk_is_in_table). destruct (decide (x ∈ lf)); [done|]. by apply Hent.
Qed.

(** ** There and back *)

(** What follows the first unused entry of a sector, once that entry is marked
    deleted, is not the name when the entries end there. *)
Lemma find_in_sector_gone n i data data' j name :
  0 ≤ i → i + 32 * Z.of_nat n ≤ Z.of_nat (length data) → length data' = length data →
  free_in n i data = Some j → find_in_sector n i data name = None →
  (∀ x, i ≤ x < j → nthz data' x = nthz data x) → nthz data' j = DELETED →
  (j + 32 = i + 32 * Z.of_nat n ∨ nthz data' (j + 32) = 0) → find_in_sector n i data' name = None.
Proof.
  revert i. induction n as [|n IH]; intros i Hi Hl Hl'; [done|]. rewrite free_in_S. cbn [find_in_sector].
  destruct ((nthz data i =? 0) || (nthz data i =? DELETED)) eqn:Efree.
  - intros [= <-] _ _ E5 Hend. unfold kind_of at 1. rewrite E5. cbn [Z.eqb Pos.eqb DELETED].
    destruct n as [|n]; [done|]. destruct Hend as [Hend|Hend]; [lia|]. cbn [find_in_sector]. unfold kind_of at 1. by rewrite Hend.
  - intros Hfree Hfind Heq E5 Hend. pose proof (free_in_range _ _ _ _ Hfree).
    rewrite (kind_of_ext data data') by (lia || done || (intros; apply Heq; lia)).
    assert (Hrest : find_in_sector n (i + 32) data name = None → find_in_sector n (i + 32) data' name = None).
    { intros Hf. apply IH; [lia|lia|done|done|done| |done|]; [intros; apply Heq; lia|]. destruct Hend; [left; lia|by right]. }
    destruct (kind_of data i); [done|by apply Hrest|]. destruct (decide (name0 = name)); [done|by apply Hrest].
Qed.

Lemma find_in_sectors_none f secs name k : find_in_sectors f secs name = None → k ∈ secs → sector_lookup (f k) name = None.
Proof.
  induction secs as [|x secs IH]; [by intros _ ?%not_elem_of_nil|]. cbn. destruct (sector_lookup (f x) name) eqn:E; [done|].
  intros H Hin. apply elem_of_cons in Hin as [-> | Hk]; [exact E|exact (IH H Hk)].
Qed.

Lemma find_in_sectors_all_none f secs name : (∀ k, k ∈ secs → sector_lookup (f k) name = None) → find_in_sectors f secs name = None.
Proof.
  induction secs as [|x secs IH]; intros H; [done|]. cbn. rewrite (H x) by apply list_elem_of_here. apply IH. intros k Hk. apply H.
  by apply list_elem_of_further.
Qed.

Lemma nthz_insert_eq (l : list Z) j v : 0 ≤ j < Z.of_nat (length l) → nthz (<[Z.to_nat j := v]> l) j = v.
Proof. intros H. unfold nthz. rewrite (proj2 (Z.leb_le 0 j)) by lia. by rewrite list_lookup_insert_eq by lia. Qed.

Lemma nthz_insert_ne (l : list Z) j x v : 0 ≤ j → x ≠ j → nthz (<[Z.to_nat j := v]> l) x = nthz l x.
Proof. intros Hj H. unfold nthz. destruct (Z.leb_spec 0 x); [|done]. by rewrite list_lookup_insert_ne by lia. Qed.

(** The sector a new entry was written to, after the entry was deleted. *)
Lemma entry_gone data data' name attr fc size j : length data = 512%nat → sector_lookup data name = None → free_in 16 0 data = Some j →
  put data j (entry_bytes (padded 11 name ++ [0]) attr fc size) = Ok data' → (j + 32 = 512 ∨ nthz data (j + 32) = 0) →
  sector_lookup (<[Z.to_nat j := DELETED]> data') name = None.
Proof.
  intros Hl Hnone Hfree Hput Hend. pose proof (free_in_range _ _ _ _ Hfree) as [Hj0 Hj]. pose proof (put_length _ _ _ _ Hput) as Hl'.
  assert (He : length (entry_bytes (padded 11 name ++ [0]) attr fc size) = 32%nat) by (apply length_entry_bytes; rewrite length_app, length_padded; done).
  pose proof (λ i, nthz_put _ _ _ _ i Hput) as Hn. rewrite He in Hn.
  apply (find_in_sector_gone 16 0 data _ j name); [lia|lia|by rewrite length_insert|done|done| | |].
  - intros x Hx. rewrite nthz_insert_ne by lia. rewrite Hn by lia. by rewrite (proj2 (Z.leb_gt j x)) by lia.
  - apply nthz_insert_eq. lia.
  - destruct Hend as [Hend|Hend]; [left; lia|right]. rewrite nthz_insert_ne by lia. rewrite Hn by lia. rewrite (proj2 (Z.leb_le j _)), (proj2 (Z.ltb_ge _ _)) by lia. done.
Qed.

(** [C5] A file comes and goes: on a volume whose cluster numbers fit into 16 bits,
    a short valid name that the current directory does not have is created with the
    first free cluster, found with it, its attributes and no bytes, and deleted; then
    the name is not found, the table is as it was and no data sector but the
    directory's first has changed. *)
Theorem create_find_delete fuel s l name r attr j : let cur := m_currentDirectoryCluster s in
  volume_wf s → m_totalClusters s ≤ 2 ^ 16 → fat_chain (fat_entry s) cur (cur :: l) → data_clusters s (cur :: l) → (length (cur :: l) <= fuel)%nat →
  good_name name → Forall valid_char name → is_u8 attr → attr ≠ ATTR_LFN → Z.land attr ATTR_DIRECTORY = 0 → dir_lookup s (cur :: l) name = None →
  free_in 16 0 (contents s (first_sector s cur)) = Some j → (j + 32 = 512 ∨ nthz (contents s (first_sector s cur)) (j + 32) = 0) →
  (exists x, 2 ≤ x < m_totalClusters s ∧ fat_entry s x = 0) →
  exists c s1 s2 s3 s4, first_free (fat_entry s) 2 c ∧
    createFile fuel (name ++ 0 :: r) attr s = Ok (true, s1) ∧
    findFile fuel (name ++ 0 :: r) s1 = Ok (Some (c, 0, attr), s2) ∧
    deleteFile fuel (name ++ 0 :: r) s2 = Ok (true, s3) ∧
    findFile fuel (name ++ 0 :: r) s3 = Ok (None, s4) ∧
    (forall x, in_table s x → fat_entry s3 x = fat_entry s x) ∧
    forall q, m_firstDataSector s ≤ q → q ≠ first_sector s cur → contents s3 q = contents s q.
Proof.
  intros cur Hs Htot Hc Hl Hf Hn Hv Ha Hlfn Hdir Hnone Hfree Hend Hroom.
  destruct (createFile_ok fuel s l name r attr j Hs Hc Hl Hf Hn Hv Ha Hlfn Hnone Hfree Hroom) as (c & s1 & E1 & Hff & Hct & data' & D1 & Hput & Hd1 & Hf1 & Hc1 & Esl & Elk & Efd).
  fold cur in Hput, Hd1, Hc1, Elk. pose proof (disk_is_wf _ _ _ D1 Hs) as Hs1. pose proof (disk_is_fields _ _ _ D1) as (_ & Espc & _ & Edata & Etot & _ & _ & Ecur).
  pose proof Hl as [Hdc _]%Forall_cons. pose proof (first_sector_data s cur Hs Hdc) as Hfirst.
  assert (Hlow : low16 c = c) by (apply Z.mod_small; destruct Hff; lia).
  assert (Hl1 : data_clusters s1 (cur :: l)) by (by eapply same_disk_clusters).
  assert (Ec1 : contents s1 (first_sector s cur) = data') by (rewrite Hd1 by done; by rewrite Z.eqb_refl).
  destruct (findFile_name fuel s1 (cur :: l) name r Hs1 Hn Hv) as (s2 & E2 & H2); [by rewrite Ecur|done|done|].
  rewrite Elk in E2. cbn [found] in E2. rewrite Ec1, Efd, Hlow in E2. pose proof (disk_is_trans _ _ _ _ _ D1 H2) as D2.
  pose proof (disk_is_wf _ _ _ D2 Hs) as Hs2. pose proof (disk_is_fields _ _ _ D2) as (_ & _ & _ & Edata2 & Etot2 & _ & _ & Ecur2).
  assert (Hent2 : ∀ x, in_table s x → fat_entry s2 x = fupd (fat_entry s) c END_OF_CHAIN x) by (intros x Hx; rewrite (same_disk_entry _ _ _ H2); by apply Hf1).
  assert (Hcin : in_table s c) by (destruct Hff; unfold in_table; lia).
  assert (Elk2 : dir_lookup s2 (cur :: l) name = Some (first_sector s cur, j)).
  { unfold dir_lookup. rewrite (disk_is_chain_sectors _ _ _ _ H2), (find_in_sectors_same _ _ _ _ H2). exact Elk. }
  destruct (deleteFile_ok fuel s2 (cur :: l) name r (first_sector s cur) j c 0 attr [c] Hs2) as (s3 & E3 & D3 & Hd3 & Hf3); try done.
  { rewrite Ecur2. eapply same_disk_chain; [exact H2|done]. } { by eapply same_disk_clusters. }
  { by rewrite (di_contents _ _ _ H2), Ec1, Efd, Hlow. }
  { cbn. rewrite (Hent2 c Hcin). unfold fupd. by rewrite Z.eqb_refl. }
  { constructor; [|constructor]. rewrite Etot2. destruct Hff; lia. } { cbn in Hf |- *. lia. }
  pose proof (disk_is_trans _ _ _ _ _ D2 D3) as D23. rewrite (disk_is_chain_sectors _ _ _ _ D2), Edata2 in Hd3.
  assert (Hc3 : ∀ q, m_firstDataSector s ≤ q → contents s3 q = if q =? first_sector s cur then <[Z.to_nat j := DELETED]> data' else contents s q).
  { intros q Hq. rewrite (Hd3 q Hq), (di_contents _ _ _ H2), (Hd1 q Hq). destruct (Z.eqb_spec q (first_sector s cur)) as [->|Hne].
    - rewrite decide_True; [unfold unlinked; by rewrite Esl|]. rewrite chain_sectors_cons. destruct (cluster_sectors_first s cur Hs) as [rest ->]. apply list_elem_of_here.
    - destruct (decide _) as [Hin|]; [|done]. unfold unlinked. by rewrite (find_in_sectors_none _ _ _ _ Hnone Hin). }
  assert (Ht3 : ∀ x, in_table s x → fat_entry s3 x = fat_entry s x).
  { intros x Hx. rewrite Hf3 by (by eapply disk_is_in_table). rewrite (Hent2 x Hx). unfold fupd. destruct Hff as (_ & Ez & _).
    destruct (Z.eqb_spec x c) as [->|Hne]; [by rewrite decide_True by set_solver|by rewrite decide_False by set_solver]. }
  destruct (findFile_name fuel s3 (cur :: l) name r) as (s4 & E4 & _); [by eapply disk_is_wf|done|done| |by eapply same_disk_clusters|done|].
  { destruct (disk_is_fields _ _ _ D23) as (_ & _ & _ & _ & _ & _ & _ & ->). eapply fat_chain_ext; [|exact Hc]. intros x Hx. symmetry. apply Ht3.
    pose proof (proj1 (Forall_forall _ _) Hl x Hx). unfold in_table, data_cluster in *. lia. }
  assert (Eg : dir_lookup s3 (cur :: l) name = None).
  { unfold dir_lookup. rewrite (disk_is_chain_sectors _ _ _ _ D23). apply find_in_sectors_all_none. intros q Hq.
    destruct (chain_sector_data s _ q Hs Hl Hq) as [Hq0 _]. rewrite (Hc3 q Hq0). destruct (Z.eqb_spec q (first_sector s cur)) as [->|_].
    - apply (entry_gone (contents s (first_sector s cur)) data' name attr c 0); [by apply sector_length|exact (find_in_sectors_none _ _ _ _ Hnone Hq)|done|done|done].
    - exact (find_in_sectors_none _ _ _ _ Hnone Hq). }
  rewrite Eg in E4. exists c, s1, s2, s3, s4. split_and!; try done. intros q Hq Hne. rewrite (Hc3 q Hq). by rewrite (proj2 (Z.eqb_neq q _)).
Qed.
End files.

(** ** Witnesses *)

Lemma hello_valid : Forall valid_char hello.
Proof. unfold valid_char, hello. repeat (constructor; [set_solver by discriminate|]). constructor. Qed.

Lemma create_find_delete_witness : exists c s1 s2 s3 s4, first_free (fat_entry vol0) 2 c ∧
  createFile 2 (hello ++ 0 :: []) 0x20 vol0 = Ok (true, s1) ∧ findFile 2 (hello ++ 0 :: []) s1 = Ok (Some (c, 0, 0x20), s2) ∧
  deleteFile 2 (hello ++ 0 :: []) s2 = Ok (true, s3) ∧ findFile 2 (hello ++ 0 :: []) s3 = Ok (None, s4) ∧ fat_entry s3 2 = 3.
Proof.
  destruct (create_find_delete 2 vol0 [3] hello [] 0x20 0 vol0_wf) as (c & s1 & s2 & s3 & s4 & Hff & E1 & E2 & E3 & E4 & Ht & _).
  - vm_compute. discriminate.
  - exact vol0_chain.
  - exact vol0_clusters.
  - exact (le_n 2).
  - exact hello_good.
  - exact hello_valid.
  - unfold is_u8. lia.
  - discriminate.
  - reflexivity.
  - vm_compute. reflexivity.
  - vm_compute. reflexivity.
  - right. vm_compute. reflexivity.
  - exists 4. split; [vm_compute; split; [discriminate|reflexivity]|vm_compute; reflexivity].
  - exists c, s1, s2, s3, s4. split; [exact Hff|]. split; [exact E1|]. split; [exact E2|]. split; [exact E3|]. split; [exact E4|].
    rewrite Ht; [vm_compute; reflexivity|]. unfold in_table. cbn. lia.
Defined.
