(* ===== verification/Pages.v ===== *)
(** * Runs of pages (src/kernel/src/core/{process,ipc,syscall}.cpp)

    The loops over consecutive pages that the process manager and the IPC
    manager run on the frames and page tables of Pmm.v and Vmm.v: mapping fresh
    frames, giving mapped frames back, and [memset] through a mapping.  A page
    that is touched through no mapping is a page fault: undefined. *)

From S2P Require Import Prelude Pmm Vmm.

#[local] Abbreviation VM := (ST VirtualMemoryManager).

(** ** Definitions *)

Definition vm_allocate_frame : VM Z := λ v, r ← allocate_frame (v_pmm v); Ok (r.1, set_pmm v r.2).
Definition vm_free_frame (a : Z) : VM unit := λ v, s ← free_frame (v_pmm v) a; Ok (tt, set_pmm v s).
Definition vm_map_page (virt phys : Z) (w : bool) : VM unit := λ v, v ← map_page v virt phys w; Ok (tt, v).
Definition vm_unmap_page (virt : Z) : VM unit := λ v, v ← unmap_page v virt; Ok (tt, v).
Definition vm_get_physical_address (virt : Z) : VM Z := λ v, a ← get_physical_address v virt; Ok (a, v).

(** [for (i ...) { addr = base + i * 4096; ... }]: mapping [n] fresh frames; the
    index at which no frame was left, if so. *)
Fixpoint map_loop (n : nat) (i base : Z) (w : bool) : VM (option Z) :=
  match n with
  | O => mret None
  | S n' =>
      let addr := u64 (base + i * 4096) in
      phys ← vm_allocate_frame;
      if phys =? 0 then mret (Some i) else
      vm_map_page addr phys w;;
      map_loop n' (i + 1) base w
  end.

Definition release_page (addr : Z) : VM unit :=
  phys ← vm_get_physical_address addr;
  if phys =? 0 then mret tt else
  vm_free_frame phys;;
  vm_unmap_page addr.

Fixpoint release_loop (n : nat) (i base : Z) : VM unit :=
  match n with
  | O => mret tt
  | S n' => release_page (u64 (base + i * 4096));; release_loop n' (i + 1) base
  end.

(** [for (addr = start; addr < stop; addr += 4096)]. *)
Fixpoint release_range (fuel : nat) (addr stop : Z) : VM unit :=
  match fuel with
  | O => no_fuel
  | S fuel' =>
      if addr <? stop then release_page addr;; release_range fuel' (u64 (addr + 4096)) stop
      else mret tt
  end.

(** [memset(page, 0, 4096)] through the page tables. *)
Definition zero_page (addr : Z) : VM unit :=
  phys ← vm_get_physical_address addr;
  if phys =? 0 then lift UB else
  modify (λ v, set_mem v (λ x, if (phys <=? x) && (x <? phys + 4096) then 0 else v_mem v x)).

Fixpoint zero_loop (n : nat) (i base : Z) : VM unit :=
  match n with
  | O => mret tt
  | S n' => zero_page (u64 (base + i * 4096));; zero_loop n' (i + 1) base
  end.

(** ** Rounding to pages *)

Lemma land_page_mask x : 0 ≤ x < 2 ^ 64 → Z.land x PAGE_MASK = x / 4096 * 4096.
Proof.
  intros Hx. change 4096 with (2 ^ 12). rewrite <- Z.shiftr_div_pow2, <- Z.shiftl_mul_pow2 by done.
  apply Z.bits_inj'. intros b Hb. rewrite Z.land_spec, page_mask_testbit, Z.shiftl_spec by done.
  destruct (Z.leb_spec 12 b).
  - rewrite Z.shiftr_spec by lia. replace (b - 12 + 12) with b by lia.
    destruct (Z.ltb_spec b 64); [by rewrite andb_true_r|]. cbn. rewrite andb_false_r. symmetry.
    destruct (decide (x = 0)) as [->|]; [apply Z.bits_0|]. apply Z.bits_above_log2; [lia|].
    assert (Z.log2 x < 64) by (apply Z.log2_lt_pow2; lia). lia.
  - rewrite (Z.testbit_neg_r _ (b - 12)) by lia. cbn. by rewrite andb_false_r.
Qed.

(** ** Distinct pages *)

Definition page_number (va : Z) : Z := (va / 4096) `mod` 2 ^ 36.

Lemma index_div va n : 0 ≤ n → Z.land (Z.shiftr va n) 0x1FF = (va / 2 ^ n) `mod` 512.
Proof.
  intros Hn. rewrite Z.shiftr_div_pow2 by done. change 0x1FF with (Z.ones 9).
  by rewrite Z.land_ones.
Qed.

Lemma page_number_indices va :
  page_number va =
  pt_index va + 512 * (pd_index va + 512 * (pdpt_index va + 512 * pml4_index va)).
Proof.
  unfold page_number, pt_index, pd_index, pdpt_index, pml4_index. rewrite !index_div by done.
  change (2 ^ 12) with 4096. set (x := va / 4096).
  replace (va / 2 ^ 21) with (x / 512) by (unfold x; by rewrite Z.div_div).
  replace (va / 2 ^ 30) with (x / 512 / 512) by (unfold x; by rewrite !Z.div_div).
  replace (va / 2 ^ 39) with (x / 512 / 512 / 512) by (unfold x; by rewrite !Z.div_div).
  change (2 ^ 36) with (512 * (512 * (512 * 512))).
  rewrite !Z.rem_mul_r by done. done.
Qed.

Lemma same_page_number va va' : same_page va va' → page_number va' = page_number va.
Proof. intros [[= E1 E2 E3] E4]. rewrite !page_number_indices. congruence. Qed.

Lemma index9_range x n : 0 ≤ Z.land (Z.shiftr x n) 0x1FF < 512.
Proof. apply (index_mask_ok x n). Qed.

Lemma page_number_same va va' : page_number va' = page_number va → same_page va va'.
Proof.
  rewrite !page_number_indices. intros E. unfold same_page, path.
  pose proof (index9_range va 12 : 0 ≤ pt_index va < 512). pose proof (index9_range va 21 : 0 ≤ pd_index va < 512).
  pose proof (index9_range va 30 : 0 ≤ pdpt_index va < 512).
  pose proof (index9_range va' 12 : 0 ≤ pt_index va' < 512). pose proof (index9_range va' 21 : 0 ≤ pd_index va' < 512).
  pose proof (index9_range va' 30 : 0 ≤ pdpt_index va' < 512).
  assert (pml4_index va' = pml4_index va ∧ pdpt_index va' = pdpt_index va ∧ pd_index va' = pd_index va ∧
    pt_index va' = pt_index va) as (-> & -> & -> & ->) by lia. done.
Qed.

Lemma pages_distinct base i j :
  0 ≤ base → base `mod` 4096 = 0 → 0 ≤ i → 0 ≤ j → i ≠ j → - 2 ^ 36 < i - j < 2 ^ 36 →
  ¬ same_page (base + i * 4096) (base + j * 4096).
Proof.
  intros Hb Ha Hi Hj Hne Hd E%same_page_number. unfold page_number in E.
  rewrite !Z.div_add in E by done. set (b := base / 4096) in *.
  assert (H : (i - j) `mod` 2 ^ 36 = 0).
  { replace (i - j) with (b + i - (b + j)) by lia. rewrite Zminus_mod, <- E, Z.sub_diag. done. }
  apply Z.mod_divide in H; [|done]. destruct H as [c H].
  assert (c = 0) by nia. lia.
Qed.

(** ** Steps of the tree *)

Section steps.
Implicit Types (vm : VirtualMemoryManager) (tab : gmap (list Z) Z).

(** Writes outside the tables leave the tree alone. *)
Lemma data_write_inv vm tab m :
  (∀ q a j, tab !! q = Some a → index_ok j → m (a + 8 * j) = v_mem vm (a + 8 * j)) →
  vmm_inv vm tab →
  vmm_inv (set_mem vm m) tab ∧ ∀ q j, index_ok j → ent (set_mem vm m) tab q j = ent vm tab q j.
Proof.
  intros Hm Hi.
  assert (He : ∀ q j, index_ok j → ent (set_mem vm m) tab q j = ent vm tab q j).
  { intros q j Hj. unfold ent. destruct (tab !! q) as [a|] eqn:E; [|done]. by apply (Hm q). }
  split; [|done]. destruct Hi. constructor; try done.
  - intros. rewrite He by done. auto.
  - intros p i Hj. rewrite He by done. auto.
  - intros. rewrite He by done. auto.
Qed.

(** A change of the frame manager that keeps the tables' frames taken. *)
Lemma pmm_change_inv vm tab s :
  pmm_wf s → same_layout (v_pmm vm) s →
  (∀ q k, tab !! q = Some (frame_addr (v_pmm vm) k) → 0 ≤ k → used (v_pmm vm) k = true → used s k = true) →
  vmm_inv vm tab → vmm_inv (set_pmm vm s) tab.
Proof.
  intros Hwf [Ht Hs] Hu [V1 V2 V3 V4 V5 V6 V7 V8 V9 V10]. constructor; cbn; try done.
  - by rewrite Hs.
  - by rewrite Hs, Ht.
  - intros p a Hp. destruct (V5 p a Hp) as [(k & -> & Hk & Huk) Hl]. split; [|done].
    exists k. rewrite Ht. split; [unfold frame_addr; by rewrite Hs|]. split; [done|].
    apply (Hu p); [done|lia|done].
Qed.

Lemma take_inv vm tab k s :
  takes (v_pmm vm) k s → vmm_inv vm tab →
  vmm_inv (set_pmm vm s) tab ∧ grown vm tab (set_pmm vm s) tab.
Proof.
  intros Ht Hi.
  assert (Hu : ∀ j, 0 ≤ j → used (v_pmm vm) j = true → used s j = true).
  { intros j Hj Hu. by rewrite (tk_used _ _ _ Ht), Hu. }
  split; [|constructor; [apply Ht|exact Hu|by left]].
  apply pmm_change_inv; [apply Ht|apply Ht| |done]. intros _ j _ Hj. by apply Hu.
Qed.

Lemma translate_range vm tab va :
  vmm_inv vm tab → 0 ≤ translate vm tab va < 2 ^ 48 ∧ translate vm tab va `mod` 4096 = 0.
Proof.
  intros Hi. unfold translate. destruct (present _); [|done].
  assert (Hh : huge_page (leaf vm tab va) = false) by (apply (vi_leaf _ _ Hi); [done|apply index_mask_ok]).
  split.
  - assert (0 ≤ address (leaf vm tab va)).
    { unfold address. rewrite Hh. apply Z.land_nonneg. by right. }
    split; [done|]. destruct (Z.lt_ge_cases (address (leaf vm tab va)) (2 ^ 48)) as [|Hge]; [done|exfalso].
    assert (H0 : 0 < address (leaf vm tab va)) by lia.
    pose proof (Z.bit_log2 _ H0) as Hb. apply Z.log2_le_pow2 in Hge; [|done].
    rewrite address_testbit in Hb by lia. lia.
  - change 4096 with (2 ^ 12). apply Z.bits_inj_0. intros b.
    destruct (Z.lt_ge_cases b 0); [by apply Z.testbit_neg_r|].
    destruct (Z.lt_ge_cases b 12).
    + rewrite Z.mod_pow2_bits_low by lia. rewrite address_testbit by done. lia.
    + by rewrite Z.mod_pow2_bits_high by lia.
Qed.

(** An aligned address below memory's end that a managed frame contains is the
    frame's own. *)
Lemma aligned_frame vm tab a :
  vmm_inv vm tab → a `mod` 4096 = 0 → owns_addr (v_pmm vm) a →
  a = frame_addr (v_pmm vm) (frame_index (v_pmm vm) a).
Proof.
  intros Hi Ha _. pose proof (vi_aligned _ _ Hi) as Hs.
  unfold frame_addr, frame_index, PAGE_SIZE. apply Z.mod_divide in Ha as [x ->]; [|done].
  apply Z.mod_divide in Hs as [y ->]; [|done].
  rewrite <- Z.mul_sub_distr_r, Z.div_mul by done. lia.
Qed.

Lemma free_inv vm tab a :
  vmm_inv vm tab → a `mod` 4096 = 0 → (∀ q, tab !! q ≠ Some a) →
  exists s, free_frame (v_pmm vm) a = Ok s ∧ vmm_inv (set_pmm vm s) tab ∧ same_layout (v_pmm vm) s ∧
    forall k, 0 ≤ k < m_total_frames (v_pmm vm) →
      used s k = true ↔ used (v_pmm vm) k = true ∧ a ≠ frame_addr (v_pmm vm) k.
Proof.
  intros Hi Ha Htab. pose proof (vi_pmm _ _ Hi) as Hwf.
  destruct (free_frame_ok (v_pmm vm) a Hwf) as [(Hown & Hu & s & E & Hr)|[Hno E]].
  - pose proof (aligned_frame _ _ _ Hi Ha Hown) as Ea. exists s. split; [done|].
    assert (Hused : ∀ k, 0 ≤ k → used s k = true ↔ used (v_pmm vm) k = true ∧ a ≠ frame_addr (v_pmm vm) k).
    { intros k Hk. rewrite (rl_used _ _ _ Hr), andb_true_iff, negb_true_iff, Z.eqb_neq by done.
      split; intros [? Hne]; (split; [done|]); intros E'; apply Hne.
      - by rewrite E', frame_index_addr.
      - by rewrite E'. }
    split_and!; [|apply Hr|intros k Hk; apply Hused; lia].
    apply pmm_change_inv; [apply (free_frame_wf _ _ _ Hwf E)|apply Hr| |done].
    intros q k Hq Hk Huk. apply Hused; [done|]. split; [done|]. intros ->. by apply (Htab q).
  - exists (v_pmm vm). split; [done|]. split_and!; [by destruct vm|done|].
    intros k Hk. split; [|tauto]. intros Huk. split; [done|]. intros ->. apply Hno.
    rewrite frame_index_addr. split; [|done]. unfold owns_addr, frame_addr, PAGE_SIZE.
    pose proof (sh_start _ (wf_shape _ Hwf)). lia.
Qed.

(** ** Mapping a run *)

Definition mappable vm tab (va : Z) : Prop := no_huge vm tab va ∧ present (leaf vm tab va) = false.

(** [page base i]: the address of page number [i] of the run. *)
Definition page (base i : Z) : Z := base + i * 4096.

(** A run of pages inside the address space. *)
Definition run_ok (base i : Z) (n : nat) : Prop :=
  0 ≤ base ∧ base `mod` 4096 = 0 ∧ 0 ≤ i ∧ base + (i + Z.of_nat n) * 4096 ≤ 2 ^ 64 ∧
  Z.of_nat n < 2 ^ 36.

Lemma run_ok_next base i n : run_ok base i (S n) → run_ok base (i + 1) n.
Proof. unfold run_ok. lia. Qed.

Lemma run_ok_distinct base i n j :
  run_ok base i (S n) → i < j < i + Z.of_nat (S n) → ¬ same_page (page base i) (page base j).
Proof. intros (? & ? & ? & _ & ?) Hj. apply pages_distinct; lia. Qed.

(** [fs] are fresh frames, and the pages of the run are mapped to them. *)
Record mapped vm tab vm' tab' (base i : Z) (fs : list Z) : Prop := {
  mp_inv : vmm_inv vm' tab';
  mp_grown : grown vm tab vm' tab';
  mp_nodup : NoDup fs;
  mp_frame f : f ∈ fs → exists k, f = frame_addr (v_pmm vm) k ∧ 0 ≤ k < m_total_frames (v_pmm vm) ∧
    used (v_pmm vm) k = false ∧ used (v_pmm vm') k = true;
  mp_data f q : f ∈ fs → tab' !! q ≠ Some f;
  mp_translate (j : nat) f : fs !! j = Some f → translate vm' tab' (page base (i + Z.of_nat j)) = f;
  mp_huge va : no_huge vm tab va → no_huge vm' tab' va;
  mp_leaf va : (∀ j, i ≤ j < i + Z.of_nat (length fs) → ¬ same_page (page base j) va) →
    leaf vm' tab' va = leaf vm tab va
}.

Lemma mp_other vm tab vm' tab' base i fs va :
  mapped vm tab vm' tab' base i fs →
  (∀ j, i ≤ j < i + Z.of_nat (length fs) → ¬ same_page (page base j) va) →
  translate vm' tab' va = translate vm tab va.
Proof. intros M Hva. unfold translate. by rewrite (mp_leaf _ _ _ _ _ _ _ M). Qed.

Lemma mapped_nil vm tab base i : vmm_inv vm tab → mapped vm tab vm tab base i [].
Proof. intros Hi. constructor; try done; [by apply grown_same|by constructor|set_solver|set_solver]. Qed.

Lemma grown_unused vm tab vm' tab' k :
  grown vm tab vm' tab' → 0 ≤ k → used (v_pmm vm') k = false → used (v_pmm vm) k = false.
Proof.
  intros G Hk H. destruct (used (v_pmm vm) k) eqn:E; [|done]. by rewrite (gr_used _ _ _ _ G) in H.
Qed.

(** A frame taken before a step is no table the step adds. *)
Lemma grown_data vm tab vm' tab' k q :
  grown vm tab vm' tab' → 0 ≤ k → used (v_pmm vm) k = true →
  tab !! q ≠ Some (frame_addr (v_pmm vm) k) → tab' !! q ≠ Some (frame_addr (v_pmm vm) k).
Proof.
  intros G Hk Hu Hn Hq. destruct (gr_new _ _ _ _ G _ _ Hq) as [?|Hun]; [done|].
  rewrite (Hun k Hk eq_refl) in Hu. done.
Qed.

Lemma unused_not_table vm tab k q :
  vmm_inv vm tab → 0 ≤ k → used (v_pmm vm) k = false → tab !! q ≠ Some (frame_addr (v_pmm vm) k).
Proof.
  intros Hi Hk Hu Hq. destruct (vi_frame _ _ Hi _ _ Hq) as [(k' & E%frame_addr_inj & _ & Hu') _]. congruence.
Qed.

Lemma retains_translate_eq vm tab vm' tab' va va' :
  retains vm tab vm' tab' (path va) (pt_index va) → ¬ same_page va va' →
  leaf vm' tab' va' = leaf vm tab va'.
Proof. intros R Hne. unfold leaf. apply (rt_leaf _ _ _ _ _ _ R); [done|apply index_mask_ok|exact Hne]. Qed.

Lemma frame_land vm k :
  m_memory_start (v_pmm vm) `mod` 4096 = 0 →
  m_memory_start (v_pmm vm) + m_total_frames (v_pmm vm) * PAGE_SIZE ≤ 2 ^ 48 →
  pmm_wf (v_pmm vm) → 0 ≤ k < m_total_frames (v_pmm vm) →
  Z.land (frame_addr (v_pmm vm) k) 0xFFFFFFFFF000 = frame_addr (v_pmm vm) k.
Proof.
  intros Ha Hb Hwf Hk. pose proof (sh_start _ (wf_shape _ Hwf)). unfold frame_addr, PAGE_SIZE in *.
  apply land_addr_mask; [lia|]. by rewrite Z.mod_add.
Qed.

(** One page mapped to a fresh frame. *)
Lemma map_one_ok vm tab va w :
  vmm_inv vm tab → mappable vm tab va → 4 ≤ m_free_frames (v_pmm vm) →
  exists f s vm' tab', allocate_frame (v_pmm vm) = Ok (f, s) ∧ f ≠ 0 ∧
    map_page (set_pmm vm s) va f w = Ok vm' ∧ mapped vm tab vm' tab' va 0 [f] ∧
    m_free_frames (v_pmm vm) - 4 ≤ m_free_frames (v_pmm vm') ∧
    (∀ va', ¬ same_page va va' → leaf vm' tab' va' = leaf vm tab va').
Proof.
  intros Hi [Hn Hpr] Hf. pose proof (vi_pmm _ _ Hi) as Hwf.
  destruct (allocate_frame_takes (v_pmm vm) Hwf ltac:(lia)) as (k & s & Ht & Ea).
  destruct (take_inv _ _ _ _ Ht Hi) as [Hi1 G1].
  set (f := frame_addr (v_pmm vm) k) in *.
  assert (Hleaf1 : ∀ va, leaf (set_pmm vm s) tab va = leaf vm tab va) by done.
  destruct (map_page_ok (set_pmm vm s) tab va f w Hi1 Hn) as (vm' & tab' & E & R & L & F).
  { cbn. rewrite (tk_free _ _ _ Ht). lia. }
  rewrite Hleaf1, Hpr in L. cbn in F. rewrite (tk_free _ _ _ Ht) in F.
  pose proof (tk_range _ _ _ Ht) as Hk.
  assert (Hfl : Z.land f 0xFFFFFFFFF000 = f) by (apply frame_land; [apply Hi|apply Hi|done|done]).
  exists f, s, vm', tab'. split_and!; [done| |done| |lia|].
  { pose proof (sh_start _ (wf_shape _ Hwf)). unfold f, frame_addr, PAGE_SIZE. lia. }
  2:{ intros va' Hne. by rewrite (retains_translate_eq _ _ _ _ _ _ R Hne). }
  pose proof (grown_trans _ _ _ _ _ _ G1 (rt_grown _ _ _ _ _ _ R)) as G.
  constructor; [apply R|exact G|apply NoDup_singleton| | | | |].
  - intros f' ->%list_elem_of_singleton. exists k. split_and!; [done|lia|lia|apply Ht|].
    apply (gr_used _ _ _ _ (rt_grown _ _ _ _ _ _ R)); [lia|]. cbn.
    rewrite (tk_used _ _ _ Ht) by lia. by rewrite Z.eqb_refl, orb_true_r.
  - intros f' q ->%list_elem_of_singleton.
    assert (Ef : f = frame_addr (v_pmm (set_pmm vm s)) k)
      by (unfold f, frame_addr; cbn; by destruct (tk_layout _ _ _ Ht) as [_ ->]).
    rewrite Ef. apply (grown_data _ _ _ _ _ _ (rt_grown _ _ _ _ _ _ R)); [lia| |].
    + cbn. rewrite (tk_used _ _ _ Ht) by lia. by rewrite Z.eqb_refl, orb_true_r.
    + rewrite <- Ef. apply unused_not_table; [done|lia|apply Ht].
  - intros [|j] f' [= <-]. replace (page va (0 + Z.of_nat 0)) with va by (unfold page; lia).
    unfold translate. by rewrite L, leaf_entry_present, leaf_entry_address, land_masks.
  - intros va' Hn'. by eapply retains_no_huge.
  - intros va' Hne. rewrite (retains_translate_eq _ _ _ _ _ va' R); [done|].
    replace va with (page va 0) by (unfold page; lia). apply Hne. cbn. lia.
Qed.

Lemma map_loop_ok n : ∀ i base w vm tab,
  vmm_inv vm tab → run_ok base i n → 4 * Z.of_nat n ≤ m_free_frames (v_pmm vm) →
  (∀ j, i ≤ j < i + Z.of_nat n → mappable vm tab (page base j)) →
  exists fs vm' tab', map_loop n i base w vm = Ok (None, vm') ∧ length fs = n ∧
    mapped vm tab vm' tab' base i fs.
Proof.
  induction n as [|n IH]; intros i base w vm tab Hi Hrun Hf Hmap.
  { exists [], vm, tab. split_and!; [done|done|by apply mapped_nil]. }
  pose proof Hrun as (Hb & Ha & H0 & Hle & Hn).
  destruct (map_one_ok vm tab (page base i) w Hi (Hmap i ltac:(lia)) ltac:(lia))
    as (f & s & vm1 & tab1 & Ea & Hf0 & Em & M1 & F1 & L1).
  destruct (IH (i + 1) base w vm1 tab1) as (fs & vm' & tab' & E & Hlen & M2);
    [apply M1|by apply run_ok_next|lia| |].
  { intros j Hj. destruct (Hmap j ltac:(lia)) as [Hnh Hpr]. split; [by apply (mp_huge _ _ _ _ _ _ _ M1)|].
    rewrite L1; [done|]. apply (run_ok_distinct _ _ n); [done|lia]. }
  exists (f :: fs), vm', tab'. split_and!; [|by cbn; rewrite Hlen|].
  - cbn [map_loop]. rewrite u64_small by lia. fold (page base i).
    assert (E1 : vm_allocate_frame vm = Ok (f, set_pmm vm s)) by (unfold vm_allocate_frame; by rewrite Ea).
    rewrite (bind_run _ _ _ _ _ E1), (proj2 (Z.eqb_neq f 0)) by done.
    assert (E2 : vm_map_page (page base i) f w (set_pmm vm s) = Ok (tt, vm1))
      by (unfold vm_map_page; by rewrite Em).
    by rewrite (bind_run _ _ _ _ _ E2).
  - destruct (gr_layout _ _ _ _ (mp_grown _ _ _ _ _ _ _ M1)) as [Htot Hst].
    destruct (mp_frame _ _ _ _ _ _ _ M1 f ltac:(by left)) as (k & Ef & Hk & Hun & Hus).
    constructor; [apply M2|eapply grown_trans; [apply M1|apply M2]|..].
    + apply NoDup_cons. split; [|apply M2]. intros Hin.
      destruct (mp_frame _ _ _ _ _ _ _ M2 f Hin) as (k' & Ef' & Hk' & Hun' & _).
      assert (k' = k) as ->; [|congruence]. apply (frame_addr_inj (v_pmm vm)).
      rewrite <- Ef, Ef'. unfold frame_addr. by rewrite Hst.
    + intros f' [->|Hin]%elem_of_cons.
      * exists k. split_and!; [done|lia|lia|done|]. apply (gr_used _ _ _ _ (mp_grown _ _ _ _ _ _ _ M2)); [lia|done].
      * destruct (mp_frame _ _ _ _ _ _ _ M2 f' Hin) as (k' & Ef' & Hk' & Hun' & Hus').
        rewrite Htot in Hk'. exists k'. split_and!; [|lia|lia| |done].
        -- rewrite Ef'. unfold frame_addr. by rewrite Hst.
        -- eapply grown_unused; [apply M1|lia|done].
    + intros f' q [->|Hin]%elem_of_cons; [|by apply (mp_data _ _ _ _ _ _ _ M2)].
      assert (Ef1 : f = frame_addr (v_pmm vm1) k) by (rewrite Ef; unfold frame_addr; by rewrite Hst).
      rewrite Ef1. apply (grown_data _ _ _ _ _ _ (mp_grown _ _ _ _ _ _ _ M2)); [lia|done|].
      rewrite <- Ef1. apply (mp_data _ _ _ _ _ _ _ M1). by left.
    + intros [|j] f' Hj.
      * injection Hj as <-. rewrite Z.add_0_r. rewrite (mp_other _ _ _ _ _ _ _ _ M2).
        -- pose proof (mp_translate _ _ _ _ _ _ _ M1 0%nat f eq_refl) as Ht.
           by replace (page (page base i) (0 + Z.of_nat 0)) with (page base i) in Ht by (unfold page; lia).
        -- intros j Hj' Hsp. rewrite Hlen in Hj'. apply (run_ok_distinct base i n j Hrun ltac:(lia)).
           by destruct Hsp.
      * replace (i + Z.of_nat (S j)) with (i + 1 + Z.of_nat j) by lia. by apply (mp_translate _ _ _ _ _ _ _ M2).
    + intros va Hva. by apply (mp_huge _ _ _ _ _ _ _ M2), (mp_huge _ _ _ _ _ _ _ M1).
    + intros va Hva. cbn [length] in Hva.
      rewrite (mp_leaf _ _ _ _ _ _ _ M2) by (intros j Hj; apply Hva; lia).
      apply (mp_leaf _ _ _ _ _ _ _ M1). intros j Hj. cbn in Hj. replace j with 0 by lia.
      replace (page (page base i) 0) with (page base i) by (unfold page; lia). apply Hva. lia.
Qed.

(** ** Giving pages back *)

Fixpoint release_list (l : list Z) : VM unit :=
  match l with [] => mret tt | a :: l => release_page a;; release_list l end.

(** The pages of [l] are unmapped, exactly the frames they were mapped to are
    free, and every other page is as it was. *)
Record released vm tab vm' (l : list Z) : Prop := {
  rs_inv : vmm_inv vm' tab;
  rs_layout : same_layout (v_pmm vm) (v_pmm vm');
  rs_used k : 0 ≤ k < m_total_frames (v_pmm vm) →
    used (v_pmm vm') k = true ↔ used (v_pmm vm) k = true ∧
      ∀ a, a ∈ l → translate vm tab a ≠ frame_addr (v_pmm vm) k;
  rs_unmapped a va : a ∈ l → same_page a va → translate vm' tab va = 0;
  rs_huge va : no_huge vm tab va → no_huge vm' tab va;
  rs_other va : (∀ a, a ∈ l → ¬ same_page a va) → translate vm' tab va = translate vm tab va
}.

#[export] Instance same_page_dec a va : Decision (same_page a va).
Proof. unfold same_page. apply _. Defined.

(** Pages that may be given back: their frames hold no page table. *)
Definition releasable vm tab (va : Z) : Prop :=
  no_huge vm tab va ∧ ∀ q, tab !! q ≠ Some (translate vm tab va).

Lemma same_page_translate vm tab a va : same_page a va → translate vm tab va = translate vm tab a.
Proof. intros [E1 E2]. unfold translate, leaf. by rewrite E1, E2. Qed.

Lemma not_table_0 vm tab q : vmm_inv vm tab → tab !! q ≠ Some 0.
Proof. intros Hi Hq. pose proof (inv_table _ _ _ _ Hi Hq). lia. Qed.

Lemma release_page_ok vm tab va :
  vmm_inv vm tab → releasable vm tab va →
  exists vm', release_page va vm = Ok (tt, vm') ∧ released vm tab vm' [va].
Proof.
  intros Hi [Hn Htab]. unfold release_page.
  assert (E1 : vm_get_physical_address va vm = Ok (translate vm tab va, vm)).
  { unfold vm_get_physical_address. by rewrite (get_physical_address_translate _ _ _ Hi Hn). }
  rewrite (bind_run _ _ _ _ _ E1).
  destruct (translate_range vm tab va Hi) as [Hr Hal].
  destruct (Z.eqb_spec (translate vm tab va) 0) as [E0|E0].
  - exists vm. split; [done|]. constructor; try done.
    + intros k Hk. split; [|tauto]. intros Hu. split; [done|]. intros j ->%list_elem_of_singleton. rewrite E0.
      pose proof (sh_start _ (wf_shape _ (vi_pmm _ _ Hi))). unfold frame_addr, PAGE_SIZE. lia.
    + intros a va' ->%list_elem_of_singleton Hs. by rewrite (same_page_translate _ _ _ _ Hs).
  - destruct (free_inv vm tab _ Hi Hal Htab) as (s & Ef & Hi1 & Hl & Hu).
    assert (E2 : vm_free_frame (translate vm tab va) vm = Ok (tt, set_pmm vm s))
      by (unfold vm_free_frame; by rewrite Ef).
    rewrite (bind_run _ _ _ _ _ E2).
    destruct (unmap_page_ok (set_pmm vm s) tab va Hi1 Hn) as (vm' & E & Hp & R & L).
    exists vm'. unfold vm_unmap_page. rewrite E. split; [done|]. constructor.
    + apply R.
    + rewrite Hp. exact Hl.
    + intros k Hk. rewrite Hp. cbn. rewrite Hu by done. split; intros [H1 H2]; (split; [done|]).
      * intros j ->%list_elem_of_singleton. done.
      * apply H2. by left.
    + intros a va' ->%list_elem_of_singleton Hs. rewrite (same_page_translate _ _ _ _ Hs).
      unfold translate. by rewrite L.
    + intros va' Hn'. by apply (retains_no_huge _ _ _ _ _ _ _ R).
    + intros va' Hne. unfold translate. rewrite (retains_translate_eq _ _ _ _ _ va' R); [done|].
      apply Hne. by left.
Qed.

Lemma released_translate vm tab vm' l va :
  released vm tab vm' l →
  (translate vm' tab va = 0 ∧ exists a, a ∈ l ∧ same_page a va) ∨ translate vm' tab va = translate vm tab va.
Proof.
  intros R. destruct (decide (Exists (λ a, same_page a va) l)) as [H|H].
  - left. apply Exists_exists in H as (a & Ha & Hs). split; [|eauto]. by apply (rs_unmapped _ _ _ _ R a).
  - right. apply (rs_other _ _ _ _ R). intros a Ha Hs. apply H, Exists_exists. eauto.
Qed.

Lemma released_releasable vm tab vm' l va :
  vmm_inv vm tab → released vm tab vm' l → releasable vm tab va → releasable vm' tab va.
Proof.
  intros Hi R [Hn Ht]. split; [by apply (rs_huge _ _ _ _ R)|]. intros q.
  destruct (released_translate vm tab vm' l va R) as [[-> _]| ->]; [by apply (not_table_0 vm)|done].
Qed.

Lemma released_trans vm tab vm1 vm2 l1 l2 :
  released vm tab vm1 l1 → released vm1 tab vm2 l2 → released vm tab vm2 (l1 ++ l2).
Proof.
  intros R1 R2. destruct (rs_layout _ _ _ _ R1) as [Htot Hst]. constructor; [apply R2| | | | |].
  - destruct (rs_layout _ _ _ _ R2). split; congruence.
  - intros k Hk. rewrite (rs_used _ _ _ _ R2), (rs_used _ _ _ _ R1) by lia.
    assert (Efr : frame_addr (v_pmm vm1) k = frame_addr (v_pmm vm) k) by (unfold frame_addr; by rewrite Hst).
    rewrite Efr. split.
    + intros [[Hu H1] H2]. split; [done|]. intros a Ha.
      destruct (decide (a ∈ l1)) as [|Hn]; [by apply H1|].
      apply elem_of_app in Ha as [|Ha]; [done|].
      destruct (released_translate vm tab vm1 l1 a R1) as [[_ (a1 & Ha1 & Hs)]|E].
      * rewrite (same_page_translate _ _ _ _ Hs). by apply H1.
      * rewrite <- E. by apply H2.
    + intros [Hu H]. split; [split; [done|]|].
      * intros a Ha. apply H, elem_of_app. by left.
      * intros a Ha. destruct (released_translate vm tab vm1 l1 a R1) as [[E _]|E].
        -- rewrite E. pose proof (sh_start _ (wf_shape _ (vi_pmm _ _ (rs_inv _ _ _ _ R1)))) as Hs.
           unfold frame_addr, PAGE_SIZE. lia.
        -- rewrite E. apply H, elem_of_app. by right.
  - intros a va Ha Hs. destruct (released_translate vm1 tab vm2 l2 va R2) as [[E _]|E]; [done|].
    apply elem_of_app in Ha as [Ha|Ha]; [|by apply (rs_unmapped _ _ _ _ R2 a)].
    rewrite E. by apply (rs_unmapped _ _ _ _ R1 a).
  - intros va Hva. by apply (rs_huge _ _ _ _ R2), (rs_huge _ _ _ _ R1).
  - intros va Hva. rewrite (rs_other _ _ _ _ R2), (rs_other _ _ _ _ R1); [done| |];
      intros a Ha; apply Hva, elem_of_app; auto.
Qed.

Lemma released_nil vm tab : vmm_inv vm tab → released vm tab vm [].
Proof.
  intros Hi. constructor; try done; [|set_solver].
  intros k Hk. split; [|tauto]. intros Hu. split; [done|set_solver].
Qed.

Lemma release_list_ok l : ∀ vm tab,
  vmm_inv vm tab → Forall (releasable vm tab) l →
  exists vm', release_list l vm = Ok (tt, vm') ∧ released vm tab vm' l.
Proof.
  induction l as [|a l IH]; intros vm tab Hi Hl.
  { exists vm. split; [done|]. by apply released_nil. }
  apply Forall_cons in Hl as [Ha Hl].
  destruct (release_page_ok vm tab a Hi Ha) as (vm1 & E1 & R1).
  destruct (IH vm1 tab) as (vm' & E & R2); [apply R1| |].
  { eapply Forall_impl; [exact Hl|]. intros b. by apply (released_releasable _ _ _ [a]). }
  exists vm'. split; [cbn [release_list]; by rewrite (bind_run _ _ _ _ _ E1)|].
  exact (released_trans _ _ _ _ _ _ R1 R2).
Qed.

Lemma release_list_app l1 l2 vm : release_list (l1 ++ l2) vm = (release_list l1;; release_list l2) vm.
Proof.
  revert vm. induction l1 as [|a l1 IH]; intros vm; [done|]. cbn [app release_list].
  unfold mbind, st_bind. destruct (release_page a vm) as [[[] vm1]| |]; [|done|done].
  rewrite IH. done.
Qed.

(** The pages a loop visits. *)
Fixpoint loop_pages (n : nat) (i base : Z) : list Z :=
  match n with O => [] | S n' => u64 (base + i * 4096) :: loop_pages n' (i + 1) base end.

Lemma release_loop_list n i base : release_loop n i base = release_list (loop_pages n i base).
Proof. revert i. induction n as [|n IH]; intros i; [done|]. cbn. by rewrite IH. Qed.

Lemma loop_pages_elem n : ∀ i base a,
  run_ok base i n → a ∈ loop_pages n i base ↔ exists j, i ≤ j < i + Z.of_nat n ∧ a = page base j.
Proof.
  induction n as [|n IH]; intros i base a Hrun; cbn [loop_pages]; [split; [set_solver|intros (j & Hj & _); lia]|].
  pose proof Hrun as (Hb & Ha & H0 & Hle & Hn).
  rewrite elem_of_cons, u64_small, IH by (lia || by apply run_ok_next). fold (page base i). split.
  - intros [->|(j & Hj & ->)]; [exists i|exists j]; (split; [lia|done]).
  - intros (j & Hj & ->). destruct (decide (j = i)) as [->|]; [by left|right]. exists j. split; [lia|done].
Qed.

(** The pages of a run that starts inside a page are those of the run that
    starts with the page. *)
Lemma page_down_add base n :
  0 ≤ base → 0 ≤ n → base + n * 4096 < 2 ^ 64 →
  Z.land (base + n * 4096) PAGE_MASK = Z.land base PAGE_MASK + n * 4096.
Proof.
  intros Hb Hn Hle. rewrite !land_page_mask by lia. rewrite Z.div_add by done. lia.
Qed.

Lemma map_page_masked vm va va' pa w :
  Z.land va PAGE_MASK = Z.land va' PAGE_MASK → map_page vm va pa w = map_page vm va' pa w.
Proof. intros E. unfold map_page. by rewrite E. Qed.

Lemma map_loop_aligned n : ∀ i base w vm,
  0 ≤ base → 0 ≤ i → base + (i + Z.of_nat n) * 4096 < 2 ^ 64 →
  map_loop n i base w vm = map_loop n i (Z.land base PAGE_MASK) w vm.
Proof.
  induction n as [|n IH]; intros i base w vm Hb Hi Hle; [done|]. cbn [map_loop].
  pose proof (land_page_mask base ltac:(lia)) as El.
  pose proof (Z.mul_div_le base 4096 ltac:(lia)). pose proof (Z.div_pos base 4096 Hb ltac:(lia)).
  rewrite !u64_small by lia. unfold mbind, st_bind.
  destruct (vm_allocate_frame vm) as [[phys vm1]| |]; [|done|done].
  destruct (phys =? 0); [done|]. unfold vm_map_page.
  rewrite (map_page_masked vm1 (base + i * 4096) (Z.land base PAGE_MASK + i * 4096)).
  - destruct (map_page vm1 _ phys w) as [vm2| |]; [|done|done]. cbn. apply IH; lia.
  - rewrite <- page_down_add by lia. rewrite <- Z.land_assoc. by rewrite Z.land_diag.
Qed.

(** The loop by addresses is the loop by page numbers, when the end of its last
    page is an address. *)
Lemma release_range_loop n : ∀ fuel i base stop vm,
  0 ≤ base → 0 ≤ i → base + (i + Z.of_nat n) * 4096 < 2 ^ 64 →
  stop ≤ base + (i + Z.of_nat n) * 4096 < stop + 4096 → (n < fuel)%nat →
  release_range fuel (base + i * 4096) stop vm = release_loop n i base vm.
Proof.
  induction n as [|n IH]; intros fuel i base stop vm Hb Hi Hle Hs Hf; (destruct fuel as [|fuel]; [lia|]).
  - cbn [release_range]. by rewrite (proj2 (Z.ltb_ge _ _)) by lia.
  - cbn [release_range release_loop]. rewrite (proj2 (Z.ltb_lt _ _)), !u64_small by lia.
    replace (base + i * 4096 + 4096) with (base + (i + 1) * 4096) by lia.
    unfold mbind, st_bind. destruct (release_page _ vm) as [[[] vm1]| |]; [|done|done].
    apply IH; lia.
Qed.

(** ** Zeroing a run *)

(** The frames of the run are zero; the tree and the other frames are as they
    were. *)
Record zeroed vm tab vm' (base i : Z) (n : nat) : Prop := {
  zr_inv : vmm_inv vm' tab;
  zr_pmm : v_pmm vm' = v_pmm vm;
  zr_leaf va : leaf vm' tab va = leaf vm tab va;
  zr_huge va : no_huge vm tab va → no_huge vm' tab va;
  zr_zero j a : i ≤ j < i + Z.of_nat n →
    translate vm tab (page base j) ≤ a < translate vm tab (page base j) + 4096 → v_mem vm' a = 0;
  zr_mem a : v_mem vm' a = 0 ∨ v_mem vm' a = v_mem vm a
}.

(** A write to a frame that holds no table. *)
Lemma frame_write_inv vm tab f g :
  f `mod` 4096 = 0 → (∀ q, tab !! q ≠ Some f) → vmm_inv vm tab →
  let vm' := set_mem vm (λ x, if (f <=? x) && (x <? f + 4096) then g x else v_mem vm x) in
  vmm_inv vm' tab ∧ (∀ q j, index_ok j → ent vm' tab q j = ent vm tab q j) ∧
  (∀ va, leaf vm' tab va = leaf vm tab va) ∧ (∀ va, no_huge vm tab va → no_huge vm' tab va).
Proof.
  intros Hal Htab Hi vm'. destruct (data_write_inv vm tab (v_mem vm')) as [Hi' He]; [|done|].
  { intros q a j Hq Hj. pose proof (inv_table _ _ _ _ Hi Hq) as [Har Haa].
    assert (a ≠ f) by (intros ->; by apply (Htab q)).
    apply Z.mod_divide in Haa as [x ->]; [|done]. apply Z.mod_divide in Hal as [y Ey]; [|done].
    unfold index_ok, ENTRIES_PER_TABLE in Hj. cbn. rewrite Ey in *.
    destruct (Z.leb_spec (y * 4096) (x * 4096 + 8 * j)), (Z.ltb_spec (x * 4096 + 8 * j) (y * 4096 + 4096)); cbn; try done.
    exfalso. assert (x = y) by lia. congruence. }
  split; [exact Hi'|]. split; [exact He|]. split; [intros va; apply He, index_mask_ok|].
  intros va (H4 & H3 & H2). split_and!; unfold vm'; rewrite He by apply index_mask_ok; done.
Qed.

Lemma zero_page_ok vm tab va :
  vmm_inv vm tab → releasable vm tab va → translate vm tab va ≠ 0 →
  exists vm', zero_page va vm = Ok (tt, vm') ∧ zeroed vm tab vm' va 0 1.
Proof.
  intros Hi [Hn Htab] H0. unfold zero_page.
  assert (E1 : vm_get_physical_address va vm = Ok (translate vm tab va, vm)).
  { unfold vm_get_physical_address. by rewrite (get_physical_address_translate _ _ _ Hi Hn). }
  rewrite (bind_run _ _ _ _ _ E1), (proj2 (Z.eqb_neq _ 0)) by done.
  destruct (translate_range vm tab va Hi) as [Hr Hal]. set (f := translate vm tab va) in *.
  destruct (frame_write_inv vm tab f (λ _, 0) Hal Htab Hi) as (Hi' & _ & Hl & Hh).
  eexists. split; [reflexivity|]. constructor; [exact Hi'|done|exact Hl|exact Hh| |].
  - intros j a Hj Ha. cbn. replace (page va j) with va in Ha by (unfold page; lia). fold f in Ha.
    by rewrite (proj2 (Z.leb_le _ _)), (proj2 (Z.ltb_lt _ _)) by lia.
  - intros a. cbn. destruct (_ && _); [by left|by right].
Qed.

Lemma zeroed_translate vm tab vm' base i n va :
  zeroed vm tab vm' base i n → translate vm' tab va = translate vm tab va.
Proof. intros Z. unfold translate. by rewrite (zr_leaf _ _ _ _ _ _ Z). Qed.

Lemma zero_loop_ok n : ∀ i base vm tab,
  vmm_inv vm tab → run_ok base i n →
  (∀ j, i ≤ j < i + Z.of_nat n → releasable vm tab (page base j) ∧ translate vm tab (page base j) ≠ 0) →
  exists vm', zero_loop n i base vm = Ok (tt, vm') ∧ zeroed vm tab vm' base i n.
Proof.
  induction n as [|n IH]; intros i base vm tab Hi Hrun Hrel.
  { exists vm. split; [done|]. constructor; try done; [lia|by right]. }
  pose proof Hrun as (Hb & Ha & H0 & Hle & Hn).
  destruct (Hrel i ltac:(lia)) as [Hri Hti].
  destruct (zero_page_ok vm tab (page base i) Hi Hri Hti) as (vm1 & E1 & Z1).
  destruct (IH (i + 1) base vm1 tab) as (vm' & E & Z2); [apply Z1|by apply run_ok_next| |].
  { intros j Hj. destruct (Hrel j ltac:(lia)) as [[Hnh Ht] Htr]. unfold releasable.
    rewrite (zeroed_translate _ _ _ _ _ _ _ Z1). split; [split; [by apply (zr_huge _ _ _ _ _ _ Z1)|done]|done]. }
  exists vm'. split.
  { cbn [zero_loop]. rewrite u64_small by lia. fold (page base i). by rewrite (bind_run _ _ _ _ _ E1). }
  constructor; [apply Z2|by rewrite (zr_pmm _ _ _ _ _ _ Z2), (zr_pmm _ _ _ _ _ _ Z1)| | | |].
  - intros va. by rewrite (zr_leaf _ _ _ _ _ _ Z2), (zr_leaf _ _ _ _ _ _ Z1).
  - intros va Hva. by apply (zr_huge _ _ _ _ _ _ Z2), (zr_huge _ _ _ _ _ _ Z1).
  - intros j a Hj Haj. destruct (decide (j = i)) as [->|].
    + assert (E0 : v_mem vm1 a = 0).
      { apply (zr_zero _ _ _ _ _ _ Z1 0); [lia|]. by replace (page (page base i) 0) with (page base i) by (unfold page; lia). }
      destruct (zr_mem _ _ _ _ _ _ Z2 a) as [?|E2]; [done|congruence].
    + apply (zr_zero _ _ _ _ _ _ Z2 j); [lia|]. by rewrite (zeroed_translate _ _ _ _ _ _ _ Z1).
  - intros a. destruct (zr_mem _ _ _ _ _ _ Z2 a) as [?|E2]; [by left|].
    destruct (zr_mem _ _ _ _ _ _ Z1 a) as [?|E3]; [left|right]; congruence.
Qed.
End steps.
