(* ===== verification/Kernel.v ===== *)
(** * The state of the kernel core (src/kernel/src/core/)

    The scheduler, the process manager and the IPC manager are singletons that
    call each other, so they share one state here.  Process objects live at
    addresses in [pm_procs]: an address that is not there is a pointer to a
    deleted object, and following it is undefined.  The chain of [next] pointers
    from [m_first_process] is the list [m_processes].  Queues of processes hold
    addresses, and 0 is the null pointer.  What the machine answers (the
    current processor, the tick counter, the interrupt flag) is in [Machine],
    with the page tables and frames of Vmm.v. *)

From S2P Require Import Prelude Pmm Vmm Pages.

(** ** Processes (process.hpp) *)

Inductive ProcessState := Running | Stopped | Zombie | Ready | Waiting.

#[export] Instance ProcessState_eq_dec : EqDecision ProcessState.
Proof. solve_decision. Defined.

Record RegisterState := Regs {
  rax : Z; rbx : Z; rcx : Z; rdx : Z; rsi : Z; rdi : Z; rbp : Z; rsp : Z;
  r8 : Z; r9 : Z; r10 : Z; r11 : Z; r12 : Z; r13 : Z; r14 : Z; r15 : Z;
  rip : Z; rflags : Z; cs : Z; ss : Z
}.

Definition zero_regs : RegisterState := Regs 0 0 0 0 0 0 0 0 0 0 0 0 0 0 0 0 0 0 0 0.

Record MemoryRegion := Region {
  mr_start : Z; mr_size : Z; mr_writable : bool; mr_executable : bool
}.

(** The linked list of regions is owned by the process: a list.  [argv] and
    [envp] are their strings, [None] for the null pointer. *)
Record Process := Proc {
  pid : Z;
  ppid : Z;
  p_name : list Z;
  state : ProcessState;
  entry_point : Z;
  memory_regions : list MemoryRegion;
  brk : Z;
  program_break : Z;
  registers : RegisterState;
  kernel_stack : Z;
  user_stack : Z;
  argv : option (list (list Z));
  envp : option (list (list Z));
  argc : Z;
  priority : Z;
  total_runtime : Z;
  last_run : Z;
  waiting_on : Z
}.

(** Assignments to members. *)
Definition set_state (v : ProcessState) (p : Process) : Process :=
  Proc (pid p) (ppid p) (p_name p) v (entry_point p) (memory_regions p) (brk p)
    (program_break p) (registers p) (kernel_stack p) (user_stack p) (argv p) (envp p) (argc p)
    (priority p) (total_runtime p) (last_run p) (waiting_on p).
Definition set_waiting (v : Z) (p : Process) : Process :=
  Proc (pid p) (ppid p) (p_name p) (state p) (entry_point p) (memory_regions p) (brk p)
    (program_break p) (registers p) (kernel_stack p) (user_stack p) (argv p) (envp p) (argc p)
    (priority p) (total_runtime p) (last_run p) v.
Definition set_last_run (v : Z) (p : Process) : Process :=
  Proc (pid p) (ppid p) (p_name p) (state p) (entry_point p) (memory_regions p) (brk p)
    (program_break p) (registers p) (kernel_stack p) (user_stack p) (argv p) (envp p) (argc p)
    (priority p) (total_runtime p) v (waiting_on p).
Definition set_runtime (v : Z) (p : Process) : Process :=
  Proc (pid p) (ppid p) (p_name p) (state p) (entry_point p) (memory_regions p) (brk p)
    (program_break p) (registers p) (kernel_stack p) (user_stack p) (argv p) (envp p) (argc p)
    (priority p) v (last_run p) (waiting_on p).
Definition set_priority (v : Z) (p : Process) : Process :=
  Proc (pid p) (ppid p) (p_name p) (state p) (entry_point p) (memory_regions p) (brk p)
    (program_break p) (registers p) (kernel_stack p) (user_stack p) (argv p) (envp p) (argc p)
    v (total_runtime p) (last_run p) (waiting_on p).
Definition set_regions (v : list MemoryRegion) (p : Process) : Process :=
  Proc (pid p) (ppid p) (p_name p) (state p) (entry_point p) v (brk p)
    (program_break p) (registers p) (kernel_stack p) (user_stack p) (argv p) (envp p) (argc p)
    (priority p) (total_runtime p) (last_run p) (waiting_on p).
Definition set_breaks (b pb : Z) (p : Process) : Process :=
  Proc (pid p) (ppid p) (p_name p) (state p) (entry_point p) (memory_regions p) b
    pb (registers p) (kernel_stack p) (user_stack p) (argv p) (envp p) (argc p)
    (priority p) (total_runtime p) (last_run p) (waiting_on p).
Definition set_entry (v : Z) (p : Process) : Process :=
  Proc (pid p) (ppid p) (p_name p) (state p) v (memory_regions p) (brk p)
    (program_break p) (registers p) (kernel_stack p) (user_stack p) (argv p) (envp p) (argc p)
    (priority p) (total_runtime p) (last_run p) (waiting_on p).
Definition set_stacks (ks us : Z) (p : Process) : Process :=
  Proc (pid p) (ppid p) (p_name p) (state p) (entry_point p) (memory_regions p) (brk p)
    (program_break p) (registers p) ks us (argv p) (envp p) (argc p)
    (priority p) (total_runtime p) (last_run p) (waiting_on p).
Definition set_args (a e : option (list (list Z))) (n : Z) (p : Process) : Process :=
  Proc (pid p) (ppid p) (p_name p) (state p) (entry_point p) (memory_regions p) (brk p)
    (program_break p) (registers p) (kernel_stack p) (user_stack p) a e n
    (priority p) (total_runtime p) (last_run p) (waiting_on p).
Definition set_registers (v : RegisterState) (p : Process) : Process :=
  Proc (pid p) (ppid p) (p_name p) (state p) (entry_point p) (memory_regions p) (brk p)
    (program_break p) v (kernel_stack p) (user_stack p) (argv p) (envp p) (argc p)
    (priority p) (total_runtime p) (last_run p) (waiting_on p).

(** A new process: the member initialisers. *)
Definition new_process : Process :=
  Proc 0 0 [] Stopped 0 [] 0 0 zero_regs 0 0 None None 0 5 0 0 0.

(** ** Managers *)

Record ProcessManager := PM {
  pm_procs : gmap Z Process;
  pm_new : Z;                      (* the address of the next object *)
  m_processes : list Z;
  m_current_process : Z;
  m_next_pid : Z
}.

Inductive SchedulerPolicy := RoundRobin | Priority.

Record CPURunQueue := RunQueue {
  process_queue : list Z;
  current_index : Z;
  current_time_slice : Z;
  rq_current : Z;
  cpu_id : Z;
  needs_resched : bool
}.

Record Scheduler := Sched {
  m_runqueues : list CPURunQueue;
  m_policy : SchedulerPolicy;
  m_load_balance_counter : Z
}.

Record IPCMessage := Msg { sender : Z; timestamp : Z; msg_size : Z; msg_data : list Z }.

Record MessageQueue := MQ {
  m_owner : Z;
  m_name : list Z;
  m_messages : list IPCMessage;
  m_waiting_processes : list Z
}.

Record SharedMemoryRegion := SHM {
  shm_id : Z; creator : Z; shm_size : Z; shm_address : Z; attached_processes : list Z
}.

(** [m_message_queues] holds addresses of queues in [ipc_queues], 0 for a freed
    slot; the shared regions are owned by their vector. *)
Record IPCManager := IPC {
  ipc_queues : gmap Z MessageQueue;
  ipc_new : Z;
  m_message_queues : list Z;
  m_shared_memory_regions : list SharedMemoryRegion;
  m_next_queue_id : Z;
  m_next_shared_memory_id : Z
}.

(** The inter-processor interrupts sent are kept as (processor, vector). *)
Record Machine := Mach {
  mc_cpu : Z;
  mc_cpu_count : Z;
  mc_ticks : Z;
  mc_interrupts : bool;
  mc_ipis : list (Z * Z);
  mc_vmm : VirtualMemoryManager
}.

Record Kernel := Kern {
  k_pm : ProcessManager;
  k_sched : Scheduler;
  k_ipc : IPCManager;
  k_machine : Machine
}.

Definition with_pm (f : ProcessManager → ProcessManager) (k : Kernel) : Kernel :=
  Kern (f (k_pm k)) (k_sched k) (k_ipc k) (k_machine k).
Definition with_sched (f : Scheduler → Scheduler) (k : Kernel) : Kernel :=
  Kern (k_pm k) (f (k_sched k)) (k_ipc k) (k_machine k).
Definition with_ipc (f : IPCManager → IPCManager) (k : Kernel) : Kernel :=
  Kern (k_pm k) (k_sched k) (f (k_ipc k)) (k_machine k).
Definition with_machine (f : Machine → Machine) (k : Kernel) : Kernel :=
  Kern (k_pm k) (k_sched k) (k_ipc k) (f (k_machine k)).

Definition set_procs (v : gmap Z Process) (m : ProcessManager) : ProcessManager :=
  PM v (pm_new m) (m_processes m) (m_current_process m) (m_next_pid m).
Definition set_processes (v : list Z) (m : ProcessManager) : ProcessManager :=
  PM (pm_procs m) (pm_new m) v (m_current_process m) (m_next_pid m).
Definition set_current_process (v : Z) (m : ProcessManager) : ProcessManager :=
  PM (pm_procs m) (pm_new m) (m_processes m) v (m_next_pid m).
Definition set_runqueues (v : list CPURunQueue) (m : Scheduler) : Scheduler :=
  Sched v (m_policy m) (m_load_balance_counter m).
Definition set_balance_counter (v : Z) (m : Scheduler) : Scheduler :=
  Sched (m_runqueues m) (m_policy m) v.
Definition set_ipc_queues (v : gmap Z MessageQueue) (m : IPCManager) : IPCManager :=
  IPC v (ipc_new m) (m_message_queues m) (m_shared_memory_regions m) (m_next_queue_id m)
    (m_next_shared_memory_id m).
Definition set_queue_table (v : list Z) (m : IPCManager) : IPCManager :=
  IPC (ipc_queues m) (ipc_new m) v (m_shared_memory_regions m) (m_next_queue_id m)
    (m_next_shared_memory_id m).
Definition set_shared (v : list SharedMemoryRegion) (m : IPCManager) : IPCManager :=
  IPC (ipc_queues m) (ipc_new m) (m_message_queues m) v (m_next_queue_id m)
    (m_next_shared_memory_id m).
Definition set_vmm (v : VirtualMemoryManager) (m : Machine) : Machine :=
  Mach (mc_cpu m) (mc_cpu_count m) (mc_ticks m) (mc_interrupts m) (mc_ipis m) v.
Definition add_ipi (cpu vector : Z) (m : Machine) : Machine :=
  Mach (mc_cpu m) (mc_cpu_count m) (mc_ticks m) (mc_interrupts m) (mc_ipis m ++ [(cpu, vector)])
    (mc_vmm m).

(** ** Following pointers *)

#[local] Abbreviation K := (ST Kernel).

Definition deref (p : Z) : K Process := λ k,
  match pm_procs (k_pm k) !! p with Some x => Ok (x, k) | None => UB end.

(** [p->member = ...] *)
Definition assign (p : Z) (f : Process → Process) : K unit := λ k,
  match pm_procs (k_pm k) !! p with
  | Some x => Ok (tt, with_pm (set_procs (<[p := f x]> (pm_procs (k_pm k)))) k)
  | None => UB
  end.

Definition get_runqueues : K (list CPURunQueue) := gets (λ k, m_runqueues (k_sched k)).
Definition get_rq (i : Z) : K CPURunQueue := l ← get_runqueues; lift (aget l i).
Definition put_rq (i : Z) (q : CPURunQueue) : K unit :=
  l ← get_runqueues; l ← lift (aset l i q); modify (with_sched (set_runqueues l)).

Definition deref_mq (p : Z) : K MessageQueue := λ k,
  match ipc_queues (k_ipc k) !! p with Some x => Ok (x, k) | None => UB end.
Definition assign_mq (p : Z) (x : MessageQueue) : K unit := λ k,
  match ipc_queues (k_ipc k) !! p with
  | Some _ => Ok (tt, with_ipc (set_ipc_queues (<[p := x]> (ipc_queues (k_ipc k)))) k)
  | None => UB
  end.

(** The operations of Pages.v, on the kernel's own page tables and frames. *)
Definition on_vmm {A} (f : ST VirtualMemoryManager A) : K A := λ k,
  match f (mc_vmm (k_machine k)) with
  | Ok (a, v) => Ok (a, with_machine (set_vmm v) k)
  | UB => UB
  | OutOfFuel => OutOfFuel
  end.

(** [new T]: an object at an address never used before.  The kernel heap is
    taken to have room for it. *)
Definition new_object (x : Process) : K Z :=
  p ← gets (λ k, pm_new (k_pm k));
  modify (with_pm (λ m, PM (<[p := x]> (pm_procs m)) (p + 1) (m_processes m) (m_current_process m)
                          (m_next_pid m)));;
  mret p.
Definition delete_object (p : Z) : K unit :=
  deref p;; modify (with_pm (λ m, set_procs (delete p (pm_procs m)) m)).

Definition new_mq (x : MessageQueue) : K Z :=
  p ← gets (λ k, ipc_new (k_ipc k));
  modify (with_ipc (λ m, IPC (<[p := x]> (ipc_queues m)) (p + 1) (m_message_queues m)
                          (m_shared_memory_regions m) (m_next_queue_id m) (m_next_shared_memory_id m)));;
  mret p.
Definition delete_mq (p : Z) : K unit :=
  deref_mq p;; modify (with_ipc (λ m, set_ipc_queues (delete p (ipc_queues m)) m)).

(** [n++] of an [int32_t]: overflow is undefined. *)
Definition inc_i32 (n : Z) : K Z := lift (if n =? 2 ^ 31 - 1 then UB else Ok (n + 1)).

(** ** Lemmas *)

Lemma deref_run p x k : pm_procs (k_pm k) !! p = Some x → deref p k = Ok (x, k).
Proof. intros E. unfold deref. by rewrite E. Qed.

Lemma assign_run p f x k :
  pm_procs (k_pm k) !! p = Some x →
  assign p f k = Ok (tt, with_pm (set_procs (<[p := f x]> (pm_procs (k_pm k)))) k).
Proof. intros E. unfold assign. by rewrite E. Qed.

Lemma bind_get_runqueues {B} (f : list CPURunQueue → K B) k :
  (get_runqueues ≫= f) k = f (m_runqueues (k_sched k)) k.
Proof. done. Qed.

Lemma get_rq_run (i : nat) q k :
  m_runqueues (k_sched k) !! i = Some q → get_rq (Z.of_nat i) k = Ok (q, k).
Proof. intros E. unfold get_rq, get_runqueues. st. unfold lift. by rewrite (aget_lookup _ _ _ E). Qed.

Lemma put_rq_run (i : nat) q k :
  (i < length (m_runqueues (k_sched k)))%nat →
  put_rq (Z.of_nat i) q k =
  Ok (tt, with_sched (set_runqueues (<[i := q]> (m_runqueues (k_sched k)))) k).
Proof.
  intros Hi. unfold put_rq, get_runqueues. st.
  rewrite (bind_lift _ (<[i := q]> (m_runqueues (k_sched k)))); [done|].
  rewrite aset_Ok by lia. by rewrite Nat2Z.id.
Qed.

Lemma deref_mq_run p x k : ipc_queues (k_ipc k) !! p = Some x → deref_mq p k = Ok (x, k).
Proof. intros E. unfold deref_mq. by rewrite E. Qed.

Lemma assign_mq_run p x y k :
  ipc_queues (k_ipc k) !! p = Some x →
  assign_mq p y k = Ok (tt, with_ipc (set_ipc_queues (<[p := y]> (ipc_queues (k_ipc k)))) k).
Proof. intros E. unfold assign_mq. by rewrite E. Qed.

Lemma on_vmm_run {A} (f : ST VirtualMemoryManager A) a v k :
  f (mc_vmm (k_machine k)) = Ok (a, v) → on_vmm f k = Ok (a, with_machine (set_vmm v) k).
Proof. intros E. unfold on_vmm. by rewrite E. Qed.

Lemma inc_i32_run n k : n < 2 ^ 31 - 1 → inc_i32 n k = Ok (n + 1, k).
Proof. intros Hn. unfold inc_i32. by rewrite (proj2 (Z.eqb_neq _ _)) by lia. Qed.

(** ** What the steps on one component leave alone *)

(** An invariant of the message queues and shared regions only. *)
Definition on_ipc (I : IPCManager → Prop) (k : Kernel) : Prop := I (k_ipc k).

Section on_ipc.
Context (I : IPCManager → Prop).

Lemma on_ipc_pm f : preserves (on_ipc I) (modify (with_pm f)).
Proof. by apply preserves_modify. Qed.
Lemma on_ipc_sched f : preserves (on_ipc I) (modify (with_sched f)).
Proof. by apply preserves_modify. Qed.
Lemma on_ipc_machine f : preserves (on_ipc I) (modify (with_machine f)).
Proof. by apply preserves_modify. Qed.
Lemma on_ipc_deref p : preserves (on_ipc I) (deref p).
Proof. intros k x k' HI. unfold deref. destruct (_ !! p); [intros [= <- <-]|]; done. Qed.
Lemma on_ipc_deref_mq p : preserves (on_ipc I) (deref_mq p).
Proof. intros k x k' HI. unfold deref_mq. destruct (_ !! p); [intros [= <- <-]|]; done. Qed.
Lemma on_ipc_assign p f : preserves (on_ipc I) (assign p f).
Proof. intros k x k' HI. unfold assign. destruct (_ !! p); [intros [= <- <-]|]; done. Qed.
Lemma on_ipc_vmm {A} (f : ST VirtualMemoryManager A) : preserves (on_ipc I) (on_vmm f).
Proof. intros k x k' HI. unfold on_vmm. destruct (f _) as [[a v]| |]; [intros [= <- <-]|..]; done. Qed.
Lemma on_ipc_get_rq i : preserves (on_ipc I) (get_rq i).
Proof. unfold get_rq, get_runqueues. preserves. Qed.
Lemma on_ipc_put_rq i q : preserves (on_ipc I) (put_rq i q).
Proof. unfold put_rq, get_runqueues. preserves. by apply preserves_modify. Qed.
Lemma on_ipc_inc n : preserves (on_ipc I) (inc_i32 n).
Proof. unfold inc_i32. preserves. Qed.
End on_ipc.

#[export] Hint Resolve on_ipc_pm on_ipc_sched on_ipc_machine on_ipc_deref on_ipc_deref_mq on_ipc_assign
  on_ipc_vmm on_ipc_get_rq on_ipc_put_rq on_ipc_inc : preserves.
