(* ===== verification/Sched.v ===== *)
(** * The scheduler (src/kernel/src/core/scheduler.{hpp,cpp})

    Run queues per processor, round-robin or priority selection, time slices and
    load balancing.  [switch_to_process] (process.cpp) is here because the
    scheduler calls it.  [switch_context] is assembly and returns only when the
    old process runs again: it is a parameter, whatever happens in between. *)

From S2P Require Import Prelude Pmm Vmm Kernel.

#[local] Abbreviation K := (ST Kernel).

Definition DEFAULT_TIME_SLICE : Z := 5.
Definition LOAD_BALANCE_PERIOD : Z := 100.
Definition IPI_VECTOR : Z := 0x40.
Definition SIZE_MAX : Z := 2 ^ 64 - 1.

Definition set_queue (q : list Z) (r : CPURunQueue) : CPURunQueue :=
  RunQueue q (current_index r) (current_time_slice r) (rq_current r) (cpu_id r) (needs_resched r).
Definition set_index (i : Z) (r : CPURunQueue) : CPURunQueue :=
  RunQueue (process_queue r) i (current_time_slice r) (rq_current r) (cpu_id r) (needs_resched r).
Definition set_slice (t : Z) (b : bool) (r : CPURunQueue) : CPURunQueue :=
  RunQueue (process_queue r) (current_index r) t (rq_current r) (cpu_id r) b.
Definition set_rq_current (p : Z) (b : bool) (r : CPURunQueue) : CPURunQueue :=
  RunQueue (process_queue r) (current_index r) (current_time_slice r) p (cpu_id r) b.

(** ** Definitions *)

Definition new_runqueue (i : Z) : CPURunQueue := RunQueue [] 0 DEFAULT_TIME_SLICE 0 i false.

Definition sched_initialize (policy : SchedulerPolicy) : K unit :=
  n ← gets (λ k, mc_cpu_count (k_machine k));
  modify (with_sched (λ _, Sched (new_runqueue ∘ Z.of_nat <$> seq 0 (Z.to_nat n)) policy 0)).

(** The position of the first run queue of a processor. *)
Fixpoint runqueue_from (i : Z) (l : list CPURunQueue) (cpu : Z) : option Z :=
  match l with
  | [] => None
  | q :: l => if cpu_id q =? cpu then Some i else runqueue_from (i + 1) l cpu
  end.

Definition get_runqueue (cpu : Z) : K (option Z) := gets (λ k, runqueue_from 0 (m_runqueues (k_sched k)) cpu).

(** The processor with the shortest queue, the first of equals. *)
Fixpoint shortest (l : list CPURunQueue) (min_size target : Z) : Z :=
  match l with
  | [] => target
  | q :: l =>
      let n := Z.of_nat (length (process_queue q)) in
      if n <? min_size then shortest l n (cpu_id q) else shortest l min_size target
  end.

Definition add_process (p : Z) : K unit :=
  if p =? 0 then mret tt else
  l ← get_runqueues;
  r ← get_runqueue (shortest l SIZE_MAX 0);
  match r with
  | None => mret tt
  | Some i =>
      q ← get_rq i;
      if decide (p ∈ process_queue q) then mret tt else
      assign p (set_state Ready);;
      put_rq i (set_queue (process_queue q ++ [p]) q)
  end.

(** The first position of a process in a queue. *)
Fixpoint position_from (j : Z) (l : list Z) (p : Z) : option Z :=
  match l with
  | [] => None
  | x :: l => if x =? p then Some j else position_from (j + 1) l p
  end.

(** Taking the process at position [j] out: the later ones move up, and the
    index moves with them. *)
Definition take_out (j : Z) (r : CPURunQueue) : CPURunQueue :=
  let i := current_index r in
  set_queue (delete (Z.to_nat j) (process_queue r))
    (set_index (if (j <=? i) && (0 <? i) then i - 1 else i) r).

Fixpoint remove_from (i : Z) (l : list CPURunQueue) (p : Z) : K unit :=
  match l with
  | [] => mret tt
  | q :: l =>
      match position_from 0 (process_queue q) p with
      | None => remove_from (i + 1) l p
      | Some j =>
          let q' := take_out j q in
          put_rq i (if rq_current q =? p then set_rq_current 0 true q' else q')
      end
  end.

Definition remove_process (p : Z) : K unit :=
  if p =? 0 then mret tt else l ← get_runqueues; remove_from 0 l p.

(** The do-while loop of the round-robin case: the process found, 0 for none,
    and the index. *)
Fixpoint rr_loop (fuel : nat) (start index : Z) (queue : list Z) : K (Z * Z) :=
  match fuel with
  | O => no_fuel
  | S fuel' =>
      let index := u64 (index + 1) `mod` Z.of_nat (length queue) in
      p ← lift (aget queue index);
      x ← deref p;
      if decide (state x = Ready) then mret (p, index)
      else if index =? start then mret (0, index)
      else rr_loop fuel' start index queue
  end.

(** The loop of the priority case: the best so far, its priority and index. *)
Fixpoint priority_loop (l : list Z) (i : Z) (highest selected index : Z) : K (Z * Z) :=
  match l with
  | [] => mret (selected, index)
  | p :: l =>
      x ← deref p;
      if bool_decide (state x = Ready) && (highest <? priority x)
      then priority_loop l (i + 1) (priority x) p i
      else priority_loop l (i + 1) highest selected index
  end.

(** The process selected from run queue [i], 0 for none; one turn of the queue
    is enough fuel. *)
Definition select_next_process (i : Z) : K Z :=
  q ← get_rq i;
  match process_queue q with
  | [] => mret 0
  | _ =>
      policy ← gets (λ k, m_policy (k_sched k));
      match policy with
      | RoundRobin =>
          r ← rr_loop (S (length (process_queue q))) (current_index q) (current_index q)
                (process_queue q);
          put_rq i (set_index r.2 q);;
          mret r.1
      | Priority =>
          r ← priority_loop (process_queue q) 0 0 0 0;
          (if r.1 =? 0 then mret tt else put_rq i (set_index r.2 q));;
          mret r.1
      end
  end.

Definition set_process_priority (find : Z → K Z) (pid_ prio : Z) : K unit :=
  p ← find pid_;
  if p =? 0 then mret tt else assign p (set_priority (if 10 <? prio then 10 else prio)).

Section scheduling.
(** The old and the new process; 0 for a null old one. *)
Variable switch_context : Z → Z → K unit.

Definition switch_to_process (p : Z) : K unit :=
  if p =? 0 then mret tt else
  x ← deref p;
  if negb (bool_decide (state x = Running)) && negb (bool_decide (state x = Ready)) then mret tt else
  old ← gets (λ k, m_current_process (k_pm k));
  if old =? p then mret tt else
  modify (with_pm (set_current_process p));;
  (if old =? 0 then mret tt else
   y ← deref old;
   if decide (state y = Running) then assign old (set_state Ready) else mret tt);;
  assign p (set_state Running);;
  switch_context old p.

Definition schedule_on_cpu (cpu : Z) : K unit :=
  r ← get_runqueue cpu;
  match r with
  | None => mret tt
  | Some i =>
      next ← select_next_process i;
      if next =? 0 then mret tt else
      q ← get_rq i;
      let current := rq_current q in
      if current =? next then mret tt else
      put_rq i (set_rq_current next (needs_resched q) (set_slice DEFAULT_TIME_SLICE (needs_resched q) q));;
      ticks ← gets (λ k, mc_ticks (k_machine k));
      assign next (set_last_run ticks);;
      (if current =? 0 then mret tt else assign current (set_state Ready));;
      assign next (set_state Running);;
      switch_to_process next
  end.

Definition schedule : K unit := cpu ← gets (λ k, mc_cpu (k_machine k)); schedule_on_cpu cpu.

Definition send_ipi (cpu vector : Z) : K unit := modify (with_machine (add_ipi cpu vector)).

Definition tick_on_cpu (cpu : Z) : K unit :=
  flag ← gets (λ k, mc_interrupts (k_machine k));
  if negb flag then mret tt else
  r ← get_runqueue cpu;
  match r with
  | None => mret tt
  | Some i =>
      q ← get_rq i;
      let current := rq_current q in
      if current =? 0 then mret tt else
      x ← deref current;
      assign current (set_runtime (u64 (total_runtime x + 1)));;
      if 9 <=? priority x then mret tt else
      let slice := if 0 <? current_time_slice q then current_time_slice q - 1
                   else current_time_slice q in
      if slice =? 0 then
        put_rq i (set_slice slice true q);;
        here ← gets (λ k, mc_cpu (k_machine k));
        if cpu =? here then schedule_on_cpu cpu else send_ipi cpu IPI_VECTOR
      else put_rq i (set_slice slice (needs_resched q) q)
  end.

(** ** Load balancing *)

Definition can_migrate_process (p to_cpu : Z) : K bool :=
  if p =? 0 then mret false else
  x ← deref p;
  if decide (state x = Running) then mret false
  else if 8 <=? priority x then mret false
  else r ← get_runqueue to_cpu; mret (match r with Some _ => true | None => false end).

Definition migrate_process (p from_cpu to_cpu : Z) : K unit :=
  if (p =? 0) || (from_cpu =? to_cpu) then mret tt else
  f ← get_runqueue from_cpu;
  t ← get_runqueue to_cpu;
  match f, t with
  | Some f, Some t =>
      q ← get_rq f;
      (match position_from 0 (process_queue q) p with
       | Some j => put_rq f (take_out j q)
       | None => mret tt
       end);;
      q ← get_rq t;
      put_rq t (set_queue (process_queue q ++ [p]) q)
  | _, _ => mret tt
  end.

(** The loop of [load_balance]; each step either moves past a process or moves
    it away, so the queue's length is enough fuel. *)
Fixpoint balance_loop (fuel : nat) (i moved to_move max_cpu min_cpu max_rq : Z) : K unit :=
  match fuel with
  | O => no_fuel
  | S fuel' =>
      q ← get_rq max_rq;
      if (i <? Z.of_nat (length (process_queue q))) && (moved <? to_move) then
        p ← lift (aget (process_queue q) i);
        ok ← can_migrate_process p min_cpu;
        if (ok : bool) then
          migrate_process p max_cpu min_cpu;;
          balance_loop fuel' i (moved + 1) to_move max_cpu min_cpu max_rq
        else balance_loop fuel' (i + 1) moved to_move max_cpu min_cpu max_rq
      else mret tt
  end.

(** The longest and the shortest queue: (max, its processor, min, its processor). *)
Fixpoint extremes (l : list CPURunQueue) (mx mxc mn mnc : Z) : Z * Z * Z * Z :=
  match l with
  | [] => (mx, mxc, mn, mnc)
  | q :: l =>
      let n := Z.of_nat (length (process_queue q)) in
      let '(mx, mxc) := if mx <? n then (n, cpu_id q) else (mx, mxc) in
      let '(mn, mnc) := if n <? mn then (n, cpu_id q) else (mn, mnc) in
      extremes l mx mxc mn mnc
  end.

Definition load_balance : K unit :=
  l ← get_runqueues;
  let '(mx, max_cpu, mn, min_cpu) := extremes l 0 0 SIZE_MAX 0 in
  if u64 (mx - mn) <=? 1 then mret tt else
  let to_move := u64 (mx - mn) / 2 in
  f ← get_runqueue max_cpu;
  t ← get_runqueue min_cpu;
  match f, t with
  | Some f, Some _ =>
      q ← get_rq f;
      balance_loop (S (length (process_queue q))) 0 0 to_move max_cpu min_cpu f
  | _, _ => mret tt
  end.

Definition tick : K unit :=
  cpu ← gets (λ k, mc_cpu (k_machine k));
  tick_on_cpu cpu;;
  n ← gets (λ k, u64 (m_load_balance_counter (k_sched k) + 1));
  if LOAD_BALANCE_PERIOD <=? n then
    modify (with_sched (set_balance_counter 0));;
    if cpu =? 0 then load_balance else mret tt
  else modify (with_sched (set_balance_counter n)).
End scheduling.

(** ** Round robin *)

Definition is_ready (k : Kernel) (queue : list Z) (j : Z) : bool :=
  match queue !! Z.to_nat j with
  | Some p => match pm_procs (k_pm k) !! p with
              | Some x => bool_decide (state x = Ready)
              | None => false
              end
  | None => false
  end.

(** Every queued process is a live object. *)
Definition all_live (k : Kernel) (queue : list Z) : Prop :=
  Forall (λ p, p ≠ 0 ∧ is_Some (pm_procs (k_pm k) !! p)) queue.

(** [rr_turn k queue start m]: starting after [start], the [m]-th position of
    the circle is the first ready one, or none is and [m] is the whole turn. *)
Record rr_turn (k : Kernel) (queue : list Z) (start m : Z) : Prop := {
  rt_range : 1 ≤ m ≤ Z.of_nat (length queue);
  rt_skipped : ∀ l, 1 ≤ l < m →
    is_ready k queue ((start + l) `mod` Z.of_nat (length queue)) = false;
  rt_last : is_ready k queue ((start + m) `mod` Z.of_nat (length queue)) = true ∨
    (m = Z.of_nat (length queue) ∧
     is_ready k queue ((start + m) `mod` Z.of_nat (length queue)) = false)
}.

Definition picked (k : Kernel) (queue : list Z) (j : Z) : Z :=
  if is_ready k queue j then default 0 (queue !! Z.to_nat j) else 0.

Lemma rr_loop_ok fuel k queue start a :
  all_live k queue → 0 ≤ start < Z.of_nat (length queue) → Z.of_nat (length queue) < 2 ^ 63 →
  0 ≤ a < Z.of_nat (length queue) → Z.of_nat (length queue) - a ≤ Z.of_nat fuel →
  (∀ l, 1 ≤ l ≤ a → is_ready k queue ((start + l) `mod` Z.of_nat (length queue)) = false) →
  exists m, rr_turn k queue start m ∧
    rr_loop fuel start ((start + a) `mod` Z.of_nat (length queue)) queue k =
      Ok ((picked k queue ((start + m) `mod` Z.of_nat (length queue)),
           (start + m) `mod` Z.of_nat (length queue)), k).
Proof.
  intros Hlive Hstart Hlen. revert a. induction fuel as [|fuel IH]; intros a Ha Hf Hskip; [lia|].
  set (n := Z.of_nat (length queue)) in *.
  cbn [rr_loop]. fold n. pose proof (Z.mod_pos_bound (start + a) n ltac:(lia)).
  rewrite u64_small, Zplus_mod_idemp_l by lia.
  replace (start + a + 1) with (start + (a + 1)) by lia.
  set (i := (start + (a + 1)) `mod` n).
  assert (0 ≤ i < n) by (apply Z.mod_pos_bound; lia).
  destruct (lookup_lt_is_Some_2 queue (Z.to_nat i)) as [p Hp]; [lia|].
  assert (Eget : aget queue i = Ok p) by (apply aget_Ok; split; [lia|done]).
  rewrite (bind_lift _ _ _ _ Eget).
  unfold all_live in Hlive. rewrite Forall_forall in Hlive.
  destruct (Hlive p) as [Hp0 [x Hx]]; [by apply list_elem_of_lookup_2 with (Z.to_nat i)|].
  rewrite (bind_run _ _ _ _ _ (deref_run _ _ _ Hx)).
  assert (Hr : is_ready k queue i = bool_decide (state x = Ready)).
  { unfold is_ready. by rewrite Hp, Hx. }
  destruct (decide (state x = Ready)) as [E|E].
  - rewrite bool_decide_eq_true_2 in Hr by done. exists (a + 1). fold n. fold i. split.
    + constructor; fold n; [lia|intros; apply Hskip; lia|]. left. exact Hr.
    + unfold picked. by rewrite Hr, Hp.
  - rewrite bool_decide_eq_false_2 in Hr by done.
    destruct (Z.eqb_spec i start) as [Ei|Ei].
    + assert (a + 1 = n) as En.
      { unfold i in Ei. destruct (decide (a + 1 = n)); [done|]. exfalso.
        destruct (Z.lt_ge_cases (start + (a + 1)) n).
        - rewrite Z.mod_small in Ei by lia. lia.
        - replace (start + (a + 1)) with (start + (a + 1) - n + 1 * n) in Ei by lia.
          rewrite Z.mod_add, Z.mod_small in Ei by lia. lia. }
      exists (a + 1). fold n. fold i. split.
      * constructor; fold n; [lia|intros; apply Hskip; lia|]. right. done.
      * unfold picked. rewrite Hr. done.
    + assert (a + 1 ≠ n).
      { intros En. apply Ei. unfold i. rewrite En, <- (Z.mul_1_l n) at 1.
        rewrite Z.mod_add, Z.mod_small by lia. done. }
      unfold i. apply IH; [lia|lia|].
      intros l Hl. destruct (decide (l = a + 1)) as [->|]; [exact Hr|]. apply Hskip. lia.
Qed.

Definition rq_index_ok (q : CPURunQueue) : Prop :=
  current_index q = 0 ∨ 0 ≤ current_index q < Z.of_nat (length (process_queue q)).

(** A run queue whose entries are live and whose index is in range. *)
Record rq_wf (k : Kernel) (q : CPURunQueue) : Prop := {
  rw_live : all_live k (process_queue q);
  rw_index : rq_index_ok q;
  rw_length : Z.of_nat (length (process_queue q)) < 2 ^ 63
}.

Lemma index_range q :
  rq_index_ok q → process_queue q ≠ [] → 0 ≤ current_index q < Z.of_nat (length (process_queue q)).
Proof. intros [->|?] Hne; [|done]. destruct (process_queue q); [done|]. cbn [length]. lia. Qed.

Definition with_rq (i : nat) (q : CPURunQueue) (k : Kernel) : Kernel :=
  with_sched (set_runqueues (<[i := q]> (m_runqueues (k_sched k)))) k.

Lemma select_round_robin_ok k (i : nat) q :
  m_runqueues (k_sched k) !! i = Some q → rq_wf k q → m_policy (k_sched k) = RoundRobin →
  process_queue q ≠ [] →
  exists m, rr_turn k (process_queue q) (current_index q) m ∧
    let j := (current_index q + m) `mod` Z.of_nat (length (process_queue q)) in
    select_next_process (Z.of_nat i) k =
      Ok (picked k (process_queue q) j, with_rq i (set_index j q) k).
Proof.
  intros Hq [Hlive Hi Hlen] Hpol Hne. pose proof (index_range _ Hi Hne) as Hi'. clear Hi.
  unfold select_next_process. rewrite (bind_run _ _ _ _ _ (get_rq_run _ _ _ Hq)).
  destruct (process_queue q) as [|p0 r] eqn:Eq; [done|]. rewrite <- Eq in *. clear p0 r Eq.
  st. rewrite Hpol.
  destruct (rr_loop_ok (S (length (process_queue q))) k (process_queue q) (current_index q) 0
    Hlive ltac:(lia) Hlen ltac:(lia) ltac:(lia) ltac:(lia)) as (m & Hm & E).
  rewrite Z.add_0_r, Z.mod_small in E by lia. exists m. split; [done|]. cbv zeta.
  rewrite (bind_run _ _ _ _ _ E). cbn [fst snd].
  rewrite (bind_run _ _ _ _ _ (put_rq_run i _ k (lookup_lt_Some _ _ _ Hq))). done.
Qed.

(** [round i env k ps k']: selections from run queue [i] returned [ps], with
    other steps of the kernel, allowed by [env], after each. *)
Inductive rounds (i : Z) (env : Kernel → Kernel → Prop) : Kernel → list Z → Kernel → Prop :=
| rounds_nil k : rounds i env k [] k
| rounds_cons k k1 k2 k3 p ps :
    select_next_process i k = Ok (p, k1) → env k1 k2 → rounds i env k2 ps k3 →
    rounds i env k (p :: ps) k3.

(** What the others may do while process number [j] of the queue waits for its
    turn: anything, but run queue [i] and the policy stay, and it stays ready. *)
Definition keeps_ready (i : nat) (j : Z) (k k' : Kernel) : Prop :=
  m_policy (k_sched k') = m_policy (k_sched k) ∧
  forall q, m_runqueues (k_sched k) !! i = Some q →
    m_runqueues (k_sched k') !! i = Some q ∧ rq_wf k' q ∧ is_ready k' (process_queue q) j = true.

(** How many steps of the circle lead from [start] to [j]. *)
Definition rr_distance (n start j : Z) : Z := (j - start - 1) `mod` n + 1.

Lemma rr_distance_step n start j m :
  0 ≤ start < n → 0 ≤ j < n → 1 ≤ m < rr_distance n start j →
  rr_distance n ((start + m) `mod` n) j = rr_distance n start j - m.
Proof.
  unfold rr_distance. intros Hs Hj Hm.
  replace ((j - (start + m) `mod` n - 1) `mod` n) with (((j - start - 1) `mod` n - m) `mod` n).
  - rewrite (Z.mod_small ((j - start - 1) `mod` n - m)); [lia|].
    pose proof (Z.mod_pos_bound (j - start - 1) n). lia.
  - rewrite Zminus_mod_idemp_l.
    replace (j - (start + m) `mod` n - 1) with (j - 1 - (start + m) `mod` n) by lia.
    rewrite Zminus_mod_idemp_r. f_equal. lia.
Qed.

Lemma rr_distance_at n start j :
  0 ≤ start < n → 0 ≤ j < n → (start + rr_distance n start j) `mod` n = j.
Proof.
  unfold rr_distance. intros Hs Hj.
  replace (start + ((j - start - 1) `mod` n + 1)) with ((j - start - 1) `mod` n + (start + 1)) by lia.
  rewrite Zplus_mod_idemp_l. replace (j - start - 1 + (start + 1)) with j by lia.
  by apply Z.mod_small.
Qed.

(** A selection never passes a ready process. *)
Lemma rr_turn_le k queue start m j :
  rr_turn k queue start m → 0 ≤ start < Z.of_nat (length queue) →
  0 ≤ j < Z.of_nat (length queue) → is_ready k queue j = true →
  m ≤ rr_distance (Z.of_nat (length queue)) start j.
Proof.
  intros [_ Hskip _] Hs Hj Hr. apply Z.le_ngt. intros Hlt.
  rewrite <- (rr_distance_at _ _ _ Hs Hj), Hskip in Hr; [done|].
  unfold rr_distance in *. pose proof (Z.mod_pos_bound (j - start - 1) (Z.of_nat (length queue))). lia.
Qed.

Lemma rounds_reach (i : nat) j env ps k k' q :
  rounds (Z.of_nat i) env k ps k' → (∀ a b, env a b → keeps_ready i j a b) →
  m_policy (k_sched k) = RoundRobin →
  m_runqueues (k_sched k) !! i = Some q → rq_wf k q →
  0 ≤ j < Z.of_nat (length (process_queue q)) → is_ready k (process_queue q) j = true →
  rr_distance (Z.of_nat (length (process_queue q))) (current_index q) j ≤ Z.of_nat (length ps) →
  default 0 (process_queue q !! Z.to_nat j) ∈ ps.
Proof.
  intros Hr Henv. revert q. remember (Z.of_nat i) as iz eqn:Eiz.
  induction Hr as [k|k k1 k2 k3 p ps Hsel Hstep Hr IH]; intros q Hpol Hq Hwf Hj Hready Hd; subst iz.
  { cbn [length] in Hd. unfold rr_distance in Hd.
    pose proof (Z.mod_pos_bound (j - current_index q - 1) (Z.of_nat (length (process_queue q)))). lia. }
  assert (Hne : process_queue q ≠ []) by (intros E; rewrite E in Hj; cbn [length] in Hj; lia).
  assert (Hs : 0 ≤ current_index q < Z.of_nat (length (process_queue q)))
    by (apply index_range; [apply Hwf|done]).
  destruct (select_round_robin_ok k i q Hq Hwf Hpol Hne) as (m & Hm & E).
  cbv zeta in E. rewrite E in Hsel. injection Hsel as Ep Ek1. subst p k1.
  pose proof (rr_turn_le _ _ _ _ _ Hm Hs Hj Hready) as Hle.
  destruct (decide (m = rr_distance (Z.of_nat (length (process_queue q))) (current_index q) j)) as [->|Hmd].
  { rewrite rr_distance_at by done. unfold picked. rewrite Hready. by left. }
  right. destruct Hm as [Hmr _ _].
  set (n := Z.of_nat (length (process_queue q))) in *.
  destruct (Henv _ _ Hstep) as [Hpol2 Hq2].
  destruct (Hq2 (set_index ((current_index q + m) `mod` n) q)) as (Hq2' & Hwf2 & Hready2).
  { cbn. apply list_lookup_insert_eq. by apply lookup_lt_Some with q. }
  apply (IH (set_index ((current_index q + m) `mod` n) q)); try done.
  - by rewrite Hpol2.
  - cbn [process_queue set_index current_index]. fold n.
    rewrite rr_distance_step by lia. cbn [length] in Hd. lia.
Qed.

(** ** Priority selection *)

(** [best k l i highest selected index]: the loop's result as a specification. *)
Definition prio (k : Kernel) (p : Z) : Z :=
  match pm_procs (k_pm k) !! p with
  | Some x => if decide (state x = Ready) then priority x else 0
  | None => 0
  end.

(** [priority_choice k l p j]: [p] is the first of the ready processes of the
    highest priority, at position [j]; 0 when none has a positive priority. *)
Definition priority_choice (k : Kernel) (l : list Z) (p j : Z) : Prop :=
  (p = 0 ∧ forall x, x ∈ l → prio k x ≤ 0) ∨
  (l !! Z.to_nat j = Some p ∧ 0 ≤ j ∧ 0 < prio k p ∧
   (∀ x, x ∈ l → prio k x ≤ prio k p) ∧
   forall (a : nat) x, (a < Z.to_nat j)%nat → l !! a = Some x → prio k x < prio k p).

Lemma priority_loop_ok k l2 : ∀ l1 sel j,
  all_live k (l1 ++ l2) → priority_choice k l1 sel j →
  (sel = 0 → j = 0) →
  exists sel' j', priority_choice k (l1 ++ l2) sel' j' ∧ (sel' = 0 → j' = 0) ∧
    priority_loop l2 (Z.of_nat (length l1)) (if sel =? 0 then 0 else prio k sel) sel j k
      = Ok ((sel', j'), k).
Proof.
  induction l2 as [|p l2 IH]; intros l1 sel j Hlive Hc H0.
  { exists sel, j. rewrite app_nil_r. done. }
  cbn [priority_loop]. pose proof Hlive as Hl. unfold all_live in Hl.
  rewrite Forall_app, Forall_cons in Hl. destruct Hl as (Hl1 & [Hp0 [x Hx]] & _).
  rewrite (bind_run _ _ _ _ _ (deref_run _ _ _ Hx)).
  assert (Hprio : prio k p = if decide (state x = Ready) then priority x else 0)
    by (unfold prio; by rewrite Hx).
  replace (Z.of_nat (length l1) + 1) with (Z.of_nat (length (l1 ++ [p])))
    by (rewrite length_app; cbn [length]; lia).
  rewrite cons_middle, app_assoc in *.
  set (h := if sel =? 0 then 0 else prio k sel).
  assert (Hh : 0 ≤ h ∧ forall y, y ∈ l1 → prio k y ≤ h).
  { unfold h. destruct Hc as [[-> Hc]|(Hj & ? & Hpos & Hmax & _)]; [done|].
    apply list_elem_of_lookup_2 in Hj. rewrite Forall_forall in Hl1.
    destruct (Z.eqb_spec sel 0); [|split; [lia|done]].
    by destruct (Hl1 _ Hj). }
  destruct (bool_decide (state x = Ready) && (h <? priority x)) eqn:Eb.
  - apply andb_prop in Eb as [Er Elt]. apply bool_decide_eq_true_1 in Er.
    rewrite decide_True in Hprio by done.
    assert (priority x = (if p =? 0 then 0 else prio k p)) as ->.
    { by rewrite (proj2 (Z.eqb_neq p 0)). }
    apply IH; [done| |done]. right. rewrite Nat2Z.id, list_lookup_middle by done.
    split; [done|]. split; [lia|]. split; [lia|]. split.
    + intros y Hy. apply elem_of_app in Hy as [Hy|Hy]; [destruct Hh as [_ Hh]; specialize (Hh y Hy); lia|].
      apply list_elem_of_singleton in Hy as ->. done.
    + intros a y Ha Hy. rewrite lookup_app_l in Hy by done.
      apply list_elem_of_lookup_2, Hh in Hy. lia.
  - apply IH; [done| |done].
    assert (Hple : prio k p ≤ h).
    { rewrite Hprio. destruct (decide (state x = Ready)) as [E|E]; [|lia].
      rewrite bool_decide_eq_true_2 in Eb by done. cbn in Eb. lia. }
    destruct Hc as [[-> Hc]|(Hj & ? & Hpos & Hmax & Hfst)].
    + left. split; [done|]. intros y Hy. apply elem_of_app in Hy as [Hy|Hy]; [auto|].
      apply list_elem_of_singleton in Hy as ->. done.
    + right. pose proof (lookup_lt_Some _ _ _ Hj). split; [by rewrite lookup_app_l|].
      assert (h = prio k sel) as Eh.
      { unfold h. destruct (Z.eqb_spec sel 0); [|done]. apply list_elem_of_lookup_2 in Hj.
        rewrite Forall_forall in Hl1. by destruct (Hl1 _ Hj). }
      split; [done|]. split; [done|]. split.
      * intros y Hy. apply elem_of_app in Hy as [Hy|Hy]; [auto|].
        apply list_elem_of_singleton in Hy as ->. lia.
      * intros a y Ha Hy. rewrite lookup_app_l in Hy by lia. eauto.
Qed.

Lemma select_priority_ok k (i : nat) q :
  m_runqueues (k_sched k) !! i = Some q → rq_wf k q → m_policy (k_sched k) = Priority →
  process_queue q ≠ [] →
  exists p j, priority_choice k (process_queue q) p j ∧
    select_next_process (Z.of_nat i) k =
      Ok (p, if p =? 0 then k else with_rq i (set_index j q) k).
Proof.
  intros Hq [Hlive _ _] Hpol Hne.
  unfold select_next_process. rewrite (bind_run _ _ _ _ _ (get_rq_run _ _ _ Hq)).
  destruct (process_queue q) as [|p0 r] eqn:Eq; [done|]. rewrite <- Eq in *. clear p0 r Eq.
  st. rewrite Hpol.
  destruct (priority_loop_ok k (process_queue q) [] 0 0 Hlive) as (p & j & Hc & _ & E);
    [left; split; [done|set_solver]|done|].
  cbn [length app] in *. change (if 0 =? 0 then 0 else prio k 0) with 0 in E.
  exists p, j. split; [done|]. rewrite (bind_run _ _ _ _ _ E). cbn [fst snd].
  destruct (p =? 0); [done|].
  by rewrite (bind_run _ _ _ _ _ (put_rq_run i _ k (lookup_lt_Some _ _ _ Hq))).
Qed.

(** ** The invariant of the queues *)

Definition queues_of (l : list CPURunQueue) : list Z := l ≫= process_queue.
Definition all_queued (k : Kernel) : list Z := queues_of (m_runqueues (k_sched k)).

(** Run queue [i] is processor [i]'s, the indices are in range, and every live
    process is on one queue at most. *)
Record sched_wf (k : Kernel) : Prop := {
  sw_queue : ∀ (i : nat) q, m_runqueues (k_sched k) !! i = Some q →
    cpu_id q = Z.of_nat i ∧ rq_index_ok q;
  sw_live : all_live k (all_queued k);
  sw_nodup : NoDup (all_queued k);
  sw_length : Z.of_nat (length (all_queued k)) < 2 ^ 63
}.

Lemma queues_of_split l (i : nat) q :
  l !! i = Some q →
  exists rest, queues_of l ≡ₚ process_queue q ++ rest ∧
    forall q', queues_of (<[i := q']> l) ≡ₚ process_queue q' ++ rest.
Proof.
  intros Hq. exists (queues_of (take i l) ++ queues_of (drop (S i) l)). unfold queues_of. split.
  - rewrite <- (take_drop_middle l i q Hq) at 1.
    rewrite bind_app, bind_cons. rewrite !app_assoc. f_equiv. apply Permutation_app_comm.
  - intros q'. rewrite insert_take_drop by (by apply lookup_lt_Some in Hq).
    rewrite bind_app, bind_cons. rewrite !app_assoc. f_equiv. apply Permutation_app_comm.
Qed.

Lemma queue_in_all k (i : nat) q p :
  m_runqueues (k_sched k) !! i = Some q → p ∈ process_queue q → p ∈ all_queued k.
Proof.
  intros Hq Hp. destruct (queues_of_split _ _ _ Hq) as (rest & E & _).
  unfold all_queued. rewrite E. apply elem_of_app. by left.
Qed.

Lemma sched_wf_rq k (i : nat) q :
  sched_wf k → m_runqueues (k_sched k) !! i = Some q → rq_wf k q ∧ NoDup (process_queue q).
Proof.
  intros [Hi Hlive Hnd Hlen] Hq. destruct (queues_of_split _ _ _ Hq) as (rest & E & _).
  unfold all_queued in *. unfold all_live in Hlive. rewrite E in Hlive, Hnd, Hlen.
  apply NoDup_app in Hnd as [Hnd _]. apply Forall_app in Hlive as [Hlive _].
  rewrite length_app in Hlen. split; [|done]. constructor; [done| |lia].
  by destruct (Hi _ _ Hq).
Qed.

(** A queue replaced by another: the invariant holds again when the entries
    taken together are a permutation of lawful ones. *)
Lemma sched_wf_insert k k' (i : nat) q q' all' :
  sched_wf k → m_runqueues (k_sched k) !! i = Some q →
  m_runqueues (k_sched k') = <[i := q']> (m_runqueues (k_sched k)) →
  cpu_id q' = cpu_id q → rq_index_ok q' →
  all_queued k' ≡ₚ all' → all_live k' all' → NoDup all' →
  Z.of_nat (length all') < 2 ^ 63 → sched_wf k'.
Proof.
  intros Hwf Hq El Hid Hix Hp Hlive Hnd Hlen. constructor.
  - intros a b. rewrite El. intros Hb. apply list_lookup_insert_Some in Hb as [(-> & <- & _)|[? Hb]].
    + rewrite Hid. split; [by apply (sw_queue _ Hwf)|done].
    + by apply (sw_queue _ Hwf).
  - unfold all_live. by rewrite Hp.
  - by rewrite Hp.
  - by rewrite Hp.
Qed.

Lemma runqueue_from_wf l : ∀ i (j : nat) q,
  (∀ (a : nat) q, l !! a = Some q → cpu_id q = Z.of_nat (i + a)) →
  l !! j = Some q → runqueue_from (Z.of_nat i) l (Z.of_nat (i + j)) = Some (Z.of_nat (i + j)).
Proof.
  induction l as [|x l IH]; intros i j q Hid Hj; [done|]. cbn [runqueue_from].
  rewrite (Hid 0%nat x eq_refl), Nat.add_0_r. destruct j as [|j].
  - rewrite Nat.add_0_r, Z.eqb_refl. done.
  - rewrite (proj2 (Z.eqb_neq _ _)) by lia.
    replace (Z.of_nat i + 1) with (Z.of_nat (S i)) by lia.
    replace (i + S j)%nat with (S i + j)%nat by lia. apply (IH (S i) j q).
    + intros a y Ha. rewrite (Hid (S a) y Ha). lia.
    + done.
Qed.

Lemma get_runqueue_run k (i : nat) q :
  sched_wf k → m_runqueues (k_sched k) !! i = Some q →
  get_runqueue (Z.of_nat i) k = Ok (Some (Z.of_nat i), k).
Proof.
  intros Hwf Hq. unfold get_runqueue, gets.
  rewrite (runqueue_from_wf _ 0 i q); [done| |done].
  intros a y Ha. by apply (sw_queue _ Hwf).
Qed.

Definition qlen (q : CPURunQueue) : Z := Z.of_nat (length (process_queue q)).

(** The queue [add_process] chooses is no longer than any other. *)
Lemma shortest_ok l : ∀ i mn t,
  (∀ (a : nat) q, l !! a = Some q → cpu_id q = Z.of_nat (i + a)) →
  (shortest l mn t = t ∧ ∀ (a : nat) q, l !! a = Some q → mn ≤ qlen q) ∨
  exists (a : nat) q, l !! a = Some q ∧ shortest l mn t = Z.of_nat (i + a) ∧ qlen q < mn ∧
    forall (b : nat) q', l !! b = Some q' → qlen q ≤ qlen q'.
Proof.
  induction l as [|x l IH]; intros i mn t Hid; [by left|]. cbn [shortest]. fold (qlen x).
  assert (Hid' : ∀ (a : nat) q, l !! a = Some q → cpu_id q = Z.of_nat (S i + a)).
  { intros a y Ha. rewrite (Hid (S a) y Ha). lia. }
  destruct (Z.ltb_spec (qlen x) mn) as [Hx|Hx].
  - right. destruct (IH (S i) (qlen x) (cpu_id x) Hid') as [[E Hall]|(a & q & Ha & E & Hlt & Hmin)].
    + exists 0%nat, x. rewrite E, (Hid 0%nat x eq_refl). split_and!; [done|done|done|].
      intros [|b] q' Hb; [injection Hb as ->; done|]. by apply (Hall b).
    + exists (S a), q. rewrite E. split_and!; [done|lia|lia|].
      intros [|b] q' Hb; [injection Hb as ->; lia|]. by apply (Hmin b).
  - destruct (IH (S i) mn t Hid') as [[E Hall]|(a & q & Ha & E & Hlt & Hmin)].
    + left. split; [done|]. intros [|b] q' Hb; [injection Hb as ->; done|]. by apply (Hall b).
    + right. exists (S a), q. rewrite E. split_and!; [done|lia|lia|].
      intros [|b] q' Hb; [injection Hb as ->; lia|]. by apply (Hmin b).
Qed.

Lemma shortest_wf k :
  sched_wf k → m_runqueues (k_sched k) ≠ [] →
  exists (i : nat) q, m_runqueues (k_sched k) !! i = Some q ∧
    shortest (m_runqueues (k_sched k)) SIZE_MAX 0 = Z.of_nat i ∧
    forall (b : nat) q', m_runqueues (k_sched k) !! b = Some q' → qlen q ≤ qlen q'.
Proof.
  intros Hwf Hne.
  destruct (shortest_ok (m_runqueues (k_sched k)) 0 SIZE_MAX 0) as [[_ Hall]|(a & q & Ha & E & _ & Hmin)].
  - intros a q Hq. by apply (sw_queue _ Hwf).
  - destruct (m_runqueues (k_sched k)) as [|x l] eqn:El; [done|].
    specialize (Hall 0%nat x eq_refl). exfalso.
    assert (Hx : m_runqueues (k_sched k) !! 0%nat = Some x) by (by rewrite El).
    destruct (sched_wf_rq _ _ _ Hwf Hx) as [[_ _ Hlen] _].
    unfold qlen, SIZE_MAX in Hall. lia.
  - exists a, q. done.
Qed.

Lemma all_live_procs k k' l :
  (∀ p, is_Some (pm_procs (k_pm k) !! p) → is_Some (pm_procs (k_pm k') !! p)) →
  all_live k l → all_live k' l.
Proof. intros Hp. unfold all_live. rewrite !Forall_forall. intros H p Hin. destruct (H p Hin). auto. Qed.

Lemma sched_wf_procs k k' :
  k_sched k' = k_sched k →
  (∀ p, is_Some (pm_procs (k_pm k) !! p) → is_Some (pm_procs (k_pm k') !! p)) →
  sched_wf k → sched_wf k'.
Proof.
  intros E Hp [H1 H2 H3 H4]. unfold all_queued in *.
  constructor; unfold all_queued; rewrite E; [done| |done|done]. by apply (all_live_procs k).
Qed.

(** The kernel after [add_process p] put it on queue [i]. *)
Definition added (p : Z) (i : nat) (q : CPURunQueue) (k : Kernel) : Kernel :=
  with_rq i (set_queue (process_queue q ++ [p]) q)
    (with_pm (set_procs (alter (set_state Ready) p (pm_procs (k_pm k)))) k).

Lemma add_process_ok k p x :
  sched_wf k → m_runqueues (k_sched k) ≠ [] → p ≠ 0 → pm_procs (k_pm k) !! p = Some x →
  p ∉ all_queued k → Z.of_nat (length (all_queued k)) + 1 < 2 ^ 63 →
  exists (i : nat) q, m_runqueues (k_sched k) !! i = Some q ∧
    (∀ (b : nat) q', m_runqueues (k_sched k) !! b = Some q' → qlen q ≤ qlen q') ∧
    add_process p k = Ok (tt, added p i q k) ∧
    sched_wf (added p i q k) ∧ all_queued (added p i q k) ≡ₚ p :: all_queued k.
Proof.
  intros Hwf Hne Hp0 Hx Hnin Hlen.
  destruct (shortest_wf k Hwf Hne) as (i & q & Hq & E & Hmin). exists i, q.
  split; [done|]. split; [done|].
  assert (Hpq : p ∉ process_queue q) by (intros H; by apply Hnin, (queue_in_all _ _ _ _ Hq)).
  assert (Hperm : all_queued (added p i q k) ≡ₚ p :: all_queued k).
  { unfold all_queued. destruct (queues_of_split _ _ _ Hq) as (rest & E1 & E2).
    cbn [added with_rq with_sched with_pm set_runqueues m_runqueues k_sched].
    rewrite E2, E1. cbn [process_queue set_queue].
    rewrite <- app_assoc. cbn [app]. by rewrite <- Permutation_middle. }
  assert (Halter : <[p:=set_state Ready x]> (pm_procs (k_pm k)) =
    alter (set_state Ready) p (pm_procs (k_pm k))).
  { apply map_eq. intros a. destruct (decide (a = p)) as [->|].
    - rewrite lookup_insert_eq, lookup_alter_eq, Hx. done.
    - by rewrite lookup_insert_ne, lookup_alter_ne. }
  split_and!; [| |done].
  - unfold add_process. rewrite (proj2 (Z.eqb_neq p 0)) by done.
    rewrite bind_get_runqueues, E, (bind_run _ _ _ _ _ (get_runqueue_run _ _ _ Hwf Hq)).
    rewrite (bind_run _ _ _ _ _ (get_rq_run _ _ _ Hq)), decide_False by done.
    rewrite (bind_run _ _ _ _ _ (assign_run _ _ _ _ Hx)), put_rq_run by (by apply lookup_lt_Some in Hq).
    rewrite Halter. done.
  - destruct (sw_queue _ Hwf _ _ Hq) as [Hid Hi].
    eapply (sched_wf_insert k _ i q (set_queue (process_queue q ++ [p]) q)); try done.
    + destruct Hi as [Hi|Hi]; [by left|right]. cbn. rewrite length_app. cbn [length]. lia.
    + apply Forall_cons. split.
      * split; [done|]. cbn. rewrite lookup_alter_eq, Hx. done.
      * apply (all_live_procs k); [|apply Hwf]. intros a Ha. cbn.
        destruct (decide (a = p)) as [->|]; [by rewrite lookup_alter_eq, Hx|by rewrite lookup_alter_ne].
    + apply NoDup_cons. split; [done|apply Hwf].
    + cbn [length]. lia.
Qed.

(** ** Removal *)

Lemma position_from_Some l p : ∀ j a,
  position_from (Z.of_nat j) l p = Some a →
  exists b : nat, a = Z.of_nat (j + b) ∧ l !! b = Some p.
Proof.
  induction l as [|x l IH]; intros j a; cbn [position_from]; [done|].
  destruct (Z.eqb_spec x p) as [->|].
  - intros [= <-]. exists 0%nat. split; [lia|done].
  - replace (Z.of_nat j + 1) with (Z.of_nat (S j)) by lia. intros H.
    apply IH in H as (b & -> & Hb). exists (S b). split; [lia|done].
Qed.

Lemma position_from_None l p : ∀ j, position_from j l p = None ↔ p ∉ l.
Proof.
  induction l as [|x l IH]; intros j; cbn [position_from]; [by split; [set_solver|]|].
  destruct (Z.eqb_spec x p) as [->|]; [split; [done|set_solver]|]. rewrite IH. set_solver.
Qed.

Lemma delete_split {A} (l : list A) (b : nat) x : l !! b = Some x → l ≡ₚ x :: delete b l.
Proof. intros H. by apply delete_Permutation. Qed.

Lemma take_out_wf q (b : nat) p :
  process_queue q !! b = Some p → rq_index_ok q →
  rq_index_ok (take_out (Z.of_nat b) q) ∧ cpu_id (take_out (Z.of_nat b) q) = cpu_id q ∧
  process_queue q ≡ₚ p :: process_queue (take_out (Z.of_nat b) q).
Proof.
  intros Hb Hi. pose proof (lookup_lt_Some _ _ _ Hb) as Hlt. split_and!; [|done|].
  - unfold rq_index_ok, take_out in *. cbn. rewrite Nat2Z.id, length_delete by done.
    destruct (Z.leb_spec (Z.of_nat b) (current_index q)), (Z.ltb_spec 0 (current_index q)); cbn; lia.
  - cbn. rewrite Nat2Z.id. by apply delete_split.
Qed.

(** What [remove_process] leaves of the queue that held the process. *)
Definition removed (p j : Z) (q : CPURunQueue) : CPURunQueue :=
  if rq_current q =? p then set_rq_current 0 true (take_out j q) else take_out j q.

Lemma remove_from_ok k p l : ∀ i,
  (∀ (a : nat) q, l !! a = Some q → m_runqueues (k_sched k) !! (i + a)%nat = Some q) →
  (remove_from (Z.of_nat i) l p k = Ok (tt, k) ∧ ∀ (a : nat) q, l !! a = Some q → p ∉ process_queue q) ∨
  exists (a b : nat) q, m_runqueues (k_sched k) !! a = Some q ∧ process_queue q !! b = Some p ∧
    remove_from (Z.of_nat i) l p k = Ok (tt, with_rq a (removed p (Z.of_nat b) q) k).
Proof.
  induction l as [|x l IH]; intros i Hl; cbn [remove_from]; [by left|].
  pose proof (Hl 0%nat x eq_refl) as Hx. rewrite Nat.add_0_r in Hx.
  destruct (position_from 0 (process_queue x) p) as [j|] eqn:Ej.
  - right. apply (position_from_Some _ _ 0) in Ej as (b & -> & Hb). exists i, b, x.
    split_and!; [done|done|]. cbn [Nat.add]. unfold removed.
    rewrite put_rq_run by (by apply lookup_lt_Some in Hx). by destruct (rq_current x =? p).
  - replace (Z.of_nat i + 1) with (Z.of_nat (S i)) by lia. apply position_from_None in Ej.
    destruct (IH (S i)) as [[E Hall]|(a & b & q & ?)].
    + intros a q Ha. replace (S i + a)%nat with (i + S a)%nat by lia. by apply Hl.
    + left. split; [done|]. intros [|a] q; [by intros [= ->]|apply Hall].
    + right. eauto.
Qed.

Lemma queued_once k (i a : nat) q q' p :
  sched_wf k → m_runqueues (k_sched k) !! i = Some q → m_runqueues (k_sched k) !! a = Some q' →
  p ∈ process_queue q → p ∈ process_queue q' → i = a.
Proof.
  intros Hwf Hq Hq' Hp Hp'. destruct (decide (i = a)) as [|Hne]; [done|exfalso].
  destruct (queues_of_split _ _ _ Hq') as (rest & E1 & E2).
  pose proof (sw_nodup _ Hwf) as Hnd. unfold all_queued in Hnd.
  rewrite E1 in Hnd. apply NoDup_app in Hnd as (_ & Hnd & _). apply (Hnd p); [done|].
  specialize (E2 (set_queue [] q')). cbn in E2. rewrite <- E2.
  apply list_elem_of_bind. exists q. split; [done|].
  apply list_elem_of_lookup_2 with i. by rewrite list_lookup_insert_ne.
Qed.

Lemma filter_all_ne (l : list Z) p : p ∉ l → filter (λ y, y ≠ p) l = l.
Proof.
  induction l as [|x l IH]; [done|]. intros H. apply not_elem_of_cons in H as [? ?].
  rewrite filter_cons_True by congruence. by rewrite IH.
Qed.

Lemma remove_process_ok k p :
  sched_wf k → p ≠ 0 →
  exists k', remove_process p k = Ok (tt, k') ∧ sched_wf k' ∧ k' = with_sched (λ _, k_sched k') k ∧
    all_queued k' ≡ₚ filter (λ y, y ≠ p) (all_queued k) ∧
    forall (i : nat) q q', m_runqueues (k_sched k) !! i = Some q → p ∈ process_queue q →
      m_runqueues (k_sched k') !! i = Some q' → rq_current q' ≠ p.
Proof.
  intros Hwf Hp0. unfold remove_process. rewrite (proj2 (Z.eqb_neq p 0)), bind_get_runqueues by done.
  destruct (remove_from_ok k p (m_runqueues (k_sched k)) 0) as [[E Hall]|(a & b & q & Ha & Hb & E)].
  - done.
  - assert (Hnin : p ∉ all_queued k).
    { unfold all_queued, queues_of. intros (q & Hp & Hq)%list_elem_of_bind.
      apply list_elem_of_lookup in Hq as [i Hq]. by apply (Hall i q). }
    exists k. split_and!; [done|done|by destruct k|by rewrite filter_all_ne|].
    intros i q q' Hq Hp _. exfalso. by apply (Hall i q).
  - destruct (sw_queue _ Hwf _ _ Ha) as [Hid Hix].
    destruct (take_out_wf q b p Hb Hix) as (Hix' & Hid' & Hperm).
    assert (Epq : process_queue (removed p (Z.of_nat b) q) = process_queue (take_out (Z.of_nat b) q))
      by (unfold removed; by destruct (_ =? p)).
    exists (with_rq a (removed p (Z.of_nat b) q) k).
    assert (Hall : all_queued (with_rq a (removed p (Z.of_nat b) q) k) ≡ₚ filter (λ y, y ≠ p) (all_queued k)).
    { unfold all_queued. destruct (queues_of_split _ _ _ Ha) as (rest & E1 & E2).
      pose proof (sw_nodup _ Hwf) as Hnd. unfold all_queued in Hnd. rewrite E1, Hperm in Hnd. cbn [app] in Hnd.
      cbn [with_rq with_sched set_runqueues m_runqueues k_sched].
      rewrite E2, E1, Epq, Hperm. cbn [app]. apply NoDup_cons in Hnd as [Hnin _].
      rewrite filter_cons_False, filter_all_ne by (done || by intros H; apply H). done. }
    split_and!; [done| |done|done|].
    + pose proof (sw_live _ Hwf) as Hlive. pose proof (sw_nodup _ Hwf) as Hnd. pose proof (sw_length _ Hwf) as Hlen.
      eapply (sched_wf_insert k _ a q); [done|done|done| | |exact Hall| | |].
      * unfold removed. by destruct (_ =? p).
      * unfold removed. by destruct (_ =? p).
      * unfold all_live in *. rewrite !Forall_forall in *. intros y Hy.
        apply list_elem_of_filter in Hy as [_ Hy]. by apply Hlive.
      * by apply NoDup_filter.
      * pose proof (length_filter (λ y, y ≠ p) (all_queued k)). lia.
    + intros i y y' Hy Hpy. cbn. intros Hy'. apply list_lookup_insert_Some in Hy' as [(-> & <- & _)|[Hne Hy']].
      * unfold removed. destruct (Z.eqb_spec (rq_current q) p); [by cbn|by cbn].
      * exfalso. apply Hne. apply (queued_once k a i q y p); [done|done|done| |done].
        by apply list_elem_of_lookup_2 with b.
Qed.

(** ** Load balancing *)

Lemma with_rq_lookup k i q (a : nat) :
  m_runqueues (k_sched (with_rq i q k)) !! a =
  if decide (a = i) then (if decide (i < length (m_runqueues (k_sched k)))%nat then Some q else None)
  else m_runqueues (k_sched k) !! a.
Proof.
  cbn. destruct (decide (a = i)) as [->|]; [|by apply list_lookup_insert_ne].
  destruct (decide (i < length (m_runqueues (k_sched k)))%nat).
  - by apply list_lookup_insert_eq.
  - by rewrite list_insert_ge, lookup_ge_None_2 by lia.
Qed.

Definition enqueued (p : Z) (q : CPURunQueue) : CPURunQueue := set_queue (process_queue q ++ [p]) q.

Definition migrated (p : Z) (b : nat) (f : nat) (qf : CPURunQueue) (t : nat) (qt : CPURunQueue)
    (k : Kernel) : Kernel :=
  with_rq t (enqueued p qt) (with_rq f (take_out (Z.of_nat b) qf) k).

Lemma migrate_process_ok k (f t b : nat) qf qt p :
  sched_wf k → f ≠ t → p ≠ 0 →
  m_runqueues (k_sched k) !! f = Some qf → m_runqueues (k_sched k) !! t = Some qt →
  process_queue qf !! b = Some p →
  migrate_process p (Z.of_nat f) (Z.of_nat t) k = Ok (tt, migrated p b f qf t qt k) ∧
  sched_wf (migrated p b f qf t qt k) ∧ all_queued (migrated p b f qf t qt k) ≡ₚ all_queued k.
Proof.
  intros Hwf Hne Hp0 Hf Ht Hb.
  pose proof (lookup_lt_Some _ _ _ Hf) as Hflt. pose proof (lookup_lt_Some _ _ _ Ht) as Htlt.
  destruct (sched_wf_rq _ _ _ Hwf Hf) as [_ Hndf].
  destruct (sw_queue _ Hwf _ _ Hf) as [Hidf Hixf]. destruct (sw_queue _ Hwf _ _ Ht) as [Hidt Hixt].
  destruct (take_out_wf qf b p Hb Hixf) as (Hix' & Hid' & Hperm).
  set (k1 := with_rq f (take_out (Z.of_nat b) qf) k).
  assert (Ht1 : m_runqueues (k_sched k1) !! t = Some qt)
    by (unfold k1; rewrite with_rq_lookup, decide_False by done; done).
  assert (Hall1 : p :: all_queued k1 ≡ₚ all_queued k).
  { unfold all_queued. destruct (queues_of_split _ _ _ Hf) as (rest & E1 & E2).
    unfold k1. cbn [with_rq with_sched set_runqueues m_runqueues k_sched]. by rewrite E2, E1, Hperm. }
  assert (Hall : all_queued (migrated p b f qf t qt k) ≡ₚ all_queued k).
  { rewrite <- Hall1. unfold all_queued. destruct (queues_of_split _ _ _ Ht1) as (rest & E1 & E2).
    rewrite E1. unfold migrated. fold k1. cbn [with_rq with_sched set_runqueues m_runqueues k_sched].
    rewrite E2. cbn. rewrite <- app_assoc. cbn. by rewrite <- Permutation_middle. }
  pose proof (sw_live _ Hwf) as Hlive. pose proof (sw_nodup _ Hwf) as Hnd. pose proof (sw_length _ Hwf) as Hlen.
  assert (Hwf1 : sched_wf k1).
  { rewrite <- Hall1 in Hnd, Hlen. unfold all_live in Hlive. rewrite <- Hall1 in Hlive.
    apply NoDup_cons in Hnd as [_ Hnd]. apply Forall_cons in Hlive as [_ Hlive]. cbn [length] in Hlen.
    eapply (sched_wf_insert k k1 f qf); try done. lia. }
  split_and!; [| |done].
  - unfold migrate_process. rewrite (proj2 (Z.eqb_neq p 0)), (proj2 (Z.eqb_neq (Z.of_nat f) (Z.of_nat t))) by (done || lia).
    cbn [orb]. rewrite (bind_run _ _ _ _ _ (get_runqueue_run _ _ _ Hwf Hf)),
      (bind_run _ _ _ _ _ (get_runqueue_run _ _ _ Hwf Ht)), (bind_run _ _ _ _ _ (get_rq_run _ _ _ Hf)).
    destruct (position_from 0 (process_queue qf) p) as [j|] eqn:Ej.
    2:{ apply position_from_None in Ej. exfalso. by apply Ej, list_elem_of_lookup_2 with b. }
    apply (position_from_Some _ _ 0) in Ej as (b' & -> & Hb'). cbn [Nat.add].
    assert (b' = b) as -> by exact (NoDup_lookup _ _ _ _ Hndf Hb' Hb).
    rewrite (bind_run _ _ _ _ _ (put_rq_run f _ k Hflt)). fold (with_rq f (take_out (Z.of_nat b) qf) k). fold k1.
    rewrite (bind_run _ _ _ _ _ (get_rq_run _ _ _ Ht1)), put_rq_run by (by apply lookup_lt_Some in Ht1). done.
  - eapply (sched_wf_insert k1 _ t qt (enqueued p qt)); [done|done|done|done| |exact Hall|done|done|done].
    destruct Hixt as [Hi|Hi]; [by left|right]. cbn. rewrite length_app. cbn [length]. lia.
Qed.

(** A process the balancer may move. *)
Definition movable (k : Kernel) (p : Z) : bool :=
  match pm_procs (k_pm k) !! p with
  | Some x => bool_decide (state x ≠ Running) && (priority x <? 8)
  | None => false
  end.

Lemma can_migrate_process_ok k (t : nat) qt p :
  sched_wf k → m_runqueues (k_sched k) !! t = Some qt → p ∈ all_queued k →
  can_migrate_process p (Z.of_nat t) k = Ok (movable k p, k).
Proof.
  intros Hwf Ht Hp. pose proof (sw_live _ Hwf) as Hlive. unfold all_live in Hlive.
  rewrite Forall_forall in Hlive. destruct (Hlive p Hp) as [Hp0 [x Hx]].
  unfold can_migrate_process, movable. rewrite (proj2 (Z.eqb_neq p 0)) by done.
  rewrite (bind_run _ _ _ _ _ (deref_run _ _ _ Hx)), Hx.
  destruct (decide (state x = Running)) as [E|E].
  - rewrite bool_decide_eq_false_2 by (by intros []). done.
  - rewrite bool_decide_eq_true_2 by done. cbn [andb].
    destruct (Z.leb_spec 8 (priority x)).
    + by rewrite (proj2 (Z.ltb_ge _ _)) by lia.
    + rewrite (proj2 (Z.ltb_lt _ _)) by lia.
      by rewrite (bind_run _ _ _ _ _ (get_runqueue_run _ _ _ Hwf Ht)).
Qed.

(** The balancer's effect: [m] processes at most left queue [f] for queue [t];
    the others' queues, the immovable processes and the process table are kept. *)
Record balanced (k : Kernel) (f t : nat) (m : Z) (k' : Kernel) : Prop := {
  bl_wf : sched_wf k';
  bl_all : all_queued k' ≡ₚ all_queued k;
  bl_pm : k_pm k' = k_pm k;
  bl_others : ∀ a, a ≠ f → a ≠ t → m_runqueues (k_sched k') !! a = m_runqueues (k_sched k) !! a;
  bl_moved : ∀ qf qt, m_runqueues (k_sched k) !! f = Some qf → m_runqueues (k_sched k) !! t = Some qt →
    exists qf' qt', m_runqueues (k_sched k') !! f = Some qf' ∧ m_runqueues (k_sched k') !! t = Some qt' ∧
      qlen qf' + qlen qt' = qlen qf + qlen qt ∧ qlen qf - m ≤ qlen qf' ≤ qlen qf ∧
      forall p, p ∈ process_queue qf → movable k p = false → p ∈ process_queue qf'
}.

Lemma balanced_refl k (f t : nat) m : sched_wf k → 0 ≤ m → balanced k f t m k.
Proof. intros Hwf Hm. constructor; try done. intros qf qt ? ?. exists qf, qt. split_and!; done || lia. Qed.

Lemma balanced_step k k1 (f t b : nat) qf qt p m k' :
  f ≠ t → m_runqueues (k_sched k) !! f = Some qf → m_runqueues (k_sched k) !! t = Some qt →
  process_queue qf !! b = Some p → movable k p = true →
  k1 = migrated p b f qf t qt k → all_queued k1 ≡ₚ all_queued k →
  balanced k1 f t m k' → balanced k f t (m + 1) k'.
Proof.
  intros Hne Hf Ht Hb Hmov E1 Hall1 [Hwf Hall Hpm Hoth Hmv]. subst k1.
  pose proof (lookup_lt_Some _ _ _ Hf) as Hflt. pose proof (lookup_lt_Some _ _ _ Ht) as Htlt.
  pose proof (lookup_lt_Some _ _ _ Hb) as Hblt.
  constructor; [done|by rewrite Hall|by rewrite Hpm| |].
  - intros a Haf Hat. rewrite Hoth by done. unfold migrated. by rewrite !with_rq_lookup, !decide_False by done.
  - intros qf0 qt0 Hf0 Ht0. rewrite Hf in Hf0. rewrite Ht in Ht0. injection Hf0 as <-. injection Ht0 as <-.
    destruct (Hmv (take_out (Z.of_nat b) qf) (enqueued p qt)) as (qf' & qt' & ? & ? & Hs & Hl & Hk).
    + unfold migrated. rewrite with_rq_lookup, decide_False, with_rq_lookup, !decide_True by done. done.
    + unfold migrated. rewrite with_rq_lookup, decide_True, decide_True by (cbn; rewrite ?length_insert; done). done.
    + exists qf', qt'. unfold qlen in *. cbn in Hs, Hl.
      rewrite Nat2Z.id, length_app in *. cbn [length] in *. rewrite length_delete in Hs, Hl by done.
      split_and!; [done|done|lia|lia|lia|].
      intros y Hy Himm. apply Hk; [|exact Himm]. cbn. rewrite Nat2Z.id.
      rewrite (delete_split _ _ _ Hb) in Hy. apply elem_of_cons in Hy as [->|Hy]; [congruence|done].
Qed.

Lemma balance_loop_ok fuel : ∀ k (f t i : nat) moved to_move qf qt,
  sched_wf k → f ≠ t → m_runqueues (k_sched k) !! f = Some qf → m_runqueues (k_sched k) !! t = Some qt →
  0 ≤ moved ≤ to_move → (length (process_queue qf) < fuel + i)%nat → (i ≤ length (process_queue qf))%nat →
  exists k', balance_loop fuel (Z.of_nat i) moved to_move (Z.of_nat f) (Z.of_nat t) (Z.of_nat f) k = Ok (tt, k') ∧
    balanced k f t (to_move - moved) k'.
Proof.
  induction fuel as [|fuel IH]; intros k f t i moved to_move qf qt Hwf Hne Hf Ht Hm Hfuel Hi; [lia|].
  cbn [balance_loop]. rewrite (bind_run _ _ _ _ _ (get_rq_run _ _ _ Hf)).
  destruct (Z.ltb_spec (Z.of_nat i) (Z.of_nat (length (process_queue qf)))) as [Hlt|Hge]; cbn [andb].
  2:{ exists k. split; [done|]. apply balanced_refl; [done|lia]. }
  destruct (Z.ltb_spec moved to_move) as [Hmv|Hmv].
  2:{ exists k. split; [done|]. apply balanced_refl; [done|lia]. }
  destruct (lookup_lt_is_Some_2 (process_queue qf) i) as [p Hp]; [lia|].
  rewrite (bind_lift _ _ _ _ (aget_lookup _ _ _ Hp)).
  assert (Hin : p ∈ all_queued k) by (apply (queue_in_all _ _ _ _ Hf); by apply list_elem_of_lookup_2 with i).
  rewrite (bind_run _ _ _ _ _ (can_migrate_process_ok _ _ _ _ Hwf Ht Hin)).
  destruct (movable k p) eqn:Emov.
  - assert (Hp0 : p ≠ 0).
    { pose proof (sw_live _ Hwf) as Hl. unfold all_live in Hl. rewrite Forall_forall in Hl. by destruct (Hl p Hin). }
    destruct (migrate_process_ok k f t i qf qt p Hwf Hne Hp0 Hf Ht Hp) as (E & Hwf1 & Hall1).
    rewrite (bind_run _ _ _ _ _ E).
    pose proof (lookup_lt_Some _ _ _ Hf). pose proof (lookup_lt_Some _ _ _ Ht).
    assert (Hlen : length (process_queue (take_out (Z.of_nat i) qf)) = Nat.pred (length (process_queue qf))).
    { cbn. rewrite Nat2Z.id, length_delete by done. lia. }
    destruct (IH (migrated p i f qf t qt k) f t i (moved + 1) to_move (take_out (Z.of_nat i) qf) (enqueued p qt))
      as (k' & E' & Hb).
    + done.
    + done.
    + unfold migrated. by rewrite with_rq_lookup, decide_False, with_rq_lookup, !decide_True by done.
    + unfold migrated. by rewrite with_rq_lookup, decide_True, decide_True by (cbn; rewrite ?length_insert; done).
    + lia.
    + rewrite Hlen. lia.
    + rewrite Hlen. lia.
    + exists k'. split; [exact E'|]. replace (to_move - moved) with (to_move - (moved + 1) + 1) by lia.
      by apply (balanced_step k (migrated p i f qf t qt k) f t i qf qt p).
  - replace (Z.of_nat i + 1) with (Z.of_nat (S i)) by lia. apply (IH k f t (S i) moved to_move qf qt); done || lia.
Qed.

(** One end found by [extremes]: the initial value, or a queue's. *)
Definition end_of (i : nat) (l : list CPURunQueue) (v c v' c' : Z) : Prop :=
  (v' = v ∧ c' = c) ∨
  exists (a : nat) q, l !! a = Some q ∧ v' = qlen q ∧ c' = Z.of_nat (i + a).

Lemma end_of_cons i x l v c v' c' v1 c1 :
  end_of (S i) l v1 c1 v' c' → (v1 = v ∧ c1 = c) ∨ (v1 = qlen x ∧ c1 = Z.of_nat i) →
  end_of i (x :: l) v c v' c'.
Proof.
  intros [[-> ->]|(a & q & ? & ? & ->)] H1.
  - destruct H1 as [?|[? ?]]; [by left|]. right. exists 0%nat, x. rewrite Nat.add_0_r. done.
  - right. exists (S a), q. split_and!; [done|done|lia].
Qed.

Lemma extremes_ok l : ∀ i mx mxc mn mnc,
  (∀ (a : nat) q, l !! a = Some q → cpu_id q = Z.of_nat (i + a)) →
  exists mx' mxc' mn' mnc', extremes l mx mxc mn mnc = (mx', mxc', mn', mnc') ∧
    end_of i l mx mxc mx' mxc' ∧ end_of i l mn mnc mn' mnc' ∧ mx ≤ mx' ∧ mn' ≤ mn ∧
    forall (a : nat) q, l !! a = Some q → mn' ≤ qlen q ≤ mx'.
Proof.
  induction l as [|x l IH]; intros i mx mxc mn mnc Hid.
  { exists mx, mxc, mn, mnc. split_and!; try done; by left. }
  cbn [extremes]. fold (qlen x).
  pose proof (Hid 0%nat x eq_refl) as Hx. rewrite Nat.add_0_r in Hx. rewrite Hx.
  set (a1 := if mx <? qlen x then (qlen x, Z.of_nat i) else (mx, mxc)).
  set (a2 := if qlen x <? mn then (qlen x, Z.of_nat i) else (mn, mnc)).
  assert (H1 : ((a1.1 = mx ∧ a1.2 = mxc) ∨ (a1.1 = qlen x ∧ a1.2 = Z.of_nat i)) ∧ mx ≤ a1.1 ∧ qlen x ≤ a1.1).
  { unfold a1. destruct (Z.ltb_spec mx (qlen x)); cbn; (split; [auto|lia]). }
  assert (H2 : ((a2.1 = mn ∧ a2.2 = mnc) ∨ (a2.1 = qlen x ∧ a2.2 = Z.of_nat i)) ∧ a2.1 ≤ mn ∧ a2.1 ≤ qlen x).
  { unfold a2. destruct (Z.ltb_spec (qlen x) mn); cbn; (split; [auto|lia]). }
  destruct a1 as [v1 c1], a2 as [v2 c2]. cbn in H1, H2.
  destruct (IH (S i) v1 c1 v2 c2) as (mx' & mxc' & mn' & mnc' & E & He1 & He2 & Hl1 & Hl2 & Hall).
  { intros a q Ha. rewrite (Hid (S a) q Ha). lia. }
  exists mx', mxc', mn', mnc'. split; [exact E|].
  split; [apply (end_of_cons _ _ _ _ _ _ _ v1 c1); [done|apply H1]|].
  split; [apply (end_of_cons _ _ _ _ _ _ _ v2 c2); [done|apply H2]|].
  split; [lia|]. split; [lia|]. intros [|a] q Ha; [injection Ha as <-; lia|by apply (Hall a)].
Qed.

(** What [load_balance] does: nothing, or it moves processes from a longest to
    a shortest queue, at most half of the difference of their lengths. *)
Definition balance_result (k k' : Kernel) : Prop :=
  (k' = k ∧ ∀ (a b : nat) q q', m_runqueues (k_sched k) !! a = Some q →
    m_runqueues (k_sched k) !! b = Some q' → qlen q - qlen q' ≤ 1) ∨
  exists (f t : nat) qf qt, f ≠ t ∧
    m_runqueues (k_sched k) !! f = Some qf ∧ m_runqueues (k_sched k) !! t = Some qt ∧
    (∀ (a : nat) q, m_runqueues (k_sched k) !! a = Some q → qlen qt ≤ qlen q ≤ qlen qf) ∧
    balanced k f t ((qlen qf - qlen qt) / 2) k'.

Lemma load_balance_ok k :
  sched_wf k → exists k', load_balance k = Ok (tt, k') ∧ balance_result k k'.
Proof.
  intros Hwf. unfold load_balance. rewrite bind_get_runqueues.
  destruct (extremes_ok (m_runqueues (k_sched k)) 0 0 0 SIZE_MAX 0) as
    (mx & mxc & mn & mnc & E & He1 & He2 & Hmx & Hmn & Hall).
  { intros a q Ha. by apply (sw_queue _ Hwf). }
  rewrite E.
  assert (Hq : ∀ (a : nat) q, m_runqueues (k_sched k) !! a = Some q → 0 ≤ qlen q < 2 ^ 63).
  { intros a q Ha. destruct (sched_wf_rq _ _ _ Hwf Ha) as [[_ _ Hl] _]. unfold qlen. lia. }
  destruct (decide (m_runqueues (k_sched k) = [])) as [Enil|Hnil].
  { exists k. rewrite Enil in *. destruct He1 as [[-> ->]|(? & ? & ? & _)]; [|done].
    destruct He2 as [[-> ->]|(? & ? & ? & _)]; [|done].
    split; [done|]. left. split; [done|]. rewrite Enil. done. }
  assert (Hmm : 0 ≤ mn ≤ mx ∧ mx < 2 ^ 63).
  { destruct (m_runqueues (k_sched k)) as [|x l] eqn:El; [done|]. pose proof (Hall 0%nat x eq_refl).
    rewrite <- El in *. split.
    - destruct He2 as [[-> ->]|(a & q & Ha & -> & _)]; [unfold SIZE_MAX in *; lia|]. pose proof (Hq _ _ Ha). lia.
    - destruct He1 as [[-> ->]|(a & q & Ha & -> & _)]; [lia|]. pose proof (Hq _ _ Ha). lia. }
  rewrite u64_small by lia. destruct (Z.leb_spec (mx - mn) 1).
  { exists k. split; [done|]. left. split; [done|]. intros a b q q' Ha Hb.
    pose proof (Hall _ _ Ha). pose proof (Hall _ _ Hb). lia. }
  destruct He1 as [[-> ->]|(f & qf & Hf & -> & ->)]; [lia|].
  destruct He2 as [[-> ->]|(t & qt & Ht & -> & ->)]; [unfold SIZE_MAX in *; lia|]. cbn [Nat.add].
  rewrite (bind_run _ _ _ _ _ (get_runqueue_run _ _ _ Hwf Hf)), (bind_run _ _ _ _ _ (get_runqueue_run _ _ _ Hwf Ht)),
    (bind_run _ _ _ _ _ (get_rq_run _ _ _ Hf)).
  assert (Hne : f ≠ t) by (intros ->; rewrite Hf in Ht; injection Ht as ->; lia).
  destruct (balance_loop_ok (S (length (process_queue qf))) k f t 0 0 ((qlen qf - qlen qt) / 2) qf qt)
    as (k' & E' & Hb); [done|done|done|done| |lia|lia|].
  { split; [done|]. apply Z.div_pos; lia. }
  exists k'. split; [exact E'|]. right. exists f, t, qf, qt. rewrite Z.sub_0_r in Hb. done.
Qed.

(** Enqueueing again a process that waits on a longer queue puts it on two. *)
Lemma add_process_twice k p x (i b : nat) q q' :
  sched_wf k → m_runqueues (k_sched k) !! i = Some q → p ∈ process_queue q →
  m_runqueues (k_sched k) !! b = Some q' → qlen q' < qlen q → pm_procs (k_pm k) !! p = Some x →
  exists k', add_process p k = Ok (tt, k') ∧ ¬ NoDup (all_queued k').
Proof.
  intros Hwf Hq Hp Hq' Hlt Hx.
  assert (Hne : m_runqueues (k_sched k) ≠ []) by (intros E; by rewrite E in Hq).
  destruct (shortest_wf k Hwf Hne) as (a & qa & Ha & E & Hmin). pose proof (Hmin _ _ Hq').
  assert (Hai : a ≠ i) by (intros ->; rewrite Hq in Ha; injection Ha as ->; lia).
  assert (Hpa : p ∉ process_queue qa) by (intros Hin; apply Hai; by eapply queued_once).
  assert (Hp0 : p ≠ 0).
  { pose proof (sw_live _ Hwf) as Hl. unfold all_live in Hl. rewrite Forall_forall in Hl.
    by destruct (Hl p (queue_in_all _ _ _ _ Hq Hp)). }
  eexists. split.
  - unfold add_process. rewrite (proj2 (Z.eqb_neq p 0)), bind_get_runqueues by done.
    rewrite E, (bind_run _ _ _ _ _ (get_runqueue_run _ _ _ Hwf Ha)), (bind_run _ _ _ _ _ (get_rq_run _ _ _ Ha)).
    rewrite decide_False, (bind_run _ _ _ _ _ (assign_run _ _ _ _ Hx)), put_rq_run by (done || by apply lookup_lt_Some in Ha).
    reflexivity.
  - unfold all_queued. cbn. destruct (queues_of_split _ _ _ Ha) as (rest & _ & E2). rewrite E2. cbn.
    intros Hnd. apply NoDup_app in Hnd as (_ & Hnd & _). apply (Hnd p); [apply elem_of_app; right; by left|].
    specialize (E2 (set_queue [] qa)). cbn in E2. rewrite <- E2. apply list_elem_of_bind. exists q. split; [done|].
    apply list_elem_of_lookup_2 with i. by rewrite list_lookup_insert_ne.
Qed.

(** ** Claims *)

(** A kernel with two processors, for the witnesses. *)
Definition demo_proc (n : Z) (s : ProcessState) (pr : Z) : Process :=
  set_priority pr (set_state s (set_last_run n new_process)).
Definition demo_rq (i : Z) (q : list Z) (index : Z) : CPURunQueue := RunQueue q index 5 0 i false.
Definition demo_machine : Machine := Mach 0 2 0 true [] (Vmm (Pmm [] 0 0 0) (λ _, 0) 0).
Definition demo_kernel (policy : SchedulerPolicy) (index : Z) (q2 : list Z) : Kernel :=
  Kern (PM (list_to_map [(100, demo_proc 1 Ready 5); (200, demo_proc 2 Waiting 5);
                         (300, demo_proc 3 Ready 7); (400, demo_proc 4 Running 5)]) 500 [] 0 5)
    (Sched [demo_rq 0 [100; 200; 300; 400] index; demo_rq 1 q2 0] policy 0)
    (IPC ∅ 1 [] [] 1 1) demo_machine.

Lemma demo_sched_wf policy index : 0 ≤ index < 4 → sched_wf (demo_kernel policy index []).
Proof.
  intros Hi. constructor.
  - intros [|[|i]] q Hq; [injection Hq as <-|injection Hq as <-|done];
      (split; [done|]); unfold rq_index_ok; cbn; lia.
  - unfold all_live, all_queued, queues_of. cbn. repeat constructor; cbn; try done; by eexists.
  - unfold all_queued. cbn. apply (bool_decide_unpack _). by vm_compute.
  - by vm_compute.
Qed.

(** Round robin: [select_next_process] always returns; going around the
    circle from the position after [current_index] it selects the first Ready
    process, leaving the index there, or null after one whole turn when no
    process of the queue is ready; nothing else changes. *)
Theorem select_round_robin_spec k (i : nat) q :
  sched_wf k → m_runqueues (k_sched k) !! i = Some q → m_policy (k_sched k) = RoundRobin →
  (process_queue q = [] → select_next_process (Z.of_nat i) k = Ok (0, k)) ∧
  (process_queue q ≠ [] → exists m, rr_turn k (process_queue q) (current_index q) m ∧
     let j := (current_index q + m) `mod` Z.of_nat (length (process_queue q)) in
     select_next_process (Z.of_nat i) k =
       Ok (picked k (process_queue q) j, with_rq i (set_index j q) k)).
Proof.
  intros Hwf Hq Hpol. destruct (sched_wf_rq _ _ _ Hwf Hq) as [Hrq _]. split.
  - intros E. unfold select_next_process. rewrite (bind_run _ _ _ _ _ (get_rq_run _ _ _ Hq)). by rewrite E.
  - by apply select_round_robin_ok.
Qed.

Lemma select_round_robin_spec_witness :
  exists m, rr_turn (demo_kernel RoundRobin 0 []) [100; 200; 300; 400] 0 m ∧
    select_next_process 0 (demo_kernel RoundRobin 0 []) =
      Ok (picked (demo_kernel RoundRobin 0 []) [100; 200; 300; 400] ((0 + m) `mod` 4),
          with_rq 0 (demo_rq 0 [100; 200; 300; 400] ((0 + m) `mod` 4)) (demo_kernel RoundRobin 0 [])).
Proof.
  destruct (select_round_robin_spec (demo_kernel RoundRobin 0 []) 0 (demo_rq 0 [100; 200; 300; 400] 0)
    (demo_sched_wf RoundRobin 0 ltac:(lia)) eq_refl eq_refl) as [_ H].
  exact (H ltac:(done)).
Defined.


Lemma demo_keeps index :
  0 ≤ index < 4 → keeps_ready 0 2 (demo_kernel RoundRobin index []) (demo_kernel RoundRobin index []).
Proof.
  intros Hi. split; [done|]. intros q Hq. split; [done|]. split; [|by injection Hq as <-].
  by apply (sched_wf_rq _ 0); [apply demo_sched_wf|].
Qed.


(** Priority scheduling selects the first of the Ready processes with the
    highest priority, or null when no Ready process has a positive priority (one
    of priority 0 is never selected); it moves the index only when it selects. *)
Theorem select_priority_spec k (i : nat) q :
  sched_wf k → m_runqueues (k_sched k) !! i = Some q → m_policy (k_sched k) = Priority →
  process_queue q ≠ [] →
  exists p j, priority_choice k (process_queue q) p j ∧
    select_next_process (Z.of_nat i) k =
      Ok (p, if p =? 0 then k else with_rq i (set_index j q) k).
Proof.
  intros Hwf Hq. destruct (sched_wf_rq _ _ _ Hwf Hq) as [Hrq _]. by apply select_priority_ok.
Qed.

Lemma select_priority_spec_witness :
  exists p j, priority_choice (demo_kernel Priority 0 []) [100; 200; 300; 400] p j ∧
    select_next_process 0 (demo_kernel Priority 0 []) =
      Ok (p, if p =? 0 then demo_kernel Priority 0 []
             else with_rq 0 (demo_rq 0 [100; 200; 300; 400] j) (demo_kernel Priority 0 [])).
Proof.
  apply (select_priority_spec (demo_kernel Priority 0 []) 0 (demo_rq 0 [100; 200; 300; 400] 0)).
  - apply demo_sched_wf. lia.
  - reflexivity.
  - reflexivity.
  - done.
Defined.

(** [add_process] of a live process that is on no queue makes it Ready and
    appends it to a shortest queue; the queues' invariant (indices in range, each
    live process on one queue at most) is preserved. *)
Theorem add_process_spec k p x :
  sched_wf k → m_runqueues (k_sched k) ≠ [] → p ≠ 0 → pm_procs (k_pm k) !! p = Some x →
  p ∉ all_queued k → Z.of_nat (length (all_queued k)) + 1 < 2 ^ 63 →
  exists (i : nat) q, m_runqueues (k_sched k) !! i = Some q ∧
    (∀ (b : nat) q', m_runqueues (k_sched k) !! b = Some q' → qlen q ≤ qlen q') ∧
    add_process p k = Ok (tt, added p i q k) ∧
    sched_wf (added p i q k) ∧ all_queued (added p i q k) ≡ₚ p :: all_queued k.
Proof. apply add_process_ok. Qed.

Lemma add_process_spec_witness :
  let k := with_pm (set_procs (<[500 := demo_proc 5 Stopped 5]> (pm_procs (k_pm (demo_kernel Priority 0 [])))))
             (demo_kernel Priority 0 []) in
  exists (i : nat) q, m_runqueues (k_sched k) !! i = Some q ∧
    (∀ (b : nat) q', m_runqueues (k_sched k) !! b = Some q' → qlen q ≤ qlen q') ∧
    add_process 500 k = Ok (tt, added 500 i q k) ∧
    sched_wf (added 500 i q k) ∧ all_queued (added 500 i q k) ≡ₚ 500 :: all_queued k.
Proof.
  apply (add_process_spec _ 500 (demo_proc 5 Stopped 5)).
  - apply (sched_wf_procs (demo_kernel Priority 0 [])); [done| |apply demo_sched_wf; lia].
    intros p Hp. cbn. apply lookup_insert_is_Some'. by right.
  - done.
  - done.
  - reflexivity.
  - apply (bool_decide_unpack _). by vm_compute.
  - by vm_compute.
Defined.

(** [remove_process] takes the process off every queue, keeps the others in
    their order on theirs, clears [current] of the queue it was on, and
    preserves the queues' invariant.  Nothing outside the scheduler changes. *)
Theorem remove_process_spec k p :
  sched_wf k → p ≠ 0 →
  exists k', remove_process p k = Ok (tt, k') ∧ sched_wf k' ∧ k' = with_sched (λ _, k_sched k') k ∧
    all_queued k' ≡ₚ filter (λ y, y ≠ p) (all_queued k) ∧
    forall (i : nat) q q', m_runqueues (k_sched k) !! i = Some q → p ∈ process_queue q →
      m_runqueues (k_sched k') !! i = Some q' → rq_current q' ≠ p.
Proof. apply remove_process_ok. Qed.

Lemma remove_process_spec_witness :
  exists k', remove_process 300 (demo_kernel RoundRobin 2 []) = Ok (tt, k') ∧ sched_wf k' ∧
    k' = with_sched (λ _, k_sched k') (demo_kernel RoundRobin 2 []) ∧
    all_queued k' ≡ₚ filter (λ y, y ≠ 300) (all_queued (demo_kernel RoundRobin 2 [])) ∧
    forall (i : nat) q q', m_runqueues (k_sched (demo_kernel RoundRobin 2 [])) !! i = Some q →
      300 ∈ process_queue q → m_runqueues (k_sched k') !! i = Some q' → rq_current q' ≠ 300.
Proof. apply (remove_process_spec (demo_kernel RoundRobin 2 []) 300); [apply demo_sched_wf; lia|done]. Defined.

(** [load_balance] always returns; when no two queues differ by more than
    one it changes nothing, otherwise it moves at most half of the difference
    from a longest to a shortest queue: no process is lost or duplicated, Running
    processes and those of priority 8 or more stay, and the other queues are
    untouched. *)
Theorem load_balance_spec k :
  sched_wf k → exists k', load_balance k = Ok (tt, k') ∧ balance_result k k'.
Proof. apply load_balance_ok. Qed.

Lemma load_balance_spec_witness :
  exists k', load_balance (demo_kernel RoundRobin 0 []) = Ok (tt, k') ∧ balance_result (demo_kernel RoundRobin 0 []) k'.
Proof. apply (load_balance_spec (demo_kernel RoundRobin 0 [])), demo_sched_wf. lia. Defined.
