(* ===== verification/Proc.v ===== *)
(** * The process manager (src/kernel/src/core/process.{hpp,cpp})

    Creation of processes with their kernel stacks, lookup, release of their
    memory, and termination.  [load_program] and [setup_process_stack] are
    in Loader.v, [switch_to_process] is in Sched.v. *)

From S2P Require Import Prelude Pmm Vmm Pages Kernel Sched.

#[local] Abbreviation K := (ST Kernel).

Definition KERNEL_STACK_SIZE : Z := 16 * 1024.
Definition KERNEL_STACK_PAGES : nat := 4.
Definition kernel_stack_base (pid_ : Z) : Z := u64 (0xFFFFFFFF80000000 + u64 (pid_ * KERNEL_STACK_SIZE)).

(** ** Definitions *)

Definition set_next_pid (v : Z) (m : ProcessManager) : ProcessManager :=
  PM (pm_procs m) (pm_new m) (m_processes m) (m_current_process m) v.

(** A new region goes to the front of the list. *)
Definition add_memory_region (p start size : Z) (w x : bool) : K unit :=
  assign p (λ q, set_regions (Region start size w x :: memory_regions q) q).

(** The pages of a region are walked by address; as many turns as it has pages,
    and one for the test that ends the loop. *)
Definition region_pages (size : Z) : nat := Z.to_nat ((size + 4095) / 4096).
Definition release_region (r : MemoryRegion) : ST VirtualMemoryManager unit :=
  release_range (S (region_pages (mr_size r))) (mr_start r) (u64 (mr_start r + mr_size r)).

Fixpoint release_regions (l : list MemoryRegion) : ST VirtualMemoryManager unit :=
  match l with
  | [] => mret tt
  | r :: l => release_region r;; release_regions l
  end.

Definition cleanup_process_memory (p : Z) : K unit :=
  x ← deref p;
  on_vmm (release_regions (memory_regions x));;
  assign p (set_breaks 0 0 ∘ set_regions []);;
  if kernel_stack x =? 0 then mret tt else
  on_vmm (release_loop KERNEL_STACK_PAGES 0 (u64 (kernel_stack x - KERNEL_STACK_SIZE)));;
  assign p (λ y, set_stacks 0 (user_stack y) y).

(** The loops over the list of processes: the process with the identifier, 0
    for none, and the list without it. *)
Fixpoint find_in (l : list Z) (pid_ : Z) : K Z :=
  match l with
  | [] => mret 0
  | p :: l => x ← deref p; if pid x =? pid_ then mret p else find_in l pid_
  end.

Definition get_process (pid_ : Z) : K Z := l ← gets (λ k, m_processes (k_pm k)); find_in l pid_.

Definition process_named (pid_ ppid_ : Z) (name : list Z) : Process :=
  Proc pid_ ppid_ name Ready 0 [] 0 0 zero_regs 0 0 None None 0 5 0 0 0.

Definition create_process (name : list Z) (ppid_ : Z) : K Z :=
  pid_ ← gets (λ k, m_next_pid (k_pm k));
  next ← inc_i32 pid_;
  modify (with_pm (set_next_pid next));;
  p ← new_object (process_named pid_ ppid_ name);
  r ← on_vmm (map_loop KERNEL_STACK_PAGES 0 (kernel_stack_base pid_) true);
  match r with
  | Some _ => cleanup_process_memory p;; delete_object p;; mret (-1)
  | None =>
      assign p (set_stacks (u64 (kernel_stack_base pid_ + KERNEL_STACK_SIZE)) 0);;
      modify (with_pm (λ m, set_processes (p :: m_processes m) m));;
      modify (with_pm (λ m, if m_current_process m =? 0 then set_current_process p m else m));;
      add_process p;;
      mret pid_
  end.

Section termination.
Variable switch_context : Z → Z → K unit.

(** The name, arguments and environment go with the object that owns them. *)
Definition terminate_process (pid_ : Z) : K unit :=
  p ← get_process pid_;
  if p =? 0 then mret tt else
  modify (with_pm (λ m, set_processes (filter (λ q, q ≠ p) (m_processes m)) m));;
  remove_process p;;
  cleanup_process_memory p;;
  current ← gets (λ k, m_current_process (k_pm k));
  (if current =? p then
     modify (with_pm (λ m, set_current_process (default 0 (head (m_processes m))) m));;
     first ← gets (λ k, m_current_process (k_pm k));
     if first =? 0 then mret tt else schedule switch_context
   else mret tt);;
  delete_object p.
End termination.

(** ** The table of processes *)

(** The listed processes are live, distinct objects with distinct identifiers
    below the next one; new objects are at fresh addresses. *)
Record table_wf (m : ProcessManager) : Prop := {
  tw_live : Forall (λ p, 0 < p < pm_new m ∧ is_Some (pm_procs m !! p)) (m_processes m);
  tw_nodup : NoDup (m_processes m);
  tw_fresh p : pm_new m ≤ p → pm_procs m !! p = None;
  tw_new : 0 < pm_new m;
  tw_pids p q x y : p ∈ m_processes m → q ∈ m_processes m →
    pm_procs m !! p = Some x → pm_procs m !! q = Some y → pid x = pid y → p = q;
  tw_next p x : p ∈ m_processes m → pm_procs m !! p = Some x → 0 < pid x < m_next_pid m
}.

(** The process of an identifier, as a specification. *)
Definition is_process (k : Kernel) (pid_ p : Z) : Prop :=
  p ∈ m_processes (k_pm k) ∧ exists x, pm_procs (k_pm k) !! p = Some x ∧ pid x = pid_.

Lemma find_in_ok k pid_ l :
  Forall (λ p, 0 < p ∧ is_Some (pm_procs (k_pm k) !! p)) l →
  exists p, find_in l pid_ k = Ok (p, k) ∧
    ((p = 0 ∧ ∀ q x, q ∈ l → pm_procs (k_pm k) !! q = Some x → pid x ≠ pid_) ∨
     (p ∈ l ∧ exists x, pm_procs (k_pm k) !! p = Some x ∧ pid x = pid_)).
Proof.
  induction l as [|p l IH]; intros Hl; cbn [find_in].
  { exists 0. split; [done|]. left. split; [done|set_solver]. }
  apply Forall_cons in Hl as [[Hp [x Hx]] Hl].
  rewrite (bind_run _ _ _ _ _ (deref_run _ _ _ Hx)).
  destruct (Z.eqb_spec (pid x) pid_) as [E|E].
  - exists p. split; [done|]. right. split; [by left|eauto].
  - destruct (IH Hl) as (q & Eq & H). exists q. split; [done|]. destruct H as [[-> H]|[H1 H2]].
    + left. split; [done|]. intros q y [->|Hq]%elem_of_cons Hy; [by simplify_eq|by apply (H q)].
    + right. split; [by right|done].
Qed.

Lemma table_live k : table_wf (k_pm k) →
  Forall (λ p, 0 < p ∧ is_Some (pm_procs (k_pm k) !! p)) (m_processes (k_pm k)).
Proof. intros Hwf. eapply Forall_impl; [apply (tw_live _ Hwf)|]. intros p [? ?]. split; [lia|done]. Qed.

Lemma get_process_ok k pid_ :
  table_wf (k_pm k) →
  exists p, get_process pid_ k = Ok (p, k) ∧
    ((p = 0 ∧ ∀ q, ¬ is_process k pid_ q) ∨ (p ≠ 0 ∧ is_process k pid_ p)).
Proof.
  intros Hwf. unfold get_process. st.
  destruct (find_in_ok k pid_ _ (table_live k Hwf)) as (p & E & H). exists p. split; [exact E|].
  destruct H as [[-> H]|[Hp Hx]].
  - left. split; [done|]. intros q [Hq (x & Hx & Ex)]. by apply (H q x).
  - right. split; [|by split]. pose proof (table_live k Hwf) as Hl. rewrite Forall_forall in Hl.
    destruct (Hl p Hp). lia.
Qed.

Lemma is_process_unique k pid_ p q : table_wf (k_pm k) → is_process k pid_ p → is_process k pid_ q → p = q.
Proof. intros Hwf [Hp (x & Hx & Ex)] [Hq (y & Hy & Ey)]. apply (tw_pids _ Hwf p q x y); congruence. Qed.

(** ** Creation *)

Lemma table_wf_alter m p f :
  (∀ x, pid (f x) = pid x) → table_wf m → table_wf (set_procs (alter f p (pm_procs m)) m).
Proof.
  intros Hf [Hl Hnd Hfr Hn Hp Hx].
  assert (Hlk : ∀ q y, alter f p (pm_procs m) !! q = Some y → exists x, pm_procs m !! q = Some x ∧ pid y = pid x).
  { intros q y. destruct (decide (p = q)) as [->|]; [|rewrite lookup_alter_ne by done; eauto].
    rewrite lookup_alter_eq. intros (x & -> & ->)%fmap_Some. eauto. }
  constructor; cbn; try done.
  - eapply Forall_impl; [exact Hl|]. intros q [Hq Hs]. split; [done|]. by rewrite lookup_alter_is_Some.
  - intros q Hq. destruct (decide (p = q)) as [->|]; [by rewrite lookup_alter_eq, Hfr|by rewrite lookup_alter_ne, Hfr].
  - intros a b x y Ha Hb (x' & Hx' & ->)%Hlk (y' & Hy' & ->)%Hlk. by apply Hp.
  - intros a x Ha (x' & Hx' & ->)%Hlk. by apply (Hx a).
Qed.

Lemma kernel_stack_base_small pid_ :
  0 ≤ pid_ < 2 ^ 17 - 1 →
  kernel_stack_base pid_ = 0xFFFFFFFF80000000 + pid_ * KERNEL_STACK_SIZE ∧
  run_ok (kernel_stack_base pid_) 0 KERNEL_STACK_PAGES.
Proof.
  intros Hp. assert (E : kernel_stack_base pid_ = 0xFFFFFFFF80000000 + pid_ * KERNEL_STACK_SIZE).
  { unfold kernel_stack_base, KERNEL_STACK_SIZE. rewrite (u64_small (pid_ * _)), u64_small by lia. done. }
  split; [exact E|]. unfold run_ok. rewrite E. unfold KERNEL_STACK_SIZE, KERNEL_STACK_PAGES. repeat split; try lia.
  rewrite Z.add_mod by done. replace (pid_ * (16 * 1024)) with (pid_ * 4 * 4096) by lia. by rewrite Z.mod_mul.
Qed.

(** The manager and the object after [create_process]. *)
Definition created (name : list Z) (ppid_ : Z) (m : ProcessManager) : ProcessManager :=
  let p := pm_new m in
  PM (<[p := set_stacks (u64 (kernel_stack_base (m_next_pid m) + KERNEL_STACK_SIZE)) 0
               (process_named (m_next_pid m) ppid_ name)]> (pm_procs m))
     (p + 1) (p :: m_processes m) (if m_current_process m =? 0 then p else m_current_process m)
     (m_next_pid m + 1).

Lemma created_wf name ppid_ m :
  table_wf m → 0 < m_next_pid m → table_wf (created name ppid_ m).
Proof.
  intros [Hl Hnd Hf Hn Hp Hx] Hpid. pose proof (Hf (pm_new m) ltac:(lia)) as Hnew.
  assert (Hin : ∀ q, q ∈ m_processes m → q ≠ pm_new m).
  { intros q Hq ->. rewrite Forall_forall in Hl. destruct (Hl _ Hq). lia. }
  constructor; cbn.
  - apply Forall_cons. split; [split; [lia|by rewrite lookup_insert_eq]|].
    eapply Forall_impl; [exact Hl|]. intros q [Hq Hs]. split; [lia|].
    apply lookup_insert_is_Some'. by right.
  - apply NoDup_cons. split; [|done]. intros H. by apply (Hin _ H).
  - intros q Hq. rewrite lookup_insert_ne by lia. apply Hf. lia.
  - lia.
  - intros p q x y Ep Eq. rewrite !lookup_insert_Some. set_unfold.
    intros [[<- <-]|[? Hpx]] [[<- <-]|[? Hqy]] E; cbn in E; [done| | |].
    + destruct Eq as [->|Eq]; [done|]. destruct (Hx q y Eq Hqy). lia.
    + destruct Ep as [->|Ep]; [done|]. destruct (Hx p x Ep Hpx). lia.
    + destruct Ep as [->|Ep]; [done|]. destruct Eq as [->|Eq]; [done|]. by apply (Hp p q x y).
  - intros p x Ep. rewrite lookup_insert_Some. intros [[<- <-]|[? Hpx]]; [cbn; lia|].
    set_unfold. destruct Ep as [->|Ep]; [done|]. destruct (Hx p x Ep Hpx). lia.
Qed.

Lemma queued_not_new k : sched_wf k → table_wf (k_pm k) → pm_new (k_pm k) ∉ all_queued k.
Proof.
  intros Hs Ht Hin. pose proof (sw_live _ Hs) as Hl. unfold all_live in Hl. rewrite Forall_forall in Hl.
  destruct (Hl _ Hin) as [_ [x Hx]]. by rewrite (tw_fresh _ Ht) in Hx by lia.
Qed.

(** The kernel before [create_process] hands its process to the scheduler. *)
Definition with_created (name : list Z) (ppid_ : Z) (vm' : VirtualMemoryManager) (k : Kernel) : Kernel :=
  Kern (created name ppid_ (k_pm k)) (k_sched k) (k_ipc k) (set_vmm vm' (k_machine k)).

Lemma create_process_run name ppid_ k vm' :
  m_next_pid (k_pm k) < 2 ^ 31 - 1 →
  map_loop KERNEL_STACK_PAGES 0 (kernel_stack_base (m_next_pid (k_pm k))) true (mc_vmm (k_machine k)) = Ok (None, vm') →
  create_process name ppid_ k =
    (add_process (pm_new (k_pm k));; mret (m_next_pid (k_pm k))) (with_created name ppid_ vm' k).
Proof.
  intros Hpid E. unfold create_process. st. rewrite (bind_run _ _ _ _ _ (inc_i32_run _ _ Hpid)). st.
  set (k1 := with_pm (set_next_pid (m_next_pid (k_pm k) + 1)) k).
  set (p := pm_new (k_pm k)). set (x := process_named (m_next_pid (k_pm k)) ppid_ name).
  set (k2 := with_pm (λ m, PM (<[p := x]> (pm_procs m)) (p + 1) (m_processes m) (m_current_process m)
                          (m_next_pid m)) k1).
  assert (E1 : new_object x k1 = Ok (p, k2)) by done.
  rewrite (bind_run _ _ _ _ _ E1), (bind_run _ _ _ _ _ (on_vmm_run _ None vm' k2 E)).
  set (k3 := with_machine (set_vmm vm') k2).
  assert (Hx : pm_procs (k_pm k3) !! p = Some x) by (cbn; apply lookup_insert_eq).
  rewrite (bind_run _ _ _ _ _ (assign_run _ _ _ _ Hx)). st. f_equal.
  unfold with_created, created, with_pm. cbn. fold p. fold x. rewrite insert_insert_eq.
  by destruct (m_current_process (k_pm k) =? 0).
Qed.

(** What the pages of the kernel stack need. *)
Definition stack_free (vm : VirtualMemoryManager) tab (pid_ : Z) : Prop :=
  forall j, 0 ≤ j < Z.of_nat KERNEL_STACK_PAGES → mappable vm tab (page (kernel_stack_base pid_) j).

Lemma create_process_ok name ppid_ k tab :
  table_wf (k_pm k) → sched_wf k → m_runqueues (k_sched k) ≠ [] →
  0 < m_next_pid (k_pm k) < 2 ^ 17 - 1 →
  Z.of_nat (length (all_queued k)) + 1 < 2 ^ 63 →
  vmm_inv (mc_vmm (k_machine k)) tab → 16 ≤ m_free_frames (v_pmm (mc_vmm (k_machine k))) →
  stack_free (mc_vmm (k_machine k)) tab (m_next_pid (k_pm k)) →
  exists fs vm' tab' k', let p := pm_new (k_pm k) in
    create_process name ppid_ k = Ok (m_next_pid (k_pm k), k') ∧
    mapped (mc_vmm (k_machine k)) tab vm' tab' (kernel_stack_base (m_next_pid (k_pm k))) 0 fs ∧
    length fs = KERNEL_STACK_PAGES ∧ mc_vmm (k_machine k') = vm' ∧
    table_wf (k_pm k') ∧ sched_wf k' ∧ is_process k' (m_next_pid (k_pm k)) p ∧
    m_processes (k_pm k') = p :: m_processes (k_pm k) ∧ all_queued k' ≡ₚ p :: all_queued k.
Proof.
  intros Ht Hs Hne Hpid Hlen Hi Hfree Hmap.
  destruct (kernel_stack_base_small (m_next_pid (k_pm k))) as [_ Hrun]; [lia|].
  destruct (map_loop_ok _ _ _ true _ _ Hi Hrun) as (fs & vm' & tab' & E & Hl & M);
    [unfold KERNEL_STACK_PAGES; lia|intros j Hj; apply Hmap; lia|].
  set (k1 := with_created name ppid_ vm' k).
  assert (Hs1 : sched_wf k1).
  { apply (sched_wf_procs k k1); [done| |done]. intros p Hp. cbn. apply lookup_insert_is_Some'. by right. }
  set (p := pm_new (k_pm k)).
  destruct (add_process_ok k1 p (set_stacks (u64 (kernel_stack_base (m_next_pid (k_pm k)) + KERNEL_STACK_SIZE)) 0
     (process_named (m_next_pid (k_pm k)) ppid_ name)) Hs1 Hne) as (i & q & Hq & _ & Ea & Hs2 & Hperm).
  { pose proof (tw_new _ Ht). unfold p. lia. }
  { apply lookup_insert_eq. }
  { exact (queued_not_new k Hs Ht). }
  { exact Hlen. }
  exists fs, vm', tab', (added p i q k1). cbv zeta.
  assert (Hlt : m_next_pid (k_pm k) < 2 ^ 31 - 1) by lia.
  split; [rewrite (create_process_run _ _ _ vm' Hlt E), (bind_run _ _ _ _ _ Ea); done|].
  split; [done|]. split; [done|]. split; [done|].
  assert (Hpm : table_wf (created name ppid_ (k_pm k))) by (apply created_wf; [done|lia]).
  split; [exact (table_wf_alter _ p (set_state Ready) (λ _, eq_refl) Hpm)|]. split; [done|].
  split; [|by split]. split; [by left|]. eexists. split; [cbn; by rewrite lookup_alter_eq, lookup_insert_eq|done].
Qed.

(** ** Release of a process's memory *)

Definition region_fits (r : MemoryRegion) : Prop :=
  0 ≤ mr_start r ∧ 0 ≤ mr_size r ∧ mr_start r + mr_size r + 4096 ≤ 2 ^ 64.

Definition region_addrs (r : MemoryRegion) : list Z := loop_pages (region_pages (mr_size r)) 0 (mr_start r).

(** Every page the process owns: its regions', then its kernel stack's. *)
Definition process_pages (x : Process) : list Z :=
  (memory_regions x ≫= region_addrs) ++
  (if kernel_stack x =? 0 then []
   else loop_pages KERNEL_STACK_PAGES 0 (u64 (kernel_stack x - KERNEL_STACK_SIZE))).

Lemma release_region_list r vm : region_fits r → release_region r vm = release_list (region_addrs r) vm.
Proof.
  intros (H1 & H2 & H3). unfold release_region, region_addrs. rewrite u64_small, <- release_loop_list by lia.
  assert (Hn : Z.of_nat (region_pages (mr_size r)) = (mr_size r + 4095) / 4096).
  { unfold region_pages. rewrite Z2Nat.id; [done|]. apply Z.div_pos; lia. }
  pose proof (Z.div_mod (mr_size r + 4095) 4096 ltac:(done)) as Hd.
  pose proof (Z.mod_pos_bound (mr_size r + 4095) 4096 ltac:(done)).
  pose proof (release_range_loop (region_pages (mr_size r)) (S (region_pages (mr_size r))) 0 (mr_start r)
    (mr_start r + mr_size r) vm) as E.
  rewrite Z.mul_0_l, Z.add_0_r in E. apply E; lia.
Qed.

Lemma release_regions_list l vm :
  Forall region_fits l → release_regions l vm = release_list (l ≫= region_addrs) vm.
Proof.
  intros Hl. revert vm. induction Hl as [|r l Hr Hl IH]; intros vm; [done|].
  cbn [release_regions]. rewrite bind_cons, release_list_app.
  unfold mbind, st_bind. rewrite release_region_list by done.
  destruct (release_list (region_addrs r) vm) as [[[] vm1]| |]; [|done|done]. apply IH.
Qed.

Definition cleaned (x : Process) : Process := set_stacks 0 (user_stack x) (set_breaks 0 0 (set_regions [] x)).

Lemma cleaned_pid x : pid (cleaned x) = pid x.
Proof. done. Qed.

Lemma cleanup_ok k p x tab :
  pm_procs (k_pm k) !! p = Some x → Forall region_fits (memory_regions x) →
  vmm_inv (mc_vmm (k_machine k)) tab →
  Forall (releasable (mc_vmm (k_machine k)) tab) (process_pages x) →
  exists vm', cleanup_process_memory p k =
      Ok (tt, with_machine (set_vmm vm') (with_pm (set_procs (<[p := cleaned x]> (pm_procs (k_pm k)))) k)) ∧
    released (mc_vmm (k_machine k)) tab vm' (process_pages x).
Proof.
  intros Hx Hfit Hi Hrel. unfold process_pages in *. apply Forall_app in Hrel as [Hrel1 Hrel2].
  destruct (release_list_ok _ _ _ Hi Hrel1) as (vm1 & E1 & R1).
  unfold cleanup_process_memory. rewrite (bind_run _ _ _ _ _ (deref_run _ _ _ Hx)).
  rewrite <- release_regions_list in E1 by done.
  rewrite (bind_run _ _ _ _ _ (on_vmm_run _ _ _ _ E1)).
  set (k1 := with_machine (set_vmm vm1) k).
  assert (Hx1 : pm_procs (k_pm k1) !! p = Some x) by done.
  rewrite (bind_run _ _ _ _ _ (assign_run _ _ _ _ Hx1)).
  destruct (Z.eqb_spec (kernel_stack x) 0) as [E0|E0].
  - exists vm1. rewrite app_nil_r. split; [|done]. cbn. unfold mret, st_ret. repeat f_equal.
    unfold cleaned. cbn. unfold set_stacks. cbn. by rewrite <- E0.
  - set (k2 := with_pm _ k1).
    destruct (release_list_ok (loop_pages KERNEL_STACK_PAGES 0 (u64 (kernel_stack x - KERNEL_STACK_SIZE))) vm1 tab)
      as (vm2 & E2 & R2); [apply R1| |].
    { eapply Forall_impl; [exact Hrel2|]. intros a. by apply (released_releasable _ _ _ _ _ Hi R1). }
    rewrite <- release_loop_list in E2. exists vm2. split; [|exact (released_trans _ _ _ _ _ _ R1 R2)].
    rewrite (bind_run _ _ _ _ _ (on_vmm_run _ _ _ k2 E2)).
    assert (Hx2 : pm_procs (k_pm (with_machine (set_vmm vm2) k2)) !! p = Some ((set_breaks 0 0 ∘ set_regions []) x))
      by apply lookup_insert_eq.
    rewrite (assign_run _ _ _ _ Hx2). cbn. by rewrite insert_insert_eq.
Qed.

(** ** Termination *)

Lemma table_wf_remove m p :
  table_wf m → table_wf (set_procs (delete p (pm_procs m)) (set_processes (filter (λ q, q ≠ p) (m_processes m)) m)).
Proof.
  intros [Hl Hnd Hfr Hn Hp Hx]. constructor; cbn; try done.
  - rewrite Forall_forall in *. intros q [Hne Hq]%list_elem_of_filter. destruct (Hl q Hq). split; [done|].
    by rewrite lookup_delete_ne.
  - by apply NoDup_filter.
  - intros q Hq. destruct (decide (p = q)) as [->|]; [apply lookup_delete_eq|by rewrite lookup_delete_ne, Hfr].
  - intros a b x y [_ Ha]%list_elem_of_filter [_ Hb]%list_elem_of_filter.
    intros [_ Hxa]%lookup_delete_Some [_ Hyb]%lookup_delete_Some. by apply Hp.
  - intros a x [_ Ha]%list_elem_of_filter [_ Hxa]%lookup_delete_Some. by apply (Hx a).
Qed.

(** The process manager once [p] is gone. *)
Definition without (p : Z) (m : ProcessManager) : ProcessManager :=
  set_procs (delete p (pm_procs m)) (set_processes (filter (λ q, q ≠ p) (m_processes m)) m).

Lemma terminate_process_ok switch_context k pid_ p x tab :
  table_wf (k_pm k) → sched_wf k →
  p ∈ m_processes (k_pm k) → pm_procs (k_pm k) !! p = Some x → pid x = pid_ →
  m_current_process (k_pm k) ≠ p →
  Forall region_fits (memory_regions x) → vmm_inv (mc_vmm (k_machine k)) tab →
  Forall (releasable (mc_vmm (k_machine k)) tab) (process_pages x) →
  exists k', terminate_process switch_context pid_ k = Ok (tt, k') ∧
    k_pm k' = without p (k_pm k) ∧ k_ipc k' = k_ipc k ∧ sched_wf k' ∧
    all_queued k' ≡ₚ filter (λ y, y ≠ p) (all_queued k) ∧
    released (mc_vmm (k_machine k)) tab (mc_vmm (k_machine k')) (process_pages x).
Proof.
  intros Ht Hs Hp Hx Hpid Hcur Hfit Hi Hrel.
  destruct (get_process_ok k pid_ Ht) as (p' & Eg & [[-> Hno]|[Hp0 Hip]]).
  { exfalso. apply (Hno p). split; [done|eauto]. }
  assert (p' = p) as -> by (apply (is_process_unique k pid_); [done|done|split; [done|eauto]]).
  unfold terminate_process. rewrite (bind_run _ _ _ _ _ Eg), (proj2 (Z.eqb_neq p 0)) by done. st.
  set (k1 := with_pm (λ m, set_processes (filter (λ q, q ≠ p) (m_processes m)) m) k).
  assert (Hs1 : sched_wf k1) by (by apply (sched_wf_procs k k1)).
  destruct (remove_process_ok k1 p Hs1 Hp0) as (k2 & E2 & Hs2 & Ek2 & Hperm & _).
  rewrite (bind_run _ _ _ _ _ E2).
  destruct (cleanup_ok k2 p x tab) as (vm' & E3 & R); [by rewrite Ek2|done|by rewrite Ek2|by rewrite Ek2|].
  rewrite (bind_run _ _ _ _ _ E3).
  set (k3 := with_machine (set_vmm vm') (with_pm (set_procs (<[p:=cleaned x]> (pm_procs (k_pm k2)))) k2)). st.
  assert (Ec : m_current_process (k_pm k3) = m_current_process (k_pm k)) by (unfold k3; rewrite Ek2; done).
  rewrite Ec, (proj2 (Z.eqb_neq _ p)) by done. rewrite bind_ret.
  unfold delete_object.
  assert (Hx3 : pm_procs (k_pm k3) !! p = Some (cleaned x)) by (unfold k3; cbn; apply lookup_insert_eq).
  rewrite (bind_run _ _ _ _ _ (deref_run _ _ _ Hx3)).
  eexists. split; [reflexivity|].
  assert (Epm : k_pm (with_pm (λ m, set_procs (delete p (pm_procs m)) m) k3) = without p (k_pm k)).
  { unfold k3. rewrite Ek2. cbn. unfold without, set_procs, set_processes. cbn.
    f_equal. apply delete_insert_eq. }
  split_and!; [exact Epm| |  |exact Hperm|].
  - unfold k3. rewrite Ek2. done.
  - destruct Hs2 as [H1 H2 H3 H4]. constructor; [exact H1| |exact H3|exact H4].
    change (all_queued (with_pm _ k3)) with (all_queued k2). unfold all_live in *. rewrite Forall_forall in *.
    intros q Hq. destruct (H2 q Hq) as [Hq0 Hsome]. split; [done|]. rewrite Epm. cbn.
    rewrite Hperm in Hq. apply list_elem_of_filter in Hq as [Hne _]. rewrite lookup_delete_ne by done.
    by rewrite Ek2 in Hsome.
  - unfold k3. cbn. by rewrite Ek2 in R.
Qed.

(** ** Claims *)

(** A booted kernel with one processor and the processes given, each Ready. *)
Definition kernel_on (mc : Machine) (procs : list (Z * Process)) (current : Z) : Kernel :=
  Kern (PM (list_to_map procs) 10 (map fst procs) current 10)
    (Sched [demo_rq 0 (map fst procs) 0] RoundRobin 0) (IPC ∅ 1 [] [] 1 1) mc.
Definition boot_kernel : list (Z * Process) → Z → Kernel := kernel_on (Mach 0 1 0 true [] vmm_boot).

(** Two processes; the second owns two pages of memory that were never mapped. *)
Definition boot_proc (n : Z) (l : list MemoryRegion) : Process := set_regions l (process_named n 0 [0x61]).
Definition two_procs : list (Z * Process) :=
  [(2, boot_proc 2 []); (3, boot_proc 3 [Region heap_page 8192 true false])].

Lemma two_procs_table : table_wf (k_pm (boot_kernel two_procs 2)).
Proof.
  constructor; cbn.
  - repeat constructor; by eexists.
  - apply (bool_decide_unpack _). by vm_compute.
  - intros p Hp. rewrite !lookup_insert_ne by lia. apply lookup_empty.
  - done.
  - intros p q x y Hp Hq. set_unfold. destruct Hp as [->|[->|[]]], Hq as [->|[->|[]]]; vm_compute; intros [= <-] [= <-]; done.
  - intros p x Hp. set_unfold. destruct Hp as [->|[->|[]]]; vm_compute; intros [= <-]; done.
Qed.

Lemma two_procs_sched : sched_wf (boot_kernel two_procs 2).
Proof.
  constructor.
  - intros [|i] q Hq; [injection Hq as <-|done]. split; [done|by left].
  - unfold all_live, all_queued, queues_of. cbn. repeat constructor; try done; by eexists.
  - unfold all_queued. cbn. apply (bool_decide_unpack _). by vm_compute.
  - by vm_compute.
Qed.

Lemma boot_releasable tab va :
  boot_tables vmm_boot tab → ¬ (pml4_index va = 0 ∧ pdpt_index va = 0 ∧ pd_index va < 8) →
  releasable vmm_boot tab va.
Proof.
  intros B Hva. destruct (boot_mappable _ _ _ B Hva) as [Hn Hl]. split; [done|].
  intros q. unfold translate. rewrite Hl. apply (not_table_0 vmm_boot), B.
Qed.

Lemma two_procs_pages tab :
  boot_tables vmm_boot tab →
  Forall (releasable vmm_boot tab) (process_pages (boot_proc 3 [Region heap_page 8192 true false])).
Proof.
  intros B. change (process_pages _) with [heap_page; heap_page + 4096].
  repeat constructor; apply boot_releasable; try done; vm_compute; by intros (_ & _ & ?).
Qed.

(** [C38] [create_process], given four pages for its kernel stack: it returns the
    next identifier, the process with that identifier is in the table (the newest
    first) and on one run queue, its kernel stack is mapped to four fresh,
    distinct frames, and the table's and the queues' invariants hold again. *)
Theorem create_process_spec name ppid_ k tab :
  table_wf (k_pm k) → sched_wf k → m_runqueues (k_sched k) ≠ [] →
  0 < m_next_pid (k_pm k) < 2 ^ 17 - 1 →
  Z.of_nat (length (all_queued k)) + 1 < 2 ^ 63 →
  vmm_inv (mc_vmm (k_machine k)) tab → 16 ≤ m_free_frames (v_pmm (mc_vmm (k_machine k))) →
  stack_free (mc_vmm (k_machine k)) tab (m_next_pid (k_pm k)) →
  exists fs vm' tab' k', let p := pm_new (k_pm k) in
    create_process name ppid_ k = Ok (m_next_pid (k_pm k), k') ∧
    mapped (mc_vmm (k_machine k)) tab vm' tab' (kernel_stack_base (m_next_pid (k_pm k))) 0 fs ∧
    length fs = KERNEL_STACK_PAGES ∧ mc_vmm (k_machine k') = vm' ∧
    table_wf (k_pm k') ∧ sched_wf k' ∧ is_process k' (m_next_pid (k_pm k)) p ∧
    m_processes (k_pm k') = p :: m_processes (k_pm k) ∧ all_queued k' ≡ₚ p :: all_queued k.
Proof. apply create_process_ok. Qed.

Lemma create_process_spec_witness :
  exists tab fs vm' tab' k', let k := boot_kernel two_procs 2 in
    create_process [0x62] 2 k = Ok (10, k') ∧
    mapped vmm_boot tab vm' tab' (kernel_stack_base 10) 0 fs ∧
    length fs = KERNEL_STACK_PAGES ∧ mc_vmm (k_machine k') = vm' ∧
    table_wf (k_pm k') ∧ sched_wf k' ∧ is_process k' 10 10 ∧
    m_processes (k_pm k') = [10; 2; 3] ∧ all_queued k' ≡ₚ 10 :: all_queued k.
Proof.
  destruct vmm_boot_tables as (tab & B & F). exists tab.
  apply (create_process_spec [0x62] 2 (boot_kernel two_procs 2) tab).
  - exact two_procs_table.
  - exact two_procs_sched.
  - done.
  - cbn. lia.
  - by vm_compute.
  - apply B.
  - cbn. lia.
  - intros j Hj. apply (boot_mappable _ _ _ B).
    assert (Hc : j = 0 ∨ j = 1 ∨ j = 2 ∨ j = 3) by (unfold KERNEL_STACK_PAGES in Hj; lia).
    destruct_or! Hc; subst j; vm_compute; by intros [? _].
Defined.

(** [cleanup_process_memory] always returns; afterwards no page of the
    process's regions or kernel stack is mapped, exactly the frames they were
    mapped to are free, every other page keeps its translation, and the process
    has no regions, no stack and a zero break. *)
Theorem cleanup_process_memory_spec k p x tab :
  pm_procs (k_pm k) !! p = Some x → Forall region_fits (memory_regions x) →
  vmm_inv (mc_vmm (k_machine k)) tab →
  Forall (releasable (mc_vmm (k_machine k)) tab) (process_pages x) →
  exists vm', cleanup_process_memory p k =
      Ok (tt, with_machine (set_vmm vm') (with_pm (set_procs (<[p := cleaned x]> (pm_procs (k_pm k)))) k)) ∧
    released (mc_vmm (k_machine k)) tab vm' (process_pages x).
Proof. apply cleanup_ok. Qed.

Lemma region_fits_dec : region_fits (Region heap_page 8192 true false).
Proof. by vm_compute. Qed.

Lemma cleanup_process_memory_spec_witness :
  exists tab vm', cleanup_process_memory 3 (boot_kernel two_procs 2) =
      Ok (tt, with_machine (set_vmm vm')
        (with_pm (set_procs (<[3 := cleaned (boot_proc 3 [Region heap_page 8192 true false])]>
           (pm_procs (k_pm (boot_kernel two_procs 2))))) (boot_kernel two_procs 2))) ∧
    released vmm_boot tab vm' (process_pages (boot_proc 3 [Region heap_page 8192 true false])).
Proof.
  destruct vmm_boot_tables as (tab & B & F). exists tab.
  apply (cleanup_process_memory_spec (boot_kernel two_procs 2) 3 (boot_proc 3 [Region heap_page 8192 true false]) tab).
  - reflexivity.
  - repeat constructor; apply region_fits_dec.
  - apply B.
  - by apply two_procs_pages.
Defined.



(** ** Divergences *)

(** When no frame is left for the kernel stack the pages mapped so far stay
    mapped: the object does not know its stack yet, and the clean-up skips it. *)
Lemma create_process_leaks name ppid_ k i vm' :
  table_wf (k_pm k) → m_next_pid (k_pm k) < 2 ^ 31 - 1 →
  map_loop KERNEL_STACK_PAGES 0 (kernel_stack_base (m_next_pid (k_pm k))) true (mc_vmm (k_machine k)) = Ok (Some i, vm') →
  exists k', create_process name ppid_ k = Ok (-1, k') ∧ mc_vmm (k_machine k') = vm' ∧
    pm_procs (k_pm k') = pm_procs (k_pm k) ∧ m_processes (k_pm k') = m_processes (k_pm k).
Proof.
  intros Ht Hpid E. unfold create_process. st. rewrite (bind_run _ _ _ _ _ (inc_i32_run _ _ Hpid)). st.
  set (k1 := with_pm (set_next_pid (m_next_pid (k_pm k) + 1)) k).
  set (p := pm_new (k_pm k)). set (x := process_named (m_next_pid (k_pm k)) ppid_ name).
  set (k2 := with_pm (λ m, PM (<[p := x]> (pm_procs m)) (p + 1) (m_processes m) (m_current_process m)
                          (m_next_pid m)) k1).
  assert (E1 : new_object x k1 = Ok (p, k2)) by done.
  rewrite (bind_run _ _ _ _ _ E1), (bind_run _ _ _ _ _ (on_vmm_run _ (Some i) vm' k2 E)).
  set (k3 := with_machine (set_vmm vm') k2).
  assert (Hx : pm_procs (k_pm k3) !! p = Some x) by (cbn; apply lookup_insert_eq).
  set (k4 := with_pm (set_procs (<[p := set_breaks 0 0 (set_regions [] x)]> (pm_procs (k_pm k3)))) k3).
  assert (E4 : cleanup_process_memory p k3 = Ok (tt, k4)).
  { unfold cleanup_process_memory. rewrite (bind_run _ _ _ _ _ (deref_run _ _ _ Hx)). cbn [memory_regions x process_named].
    assert (E5 : on_vmm (release_regions []) k3 = Ok (tt, k3)) by (by destruct k3 as [? ? ? []]).
    rewrite (bind_run _ _ _ _ _ E5), (bind_run _ _ _ _ _ (assign_run _ _ _ _ Hx)). done. }
  rewrite (bind_run _ _ _ _ _ E4). unfold delete_object.
  assert (Hx4 : pm_procs (k_pm k4) !! p = Some (set_breaks 0 0 (set_regions [] x))) by (cbn; apply lookup_insert_eq).
  assert (Hd : deref p k4 = Ok (set_breaks 0 0 (set_regions [] x), k4)) by (by apply deref_run).
  eexists. split; [|split; [|split]].
  - unfold mbind, st_bind. rewrite Hd. reflexivity.
  - done.
  - cbn. rewrite !insert_insert_eq, delete_insert_id; [done|]. apply (tw_fresh _ Ht). unfold p. lia.
  - done.
Qed.

(** The kernel stack of process number 2^17 is mapped at address 0. *)
Example kernel_stack_wraps : kernel_stack_base (2 ^ 17) = 0.
Proof. reflexivity. Qed.

(** Terminating the current process makes the first process current before it
    asks the scheduler for one: when that one is chosen no context switch
    happens, and the caller goes on running on the stack just unmapped. *)
Definition running_kernel : Kernel :=
  kernel_on demo_machine [(2, boot_proc 2 []); (3, boot_proc 3 [])] 2.

Lemma terminate_current_keeps_running :
  exists k', (∀ switch_context, terminate_process switch_context 2 running_kernel = Ok (tt, k')) ∧
    m_current_process (k_pm k') = 3 ∧ pm_procs (k_pm k') !! 2 = None.
Proof. eexists. split; [intros sc; vm_compute; reflexivity|]. by split. Qed.
