(* ===== verification/Ipc.v ===== *)
(** * Inter-process communication (src/kernel/src/core/ipc.{hpp,cpp})

    Bounded message queues with blocking receivers, named in one table, and
    shared-memory regions.  A name is the list of its characters (before the
    terminating zero), so two names are equal for [strcmp] when the lists are. *)

From S2P Require Import Prelude Pmm Vmm Pages Kernel Sched.

#[local] Abbreviation K := (ST Kernel).

Definition MAX_MESSAGE_SIZE : Z := 1024.
Definition MAX_MESSAGES_PER_QUEUE : Z := 64.
Definition MAX_SHARED_MEMORY_SIZE : Z := 4 * 1024 * 1024.
Definition SHARED_MEMORY_BASE : Z := 0x700000000000.

(** ** Message queues *)

Definition set_messages (v : list IPCMessage) (q : MessageQueue) : MessageQueue :=
  MQ (m_owner q) (m_name q) v (m_waiting_processes q).
Definition set_waiters (v : list Z) (q : MessageQueue) : MessageQueue :=
  MQ (m_owner q) (m_name q) (m_messages q) v.

Definition is_full (q : MessageQueue) : bool :=
  MAX_MESSAGES_PER_QUEUE <=? Z.of_nat (length (m_messages q)).

(** [data] is what lies at the pointer; reading past its end is undefined. *)
Definition mq_send_message (qa sender_ : Z) (data : list Z) (size : Z) : K bool :=
  q ← deref_mq qa;
  if is_full q || (MAX_MESSAGE_SIZE <? size) then mret false else
  ticks ← gets (λ k, mc_ticks (k_machine k));
  if Z.of_nat (length data) <? size then lift UB else
  let message := Msg sender_ ticks size (take (Z.to_nat size) data) in
  assign_mq qa (set_messages (m_messages q ++ [message]) q);;
  q ← deref_mq qa;
  match m_waiting_processes q with
  | [] => mret true
  | w :: rest =>
      if w =? 0 then mret true else
      x ← deref w;
      if bool_decide (state x = Waiting) && (waiting_on x =? qa) then
        assign_mq qa (set_waiters rest q);;
        assign w (set_waiting 0 ∘ set_state Ready);;
        add_process w;;
        mret true
      else mret true
  end.

(** The first message, taken off its queue. *)
Definition take_message (qa : Z) : K (option IPCMessage) :=
  q ← deref_mq qa;
  match m_messages q with
  | [] => mret None
  | m :: rest => assign_mq qa (set_messages rest q);; mret (Some m)
  end.

Section receive.
Variable switch_context : Z → Z → K unit.

(** [None]: false is returned.  Behind [schedule] other processes run, and may
    delete the queue. *)
Definition mq_receive_message (qa : Z) (wait : bool) : K (option IPCMessage) :=
  q ← deref_mq qa;
  match m_messages q with
  | _ :: _ => take_message qa
  | [] =>
      if negb wait then mret None else
      current ← gets (λ k, m_current_process (k_pm k));
      if current =? 0 then mret None else
      assign current (set_waiting qa ∘ set_state Waiting);;
      assign_mq qa (set_waiters (m_waiting_processes q ++ [current]) q);;
      schedule switch_context;;
      take_message qa
  end.
End receive.

(** The destructor's loop: the waiting processes are made ready, without telling
    the scheduler. *)
Fixpoint wake_waiters (qa : Z) (l : list Z) : K unit :=
  match l with
  | [] => mret tt
  | w :: l =>
      x ← deref w;
      (if bool_decide (state x = Waiting) && (waiting_on x =? qa)
       then assign w (set_waiting 0 ∘ set_state Ready) else mret tt);;
      wake_waiters qa l
  end.

(** ** The table of queues *)

(** The first slot whose queue has the name. *)
Fixpoint find_name (l : list Z) (i : Z) (name : list Z) : K (option Z) :=
  match l with
  | [] => mret None
  | qa :: l =>
      if qa =? 0 then find_name l (i + 1) name else
      q ← deref_mq qa;
      if decide (m_name q = name) then mret (Some i) else find_name l (i + 1) name
  end.

Fixpoint first_null (l : list Z) (i : Z) : option Z :=
  match l with
  | [] => None
  | qa :: l => if qa =? 0 then Some i else first_null l (i + 1)
  end.

Definition get_table : K (list Z) := gets (λ k, m_message_queues (k_ipc k)).
Definition put_table (l : list Z) : K unit := modify (with_ipc (set_queue_table l)).

Definition set_next_queue_id (v : Z) (m : IPCManager) : IPCManager :=
  IPC (ipc_queues m) (ipc_new m) (m_message_queues m) (m_shared_memory_regions m) v
    (m_next_shared_memory_id m).
Definition set_next_shm_id (v : Z) (m : IPCManager) : IPCManager :=
  IPC (ipc_queues m) (ipc_new m) (m_message_queues m) (m_shared_memory_regions m)
    (m_next_queue_id m) v.

Definition create_message_queue (owner : Z) (name : list Z) : K Z :=
  l ← get_table;
  r ← find_name l 0 name;
  match r with
  | Some _ => mret (-1)
  | None =>
      qa ← new_mq (MQ owner name [] []);
      match first_null l 0 with
      | Some i => put_table (<[Z.to_nat i := qa]> l);; mret (i32 (i + 1))
      | None =>
          id ← gets (λ k, m_next_queue_id (k_ipc k));
          next ← inc_i32 id;
          modify (with_ipc (set_next_queue_id next));;
          put_table (l ++ [qa]);;
          mret id
      end
  end.

(** The queue of an identifier: 0 for an identifier out of range or a freed
    slot. *)
Definition lookup_queue (id : Z) : K Z :=
  l ← get_table;
  next ← gets (λ k, m_next_queue_id (k_ipc k));
  if (id <=? 0) || (next <=? id) || (i32 (Z.of_nat (length l)) <? id) then mret 0 else
  lift (aget l (id - 1)).

Definition destroy_message_queue (id : Z) : K bool :=
  qa ← lookup_queue id;
  if qa =? 0 then mret false else
  q ← deref_mq qa;
  wake_waiters qa (m_waiting_processes q);;
  delete_mq qa;;
  l ← get_table;
  l ← lift (aset l (id - 1) 0);
  put_table l;;
  mret true.

Definition open_message_queue (name : list Z) : K Z :=
  l ← get_table;
  r ← find_name l 0 name;
  mret (match r with Some i => i32 (i + 1) | None => -1 end).

Definition send_message (id sender_ : Z) (data : list Z) (size : Z) : K bool :=
  qa ← lookup_queue id;
  if qa =? 0 then mret false else mq_send_message qa sender_ data size.

Definition receive_message (sc : Z → Z → K unit) (id : Z) (wait : bool) : K (option IPCMessage) :=
  qa ← lookup_queue id;
  if qa =? 0 then mret None else mq_receive_message sc qa wait.

(** ** Shared memory *)

Definition shm_base (id : Z) : Z := u64 (SHARED_MEMORY_BASE + u64 ((id - 1) * MAX_SHARED_MEMORY_SIZE)).

Definition round_up_page (size : Z) : Z := Z.land (u64 (size + 4095)) (u64 (Z.lnot 4095)).

Definition create_shared_memory (creator_ size : Z) : K Z :=
  if (size =? 0) || (MAX_SHARED_MEMORY_SIZE <? size) then mret (-1) else
  let size := round_up_page size in
  id ← gets (λ k, m_next_shared_memory_id (k_ipc k));
  next ← inc_i32 id;
  modify (with_ipc (set_next_shm_id next));;
  let base := shm_base id in
  let pages := Z.to_nat (size / 4096) in
  r ← on_vmm (map_loop pages 0 base true);
  match r with
  | Some i => on_vmm (release_loop (Z.to_nat i) 0 base);; mret (-1)
  | None =>
      on_vmm (zero_loop pages 0 base);;
      modify (with_ipc (λ m, set_shared (m_shared_memory_regions m ++ [SHM id creator_ size base [creator_]]) m));;
      mret id
  end.

(** The first region of an identifier, with its position. *)
Fixpoint find_region (l : list SharedMemoryRegion) (i : nat) (id : Z) : option (nat * SharedMemoryRegion) :=
  match l with
  | [] => None
  | r :: l => if shm_id r =? id then Some (i, r) else find_region l (S i) id
  end.

Definition get_regions : K (list SharedMemoryRegion) := gets (λ k, m_shared_memory_regions (k_ipc k)).
Definition put_regions (l : list SharedMemoryRegion) : K unit := modify (with_ipc (set_shared l)).
Definition set_attached (v : list Z) (r : SharedMemoryRegion) : SharedMemoryRegion :=
  SHM (shm_id r) (creator r) (shm_size r) (shm_address r) v.

Definition destroy_shared_memory (id : Z) : K bool :=
  l ← get_regions;
  match find_region l 0 id with
  | None => mret false
  | Some (i, r) =>
      (if shm_address r =? 0 then mret tt
       else on_vmm (release_loop (Z.to_nat (u64 (shm_size r + 4095) / 4096)) 0 (shm_address r)));;
      put_regions (delete i l);;
      mret true
  end.

Definition attach_shared_memory (id pid_ : Z) : K Z :=
  if id <=? 0 then mret 0 else
  l ← get_regions;
  match find_region l 0 id with
  | None => mret 0
  | Some (i, r) =>
      (if decide (pid_ ∈ attached_processes r) then mret tt
       else put_regions (<[i := set_attached (attached_processes r ++ [pid_]) r]> l));;
      mret (shm_address r)
  end.

Definition detach_shared_memory (id pid_ : Z) : K bool :=
  l ← get_regions;
  match find_region l 0 id with
  | None => mret false
  | Some (i, r) =>
      match position_from 0 (attached_processes r) pid_ with
      | None => mret false
      | Some j =>
          put_regions (<[i := set_attached (delete (Z.to_nat j) (attached_processes r)) r]> l);;
          mret true
      end
  end.

(** [wake_waiting_processes]: the loop over the list of processes. *)
Fixpoint wake_all (l : list Z) (resource : Z) : K unit :=
  match l with
  | [] => mret tt
  | p :: l =>
      x ← deref p;
      (if bool_decide (state x = Waiting) && (waiting_on x =? resource) then
         assign p (set_waiting 0 ∘ set_state Ready);; add_process p
       else mret tt);;
      wake_all l resource
  end.

Definition wake_waiting_processes (resource : Z) : K unit :=
  l ← gets (λ k, m_processes (k_pm k)); wake_all l resource.

(** ** The scheduler leaves the queues of messages alone *)

Section scheduler_frame.
Context (I : IPCManager → Prop).

Lemma on_ipc_get_runqueue cpu : preserves (on_ipc I) (get_runqueue cpu).
Proof. unfold get_runqueue. preserves. Qed.

Lemma on_ipc_add_process p : preserves (on_ipc I) (add_process p).
Proof. unfold add_process, get_runqueues, get_runqueue. preserves. Qed.

Lemma on_ipc_rr_loop fuel start index queue : preserves (on_ipc I) (rr_loop fuel start index queue).
Proof. revert index. induction fuel as [|fuel IH]; intros index; cbn [rr_loop]; preserves. Qed.

Lemma on_ipc_priority_loop l i h s j : preserves (on_ipc I) (priority_loop l i h s j).
Proof. revert i h s j. induction l as [|p l IH]; intros i h s j; cbn [priority_loop]; preserves. Qed.

#[local] Hint Resolve on_ipc_rr_loop on_ipc_priority_loop : preserves.

Lemma on_ipc_select i : preserves (on_ipc I) (select_next_process i).
Proof. unfold select_next_process. preserves. Qed.

#[local] Hint Resolve on_ipc_select : preserves.

Lemma on_ipc_schedule sc :
  (∀ old new, preserves (on_ipc I) (sc old new)) → preserves (on_ipc I) (schedule sc).
Proof. intros Hsc. unfold schedule, schedule_on_cpu, get_runqueue, switch_to_process. preserves. Qed.
End scheduler_frame.

#[export] Hint Resolve on_ipc_get_runqueue on_ipc_add_process on_ipc_schedule : preserves.

(** ** The invariant of the message queues *)

Definition message_ok (m : IPCMessage) : Prop :=
  0 ≤ msg_size m ≤ MAX_MESSAGE_SIZE ∧ Z.of_nat (length (msg_data m)) = msg_size m.

Definition queue_ok (q : MessageQueue) : Prop :=
  Z.of_nat (length (m_messages q)) ≤ MAX_MESSAGES_PER_QUEUE ∧ Forall message_ok (m_messages q).

(** Identifiers are positions in the table; every slot is free or holds a queue
    of its own; names are distinct; queues and messages are within their bounds. *)
Record ipc_wf (m : IPCManager) : Prop := {
  iw_next : m_next_queue_id m = Z.of_nat (length (m_message_queues m)) + 1;
  iw_max : Z.of_nat (length (m_message_queues m)) < 2 ^ 31 - 1;
  iw_new : 0 < ipc_new m;
  iw_fresh qa : ipc_new m ≤ qa → ipc_queues m !! qa = None;
  iw_slot (i : nat) qa : m_message_queues m !! i = Some qa →
    qa = 0 ∨ (0 < qa ∧ is_Some (ipc_queues m !! qa));
  iw_inj (i j : nat) qa : m_message_queues m !! i = Some qa → m_message_queues m !! j = Some qa →
    qa ≠ 0 → i = j;
  iw_names (i j : nat) qa qb q r : m_message_queues m !! i = Some qa → m_message_queues m !! j = Some qb →
    ipc_queues m !! qa = Some q → ipc_queues m !! qb = Some r → qa ≠ 0 → qb ≠ 0 →
    m_name q = m_name r → i = j;
  iw_queues qa q : ipc_queues m !! qa = Some q → queue_ok q
}.

(** A queue changed in place keeps its name. *)
Lemma ipc_wf_update m qa q q' :
  ipc_wf m → ipc_queues m !! qa = Some q → m_name q' = m_name q → queue_ok q' →
  ipc_wf (set_ipc_queues (<[qa := q']> (ipc_queues m)) m).
Proof.
  intros [H1 H2 H3 H4 H5 H6 H7 H8] Hq Hn Hok.
  assert (Hlk : ∀ a x, <[qa := q']> (ipc_queues m) !! a = Some x →
    exists y, ipc_queues m !! a = Some y ∧ m_name x = m_name y).
  { intros a x [[<- <-]|[_ Hx]]%lookup_insert_Some; eauto. }
  constructor; cbn; try done.
  - intros a Ha. rewrite lookup_insert_ne; [by apply H4|]. intros ->. by rewrite H4 in Hq.
  - intros i a Ha. destruct (H5 i a Ha) as [->|[? ?]]; [by left|right]. split; [done|].
    apply lookup_insert_is_Some'. by right.
  - intros i j a b x y Hi Hj (x' & Hx' & ->)%Hlk (y' & Hy' & ->)%Hlk. by apply (H7 i j a b).
  - intros a x [[<- <-]|[_ Hx]]%lookup_insert_Some; [done|by apply (H8 a)].
Qed.

Lemma preserves_assign_mq qa q :
  (∀ m x, ipc_wf m → ipc_queues m !! qa = Some x → m_name q = m_name x ∧ queue_ok q) →
  preserves (on_ipc ipc_wf) (assign_mq qa q).
Proof.
  intros Hq k a k' HI. unfold assign_mq. destruct (ipc_queues (k_ipc k) !! qa) as [x|] eqn:Ex; [|done].
  intros [= <- <-]. destruct (Hq _ _ HI Ex). by apply (ipc_wf_update _ _ x).
Qed.

(** Reading a queue and writing it back changed: the whole step keeps the
    invariant when the change keeps the name and the bounds. *)
Lemma preserves_update {A} qa (f : MessageQueue → K A) :
  (∀ k q, ipc_wf (k_ipc k) → ipc_queues (k_ipc k) !! qa = Some q → queue_ok q →
     forall a k', f q k = Ok (a, k') → ipc_wf (k_ipc k')) →
  preserves (on_ipc ipc_wf) (q ← deref_mq qa; f q).
Proof.
  intros Hf k a k' HI (q & k1 & E1 & E2)%bind_run_inv. unfold deref_mq in E1.
  destruct (ipc_queues (k_ipc k) !! qa) as [x|] eqn:Ex; [|done]. injection E1 as <- <-.
  eapply Hf; [exact HI|exact Ex| |exact E2]. by apply (iw_queues _ HI qa).
Qed.

(** The write itself, in a state whose queue is known. *)
Lemma assign_mq_wf qa q q' k a k' :
  ipc_wf (k_ipc k) → ipc_queues (k_ipc k) !! qa = Some q → m_name q' = m_name q → queue_ok q' →
  assign_mq qa q' k = Ok (a, k') → ipc_wf (k_ipc k').
Proof.
  intros HI Hq Hn Hok. rewrite (assign_mq_run _ _ _ _ Hq). intros [= <- <-]. by apply (ipc_wf_update _ _ q).
Qed.

Lemma take_message_wf qa : preserves (on_ipc ipc_wf) (take_message qa).
Proof.
  apply preserves_update. intros k q HI Hq [Hl Hf] a k'. destruct (m_messages q) as [|m rest] eqn:E.
  - intros [= <- <-]. done.
  - intros (u & k1 & E1 & [= <- <-])%bind_run_inv. apply Forall_cons in Hf as [_ Hf].
    refine (assign_mq_wf _ _ _ _ _ _ HI Hq _ _ E1); [done|]. split; [cbn in *; lia|done].
Qed.

Lemma send_tail_wf qa :
  preserves (on_ipc ipc_wf)
    (q ← deref_mq qa;
     match m_waiting_processes q with
     | [] => mret true
     | w :: rest =>
         if w =? 0 then mret true else
         x ← deref w;
         if bool_decide (state x = Waiting) && (waiting_on x =? qa) then
           assign_mq qa (set_waiters rest q);;
           assign w (set_waiting 0 ∘ set_state Ready);;
           add_process w;;
           mret true
         else mret true
     end).
Proof.
  apply preserves_update. intros k q HI Hq Hok a k'. destruct (m_waiting_processes q) as [|w rest].
  { intros [= <- <-]. done. }
  destruct (w =? 0); [intros [= <- <-]; done|]. intros (x & k1 & E1 & E2)%bind_run_inv.
  unfold deref in E1. destruct (pm_procs (k_pm k) !! w); [|done]. injection E1 as -> <-.
  destruct (_ && _); [|injection E2 as <- <-; done].
  apply bind_run_inv in E2 as (u & k2 & E2 & E3).
  assert (HI2 : on_ipc ipc_wf k2) by (exact (assign_mq_wf _ _ (set_waiters rest q) _ _ _ HI Hq eq_refl Hok E2)).
  eapply (_ : preserves (on_ipc ipc_wf) _); [exact HI2|exact E3].
  Unshelve. preserves.
Qed.

Lemma mq_send_message_wf qa s data size :
  0 ≤ size → preserves (on_ipc ipc_wf) (mq_send_message qa s data size).
Proof.
  intros Hsz. apply preserves_update. intros k q HI Hq [Hl Hf] a k'.
  destruct (is_full q || (MAX_MESSAGE_SIZE <? size)) eqn:Eb; [intros [= <- <-]; done|].
  apply orb_false_iff in Eb as [Efull Esz]. unfold is_full, MAX_MESSAGES_PER_QUEUE in Efull. rewrite bind_gets.
  destruct (Z.ltb_spec (Z.of_nat (length data)) size); [done|].
  intros (u & k1 & E1 & E2)%bind_run_inv.
  eapply send_tail_wf; [|exact E2]. refine (assign_mq_wf _ _ _ _ _ _ HI Hq _ _ E1); [done|].
  split; cbn.
  - rewrite length_app. cbn [length]. unfold MAX_MESSAGES_PER_QUEUE in *. lia.
  - apply Forall_app. split; [done|]. apply Forall_singleton. split; cbn; [lia|]. rewrite length_take. lia.
Qed.

Lemma wake_waiters_wf qa l : preserves (on_ipc ipc_wf) (wake_waiters qa l).
Proof. induction l as [|w l IH]; cbn [wake_waiters]; preserves. Qed.

Lemma find_name_wf l i name : preserves (on_ipc ipc_wf) (find_name l i name).
Proof. revert i. induction l as [|qa l IH]; intros i; cbn [find_name]; preserves. Qed.

Lemma lookup_queue_wf id : preserves (on_ipc ipc_wf) (lookup_queue id).
Proof. unfold lookup_queue, get_table. preserves. Qed.

#[local] Hint Resolve take_message_wf wake_waiters_wf find_name_wf lookup_queue_wf : preserves.

Lemma open_message_queue_wf name : preserves (on_ipc ipc_wf) (open_message_queue name).
Proof. unfold open_message_queue, get_table. preserves. Qed.

Lemma send_message_wf id s data size : 0 ≤ size → preserves (on_ipc ipc_wf) (send_message id s data size).
Proof. intros. pose proof mq_send_message_wf. unfold send_message. preserves. Qed.

Lemma mq_receive_message_wf sc qa wait :
  (∀ old new, preserves (on_ipc ipc_wf) (sc old new)) →
  preserves (on_ipc ipc_wf) (mq_receive_message sc qa wait).
Proof.
  intros Hsc. apply preserves_update. intros k q HI Hq Hok a k'.
  destruct (m_messages q); [|apply take_message_wf; exact HI].
  destruct (negb wait); [intros [= <- <-]; done|]. rewrite bind_gets.
  destruct (_ =? 0); [intros [= <- <-]; done|].
  intros (u & k1 & E1 & E2)%bind_run_inv. apply bind_run_inv in E2 as (v & k2 & E2 & E3).
  unfold assign in E1. destruct (pm_procs _ !! _); [|done]. injection E1 as <- <-.
  assert (HI2 : on_ipc ipc_wf k2) by (refine (assign_mq_wf _ _ _ _ _ _ _ _ _ _ E2); [exact HI|exact Hq|done|done]).
  eapply (_ : preserves (on_ipc ipc_wf) _); [exact HI2|exact E3].
  Unshelve. preserves.
Qed.

Lemma receive_message_wf sc id wait :
  (∀ old new, preserves (on_ipc ipc_wf) (sc old new)) →
  preserves (on_ipc ipc_wf) (receive_message sc id wait).
Proof. intros. pose proof mq_receive_message_wf. unfold receive_message. preserves. Qed.

(** ** Names *)

(** Slot [i] of the table holds a queue called [name]. *)
Definition name_at (m : IPCManager) (i : nat) (name : list Z) : Prop :=
  exists qa q, m_message_queues m !! i = Some qa ∧ qa ≠ 0 ∧ ipc_queues m !! qa = Some q ∧ m_name q = name.

Lemma find_name_run k name l : ∀ i : nat,
  (∀ (j : nat) qa, l !! j = Some qa → m_message_queues (k_ipc k) !! (i + j)%nat = Some qa) →
  (∀ (j : nat) qa, l !! j = Some qa → qa = 0 ∨ is_Some (ipc_queues (k_ipc k) !! qa)) →
  (find_name l (Z.of_nat i) name k = Ok (None, k) ∧
     ∀ j : nat, (j < length l)%nat → ¬ name_at (k_ipc k) (i + j) name) ∨
  (exists j : nat, (j < length l)%nat ∧ find_name l (Z.of_nat i) name k = Ok (Some (Z.of_nat (i + j)), k) ∧
     name_at (k_ipc k) (i + j) name).
Proof.
  induction l as [|qa l IH]; intros i Htab Hlive; cbn [find_name].
  { left. split; [done|]. intros j Hj. cbn in Hj. lia. }
  pose proof (Htab 0%nat qa eq_refl) as H0. rewrite Nat.add_0_r in H0.
  assert (Hrec : ¬ name_at (k_ipc k) i name →
    (find_name l (Z.of_nat i + 1) name k = Ok (None, k) ∧
       ∀ j : nat, (j < length (qa :: l))%nat → ¬ name_at (k_ipc k) (i + j) name) ∨
    (exists j : nat, (j < length (qa :: l))%nat ∧
       find_name l (Z.of_nat i + 1) name k = Ok (Some (Z.of_nat (i + j)), k) ∧ name_at (k_ipc k) (i + j) name)).
  { intros Hn. replace (Z.of_nat i + 1) with (Z.of_nat (S i)) by lia.
    destruct (IH (S i)) as [[E H]|(j & Hj & E & H)].
    - intros j x Hx. replace (S i + j)%nat with (i + S j)%nat by lia. by apply Htab.
    - intros j x Hx. by apply (Hlive (S j)).
    - left. split; [done|]. intros [|j] Hj; [by rewrite Nat.add_0_r|].
      replace (i + S j)%nat with (S i + j)%nat by lia. apply H. cbn in Hj. lia.
    - right. exists (S j). replace (i + S j)%nat with (S i + j)%nat by lia. split; [cbn; lia|done]. }
  destruct (Z.eqb_spec qa 0) as [->|Hq0].
  { apply Hrec. intros (a & q & Ha & Hne & _). rewrite H0 in Ha. by injection Ha as <-. }
  destruct (Hlive 0%nat qa eq_refl) as [?|[q Hq]]; [done|].
  rewrite (bind_run _ _ _ _ _ (deref_mq_run _ _ _ Hq)).
  destruct (decide (m_name q = name)) as [E|E].
  - right. exists 0%nat. rewrite Nat.add_0_r. split; [cbn; lia|]. split; [done|]. by exists qa, q.
  - apply Hrec. intros (a & r & Ha & Hne & Hr & En). congruence.
Qed.

Lemma find_name_table k name :
  ipc_wf (k_ipc k) →
  (find_name (m_message_queues (k_ipc k)) 0 name k = Ok (None, k) ∧ ∀ i, ¬ name_at (k_ipc k) i name) ∨
  (exists i : nat, find_name (m_message_queues (k_ipc k)) 0 name k = Ok (Some (Z.of_nat i), k) ∧
     (i < length (m_message_queues (k_ipc k)))%nat ∧ name_at (k_ipc k) i name).
Proof.
  intros Hwf. destruct (find_name_run k name (m_message_queues (k_ipc k)) 0) as [[E H]|(j & Hj & E & H)].
  - done.
  - intros j qa Hq. destruct (iw_slot _ Hwf j qa Hq) as [?|[_ ?]]; auto.
  - left. split; [done|]. intros i Hi. destruct (decide (i < length (m_message_queues (k_ipc k)))%nat).
    + by apply (H i).
    + destruct Hi as (qa & q & Hq & _). apply lookup_lt_Some in Hq. lia.
  - right. exists j. done.
Qed.

Lemma first_null_spec l : ∀ i : nat,
  match first_null l (Z.of_nat i) with
  | Some z => exists j : nat, z = Z.of_nat (i + j) ∧ l !! j = Some 0
  | None => 0 ∉ l
  end.
Proof.
  induction l as [|qa l IH]; intros i; cbn [first_null]; [set_solver|].
  destruct (Z.eqb_spec qa 0) as [->|Hq].
  - exists 0%nat. rewrite Nat.add_0_r. done.
  - replace (Z.of_nat i + 1) with (Z.of_nat (S i)) by lia. specialize (IH (S i)).
    destruct (first_null l (Z.of_nat (S i))) as [z|].
    + destruct IH as (j & -> & Hj). exists (S j). split; [lia|done].
    + set_solver.
Qed.

(** The slot a new queue is put in: a freed one, or the end of the table. *)
Definition new_slot (m : IPCManager) : nat :=
  match first_null (m_message_queues m) 0 with
  | Some i => Z.to_nat i
  | None => length (m_message_queues m)
  end.

(** The manager after a queue was created. *)
Definition with_queue (owner : Z) (name : list Z) (m : IPCManager) : IPCManager :=
  IPC (<[ipc_new m := MQ owner name [] []]> (ipc_queues m)) (ipc_new m + 1)
    (if decide (new_slot m = length (m_message_queues m)) then m_message_queues m ++ [ipc_new m]
     else <[new_slot m := ipc_new m]> (m_message_queues m))
    (m_shared_memory_regions m)
    (if decide (new_slot m = length (m_message_queues m)) then m_next_queue_id m + 1 else m_next_queue_id m)
    (m_next_shared_memory_id m).

Lemma new_slot_cases m :
  (new_slot m = length (m_message_queues m) ∧ first_null (m_message_queues m) 0 = None) ∨
  (first_null (m_message_queues m) 0 = Some (Z.of_nat (new_slot m)) ∧
   m_message_queues m !! new_slot m = Some 0 ∧ (new_slot m < length (m_message_queues m))%nat).
Proof.
  unfold new_slot. pose proof (first_null_spec (m_message_queues m) 0) as H.
  change (Z.of_nat 0) with 0 in H. destruct (first_null (m_message_queues m) 0) as [z|]; [|by left].
  destruct H as (j & -> & Hj). cbn. rewrite Nat2Z.id. right. split_and!; [done|done|by apply lookup_lt_Some in Hj].
Qed.

(** The table after a creation: the new queue in its slot, the rest as before. *)
Lemma with_queue_lookup owner name m (i : nat) :
  m_message_queues (with_queue owner name m) !! i =
  if decide (i = new_slot m) then Some (ipc_new m) else m_message_queues m !! i.
Proof.
  cbn. destruct (new_slot_cases m) as [[E _]|(_ & Hs & Hlt)].
  - rewrite decide_True by done. rewrite E. destruct (decide (i = length (m_message_queues m))) as [->|Hne].
    + rewrite lookup_app_r, Nat.sub_diag by lia. done.
    + destruct (decide (i < length (m_message_queues m))%nat); [by rewrite lookup_app_l|].
      rewrite !lookup_ge_None_2; [done|lia|rewrite length_app; cbn; lia].
  - rewrite (decide_False (P := new_slot m = _)) by lia. destruct (decide (i = new_slot m)) as [->|Hne].
    + by apply list_lookup_insert_eq.
    + by apply list_lookup_insert_ne.
Qed.

(** The queues named after a creation. *)
Lemma with_queue_name_at owner name m (i : nat) n :
  ipc_wf m → name_at (with_queue owner name m) i n ↔
  (i = new_slot m ∧ n = name) ∨ (i ≠ new_slot m ∧ name_at m i n).
Proof.
  intros Hwf. unfold name_at. rewrite with_queue_lookup. pose proof (iw_new _ Hwf).
  destruct (decide (i = new_slot m)) as [->|Hne]; split.
  - intros (qa & q & [= <-] & _ & Hq & <-). cbn in Hq. rewrite lookup_insert_eq in Hq. injection Hq as <-. by left.
  - intros [[_ ->]|[? _]]; [|done]. exists (ipc_new m), (MQ owner name [] []). split_and!; [done|lia| |done].
    cbn. apply lookup_insert_eq.
  - intros (qa & q & Hi & H0 & Hq & En). right. split; [done|]. exists qa, q. split_and!; [done|done| |done].
    cbn in Hq. rewrite lookup_insert_ne in Hq; [done|]. intros <-.
    destruct (iw_slot _ Hwf _ _ Hi) as [?|[_ [x Hx]]]; [done|]. by rewrite (iw_fresh _ Hwf) in Hx by lia.
  - intros [[? _]|[_ (qa & q & Hi & H0 & Hq & En)]]; [done|]. exists qa, q. split_and!; [done|done| |done].
    cbn. rewrite lookup_insert_ne; [done|]. intros <-. by rewrite (iw_fresh _ Hwf) in Hq by lia.
Qed.

(** A free slot, or room for one more identifier. *)
Definition table_room (m : IPCManager) : Prop :=
  new_slot m = length (m_message_queues m) → Z.of_nat (length (m_message_queues m)) < 2 ^ 31 - 2.

Lemma with_queue_wf owner name m :
  ipc_wf m → (∀ i, ¬ name_at m i name) → table_room m → ipc_wf (with_queue owner name m).
Proof.
  unfold table_room. intros Hwf Hname Hmax. pose proof (iw_max _ Hwf) as Hmax0. pose proof (iw_new _ Hwf) as Hnew.
  assert (Hlen : Z.of_nat (length (m_message_queues (with_queue owner name m))) =
    (if decide (new_slot m = length (m_message_queues m)) then 1 else 0) + Z.of_nat (length (m_message_queues m))).
  { cbn. destruct (decide _); [rewrite length_app; cbn; lia|by rewrite length_insert]. }
  constructor.
  - rewrite Hlen. cbn. rewrite (iw_next _ Hwf). destruct (decide _); lia.
  - rewrite Hlen. destruct (decide _); lia.
  - cbn. lia.
  - intros qa Hqa. cbn in *. rewrite lookup_insert_ne by lia. apply (iw_fresh _ Hwf). lia.
  - intros i qa. rewrite with_queue_lookup. destruct (decide (i = new_slot m)).
    + intros [= <-]. right. split; [done|]. cbn. by rewrite lookup_insert_eq.
    + intros Hi. destruct (iw_slot _ Hwf i qa Hi) as [->|[? ?]]; [by left|right]. split; [done|].
      apply lookup_insert_is_Some'. by right.
  - intros i j qa. rewrite !with_queue_lookup.
    assert (Hold : ∀ i : nat, m_message_queues m !! i = Some (ipc_new m) → False).
    { intros a Ha. destruct (iw_slot _ Hwf a _ Ha) as [?|[_ [x Hx]]]; [lia|]. by rewrite (iw_fresh _ Hwf) in Hx by lia. }
    destruct (decide (i = new_slot m)) as [->|], (decide (j = new_slot m)) as [->|]; [done| | |].
    + intros [= <-] Hj _. by destruct (Hold j).
    + intros Hi [= <-] _. by destruct (Hold i).
    + by apply (iw_inj _ Hwf).
  - intros i j qa qb q r Hi Hj Hq Hr Ha Hb En.
    assert (Ni : name_at (with_queue owner name m) i (m_name q)) by (by exists qa, q).
    assert (Nj : name_at (with_queue owner name m) j (m_name q)) by (by exists qb, r).
    apply (with_queue_name_at _ _ _ _ _ Hwf) in Ni, Nj.
    destruct Ni as [[-> E]|[_ Ni]], Nj as [[-> E']|[_ Nj]]; [done| | |].
    + rewrite E in Nj. by destruct (Hname j).
    + rewrite E' in Ni. by destruct (Hname i).
    + destruct Ni as (a & x & Hx1 & Hx2 & Hx3 & Hx4), Nj as (b & y & Hy1 & Hy2 & Hy3 & Hy4).
      apply (iw_names _ Hwf i j a b x y); congruence.
  - intros qa q. cbn. intros [[<- <-]|[_ Hq]]%lookup_insert_Some; [|by apply (iw_queues _ Hwf qa)].
    split; [cbn; unfold MAX_MESSAGES_PER_QUEUE; lia|by constructor].
Qed.

Lemma create_message_queue_run owner name k :
  ipc_wf (k_ipc k) → (∀ i, ¬ name_at (k_ipc k) i name) → table_room (k_ipc k) →
  create_message_queue owner name k =
    Ok (Z.of_nat (new_slot (k_ipc k)) + 1, with_ipc (with_queue owner name) k).
Proof.
  intros Hwf Hname Hmax. pose proof (iw_max _ Hwf) as Hmax0. unfold create_message_queue, get_table, put_table. st.
  destruct (find_name_table k name Hwf) as [[E _]|(i & _ & _ & Hi)]; [|by destruct (Hname i)].
  rewrite (bind_run _ _ _ _ _ E). unfold new_mq.
  set (m := k_ipc k) in *. unfold mbind, st_bind, gets, modify, mret, st_ret. cbn. fold m.
  destruct (new_slot_cases m) as [[Es Ef]|(Ef & Hs & Hlt)]; rewrite Ef.
  - specialize (Hmax Es). rewrite inc_i32_run by (cbn; fold m; rewrite (iw_next _ Hwf); lia). cbn. fold m. rewrite (iw_next _ Hwf), Es.
    f_equal. f_equal. unfold with_ipc, with_queue. cbn. fold m. rewrite !decide_True by done. rewrite (iw_next _ Hwf). done.
  - rewrite i32_small by lia. f_equal. f_equal. unfold with_ipc, with_queue. cbn. fold m.
    rewrite !decide_False by lia. rewrite Nat2Z.id. done.
Qed.

Lemma name_at_unique m i j name : ipc_wf m → name_at m i name → name_at m j name → i = j.
Proof.
  intros Hwf (qa & q & Hi & Ha & Hq & En) (qb & r & Hj & Hb & Hr & En').
  apply (iw_names _ Hwf i j qa qb q r); congruence.
Qed.

Lemma open_message_queue_found k (i : nat) name :
  ipc_wf (k_ipc k) → name_at (k_ipc k) i name →
  open_message_queue name k = Ok (Z.of_nat i + 1, k).
Proof.
  intros Hwf Hn. unfold open_message_queue, get_table. st.
  destruct (find_name_table k name Hwf) as [[_ H]|(j & E & Hj & Hnj)]; [by destruct (H i)|].
  rewrite (bind_run _ _ _ _ _ E). assert (j = i) as -> by (by eapply name_at_unique).
  pose proof (iw_max _ Hwf). rewrite i32_small by lia. done.
Qed.

Lemma open_message_queue_none k name :
  ipc_wf (k_ipc k) → (∀ i, ¬ name_at (k_ipc k) i name) → open_message_queue name k = Ok (-1, k).
Proof.
  intros Hwf Hn. unfold open_message_queue, get_table. st.
  destruct (find_name_table k name Hwf) as [[E _]|(j & _ & _ & Hnj)]; [|by destruct (Hn j)].
  by rewrite (bind_run _ _ _ _ _ E).
Qed.

Lemma lookup_queue_run k (i : nat) qa :
  ipc_wf (k_ipc k) → m_message_queues (k_ipc k) !! i = Some qa →
  lookup_queue (Z.of_nat i + 1) k = Ok (qa, k).
Proof.
  intros Hwf Hi. pose proof (lookup_lt_Some _ _ _ Hi). pose proof (iw_max _ Hwf).
  unfold lookup_queue, get_table. st. rewrite (iw_next _ Hwf), i32_small by lia.
  rewrite (proj2 (Z.leb_gt _ _)), (proj2 (Z.leb_gt _ _)), (proj2 (Z.ltb_ge _ _)) by lia. cbn [orb].
  unfold lift. replace (Z.of_nat i + 1 - 1) with (Z.of_nat i) by lia. by rewrite (aget_lookup _ _ _ Hi).
Qed.

Lemma lookup_queue_out k id :
  ipc_wf (k_ipc k) → ¬ (1 ≤ id ≤ Z.of_nat (length (m_message_queues (k_ipc k)))) →
  lookup_queue id k = Ok (0, k).
Proof.
  intros Hwf Hid. unfold lookup_queue, get_table. st. rewrite (iw_next _ Hwf).
  destruct (Z.leb_spec id 0), (Z.leb_spec (Z.of_nat (length (m_message_queues (k_ipc k))) + 1) id); cbn [orb]; try done. lia.
Qed.

(** ** Destruction *)

Definition waits_on (k : Kernel) (qa w : Z) : Prop :=
  exists x, pm_procs (k_pm k) !! w = Some x ∧ state x = Waiting ∧ waiting_on x = qa.

Lemma wake_waiters_ok qa l (Hqa : qa ≠ 0) : ∀ k,
  Forall (λ w, is_Some (pm_procs (k_pm k) !! w)) l →
  exists k', wake_waiters qa l k = Ok (tt, k') ∧ k_ipc k' = k_ipc k ∧ k_sched k' = k_sched k ∧
    (∀ w, waits_on k' qa w → (w ∉ l) ∧ waits_on k qa w).
Proof.
  induction l as [|w l IH]; intros k Hl.
  { exists k. split_and!; [done|done|done|]. intros w Hw. split; [set_solver|done]. }
  apply Forall_cons in Hl as [[x Hx] Hl]. cbn [wake_waiters].
  rewrite (bind_run _ _ _ _ _ (deref_run _ _ _ Hx)).
  destruct (bool_decide (state x = Waiting) && (waiting_on x =? qa)) eqn:Eb.
  - rewrite (bind_run _ _ _ _ _ (assign_run _ _ _ _ Hx)).
    set (k1 := with_pm (set_procs (<[w:=(set_waiting 0 ∘ set_state Ready) x]> (pm_procs (k_pm k)))) k).
    destruct (IH k1) as (k' & E & Hi & Hs & Hw).
    { eapply Forall_impl; [exact Hl|]. intros a Ha. apply lookup_insert_is_Some'. by right. }
    exists k'. split_and!; [done|done|done|]. intros a (Hal & y & Hy & Hsy & Hwy)%Hw. cbn in Hy.
    apply lookup_insert_Some in Hy as [[-> <-]|[Hne Hy]]; [done|]. split; [|by exists y].
    rewrite elem_of_cons. intros [->|?]; done.
  - rewrite bind_ret. destruct (IH k Hl) as (k' & E & Hi & Hs & Hw).
    exists k'. split_and!; [done|done|done|]. intros a (Hal & y & Hy & Hsy & Hwy)%Hw. split; [|by exists y].
    rewrite elem_of_cons. intros [->|?]; [|done]. assert (y = x) as -> by congruence.
    rewrite bool_decide_eq_true_2, (proj2 (Z.eqb_eq _ _)) in Eb by done. done.
Qed.

Definition without_queue (i : nat) (qa : Z) (m : IPCManager) : IPCManager :=
  set_queue_table (<[i := 0]> (m_message_queues m)) (set_ipc_queues (delete qa (ipc_queues m)) m).

Lemma without_queue_name_at m (i j : nat) qa n :
  ipc_wf m → m_message_queues m !! i = Some qa → qa ≠ 0 →
  name_at (without_queue i qa m) j n ↔ j ≠ i ∧ name_at m j n.
Proof.
  intros Hwf Hi H0. unfold name_at. cbn. destruct (decide (j = i)) as [->|Hne].
  - split; [|by intros []]. intros (a & q & Ha & Hne & _). rewrite list_lookup_insert_eq in Ha by (by apply lookup_lt_Some in Hi).
    congruence.
  - split.
    + intros (a & q & Ha & Ha0 & Hq & En). rewrite list_lookup_insert_ne in Ha by done.
      apply lookup_delete_Some in Hq as [_ Hq]. split; [done|]. by exists a, q.
    + intros [_ (a & q & Ha & Ha0 & Hq & En)]. exists a, q. rewrite list_lookup_insert_ne by done.
      split_and!; [done|done| |done]. apply lookup_delete_Some. split; [|done]. intros <-. apply Hne.
      by apply (iw_inj _ Hwf j i qa).
Qed.

Lemma without_queue_wf m (i : nat) qa :
  ipc_wf m → m_message_queues m !! i = Some qa → qa ≠ 0 → ipc_wf (without_queue i qa m).
Proof.
  intros Hwf Hi H0. pose proof (lookup_lt_Some _ _ _ Hi) as Hlt.
  assert (Hlk : ∀ (j : nat) a, <[i := 0]> (m_message_queues m) !! j = Some a →
    (j = i ∧ a = 0) ∨ (j ≠ i ∧ m_message_queues m !! j = Some a)).
  { intros j a [(-> & <- & _)|[? ?]]%list_lookup_insert_Some; auto. }
  constructor; cbn; rewrite ?length_insert; try apply Hwf.
  - intros a Ha. apply lookup_delete_None. right. by apply (iw_fresh _ Hwf).
  - intros j a [[-> ->]|[Hne Ha]]%Hlk; [by left|]. destruct (iw_slot _ Hwf j a Ha) as [->|[Hp Hs]]; [by left|right].
    split; [done|]. rewrite lookup_delete_ne; [done|]. intros <-. apply Hne. by apply (iw_inj _ Hwf j i qa).
  - intros j j' a [[-> ->]|[Hne Ha]]%Hlk [[-> E]|[Hne' Ha']]%Hlk; [done|done|by subst|]. by apply (iw_inj _ Hwf).
  - intros j j' a b q r [[-> ->]|[Hne Ha]]%Hlk [[-> ->]|[Hne' Hb]]%Hlk; [done|done|done|].
    intros [_ Hq]%lookup_delete_Some [_ Hr]%lookup_delete_Some. by apply (iw_names _ Hwf j j' a b q r).
  - intros a q [_ Hq]%lookup_delete_Some. by apply (iw_queues _ Hwf a).
Qed.

Lemma destroy_message_queue_run k (i : nat) qa q :
  ipc_wf (k_ipc k) → m_message_queues (k_ipc k) !! i = Some qa → qa ≠ 0 →
  ipc_queues (k_ipc k) !! qa = Some q →
  Forall (λ w, is_Some (pm_procs (k_pm k) !! w)) (m_waiting_processes q) →
  exists k', destroy_message_queue (Z.of_nat i + 1) k = Ok (true, k') ∧
    k_ipc k' = without_queue i qa (k_ipc k) ∧ k_sched k' = k_sched k ∧
    (∀ w, waits_on k' qa w → (w ∉ m_waiting_processes q) ∧ waits_on k qa w).
Proof.
  intros Hwf Hi H0 Hq Hl. unfold destroy_message_queue.
  rewrite (bind_run _ _ _ _ _ (lookup_queue_run _ _ _ Hwf Hi)), (proj2 (Z.eqb_neq qa 0)) by done.
  rewrite (bind_run _ _ _ _ _ (deref_mq_run _ _ _ Hq)).
  destruct (wake_waiters_ok qa (m_waiting_processes q) H0 k Hl) as (k1 & E1 & Ei & Es & Hw).
  rewrite (bind_run _ _ _ _ _ E1). unfold delete_mq.
  assert (Hq1 : ipc_queues (k_ipc k1) !! qa = Some q) by (by rewrite Ei).
  set (k2 := with_ipc (λ m, set_ipc_queues (delete qa (ipc_queues m)) m) k1).
  assert (E2 : (deref_mq qa;; modify (with_ipc (λ m, set_ipc_queues (delete qa (ipc_queues m)) m))) k1 = Ok (tt, k2))
    by (by rewrite (bind_run _ _ _ _ _ (deref_mq_run _ _ _ Hq1))).
  rewrite (bind_run _ _ _ _ _ E2). unfold get_table, put_table. st.
  assert (Et : m_message_queues (k_ipc k2) = m_message_queues (k_ipc k)) by (cbn; by rewrite Ei).
  pose proof (lookup_lt_Some _ _ _ Hi).
  rewrite Et, (bind_lift _ (<[i := 0]> (m_message_queues (k_ipc k)))).
  2:{ rewrite aset_Ok by lia. by replace (Z.to_nat (Z.of_nat i + 1 - 1)) with i by lia. }
  st. eexists. split; [reflexivity|]. split_and!; [|done|exact Hw].
  cbn. rewrite Ei. done.
Qed.

(** ** Preservation by creation and destruction *)

Lemma create_message_queue_wf owner name : preserves (on_ipc ipc_wf) (create_message_queue owner name).
Proof.
  intros k r k' HI E. unfold on_ipc in *.
  destruct (find_name_table k name HI) as [[_ Hn]|(i & Ef & _)].
  - destruct (decide (table_room (k_ipc k))) as [Hroom|Hroom].
    + rewrite (create_message_queue_run _ _ _ HI Hn Hroom) in E. injection E as <- <-. by apply with_queue_wf.
    + exfalso. unfold table_room in Hroom. pose proof (iw_max _ HI) as Hmax.
      assert (Hlen : new_slot (k_ipc k) = length (m_message_queues (k_ipc k)) ∧
        Z.of_nat (length (m_message_queues (k_ipc k))) = 2 ^ 31 - 2) by lia. destruct Hlen as [Hs Hl].
      unfold create_message_queue, get_table in E. rewrite bind_gets in E.
      destruct (find_name_table k name HI) as [[Ef _]|(i & _ & _ & Hi)]; [|by apply (Hn i)].
      rewrite (bind_run _ _ _ _ _ Ef) in E. unfold new_mq, mbind, st_bind, gets, modify, mret, st_ret in E. cbn in E.
      destruct (new_slot_cases (k_ipc k)) as [[_ Efn]|(_ & _ & Hlt)]; [|lia]. rewrite Efn in E.
      unfold inc_i32 in E. cbn in E. rewrite (iw_next _ HI), Hl in E. done.
  - unfold create_message_queue, get_table in E. rewrite bind_gets, (bind_run _ _ _ _ _ Ef) in E.
    by injection E as <- <-.
Qed.

Lemma wake_waiters_live qa l : ∀ k r k',
  wake_waiters qa l k = Ok (r, k') → Forall (λ w, is_Some (pm_procs (k_pm k) !! w)) l.
Proof.
  induction l as [|w l IH]; intros k r k' E; [by constructor|]. cbn [wake_waiters] in E.
  apply bind_run_inv in E as (x & k1 & E1 & E2). unfold deref in E1.
  destruct (pm_procs (k_pm k) !! w) as [y|] eqn:Ey; [|done]. injection E1 as <- <-.
  apply bind_run_inv in E2 as (u & k2 & E2 & E3). constructor; [by eexists|].
  apply IH in E3. eapply Forall_impl; [exact E3|]. intros a Ha.
  destruct (_ && _); [|injection E2 as <- <-; done].
  rewrite (assign_run _ _ _ _ Ey) in E2. injection E2 as <- <-. cbn in Ha.
  apply lookup_insert_is_Some' in Ha as [<-|]; [by eexists|done].
Qed.

Lemma destroy_message_queue_wf id : preserves (on_ipc ipc_wf) (destroy_message_queue id).
Proof.
  intros k r k' HI E. unfold on_ipc in *.
  destruct (decide (1 ≤ id ≤ Z.of_nat (length (m_message_queues (k_ipc k))))) as [Hid|Hid].
  2:{ unfold destroy_message_queue in E. rewrite (bind_run _ _ _ _ _ (lookup_queue_out _ _ HI Hid)) in E.
      by injection E as <- <-. }
  destruct (lookup_lt_is_Some_2 (m_message_queues (k_ipc k)) (Z.to_nat (id - 1))) as [qa Hqa]; [lia|].
  assert (Eid : id = Z.of_nat (Z.to_nat (id - 1)) + 1) by lia. rewrite Eid in E.
  pose proof E as E0. unfold destroy_message_queue in E0.
  rewrite (bind_run _ _ _ _ _ (lookup_queue_run _ _ _ HI Hqa)) in E0.
  destruct (Z.eqb_spec qa 0) as [->|H0]; [by injection E0 as <- <-|].
  destruct (iw_slot _ HI _ _ Hqa) as [?|[_ [q Hq]]]; [done|].
  rewrite (bind_run _ _ _ _ _ (deref_mq_run _ _ _ Hq)) in E0.
  apply bind_run_inv in E0 as (u & k1 & E1 & _). apply wake_waiters_live in E1.
  destruct (destroy_message_queue_run k _ qa q HI Hqa H0 Hq E1) as (k2 & E2 & Ei & _).
  rewrite E2 in E. injection E as <- <-. rewrite Ei. by apply without_queue_wf.
Qed.

(** ** The queue as a bounded FIFO *)

Inductive mq_op := OpSend (sender_ : Z) (data : list Z) | OpReceive.
Inductive mq_result := Sent (b : bool) | Received (m : option IPCMessage).

(** The specification: a list of at most 64 messages of at most 1024 bytes. *)
Definition fifo_step (ticks : Z) (o : mq_op) (l : list IPCMessage) : mq_result * list IPCMessage :=
  match o, l with
  | OpSend s d, _ =>
      if (Z.of_nat (length l) <? 64) && (Z.of_nat (length d) <=? 1024)
      then (Sent true, l ++ [Msg s ticks (Z.of_nat (length d)) d]) else (Sent false, l)
  | OpReceive, [] => (Received None, [])
  | OpReceive, m :: l => (Received (Some m), l)
  end.

Fixpoint fifo_run (ticks : Z) (ops : list mq_op) (l : list IPCMessage) : list mq_result * list IPCMessage :=
  match ops with
  | [] => ([], l)
  | o :: ops => let r := fifo_step ticks o l in let rs := fifo_run ticks ops r.2 in (r.1 :: rs.1, rs.2)
  end.

(** The implementation: sends of whole buffers and receives that do not wait. *)
Definition mq_step (sc : Z → Z → K unit) (qa : Z) (o : mq_op) : K mq_result :=
  match o with
  | OpSend s d => b ← mq_send_message qa s d (Z.of_nat (length d)); mret (Sent b)
  | OpReceive => m ← mq_receive_message sc qa false; mret (Received m)
  end.

Fixpoint mq_run (sc : Z → Z → K unit) (qa : Z) (ops : list mq_op) : K (list mq_result) :=
  match ops with
  | [] => mret []
  | o :: ops => r ← mq_step sc qa o; rs ← mq_run sc qa ops; mret (r :: rs)
  end.

(** The kernel with the messages of a queue replaced. *)
Definition with_messages (qa : Z) (q : MessageQueue) (l : list IPCMessage) (k : Kernel) : Kernel :=
  with_ipc (set_ipc_queues (<[qa := set_messages l q]> (ipc_queues (k_ipc k)))) k.

Lemma with_messages_lookup qa q l k :
  ipc_queues (k_ipc (with_messages qa q l k)) !! qa = Some (set_messages l q).
Proof. apply lookup_insert_eq. Qed.

Lemma assign_messages_run qa q l k :
  ipc_queues (k_ipc k) !! qa = Some q →
  assign_mq qa (set_messages l q) k = Ok (tt, with_messages qa q l k).
Proof. apply assign_mq_run. Qed.

Lemma with_messages_again qa q l l' k :
  with_messages qa (set_messages l q) l' (with_messages qa q l k) = with_messages qa q l' k.
Proof.
  unfold with_messages, with_ipc, set_ipc_queues. cbn. by rewrite insert_insert_eq.
Qed.

Lemma with_messages_same qa q k :
  ipc_queues (k_ipc k) !! qa = Some q → with_messages qa q (m_messages q) k = k.
Proof.
  intros Hq. unfold with_messages, with_ipc, set_ipc_queues. destruct k as [pm sc [qs ? ? ? ? ?] mc]. cbn in *.
  destruct q. cbn. by rewrite insert_id.
Qed.

Lemma mq_step_fifo sc qa o k q :
  ipc_queues (k_ipc k) !! qa = Some q → m_waiting_processes q = [] →
  let r := fifo_step (mc_ticks (k_machine k)) o (m_messages q) in
  mq_step sc qa o k = Ok (r.1, with_messages qa q r.2 k).
Proof.
  intros Hq Hw. destruct o as [s d|]; cbn [mq_step fifo_step].
  - unfold mq_send_message, mbind, st_bind. rewrite (deref_mq_run _ _ _ Hq).
    unfold is_full, MAX_MESSAGES_PER_QUEUE, MAX_MESSAGE_SIZE.
    destruct (Z.leb_spec 64 (Z.of_nat (length (m_messages q)))), (Z.ltb_spec 1024 (Z.of_nat (length d)));
      cbn [orb gets].
    1-3: (rewrite (proj2 (andb_false_iff _ _)); [cbn; by rewrite with_messages_same|
      rewrite Z.ltb_ge, Z.leb_gt; lia]).
    rewrite Z.ltb_irrefl, (proj2 (Z.ltb_lt _ _)), (proj2 (Z.leb_le _ _)) by lia. cbn [andb].
    rewrite (assign_mq_run _ _ _ _ Hq). rewrite Nat2Z.id, firstn_all.
    set (q' := set_messages _ q).
    assert (Hq' : ipc_queues (k_ipc (with_ipc (set_ipc_queues (<[qa:=q']> (ipc_queues (k_ipc k)))) k)) !! qa = Some q')
      by apply lookup_insert_eq.
    rewrite (deref_mq_run _ _ _ Hq'). unfold q' at 1. cbn [m_waiting_processes set_messages]. by rewrite Hw.
  - unfold mq_receive_message, take_message, mbind, st_bind. rewrite (deref_mq_run _ _ _ Hq).
    destruct (m_messages q) as [|m rest] eqn:Em.
    + cbn. rewrite <- Em, with_messages_same by done. done.
    + rewrite (deref_mq_run _ _ _ Hq), Em, (assign_mq_run _ _ _ _ Hq). done.
Qed.

Lemma mq_run_fifo sc qa ops : ∀ k q,
  ipc_queues (k_ipc k) !! qa = Some q → m_waiting_processes q = [] →
  let r := fifo_run (mc_ticks (k_machine k)) ops (m_messages q) in
  mq_run sc qa ops k = Ok (r.1, with_messages qa q r.2 k).
Proof.
  induction ops as [|o ops IH]; intros k q Hq Hw; cbn [mq_run fifo_run].
  { cbn. by rewrite with_messages_same. }
  rewrite (bind_run _ _ _ _ _ (mq_step_fifo sc qa o k q Hq Hw)).
  set (l1 := (fifo_step (mc_ticks (k_machine k)) o (m_messages q)).2).
  pose proof (IH (with_messages qa q l1 k) (set_messages l1 q) (with_messages_lookup _ _ _ _) Hw) as E.
  cbv zeta in E. rewrite (bind_run _ _ _ _ _ E). cbn [fst snd]. by rewrite with_messages_again.
Qed.

(** ** Shared memory *)

Lemma round_up_page_ok size :
  0 < size ≤ MAX_SHARED_MEMORY_SIZE → round_up_page size = (size + 4095) / 4096 * 4096.
Proof.
  unfold MAX_SHARED_MEMORY_SIZE. intros Hs. unfold round_up_page. rewrite (u64_small (size + 4095)) by lia.
  change (u64 (Z.lnot 4095)) with PAGE_MASK. apply land_page_mask. lia.
Qed.

(** The pages of a region of [size] bytes. *)
Definition shm_pages (size : Z) : nat := Z.to_nat ((size + 4095) / 4096).

Lemma shm_pages_bound size :
  0 < size ≤ MAX_SHARED_MEMORY_SIZE → 1 ≤ Z.of_nat (shm_pages size) ≤ 1024.
Proof.
  unfold MAX_SHARED_MEMORY_SIZE, shm_pages. intros Hs.
  assert (1 ≤ (size + 4095) / 4096 ≤ 1024); [|lia]. split.
  - apply Z.div_le_lower_bound; lia.
  - apply Z.lt_succ_r, Z.div_lt_upper_bound; lia.
Qed.

Lemma shm_base_ok id :
  0 < id < 2 ^ 31 → shm_base id = SHARED_MEMORY_BASE + (id - 1) * MAX_SHARED_MEMORY_SIZE.
Proof.
  unfold shm_base, SHARED_MEMORY_BASE, MAX_SHARED_MEMORY_SIZE. intros Hid.
  rewrite (u64_small ((id - 1) * _)), u64_small by lia. done.
Qed.

Lemma shm_run_ok id n : 0 < id < 2 ^ 31 → Z.of_nat n ≤ 1024 → run_ok (shm_base id) 0 n.
Proof.
  intros Hid Hn. unfold run_ok. rewrite shm_base_ok by done. unfold SHARED_MEMORY_BASE, MAX_SHARED_MEMORY_SIZE.
  repeat split; try lia. rewrite Z.add_mod by done.
  replace ((id - 1) * (4 * 1024 * 1024)) with ((id - 1) * 1024 * 4096) by lia. by rewrite Z.mod_mul.
Qed.

(** The IPC manager once the region is there. *)
Definition with_region (creator_ size : Z) (m : IPCManager) : IPCManager :=
  IPC (ipc_queues m) (ipc_new m) (m_message_queues m)
    (m_shared_memory_regions m ++
      [SHM (m_next_shared_memory_id m) creator_ (Z.of_nat (shm_pages size) * 4096)
         (shm_base (m_next_shared_memory_id m)) [creator_]])
    (m_next_queue_id m) (m_next_shared_memory_id m + 1).

Lemma mapped_releasable vm tab vm' tab' base i fs va j f :
  vmm_inv vm tab → mapped vm tab vm' tab' base i fs → no_huge vm tab va →
  fs !! j = Some f → va = page base (i + Z.of_nat j) →
  releasable vm' tab' va ∧ translate vm' tab' va = f ∧ f ≠ 0.
Proof.
  intros Hi M Hn Hj ->. pose proof (mp_translate _ _ _ _ _ _ _ M j f Hj) as E.
  pose proof (list_elem_of_lookup_2 _ _ _ Hj) as Hin. unfold releasable. rewrite E.
  split_and!; [by apply (mp_huge _ _ _ _ _ _ _ M)|intros q; by apply (mp_data _ _ _ _ _ _ _ M)|done|].
  destruct (mp_frame _ _ _ _ _ _ _ M f Hin) as (k & -> & Hk & _).
  pose proof (sh_start _ (wf_shape _ (vi_pmm _ _ Hi))). unfold frame_addr, PAGE_SIZE. lia.
Qed.

Lemma create_shared_memory_ok creator_ size k tab :
  let vm := mc_vmm (k_machine k) in
  let id := m_next_shared_memory_id (k_ipc k) in
  let n := shm_pages size in
  0 < size ≤ MAX_SHARED_MEMORY_SIZE → 0 < id < 2 ^ 31 - 1 → vmm_inv vm tab →
  4 * Z.of_nat n ≤ m_free_frames (v_pmm vm) →
  (∀ j, 0 ≤ j < Z.of_nat n → mappable vm tab (page (shm_base id) j)) →
  exists fs vm1 tab' vm2,
    create_shared_memory creator_ size k =
      Ok (id, with_ipc (with_region creator_ size) (with_machine (set_vmm vm2) k)) ∧
    length fs = n ∧ mapped vm tab vm1 tab' (shm_base id) 0 fs ∧ zeroed vm1 tab' vm2 (shm_base id) 0 n.
Proof.
  intros vm id n Hs Hid Hi Hf Hmap. pose proof (shm_pages_bound size Hs) as Hn. fold n in Hn.
  pose proof (shm_run_ok id n ltac:(lia) ltac:(lia)) as Hrun.
  destruct (map_loop_ok n 0 (shm_base id) true vm tab Hi Hrun) as (fs & vm1 & tab' & E1 & Hl & M);
    [lia|intros j Hj; apply Hmap; lia|].
  destruct (zero_loop_ok n 0 (shm_base id) vm1 tab') as (vm2 & E2 & Z); [apply M|done| |].
  { intros j Hj. destruct (lookup_lt_is_Some_2 fs (Z.to_nat j)) as [f Hfj]; [lia|].
    destruct (mapped_releasable _ _ _ _ _ _ _ (page (shm_base id) j) _ f Hi M (proj1 (Hmap j ltac:(lia))) Hfj)
      as (Hr & E & H0).
    - f_equal. lia.
    - by rewrite E. }
  exists fs, vm1, tab', vm2. split; [|done].
  unfold create_shared_memory. rewrite (proj2 (Z.eqb_neq size 0)), (proj2 (Z.ltb_ge _ _)) by lia. cbn [orb].
  rewrite bind_gets. fold id. rewrite (bind_run _ _ _ _ _ (inc_i32_run id k ltac:(lia))), bind_modify.
  assert (Er : round_up_page size = Z.of_nat n * 4096).
  { rewrite round_up_page_ok by done. unfold n, shm_pages. rewrite Z2Nat.id; [done|]. apply Z.div_pos; lia. }
  rewrite Er, Z.div_mul, Nat2Z.id by done.
  set (k1 := with_ipc (set_next_shm_id (id + 1)) k).
  rewrite (bind_run _ _ _ _ _ (on_vmm_run _ None vm1 k1 E1)).
  rewrite (bind_run _ _ _ _ _ (on_vmm_run _ tt vm2 (with_machine (set_vmm vm1) k1) E2)). st. done.
Qed.

(** Identifiers of regions are distinct and below the next one. *)
Record shm_wf (m : IPCManager) : Prop := {
  sm_next : 0 < m_next_shared_memory_id m;
  sm_ids r : r ∈ m_shared_memory_regions m → 0 < shm_id r < m_next_shared_memory_id m
}.

Lemma find_region_app l1 l2 i id :
  (∀ r, r ∈ l1 → shm_id r ≠ id) → find_region (l1 ++ l2) i id = find_region l2 (i + length l1) id.
Proof.
  revert i. induction l1 as [|r l1 IH]; intros i Hn; cbn [app find_region length].
  - by rewrite Nat.add_0_r.
  - rewrite (proj2 (Z.eqb_neq _ _)) by (apply Hn; by left).
    rewrite IH by (intros r' Hr; apply Hn; by right). f_equal. lia.
Qed.

(** The region found is at its position, and one with the same identifier put
    there is found in its place. *)
Lemma find_region_insert l : ∀ a id i r, find_region l a id = Some (i, r) →
  l !! (i - a)%nat = Some r ∧
  forall r', shm_id r' = shm_id r → find_region (<[(i - a)%nat := r']> l) a id = Some (i, r').
Proof.
  induction l as [|x l IH]; intros a id i r; cbn [find_region]; [done|].
  destruct (Z.eqb_spec (shm_id x) id) as [E|E].
  - intros [= <- <-]. rewrite Nat.sub_diag. split; [done|]. intros r' Hr. cbn.
    by rewrite Hr, (proj2 (Z.eqb_eq _ _)).
  - intros H. assert (Ha : (a < i)%nat).
    { clear IH E. revert a H. induction l as [|y l IH]; intros a; cbn [find_region]; [done|].
      destruct (_ =? _); [intros [= <- <-]; lia|]. intros H%IH. lia. }
    destruct (IH (S a) id i r H) as [Hi Hins]. replace (i - a)%nat with (S (i - S a)) by lia. split; [exact Hi|].
    intros r' Hr. cbn. rewrite (proj2 (Z.eqb_neq _ _)) by done. by apply Hins.
Qed.

Lemma destroy_shared_memory_ok k (i : nat) r id tab :
  find_region (m_shared_memory_regions (k_ipc k)) 0 id = Some (i, r) → shm_address r ≠ 0 →
  0 ≤ shm_size r < 2 ^ 63 → vmm_inv (mc_vmm (k_machine k)) tab →
  let pages := loop_pages (shm_pages (shm_size r)) 0 (shm_address r) in
  Forall (releasable (mc_vmm (k_machine k)) tab) pages →
  exists vm', destroy_shared_memory id k =
      Ok (true, with_ipc (set_shared (delete i (m_shared_memory_regions (k_ipc k)))) (with_machine (set_vmm vm') k)) ∧
    released (mc_vmm (k_machine k)) tab vm' pages.
Proof.
  intros Hf Ha Hs Hi pages Hrel. destruct (release_list_ok _ _ _ Hi Hrel) as (vm' & E & R). exists vm'.
  split; [|done]. unfold destroy_shared_memory, get_regions, put_regions. st.
  rewrite Hf, (proj2 (Z.eqb_neq _ _)), u64_small by (done || lia).
  fold (shm_pages (shm_size r)). unfold pages in E. rewrite <- release_loop_list in E.
  by rewrite (bind_run _ _ _ _ _ (on_vmm_run _ tt vm' k E)).
Qed.

(** ** Claims *)

(** A kernel whose only queue, at address 1, holds one message; its only
    process, at address 2, is the current one. *)
Definition one_message : IPCMessage := Msg 7 0 2 [1; 2].
Definition ipc_kernel (waiters : list Z) (s : ProcessState) : Kernel :=
  Kern (PM {[2 := set_waiting 1 (demo_proc 1 s 5)]} 3 [2] 2 2) (Sched [demo_rq 0 [2] 0] RoundRobin 0)
    (IPC {[1 := MQ 7 [0x71] [one_message] waiters]} 2 [0; 1] [] 3 1) demo_machine.

Lemma ipc_kernel_wf waiters s : ipc_wf (k_ipc (ipc_kernel waiters s)).
Proof.
  assert (Hq : ∀ qa q, ({[1 := MQ 7 [0x71] [one_message] waiters]} : gmap Z MessageQueue) !! qa = Some q →
    qa = 1 ∧ q = MQ 7 [0x71] [one_message] waiters).
  { intros qa q [<- <-]%lookup_singleton_Some. done. }
  assert (Ht : ∀ (i : nat) qa, [0; 1] !! i = Some qa → qa ≠ 0 → i = 1%nat).
  { intros [|[|i]] qa; cbn; [by intros [= <-]|done|done]. }
  constructor; cbn.
  - done.
  - lia.
  - done.
  - intros qa Hqa. apply lookup_singleton_ne. lia.
  - intros [|[|i]] qa; cbn; [by intros [= <-]; left| |done]. intros [= <-]. right. split; [done|].
    rewrite lookup_singleton_eq. by eexists.
  - intros i j qa Hi Hj H0. by rewrite (Ht i qa), (Ht j qa).
  - intros i j qa qb q r Hi Hj _ _ Ha Hb _. by rewrite (Ht i qa), (Ht j qb).
  - intros qa q [_ ->]%Hq. split; [cbn; unfold MAX_MESSAGES_PER_QUEUE; lia|]. repeat constructor; cbn; done.
Qed.

(** [C7] A message queue without waiting receivers is a bounded FIFO: any
    sequence of sends and non-waiting receives returns what the list of at most
    64 messages of at most 1024 bytes returns, and leaves exactly its messages
    in the queue and everything else as it was. *)
Theorem message_queue_refines_fifo sc qa ops k q :
  ipc_queues (k_ipc k) !! qa = Some q → m_waiting_processes q = [] →
  let r := fifo_run (mc_ticks (k_machine k)) ops (m_messages q) in
  mq_run sc qa ops k = Ok (r.1, with_messages qa q r.2 k).
Proof. apply mq_run_fifo. Qed.

Lemma message_queue_refines_fifo_witness :
  mq_run (λ _ _, mret tt) 1 [OpSend 8 [9]; OpReceive; OpReceive; OpReceive] (ipc_kernel [] Running) =
    Ok ([Sent true; Received (Some one_message); Received (Some (Msg 8 0 1 [9])); Received None],
        with_messages 1 (MQ 7 [0x71] [one_message] []) [] (ipc_kernel [] Running)).
Proof.
  exact (message_queue_refines_fifo (λ _ _, mret tt) 1 [OpSend 8 [9]; OpReceive; OpReceive; OpReceive]
    (ipc_kernel [] Running) (MQ 7 [0x71] [one_message] []) eq_refl eq_refl).
Defined.

(** The steps of the IPC manager's message queues; receiving may wait. *)
Inductive ipc_step (sc : Z → Z → K unit) : Kernel → Kernel → Prop :=
| step_create owner name r k k' : create_message_queue owner name k = Ok (r, k') → ipc_step sc k k'
| step_destroy id r k k' : destroy_message_queue id k = Ok (r, k') → ipc_step sc k k'
| step_open name r k k' : open_message_queue name k = Ok (r, k') → ipc_step sc k k'
| step_send id s data size r k k' :
    0 ≤ size → send_message id s data size k = Ok (r, k') → ipc_step sc k k'
| step_receive id wait r k k' : receive_message sc id wait k = Ok (r, k') → ipc_step sc k k'.

(** In every state reachable by the queue operations, blocking receives
    included, identifiers are table positions, names are distinct, every slot is
    free or holds a live queue of its own, and no queue exceeds 64 messages of
    1024 bytes; whatever runs during a blocking receive is assumed to keep this. *)
Theorem ipc_reachable_wf sc k k' :
  (∀ old new, preserves (on_ipc ipc_wf) (sc old new)) →
  rtc (ipc_step sc) k k' → ipc_wf (k_ipc k) → ipc_wf (k_ipc k').
Proof.
  intros Hsc Hr. induction Hr as [k|k k1 k2 Hstep _ IH]; [done|]. intros HI. apply IH.
  destruct Hstep as [owner name r k k' E|id r k k' E|name r k k' E|id s data size r k k' Hs E|id wait r k k' E].
  - by eapply create_message_queue_wf.
  - by eapply destroy_message_queue_wf.
  - by eapply open_message_queue_wf.
  - by eapply send_message_wf.
  - by eapply receive_message_wf.
Qed.

Lemma ipc_reachable_wf_witness :
  exists k', rtc (ipc_step (λ _ _, mret tt)) (ipc_kernel [] Running) k' ∧
    m_message_queues (k_ipc k') = [2; 0] ∧ ipc_wf (k_ipc k').
Proof.
  assert (Hr : exists k', rtc (ipc_step (λ _ _, mret tt)) (ipc_kernel [] Running) k' ∧
    m_message_queues (k_ipc k') = [2; 0]).
  { eexists. split; [|shelve].
    eapply rtc_l; [eapply (step_create _ 9 [0x72]); reflexivity|].
    eapply rtc_l; [eapply (step_receive _ 1 true); reflexivity|].
    eapply rtc_l; [eapply (step_destroy _ 2); reflexivity|]. apply rtc_refl.
    Unshelve. reflexivity. }
  destruct Hr as (k' & Hr & Ht). exists k'. split; [exact Hr|]. split; [exact Ht|].
  refine (ipc_reachable_wf (λ _ _, mret tt) _ k' _ Hr (ipc_kernel_wf [] Running)).
  intros _ _. apply preserves_ret.
Defined.

(** The life of a queue: creating under a fresh name returns a positive
    identifier under which the name then opens, every other name opens as
    before, creating the name again fails with -1; destroying the identifier
    succeeds, its waiting processes no longer wait on it, and the name does not
    open any more while the others still do. *)
Theorem queue_lifecycle owner name k :
  ipc_wf (k_ipc k) → (∀ i, ¬ name_at (k_ipc k) i name) → table_room (k_ipc k) →
  exists id k1 k2, 0 < id ∧
    create_message_queue owner name k = Ok (id, k1) ∧ ipc_wf (k_ipc k1) ∧
    open_message_queue name k1 = Ok (id, k1) ∧
    create_message_queue owner name k1 = Ok (-1, k1) ∧
    (∀ i n, n ≠ name → name_at (k_ipc k1) i n ↔ name_at (k_ipc k) i n) ∧
    destroy_message_queue id k1 = Ok (true, k2) ∧ ipc_wf (k_ipc k2) ∧
    open_message_queue name k2 = Ok (-1, k2) ∧
    (∀ i n, name_at (k_ipc k2) i n ↔ name_at (k_ipc k) i n).
Proof.
  intros Hwf Hname Hroom. set (m := k_ipc k) in *. set (i0 := new_slot m).
  pose proof (with_queue_wf owner name m Hwf Hname Hroom) as Hwf1.
  set (k1 := with_ipc (with_queue owner name) k).
  assert (Hat : name_at (k_ipc k1) i0 name) by (apply with_queue_name_at; [done|by left]).
  assert (Hslot : m_message_queues (k_ipc k1) !! i0 = Some (ipc_new m))
    by (cbn [k_ipc k1 with_ipc]; fold m; by rewrite with_queue_lookup, decide_True).
  assert (Hfree : ¬ ∃ n, name_at m i0 n).
  { intros (n & qa & q & Hi & H0 & _). unfold i0 in Hi. destruct (new_slot_cases m) as [[E _]|(_ & E & _)].
    - rewrite E, lookup_ge_None_2 in Hi by lia. done.
    - congruence. }
  pose proof (iw_new _ Hwf) as Hnew.
  destruct (destroy_message_queue_run k1 i0 (ipc_new m) (MQ owner name [] [])) as (k2 & E2 & Ei & _);
    [done|done|lia|apply lookup_insert_eq|by constructor|].
  assert (H1 : ∀ i n, n ≠ name → name_at (k_ipc k1) i n ↔ name_at m i n).
  { intros i n Hne. cbn [k1 with_ipc k_ipc]. fold m. rewrite with_queue_name_at by done. split; [naive_solver|].
    intros Hn. right. split; [|done]. intros ->. apply Hfree. by exists n. }
  assert (H2 : ∀ i n, name_at (k_ipc k2) i n ↔ name_at m i n).
  { intros i n. rewrite Ei, (without_queue_name_at _ i0 i) by (done || lia). cbn [k1 with_ipc k_ipc]. fold m.
    rewrite with_queue_name_at by done. fold i0. split; [naive_solver|]. intros Hn.
    assert (i ≠ i0) by (intros ->; apply Hfree; by exists n). split; [done|]. by right. }
  assert (Hwf2 : ipc_wf (k_ipc k2)) by (rewrite Ei; apply without_queue_wf; [done|done|lia]).
  exists (Z.of_nat i0 + 1), k1, k2. split_and!; [lia|by apply create_message_queue_run|done| | |done|done|done| |done].
  - by apply open_message_queue_found.
  - unfold create_message_queue, get_table. st.
    destruct (find_name_table k1 name Hwf1) as [[_ H]|(j & E & _)]; [by destruct (H i0)|].
    by rewrite (bind_run _ _ _ _ _ E).
  - apply open_message_queue_none; [done|]. intros i Hi. apply (Hname i). by apply H2.
Qed.

Lemma queue_lifecycle_witness :
  exists id k1 k2, 0 < id ∧
    create_message_queue 9 [0x72] (ipc_kernel [] Running) = Ok (id, k1) ∧ ipc_wf (k_ipc k1) ∧
    open_message_queue [0x72] k1 = Ok (id, k1) ∧
    create_message_queue 9 [0x72] k1 = Ok (-1, k1) ∧
    (∀ i n, n ≠ [0x72] → name_at (k_ipc k1) i n ↔ name_at (k_ipc (ipc_kernel [] Running)) i n) ∧
    destroy_message_queue id k1 = Ok (true, k2) ∧ ipc_wf (k_ipc k2) ∧
    open_message_queue [0x72] k2 = Ok (-1, k2) ∧
    (∀ i n, name_at (k_ipc k2) i n ↔ name_at (k_ipc (ipc_kernel [] Running)) i n).
Proof.
  apply (queue_lifecycle 9 [0x72] (ipc_kernel [] Running)).
  - apply ipc_kernel_wf.
  - intros i (qa & q & _ & _ & Hq & En). cbn in Hq. apply lookup_singleton_Some in Hq as [_ <-]. done.
  - intros H. vm_compute in H. done.
Defined.

(** Sending to a queue on which a process blocks: the message is stored and
    the longest-waiting process becomes Ready, waits on nothing and leaves the
    list of waiters.  (One processor; the process is still on its run queue,
    where a blocking receive leaves it.) *)
Theorem send_wakes_receiver qa sender_ data k q w rest x rq :
  sched_wf k → m_runqueues (k_sched k) = [rq] → w ∈ process_queue rq →
  ipc_queues (k_ipc k) !! qa = Some q → m_waiting_processes q = w :: rest →
  pm_procs (k_pm k) !! w = Some x → state x = Waiting → waiting_on x = qa →
  Z.of_nat (length (m_messages q)) < 64 → Z.of_nat (length data) ≤ 1024 →
  exists k', mq_send_message qa sender_ data (Z.of_nat (length data)) k = Ok (true, k') ∧
    pm_procs (k_pm k') !! w = Some (set_waiting 0 (set_state Ready x)) ∧
    ipc_queues (k_ipc k') !! qa =
      Some (MQ (m_owner q) (m_name q)
              (m_messages q ++ [Msg sender_ (mc_ticks (k_machine k)) (Z.of_nat (length data)) data]) rest) ∧
    k_sched k' = k_sched k.
Proof.
  intros Hs Erq Hw Hq Ew Hx Est Ewt Hlen Hd. unfold mq_send_message.
  rewrite (bind_run _ _ _ _ _ (deref_mq_run _ _ _ Hq)). unfold is_full, MAX_MESSAGES_PER_QUEUE, MAX_MESSAGE_SIZE.
  rewrite (proj2 (Z.leb_gt _ _)), (proj2 (Z.ltb_ge _ _)) by lia. cbn [orb]. st.
  rewrite Z.ltb_irrefl, Nat2Z.id, firstn_all.
  set (msg := Msg sender_ _ _ data). set (q1 := set_messages (m_messages q ++ [msg]) q).
  rewrite (bind_run _ _ _ _ _ (assign_mq_run _ _ q1 _ Hq)). set (k1 := with_ipc _ k).
  assert (Hq1 : ipc_queues (k_ipc k1) !! qa = Some q1) by apply lookup_insert_eq.
  rewrite (bind_run _ _ _ _ _ (deref_mq_run _ _ _ Hq1)). unfold q1 at 1. cbn [m_waiting_processes set_messages].
  rewrite Ew. assert (Hw0 : w ≠ 0).
  { pose proof (sw_live _ Hs) as Hl. unfold all_live, all_queued, queues_of in Hl. rewrite Erq, Forall_forall in Hl.
    destruct (Hl w); [|done]. apply list_elem_of_bind. exists rq. split; [done|by left]. }
  rewrite (proj2 (Z.eqb_neq w 0)) by done.
  assert (Hx1 : pm_procs (k_pm k1) !! w = Some x) by done.
  rewrite (bind_run _ _ _ _ _ (deref_run _ _ _ Hx1)), bool_decide_eq_true_2, (proj2 (Z.eqb_eq _ _)) by done.
  cbn [andb]. rewrite (bind_run _ _ _ _ _ (assign_mq_run _ _ (set_waiters rest q1) _ Hq1)). set (k2 := with_ipc _ k1).
  assert (Hx2 : pm_procs (k_pm k2) !! w = Some x) by done.
  rewrite (bind_run _ _ _ _ _ (assign_run _ _ _ _ Hx2)). set (k3 := with_pm _ k2).
  assert (Hs3 : sched_wf k3).
  { apply (sched_wf_procs k); [done| |done]. intros p Hp. cbn. apply lookup_insert_is_Some'. by right. }
  assert (Ea : add_process w k3 = Ok (tt, k3)).
  { unfold add_process. rewrite (proj2 (Z.eqb_neq w 0)), bind_get_runqueues by done.
    assert (Hrq : m_runqueues (k_sched k3) !! 0%nat = Some rq) by (cbn; by rewrite Erq).
    destruct (shortest_wf k3 Hs3) as (i & q' & Hq' & E & _); [cbn; by rewrite Erq|].
    assert (i = 0%nat) as -> by (cbn in Hq'; rewrite Erq in Hq'; by destruct i).
    rewrite E. change (Z.of_nat 0) with 0 at 1.
    rewrite (bind_run _ _ _ _ _ (get_runqueue_run k3 0 rq Hs3 Hrq)), (bind_run _ _ _ _ _ (get_rq_run _ _ _ Hrq)).
    by rewrite decide_True. }
  rewrite (bind_run _ _ _ _ _ Ea). eexists. split; [reflexivity|]. split; [apply lookup_insert_eq|].
  split; [|done]. cbn. rewrite lookup_insert_eq. done.
Qed.

Lemma ipc_kernel_sched waiters s : sched_wf (ipc_kernel waiters s).
Proof.
  constructor.
  - intros [|i] q Hq; [injection Hq as <-|done]. split; [done|by left].
  - unfold all_live, all_queued, queues_of. cbn. repeat constructor; try done; by eexists.
  - unfold all_queued. cbn. apply (bool_decide_unpack _). by vm_compute.
  - by vm_compute.
Qed.

Lemma send_wakes_receiver_witness :
  exists k', mq_send_message 1 8 [9] 1 (ipc_kernel [2] Waiting) = Ok (true, k') ∧
    pm_procs (k_pm k') !! 2 = Some (set_waiting 0 (set_state Ready (set_waiting 1 (demo_proc 1 Waiting 5)))) ∧
    ipc_queues (k_ipc k') !! 1 = Some (MQ 7 [0x71] [one_message; Msg 8 0 1 [9]] []) ∧
    k_sched k' = k_sched (ipc_kernel [2] Waiting).
Proof.
  apply (send_wakes_receiver 1 8 [9] (ipc_kernel [2] Waiting) (MQ 7 [0x71] [one_message] [2]) 2 []
    (set_waiting 1 (demo_proc 1 Waiting 5)) (demo_rq 0 [2] 0)).
  - apply ipc_kernel_sched.
  - reflexivity.
  - by left.
  - reflexivity.
  - reflexivity.
  - reflexivity.
  - reflexivity.
  - reflexivity.
  - cbn. lia.
  - cbn. lia.
Defined.

(** The life of a shared-memory region: creating it maps its pages to
    fresh, distinct frames that hold no page table and zeroes them; destroying
    it succeeds, leaves no page of it mapped and every one of those frames free,
    and gives the list of regions and every other page's translation back as
    they were before the creation. *)
Theorem shared_memory_lifecycle creator_ size k tab :
  let vm := mc_vmm (k_machine k) in
  let id := m_next_shared_memory_id (k_ipc k) in
  let n := shm_pages size in
  0 < size ≤ MAX_SHARED_MEMORY_SIZE → shm_wf (k_ipc k) → id < 2 ^ 31 - 1 → vmm_inv vm tab →
  4 * Z.of_nat n ≤ m_free_frames (v_pmm vm) →
  (∀ j, 0 ≤ j < Z.of_nat n → mappable vm tab (page (shm_base id) j)) →
  exists fs vm1 tab' k1 k2,
    create_shared_memory creator_ size k = Ok (id, k1) ∧ length fs = n ∧
    mapped vm tab vm1 tab' (shm_base id) 0 fs ∧
    zeroed vm1 tab' (mc_vmm (k_machine k1)) (shm_base id) 0 n ∧ shm_wf (k_ipc k1) ∧
    destroy_shared_memory id k1 = Ok (true, k2) ∧
    m_shared_memory_regions (k_ipc k2) = m_shared_memory_regions (k_ipc k) ∧
    vmm_inv (mc_vmm (k_machine k2)) tab' ∧
    (∀ j, 0 ≤ j < Z.of_nat n → translate (mc_vmm (k_machine k2)) tab' (page (shm_base id) j) = 0) ∧
    (∀ f, f ∈ fs → exists a, f = frame_addr (v_pmm vm) a ∧ used (v_pmm (mc_vmm (k_machine k2))) a = false) ∧
    (∀ va, (∀ j, 0 ≤ j < Z.of_nat n → ¬ same_page (page (shm_base id) j) va) →
       translate (mc_vmm (k_machine k2)) tab' va = translate vm tab va).
Proof.
  intros vm id n Hs Hshm Hid Hi Hf Hmap. pose proof (sm_next _ Hshm) as Hid0. fold id in Hid0.
  pose proof (shm_pages_bound size Hs) as Hn. fold n in Hn.
  destruct (create_shared_memory_ok creator_ size k tab Hs) as (fs & vm1 & tab' & vm2 & Ec & Hl & M & Z);
    [done|done|done|done|]. fold vm id n in Ec, Hl, M, Z.
  pose proof (shm_run_ok id n ltac:(lia) ltac:(lia)) as Hrun.
  set (k1 := with_ipc (with_region creator_ size) (with_machine (set_vmm vm2) k)) in *.
  set (r := SHM id creator_ (Z.of_nat n * 4096) (shm_base id) [creator_]).
  assert (Hpg : shm_pages (Z.of_nat n * 4096) = n).
  { unfold shm_pages. rewrite Z.div_add_l by done. change (4095 / 4096) with 0. lia. }
  assert (Hfind : find_region (m_shared_memory_regions (k_ipc k1)) 0 id =
    Some (length (m_shared_memory_regions (k_ipc k)), r)).
  { cbn [k1 with_ipc k_ipc with_region m_shared_memory_regions]. rewrite find_region_app.
    - cbn. fold id n r. by rewrite Z.eqb_refl.
    - intros r' Hr. pose proof (sm_ids _ Hshm r' Hr). fold id in H. lia. }
  assert (Hpage : ∀ j, 0 ≤ j < Z.of_nat n → exists f, fs !! Z.to_nat j = Some f ∧
    releasable vm2 tab' (page (shm_base id) j) ∧ translate vm2 tab' (page (shm_base id) j) = f).
  { intros j Hj. destruct (lookup_lt_is_Some_2 fs (Z.to_nat j)) as [f Hfj]; [lia|]. exists f. split; [done|].
    destruct (mapped_releasable _ _ _ _ _ _ _ (page (shm_base id) j) _ f Hi M (proj1 (Hmap j Hj)) Hfj)
      as ([Hnh Hd] & E & _); [f_equal; lia|].
    unfold releasable. rewrite (zeroed_translate _ _ _ _ _ _ _ Z). split; [split; [by apply (zr_huge _ _ _ _ _ _ Z)|done]|done]. }
  destruct (destroy_shared_memory_ok k1 _ r id tab' Hfind) as (vm3 & Ed & R).
  - cbn. rewrite shm_base_ok by lia. unfold SHARED_MEMORY_BASE, MAX_SHARED_MEMORY_SIZE. lia.
  - cbn. lia.
  - apply Z.
  - cbn [shm_size shm_address r]. rewrite Hpg. apply Forall_forall. intros a Ha.
    apply (loop_pages_elem _ _ _ _ Hrun) in Ha as (j & Hj & ->).
    destruct (Hpage j ltac:(lia)) as (f & _ & Hr & _). exact Hr.
  - cbn [shm_size shm_address r] in R. rewrite Hpg in R. change (mc_vmm (k_machine k1)) with vm2 in R.
    eexists fs, vm1, tab', k1, _. split; [done|]. split; [done|]. split; [done|]. split; [done|]. split.
    { constructor; cbn; [fold id; lia|]. intros r' [Hr|Hr]%elem_of_app.
      - pose proof (sm_ids _ Hshm r' Hr). lia.
      - apply list_elem_of_singleton in Hr as ->. cbn. fold id. lia. }
    split; [exact Ed|]. split_and!.
    + cbn. rewrite delete_middle, app_nil_r. done.
    + apply R.
    + intros j Hj. apply (rs_unmapped _ _ _ _ R (page (shm_base id) j)); [|done].
      apply (loop_pages_elem _ _ _ _ Hrun). exists j. split; [lia|done].
    + intros f Hfin. destruct (mp_frame _ _ _ _ _ _ _ M f Hfin) as (a & Ef & Ha & _). exists a. split; [done|].
      destruct (gr_layout _ _ _ _ (mp_grown _ _ _ _ _ _ _ M)) as [Htot Hst].
      destruct (used (v_pmm vm3) a) eqn:Eu; [|done]. exfalso.
      apply (rs_used _ _ _ _ R) in Eu as [_ Hno]; [|rewrite (zr_pmm _ _ _ _ _ _ Z); lia].
      apply list_elem_of_lookup in Hfin as [j Hj]. pose proof (lookup_lt_Some _ _ _ Hj).
      destruct (Hpage (Z.of_nat j)) as (f' & Hf' & _ & E); [lia|]. rewrite Nat2Z.id, Hj in Hf'. injection Hf' as <-.
      apply (Hno (page (shm_base id) (Z.of_nat j))).
      * apply (loop_pages_elem _ _ _ _ Hrun). exists (Z.of_nat j). split; [lia|done].
      * rewrite E, Ef. unfold frame_addr. by rewrite (zr_pmm _ _ _ _ _ _ Z), Hst.
    + intros va Hva. cbn. rewrite (rs_other _ _ _ _ R).
      * rewrite (zeroed_translate _ _ _ _ _ _ _ Z). apply (mp_other _ _ _ _ _ _ _ _ M). intros j Hj. apply Hva. lia.
      * intros a Ha. apply (loop_pages_elem _ _ _ _ Hrun) in Ha as (j & Hj & ->). apply Hva. lia.
Qed.

Definition shm_kernel : Kernel := with_machine (set_vmm vmm_boot) (ipc_kernel [] Running).

Lemma shared_memory_lifecycle_witness :
  exists tab fs vm1 tab' k1 k2,
    create_shared_memory 1 5000 shm_kernel = Ok (1, k1) ∧ length fs = 2%nat ∧
    mapped vmm_boot tab vm1 tab' (shm_base 1) 0 fs ∧
    zeroed vm1 tab' (mc_vmm (k_machine k1)) (shm_base 1) 0 2 ∧ shm_wf (k_ipc k1) ∧
    destroy_shared_memory 1 k1 = Ok (true, k2) ∧
    m_shared_memory_regions (k_ipc k2) = [] ∧
    vmm_inv (mc_vmm (k_machine k2)) tab' ∧
    (∀ j, 0 ≤ j < 2 → translate (mc_vmm (k_machine k2)) tab' (page (shm_base 1) j) = 0) ∧
    (∀ f, f ∈ fs → exists a, f = frame_addr (v_pmm vmm_boot) a ∧ used (v_pmm (mc_vmm (k_machine k2))) a = false) ∧
    (∀ va, (∀ j, 0 ≤ j < 2 → ¬ same_page (page (shm_base 1) j) va) →
       translate (mc_vmm (k_machine k2)) tab' va = translate vmm_boot tab va).
Proof.
  destruct vmm_boot_tables as (tab & B & F). exists tab.
  apply (shared_memory_lifecycle 1 5000 shm_kernel tab).
  - by vm_compute.
  - constructor; cbn; [done|]. intros r Hr. by apply elem_of_nil in Hr.
  - done.
  - apply B.
  - change (shm_pages 5000) with 2%nat. cbn [shm_kernel with_machine k_machine set_vmm mc_vmm]. lia.
  - intros j Hj. apply (boot_mappable _ _ _ B). change (Z.of_nat (shm_pages 5000)) with 2 in Hj.
    assert (Hc : j = 0 ∨ j = 1) by lia. destruct_or! Hc; subst j; vm_compute; by intros [? _].
Defined.

(** Attaching a process to a region returns the region's address, adds the
    process once however often it attaches, and detaching it afterwards
    succeeds and restores the attachments; an unknown region attaches at the
    null address and does not detach. *)
Theorem attach_detach_shared_memory k id pid_ :
  0 < id →
  match find_region (m_shared_memory_regions (k_ipc k)) 0 id with
  | None => attach_shared_memory id pid_ k = Ok (0, k) ∧ detach_shared_memory id pid_ k = Ok (false, k)
  | Some (i, r) => pid_ ∉ attached_processes r →
      exists k1, attach_shared_memory id pid_ k = Ok (shm_address r, k1) ∧
        attach_shared_memory id pid_ k1 = Ok (shm_address r, k1) ∧
        find_region (m_shared_memory_regions (k_ipc k1)) 0 id =
          Some (i, set_attached (attached_processes r ++ [pid_]) r) ∧
        detach_shared_memory id pid_ k1 = Ok (true, k)
  end.
Proof.
  intros Hid. unfold attach_shared_memory, detach_shared_memory, get_regions, put_regions.
  rewrite (proj2 (Z.leb_gt id 0)) by done.
  destruct (find_region (m_shared_memory_regions (k_ipc k)) 0 id) as [[i r]|] eqn:Ef.
  2:{ st. by rewrite Ef. }
  intros Hn. set (l := m_shared_memory_regions (k_ipc k)) in *.
  set (r' := set_attached (attached_processes r ++ [pid_]) r).
  destruct (find_region_insert l 0 id i r Ef) as (Hi & Hins). rewrite Nat.sub_0_r in Hi, Hins.
  assert (Ef' : find_region (<[i := r']> l) 0 id = Some (i, r')) by (by apply Hins).
  exists (with_ipc (set_shared (<[i := r']> l)) k). split_and!.
  - st. fold l. rewrite Ef, decide_False by done. by st.
  - st. cbn [k_ipc with_ipc m_shared_memory_regions set_shared]. rewrite Ef', decide_True by (cbn; set_solver).
    by st.
  - exact Ef'.
  - st. cbn [k_ipc with_ipc m_shared_memory_regions set_shared]. rewrite Ef'. cbn [attached_processes r' set_attached].
    destruct (position_from 0 (attached_processes r ++ [pid_]) pid_) as [j|] eqn:Ej.
    2:{ apply position_from_None in Ej. set_solver. }
    apply (position_from_Some _ _ 0) in Ej as (b & -> & Hb).
    assert (b = length (attached_processes r)) as ->.
    { destruct (decide (b < length (attached_processes r))%nat) as [Hlt|Hge].
      - rewrite lookup_app_l in Hb by done. exfalso. by apply Hn, list_elem_of_lookup_2 with b.
      - apply lookup_lt_Some in Hb. rewrite length_app in Hb. cbn in Hb. lia. }
    st. rewrite Nat.add_0_l, Nat2Z.id, delete_middle, app_nil_r. cbn [set_attached shm_id creator shm_size shm_address].
    rewrite list_insert_insert_eq. unfold modify, mret, st_ret, mbind, st_bind.
    rewrite list_insert_id by (by destruct r). unfold with_ipc, set_shared. cbn. by destruct k as [? ? [] ?].
Qed.

Definition attach_kernel : Kernel :=
  with_ipc (set_shared [SHM 1 1 4096 (shm_base 1) [1]]) (ipc_kernel [] Running).

Lemma attach_detach_shared_memory_witness :
  exists k1, attach_shared_memory 1 2 attach_kernel = Ok (shm_base 1, k1) ∧
    attach_shared_memory 1 2 k1 = Ok (shm_base 1, k1) ∧
    find_region (m_shared_memory_regions (k_ipc k1)) 0 1 = Some (0%nat, SHM 1 1 4096 (shm_base 1) [1; 2]) ∧
    detach_shared_memory 1 2 k1 = Ok (true, attach_kernel).
Proof.
  apply (attach_detach_shared_memory attach_kernel 1 2 ltac:(done)).
  cbn. intros H. apply list_elem_of_singleton in H. done.
Defined.

(** ** Divergences *)

(** A receiver that blocks while another process is ready is put back to Ready
    by [schedule_on_cpu] before the switch: it is scheduled again without a
    message, and [receive_message] then returns false although it was told to
    wait. *)
Definition blocking_kernel : Kernel :=
  Kern (PM {[2 := demo_proc 1 Running 5; 3 := demo_proc 2 Ready 5]} 4 [3; 2] 2 3)
    (Sched [RunQueue [2; 3] 0 5 2 0 false] RoundRobin 0)
    (IPC {[1 := MQ 7 [0x71] [] []]} 2 [1] [] 2 1) demo_machine.

Lemma blocked_receiver_is_ready :
  exists k1, (∀ sc, mq_receive_message sc 1 true blocking_kernel = (sc 2 3;; take_message 1) k1) ∧
    state <$> pm_procs (k_pm k1) !! 2 = Some Ready ∧
    m_waiting_processes <$> ipc_queues (k_ipc k1) !! 1 = Some [2].
Proof. eexists. split; [intros sc; vm_compute; reflexivity|]. by split. Qed.

(** Such a process stays in the list of waiters, and as long as it is the first
    there no send wakes the ones behind it. *)
Lemma stale_waiter_blocks qa sender_ data k q w rest x :
  ipc_queues (k_ipc k) !! qa = Some q → m_waiting_processes q = w :: rest → w ≠ 0 →
  pm_procs (k_pm k) !! w = Some x → state x ≠ Waiting →
  Z.of_nat (length (m_messages q)) < 64 → Z.of_nat (length data) ≤ 1024 →
  exists msg, mq_send_message qa sender_ data (Z.of_nat (length data)) k =
    Ok (true, with_messages qa q (m_messages q ++ [msg]) k).
Proof.
  intros Hq Ew Hw0 Hx Est Hlen Hd. unfold mq_send_message.
  rewrite (bind_run _ _ _ _ _ (deref_mq_run _ _ _ Hq)). unfold is_full, MAX_MESSAGES_PER_QUEUE, MAX_MESSAGE_SIZE.
  rewrite (proj2 (Z.leb_gt _ _)), (proj2 (Z.ltb_ge _ _)) by lia. cbn [orb]. st. rewrite Z.ltb_irrefl.
  eexists. rewrite (bind_run _ _ _ _ _ (assign_messages_run _ _ _ _ Hq)).
  rewrite (bind_run _ _ _ _ _ (deref_mq_run _ _ _ (with_messages_lookup _ _ _ _))).
  cbn [m_waiting_processes set_messages]. rewrite Ew, (proj2 (Z.eqb_neq w 0)) by done.
  assert (Hx' : ∀ l, pm_procs (k_pm (with_messages qa q l k)) !! w = Some x) by done.
  rewrite (bind_run _ _ _ _ _ (deref_run _ x _ (Hx' _))), bool_decide_eq_false_2 by done. reflexivity.
Qed.

(** A waiter that has been terminated is a dangling pointer: the send follows it. *)
Lemma dangling_waiter_undefined qa sender_ data k q w rest :
  ipc_queues (k_ipc k) !! qa = Some q → m_waiting_processes q = w :: rest → w ≠ 0 →
  pm_procs (k_pm k) !! w = None →
  Z.of_nat (length (m_messages q)) < 64 → Z.of_nat (length data) ≤ 1024 →
  mq_send_message qa sender_ data (Z.of_nat (length data)) k = UB.
Proof.
  intros Hq Ew Hw0 Hx Hlen Hd. unfold mq_send_message.
  rewrite (bind_run _ _ _ _ _ (deref_mq_run _ _ _ Hq)). unfold is_full, MAX_MESSAGES_PER_QUEUE, MAX_MESSAGE_SIZE.
  rewrite (proj2 (Z.leb_gt _ _)), (proj2 (Z.ltb_ge _ _)) by lia. cbn [orb]. st. rewrite Z.ltb_irrefl.
  rewrite (bind_run _ _ _ _ _ (assign_messages_run _ _ _ _ Hq)).
  rewrite (bind_run _ _ _ _ _ (deref_mq_run _ _ _ (with_messages_lookup _ _ _ _))).
  cbn [m_waiting_processes set_messages]. rewrite Ew, (proj2 (Z.eqb_neq w 0)) by done.
  apply bind_UB. unfold deref. cbn. by rewrite Hx.
Qed.

(** Region number 2^22 + 1 starts at an address that is not canonical. *)
Example shm_base_noncanonical : shm_base (2 ^ 22 + 1) = 2 ^ 47.
Proof. reflexivity. Qed.
