(* ===== verification/IpcExit.v ===== *)
(** * The end of the message and shared-memory manager (IPCManager::~IPCManager of
      src/kernel/src/core/ipc.cpp)

    The destructor deletes every queue, which wakes its waiting processes, and gives
    back the pages of every region.  The runtime registers it with the static object;
    the kernel never comes to an exit that would call it. *)

From S2P Require Import Prelude Pmm Vmm Pages Kernel Sched Proc Ipc.

#[local] Abbreviation K := (ST Kernel).

(** ** Definitions *)

(** [delete m_message_queues[i]], of a null pointer too. *)
Definition delete_queue (qa : Z) : K unit :=
  if qa =? 0 then mret tt else
  q ← deref_mq qa;
  wake_waiters qa (m_waiting_processes q);;
  delete_mq qa.

Fixpoint delete_queues (l : list Z) : K unit :=
  match l with [] => mret tt | qa :: l => delete_queue qa;; delete_queues l end.

Definition delete_region (r : SharedMemoryRegion) : K unit :=
  if shm_address r =? 0 then mret tt
  else on_vmm (release_loop (Z.to_nat (u64 (shm_size r + 4095) / 4096)) 0 (shm_address r)).

Fixpoint delete_regions (l : list SharedMemoryRegion) : K unit :=
  match l with [] => mret tt | r :: l => delete_region r;; delete_regions l end.

Definition delete_manager : K unit :=
  l ← get_table;
  delete_queues l;;
  put_table [];;
  l ← get_regions;
  delete_regions l;;
  put_regions [].

(** ** The queues *)

(** The processes that are there stay, and none begins to wait. *)
Definition fewer_waits (k k' : Kernel) : Prop :=
  (∀ w, is_Some (pm_procs (k_pm k) !! w) → is_Some (pm_procs (k_pm k') !! w)) ∧ (∀ qa w, waits_on k' qa w → waits_on k qa w).

#[local] Instance fewer_waits_preorder : PreOrder fewer_waits.
Proof. split; [by intros k; split|]. intros k1 k2 k3 [A1 B1] [A2 B2]. split; auto. Qed.

Lemma fewer_waits_assign k w x : pm_procs (k_pm k) !! w = Some x →
  fewer_waits k (with_pm (set_procs (<[w := (set_waiting 0 ∘ set_state Ready) x]> (pm_procs (k_pm k)))) k).
Proof.
  intros Hx. split.
  - intros a Ha. apply lookup_insert_is_Some'. by right.
  - intros qa a (y & Hy & Hs & Hw). cbn in Hy. apply lookup_insert_Some in Hy as [[-> <-]|[_ Hy]]; [done|]. by exists y.
Qed.

Lemma wake_waiters_fewer qa l : ∀ k k', wake_waiters qa l k = Ok (tt, k') → fewer_waits k k' ∧ k_machine k' = k_machine k.
Proof.
  induction l as [|w l IH]; intros k k'; cbn [wake_waiters]; [by intros [= <-]|].
  intros (x & k1 & E1 & E2)%bind_run_inv. assert (k1 = k ∧ pm_procs (k_pm k) !! w = Some x) as [-> Hx] by (unfold deref in E1; destruct (_ !! w); naive_solver).
  apply bind_run_inv in E2 as (u & k2 & E2 & E3). destruct u. destruct (IH _ _ E3) as [Hf Hm].
  destruct (_ && _); [|injection E2 as <-; by split].
  rewrite (assign_run _ _ _ _ Hx) in E2. injection E2 as <-. split; [|exact Hm].
  etrans; [by apply fewer_waits_assign|exact Hf].
Qed.

(** A queue's waiting processes are there. *)
Definition waiters_live (k : Kernel) (qa : Z) : Prop :=
  ∀ q, ipc_queues (k_ipc k) !! qa = Some q → Forall (λ w, is_Some (pm_procs (k_pm k) !! w)) (m_waiting_processes q).

Lemma delete_queue_ok k qa q : qa ≠ 0 → ipc_queues (k_ipc k) !! qa = Some q → waiters_live k qa → exists k',
  delete_queue qa k = Ok (tt, k') ∧ k_ipc k' = set_ipc_queues (delete qa (ipc_queues (k_ipc k))) (k_ipc k) ∧ k_sched k' = k_sched k ∧
  k_machine k' = k_machine k ∧ fewer_waits k k' ∧ Forall (λ w, ¬ waits_on k' qa w) (m_waiting_processes q).
Proof.
  intros H0 Hq Hl. unfold delete_queue. rewrite (proj2 (Z.eqb_neq qa 0)) by done. rewrite (bind_run _ _ _ _ _ (deref_mq_run _ _ _ Hq)).
  destruct (wake_waiters_ok qa _ H0 k (Hl q Hq)) as (k1 & E & Ei & Es & Hw). rewrite (bind_run _ _ _ _ _ E).
  destruct (wake_waiters_fewer qa _ _ _ E) as [Hf Hm]. assert (Hq1 : ipc_queues (k_ipc k1) !! qa = Some q) by (by rewrite Ei).
  unfold delete_mq. rewrite (bind_run _ _ _ _ _ (deref_mq_run _ _ _ Hq1)). eexists. split; [reflexivity|].
  split; [cbn; by rewrite Ei|]. split; [exact Es|]. split; [exact Hm|]. split; [exact Hf|].
  apply Forall_forall. intros w Hin Hwait. by destruct (Hw w Hwait).
Qed.

(** The slots of a table: null, or distinct queues that are there. *)
Definition slots_ok (k : Kernel) (l : list Z) : Prop :=
  (∀ (i j : nat) qa, l !! i = Some qa → l !! j = Some qa → qa ≠ 0 → i = j) ∧ ∀ qa, qa ∈ l → qa ≠ 0 → is_Some (ipc_queues (k_ipc k) !! qa) ∧ waiters_live k qa.

Lemma slots_ok_next k k' qa l : slots_ok k (qa :: l) → (qa ≠ 0 → k_ipc k' = set_ipc_queues (delete qa (ipc_queues (k_ipc k))) (k_ipc k)) →
  (qa = 0 → k' = k) → fewer_waits k k' → slots_ok k' l.
Proof.
  intros [Hnd Hl] Hi H0 [Hf _]. split; [intros i j a E1 E2 Ha; injection (Hnd (S i) (S j) a E1 E2 Ha); done|].
  destruct (decide (qa = 0)) as [->|Hne]; [rewrite (H0 eq_refl); intros a Ha; apply Hl; by right|]. intros a Ha Hane.
  assert (Haq : a ≠ qa) by (intros ->; apply list_elem_of_lookup in Ha as [j Ej]; discriminate (Hnd 0%nat (S j) qa eq_refl Ej Hne)).
  destruct (Hl a ltac:(by right) Hane) as [Hs Hw]. unfold waiters_live. rewrite (Hi Hne). cbn. rewrite lookup_delete_ne by done. split; [done|].
  intros q Hq. eapply Forall_impl; [by apply Hw|]. exact Hf.
Qed.

Lemma delete_queues_ok l : ∀ k, slots_ok k l → exists k',
  delete_queues l k = Ok (tt, k') ∧ k_sched k' = k_sched k ∧ k_machine k' = k_machine k ∧ fewer_waits k k' ∧
  m_shared_memory_regions (k_ipc k') = m_shared_memory_regions (k_ipc k) ∧
  ∀ qa, ipc_queues (k_ipc k') !! qa = if decide (qa ∈ l ∧ qa ≠ 0) then None else ipc_queues (k_ipc k) !! qa.
Proof.
  induction l as [|qa l IH]; intros k Hs; cbn [delete_queues].
  { exists k. by split_and!. }
  assert (H1 : exists k1, delete_queue qa k = Ok (tt, k1) ∧ k_sched k1 = k_sched k ∧ k_machine k1 = k_machine k ∧ fewer_waits k k1 ∧
    m_shared_memory_regions (k_ipc k1) = m_shared_memory_regions (k_ipc k) ∧ slots_ok k1 l ∧
    ∀ a, ipc_queues (k_ipc k1) !! a = if decide (a = qa ∧ qa ≠ 0) then None else ipc_queues (k_ipc k) !! a).
  { destruct (decide (qa = 0)) as [->|Hne].
    - exists k. split_and!; try done; [by apply (slots_ok_next k k 0)|]. intros a. by rewrite decide_False by tauto.
    - destruct (proj2 Hs qa ltac:(by left) Hne) as [[q Hq] Hw]. destruct (delete_queue_ok k qa q Hne Hq Hw) as (k1 & E & Ei & Esc & Em & Hf & _).
      exists k1. split_and!; [done..|by rewrite Ei|by apply (slots_ok_next k k1 qa)|]. intros a. rewrite Ei. cbn. case_decide as Hd.
      + destruct Hd as [-> _]. apply lookup_delete_eq.
      + apply lookup_delete_ne. intros ->. by apply Hd. }
  destruct H1 as (k1 & E & Esc & Em & Hf & Er & Hs1 & Hq1). rewrite (bind_run _ _ _ _ _ E).
  destruct (IH k1 Hs1) as (k' & E' & Esc' & Em' & Hf' & Er' & Hq'). exists k'.
  split; [done|]. split; [congruence|]. split; [congruence|]. split; [by etrans|]. split; [congruence|].
  intros a. rewrite Hq', Hq1, (decide_ext (a ∈ qa :: l ∧ a ≠ 0) ((a ∈ l ∧ a ≠ 0) ∨ (a = qa ∧ qa ≠ 0))) by set_solver.
  by destruct (decide (a ∈ l ∧ a ≠ 0)), (decide (a = qa ∧ qa ≠ 0)), (decide _); try tauto.
Qed.

(** ** The regions *)

Definition region_pages_of (r : SharedMemoryRegion) : list Z :=
  if shm_address r =? 0 then [] else loop_pages (shm_pages (shm_size r)) 0 (shm_address r).

Lemma delete_region_list r vm k : 0 ≤ shm_size r < 2 ^ 63 → mc_vmm (k_machine k) = vm →
  delete_region r k = on_vmm (release_list (region_pages_of r)) k.
Proof.
  intros Hs Ev. unfold delete_region, region_pages_of. destruct (_ =? 0); [|rewrite u64_small by lia; unfold on_vmm; by rewrite <- release_loop_list].
  unfold on_vmm. by destruct k as [? ? ? []].
Qed.

Lemma delete_regions_ok l : ∀ k tab, Forall (λ r, 0 ≤ shm_size r < 2 ^ 63) l → vmm_inv (mc_vmm (k_machine k)) tab →
  Forall (releasable (mc_vmm (k_machine k)) tab) (l ≫= region_pages_of) → exists vm',
  delete_regions l k = Ok (tt, with_machine (set_vmm vm') k) ∧ released (mc_vmm (k_machine k)) tab vm' (l ≫= region_pages_of).
Proof.
  induction l as [|r l IH]; intros k tab Hs Hi Hrel; cbn [delete_regions].
  { exists (mc_vmm (k_machine k)). split; [by destruct k as [? ? ? []]|by apply released_nil]. }
  apply Forall_cons in Hs as [Hr Hs]. cbn in Hrel. apply Forall_app in Hrel as [H1 H2].
  destruct (release_list_ok _ _ _ Hi H1) as (vm1 & E1 & R1).
  assert (Er : delete_region r k = Ok (tt, with_machine (set_vmm vm1) k)).
  { rewrite (delete_region_list r _ k Hr eq_refl). exact (on_vmm_run _ tt vm1 k E1). }
  rewrite (bind_run _ _ _ _ _ Er). destruct (IH (with_machine (set_vmm vm1) k) tab Hs) as (vm' & E' & R'); [apply R1| |].
  { eapply Forall_impl; [exact H2|]. intros a. by apply (released_releasable _ _ _ _ _ Hi R1). }
  exists vm'. split; [exact E'|]. exact (released_trans _ _ _ _ _ _ R1 R').
Qed.

(** ** The destructor *)

(** Every queue and every region is gone: the processes that waited on a queue are
    there and wait on nothing new, the scheduler has not been told, and the pages of
    all the regions are unmapped and their frames free. *)
Theorem delete_manager_spec k tab : let vm := mc_vmm (k_machine k) in let regions := m_shared_memory_regions (k_ipc k) in
  ipc_wf (k_ipc k) → (forall qa, waiters_live k qa) → Forall (λ r, 0 ≤ shm_size r < 2 ^ 63) regions → vmm_inv vm tab →
  Forall (releasable vm tab) (regions ≫= region_pages_of) → exists k',
  delete_manager k = Ok (tt, k') ∧ m_message_queues (k_ipc k') = [] ∧ m_shared_memory_regions (k_ipc k') = [] ∧
  (forall qa, qa ∈ m_message_queues (k_ipc k) → qa ≠ 0 → ipc_queues (k_ipc k') !! qa = None) ∧
  k_sched k' = k_sched k ∧ fewer_waits k k' ∧ released vm tab (mc_vmm (k_machine k')) (regions ≫= region_pages_of).
Proof.
  intros vm regions Hwf Hw Hs Hi Hrel. unfold delete_manager, get_table, put_table, get_regions, put_regions. st.
  destruct (delete_queues_ok (m_message_queues (k_ipc k)) k) as (k1 & E & Esc & Em & Hf & Er & Hq).
  { split; [exact (iw_inj _ Hwf)|]. intros qa [i Ei]%list_elem_of_lookup Hne. split; [|by apply Hw]. destruct (iw_slot _ Hwf i qa Ei) as [|[_ ?]]; done. }
  rewrite (bind_run _ _ _ _ _ E). st. set (k2 := with_ipc _ k1).
  change (m_shared_memory_regions (k_ipc k2)) with (m_shared_memory_regions (k_ipc k1)). rewrite Er. fold regions.
  destruct (delete_regions_ok regions k2 tab Hs) as (vm' & E' & R); [cbn; by rewrite Em..|]. rewrite (bind_run _ _ _ _ _ E').
  eexists. split; [reflexivity|]. split; [done|]. split; [done|].
  split; [intros qa Hin Hne; cbn; by rewrite Hq, decide_True|]. split; [exact Esc|]. split; [exact Hf|].
  cbn in R |- *. by rewrite Em in R.
Qed.

(** One queue, with a message and a waiting process, and one region of two pages. *)
Definition exit_kernel : Kernel :=
  Kern (PM {[2 := set_waiting 1 (set_state Waiting (boot_proc 5 []))]} 3 [2] 2 6) (Sched [demo_rq 0 [] 0] RoundRobin 0)
    (set_shared [SHM 1 7 8192 heap_page [7]] (k_ipc (ipc_kernel [2] Waiting))) (Mach 0 1 0 true [] vmm_boot).

Lemma exit_kernel_wf : ipc_wf (k_ipc exit_kernel).
Proof. by destruct (ipc_kernel_wf [2] Waiting). Qed.

Lemma exit_waiters qa : waiters_live exit_kernel qa.
Proof.
  intros q Hq. cbn in Hq. apply lookup_singleton_Some in Hq as [<- <-]. constructor; [|constructor]. cbn. rewrite lookup_singleton_eq. by eexists.
Qed.

Lemma exit_pages tab : boot_tables vmm_boot tab → Forall (releasable vmm_boot tab) (m_shared_memory_regions (k_ipc exit_kernel) ≫= region_pages_of).
Proof.
  intros B. change (_ ≫= _) with [heap_page; heap_page + 4096].
  repeat constructor; apply boot_releasable; try done; vm_compute; by intros (_ & _ & ?).
Qed.

Lemma delete_manager_spec_witness : exists k', delete_manager exit_kernel = Ok (tt, k') ∧ ipc_queues (k_ipc k') !! 1 = None ∧
  m_shared_memory_regions (k_ipc k') = [].
Proof.
  destruct vmm_boot_tables as (tab & B & _).
  destruct (delete_manager_spec exit_kernel tab exit_kernel_wf exit_waiters) as (k' & E & _ & Er & Hq & _).
  - by repeat constructor.
  - exact (bt_inv _ _ B).
  - exact (exit_pages tab B).
  - exists k'. split; [exact E|]. split; [|exact Er]. apply Hq; [by right; left|done].
Defined.
