(* ===== verification/Loader.v ===== *)
(** * Program loading (src/kernel/src/core/{elf.hpp,elf.cpp,process.cpp})

    The checks of an ELF header, [load_program] and [setup_process_stack].  An
    image is the list of the bytes read from the file; its structures are read
    field by field where the code does, so a field beyond the end of the image
    is an undefined read.  The file system is reached through the class
    [ProgramFiles], of which Fat32.v gives an instance.

    What the processor does with a store to a virtual address is not code of the
    repository: it is the parameter [store]. *)

From S2P Require Import Prelude Pmm Vmm CStr Disk Fat32 Pages Kernel Sched Proc.

#[local] Abbreviation K := (ST Kernel).

(** ** ELF structures (elf.hpp) *)

Definition ELFMAG : list Z := [0x7F; 0x45; 0x4C; 0x46].
Definition ELFCLASS64 : Z := 2.
Definition ELFDATA2LSB : Z := 1.
Definition ET_EXEC : Z := 2.
Definition ET_DYN : Z := 3.
Definition PT_LOAD : Z := 1.
Definition PF_X : Z := 1.
Definition PF_W : Z := 2.
Definition EHDR_SIZE : Z := 64.
Definition PHDR_SIZE : Z := 56.

Definition get64 (b : list Z) (o : Z) : outcome Z :=
  lo ← get32 b o; hi ← get32 b (o + 4); Ok (lo + hi * 2 ^ 32).

(** The fields of the header at the start of the image. *)
Definition e_type (img : list Z) : outcome Z := get16 img 16.
Definition e_entry (img : list Z) : outcome Z := get64 img 24.
Definition e_phoff (img : list Z) : outcome Z := get64 img 32.
Definition e_phnum (img : list Z) : outcome Z := get16 img 56.
Definition e_shnum (img : list Z) : outcome Z := get16 img 60.

Record Elf64_Phdr := Phdr {
  p_flags : Z; p_offset : Z; p_vaddr : Z; p_filesz : Z; p_memsz : Z
}.

(** The fields the loader uses, of a header at offset [o] known to be PT_LOAD. *)
Definition get_phdr (img : list Z) (o : Z) : outcome Elf64_Phdr :=
  flags ← get32 img (o + 4); offset ← get64 img (o + 8); vaddr ← get64 img (o + 16);
  filesz ← get64 img (o + 32); memsz ← get64 img (o + 40);
  Ok (Phdr flags offset vaddr filesz memsz).

Definition validate_elf_header (img : list Z) : outcome bool :=
  c ← memcmp img ELFMAG 4;
  if negb (c =? 0) then Ok false else
  class ← aget img 4;
  if negb (class =? ELFCLASS64) then Ok false else
  data ← aget img 5;
  if negb (data =? ELFDATA2LSB) then Ok false else
  type ← e_type img;
  if negb (type =? ET_EXEC) && negb (type =? ET_DYN) then Ok false else
  shnum ← e_shnum img;
  Ok (negb (shnum =? 0)).

(** ** Loading *)

(** What the loader uses of the file system: a path to (cluster, size,
    attributes), and a file's bytes read into a buffer. *)
Class ProgramFiles := {
  find_file : list Z → K (option (Z * Z * Z));
  read_file : Z → list Z → Z → K (list Z)
}.

(** The mounted FAT32 volume as it is in [s]; reading does not change it. *)
#[export] Instance fat32_files {D} `{BlockDevice D} (fuel : nat) (s : CFat32FileSystem D) : ProgramFiles := {
  find_file path := lift (r ← findFile fuel path s; Ok r.1);
  read_file cluster buffer size := lift (r ← readFile fuel cluster buffer size s; Ok r.1)
}.

Definition page_down (a : Z) : Z := Z.land a (u64 (Z.lnot 0xFFF)).

Section loading.
Context `{ProgramFiles}.
Variable store : Z → list Z → ST VirtualMemoryManager unit.

(** [for (addr = start; addr < stop; addr += 4096)] of a segment: false when no
    frame is left. *)
Fixpoint map_range (fuel : nat) (addr stop : Z) (w : bool) : ST VirtualMemoryManager bool :=
  match fuel with
  | O => no_fuel
  | S fuel' =>
      if stop <=? addr then mret true else
      phys ← vm_allocate_frame;
      if phys =? 0 then mret false else
      vm_map_page addr phys w;;
      map_range fuel' (u64 (addr + 4096)) stop w
  end.

(** One PT_LOAD header: its end, or [None] when memory ran out. *)
Definition load_segment (process : Z) (img : list Z) (ph : Elf64_Phdr) : K (option Z) :=
  let vaddr_start := page_down (p_vaddr ph) in
  let vaddr_end := page_down (u64 (p_vaddr ph + p_memsz ph + 0xFFF)) in
  let size := u64 (vaddr_end - vaddr_start) in
  let w := negb (Z.land (p_flags ph) PF_W =? 0) in
  ok ← on_vmm (map_range (S (Z.to_nat ((vaddr_end - vaddr_start) / 4096))) vaddr_start vaddr_end w);
  if negb ok then cleanup_process_memory process;; mret None else
  if Z.of_nat (length img) <? p_offset ph + p_filesz ph then lift UB else
  on_vmm (store (p_vaddr ph) (take (Z.to_nat (p_filesz ph)) (drop (Z.to_nat (p_offset ph)) img)));;
  (if p_filesz ph <? p_memsz ph
   then on_vmm (store (u64 (p_vaddr ph + p_filesz ph)) (replicate (Z.to_nat (p_memsz ph - p_filesz ph)) 0))
   else mret tt);;
  add_memory_region process vaddr_start size w (negb (Z.land (p_flags ph) PF_X =? 0));;
  mret (Some vaddr_end).

(** The loop over the program headers: the highest end, or [None]. *)
Fixpoint load_segments (n : nat) (i : Z) (process : Z) (img : list Z) (phoff highest : Z) : K (option Z) :=
  match n with
  | O => mret (Some highest)
  | S n' =>
      type ← lift (get32 img (phoff + i * PHDR_SIZE));
      if negb (type =? PT_LOAD) then load_segments n' (i + 1) process img phoff highest else
      ph ← lift (get_phdr img (phoff + i * PHDR_SIZE));
      r ← load_segment process img ph;
      match r with
      | None => mret None
      | Some stop => load_segments n' (i + 1) process img phoff (if highest <? stop then stop else highest)
      end
  end.

(** The buffer of [new uint8_t[size]] is written by the file system before it
    is read. *)
Definition load_program (process : Z) (path : list Z) : K bool :=
  f ← find_file path;
  match f with
  | None => mret false
  | Some (cluster, size, attributes) =>
      if negb (Z.land attributes 0x10 =? 0) then mret false else
      img ← read_file cluster (replicate (Z.to_nat size) 0) size;
      ok ← lift (validate_elf_header img);
      if negb ok then mret false else
      entry ← lift (e_entry img);
      assign process (set_entry entry);;
      phoff ← lift (e_phoff img);
      phnum ← lift (e_phnum img);
      r ← load_segments (Z.to_nat phnum) 0 process img phoff 0;
      match r with
      | None => mret false
      | Some highest => assign process (set_breaks highest highest);; mret true
      end
  end.

(** ** The user stack *)

Definition USER_STACK_SIZE : Z := 8 * 1024 * 1024.
Definition USER_STACK_TOP : Z := 0x7FFFFFFFFFFF.
Definition STACK_PAGES : nat := Z.to_nat ((USER_STACK_SIZE + 4095) / 4096).
Definition stack_bottom : Z := USER_STACK_TOP - USER_STACK_SIZE.

(** The eight bytes of a word. *)
Definition bytes64 (v : Z) : list Z := bytes32 (v `mod` 2 ^ 32) ++ bytes32 (v / 2 ^ 32).

(** Addresses of [n] strings made with [new]. *)
Definition new_strings (n : nat) : K (list Z) :=
  p ← gets (λ k, pm_new (k_pm k));
  modify (with_pm (λ m, PM (pm_procs m) (p + Z.of_nat n) (m_processes m) (m_current_process m) (m_next_pid m)));;
  mret (map (λ i, p + Z.of_nat i) (seq 0 n)).

(** [*p++ = v] along a list of words. *)
Fixpoint store_words (va : Z) (l : list Z) : K unit :=
  match l with
  | [] => mret tt
  | v :: l => on_vmm (store va (bytes64 v));; store_words (u64 (va + 8)) l
  end.

(** [argv] and [envp] are the strings up to the null pointer, [None] for a null
    array. *)
Definition required_space (argc : nat) (envp : option (list (list Z))) : Z :=
  8 + (Z.of_nat argc + 1) * 8 + match envp with Some l => (Z.of_nat (length l) + 1) * 8 | None => 0 end.

Definition user_registers (regs : RegisterState) (sp entry : Z) : RegisterState :=
  Regs (rax regs) (rbx regs) (rcx regs) (rdx regs) (rsi regs) (rdi regs) sp sp
    (r8 regs) (r9 regs) (r10 regs) (r11 regs) (r12 regs) (r13 regs) (r14 regs) (r15 regs)
    entry 0x202 0x23 0x1B.

Definition setup_process_stack (process : Z) (argv_ envp_ : option (list (list Z))) : K bool :=
  r ← on_vmm (map_loop STACK_PAGES 0 stack_bottom true);
  match r with
  | Some _ => cleanup_process_memory process;; mret false
  | None =>
      assign process (λ x, set_stacks (kernel_stack x) USER_STACK_TOP x);;
      let args := default [] argv_ in
      assign process (λ x, set_args (argv x) (envp x) (Z.of_nat (length args)) x);;
      if USER_STACK_SIZE <? required_space (length args) envp_
      then cleanup_process_memory process;; mret false else
      strings ← new_strings (length args);
      assign process (λ x, set_args (Some args) (envp x) (argc x) x);;
      env ← match envp_ with
            | Some l =>
                e ← new_strings (length l);
                assign process (λ x, set_args (argv x) (Some l) (argc x) x);;
                mret (e ++ [0])
            | None => mret []
            end;
      let sp := USER_STACK_TOP - required_space (length args) envp_ in
      store_words sp ([Z.of_nat (length args)] ++ strings ++ [0] ++ env);;
      assign process (λ x, set_registers (user_registers (registers x) sp (entry_point x)) x);;
      add_memory_region process (USER_STACK_TOP - USER_STACK_SIZE) USER_STACK_SIZE true false;;
      mret true
  end.
End loading.

(** ** Lemmas *)

Lemma new_strings_run n k :
  exists l k', new_strings n k = Ok (l, k') ∧ length l = n ∧ pm_procs (k_pm k') = pm_procs (k_pm k) ∧
    k_machine k' = k_machine k.
Proof.
  eexists _, _. split; [reflexivity|]. split; [by rewrite length_map, length_seq|]. done.
Qed.

(** ** The first store to the user stack

    The stack's bottom is not at the start of a page, so its 2048 pages end one
    page below the page of USER_STACK_TOP. *)
Definition stack_base : Z := Z.land stack_bottom PAGE_MASK.

Lemma stack_base_eq : stack_base = 0x7FFFFF7FF000.
Proof. reflexivity. Qed.

Lemma stack_run : run_ok stack_base 0 STACK_PAGES.
Proof. rewrite stack_base_eq. unfold run_ok. change (Z.of_nat STACK_PAGES) with 2048. repeat split; lia. Qed.

Lemma top_page_not_in_stack va j :
  0x7FFFFFFFF000 ≤ va ≤ USER_STACK_TOP → 0 ≤ j < Z.of_nat STACK_PAGES → ¬ same_page (page stack_base j) va.
Proof.
  rewrite stack_base_eq. unfold USER_STACK_TOP. change (Z.of_nat STACK_PAGES) with 2048. intros Hva Hj E.
  apply same_page_number in E. unfold page_number, page in E.
  assert (E1 : va / 4096 = 0x7FFFFFFFF) by (symmetry; apply (Z.div_unique va 4096 0x7FFFFFFFF (va - 0x7FFFFFFFF000)); lia).
  rewrite E1, Z.div_add in E by done. change (0x7FFFFF7FF000 / 4096) with 0x7FFFFF7FF in E.
  rewrite !Z.mod_small in E by lia. lia.
Qed.

Section faults.
Context `{ProgramFiles}.
Variable store : Z → list Z → ST VirtualMemoryManager unit.

(** A store of something to a page that is not mapped is a page fault. *)
Definition store_faults : Prop :=
  forall va l vm tab, vmm_inv vm tab → no_huge vm tab va → present (leaf vm tab va) = false → l ≠ [] →
    store va l vm = UB.

Lemma setup_process_stack_faults_ok k p x argv_ envp_ tab :
  store_faults → pm_procs (k_pm k) !! p = Some x →
  vmm_inv (mc_vmm (k_machine k)) tab →
  4 * Z.of_nat STACK_PAGES ≤ m_free_frames (v_pmm (mc_vmm (k_machine k))) →
  (∀ j, 0 ≤ j ≤ Z.of_nat STACK_PAGES → mappable (mc_vmm (k_machine k)) tab (page stack_base j)) →
  required_space (length (default [] argv_)) envp_ ≤ 4095 →
  setup_process_stack store p argv_ envp_ k = UB.
Proof.
  intros Hst Hx Hi Hf Hmap Hreq. unfold setup_process_stack.
  destruct (map_loop_ok STACK_PAGES 0 stack_base true (mc_vmm (k_machine k)) tab Hi stack_run Hf)
    as (fs & vm' & tab' & E & Hl & M); [intros j Hj; apply Hmap; lia|].
  assert (E' : map_loop STACK_PAGES 0 stack_bottom true (mc_vmm (k_machine k)) = Ok (None, vm')).
  { rewrite map_loop_aligned; [exact E|done|done|]. change (Z.of_nat STACK_PAGES) with 2048. unfold stack_bottom, USER_STACK_TOP, USER_STACK_SIZE. lia. }
  rewrite (bind_run _ _ _ _ _ (on_vmm_run _ None vm' k E')). set (k1 := with_machine (set_vmm vm') k).
  assert (Hx1 : pm_procs (k_pm k1) !! p = Some x) by done.
  rewrite (bind_run _ _ _ _ _ (assign_run _ _ _ _ Hx1)). set (k2 := with_pm _ k1).
  assert (Hx2 : pm_procs (k_pm k2) !! p = Some (set_stacks (kernel_stack x) USER_STACK_TOP x)) by apply lookup_insert_eq.
  rewrite (bind_run _ _ _ _ _ (assign_run _ _ _ _ Hx2)). set (k3 := with_pm _ k2).
  set (req := required_space (length (default [] argv_)) envp_) in *.
  assert (Hreq0 : 16 ≤ req) by (unfold req, required_space; destruct envp_; lia).
  rewrite (proj2 (Z.ltb_ge _ _)) by (unfold USER_STACK_SIZE; lia).
  destruct (new_strings_run (length (default [] argv_)) k3) as (l & k4 & E4 & _ & Hp4 & Hm4).
  rewrite (bind_run _ _ _ _ _ E4).
  assert (Hx4 : exists y, pm_procs (k_pm k4) !! p = Some y) by (rewrite Hp4; eexists; apply lookup_insert_eq).
  destruct Hx4 as [y Hy]. rewrite (bind_run _ _ _ _ _ (assign_run _ _ _ _ Hy)). set (k5 := with_pm _ k4).
  assert (Henv : exists env k6, (match envp_ with
            | Some l => e ← new_strings (length l);
                        assign p (λ x, set_args (argv x) (Some l) (argc x) x);; mret (e ++ [0])
            | None => mret [] end : K (list Z)) k5 = Ok (env, k6) ∧ k_machine k6 = k_machine k5).
  { destruct envp_ as [le|]; [|by exists [], k5].
    destruct (new_strings_run (length le) k5) as (e & k6 & E6 & _ & Hp6 & Hm6).
    assert (Hx6 : exists z, pm_procs (k_pm k6) !! p = Some z) by (rewrite Hp6; eexists; apply lookup_insert_eq).
    destruct Hx6 as [z Hz]. eexists (e ++ [0]), _. split.
    - rewrite (bind_run _ _ _ _ _ E6), (bind_run _ _ _ _ _ (assign_run _ _ _ _ Hz)). reflexivity.
    - cbn. by rewrite Hm6. }
  destruct Henv as (env & k6 & E6 & Hm6). rewrite (bind_run _ _ _ _ _ E6).
  apply bind_UB. cbn [app store_words]. apply bind_UB.
  assert (Evm : mc_vmm (k_machine k6) = vm') by (rewrite Hm6; cbn; by rewrite Hm4).
  assert (Hva : 0x7FFFFFFFF000 ≤ USER_STACK_TOP - req ≤ USER_STACK_TOP) by (unfold USER_STACK_TOP in *; lia).
  assert (Htop : leaf vm' tab' (USER_STACK_TOP - req) = leaf (mc_vmm (k_machine k)) tab (USER_STACK_TOP - req)).
  { apply (mp_leaf _ _ _ _ _ _ _ M). intros j Hj. apply top_page_not_in_stack; [done|]. by rewrite Hl in Hj. }
  assert (Hsame : path (USER_STACK_TOP - req) = path (page stack_base 2048) ∧
                  pt_index (USER_STACK_TOP - req) = pt_index (page stack_base 2048)).
  { apply page_number_same. unfold page_number. unfold page. rewrite stack_base_eq.
    f_equal. change ((0x7FFFFF7FF000 + 2048 * 4096) / 4096) with 0x7FFFFFFFF.
    symmetry. apply (Z.div_unique _ 4096 0x7FFFFFFFF (USER_STACK_TOP - req - 0x7FFFFFFFF000)); unfold USER_STACK_TOP in *; lia. }
  destruct (Hmap 2048) as [Hnh Hpr]; [change (Z.of_nat STACK_PAGES) with 2048; lia|].
  unfold on_vmm. rewrite Evm. rewrite (Hst _ _ vm' tab'); [done|apply M| | |done].
  - apply (mp_huge _ _ _ _ _ _ _ M). revert Hnh. unfold no_huge. destruct Hsame as [[= -> -> ->] _]. done.
  - rewrite Htop. revert Hpr. unfold leaf. destruct Hsame as [-> ->]. done.
Qed.
End faults.

(** ** Claims *)

Lemma memcmp_prefix p q n :
  (n ≤ length p)%nat → (n ≤ length q)%nat →
  exists c, memcmp p q n = Ok c ∧ (c = 0 ↔ take n p = take n q).
Proof.
  revert p q. induction n as [|n IH]; intros p q Hp Hq.
  { exists 0. by destruct p, q. }
  destruct p as [|x p]; [cbn in Hp; lia|]. destruct q as [|y q]; [cbn in Hq; lia|].
  cbn [memcmp take]. cbn [length] in Hp, Hq.
  destruct (IH p q ltac:(lia) ltac:(lia)) as (c & E & Hc).
  destruct (Z.eqb_spec x y) as [->|Hne]; cbn [negb].
  - exists c. split; [exact E|]. rewrite Hc. split; congruence.
  - exists (x - y). split; [done|]. split; [lia|congruence].
Qed.

Lemma get16_ok img o : 0 ≤ o → o + 2 ≤ Z.of_nat (length img) → exists v, get16 img o = Ok v.
Proof.
  intros Ho Hl. unfold get16. destruct (aget_is_ok img o) as [x Hx]; [lia|].
  destruct (aget_is_ok img (o + 1)) as [y Hy]; [lia|]. rewrite Hx, bind_Ok, Hy. by eexists.
Qed.

(** The conditions of the header check. *)
Definition header_ok (img : list Z) (type shnum : Z) : Prop :=
  take 4 img = ELFMAG ∧ nthz img 4 = ELFCLASS64 ∧ nthz img 5 = ELFDATA2LSB ∧
  (type = ET_EXEC ∨ type = ET_DYN) ∧ shnum ≠ 0.

#[export] Instance header_ok_dec img type shnum : Decision (header_ok img type shnum).
Proof. unfold header_ok. apply _. Defined.

(** On an image that holds a whole header the check always returns: true
    exactly for a 64-bit little-endian ELF file of type EXEC or DYN with at
    least one section. *)
Theorem validate_elf_header_spec img :
  EHDR_SIZE ≤ Z.of_nat (length img) →
  exists type shnum, e_type img = Ok type ∧ e_shnum img = Ok shnum ∧
    validate_elf_header img = Ok (bool_decide (header_ok img type shnum)).
Proof.
  unfold EHDR_SIZE. intros Hl.
  destruct (get16_ok img 16 ltac:(lia) ltac:(lia)) as [type Et].
  destruct (get16_ok img 60 ltac:(lia) ltac:(lia)) as [shnum Es].
  exists type, shnum. split; [exact Et|]. split; [exact Es|].
  assert (Hno : ¬ header_ok img type shnum → Ok false = Ok (bool_decide (header_ok img type shnum)))
    by (intros; by rewrite bool_decide_eq_false_2).
  unfold validate_elf_header, e_type, e_shnum. destruct (memcmp_prefix img ELFMAG 4 ltac:(lia) ltac:(cbn; lia)) as (c & -> & Hc).
  rewrite bind_Ok. change (take 4 ELFMAG) with ELFMAG in Hc.
  destruct (aget_is_ok img 4 ltac:(lia)) as [x4 H4]. destruct (aget_is_ok img 5 ltac:(lia)) as [x5 H5].
  rewrite H4, H5, Et, Es. apply aget_Ok in H4 as [_ H4]. apply aget_Ok in H5 as [_ H5].
  pose proof (nthz_lookup img 4 x4 H4 : nthz img 4 = x4) as N4.
  pose proof (nthz_lookup img 5 x5 H5 : nthz img 5 = x5) as N5.
  assert (Hiff : header_ok img type shnum ↔
    c = 0 ∧ x4 = ELFCLASS64 ∧ x5 = ELFDATA2LSB ∧ (type = ET_EXEC ∨ type = ET_DYN) ∧ shnum ≠ 0)
    by (unfold header_ok; rewrite N4, N5; tauto).
  destruct (Z.eqb_spec c 0); cbn [negb]; [rewrite bind_Ok|apply Hno; tauto].
  destruct (Z.eqb_spec x4 ELFCLASS64); cbn [negb]; [rewrite bind_Ok|apply Hno; tauto].
  destruct (Z.eqb_spec x5 ELFDATA2LSB); cbn [negb]; [rewrite bind_Ok|apply Hno; tauto].
  destruct (Z.eqb_spec type ET_EXEC), (Z.eqb_spec type ET_DYN); cbn [negb andb]; try (apply Hno; tauto); rewrite bind_Ok;
    (destruct (Z.eqb_spec shnum 0); cbn [negb]; [apply Hno; tauto|rewrite bool_decide_eq_true_2; tauto]).
Qed.

Definition small_image : list Z :=
  ELFMAG ++ [2; 1] ++ replicate 10 0 ++ [2; 0] ++ replicate 42 0 ++ [1; 0; 0; 0].

Lemma validate_elf_header_spec_witness :
  exists type shnum, e_type small_image = Ok type ∧ e_shnum small_image = Ok shnum ∧
    validate_elf_header small_image = Ok (bool_decide (header_ok small_image type shnum)).
Proof. apply (validate_elf_header_spec small_image). by vm_compute. Defined.

(** [setup_process_stack] cannot succeed on fresh pages: the 2048 pages it
    maps end one page below the page of USER_STACK_TOP, to which it then writes
    argc, so, however much memory there is, the first store is to a page that is
    not mapped (for argument arrays of up to 4095 bytes in all). *)
Theorem setup_process_stack_faults store k p x argv_ envp_ tab :
  store_faults store → pm_procs (k_pm k) !! p = Some x →
  vmm_inv (mc_vmm (k_machine k)) tab →
  4 * Z.of_nat STACK_PAGES ≤ m_free_frames (v_pmm (mc_vmm (k_machine k))) →
  (∀ j, 0 ≤ j ≤ Z.of_nat STACK_PAGES → mappable (mc_vmm (k_machine k)) tab (page stack_base j)) →
  required_space (length (default [] argv_)) envp_ ≤ 4095 →
  setup_process_stack store p argv_ envp_ k = UB.
Proof. apply setup_process_stack_faults_ok. Qed.

(** A processor that checks the translation of the first byte. *)
Definition checked_store (va : Z) (l : list Z) : ST VirtualMemoryManager unit :=
  match l with
  | [] => mret tt
  | _ => phys ← vm_get_physical_address va; if phys =? 0 then lift UB else mret tt
  end.

Lemma checked_store_faults : store_faults checked_store.
Proof.
  intros va l vm tab Hi Hn Hp Hl. destruct l as [|b l]; [done|]. cbn [checked_store].
  assert (E : vm_get_physical_address va vm = Ok (0, vm)).
  { unfold vm_get_physical_address. rewrite (get_physical_address_translate _ _ _ Hi Hn).
    unfold translate. by rewrite Hp. }
  by rewrite (bind_run _ _ _ _ _ E).
Qed.

Definition stack_kernel : Kernel :=
  kernel_on (Mach 0 1 0 true [] (vmm_booted 16384)) two_procs 2.

Lemma setup_process_stack_faults_witness :
  store_faults checked_store ∧
  setup_process_stack checked_store 2 (Some [[0x61]]) None stack_kernel = UB.
Proof.
  split; [exact checked_store_faults|]. destruct (vmm_booted_tables 16384) as (tab & B & F); [lia|].
  apply (setup_process_stack_faults checked_store stack_kernel 2 (boot_proc 2 []) (Some [[0x61]]) None tab).
  - exact checked_store_faults.
  - reflexivity.
  - apply B.
  - change (4 * Z.of_nat STACK_PAGES) with 8192. change (8192 ≤ m_free_frames (v_pmm (vmm_booted 16384))). lia.
  - intros j Hj. change (Z.of_nat STACK_PAGES) with 2048 in Hj. apply (boot_mappable _ _ _ B).
    intros (H0 & _). assert (Hpn : page_number (page stack_base j) = 0x7FFFFF7FF + j).
    { unfold page_number, page. rewrite stack_base_eq, Z.div_add by done.
      change (0x7FFFFF7FF000 / 4096) with 0x7FFFFF7FF. rewrite Z.mod_small; lia. }
    rewrite page_number_indices, H0 in Hpn.
    pose proof (index9_range (page stack_base j) 12 : 0 ≤ pt_index (page stack_base j) < 512).
    pose proof (index9_range (page stack_base j) 21 : 0 ≤ pd_index (page stack_base j) < 512).
    pose proof (index9_range (page stack_base j) 30 : 0 ≤ pdpt_index (page stack_base j) < 512). lia.
  - unfold required_space. cbn. lia.
Defined.
