(* ===== verification/Syscall.v ===== *)
(** * System calls (src/kernel/src/core/{syscall.hpp,syscall.cpp})

    [handle] and the [sys_*] functions over the process manager, the scheduler,
    the IPC manager and the loader.  What lies in memory at an address a caller
    passes is the parameter [mem] (the bytes that can be read from there on,
    given the page tables), what a store does is the parameter [store] of
    Loader.v.  A call returns its value with the characters it printed. *)

From S2P Require Import Prelude Pmm Vmm CStr Pages Kernel Sched Proc Ipc Loader.

#[local] Abbreviation K := (ST Kernel).

Inductive SyscallNumber :=
  | SysRead | SysWrite | SysOpen | SysClose | SysStat | SysFstat | SysLstat | SysPoll | SysLseek
  | SysMmap | SysMprotect | SysMunmap | SysBrk | SysExit | SysFork | SysExecve
  | SysMsgCreate | SysMsgDestroy | SysMsgOpen | SysMsgSend | SysMsgReceive
  | SysShmCreate | SysShmDestroy | SysShmAttach | SysShmDetach
  | SysSchedYield | SysSchedSetPriority | SysSchedGetPriority.

#[export] Instance SyscallNumber_eq_dec : EqDecision SyscallNumber.
Proof. solve_decision. Defined.

(** The enumerators and their values. *)
Definition syscall_numbers : list (Z * SyscallNumber) :=
  [(0, SysRead); (1, SysWrite); (2, SysOpen); (3, SysClose); (4, SysStat); (5, SysFstat);
   (6, SysLstat); (7, SysPoll); (8, SysLseek); (9, SysMmap); (10, SysMprotect); (11, SysMunmap);
   (12, SysBrk); (60, SysExit); (57, SysFork); (59, SysExecve);
   (100, SysMsgCreate); (101, SysMsgDestroy); (102, SysMsgOpen); (103, SysMsgSend);
   (104, SysMsgReceive); (105, SysShmCreate); (106, SysShmDestroy); (107, SysShmAttach);
   (108, SysShmDetach); (120, SysSchedYield); (121, SysSchedSetPriority); (122, SysSchedGetPriority)].

Fixpoint assoc_number (l : list (Z * SyscallNumber)) (n : Z) : option SyscallNumber :=
  match l with
  | [] => None
  | (m, c) :: l => if m =? n then Some c else assoc_number l n
  end.

Definition syscall_of (rax : Z) : option SyscallNumber := assoc_number syscall_numbers rax.

Record SyscallContext := Ctx {
  c_rax : Z; c_rdi : Z; c_rsi : Z; c_rdx : Z; c_r10 : Z; c_r8 : Z; c_r9 : Z
}.

(** The value returned and the characters printed. *)
Definition reply : Type := Z * list Z.
Definition silent (r : Z) : reply := (r, []).

(** ** The caller's memory *)

(** The characters before the first zero of a readable piece of memory. *)
Fixpoint upto_zero (l : list Z) : outcome (list Z) :=
  match l with
  | [] => UB
  | c :: l => if c =? 0 then Ok [] else s ← upto_zero l; Ok (c :: s)
  end.

Section syscalls.
Context `{ProgramFiles}.
Variable switch_context : Z → Z → K unit.
Variable store : Z → list Z → ST VirtualMemoryManager unit.
Variable mem : VirtualMemoryManager → Z → list Z.

Definition mem_at (a : Z) : K (list Z) := gets (λ k, mem (mc_vmm (k_machine k)) a).

Definition string_at (a : Z) : K (list Z) := l ← mem_at a; lift (upto_zero l).

(** The strings of a null-terminated array of pointers. *)
Fixpoint strings_from (n : nat) (a : Z) : K (list (list Z)) :=
  match n with
  | O => lift UB
  | S n' =>
      l ← mem_at a;
      p ← lift (get64 l 0);
      if p =? 0 then mret [] else
      s ← string_at p; rest ← strings_from n' (u64 (a + 8)); mret (s :: rest)
  end.

(** An array ends at the end of what can be read; a null array is [None]. *)
Definition strings_at (a : Z) : K (option (list (list Z))) :=
  if a =? 0 then mret None else
  l ← mem_at a; s ← strings_from (S (length l / 8)) a; mret (Some s).

(** ** Files and memory *)

Definition sys_read (fd buf count : Z) : K Z := mret (-1).

Definition sys_write (fd buf count : Z) : K reply :=
  if (fd =? 1) || (fd =? 2) then
    l ← mem_at buf;
    if Z.of_nat (length l) <? count then lift UB else
    mret (i64 count, take (Z.to_nat count) l)
  else mret (silent (-1)).

Definition sys_open (pathname flags mode : Z) : K Z := mret (-1).
Definition sys_close (fd : Z) : K Z := mret (-1).
Definition sys_mmap (addr length prot flags fd offset : Z) : K Z := mret 0.
Definition sys_munmap (addr length : Z) : K Z := mret (-1).

Definition get_current : K Z := gets (λ k, m_current_process (k_pm k)).

(** [auto* process = pm.get_current_process(); if (!process) return e;] *)
Definition with_current (e : Z) (f : Z → K Z) : K Z :=
  p ← get_current; if p =? 0 then mret e else f p.

Definition sys_brk (addr : Z) : K Z :=
  with_current (-1) (λ p,
    x ← deref p;
    if addr =? 0 then mret (i64 (brk x)) else
    if addr <? program_break x then mret (-1) else
    assign p (λ y, set_breaks addr (program_break y) y);;
    mret (i64 addr)).

(** ** Processes *)

Definition sys_exit (status : Z) : K unit :=
  p ← get_current;
  if p =? 0 then mret tt else
  assign p (set_state Zombie);;
  x ← deref p;
  terminate_process switch_context (pid x).

(** [memcpy(dst, src, 4096)] of frames, through the identity map. *)
Definition copy_page (dst src : Z) : ST VirtualMemoryManager unit :=
  modify (λ v, set_mem v (λ x, if (dst <=? x) && (x <? dst + 4096) then v_mem v (src + (x - dst)) else v_mem v x)).

(** The loop over the pages of a region: false when no frame is left. *)
Fixpoint fork_pages (fuel : nat) (addr stop : Z) (w : bool) : ST VirtualMemoryManager bool :=
  match fuel with
  | O => no_fuel
  | S fuel' =>
      if addr <? stop then
        new_phys ← vm_allocate_frame;
        if new_phys =? 0 then mret false else
        vm_map_page addr new_phys w;;
        parent_phys ← vm_get_physical_address addr;
        (if parent_phys =? 0 then lift UB else copy_page new_phys parent_phys);;
        fork_pages fuel' (u64 (addr + 4096)) stop w
      else mret true
  end.

Fixpoint fork_regions (child child_pid : Z) (l : list MemoryRegion) : K bool :=
  match l with
  | [] => mret true
  | r :: l =>
      ok ← on_vmm (fork_pages (S (region_pages (mr_size r))) (mr_start r) (u64 (mr_start r + mr_size r)) (mr_writable r));
      if negb ok then terminate_process switch_context child_pid;; mret false else
      add_memory_region child (mr_start r) (mr_size r) (mr_writable r) (mr_executable r);;
      fork_regions child child_pid l
  end.

Definition set_rax (v : Z) (g : RegisterState) : RegisterState :=
  Regs v (rbx g) (rcx g) (rdx g) (rsi g) (rdi g) (rbp g) (rsp g) (r8 g) (r9 g) (r10 g) (r11 g)
    (r12 g) (r13 g) (r14 g) (r15 g) (rip g) (rflags g) (cs g) (ss g).

Definition sys_fork : K Z :=
  with_current (-1) (λ parent,
    x ← deref parent;
    child_pid ← create_process (p_name x) (pid x);
    child ← get_process child_pid;
    if child =? 0 then mret (-1) else
    ok ← fork_regions child child_pid (memory_regions x);
    if negb ok then mret (-1) else
    x ← deref parent;
    assign child (set_registers (registers x) ∘ set_entry (entry_point x) ∘ set_breaks (brk x) (program_break x));;
    assign child (λ y, set_registers (set_rax 0 (registers y)) y);;
    assign parent (λ y, set_registers (set_rax (u64 child_pid) (registers y)) y);;
    match argv x with
    | Some l =>
        if Z.of_nat (length l) <? argc x then lift UB else
        assign child (λ y, set_args (Some (take (Z.to_nat (argc x)) l)) (envp y) (argc x) y)
    | None => mret tt
    end;;
    match envp x with
    | Some l => assign child (λ y, set_args (argv y) (Some l) (argc y) y)
    | None => mret tt
    end;;
    mret child_pid).

Definition sys_execve (filename argv_ envp_ : Z) : K Z :=
  with_current (-1) (λ p,
    x ← deref p;
    let old_regions := memory_regions x in
    assign p (set_regions []);;
    path ← string_at filename;
    ok ← load_program store p path;
    if negb ok then assign p (set_regions old_regions);; mret (-1) else
    args ← strings_at argv_;
    env ← strings_at envp_;
    ok ← setup_process_stack store p args env;
    if negb ok then x ← deref p; terminate_process switch_context (pid x);; mret (-1) else
    switch_to_process switch_context p;;
    mret 0).

(** ** Messages and shared memory *)

Definition sys_msg_create (name : Z) : K Z :=
  with_current (-1) (λ p, x ← deref p; s ← string_at name; create_message_queue (pid x) s).

Definition sys_msg_destroy (id : Z) : K Z :=
  with_current (-1) (λ _, ok ← destroy_message_queue id; mret (if ok : bool then 0 else -1)).

Definition sys_msg_open (name : Z) : K Z :=
  with_current (-1) (λ _, s ← string_at name; open_message_queue s).

Definition sys_msg_send (queue_id data size : Z) : K Z :=
  with_current (-1) (λ p,
    x ← deref p;
    l ← mem_at data;
    ok ← send_message queue_id (pid x) l size;
    mret (if ok : bool then 0 else -1)).

(** [(static_cast<int64_t>(message.sender) << 32) | copy_size] *)
Definition receive_value (sender_ copy_size : Z) : Z := i64 (Z.lor (u64 (Z.shiftl sender_ 32)) copy_size).

Definition sys_msg_receive (queue_id data max_size : Z) (wait : bool) : K Z :=
  with_current (-1) (λ _,
    m ← receive_message switch_context queue_id wait;
    match m with
    | None => mret (-1)
    | Some message =>
        let copy_size := if msg_size message <? max_size then msg_size message else max_size in
        on_vmm (store data (take (Z.to_nat copy_size) (msg_data message)));;
        mret (receive_value (sender message) copy_size)
    end).

Definition sys_shm_create (size : Z) : K Z :=
  with_current (-1) (λ p, x ← deref p; create_shared_memory (pid x) size).

Definition sys_shm_destroy (id : Z) : K Z :=
  with_current (-1) (λ _, ok ← destroy_shared_memory id; mret (if ok : bool then 0 else -1)).

Definition sys_shm_attach (id : Z) : K Z :=
  with_current 0 (λ p, x ← deref p; attach_shared_memory id (pid x)).

Definition sys_shm_detach (id : Z) : K Z :=
  with_current (-1) (λ p, x ← deref p; ok ← detach_shared_memory id (pid x); mret (if ok : bool then 0 else -1)).

(** ** Scheduling *)

Definition sys_sched_yield : K Z := schedule switch_context;; mret 0.

Definition sys_sched_set_priority (pid_ prio : Z) : K Z :=
  with_current (-1) (λ p,
    x ← deref p;
    if negb (pid_ =? pid x) && negb (pid x =? 1) then mret (-1) else
    set_process_priority get_process pid_ prio;;
    mret 0).

Definition sys_sched_get_priority (pid_ : Z) : K Z :=
  p ← get_process pid_;
  if p =? 0 then mret (-1) else x ← deref p; mret (priority x).

(** ** The dispatcher

    Arguments are converted to the parameters' types: [int] and [int32_t] by
    [i32], [uint8_t] by [u8], [bool] by comparison with 0. *)
Definition quietly (f : K Z) : K reply := r ← f; mret (silent r).

Definition handle (c : SyscallContext) : K reply :=
  match syscall_of (c_rax c) with
  | Some SysRead => quietly (sys_read (i32 (c_rdi c)) (c_rsi c) (c_rdx c))
  | Some SysWrite => sys_write (i32 (c_rdi c)) (c_rsi c) (c_rdx c)
  | Some SysOpen => quietly (sys_open (c_rdi c) (i32 (c_rsi c)) (c_rdx c))
  | Some SysClose => quietly (sys_close (i32 (c_rdi c)))
  | Some SysMmap =>
      quietly (r ← sys_mmap (c_rdi c) (c_rsi c) (i32 (c_rdx c)) (i32 (c_r10 c)) (i32 (c_r8 c)) (c_r9 c); mret (i64 r))
  | Some SysMunmap => quietly (sys_munmap (c_rdi c) (c_rsi c))
  | Some SysBrk => quietly (sys_brk (c_rdi c))
  | Some SysExit => quietly (sys_exit (i32 (c_rdi c));; mret 0)
  | Some SysFork => quietly sys_fork
  | Some SysExecve => quietly (sys_execve (c_rdi c) (c_rsi c) (c_rdx c))
  | Some SysMsgCreate => quietly (sys_msg_create (c_rdi c))
  | Some SysMsgDestroy => quietly (sys_msg_destroy (i32 (c_rdi c)))
  | Some SysMsgOpen => quietly (sys_msg_open (c_rdi c))
  | Some SysMsgSend => quietly (sys_msg_send (i32 (c_rdi c)) (c_rsi c) (c_rdx c))
  | Some SysMsgReceive =>
      quietly (sys_msg_receive (i32 (c_rdi c)) (c_rsi c) (c_rdx c) (negb (c_r10 c =? 0)))
  | Some SysShmCreate => quietly (sys_shm_create (c_rdi c))
  | Some SysShmDestroy => quietly (sys_shm_destroy (i32 (c_rdi c)))
  | Some SysShmAttach => quietly (r ← sys_shm_attach (i32 (c_rdi c)); mret (i64 r))
  | Some SysShmDetach => quietly (sys_shm_detach (i32 (c_rdi c)))
  | Some SysSchedYield => quietly sys_sched_yield
  | Some SysSchedSetPriority => quietly (sys_sched_set_priority (i32 (c_rdi c)) (u8 (c_rsi c)))
  | Some SysSchedGetPriority => quietly (sys_sched_get_priority (i32 (c_rdi c)))
  | Some (SysStat | SysFstat | SysLstat | SysPoll | SysLseek | SysMprotect) | None => mret (silent (-1))
  end.
End syscalls.

(** ** Every system call keeps the tables of the IPC manager *)

Section frame.
Context (I : IPCManager → Prop) `{ProgramFiles}.
Variable switch_context : Z → Z → K unit.
Variable store : Z → list Z → ST VirtualMemoryManager unit.
Variable mem : VirtualMemoryManager → Z → list Z.

(** The parameters leave the invariant alone. *)
Record quiet : Prop := {
  q_switch old new : preserves (on_ipc I) (switch_context old new);
  q_find path : preserves (on_ipc I) (find_file path);
  q_read c b s : preserves (on_ipc I) (read_file c b s)
}.
Hypothesis Q : quiet.

Lemma on_ipc_schedule_q : preserves (on_ipc I) (schedule switch_context).
Proof. apply on_ipc_schedule. apply (q_switch Q). Qed.

Lemma on_ipc_switch p : preserves (on_ipc I) (switch_to_process switch_context p).
Proof. pose proof (q_switch Q). unfold switch_to_process. preserves. Qed.

Lemma on_ipc_find_in l pid_ : preserves (on_ipc I) (find_in l pid_).
Proof. induction l as [|p l IH]; cbn [find_in]; preserves. Qed.

Lemma on_ipc_remove_from i l p : preserves (on_ipc I) (remove_from i l p).
Proof. revert i. induction l as [|q l IH]; intros i; cbn [remove_from]; preserves. Qed.

Lemma on_ipc_delete p : preserves (on_ipc I) (delete_object p).
Proof. unfold delete_object. preserves. Qed.

Lemma on_ipc_cleanup p : preserves (on_ipc I) (cleanup_process_memory p).
Proof. unfold cleanup_process_memory. preserves. Qed.

Lemma on_ipc_add_region p a s w x : preserves (on_ipc I) (add_memory_region p a s w x).
Proof. unfold add_memory_region. preserves. Qed.

#[local] Hint Resolve on_ipc_schedule_q on_ipc_switch on_ipc_find_in on_ipc_remove_from on_ipc_delete
  on_ipc_cleanup on_ipc_add_region : preserves.

Lemma on_ipc_get_process pid_ : preserves (on_ipc I) (get_process pid_).
Proof. unfold get_process. preserves. Qed.

Lemma on_ipc_remove_process p : preserves (on_ipc I) (remove_process p).
Proof. unfold remove_process, get_runqueues. preserves. Qed.

#[local] Hint Resolve on_ipc_get_process on_ipc_remove_process : preserves.

Lemma on_ipc_terminate pid_ : preserves (on_ipc I) (terminate_process switch_context pid_).
Proof. unfold terminate_process. preserves. Qed.

Lemma on_ipc_create_process name ppid_ : preserves (on_ipc I) (create_process name ppid_).
Proof. unfold create_process, new_object. preserves. Qed.

Lemma on_ipc_set_priority pid_ v : preserves (on_ipc I) (set_process_priority get_process pid_ v).
Proof. unfold set_process_priority. preserves. Qed.

#[local] Hint Resolve on_ipc_terminate on_ipc_create_process on_ipc_set_priority : preserves.

Lemma on_ipc_load_segments n i p img phoff h : preserves (on_ipc I) (load_segments store n i p img phoff h).
Proof. revert i h. induction n as [|n IH]; intros i h; cbn [load_segments]; unfold load_segment; preserves. Qed.

Lemma on_ipc_store_words va l : preserves (on_ipc I) (store_words store va l).
Proof. revert va. induction l as [|v l IH]; intros va; cbn [store_words]; preserves. Qed.

#[local] Hint Resolve on_ipc_load_segments on_ipc_store_words : preserves.

Lemma on_ipc_load_program p path : preserves (on_ipc I) (load_program store p path).
Proof. pose proof (q_find Q). pose proof (q_read Q). unfold load_program. preserves. Qed.

Lemma on_ipc_setup_stack p a e : preserves (on_ipc I) (setup_process_stack store p a e).
Proof. unfold setup_process_stack, new_strings. preserves. Qed.

Lemma on_ipc_fork_regions c n l : preserves (on_ipc I) (fork_regions switch_context c n l).
Proof. induction l as [|r l IH]; cbn [fork_regions]; preserves. Qed.

Lemma on_ipc_strings_from n a : preserves (on_ipc I) (strings_from mem n a).
Proof. revert a. induction n as [|n IH]; intros a; cbn [strings_from]; unfold string_at, mem_at; preserves. Qed.

#[local] Hint Resolve on_ipc_load_program on_ipc_setup_stack on_ipc_fork_regions on_ipc_strings_from : preserves.

Lemma on_ipc_fork : preserves (on_ipc I) (sys_fork switch_context).
Proof. unfold sys_fork, with_current, get_current. preserves. Qed.

Lemma on_ipc_execve f a e : preserves (on_ipc I) (sys_execve switch_context store mem f a e).
Proof. unfold sys_execve, with_current, get_current, string_at, strings_at, mem_at. preserves. Qed.

Lemma on_ipc_exit s : preserves (on_ipc I) (sys_exit switch_context s).
Proof. unfold sys_exit, get_current. preserves. Qed.
End frame.

(** Registers hold 64-bit values. *)
Definition ctx_ok (c : SyscallContext) : Prop :=
  is_u64 (c_rax c) ∧ is_u64 (c_rdi c) ∧ is_u64 (c_rsi c) ∧ is_u64 (c_rdx c) ∧ is_u64 (c_r10 c) ∧
  is_u64 (c_r8 c) ∧ is_u64 (c_r9 c).

Lemma shared_wf (f : IPCManager → IPCManager) :
  (∀ m, ipc_queues (f m) = ipc_queues m ∧ ipc_new (f m) = ipc_new m ∧
    m_message_queues (f m) = m_message_queues m ∧ m_next_queue_id (f m) = m_next_queue_id m) →
  preserves (on_ipc ipc_wf) (modify (with_ipc f)).
Proof.
  intros Hf. apply preserves_modify. intros k. unfold on_ipc. cbn. generalize (k_ipc k). intros m.
  destruct (Hf m) as (E1 & E2 & E3 & E4). intros [H1 H2 H3 H4 H5 H6 H7 H8].
  constructor; rewrite ?E1, ?E2, ?E3, ?E4; done.
Qed.

Section handle_wf.
Context `{ProgramFiles}.
Variable switch_context : Z → Z → K unit.
Variable store : Z → list Z → ST VirtualMemoryManager unit.
Variable mem : VirtualMemoryManager → Z → list Z.
Hypothesis Q : quiet ipc_wf switch_context.

#[local] Hint Resolve create_message_queue_wf destroy_message_queue_wf open_message_queue_wf : preserves.

Lemma create_shared_memory_wf c s : preserves (on_ipc ipc_wf) (create_shared_memory c s).
Proof. unfold create_shared_memory. preserves; by apply shared_wf. Qed.

Lemma destroy_shared_memory_wf id : preserves (on_ipc ipc_wf) (destroy_shared_memory id).
Proof. unfold destroy_shared_memory, get_regions, put_regions. preserves; by apply shared_wf. Qed.

Lemma attach_shared_memory_wf id p : preserves (on_ipc ipc_wf) (attach_shared_memory id p).
Proof. unfold attach_shared_memory, get_regions, put_regions. preserves; by apply shared_wf. Qed.

Lemma detach_shared_memory_wf id p : preserves (on_ipc ipc_wf) (detach_shared_memory id p).
Proof. unfold detach_shared_memory, get_regions, put_regions. preserves; by apply shared_wf. Qed.

#[local] Hint Resolve create_shared_memory_wf destroy_shared_memory_wf attach_shared_memory_wf
  detach_shared_memory_wf on_ipc_get_process on_ipc_set_priority : preserves.

Lemma handle_keeps_ipc_ok c : ctx_ok c → preserves (on_ipc ipc_wf) (handle switch_context store mem c).
Proof.
  intros (_ & _ & _ & Hdx & _). pose proof (on_ipc_fork _ _ Q). pose proof (on_ipc_execve _ _ store mem Q).
  pose proof (on_ipc_exit _ _ Q). pose proof (on_ipc_schedule_q _ _ Q).
  assert (Hsend : ∀ id s data, preserves (on_ipc ipc_wf) (send_message id s data (c_rdx c)))
    by (intros; apply send_message_wf; apply Hdx).
  assert (Hrecv : ∀ id w, preserves (on_ipc ipc_wf) (receive_message switch_context id w))
    by (intros; apply receive_message_wf; apply (q_switch _ _ Q)).
  unfold handle. destruct (syscall_of (c_rax c)) as [[]|]; unfold quietly, sys_read, sys_write, sys_open, sys_close,
    sys_mmap, sys_munmap, sys_brk, sys_msg_create, sys_msg_destroy, sys_msg_open, sys_msg_send, sys_msg_receive,
    sys_shm_create, sys_shm_destroy, sys_shm_attach, sys_shm_detach, sys_sched_yield, sys_sched_set_priority,
    sys_sched_get_priority, with_current, get_current, string_at, mem_at; preserves.
Qed.
End handle_wf.

(** ** The pages of a fork *)

(** A page mapped to a frame in use that holds no table. *)
Definition owned_page vm tab (va : Z) : Prop :=
  no_huge vm tab va ∧ present (leaf vm tab va) = true ∧
  exists k, translate vm tab va = frame_addr (v_pmm vm) k ∧ 0 ≤ k < m_total_frames (v_pmm vm) ∧
    used (v_pmm vm) k = true ∧ ∀ q, tab !! q ≠ Some (frame_addr (v_pmm vm) k).

Lemma fork_page_ok vm tab va w stop fuel :
  vmm_inv vm tab → owned_page vm tab va →
  4 ≤ m_free_frames (v_pmm vm) → 0 ≤ va < stop → va + 4096 < 2 ^ 64 →
  exists vm' tab', fork_pages (S fuel) va stop w vm = fork_pages fuel (va + 4096) stop w vm' ∧
    vmm_inv vm' tab' ∧ grown vm tab vm' tab' ∧
    (∀ va', leaf vm' tab' va' = leaf vm tab va') ∧ (∀ va', no_huge vm tab va' → no_huge vm' tab' va') ∧
    m_free_frames (v_pmm vm) - 4 ≤ m_free_frames (v_pmm vm') ∧
    (exists k, 0 ≤ k < m_total_frames (v_pmm vm) ∧ used (v_pmm vm) k = false ∧ used (v_pmm vm') k = true ∧
       ∀ q, tab' !! q ≠ Some (frame_addr (v_pmm vm) k)).
Proof.
  intros Hi (Hn & Hpr & k0 & Ek0 & Hk0 & _) Hf Hva Hle. pose proof (vi_pmm _ _ Hi) as Hwf.
  assert (Ht0 : translate vm tab va ≠ 0).
  { rewrite Ek0. pose proof (sh_start _ (wf_shape _ Hwf)). unfold frame_addr, PAGE_SIZE. lia. }
  destruct (allocate_frame_takes (v_pmm vm) Hwf ltac:(lia)) as (k & s & Ht & Ea).
  destruct (take_inv _ _ _ _ Ht Hi) as [Hi1 G1]. set (f := frame_addr (v_pmm vm) k) in *.
  pose proof (tk_range _ _ _ Ht) as Hk.
  destruct (map_page_ok (set_pmm vm s) tab va f w Hi1 Hn) as (vm1 & tab1 & E & R & L & F).
  { cbn. rewrite (tk_free _ _ _ Ht). lia. }
  cbn in F. rewrite (tk_free _ _ _ Ht) in F.
  change (leaf (set_pmm vm s) tab va) with (leaf vm tab va) in L. rewrite Hpr in L.
  pose proof (rt_inv _ _ _ _ _ _ R) as Hi2.
  assert (Hleaf : ∀ va', leaf vm1 tab1 va' = leaf vm tab va').
  { intros va'. destruct (decide (same_page va va')) as [[E1 E2]|Hne].
    - unfold leaf in L |- *. by rewrite E1, E2.
    - by rewrite (retains_translate_eq _ _ _ _ _ _ R Hne). }
  assert (Htr : ∀ va', translate vm1 tab1 va' = translate vm tab va') by (intros va'; unfold translate; by rewrite Hleaf).
  assert (Hnh : ∀ va', no_huge vm tab va' → no_huge vm1 tab1 va') by (intros va' Hv; by eapply retains_no_huge).
  assert (Hus : used s k = true) by (rewrite (tk_used _ _ _ Ht) by lia; by rewrite Z.eqb_refl, orb_true_r).
  assert (Ef : f = frame_addr (v_pmm (set_pmm vm s)) k)
    by (unfold f, frame_addr; cbn; by destruct (tk_layout _ _ _ Ht) as [_ ->]).
  assert (Hft : ∀ q, tab1 !! q ≠ Some f).
  { intros q. rewrite Ef. apply (grown_data _ _ _ _ _ _ (rt_grown _ _ _ _ _ _ R)); [lia|exact Hus|].
    rewrite <- Ef. apply unused_not_table; [done|lia|apply Ht]. }
  assert (Hf0 : f ≠ 0).
  { pose proof (sh_start _ (wf_shape _ Hwf)). unfold f, frame_addr, PAGE_SIZE. lia. }
  assert (Hfa : f `mod` 4096 = 0).
  { unfold f, frame_addr, PAGE_SIZE. rewrite Z.mod_add by done. apply Hi. }
  destruct (frame_write_inv vm1 tab1 f (λ x, v_mem vm1 (translate vm tab va + (x - f))) Hfa Hft Hi2)
    as (Hi3 & _ & Hl3 & Hh3).
  eexists _, tab1. split.
  { cbn [fork_pages]. rewrite (proj2 (Z.ltb_lt _ _)) by lia.
    assert (E1 : vm_allocate_frame vm = Ok (f, set_pmm vm s)) by (unfold vm_allocate_frame; by rewrite Ea).
    rewrite (bind_run _ _ _ _ _ E1), (proj2 (Z.eqb_neq f 0)) by done.
    assert (E2 : vm_map_page va f w (set_pmm vm s) = Ok (tt, vm1)) by (unfold vm_map_page; by rewrite E).
    rewrite (bind_run _ _ _ _ _ E2).
    assert (E3 : vm_get_physical_address va vm1 = Ok (translate vm tab va, vm1)).
    { unfold vm_get_physical_address. rewrite (get_physical_address_translate _ _ _ Hi2 (Hnh _ Hn)). by rewrite Htr. }
    rewrite (bind_run _ _ _ _ _ E3), (proj2 (Z.eqb_neq (translate vm tab va) 0)) by done.
    unfold copy_page. st. rewrite u64_small by lia. reflexivity. }
  split_and!; [exact Hi3| | | |cbn; lia|].
  - eapply grown_trans; [exact G1|]. destruct (rt_grown _ _ _ _ _ _ R) as [g1 g2 g3]. by constructor.
  - intros va'. by rewrite Hl3.
  - intros va' Hv. by apply Hh3, Hnh.
  - exists k. split; [lia|]. split; [apply Ht|]. split; [|done].
    apply (gr_used _ _ _ _ (rt_grown _ _ _ _ _ _ R)); [lia|done].
Qed.

Lemma owned_page_grown vm tab vm' tab' va :
  grown vm tab vm' tab' → (∀ va', leaf vm' tab' va' = leaf vm tab va') →
  (∀ va', no_huge vm tab va' → no_huge vm' tab' va') → owned_page vm tab va → owned_page vm' tab' va.
Proof.
  intros G Hl Hh (Hn & Hpr & k & Ek & Hk & Hu & Ht). destruct (gr_layout _ _ _ _ G) as [Htot Hst].
  assert (Ef : frame_addr (v_pmm vm') k = frame_addr (v_pmm vm) k) by (unfold frame_addr; by rewrite Hst).
  split; [by apply Hh|]. split; [by rewrite Hl|]. exists k. rewrite Ef. split_and!; [|lia|lia| |].
  - unfold translate. by rewrite Hl.
  - apply (gr_used _ _ _ _ G); [lia|done].
  - intros q. apply (grown_data _ _ _ _ _ _ G); [lia|done|done].
Qed.

(** Every translation is as it was, and [ks] numbers the frames taken besides. *)
Record forked vm tab vm' tab' (ks : list Z) : Prop := {
  fk_inv : vmm_inv vm' tab';
  fk_grown : grown vm tab vm' tab';
  fk_leaf va : leaf vm' tab' va = leaf vm tab va;
  fk_huge va : no_huge vm tab va → no_huge vm' tab' va;
  fk_nodup : NoDup ks;
  fk_frame k : k ∈ ks → 0 ≤ k < m_total_frames (v_pmm vm) ∧ used (v_pmm vm) k = false ∧
    used (v_pmm vm') k = true ∧ ∀ q, tab' !! q ≠ Some (frame_addr (v_pmm vm) k)
}.

Lemma fork_pages_ok n : ∀ i base w vm tab,
  vmm_inv vm tab → run_ok base i n → base + (i + Z.of_nat n) * 4096 < 2 ^ 64 →
  4 * Z.of_nat n ≤ m_free_frames (v_pmm vm) →
  (∀ j, i ≤ j < i + Z.of_nat n → owned_page vm tab (page base j)) →
  exists ks vm' tab', length ks = n ∧ forked vm tab vm' tab' ks ∧
    fork_pages (S n) (page base i) (page base (i + Z.of_nat n)) w vm = Ok (true, vm').
Proof.
  induction n as [|n IH]; intros i base w vm tab Hi Hrun Hle Hf Hown.
  { exists [], vm, tab. split_and!; [done| |].
    - constructor; [done|by apply grown_same|done|done|by constructor|set_solver].
    - cbn [fork_pages]. by rewrite Z.add_0_r, Z.ltb_irrefl. }
  pose proof Hrun as (Hb & Ha & H0 & _ & Hn).
  destruct (fork_page_ok vm tab (page base i) w (page base (i + Z.of_nat (S n))) (S n) Hi (Hown i ltac:(lia)))
    as (vm1 & tab1 & E1 & Hi1 & G1 & L1 & N1 & F1 & (k & Hk & Hku & Hk1 & Hkt)); [lia|unfold page; lia|unfold page; lia|].
  destruct (IH (i + 1) base w vm1 tab1) as (ks & vm' & tab' & Hlen & M & E);
    [done|by apply run_ok_next|lia|lia|intros j Hj; apply (owned_page_grown _ _ _ _ _ G1 L1 N1), Hown; lia|].
  destruct (gr_layout _ _ _ _ G1) as [Htot Hst].
  assert (Ef : ∀ j, frame_addr (v_pmm vm1) j = frame_addr (v_pmm vm) j) by (intros j; unfold frame_addr; by rewrite Hst).
  exists (k :: ks), vm', tab'. split_and!; [by cbn; rewrite Hlen| |].
  - constructor; [apply M|eapply grown_trans; [exact G1|apply M]| | | |].
    + intros va. by rewrite (fk_leaf _ _ _ _ _ M).
    + intros va Hva. by apply (fk_huge _ _ _ _ _ M), N1.
    + apply NoDup_cons. split; [|apply M]. intros Hin.
      destruct (fk_frame _ _ _ _ _ M k Hin) as (_ & Hu & _). congruence.
    + intros j [->|Hj]%elem_of_cons.
      * split_and!; [lia|lia|done|apply (gr_used _ _ _ _ (fk_grown _ _ _ _ _ M)); [lia|done]|].
        intros q. rewrite <- Ef. apply (grown_data _ _ _ _ _ _ (fk_grown _ _ _ _ _ M)); [lia|done|by rewrite Ef].
      * destruct (fk_frame _ _ _ _ _ M j Hj) as (Hjr & Hju & Hj1 & Hjt).
        split_and!; [lia|lia| |done|intros q; by rewrite <- Ef].
        eapply grown_unused; [exact G1|lia|done].
  - rewrite E1. replace (page base i + 4096) with (page base (i + 1)) by (unfold page; lia).
    by replace (i + Z.of_nat (S n)) with (i + 1 + Z.of_nat n) by lia.
Qed.

(** ** Values of calls *)

Lemma receive_value_ok s c :
  0 ≤ s < 2 ^ 31 → 0 ≤ c < 2 ^ 32 → receive_value s c = s * 2 ^ 32 + c.
Proof.
  intros Hs Hc. unfold receive_value. rewrite Z.shiftl_mul_pow2, u64_small, lor_add_pow by lia.
  apply i64_small. lia.
Qed.

Section calls.
Context `{ProgramFiles}.
Variable switch_context : Z → Z → K unit.
Variable store : Z → list Z → ST VirtualMemoryManager unit.
Variable mem : VirtualMemoryManager → Z → list Z.

Lemma with_current_run e f p k :
  m_current_process (k_pm k) = p → p ≠ 0 → with_current e f k = f p k.
Proof. intros E Hp. unfold with_current, get_current. st. by rewrite E, (proj2 (Z.eqb_neq p 0)). Qed.

Lemma quietly_run f r k k' : f k = Ok (r, k') → quietly f k = Ok (silent r, k').
Proof. intros E. unfold quietly. by rewrite (bind_run _ _ _ _ _ E). Qed.

(** The IPC manager with another content of one queue. *)
Definition ipc_with (qa : Z) (q : MessageQueue) (l : list IPCMessage) (m : IPCManager) : IPCManager :=
  set_ipc_queues (<[qa := set_messages l q]> (ipc_queues m)) m.

Lemma send_message_run (i : nat) qa q s data n k :
  ipc_wf (k_ipc k) → m_message_queues (k_ipc k) !! i = Some qa → qa ≠ 0 →
  ipc_queues (k_ipc k) !! qa = Some q → m_messages q = [] → m_waiting_processes q = [] →
  0 ≤ n ≤ MAX_MESSAGE_SIZE → n ≤ Z.of_nat (length data) →
  send_message (Z.of_nat i + 1) s data n k =
    Ok (true, with_messages qa q [Msg s (mc_ticks (k_machine k)) n (take (Z.to_nat n) data)] k).
Proof.
  intros Hwf Hi Hqa Hq Hm Hw Hn Hl. unfold send_message.
  rewrite (bind_run _ _ _ _ _ (lookup_queue_run _ _ _ Hwf Hi)), (proj2 (Z.eqb_neq qa 0)) by done.
  unfold mq_send_message. rewrite (bind_run _ _ _ _ _ (deref_mq_run _ _ _ Hq)). unfold is_full. rewrite Hm.
  cbn [length]. rewrite (proj2 (Z.leb_gt _ _)) by done. rewrite (proj2 (Z.ltb_ge _ _)) by lia. cbn [orb]. st.
  rewrite (proj2 (Z.ltb_ge _ _)) by lia.
  rewrite (bind_run _ _ _ _ _ (assign_messages_run _ _ _ _ Hq)). cbn [app].
  rewrite (bind_run _ _ _ _ _ (deref_mq_run _ _ _ (with_messages_lookup _ _ _ _))). cbn. by rewrite Hw.
Qed.

Lemma receive_message_run (i : nat) qa q m rest wait k :
  ipc_wf (k_ipc k) → m_message_queues (k_ipc k) !! i = Some qa → qa ≠ 0 →
  ipc_queues (k_ipc k) !! qa = Some q → m_messages q = m :: rest →
  receive_message switch_context (Z.of_nat i + 1) wait k = Ok (Some m, with_messages qa q rest k).
Proof.
  intros Hwf Hi Hqa Hq Hm. unfold receive_message.
  rewrite (bind_run _ _ _ _ _ (lookup_queue_run _ _ _ Hwf Hi)), (proj2 (Z.eqb_neq qa 0)) by done.
  unfold mq_receive_message, take_message. rewrite (bind_run _ _ _ _ _ (deref_mq_run _ _ _ Hq)), Hm.
  rewrite (bind_run _ _ _ _ _ (deref_mq_run _ _ _ Hq)), Hm.
  by rewrite (bind_run _ _ _ _ _ (assign_messages_run _ _ _ _ Hq)).
Qed.
End calls.

(** ** Claims *)

(** [C39] Every system call that returns, whatever its number and arguments,
    blocking receives, forks and program loads included, keeps the invariant of
    the message queues, provided the context switch and the file system do. *)
Theorem handle_keeps_ipc `{ProgramFiles} switch_context store mem c k r k' :
  quiet ipc_wf switch_context → ctx_ok c → ipc_wf (k_ipc k) →
  handle switch_context store mem c k = Ok (r, k') → ipc_wf (k_ipc k').
Proof. intros Q Hc Hk E. exact (handle_keeps_ipc_ok switch_context store mem Q c Hc k r k' Hk E). Qed.

(** A disk without files, for the examples. *)
#[local] Instance no_files : ProgramFiles := {
  find_file _ := mret None;
  read_file _ buffer _ := mret buffer
}.

Lemma no_files_quiet I : quiet I (λ _ _, mret tt).
Proof. constructor; intros; apply preserves_ret. Qed.

Definition null_store (va : Z) (l : list Z) : ST VirtualMemoryManager unit := mret tt.
Definition demo_mem (vm : VirtualMemoryManager) (a : Z) : list Z := if a =? 0x1000 then [0x71; 0x32; 0; 7] else [].

(** [k] after the call, for examples that return. *)
Definition demo_handle (c : SyscallContext) (k : Kernel) : outcome (reply * Kernel) :=
  handle (λ _ _, mret tt) null_store demo_mem c k.

Lemma handle_keeps_ipc_witness :
  exists k', demo_handle (Ctx 100 0x1000 0 0 0 0 0) (ipc_kernel [] Running) = Ok (silent 1, k') ∧
    m_message_queues (k_ipc k') = [2; 1] ∧ ipc_wf (k_ipc k').
Proof.
  assert (E : exists k', demo_handle (Ctx 100 0x1000 0 0 0 0 0) (ipc_kernel [] Running) = Ok (silent 1, k') ∧
    m_message_queues (k_ipc k') = [2; 1]) by (eexists; split; reflexivity).
  destruct E as (k' & E & Et). exists k'. split; [exact E|]. split; [exact Et|].
  refine (handle_keeps_ipc (λ _ _, mret tt) null_store demo_mem _ _ _ k' (no_files_quiet _) _ (ipc_kernel_wf [] Running) E).
  unfold ctx_ok, is_u64. cbn. lia.
Defined.

(** Numbers without an implementation behind them, and calls that need a
    current process with what they return without one. *)
Definition unimplemented (n : option SyscallNumber) : Prop :=
  n ∈ [None; Some SysRead; Some SysOpen; Some SysClose; Some SysMunmap; Some SysStat; Some SysFstat;
       Some SysLstat; Some SysPoll; Some SysLseek; Some SysMprotect].

Definition no_process_value (n : option SyscallNumber) : option Z :=
  match n with
  | Some (SysBrk | SysFork | SysExecve | SysMsgCreate | SysMsgDestroy | SysMsgOpen | SysMsgSend |
          SysMsgReceive | SysShmCreate | SysShmDestroy | SysShmDetach | SysSchedSetPriority) => Some (-1)
  | Some (SysShmAttach | SysExit) => Some 0
  | _ => None
  end.

(** [C40] A number that is unknown or not implemented returns -1, [mmap] returns
    null, and without a current process every call that needs one returns its
    error value; in all these cases nothing is changed and nothing printed. *)
Theorem handle_errors `{ProgramFiles} switch_context store mem c k :
  (unimplemented (syscall_of (c_rax c)) → handle switch_context store mem c k = Ok (silent (-1), k)) ∧
  (syscall_of (c_rax c) = Some SysMmap → handle switch_context store mem c k = Ok (silent 0, k)) ∧
  (m_current_process (k_pm k) = 0 → ∀ v, no_process_value (syscall_of (c_rax c)) = Some v →
     handle switch_context store mem c k = Ok (silent v, k)).
Proof.
  unfold handle. split; [|split].
  - unfold unimplemented. intros Hn. set_unfold. destruct_or! Hn; rewrite Hn; reflexivity.
  - intros ->. reflexivity.
  - intros H0 v Hv. destruct (syscall_of (c_rax c)) as [[]|]; cbn in Hv; simplify_eq;
      unfold quietly, sys_brk, sys_exit, sys_fork, sys_execve, sys_msg_create, sys_msg_destroy, sys_msg_open,
        sys_msg_send, sys_msg_receive, sys_shm_create, sys_shm_destroy, sys_shm_attach, sys_shm_detach,
        sys_sched_set_priority, with_current, get_current, mbind, st_bind, gets; rewrite H0; reflexivity.
Qed.

Definition idle_kernel : Kernel := with_pm (set_current_process 0) (ipc_kernel [] Running).

Lemma handle_errors_witness :
  demo_handle (Ctx 105 4096 0 0 0 0 0) idle_kernel = Ok (silent (-1), idle_kernel).
Proof.
  apply (handle_errors (λ _ _, mret tt) null_store demo_mem (Ctx 105 4096 0 0 0 0 0) idle_kernel); reflexivity.
Defined.

(** [C9] Sending through the system call and receiving it through the system
    call, from the same or another process: the first returns 0, the second
    stores the first bytes of the message at the receiver's buffer and returns
    the sender's identifier in the upper half and the number of bytes in the
    lower one; the queue is as it was before. *)
Theorem message_syscalls_roundtrip `{ProgramFiles} switch_context store mem k (i : nat) qa q p x data n :
  ipc_wf (k_ipc k) → m_message_queues (k_ipc k) !! i = Some qa → qa ≠ 0 →
  ipc_queues (k_ipc k) !! qa = Some q → m_messages q = [] → m_waiting_processes q = [] →
  m_current_process (k_pm k) = p → p ≠ 0 → pm_procs (k_pm k) !! p = Some x → 0 ≤ pid x < 2 ^ 31 →
  0 ≤ n ≤ MAX_MESSAGE_SIZE → n ≤ Z.of_nat (length (mem (mc_vmm (k_machine k)) data)) →
  exists k1, handle switch_context store mem (Ctx 103 (Z.of_nat i + 1) data n 0 0 0) k = Ok (silent 0, k1) ∧
    ∀ k2 buf max wait vm', k_ipc k2 = k_ipc k1 → m_current_process (k_pm k2) ≠ 0 → 0 ≤ max →
      store buf (take (Z.to_nat (Z.min n max)) (mem (mc_vmm (k_machine k)) data)) (mc_vmm (k_machine k2)) = Ok (tt, vm') →
      handle switch_context store mem (Ctx 104 (Z.of_nat i + 1) buf max wait 0 0) k2 =
        Ok (silent (pid x * 2 ^ 32 + Z.min n max),
            Kern (k_pm k2) (k_sched k2) (k_ipc k) (set_vmm vm' (k_machine k2))).
Proof.
  intros Hwf Hi Hqa Hq Hm Hw Hp Hp0 Hx Hpid Hn Hl. set (l := mem _ data) in *.
  pose proof (lookup_lt_Some _ _ _ Hi). pose proof (iw_max _ Hwf).
  assert (Hid : i32 (Z.of_nat i + 1) = Z.of_nat i + 1) by (apply i32_small; lia).
  set (m := Msg (pid x) (mc_ticks (k_machine k)) n (take (Z.to_nat n) l)).
  exists (with_messages qa q [m] k). split.
  - change (quietly (sys_msg_send mem (i32 (Z.of_nat i + 1)) data n) k = Ok (silent 0, with_messages qa q [m] k)).
    rewrite Hid. apply quietly_run. unfold sys_msg_send. rewrite (with_current_run _ _ _ _ Hp Hp0).
    rewrite (bind_run _ _ _ _ _ (deref_run _ _ _ Hx)). unfold mem_at. st. fold l.
    by rewrite (bind_run _ _ _ _ _ (send_message_run i qa q (pid x) l n k Hwf Hi Hqa Hq Hm Hw Hn Hl)).
  - intros k2 buf max wait vm' Hk2 Hc2 Hmax Hst.
    change (quietly (sys_msg_receive switch_context store (i32 (Z.of_nat i + 1)) buf max (negb (wait =? 0))) k2 =
      Ok (silent (pid x * 2 ^ 32 + Z.min n max), Kern (k_pm k2) (k_sched k2) (k_ipc k) (set_vmm vm' (k_machine k2)))).
    rewrite Hid. apply quietly_run. unfold sys_msg_receive. rewrite (with_current_run _ _ _ _ eq_refl Hc2).
    assert (Hq2 : ipc_queues (k_ipc k2) !! qa = Some (set_messages [m] q)) by (rewrite Hk2; apply with_messages_lookup).
    assert (Hwf2 : ipc_wf (k_ipc k2)).
    { rewrite Hk2. apply (ipc_wf_update _ _ q); [done|done|done|]. split; [cbn; unfold MAX_MESSAGES_PER_QUEUE; lia|].
      apply Forall_singleton. split; [done|]. cbn. rewrite length_take. lia. }
    rewrite (bind_run _ _ _ _ _ (receive_message_run switch_context i qa _ m [] (negb (wait =? 0)) k2 Hwf2
      ltac:(by rewrite Hk2) Hqa Hq2 eq_refl)).
    assert (Ec : (if msg_size m <? max then msg_size m else max) = Z.min n max).
    { cbn. destruct (Z.ltb_spec n max); lia. }
    rewrite Ec. cbn [msg_data m]. rewrite take_take.
    replace (Z.to_nat (Z.min n max) `min` Z.to_nat n)%nat with (Z.to_nat (Z.min n max)) by lia.
    set (k3 := with_messages qa (set_messages [m] q) [] k2).
    rewrite (bind_run _ _ _ _ _ (on_vmm_run _ tt vm' k3 Hst)). unfold MAX_MESSAGE_SIZE in Hn.
    rewrite (receive_value_ok (pid x)) by (cbn; lia). unfold mret, st_ret. f_equal. f_equal.
    enough (k_ipc k3 = k_ipc k) as E3 by (by unfold with_machine; rewrite E3).
    cbn. rewrite Hk2. unfold set_ipc_queues. cbn. rewrite insert_insert_eq.
    replace (set_messages [] (set_messages [m] q)) with q by (destruct q; cbn in *; by subst).
    destruct (k_ipc k); cbn in *. by rewrite insert_id.
Qed.

Definition empty_queue_kernel : Kernel :=
  with_pm (set_procs {[2 := boot_proc 6 []]}) (with_messages 1 (MQ 7 [0x71] [one_message] []) [] (ipc_kernel [] Running)).

Lemma message_syscalls_roundtrip_witness :
  exists k1, demo_handle (Ctx 103 2 0x1000 3 0 0 0) empty_queue_kernel = Ok (silent 0, k1) ∧
    demo_handle (Ctx 104 2 0x2000 2 0 0 0) k1 = Ok (silent (6 * 2 ^ 32 + 2), empty_queue_kernel).
Proof.
  destruct (message_syscalls_roundtrip (λ _ _, mret tt) null_store demo_mem empty_queue_kernel 1 1
    (MQ 7 [0x71] [] []) 2 (boot_proc 6 []) 0x1000 3) as (k1 & E1 & E2); try done.
  - apply (ipc_wf_update _ 1 (MQ 7 [0x71] [one_message] [])); [apply ipc_kernel_wf|done|done|].
    split; [done|by constructor].
  - exists k1. split; [exact E1|].
    assert (Ek : k1 = with_messages 1 (MQ 7 [0x71] [] []) [Msg 6 0 3 [0x71; 0x32; 0]] empty_queue_kernel).
    { assert (E3 : demo_handle (Ctx 103 2 0x1000 3 0 0 0) empty_queue_kernel =
        Ok (silent 0, with_messages 1 (MQ 7 [0x71] [] []) [Msg 6 0 3 [0x71; 0x32; 0]] empty_queue_kernel)) by reflexivity.
      change (demo_handle (Ctx 103 2 0x1000 3 0 0 0) empty_queue_kernel = Ok (silent 0, k1)) in E1. congruence. }
    etransitivity; [apply (E2 k1 0x2000 2 0 (mc_vmm (k_machine k1))); [done|by subst k1|done|by subst k1]|].
    by subst k1.
Defined.

(** Only process 1 and the process itself may change a priority: any other
    attempt returns -1 and changes nothing; a permitted one returns 0, sets the
    priority of the process of that identifier to the value, at most 10, and
    nothing else, and the priority can then be read back. *)
Theorem set_priority_spec `{ProgramFiles} switch_context store mem k p x pid_ v :
  table_wf (k_pm k) → m_current_process (k_pm k) = p → p ≠ 0 → pm_procs (k_pm k) !! p = Some x →
  0 ≤ pid_ < 2 ^ 31 →
  let call n := handle switch_context store mem (Ctx n pid_ v 0 0 0 0) in
  (pid_ ≠ pid x → pid x ≠ 1 → call 121 k = Ok (silent (-1), k)) ∧
  (pid_ = pid x ∨ pid x = 1 →
    ((∀ q, ¬ is_process k pid_ q) → call 121 k = Ok (silent 0, k)) ∧
    (∀ q y, is_process k pid_ q → pm_procs (k_pm k) !! q = Some y →
       exists k', call 121 k = Ok (silent 0, k') ∧
         k' = with_pm (set_procs (<[q := set_priority (Z.min 10 (u8 v)) y]> (pm_procs (k_pm k)))) k ∧
         call 122 k' = Ok (silent (Z.min 10 (u8 v)), k'))).
Proof.
  intros Ht Hp Hp0 Hx Hpid call. assert (Hid : i32 pid_ = pid_) by (apply i32_small; lia).
  assert (E121 : call 121 k = quietly (sys_sched_set_priority pid_ (u8 v)) k) by (by rewrite <- Hid).
  assert (Hset : ∀ r k', (if negb (pid_ =? pid x) && negb (pid x =? 1) then mret (-1) else
      set_process_priority get_process pid_ (u8 v);; mret 0) k = Ok (r, k') → call 121 k = Ok (silent r, k')).
  { intros r k' E. rewrite E121. apply quietly_run. unfold sys_sched_set_priority.
    by rewrite (with_current_run _ _ _ _ Hp Hp0), (bind_run _ _ _ _ _ (deref_run _ _ _ Hx)). }
  split.
  { intros H1 H2. apply Hset. by rewrite (proj2 (Z.eqb_neq _ _)), (proj2 (Z.eqb_neq _ _)). }
  intros Hperm. assert (Hb : negb (pid_ =? pid x) && negb (pid x =? 1) = false).
  { destruct Hperm as [->| ->]; [by rewrite Z.eqb_refl|by rewrite andb_false_r]. }
  assert (Hmin : (if 10 <? u8 v then 10 else u8 v) = Z.min 10 (u8 v)) by (destruct (Z.ltb_spec 10 (u8 v)); lia).
  rewrite Hb in Hset. unfold set_process_priority in Hset. rewrite Hmin in Hset.
  destruct (get_process_ok k pid_ Ht) as (g & Eg & Hg). split.
  - intros Hno. destruct Hg as [[-> _]|[_ Hg]]; [|by destruct (Hno g)]. apply Hset.
    unfold mbind, st_bind. by rewrite Eg.
  - intros q y Hq Hy. destruct Hg as [[-> Hno]|[Hg0 Hg]]; [by destruct (Hno q)|].
    assert (g = q) as -> by (by apply (is_process_unique k pid_)).
    eexists. split; [|split; [reflexivity|]].
    + apply Hset. unfold mbind, st_bind. rewrite Eg, (proj2 (Z.eqb_neq q 0)), (assign_run _ _ _ _ Hy) by done. done.
    + set (f := set_priority (Z.min 10 (u8 v))). set (k' := with_pm _ k).
      change (quietly (sys_sched_get_priority (i32 pid_)) k' = Ok (silent (Z.min 10 (u8 v)), k')). rewrite Hid.
      apply quietly_run. unfold sys_sched_get_priority.
      assert (Ht' : table_wf (k_pm k')).
      { pose proof (table_wf_alter (k_pm k) q f (λ _, eq_refl) Ht) as Ha. cbn.
        replace (<[q := f y]> (pm_procs (k_pm k))) with (alter f q (pm_procs (k_pm k))); [done|].
        apply map_eq. intros j. destruct (decide (q = j)) as [->|].
        - by rewrite lookup_alter_eq, lookup_insert_eq, Hy.
        - by rewrite lookup_alter_ne, lookup_insert_ne. }
      assert (Hq' : is_process k' pid_ q).
      { destruct Hq as [Hin (y' & Hy' & Ey)]. split; [done|]. exists (f y). split; [cbn; apply lookup_insert_eq|].
        by simplify_eq. }
      destruct (get_process_ok k' pid_ Ht') as (g' & Eg' & [[-> Hno]|[Hg0' Hg']]); [by destruct (Hno q)|].
      assert (g' = q) as -> by (by apply (is_process_unique k' pid_)).
      rewrite (bind_run _ _ _ _ _ Eg'), (proj2 (Z.eqb_neq q 0)) by done.
      assert (Hy' : pm_procs (k_pm k') !! q = Some (f y)) by apply lookup_insert_eq.
      by rewrite (bind_run _ _ _ _ _ (deref_run _ _ _ Hy')).
Qed.

Definition two_kernel : Kernel := kernel_on demo_machine two_procs 2.

Lemma set_priority_spec_witness :
  exists k', demo_handle (Ctx 121 2 200 0 0 0 0) two_kernel = Ok (silent 0, k') ∧
    demo_handle (Ctx 122 2 200 0 0 0 0) k' = Ok (silent 10, k') ∧
    demo_handle (Ctx 121 3 9 0 0 0 0) two_kernel = Ok (silent (-1), two_kernel).
Proof.
  pose proof (set_priority_spec (λ _ _, mret tt) null_store demo_mem two_kernel 2 (boot_proc 2 []) 2 200) as P2.
  pose proof (set_priority_spec (λ _ _, mret tt) null_store demo_mem two_kernel 2 (boot_proc 2 []) 3 9) as P3.
  destruct P2 as [_ [_ P2]]; [exact two_procs_table|done|done|done|lia|by left|].
  destruct P3 as [P3 _]; [exact two_procs_table|done|done|done|lia|].
  destruct (P2 2 (boot_proc 2 [])) as (k' & E1 & _ & E2); [|done|].
  { split; [change (2 ∈ [2; 3]); by left|by exists (boot_proc 2 [])]. }
  exists k'. split; [exact E1|]. split; [exact E2|]. by apply P3.
Defined.

(** The page loop of [sys_fork] takes one fresh frame for every page of the
    parent's region but maps none of them: the parent's page is already mapped,
    so [map_page] leaves its entry alone, and afterwards every address
    translates as before.  The child's region is the parent's own memory, and
    the frames with the copies are in use and reachable from no page table. *)
Theorem fork_pages_spec n i base w vm tab :
  vmm_inv vm tab → run_ok base i n → base + (i + Z.of_nat n) * 4096 < 2 ^ 64 →
  4 * Z.of_nat n ≤ m_free_frames (v_pmm vm) →
  (∀ j, i ≤ j < i + Z.of_nat n → owned_page vm tab (page base j)) →
  exists ks vm' tab', length ks = n ∧ forked vm tab vm' tab' ks ∧
    fork_pages (S n) (page base i) (page base (i + Z.of_nat n)) w vm = Ok (true, vm').
Proof. apply fork_pages_ok. Qed.

(** A page mapped by [map_loop] is owned. *)
Lemma mapped_owned vm tab vm' tab' base i fs (j : nat) f :
  mapped vm tab vm' tab' base i fs → pmm_wf (v_pmm vm) → no_huge vm tab (page base (i + Z.of_nat j)) →
  fs !! j = Some f → owned_page vm' tab' (page base (i + Z.of_nat j)).
Proof.
  intros M Hwf Hn Hj. pose proof (mp_translate _ _ _ _ _ _ _ M _ _ Hj) as Ht.
  assert (Hin : f ∈ fs) by (by eapply list_elem_of_lookup_2).
  destruct (mp_frame _ _ _ _ _ _ _ M f Hin) as (k & Ef & Hk & _ & Hu).
  destruct (gr_layout _ _ _ _ (mp_grown _ _ _ _ _ _ _ M)) as [Htot Hst].
  assert (Ef' : frame_addr (v_pmm vm') k = f) by (rewrite Ef; unfold frame_addr; by rewrite Hst).
  split; [by apply (mp_huge _ _ _ _ _ _ _ M)|]. split.
  - unfold translate in Ht. destruct (present _); [done|]. exfalso.
    pose proof (sh_start _ (wf_shape _ Hwf)). rewrite Ef in Ht. unfold frame_addr, PAGE_SIZE in Ht. lia.
  - exists k. rewrite Ef'. split_and!; [done|lia|lia|done|]. intros q. by apply (mp_data _ _ _ _ _ _ _ M).
Qed.

Lemma fork_pages_spec_witness :
  exists vm tab ks vm' tab', length ks = 1%nat ∧ forked vm tab vm' tab' ks ∧
    fork_pages 2 heap_page (heap_page + 4096) true vm = Ok (true, vm').
Proof.
  destruct (vmm_booted_tables 64) as (tab0 & B & F); [lia|].
  assert (Hm : mappable (vmm_booted 64) tab0 (page heap_page 0)).
  { apply (boot_mappable _ _ _ B). vm_compute. by intros (_ & _ & ?). }
  destruct (map_one_ok (vmm_booted 64) tab0 (page heap_page 0) true (bt_inv _ _ B) Hm) as (f & s & vm & tab & _ & _ & _ & M & Hf & _); [lia|].
  pose proof (mapped_owned _ _ _ _ _ _ _ 0 f M (vi_pmm _ _ (bt_inv _ _ B)) (proj1 Hm) eq_refl) as Hown.
  exists vm, tab.
  apply (fork_pages_spec 1 0 heap_page true vm tab).
  - apply M.
  - by vm_compute.
  - by vm_compute.
  - lia.
  - intros j Hj. replace j with 0 by lia. exact Hown.
Defined.
