(* ===== verification/Terminal.v ===== *)
(** * The text screen (src/kernel/src/shell/{vga,terminal,screen_state}.{hpp,cpp})

    The cells of the text screen, the print position and colour, and the cursor
    registers of the display controller; writing a character, scrolling,
    clearing, saving and restoring.  A character is a byte; [char] is signed.
    The screen is the 80 by 25 cells: an access outside them is undefined. *)

From S2P Require Import Prelude.

Definition VGA_WIDTH : Z := 80.
Definition VGA_HEIGHT : Z := 25.
Definition SCREEN_SIZE : Z := VGA_WIDTH * VGA_HEIGHT.
Definition VGA_COLOR_BLACK : Z := 0.
Definition VGA_COLOR_WHITE : Z := 15.

(** What [screen_state::save] keeps, and the terminal.  The controller's registers
    are the cursor location (14 and 15) and the cursor start and end (10 and 11).
    [color_saved] is the shell's [saved_terminal_color]. *)
Record SavedScreen := Saved {
  saved_screen : list Z; saved_terminal_row : Z; saved_terminal_column : Z; saved_terminal_color : Z
}.

Record Terminal := Term {
  VGA_MEMORY : list Z;
  terminal_row : Z;
  terminal_column : Z;
  terminal_color : Z;
  crtc_location : Z;
  crtc_start : Z;
  crtc_end : Z;
  screen_saved : SavedScreen;
  color_saved : Z
}.

Abbreviation TM := (ST Terminal).

Definition set_vga (v : list Z) (t : Terminal) : Terminal :=
  Term v (terminal_row t) (terminal_column t) (terminal_color t) (crtc_location t) (crtc_start t) (crtc_end t) (screen_saved t) (color_saved t).
Definition set_position (row col : Z) (t : Terminal) : Terminal :=
  Term (VGA_MEMORY t) row col (terminal_color t) (crtc_location t) (crtc_start t) (crtc_end t) (screen_saved t) (color_saved t).
Definition set_color (c : Z) (t : Terminal) : Terminal :=
  Term (VGA_MEMORY t) (terminal_row t) (terminal_column t) c (crtc_location t) (crtc_start t) (crtc_end t) (screen_saved t) (color_saved t).
Definition set_location (p : Z) (t : Terminal) : Terminal :=
  Term (VGA_MEMORY t) (terminal_row t) (terminal_column t) (terminal_color t) p (crtc_start t) (crtc_end t) (screen_saved t) (color_saved t).
Definition set_shape (a b : Z) (t : Terminal) : Terminal :=
  Term (VGA_MEMORY t) (terminal_row t) (terminal_column t) (terminal_color t) (crtc_location t) a b (screen_saved t) (color_saved t).
Definition set_color_saved (c : Z) (t : Terminal) : Terminal :=
  Term (VGA_MEMORY t) (terminal_row t) (terminal_column t) (terminal_color t) (crtc_location t) (crtc_start t) (crtc_end t) (screen_saved t) c.
Definition set_saved (s : SavedScreen) (t : Terminal) : Terminal :=
  Term (VGA_MEMORY t) (terminal_row t) (terminal_column t) (terminal_color t) (crtc_location t) (crtc_start t) (crtc_end t) s (color_saved t).

(** ** vga.cpp *)

Definition i8 (c : Z) : Z := if c <? 128 then c else c - 256.

(** A [char] is sign-extended: from 128 on it fills the colour with ones. *)
Definition vga_entry (c color : Z) : Z := Z.lor (u16 (i8 c)) (Z.shiftl color 8).
Definition vga_color (fg bg : Z) : Z := u8 (Z.lor fg (Z.shiftl bg 4)).

Definition update_cursor : TM unit :=
  pos ← gets (λ t, u16 (terminal_row t * VGA_WIDTH + terminal_column t));
  v ← gets VGA_MEMORY;
  c ← lift (aget v pos);
  v ← lift (aset v pos (Z.lor (Z.land c 0x0FFF) (Z.shiftl VGA_COLOR_BLACK 12)));
  modify (set_vga v);;
  modify (set_location pos);;
  modify (set_shape 0x0E 0x0F).

Definition update_cursor_position (x y : Z) : TM unit :=
  modify (set_location (u16 (u16 y * VGA_WIDTH + u16 x))).

Definition cursor_initialize : TM unit := modify (set_shape 0x0E 0x0F).
Definition hide_cursor : TM unit := modify (λ t, set_shape 0x20 (crtc_end t) t).
Definition show_cursor : TM unit := cursor_initialize.

(** ** terminal.cpp *)

Definition BLANK : Z := vga_entry 0x20 (vga_color VGA_COLOR_WHITE VGA_COLOR_BLACK).

(** The loops over x in a row, and over the rows. *)
Fixpoint fill_row (n : nat) (x y c : Z) (v : list Z) : outcome (list Z) :=
  match n with
  | O => Ok v
  | S n' => v ← aset v (u16 (y * VGA_WIDTH + x)) c; fill_row n' (x + 1) y c v
  end.

Fixpoint fill_rows (n : nat) (y c : Z) (v : list Z) : outcome (list Z) :=
  match n with
  | O => Ok v
  | S n' => v ← fill_row (Z.to_nat VGA_WIDTH) 0 y c v; fill_rows n' (y + 1) c v
  end.

Fixpoint copy_row (n : nat) (x y : Z) (v : list Z) : outcome (list Z) :=
  match n with
  | O => Ok v
  | S n' =>
      c ← aget v (u16 ((y + 1) * VGA_WIDTH + x));
      v ← aset v (u16 (y * VGA_WIDTH + x)) c;
      copy_row n' (x + 1) y v
  end.

Fixpoint copy_rows (n : nat) (y : Z) (v : list Z) : outcome (list Z) :=
  match n with
  | O => Ok v
  | S n' => v ← copy_row (Z.to_nat VGA_WIDTH) 0 y v; copy_rows n' (y + 1) v
  end.

Definition terminal_initialize : TM unit :=
  modify (λ t, set_color (vga_color VGA_COLOR_WHITE VGA_COLOR_BLACK) (set_position 0 0 t));;
  c ← gets (λ t, vga_entry 0x20 (terminal_color t));
  v ← gets VGA_MEMORY;
  v ← lift (fill_rows (Z.to_nat VGA_HEIGHT) 0 c v);
  modify (set_vga v);;
  cursor_initialize;;
  update_cursor.

Definition terminal_clear : TM unit := terminal_initialize.

Definition terminal_putchar_at (c color x y : Z) : TM unit :=
  v ← gets VGA_MEMORY;
  v ← lift (aset v (u16 (u16 y * VGA_WIDTH + u16 x)) (vga_entry c color));
  modify (set_vga v).

(** The part both branches of [terminal_putchar] share: the next row, scrolling
    when the last one is full. *)
Definition next_row : TM unit :=
  modify (λ t, set_position (u16 (terminal_row t + 1)) 0 t);;
  row ← gets terminal_row;
  if row =? VGA_HEIGHT then
    v ← gets VGA_MEMORY;
    v ← lift (copy_rows (Z.to_nat (VGA_HEIGHT - 1)) 0 v);
    v ← lift (fill_row (Z.to_nat VGA_WIDTH) 0 (VGA_HEIGHT - 1) BLANK v);
    modify (set_vga v);;
    modify (set_position (VGA_HEIGHT - 1) 0)
  else mret tt.

Definition terminal_putchar (c : Z) : TM unit :=
  if c =? 0x0A then next_row;; update_cursor else
  color ← gets terminal_color;
  col ← gets terminal_column;
  row ← gets terminal_row;
  terminal_putchar_at c color col row;;
  modify (λ t, set_position (terminal_row t) (u16 (terminal_column t + 1)) t);;
  col ← gets terminal_column;
  (if col =? VGA_WIDTH then next_row else mret tt);;
  update_cursor.

(** A text written character by character. *)
Fixpoint print (l : list Z) : TM unit :=
  match l with
  | [] => mret tt
  | c :: l => terminal_putchar c;; print l
  end.

(** ** screen_state.cpp *)

Definition screen_init : TM unit :=
  modify (set_saved (Saved (replicate (Z.to_nat SCREEN_SIZE) 0) 0 0 0)).

Definition screen_save : TM unit :=
  modify (λ t, set_saved (Saved (take (Z.to_nat SCREEN_SIZE) (VGA_MEMORY t)) (terminal_row t)
                            (terminal_column t) (terminal_color t)) t).

Definition screen_restore : TM unit :=
  s ← gets screen_saved;
  modify (set_vga (saved_screen s));;
  modify (set_position (saved_terminal_row s) (saved_terminal_column s));;
  modify (set_color (saved_terminal_color s));;
  update_cursor.

(** ** The screen as a line of cells

    The specification: the cells, and the number of the cell the next character
    goes to. *)
Definition CELLS : nat := 2000.

Definition scrolled (v : list Z) : list Z := drop 80 v ++ replicate 80 BLANK.

(** The background of the cell under the cursor is made black. *)
Definition cursor_at (p : Z) (v : list Z) : list Z := alter (λ c, Z.land c 0x0FFF) (Z.to_nat p) v.

Definition new_row (v : list Z) (p : Z) : list Z * Z :=
  if p =? 2000 then (scrolled v, 1920) else (v, p).

Definition put_cell (color : Z) (vp : list Z * Z) (c : Z) : list Z * Z :=
  let '(v, p) := vp in
  let '(v, p) :=
    if c =? 0x0A then new_row v ((p / 80 + 1) * 80)
    else new_row (<[Z.to_nat p := vga_entry c color]> v) (p + 1) in
  (cursor_at p v, p).

Record term_wf (t : Terminal) : Prop := {
  tm_cells : length (VGA_MEMORY t) = CELLS;
  tm_row : 0 ≤ terminal_row t < VGA_HEIGHT;
  tm_col : 0 ≤ terminal_column t < VGA_WIDTH
}.

Definition position (t : Terminal) : Z := terminal_row t * VGA_WIDTH + terminal_column t.

(** The terminal that shows [v] with the next character at [p]. *)
Definition shows (t : Terminal) (vp : list Z * Z) : Terminal :=
  Term vp.1 (vp.2 / 80) (vp.2 mod 80) (terminal_color t) vp.2 0x0E 0x0F (screen_saved t) (color_saved t).

Lemma position_range t : term_wf t → 0 ≤ position t < 2000.
Proof. intros [_ ? ?]. unfold position, VGA_WIDTH, VGA_HEIGHT in *. lia. Qed.

Lemma position_div t : term_wf t → position t / 80 = terminal_row t ∧ position t mod 80 = terminal_column t.
Proof.
  intros [_ ? ?]. unfold position, VGA_WIDTH, VGA_HEIGHT in *. split.
  - symmetry. apply (Z.div_unique _ 80 _ (terminal_column t)); lia.
  - symmetry. apply (Z.mod_unique _ 80 (terminal_row t)); lia.
Qed.

(** *** The loops *)

Lemma fill_row_ok n : ∀ x y c v, 0 ≤ x → 0 ≤ y → y * 80 + x + Z.of_nat n ≤ 2000 → length v = CELLS →
  fill_row n x y c v =
  Ok (take (Z.to_nat (y * 80 + x)) v ++ replicate n c ++ drop (Z.to_nat (y * 80 + x) + n) v).
Proof.
  induction n as [|n IH]; intros x y c v Hx Hy Hle Hl; cbn [fill_row].
  { by rewrite Nat.add_0_r, app_nil_l, take_drop. }
  unfold CELLS in *. unfold VGA_WIDTH. rewrite u16_small, aset_Ok, bind_Ok by lia.
  rewrite IH by (rewrite ?length_insert; lia). f_equal. set (i := Z.to_nat (y * 80 + x)).
  replace (Z.to_nat (y * 80 + (x + 1))) with (S i) by lia.
  rewrite (take_S_r _ _ c) by (apply list_lookup_insert_eq; lia).
  rewrite take_insert_ge, drop_insert_lt by lia. cbn [replicate]. rewrite <- app_assoc.
  replace (i + S n)%nat with (S i + n)%nat by lia. done.
Qed.

Lemma fill_rows_ok n : ∀ y c v, 0 ≤ y → (y + Z.of_nat n) * 80 ≤ 2000 → length v = CELLS →
  fill_rows n y c v =
  Ok (take (Z.to_nat (y * 80)) v ++ replicate (n * 80) c ++ drop (Z.to_nat (y * 80) + n * 80) v).
Proof.
  induction n as [|n IH]; intros y c v Hy Hle Hl; cbn [fill_rows].
  { by rewrite Nat.add_0_r, app_nil_l, take_drop. }
  change (Z.to_nat VGA_WIDTH) with 80%nat. rewrite fill_row_ok by lia. rewrite bind_Ok, Z.add_0_r.
  set (i := Z.to_nat (y * 80)). unfold CELLS in *.
  set (w := take i v ++ replicate 80 c ++ drop (i + 80) v).
  assert (Hw : length w = 2000%nat).
  { unfold w. rewrite !length_app, length_take, length_replicate, length_drop. lia. }
  rewrite IH by (done || lia). f_equal. replace (Z.to_nat ((y + 1) * 80)) with (i + 80)%nat by lia.
  assert (Ht : take (i + 80) w = take i v ++ replicate 80 c).
  { unfold w. rewrite app_assoc, take_app_length'; [done|].
    rewrite length_app, length_take, length_replicate. lia. }
  assert (Hd : ∀ k, drop (i + 80 + k) w = drop (i + 80 + k) v).
  { intros k. unfold w. rewrite app_assoc, <- drop_drop, drop_app_length'.
    - by rewrite drop_drop.
    - rewrite length_app, length_take, length_replicate. lia. }
  rewrite Ht, Hd. change (S n * 80)%nat with (80 + n * 80)%nat. rewrite replicate_add, <- !app_assoc.
  do 4 f_equal. lia.
Qed.

(** The first [i] cells copied from the row below. *)
Definition shifted (v : list Z) (i : nat) : list Z := take i (drop 80 v) ++ drop i v.

Lemma shifted_length v i : length v = CELLS → (i ≤ 1920)%nat → length (shifted v i) = CELLS.
Proof.
  unfold CELLS. intros Hv Hi. unfold shifted. rewrite length_app, length_take, !length_drop. lia.
Qed.

Lemma shifted_step v i c : length v = CELLS → (i < 1920)%nat → v !! (80 + i)%nat = Some c →
  <[i := c]> (shifted v i) = shifted v (S i).
Proof.
  unfold CELLS. intros Hv Hi Hc. unfold shifted.
  rewrite (take_S_r _ i c) by (by rewrite lookup_drop).
  rewrite (drop_S v (default 0 (v !! i)) i).
  - assert (Hl : length (take i (drop 80 v)) = i) by (rewrite length_take, length_drop; lia).
    rewrite <- Hl at 1. replace (length (take i (drop 80 v))) with (length (take i (drop 80 v)) + 0)%nat by lia.
    rewrite insert_app_r. cbn. by rewrite <- app_assoc.
  - destruct (lookup_lt_is_Some_2 v i) as [x Hx]; [lia|]. by rewrite Hx.
Qed.

Lemma shifted_lookup v i : length v = CELLS → (i < 1920)%nat → shifted v i !! (80 + i)%nat = v !! (80 + i)%nat.
Proof.
  unfold CELLS. intros Hv Hi. unfold shifted.
  assert (Hl : length (take i (drop 80 v)) = i) by (rewrite length_take, length_drop; lia).
  rewrite lookup_app_r by lia. rewrite Hl, lookup_drop. f_equal. lia.
Qed.

Lemma copy_row_ok n : ∀ x y v i, 0 ≤ x → 0 ≤ y → y * 80 + x = Z.of_nat i → (i + n ≤ 1920)%nat → length v = CELLS →
  copy_row n x y (shifted v i) = Ok (shifted v (i + n)).
Proof.
  induction n as [|n IH]; intros x y v i Hx Hy Hi Hle Hl; cbn [copy_row].
  { by rewrite Nat.add_0_r. }
  pose proof (shifted_length v i Hl ltac:(lia)) as Hsl. unfold VGA_WIDTH. rewrite !u16_small by lia.
  destruct (lookup_lt_is_Some_2 v (80 + i)) as [c Hc]; [unfold CELLS in *; lia|].
  replace ((y + 1) * 80 + x) with (Z.of_nat (80 + i)) by lia.
  rewrite (aget_lookup _ _ c) by (rewrite shifted_lookup by (done || lia); done). rewrite bind_Ok.
  rewrite Hi, aset_Ok, bind_Ok, Nat2Z.id by (unfold CELLS in *; lia).
  rewrite (shifted_step v i c Hl) by (done || lia). rewrite (IH (x + 1) y v (S i)) by lia.
  do 2 f_equal. lia.
Qed.

Lemma copy_rows_ok n : ∀ y v, 0 ≤ y → (Z.to_nat y + n ≤ 24)%nat → length v = CELLS →
  copy_rows n y (shifted v (Z.to_nat y * 80)) = Ok (shifted v ((Z.to_nat y + n) * 80)).
Proof.
  induction n as [|n IH]; intros y v Hy Hle Hl; cbn [copy_rows].
  { by rewrite Nat.add_0_r. }
  change (Z.to_nat VGA_WIDTH) with 80%nat. rewrite copy_row_ok by lia. rewrite bind_Ok.
  replace (Z.to_nat y * 80 + 80)%nat with (Z.to_nat (y + 1) * 80)%nat by lia.
  rewrite (IH (y + 1) v) by lia. do 3 f_equal. lia.
Qed.

Lemma scroll_ok v : length v = CELLS →
  exists w, copy_rows 24 0 v = Ok w ∧ fill_row 80 0 24 BLANK w = Ok (scrolled v).
Proof.
  intros Hl. pose proof (copy_rows_ok 24 0 v ltac:(lia) ltac:(done) Hl) as E. cbn [Z.to_nat Nat.mul] in E.
  change (shifted v 0) with v in E. exists (shifted v 1920). split; [exact E|].
  rewrite fill_row_ok by (done || by apply shifted_length). f_equal. change (Z.to_nat (24 * 80 + 0)) with 1920%nat.
  unfold shifted, scrolled. assert (Hd : length (drop 80 v) = 1920%nat) by (rewrite length_drop; unfold CELLS in *; lia).
  rewrite (firstn_all2 (drop 80 v)) by lia. rewrite <- Hd at 1. rewrite take_app_length. f_equal.
  rewrite (drop_ge (_ ++ _)); [by rewrite app_nil_r|]. rewrite length_app, !length_drop. unfold CELLS in *. lia.
Qed.

(** *** The operations *)

Lemma aset_cell t c : term_wf t →
  aset (VGA_MEMORY t) (position t) c = Ok (<[Z.to_nat (position t) := c]> (VGA_MEMORY t)).
Proof. intros Hwf. pose proof (position_range t Hwf). apply aset_Ok. rewrite (tm_cells t Hwf). unfold CELLS. lia. Qed.

Lemma update_cursor_ok t : term_wf t →
  update_cursor t = Ok (tt, shows t (cursor_at (position t) (VGA_MEMORY t), position t)).
Proof.
  intros Hwf. pose proof (position_range t Hwf) as Hp. destruct (position_div t Hwf) as [Ed Em].
  unfold update_cursor. st. fold (position t). rewrite u16_small by lia.
  destruct (lookup_lt_is_Some_2 (VGA_MEMORY t) (Z.to_nat (position t))) as [c Hc].
  { rewrite (tm_cells t Hwf). unfold CELLS. lia. }
  assert (Eg : aget (VGA_MEMORY t) (position t) = Ok c) by (apply aget_Ok; split; [lia|done]).
  rewrite (bind_lift _ _ _ _ Eg).
  rewrite (bind_lift _ _ _ _ (aset_cell t _ Hwf)). st.
  assert (Ev : <[Z.to_nat (position t) := Z.lor (Z.land c 0x0FFF) (Z.shiftl VGA_COLOR_BLACK 12)]> (VGA_MEMORY t) =
    cursor_at (position t) (VGA_MEMORY t)); [|unfold modify, shows; cbn [fst snd]; rewrite Ev, Ed, Em; done].
  unfold cursor_at. rewrite Z.lor_0_r. apply list_eq. intros j. destruct (decide (j = Z.to_nat (position t))) as [->|Hne].
  - rewrite list_lookup_insert_eq by (rewrite (tm_cells t Hwf); unfold CELLS; lia). by rewrite list_lookup_alter_eq, Hc.
  - by rewrite list_lookup_insert_ne, list_lookup_alter_ne.
Qed.

(** [next_row] leaves the print position of the specification. *)
Lemma next_row_ok t : term_wf t →
  exists t', next_row t = Ok (tt, t') ∧ term_wf t' ∧
    (VGA_MEMORY t', position t') = new_row (VGA_MEMORY t) ((terminal_row t + 1) * 80) ∧
    terminal_color t' = terminal_color t ∧ screen_saved t' = screen_saved t ∧ color_saved t' = color_saved t.
Proof.
  intros Hwf. pose proof (tm_row t Hwf) as Hr. unfold VGA_HEIGHT in Hr. unfold next_row. st.
  rewrite u16_small by lia. cbn [set_position terminal_row]. unfold new_row.
  destruct (Z.eqb_spec (terminal_row t + 1) VGA_HEIGHT) as [E|E]; unfold VGA_HEIGHT in E.
  - rewrite (proj2 (Z.eqb_eq _ 2000)) by lia. st. cbn [VGA_MEMORY set_position].
    destruct (scroll_ok _ (tm_cells t Hwf)) as (w & E1 & E2).
    rewrite (bind_lift _ _ _ _ E1), (bind_lift _ _ _ _ E2). st. eexists. split; [reflexivity|].
    split; [|done]. constructor; cbn; [|unfold VGA_HEIGHT; lia|unfold VGA_WIDTH; lia].
    unfold scrolled. rewrite length_app, length_drop, (tm_cells t Hwf). done.
  - rewrite (proj2 (Z.eqb_neq _ 2000)) by lia. eexists. split; [reflexivity|]. split.
    + constructor; cbn; [apply Hwf|unfold VGA_HEIGHT; lia|unfold VGA_WIDTH; lia].
    + split; [|done]. cbn. f_equal. unfold position, VGA_WIDTH. cbn. lia.
Qed.

Lemma shows_wf t v p : length v = CELLS → 0 ≤ p < 2000 → term_wf (shows t (v, p)).
Proof.
  intros Hv Hp. pose proof (Z.div_pos p 80 ltac:(lia) ltac:(lia)). pose proof (Z.div_lt_upper_bound p 80 25 ltac:(lia) ltac:(lia)).
  pose proof (Z.mod_pos_bound p 80 ltac:(lia)). constructor; cbn; [done|unfold VGA_HEIGHT; lia|unfold VGA_WIDTH; lia].
Qed.

Lemma shows_position t v p : position (shows t (v, p)) = p.
Proof. unfold position, VGA_WIDTH. cbn. pose proof (Z.div_mod p 80 ltac:(lia)). lia. Qed.

Lemma cursor_at_length p v : length (cursor_at p v) = length v.
Proof. apply length_alter. Qed.

Lemma terminal_putchar_ok t c : term_wf t →
  terminal_putchar c t = Ok (tt, shows t (put_cell (terminal_color t) (VGA_MEMORY t, position t) c)) ∧
  term_wf (shows t (put_cell (terminal_color t) (VGA_MEMORY t, position t) c)).
Proof.
  intros Hwf. pose proof (position_range t Hwf) as Hp. destruct (position_div t Hwf) as [Ed Em].
  assert (Hend : ∀ t1 v p, term_wf t1 → (VGA_MEMORY t1, position t1) = (v, p) →
    terminal_color t1 = terminal_color t → screen_saved t1 = screen_saved t → color_saved t1 = color_saved t →
    update_cursor t1 = Ok (tt, shows t (cursor_at p v, p)) ∧ term_wf (shows t (cursor_at p v, p))).
  { intros t1 v p Hw [= <- <-] Hc Hs Hv. split.
    - rewrite (update_cursor_ok t1 Hw). unfold shows. by rewrite Hc, Hs, Hv.
    - apply shows_wf; [rewrite cursor_at_length; apply Hw|by apply position_range]. }
  unfold terminal_putchar, put_cell. destruct (Z.eqb_spec c 0x0A) as [->|Hc].
  - destruct (next_row_ok t Hwf) as (t1 & E1 & Hw & Epos & Hc & Hs & Hcs). rewrite (bind_run _ _ _ _ _ E1), Ed.
    destruct (new_row _ _) as [v p]. by apply (Hend t1).
  - st. assert (Hset : terminal_putchar_at c (terminal_color t) (terminal_column t) (terminal_row t) t =
      Ok (tt, set_vga (<[Z.to_nat (position t) := vga_entry c (terminal_color t)]> (VGA_MEMORY t)) t)).
    { pose proof (tm_row t Hwf). pose proof (tm_col t Hwf). unfold VGA_HEIGHT, VGA_WIDTH in *. unfold terminal_putchar_at. st.
      rewrite (u16_small (terminal_row t)), (u16_small (terminal_column t)) by lia. fold (position t).
      rewrite u16_small by lia.
      by rewrite (bind_lift _ _ _ _ (aset_cell t _ Hwf)). }
    rewrite (bind_run _ _ _ _ _ Hset). st. pose proof (tm_col t Hwf) as Hcol. unfold VGA_WIDTH in Hcol.
    cbn [set_vga set_position terminal_row terminal_column]. rewrite u16_small by lia.
    set (v := <[Z.to_nat (position t) := vga_entry c (terminal_color t)]> (VGA_MEMORY t)).
    assert (Hv : length v = CELLS) by (unfold v; rewrite length_insert; apply Hwf).
    destruct (Z.eqb_spec (terminal_column t + 1) VGA_WIDTH) as [Ew|Ew]; unfold VGA_WIDTH in Ew.
    + set (t0 := set_position (terminal_row t) (terminal_column t + 1) (set_vga v t)).
      set (t0' := set_position (terminal_row t) 0 (set_vga v t)).
      assert (Hw0 : term_wf t0') by (constructor; cbn; [done|apply Hwf|unfold VGA_WIDTH; lia]).
      assert (En : next_row t0 = next_row t0') by done.
      destruct (next_row_ok t0' Hw0) as (t1 & E1 & Hw & Epos & Hc1 & Hs1 & Hcs1). rewrite <- En in E1.
      rewrite (bind_run _ _ _ _ _ E1). cbn [t0' set_vga set_position VGA_MEMORY terminal_row] in Epos.
      replace ((terminal_row t + 1) * 80) with (position t + 1) in Epos by (unfold position, VGA_WIDTH; lia).
      destruct (new_row v (position t + 1)) as [w p]. by apply (Hend t1).
    + unfold new_row. pose proof (tm_row t Hwf) as Hrow. unfold VGA_HEIGHT in Hrow.
      rewrite (proj2 (Z.eqb_neq _ 2000)) by (unfold position, VGA_WIDTH; lia). st.
      set (t1 := set_position (terminal_row t) (terminal_column t + 1) (set_vga v t)).
      apply (Hend t1); [|f_equal; unfold position, VGA_WIDTH; cbn; lia|done..].
      constructor; cbn; [done|apply Hwf|unfold VGA_WIDTH; lia].
Qed.

Lemma shows_shows t vp vp' : shows (shows t vp) vp' = shows t vp'.
Proof. done. Qed.

Lemma print_ok l : ∀ t v p, term_wf (shows t (v, p)) →
  print l (shows t (v, p)) = Ok (tt, shows t (foldl (put_cell (terminal_color t)) (v, p) l)) ∧
  term_wf (shows t (foldl (put_cell (terminal_color t)) (v, p) l)).
Proof.
  induction l as [|c l IH]; intros t v p Hwf; cbn [print foldl]; [by split|].
  destruct (terminal_putchar_ok _ c Hwf) as [E Hw]. rewrite shows_position in E, Hw.
  cbn [terminal_color shows VGA_MEMORY fst] in E, Hw. rewrite shows_shows in E, Hw.
  rewrite (bind_run _ _ _ _ _ E). destruct (put_cell _ _ c) as [v' p']. by apply IH.
Qed.

Lemma print_from t c l : term_wf t →
  let t' := shows t (foldl (put_cell (terminal_color t)) (VGA_MEMORY t, position t) (c :: l)) in
  print (c :: l) t = Ok (tt, t') ∧ term_wf t'.
Proof.
  intros Hwf. cbn [print foldl]. destruct (terminal_putchar_ok t c Hwf) as [E Hw].
  rewrite (bind_run _ _ _ _ _ E). destruct (put_cell _ _ c) as [v p]. by apply print_ok.
Qed.

(** *** Clearing *)

Lemma terminal_clear_ok t : length (VGA_MEMORY t) = CELLS →
  terminal_clear t = Ok (tt, shows (set_color 15 t) (replicate CELLS BLANK, 0)).
Proof.
  intros Hl. unfold terminal_clear, terminal_initialize. st.
  set (t0 := set_color _ _). change (vga_entry 0x20 (terminal_color t0)) with BLANK.
  change (VGA_MEMORY t0) with (VGA_MEMORY t). change (Z.to_nat VGA_HEIGHT) with 25%nat.
  assert (E : fill_rows 25 0 BLANK (VGA_MEMORY t) = Ok (replicate CELLS BLANK)).
  { rewrite (fill_rows_ok 25 0) by (done || lia). cbn [Z.to_nat take app]. unfold CELLS in *.
    rewrite (drop_ge (VGA_MEMORY t)) by lia. by rewrite app_nil_r. }
  rewrite (bind_lift _ _ _ _ E). unfold cursor_initialize. st.
  assert (Hwf : ∀ a b, term_wf (set_shape a b (set_vga (replicate CELLS BLANK) t0)))
    by (intros; by constructor).
  rewrite (update_cursor_ok _ (Hwf _ _)). unfold shows. cbn. reflexivity.
Qed.

Lemma entry_masked c : 0 ≤ c < 128 → Z.land (vga_entry c 15) 0x0FFF = vga_entry c 15.
Proof.
  intros Hc. unfold vga_entry, i8. rewrite (proj2 (Z.ltb_lt _ _)) by lia. rewrite u16_small by lia.
  change 0x0FFF with (Z.ones 12). rewrite Z.land_ones by done. apply Z.mod_small.
  assert (0 ≤ Z.lor c (Z.shiftl 15 8)) by (apply Z.lor_nonneg; split; [lia|done]).
  split; [done|]. destruct (decide (Z.lor c (Z.shiftl 15 8) = 0)) as [E|E]; [lia|].
  apply Z.log2_lt_pow2; [lia|]. rewrite Z.log2_lor by (lia || done). apply Z.max_lub_lt; [|done].
  destruct (decide (c = 0)) as [->|]; [done|]. apply Z.log2_lt_pow2; lia.
Qed.

Lemma cursor_at_masked p v : Forall (λ c, Z.land c 0x0FFF = c) v → cursor_at p v = v.
Proof.
  intros Hv. unfold cursor_at. apply list_eq. intros i. destruct (decide (i = Z.to_nat p)) as [->|Hne].
  - rewrite list_lookup_alter_eq. destruct (v !! Z.to_nat p) as [c|] eqn:E; [|done]. cbn. f_equal.
    rewrite Forall_lookup in Hv. by apply (Hv _ _ E).
  - by rewrite list_lookup_alter_ne.
Qed.

(** The characters that appear as one cell each. *)
Definition plain (c : Z) : Prop := 0 ≤ c < 128 ∧ c ≠ 0x0A.

#[export] Instance plain_dec c : Decision (plain c).
Proof. unfold plain. apply _. Defined.

Definition text_cells (l : list Z) : list Z :=
  map (λ c, vga_entry c 15) l ++ replicate (CELLS - length l) BLANK.

Lemma text_cells_masked l : Forall plain l → Forall (λ c, Z.land c 0x0FFF = c) (text_cells l).
Proof.
  intros Hl. apply Forall_app. split.
  - apply Forall_map. eapply Forall_impl; [exact Hl|]. intros c [? ?]. by apply entry_masked.
  - by apply Forall_replicate.
Qed.

Lemma put_plain l c : Forall plain (l ++ [c]) → (length l < 1999)%nat →
  put_cell 15 (text_cells l, Z.of_nat (length l)) c = (text_cells (l ++ [c]), Z.of_nat (length (l ++ [c]))).
Proof.
  intros Hl Hn. assert (Hc : plain c) by (apply Forall_app in Hl as [_ Hl]; by inversion Hl).
  unfold put_cell. rewrite (proj2 (Z.eqb_neq c 0x0A)) by apply Hc. unfold new_row.
  rewrite (proj2 (Z.eqb_neq _ 2000)) by lia.
  assert (E : <[Z.to_nat (Z.of_nat (length l)) := vga_entry c 15]> (text_cells l) = text_cells (l ++ [c])).
  { unfold text_cells. rewrite Nat2Z.id, map_app, length_app. cbn [map length].
    replace (CELLS - length l)%nat with (S (CELLS - (length l + 1))) by (unfold CELLS; lia).
    rewrite <- (length_map (λ c, vga_entry c 15) l) at 1.
    replace (length (map (λ c, vga_entry c 15) l)) with (length (map (λ c, vga_entry c 15) l) + 0)%nat by lia.
    rewrite insert_app_r, <- app_assoc. done. }
  rewrite E, cursor_at_masked by by apply text_cells_masked. f_equal. rewrite length_app. cbn. lia.
Qed.

Lemma print_plain l2 : ∀ l1, Forall plain (l1 ++ l2) → (length (l1 ++ l2) < 2000)%nat →
  foldl (put_cell 15) (text_cells l1, Z.of_nat (length l1)) l2 = (text_cells (l1 ++ l2), Z.of_nat (length (l1 ++ l2))).
Proof.
  induction l2 as [|c l2 IH]; intros l1 Hl Hn; cbn [foldl]; [by rewrite app_nil_r|].
  rewrite cons_middle, app_assoc in Hl, Hn |- *. rewrite put_plain.
  - by apply IH.
  - by apply Forall_app in Hl as [Hl _].
  - rewrite !length_app in Hn. cbn in Hn. lia.
Qed.

(** ** Claims *)

(** [C21] Writing a text never touches a cell outside the screen, whatever its
    characters, and the terminal is then what the specification says: every
    character goes to the next cell, a newline to the start of the next row, and
    a full screen scrolls up by one row. *)
Theorem terminal_print_refines t c l :
  term_wf t →
  let t' := shows t (foldl (put_cell (terminal_color t)) (VGA_MEMORY t, position t) (c :: l)) in
  print (c :: l) t = Ok (tt, t') ∧ term_wf t'.
Proof. apply print_from. Qed.

Definition boot_terminal : Terminal := Term (replicate CELLS 0) 24 78 15 0 0 0 (Saved [] 0 0 0) 0.

Lemma boot_terminal_wf : term_wf boot_terminal.
Proof. by constructor. Qed.

Lemma terminal_print_refines_witness :
  exists t', print [0x68; 0x69; 0x0A; 0x21] boot_terminal = Ok (tt, t') ∧ term_wf t' ∧ position t' = 1921 ∧
    VGA_MEMORY t' !! 1838%nat = Some (vga_entry 0x68 15) ∧ VGA_MEMORY t' !! 1920%nat = Some (vga_entry 0x21 15).
Proof.
  destruct (terminal_print_refines boot_terminal 0x68 [0x69; 0x0A; 0x21] boot_terminal_wf) as [E Hw].
  eexists. split; [exact E|]. split; [exact Hw|]. split; [vm_compute; reflexivity|].
  split; vm_compute; reflexivity.
Defined.

(** On a cleared screen a text of less than a screen of plain characters
    appears from the top left corner on, one cell for each character, the rest
    stays blank and the cursor is behind the text. *)
Theorem clear_print_spec t l :
  length (VGA_MEMORY t) = CELLS → Forall plain l → (length l < 2000)%nat →
  exists t', (terminal_clear;; print l) t = Ok (tt, t') ∧
    VGA_MEMORY t' = text_cells l ∧ position t' = Z.of_nat (length l) ∧ crtc_location t' = Z.of_nat (length l).
Proof.
  intros Ht Hl Hn. rewrite (bind_run _ _ _ _ _ (terminal_clear_ok t Ht)).
  pose proof (print_ok l (set_color 15 t) (replicate CELLS BLANK) 0 ltac:(by apply shows_wf)) as [E _].
  rewrite E. change (terminal_color (set_color 15 t)) with 15.
  change (replicate CELLS BLANK, 0) with (text_cells [], Z.of_nat (length (@nil Z))). rewrite print_plain by done. eexists. split; [reflexivity|].
  rewrite shows_position. by cbn.
Qed.

Lemma clear_print_spec_witness :
  exists t', (terminal_clear;; print [0x68; 0x69]) boot_terminal = Ok (tt, t') ∧
    VGA_MEMORY t' = text_cells [0x68; 0x69] ∧ position t' = 2 ∧ crtc_location t' = 2.
Proof.
  apply (clear_print_spec boot_terminal [0x68; 0x69]); [done| |cbn; lia].
  repeat constructor; by apply (bool_decide_unpack _).
Defined.

(** The background of the cell under the print position is black, as after every
    write. *)
Definition cursor_black (t : Terminal) : Prop := cursor_at (position t) (VGA_MEMORY t) = VGA_MEMORY t.

Lemma cursor_at_idemp p v : cursor_at p (cursor_at p v) = cursor_at p v.
Proof.
  unfold cursor_at. apply list_eq. intros i. destruct (decide (i = Z.to_nat p)) as [->|Hne].
  - rewrite !list_lookup_alter_eq. destruct (v !! Z.to_nat p) as [c|]; [|done]. cbn. by rewrite <- Z.land_assoc.
  - by rewrite !list_lookup_alter_ne.
Qed.

(** Whatever is written between [screen_state::save] and [restore], the
    screen, the print position and the colour come back exactly, when the
    terminal was last written with [terminal_putchar]. *)
Theorem save_restore_roundtrip t l :
  term_wf t → cursor_black t →
  exists t', (screen_save;; print l;; screen_restore) t = Ok (tt, t') ∧
    VGA_MEMORY t' = VGA_MEMORY t ∧ terminal_row t' = terminal_row t ∧
    terminal_column t' = terminal_column t ∧ terminal_color t' = terminal_color t ∧ term_wf t'.
Proof.
  intros Hwf Hc. unfold screen_save. st. set (t0 := set_saved _ t).
  assert (Hs : screen_saved t0 = Saved (VGA_MEMORY t) (terminal_row t) (terminal_column t) (terminal_color t)).
  { cbn. rewrite firstn_all2; [done|]. rewrite (tm_cells t Hwf). done. }
  assert (Hw0 : term_wf t0) by (constructor; apply Hwf).
  assert (Hp : exists t1, print l t0 = Ok (tt, t1) ∧ screen_saved t1 = screen_saved t0).
  { destruct l as [|c l]; [by exists t0|]. destruct (print_from t0 c l Hw0) as [E _]. by eexists. }
  destruct Hp as (t1 & E1 & Es). rewrite (bind_run _ _ _ _ _ E1). unfold screen_restore. st. rewrite Es, Hs.
  cbn [saved_screen saved_terminal_row saved_terminal_column saved_terminal_color].
  set (t2 := set_color _ _). assert (Hw2 : term_wf t2) by (constructor; apply Hwf).
  rewrite (update_cursor_ok t2 Hw2). eexists. split; [reflexivity|].
  assert (Ep : position t2 = position t) by done. destruct (position_div t Hwf) as [Ed Em].
  cbn [shows VGA_MEMORY terminal_row terminal_column terminal_color fst snd]. rewrite Ep. split_and!; [exact Hc|done|done|done|].
  apply shows_wf; [rewrite cursor_at_length; apply Hwf|by apply position_range].
Qed.

Lemma save_restore_roundtrip_witness :
  exists t', (screen_save;; print [0x68; 0x0A];; screen_restore) boot_terminal = Ok (tt, t') ∧
    VGA_MEMORY t' = VGA_MEMORY boot_terminal ∧ terminal_row t' = 24 ∧ terminal_column t' = 78 ∧
    terminal_color t' = 15 ∧ term_wf t'.
Proof. apply (save_restore_roundtrip boot_terminal [0x68; 0x0A] boot_terminal_wf). by vm_compute. Defined.

(** A character from 128 on loses its colour: the sign extension of [char] sets
    every bit of the attribute. *)
Example vga_entry_high : vga_entry 0x80 15 = 0xFF80.
Proof. reflexivity. Qed.
