(* ===== verification/Printf.v ===== *)
(** * Formatted output (src/kernel/src/lib/printf.{hpp,cpp})

    The functions return the characters they hand to [terminal_putchar], in
    order; [Terminal.print] writes them.  A format and a string argument are
    the characters before the terminating zero; reading behind that zero is
    undefined.  An integer argument is the 64-bit register it is passed in, of
    which a conversion takes its part. *)

From Stdlib Require Import SpecFloat.
From S2P Require Import Prelude Terminal.

Definition PRINT_BUFFER_SIZE : Z := 32.

Definition digit_char (digit : Z) : Z := if digit <? 10 then 0x30 + digit else 0x61 + digit - 10.

(** The buffer as the loop fills it, the last digit first; it ends at the
    number's end or when the buffer is full. *)
Fixpoint number_digits (n : nat) (num base : Z) : list Z :=
  match n with
  | O => []
  | S n' => if num =? 0 then [] else digit_char (num mod base) :: number_digits n' (num / base) base
  end.

Definition buffer_of (num base : Z) : list Z :=
  if num =? 0 then [0x30] else number_digits (Z.to_nat (PRINT_BUFFER_SIZE - 1)) num base.

(** [while (padding-- > 0)] *)
Definition pad (padding c : Z) : list Z := replicate (Z.to_nat padding) c.

Definition pad_char (pad_zero : bool) : Z := if pad_zero then 0x30 else 0x20.

Definition print_number (num base width : Z) (pad_zero left_justify : bool) : outcome (list Z) :=
  if num =? - 2 ^ 31 then UB else
  let negative := num <? 0 in
  let buffer := buffer_of (Z.abs num) base in
  let minus (b : bool) := if b then [0x2D] else [] in
  let content_width := Z.of_nat (length buffer) + (if negative then 1 else 0) in
  let padding := width - content_width in
  Ok (if left_justify then minus negative ++ rev buffer ++ pad padding 0x20
      else minus (pad_zero && negative) ++ pad padding (pad_char pad_zero) ++
           minus (negb pad_zero && negative) ++ rev buffer).

Definition print_unsigned (num base width : Z) (pad_zero left_justify : bool) : list Z :=
  let buffer := buffer_of num base in
  let padding := width - Z.of_nat (length buffer) in
  if left_justify then rev buffer ++ pad padding 0x20
  else pad padding (pad_char pad_zero) ++ rev buffer.

Fixpoint hex_digits (n : nat) (num : Z) : list Z :=
  match n with
  | O => []
  | S n' => if num =? 0 then [] else digit_char (Z.land num 0xF) :: hex_digits n' (Z.shiftr num 4)
  end.

Definition print_hex (num width : Z) (pad_zero left_justify : bool) : list Z :=
  let buffer := if num =? 0 then [0x30] else hex_digits (Z.to_nat (PRINT_BUFFER_SIZE - 1)) num in
  let padding := width - Z.of_nat (length buffer) - 2 in
  if left_justify then [0x30; 0x78] ++ rev buffer ++ pad padding 0x20
  else pad padding (pad_char pad_zero) ++ [0x30; 0x78] ++ rev buffer.

Definition print_pointer (ptr : Z) : list Z := print_hex ptr 0 false false.

(** ** Floating point

    [double] is the binary64 format of the Standard Library's SpecFloat. *)
Definition PREC : Z := 53.
Definition EMAX : Z := 1024.
Definition double : Type := spec_float.
Definition of_int (n : Z) : double := binary_normalize PREC EMAX n 0 false.

(** Conversion to an integer type drops the fraction; a value out of the type's
    range is undefined. *)
Definition to_int (lo hi : Z) (x : double) : outcome Z :=
  match x with
  | S754_zero _ => Ok 0
  | S754_finite s m e =>
      let a := if 0 <=? e then Z.pos m * 2 ^ e else Z.pos m / 2 ^ (- e) in
      let v := if s then - a else a in
      if (lo <=? v) && (v <=? hi) then Ok v else UB
  | _ => UB
  end.

Fixpoint fraction_digits (precision : nat) (fractional : double) : outcome (list Z) :=
  match precision with
  | O => Ok []
  | S p' =>
      let fractional := SFmul PREC EMAX fractional (of_int 10) in
      digit ← to_int (- 2 ^ 31) (2 ^ 31 - 1) fractional;
      rest ← fraction_digits p' (SFsub PREC EMAX fractional (of_int digit));
      Ok (0x30 + digit :: rest)
  end.

Definition print_float (num : double) (precision : nat) : outcome (list Z) :=
  let negative := SFltb num (S754_zero false) in
  let num := if negative then SFopp num else num in
  integer_part ← to_int 0 (2 ^ 64 - 1) num;
  rest ← fraction_digits precision (SFsub PREC EMAX num (of_int integer_part));
  Ok ((if negative then [0x2D] else []) ++ print_unsigned integer_part 10 0 false false ++ [0x2E] ++ rest).

(** ** Formats *)

Inductive arg := AInt (n : Z) | AStr (s : option (list Z)) | ADouble (x : double).

(** The flags, width, precision and length modifiers of a directive. *)
Record directive := Directive {
  d_left : bool; d_pad_zero : bool; d_width : Z; d_precision : option Z;
  d_size_t : bool; d_long : bool; d_long_long : bool
}.

(** [if ( *format == c) { ...; format++; }] *)
Definition accept (c : Z) (format : list Z) : bool * list Z :=
  match format with
  | x :: rest => if x =? c then (true, rest) else (false, format)
  | [] => (false, [])
  end.

Definition is_digit (c : Z) : bool := (0x30 <=? c) && (c <=? 0x39).

(** [n = n * 10 + ( *format - '0')] while there are digits; overflow of an [int]
    is undefined. *)
Fixpoint read_number (format : list Z) (n : Z) : outcome (Z * list Z) :=
  match format with
  | c :: rest =>
      if is_digit c then
        let n := n * 10 + (c - 0x30) in
        if 2 ^ 31 <=? n then UB else read_number rest n
      else Ok (n, format)
  | [] => Ok (n, [])
  end.

Definition read_directive (format : list Z) : outcome (directive * list Z) :=
  let '(left_justify, format) := accept 0x2D format in
  let '(pad_zero, format) := accept 0x30 format in
  '(width, format) ← read_number format 0;
  let '(dot, format) := accept 0x2E format in
  '(precision, format) ← (if dot : bool then '(p, f) ← read_number format 0; Ok (Some p, f) else Ok (None, format));
  let '(size_t, format) := accept 0x7A format in
  let '(long, format) := accept 0x6C format in
  let '(long_long, format) := if long : bool then accept 0x6C format else (false, format) in
  Ok (Directive left_justify pad_zero width precision size_t (long && negb long_long) long_long, format).

Definition int_arg (args : list arg) : outcome (Z * list arg) :=
  match args with AInt n :: args => Ok (n, args) | _ => UB end.

Definition null_string : list Z := [0x28; 0x6E; 0x75; 0x6C; 0x6C; 0x29].

Section format.
(** [printf(str)] of a string argument. *)
Variable printf_plain : list Z → outcome (list Z).

(** One conversion: the characters printed and the arguments left. *)
Definition convert (d : directive) (c : Z) (args : list arg) : outcome (list Z * list arg) :=
  let wide := d_size_t d || d_long_long d || d_long d in
  if c =? 0x66 then
    match args with
    | ADouble x :: args => l ← print_float x (Z.to_nat (default 6 (d_precision d))); Ok (l, args)
    | _ => UB
    end
  else if c =? 0x64 then
    '(n, args) ← int_arg args;
    if d_size_t d then Ok (print_unsigned (u64 n) 10 (d_width d) (d_pad_zero d) (d_left d), args)
    else l ← print_number (i32 n) 10 (d_width d) (d_pad_zero d) (d_left d); Ok (l, args)
  else if c =? 0x75 then
    '(n, args) ← int_arg args;
    Ok (print_unsigned (if wide then u64 n else u32 n) 10 (d_width d) (d_pad_zero d) (d_left d), args)
  else if c =? 0x78 then
    '(n, args) ← int_arg args;
    Ok (print_hex (if wide then u64 n else u32 n) (d_width d) (d_pad_zero d) (d_left d), args)
  else if c =? 0x70 then
    '(n, args) ← int_arg args; Ok (print_pointer (u64 n), args)
  else if c =? 0x73 then
    match args with
    | AStr s :: args =>
        let str := default null_string s in
        l ← printf_plain str;
        let padding := pad (d_width d - Z.of_nat (length str)) 0x20 in
        Ok (if 0 <? d_width d then (if d_left d then l ++ padding else padding ++ l) else l, args)
    | _ => UB
    end
  else if c =? 0x25 then Ok ([0x25], args)
  else if c =? 0x63 then '(n, args) ← int_arg args; Ok ([u8 n], args)
  else Ok ([0x25; c], args).

(** The characters printed and the number of turns of the loop, which is what
    is returned.  A directive cut off by the end of the format prints the zero
    and steps over it. *)
Fixpoint vformat (fuel : nat) (format : list Z) (args : list arg) : outcome (list Z * Z) :=
  match fuel with
  | O => OutOfFuel
  | S fuel' =>
      match format with
      | [] => Ok ([], 0)
      | c :: format =>
          if c =? 0x25 then
            '(d, format) ← read_directive format;
            match format with
            | [] => UB
            | c :: format =>
                '(l, args) ← convert d c args;
                '(rest, written) ← vformat fuel' format args;
                Ok (l ++ rest, written + 1)
            end
          else
            '(rest, written) ← vformat fuel' format args;
            Ok (c :: rest, written + 1)
      end
  end.
End format.

(** [printf(str)] passes no arguments, so that a string conversion in [str] has
    nothing to print: it is undefined before it could recurse. *)
Definition printf_string (str : list Z) : outcome (list Z) :=
  '(l, _) ← vformat (λ _, UB) (S (length str)) str []; Ok l.

Definition vprintf (format : list Z) (args : list arg) : outcome (list Z * Z) :=
  vformat printf_string (S (length format)) format args.

(** [printf] on a terminal. *)
Definition printf (format : list Z) (args : list arg) : TM Z :=
  '(l, written) ← lift (vprintf format args); print l;; mret written.

(** ** Numbers read back *)

Definition digit_value (c : Z) : Z := if c <? 0x3A then c - 0x30 else c - 0x61 + 10.
Definition read_digits (base : Z) (l : list Z) : Z := foldl (λ a c, a * base + digit_value c) 0 l.

Lemma digit_char_value d : 0 ≤ d < 36 → digit_value (digit_char d) = d.
Proof. intros Hd. unfold digit_value, digit_char. destruct (Z.ltb_spec d 10); case_bool; lia. Qed.

Lemma digit_char_ascii d : 0 ≤ d < 36 → plain (digit_char d).
Proof. intros Hd. unfold plain, digit_char. destruct (Z.ltb_spec d 10); lia. Qed.

Lemma read_digits_snoc base l c : read_digits base (l ++ [c]) = read_digits base l * base + digit_value c.
Proof. unfold read_digits. by rewrite foldl_app. Qed.

Definition digit_of (base c : Z) : Prop := exists d, 0 ≤ d < base ∧ c = digit_char d.

(** What a printed number [l] is: its value, its length, and no leading zero. *)
Record numeral (base num : Z) (l : list Z) : Prop := {
  nu_value : read_digits base l = num;
  nu_digits : Forall (digit_of base) l;
  nu_lead : head l = Some 0x30 → l = [0x30];
  nu_some : l ≠ []
}.

Section numbers.
Context (base : Z) (Hbase : 2 ≤ base ≤ 36).

Lemma number_digits_ok n : ∀ num, 0 ≤ num < base ^ Z.of_nat n →
  read_digits base (rev (number_digits n num base)) = num ∧
  Forall (digit_of base) (rev (number_digits n num base)) ∧
  (0 < num → exists c l, rev (number_digits n num base) = c :: l ∧ c ≠ 0x30).
Proof.
  induction n as [|n IH]; intros num Hnum.
  { cbn in *. split; [unfold read_digits; cbn; lia|]. split; [by constructor|lia]. }
  cbn [number_digits]. destruct (Z.eqb_spec num 0) as [->|H0].
  { split; [done|]. split; [by constructor|lia]. }
  rewrite Nat2Z.inj_succ, Z.pow_succ_r in Hnum by lia.
  pose proof (Z.mod_pos_bound num base ltac:(lia)) as Hm. pose proof (Z.div_mod num base ltac:(lia)) as Hd.
  destruct (IH (num / base)) as (Hv & Hf & Hl).
  { split; [apply Z.div_pos; lia|]. apply Z.div_lt_upper_bound; lia. }
  cbn [rev]. split; [|split].
  - rewrite read_digits_snoc, Hv, digit_char_value by lia. lia.
  - apply Forall_app. split; [done|]. apply Forall_singleton.
    by exists (num mod base).
  - intros _. destruct (decide (num / base = 0)) as [E|E].
    + rewrite E. assert (Hnil : number_digits n 0 base = []) by (by destruct n).
      rewrite Hnil. exists (digit_char (num mod base)), []. split; [done|]. rewrite E in Hd.
      assert (Hr : num mod base = num) by lia. rewrite Hr in *.
      unfold digit_char. destruct (Z.ltb_spec num 10); lia.
    + destruct (Hl ltac:(pose proof (Z.div_pos num base ltac:(lia) ltac:(lia)); lia)) as (c & l & -> & Hc).
      exists c, (l ++ [digit_char (num mod base)]). done.
Qed.

Lemma number_digits_length n : ∀ num, (length (number_digits n num base) ≤ n)%nat.
Proof.
  induction n as [|n IH]; intros num; cbn [number_digits]; [done|]. destruct (num =? 0); [cbn; lia|].
  cbn [length]. pose proof (IH (num / base)). lia.
Qed.

Lemma number_digits_short n : ∀ m num, 0 ≤ num < base ^ Z.of_nat m → (m ≤ n)%nat →
  (length (number_digits n num base) ≤ m)%nat.
Proof.
  induction n as [|n IH]; intros m num Hnum Hm; cbn [number_digits]; [cbn; lia|].
  destruct (Z.eqb_spec num 0) as [->|H0]; [cbn; lia|].
  destruct m as [|m]; [cbn in Hnum; lia|]. cbn [length]. apply le_n_S, IH; [|lia].
  rewrite Nat2Z.inj_succ, Z.pow_succ_r in Hnum by lia. split; [apply Z.div_pos; lia|].
  apply Z.div_lt_upper_bound; lia.
Qed.

(** The buffer holds every number of [m] digits, up to its 31 places. *)
Lemma buffer_numeral m num : 0 ≤ num < base ^ Z.of_nat m → (0 < m ≤ 31)%nat →
  numeral base num (rev (buffer_of num base)) ∧ (length (buffer_of num base) ≤ m)%nat.
Proof.
  intros Hnum Hm. unfold buffer_of. change (Z.to_nat (PRINT_BUFFER_SIZE - 1)) with 31%nat.
  destruct (Z.eqb_spec num 0) as [->|H0].
  { split; [|cbn; lia]. constructor; [done| |done|done].
    apply Forall_singleton. exists 0. split; [lia|done]. }
  assert (Hbig : num < base ^ Z.of_nat 31).
  { eapply Z.lt_le_trans; [apply Hnum|]. apply Z.pow_le_mono_r; lia. }
  destruct (number_digits_ok 31 num ltac:(lia)) as (Hv & Hf & Hl).
  split; [|apply number_digits_short; [exact Hnum|lia]].
  destruct (Hl ltac:(lia)) as (c & l & E & Hc). constructor; [done|done| |].
  - rewrite E. cbn. by intros [= ->].
  - by rewrite E.
Qed.
End numbers.

Lemma hex_digits_eq n : ∀ num, hex_digits n num = number_digits n num 16.
Proof.
  induction n as [|n IH]; intros num; cbn [hex_digits number_digits]; [done|].
  destruct (num =? 0); [done|]. change 0xF with (Z.ones 4). rewrite Z.land_ones by done.
  rewrite Z.shiftr_div_pow2 by done. change (2 ^ 4) with 16. by rewrite IH.
Qed.

(** [out] is [body] made [width] wide with spaces behind it or with padding
    before it. *)
Definition padded (width : Z) (pad_zero left_justify : bool) (body out : list Z) : Prop :=
  out = (if left_justify then body ++ pad (width - Z.of_nat (length body)) 0x20
         else pad (width - Z.of_nat (length body)) (pad_char pad_zero) ++ body).

Lemma padded_length width pz lj body out :
  padded width pz lj body out → Z.of_nat (length out) = Z.max width (Z.of_nat (length body)).
Proof. intros ->. destruct lj; rewrite length_app; unfold pad; rewrite length_replicate; lia. Qed.

Lemma print_unsigned_padded num base width pz lj :
  padded width pz lj (rev (buffer_of num base)) (print_unsigned num base width pz lj).
Proof. unfold padded, print_unsigned. by rewrite length_rev. Qed.

Lemma print_number_padded num base width pz lj :
  num ≠ - 2 ^ 31 → pz = false ∨ lj = true ∨ 0 ≤ num →
  exists out, print_number num base width pz lj = Ok out ∧
    padded width pz lj ((if num <? 0 then [0x2D] else []) ++ rev (buffer_of (Z.abs num) base)) out.
Proof.
  intros Hnum Hc. unfold print_number. rewrite (proj2 (Z.eqb_neq _ _)) by done. eexists. split; [reflexivity|].
  unfold padded. rewrite length_app, length_rev.
  destruct (Z.ltb_spec num 0); cbn [length]; rewrite ?andb_true_r, ?andb_false_r.
  - destruct lj; [by rewrite <- app_assoc; do 4 f_equal; lia|].
    destruct Hc as [->|[?|?]]; [|done|lia]. cbn [negb app]. f_equal. f_equal. lia.
  - destruct lj; [by rewrite <- app_assoc; do 4 f_equal; lia|]. cbn [app]. do 3 f_equal. lia.
Qed.

(** ** Formats *)

Abbreviation percent := 0x25.

Lemma vformat_literal P pre : ∀ fuel format args, percent ∉ pre →
  vformat P (length pre + fuel) (pre ++ format) args =
  ('(l, n) ← vformat P fuel format args; Ok (pre ++ l, n + Z.of_nat (length pre))).
Proof.
  induction pre as [|c pre IH]; intros fuel format args Hpre; cbn [length app Nat.add vformat].
  { destruct (vformat P fuel format args) as [[l n]| |]; cbn; [|done|done]. by rewrite Z.add_0_r. }
  apply not_elem_of_cons in Hpre as [Hc Hpre]. rewrite (proj2 (Z.eqb_neq c percent)) by done.
  rewrite (IH _ _ _ Hpre). destruct (vformat P fuel format args) as [[l n]| |]; cbn; [|done|done].
  do 2 f_equal. lia.
Qed.

Lemma vformat_end P fuel args : vformat P (S fuel) [] args = Ok ([], 0).
Proof. done. Qed.

Lemma printf_string_plain str : percent ∉ str → printf_string str = Ok str.
Proof.
  intros Hs. unfold printf_string. pose proof (vformat_literal (λ _, UB) str 1 [] [] Hs) as E.
  rewrite app_nil_r, Nat.add_1_r in E. rewrite E. cbn. by rewrite app_nil_r.
Qed.

(** The text of a directive: flags, width (none when it is 0), conversion. *)
Definition directive_text (left_justify pad_zero : bool) (ws : list Z) (c : Z) : list Z :=
  [percent] ++ (if left_justify then [0x2D] else []) ++ (if pad_zero then [0x30] else []) ++ ws ++ [c].

Lemma digit_of_10 c : digit_of 10 c → is_digit c = true ∧ digit_value c = c - 0x30 ∧ 0x30 ≤ c ≤ 0x39.
Proof.
  intros (d & Hd & ->). rewrite digit_char_value by lia. unfold is_digit, digit_char.
  rewrite (proj2 (Z.ltb_lt d 10)) by lia. lia.
Qed.

Lemma read_number_ok ws : ∀ n c rest, Forall (digit_of 10) ws → 0 ≤ n → is_digit c = false →
  foldl (λ a c, a * 10 + digit_value c) n ws < 2 ^ 31 →
  read_number (ws ++ c :: rest) n = Ok (foldl (λ a c, a * 10 + digit_value c) n ws, c :: rest).
Proof.
  induction ws as [|w ws IH]; intros n c rest Hws Hn Hc Hlt; cbn [app read_number foldl].
  { by rewrite Hc. }
  apply Forall_cons in Hws as [Hw Hws]. destruct (digit_of_10 w Hw) as (-> & Ev & Hr). cbn [foldl] in Hlt. rewrite Ev in Hlt |- *.
  assert (Hmono : ∀ l m, Forall (digit_of 10) l → 0 ≤ m → m ≤ foldl (λ a c, a * 10 + digit_value c) m l).
  { clear. induction l as [|x l IH]; intros m Hl Hm; cbn [foldl]; [lia|]. apply Forall_cons in Hl as [Hx Hl].
    destruct (digit_of_10 x Hx) as (_ & E & Hx'). rewrite E. pose proof (IH (m * 10 + (x - 48)) Hl ltac:(lia)). lia. }
  pose proof (Hmono ws (n * 10 + (w - 48)) Hws ltac:(lia)).
  rewrite (proj2 (Z.leb_gt (2 ^ 31) _)) by lia. apply IH; [done|lia|done|done].
Qed.

(** A letter that ends a directive. *)
Definition conversion (c : Z) : Prop := c ∈ [0x64; 0x75; 0x78; 0x70; 0x73; 0x63].

Lemma read_directive_ok (lj pz : bool) ws w c rest :
  conversion c → ws = [] ∧ w = 0 ∨ numeral 10 w ws ∧ 0 < w < 2 ^ 31 →
  read_directive ((if lj then [0x2D] else []) ++ (if pz then [0x30] else []) ++ ws ++ [c] ++ rest) =
  Ok (Directive lj pz w None false false false, c :: rest).
Proof.
  intros Hc Hw. assert (Hcs : is_digit c = false ∧ c ≠ 0x2D ∧ c ≠ 0x30 ∧ c ≠ 0x2E ∧ c ≠ 0x7A ∧ c ≠ 0x6C).
  { unfold conversion in Hc. set_unfold. destruct_or! Hc; subst c; done. }
  destruct Hcs as (Hd & H1 & H2 & H3 & H4 & H5).
  assert (Hws : Forall (digit_of 10) ws ∧ foldl (λ a c, a * 10 + digit_value c) 0 ws = w ∧ 0 ≤ w < 2 ^ 31).
  { destruct Hw as [[-> ->]|[[Hv Hf _ _] Hr]]; [by repeat constructor|]. split; [done|]. split; [done|lia]. }
  destruct Hws as (Hf & Hv & Hr).
  assert (Hhead : forall x, head (ws ++ c :: rest) = Some x → x ≠ 0x2D ∧ (pz = false → x ≠ 0x30)).
  { destruct ws as [|x ws]; cbn; intros y [= <-]; [done|]. apply Forall_cons in Hf as [Hx _].
    destruct (digit_of_10 x Hx) as (_ & _ & ?). split; [lia|]. intros _ ->.
    destruct Hw as [[? _]|[Hn Hw']]; [done|]. pose proof (nu_lead _ _ _ Hn eq_refl) as [= ->]. cbn in Hv. lia. }
  assert (Haccept : ∀ x l, head l ≠ Some x → accept x l = (false, l)).
  { intros x [|y l]; cbn; [done|]. intros Hne. destruct (Z.eqb_spec y x) as [->|]; done. }
  unfold read_directive. cbn [app].
  assert (E1 : accept 0x2D ((if lj then [0x2D] else []) ++ (if pz then [0x30] else []) ++ ws ++ c :: rest) =
    (lj, (if pz then [0x30] else []) ++ ws ++ c :: rest)).
  { destruct lj; [done|]. apply Haccept. destruct pz; [done|]. cbn [app]. intros E. destruct (Hhead _ E). done. }
  assert (E2 : accept 0x30 ((if pz then [0x30] else []) ++ ws ++ c :: rest) = (pz, ws ++ c :: rest)).
  { destruct pz; [done|]. apply Haccept. cbn [app]. intros E. destruct (Hhead _ E) as [_ H]. by destruct (H eq_refl). }
  rewrite E1, E2. rewrite read_number_ok by (done || lia || (rewrite Hv; lia)). rewrite bind_Ok, Hv.
  assert (Hacc : ∀ x, c ≠ x → accept x (c :: rest) = (false, c :: rest)) by (intros x Hx; apply Haccept; by intros [= ->]).
  rewrite Hacc by done. cbn [mbind outcome_bind]. rewrite !Hacc by done. done.
Qed.

Lemma vformat_directive P lj pz ws w c post args args' l fuel :
  conversion c → ws = [] ∧ w = 0 ∨ numeral 10 w ws ∧ 0 < w < 2 ^ 31 →
  convert P (Directive lj pz w None false false false) c args = Ok (l, args') →
  vformat P (S fuel) (directive_text lj pz ws c ++ post) args =
  ('(r, n) ← vformat P fuel post args'; Ok (l ++ r, n + 1)).
Proof.
  intros Hc Hw E. unfold directive_text. rewrite <- !app_assoc. cbn [app vformat].
  change (percent =? percent) with true. cbv iota.
  pose proof (read_directive_ok lj pz ws w c post Hc Hw) as R. cbn [app] in R. rewrite R, bind_Ok, E, bind_Ok. done.
Qed.

Lemma vprintf_directive pre lj pz ws w c post args l :
  percent ∉ pre → percent ∉ post → conversion c → ws = [] ∧ w = 0 ∨ numeral 10 w ws ∧ 0 < w < 2 ^ 31 →
  convert printf_string (Directive lj pz w None false false false) c args = Ok (l, []) →
  vprintf (pre ++ directive_text lj pz ws c ++ post) args =
  Ok (pre ++ l ++ post, Z.of_nat (length pre) + Z.of_nat (length post) + 1).
Proof.
  intros Hpre Hpost Hc Hw E. unfold vprintf.
  destruct (Nat.le_exists_sub (S (length post) + 1) (S (length (directive_text lj pz ws c ++ post)))) as (m & Hm & _).
  { unfold directive_text. rewrite !length_app. cbn. lia. }
  replace (S (length (pre ++ directive_text lj pz ws c ++ post))) with (length pre + S (length post + (m + 1)))%nat
    by (rewrite length_app; lia).
  rewrite vformat_literal by done. rewrite (vformat_directive _ _ _ _ _ _ _ _ _ _ _ Hc Hw E).
  pose proof (vformat_literal printf_string post (m + 1) [] [] Hpost) as Ep. rewrite app_nil_r in Ep. rewrite Ep.
  rewrite Nat.add_1_r. cbn. rewrite app_nil_r. do 2 f_equal. lia.
Qed.

(** ** Termination *)

Lemma accept_length c f : (length (accept c f).2 ≤ length f)%nat.
Proof. destruct f as [|x f]; cbn; [lia|]. destruct (x =? c); cbn; lia. Qed.

Lemma read_number_length f : ∀ n r, read_number f n = Ok r → (length r.2 ≤ length f)%nat.
Proof.
  induction f as [|c f IH]; intros n r; cbn [read_number]; [by intros [= <-]|].
  destruct (is_digit c); [|by intros [= <-]]. destruct (2 ^ 31 <=? _); [done|]. intros E. apply IH in E. cbn. lia.
Qed.

Lemma read_number_fuel f : ∀ n, read_number f n ≠ OutOfFuel.
Proof.
  induction f as [|c f IH]; intros n; cbn [read_number]; [done|]. destruct (is_digit c); [|done].
  destruct (2 ^ 31 <=? _); [done|apply IH].
Qed.

(** [read_directive] only shortens the format, and always returns or is
    undefined. *)
Lemma read_directive_length f :
  read_directive f ≠ OutOfFuel ∧ ∀ r, read_directive f = Ok r → (length r.2 ≤ length f)%nat.
Proof.
  unfold read_directive. pose proof (accept_length 0x2D f) as L1. destruct (accept 0x2D f) as [lj f1]. cbn in L1.
  pose proof (accept_length 0x30 f1) as L2. destruct (accept 0x30 f1) as [pz f2]. cbn in L2.
  destruct (read_number f2 0) as [[w f3]| |] eqn:E3; cbn [mbind outcome_bind]; [|done|by apply read_number_fuel in E3].
  apply read_number_length in E3. cbn in E3. pose proof (accept_length 0x2E f3) as L4.
  destruct (accept 0x2E f3) as [dot f4]. cbn in L4.
  assert (Hp : ∀ m, m = (if dot then '(p, g) ← read_number f4 0; Ok (Some p, g) else Ok (None, f4)) →
    m ≠ OutOfFuel ∧ ∀ p f5, m = Ok (p, f5) → (length f5 ≤ length f4)%nat).
  { intros m ->. destruct dot; [|split; [done|by intros p f5 [= <- <-]]].
    destruct (read_number f4 0) as [[p g]| |] eqn:E; cbn; [|done|by apply read_number_fuel in E].
    split; [done|]. intros p' f5 [= <- <-]. by apply read_number_length in E. }
  destruct (Hp _ eq_refl) as [Hne Hl]. destruct (if dot then _ else _) as [[p f5]| |]; cbn [mbind outcome_bind]; [|done|done].
  specialize (Hl p f5 eq_refl). pose proof (accept_length 0x7A f5) as L6. destruct (accept 0x7A f5) as [z f6]. cbn in L6.
  pose proof (accept_length 0x6C f6) as L7. destruct (accept 0x6C f6) as [lg f7]. cbn in L7.
  assert (L8 : (length (if lg then accept 0x6C f7 else (false, f7)).2 ≤ length f7)%nat)
    by (destruct lg; [apply accept_length|done]).
  destruct (if lg then accept 0x6C f7 else (false, f7)) as [ll f8]. cbn in L8. split; [done|]. intros r [= <-]. cbn. lia.
Qed.

Lemma to_int_fuel lo hi x : to_int lo hi x ≠ OutOfFuel.
Proof. destruct x; cbn; try done. by destruct (_ && _). Qed.

Lemma print_float_fuel x n : print_float x n ≠ OutOfFuel.
Proof.
  assert (Hf : ∀ y, fraction_digits n y ≠ OutOfFuel).
  { induction n as [|n IH]; intros y; cbn [fraction_digits]; [done|].
    pose proof (to_int_fuel (- 2 ^ 31) (2 ^ 31 - 1) (SFmul PREC EMAX y (of_int 10))) as Ht.
    destruct (to_int _ _ _) as [d| |]; cbn [mbind outcome_bind]; [|done|done].
    pose proof (IH (SFsub PREC EMAX (SFmul PREC EMAX y (of_int 10)) (of_int d))) as Hr.
    by destruct (fraction_digits n _). }
  unfold print_float. pose proof (to_int_fuel 0 (2 ^ 64 - 1) (if SFltb x (S754_zero false) then SFopp x else x)) as Ht.
  destruct (to_int 0 _ _) as [i| |]; cbn [mbind outcome_bind]; [|done|done].
  pose proof (Hf (SFsub PREC EMAX (if SFltb x (S754_zero false) then SFopp x else x) (of_int i))) as Hr.
  by destruct (fraction_digits n _).
Qed.

Lemma convert_fuel P d c args : (∀ s, P s ≠ OutOfFuel) → convert P d c args ≠ OutOfFuel.
Proof.
  intros HP. unfold convert.
  assert (Hi : ∀ (f : Z * list arg → outcome (list Z * list arg)), (∀ r, f r ≠ OutOfFuel) → (int_arg args ≫= f) ≠ OutOfFuel).
  { intros f Hf. destruct args as [|[n|s|x] args]; [done|apply Hf|done|done]. }
  repeat match goal with |- (if ?b then _ else _) ≠ _ => destruct b end; try done;
    try (apply Hi; intros [n a]; cbn; try done).
  - destruct args as [|[n|s|x] args]; try done.
    pose proof (print_float_fuel x (Z.to_nat (default 6 (d_precision d)))). by destruct (print_float x _).
  - destruct (d_size_t d); [done|]. unfold print_number. by destruct (_ =? _).
  - destruct args as [|[n|s|x] args]; try done.
    pose proof (HP (default null_string s)). by destruct (P _).
Qed.

Lemma vformat_fuel P fuel : ∀ f args, (∀ s, P s ≠ OutOfFuel) → (length f < fuel)%nat → vformat P fuel f args ≠ OutOfFuel.
Proof.
  induction fuel as [|fuel IH]; intros f args HP Hf; [lia|]. destruct f as [|c f]; cbn [vformat]; [done|]. cbn [length] in Hf.
  destruct (c =? percent).
  - destruct (read_directive_length f) as [Hne Hl]. destruct (read_directive f) as [[d g]| |]; cbn [mbind outcome_bind]; [|done|done].
    specialize (Hl _ eq_refl). cbn in Hl. destruct g as [|c' g]; [done|]. cbn [length] in Hl.
    pose proof (convert_fuel P d c' args HP) as Hc. destruct (convert P d c' args) as [[l a]| |]; cbn; [|done|done].
    pose proof (IH g a HP ltac:(lia)) as Hr. by destruct (vformat P fuel g a) as [[? ?]| |].
  - pose proof (IH f args HP ltac:(lia)) as Hr. by destruct (vformat P fuel f args) as [[? ?]| |].
Qed.

(** ** Claims *)

(** [C28] Whatever the format and the arguments, formatting ends: it returns, or
    it runs into undefined behaviour at some character of the format. *)
Theorem vprintf_terminates format args : vprintf format args ≠ OutOfFuel.
Proof.
  apply vformat_fuel; [|lia]. intros s. unfold printf_string.
  pose proof (vformat_fuel (λ _, UB) (S (length s)) s [] ltac:(done) ltac:(lia)) as H.
  by destruct (vformat _ _ s []) as [[? ?]| |].
Qed.

(** A number printed with %d or %u, with or without flags and width, stands
    in the text in decimal: reading its digits back gives the number, there is
    no superfluous zero in front, and the field is padded to the width on the
    side asked for.  (A negative number padded with zeros has its sign in front
    of them and is left out, and so is the least [int].) *)
Theorem printf_number_spec pre post lj pz ws w n :
  percent ∉ pre → percent ∉ post → ws = [] ∧ w = 0 ∨ numeral 10 w ws ∧ 0 < w < 2 ^ 31 →
  (0 ≤ n < 2 ^ 32 → exists ds out,
     numeral 10 n ds ∧ padded w pz lj ds out ∧ Z.of_nat (length out) = Z.max w (Z.of_nat (length ds)) ∧
     vprintf (pre ++ directive_text lj pz ws 0x75 ++ post) [AInt n] =
       Ok (pre ++ out ++ post, Z.of_nat (length pre) + Z.of_nat (length post) + 1)) ∧
  (- 2 ^ 31 < n < 2 ^ 31 → pz = false ∨ lj = true ∨ 0 ≤ n → exists ds out,
     numeral 10 (Z.abs n) ds ∧ padded w pz lj ((if n <? 0 then [0x2D] else []) ++ ds) out ∧
     vprintf (pre ++ directive_text lj pz ws 0x64 ++ post) [AInt n] =
       Ok (pre ++ out ++ post, Z.of_nat (length pre) + Z.of_nat (length post) + 1)).
Proof.
  intros Hpre Hpost Hw. split.
  - intros Hn. destruct (buffer_numeral 10 ltac:(lia) 10 n ltac:(lia) ltac:(lia)) as [Hd _].
    pose proof (print_unsigned_padded n 10 w pz lj) as Hp. eexists _, _. split_and!; [exact Hd|exact Hp|by eapply padded_length|].
    apply (vprintf_directive _ _ _ _ w); [done|done|unfold conversion; set_solver|exact Hw|].
    cbn. unfold u32. by rewrite Z.mod_small.
  - intros Hn Hc. destruct (buffer_numeral 10 ltac:(lia) 10 (Z.abs n) ltac:(lia) ltac:(lia)) as [Hd _].
    destruct (print_number_padded n 10 w pz lj ltac:(lia) Hc) as (out & E & Hp).
    eexists _, out. split_and!; [exact Hd|exact Hp|].
    apply (vprintf_directive _ _ _ _ w); [done|done|unfold conversion; set_solver|exact Hw|].
    cbn. rewrite i32_small by lia. by rewrite E.
Qed.

Lemma printf_number_spec_witness :
  exists out, padded 5 false false ([0x2D] ++ [0x34; 0x32]) out ∧
    vprintf ([0x78; 0x3D] ++ directive_text false false [0x35] 0x64 ++ [0x0A]) [AInt (-42)] =
      Ok ([0x78; 0x3D] ++ out ++ [0x0A], 4).
Proof.
  destruct (printf_number_spec [0x78; 0x3D] [0x0A] false false [0x35] 5 (-42)) as [_ H].
  - by apply (bool_decide_unpack _).
  - by apply (bool_decide_unpack _).
  - right. split; [|lia]. apply (buffer_numeral 10 ltac:(lia) 1 5); cbn; lia.
  - destruct H as (ds & out & Hd & Hp & E); [lia|by left|].
    assert (Hds : exists out', vprintf ([0x78; 0x3D] ++ directive_text false false [0x35] 0x64 ++ [0x0A]) [AInt (-42)] =
      Ok ([0x78; 0x3D] ++ [0x20; 0x20; 0x2D; 0x34; 0x32] ++ out', 4) ∧ out' = [0x0A]) by (eexists; split; reflexivity).
    destruct Hds as (o & E' & ->). rewrite E' in E. injection E as E.
    exists [0x20; 0x20; 0x2D; 0x34; 0x32]. split; [reflexivity|]. exact E'.
Defined.

(** A string argument without a percent sign is printed as it is, padded to
    the width, and a null one as "(null)"; a character argument is printed. *)
Theorem printf_string_spec pre post lj pz ws w s c :
  percent ∉ pre → percent ∉ post → ws = [] ∧ w = 0 ∨ numeral 10 w ws ∧ 0 < w < 2 ^ 31 →
  let str := default null_string s in
  percent ∉ str → 0 ≤ c < 256 →
  (exists out, padded w false lj str out ∧
     vprintf (pre ++ directive_text lj pz ws 0x73 ++ post) [AStr s] =
       Ok (pre ++ out ++ post, Z.of_nat (length pre) + Z.of_nat (length post) + 1)) ∧
  vprintf (pre ++ directive_text lj pz ws 0x63 ++ post) [AInt c] =
    Ok (pre ++ [c] ++ post, Z.of_nat (length pre) + Z.of_nat (length post) + 1).
Proof.
  intros Hpre Hpost Hw str Hs Hc. split.
  - eexists. split; [reflexivity|].
    apply (vprintf_directive _ _ _ _ w); [done|done|unfold conversion; set_solver|exact Hw|].
    unfold convert. cbn [Z.eqb Pos.eqb d_width d_left]. fold str. rewrite printf_string_plain by done.
    rewrite bind_Ok. destruct (Z.ltb_spec 0 w); [by destruct lj|].
    assert (Hpad : pad (w - Z.of_nat (length str)) 0x20 = []).
    { unfold pad. by replace (Z.to_nat (w - Z.of_nat (length str))) with 0%nat by lia. }
    cbn [pad_char]. rewrite Hpad, app_nil_r. by destruct lj.
  - apply (vprintf_directive _ _ _ _ w); [done|done|unfold conversion; set_solver|exact Hw|].
    cbn. unfold u8. by rewrite Z.mod_small.
Qed.

Lemma printf_string_spec_witness :
  (exists out, padded 0 false false [0x61; 0x62] out ∧
     vprintf ([0x5B] ++ directive_text false false [] 0x73 ++ [0x5D]) [AStr (Some [0x61; 0x62])] = Ok ([0x5B] ++ out ++ [0x5D], 3)) ∧
  vprintf ([0x5B] ++ directive_text false false [] 0x63 ++ [0x5D]) [AInt 0x41] = Ok ([0x5B; 0x41; 0x5D], 3).
Proof.
  apply (printf_string_spec [0x5B] [0x5D] false false [] 0 (Some [0x61; 0x62]) 0x41);
    try (by apply (bool_decide_unpack _)). by left.
Defined.

(** ** Divergences *)

(** A format that ends with a percent sign is read behind its end. *)
Lemma vprintf_percent_end pre args : percent ∉ pre → vprintf (pre ++ [percent]) args = UB.
Proof.
  intros Hpre. unfold vprintf. replace (S (length (pre ++ [percent]))) with (length pre + 2)%nat by (rewrite length_app; cbn; lia).
  by rewrite vformat_literal.
Qed.

(** The text of a string argument is itself used as a format. *)
Example printf_string_format : vprintf [percent; 0x73] [AStr (Some [0x61; percent; 0x64])] = UB.
Proof. reflexivity. Qed.

(** Zero padding of a hexadecimal number goes in front of its prefix. *)
Example print_hex_padding : print_hex 0x1F 6 true false = [0x30; 0x30; 0x30; 0x78; 0x31; 0x66].
Proof. reflexivity. Qed.

(** [%ld] prints the low 32 bits only. *)
Example printf_long : vprintf [percent; 0x6C; 0x64] [AInt (2 ^ 32 + 7)] = Ok ([0x37], 1).
Proof. reflexivity. Qed.

(** Six digits of a half. *)
Example print_float_half : print_float (S754_finite false 1 (-1)) 6 = Ok [0x30; 0x2E; 0x35; 0x30; 0x30; 0x30; 0x30; 0x30].
Proof. reflexivity. Qed.
