(* ===== verification/Console.v ===== *)
(** * Text colours, the prompt and the files of the console programs
    (src/kernel/src/shell/shell.cpp)

    The shell's colour switches and its prompt, and the class [Files]: what the
    shell, the editor and the pager use of the file system, with the FAT32 file
    system of Fat32.v as its instance.  File names, paths and directory names
    are the characters before the terminating zero. *)

From S2P Require Import Prelude CStr Disk Fat32 Terminal Printf.

Definition VGA_COLOR_GREEN : Z := 2.
Definition VGA_COLOR_BLUE : Z := 1.
Definition VGA_COLOR_RED : Z := 4.
Definition VGA_COLOR_LIGHT_GREY : Z := 7.

(** [set_red], [set_green], [set_blue], [set_gray] and [set_white]. *)
Definition set_fg (fg : Z) : TM unit :=
  modify (λ t, set_color (vga_color fg VGA_COLOR_BLACK) (set_color_saved (terminal_color t) t)).
Definition set_red : TM unit := set_fg VGA_COLOR_RED.
Definition set_green : TM unit := set_fg VGA_COLOR_GREEN.
Definition set_blue : TM unit := set_fg VGA_COLOR_BLUE.
Definition set_gray : TM unit := set_fg VGA_COLOR_LIGHT_GREY.
Definition set_white : TM unit := set_fg VGA_COLOR_WHITE.
Definition reset_color : TM unit := modify (λ t, set_color (color_saved t) t).

Definition put_text (l : list Z) : TM unit := printf l [];; mret tt.

(** The part of [print_prompt] that writes. *)
Definition write_prompt (dir_name : list Z) : TM unit :=
  set_white;; put_text [0x5B];;
  set_gray;; put_text [0x6B; 0x65; 0x72; 0x6E; 0x65; 0x6C];;
  set_white;; put_text [0x20];;
  set_gray;; printf [0x25; 0x73] [AStr (Some dir_name)];;
  set_white;; put_text [0x5D];;
  set_gray;; put_text [0x24];;
  reset_color;; put_text [0x20].

(** ** Files *)

Class Files (F : Type) := {
  (** cluster, size and attributes *)
  f_find : list Z → ST F (option (Z * Z * Z));
  (** cluster, buffer, number of bytes *)
  f_read : Z → list Z → Z → ST F (list Z);
  f_create : list Z → Z → ST F bool;
  f_create_directory : list Z → ST F bool;
  f_create_with_content : list Z → list Z → Z → ST F bool;
  f_write : Z → list Z → Z → ST F bool;
  f_update_size : list Z → Z → ST F bool;
  (** path, buffer, number of bytes *)
  f_read_path : list Z → list Z → Z → ST F (bool * list Z);
  f_write_path : list Z → list Z → Z → ST F bool;
  f_dir_name : ST F (list Z);
  f_set_dir_name : list Z → ST F unit
}.

(** The characters of a zero-terminated buffer. *)
Fixpoint chars_of (l : list Z) : list Z :=
  match l with
  | [] => []
  | c :: l => if c =? 0 then [] else c :: chars_of l
  end.

(** No files at all. *)
Definition no_disk : Files unit := {|
  f_find _ := mret None;
  f_read _ b _ := mret b;
  f_create _ _ := mret false;
  f_create_directory _ := mret false;
  f_create_with_content _ _ _ := mret false;
  f_write _ _ _ := mret false;
  f_update_size _ _ := mret false;
  f_read_path _ b _ := mret (false, b);
  f_write_path _ _ _ := mret false;
  f_dir_name := mret [0x2F];
  f_set_dir_name _ := mret tt
|}.

Section fat32.
Context {D} `{BlockDevice D}.
Variable fuel : nat.

#[export] Instance fat32_as_files : Files (CFat32FileSystem D) := {
  f_find path := findFile fuel (path ++ [0]);
  f_read cluster buffer n := readFile fuel cluster buffer n;
  f_create path attributes := createFile fuel (path ++ [0]) attributes;
  f_create_directory path := createDirectory fuel (path ++ [0]);
  f_create_with_content path data attributes :=
    createFileWithContent fuel (path ++ [0]) data (Z.of_nat (length data)) attributes;
  f_write cluster data n := writeFile fuel cluster data n;
  f_update_size path n := updateFileSize fuel (path ++ [0]) n;
  f_read_path path buffer n := readFileByPath fuel (path ++ [0]) buffer n;
  f_write_path path data n := writeFileByPath fuel (path ++ [0]) data n;
  f_dir_name := gets (λ s, chars_of (m_currentDirName s));
  f_set_dir_name name := set_current_dir_name (name ++ [0])
}.
End fat32.

(** A program that uses the screen and the files. *)
Record Console (F : Type) := Cons { co_screen : Terminal; co_files : F }.
Arguments Cons {F}. Arguments co_screen {F}. Arguments co_files {F}.

Section prompt.
Context {F : Type} `{Files F}.

Definition on_screen {A} (m : TM A) : ST (Console F) A := λ k,
  match m (co_screen k) with
  | Ok (a, t) => Ok (a, Cons t (co_files k))
  | UB => UB
  | OutOfFuel => OutOfFuel
  end.

Definition on_files {A} (m : ST F A) : ST (Console F) A := λ k,
  match m (co_files k) with
  | Ok (a, f) => Ok (a, Cons (co_screen k) f)
  | UB => UB
  | OutOfFuel => OutOfFuel
  end.

Definition print_prompt : ST (Console F) unit :=
  name ← on_files f_dir_name;
  match name with
  | [] => on_files (f_set_dir_name [0x2F]);; on_screen (write_prompt [0x2F])
  | _ => on_screen (write_prompt name)
  end.
End prompt.
