(* ===== verification/Editor.v ===== *)
(** * The text editor (src/kernel/src/shell/{editor.hpp,editor.cpp})

    The buffer with its cursor, the three modes and their keys, loading and
    saving, and the drawing of the text and the status line.  The buffer is the
    array of the code: what lies behind [m_buffer_size] is kept, and an access
    outside the array is undefined.  Positions are [size_t]: what is subtracted
    wraps around. *)

From S2P Require Import Prelude CStr Terminal Printf Console.

Definition MAX_BUFFER_SIZE : Z := 32768.
Definition MAX_FILENAME_LENGTH : Z := 256.

Inductive EditorMode := NORMAL | INSERT | VISUAL.

#[export] Instance EditorMode_eq_dec : EqDecision EditorMode.
Proof. solve_decision. Defined.

Definition STATUS_TEXT_COLOR : Z := 0xF0.
Definition TEXT_COLOR : Z := 0x0F.
Definition LINE_NUMBER_CURRENT_COLOR : Z := 0x0F.
Definition LINE_NUMBER_COLOR : Z := 0x08.
Definition SELECTION_COLOR : Z := 0x70.
Definition TERMINAL_WIDTH : Z := 80.
Definition TERMINAL_HEIGHT : Z := 25.
Definition STATUS_LINE : Z := TERMINAL_HEIGHT - 1.
Definition LINE_NUMBER_WIDTH : Z := 3.
Definition CURSOR_NORMAL_START : Z := 0.
Definition CURSOR_NORMAL_END : Z := 15.
Definition CURSOR_INSERT_START : Z := 14.
Definition CURSOR_INSERT_END : Z := 15.
(** [static_cast<size_t>(-1)], the length of a row that is not there. *)
Definition NO_LINE : Z := 2 ^ 64 - 1.
Definition NL : Z := 0x0A.

Definition is_ctrl_key (c key : Z) : bool := c =? Z.land key 0x1F.

Record TextEditor := Ed {
  m_buffer : list Z;
  m_filename : list Z;
  m_buffer_size : Z;
  m_cursor_pos : Z;
  m_cursor_row : Z;
  m_cursor_col : Z;
  m_screen_row : Z;
  m_screen_col : Z;
  m_active : bool;
  m_modified : bool;
  m_mode : EditorMode;
  m_has_selection : bool;
  m_selection_start_row : Z;
  m_selection_end_row : Z
}.

(** Assignments to members. *)
Definition set_text (b : list Z) (n : Z) (e : TextEditor) : TextEditor :=
  Ed b (m_filename e) n (m_cursor_pos e) (m_cursor_row e) (m_cursor_col e) (m_screen_row e) (m_screen_col e)
    (m_active e) (m_modified e) (m_mode e) (m_has_selection e) (m_selection_start_row e) (m_selection_end_row e).
Definition set_filename (v : list Z) (e : TextEditor) : TextEditor :=
  Ed (m_buffer e) v (m_buffer_size e) (m_cursor_pos e) (m_cursor_row e) (m_cursor_col e) (m_screen_row e) (m_screen_col e)
    (m_active e) (m_modified e) (m_mode e) (m_has_selection e) (m_selection_start_row e) (m_selection_end_row e).
Definition set_cursor (pos row col : Z) (e : TextEditor) : TextEditor :=
  Ed (m_buffer e) (m_filename e) (m_buffer_size e) pos row col (m_screen_row e) (m_screen_col e)
    (m_active e) (m_modified e) (m_mode e) (m_has_selection e) (m_selection_start_row e) (m_selection_end_row e).
Definition set_view (row col : Z) (e : TextEditor) : TextEditor :=
  Ed (m_buffer e) (m_filename e) (m_buffer_size e) (m_cursor_pos e) (m_cursor_row e) (m_cursor_col e) row col
    (m_active e) (m_modified e) (m_mode e) (m_has_selection e) (m_selection_start_row e) (m_selection_end_row e).
Definition set_flags (active modified : bool) (e : TextEditor) : TextEditor :=
  Ed (m_buffer e) (m_filename e) (m_buffer_size e) (m_cursor_pos e) (m_cursor_row e) (m_cursor_col e) (m_screen_row e) (m_screen_col e)
    active modified (m_mode e) (m_has_selection e) (m_selection_start_row e) (m_selection_end_row e).
Definition set_mode (m : EditorMode) (sel : bool) (a b : Z) (e : TextEditor) : TextEditor :=
  Ed (m_buffer e) (m_filename e) (m_buffer_size e) (m_cursor_pos e) (m_cursor_row e) (m_cursor_col e) (m_screen_row e) (m_screen_col e)
    (m_active e) (m_modified e) m sel a b.
Definition set_modified (e : TextEditor) : TextEditor := set_flags (m_active e) true e.

(** ** Reading the text *)

(** [while (pos + len < m_buffer_size && m_buffer[pos + len] != '\n') len++] *)
Fixpoint run_length (n : nat) (b : list Z) (pos size : Z) : outcome Z :=
  match n with
  | O => Ok 0
  | S n' =>
      if pos <? size then
        c ← aget b pos;
        if c =? NL then Ok 0 else l ← run_length n' b (pos + 1) size; Ok (l + 1)
      else Ok 0
  end.

Fixpoint line_length_from (n : nat) (b : list Z) (size pos current_row row : Z) : outcome Z :=
  match n with
  | O => Ok NO_LINE
  | S n' =>
      if current_row =? row then run_length n b pos size else
      c ← aget b pos;
      line_length_from n' b size (pos + 1) (if c =? NL then current_row + 1 else current_row) row
  end.

(** The loops over the text take one turn for each of its characters. *)
Definition get_line_length (e : TextEditor) (row : Z) : outcome Z :=
  line_length_from (Z.to_nat (m_buffer_size e)) (m_buffer e) (m_buffer_size e) 0 0 row.

Fixpoint find_cursor (n : nat) (b : list Z) (pos current_row current_col row col : Z) : outcome Z :=
  match n with
  | O => Ok pos
  | S n' =>
      if (current_row =? row) && (current_col =? col) then Ok pos else
      c ← aget b pos;
      if c =? NL then find_cursor n' b (pos + 1) (current_row + 1) 0 row col
      else find_cursor n' b (pos + 1) current_row (current_col + 1) row col
  end.

Definition update_cursor_pos (e : TextEditor) : outcome TextEditor :=
  pos ← find_cursor (Z.to_nat (m_buffer_size e)) (m_buffer e) 0 0 0 (m_cursor_row e) (m_cursor_col e);
  Ok (set_cursor pos (m_cursor_row e) (m_cursor_col e) e).

Definition is_line_selected (e : TextEditor) (row : Z) : bool :=
  if negb (m_has_selection e) then false else
  if m_selection_start_row e <=? m_selection_end_row e
  then (m_selection_start_row e <=? row) && (row <=? m_selection_end_row e)
  else (m_selection_end_row e <=? row) && (row <=? m_selection_start_row e).

(** [while (line_start > 0 && m_buffer[line_start - 1] != '\n') line_start--] *)
Fixpoint back_to_line_start (n : nat) (b : list Z) (pos : Z) : outcome Z :=
  match n with
  | O => Ok pos
  | S n' =>
      if 0 <? pos then
        c ← aget b (pos - 1); if c =? NL then Ok pos else back_to_line_start n' b (pos - 1)
      else Ok pos
  end.

(** [while (line_end < m_buffer_size && m_buffer[line_end] != '\n') line_end++] *)
Definition forward_to_line_end (b : list Z) (pos size : Z) : outcome Z :=
  l ← run_length (Z.to_nat (size - pos)) b pos size; Ok (pos + l).

(** [memmove(&m_buffer[dst], &m_buffer[src], n)] *)
Definition move (b : list Z) (dst src n : Z) : outcome (list Z) :=
  if (0 <=? dst) && (0 <=? src) && (dst + n <=? Z.of_nat (length b)) && (src + n <=? Z.of_nat (length b))
  then Ok (map (memmove (nthz b) dst src (Z.to_nat n)) (map Z.of_nat (seq 0 (length b))))
  else UB.

(** ** Drawing *)

(** [for (i = first; ...; i++)], [n] turns. *)
Fixpoint for_ (n : nat) (i : Z) (f : Z → TM unit) : TM unit :=
  match n with
  | O => mret tt
  | S n' => f i;; for_ n' (i + 1) f
  end.

(** The writes to the controller that set the cursor's first and last line. *)
Definition cursor_shape (first last : Z) : TM unit :=
  modify (λ t, set_shape (Z.lor (Z.land (crtc_start t) 0xC0) first) (Z.lor (Z.land (crtc_end t) 0xE0) last) t).

Definition mode_shape (m : EditorMode) : TM unit :=
  match m with
  | INSERT => cursor_shape CURSOR_INSERT_START CURSOR_INSERT_END
  | VISUAL => cursor_shape 15 0
  | NORMAL => cursor_shape CURSOR_NORMAL_START CURSOR_NORMAL_END
  end.

Definition update_cursor (e : TextEditor) : TM unit :=
  if decide (m_mode e = VISUAL) then cursor_shape 15 0 else
  let screen_y := u64 (m_cursor_row e - m_screen_row e) in
  let screen_x := u64 (m_cursor_col e + LINE_NUMBER_WIDTH + 1) in
  update_cursor_position
    (if TERMINAL_WIDTH <=? screen_x then TERMINAL_WIDTH - 1 else screen_x)
    (if TERMINAL_HEIGHT - 1 <=? screen_y then TERMINAL_HEIGHT - 2 else screen_y).

(** [do { num_str[i++] = '0' + (v % 10); v /= 10; } while (v > 0)], in 15 places
    and a terminator. *)
Fixpoint row_digits (n : nat) (v : Z) : outcome (list Z) :=
  match n with
  | O => UB
  | S n' =>
      let d := 0x30 + v mod 10 in
      if v / 10 =? 0 then Ok [d] else r ← row_digits n' (v / 10); Ok (d :: r)
  end.

Definition decimal (v : Z) : outcome (list Z) := d ← row_digits 15 v; Ok (rev d).

Definition MODIFIED_TEXT : list Z := [0x5B; 0x6D; 0x6F; 0x64; 0x69; 0x66; 0x69; 0x65; 0x64; 0x5D].
Definition mode_text (m : EditorMode) : list Z :=
  match m with
  | NORMAL => [0x5B; 0x4E; 0x4F; 0x52; 0x4D; 0x41; 0x4C; 0x5D]
  | INSERT => [0x5B; 0x49; 0x4E; 0x53; 0x45; 0x52; 0x54; 0x5D]
  | VISUAL => [0x5B; 0x56; 0x49; 0x53; 0x55; 0x41; 0x4C; 0x5D]
  end.
(** " | Ctrl-S: Save | Ctrl-Q: Quit", " | Shift-J/K: Select | Esc: Exit selection"
    and " | Esc: Normal mode". *)
Definition help_text (m : EditorMode) : list Z :=
  match m with
  | NORMAL => [0x20; 0x7C; 0x20; 0x43; 0x74; 0x72; 0x6C; 0x2D; 0x53; 0x3A; 0x20; 0x53; 0x61; 0x76; 0x65; 0x20;
               0x7C; 0x20; 0x43; 0x74; 0x72; 0x6C; 0x2D; 0x51; 0x3A; 0x20; 0x51; 0x75; 0x69; 0x74]
  | VISUAL => [0x20; 0x7C; 0x20; 0x53; 0x68; 0x69; 0x66; 0x74; 0x2D; 0x4A; 0x2F; 0x4B; 0x3A; 0x20; 0x53; 0x65;
               0x6C; 0x65; 0x63; 0x74; 0x20; 0x7C; 0x20; 0x45; 0x73; 0x63; 0x3A; 0x20; 0x45; 0x78; 0x69; 0x74;
               0x20; 0x73; 0x65; 0x6C; 0x65; 0x63; 0x74; 0x69; 0x6F; 0x6E]
  | INSERT => [0x20; 0x7C; 0x20; 0x45; 0x73; 0x63; 0x3A; 0x20; 0x4E; 0x6F; 0x72; 0x6D; 0x61; 0x6C; 0x20; 0x6D;
               0x6F; 0x64; 0x65]
  end.

(** A string literal or a terminated array after the text of [status]. *)
Definition append (status text : list Z) : outcome (list Z) := strcat status (text ++ [0]).

(** [char status[TERMINAL_WIDTH + 1]] as the calls of [strcpy] and [strcat] fill it:
    undefined when the text does not fit. *)
Definition status_text (e : TextEditor) : outcome (list Z) :=
  status ← strcpy (replicate 81 0) [0x20; 0];
  status ← strcat status (m_filename e);
  status ← append status [0x20];
  status ← append status (if m_modified e then MODIFIED_TEXT else []);
  status ← append status [0x20];
  status ← append status (mode_text (m_mode e));
  status ←
    (if bool_decide (m_mode e = VISUAL) && m_has_selection e then
       let selected_lines :=
         if m_selection_start_row e <=? m_selection_end_row e
         then m_selection_end_row e - m_selection_start_row e + 1
         else m_selection_start_row e - m_selection_end_row e + 1 in
       status ← append status [0x20; 0x7C; 0x20; 0x53; 0x65; 0x6C; 0x65; 0x63; 0x74; 0x65; 0x64; 0x3A; 0x20];
       num ← decimal (u64 selected_lines);
       status ← append status num;
       append status [0x20; 0x6C; 0x69; 0x6E; 0x65; 0x73]
     else
       status ← append status [0x20; 0x7C; 0x20; 0x6C; 0x69; 0x6E; 0x65; 0x3A; 0x20];
       num ← decimal (u64 (m_cursor_row e + 1));
       append status num);
  append status (help_text (m_mode e)).

(** The characters of [status], then spaces. *)
Definition put_status (status : list Z) (color : Z) : TM unit :=
  len ← lift (strlen status);
  for_ (Z.to_nat TERMINAL_WIDTH) 0 (λ i,
    c ← (if i <? len then lift (aget status i) else mret 0x20);
    terminal_putchar_at c color i STATUS_LINE).

Definition display_status_line (e : TextEditor) : TM unit :=
  status ← lift (status_text e);
  put_status status STATUS_TEXT_COLOR;;
  update_cursor e.

(** The start of the first line shown. *)
Fixpoint first_line (n : nat) (b : list Z) (i current_row screen_row line_start : Z) : outcome Z :=
  match n with
  | O => Ok line_start
  | S n' =>
      if current_row <? screen_row then
        c ← aget b i;
        if c =? NL then first_line n' b (i + 1) (current_row + 1) screen_row (i + 1)
        else first_line n' b (i + 1) current_row screen_row line_start
      else Ok line_start
  end.

(** The search for row [y] of the page: its position and the row reached. *)
Fixpoint check_row (n : nat) (b : list Z) (pos size row y : Z) : outcome (Z * Z) :=
  match n with
  | O => Ok (pos, row)
  | S n' =>
      if (pos <? size) && (row <? y) then
        c ← aget b pos;
        check_row n' b (pos + 1) size (if c =? NL then row + 1 else row) y
      else Ok (pos, row)
  end.

(** The digits of a line number below 1000, and their number. *)
Fixpoint count_digits (n : nat) (v : Z) : Z :=
  match n with
  | O => 0
  | S n' => if v / 10 =? 0 then 1 else 1 + count_digits n' (v / 10)
  end.

Fixpoint put_digits (n : nat) (i v color y : Z) : TM unit :=
  match n with
  | O => mret tt
  | S n' =>
      terminal_putchar_at (0x30 + v mod 10) color (LINE_NUMBER_WIDTH - i - 1) y;;
      put_digits n' (i + 1) (v / 10) color y
  end.

Definition put_line_number (e : TextEditor) (line_start abs_row y : Z) : TM unit :=
  '(check_pos, row) ← lift (check_row (Z.to_nat (m_buffer_size e)) (m_buffer e) line_start (m_buffer_size e) 0 y);
  let has_content := (check_pos <? m_buffer_size e) && (row =? y) || (abs_row =? m_cursor_row e) in
  (if has_content then
     let color := if abs_row =? m_cursor_row e then LINE_NUMBER_CURRENT_COLOR else LINE_NUMBER_COLOR in
     if abs_row <? 999 then
       let digits := count_digits 3 (abs_row + 1) in
       for_ (Z.to_nat (LINE_NUMBER_WIDTH - digits)) 0 (λ i, terminal_putchar_at 0x20 color i y);;
       put_digits (Z.to_nat digits) 0 (abs_row + 1) color y
     else mret tt
   else for_ (Z.to_nat LINE_NUMBER_WIDTH) 0 (λ i, terminal_putchar_at 0x20 TEXT_COLOR i y));;
  terminal_putchar_at 0x20 TEXT_COLOR LINE_NUMBER_WIDTH y.

Definition VISIBLE_ROWS : Z := TERMINAL_HEIGHT - 1.

(** [while (col < TERMINAL_WIDTH) { terminal_putchar_at(' ', ...); col++; }] *)
Definition fill_to_end (col row : Z) : TM unit :=
  for_ (Z.to_nat (TERMINAL_WIDTH - col)) col (λ x, terminal_putchar_at 0x20 TEXT_COLOR x row).

(** The text from position [i] on: where it ended on the screen. *)
Fixpoint put_lines (n : nat) (e : TextEditor) (i col row abs_row : Z) : TM (Z * Z) :=
  match n with
  | O => mret (col, row)
  | S n' =>
      if negb (row <? VISIBLE_ROWS) then mret (col, row) else
      let color := if is_line_selected e abs_row then SELECTION_COLOR else TEXT_COLOR in
      c ← lift (aget (m_buffer e) i);
      if c =? NL then
        fill_to_end col row;;
        put_lines n' e (i + 1) (LINE_NUMBER_WIDTH + 1) (row + 1) (u64 (abs_row + 1))
      else
        terminal_putchar_at c color col row;;
        if TERMINAL_WIDTH <=? col + 1 then put_lines n' e (i + 1) (LINE_NUMBER_WIDTH + 1) (row + 1) abs_row
        else put_lines n' e (i + 1) (col + 1) row abs_row
  end.

Fixpoint clear_rows (n : nat) (col row : Z) : TM unit :=
  match n with
  | O => mret tt
  | S n' => fill_to_end col row;; clear_rows n' (LINE_NUMBER_WIDTH + 1) (row + 1)
  end.

Definition render (e : TextEditor) : TM unit :=
  if negb (m_active e) then mret tt else
  for_ (Z.to_nat TERMINAL_HEIGHT) 0 (λ y,
    for_ (Z.to_nat TERMINAL_WIDTH) 0 (λ x, terminal_putchar_at 0x20 TEXT_COLOR x y));;
  modify (set_position 0 0);;
  line_start ← lift (first_line (Z.to_nat (m_buffer_size e)) (m_buffer e) 0 0 (m_screen_row e) 0);
  for_ (Z.to_nat VISIBLE_ROWS) 0 (λ y, put_line_number e line_start (u64 (m_screen_row e + y)) y);;
  '(col, row) ← put_lines (Z.to_nat (m_buffer_size e - line_start)) e line_start (LINE_NUMBER_WIDTH + 1) 0 (m_screen_row e);
  clear_rows (Z.to_nat (VISIBLE_ROWS - row)) col row;;
  display_status_line e;;
  mode_shape (m_mode e);;
  update_cursor e.

(** ** Editing *)

Definition SHIFT_J : Z := 0x4A.
Definition SHIFT_K : Z := 0x4B.

(** Scrolling when the cursor has left the page upwards or downwards. *)
Definition scroll_up (e : TextEditor) : TextEditor :=
  if m_cursor_row e <? m_screen_row e then set_view (m_cursor_row e) (m_screen_col e) e else e.
Definition scroll_down (e : TextEditor) : TextEditor :=
  if m_screen_row e + TERMINAL_HEIGHT - 1 <=? m_cursor_row e
  then set_view (u64 (m_cursor_row e - TERMINAL_HEIGHT + 2)) (m_screen_col e) e else e.

Definition delete_char (e : TextEditor) : outcome TextEditor :=
  if m_buffer_size e <=? m_cursor_pos e then Ok e else
  b ← move (m_buffer e) (m_cursor_pos e) (m_cursor_pos e + 1) (m_buffer_size e - m_cursor_pos e);
  Ok (set_modified (set_text b (m_buffer_size e - 1) e)).

(** The row above ('k' and Shift-K) and below ('j' and Shift-J): [None] when there
    is none. *)
Definition row_up (e : TextEditor) : outcome (option TextEditor) :=
  len ← get_line_length e (m_cursor_row e - 1);
  if len =? NO_LINE then Ok None else
  e ← update_cursor_pos (set_cursor (m_cursor_pos e) (m_cursor_row e - 1)
        (if len <? m_cursor_col e then len else m_cursor_col e) e);
  Ok (Some e).

Definition row_down (e : TextEditor) : outcome (option TextEditor) :=
  len ← get_line_length e (u64 (m_cursor_row e + 1));
  if len =? NO_LINE then Ok None else
  e ← update_cursor_pos (set_cursor (m_cursor_pos e) (u64 (m_cursor_row e + 1))
        (if len <? m_cursor_col e then len else m_cursor_col e) e);
  Ok (Some e).

Definition cursor_left (e : TextEditor) : TextEditor :=
  set_cursor (u64 (m_cursor_pos e - 1)) (m_cursor_row e) (m_cursor_col e - 1) e.
Definition cursor_right (e : TextEditor) : TextEditor :=
  set_cursor (u64 (m_cursor_pos e + 1)) (m_cursor_row e) (u64 (m_cursor_col e + 1)) e.

(** The start of the line of position [pos]: the loop from the start of the text. *)
Fixpoint line_start_of (n : nat) (b : list Z) (i line_start : Z) : outcome Z :=
  match n with
  | O => Ok line_start
  | S n' => c ← aget b i; line_start_of n' b (i + 1) (if c =? NL then i + 1 else line_start)
  end.

(** The backspace key, the cursor being behind some character. *)
Definition erase_before (e : TextEditor) : outcome TextEditor :=
  let pos := m_cursor_pos e in
  c ← aget (m_buffer e) (pos - 1);
  b ← move (m_buffer e) (pos - 1) pos (u64 (m_buffer_size e - pos));
  let e1 := set_text b (u64 (m_buffer_size e - 1)) e in
  if c =? NL then
    line_start ← line_start_of (Z.to_nat (pos - 1)) b 0 0;
    Ok (set_modified (set_cursor (pos - 1) (u64 (m_cursor_row e - 1)) (u64 (pos - 1 - line_start)) e1))
  else
    Ok (set_modified (set_cursor (pos - 1) (m_cursor_row e)
          (if 0 <? m_cursor_col e then m_cursor_col e - 1 else m_cursor_col e) e1)).

(** The text with [c] at the cursor. *)
Definition insert_at (e : TextEditor) (c : Z) : outcome TextEditor :=
  let pos := m_cursor_pos e in
  b ← move (m_buffer e) (pos + 1) pos (u64 (m_buffer_size e - pos));
  b ← aset b pos c;
  Ok (set_text b (m_buffer_size e + 1) e).

Definition type_char (e : TextEditor) (c : Z) : outcome TextEditor :=
  e ← insert_at e c;
  Ok (set_modified (set_cursor (u64 (m_cursor_pos e + 1)) (m_cursor_row e) (u64 (m_cursor_col e + 1)) e)).

Definition type_newline (e : TextEditor) : outcome TextEditor :=
  e ← insert_at e NL;
  Ok (scroll_down (set_modified (set_cursor (u64 (m_cursor_pos e + 1)) (u64 (m_cursor_row e + 1)) 0 e))).

(** The key 's' in visual mode: the rows of the selection are emptied. *)
Fixpoint seek_row (n : nat) (b : list Z) (pos size current_row row : Z) : outcome Z :=
  match n with
  | O => Ok pos
  | S n' =>
      if (current_row <? row) && (pos <? size) then
        c ← aget b pos; seek_row n' b (pos + 1) size (if c =? NL then current_row + 1 else current_row) row
      else Ok pos
  end.

Fixpoint seek_end (n : nat) (b : list Z) (pos size current_row end_row : Z) : outcome Z :=
  match n with
  | O => Ok pos
  | S n' =>
      if (current_row <=? end_row) && (pos <? size) then
        c ← aget b pos;
        if c =? NL then
          if end_row <? current_row + 1 then Ok pos else seek_end n' b (pos + 1) size (current_row + 1) end_row
        else seek_end n' b (pos + 1) size current_row end_row
      else Ok pos
  end.

Definition erase_selection (e : TextEditor) : outcome TextEditor :=
  let start_row := Z.min (m_selection_start_row e) (m_selection_end_row e) in
  let end_row := Z.max (m_selection_start_row e) (m_selection_end_row e) in
  let b := m_buffer e in
  let size := m_buffer_size e in
  start_pos ← seek_row (Z.to_nat size) b 0 size 0 start_row;
  start_pos ← back_to_line_start (Z.to_nat start_pos) b start_pos;
  end_pos ← seek_end (Z.to_nat size) b start_pos size start_row end_row;
  if start_pos <? end_pos then
    b ← move b start_pos end_pos (size - end_pos);
    line_start ← back_to_line_start (Z.to_nat start_pos) b start_pos;
    Ok (set_modified (set_cursor start_pos start_row (start_pos - line_start)
          (set_text b (size - (end_pos - start_pos)) e)))
  else Ok e.

(** [m_selection_end_row = m_cursor_row] *)
Definition select_to_cursor (e : TextEditor) : TextEditor :=
  set_mode (m_mode e) (m_has_selection e) (m_selection_start_row e) (m_cursor_row e) e.

(** *** Members no key reaches

    Their effect on the editor; each ends with [update_cursor] on the screen. *)

Definition update_screen_position (e : TextEditor) : TextEditor :=
  let row :=
    if m_cursor_row e <? m_screen_row e then m_cursor_row e
    else if m_screen_row e + TERMINAL_HEIGHT - 1 <=? m_cursor_row e then u64 (m_cursor_row e - TERMINAL_HEIGHT + 2)
    else m_screen_row e in
  set_view row (if TERMINAL_WIDTH <=? m_cursor_col e then TERMINAL_WIDTH - 1 else m_cursor_col e) e.

Definition move_cursor_left (e : TextEditor) : outcome TextEditor :=
  if 0 <? m_cursor_pos e then
    let pos := m_cursor_pos e - 1 in
    c ← aget (m_buffer e) pos;
    if c =? NL then
      line_start ← back_to_line_start (Z.to_nat pos) (m_buffer e) pos;
      Ok (update_screen_position (set_cursor pos (u64 (m_cursor_row e - 1)) (pos - line_start) e))
    else Ok (update_screen_position (set_cursor pos (m_cursor_row e) (u64 (m_cursor_col e - 1)) e))
  else Ok e.

Definition move_cursor_right (e : TextEditor) : outcome TextEditor :=
  if m_cursor_pos e <? m_buffer_size e then
    c ← aget (m_buffer e) (m_cursor_pos e);
    Ok (update_screen_position
      (if c =? NL then set_cursor (m_cursor_pos e + 1) (u64 (m_cursor_row e + 1)) 0 e
       else set_cursor (m_cursor_pos e + 1) (m_cursor_row e) (u64 (m_cursor_col e + 1)) e))
  else Ok e.

Definition move_cursor_up (e : TextEditor) : outcome TextEditor :=
  line_start ← back_to_line_start (Z.to_nat (m_cursor_pos e)) (m_buffer e) (m_cursor_pos e);
  if line_start =? 0 then Ok e else
  prev_line_start ← back_to_line_start (Z.to_nat (line_start - 1)) (m_buffer e) (line_start - 1);
  let prev_line_length := line_start - prev_line_start - 1 in
  let target_col := if prev_line_length <? m_cursor_col e then prev_line_length else m_cursor_col e in
  Ok (update_screen_position (set_cursor (prev_line_start + target_col) (u64 (m_cursor_row e - 1)) target_col e)).

Definition move_cursor_down (e : TextEditor) : outcome TextEditor :=
  line_end ← forward_to_line_end (m_buffer e) (m_cursor_pos e) (m_buffer_size e);
  if m_buffer_size e <=? line_end then Ok e else
  next_line_end ← forward_to_line_end (m_buffer e) (line_end + 1) (m_buffer_size e);
  let next_line_length := next_line_end - (line_end + 1) in
  let target_col := if next_line_length <? m_cursor_col e then next_line_length else m_cursor_col e in
  Ok (update_screen_position (set_cursor (line_end + 1 + target_col) (u64 (m_cursor_row e + 1)) target_col e)).

Definition insert_char (e : TextEditor) (c : Z) : outcome TextEditor :=
  if MAX_BUFFER_SIZE - 1 <=? m_buffer_size e then Ok e else
  let pos := m_cursor_pos e in
  b ← move (m_buffer e) (pos + 1) pos (u64 (m_buffer_size e - pos + 1));
  b ← aset b pos c;
  let e := set_text b (m_buffer_size e + 1) e in
  Ok (update_screen_position (set_modified
    (if c =? NL then set_cursor (pos + 1) (u64 (m_cursor_row e + 1)) 0 e
     else set_cursor (pos + 1) (m_cursor_row e) (u64 (m_cursor_col e + 1)) e))).

Definition backspace (e : TextEditor) : outcome TextEditor :=
  if m_cursor_pos e <=? 0 then Ok e else e ← move_cursor_left e; delete_char e.

(** ** Keys *)

Record EditorState (F : Type) := ES { es_editor : TextEditor; es_console : Console F }.
Arguments ES {F}. Arguments es_editor {F}. Arguments es_console {F}.

Section keys.
Context {F : Type} `{Files F}.
#[local] Abbreviation E := (ST (EditorState F)).

Definition get_ed : E TextEditor := gets es_editor.
Definition put_ed (e : TextEditor) : E unit := modify (λ s, ES e (es_console s)).
Definition on_console {A} (m : ST (Console F) A) : E A := λ s,
  match m (es_console s) with
  | Ok (a, k) => Ok (a, ES (es_editor s) k)
  | UB => UB
  | OutOfFuel => OutOfFuel
  end.

(** A change of the editor, and one followed by [render()]. *)
Definition edit (f : TextEditor → outcome TextEditor) : E unit :=
  e ← get_ed; e ← lift (f e); put_ed e.
Definition draw (f : TextEditor → TM unit) : E unit :=
  e ← get_ed; on_console (on_screen (f e)).
Definition edit_render (f : TextEditor → outcome TextEditor) : E unit := edit f;; draw render.

Definition switch_to_mode (m : EditorMode) : E unit :=
  edit (λ e, Ok
    (if decide (m = VISUAL) then set_mode VISUAL true (m_cursor_row e) (m_cursor_row e) e
     else set_mode m false (m_selection_start_row e) (m_selection_end_row e) e));;
  draw (λ _, mode_shape m);;
  draw render.

(** *** Opening, saving, closing

    The array [new uint8_t[...]] a file is read into is taken to be zero. *)

Definition open (filename : list Z) : E bool :=
  match filename with
  | [] => mret false
  | _ =>
      edit (λ e,
        name ← strncpy (m_filename e) (filename ++ [0]) (Z.to_nat (MAX_FILENAME_LENGTH - 1));
        name ← aset name (MAX_FILENAME_LENGTH - 1) 0;
        Ok (set_filename name e));;
      found ← on_console (on_files (f_find filename));
      ok ←
        match found with
        | None => edit (λ e, b ← aset (m_buffer e) 0 0; Ok (set_text b 0 e));; mret true
        | Some (cluster, size, attributes) =>
            if negb (Z.land attributes 0x10 =? 0) then mret false else
            if MAX_BUFFER_SIZE <=? size then mret false else
            edit (λ e, Ok (set_text (m_buffer e) size e));;
            (if 0 <? size then
               file_data ← on_console (on_files (f_read cluster (replicate (Z.to_nat size) 0) size));
               edit (λ e, Ok (set_text (take (Z.to_nat size) file_data ++ drop (Z.to_nat size) (m_buffer e)) size e))
             else mret tt);;
            edit (λ e, b ← aset (m_buffer e) size 0; Ok (set_text b size e));;
            mret true
        end;
      if negb ok then mret false else
      edit (λ e, Ok (set_mode NORMAL (m_has_selection e) (m_selection_start_row e) (m_selection_end_row e)
        (set_flags true false (set_view 0 0 (set_cursor 0 0 0 e)))));;
      on_console (on_screen terminal_clear);;
      draw (λ _, cursor_shape CURSOR_NORMAL_START CURSOR_NORMAL_END);;
      draw render;;
      mret true
  end.

(** [while (m_buffer_size > 0 && m_buffer[m_buffer_size - 1] == '\n') m_buffer_size--] *)
Fixpoint strip_newlines (n : nat) (b : list Z) : outcome Z :=
  match n with
  | O => Ok 0
  | S n' => c ← aget b (Z.of_nat n'); if c =? NL then strip_newlines n' b else Ok (Z.of_nat n)
  end.

Definition save : E bool :=
  e ← get_ed;
  if negb (m_active e) then mret false else
  edit (λ e, n ← strip_newlines (Z.to_nat (m_buffer_size e)) (m_buffer e); Ok (set_text (m_buffer e) n e));;
  let name := chars_of (m_filename e) in
  found ← on_console (on_files (f_find name));
  found ← match found with
          | Some r => mret (Some r)
          | None =>
              ok ← on_console (on_files (f_create name 0));
              if negb ok then mret None else on_console (on_files (f_find name))
          end;
  match found with
  | None => mret false
  | Some (cluster, _, _) =>
      e ← get_ed;
      ok ← on_console (on_files (f_write cluster (m_buffer e) (m_buffer_size e)));
      if negb ok then mret false else
      ok ← on_console (on_files (f_update_size name (u32 (m_buffer_size e))));
      if negb ok then mret false else
      edit (λ e, Ok (set_flags (m_active e) false e));;
      edit (λ e,
        if m_buffer_size e <? m_cursor_pos e
        then update_cursor_pos (set_cursor (m_buffer_size e) (m_cursor_row e) (m_cursor_col e) e)
        else Ok e);;
      draw render;;
      mret true
  end.

Definition close : E unit :=
  e ← get_ed;
  if negb (m_active e) then mret tt else
  edit (λ e, Ok (set_flags false (m_modified e) e));;
  draw (λ _, cursor_shape CURSOR_INSERT_START CURSOR_INSERT_END);;
  on_console (on_screen screen_restore);;
  edit (λ e,
    name ← aset (m_filename e) 0 0;
    Ok (set_filename name (set_flags false false
      (set_mode NORMAL (m_has_selection e) (m_selection_start_row e) (m_selection_end_row e)
        (set_view 0 0 (set_cursor 0 0 0 (set_text (m_buffer e) 0 e)))))));;
  on_console print_prompt.

(** *** The keys of each mode *)

(** "ERROR: Failed to save file" *)
Definition ERROR_TEXT : list Z :=
  [0x45; 0x52; 0x52; 0x4F; 0x52; 0x3A; 0x20; 0x46; 0x61; 0x69; 0x6C; 0x65; 0x64; 0x20; 0x74; 0x6F; 0x20; 0x73; 0x61;
   0x76; 0x65; 0x20; 0x66; 0x69; 0x6C; 0x65].

Definition save_key : E unit :=
  ok ← save;
  if ok : bool then draw display_status_line
  else draw (λ e, put_status (ERROR_TEXT ++ [0]) 0x4F;; update_cursor e).

Definition row_key (f : TextEditor → outcome (option TextEditor)) (g : TextEditor → TextEditor) : E unit :=
  e ← get_ed;
  r ← lift (f e);
  match r with
  | None => mret tt
  | Some e => put_ed (g e);; draw render
  end.

Definition process_normal (c : Z) : E unit :=
  e ← get_ed;
  if (c =? 0x69) || (c =? 0x61) then switch_to_mode INSERT
  else if c =? 0x73 then
    (if m_cursor_pos e <? m_buffer_size e then edit (λ e, e ← delete_char e; Ok (set_modified e)) else mret tt);;
    switch_to_mode INSERT
  else if (c =? SHIFT_J) || (c =? SHIFT_K) then switch_to_mode VISUAL
  else if is_ctrl_key c 0x53 then save_key
  else if is_ctrl_key c 0x51 then close
  else if (c =? 0x68) && (0 <? m_cursor_col e) then edit_render (λ e, Ok (cursor_left e))
  else
    len ← (if c =? 0x6C then lift (get_line_length e (m_cursor_row e)) else mret 0);
    if (c =? 0x6C) && (m_cursor_col e <? len) then edit_render (λ e, Ok (cursor_right e))
    else if (c =? 0x6B) && (0 <? m_cursor_row e) then row_key row_up scroll_up
    else if c =? 0x6A then row_key row_down scroll_down
    else mret tt.

Definition process_insert (c : Z) : E unit :=
  e ← get_ed;
  if is_ctrl_key c 0x53 || is_ctrl_key c 0x51 then mret tt
  else if (c =? 0x08) && (0 <? m_cursor_pos e) then edit_render erase_before
  else if (32 <=? c) && (c <? 127) && (m_buffer_size e <? MAX_BUFFER_SIZE - 1) then edit_render (λ e, type_char e c)
  else if ((c =? 0x0D) || (c =? NL)) && (m_buffer_size e <? MAX_BUFFER_SIZE - 1) then edit_render type_newline
  else mret tt.

Definition process_visual (c : Z) : E unit :=
  e ← get_ed;
  if c =? 0x61 then switch_to_mode INSERT
  else if c =? 0x73 then edit erase_selection;; switch_to_mode INSERT
  else if c =? SHIFT_J then row_key row_down (scroll_down ∘ select_to_cursor)
  else if c =? SHIFT_K then
    if 0 <? m_cursor_row e then row_key row_up (scroll_up ∘ select_to_cursor) else mret tt
  else mret tt.

Definition process_keypress (c : Z) : E unit :=
  e ← get_ed;
  if negb (m_active e) then mret tt else
  if c =? 0x1B then switch_to_mode NORMAL else
  match m_mode e with
  | NORMAL => process_normal c
  | INSERT => process_insert c
  | VISUAL => process_visual c
  end.

(** "Usage: edit <filename>", "Failed to open file: " *)
Definition USAGE_TEXT : list Z :=
  [0x55; 0x73; 0x61; 0x67; 0x65; 0x3A; 0x20; 0x65; 0x64; 0x69; 0x74; 0x20; 0x3C; 0x66; 0x69; 0x6C; 0x65; 0x6E; 0x61;
   0x6D; 0x65; 0x3E; 0x0A].
Definition FAILED_TEXT : list Z :=
  [0x46; 0x61; 0x69; 0x6C; 0x65; 0x64; 0x20; 0x74; 0x6F; 0x20; 0x6F; 0x70; 0x65; 0x6E; 0x20; 0x66; 0x69; 0x6C; 0x65;
   0x3A; 0x20].

(** The file name is itself printed as a format. *)
Definition cmd_edit (filename : list Z) : E unit :=
  match filename with
  | [] => on_console (on_screen (put_text USAGE_TEXT));; on_console print_prompt
  | _ =>
      on_console (on_screen screen_save);;
      on_console (on_screen (modify (set_position 0 0)));;
      on_console (on_screen Terminal.update_cursor);;
      ok ← open filename;
      if ok : bool then mret tt else
      on_console (on_screen screen_restore);;
      on_console (on_screen (put_text FAILED_TEXT;; put_text filename;; put_text [NL]));;
      on_console print_prompt
  end.
End keys.

(** ** The text and the cursor *)

Lemma nthz_nat l (n : nat) : nthz l (Z.of_nat n) = default 0 (l !! n).
Proof. unfold nthz. by rewrite (proj2 (Z.leb_le 0 _)), Nat2Z.id by lia. Qed.

Lemma move_ok b (d s n : nat) :
  (d + n ≤ length b)%nat → (s + n ≤ length b)%nat →
  move b (Z.of_nat d) (Z.of_nat s) (Z.of_nat n) = Ok (take d b ++ take n (drop s b) ++ drop (d + n) b).
Proof.
  intros Hd Hs. unfold move. rewrite !(proj2 (Z.leb_le _ _)) by lia. cbn [andb]. f_equal.
  apply list_eq. intros i. rewrite Nat2Z.id. destruct (decide (i < length b)%nat) as [Hi|Hi].
  2:{ rewrite !lookup_ge_None_2; [done| |by rewrite !length_map, length_seq; lia].
      rewrite !length_app, length_take, length_take, !length_drop. lia. }
  rewrite list_lookup_fmap, list_lookup_fmap, lookup_seq_lt by done. cbn [fmap option_fmap option_map].
  rewrite memmove_ok. cbn [Nat.add].
  destruct (Z.leb_spec (Z.of_nat d) (Z.of_nat i)), (Z.ltb_spec (Z.of_nat i) (Z.of_nat d + Z.of_nat n)); cbn [andb].
  - rewrite lookup_app_r by (rewrite length_take; lia). rewrite length_take, Nat.min_l by lia.
    rewrite lookup_app_l by (rewrite length_take, length_drop; lia). rewrite lookup_take_lt by lia. rewrite lookup_drop.
    replace (Z.of_nat s + (Z.of_nat i - Z.of_nat d)) with (Z.of_nat (s + (i - d))) by lia. rewrite nthz_nat.
    destruct (lookup_lt_is_Some_2 b (s + (i - d))) as [x Hx]; [lia|]. by rewrite Hx.
  - rewrite lookup_app_r by (rewrite length_take; lia). rewrite length_take, Nat.min_l by lia.
    rewrite lookup_app_r by (rewrite length_take, length_drop; lia). rewrite length_take, length_drop, Nat.min_l by lia.
    rewrite lookup_drop, nthz_nat. replace (d + n + (i - d - n))%nat with i by lia.
    destruct (lookup_lt_is_Some_2 b i) as [x Hx]; [lia|]. by rewrite Hx.
  - rewrite lookup_app_l by (rewrite length_take; lia). rewrite lookup_take_lt, nthz_nat by lia.
    destruct (lookup_lt_is_Some_2 b i) as [x Hx]; [lia|]. by rewrite Hx.
  - lia.
Qed.

(** Row and column behind a text. *)
Definition step_coords (rc : Z * Z) (c : Z) : Z * Z := if c =? NL then (rc.1 + 1, 0) else (rc.1, rc.2 + 1).
Definition coords_from (rc : Z * Z) (l : list Z) : Z * Z := foldl step_coords rc l.
Definition coords (l : list Z) : Z * Z := coords_from (0, 0) l.

Lemma coords_snoc l c : coords (l ++ [c]) = step_coords (coords l) c.
Proof. unfold coords, coords_from. by rewrite foldl_app. Qed.

(** The order in which positions come. *)
Definition lex (a b : Z * Z) : Prop := a.1 < b.1 ∨ a.1 = b.1 ∧ a.2 < b.2.

Lemma coords_from_lex l : ∀ rc, 0 ≤ rc.2 → l ≠ [] → lex rc (coords_from rc l) ∧ 0 ≤ (coords_from rc l).2.
Proof.
  induction l as [|c l IH]; intros rc Hc Hl; [done|]. cbn [coords_from foldl]. fold (coords_from (step_coords rc c) l).
  assert (Hs : lex rc (step_coords rc c) ∧ 0 ≤ (step_coords rc c).2).
  { unfold lex, step_coords. destruct (c =? NL); cbn; lia. }
  destruct (decide (l = [])) as [->|Hne]; [done|]. destruct (IH (step_coords rc c) (proj2 Hs) Hne) as [H1 H2].
  split; [|done]. unfold lex in *. lia.
Qed.

Lemma coords_range l : 0 ≤ (coords l).1 ∧ 0 ≤ (coords l).2.
Proof.
  destruct (decide (l = [])) as [->|Hne]; [done|]. destruct (coords_from_lex l (0, 0) ltac:(done) Hne) as [H1 H2].
  unfold lex in H1. cbn in H1. unfold coords. lia.
Qed.

Lemma coords_take_lt l (i j : nat) : (i < j ≤ length l)%nat → lex (coords (take i l)) (coords (take j l)).
Proof.
  intros Hij. replace (take j l) with (take i l ++ take (j - i) (drop i l)).
  - unfold coords, coords_from. rewrite foldl_app. apply coords_from_lex; [apply coords_range|].
    intros E. apply (f_equal length) in E. rewrite length_take, length_drop in E. cbn in E. lia.
  - rewrite take_take_drop. f_equal. lia.
Qed.

Lemma coords_take_inj l (i j : nat) :
  (i ≤ length l)%nat → (j ≤ length l)%nat → coords (take i l) = coords (take j l) → i = j.
Proof.
  intros Hi Hj E. destruct (lt_eq_lt_dec i j) as [[H| ->]|H]; [|done|].
  - pose proof (coords_take_lt l i j ltac:(lia)) as L. rewrite E in L. unfold lex in L. lia.
  - pose proof (coords_take_lt l j i ltac:(lia)) as L. rewrite E in L. unfold lex in L. lia.
Qed.

(** *** Lines *)

Fixpoint run_of (l : list Z) : Z :=
  match l with
  | [] => 0
  | c :: l => if c =? NL then 0 else run_of l + 1
  end.

(** The length of a row, when the text has a character or a newline in it. *)
Fixpoint row_length (l : list Z) (row : Z) : option Z :=
  match l with
  | [] => None
  | c :: l' => if row =? 0 then Some (run_of l) else row_length l' (if c =? NL then row - 1 else row)
  end.

Lemma run_of_range l : 0 ≤ run_of l ≤ Z.of_nat (length l).
Proof. induction l as [|c l IH]; cbn [run_of length]; [lia|]. destruct (c =? NL); lia. Qed.

Lemma run_length_ok l : ∀ b (pos : nat), take (length l) (drop pos b) = l →
  run_length (length l) b (Z.of_nat pos) (Z.of_nat (pos + length l)) = Ok (run_of l).
Proof.
  induction l as [|c l IH]; intros b pos Hb; cbn [length run_length run_of]; [done|].
  rewrite (proj2 (Z.ltb_lt _ _)) by (cbn [length]; lia).
  assert (Hc : b !! pos = Some c).
  { apply (f_equal (.!! 0%nat)) in Hb. cbn in Hb. rewrite lookup_take_lt, lookup_drop, Nat.add_0_r in Hb by lia. done. }
  rewrite (aget_lookup _ _ _ Hc), bind_Ok. destruct (c =? NL); [done|].
  replace (Z.of_nat pos + 1) with (Z.of_nat (S pos)) by lia.
  replace (pos + S (length l))%nat with (S pos + length l)%nat by lia. rewrite (IH b (S pos)); [done|].
  rewrite (drop_S _ _ _ Hc) in Hb. cbn in Hb. by injection Hb.
Qed.

Lemma line_length_from_ok l : ∀ b (pos : nat) cur row, take (length l) (drop pos b) = l → cur ≤ row →
  line_length_from (length l) b (Z.of_nat (pos + length l)) (Z.of_nat pos) cur row =
  Ok (default NO_LINE (row_length l (row - cur))).
Proof.
  induction l as [|c l IH]; intros b pos cur row Hb Hr; cbn [length line_length_from row_length]; [done|].
  destruct (Z.eqb_spec cur row) as [->|Hne].
  { rewrite Z.sub_diag. cbn [Z.eqb default from_option]. exact (run_length_ok (c :: l) b pos Hb). }
  rewrite (proj2 (Z.eqb_neq (row - cur) 0)) by lia.
  assert (Hc : b !! pos = Some c).
  { apply (f_equal (.!! 0%nat)) in Hb. cbn in Hb. rewrite lookup_take_lt, lookup_drop, Nat.add_0_r in Hb by lia. done. }
  rewrite (aget_lookup _ _ _ Hc), bind_Ok.
  replace (Z.of_nat pos + 1) with (Z.of_nat (S pos)) by lia.
  replace (pos + S (length l))%nat with (S pos + length l)%nat by lia.
  rewrite (IH b (S pos)).
  - do 3 f_equal. destruct (c =? NL); lia.
  - rewrite (drop_S _ _ _ Hc) in Hb. cbn in Hb. by injection Hb.
  - destruct (c =? NL); lia.
Qed.

Lemma find_cursor_ok l : ∀ b (pos i : nat) cr cc row col, take (length l) (drop pos b) = l → 0 ≤ cc →
  (i ≤ length l)%nat → coords_from (cr, cc) (take i l) = (row, col) →
  find_cursor (length l) b (Z.of_nat pos) cr cc row col = Ok (Z.of_nat (pos + i)).
Proof.
  induction l as [|c l IH]; intros b pos i cr cc row col Hb Hcc Hi E; cbn [length find_cursor].
  { cbn in Hi. do 2 f_equal. lia. }
  destruct ((cr =? row) && (cc =? col)) eqn:Em.
  { apply andb_true_iff in Em as [->%Z.eqb_eq ->%Z.eqb_eq]. destruct i as [|i]; [by rewrite Nat.add_0_r|].
    exfalso. destruct (coords_from_lex (take (S i) (c :: l)) (row, col) Hcc ltac:(done)) as [L _].
    rewrite E in L. unfold lex in L. cbn in L. lia. }
  destruct i as [|i].
  { cbn in E. simplify_eq. by rewrite !Z.eqb_refl in Em. }
  assert (Hc : b !! pos = Some c).
  { apply (f_equal (.!! 0%nat)) in Hb. cbn in Hb. rewrite lookup_take_lt, lookup_drop, Nat.add_0_r in Hb by lia. done. }
  rewrite (aget_lookup _ _ _ Hc), bind_Ok. cbn [take coords_from foldl] in E. unfold step_coords in E at 2. cbn [fst snd] in E.
  assert (Hb' : take (length l) (drop (S pos) b) = l).
  { rewrite (drop_S _ _ _ Hc) in Hb. cbn in Hb. by injection Hb. }
  replace (Z.of_nat pos + 1) with (Z.of_nat (S pos)) by lia. replace (pos + S i)%nat with (S pos + i)%nat by lia.
  cbn in Hi. destruct (c =? NL); apply IH; (done || lia).
Qed.

Lemma run_of_coords l : ∀ r c0 c, 0 ≤ c - c0 ≤ run_of l →
  coords_from (r, c0) (take (Z.to_nat (c - c0)) l) = (r, c).
Proof.
  induction l as [|x l IH]; intros r c0 c Hc; cbn [run_of] in Hc.
  { rewrite take_nil. cbn. f_equal. lia. }
  destruct (Z.eqb_spec x NL) as [->|Hx].
  { assert (c = c0) as -> by lia. by rewrite Z.sub_diag. }
  destruct (decide (c = c0)) as [->|Hne]; [by rewrite Z.sub_diag|].
  replace (Z.to_nat (c - c0)) with (S (Z.to_nat (c - (c0 + 1)))) by lia. cbn [take coords_from foldl].
  unfold step_coords at 2. rewrite (proj2 (Z.eqb_neq x NL)) by done. cbn [fst snd]. apply IH. lia.
Qed.

(** Every column up to the length of a row is a position of the text. *)
Lemma row_length_coords l : ∀ r0 c0 k n c, row_length l k = Some n → 0 ≤ k → (k = 0 → c0 = 0) → 0 ≤ c ≤ n →
  exists i, (i ≤ length l)%nat ∧ coords_from (r0, c0) (take i l) = (r0 + k, c).
Proof.
  induction l as [|x l IH]; intros r0 c0 k n c E Hk Hc0 Hc; [done|]. cbn [row_length] in E.
  destruct (Z.eqb_spec k 0) as [->|Hk0].
  - injection E as <-. change (if x =? NL then 0 else run_of l + 1) with (run_of (x :: l)) in Hc.
    rewrite (Hc0 eq_refl). pose proof (run_of_range (x :: l)).
    exists (Z.to_nat (c - 0)). split; [lia|]. rewrite Z.add_0_r. apply run_of_coords. lia.
  - destruct (Z.eqb_spec x NL) as [->|Hx].
    + destruct (IH (r0 + 1) 0 (k - 1) n c E) as (i & Hi & Ec); [lia|done|done|]. exists (S i). split; [cbn; lia|].
      cbn [take coords_from foldl]. unfold step_coords at 2. rewrite Z.eqb_refl. cbn [fst snd].
      unfold coords_from in Ec. rewrite Ec. f_equal. lia.
    + destruct (IH r0 (c0 + 1) k n c E) as (i & Hi & Ec); [lia|done|done|]. exists (S i). split; [cbn; lia|].
      cbn [take coords_from foldl]. unfold step_coords at 2. rewrite (proj2 (Z.eqb_neq x NL)) by done. exact Ec.
Qed.

(** Every row before the last one has a length. *)
Lemma row_length_some l : ∀ r0 c0 k, 0 ≤ k → r0 + k < (coords_from (r0, c0) l).1 → exists n, row_length l k = Some n.
Proof.
  induction l as [|x l IH]; intros r0 c0 k Hk Hr; [cbn in Hr; lia|]. cbn [row_length].
  destruct (Z.eqb_spec k 0); [by eexists|]. cbn [coords_from foldl] in Hr. unfold step_coords in Hr at 2. cbn [fst snd] in Hr.
  destruct (x =? NL); [apply (IH (r0 + 1) 0); [lia|]|apply (IH r0 (c0 + 1)); [lia|]]; unfold coords_from; lia.
Qed.

(** ** The editor as a text before and a text behind the cursor *)

Record rep (e : TextEditor) (bef aft : list Z) : Prop := {
  rp_len : Z.of_nat (length (m_buffer e)) = MAX_BUFFER_SIZE;
  rp_size : m_buffer_size e = Z.of_nat (length (bef ++ aft));
  rp_max : m_buffer_size e < MAX_BUFFER_SIZE;
  rp_text : take (length (bef ++ aft)) (m_buffer e) = bef ++ aft;
  rp_pos : m_cursor_pos e = Z.of_nat (length bef);
  rp_row : m_cursor_row e = (coords bef).1;
  rp_col : m_cursor_col e = (coords bef).2
}.

Lemma coords_bound l : (coords l).1 + (coords l).2 ≤ Z.of_nat (length l).
Proof.
  induction l as [|c l IH] using rev_ind; [done|]. rewrite coords_snoc, length_app. unfold step_coords.
  destruct (c =? NL); cbn; pose proof (coords_range l); lia.
Qed.

Lemma rep_bounds e bef aft : rep e bef aft →
  m_buffer_size e < 32768 ∧ 0 ≤ m_cursor_pos e ≤ m_buffer_size e ∧
  0 ≤ m_cursor_row e ≤ m_cursor_pos e ∧ 0 ≤ m_cursor_col e ≤ m_cursor_pos e.
Proof.
  intros [H1 H2 H3 H4 H5 H6 H7]. pose proof (coords_range bef). pose proof (coords_bound bef).
  rewrite length_app in H2. unfold MAX_BUFFER_SIZE in *. lia.
Qed.

(** The text is in front of the rest of the buffer. *)
Lemma rep_split e bef aft : rep e bef aft → exists rest, m_buffer e = bef ++ aft ++ rest ∧ rest ≠ [].
Proof.
  intros R. exists (drop (length (bef ++ aft)) (m_buffer e)). split.
  - rewrite <- (take_drop (length (bef ++ aft)) (m_buffer e)) at 1. by rewrite (rp_text _ _ _ R), app_assoc.
  - intros E. apply (f_equal length) in E. rewrite length_drop in E. cbn in E.
    pose proof (rp_len _ _ _ R). pose proof (rp_size _ _ _ R). pose proof (rp_max _ _ _ R). lia.
Qed.

(** A buffer that begins with the text. *)
Lemma text_front (bef aft rest : list Z) : take (length (bef ++ aft)) (bef ++ aft ++ rest) = bef ++ aft.
Proof. rewrite app_assoc. apply take_app_length. Qed.

Lemma insert_at_ok e bef aft c : rep e bef aft → m_buffer_size e < MAX_BUFFER_SIZE - 1 →
  exists rest, insert_at e c = Ok (set_text (bef ++ c :: aft ++ rest) (m_buffer_size e + 1) e) ∧
    length (bef ++ c :: aft ++ rest) = length (m_buffer e).
Proof.
  intros R Hs. destruct (rep_split _ _ _ R) as (rest & Eb & Hrest). destruct rest as [|x rest]; [done|].
  destruct (rep_bounds _ _ _ R) as (Hm & Hp & _ & _). pose proof (rp_len _ _ _ R) as Hl.
  pose proof (rp_size _ _ _ R) as Hsz. rewrite length_app in Hsz. pose proof (rp_pos _ _ _ R) as Hpos.
  unfold MAX_BUFFER_SIZE in *. unfold insert_at. rewrite u64_small by lia.
  assert (En : m_buffer_size e - m_cursor_pos e = Z.of_nat (length aft)) by lia. rewrite En, Hpos.
  replace (Z.of_nat (length bef) + 1) with (Z.of_nat (S (length bef))) by lia.
  rewrite move_ok by lia. rewrite bind_Ok. exists rest. rewrite Eb.
  assert (E1 : take (S (length bef)) (bef ++ aft ++ x :: rest) = bef ++ take 1 (aft ++ x :: rest)).
  { rewrite take_app. rewrite (firstn_all2 bef) by lia. f_equal. f_equal. lia. }
  assert (E2 : take (length aft) (drop (length bef) (bef ++ aft ++ x :: rest)) = aft).
  { by rewrite drop_app_length, take_app_length. }
  assert (E3 : drop (S (length bef) + length aft) (bef ++ aft ++ x :: rest) = rest).
  { rewrite app_assoc, cons_middle, app_assoc. apply drop_app_length'. rewrite !length_app. cbn. lia. }
  rewrite E1, E2, E3.
  assert (E4 : exists y, take 1 (aft ++ x :: rest) = [y]) by (destruct aft; cbn; eauto). destruct E4 as [y ->].
  rewrite <- app_assoc. cbn [app]. rewrite aset_Ok.
  2:{ rewrite length_app. cbn. lia. }
  rewrite bind_Ok, Nat2Z.id. replace (length bef) with (length bef + 0)%nat at 1 by lia. rewrite insert_app_r. cbn.
  split; [done|]. rewrite !length_app. cbn. rewrite !length_app. cbn. lia.
Qed.

(** The editor with another text and cursor. *)
Lemma rep_intro e b bef aft row col :
  length b = length (m_buffer e) → Z.of_nat (length (m_buffer e)) = MAX_BUFFER_SIZE →
  (exists rest, b = bef ++ aft ++ rest) → Z.of_nat (length (bef ++ aft)) < MAX_BUFFER_SIZE →
  coords bef = (row, col) →
  rep (set_cursor (Z.of_nat (length bef)) row col (set_text b (Z.of_nat (length (bef ++ aft))) e)) bef aft.
Proof.
  intros Hl Hb [rest ->] Hs Hc. constructor; cbn; [lia|done|done|apply text_front|done|by rewrite Hc..].
Qed.

(** The flags and the view play no part in it. *)
Lemma rep_ext e e' bef aft :
  m_buffer e' = m_buffer e → m_buffer_size e' = m_buffer_size e → m_cursor_pos e' = m_cursor_pos e →
  m_cursor_row e' = m_cursor_row e → m_cursor_col e' = m_cursor_col e → rep e bef aft → rep e' bef aft.
Proof. intros E1 E2 E3 E4 E5 [H1 H2 H3 H4 H5 H6 H7]. constructor; rewrite ?E1, ?E2, ?E3, ?E4, ?E5; done. Qed.

Lemma rep_modified e bef aft : rep e bef aft → rep (set_modified e) bef aft.
Proof. by apply rep_ext. Qed.

Lemma rep_scroll_down e bef aft : rep e bef aft → rep (scroll_down e) bef aft.
Proof. unfold scroll_down. destruct (_ <=? _); [by apply rep_ext|done]. Qed.

Lemma rep_scroll_up e bef aft : rep e bef aft → rep (scroll_up e) bef aft.
Proof. unfold scroll_up. destruct (_ <? _); [by apply rep_ext|done]. Qed.

Lemma type_ok e bef aft c row col : rep e bef aft → m_buffer_size e < MAX_BUFFER_SIZE - 1 →
  step_coords (coords bef) c = (row, col) →
  exists e1, insert_at e c = Ok e1 ∧ rep (set_cursor (u64 (m_cursor_pos e1 + 1)) row col e1) (bef ++ [c]) aft ∧
    m_cursor_row e1 = m_cursor_row e ∧ m_cursor_col e1 = m_cursor_col e.
Proof.
  intros R Hs Hc. destruct (insert_at_ok e bef aft c R Hs) as (rest & E & Hl). eexists. split; [exact E|].
  split; [|done]. destruct (rep_bounds _ _ _ R) as (Hm & Hp & _). cbn [set_text m_cursor_pos].
  pose proof (rp_size _ _ _ R) as Hsz. rewrite length_app in Hsz.
  rewrite u64_small by lia. rewrite (rp_pos _ _ _ R).
  replace (Z.of_nat (length bef) + 1) with (Z.of_nat (length (bef ++ [c]))) by (rewrite length_app; cbn; lia).
  replace (m_buffer_size e + 1) with (Z.of_nat (length ((bef ++ [c]) ++ aft))) by (rewrite !length_app; cbn; lia).
  apply rep_intro; [done|apply R| | |by rewrite coords_snoc].
  - exists rest. by rewrite <- app_assoc.
  - rewrite !length_app. cbn. unfold MAX_BUFFER_SIZE in *. lia.
Qed.

Lemma type_char_ok e bef aft c : rep e bef aft → m_buffer_size e < MAX_BUFFER_SIZE - 1 → c ≠ NL →
  exists e', type_char e c = Ok e' ∧ rep e' (bef ++ [c]) aft.
Proof.
  intros R Hs Hc. destruct (rep_bounds _ _ _ R) as (Hm & Hp & Hr & Hcol).
  destruct (type_ok e bef aft c (m_cursor_row e) (m_cursor_col e + 1) R Hs) as (e1 & E & R1 & Er & Ec).
  { unfold step_coords. rewrite (proj2 (Z.eqb_neq c NL)) by done. by rewrite (rp_row _ _ _ R), (rp_col _ _ _ R). }
  unfold type_char. rewrite E, bind_Ok. eexists. split; [reflexivity|]. apply rep_modified.
  by rewrite Er, Ec, (u64_small (m_cursor_col e + 1)) by lia.
Qed.

Lemma type_newline_ok e bef aft : rep e bef aft → m_buffer_size e < MAX_BUFFER_SIZE - 1 →
  exists e', type_newline e = Ok e' ∧ rep e' (bef ++ [NL]) aft.
Proof.
  intros R Hs. destruct (rep_bounds _ _ _ R) as (Hm & Hp & Hr & Hcol).
  destruct (type_ok e bef aft NL (m_cursor_row e + 1) 0 R Hs) as (e1 & E & R1 & Er & Ec).
  { unfold step_coords. by rewrite Z.eqb_refl, (rp_row _ _ _ R). }
  unfold type_newline. rewrite E, bind_Ok. eexists. split; [reflexivity|]. apply rep_scroll_down, rep_modified.
  by rewrite Er, (u64_small (m_cursor_row e + 1)) by lia.
Qed.

Lemma line_start_of_ok l : ∀ b (pos : nat) r ls, take (length l) (drop pos b) = l →
  line_start_of (length l) b (Z.of_nat pos) ls =
  Ok (Z.of_nat (pos + length l) - (coords_from (r, Z.of_nat pos - ls) l).2).
Proof.
  induction l as [|c l IH]; intros b pos r ls Hb; cbn [length line_start_of].
  { cbn. f_equal. lia. }
  assert (Hc : b !! pos = Some c).
  { apply (f_equal (.!! 0%nat)) in Hb. cbn in Hb. rewrite lookup_take_lt, lookup_drop, Nat.add_0_r in Hb by lia. done. }
  assert (Hb' : take (length l) (drop (S pos) b) = l).
  { rewrite (drop_S _ _ _ Hc) in Hb. cbn in Hb. by injection Hb. }
  rewrite (aget_lookup _ _ _ Hc), bind_Ok. cbn [coords_from foldl]. unfold step_coords at 2. cbn [fst snd].
  replace (Z.of_nat pos + 1) with (Z.of_nat (S pos)) by lia.
  replace (pos + S (length l))%nat with (S pos + length l)%nat by lia. destruct (Z.eqb_spec c NL) as [->|Hn].
  - rewrite (IH b (S pos) (r + 1) (Z.of_nat (S pos)) Hb'). rewrite Z.sub_diag. done.
  - rewrite (IH b (S pos) r ls Hb'). do 5 f_equal. lia.
Qed.

(** The text without the characters of [gap]. *)
Lemma move_gap e (bef gap aft : list Z) rest :
  m_buffer e = bef ++ gap ++ aft ++ rest →
  exists r, move (m_buffer e) (Z.of_nat (length bef)) (Z.of_nat (length (bef ++ gap))) (Z.of_nat (length aft)) =
      Ok (bef ++ aft ++ r) ∧ length (bef ++ aft ++ r) = length (m_buffer e).
Proof.
  intros Eb. exists (drop (length bef + length aft) (m_buffer e)). rewrite move_ok.
  - rewrite Eb. rewrite take_app_length. rewrite (app_assoc bef gap), drop_app_length, take_app_length.
    rewrite <- app_assoc. split; [done|]. rewrite !length_app, length_drop, !length_app. lia.
  - rewrite Eb, !length_app. lia.
  - rewrite Eb, !length_app. lia.
Qed.

Lemma erase_before_ok e bef aft c : rep e (bef ++ [c]) aft →
  exists e', erase_before e = Ok e' ∧ rep e' bef aft.
Proof.
  intros R. destruct (rep_split _ _ _ R) as (rest & Eb & _). rewrite <- app_assoc in Eb.
  destruct (rep_bounds _ _ _ R) as (Hm & Hp & Hr & Hc). pose proof (rp_size _ _ _ R) as Hsz.
  pose proof (rp_pos _ _ _ R) as Hpos. rewrite !length_app in Hsz. rewrite length_app in Hpos. cbn [length] in Hsz, Hpos.
  destruct (move_gap e bef [c] aft rest Eb) as (r & E & Hl). rewrite length_app in E. cbn [length] in E.
  unfold erase_before. rewrite Hpos. replace (Z.of_nat (length bef + 1) - 1) with (Z.of_nat (length bef)) by lia.
  assert (Hg : m_buffer e !! length bef = Some c).
  { rewrite Eb. cbn [app]. by rewrite list_lookup_middle. }
  rewrite (aget_lookup _ _ _ Hg), bind_Ok.
  rewrite (u64_small (m_buffer_size e - Z.of_nat (length bef + 1))) by lia. replace (m_buffer_size e - Z.of_nat (length bef + 1)) with (Z.of_nat (length aft)) by lia.
  rewrite E, bind_Ok. rewrite (u64_small (m_buffer_size e - 1)) by lia.
  replace (m_buffer_size e - 1) with (Z.of_nat (length (bef ++ aft))) by (rewrite length_app; lia).
  assert (Hintro : ∀ row col, coords bef = (row, col) →
    rep (set_modified (set_cursor (Z.of_nat (length bef)) row col (set_text (bef ++ aft ++ r) (Z.of_nat (length (bef ++ aft))) e))) bef aft).
  { intros row col Ec. apply rep_modified, rep_intro; [done|apply R|by exists r| |done]. unfold MAX_BUFFER_SIZE. rewrite length_app. lia. }
  pose proof (rp_row _ _ _ R) as Erow. pose proof (rp_col _ _ _ R) as Ecol. rewrite coords_snoc in Erow, Ecol. unfold step_coords in Erow, Ecol.
  pose proof (coords_range bef) as [Hr0 Hc0]. pose proof (coords_bound bef).
  destruct (Z.eqb_spec c NL) as [->|Hn]; cbn [fst snd] in Erow, Ecol.
  - rewrite Nat2Z.id. pose proof (line_start_of_ok bef (bef ++ aft ++ r) 0 0 0) as Els. cbn [drop Nat.add] in Els.
    change (Z.of_nat 0) with 0 in Els. rewrite Z.sub_0_r in Els. fold (coords bef) in Els.
    rewrite Els by (apply take_app_length). rewrite bind_Ok.
    eexists. split; [reflexivity|]. apply Hintro. rewrite !u64_small by lia. destruct (coords bef). cbn in *. f_equal; lia.
  - rewrite (proj2 (Z.ltb_lt 0 _)) by lia. eexists. split; [reflexivity|]. apply Hintro. destruct (coords bef). cbn in *. f_equal; lia.
Qed.

Lemma delete_char_ok e bef c aft : rep e bef (c :: aft) →
  exists e', delete_char e = Ok e' ∧ rep e' bef aft.
Proof.
  intros R. destruct (rep_split _ _ _ R) as (rest & Eb & Hne). destruct rest as [|x rest]; [done|].
  destruct (rep_bounds _ _ _ R) as (Hm & Hp & _). pose proof (rp_size _ _ _ R) as Hsz. pose proof (rp_pos _ _ _ R) as Hpos.
  rewrite length_app in Hsz. cbn [length] in Hsz. unfold delete_char. rewrite (proj2 (Z.leb_gt _ _)) by lia.
  replace ((c :: aft) ++ x :: rest) with ([c] ++ (aft ++ [x]) ++ rest) in Eb by (by rewrite <- app_assoc).
  destruct (move_gap e bef [c] (aft ++ [x]) rest Eb) as (r & E & Hl). rewrite !length_app in E. cbn [length] in E.
  rewrite Hpos. replace (Z.of_nat (length bef) + 1) with (Z.of_nat (length bef + 1)) by lia.
  replace (m_buffer_size e - Z.of_nat (length bef)) with (Z.of_nat (length aft + 1)) by lia.
  rewrite E, bind_Ok. eexists. split; [reflexivity|]. apply rep_modified.
  replace (m_buffer_size e - 1) with (Z.of_nat (length (bef ++ aft))) by (rewrite length_app; lia).
  pose proof (rep_intro e (bef ++ (aft ++ [x]) ++ r) bef aft (m_cursor_row e) (m_cursor_col e) Hl (rp_len _ _ _ R)) as R'.
  rewrite <- Hpos in R'. apply (rep_ext _ _ _ _ eq_refl eq_refl eq_refl eq_refl eq_refl). apply R'.
  - exists ([x] ++ r). by rewrite <- app_assoc.
  - unfold MAX_BUFFER_SIZE. rewrite length_app. lia.
  - rewrite (rp_row _ _ _ R), (rp_col _ _ _ R). by destruct (coords bef).
Qed.

(** *** Moving *)

(** A cursor elsewhere in the same text. *)
Lemma rep_moved e bef aft bef' aft' row col :
  rep e bef aft → bef' ++ aft' = bef ++ aft → coords bef' = (row, col) →
  rep (set_cursor (Z.of_nat (length bef')) row col e) bef' aft'.
Proof.
  intros [H1 H2 H3 H4 H5 H6 H7] E Hc. constructor; cbn; rewrite ?E, ?Hc; done.
Qed.

Lemma cursor_left_ok e bef c aft : rep e (bef ++ [c]) aft → 0 < m_cursor_col e → rep (cursor_left e) bef (c :: aft).
Proof.
  intros R Hc. destruct (rep_bounds _ _ _ R) as (Hm & Hp & _). pose proof (rp_pos _ _ _ R) as Hpos.
  rewrite length_app in Hpos. cbn in Hpos. pose proof (rp_col _ _ _ R) as Ec. pose proof (rp_row _ _ _ R) as Er.
  rewrite coords_snoc in Ec, Er. unfold step_coords in Ec, Er. destruct (c =? NL); cbn [fst snd] in Ec, Er; [lia|].
  unfold cursor_left. rewrite u64_small by lia.
  replace (m_cursor_pos e - 1) with (Z.of_nat (length bef)) by lia.
  apply (rep_moved e (bef ++ [c]) aft); [done|by rewrite <- app_assoc|]. destruct (coords bef). cbn in *. f_equal; lia.
Qed.

Lemma get_line_length_ok e bef aft row : rep e bef aft → 0 ≤ row →
  get_line_length e row = Ok (default NO_LINE (row_length (bef ++ aft) row)).
Proof.
  intros R Hr. unfold get_line_length. rewrite (rp_size _ _ _ R), Nat2Z.id.
  pose proof (line_length_from_ok (bef ++ aft) (m_buffer e) 0 0 row (rp_text _ _ _ R) Hr) as E.
  cbn [Nat.add] in E. by rewrite Z.sub_0_r in E.
Qed.

Lemma row_length_range l : ∀ k n, row_length l k = Some n → 0 ≤ n ≤ Z.of_nat (length l).
Proof.
  induction l as [|c l IH]; intros k n; [done|]. cbn [row_length]. destruct (k =? 0).
  - intros [= <-]. apply (run_of_range (c :: l)).
  - intros E. apply IH in E. cbn [length]. lia.
Qed.

(** A place of the text by its row and column. *)
Lemma row_column l row n c : row_length l row = Some n → 0 ≤ row → 0 ≤ c ≤ n →
  exists b a, l = b ++ a ∧ coords b = (row, c).
Proof.
  intros E Hr Hc. destruct (row_length_coords l 0 0 row n c E Hr ltac:(done) Hc) as (i & Hi & Ec).
  exists (take i l), (drop i l). split; [by rewrite take_drop|exact Ec].
Qed.

Lemma split_at (l b a b' a' : list Z) : l = b ++ a → l = b' ++ a' → coords b = coords b' → b = b' ∧ a = a'.
Proof.
  intros E1 E2 Ec. assert (Hb : take (length b) l = b) by (rewrite E1; apply take_app_length).
  assert (Hb' : take (length b') l = b') by (rewrite E2; apply take_app_length).
  assert (length b = length b') as El.
  { apply (coords_take_inj l); [rewrite E1, length_app; lia|rewrite E2, length_app; lia|by rewrite Hb, Hb']. }
  assert (b = b') as -> by (by rewrite <- Hb, El, Hb'). split; [done|]. rewrite E1 in E2. by apply app_inv_head in E2.
Qed.

Lemma cursor_right_ok e bef aft n : rep e bef aft → row_length (bef ++ aft) (m_cursor_row e) = Some n →
  m_cursor_col e < n → exists c aft', aft = c :: aft' ∧ c ≠ NL ∧ rep (cursor_right e) (bef ++ [c]) aft'.
Proof.
  intros R En Hc. destruct (rep_bounds _ _ _ R) as (Hm & Hp & Hr & Hcol).
  destruct (row_column _ _ _ (m_cursor_col e + 1) En ltac:(lia) ltac:(lia)) as (b & a & El & Ec).
  destruct b as [|c b _] using rev_ind; [cbn in Ec; injection Ec; lia|].
  pose proof (coords_range b) as [Hb1 Hb2]. rewrite coords_snoc in Ec. unfold step_coords in Ec.
  destruct (Z.eqb_spec c NL) as [->|Hn]; [injection Ec; lia|]. injection Ec as Ec1 Ec2.
  rewrite <- app_assoc in El. destruct (split_at _ bef aft b ([c] ++ a) eq_refl El) as [-> ->].
  { pose proof (rp_row _ _ _ R). pose proof (rp_col _ _ _ R). destruct (coords bef), (coords b); cbn in *. f_equal; lia. }
  exists c, a. split; [done|]. split; [done|].
  unfold cursor_right. pose proof (rp_size _ _ _ R) as Hsz. rewrite !length_app in Hsz. cbn [length] in Hsz. pose proof (rp_pos _ _ _ R) as Hpos.
  rewrite !u64_small by lia. replace (m_cursor_pos e + 1) with (Z.of_nat (length (b ++ [c]))) by (rewrite length_app; cbn; lia).
  apply (rep_moved e b ([c] ++ a)); [done|by rewrite <- app_assoc|]. rewrite coords_snoc. unfold step_coords.
  rewrite (proj2 (Z.eqb_neq c NL)) by done. by rewrite (rp_row _ _ _ R), (rp_col _ _ _ R).
Qed.

(** The cursor put on another row of the text. *)
Lemma to_row_ok e bef aft row n : rep e bef aft → row_length (bef ++ aft) row = Some n → 0 ≤ row →
  let col := if n <? m_cursor_col e then n else m_cursor_col e in
  exists b a, b ++ a = bef ++ aft ∧ coords b = (row, col) ∧
    update_cursor_pos (set_cursor (m_cursor_pos e) row col e) =
      Ok (set_cursor (Z.of_nat (length b)) row col e) ∧
    rep (set_cursor (Z.of_nat (length b)) row col e) b a.
Proof.
  intros R En Hr col. destruct (rep_bounds _ _ _ R) as (Hm & Hp & _ & Hcol). pose proof (row_length_range _ _ _ En).
  assert (Hc : 0 ≤ col ≤ n) by (unfold col; destruct (Z.ltb_spec n (m_cursor_col e)); lia).
  destruct (row_length_coords _ 0 0 row n col En Hr ltac:(done) Hc) as (i & Hi & Ec).
  exists (take i (bef ++ aft)), (drop i (bef ++ aft)). rewrite Z.add_0_l in Ec. split; [apply take_drop|]. split; [exact Ec|].
  rewrite length_take, Nat.min_l by done. split.
  - unfold update_cursor_pos. cbn [set_cursor m_buffer_size m_buffer m_cursor_row m_cursor_col].
    rewrite (rp_size _ _ _ R), Nat2Z.id.
    pose proof (find_cursor_ok (bef ++ aft) (m_buffer e) 0 i 0 0 row col (rp_text _ _ _ R) ltac:(lia) Hi Ec) as Ef.
    cbn [Nat.add] in Ef. change (Z.of_nat 0) with 0 in Ef. rewrite Ef, bind_Ok. done.
  - pose proof (rep_moved e bef aft (take i (bef ++ aft)) (drop i (bef ++ aft)) row col R (take_drop _ _) Ec) as R'.
    by rewrite length_take, Nat.min_l in R' by done.
Qed.

Lemma coords_rows b a : (coords b).1 ≤ (coords (b ++ a)).1.
Proof.
  unfold coords, coords_from. rewrite foldl_app. generalize (foldl step_coords (0, 0) b).
  induction a as [|c a IH]; intros rc; cbn [foldl]; [lia|]. etransitivity; [|apply IH].
  unfold step_coords. destruct (c =? NL); cbn; lia.
Qed.

(** No operation on the text changes the name, the mode or whether the editor is open. *)
Definition same_mode (e e' : TextEditor) : Prop :=
  m_filename e' = m_filename e ∧ m_active e' = m_active e ∧ m_mode e' = m_mode e.

(** A cursor of [e] in a text with a row of length [n]. *)
Lemma row_to_ok e bef aft row n : rep e bef aft → 0 ≤ row → row_length (bef ++ aft) row = Some n →
  exists e' b a,
    (e' ← update_cursor_pos (set_cursor (m_cursor_pos e) row (if n <? m_cursor_col e then n else m_cursor_col e) e);
     Ok (Some e')) = Ok (Some e') ∧
    rep e' b a ∧ b ++ a = bef ++ aft ∧ coords b = (row, Z.min (coords bef).2 n) ∧ same_mode e e'.
Proof.
  intros R Hr En. destruct (to_row_ok e bef aft row n R En Hr) as (b & a & Eba & Ec & Eu & R').
  rewrite Eu. cbn [mbind outcome_bind]. eexists _, b, a. split_and!; try done. rewrite Ec, <- (rp_col _ _ _ R).
  f_equal. destruct (Z.ltb_spec n (m_cursor_col e)); lia.
Qed.

Lemma row_up_ok e bef aft : rep e bef aft → 0 < (coords bef).1 →
  exists n e' b a, row_length (bef ++ aft) ((coords bef).1 - 1) = Some n ∧ row_up e = Ok (Some e') ∧ rep e' b a ∧
    b ++ a = bef ++ aft ∧ coords b = ((coords bef).1 - 1, Z.min (coords bef).2 n) ∧ same_mode e e'.
Proof.
  intros R Hr. pose proof (coords_rows bef aft). pose proof (rp_row _ _ _ R) as Er.
  destruct (row_length_some (bef ++ aft) 0 0 ((coords bef).1 - 1)) as [n En]; [lia|unfold coords in *; lia|].
  exists n. unfold row_up. rewrite (get_line_length_ok _ _ _ _ R), Er by lia. rewrite bind_Ok, En.
  change (default NO_LINE (Some n)) with n.
  pose proof (row_length_range _ _ _ En) as Hn. destruct (rep_bounds _ _ _ R) as (Hm & _).
  pose proof (rp_size _ _ _ R). rewrite (proj2 (Z.eqb_neq n NO_LINE)) by (unfold NO_LINE; lia).
  destruct (row_to_ok e bef aft ((coords bef).1 - 1) n R ltac:(lia) En) as (e' & b & a & E & R' & ? & ? & ?).
  exists e', b, a. by split_and!.
Qed.

Lemma row_down_ok e bef aft : rep e bef aft →
  match row_length (bef ++ aft) ((coords bef).1 + 1) with
  | None => row_down e = Ok None
  | Some n => exists e' b a, row_down e = Ok (Some e') ∧ rep e' b a ∧ b ++ a = bef ++ aft ∧
      coords b = ((coords bef).1 + 1, Z.min (coords bef).2 n) ∧ same_mode e e'
  end.
Proof.
  intros R. destruct (rep_bounds _ _ _ R) as (Hm & Hp & Hr & _). unfold row_down. pose proof (rp_row _ _ _ R) as Er.
  rewrite u64_small by lia. rewrite (get_line_length_ok _ _ _ _ R), Er by lia. rewrite bind_Ok.
  destruct (row_length (bef ++ aft) ((coords bef).1 + 1)) as [n|] eqn:En; [|done].
  change (default NO_LINE (Some n)) with n. pose proof (row_length_range _ _ _ En) as Hn. pose proof (rp_size _ _ _ R).
  rewrite (proj2 (Z.eqb_neq n NO_LINE)) by (unfold NO_LINE; lia).
  destruct (row_to_ok e bef aft ((coords bef).1 + 1) n R ltac:(lia) En) as (e' & b & a & E & R' & ? & ? & ?).
  exists e', b, a. by split_and!.
Qed.

(** ** The status line *)

(** The decimal digits of a number, as [Printf] reads them. *)
Lemma row_digits_ok n : ∀ v, 0 ≤ v < 10 ^ Z.of_nat n → (0 < n)%nat →
  exists d, row_digits n v = Ok d ∧ Forall (λ c, 0x30 ≤ c ≤ 0x39) d ∧ (length d ≤ n)%nat ∧ d ≠ [] ∧
    read_digits 10 (rev d) = v.
Proof.
  induction n as [|n IH]; intros v Hv Hn; [lia|]. cbn [row_digits].
  pose proof (Z.mod_pos_bound v 10 ltac:(lia)). pose proof (Z.div_mod v 10 ltac:(lia)) as Hd.
  assert (Hc : digit_value (0x30 + v mod 10) = v mod 10) by (unfold digit_value; case_bool; lia).
  destruct (Z.eqb_spec (v / 10) 0) as [E|E].
  - exists [0x30 + v mod 10]. split; [done|]. split; [apply Forall_singleton; lia|]. split; [cbn; lia|]. split; [done|].
    unfold read_digits. cbn. rewrite Hc. lia.
  - rewrite Nat2Z.inj_succ, Z.pow_succ_r in Hv by lia.
    assert (0 ≤ v / 10) by (apply Z.div_pos; lia).
    assert (v / 10 < 10 ^ Z.of_nat n) by (apply Z.div_lt_upper_bound; lia).
    destruct (decide (n = 0%nat)) as [->|Hn0]; [cbn in *; lia|].
    destruct (IH (v / 10) ltac:(lia) ltac:(lia)) as (d & -> & Hf & Hl & Hne & Hr). cbn [mbind outcome_bind].
    eexists. split; [reflexivity|]. split; [constructor; [lia|done]|]. split; [cbn; lia|]. split; [done|].
    cbn [rev]. rewrite read_digits_snoc, Hr, Hc. lia.
Qed.

Lemma decimal_ok v : 0 ≤ v < 10 ^ 15 →
  exists d, decimal v = Ok d ∧ chars d ∧ read_digits 10 d = v.
Proof.
  intros Hv. destruct (row_digits_ok 15 v Hv ltac:(lia)) as (d & E & Hf & _ & _ & Hr). exists (rev d).
  unfold decimal. rewrite E. split; [done|]. split; [|done]. apply Forall_rev.
  eapply Forall_impl; [exact Hf|]. intros c Hc. cbn in *. lia.
Qed.

(** The pieces of the status line; [num] is the number in it. *)
Definition status_pieces (e : TextEditor) (name num : list Z) : list (list Z) :=
  [name; [0x20]; if m_modified e then MODIFIED_TEXT else []; [0x20]; mode_text (m_mode e)] ++
  (if bool_decide (m_mode e = VISUAL) && m_has_selection e
   then [[0x20; 0x7C; 0x20; 0x53; 0x65; 0x6C; 0x65; 0x63; 0x74; 0x65; 0x64; 0x3A; 0x20]; num; [0x20; 0x6C; 0x69; 0x6E; 0x65; 0x73]]
   else [[0x20; 0x7C; 0x20; 0x6C; 0x69; 0x6E; 0x65; 0x3A; 0x20]; num]) ++
  [help_text (m_mode e)].

Definition status_number (e : TextEditor) : Z :=
  u64 (if bool_decide (m_mode e = VISUAL) && m_has_selection e then
         if m_selection_start_row e <=? m_selection_end_row e
         then m_selection_end_row e - m_selection_start_row e + 1
         else m_selection_start_row e - m_selection_end_row e + 1
       else m_cursor_row e + 1).

(** The calls of [strcat] one after the other. *)
Fixpoint append_all (status : list Z) (l : list (list Z)) : outcome (list Z) :=
  match l with
  | [] => Ok status
  | t :: l => status ← append status t; append_all status l
  end.

Lemma append_all_ok l : ∀ d s, cstr d s → Forall chars l →
  if decide (length (s ++ concat l) < length d)%nat
  then exists d', append_all d l = Ok d' ∧ cstr d' (s ++ concat l) ∧ length d' = length d
  else append_all d l = UB ∨ l = [].
Proof.
  induction l as [|t l IH]; intros d s Hd Hl; cbn [append_all concat].
  { rewrite app_nil_r. destruct (decide _) as [H|H]; [by exists d|by right]. }
  apply Forall_cons in Hl as [Ht Hl]. pose proof (strcat_cstr d s t [] Hd Ht) as Hc. unfold append.
  destruct (decide (length s + length t < length d)%nat) as [Hf|Hf].
  - destruct Hc as (d1 & E & H1 & Hl1). rewrite E. cbn [mbind outcome_bind]. specialize (IH d1 (s ++ t) H1 Hl).
    rewrite <- app_assoc, Hl1 in IH. destruct (decide _) as [H|H]; [done|]. destruct IH as [->| ->]; [by left|].
    exfalso. apply H. cbn. rewrite app_nil_r, length_app. lia.
  - rewrite Hc. cbn. rewrite decide_False; [by left|]. rewrite !length_app. lia.
Qed.

Definition status_chars (e : TextEditor) (name num : list Z) : list Z := 0x20 :: concat (status_pieces e name num).

Lemma status_pieces_chars e name num : chars name → chars num → Forall chars (status_pieces e name num).
Proof.
  intros Hn Hm. unfold status_pieces.
  assert (Hk : ∀ l, bool_decide (Forall (λ c, c ≠ 0) l) = true → chars l) by (intros l H; by apply bool_decide_eq_true_1 in H).
  repeat (apply Forall_app; split); repeat (apply Forall_cons; split); try done;
    try (apply Hk; by vm_compute); try (by destruct (m_modified e); apply Hk; vm_compute);
    try (by destruct (m_mode e); apply Hk; vm_compute).
  destruct (_ && _); repeat (apply Forall_cons; split); try done; apply Hk; by vm_compute.
Qed.

(** Whether the status line fits the 81 bytes of its array decides everything. *)
Lemma status_text_ok e name num :
  cstr (m_filename e) name → decimal (status_number e) = Ok num → chars num →
  if decide (length (status_chars e name num) ≤ 80)%nat
  then exists d, status_text e = Ok d ∧ cstr d (status_chars e name num) ∧ length d = 81%nat
  else status_text e = UB.
Proof.
  intros [Hn [r Er]] Hd Hm. set (d0 := 0x20 :: 0 :: replicate 79 0).
  assert (E : status_text e = append_all d0 (status_pieces e name num)).
  { unfold status_text, status_pieces. change (strcpy (replicate 81 0) [0x20; 0]) with (Ok d0). rewrite bind_Ok.
    rewrite Er, strcat_ext by done. change (strcat d0 (name ++ [0])) with (append d0 name).
    unfold status_number in Hd. cbn [app append_all]. do 5 (apply outcome_bind_ext; intros ?).
    destruct (bool_decide (m_mode e = VISUAL) && m_has_selection e); cbn [app append_all];
      repeat first [rewrite outcome_bind_assoc | rewrite Hd | rewrite bind_Ok | apply outcome_bind_ext; intros ?];
      by rewrite outcome_bind_id. }
  assert (H0 : cstr d0 [0x20]) by (split; [by repeat constructor|by exists (replicate 79 0)]).
  pose proof (append_all_ok (status_pieces e name num) d0 [0x20] H0 (status_pieces_chars e name num Hn Hm)) as HA.
  rewrite E. change ([0x20] ++ concat (status_pieces e name num)) with (status_chars e name num) in HA.
  change (length d0) with 81%nat in HA. destruct (decide (length (status_chars e name num) ≤ 80)%nat) as [Hf|Hf].
  - rewrite decide_True in HA by lia. destruct HA as (d & ? & ? & ?). by exists d.
  - rewrite decide_False in HA by lia. by destruct HA as [?|?].
Qed.

(** ** Drawing stays on the screen *)

(** The screen keeps its cells, and the step always returns. *)
Definition draws (m : TM unit) : Prop :=
  forall t, length (VGA_MEMORY t) = CELLS → exists t', m t = Ok (tt, t') ∧ length (VGA_MEMORY t') = CELLS.

Lemma draws_ret : draws (mret tt).
Proof. intros t Ht. by exists t. Qed.

Lemma draws_seq m1 m2 : draws m1 → draws m2 → draws (m1;; m2).
Proof.
  intros H1 H2 t Ht. destruct (H1 t Ht) as (t1 & E1 & Ht1). destruct (H2 t1 Ht1) as (t2 & E2 & Ht2).
  exists t2. by rewrite (bind_run _ _ _ _ _ E1).
Qed.

Lemma draws_modify f : (∀ t, VGA_MEMORY (f t) = VGA_MEMORY t) → draws (modify f).
Proof. intros Hf t Ht. exists (f t). split; [done|]. by rewrite Hf. Qed.

Lemma draws_if (b : bool) m1 m2 : (b = true → draws m1) → (b = false → draws m2) → draws (if b then m1 else m2).
Proof. destruct b; auto. Qed.

Lemma draws_put c color x y : 0 ≤ x < 80 → 0 ≤ y < 25 → draws (terminal_putchar_at c color x y).
Proof.
  intros Hx Hy t Ht. unfold terminal_putchar_at, VGA_WIDTH. st. rewrite (u16_small x), (u16_small y), u16_small by lia.
  assert (E : aset (VGA_MEMORY t) (y * 80 + x) (vga_entry c color) =
    Ok (<[Z.to_nat (y * 80 + x) := vga_entry c color]> (VGA_MEMORY t))) by (apply aset_Ok; unfold CELLS in Ht; lia).
  rewrite (bind_lift _ _ _ _ E). eexists. split; [reflexivity|]. cbn. by rewrite length_insert.
Qed.

Lemma draws_for n : ∀ i f, (∀ j, i ≤ j < i + Z.of_nat n → draws (f j)) → draws (for_ n i f).
Proof.
  induction n as [|n IH]; intros i f Hf; cbn [for_]; [apply draws_ret|].
  apply draws_seq; [apply Hf; lia|apply IH; intros j Hj; apply Hf; lia].
Qed.

Lemma draws_shape a b : draws (cursor_shape a b).
Proof. by apply draws_modify. Qed.

Lemma draws_mode_shape m : draws (mode_shape m).
Proof. destruct m; apply draws_shape. Qed.

Lemma draws_cursor e : draws (update_cursor e).
Proof.
  unfold update_cursor. destruct (decide _); [apply draws_shape|]. unfold update_cursor_position. by apply draws_modify.
Qed.

Lemma draws_status status s color : cstr status s → draws (put_status status color).
Proof.
  intros Hs. unfold put_status. rewrite (strlen_cstr _ _ Hs). intros t Ht. rewrite bind_lift_Ok. revert t Ht.
  apply draws_for. intros j Hj t Ht. change (Z.to_nat TERMINAL_WIDTH) with 80%nat in Hj.
  destruct (Z.ltb_spec j (Z.of_nat (length s))).
  - destruct Hs as [_ [r ->]]. destruct (aget_is_ok (s ++ 0 :: r) j) as [c Hc]; [rewrite length_app; lia|].
    rewrite (bind_lift _ _ _ _ Hc). apply draws_put; unfold STATUS_LINE, TERMINAL_HEIGHT; lia || done.
  - rewrite bind_ret. apply draws_put; unfold STATUS_LINE, TERMINAL_HEIGHT; lia || done.
Qed.

Lemma draws_status_line e name num :
  cstr (m_filename e) name → decimal (status_number e) = Ok num → chars num →
  (length (status_chars e name num) ≤ 80)%nat → draws (display_status_line e).
Proof.
  intros Hn Hd Hm Hl. pose proof (status_text_ok e name num Hn Hd Hm) as H. rewrite decide_True in H by done.
  destruct H as (d & E & Hc & _). unfold display_status_line. rewrite E. intros t Ht. rewrite bind_lift_Ok. revert t Ht.
  apply draws_seq; [by eapply draws_status|apply draws_cursor].
Qed.

Lemma draws_lift {A} (o : outcome A) a (f : A → TM unit) : o = Ok a → draws (f a) → draws (lift o ≫= f).
Proof. intros -> Hf t Ht. rewrite bind_lift_Ok. by apply Hf. Qed.

(** A step with a result [Q] holds of. *)
Definition draws_with {A} (m : TM A) (Q : A → Prop) : Prop :=
  forall t, length (VGA_MEMORY t) = CELLS → exists a t', m t = Ok (a, t') ∧ Q a ∧ length (VGA_MEMORY t') = CELLS.

Lemma draws_bind {A} (m : TM A) Q (f : A → TM unit) : draws_with m Q → (∀ a, Q a → draws (f a)) → draws (m ≫= f).
Proof.
  intros Hm Hf t Ht. destruct (Hm t Ht) as (a & t1 & E & Ha & Ht1). destruct (Hf a Ha t1 Ht1) as (t2 & E2 & Ht2).
  exists t2. by rewrite (bind_run _ _ _ _ _ E).
Qed.

Lemma draws_with_seq {A} m1 (m2 : TM A) Q : draws m1 → draws_with m2 Q → draws_with (m1;; m2) Q.
Proof.
  intros H1 H2 t Ht. destruct (H1 t Ht) as (t1 & E1 & Ht1). rewrite (bind_run _ _ _ _ _ E1). by apply H2.
Qed.

Lemma draws_fill col row : 0 ≤ col → 0 ≤ row < 25 → draws (fill_to_end col row).
Proof. intros Hc Hr. apply draws_for. intros j Hj. apply draws_put; unfold TERMINAL_WIDTH in Hj; lia. Qed.

Lemma draws_clear_rows n : ∀ col row, 0 ≤ col → 0 ≤ row → Z.of_nat n ≤ Z.max 0 (24 - row) →
  draws (clear_rows n col row).
Proof.
  induction n as [|n IH]; intros col row Hc Hr Hn; cbn [clear_rows]; [apply draws_ret|].
  apply draws_seq; [apply draws_fill; lia|apply IH; unfold LINE_NUMBER_WIDTH; lia].
Qed.

Lemma draws_put_digits n : ∀ i v color y, 0 ≤ i → i + Z.of_nat n ≤ 3 → 0 ≤ y < 25 → draws (put_digits n i v color y).
Proof.
  induction n as [|n IH]; intros i v color y Hi Hn Hy; cbn [put_digits]; [apply draws_ret|].
  apply draws_seq; [apply draws_put; unfold LINE_NUMBER_WIDTH; lia|apply IH; lia].
Qed.

Lemma count_digits_range n : ∀ v, 0 ≤ count_digits n v ≤ Z.of_nat n.
Proof.
  induction n as [|n IH]; intros v; cbn [count_digits]; [lia|]. pose proof (IH (v / 10)). destruct (_ =? 0); lia.
Qed.

Lemma first_line_ok n : ∀ b i cur scr ls, 0 ≤ ls ≤ i → i + Z.of_nat n ≤ Z.of_nat (length b) →
  exists r, first_line n b i cur scr ls = Ok r ∧ 0 ≤ r ≤ i + Z.of_nat n.
Proof.
  induction n as [|n IH]; intros b i cur scr ls Hl Hb; cbn [first_line]; [exists ls; split; [done|lia]|].
  destruct (cur <? scr); [|exists ls; split; [done|lia]].
  destruct (aget_is_ok b i) as [c ->]; [lia|]. rewrite bind_Ok.
  destruct (c =? NL); [destruct (IH b (i + 1) (cur + 1) scr (i + 1)) as (r & -> & ?)|destruct (IH b (i + 1) cur scr ls) as (r & -> & ?)];
    try lia; exists r; (split; [done|lia]).
Qed.

Lemma check_row_ok n : ∀ b pos size row y, 0 ≤ pos → size ≤ Z.of_nat (length b) →
  exists p, check_row n b pos size row y = Ok p.
Proof.
  induction n as [|n IH]; intros b pos size row y Hp Hs; cbn [check_row]; [by eexists|].
  destruct ((pos <? size) && (row <? y)) eqn:E; [|by eexists]. apply andb_true_iff in E as [E%Z.ltb_lt _].
  destruct (aget_is_ok b pos) as [c ->]; [lia|]. rewrite bind_Ok. apply IH; lia.
Qed.

Lemma draws_line_number e line_start abs_row y :
  0 ≤ line_start → m_buffer_size e ≤ Z.of_nat (length (m_buffer e)) → 0 ≤ y < 24 →
  draws (put_line_number e line_start abs_row y).
Proof.
  intros Hl Hs Hy. unfold put_line_number.
  destruct (check_row_ok (Z.to_nat (m_buffer_size e)) (m_buffer e) line_start (m_buffer_size e) 0 y Hl Hs) as ([p row] & E).
  apply (draws_lift _ _ _ E). apply draws_seq; [|apply draws_put; unfold LINE_NUMBER_WIDTH; lia].
  assert (Hsp : ∀ d c, 0 ≤ d → draws (for_ (Z.to_nat (LINE_NUMBER_WIDTH - d)) 0 (λ i, terminal_putchar_at 32 c i y))).
  { intros d c Hd. apply draws_for. intros j Hj. unfold LINE_NUMBER_WIDTH in Hj. apply draws_put; lia. }
  apply draws_if; intros _; [|by apply (Hsp 0)]. apply draws_if; intros _; [|apply draws_ret].
  pose proof (count_digits_range 3 (abs_row + 1)). apply draws_seq; [apply Hsp; lia|apply draws_put_digits; lia].
Qed.

(** The text is written inside the page: behind the line numbers, above the
    status line. *)
Lemma draws_put_lines n : ∀ e i col row abs_row,
  0 ≤ i → i + Z.of_nat n ≤ Z.of_nat (length (m_buffer e)) → 0 ≤ col < 80 → 0 ≤ row →
  draws_with (put_lines n e i col row abs_row) (λ cr, 0 ≤ cr.1 < 80 ∧ 0 ≤ cr.2).
Proof.
  induction n as [|n IH]; intros e i col row abs_row Hi Hn Hc Hr; cbn [put_lines].
  { intros t Ht. by exists (col, row), t. }
  destruct (row <? VISIBLE_ROWS) eqn:Ev; cbn [negb]; [|intros t Ht; by exists (col, row), t].
  apply Z.ltb_lt in Ev. change VISIBLE_ROWS with 24 in Ev.
  destruct (aget_is_ok (m_buffer e) i) as [c Ec]; [lia|]. intros t Ht. rewrite (bind_lift _ _ _ _ Ec). revert t Ht.
  unfold LINE_NUMBER_WIDTH, TERMINAL_WIDTH. destruct (c =? NL).
  - apply draws_with_seq; [apply draws_fill; lia|apply IH; lia].
  - apply draws_with_seq; [apply draws_put; lia|]. destruct (Z.leb_spec 80 (col + 1)); apply IH; lia.
Qed.

(** Whatever the text, the cursor and the page: [render] writes inside the screen. *)
Lemma draws_render e name num :
  0 ≤ m_buffer_size e ≤ Z.of_nat (length (m_buffer e)) →
  cstr (m_filename e) name → decimal (status_number e) = Ok num → chars num →
  (length (status_chars e name num) ≤ 80)%nat → draws (render e).
Proof.
  intros Hs Hn Hd Hm Hl. unfold render. apply draws_if; intros _; [apply draws_ret|].
  apply draws_seq.
  { apply draws_for. intros y Hy. change (Z.to_nat TERMINAL_HEIGHT) with 25%nat in Hy.
    apply draws_for. intros x Hx. change (Z.to_nat TERMINAL_WIDTH) with 80%nat in Hx. apply draws_put; lia. }
  apply draws_seq; [by apply draws_modify|].
  destruct (first_line_ok (Z.to_nat (m_buffer_size e)) (m_buffer e) 0 0 (m_screen_row e) 0) as (r & E & Hr); [lia|lia|].
  apply (draws_lift _ _ _ E). apply draws_seq.
  { apply draws_for. intros y Hy. change (Z.to_nat VISIBLE_ROWS) with 24%nat in Hy. apply draws_line_number; lia. }
  eapply draws_bind; [apply draws_put_lines; unfold LINE_NUMBER_WIDTH; lia|]. intros [col row] [Hc Hrow]. cbn [fst snd] in *.
  apply draws_seq; [apply draws_clear_rows; unfold VISIBLE_ROWS, TERMINAL_HEIGHT; lia|].
  apply draws_seq; [by eapply draws_status_line|]. apply draws_seq; [apply draws_mode_shape|apply draws_cursor].
Qed.

(** ** Keys in insert and normal mode *)

Lemma row_digits_more n : ∀ v d, row_digits n v = Ok d → row_digits (S n) v = Ok d.
Proof.
  induction n as [|n IH]; intros v d E; [done|]. cbn [row_digits] in E |- *. destruct (v / 10 =? 0); [done|].
  destruct (row_digits n (v / 10)) as [r| |] eqn:Er; [|done|done]. apply IH in Er. cbn [row_digits] in Er. by rewrite Er.
Qed.

Lemma decimal_short v : 0 ≤ v < 100000 →
  exists d, decimal v = Ok d ∧ chars d ∧ read_digits 10 d = v ∧ (length d ≤ 5)%nat.
Proof.
  intros Hv. destruct (row_digits_ok 5 v Hv ltac:(lia)) as (d & E & Hf & Hl & _ & Hr). exists (rev d). unfold decimal.
  do 10 apply row_digits_more in E. rewrite E, length_rev. split_and!; [done| |done|done].
  apply Forall_rev. eapply Forall_impl; [exact Hf|]. intros c Hc. cbn in *. lia.
Qed.

(** The names that fit: the longest the status line of both modes has room for. *)
Lemma status_short e name num :
  m_mode e ≠ VISUAL → (length name ≤ 15)%nat → (length num ≤ 5)%nat → (length (status_chars e name num) ≤ 80)%nat.
Proof.
  intros Hv Hn Hm. unfold status_chars, status_pieces. rewrite bool_decide_false by done. cbn [andb app concat length].
  rewrite !length_app. destruct (m_modified e), (m_mode e); try done; cbn; rewrite ?length_app; cbn; lia. 
Qed.

Lemma draws_editing e name bef aft :
  rep e bef aft → cstr (m_filename e) name → (length name ≤ 15)%nat → m_mode e ≠ VISUAL → draws (render e).
Proof.
  intros R Hn Hl Hv. destruct (rep_bounds _ _ _ R) as (Hm & Hp & Hr & _).
  assert (Hst : 0 ≤ status_number e < 100000).
  { unfold status_number. rewrite bool_decide_false by done. cbn [andb]. rewrite u64_small by lia. lia. }
  destruct (decimal_short _ Hst) as (num & Ed & Hc & _ & Hd).
  apply (draws_render e name num); [|done..|by apply status_short].
  rewrite (rp_len _ _ _ R). unfold MAX_BUFFER_SIZE. lia.
Qed.

Lemma insert_at_mode e c e' : insert_at e c = Ok e' → same_mode e e'.
Proof. unfold insert_at. intros (b & _ & H)%bind_Ok_inv. apply bind_Ok_inv in H as (b2 & _ & [= <-]). done. Qed.

Lemma type_char_mode e c e' : type_char e c = Ok e' → same_mode e e'.
Proof. unfold type_char. intros (e1 & H%insert_at_mode & [= <-])%bind_Ok_inv. done. Qed.

Lemma type_newline_mode e e' : type_newline e = Ok e' → same_mode e e'.
Proof.
  unfold type_newline. intros (e1 & H%insert_at_mode & [= <-])%bind_Ok_inv. unfold scroll_down. by destruct (_ <=? _).
Qed.

Lemma erase_before_mode e e' : erase_before e = Ok e' → same_mode e e'.
Proof.
  unfold erase_before. intros (c & _ & H)%bind_Ok_inv. apply bind_Ok_inv in H as (b & _ & H). destruct (c =? NL).
  - apply bind_Ok_inv in H as (l & _ & [= <-]). done.
  - by injection H as <-.
Qed.

Lemma delete_char_mode e e' : delete_char e = Ok e' → same_mode e e'.
Proof.
  unfold delete_char. destruct (_ <=? _); [by intros [= <-]|]. by intros (b & _ & [= <-])%bind_Ok_inv.
Qed.

Section sessions.
Context {F : Type} `{Files F}.

(** The editor at work on a text with a cursor in it. *)
Record editing (s : EditorState F) (m : EditorMode) (name bef aft : list Z) : Prop := {
  eg_rep : rep (es_editor s) bef aft;
  eg_name : cstr (m_filename (es_editor s)) name;
  eg_short : (length name ≤ 15)%nat;
  eg_active : m_active (es_editor s) = true;
  eg_mode : m_mode (es_editor s) = m;
  eg_plain : m ≠ VISUAL;
  eg_screen : length (VGA_MEMORY (co_screen (es_console s))) = CELLS
}.

Lemma draw_ok (s : EditorState F) f : draws (f (es_editor s)) → length (VGA_MEMORY (co_screen (es_console s))) = CELLS →
  exists s', draw f s = Ok (tt, s') ∧ es_editor s' = es_editor s ∧ length (VGA_MEMORY (co_screen (es_console s'))) = CELLS.
Proof.
  intros Hd Hs. destruct (Hd _ Hs) as (t & E & Ht). eexists. split; [|split].
  - unfold draw, get_ed. st. unfold on_console, on_screen. rewrite E. reflexivity.
  - done.
  - done.
Qed.

(** An editor put in place of the old one and drawn. *)
Lemma put_render_ok (s : EditorState F) m name bef aft e b a :
  editing s m name bef aft → rep e b a → m_filename e = m_filename (es_editor s) →
  m_active e = m_active (es_editor s) → m_mode e ≠ VISUAL →
  exists s', (put_ed e;; draw render) s = Ok (tt, s') ∧ es_editor s' = e ∧ editing s' (m_mode e) name b a.
Proof.
  intros [R Hn Hl Ha Hm Hv Hs] R' En Ea Hv'.
  destruct (draw_ok (ES e (es_console s)) render) as (s' & E & Ee & Hs').
  - cbn. eapply draws_editing; [done|by rewrite En|done|done].
  - done.
  - exists s'. unfold put_ed. st. split; [exact E|]. split; [done|].
    cbn [es_editor] in Ee. subst e. constructor; try done; [by rewrite En|by rewrite Ea].
Qed.

Lemma edit_render_ok (s : EditorState F) m name bef aft f e b a :
  editing s m name bef aft → f (es_editor s) = Ok e → rep e b a → m_filename e = m_filename (es_editor s) →
  m_active e = m_active (es_editor s) → m_mode e = m →
  exists s', edit_render f s = Ok (tt, s') ∧ editing s' m name b a.
Proof.
  intros Hs Ef R En Ea Em. pose proof (eg_plain _ _ _ _ _ Hs) as Hv. rewrite <- Em in Hv.
  destruct (put_render_ok s m name bef aft e b a Hs R En Ea Hv) as (s' & E & Ee & Hs').
  exists s'. rewrite Em in Hs'. split; [|done]. unfold edit_render, edit, get_ed.
  unfold mbind at 1, st_bind at 1. st. rewrite (bind_lift _ _ _ _ Ef). exact E.
Qed.

(** What a key does to the text in insert mode. *)
Definition insert_step (t : list Z * list Z) (c : Z) : list Z * list Z :=
  let '(bef, aft) := t in
  let room := Z.of_nat (length (bef ++ aft)) <? MAX_BUFFER_SIZE - 1 in
  if c =? 0x08 then (removelast bef, aft)
  else if (32 <=? c) && (c <? 127) && room then (bef ++ [c], aft)
  else if ((c =? 0x0D) || (c =? NL)) && room then (bef ++ [NL], aft)
  else t.

Lemma keypress_active (s : EditorState F) c : m_active (es_editor s) = true →
  process_keypress c s =
    (if c =? 0x1B then switch_to_mode NORMAL else
     match m_mode (es_editor s) with NORMAL => process_normal c | INSERT => process_insert c | VISUAL => process_visual c end) s.
Proof. intros Ha. unfold process_keypress, get_ed. st. by rewrite Ha. Qed.

Lemma insert_key_ok (s : EditorState F) name bef aft c : editing s INSERT name bef aft → c ≠ 0x1B →
  exists s', process_keypress c s = Ok (tt, s') ∧
    editing s' INSERT name (insert_step (bef, aft) c).1 (insert_step (bef, aft) c).2.
Proof.
  intros Hs Hc. pose proof Hs as [R Hn Hl Ha Hm Hv Hscr]. rewrite keypress_active by done.
  rewrite (proj2 (Z.eqb_neq c _)) by done. rewrite Hm. unfold process_insert, get_ed. st.
  rewrite (rp_size _ _ _ R), (rp_pos _ _ _ R). unfold is_ctrl_key.
  change (Z.land 0x53 0x1F) with 0x13. change (Z.land 0x51 0x1F) with 0x11. unfold insert_step.
  destruct (Z.eqb_spec c 0x13) as [->|H1]; [by exists s|]. destruct (Z.eqb_spec c 0x11) as [->|H2]; [by exists s|].
  cbn [orb]. destruct (Z.eqb_spec c 8) as [->|H8].
  { destruct bef as [|c bef _] using rev_ind; [by exists s|].
    rewrite removelast_last, (proj2 (Z.ltb_lt _ _)) by (rewrite length_app; cbn; lia). cbn [andb fst snd].
    destruct (erase_before_ok _ _ _ _ R) as (e' & E & R'). destruct (erase_before_mode _ _ E) as (E1 & E2 & E3).
    eapply edit_render_ok; try done. by rewrite E3. }
  cbn [andb]. destruct ((32 <=? c) && (c <? 127) && _) eqn:Et; cbn [fst snd].
  { apply andb_true_iff in Et as [Et Er]. apply andb_true_iff in Et as [Ec _].
    apply Z.ltb_lt in Er. apply Z.leb_le in Ec. rewrite <- (rp_size _ _ _ R) in Er.
    destruct (type_char_ok _ _ _ c R Er) as (e' & E & R'); [unfold NL; lia|]. destruct (type_char_mode _ _ _ E) as (E1 & E2 & E3).
    eapply (edit_render_ok s _ _ _ _ (λ e, type_char e c)); try done. by rewrite E3. }
  destruct (((c =? 13) || (c =? NL)) && _) eqn:Eb; cbn [fst snd]; [|by exists s].
  apply andb_true_iff in Eb as [_ Er%Z.ltb_lt]. rewrite <- (rp_size _ _ _ R) in Er.
  destruct (type_newline_ok _ _ _ R Er) as (e' & E & R'). destruct (type_newline_mode _ _ E) as (E1 & E2 & E3).
  eapply edit_render_ok; try done. by rewrite E3.
Qed.

(** Where a key moves the cursor in normal mode: the target row and column. *)
Definition move_target (text : list Z) (rc : Z * Z) (c : Z) : Z * Z :=
  let '(row, col) := rc in
  if c =? 0x68 then (row, Z.max 0 (col - 1))
  else if c =? 0x6C then
    match row_length text row with Some n => if col <? n then (row, col + 1) else rc | None => rc end
  else if c =? 0x6B then
    match row_length text (row - 1) with Some n => if 0 <? row then (row - 1, Z.min col n) else rc | None => rc end
  else if c =? 0x6A then
    match row_length text (row + 1) with Some n => (row + 1, Z.min col n) | None => rc end
  else rc.

(** [l] asks for a line that is there: it is the last, empty one that is not. *)
Definition line_there (text : list Z) (rc : Z * Z) (c : Z) : Prop :=
  c = 0x6C → row_length text rc.1 ≠ None.

Lemma normal_left (s : EditorState F) : process_normal 0x68 s =
  (if 0 <? m_cursor_col (es_editor s) then edit_render (λ e, Ok (cursor_left e)) else mret tt) s.
Proof. unfold process_normal, get_ed. st. by destruct (0 <? _). Qed.

Lemma normal_right (s : EditorState F) n : get_line_length (es_editor s) (m_cursor_row (es_editor s)) = Ok n →
  process_normal 0x6C s =
    (if m_cursor_col (es_editor s) <? n then edit_render (λ e, Ok (cursor_right e)) else mret tt) s.
Proof.
  intros E. change (process_normal 0x6C s) with
    ((len ← lift (get_line_length (es_editor s) (m_cursor_row (es_editor s)));
      if m_cursor_col (es_editor s) <? len then edit_render (λ e, Ok (cursor_right e)) else mret tt) s).
  by rewrite (bind_lift _ _ _ _ E).
Qed.

Lemma normal_up (s : EditorState F) : process_normal 0x6B s =
  (if 0 <? m_cursor_row (es_editor s) then row_key row_up scroll_up else mret tt) s.
Proof. unfold process_normal, get_ed. st. by destruct (0 <? m_cursor_row _). Qed.

Lemma normal_down (s : EditorState F) : process_normal 0x6A s = row_key row_down scroll_down s.
Proof. done. Qed.

Lemma row_key_ok (s : EditorState F) name bef aft f g e b a :
  editing s NORMAL name bef aft → f (es_editor s) = Ok (Some e) → rep (g e) b a → same_mode (es_editor s) (g e) →
  exists s', row_key f g s = Ok (tt, s') ∧ editing s' NORMAL name b a.
Proof.
  intros Hs E R' (E1 & E2 & E3). pose proof (eg_mode _ _ _ _ _ Hs) as Hm. unfold row_key, get_ed. st.
  rewrite (bind_lift _ _ _ _ E).
  destruct (put_render_ok s NORMAL name bef aft (g e) b a Hs R' E1 E2) as (s' & Er & _ & Hs'); [by rewrite E3, Hm|].
  exists s'. by rewrite E3, Hm in Hs'.
Qed.

Lemma same_mode_scroll_up e e' : same_mode e e' → same_mode e (scroll_up e').
Proof. unfold scroll_up. by destruct (_ <? _). Qed.

Lemma same_mode_scroll_down e e' : same_mode e e' → same_mode e (scroll_down e').
Proof. unfold scroll_down. by destruct (_ <=? _). Qed.

Lemma last_char_row (bef : list Z) : 0 < (coords bef).2 →
  exists b c, bef = b ++ [c] ∧ coords b = ((coords bef).1, (coords bef).2 - 1).
Proof.
  destruct bef as [|c b _] using rev_ind; [done|]. intros Hc. exists b, c. split; [done|].
  rewrite coords_snoc in *. unfold step_coords in *. destruct (c =? NL); cbn [fst snd] in *; [lia|].
  destruct (coords b). cbn. f_equal; lia.
Qed.

Lemma normal_key_ok (s : EditorState F) name bef aft c :
  editing s NORMAL name bef aft → In c [0x68; 0x6A; 0x6B; 0x6C] → line_there (bef ++ aft) (coords bef) c →
  exists s' b a, process_keypress c s = Ok (tt, s') ∧ editing s' NORMAL name b a ∧
    b ++ a = bef ++ aft ∧ coords b = move_target (bef ++ aft) (coords bef) c.
Proof.
  intros Hs Hc Hl. pose proof Hs as [R Hn Hsh Ha Hm Hv Hscr]. pose proof (coords_range bef) as [Hr0 Hc0].
  rewrite keypress_active by done. rewrite Hm. pose proof (rp_row _ _ _ R) as Er. pose proof (rp_col _ _ _ R) as Ec.
  unfold move_target. rewrite (surjective_pairing (coords bef)).
  destruct Hc as [<-|[<-|[<-|[<-|[]]]]]; cbn [Z.eqb Pos.eqb].
  - rewrite normal_left, Ec. destruct (Z.ltb_spec 0 (coords bef).2) as [Hp|Hp].
    + destruct (last_char_row bef Hp) as (b & c & -> & Eb).
      destruct (edit_render_ok s NORMAL name _ aft (λ e, Ok (cursor_left e)) (cursor_left (es_editor s)) b (c :: aft) Hs)
        as (s' & E & Hs'); [done|by apply cursor_left_ok; [|lia]|done..|].
      exists s', b, (c :: aft). split_and!; [done|done|by rewrite <- app_assoc|]. rewrite Eb. f_equal. lia.
    + exists s, bef, aft. split_and!; [done|done|done|]. destruct (coords bef). cbn in *. f_equal. lia.
  - rewrite normal_down. pose proof (row_down_ok _ _ _ R) as Hd.
    destruct (row_length (bef ++ aft) _) as [n|].
    + destruct Hd as (e & b & a & E & R' & Et & Eb & Hsm).
      destruct (row_key_ok s name bef aft row_down scroll_down e b a Hs E) as (s' & Ek & Hs');
        [by apply rep_scroll_down|by apply same_mode_scroll_down|]. by exists s', b, a.
    + exists s, bef, aft. unfold row_key, get_ed. st. rewrite (bind_lift _ _ _ _ Hd). split_and!; try done. by destruct (coords bef).
  - rewrite normal_up, Er. destruct (Z.ltb_spec 0 (coords bef).1) as [Hp|Hp].
    + destruct (row_up_ok _ _ _ R Hp) as (n & e & b & a & En & E & R' & Et & Eb & Hsm). rewrite En.
      destruct (row_key_ok s name bef aft row_up scroll_up e b a Hs E) as (s' & Ek & Hs');
        [by apply rep_scroll_up|by apply same_mode_scroll_up|]. by exists s', b, a.
    + exists s, bef, aft. split_and!; try done. destruct (row_length _ _), (coords bef); done.
  - specialize (Hl eq_refl). destruct (row_length (bef ++ aft) (coords bef).1) as [n|] eqn:En; [|done].
    rewrite (normal_right s n) by (by rewrite (get_line_length_ok _ _ _ _ R), Er, En by lia).
    rewrite Ec. destruct (Z.ltb_spec (coords bef).2 n) as [Hp|Hp].
    + rewrite <- Er in En. rewrite <- Ec in Hp. destruct (cursor_right_ok _ _ _ n R En Hp) as (c & a & -> & Hc & R').
      destruct (edit_render_ok s NORMAL name bef (c :: a) (λ e, Ok (cursor_right e)) (cursor_right (es_editor s)) (bef ++ [c]) a Hs)
        as (s' & E & Hs'); [done..|].
      exists s', (bef ++ [c]), a. split_and!; [done|done|by rewrite <- app_assoc|].
      rewrite coords_snoc. unfold step_coords. by rewrite (proj2 (Z.eqb_neq c NL)).
    + exists s, bef, aft. by destruct (coords bef).
Qed.

(** The keys one after the other. *)
Fixpoint press (keys : list Z) : ST (EditorState F) unit :=
  match keys with
  | [] => mret tt
  | c :: keys => process_keypress c;; press keys
  end.

Lemma switch_ok (s : EditorState F) m name bef aft m' : editing s m name bef aft → m' ≠ VISUAL →
  exists s', switch_to_mode m' s = Ok (tt, s') ∧ editing s' m' name bef aft.
Proof.
  intros [R Hn Hl Ha Hm Hv Hs] Hv'.
  set (e := set_mode m' false (m_selection_start_row (es_editor s)) (m_selection_end_row (es_editor s)) (es_editor s)).
  pose (s1 := ES e (es_console s)).
  destruct (draw_ok s1 (λ _, mode_shape m') (draws_mode_shape m') Hs) as (s2 & E2 & Ee2 & Hs2).
  assert (R' : rep e bef aft) by (eapply rep_ext; [..|exact R]; done).
  destruct (draw_ok s2 render) as (s3 & E3 & Ee3 & Hs3); [|done|].
  { rewrite Ee2. by apply (draws_editing e name bef aft). }
  exists s3. split.
  - unfold switch_to_mode.
    assert (E1 : edit (λ e, Ok
      (if decide (m' = VISUAL) then set_mode VISUAL true (m_cursor_row e) (m_cursor_row e) e
       else set_mode m' false (m_selection_start_row e) (m_selection_end_row e) e)) s = Ok (tt, s1)).
    { unfold edit, get_ed. st. by rewrite decide_False. }
    by rewrite (bind_run _ _ _ _ _ E1), (bind_run _ _ _ _ _ E2).
  - rewrite Ee2 in Ee3. subst s1. cbn in Ee3. constructor; rewrite ?Ee3; done.
Qed.

Lemma insert_keys_ok keys : ∀ (s : EditorState F) name bef aft,
  editing s INSERT name bef aft → Forall (λ c, c ≠ 0x1B) keys →
  exists s', press keys s = Ok (tt, s') ∧
    editing s' INSERT name (foldl insert_step (bef, aft) keys).1 (foldl insert_step (bef, aft) keys).2.
Proof.
  induction keys as [|c keys IH]; intros s name bef aft Hs Hk; cbn [press foldl]; [by exists s|].
  apply Forall_cons in Hk as [Hc Hk]. destruct (insert_key_ok s name bef aft c Hs Hc) as (s1 & E & Hs1).
  rewrite (bind_run _ _ _ _ _ E). rewrite (surjective_pairing (insert_step (bef, aft) c)). by apply IH.
Qed.

Lemma press_app k1 k2 (s : EditorState F) : press (k1 ++ k2) s = (press k1;; press k2) s.
Proof.
  revert s. induction k1 as [|c k1 IH]; intros s; cbn [app press]; [done|].
  unfold mbind, st_bind. destruct (process_keypress c s) as [[[] s1]| |]; [|done|done]. apply IH.
Qed.


(** The keys h, j, k and l in normal mode never change the text; they put the
    cursor on the column before or behind it in its line, or on the line above or
    below in the same column or at its end, and the position, the row and the
    column stay those of one place of the text. *)
Theorem normal_keys_move (s : EditorState F) name bef aft c :
  editing s NORMAL name bef aft → In c [0x68; 0x6A; 0x6B; 0x6C] → line_there (bef ++ aft) (coords bef) c →
  exists s' b a, process_keypress c s = Ok (tt, s') ∧ editing s' NORMAL name b a ∧
    b ++ a = bef ++ aft ∧ coords b = move_target (bef ++ aft) (coords bef) c.
Proof. apply normal_key_ok. Qed.
End sessions.

(** The status line fits its array, and then fits the line of the screen, or it
    is written past the end of the array: when it fits depends on the characters of
    all its pieces alone. *)
Theorem status_line_bounds e name num :
  cstr (m_filename e) name → decimal (status_number e) = Ok num → chars num →
  if decide (length (status_chars e name num) ≤ 80)%nat
  then exists d, status_text e = Ok d ∧ cstr d (status_chars e name num) ∧ length d = 81%nat
  else status_text e = UB.
Proof. apply status_text_ok. Qed.

(** ** Witnesses *)

#[local] Existing Instance no_disk.

(** The text "a", the newline and "b", the cursor at its start, in the file "f". *)
Definition small_editor (m : EditorMode) : TextEditor :=
  Ed ([0x61; NL; 0x62] ++ replicate (Z.to_nat 32765) 0) ([0x66; 0] ++ replicate 254 0) 3 0 0 0 0 0 true false m false 0 0.
Definition small_console : Console unit :=
  Cons (Term (replicate CELLS 0) 0 0 7 0 0 0 (Saved [] 0 0 0) 0) tt.

Lemma small_editing : editing (ES (small_editor NORMAL) small_console) NORMAL [0x66] [] [0x61; NL; 0x62].
Proof.
  constructor; try done.
  - split; [by repeat constructor|by exists (replicate 254 0)].
  - cbn. lia.
Qed.


Lemma normal_keys_move_witness :
  exists s' b a, process_keypress 0x6A (ES (small_editor NORMAL) small_console) = Ok (tt, s') ∧
    editing s' NORMAL [0x66] b a ∧ b ++ a = [0x61; NL; 0x62] ∧ coords b = (1, 0).
Proof.
  apply (normal_keys_move _ [0x66] [] [0x61; NL; 0x62] 0x6A); [apply small_editing|cbn; tauto|done].
Defined.

(** A file name of two letters already breaks the line of a selection in a modified text. *)
Lemma status_line_bounds_witness :
  (exists d, status_text (small_editor INSERT) = Ok d ∧ cstr d (status_chars (small_editor INSERT) [0x66] [0x31]) ∧
     length d = 81%nat) ∧
  status_text (set_mode VISUAL true 0 0 (set_modified (small_editor NORMAL))) = UB.
Proof.
  split.
  - apply (status_line_bounds (small_editor INSERT) [0x66] [0x31]); [|vm_compute; reflexivity|by repeat constructor].
    split; [by repeat constructor|]. by exists (replicate 254 0).
  - apply (status_line_bounds (set_mode VISUAL true 0 0 (set_modified (small_editor NORMAL))) [0x66] [0x31]);
      [|vm_compute; reflexivity|by repeat constructor].
    split; [by repeat constructor|]. by exists (replicate 254 0).
Defined.

(** [l] on an empty text: no line has a length, the greatest [size_t] is taken for
    one, and the cursor leaves the text; the next character typed moves an
    enormous number of bytes. *)
Lemma right_leaves_text (e : TextEditor) : rep e [] [] →
  get_line_length e (m_cursor_row e) = Ok NO_LINE ∧ m_cursor_col e < NO_LINE ∧
  m_cursor_pos (cursor_right e) = 1 ∧ m_buffer_size (cursor_right e) = 0 ∧
  ∀ c, type_char (cursor_right e) c = UB.
Proof.
  intros R. destruct (rep_bounds _ _ _ R) as (Hm & Hp & Hr & Hc). pose proof (rp_size _ _ _ R) as Hs. cbn in Hs.
  pose proof (rp_len _ _ _ R) as Hl. assert (Hp0 : m_cursor_pos e = 0) by lia.
  split; [by rewrite (get_line_length_ok e [] [] (m_cursor_row e) R) by lia|]. split; [unfold NO_LINE; lia|].
  assert (Hp1 : m_cursor_pos (cursor_right e) = 1) by (cbn; by rewrite Hp0). split; [done|]. split; [done|].
  intros c. unfold type_char, insert_at. rewrite Hp1. cbn [cursor_right set_cursor m_buffer m_buffer_size]. rewrite Hs.
  change (u64 (Z.of_nat 0 - 1)) with (2 ^ 64 - 1). unfold move. rewrite (proj2 (Z.leb_gt (1 + 1 + _) _)); [by rewrite andb_false_r|].
  rewrite Hl. unfold MAX_BUFFER_SIZE. lia.
Qed.
