(* ===== verification/Pager.v ===== *)
(** * The pager (src/kernel/src/shell/pager.cpp)

    A text split into lines of at most 255 characters, the window of 24 of them
    on the screen, and its keys.  The text is a zero-terminated array; [lines] is
    the array of arrays of the code. *)

From S2P Require Import Prelude CStr Terminal Printf Console.

Definition MAX_LINES : Z := 1000.
Definition MAX_LINE_LENGTH : Z := 256.
(** [VGA_HEIGHT - 1] *)
Definition ROWS : Z := VGA_HEIGHT - 1.

Record Pager := Pg { lines : list (list Z); line_count : Z; current_line : Z; pager_active : bool }.

Definition set_lines (l : list (list Z)) (n : Z) (p : Pager) : Pager := Pg l n (current_line p) (pager_active p).
Definition set_view (top : Z) (p : Pager) : Pager := Pg (lines p) (line_count p) top (pager_active p).
Definition set_active (b : bool) (p : Pager) : Pager := Pg (lines p) (line_count p) (current_line p) b.

(** *** Splitting *)

(** [lines[i][j] = c] *)
Definition set_char (ls : list (list Z)) (i j c : Z) : outcome (list (list Z)) :=
  match (if 0 <=? i then ls !! Z.to_nat i else None) with
  | Some row => row ← aset row j c; Ok (<[Z.to_nat i := row]> ls)
  | None => UB
  end.

(** The loop; a turn either takes a character or begins a new line, so that two
    turns for each character of the text are enough. *)
Fixpoint split_loop (fuel : nat) (text : list Z) (ls : list (list Z)) (count pos : Z)
    : outcome (list (list Z) * Z * Z) :=
  match fuel with
  | O => OutOfFuel
  | S fuel' =>
      match text with
      | [] => UB
      | c :: rest =>
          if (c =? 0) || negb (count <? MAX_LINES) then Ok (ls, count, pos)
          else if (c =? 0x0A) || (pos =? MAX_LINE_LENGTH - 1) then
            ls ← set_char ls count pos 0;
            split_loop fuel' (if c =? 0x0A then rest else text) ls (count + 1) 0
          else
            ls ← set_char ls count pos c;
            split_loop fuel' rest ls count (pos + 1)
      end
  end.

Definition split_text (text : list Z) (p : Pager) : outcome Pager :=
  '(ls, count, pos) ← split_loop (2 * length text + 1) text (lines p) 0 0;
  if (0 <? pos) && (count <? MAX_LINES) then
    ls ← set_char ls count pos 0; Ok (set_lines ls (count + 1) p)
  else Ok (set_lines ls count p).

(** *** The page *)

(** A line as [printf] reads it. *)
Definition line_chars (ls : list (list Z)) (i : Z) : outcome (list Z) :=
  match (if 0 <=? i then ls !! Z.to_nat i else None) with
  | Some row => n ← strlen row; Ok (take (Z.to_nat n) row)
  | None => UB
  end.

Fixpoint show_lines (n : nat) (ls : list (list Z)) (i count : Z) : TM unit :=
  match n with
  | O => mret tt
  | S n' =>
      if i <? count then
        l ← lift (line_chars ls i);
        printf [0x25; 0x73; 0x0A] [AStr (Some l)];;
        show_lines n' ls (i + 1) count
      else mret tt
  end.

(** "(END) q:quit", "(END %lu%%) q:quit", "(%lu%%) j/%c:down k/%c:up q:quit" *)
Definition END_TEXT : list Z := [0x28; 0x45; 0x4E; 0x44; 0x29; 0x20; 0x71; 0x3A; 0x71; 0x75; 0x69; 0x74].
Definition END_FORMAT : list Z :=
  [0x28; 0x45; 0x4E; 0x44; 0x20; 0x25; 0x6C; 0x75; 0x25; 0x25; 0x29; 0x20; 0x71; 0x3A; 0x71; 0x75; 0x69; 0x74].
Definition MORE_FORMAT : list Z :=
  [0x28; 0x25; 0x6C; 0x75; 0x25; 0x25; 0x29; 0x20; 0x6A; 0x2F; 0x25; 0x63; 0x3A; 0x64; 0x6F; 0x77; 0x6E; 0x20; 0x6B;
   0x2F; 0x25; 0x63; 0x3A; 0x75; 0x70; 0x20; 0x71; 0x3A; 0x71; 0x75; 0x69; 0x74].

Definition status_bar (p : Pager) : TM unit :=
  if line_count p <=? ROWS then put_text END_TEXT
  else
    let percent := u64 (current_line p * 100) / u64 (line_count p - ROWS + 1) in
    if line_count p <=? u64 (current_line p + ROWS) then printf END_FORMAT [AInt percent];; mret tt
    else printf MORE_FORMAT [AInt percent; AInt 25; AInt 24];; mret tt.

Definition display_current_page (p : Pager) : TM unit :=
  terminal_clear;;
  show_lines (Z.to_nat ROWS) (lines p) (current_line p) (line_count p);;
  old_color ← gets terminal_color;
  modify (set_color (vga_color VGA_COLOR_BLACK VGA_COLOR_WHITE));;
  modify (set_position (VGA_HEIGHT - 1) 0);;
  status_bar p;;
  modify (set_color old_color);;
  update_cursor_position (VGA_WIDTH - 1) (VGA_HEIGHT - 1).

(** *** Operations *)

Record PagerState (F : Type) := PS { ps_pager : Pager; ps_console : Console F }.
Arguments PS {F}. Arguments ps_pager {F}. Arguments ps_console {F}.

Definition init_pager : Pager :=
  Pg (replicate (Z.to_nat MAX_LINES) (replicate (Z.to_nat MAX_LINE_LENGTH) 0)) 0 0 false.

Section pager.
Context {F : Type} `{Files F}.
#[local] Abbreviation P := (ST (PagerState F)).

Definition get_pager : P Pager := gets ps_pager.
Definition put_pager (p : Pager) : P unit := modify (λ s, PS p (ps_console s)).
Definition on_console {A} (m : ST (Console F) A) : P A := λ s,
  match m (ps_console s) with
  | Ok (a, k) => Ok (a, PS (ps_pager s) k)
  | UB => UB
  | OutOfFuel => OutOfFuel
  end.
Definition screen (m : TM unit) : P unit := on_console (on_screen m).

Definition show_text (text : list Z) : P unit :=
  screen screen_save;;
  screen hide_cursor;;
  p ← get_pager;
  p ← lift (split_text text p);
  let p := set_active true (set_view 0 p) in
  put_pager p;;
  screen (display_current_page p);;
  screen hide_cursor.

Definition clear : P unit :=
  p ← get_pager;
  put_pager (set_active false p);;
  screen screen_restore;;
  screen show_cursor;;
  on_console print_prompt.

(** The line at the top after a key, when the page is to be drawn again. *)
Definition key_view (p : Pager) (c : Z) : option Z :=
  let top := current_line p in
  let count := line_count p in
  let more := u64 (top + ROWS) <? count in
  if (c =? 0x6A) || (c =? 0x1B) then if more then Some (u64 (top + 1)) else None
  else if c =? 0x6B then if 0 <? top then Some (top - 1) else None
  else if (c =? 0x20) || (c =? 0x04) then
    if more then
      let top := u64 (top + ROWS) in
      Some (if count <? u64 (top + ROWS) then u64 (count - ROWS) else top)
    else None
  else if c =? 0x15 then
    if 0 <? top then Some (if ROWS <=? top then top - ROWS else 0) else None
  else if c =? 0x67 then if 0 <? top then Some 0 else None
  else if c =? 0x47 then if more then Some (u64 (count - ROWS)) else None
  else None.

Definition process_keypress (c : Z) : P unit :=
  p ← get_pager;
  if negb (pager_active p) then mret tt else
  if c =? 0x71 then clear else
  match key_view p c with
  | None => mret tt
  | Some top =>
      put_pager (set_view top p);;
      screen (display_current_page (set_view top p));;
      screen hide_cursor
  end.
End pager.

(** ** Splitting a text

    The lines a text is wrapped into, [cur] being the beginning of the current
    one. *)
Fixpoint wrap (cur text : list Z) : list (list Z) :=
  match text with
  | [] => match cur with [] => [] | _ => [cur] end
  | c :: text =>
      if c =? 0x0A then cur :: wrap [] text
      else if bool_decide (length cur = 255%nat) then cur :: wrap [c] text
      else wrap (cur ++ [c]) text
  end.

Definition arrays (ls : list (list Z)) : Prop := length ls = 1000%nat ∧ Forall (λ r, length r = 256%nat) ls.

(** The first rows hold the lines [done]. *)
Definition holds (ls done : list (list Z)) : Prop :=
  forall i l, done !! i = Some l → exists row, ls !! i = Some row ∧ cstr row l.

(** The row behind them begins with [cur]. *)
Definition begun (ls : list (list Z)) (n : nat) (cur : list Z) : Prop :=
  (n < 1000)%nat → exists rest, ls !! n = Some (cur ++ rest).

Lemma arrays_row ls n cur rest : arrays ls → ls !! n = Some (cur ++ rest) → (length cur ≤ 255)%nat →
  exists x rest', rest = x :: rest' ∧ length (cur ++ rest) = 256%nat.
Proof.
  intros [_ Hf] Hr Hc. pose proof (Forall_lookup_1 _ _ _ _ Hf Hr) as Hl. cbn in Hl.
  destruct rest as [|x rest]; [rewrite app_nil_r in Hl; lia|]. by exists x, rest.
Qed.

Lemma set_char_ok ls n cur c : arrays ls → (n < 1000)%nat → (length cur ≤ 255)%nat → begun ls n cur →
  exists rest, set_char ls (Z.of_nat n) (Z.of_nat (length cur)) c = Ok (<[n := cur ++ c :: rest]> ls) ∧
    arrays (<[n := cur ++ c :: rest]> ls) ∧ (n < length ls)%nat.
Proof.
  intros Ha Hn Hc Hb. destruct (Hb Hn) as [rest Hr]. destruct (arrays_row _ _ _ _ Ha Hr Hc) as (x & rest' & -> & Hl).
  exists rest'. unfold set_char. rewrite (proj2 (Z.leb_le 0 _)), Nat2Z.id, Hr by lia.
  rewrite aset_Ok by (rewrite Hl; lia). rewrite bind_Ok, Nat2Z.id.
  replace (length cur) with (length cur + 0)%nat by lia. rewrite insert_app_r. cbn [insert list_insert].
  split; [done|]. split; [|by eapply lookup_lt_Some]. destruct Ha as [Ha1 Ha2]. split; [by rewrite length_insert|].
  apply Forall_insert; [done|]. rewrite length_app in Hl |- *. cbn in *. lia.
Qed.

Lemma holds_insert ls done n row : holds ls done → (length done ≤ n)%nat → holds (<[n := row]> ls) done.
Proof.
  intros Hh Hn i l Hi. destruct (Hh i l Hi) as (r & Hr & Hc). exists r. split; [|done].
  rewrite list_lookup_insert_ne; [done|]. apply lookup_lt_Some in Hi. lia.
Qed.

Lemma holds_snoc ls done cur rest : holds ls done → chars cur → (length done < length ls)%nat →
  holds (<[length done := cur ++ 0 :: rest]> ls) (done ++ [cur]).
Proof.
  intros Hh Hc Hn i l Hi. apply lookup_app_Some in Hi as [Hi|[Hge Hi]].
  - by apply (holds_insert ls done (length done) _ Hh).
  - apply list_lookup_singleton_Some in Hi as [Hi <-]. assert (i = length done) as -> by lia.
    exists (cur ++ 0 :: rest). rewrite list_lookup_insert_eq by done. split; [done|by apply cstr_intro].
Qed.

Lemma begun_nil ls n : arrays ls → begun ls n [].
Proof. intros [Hl _] Hn. destruct (lookup_lt_is_Some_2 ls n) as [r Hr]; [lia|]. by exists r. Qed.

(** Where the loop may stand. *)
Record splitting (ls done : list (list Z)) (cur : list Z) : Prop := {
  sp_arrays : arrays ls;
  sp_holds : holds ls done;
  sp_begun : begun ls (length done) cur;
  sp_done : (length done ≤ 1000)%nat;
  sp_cur : (length cur ≤ 255)%nat;
  sp_chars : chars cur
}.

Lemma splitting_break ls done cur : splitting ls done cur → (length done < 1000)%nat →
  exists ls', set_char ls (Z.of_nat (length done)) (Z.of_nat (length cur)) 0 = Ok ls' ∧ splitting ls' (done ++ [cur]) [].
Proof.
  intros [Ha Hh Hb Hd Hc Hch] Hn. destruct (set_char_ok ls _ cur 0 Ha Hn Hc Hb) as (rest & E & Ha' & Hl).
  eexists. split; [exact E|]. constructor; [done|by apply holds_snoc|by apply begun_nil|rewrite length_app; cbn; lia|cbn; lia|constructor].
Qed.

Lemma splitting_put ls done cur c : splitting ls done cur → (length done < 1000)%nat → (length cur < 255)%nat → c ≠ 0 →
  exists ls', set_char ls (Z.of_nat (length done)) (Z.of_nat (length cur)) c = Ok ls' ∧ splitting ls' done (cur ++ [c]).
Proof.
  intros [Ha Hh Hb Hd Hc Hch] Hn Hlt Hz. destruct (set_char_ok ls _ cur c Ha Hn Hc Hb) as (rest & E & Ha' & Hl).
  eexists. split; [exact E|]. constructor; [done|by apply holds_insert| |done|rewrite length_app; cbn; lia|].
  - intros _. exists rest. rewrite list_lookup_insert_eq by done. by rewrite <- app_assoc.
  - apply Forall_app. split; [done|]. by constructor.
Qed.

Lemma split_loop_ok t : ∀ fuel ls done cur r,
  chars t → (2 * length t + 1 ≤ fuel)%nat → splitting ls done cur →
  exists ls' done' cur',
    split_loop fuel (t ++ 0 :: r) ls (Z.of_nat (length done)) (Z.of_nat (length cur)) =
      Ok (ls', Z.of_nat (length done'), Z.of_nat (length cur')) ∧
    splitting ls' done' cur' ∧
    take 1000 (done ++ wrap cur t) = take 1000 (done' ++ wrap cur' []).
Proof.
  induction t as [|c t IH]; intros fuel ls done cur r Ht Hf Hs; (destruct fuel as [|fuel]; [lia|]).
  { exists ls, done, cur. done. }
  apply chars_cons in Ht as [Hc Ht]. cbn [app split_loop length] in *. rewrite (proj2 (Z.eqb_neq c 0)) by done. cbn [orb].
  unfold MAX_LINES, MAX_LINE_LENGTH.
  assert (Hfull : ∀ d x : list (list Z), length d = 1000%nat → take 1000 (d ++ x) = d) by (intros d x Hd; by rewrite take_app_length').
  destruct (Z.ltb_spec (Z.of_nat (length done)) 1000) as [Hd|Hd]; cbn [negb].
  2:{ exists ls, done, cur. split; [done|]. split; [done|]. pose proof (sp_done _ _ _ Hs). by rewrite !Hfull by lia. }
  pose proof (sp_cur _ _ _ Hs) as Hcl. cbn [wrap].
  destruct (Z.eqb_spec c 0x0A) as [->|Hnl]; cbn [orb].
  { destruct (splitting_break _ _ _ Hs ltac:(lia)) as (ls1 & E & Hs1). rewrite E, bind_Ok.
    replace (Z.of_nat (length done) + 1) with (Z.of_nat (length (done ++ [cur]))) by (rewrite length_app; cbn; lia).
    destruct (IH fuel ls1 (done ++ [cur]) [] r Ht ltac:(lia) Hs1) as (ls2 & d2 & c2 & E2 & Hs2 & Et).
    exists ls2, d2, c2. split; [exact E2|]. split; [done|]. rewrite <- app_assoc in Et. exact Et. }
  rewrite bool_decide_decide.
  destruct (Z.eqb_spec (Z.of_nat (length cur)) (256 - 1)) as [Hl|Hl].
  - rewrite decide_True by lia. destruct (splitting_break _ _ _ Hs ltac:(lia)) as (ls1 & E & Hs1). rewrite E, bind_Ok.
    replace (Z.of_nat (length done) + 1) with (Z.of_nat (length (done ++ [cur]))) by (rewrite length_app; cbn; lia).
    destruct fuel as [|fuel]; [lia|]. cbn [split_loop]. rewrite (proj2 (Z.eqb_neq c 0)) by done. cbn [orb].
    unfold MAX_LINES, MAX_LINE_LENGTH. destruct (Z.ltb_spec (Z.of_nat (length (done ++ [cur]))) 1000) as [Hd1|Hd1]; cbn [negb].
    + rewrite (proj2 (Z.eqb_neq c 10)) by done. cbn [orb Z.eqb Z.sub Z.add Z.opp Z.pos_sub].
      destruct (splitting_put _ _ _ c Hs1 ltac:(lia) ltac:(cbn; lia) Hc) as (ls2 & E2 & Hs2). cbn [length] in E2.
      change (Z.of_nat 0) with 0 in E2. rewrite E2, bind_Ok.
      destruct (IH fuel ls2 (done ++ [cur]) [c] r Ht ltac:(lia) Hs2) as (ls3 & d3 & c3 & E3 & Hs3 & Et).
      exists ls3, d3, c3. split; [exact E3|]. split; [done|]. rewrite <- app_assoc in Et. exact Et.
    + exists ls1, (done ++ [cur]), []. split; [done|]. split; [done|]. pose proof (sp_done _ _ _ Hs1).
      rewrite (Hfull (done ++ [cur]) _) by lia. rewrite (cons_middle cur), app_assoc. by rewrite Hfull by lia.
  - rewrite decide_False by lia. destruct (splitting_put _ _ _ c Hs ltac:(lia) ltac:(lia) Hc) as (ls1 & E & Hs1).
    rewrite E, bind_Ok. replace (Z.of_nat (length cur) + 1) with (Z.of_nat (length (cur ++ [c]))) by (rewrite length_app; cbn; lia).
    apply IH; [done|lia|done].
Qed.

(** What the lines are: no newline in them, at most 255 characters each, and all
    the others of the text in their order. *)
Lemma wrap_ok t : ∀ cur, (length cur ≤ 255)%nat → Forall (λ c, c ≠ 0x0A) cur →
  Forall (λ l, (length l ≤ 255)%nat ∧ Forall (λ c, c ≠ 0x0A) l) (wrap cur t) ∧
  concat (wrap cur t) = cur ++ filter (λ c, c ≠ 0x0A) t.
Proof.
  induction t as [|c t IH]; intros cur Hl Hc; cbn [wrap].
  { destruct cur as [|x cur]; [done|]. split; [apply Forall_singleton; done|]. cbn. by rewrite !app_nil_r. }
  destruct (Z.eqb_spec c 0x0A) as [->|Hn].
  - destruct (IH [] ltac:(cbn; lia) ltac:(constructor)) as [H1 H2]. split; [by constructor|].
    cbn [concat]. rewrite H2, filter_cons_False by (intros E; by apply E). done.
  - rewrite filter_cons_True by done. case_bool_decide as Hd.
    + destruct (IH [c] ltac:(cbn; lia) ltac:(by repeat constructor)) as [H1 H2]. split; [by constructor|].
      cbn [concat]. by rewrite H2.
    + destruct (IH (cur ++ [c])) as [H1 H2]; [rewrite length_app; cbn; lia|by apply Forall_app; repeat constructor|].
      split; [done|]. by rewrite H2, <- app_assoc.
Qed.

(** The pager that shows [shown]. *)
Record shows_lines (p : Pager) (shown : list (list Z)) : Prop := {
  sl_arrays : arrays (lines p);
  sl_holds : holds (lines p) shown;
  sl_count : line_count p = Z.of_nat (length shown);
  sl_max : (length shown ≤ 1000)%nat
}.

Lemma split_text_ok p t r : arrays (lines p) → chars t →
  exists p', split_text (t ++ 0 :: r) p = Ok p' ∧ shows_lines p' (take 1000 (wrap [] t)) ∧
    current_line p' = current_line p ∧ pager_active p' = pager_active p.
Proof.
  intros Ha Ht. unfold split_text.
  assert (Hs : splitting (lines p) [] []).
  { constructor; [done|by intros i l Hi|by apply begun_nil|cbn; lia|cbn; lia|constructor]. }
  destruct (split_loop_ok t (2 * length (t ++ 0 :: r) + 1) (lines p) [] [] r Ht) as (ls & fin & cur & E & Hs' & Et);
    [rewrite length_app; lia|done|].
  change (Z.of_nat (length (@nil (list Z)))) with 0 in E. change (Z.of_nat (length (@nil Z))) with 0 in E.
  rewrite E, bind_Ok. cbn [app] in Et. rewrite Et. pose proof (sp_done _ _ _ Hs') as Hd. unfold MAX_LINES.
  destruct cur as [|x cur]; cbn [wrap length].
  { change (0 <? Z.of_nat 0) with false. cbn [andb]. rewrite app_nil_r, firstn_all2 by lia.
    eexists. split; [reflexivity|]. split; [|done]. constructor; [apply Hs'|apply Hs'|done|done]. }
  rewrite (proj2 (Z.ltb_lt 0 _)) by lia. cbn [andb]. destruct (Z.ltb_spec (Z.of_nat (length fin)) 1000) as [Hlt|Hge].
  - destruct (splitting_break _ _ _ Hs' ltac:(lia)) as (ls' & E' & Hs2). cbn [length] in E'. rewrite E', bind_Ok.
    assert (Hl : length (fin ++ [x :: cur]) = S (length fin)) by (rewrite length_app; cbn; lia).
    rewrite firstn_all2 by lia. eexists. split; [reflexivity|]. split; [|done].
    constructor; [apply Hs2|apply Hs2|cbn; lia|lia].
  - rewrite take_app_length' by lia. eexists. split; [reflexivity|]. split; [|done]. constructor; [apply Hs'|apply Hs'|done|done].
Qed.

(** ** Drawing a page *)

(** What writes on the screen and leaves it well-formed. *)
Definition writes (m : TM unit) : Prop :=
  forall t, term_wf t → exists t', m t = Ok (tt, t') ∧ term_wf t' ∧ screen_saved t' = screen_saved t.

Lemma writes_ret : writes (mret tt).
Proof. intros t Ht. by exists t. Qed.

Lemma writes_seq m1 m2 : writes m1 → writes m2 → writes (m1;; m2).
Proof.
  intros H1 H2 t Ht. destruct (H1 t Ht) as (t1 & E1 & Ht1 & Es1). destruct (H2 t1 Ht1) as (t2 & E2 & Ht2 & Es2).
  exists t2. rewrite (bind_run _ _ _ _ _ E1). by rewrite Es2, Es1.
Qed.

Lemma writes_gets {A} (g : Terminal → A) (f : A → TM unit) : (∀ a, writes (f a)) → writes (gets g ≫= f).
Proof. intros Hf t Ht. rewrite bind_gets. by apply Hf. Qed.

Lemma writes_modify f : (∀ t, term_wf t → term_wf (f t)) → (∀ t, screen_saved (f t) = screen_saved t) → writes (modify f).
Proof. intros Hf Hs t Ht. exists (f t). by auto. Qed.

Lemma writes_printf format args l n (m : TM unit) : vprintf format args = Ok (l, n) → writes m → writes (printf format args;; m).
Proof.
  intros E Hm t Ht. unfold printf. rewrite E.
  assert (Hp : exists t1, print l t = Ok (tt, t1) ∧ term_wf t1 ∧ screen_saved t1 = screen_saved t).
  { destruct l as [|c l]; [by exists t|]. destruct (print_from t c l Ht) as [Ep Hw]. by eexists. }
  destruct Hp as (t1 & Ep & Hw & Es). destruct (Hm t1 Hw) as (t2 & E2 & Ht2 & Es2). exists t2.
  unfold mbind at 1, st_bind at 1. rewrite bind_lift_Ok, (bind_run _ _ _ _ _ Ep). cbn. by rewrite E2, Es2.
Qed.

Lemma writes_clear : writes terminal_clear.
Proof.
  intros t Ht. rewrite terminal_clear_ok by apply Ht. eexists. split; [reflexivity|]. split; [|done].
  by apply shows_wf; [rewrite length_replicate|].
Qed.

Lemma writes_text l : percent ∉ l → writes (put_text l).
Proof.
  intros Hl. unfold put_text. pose proof (vformat_literal printf_string l 1 [] [] Hl) as E. rewrite app_nil_r in E.
  eapply writes_printf; [|apply writes_ret]. unfold vprintf. rewrite <- Nat.add_1_r, E. reflexivity.
Qed.

Lemma line_chars_ok ls done i l : holds ls done → done !! i = Some l → line_chars ls (Z.of_nat i) = Ok l.
Proof.
  intros Hh Hi. destruct (Hh i l Hi) as (row & Hr & Hc). unfold line_chars.
  rewrite (proj2 (Z.leb_le 0 _)), Nat2Z.id, Hr by lia. rewrite (strlen_cstr _ _ Hc), bind_Ok, Nat2Z.id.
  destruct Hc as [_ [r ->]]. by rewrite take_app_length.
Qed.

Lemma writes_lines n : ∀ ls done i, holds ls done → Forall (λ l, percent ∉ l) done →
  writes (show_lines n ls (Z.of_nat i) (Z.of_nat (length done))).
Proof.
  induction n as [|n IH]; intros ls done i Hh Hp; cbn [show_lines]; [apply writes_ret|].
  destruct (Z.ltb_spec (Z.of_nat i) (Z.of_nat (length done))) as [Hi|Hi]; [|apply writes_ret].
  destruct (lookup_lt_is_Some_2 done i) as [l El]; [lia|]. intros t Ht.
  rewrite (bind_lift _ _ _ _ (line_chars_ok _ _ _ _ Hh El)). revert t Ht.
  pose proof (Forall_lookup_1 _ _ _ _ Hp El) as Hl. cbn in Hl.
  apply (writes_printf _ _ (l ++ [0x0A]) 2).
  - apply (vprintf_directive [] false false [] 0 0x73 [0x0A]);
      [by apply (bool_decide_unpack _)..|unfold conversion; set_solver|by left|].
    unfold convert. cbn [Z.eqb Pos.eqb d_width d_left default]. rewrite printf_string_plain by done. done.
  - replace (Z.of_nat i + 1) with (Z.of_nat (S i)) by lia. by apply IH.
Qed.

Lemma writes_page p shown : shows_lines p shown → Forall (λ l, percent ∉ l) shown → 0 ≤ current_line p →
  writes (display_current_page p).
Proof.
  intros Hs Hp Hc. unfold display_current_page. apply writes_seq; [apply writes_clear|]. apply writes_seq.
  { rewrite (sl_count _ _ Hs). replace (current_line p) with (Z.of_nat (Z.to_nat (current_line p))) by lia.
    by apply writes_lines; [apply Hs|]. }
  apply writes_gets. intros old.
  apply writes_seq; [apply writes_modify; [|done]; intros t [? ? ?]; by constructor|].
  apply writes_seq; [apply writes_modify; [|done]; intros t [? ? ?]; constructor; cbn; unfold VGA_HEIGHT, VGA_WIDTH; lia || done|].
  apply writes_seq.
  { unfold status_bar. destruct (_ <=? _); [apply writes_text; by apply (bool_decide_unpack _)|].
    destruct (_ <=? _); (eapply writes_printf; [|apply writes_ret]); reflexivity. }
  apply writes_seq; [apply writes_modify; [|done]; intros t [? ? ?]; by constructor|].
  unfold update_cursor_position. apply writes_modify; [|done]. intros t [? ? ?]; by constructor.
Qed.

(** ** Keys

    The top line a key leads to, [last] being the top of the last page: one line
    or one page down or up, to the beginning or to the end. *)
Definition view_step (last top c : Z) : Z :=
  if (c =? 0x6A) || (c =? 0x1B) then Z.min (top + 1) last
  else if c =? 0x6B then Z.max (top - 1) 0
  else if (c =? 0x20) || (c =? 0x04) then Z.min (top + ROWS) last
  else if c =? 0x15 then Z.max (top - ROWS) 0
  else if c =? 0x67 then 0
  else if c =? 0x47 then last
  else top.

Definition last_top (shown : list (list Z)) : Z := Z.max 0 (Z.of_nat (length shown) - ROWS).

Lemma key_view_ok p shown c : shows_lines p shown → 0 ≤ current_line p ≤ last_top shown →
  default (current_line p) (key_view p c) = view_step (last_top shown) (current_line p) c ∧
  0 ≤ view_step (last_top shown) (current_line p) c ≤ last_top shown.
Proof.
  intros Hs Hc. unfold key_view, view_step. pose proof (sl_count _ _ Hs) as En. pose proof (sl_max _ _ Hs).
  unfold last_top, ROWS, VGA_HEIGHT in *. set (n := Z.of_nat (length shown)) in *. assert (0 ≤ n ≤ 1000) by lia.
  rewrite En. change (25 - 1) with 24 in *. rewrite (u64_small (current_line p + 24)) by lia.
  rewrite (u64_small (current_line p + 1)) by lia.
  destruct ((c =? 106) || (c =? 27)).
  { destruct (Z.ltb_spec (current_line p + 24) n); cbn; lia. }
  destruct (c =? 107).
  { destruct (Z.ltb_spec 0 (current_line p)); cbn; lia. }
  destruct ((c =? 32) || (c =? 4)).
  { destruct (Z.ltb_spec (current_line p + 24) n); cbn; [|lia].
    rewrite (u64_small (current_line p + 24 + 24)) by lia.
    rewrite u64_small by lia. destruct (Z.ltb_spec n (current_line p + 24 + 24)); lia. }
  destruct (c =? 21).
  { destruct (Z.ltb_spec 0 (current_line p)); [|cbn; lia]. destruct (Z.leb_spec 24 (current_line p)); cbn; lia. }
  destruct (c =? 103).
  { destruct (Z.ltb_spec 0 (current_line p)); cbn; lia. }
  destruct (c =? 71); [|cbn; lia].
  destruct (Z.ltb_spec (current_line p + 24) n); cbn; [|lia]. rewrite u64_small by lia. lia.
Qed.

Section sessions.
Context {F : Type} `{Files F}.

(** The pager at work on [shown], [top] being the first line of the page, over
    the saved screen [saved] and the files [files]. *)
Record paging (s : PagerState F) (shown : list (list Z)) (top : Z) (saved : SavedScreen) (files : F) : Prop := {
  pg_shows : shows_lines (ps_pager s) shown;
  pg_plain : Forall (λ l, percent ∉ l) shown;
  pg_top : current_line (ps_pager s) = top;
  pg_range : 0 ≤ top ≤ last_top shown;
  pg_active : pager_active (ps_pager s) = true;
  pg_screen : term_wf (co_screen (ps_console s));
  pg_saved : screen_saved (co_screen (ps_console s)) = saved;
  pg_files : co_files (ps_console s) = files
}.

Lemma screen_ok (s : PagerState F) m : writes m → term_wf (co_screen (ps_console s)) →
  exists s', screen m s = Ok (tt, s') ∧ ps_pager s' = ps_pager s ∧ term_wf (co_screen (ps_console s')) ∧
    screen_saved (co_screen (ps_console s')) = screen_saved (co_screen (ps_console s)) ∧
    co_files (ps_console s') = co_files (ps_console s).
Proof.
  intros Hm Hs. destruct (Hm _ Hs) as (t & E & Ht & Es). eexists. split.
  - unfold screen, on_console, on_screen. rewrite E. reflexivity.
  - done.
Qed.

Lemma writes_hide : writes hide_cursor.
Proof. apply writes_modify; [|done]. intros t [? ? ?]; by constructor. Qed.

(** The page put on the screen and the cursor hidden. *)
Lemma draw_page (s : PagerState F) shown p :
  shows_lines p shown → Forall (λ l, percent ∉ l) shown → pager_active p = true → 0 ≤ current_line p ≤ last_top shown →
  term_wf (co_screen (ps_console s)) →
  exists s', (put_pager p;; screen (display_current_page p);; screen hide_cursor) s = Ok (tt, s') ∧
    paging s' shown (current_line p) (screen_saved (co_screen (ps_console s))) (co_files (ps_console s)).
Proof.
  intros Hsl Hp Ha Hc Hs. destruct (screen_ok (PS p (ps_console s)) (display_current_page p)) as (s1 & E1 & P1 & S1 & V1 & F1).
  - apply (writes_page p shown); [done|done|lia].
  - done.
  - destruct (screen_ok s1 hide_cursor writes_hide S1) as (s2 & E2 & P2 & S2 & V2 & F2). exists s2. split.
    + unfold put_pager. st. by rewrite (bind_run _ _ _ _ _ E1).
    + cbn [ps_pager ps_console] in *. constructor; rewrite ?P2, ?P1, ?V2, ?V1, ?F2, ?F1; done.
Qed.

Lemma paging_key (s : PagerState F) shown top saved files c : paging s shown top saved files → c ≠ 0x71 →
  exists s', process_keypress c s = Ok (tt, s') ∧ paging s' shown (view_step (last_top shown) top c) saved files.
Proof.
  intros Hs Hc. pose proof (pg_top _ _ _ _ _ Hs) as Et. pose proof (pg_range _ _ _ _ _ Hs) as Hr. rewrite <- Et in Hr.
  destruct (key_view_ok _ _ c (pg_shows _ _ _ _ _ Hs) Hr) as [Ek Hv]. unfold process_keypress, get_pager. st.
  rewrite (pg_active _ _ _ _ _ Hs), (proj2 (Z.eqb_neq c _)) by done. cbn [negb]. rewrite Et in Ek, Hv.
  destruct (key_view (ps_pager s) c) as [v|]; cbn [default from_option id] in Ek.
  - rewrite <- Ek in Hv |- *. destruct Hs as [[Ha Hh Hn Hm] Hp _ _ Hac Hsc <- <-].
    apply (draw_page s shown (set_view v (ps_pager s))); [by constructor|done|done|exact Hv|done].
  - exists s. by rewrite <- Ek.
Qed.

Fixpoint press (keys : list Z) : ST (PagerState F) unit :=
  match keys with
  | [] => mret tt
  | c :: keys => process_keypress c;; press keys
  end.

Lemma press_ok keys : ∀ (s : PagerState F) shown top saved files, paging s shown top saved files → (0x71 ∉ keys) →
  exists s', press keys s = Ok (tt, s') ∧ paging s' shown (foldl (view_step (last_top shown)) top keys) saved files.
Proof.
  induction keys as [|c keys IH]; intros s shown top saved files Hs Hk; cbn [press foldl]; [by exists s|].
  apply not_elem_of_cons in Hk as [Hc Hk].
  destruct (paging_key s shown top saved files c Hs ltac:(congruence)) as (s1 & E & Hs1).
  rewrite (bind_run _ _ _ _ _ E). by apply IH.
Qed.

Definition saved_of (t : Terminal) : SavedScreen :=
  Saved (VGA_MEMORY t) (terminal_row t) (terminal_column t) (terminal_color t).

(** A text opened in the pager. *)
Lemma show_text_ok (s : PagerState F) t r : arrays (lines (ps_pager s)) → chars t → percent ∉ t →
  term_wf (co_screen (ps_console s)) →
  exists s', show_text (t ++ 0 :: r) s = Ok (tt, s') ∧
    paging s' (take 1000 (wrap [] t)) 0 (saved_of (co_screen (ps_console s))) (co_files (ps_console s)).
Proof.
  intros Ha Ht Hp Hs. destruct (split_text_ok (ps_pager s) t r Ha Ht) as (p & Ep & Hsl & _ & _).
  assert (Hplain : Forall (λ l, percent ∉ l) (take 1000 (wrap [] t))).
  { destruct (wrap_ok t [] ltac:(cbn; lia) ltac:(constructor)) as [_ Hw]. cbn [app] in Hw.
    apply Forall_take, Forall_forall. intros l Hl Hpl. apply Hp.
    assert (Hin : percent ∈ concat (wrap [] t)) by (apply list_elem_of_In, in_concat; exists l; split; by apply list_elem_of_In).
    rewrite Hw in Hin. by apply list_elem_of_filter in Hin as [_ Hin]. }
  unfold show_text. set (t0 := co_screen (ps_console s)) in *.
  set (t1 := set_saved (Saved (take (Z.to_nat SCREEN_SIZE) (VGA_MEMORY t0)) (terminal_row t0) (terminal_column t0) (terminal_color t0)) t0).
  set (s1 := PS (ps_pager s) (Cons t1 (co_files (ps_console s)))).
  assert (E1 : screen screen_save s = Ok (tt, s1)) by done. rewrite (bind_run _ _ _ _ _ E1).
  assert (Ht1 : term_wf t1) by (destruct Hs; by constructor).
  destruct (screen_ok s1 hide_cursor writes_hide Ht1) as (s2 & E2 & P2 & S2 & V2 & F2). rewrite (bind_run _ _ _ _ _ E2).
  unfold get_pager. st. rewrite P2. cbn [s1 ps_pager]. rewrite (bind_lift _ _ _ _ Ep).
  destruct (draw_page s2 (take 1000 (wrap [] t)) (set_active true (set_view 0 p))) as (s3 & E3 & Hs3).
  - destruct Hsl. by constructor.
  - done.
  - done.
  - cbn. unfold last_top. lia.
  - done.
  - exists s3. split; [exact E3|]. rewrite V2, F2 in Hs3. cbn in Hs3. unfold saved_of.
    assert (Ev : take (Z.to_nat SCREEN_SIZE) (VGA_MEMORY t0) = VGA_MEMORY t0) by (apply firstn_all2; by rewrite (tm_cells _ Hs)).
    by rewrite Ev in Hs3.
Qed.

(** [q]: the saved screen, and the prompt on it. *)
Lemma clear_ok (s : PagerState F) shown top t files :
  paging s shown top (saved_of t) files → term_wf t → cursor_black t →
  exists s', process_keypress 0x71 s = on_console print_prompt s' ∧ pager_active (ps_pager s') = false ∧
    co_files (ps_console s') = files ∧
    let t' := co_screen (ps_console s') in
    VGA_MEMORY t' = VGA_MEMORY t ∧ terminal_row t' = terminal_row t ∧ terminal_column t' = terminal_column t ∧
    terminal_color t' = terminal_color t ∧ term_wf t'.
Proof.
  intros Hs Ht Hc. pose proof (pg_screen _ _ _ _ _ Hs) as Hw. set (u := co_screen (ps_console s)) in *.
  set (u1 := set_color (terminal_color t) (set_position (terminal_row t) (terminal_column t) (set_vga (VGA_MEMORY t) u))).
  assert (Hw1 : term_wf u1) by (destruct Ht; by constructor).
  assert (E1 : screen_restore u = Ok (tt, shows u1 (cursor_at (position u1) (VGA_MEMORY u1), position u1))).
  { unfold screen_restore. st. change (screen_saved u) with (screen_saved (co_screen (ps_console s))).
    rewrite (pg_saved _ _ _ _ _ Hs). st. exact (update_cursor_ok u1 Hw1). }
  set (u2 := shows u1 _) in E1. set (u3 := set_shape 0x0E 0x0F u2).
  exists (PS (set_active false (ps_pager s)) (Cons u3 (co_files (ps_console s)))). split.
  - unfold process_keypress, get_pager. st. rewrite (pg_active _ _ _ _ _ Hs). cbn [negb Z.eqb Pos.eqb].
    unfold clear, get_pager, put_pager. st.
    assert (Er : screen screen_restore (PS (set_active false (ps_pager s)) (ps_console s)) =
      Ok (tt, PS (set_active false (ps_pager s)) (Cons u2 (co_files (ps_console s))))).
    { unfold screen, on_console, on_screen. cbn [ps_console]. fold u. by rewrite E1. }
    rewrite (bind_run _ _ _ _ _ Er). done.
  - split; [done|]. split; [apply Hs|]. assert (Ep : position u1 = position t) by done. destruct (position_div t Ht) as [Ed Em].
    cbn [ps_console co_screen u3 u2 set_shape shows VGA_MEMORY terminal_row terminal_column terminal_color fst snd].
    rewrite Ep. split_and!; [exact Hc|done|done|done|]. constructor; cbn; rewrite ?Ep, ?Ed, ?Em; [|apply Ht..].
    rewrite cursor_at_length. apply Ht.
Qed.

(** Splitting a text fills the lines with the first thousand of the lines it
    wraps into: none longer than 255 characters or with a newline in it, and,
    one after the other, exactly the text without its newlines. *)
Theorem split_text_spec p t r : arrays (lines p) → chars t →
  exists p', split_text (t ++ 0 :: r) p = Ok p' ∧
    line_count p' = Z.of_nat (length (take 1000 (wrap [] t))) ∧
    (forall i l, take 1000 (wrap [] t) !! i = Some l → exists row, lines p' !! i = Some row ∧ cstr row l) ∧
    Forall (λ l, (length l ≤ 255)%nat ∧ Forall (λ c, c ≠ 0x0A) l) (wrap [] t) ∧
    concat (wrap [] t) = filter (λ c, c ≠ 0x0A) t.
Proof.
  intros Ha Ht. destruct (split_text_ok p t r Ha Ht) as (p' & E & Hs & _).
  destruct (wrap_ok t [] ltac:(cbn; lia) ltac:(constructor)) as [H1 H2].
  exists p'. split; [exact E|]. split; [apply Hs|]. split; [apply Hs|]. by split.
Qed.

End sessions.

(** ** Witnesses *)

Lemma init_arrays : arrays (lines init_pager).
Proof.
  split; [by rewrite <- (length_replicate 1000 (replicate 256 0))|]. apply Forall_replicate. by rewrite length_replicate.
Qed.

Lemma split_text_spec_witness :
  exists p', split_text [0x61; 0x0A; 0x62; 0] init_pager = Ok p' ∧ line_count p' = 2 ∧
    (forall i l, [[0x61]; [0x62]] !! i = Some l → exists row, lines p' !! i = Some row ∧ cstr row l).
Proof.
  destruct (split_text_spec init_pager [0x61; 0x0A; 0x62] [] init_arrays) as (p' & E & En & Eh & _).
  - by repeat constructor.
  - exists p'. split; [exact E|]. split; [exact En|exact Eh].
Defined.

#[local] Existing Instance no_disk.

