(* ===== verification/Interrupts.v ===== *)
(** * Descriptor tables, interrupts and the keyboard
    (src/kernel/src/hw/{gdt,idt,pic}.cpp, src/kernel/src/drivers/keyboard.cpp)

    The tables the processor reads, the interrupt handler with its exception
    report and its acknowledgements, and the keyboard with its two layouts.  The
    ports written are logged in their order, and so are the characters handed to
    the registered callback, which is [process_keypress] of the shell.  The
    addresses of the assembly stubs and of the tables themselves are parameters. *)

From Stdlib Require Strings.String.
From Stdlib Require Import (notations) Strings.String.
From S2P Require Import Prelude CStr Terminal Printf.

(** ** The processor *)

Record GDTEntry := Gdt {
  limit_low : Z; base_low : Z; base_middle : Z; access : Z; limit_high_flags : Z; base_high : Z
}.

Record IDTEntry := Idt {
  offset_low : Z; selector : Z; ist : Z; type_attr : Z; offset_middle : Z; offset_high : Z; zero : Z
}.

#[export] Instance GDTEntry_eq_dec : EqDecision GDTEntry.
Proof. solve_decision. Defined.
#[export] Instance IDTEntry_eq_dec : EqDecision IDTEntry.
Proof. solve_decision. Defined.

Record Cpu := Cp {
  c_gdt : list GDTEntry;
  c_gdtr : Z;
  c_cr0 : Z;
  c_cr4 : Z;
  c_idt : list IDTEntry;
  c_idtr : Z;
  c_ports : list (Z * Z);
  c_screen : Terminal;
  c_halted : bool;
  keyboard_callback : bool;
  shift_pressed : bool;
  ctrl_pressed : bool;
  c_keys : list Z
}.

Definition set_gdt (l : list GDTEntry) (r : Z) (c : Cpu) : Cpu :=
  Cp l r (c_cr0 c) (c_cr4 c) (c_idt c) (c_idtr c) (c_ports c) (c_screen c) (c_halted c)
    (keyboard_callback c) (shift_pressed c) (ctrl_pressed c) (c_keys c).
Definition set_cr (cr0 cr4 : Z) (c : Cpu) : Cpu :=
  Cp (c_gdt c) (c_gdtr c) cr0 cr4 (c_idt c) (c_idtr c) (c_ports c) (c_screen c) (c_halted c)
    (keyboard_callback c) (shift_pressed c) (ctrl_pressed c) (c_keys c).
Definition set_idt (l : list IDTEntry) (r : Z) (c : Cpu) : Cpu :=
  Cp (c_gdt c) (c_gdtr c) (c_cr0 c) (c_cr4 c) l r (c_ports c) (c_screen c) (c_halted c)
    (keyboard_callback c) (shift_pressed c) (ctrl_pressed c) (c_keys c).
Definition outb (port value : Z) (c : Cpu) : Cpu :=
  Cp (c_gdt c) (c_gdtr c) (c_cr0 c) (c_cr4 c) (c_idt c) (c_idtr c) (c_ports c ++ [(port, value)]) (c_screen c) (c_halted c)
    (keyboard_callback c) (shift_pressed c) (ctrl_pressed c) (c_keys c).
Definition set_screen (t : Terminal) (c : Cpu) : Cpu :=
  Cp (c_gdt c) (c_gdtr c) (c_cr0 c) (c_cr4 c) (c_idt c) (c_idtr c) (c_ports c) t (c_halted c)
    (keyboard_callback c) (shift_pressed c) (ctrl_pressed c) (c_keys c).
Definition halt (c : Cpu) : Cpu :=
  Cp (c_gdt c) (c_gdtr c) (c_cr0 c) (c_cr4 c) (c_idt c) (c_idtr c) (c_ports c) (c_screen c) true
    (keyboard_callback c) (shift_pressed c) (ctrl_pressed c) (c_keys c).
Definition set_keyboard (callback shift ctrl : bool) (keys : list Z) (c : Cpu) : Cpu :=
  Cp (c_gdt c) (c_gdtr c) (c_cr0 c) (c_cr4 c) (c_idt c) (c_idtr c) (c_ports c) (c_screen c) (c_halted c)
    callback shift ctrl keys.

Abbreviation CPU := (ST Cpu).

Definition on_screen {A} (m : TM A) : CPU A := λ c,
  match m (c_screen c) with
  | Ok (a, t) => Ok (a, set_screen t c)
  | UB => UB
  | OutOfFuel => OutOfFuel
  end.

(** ** gdt.cpp *)

Definition GDT_PRESENT : Z := 0x80.
Definition GDT_USER : Z := 0x60.
Definition GDT_DESCRIPTOR : Z := 0x10.
Definition GDT_EXECUTABLE : Z := 0x08.
Definition GDT_READWRITE : Z := 0x02.
Definition GDT_FLAGS_64BIT : Z := 0x20.
Definition GDT_FLAGS_4K_GRAN : Z := 0x80.

Definition gdt_descriptor (base limit access_ flags : Z) : GDTEntry :=
  {| limit_low := Z.land limit 0xFFFF;
     base_low := Z.land base 0xFFFF;
     base_middle := Z.land (Z.shiftr base 16) 0xFF;
     access := access_;
     limit_high_flags := Z.lor (Z.land (Z.shiftr limit 16) 0x0F) (Z.land flags 0xF0);
     base_high := Z.land (Z.shiftr base 24) 0xFF |}.

(** The five entries of the table. *)
Definition gdt_entries : list GDTEntry :=
  let lor := foldr Z.lor 0 in
  [gdt_descriptor 0 0 0 0;
   gdt_descriptor 0 0 (lor [GDT_PRESENT; GDT_DESCRIPTOR; GDT_EXECUTABLE; GDT_READWRITE]) (lor [GDT_FLAGS_64BIT; GDT_FLAGS_4K_GRAN]);
   gdt_descriptor 0 0 (lor [GDT_PRESENT; GDT_DESCRIPTOR; GDT_READWRITE]) GDT_FLAGS_4K_GRAN;
   gdt_descriptor 0 0 (lor [GDT_PRESENT; GDT_DESCRIPTOR; GDT_USER; GDT_EXECUTABLE; GDT_READWRITE])
     (lor [GDT_FLAGS_64BIT; GDT_FLAGS_4K_GRAN]);
   gdt_descriptor 0 0 (lor [GDT_PRESENT; GDT_DESCRIPTOR; GDT_USER; GDT_READWRITE]) GDT_FLAGS_4K_GRAN].

(** [vga[i] = 0x0400 | c] *)
Definition mark (i c : Z) : CPU unit :=
  on_screen (v ← gets VGA_MEMORY; v ← lift (aset v i (Z.lor 0x0400 c)); modify (set_vga v)).

Definition init_gdt (gdt_addr : Z) : CPU unit :=
  mark 40 0x31;; mark 41 0x32;; mark 42 0x33;; mark 43 0x34;; mark 44 0x35;; mark 45 0x36;;
  mark 46 0x37;; mark 47 0x38;;
  modify (set_gdt gdt_entries gdt_addr);;
  mark 48 0x39;;
  modify (λ c, set_cr (Z.lor (Z.land (c_cr0 c) (u32 (Z.lnot (Z.shiftl 1 2)))) (Z.shiftl 1 1))
                      (Z.lor (Z.lor (c_cr4 c) (Z.shiftl 1 9)) (Z.shiftl 1 10)) c);;
  mark 49 0x41.

(** ** pic.cpp *)

Definition PIC1_COMMAND : Z := 0x20.
Definition PIC1_DATA : Z := 0x21.
Definition PIC2_COMMAND : Z := 0xA0.
Definition PIC2_DATA : Z := 0xA1.

Definition init_pic : CPU unit :=
  modify (outb PIC1_COMMAND 0x11);; modify (outb PIC2_COMMAND 0x11);;
  modify (outb PIC1_DATA 0x20);; modify (outb PIC2_DATA 0x28);;
  modify (outb PIC1_DATA 0x04);; modify (outb PIC2_DATA 0x02);;
  modify (outb PIC1_DATA 0x01);; modify (outb PIC2_DATA 0x01);;
  modify (outb PIC1_DATA 0xFC);; modify (outb PIC2_DATA 0xFF).

(** ** keyboard.cpp *)

Definition scancode_to_ascii : list Z :=
  [0; 0x1B; 0x31; 0x32; 0x33; 0x34; 0x35; 0x36; 0x37; 0x38; 0x39; 0x30;
   0x2D; 0x3D; 0x08; 0x09; 0x71; 0x77; 0x65; 0x72; 0x74; 0x79; 0x75; 0x69;
   0x6F; 0x70; 0x5B; 0x5D; 0x0A; 0; 0x61; 0x73; 0x64; 0x66; 0x67; 0x68;
   0x6A; 0x6B; 0x6C; 0x3B; 0x27; 0x60; 0; 0x5C; 0x7A; 0x78; 0x63; 0x76;
   0x62; 0x6E; 0x6D; 0x2C; 0x2E; 0x2F; 0; 0x2A; 0; 0x20].

Definition scancode_to_ascii_shifted : list Z :=
  [0; 0x1B; 0x21; 0x40; 0x23; 0x24; 0x25; 0x5E; 0x26; 0x2A; 0x28; 0x29; 0x5F; 0x2B; 0x08;
   0x09; 0x51; 0x57; 0x45; 0x52; 0x54; 0x59; 0x55; 0x49; 0x4F; 0x50; 0x7B; 0x7D; 0x0A; 0;
   0x41; 0x53; 0x44; 0x46; 0x47; 0x48; 0x4A; 0x4B; 0x4C; 0x3A; 0x22; 0x7E; 0; 0x7C; 0x5A;
   0x58; 0x43; 0x56; 0x42; 0x4E; 0x4D; 0x3C; 0x3E; 0x3F; 0; 0x2A; 0; 0x20].

Definition init_keyboard : CPU unit :=
  modify (λ c, set_keyboard false (shift_pressed c) (ctrl_pressed c) (c_keys c) c).

Definition register_keyboard_handler : CPU unit :=
  modify (λ c, set_keyboard true (shift_pressed c) (ctrl_pressed c) (c_keys c) c).

(** [scancode] is what the data port gives. *)
Definition keyboard_read (scancode : Z) : outcome Z :=
  if Z.of_nat (length scancode_to_ascii) <=? scancode then Ok 0 else aget scancode_to_ascii scancode.

Definition set_shift (b : bool) : CPU unit :=
  modify (λ c, set_keyboard (keyboard_callback c) b (ctrl_pressed c) (c_keys c) c).
Definition set_ctrl (b : bool) : CPU unit :=
  modify (λ c, set_keyboard (keyboard_callback c) (shift_pressed c) b (c_keys c) c).

(** A letter with the control key. *)
Definition control_char (c : Z) : Z :=
  if (0x61 <=? c) && (c <=? 0x7A) then c - 0x61 + 1
  else if (0x41 <=? c) && (c <=? 0x5A) then c - 0x41 + 1
  else c.

Definition keyboard_handler (scancode : Z) : CPU unit :=
  if scancode =? 0x2A then set_shift true
  else if scancode =? 0xAA then set_shift false
  else if scancode =? 0x36 then set_shift true
  else if scancode =? 0xB6 then set_shift false
  else if scancode =? 0x1D then set_ctrl true
  else if scancode =? 0x9D then set_ctrl false
  else
    (if scancode <? 60 then
       shift ← gets shift_pressed;
       c ← lift (aget (if shift : bool then scancode_to_ascii_shifted else scancode_to_ascii) scancode);
       callback ← gets keyboard_callback;
       if negb (c =? 0) && callback then
         ctrl ← gets ctrl_pressed;
         let c := if ctrl : bool then control_char c else c in
         modify (λ k, set_keyboard (keyboard_callback k) (shift_pressed k) (ctrl_pressed k) (c_keys k ++ [c]) k)
       else mret tt
     else mret tt);;
    modify (outb PIC1_COMMAND 0x20).

(** ** idt.cpp *)

Definition IDT_ENTRIES : Z := 256.
Definition IDT_PRESENT : Z := 0x80.
Definition IDT_DPL0 : Z := 0x00.
Definition IDT_INTERRUPT_GATE : Z := 0x0E.

Definition idt_descriptor (addr selector_ flags : Z) : IDTEntry :=
  {| offset_low := Z.land addr 0xFFFF;
     selector := selector_;
     ist := 0;
     type_attr := flags;
     offset_middle := Z.land (Z.shiftr addr 16) 0xFFFF;
     offset_high := Z.land (Z.shiftr addr 32) 0xFFFFFFFF;
     zero := 0 |}.

Definition set_interrupt_handler (vector handler flags : Z) : CPU unit :=
  if handler =? 0 then mret tt else
  modify (λ c, set_idt (<[Z.to_nat vector := idt_descriptor handler 0x08 flags]> (c_idt c)) (c_idtr c) c).

Definition GATE : Z := Z.lor (Z.lor IDT_PRESENT IDT_DPL0) IDT_INTERRUPT_GATE.

(** [for (uint8_t v = ...) { ... set_interrupt_handler(base + v, isr..., ...); }] *)
Fixpoint set_handlers (n : nat) (v : Z) (isr : Z → Z) : CPU unit :=
  match n with
  | O => mret tt
  | S n' => set_interrupt_handler v (isr v) GATE;; set_handlers n' (v + 1) isr
  end.

(** [isr v] is the address of the stub of vector [v]. *)
Definition init_idt (isr : Z → Z) (idt_addr : Z) : CPU unit :=
  set_handlers 32 0 isr;;
  set_handlers 16 32 isr;;
  modify (λ c, set_idt (c_idt c) idt_addr c).

Definition exception_messages : list (list Z) :=
  map text
    ["Division By Zero"; "Debug"; "Non Maskable Interrupt"; "Breakpoint"; "Into Detected Overflow"; "Out of Bounds";
     "Invalid Opcode"; "No Coprocessor"; "Double Fault"; "Coprocessor Segment Overrun"; "Bad TSS";
     "Segment Not Present"; "Stack Fault"; "General Protection Fault"; "Page Fault"; "Unknown Interrupt";
     "Coprocessor Fault"; "Alignment Check"; "Machine Check"; "SIMD Floating-Point"; "Virtualization";
     "Control Protection"; "Reserved"; "Reserved"; "Reserved"; "Reserved"; "Reserved"; "Reserved"; "Reserved";
     "Reserved"; "Reserved"; "Reserved"]%string.

(** What the handler reads of the frame the stub pushes. *)
Record InterruptFrame := Frame {
  interrupt_number : Z; error_code : Z; rip : Z; cs : Z; rflags : Z; rsp : Z; ss : Z
}.

(** [printf(s "...\n", ...)] *)
Definition report (s : String.string) (args : list arg) : CPU unit :=
  on_screen (printf (text s ++ [0x0A]) args;; mret tt).

(** [scancode] is what the keyboard's data port gives; [cli; hlt] stops the
    processor. *)
Definition isr_handler (frame : InterruptFrame) (scancode : Z) : CPU unit :=
  if interrupt_number frame <? 32 then
    match exception_messages !! Z.to_nat (interrupt_number frame) with
    | None => lift UB
    | Some m =>
        report "Exception: %s" [AStr (Some m)];;
        report "Error Code: %lu" [AInt (error_code frame)];;
        report "RIP: 0x%lx" [AInt (rip frame)];;
        report "CS: 0x%lx" [AInt (cs frame)];;
        report "RFLAGS: 0x%lx" [AInt (rflags frame)];;
        report "RSP: 0x%lx" [AInt (rsp frame)];;
        report "SS: 0x%lx" [AInt (ss frame)];;
        modify halt
    end
  else if interrupt_number frame <? 48 then
    let irq := u8 (interrupt_number frame - 32) in
    (if 8 <=? irq then modify (outb PIC2_COMMAND 0x20) else mret tt);;
    modify (outb PIC1_COMMAND 0x20);;
    if irq =? 0 then mret tt
    else if irq =? 1 then keyboard_handler scancode
    else mret tt
  else mret tt.

(** ** The keyboard *)

(** The character of a key in one of the layouts. *)
Definition layout (shift : bool) : list Z := if shift then scancode_to_ascii_shifted else scancode_to_ascii.
Definition delivered (shift ctrl : bool) (c : Z) : list Z :=
  if c =? 0 then [] else [if ctrl then control_char c else c].

Definition modifiers : list Z := [0x2A; 0xAA; 0x36; 0xB6; 0x1D; 0x9D].

(** The codes the tables end before, although the handler lets them through:
    caps lock and F1. *)
Definition beyond_tables : list Z := [0x3A; 0x3B].

Lemma keyboard_handler_modifier s c : s ∈ modifiers →
  exists sh ct, keyboard_handler s c = Ok (tt, set_keyboard (keyboard_callback c) sh ct (c_keys c) c) ∧
    sh = (if decide (s ∈ [0x2A; 0x36]) then true else if decide (s ∈ [0xAA; 0xB6]) then false else shift_pressed c) ∧
    ct = (if decide (s = 0x1D) then true else if decide (s = 0x9D) then false else ctrl_pressed c).
Proof.
  unfold modifiers. intros Hs. set_unfold. destruct_or! Hs; subst s; eexists _, _; (split; [reflexivity|]); done.
Qed.

Lemma keyboard_handler_key s c : s ∉ modifiers →
  keyboard_handler s c =
    ((if s <? 60 then
        k ← lift (aget (layout (shift_pressed c)) s);
        modify (λ c, set_keyboard (keyboard_callback c) (shift_pressed c) (ctrl_pressed c)
          (c_keys c ++ (if keyboard_callback c then delivered (shift_pressed c) (ctrl_pressed c) k else [])) c)
      else mret tt);; modify (outb PIC1_COMMAND 0x20)) c.
Proof.
  unfold modifiers. rewrite !not_elem_of_cons. intros (H1 & H2 & H3 & H4 & H5 & H6 & _). unfold keyboard_handler.
  rewrite !(proj2 (Z.eqb_neq s _)) by done. destruct (s <? 60); [|done].
  destruct c as [g gr c0 c4 id ir po sc ha cb sh ct ks]. unfold mbind, st_bind, gets, lift. cbn.
  change (aget (if sh then scancode_to_ascii_shifted else scancode_to_ascii) s) with (aget (layout sh) s).
  destruct (aget (layout sh) s) as [k| |]; cbn; [|done|done].
  unfold delivered. destruct (k =? 0), cb; cbn; by rewrite ?app_nil_r.
Qed.

(** What a key that is no modifier hands to the callback. *)
Definition key_chars (shift ctrl : bool) (s : Z) : list Z :=
  match layout shift !! Z.to_nat s with Some k => delivered shift ctrl k | None => [] end.

Lemma layout_length shift : length (layout shift) = 58%nat.
Proof. by destruct shift. Qed.

Lemma keyboard_handler_ok s c : 0 ≤ s < 256 → s ∉ modifiers → s ∉ beyond_tables →
  keyboard_handler s c = Ok (tt, outb PIC1_COMMAND 0x20
    (set_keyboard (keyboard_callback c) (shift_pressed c) (ctrl_pressed c)
      (c_keys c ++ (if keyboard_callback c then key_chars (shift_pressed c) (ctrl_pressed c) s else [])) c)).
Proof.
  intros Hs Hm Hb. unfold beyond_tables in Hb. rewrite !not_elem_of_cons in Hb. destruct Hb as (H1 & H2 & _).
  rewrite keyboard_handler_key by done. unfold key_chars. destruct (Z.ltb_spec s 60) as [Hl|Hl].
  - destruct (lookup_lt_is_Some_2 (layout (shift_pressed c)) (Z.to_nat s)) as [k Hk]; [rewrite layout_length; lia|].
    pose proof (aget_lookup _ _ _ Hk) as E. rewrite Z2Nat.id in E by lia. rewrite Hk.
    unfold mbind at 1, st_bind at 1. by rewrite (bind_lift _ _ _ _ E).
  - rewrite (lookup_ge_None_2 (layout _)) by (rewrite layout_length; lia).
    unfold mbind, st_bind. cbn. destruct c as [g gr c0 c4 id ir po sc ha cb sh ct ks]. cbn. destruct cb; by rewrite app_nil_r.
Qed.

Lemma keyboard_handler_beyond s c : s ∈ beyond_tables → keyboard_handler s c = UB.
Proof.
  intros Hs. assert (Hm : s ∉ modifiers) by (unfold beyond_tables in Hs; set_unfold; destruct_or! Hs; subst s; by apply (bool_decide_unpack _)).
  rewrite keyboard_handler_key by done. unfold beyond_tables in Hs.
  set_unfold. destruct_or! Hs; subst s; unfold mbind, st_bind; cbn; by destruct (shift_pressed c).
Qed.

(** ** Typing

    The strokes for a character: a key alone or between pressing and releasing
    shift. *)
Fixpoint index_of (k : Z) (l : list Z) (i : Z) : option Z :=
  match l with
  | [] => None
  | x :: l => if x =? k then Some i else index_of k l (i + 1)
  end.

Definition strokes (k : Z) : list Z :=
  match index_of k scancode_to_ascii 0 with
  | Some i => [i]
  | None => match index_of k scancode_to_ascii_shifted 0 with Some i => [0x2A; i; 0xAA] | None => [] end
  end.

(** The characters there are keys for. *)
Definition typeable (k : Z) : Prop := 0x20 ≤ k ≤ 0x7E ∨ k = 0x0A ∨ k = 0x08 ∨ k = 0x09 ∨ k = 0x1B.

(** The interrupts of a sequence of strokes. *)
Fixpoint strike (frame : InterruptFrame) (l : list Z) : CPU unit :=
  match l with
  | [] => mret tt
  | s :: l => isr_handler frame s;; strike frame l
  end.

Lemma isr_keyboard frame s c : interrupt_number frame = 33 →
  isr_handler frame s c = keyboard_handler s (outb PIC1_COMMAND 0x20 c).
Proof. intros E. unfold isr_handler. by rewrite E. Qed.

Lemma strike_app frame l1 l2 c : strike frame (l1 ++ l2) c = (strike frame l1;; strike frame l2) c.
Proof.
  revert c. induction l1 as [|s l1 IH]; intros c; cbn [app strike]; [done|].
  unfold mbind, st_bind. destruct (isr_handler frame s c) as [[[] c1]| |]; [|done|done]. apply IH.
Qed.

(** Which strokes the characters have, read off the tables. *)
Lemma strokes_ok k : typeable k →
  exists s, 0 ≤ s < 256 ∧ (s ∉ modifiers) ∧ (s ∉ beyond_tables) ∧
    (strokes k = [s] ∧ key_chars false false s = [k] ∨ strokes k = [0x2A; s; 0xAA] ∧ key_chars true false s = [k]).
Proof.
  intros Hk.
  assert (Hall : Forall (λ k, exists s, 0 ≤ s < 256 ∧ (s ∉ modifiers) ∧ (s ∉ beyond_tables) ∧
    (strokes k = [s] ∧ key_chars false false s = [k] ∨ strokes k = [0x2A; s; 0xAA] ∧ key_chars true false s = [k]))
    (map Z.of_nat (seq 0x20 95) ++ [0x0A; 0x08; 0x09; 0x1B])).
  { set (l := map _ _ ++ _). assert (Hs : Forall (λ k,
      (λ s, (0 ≤ s < 256) ∧ (s ∉ modifiers) ∧ (s ∉ beyond_tables) ∧
        (strokes k = [s] ∧ key_chars false false s = [k] ∨ strokes k = [0x2A; s; 0xAA] ∧ key_chars true false s = [k]))
      (match strokes k with [s] => s | [_; s; _] => s | _ => 0 end)) l) by (apply (bool_decide_unpack _); vm_compute; exact I).
    eapply Forall_impl; [exact Hs|]. intros x Hx. eexists. exact Hx. }
  rewrite Forall_forall in Hall. apply Hall. unfold typeable in Hk. apply elem_of_app.
  destruct Hk as [Hk|Hk]; [left|right; set_solver].
  apply list_elem_of_fmap. exists (Z.to_nat k). split; [lia|]. apply elem_of_seq. lia.
Qed.

(** The keyboard at rest: the callback registered, no modifier held. *)
Record at_rest (c : Cpu) : Prop := {
  ar_callback : keyboard_callback c = true;
  ar_shift : shift_pressed c = false;
  ar_ctrl : ctrl_pressed c = false
}.

Lemma strike_key frame c s sh : interrupt_number frame = 33 → 0 ≤ s < 256 → (s ∉ modifiers) → (s ∉ beyond_tables) →
  keyboard_callback c = true → shift_pressed c = sh → ctrl_pressed c = false →
  exists c', isr_handler frame s c = Ok (tt, c') ∧ keyboard_callback c' = true ∧ shift_pressed c' = sh ∧
    ctrl_pressed c' = false ∧ c_keys c' = c_keys c ++ key_chars sh false s.
Proof.
  intros Ef Hs Hm Hb Hc <- Hct. rewrite isr_keyboard by done. rewrite keyboard_handler_ok by done.
  eexists. split; [reflexivity|]. cbn. by rewrite Hc, Hct.
Qed.

Lemma strike_shift frame c s b : interrupt_number frame = 33 → (s = 0x2A ∧ b = true ∨ s = 0xAA ∧ b = false) →
  exists c', isr_handler frame s c = Ok (tt, c') ∧ keyboard_callback c' = keyboard_callback c ∧ shift_pressed c' = b ∧
    ctrl_pressed c' = ctrl_pressed c ∧ c_keys c' = c_keys c.
Proof.
  intros Ef Hs. rewrite isr_keyboard by done. destruct Hs as [[-> ->]|[-> ->]]; eexists; (split; [reflexivity|done]).
Qed.

Lemma strike_strokes frame c k : interrupt_number frame = 33 → typeable k → at_rest c →
  exists c', strike frame (strokes k) c = Ok (tt, c') ∧ at_rest c' ∧ c_keys c' = c_keys c ++ [k].
Proof.
  intros Ef Hk [Hcb Hsh Hct]. destruct (strokes_ok k Hk) as (s & Hs & Hm & Hb & [[-> Ek]|[-> Ek]]); cbn [strike].
  - destruct (strike_key frame c s false) as (c1 & E1 & H1 & H2 & H3 & H4); try done.
    exists c1. rewrite (bind_run _ _ _ _ _ E1). rewrite H4, Ek. done.
  - destruct (strike_shift frame c 0x2A true Ef ltac:(by left)) as (c1 & E1 & H1 & H2 & H3 & H4).
    destruct (strike_key frame c1 s true) as (c2 & E2 & G1 & G2 & G3 & G4); try done; [by rewrite H1|by rewrite H3|].
    destruct (strike_shift frame c2 0xAA false Ef ltac:(by right)) as (c3 & E3 & F1 & F2 & F3 & F4).
    exists c3. rewrite (bind_run _ _ _ _ _ E1), (bind_run _ _ _ _ _ E2), (bind_run _ _ _ _ _ E3).
    split; [done|]. split; [constructor; by rewrite ?F1, ?F3|]. by rewrite F4, G4, H4, Ek.
Qed.

(** ** The tables *)

(** The address an entry sends the processor to. *)
Definition handler_of (e : IDTEntry) : Z :=
  offset_low e + offset_middle e * 2 ^ 16 + offset_high e * 2 ^ 32.

Lemma handler_of_descriptor addr sel flags : 0 ≤ addr < 2 ^ 64 → handler_of (idt_descriptor addr sel flags) = addr.
Proof.
  intros Ha. unfold handler_of. cbn.
  change 0xFFFF with (Z.ones 16). change 0xFFFFFFFF with (Z.ones 32). rewrite !Z.land_ones, !Z.shiftr_div_pow2 by lia.
  rewrite (Z.mod_small (addr / 2 ^ 32)) by (split; [apply Z.div_pos; lia|apply Z.div_lt_upper_bound; lia]).
  replace (2 ^ 32) with (2 ^ 16 * 2 ^ 16) by done. rewrite <- Z.div_div by lia.
  pose proof (Z.div_mod addr (2 ^ 16) ltac:(lia)). pose proof (Z.div_mod (addr / 2 ^ 16) (2 ^ 16) ltac:(lia)). lia.
Qed.

(** The interrupt gate of the kernel for the stub of a vector. *)
Definition gate (isr : Z → Z) (v : nat) : IDTEntry := idt_descriptor (isr (Z.of_nat v)) 0x08 GATE.

Lemma set_handlers_ok n : ∀ v isr c, (forall i, isr i ≠ 0) → length (c_idt c) = 256%nat → (v + n ≤ 256)%nat →
  exists l, set_handlers n (Z.of_nat v) isr c = Ok (tt, set_idt l (c_idtr c) c) ∧ length l = 256%nat ∧
    (forall i, (v ≤ i < v + n)%nat → l !! i = Some (gate isr i)) ∧
    (forall i, ~ (v ≤ i < v + n)%nat → l !! i = c_idt c !! i).
Proof.
  induction n as [|n IH]; intros v isr c Hi Hl Hv; cbn [set_handlers].
  { exists (c_idt c). split; [by destruct c|]. split; [done|]. split; [intros; lia|done]. }
  unfold set_interrupt_handler. rewrite (proj2 (Z.eqb_neq _ 0)) by done. st. rewrite Nat2Z.id.
  replace (Z.of_nat v + 1) with (Z.of_nat (S v)) by lia. set (c1 := set_idt _ _ c).
  destruct (IH (S v) isr c1 Hi) as (l & E & Hl1 & Hin & Hout); [cbn; by rewrite length_insert|lia|].
  exists l. split; [rewrite E; by destruct c|]. split; [done|]. split.
  - intros i Hr. destruct (decide (i = v)) as [->|Hne]; [|apply Hin; lia].
    rewrite Hout by lia. cbn. rewrite list_lookup_insert_eq by lia. done.
  - intros i Hr. rewrite Hout by lia. cbn. by rewrite list_lookup_insert_ne by lia.
Qed.

(** [C36] The keyboard interrupt, whatever the code and the modifiers: an unmapped
    key and the modifiers deliver nothing, any other key the character of the
    layout shift selects, control turning letters into 1 to 26; only the two codes
    the handler admits behind the end of its tables read outside them. *)
Theorem keyboard_handler_spec s c : 0 ≤ s < 256 →
  if decide (s ∈ beyond_tables) then keyboard_handler s c = UB
  else exists c', keyboard_handler s c = Ok (tt, c') ∧
    c_idt c' = c_idt c ∧ c_screen c' = c_screen c ∧ keyboard_callback c' = keyboard_callback c ∧
    shift_pressed c' = (if decide (s ∈ [0x2A; 0x36]) then true else if decide (s ∈ [0xAA; 0xB6]) then false else shift_pressed c) ∧
    ctrl_pressed c' = (if decide (s = 0x1D) then true else if decide (s = 0x9D) then false else ctrl_pressed c) ∧
    c_keys c' = c_keys c ++
      (if decide (s ∈ modifiers) then []
       else if keyboard_callback c then key_chars (shift_pressed c) (ctrl_pressed c) s else []).
Proof.
  intros Hs. destruct (decide (s ∈ beyond_tables)) as [Hb|Hb]; [by apply keyboard_handler_beyond|].
  destruct (decide (s ∈ modifiers)) as [Hm|Hm].
  - destruct (keyboard_handler_modifier s c Hm) as (sh & ct & E & Esh & Ect). rewrite E.
    eexists. split; [reflexivity|]. cbn. by rewrite app_nil_r.
  - rewrite keyboard_handler_ok by done. eexists. split; [reflexivity|].
    unfold modifiers in Hm. rewrite !not_elem_of_cons in Hm. destruct Hm as (H1 & H2 & H3 & H4 & H5 & H6 & _).
    rewrite (decide_False (P := s ∈ [0x2A; 0x36])) by set_solver. rewrite (decide_False (P := s ∈ [0xAA; 0xB6])) by set_solver.
    by rewrite !decide_False.
Qed.

(** [C30] Any text of the characters there are keys for can be typed: the
    interrupts of its strokes hand exactly its characters to the callback, in
    order, and leave the keyboard at rest. *)
Theorem typing_roundtrip frame t c : interrupt_number frame = 33 → Forall typeable t → at_rest c →
  exists c', strike frame (t ≫= strokes) c = Ok (tt, c') ∧ at_rest c' ∧ c_keys c' = c_keys c ++ t.
Proof.
  intros Ef Ht. revert c. induction Ht as [|k t Hk Ht IH]; intros c Hc; cbn [mbind list_bind].
  { exists c. by rewrite app_nil_r. }
  destruct (strike_strokes frame c k Ef Hk Hc) as (c1 & E1 & Hc1 & Ek). destruct (IH c1 Hc1) as (c2 & E2 & Hc2 & Ek2).
  exists c2. rewrite strike_app, (bind_run _ _ _ _ _ E1). split; [exact E2|]. split; [done|]. by rewrite Ek2, Ek, <- app_assoc.
Qed.

(** After [init_idt] the first 48 entries are present interrupt gates of the
    kernel's code segment whose three parts put together are the addresses of
    their stubs; the others are as they were. *)
Theorem init_idt_spec isr idt_addr c :
  (forall v, 0 < isr v < 2 ^ 64) → length (c_idt c) = 256%nat →
  exists c', init_idt isr idt_addr c = Ok (tt, c') ∧ c_idtr c' = idt_addr ∧ length (c_idt c') = 256%nat ∧
    (forall v, (v < 48)%nat → exists e, c_idt c' !! v = Some e ∧ handler_of e = isr (Z.of_nat v) ∧
       selector e = 0x08 ∧ type_attr e = 0x8E) ∧
    (forall v, (48 ≤ v)%nat → c_idt c' !! v = c_idt c !! v).
Proof.
  intros Hi Hl. assert (Hz : ∀ v, isr v ≠ 0) by (intros v; pose proof (Hi v); lia). unfold init_idt.
  destruct (set_handlers_ok 32 0 isr c Hz Hl ltac:(lia)) as (l1 & E1 & Hl1 & Hin1 & Hout1).
  change (Z.of_nat 0) with 0 in E1. rewrite (bind_run _ _ _ _ _ E1). set (c1 := set_idt l1 (c_idtr c) c).
  destruct (set_handlers_ok 16 32 isr c1 Hz Hl1 ltac:(lia)) as (l2 & E2 & Hl2 & Hin2 & Hout2).
  change (Z.of_nat 32) with 32 in E2. rewrite (bind_run _ _ _ _ _ E2). eexists. split; [reflexivity|]. split; [done|].
  split; [done|]. split.
  - intros v Hv. exists (gate isr v). split; [|split; [|done]].
    + cbn. destruct (decide (v < 32)%nat); [|apply Hin2; lia]. rewrite Hout2 by lia. apply Hin1. lia.
    + apply handler_of_descriptor. pose proof (Hi (Z.of_nat v)). lia.
  - intros v Hv. cbn. rewrite Hout2 by lia. apply Hout1. lia.
Qed.

(** ** Witnesses *)

Definition idle_cpu : Cpu :=
  Cp [] 0 0 0 (replicate 256 (Idt 0 0 0 0 0 0 0)) 0 [] boot_terminal false true false false [].
Definition keyboard_frame : InterruptFrame := Frame 33 0 0 0 0 0 0.

Lemma keyboard_handler_spec_witness :
  keyboard_handler 0x3B idle_cpu = UB ∧
  exists c', keyboard_handler 0x1E idle_cpu = Ok (tt, c') ∧ c_keys c' = [0x61].
Proof.
  split; [exact (keyboard_handler_spec 0x3B idle_cpu ltac:(lia))|].
  destruct (keyboard_handler_spec 0x1E idle_cpu ltac:(lia)) as (c' & E & _ & _ & _ & _ & _ & Ek). by exists c'.
Defined.

Lemma typing_roundtrip_witness :
  exists c', strike keyboard_frame [0x2A; 0x17; 0xAA; 0x1F] idle_cpu = Ok (tt, c') ∧ at_rest c' ∧ c_keys c' = [0x49; 0x73].
Proof.
  apply (typing_roundtrip keyboard_frame [0x49; 0x73] idle_cpu); [done| |done].
  repeat constructor; unfold typeable; lia.
Defined.

Lemma init_idt_spec_witness :
  exists c', init_idt (λ v, 0x100000 + 16 * Z.abs v `mod` 256) 0x200000 idle_cpu = Ok (tt, c') ∧
    exists e, c_idt c' !! 33%nat = Some e ∧ handler_of e = 0x100000 + 33 * 16.
Proof.
  destruct (init_idt_spec (λ v, 0x100000 + 16 * Z.abs v `mod` 256) 0x200000 idle_cpu) as (c' & E & _ & _ & H & _).
  - intros v. pose proof (Z.mod_pos_bound (Z.abs v) 256 ltac:(lia)). lia.
  - by vm_compute.
  - exists c'. split; [exact E|]. destruct (H 33%nat ltac:(lia)) as (e & Ee & Eh & _). by exists e.
Defined.
