(* ===== verification/Clock.v ===== *)
(** * The timer and the real-time clock (src/kernel/src/hw/{timer,rtc}.cpp)

    The tick count, which [Kernel.Machine] keeps for the scheduler and the message
    queues, the timer interrupt, the programming of the interval timer, the
    uptime as text in a bounded buffer, and the time of day read from the CMOS
    registers. *)

From Stdlib Require Strings.String.
From Stdlib Require Import (notations) Strings.String.
From S2P Require Import Prelude CStr Terminal Printf Pmm Vmm Kernel Sched Interrupts.

#[local] Abbreviation K := (ST Kernel).

(** ** timer.cpp *)

Definition PIT_FREQUENCY : Z := 1193182.
Definition PIT_COMMAND : Z := 0x43.
Definition PIT_CHANNEL0 : Z := 0x40.

Definition set_ticks (n : Z) (m : Machine) : Machine :=
  Mach (mc_cpu m) (mc_cpu_count m) n (mc_interrupts m) (mc_ipis m) (mc_vmm m).

Definition get_ticks : K Z := gets (λ k, mc_ticks (k_machine k)).

(** The timer interrupt. *)
Definition timer_callback (switch_context : Z → Z → K unit) : K unit :=
  n ← get_ticks;
  modify (with_machine (set_ticks (u64 (n + 1))));;
  tick switch_context.

(** The result is the value of [timer_frequency]. *)
Definition init_timer (timer_handler frequency : Z) : CPU Z :=
  let timer_frequency := if 0 <? frequency then frequency else 100 in
  let divisor := PIT_FREQUENCY / timer_frequency in
  modify (outb PIT_COMMAND 0x36);;
  modify (outb PIT_CHANNEL0 (Z.land divisor 0xFF));;
  modify (outb PIT_CHANNEL0 (Z.land (Z.shiftr divisor 8) 0xFF));;
  set_interrupt_handler 32 timer_handler GATE;;
  mret timer_frequency.

Definition get_uptime_seconds (ticks timer_frequency : Z) : Z :=
  if timer_frequency =? 0 then 0 else ticks / timer_frequency.

(** The characters of [num_str], the last digit first: there is room for 19. *)
Definition num_str (num : Z) : list Z := if num =? 0 then [0x30] else number_digits 19 num 10.

(** [while (... && pos < max_size - 1) buffer[pos++] = ...] *)
Fixpoint put_chars (l : list Z) (buffer : list Z) (pos max_size : Z) : outcome (list Z * Z) :=
  match l with
  | [] => Ok (buffer, pos)
  | c :: l =>
      if pos <? u64 (max_size - 1) then
        buffer ← aset buffer pos c; put_chars l buffer (pos + 1) max_size
      else Ok (buffer, pos)
  end.

Definition append_chars (l : list Z) (max_size : Z) (bp : list Z * Z) : outcome (list Z * Z) :=
  '(buffer, pos) ← put_chars l bp.1 bp.2 max_size;
  buffer ← aset buffer pos 0;
  Ok (buffer, pos).

Definition append_number (num max_size : Z) (bp : list Z * Z) : outcome (list Z * Z) :=
  append_chars (rev (num_str num)) max_size bp.

Definition append_string (s : String.string) (max_size : Z) (bp : list Z * Z) : outcome (list Z * Z) :=
  append_chars (text s) max_size bp.

(** The counters are read once, at the start. *)
Definition format_uptime (ticks timer_frequency : Z) (buffer : list Z) (size : Z) : outcome (list Z) :=
  let seconds := get_uptime_seconds ticks timer_frequency in
  let minutes := seconds / 60 in
  let hours := minutes / 60 in
  let days := hours / 24 in
  let seconds := seconds `mod` 60 in
  let minutes := minutes `mod` 60 in
  let hours := hours `mod` 24 in
  bp ← (if 0 <? days then
          bp ← append_number days size (buffer, 0);
          bp ← append_string " days, " size bp;
          bp ← append_number hours size bp;
          bp ← append_string " hours, " size bp;
          bp ← append_number minutes size bp;
          bp ← append_string " minutes, " size bp;
          bp ← append_number seconds size bp;
          append_string " seconds" size bp
        else if 0 <? hours then
          bp ← append_number hours size (buffer, 0);
          bp ← append_string " hours, " size bp;
          bp ← append_number minutes size bp;
          bp ← append_string " minutes, " size bp;
          bp ← append_number seconds size bp;
          append_string " seconds" size bp
        else if 0 <? minutes then
          bp ← append_number minutes size (buffer, 0);
          bp ← append_string " minutes, " size bp;
          bp ← append_number seconds size bp;
          append_string " seconds" size bp
        else
          bp ← append_number seconds size (buffer, 0);
          append_string " seconds" size bp);
  Ok bp.1.

(** ** rtc.cpp *)

Definition CMOS_ADDRESS : Z := 0x70.
Definition CMOS_DATA : Z := 0x71.
Definition RTC_SECONDS : Z := 0x00.
Definition RTC_MINUTES : Z := 0x02.
Definition RTC_HOURS : Z := 0x04.
Definition RTC_STATUS_B : Z := 0x0B.

Record RTCTime := Rtc { seconds : Z; minutes : Z; hours : Z }.

Definition bcd_to_binary (bcd : Z) : Z := u8 (Z.shiftr bcd 4 * 10 + Z.land bcd 0x0F).

(** The registers as [read_cmos] gives them, and as [init_rtc] leaves them. *)
Definition init_rtc (cmos : Z → Z) : Z → Z := λ reg,
  if reg =? RTC_STATUS_B then Z.lor (Z.lor (cmos RTC_STATUS_B) 0x02) 0x04 else cmos reg.

Definition get_rtc_time (cmos : Z → Z) : RTCTime :=
  let status := cmos RTC_STATUS_B in
  let is_bcd := Z.land status 0x04 =? 0 in
  let read reg := if is_bcd then bcd_to_binary (cmos reg) else cmos reg in
  let h := read RTC_HOURS in
  let h := if (Z.land status 0x02 =? 0) && negb (Z.land h 0x80 =? 0) then (Z.land h 0x7F + 12) `mod` 24 else h in
  Rtc (read RTC_SECONDS) (read RTC_MINUTES) h.

(** ** Bounded text *)

(** The text of the uptime, and that [num_str] is its numbers. *)
Definition number_text (n : Z) : list Z := rev (num_str n).

Definition uptime_text (s : Z) : list Z :=
  let mi := s / 60 in let h := mi / 60 in let d := h / 24 in
  (if 0 <? d then number_text d ++ text " days, " else []) ++
  (if (0 <? d) || (0 <? h `mod` 24) then number_text (h `mod` 24) ++ text " hours, " else []) ++
  (if (0 <? d) || (0 <? h `mod` 24) || (0 <? mi `mod` 60) then number_text (mi `mod` 60) ++ text " minutes, " else []) ++
  number_text (s `mod` 60) ++ text " seconds".

Lemma number_text_numeral n : 0 ≤ n < 10 ^ 19 → numeral 10 n (number_text n).
Proof.
  intros Hn. unfold number_text, num_str. destruct (Z.eqb_spec n 0) as [->|H0].
  { constructor; [done| |done|done]. apply Forall_singleton. by exists 0. }
  destruct (number_digits_ok 10 ltac:(lia) 19 n Hn) as (Hv & Hf & Hl). destruct (Hl ltac:(lia)) as (c & l & E & Hc).
  constructor; [exact Hv|exact Hf| |]; rewrite E; [|done]. cbn. by intros [= ->].
Qed.

(** The buffer with [t] written so far, cut off where it is full. *)
Definition written (buffer : list Z) (size : nat) (t : list Z) (bp : list Z * Z) : Prop :=
  length bp.1 = length buffer ∧ bp.2 = Z.of_nat (Nat.min (length t) (size - 1)) ∧
  take (size - 1) t = take (Z.to_nat bp.2) bp.1 ∧ drop size bp.1 = drop size buffer.

Lemma put_chars_ok l : ∀ buffer size t b p, (1 ≤ size ≤ length buffer)%nat → Z.of_nat size < 2 ^ 64 →
  written buffer size t (b, p) →
  exists bp, put_chars l b p (Z.of_nat size) = Ok bp ∧ written buffer size (t ++ l) bp.
Proof.
  induction l as [|c l IH]; intros buffer size t b p Hs Hb Hw; cbn [put_chars].
  { exists (b, p). by rewrite app_nil_r. }
  destruct Hw as (Hl & Hp & Ht & Hd). cbn [fst snd] in *. rewrite u64_small by lia.
  destruct (Z.ltb_spec p (Z.of_nat size - 1)) as [Hlt|Hge].
  - assert (Hpt : p = Z.of_nat (length t)) by lia. assert (Hlen : (length t < size - 1)%nat) by lia.
    rewrite aset_Ok by lia. rewrite bind_Ok.
    destruct (IH buffer size (t ++ [c]) (<[Z.to_nat p := c]> b) (p + 1) Hs Hb) as (bp & E & Hw').
    + unfold written. cbn [fst snd]. rewrite length_insert, length_app. cbn [length]. split; [done|]. split; [lia|].
      rewrite Hpt, Nat2Z.id in *. rewrite !firstn_all2 in Ht |- * by (rewrite ?length_app; cbn; lia). split.
      * replace (Z.to_nat (Z.of_nat (length t) + 1)) with (S (length t)) by lia.
        erewrite take_S_r by (apply list_lookup_insert_eq; lia). rewrite take_insert_ge by lia. by rewrite <- Ht.
      * rewrite drop_insert_lt by lia. done.
    + exists bp. rewrite <- app_assoc in Hw'. by split.
  - exists (b, p). split; [done|]. unfold written. cbn [fst snd]. rewrite length_app.
    split; [done|]. split; [cbn; lia|]. split; [|done]. rewrite <- Ht, take_app_le by lia. done.
Qed.

Lemma append_chars_ok buffer size t l bp : (1 ≤ size ≤ length buffer)%nat → Z.of_nat size < 2 ^ 64 →
  written buffer size t bp →
  exists bp', append_chars l (Z.of_nat size) bp = Ok bp' ∧ written buffer size (t ++ l) bp' ∧
    bp'.1 !! Z.to_nat bp'.2 = Some 0.
Proof.
  intros Hs Hb Hw. destruct bp as [b p]. destruct (put_chars_ok l buffer size t b p Hs Hb Hw) as ([b' p'] & E & Hl & Hp & Ht & Hd).
  cbn [fst snd] in *. unfold append_chars. cbn [fst snd]. rewrite E, bind_Ok. rewrite aset_Ok by lia. rewrite bind_Ok.
  eexists. split; [reflexivity|]. cbn [fst snd]. split; [|apply list_lookup_insert_eq; lia].
  unfold written. cbn [fst snd]. rewrite length_insert, take_insert_ge, drop_insert_lt by lia. done.
Qed.

(** The pieces one after the other. *)
Fixpoint append_list (pieces : list (list Z)) (size : Z) (bp : list Z * Z) : outcome (list Z * Z) :=
  match pieces with
  | [] => Ok bp
  | l :: pieces => bp ← append_chars l size bp; append_list pieces size bp
  end.

Lemma append_list_ok pieces : ∀ buffer size t bp, (1 ≤ size ≤ length buffer)%nat → Z.of_nat size < 2 ^ 64 →
  written buffer size t bp → bp.1 !! Z.to_nat bp.2 = Some 0 ∨ pieces ≠ [] →
  exists bp', append_list pieces (Z.of_nat size) bp = Ok bp' ∧ written buffer size (t ++ concat pieces) bp' ∧
    bp'.1 !! Z.to_nat bp'.2 = Some 0.
Proof.
  induction pieces as [|l pieces IH]; intros buffer size t bp Hs Hb Hw H0; cbn [append_list concat].
  { exists bp. rewrite app_nil_r. by destruct H0. }
  destruct (append_chars_ok buffer size t l bp Hs Hb Hw) as (bp1 & E & Hw1 & H1). rewrite E, bind_Ok.
  destruct (IH buffer size (t ++ l) bp1 Hs Hb Hw1 ltac:(by left)) as (bp2 & E2 & Hw2 & H2). exists bp2. by rewrite app_assoc.
Qed.

(** The text of the uptime in pieces. *)
Definition uptime_pieces (s : Z) : list (list Z) :=
  let mi := s / 60 in let h := mi / 60 in let d := h / 24 in
  let secs := [number_text (s `mod` 60); text " seconds"] in
  let mins := [number_text (mi `mod` 60); text " minutes, "] ++ secs in
  let hrs := [number_text (h `mod` 24); text " hours, "] ++ mins in
  if 0 <? d then [number_text d; text " days, "] ++ hrs else if 0 <? h `mod` 24 then hrs else if 0 <? mi `mod` 60 then mins else secs.

Lemma uptime_pieces_text s : concat (uptime_pieces s) = uptime_text s.
Proof.
  unfold uptime_pieces, uptime_text. destruct (0 <? s / 60 / 60 / 24); cbn [orb];
    [|destruct (0 <? (s / 60 / 60) `mod` 24); cbn [orb]; [|destruct (0 <? (s / 60) `mod` 60)]];
    cbn [concat app]; rewrite ?app_nil_r, ?app_assoc; done.
Qed.

Lemma format_uptime_pieces ticks f buffer size :
  format_uptime ticks f buffer size = (bp ← append_list (uptime_pieces (get_uptime_seconds ticks f)) size (buffer, 0); Ok bp.1).
Proof.
  unfold format_uptime. set (s := get_uptime_seconds ticks f). unfold uptime_pieces, append_number, append_string, number_text.
  destruct (0 <? s / 60 / 60 / 24); [|destruct (0 <? (s / 60 / 60) `mod` 24); [|destruct (0 <? (s / 60) `mod` 60)]]; cbn [append_list app];
    repeat first [rewrite outcome_bind_assoc | apply outcome_bind_ext; intros ?]; done.
Qed.

Lemma get_uptime_seconds_bound ticks f : 0 ≤ ticks < 2 ^ 64 → 0 ≤ f → 0 ≤ get_uptime_seconds ticks f < 2 ^ 64.
Proof.
  intros Ht Hf. unfold get_uptime_seconds. destruct (Z.eqb_spec f 0); [lia|].
  pose proof (Z.div_le_upper_bound ticks f ticks ltac:(lia) ltac:(nia)). pose proof (Z.div_pos ticks f). lia.
Qed.

(** The uptime in a buffer of which [size] bytes may be written: the text of
    days, hours, minutes and seconds, cut off to fit with its terminating zero,
    its numbers decimal, and no byte from [size] on is touched. *)
Theorem format_uptime_spec ticks f buffer size :
  0 ≤ ticks < 2 ^ 64 → 0 ≤ f < 2 ^ 32 → (1 ≤ size ≤ length buffer)%nat → Z.of_nat size < 2 ^ 64 →
  let s := get_uptime_seconds ticks f in
  exists b, format_uptime ticks f buffer (Z.of_nat size) = Ok b ∧ length b = length buffer ∧
    take (Nat.min (length (uptime_text s)) (size - 1)) b = take (size - 1) (uptime_text s) ∧
    b !! Nat.min (length (uptime_text s)) (size - 1) = Some 0 ∧ drop size b = drop size buffer ∧
    forall n, n ∈ [s / 86400; (s / 3600) `mod` 24; (s / 60) `mod` 60; s `mod` 60] → numeral 10 n (number_text n).
Proof.
  intros Hticks Hf Hz Hb s. rewrite format_uptime_pieces. fold s.
  assert (Hs : 0 ≤ s < 2 ^ 64) by (apply get_uptime_seconds_bound; lia).
  assert (Hw : written buffer size [] (buffer, 0)).
  { unfold written. cbn [fst snd]. split; [done|]. split; [done|]. by rewrite take_nil. }
  destruct (append_list_ok (uptime_pieces s) buffer size [] (buffer, 0) Hz Hb Hw) as ([b p] & E & (Hl & Hp & Ht & Hd) & H0).
  { right. unfold uptime_pieces. by repeat destruct (0 <? _). }
  rewrite E, bind_Ok. exists b. cbn [fst snd app] in *. rewrite uptime_pieces_text in Hp, Ht. rewrite Hp, Nat2Z.id in H0, Ht.
  split; [done|]. split; [done|]. split; [by rewrite Ht|]. split; [done|]. split; [done|].
  intros n Hn. apply number_text_numeral. set_unfold.
  pose proof (Z.div_le_upper_bound s 86400 (2 ^ 64) ltac:(lia) ltac:(lia)).
  pose proof (Z.div_lt_upper_bound s 86400 (10 ^ 19) ltac:(lia) ltac:(lia)). pose proof (Z.div_pos s 86400 ltac:(lia) ltac:(lia)).
  pose proof (Z.mod_pos_bound (s / 3600) 24 ltac:(lia)). pose proof (Z.mod_pos_bound (s / 60) 60 ltac:(lia)).
  pose proof (Z.mod_pos_bound s 60 ltac:(lia)). destruct_or! Hn; subst n; lia.
Qed.

(** Ten days and a second at 100 ticks each, in 16 bytes of a buffer of 20. *)
Lemma format_uptime_spec_witness :
  exists b, format_uptime 86400100 100 (replicate 20 7) 16 = Ok b ∧ take 15 b = text "10 days, 0 hour" ∧ b !! 15%nat = Some 0.
Proof.
  destruct (format_uptime_spec 86400100 100 (replicate 20 7) 16) as (b & E & _ & Ht & H0 & _); [lia|lia|cbn; lia|lia|].
  exists b. split; [exact E|]. split; [exact Ht|exact H0].
Defined.

(** ** The clock *)

(** Binary-coded decimals are read back. *)
Lemma bcd_roundtrip n : 0 ≤ n < 100 → bcd_to_binary (16 * (n / 10) + n `mod` 10) = n.
Proof.
  intros Hn. assert (Hall : Forall (λ n, bcd_to_binary (16 * (n / 10) + n `mod` 10) = n) (map Z.of_nat (seq 0 100)))
    by (apply (bool_decide_unpack _); vm_compute; exact I).
  rewrite Forall_forall in Hall. apply Hall. apply list_elem_of_fmap. exists (Z.to_nat n). split; [lia|].
  apply elem_of_seq. lia.
Qed.

(** The interval timer counts 16 bits: a frequency below 19 hertz is not the one set. *)
Lemma init_timer_divisor f : 0 < f < 19 → 2 ^ 16 ≤ PIT_FREQUENCY / f.
Proof. intros Hf. unfold PIT_FREQUENCY. apply Z.div_le_lower_bound; lia. Qed.

(** One in the afternoon on a clock of twelve hours and decimal digits comes out as
    hour 81: the flag of the afternoon is looked for when the digits have been
    converted.  In binary, noon comes out as midnight. *)
Example rtc_afternoon :
  hours (get_rtc_time (λ r, if r =? RTC_HOURS then 0x81 else 0)) = 81 ∧
  hours (get_rtc_time (λ r, if r =? RTC_HOURS then 0x8C else if r =? RTC_STATUS_B then 0x04 else 0)) = 0.
Proof. split; reflexivity. Qed.
