(* ===== verification/Multiboot.v ===== *)
(** * The boot information (src/kernel/src/core/multiboot2.{hpp,cpp})

    The walk through the tags the boot loader left in memory: the validation of
    the whole list and the search for the memory map, with the messages both
    write on the raw screen.  The memory is a parameter: the 32-bit word at each
    address. *)

From Stdlib Require Strings.String.
From Stdlib Require Import (notations) Strings.String.
From S2P Require Import Prelude CStr Terminal.

(** The static variables and the screen. *)
Record Boot := Bt { b_screen : list Z; early_row : Z; multiboot_info_addr : Z; memory_map : Z }.

Definition set_early (v : list Z) (y : Z) (b : Boot) : Boot := Bt v y (multiboot_info_addr b) (memory_map b).
Definition set_info (a : Z) (b : Boot) : Boot := Bt (b_screen b) (early_row b) a (memory_map b).
Definition set_map (a : Z) (b : Boot) : Boot := Bt (b_screen b) (early_row b) (multiboot_info_addr b) a.

#[local] Abbreviation B := (ST Boot).

(** [for (i = 0; msg[i] && i < 80; i++) vga[y * 80 + i] = 0x0F00 | msg[i]] *)
Fixpoint put_msg (l : list Z) (i y : Z) (v : list Z) : outcome (list Z) :=
  match l with
  | [] => Ok v
  | c :: l => if i <? 80 then v ← aset v (y * 80 + i) (Z.lor 0x0F00 c); put_msg l (i + 1) y v else Ok v
  end.

Definition hex_char (d : Z) : Z := default 0 (text "0123456789ABCDEF" !! Z.to_nat d).

Fixpoint put_hex (n : nat) (i y value : Z) (v : list Z) : outcome (list Z) :=
  match n with
  | O => Ok v
  | S n' =>
      let pos := 70 - i in
      v ← (if 0 <=? pos then aset v (y * 80 + pos) (Z.lor 0x0F00 (hex_char (Z.land (Z.shiftr value (i * 4)) 0xF))) else Ok v);
      put_hex n' (i + 1) y value v
  end.

Definition early_print (msg : String.string) (value : Z) : B unit :=
  y ← gets early_row;
  v ← gets b_screen;
  v ← lift (put_msg (text msg) 0 y v);
  v ← lift (if value =? 0 then Ok v else put_hex 16 0 y value v);
  modify (set_early v (if 25 <=? y + 1 then 0 else y + 1)).

Definition MemoryMap : Z := 6.
Definition sizeof_MultibootMemoryMapTag : Z := 16.

Section memory.
Variable rd32 : Z → Z.

(** The fields of a tag. *)
Definition tag_type (a : Z) : Z := rd32 a.
Definition tag_size (a : Z) : Z := rd32 (a + 4).
Definition entry_size (a : Z) : Z := rd32 (a + 8).

Definition next_tag (a : Z) : Z := Z.land (u64 (a + tag_size a + 7)) (u64 (Z.lnot 7)).

(** The loop over the tags: [None] for the early returns of false, else
    [found_valid_tag].  A tag takes at least eight bytes. *)
Fixpoint validate_tags (fuel : nat) (tag_addr end_ : Z) (found : bool) : B (option bool) :=
  match fuel with
  | O => no_fuel
  | S fuel' =>
      if negb (tag_addr <? end_) then mret (Some found) else
      if 0xFFFFFFFF - 8 <? tag_addr then early_print "FATAL: Tag address out of range:" tag_addr;; mret None else
      early_print "Tag type:" (tag_type tag_addr);;
      if tag_size tag_addr <? 8 then early_print "ERROR: Invalid tag size, stopping" (tag_size tag_addr);; mret None else
      early_print "Tag size:" (tag_size tag_addr);;
      if (tag_type tag_addr =? 0) && (tag_size tag_addr =? 8) then
        early_print "Found end tag - valid structure" 0;; mret (Some true)
      else if u32 (0xFFFFFFFF - tag_size tag_addr - 7) <? tag_addr then
        early_print "FATAL: Tag size overflow" 0;; mret None
      else validate_tags fuel' (next_tag tag_addr) end_ true
  end.

Definition validate_multiboot_info (a : Z) : B bool :=
  if a =? 0 then early_print "FATAL: Multiboot info address is zero" 0;; mret false else
  early_print "Multiboot info addr:" a;;
  if 0xFFFFFFFF - 8 <? a then early_print "FATAL: Multiboot info address out of range" 0;; mret false else
  let total_size := rd32 a in
  if total_size <? 8 then early_print "FATAL: Invalid multiboot info size:" total_size;; mret false else
  early_print "Multiboot info size:" total_size;;
  if negb (Z.land a 0x7 =? 0) then early_print "FATAL: Multiboot info misaligned:" a;; mret false else
  (if 0x10000 <? total_size then early_print "WARNING: Unusually large multiboot size:" total_size else mret tt);;
  r ← validate_tags (S (Z.to_nat (total_size / 8))) (a + 8) (a + total_size) false;
  match r with
  | None => mret false
  | Some false => early_print "FATAL: No valid tags found" 0;; mret false
  | Some true => early_print "Multiboot validation complete" 0;; mret true
  end.

Fixpoint scan_tags (fuel : nat) (tag_addr end_ : Z) : B unit :=
  match fuel with
  | O => no_fuel
  | S fuel' =>
      if negb (tag_addr <? end_) then mret tt else
      if (tag_type tag_addr =? 0) && (tag_size tag_addr =? 8) then mret tt else
      (if tag_type tag_addr =? MemoryMap then
         modify (set_map tag_addr);;
         early_print "Found memory map tag" 0;;
         if 0 <? entry_size tag_addr then
           early_print "Memory map entry size:" (entry_size tag_addr);;
           early_print "Memory map entry count:"
             (u64 (tag_size tag_addr - sizeof_MultibootMemoryMapTag) / entry_size tag_addr)
         else mret tt
       else mret tt);;
      scan_tags fuel' (next_tag tag_addr) end_
  end.

Definition init_multiboot (mb_info_addr : Z) : B unit :=
  early_print "Initializing multiboot" 0;;
  early_print "Info address:" mb_info_addr;;
  modify (set_info mb_info_addr);;
  if mb_info_addr =? 0 then early_print "FATAL: Null multiboot info address" 0 else
  ok ← validate_multiboot_info mb_info_addr;
  if negb ok then early_print "FATAL: Multiboot validation failed" 0 else
  let total_size := rd32 mb_info_addr in
  scan_tags (S (Z.to_nat (total_size / 8))) (mb_info_addr + 8) (mb_info_addr + total_size);;
  early_print "Multiboot init complete" 0.

Definition get_memory_map : B Z := gets memory_map.
End memory.

(** ** Messages *)

Definition screen_ok (b : Boot) : Prop := length (b_screen b) = CELLS ∧ 0 ≤ early_row b < 25.

(** What only prints. *)
Definition prints (m : B unit) : Prop :=
  forall b, screen_ok b → exists b', m b = Ok (tt, b') ∧ screen_ok b' ∧ memory_map b' = memory_map b.

Lemma put_msg_ok l : ∀ i y v, length v = CELLS → 0 ≤ y < 25 → 0 ≤ i →
  exists v', put_msg l i y v = Ok v' ∧ length v' = CELLS.
Proof.
  induction l as [|c l IH]; intros i y v Hv Hy Hi; cbn [put_msg]; [by exists v|].
  destruct (Z.ltb_spec i 80); [|by exists v]. rewrite aset_Ok by (unfold CELLS in *; lia). rewrite bind_Ok.
  apply IH; [by rewrite length_insert|done|lia].
Qed.

Lemma put_hex_ok n : ∀ i y value v, length v = CELLS → 0 ≤ y < 25 → 0 ≤ i →
  exists v', put_hex n i y value v = Ok v' ∧ length v' = CELLS.
Proof.
  induction n as [|n IH]; intros i y value v Hv Hy Hi; cbn [put_hex]; [by exists v|].
  destruct (Z.leb_spec 0 (70 - i)).
  - rewrite aset_Ok by (unfold CELLS in *; lia). rewrite bind_Ok. apply IH; [by rewrite length_insert|done|lia].
  - rewrite bind_Ok. by apply IH; [| |lia].
Qed.

Lemma prints_early m value : prints (early_print m value).
Proof.
  intros b [Hs Hr]. unfold early_print. st. destruct (put_msg_ok (text m) 0 (early_row b) (b_screen b) Hs Hr ltac:(lia)) as (v & E & Hv).
  rewrite (bind_lift _ _ _ _ E).
  assert (Hx : exists v', (if value =? 0 then Ok v else put_hex 16 0 (early_row b) value v) = Ok v' ∧ length v' = CELLS)
    by (destruct (value =? 0); [by exists v|by apply put_hex_ok]).
  destruct Hx as (v' & E' & Hv'). rewrite (bind_lift _ _ _ _ E'). eexists. split; [reflexivity|]. split; [|done].
  split; [done|]. cbn. destruct (Z.leb_spec 25 (early_row b + 1)); lia.
Qed.

Lemma prints_ret : prints (mret tt).
Proof. intros b Hb. by exists b. Qed.

Lemma prints_seq m1 m2 : prints m1 → prints m2 → prints (m1;; m2).
Proof.
  intros H1 H2 b Hb. destruct (H1 b Hb) as (b1 & E1 & Hb1 & M1). destruct (H2 b1 Hb1) as (b2 & E2 & Hb2 & M2).
  exists b2. rewrite (bind_run _ _ _ _ _ E1). by rewrite M2, M1.
Qed.

(** ** The walk *)

Section walk.
Variable rd32 : Z → Z.
Hypothesis rd32_range : forall a, 0 ≤ rd32 a < 2 ^ 32.

Lemma clear_low_bits x : 0 ≤ x < 2 ^ 63 → Z.land x (u64 (Z.lnot 7)) = 8 * (x / 8).
Proof.
  intros Hx. replace (u64 (Z.lnot 7)) with (Z.shiftl (Z.ones 61) 3) by done.
  apply Z.bits_inj_iff'. intros n Hn. rewrite Z.land_spec. replace (8 * (x / 8)) with (Z.shiftl (Z.shiftr x 3) 3)
    by (rewrite Z.shiftl_mul_pow2, Z.shiftr_div_pow2 by lia; change (2 ^ 3) with 8; lia).
  destruct (decide (n < 3)) as [Hlt|Hge].
  - rewrite !(Z.shiftl_spec_low _ 3) by lia. by rewrite andb_false_r.
  - rewrite !(Z.shiftl_spec_high _ 3), Z.shiftr_spec by lia. replace (n - 3 + 3) with n by lia.
    destruct (decide (n < 64)) as [Hl|Hl].
    + rewrite Z.ones_spec_low by lia. apply andb_true_r.
    + rewrite (Z.bits_above_log2 x n); [done|lia|]. destruct (decide (x = 0)) as [->|]; [cbn; lia|]. apply Z.log2_lt_pow2; [lia|].
      eapply Z.lt_le_trans; [apply Hx|]. apply Z.pow_le_mono_r; lia.
Qed.

Lemma next_tag_ok a : 0 ≤ a < 2 ^ 33 → 8 ≤ tag_size rd32 a → a `mod` 8 = 0 →
  a + 8 ≤ next_tag rd32 a ∧ next_tag rd32 a `mod` 8 = 0.
Proof.
  intros Ha Hs Hm. unfold next_tag, tag_size in *. pose proof (rd32_range (a + 4)).
  rewrite u64_small by lia. rewrite clear_low_bits by lia. split; [|by rewrite Z.mul_comm, Z.mod_mul].
  pose proof (Z.div_mod (a + rd32 (a + 4) + 7) 8 ltac:(lia)). pose proof (Z.mod_pos_bound (a + rd32 (a + 4) + 7) 8 ltac:(lia)).
  pose proof (Z.div_mod a 8 ltac:(lia)).
  assert (a / 8 + 1 ≤ (a + rd32 (a + 4) + 7) / 8); [|lia].
  apply Z.div_le_lower_bound; lia.
Qed.

(** Where a memory map may have been found. *)
Definition map_in (end_ a m : Z) : Prop := a ≤ m < end_ ∧ m `mod` 8 = 0 ∧ tag_type rd32 m = MemoryMap.

(** The validation ends, and the search that follows walks the same tags. *)
Lemma walk_ok fuel : ∀ a end_ found b,
  0 ≤ a → a `mod` 8 = 0 → 0 ≤ end_ < 2 ^ 33 → end_ - a + 8 ≤ 8 * Z.of_nat fuel → (0 < fuel)%nat → screen_ok b →
  exists r b', validate_tags rd32 fuel a end_ found b = Ok (r, b') ∧ screen_ok b' ∧ memory_map b' = memory_map b ∧
    (r ≠ None → ∀ b1, screen_ok b1 → exists b2, scan_tags rd32 fuel a end_ b1 = Ok (tt, b2) ∧ screen_ok b2 ∧
       (memory_map b2 = memory_map b1 ∨ map_in end_ a (memory_map b2))).
Proof.
  induction fuel as [|fuel IH]; intros a end_ found b Ha Hm He Hf Hf0 Hb; [lia|]. cbn [validate_tags scan_tags].
  destruct (Z.ltb_spec a end_) as [Hlt|Hge]; cbn [negb].
  2:{ exists (Some found), b. split; [done|]. split; [done|]. split; [done|]. intros _ b1 Hb1. exists b1. by eauto. }
  destruct (Z.ltb_spec (0xFFFFFFFF - 8) a) as [Hbig|Hsmall].
  { destruct (prints_early "FATAL: Tag address out of range:" a b Hb) as (b' & E & Hb' & M). rewrite (bind_run _ _ _ _ _ E). by exists None, b'. }
  destruct (prints_early "Tag type:" (tag_type rd32 a) _ Hb) as (b1 & E1 & Hb1 & M1). rewrite (bind_run _ _ _ _ _ E1). destruct (Z.ltb_spec (tag_size rd32 a) 8) as [Hs|Hs].
  { destruct (prints_early "ERROR: Invalid tag size, stopping" (tag_size rd32 a) _ Hb1) as (b2 & E2 & Hb2 & M2). rewrite (bind_run _ _ _ _ _ E2). exists None, b2. by rewrite M2. }
  destruct (prints_early "Tag size:" (tag_size rd32 a) _ Hb1) as (b2 & E2 & Hb2 & M2). rewrite (bind_run _ _ _ _ _ E2). destruct ((tag_type rd32 a =? 0) && (tag_size rd32 a =? 8)) eqn:Eend.
  { destruct (prints_early "Found end tag - valid structure" 0 _ Hb2) as (b3 & E3 & Hb3 & M3). rewrite (bind_run _ _ _ _ _ E3). exists (Some true), b3. split; [done|]. split; [done|]. split; [by rewrite M3, M2|]. intros _ b4 Hb4. exists b4. by eauto. }
  destruct (_ <? a).
  { destruct (prints_early "FATAL: Tag size overflow" 0 _ Hb2) as (b3 & E3 & Hb3 & M3). rewrite (bind_run _ _ _ _ _ E3). exists None, b3. by rewrite M3, M2. }
  destruct (next_tag_ok a ltac:(lia) Hs Hm) as [Hn Hn8].
  destruct (decide (fuel = 0%nat)) as [->|Hfz]; [lia|].
  destruct (IH (next_tag rd32 a) end_ true b2) as (r & b3 & E3 & Hb3 & M3 & Hscan); [lia|done|done|lia|lia|done|].
  exists r, b3. split; [exact E3|]. split; [done|]. split; [by rewrite M3, M2|]. intros Hr b4 Hb4.
  assert (Hmap : ∀ m, map_in end_ (next_tag rd32 a) m → map_in end_ a m) by (intros m (H1 & H2 & H3); split_and!; [lia|lia|done|done]).
  destruct (Z.eqb_spec (tag_type rd32 a) MemoryMap) as [Et|Et].
  - set (b5 := set_map a b4). assert (Hb5 : screen_ok b5) by exact Hb4.
    assert (Hp : prints (early_print "Found memory map tag" 0;;
      if 0 <? entry_size rd32 a then
        early_print "Memory map entry size:" (entry_size rd32 a);;
        early_print "Memory map entry count:" (u64 (tag_size rd32 a - sizeof_MultibootMemoryMapTag) / entry_size rd32 a)
      else mret tt)).
    { apply prints_seq; [apply prints_early|]. destruct (0 <? _); [apply prints_seq; apply prints_early|apply prints_ret]. }
    destruct (Hp b5 Hb5) as (b6 & E6 & Hb6 & M6).
    destruct (Hscan Hr b6 Hb6) as (b7 & E7 & Hb7 & Hmm). exists b7. split; [|split; [done|]].
    + unfold mbind at 1, st_bind at 1. st. fold b5. rewrite E6. exact E7.
    + right. destruct Hmm as [->|Hmm]; [|by apply Hmap]. rewrite M6. cbn. split_and!; [lia|lia|done|done].
  - destruct (Hscan Hr b4 Hb4) as (b7 & E7 & Hb7 & Hmm). exists b7. split; [|split; [done|]].
    + rewrite bind_ret. exact E7.
    + destruct Hmm as [->|Hmm]; [by left|right; by apply Hmap].
Qed.

Lemma validate_ok a b : 0 ≤ a → screen_ok b →
  exists ok b', validate_multiboot_info rd32 a b = Ok (ok, b') ∧ screen_ok b' ∧ memory_map b' = memory_map b ∧
    (ok = true → ∀ b1, screen_ok b1 → exists b2,
       scan_tags rd32 (S (Z.to_nat (rd32 a / 8))) (a + 8) (a + rd32 a) b1 = Ok (tt, b2) ∧ screen_ok b2 ∧
       (memory_map b2 = memory_map b1 ∨ map_in (a + rd32 a) (a + 8) (memory_map b2))).
Proof.
  intros Ha Hb. unfold validate_multiboot_info.
  assert (Hno : ∀ m v b0, screen_ok b0 → memory_map b0 = memory_map b →
    exists ok b', (early_print m v;; mret false : B bool) b0 = Ok (ok, b') ∧ screen_ok b' ∧ memory_map b' = memory_map b ∧
      (ok = true → ∀ b1, screen_ok b1 → exists b2,
         scan_tags rd32 (S (Z.to_nat (rd32 a / 8))) (a + 8) (a + rd32 a) b1 = Ok (tt, b2) ∧ screen_ok b2 ∧
         (memory_map b2 = memory_map b1 ∨ map_in (a + rd32 a) (a + 8) (memory_map b2)))).
  { intros m v b0 Hb0 M0. destruct (prints_early m v b0 Hb0) as (b' & E & Hb' & M). rewrite (bind_run _ _ _ _ _ E).
    exists false, b'. by rewrite M. }
  destruct (Z.eqb_spec a 0); [by apply Hno|].
  destruct (prints_early "Multiboot info addr:" a b Hb) as (b1 & E1 & Hb1 & M1). rewrite (bind_run _ _ _ _ _ E1).
  destruct (Z.ltb_spec (0xFFFFFFFF - 8) a); [by apply Hno|]. destruct (Z.ltb_spec (rd32 a) 8); [by apply Hno|].
  destruct (prints_early "Multiboot info size:" (rd32 a) b1 Hb1) as (b2 & E2 & Hb2 & M2). rewrite (bind_run _ _ _ _ _ E2).
  rewrite M1 in M2. destruct (Z.eqb_spec (Z.land a 7) 0) as [Hal|Hal]; cbn [negb]; [|by apply Hno].
  change 7 with (Z.ones 3) in Hal. rewrite Z.land_ones in Hal by lia.
  assert (Hw : prints (if 0x10000 <? rd32 a then early_print "WARNING: Unusually large multiboot size:" (rd32 a) else mret tt))
    by (destruct (_ <? _); [apply prints_early|apply prints_ret]).
  destruct (Hw b2 Hb2) as (b3 & E3 & Hb3 & M3). rewrite (bind_run _ _ _ _ _ E3). pose proof (rd32_range a).
  pose proof (Z.div_mod (rd32 a) 8 ltac:(lia)). pose proof (Z.mod_pos_bound (rd32 a) 8 ltac:(lia)).
  pose proof (Z.div_mod a 8 ltac:(lia)) as Hd. change (2 ^ 3) with 8 in Hal.
  destruct (walk_ok (S (Z.to_nat (rd32 a / 8))) (a + 8) (a + rd32 a) false b3) as (r & b4 & E4 & Hb4 & M4 & Hscan);
    [lia|rewrite <- Hal; by rewrite <- (Z.mod_add a 1 8)|lia|lia|lia|done|].
  rewrite (bind_run _ _ _ _ _ E4). rewrite M3, M2 in M4. destruct r as [[]|].
  - destruct (prints_early "Multiboot validation complete" 0 b4 Hb4) as (b5 & E5 & Hb5 & M5). rewrite (bind_run _ _ _ _ _ E5).
    exists true, b5. rewrite M5. split_and!; [done|done|done|]. intros _. by apply Hscan.
  - by apply Hno.
  - exists false, b4. done.
Qed.

(** [C35] Whatever the boot loader left in memory, [init_multiboot] returns and
    writes inside the screen: a list of tags that does not end is cut off at its
    total size, one with a tag too short or an address too large is refused, and
    a memory map is a tag of that type, aligned and inside the information. *)
Theorem init_multiboot_spec a b : 0 ≤ a → screen_ok b →
  exists b', init_multiboot rd32 a b = Ok (tt, b') ∧ screen_ok b' ∧
    (memory_map b' = memory_map b ∨ map_in (a + rd32 a) (a + 8) (memory_map b')).
Proof.
  intros Ha Hb. unfold init_multiboot.
  destruct (prints_early "Initializing multiboot" 0 b Hb) as (b1 & E1 & Hb1 & M1). rewrite (bind_run _ _ _ _ _ E1).
  destruct (prints_early "Info address:" a b1 Hb1) as (b2 & E2 & Hb2 & M2). rewrite (bind_run _ _ _ _ _ E2). st.
  set (b3 := set_info a b2). assert (Hb3 : screen_ok b3) by exact Hb2. assert (M3 : memory_map b3 = memory_map b) by (by rewrite <- M1, <- M2).
  destruct (Z.eqb_spec a 0).
  { destruct (prints_early "FATAL: Null multiboot info address" 0 b3 Hb3) as (b4 & E4 & Hb4 & M4). exists b4.
    split; [exact E4|]. split; [done|]. left. by rewrite M4. }
  destruct (validate_ok a b3 Ha Hb3) as (ok & b4 & E4 & Hb4 & M4 & Hscan). rewrite (bind_run _ _ _ _ _ E4).
  destruct ok; cbn [negb].
  - destruct (Hscan eq_refl b4 Hb4) as (b5 & E5 & Hb5 & Hm). rewrite (bind_run _ _ _ _ _ E5).
    destruct (prints_early "Multiboot init complete" 0 b5 Hb5) as (b6 & E6 & Hb6 & M6). exists b6.
    split; [exact E6|]. split; [done|]. rewrite M6. destruct Hm as [->|Hm]; [left; by rewrite M4|by right].
  - destruct (prints_early "FATAL: Multiboot validation failed" 0 b4 Hb4) as (b5 & E5 & Hb5 & M5). exists b5.
    split; [exact E5|]. split; [done|]. left. by rewrite M5, M4.
Qed.
End walk.

(** A loader's information at 0x9000: a command line, a memory map, the end. *)
Definition loader_word (a : Z) : Z :=
  match list_to_map (M := gmap Z Z)
    [(0x9000, 56); (0x9008, 1); (0x900C, 9); (0x9018, 6); (0x901C, 16); (0x9020, 24); (0x9028, 0); (0x902C, 8)] !! a with
  | Some v => v
  | None => 0
  end.

Lemma init_multiboot_spec_witness :
  exists b', init_multiboot loader_word 0x9000 (Bt (replicate CELLS 0) 0 0 0) = Ok (tt, b') ∧ screen_ok b' ∧
    (memory_map b' = 0 ∨ map_in loader_word (0x9000 + 56) (0x9000 + 8) (memory_map b')).
Proof.
  apply (init_multiboot_spec loader_word); [|lia|by split].
  intros a. unfold loader_word. destruct (_ !! a) as [v|] eqn:E; [|lia].
  apply elem_of_list_to_map_2 in E. set_unfold in E. naive_solver lia.
Defined.

Example loader_map_found :
  match init_multiboot loader_word 0x9000 (Bt (replicate CELLS 0) 0 0 0) with
  | Ok (_, b) => memory_map b = 0x9018
  | _ => False
  end.
Proof. vm_compute. reflexivity. Qed.

(** The overflow check is made in 32 bits, where it wraps around itself for a tag
    of almost the whole range: a list whose only tag is four gigabytes long is
    called valid. *)
Definition huge_tag_word (a : Z) : Z :=
  if a =? 0x9000 then 32 else if a =? 0x9008 then 1 else if a =? 0x900C then 0xFFFFFFFF else 0.

Example huge_tag_accepted :
  match validate_multiboot_info huge_tag_word 0x9000 (Bt (replicate CELLS 0) 0 0 0) with
  | Ok (ok, _) => ok = true
  | _ => False
  end.
Proof. vm_compute. reflexivity. Qed.
