(* ===== verification/Acpi.v ===== *)
(** * The ACPI tables (src/kernel/src/hw/acpi.{hpp,cpp})

    The search for the root pointer, and the mapping, verification and listing of
    the tables the firmware left in memory.  The firmware's bytes are a parameter;
    the code reads them through the page tables of Vmm.v, and an address nothing
    is mapped at is a page fault: undefined. *)

From Stdlib Require Strings.String.
From Stdlib Require Import (notations) Strings.String.
From S2P Require Import Prelude Pmm Vmm CStr Pages Terminal Printf.

(** ** Definitions *)

(** The page tables, the screen and the static variables. *)
Record Acpi := AcpiState {
  a_vmm : VirtualMemoryManager;
  a_screen : Terminal;
  g_rsdp : Z;
  g_rsdt : Z;
  g_xsdt : Z;
  g_madt : Z;
  g_mcfg : Z
}.

Abbreviation ACPI := (ST Acpi).

Definition set_tables (rsdp rsdt xsdt madt mcfg : Z) (s : Acpi) : Acpi :=
  AcpiState (a_vmm s) (a_screen s) rsdp rsdt xsdt madt mcfg.
Definition set_rsdp (a : Z) (s : Acpi) : Acpi := set_tables a (g_rsdt s) (g_xsdt s) (g_madt s) (g_mcfg s) s.
Definition set_rsdt (a : Z) (s : Acpi) : Acpi := set_tables (g_rsdp s) a (g_xsdt s) (g_madt s) (g_mcfg s) s.
Definition set_xsdt (a : Z) (s : Acpi) : Acpi := set_tables (g_rsdp s) (g_rsdt s) a (g_madt s) (g_mcfg s) s.
Definition set_madt (a : Z) (s : Acpi) : Acpi := set_tables (g_rsdp s) (g_rsdt s) (g_xsdt s) a (g_mcfg s) s.
Definition set_mcfg (a : Z) (s : Acpi) : Acpi := set_tables (g_rsdp s) (g_rsdt s) (g_xsdt s) (g_madt s) a s.

(** Work on the page tables, and [printf("...\n", ...)]. *)
Definition on_pages {A} (m : ST VirtualMemoryManager A) : ACPI A := λ s,
  r ← m (a_vmm s); Ok (r.1, AcpiState r.2 (a_screen s) (g_rsdp s) (g_rsdt s) (g_xsdt s) (g_madt s) (g_mcfg s)).
Definition say (msg : String.string) (args : list arg) : ACPI unit := λ s,
  r ← printf (text msg ++ [0x0A]) args (a_screen s);
  Ok (tt, AcpiState (a_vmm s) r.2 (g_rsdp s) (g_rsdt s) (g_xsdt s) (g_madt s) (g_mcfg s)).

(** The boot page tables map the first 16 megabytes to themselves. *)
Definition IDENTITY_END : Z := 0x1000000.
Definition HIGHER_HALF : Z := 0xFFFF800000000000.

Definition sizeof_ACPIRSDP : Z := 40.
Definition sizeof_ACPISDTHeader : Z := 36.

(** Where the flexible arrays [pointers] begin: that of the XSDT is of 64-bit
    words, so the compiler aligns it to eight bytes. *)
Definition offset_rsdt_pointers : Z := 36.
Definition offset_xsdt_pointers : Z := 40.

Section acpi.
Variable firmware : Z → Z.

(** A byte read by the processor at a virtual address, and the words.  The
    page at physical address 0, where no table is, counts as unmapped. *)
Definition rd8 (a : Z) : ACPI Z :=
  if (0 <=? a) && (a <? IDENTITY_END) then mret (u8 (firmware a)) else
  frame ← on_pages (vm_get_physical_address a);
  if frame =? 0 then lift UB else mret (u8 (firmware (frame + a `mod` 4096))).
Definition rd16 (a : Z) : ACPI Z := lo ← rd8 a; hi ← rd8 (u64 (a + 1)); mret (lo + 2 ^ 8 * hi).
Definition rd32 (a : Z) : ACPI Z := lo ← rd16 a; hi ← rd16 (u64 (a + 2)); mret (lo + 2 ^ 16 * hi).
Definition rd64 (a : Z) : ACPI Z := lo ← rd32 a; hi ← rd32 (u64 (a + 4)); mret (lo + 2 ^ 32 * hi).

(** [memcmp((void* )a, sig, n) == 0] *)
Fixpoint same_bytes (a : Z) (sig : list Z) : ACPI bool :=
  match sig with
  | [] => mret true
  | c :: sig => b ← rd8 a; if b =? c then same_bytes (u64 (a + 1)) sig else mret false
  end.

(** [for (i = 0; i < n; i++) sum += ((uint8_t* )a)[i]] *)
Fixpoint sum_bytes (n : nat) (a sum : Z) : ACPI Z :=
  match n with
  | O => mret sum
  | S n' => b ← rd8 a; sum_bytes n' (u64 (a + 1)) (u8 (sum + b))
  end.

(** The fields of the root pointer. *)
Definition rsdp_revision (rsdp : Z) : ACPI Z := rd8 (rsdp + 15).
Definition rsdt_address (rsdp : Z) : ACPI Z := rd32 (rsdp + 16).
Definition xsdt_address (rsdp : Z) : ACPI Z := rd64 (rsdp + 24).

(** One address of the search: the tests of the root pointer at [addr]. *)
Definition is_rsdp (addr : Z) : ACPI bool :=
  ok ← same_bytes addr (text "RSD PTR ");
  if negb ok then mret false else
  sum ← sum_bytes 20 addr 0;
  if negb (sum =? 0) then mret false else
  revision ← rsdp_revision addr;
  if 2 <=? revision then sum ← sum_bytes (Z.to_nat sizeof_ACPIRSDP) addr 0; mret (sum =? 0)
  else mret true.

Fixpoint search_rsdp (fuel : nat) (addr end_ : Z) : ACPI Z :=
  match fuel with
  | O => no_fuel
  | S fuel' =>
      if negb (addr <? end_) then mret 0 else
      found ← is_rsdp addr;
      if found : bool then mret addr else search_rsdp fuel' (addr + 16) end_
  end.

Definition find_rsdp (start end_ : Z) : ACPI Z := search_rsdp (S (Z.to_nat ((end_ - start + 15) / 16))) start end_.

Definition table_length (table : Z) : ACPI Z := rd32 (u64 (table + 4)).

Definition verify_table_checksum (table : Z) : ACPI bool :=
  length ← table_length table;
  sum ← sum_bytes (Z.to_nat length) table 0;
  mret (sum =? 0).

(** [for (offset = 4096; offset < length; offset += 4096)] *)
Fixpoint map_rest (n : nat) (offset virt_addr phys_addr : Z) : ACPI unit :=
  match n with
  | O => mret tt
  | S n' =>
      on_pages (vm_map_page (u64 (virt_addr + offset)) (u64 (phys_addr + offset)) true);;
      map_rest n' (offset + 4096) virt_addr phys_addr
  end.

(** A string as [printf] reads it: from [a] to the first zero. *)
Fixpoint read_string (fuel : nat) (a : Z) : ACPI (list Z) :=
  match fuel with
  | O => no_fuel
  | S fuel' => c ← rd8 a; if c =? 0 then mret [] else s ← read_string fuel' (u64 (a + 1)); mret (c :: s)
  end.

(** The null pointer is 0.  The message prints the signature up to the first zero
    byte behind it, which is in the length for every table below 16 megabytes. *)
Definition map_and_verify_table (phys_addr : Z) : ACPI Z :=
  let virt_addr := u64 (phys_addr + HIGHER_HALF) in
  on_pages (vm_map_page virt_addr phys_addr true);;
  length ← table_length virt_addr;
  map_rest (Z.to_nat ((length + 4095) / 4096 - 1)) 4096 virt_addr phys_addr;;
  ok ← verify_table_checksum virt_addr;
  if negb ok then
    signature ← read_string 4096 virt_addr;
    say "ACPI table checksum failed: %.4s" [AStr (Some signature)];;
    mret 0
  else mret virt_addr.

(** [int entries = (length - sizeof(ACPISDTHeader)) / size] *)
Definition entry_count (length size : Z) : Z := i32 (u64 (length - sizeof_ACPISDTHeader) / size).

(** The tables looked for. *)
Definition note_table (table : Z) : ACPI unit :=
  apic ← same_bytes table (text "APIC");
  if apic : bool then modify (set_madt table) else
  mcfg ← same_bytes table (text "MCFG");
  if mcfg : bool then modify (set_mcfg table) else mret tt.

(** The loop over the entries of a root table; [pointer i] reads entry [i]. *)
Fixpoint note_tables (n : nat) (i : Z) (pointer : Z → ACPI Z) : ACPI unit :=
  match n with
  | O => mret tt
  | S n' =>
      p ← pointer i;
      table ← map_and_verify_table p;
      (if table =? 0 then mret tt else note_table table);;
      note_tables n' (i + 1) pointer
  end.

Definition rsdt_pointer (rsdt i : Z) : ACPI Z := rd32 (u64 (rsdt + offset_rsdt_pointers + 4 * i)).
Definition xsdt_pointer (xsdt i : Z) : ACPI Z := rd64 (u64 (xsdt + offset_xsdt_pointers + 8 * i)).

(** The extended BIOS data area, whose segment is at 0x40E. *)
Definition ebda_address : ACPI Z :=
  ebda_segment ← rd16 0x40E;
  mret (if (0 <? ebda_segment) && (ebda_segment <? 0xA000) then Z.shiftl ebda_segment 4 else 0).

Definition init_acpi : ACPI bool :=
  ebda_addr ← ebda_address;
  modify (set_rsdp 0);;
  (if (0 <? ebda_addr) && (ebda_addr <? 0x100000) then
     r ← find_rsdp ebda_addr (ebda_addr + 1024); modify (set_rsdp r)
   else mret tt);;
  rsdp ← gets g_rsdp;
  (if rsdp =? 0 then r ← find_rsdp 0xE0000 0x100000; modify (set_rsdp r) else mret tt);;
  rsdp ← gets g_rsdp;
  if rsdp =? 0 then say "Failed to find ACPI RSDP" [];; mret false else
  revision ← rsdp_revision rsdp;
  say "ACPI RSDP found at 0x%lx, revision %d" [AInt rsdp; AInt revision];;
  xsdt_addr ← (if 2 <=? revision then xsdt_address rsdp else mret 0);
  ok ← (if negb (xsdt_addr =? 0) then
          xsdt ← map_and_verify_table xsdt_addr;
          modify (set_xsdt xsdt);;
          if xsdt =? 0 then say "Failed to map XSDT" [];; mret false else
          length ← table_length xsdt;
          note_tables (Z.to_nat (entry_count length 8)) 0 (xsdt_pointer xsdt);;
          mret true
        else
          rsdt_addr ← rsdt_address rsdp;
          rsdt ← map_and_verify_table rsdt_addr;
          modify (set_rsdt rsdt);;
          if rsdt =? 0 then say "Failed to map RSDT" [];; mret false else
          length ← table_length rsdt;
          note_tables (Z.to_nat (entry_count length 4)) 0 (rsdt_pointer rsdt);;
          mret true);
  if negb ok then mret false else
  madt ← gets g_madt;
  if madt =? 0 then say "Failed to find MADT (APIC) table" [];; mret false else
  say "ACPI MADT (APIC) table found at 0x%lx" [AInt madt];;
  mret true.

(** The first table with the signature, or 0. *)
Fixpoint search_tables (n : nat) (i : Z) (pointer : Z → ACPI Z) (signature : list Z) : ACPI Z :=
  match n with
  | O => mret 0
  | S n' =>
      p ← pointer i;
      table ← map_and_verify_table p;
      found ← (if table =? 0 then mret false else same_bytes table signature);
      if found : bool then mret table else search_tables n' (i + 1) pointer signature
  end.

Definition find_acpi_table (signature : list Z) : ACPI Z :=
  rsdt ← gets g_rsdt;
  xsdt ← gets g_xsdt;
  if (rsdt =? 0) && (xsdt =? 0) then mret 0 else
  if negb (xsdt =? 0) then
    length ← table_length xsdt;
    search_tables (Z.to_nat (entry_count length 8)) 0 (xsdt_pointer xsdt) signature
  else
    length ← table_length rsdt;
    search_tables (Z.to_nat (entry_count length 4)) 0 (rsdt_pointer rsdt) signature.

Definition get_madt : ACPI Z := gets g_madt.
Definition get_mcfg : ACPI Z := gets g_mcfg.
End acpi.

(** ** The window on physical memory *)

(** The virtual address the kernel uses for a physical one. *)
Definition win (p : Z) : Z := p + HIGHER_HALF.
Definition page_base (p : Z) : Z := p / 4096 * 4096.
Definition in_window (p : Z) : Prop := 0 ≤ p < 2 ^ 46.

(** Every page of the window is mapped to its own physical page or not at all. *)
Record direct (vm : VirtualMemoryManager) (tab : gmap (list Z) Z) : Prop := {
  dr_inv : vmm_inv vm tab;
  dr_huge p : in_window p → no_huge vm tab (win p);
  dr_map p : in_window p → present (leaf vm tab (win p)) = true → address (leaf vm tab (win p)) = page_base p
}.

Definition there (vm : VirtualMemoryManager) (p : Z) : Prop := get_physical_address vm (win p) = Ok (page_base p).
Definition absent (vm : VirtualMemoryManager) (p : Z) : Prop := get_physical_address vm (win p) = Ok 0.

Definition with_vmm (s : Acpi) (vm : VirtualMemoryManager) : Acpi :=
  AcpiState vm (a_screen s) (g_rsdp s) (g_rsdt s) (g_xsdt s) (g_madt s) (g_mcfg s).

Lemma with_vmm_id s : with_vmm s (a_vmm s) = s.
Proof. by destruct s. Qed.

Lemma on_pages_ok {A} (m : ST VirtualMemoryManager A) s a vm :
  m (a_vmm s) = Ok (a, vm) → on_pages m s = Ok (a, with_vmm s vm).
Proof. intros E. unfold on_pages. by rewrite E. Qed.

Definition with_screen (s : Acpi) (t : Terminal) : Acpi :=
  AcpiState (a_vmm s) t (g_rsdp s) (g_rsdt s) (g_xsdt s) (g_madt s) (g_mcfg s).

(** A message on a well-formed screen. *)
Lemma say_ok msg args l n s : vprintf (text msg ++ [0x0A]) args = Ok (l, n) → term_wf (a_screen s) →
  exists t, say msg args s = Ok (tt, with_screen s t) ∧ term_wf t.
Proof.
  intros E Ht. unfold say, printf. rewrite E, bind_lift_Ok.
  destruct l as [|c l].
  - exists (a_screen s). split; [done|done].
  - destruct (print_from (a_screen s) c l Ht) as [Ep Hw]. rewrite (bind_run _ _ _ _ _ Ep). by eexists.
Qed.

Lemma win_page_number p : in_window p → page_number (win p) = 2 ^ 35 + p / 4096.
Proof.
  intros [H0 H1]. unfold page_number, win, HIGHER_HALF.
  replace (p + 0xFFFF800000000000) with (p + 0xFFFF800000000 * 4096) by lia. rewrite Z.div_add by done.
  replace (p / 4096 + 0xFFFF800000000) with (2 ^ 35 + p / 4096 + 65535 * 2 ^ 36) by lia. rewrite Z.mod_add by done.
  pose proof (Z.div_pos p 4096 ltac:(lia) ltac:(lia)).
  pose proof (Z.div_lt_upper_bound p 4096 (2 ^ 34) ltac:(lia) ltac:(lia)). apply Z.mod_small. lia.
Qed.

Lemma win_same_page p q : in_window p → in_window q → same_page (win p) (win q) ↔ p / 4096 = q / 4096.
Proof.
  intros Hp Hq. split.
  - intros E%same_page_number. rewrite !win_page_number in E by done. lia.
  - intros E. apply page_number_same. rewrite !win_page_number by done. lia.
Qed.

Lemma page_base_land p : 0 ≤ p < 2 ^ 48 → Z.land p 0xFFFFFFFFF000 = page_base p.
Proof.
  intros Hp. unfold page_base. rewrite <- land_masks, land_page_mask by lia. apply land_addr_mask.
  - pose proof (Z.div_mod p 4096 ltac:(lia)). pose proof (Z.mod_pos_bound p 4096 ltac:(lia)). lia.
  - by rewrite Z.mod_mul.
Qed.

Section window.
Variable firmware : Z → Z.

(** What the firmware has in memory. *)
Definition fw8 (p : Z) : Z := u8 (firmware p).
Definition fw16 (p : Z) : Z := fw8 p + 2 ^ 8 * fw8 (p + 1).
Definition fw32 (p : Z) : Z := fw16 p + 2 ^ 16 * fw16 (p + 2).
Definition fw64 (p : Z) : Z := fw32 p + 2 ^ 32 * fw32 (p + 4).
Fixpoint fw_bytes (n : nat) (p : Z) : list Z :=
  match n with O => [] | S n' => fw8 p :: fw_bytes n' (p + 1) end.
Definition total (n : nat) (p : Z) : Z := foldr Z.add 0 (fw_bytes n p).

Lemma fw8_range p : 0 ≤ fw8 p < 256.
Proof. exact (u8_range _). Qed.
Lemma fw16_range p : 0 ≤ fw16 p < 2 ^ 16.
Proof. unfold fw16. pose proof (fw8_range p). pose proof (fw8_range (p + 1)). lia. Qed.
Lemma fw32_range p : 0 ≤ fw32 p < 2 ^ 32.
Proof. unfold fw32. pose proof (fw16_range p). pose proof (fw16_range (p + 2)). lia. Qed.

(** Memory that reads as the firmware's, at [f q] for the physical address [q]:
    low memory, where [f] is the identity, and the pages of the window. *)
Definition reads (f : Z → Z) (s : Acpi) (q : Z) : Prop := rd8 firmware (f q) s = Ok (fw8 q, s).
Definition run (f : Z → Z) (s : Acpi) (p n : Z) : Prop :=
  forall q, p ≤ q < p + n → reads f s q ∧ forall i, 0 ≤ i → q + i ≤ p + n → u64 (f q + i) = f (q + i).

Lemma reads_low s q : 0 ≤ q < IDENTITY_END → reads (λ q, q) s q.
Proof.
  intros Hq. unfold reads, rd8. rewrite (proj2 (Z.leb_le 0 q)), (proj2 (Z.ltb_lt q IDENTITY_END)) by lia. done.
Qed.

Lemma win_range p : in_window p → HIGHER_HALF ≤ win p < 2 ^ 64.
Proof. unfold in_window, win, HIGHER_HALF. lia. Qed.

Lemma win_mod p : win p `mod` 4096 = p `mod` 4096.
Proof. unfold win, HIGHER_HALF. replace (p + 0xFFFF800000000000) with (p + 0xFFFF800000000 * 4096) by lia. by rewrite Z.mod_add. Qed.

Lemma rd8_win_lookup s q a :
  in_window q → get_physical_address (a_vmm s) (win q) = Ok a →
  rd8 firmware (win q) s = if a =? 0 then UB else Ok (fw8 (a + q `mod` 4096), s).
Proof.
  intros Hq E. pose proof (win_range q Hq) as Hw. unfold rd8, IDENTITY_END, HIGHER_HALF in *.
  rewrite (proj2 (Z.ltb_ge (win q) _)) by lia. rewrite andb_false_r.
  assert (Ev : on_pages (vm_get_physical_address (win q)) s = Ok (a, s)).
  { rewrite (on_pages_ok _ s a (a_vmm s)); [by rewrite with_vmm_id|]. unfold vm_get_physical_address. by rewrite E. }
  rewrite (bind_run _ _ _ _ _ Ev). destruct (a =? 0); [done|]. by rewrite win_mod.
Qed.

Lemma reads_win s q : in_window q → 4096 ≤ q → there (a_vmm s) q → reads win s q.
Proof.
  intros Hq H0 Ht. unfold reads. rewrite (rd8_win_lookup s q _ Hq Ht). unfold page_base.
  pose proof (Z.div_mod q 4096 ltac:(lia)) as Hd.
  pose proof (Z.div_le_lower_bound q 4096 1 ltac:(lia) ltac:(lia)).
  rewrite (proj2 (Z.eqb_neq _ 0)) by lia. by replace (q / 4096 * 4096 + q `mod` 4096) with q by lia.
Qed.

Lemma faults_win s q : in_window q → absent (a_vmm s) q → rd8 firmware (win q) s = UB.
Proof. intros Hq Ha. by rewrite (rd8_win_lookup s q _ Hq Ha). Qed.

Lemma run_low s p n : 0 ≤ p → p + n ≤ IDENTITY_END → run (λ q, q) s p n.
Proof.
  intros H0 H q Hq. unfold IDENTITY_END in *. split; [apply reads_low; unfold IDENTITY_END; lia|].
  intros i Hi Hn. apply u64_small. lia.
Qed.

Lemma run_win s p n : 4096 ≤ p → p + n < 2 ^ 46 → (∀ q, p ≤ q < p + n → there (a_vmm s) q) → run win s p n.
Proof.
  intros H0 H Ht q Hq. split; [apply reads_win; [unfold in_window; lia|lia|by apply Ht]|].
  intros i Hi Hn. unfold win, HIGHER_HALF in *. rewrite u64_small by lia. lia.
Qed.

Lemma run_sub f s p n q m : run f s p n → p ≤ q → q + m ≤ p + n → run f s q m.
Proof.
  intros H Hq Hm x Hx. destruct (H x ltac:(lia)) as [Hr Hs]. split; [done|]. intros i Hi Hn. apply Hs; lia.
Qed.

Lemma run_next f s p n : run f s p n → 0 < n → u64 (f p + 1) = f (p + 1).
Proof. intros H Hn. apply (H p ltac:(lia)); lia. Qed.

Lemma run_read f s p n : run f s p n → 0 < n → rd8 firmware (f p) s = Ok (fw8 p, s).
Proof. intros H Hn. apply (H p ltac:(lia)). Qed.

Lemma rd16_ok f s p : run f s p 2 → rd16 firmware (f p) s = Ok (fw16 p, s).
Proof.
  intros H. unfold rd16. rewrite (bind_run _ _ _ _ _ (run_read f s p 2 H ltac:(lia))), (run_next f s p 2 H) by lia.
  assert (H1 : run f s (p + 1) 1) by (apply (run_sub f s p 2); [done|lia..]).
  by rewrite (bind_run _ _ _ _ _ (run_read f s (p + 1) 1 H1 ltac:(lia))).
Qed.

Lemma rd32_ok f s p : run f s p 4 → rd32 firmware (f p) s = Ok (fw32 p, s).
Proof.
  intros H. unfold rd32.
  assert (H1 : run f s p 2) by (apply (run_sub f s p 4); [done|lia..]).
  assert (H2 : run f s (p + 2) 2) by (apply (run_sub f s p 4); [done|lia..]).
  rewrite (bind_run _ _ _ _ _ (rd16_ok f s p H1)), (proj2 (H p ltac:(lia)) 2) by lia.
  by rewrite (bind_run _ _ _ _ _ (rd16_ok f s (p + 2) H2)).
Qed.

Lemma rd64_ok f s p : run f s p 8 → rd64 firmware (f p) s = Ok (fw64 p, s).
Proof.
  intros H. unfold rd64.
  assert (H1 : run f s p 4) by (apply (run_sub f s p 8); [done|lia..]).
  assert (H2 : run f s (p + 4) 4) by (apply (run_sub f s p 8); [done|lia..]).
  rewrite (bind_run _ _ _ _ _ (rd32_ok f s p H1)), (proj2 (H p ltac:(lia)) 4) by lia.
  by rewrite (bind_run _ _ _ _ _ (rd32_ok f s (p + 4) H2)).
Qed.

Lemma same_bytes_ok f s sig : ∀ p, run f s p (Z.of_nat (length sig)) →
  same_bytes firmware (f p) sig s = Ok (bool_decide (fw_bytes (length sig) p = sig), s).
Proof.
  induction sig as [|c sig IH]; intros p H; [done|]. cbn [length same_bytes fw_bytes] in *.
  rewrite (bind_run _ _ _ _ _ (run_read f s p _ H ltac:(lia))).
  destruct (Z.eqb_spec (fw8 p) c) as [E|E]; [|by rewrite bool_decide_eq_false_2 by naive_solver].
  rewrite (run_next f s p _ H), IH by (lia || apply (run_sub f s p _ _ _ H); lia).
  f_equal. f_equal. apply bool_decide_ext. split; [by intros ->; rewrite E|by intros [= _ ?]].
Qed.

Lemma total_S n p : total (S n) p = fw8 p + total n (p + 1).
Proof. done. Qed.

Lemma total_add n m p : total (n + m) p = total n p + total m (p + Z.of_nat n).
Proof.
  revert p. induction n as [|n IH]; intros p; [by rewrite Z.add_0_r|].
  cbn [Nat.add]. rewrite !total_S, IH. replace (p + Z.of_nat (S n)) with (p + 1 + Z.of_nat n) by lia. lia.
Qed.

Lemma sum_bytes_ok f s n : ∀ p sum, run f s p (Z.of_nat n) → 0 ≤ sum < 256 →
  sum_bytes firmware n (f p) sum s = Ok (u8 (sum + total n p), s).
Proof.
  induction n as [|n IH]; intros p sum H Hs; cbn [sum_bytes].
  { change (total 0 p) with 0. by rewrite Z.add_0_r, u8_small. }
  rewrite (bind_run _ _ _ _ _ (run_read f s p _ H ltac:(lia))), (run_next f s p _ H) by lia.
  rewrite IH by (apply (run_sub f s p _ _ _ H); lia) || apply u8_range. rewrite total_S. f_equal. f_equal.
  unfold u8. rewrite Zplus_mod_idemp_l. f_equal. lia.
Qed.

(** The first byte that faults. *)
Lemma sum_bytes_UB s n : ∀ p sum m, (m < n)%nat → run win s p (Z.of_nat m) → in_window (p + Z.of_nat m) →
  absent (a_vmm s) (p + Z.of_nat m) → sum_bytes firmware n (win p) sum s = UB.
Proof.
  induction n as [|n IH]; intros p sum m Hm H Hw Ha; [lia|]. cbn [sum_bytes]. destruct m as [|m].
  - rewrite Z.add_0_r in *. apply bind_UB. by apply faults_win.
  - rewrite (bind_run _ _ _ _ _ (run_read win s p _ H ltac:(lia))), (run_next win s p _ H) by lia.
    apply (IH (p + 1) _ m); [lia|apply (run_sub win s p _ _ _ H); lia|..];
      by replace (p + 1 + Z.of_nat m) with (p + Z.of_nat (S m)) by lia.
Qed.

(** ** The root pointer *)

Definition valid_rsdp (a : Z) : bool :=
  bool_decide (fw_bytes 8 a = text "RSD PTR ") && (u8 (total 20 a) =? 0) &&
  ((fw8 (a + 15) <? 2) || (u8 (total 40 a) =? 0)).

Lemma is_rsdp_ok a s : 0 ≤ a → a + 40 ≤ IDENTITY_END → is_rsdp firmware a s = Ok (valid_rsdp a, s).
Proof.
  intros H0 H. pose proof (run_low s a 40 H0 H) as Hr. unfold is_rsdp, valid_rsdp, rsdp_revision.
  rewrite (bind_run _ _ _ _ _ (same_bytes_ok (λ q, q) s (text "RSD PTR ") a ltac:(apply (run_sub _ _ _ _ _ _ Hr); cbn; lia))).
  change (length (text "RSD PTR ")) with 8%nat. destruct (bool_decide (fw_bytes 8 a = _)); [|done]. cbn [negb andb].
  rewrite (bind_run _ _ _ _ _ (sum_bytes_ok (λ q, q) s 20 a 0 ltac:(apply (run_sub _ _ _ _ _ _ Hr); lia) ltac:(lia))), Z.add_0_l.
  destruct (u8 (total 20 a) =? 0); [|done]. cbn [negb andb].
  assert (H15 : run (λ q, q) s (a + 15) 1) by (apply (run_sub _ _ _ _ _ _ Hr); lia).
  rewrite (bind_run _ _ _ _ _ (run_read (λ q, q) s (a + 15) 1 H15 ltac:(lia))).
  destruct (Z.leb_spec 2 (fw8 (a + 15))); [|by rewrite (proj2 (Z.ltb_lt (fw8 (a + 15)) 2)) by lia].
  rewrite (proj2 (Z.ltb_ge (fw8 (a + 15)) 2)) by lia.
  change (Z.to_nat sizeof_ACPIRSDP) with 40%nat.
  by rewrite (bind_run _ _ _ _ _ (sum_bytes_ok (λ q, q) s 40 a 0 ltac:(apply (run_sub _ _ _ _ _ _ Hr); lia) ltac:(lia))), Z.add_0_l.
Qed.

Lemma search_rsdp_ok end_ s fuel : ∀ a, 0 < a → end_ + 64 ≤ IDENTITY_END → end_ ≤ a + 16 * Z.of_nat fuel →
  exists r, search_rsdp firmware (S fuel) a end_ s = Ok (r, s) ∧
    (r = 0 ∧ (forall i, 0 ≤ i → a + 16 * i < end_ → valid_rsdp (a + 16 * i) = false) ∨
     exists k, 0 ≤ k ∧ r = a + 16 * k ∧ r < end_ ∧ valid_rsdp r = true ∧
       forall i, 0 ≤ i < k → valid_rsdp (a + 16 * i) = false).
Proof.
  induction fuel as [|fuel IH]; intros a H0 He Hf; cbn [search_rsdp].
  { rewrite (proj2 (Z.ltb_ge a end_)) by lia. exists 0. split; [done|]. left. split; [done|]. intros. lia. }
  destruct (Z.ltb_spec a end_) as [Ha|Ha]; cbn [negb]; cycle 1.
  { exists 0. split; [done|]. left. split; [done|]. intros. lia. }
  assert (Ea : is_rsdp firmware a s = Ok (valid_rsdp a, s)) by (apply is_rsdp_ok; lia).
  rewrite (bind_run _ _ _ _ _ Ea). destruct (valid_rsdp a) eqn:Ev.
  { exists a. split; [done|]. right. exists 0. replace (a + 16 * 0) with a by lia.
    split; [lia|]. split; [done|]. split; [done|]. split; [done|]. intros. lia. }
  destruct (IH (a + 16) ltac:(lia) He ltac:(lia)) as (r & Er & Hr). exists r. split; [exact Er|].
  assert (Hsh : ∀ i, a + 16 + 16 * i = a + 16 * (i + 1)) by (intros; lia).
  destruct Hr as [[Hr0 Hn]|(k & Hk & Ek & Hlt & Hv & Hn)].
  - left. split; [done|]. intros i Hi Hb. destruct (decide (i = 0)) as [->|]; [by rewrite Z.add_0_r|].
    pose proof (Hn (i - 1) ltac:(lia)) as Hi'. rewrite Hsh in Hi'. replace (i - 1 + 1) with i in Hi' by lia. by apply Hi'.
  - right. exists (k + 1). rewrite <- Hsh. split; [lia|]. split; [done|]. split; [done|]. split; [done|].
    intros i Hi. destruct (decide (i = 0)) as [->|]; [by rewrite Z.add_0_r|].
    pose proof (Hn (i - 1) ltac:(lia)) as Hi'. rewrite Hsh in Hi'. by replace (i - 1 + 1) with i in Hi' by lia.
Qed.

(** The search for the root pointer returns, and gives the first of the
    addresses 16 apart whose signature and checksums are right, or null when none
    is; it changes nothing. *)
Theorem find_rsdp_spec start end_ s : 0 < start ≤ end_ → end_ + 64 ≤ IDENTITY_END →
  exists r, find_rsdp firmware start end_ s = Ok (r, s) ∧
    (r = 0 ∧ (forall i, 0 ≤ i → start + 16 * i < end_ → valid_rsdp (start + 16 * i) = false) ∨
     exists k, 0 ≤ k ∧ r = start + 16 * k ∧ r < end_ ∧ valid_rsdp r = true ∧
       forall i, 0 ≤ i < k → valid_rsdp (start + 16 * i) = false).
Proof.
  intros Hs He. apply search_rsdp_ok; [lia|done|].
  pose proof (Z.div_mod (end_ - start + 15) 16 ltac:(lia)). pose proof (Z.mod_pos_bound (end_ - start + 15) 16 ltac:(lia)). lia.
Qed.

(** The extended checksum is over the 36 bytes of the structure the firmware
    writes; the code adds the four bytes of padding behind it, and rejects the
    pointer when they do not happen to add up to zero. *)
Lemma rsdp_padding a : fw_bytes 8 a = text "RSD PTR " → u8 (total 20 a) = 0 → 2 ≤ fw8 (a + 15) →
  u8 (total 36 a) = 0 → valid_rsdp a = (u8 (total 4 (a + 36)) =? 0).
Proof.
  intros Hb H20 Hr H36. unfold valid_rsdp. rewrite bool_decide_eq_true_2, H20 by done.
  rewrite (proj2 (Z.ltb_ge (fw8 (a + 15)) 2)) by lia. cbn [andb orb].
  assert (E : total 40 a = total 36 a + total 4 (a + 36)).
  { exact (total_add 36 4 a). }
  rewrite E. unfold u8 in *. rewrite Zplus_mod, H36, Z.add_0_l, Zmod_mod. reflexivity.
Qed.

(** ** Mapping a table *)

Lemma direct_lookup vm tab p : direct vm tab → in_window p →
  get_physical_address vm (win p) = Ok (if present (leaf vm tab (win p)) then page_base p else 0).
Proof.
  intros D Hp. rewrite (get_physical_address_translate vm tab _ (dr_inv _ _ D) (dr_huge _ _ D p Hp)).
  unfold translate. destruct (present _) eqn:E; [by rewrite (dr_map _ _ D)|done].
Qed.

Lemma direct_there vm tab p : direct vm tab → in_window p → present (leaf vm tab (win p)) = true → there vm p.
Proof. intros D Hp E. unfold there. by rewrite (direct_lookup vm tab p D Hp), E. Qed.

Lemma same_page_leaf vm tab a b : same_page a b → leaf vm tab b = leaf vm tab a.
Proof. intros [E1 E2]. unfold leaf. by rewrite E1, E2. Qed.

(** What a step over the page tables of the window keeps. *)
Record widens vm tab vm' tab' : Prop := {
  wd_direct : direct vm' tab';
  wd_there p : in_window p → present (leaf vm tab (win p)) = true → present (leaf vm' tab' (win p)) = true;
  wd_layout : same_layout (v_pmm vm) (v_pmm vm')
}.

Lemma map_direct vm tab p : direct vm tab → in_window p → 3 ≤ m_free_frames (v_pmm vm) →
  exists vm' tab', vm_map_page (win p) p true vm = Ok (tt, vm') ∧ widens vm tab vm' tab' ∧
    present (leaf vm' tab' (win p)) = true ∧ m_free_frames (v_pmm vm) - 3 ≤ m_free_frames (v_pmm vm') ∧
    forall q, in_window q → q / 4096 ≠ p / 4096 → leaf vm' tab' (win q) = leaf vm tab (win q).
Proof.
  intros D Hp Hf. pose proof (dr_inv _ _ D) as Hi. pose proof (dr_huge _ _ D p Hp) as Hn.
  destruct (map_page_ok vm tab (win p) p true Hi Hn Hf) as (vm' & tab' & E & R & L & F).
  assert (Ho : ∀ q, in_window q → q / 4096 ≠ p / 4096 → leaf vm' tab' (win q) = leaf vm tab (win q)).
  { intros q Hq Hne. apply (retains_translate_eq _ _ _ _ (win p)); [done|]. rewrite win_same_page by done. congruence. }
  assert (Hsame : ∀ q, in_window q → q / 4096 = p / 4096 → leaf vm' tab' (win q) = leaf vm' tab' (win p)).
  { intros q Hq He. apply same_page_leaf. apply win_same_page; [done|done|congruence]. }
  assert (Hpr : present (leaf vm' tab' (win p)) = true).
  { rewrite L. destruct (present (leaf vm tab (win p))) eqn:Ep; [done|by rewrite leaf_entry_present]. }
  exists vm', tab'. split; [unfold vm_map_page; by rewrite E|]. split_and!; [|done|done|done].
  split; [split| |exact (gr_layout _ _ _ _ (rt_grown _ _ _ _ _ _ R))].
  - apply R.
  - intros q Hq. eapply retains_no_huge; [exact R|]. by apply (dr_huge _ _ D).
  - intros q Hq Eq. destruct (decide (q / 4096 = p / 4096)) as [He|Hne]; cycle 1.
    { rewrite Ho in * by done. by apply (dr_map _ _ D). }
    rewrite Hsame by done. unfold page_base. rewrite He, L.
    destruct (present (leaf vm tab (win p))) eqn:Ep; [by apply (dr_map _ _ D)|].
    rewrite leaf_entry_address, land_masks. apply page_base_land. unfold in_window in Hp. lia.
  - intros q Hq Eq. destruct (decide (q / 4096 = p / 4096)) as [He|Hne]; [by rewrite Hsame|by rewrite Ho].
Qed.

Lemma widens_refl vm tab : direct vm tab → widens vm tab vm tab.
Proof. by split. Qed.

Lemma widens_trans vm tab vm1 tab1 vm2 tab2 : widens vm tab vm1 tab1 → widens vm1 tab1 vm2 tab2 → widens vm tab vm2 tab2.
Proof.
  intros [_ H1 [L1 L1']] [D H2 [L2 L2']]. split; [done| |split; congruence]. intros p Hp E. by apply H2, H1.
Qed.

(** The pages of [p] from the one at [p + offset]: exactly they become present. *)
Lemma map_rest_ok p n : ∀ offset s tab, direct (a_vmm s) tab → 0 ≤ p → 0 ≤ offset →
  p + offset + 4096 * Z.of_nat n ≤ 2 ^ 46 → 3 * Z.of_nat n ≤ m_free_frames (v_pmm (a_vmm s)) →
  exists vm' tab', map_rest n offset (win p) p s = Ok (tt, with_vmm s vm') ∧ widens (a_vmm s) tab vm' tab' ∧
    (forall j, 0 ≤ j < Z.of_nat n → present (leaf vm' tab' (win (p + offset + 4096 * j))) = true) ∧
    (m_free_frames (v_pmm (a_vmm s)) - 3 * Z.of_nat n ≤ m_free_frames (v_pmm vm')) ∧
    forall q, in_window q → (forall j, 0 ≤ j < Z.of_nat n → q / 4096 ≠ (p + offset) / 4096 + j) →
      leaf vm' tab' (win q) = leaf (a_vmm s) tab (win q).
Proof.
  induction n as [|n IH]; intros offset s tab D H0 Ho Hb Hf; cbn [map_rest].
  { exists (a_vmm s), tab. rewrite with_vmm_id. split; [done|]. split; [by apply widens_refl|]. split; [intros; lia|]. split; [lia|done]. }
  assert (Hw : in_window (p + offset)) by (unfold in_window; lia).
  destruct (map_direct (a_vmm s) tab (p + offset) D Hw ltac:(lia)) as (vm1 & tab1 & E1 & W1 & P1 & F1 & O1).
  replace (u64 (win p + offset)) with (win (p + offset)) by (unfold win, HIGHER_HALF; rewrite u64_small; lia).
  rewrite (u64_small (p + offset)) by lia.
  rewrite (bind_run _ _ _ _ _ (on_pages_ok _ s tt vm1 E1)).
  destruct (IH (offset + 4096) (with_vmm s vm1) tab1 (wd_direct _ _ _ _ W1) H0 ltac:(lia) ltac:(lia) ltac:(cbn; lia))
    as (vm2 & tab2 & E2 & W2 & P2 & F2 & O2). cbn in W2, F2, O2.
  exists vm2, tab2. split; [exact E2|]. split; [by eapply widens_trans|]. split_and!; [|lia|].
  - intros j Hj. destruct (decide (j = 0)) as [->|].
    + replace (p + offset + 4096 * 0) with (p + offset) by lia. by apply (wd_there _ _ _ _ W2).
    + replace (p + offset + 4096 * j) with (p + (offset + 4096) + 4096 * (j - 1)) by lia. apply P2. lia.
  - intros q Hq Hj. rewrite O2; [|done|].
    + apply O1; [done|]. pose proof (Hj 0 ltac:(lia)). lia.
    + intros j Hj'. replace (p + (offset + 4096)) with (p + offset + 1 * 4096) by lia. rewrite Z.div_add by done.
      pose proof (Hj (j + 1) ltac:(lia)). lia.
Qed.

Lemma present_there vm tab p q : direct vm tab → in_window p → in_window q → q / 4096 = p / 4096 →
  present (leaf vm tab (win p)) = true → there vm q.
Proof.
  intros D Hp Hq E Ep. apply (direct_there vm tab); [done|done|].
  rewrite (same_page_leaf vm tab (win p) (win q)); [done|]. apply win_same_page; done || congruence.
Qed.

(** The pages the code maps for a table of a length. *)
Definition pages_mapped (length : Z) : Z := Z.max 1 ((length + 4095) / 4096).

Lemma table_length_ok p s : 4096 ≤ p → p + 8 < 2 ^ 46 → (∀ q, p ≤ q < p + 8 → there (a_vmm s) q) →
  table_length firmware (win p) s = Ok (fw32 (p + 4), s).
Proof.
  intros H0 H Ht. unfold table_length.
  replace (u64 (win p + 4)) with (win (p + 4)) by (unfold win, HIGHER_HALF; rewrite u64_small; lia).
  apply rd32_ok, run_win; [lia|lia|]. intros q Hq. apply Ht. lia.
Qed.

(** The mapping part: all pages of the table, and only they. *)
Lemma map_table_ok p s tab (L := fw32 (p + 4)) :
  direct (a_vmm s) tab → 4096 ≤ p → p + L + 8192 ≤ 2 ^ 46 → p `mod` 4096 ≤ 4088 →
  3 * pages_mapped L ≤ m_free_frames (v_pmm (a_vmm s)) →
  exists vm' tab', widens (a_vmm s) tab vm' tab' ∧
    (forall q, in_window q → p / 4096 ≤ q / 4096 < p / 4096 + pages_mapped L → there vm' q) ∧
    (forall q, in_window q → p / 4096 + pages_mapped L ≤ q / 4096 → absent (a_vmm s) q → absent vm' q) ∧
    m_free_frames (v_pmm (a_vmm s)) - 3 * pages_mapped L ≤ m_free_frames (v_pmm vm') ∧
    map_and_verify_table firmware p s =
      (ok ← verify_table_checksum firmware (win p);
       if negb ok then
         signature ← read_string firmware 4096 (win p);
         say "ACPI table checksum failed: %.4s" [AStr (Some signature)];;
         mret 0
       else mret (win p)) (with_vmm s vm').
Proof.
  intros D H0 Hb Hm Hf. pose proof (fw32_range (p + 4)) as HL. fold L in HL. unfold pages_mapped in *.
  pose proof (Z.div_mod p 4096 ltac:(lia)) as Hdiv. pose proof (Z.mod_pos_bound p 4096 ltac:(lia)).
  pose proof (Z.div_mod (L + 4095) 4096 ltac:(lia)) as HdL. pose proof (Z.mod_pos_bound (L + 4095) 4096 ltac:(lia)).
  assert (Hw : in_window p) by (unfold in_window; lia).
  destruct (map_direct (a_vmm s) tab p D Hw ltac:(lia)) as (vm1 & tab1 & E1 & W1 & P1 & F1 & O1).
  set (n := Z.to_nat ((L + 4095) / 4096 - 1)).
  destruct (map_rest_ok p n 4096 (with_vmm s vm1) tab1 (wd_direct _ _ _ _ W1) ltac:(lia) ltac:(lia) ltac:(unfold n; lia)
    ltac:(cbn; unfold n; lia)) as (vm2 & tab2 & E2 & W2 & P2 & F2 & O2). cbn in W2, F2, O2.
  assert (D2 : direct vm2 tab2) by apply W2.
  assert (Hthere : ∀ q, in_window q → p / 4096 ≤ q / 4096 < p / 4096 + Z.max 1 ((L + 4095) / 4096) → there vm2 q).
  { intros q Hq Hr. destruct (decide (q / 4096 = p / 4096)) as [E|E].
    - apply (present_there vm2 tab2 p); [done..|]. by apply (wd_there _ _ _ _ W2).
    - set (j := q / 4096 - p / 4096 - 1).
      apply (present_there vm2 tab2 (p + 4096 + 4096 * j)); [done| |done| |].
      + unfold in_window. lia.
      + replace (p + 4096 + 4096 * j) with (p + (1 + j) * 4096) by lia. rewrite Z.div_add by done. lia.
      + apply P2. unfold n, j. lia. }
  exists vm2, tab2. split; [by eapply widens_trans|]. split; [done|]. split.
  { intros q Hq Hr Ha. unfold absent in *. rewrite (direct_lookup _ _ _ D2 Hq).
    rewrite (direct_lookup _ _ _ D Hq) in Ha. rewrite O2, O1; [done|done|lia|done|].
    intros j Hj. replace (p + 4096) with (p + 1 * 4096) by lia. rewrite Z.div_add by done. unfold n in Hj. lia. }
  split; [unfold n in F2; lia|].
  unfold map_and_verify_table.
  replace (u64 (p + HIGHER_HALF)) with (win p) by (unfold win, HIGHER_HALF; rewrite u64_small; lia).
  rewrite (bind_run _ _ _ _ _ (on_pages_ok _ s tt vm1 E1)).
  assert (El : table_length firmware (win p) (with_vmm s vm1) = Ok (L, with_vmm s vm1)).
  { apply table_length_ok; [lia|lia|]. intros q Hq. cbn. apply (present_there vm1 tab1 p); [apply W1|done|unfold in_window; lia| |done].
    symmetry. apply (Z.div_unique _ _ _ (q - 4096 * (p / 4096))); lia. }
  rewrite (bind_run _ _ _ _ _ El). fold n. rewrite (bind_run _ _ _ _ _ E2). reflexivity.
Qed.

(** [C33] The kernel maps a table page by page from the start of the table, as
    many pages as its length has: when the table lies in them, it is mapped
    whole and accepted exactly when its bytes add up to zero; a table that
    reaches into one page more is read through an unmapped page. *)
Theorem map_and_verify_table_spec p s tab (L := fw32 (p + 4)) :
  direct (a_vmm s) tab → 4096 ≤ p → p + L + 8192 ≤ 2 ^ 46 → p `mod` 4096 ≤ 4088 →
  3 * pages_mapped L ≤ m_free_frames (v_pmm (a_vmm s)) →
  if decide (p `mod` 4096 + L ≤ 4096 * pages_mapped L) then
    exists vm' tab', widens (a_vmm s) tab vm' tab' ∧ (forall q, p ≤ q < p + L → there vm' q) ∧
      if u8 (total (Z.to_nat L) p) =? 0 then map_and_verify_table firmware p s = Ok (win p, with_vmm s vm')
      else map_and_verify_table firmware p s =
        (signature ← read_string firmware 4096 (win p);
         say "ACPI table checksum failed: %.4s" [AStr (Some signature)];;
         mret 0) (with_vmm s vm')
  else absent (a_vmm s) (page_base p + 4096 * pages_mapped L) → map_and_verify_table firmware p s = UB.
Proof.
  intros D H0 Hb Hm Hf. destruct (map_table_ok p s tab D H0 Hb Hm Hf) as (vm' & tab' & W & Ht & Ha & _ & E). fold L in Ht, Ha.
  rewrite E. clear E. pose proof (fw32_range (p + 4)) as HL. fold L in HL.
  pose proof (Z.div_mod p 4096 ltac:(lia)) as Hdiv. pose proof (Z.mod_pos_bound p 4096 ltac:(lia)).
  pose proof (Z.div_mod (L + 4095) 4096 ltac:(lia)) as HdL. pose proof (Z.mod_pos_bound (L + 4095) 4096 ltac:(lia)).
  assert (Hin : ∀ q, p ≤ q → q < 4096 * (p / 4096 + pages_mapped L) → q < 2 ^ 46 → there vm' q).
  { intros q Hq Hl Hw. apply Ht; [unfold in_window; lia|]. split; [by apply Z.div_le_mono|]. apply Z.div_lt_upper_bound; lia. }
  assert (El : table_length firmware (win p) (with_vmm s vm') = Ok (L, with_vmm s vm')).
  { unfold pages_mapped in *. apply table_length_ok; [lia|lia|]. intros q Hq. apply Hin; lia. }
  unfold verify_table_checksum. destruct (decide _) as [Hfit|Hfit].
  - assert (Hall : ∀ q, p ≤ q < p + L → there vm' q) by (intros q Hq; apply Hin; lia).
    exists vm', tab'. split; [done|]. split; [done|].
    assert (Es : sum_bytes firmware (Z.to_nat L) (win p) 0 (with_vmm s vm') = Ok (u8 (total (Z.to_nat L) p), with_vmm s vm')).
    { rewrite (sum_bytes_ok win); [done| |lia]. rewrite Z2Nat.id by lia. apply run_win; [lia|lia|done]. }
    assert (Ec : (length ← table_length firmware (win p); sum ← sum_bytes firmware (Z.to_nat length) (win p) 0; mret (sum =? 0)) (with_vmm s vm')
      = Ok (u8 (total (Z.to_nat L) p) =? 0, with_vmm s vm')).
    { rewrite (bind_run _ _ _ _ _ El), (bind_run _ _ _ _ _ Es). done. }
    destruct (u8 (total (Z.to_nat L) p) =? 0); rewrite (bind_run _ _ _ _ _ Ec); done.
  - intros Hab. set (x := page_base p + 4096 * pages_mapped L) in *.
    assert (Hx : in_window x) by (unfold x, in_window, page_base, pages_mapped in *; lia).
    assert (Hxe : x = 4096 * (p / 4096 + pages_mapped L)) by (unfold x, page_base; lia).
    assert (Hxd : x / 4096 = p / 4096 + pages_mapped L).
    { by rewrite Hxe, Z.mul_comm, Z.div_mul. }
    apply bind_UB. rewrite (bind_run _ _ _ _ _ El). apply bind_UB.
    assert (Hpos : p + Z.of_nat (Z.to_nat (x - p)) = x) by (unfold x, page_base, pages_mapped in *; lia).
    apply (sum_bytes_UB _ _ p 0 (Z.to_nat (x - p))); rewrite ?Hpos.
    + unfold x, page_base, pages_mapped in *; lia.
    + apply run_win; [lia|unfold in_window in Hx; lia|]. intros q Hq. unfold in_window in Hx. apply Hin; lia.
    + done.
    + apply Ha; [done|lia|done].
Qed.

(** ** Looking a table up *)

(** A table the kernel can read: inside the pages it maps, adding up to zero. *)
Definition good_table (p : Z) : Prop :=
  4096 ≤ p < 2 ^ 32 ∧ p `mod` 4096 + fw32 (p + 4) ≤ 4096 * pages_mapped (fw32 (p + 4)) ∧ p `mod` 4096 ≤ 4088 ∧
  4 ≤ fw32 (p + 4) ∧ u8 (total (Z.to_nat (fw32 (p + 4))) p) = 0.

Definition pages_of (ptrs : list Z) : Z := foldr (λ p n, pages_mapped (fw32 (p + 4)) + n) 0 ptrs.

Lemma pages_of_nonneg ptrs : 0 ≤ pages_of ptrs.
Proof. induction ptrs as [|p ptrs IH]; cbn; [done|]. unfold pages_mapped at 1. fold (pages_of ptrs). lia. Qed.

Lemma good_table_mapped p s tab : good_table p → direct (a_vmm s) tab →
  3 * pages_mapped (fw32 (p + 4)) ≤ m_free_frames (v_pmm (a_vmm s)) →
  exists vm' tab', widens (a_vmm s) tab vm' tab' ∧ (forall q, p ≤ q < p + fw32 (p + 4) → there vm' q) ∧
    m_free_frames (v_pmm (a_vmm s)) - 3 * pages_mapped (fw32 (p + 4)) ≤ m_free_frames (v_pmm vm') ∧
    map_and_verify_table firmware p s = Ok (win p, with_vmm s vm').
Proof.
  intros (H0 & Hfit & Hm & H4 & Hsum) D Hf. pose proof (fw32_range (p + 4)) as HL. set (L := fw32 (p + 4)) in *.
  destruct (map_table_ok p s tab D ltac:(lia) ltac:(fold L; lia) Hm Hf) as (vm' & tab' & W & Ht & _ & F & E). fold L in Ht, F.
  pose proof (Z.div_mod p 4096 ltac:(lia)) as Hdiv. pose proof (Z.mod_pos_bound p 4096 ltac:(lia)).
  assert (Hpg : pages_mapped L ≤ 2 ^ 20 + 1) by (unfold pages_mapped; pose proof (Z.div_lt_upper_bound (L + 4095) 4096 (2 ^ 20 + 2)); lia).
  assert (Hin : ∀ q, p ≤ q → q < 4096 * (p / 4096 + pages_mapped L) → there vm' q).
  { intros q Hq Hl. apply Ht; [unfold in_window; lia|]. split; [by apply Z.div_le_mono|]. apply Z.div_lt_upper_bound; lia. }
  assert (Hall : ∀ q, p ≤ q < p + L → there vm' q) by (intros q Hq; apply Hin; lia).
  exists vm', tab'. split; [done|]. split; [done|]. split; [done|]. rewrite E. unfold verify_table_checksum.
  assert (El : table_length firmware (win p) (with_vmm s vm') = Ok (L, with_vmm s vm')).
  { apply table_length_ok; [lia|lia|]. intros q Hq. apply Hin; unfold pages_mapped; lia. }
  assert (Es : sum_bytes firmware (Z.to_nat L) (win p) 0 (with_vmm s vm') = Ok (u8 (total (Z.to_nat L) p), with_vmm s vm')).
  { rewrite (sum_bytes_ok win); [done| |lia]. rewrite Z2Nat.id by lia. apply run_win; [lia|lia|done]. }
  rewrite Hsum in Es.
  assert (Ec : (length ← table_length firmware (win p); sum ← sum_bytes firmware (Z.to_nat length) (win p) 0; mret (sum =? 0)) (with_vmm s vm')
    = Ok (true, with_vmm s vm')) by (by rewrite (bind_run _ _ _ _ _ El), (bind_run _ _ _ _ _ Es)).
  by rewrite (bind_run _ _ _ _ _ Ec).
Qed.

Lemma widens_there vm tab vm' tab' p : widens vm tab vm' tab' → direct vm tab → 4096 ≤ p → in_window p → there vm p → there vm' p.
Proof.
  intros W D H0 Hw Ht. apply (direct_there vm' tab'); [apply W|done|]. apply (wd_there _ _ _ _ W); [done|].
  unfold there in Ht. rewrite (direct_lookup _ _ _ D Hw) in Ht. destruct (present _); [done|].
  injection Ht as Ht. unfold page_base in Ht. pose proof (Z.div_le_lower_bound p 4096 1 ltac:(lia) ltac:(lia)). lia.
Qed.

(** The tables with the signature, in the order of the list. *)
Definition with_signature (signature ptrs : list Z) : list Z := filter (λ p, fw_bytes 4 p = signature) ptrs.

Lemma search_tables_ok pointer signature ptrs : length signature = 4%nat → ∀ i s tab,
  direct (a_vmm s) tab → Forall good_table ptrs → 3 * pages_of ptrs ≤ m_free_frames (v_pmm (a_vmm s)) →
  (∀ j p vm' tab', ptrs !! j = Some p → widens (a_vmm s) tab vm' tab' →
     pointer (i + Z.of_nat j) (with_vmm s vm') = Ok (p, with_vmm s vm')) →
  exists vm' tab', widens (a_vmm s) tab vm' tab' ∧
    search_tables firmware (length ptrs) i pointer signature s =
      Ok (from_option win 0 (head (with_signature signature ptrs)), with_vmm s vm').
Proof.
  intros Hsig. induction ptrs as [|p ptrs IH]; intros i s tab D Hg Hf Hp; cbn [length search_tables].
  { exists (a_vmm s), tab. rewrite with_vmm_id. split; [by apply widens_refl|done]. }
  apply Forall_cons in Hg as [Hgp Hg]. cbn [pages_of foldr] in Hf. fold (pages_of ptrs) in Hf. pose proof (pages_of_nonneg ptrs).
  pose proof (Hp 0%nat p (a_vmm s) tab eq_refl (widens_refl _ _ D)) as Ep. rewrite with_vmm_id, Z.add_0_r in Ep.
  rewrite (bind_run _ _ _ _ _ Ep).
  destruct (good_table_mapped p s tab Hgp D ltac:(lia)) as (vm1 & tab1 & W1 & Ht & F1 & E1).
  rewrite (bind_run _ _ _ _ _ E1). destruct Hgp as (H0 & _ & _ & H4 & _).
  pose proof (win_range p ltac:(unfold in_window; lia)). unfold HIGHER_HALF in *. rewrite (proj2 (Z.eqb_neq (win p) 0)) by lia.
  assert (Eb : same_bytes firmware (win p) signature (with_vmm s vm1) = Ok (bool_decide (fw_bytes 4 p = signature), with_vmm s vm1)).
  { rewrite (same_bytes_ok win); [by rewrite Hsig|]. rewrite Hsig. apply run_win; [lia|lia|]. intros q Hq. apply Ht. lia. }
  rewrite (bind_run _ _ _ _ _ Eb). unfold with_signature. rewrite filter_cons. fold (with_signature signature ptrs).
  destruct (bool_decide_reflect (fw_bytes 4 p = signature)) as [E|E].
  { rewrite decide_True by done. exists vm1, tab1. done. }
  rewrite decide_False by done.
  destruct (IH (i + 1) (with_vmm s vm1) tab1) as (vm2 & tab2 & W2 & E2); [apply W1|done|cbn; lia| |].
  - intros j q vm' tab' Hj W. replace (i + 1 + Z.of_nat j) with (i + Z.of_nat (S j)) by lia.
    apply (Hp (S j) q vm' tab'); [done|]. by eapply widens_trans.
  - exists vm2, tab2. split; [by eapply widens_trans|]. exact E2.
Qed.

(** The entries of a root table of 32-bit pointers. *)
Definition rsdt_entries (r : Z) (n : nat) : list Z := map (λ j, fw32 (r + 36 + 4 * Z.of_nat j)) (seq 0 n).

(** Once the root table is mapped, [find_acpi_table] maps and verifies the
    tables it lists one after the other and returns the first with the signature,
    or null when there is none. *)
Theorem find_acpi_table_spec r n signature s tab :
  direct (a_vmm s) tab → g_rsdt s = win r → g_xsdt s = 0 → 4096 ≤ r < 2 ^ 32 →
  (∀ q, r ≤ q < r + fw32 (r + 4) → there (a_vmm s) q) → fw32 (r + 4) = 36 + 4 * Z.of_nat n → length signature = 4%nat →
  Forall good_table (rsdt_entries r n) → 3 * pages_of (rsdt_entries r n) ≤ m_free_frames (v_pmm (a_vmm s)) →
  exists vm' tab', widens (a_vmm s) tab vm' tab' ∧
    find_acpi_table firmware signature s =
      Ok (from_option win 0 (head (with_signature signature (rsdt_entries r n))), with_vmm s vm').
Proof.
  intros D Hr Hx H0 Ht HL Hsig Hg Hf. pose proof (fw32_range (r + 4)) as HLr. unfold find_acpi_table. st. rewrite Hr, Hx.
  pose proof (win_range r ltac:(unfold in_window; lia)). unfold HIGHER_HALF in *.
  rewrite (proj2 (Z.eqb_neq (win r) 0)) by lia. cbn [andb negb Z.eqb].
  rewrite (bind_run _ _ _ _ _ (table_length_ok r s ltac:(lia) ltac:(lia) ltac:(intros; apply Ht; lia))).
  assert (Ec : Z.to_nat (entry_count (fw32 (r + 4)) 4) = n).
  { unfold entry_count, sizeof_ACPISDTHeader. rewrite HL. replace (36 + 4 * Z.of_nat n - 36) with (Z.of_nat n * 4) by lia.
    rewrite u64_small, Z.div_mul, i32_small by lia. apply Nat2Z.id. }
  rewrite Ec. assert (El : length (rsdt_entries r n) = n) by (unfold rsdt_entries; by rewrite length_map, length_seq).
  destruct (search_tables_ok (rsdt_pointer firmware (win r)) signature (rsdt_entries r n) Hsig 0 s tab D Hg Hf) as (vm' & tab' & W & E).
  { intros j p vm' tab' Hj W. unfold rsdt_entries in Hj. apply list_lookup_fmap_Some in Hj as (k & -> & Hk).
    apply lookup_seq in Hk as [-> Hk]. rewrite !Nat.add_0_l, Z.add_0_l. unfold rsdt_pointer, offset_rsdt_pointers.
    replace (u64 (win r + 36 + 4 * Z.of_nat j)) with (win (r + 36 + 4 * Z.of_nat j))
      by (unfold win, HIGHER_HALF; rewrite u64_small; lia).
    apply rd32_ok, run_win; [lia|lia|]. intros q Hq. cbn.
    apply (widens_there (a_vmm s) tab vm' tab'); [done|done|lia|unfold in_window; lia|]. apply Ht. lia. }
  exists vm', tab'. split; [done|]. rewrite <- E, El. done.
Qed.

(** The 64-bit pointers of the extended root table are read four bytes too far:
    each is the high half of an entry below the low half of the next. *)
Lemma xsdt_pointer_misread x i s : 4096 ≤ x → 0 ≤ i → x + 8 * i < 2 ^ 32 →
  (∀ q, x + 40 + 8 * i ≤ q < x + 48 + 8 * i → there (a_vmm s) q) →
  let entry j := fw64 (x + 36 + 8 * j) in
  xsdt_pointer firmware (win x) i s = Ok (entry i / 2 ^ 32 + 2 ^ 32 * (entry (i + 1) `mod` 2 ^ 32), s).
Proof.
  intros H0 Hi Hb Ht entry. unfold xsdt_pointer, offset_xsdt_pointers.
  replace (u64 (win x + 40 + 8 * i)) with (win (x + 40 + 8 * i)) by (unfold win, HIGHER_HALF; rewrite u64_small; lia).
  rewrite (rd64_ok win); [|apply run_win; [lia|lia|intros q Hq; apply Ht; lia]]. unfold entry, fw64.
  replace (x + 36 + 8 * i + 4) with (x + 40 + 8 * i) by lia. replace (x + 36 + 8 * (i + 1)) with (x + 40 + 8 * i + 4) by lia.
  pose proof (fw32_range (x + 36 + 8 * i)). pose proof (fw32_range (x + 40 + 8 * i + 4)).
  rewrite (Z.mul_comm (2 ^ 32) (fw32 (x + 40 + 8 * i))), Z.div_add, (Z.div_small (fw32 (x + 36 + 8 * i))) by lia.
  rewrite (Z.mul_comm (2 ^ 32) (fw32 (x + 40 + 8 * i + 4 + 4))), Z.mod_add, (Z.mod_small (fw32 (x + 40 + 8 * i + 4))) by lia. done.
Qed.
End window.

(** ** A firmware *)

Definition place (l : list (Z * list Z)) (a : Z) : Z :=
  foldr (λ x r, if (x.1 <=? a) && (a <? x.1 + Z.of_nat (length x.2)) then nthz x.2 (a - x.1) else r) 0 l.

(** A table whose bytes add up to zero, and a root pointer of the first version. *)
Definition summing (t : Z → list Z) : list Z := t (u8 (- foldr Z.add 0 (t 0))).
Definition sdt (sig body : list Z) : list Z :=
  summing (λ c, sig ++ [36 + Z.of_nat (length body); 0; 0; 0] ++ [1; c] ++ replicate 26 0 ++ body).
Definition rsdp_v0 (rsdt : list Z) : list Z :=
  summing (λ c, text "RSD PTR " ++ [c] ++ replicate 6 0 ++ [0] ++ rsdt).

(** The root table at 0x7FE0000 lists a table at 0x7FE1000; the one at 0x7FE2FF0
    reaches into the next page. *)
Definition small_firmware : Z → Z :=
  place [(0xE0010, rsdp_v0 [0; 0; 0xFE; 0x07]);
         (0x7FE0000, sdt (text "RSDT") [0; 0x10; 0xFE; 0x07]);
         (0x7FE1000, sdt (text "APIC") [0; 0; 0xE0; 0xFE; 1; 0; 0; 0]);
         (0x7FE2FF0, sdt (text "HPET") [0; 0; 0; 0])].

Definition boot_acpi : Acpi := AcpiState vmm_boot boot_terminal 0 0 0 0 0.

Lemma boot_direct vm tab : boot_tables vm tab → direct vm tab.
Proof.
  intros B. assert (Hm : ∀ p, in_window p → no_huge vm tab (win p) ∧ present (leaf vm tab (win p)) = false).
  { intros p Hp. apply (boot_mappable vm tab); [done|]. intros (E & _). pose proof (win_page_number p Hp) as En.
    pose proof (page_number_indices (win p)) as Ei. rewrite E in Ei.
    pose proof (index9_range (win p) 12 : 0 ≤ pt_index (win p) < 512). pose proof (index9_range (win p) 21 : 0 ≤ pd_index (win p) < 512).
    pose proof (index9_range (win p) 30 : 0 ≤ pdpt_index (win p) < 512).
    pose proof (Z.div_pos p 4096 ltac:(unfold in_window in Hp; lia) ltac:(lia)). lia. }
  split; [apply B|intros p Hp; by apply Hm|]. intros p Hp E. destruct (Hm p Hp) as [_ E']. congruence.
Qed.

Lemma find_rsdp_spec_witness : exists r, find_rsdp small_firmware 0xE0000 0x100000 boot_acpi = Ok (r, boot_acpi) ∧ r = 0xE0010.
Proof.
  destruct (find_rsdp_spec small_firmware 0xE0000 0x100000 boot_acpi) as (r & E & Hr); [lia|unfold IDENTITY_END; lia|].
  exists r. split; [exact E|]. destruct Hr as [[_ Hn]|(k & Hk & Ek & _ & Hv & Hn)].
  - pose proof (Hn 1 ltac:(lia) ltac:(lia)) as H1. vm_compute in H1. discriminate H1.
  - assert (k ≠ 0) by (intros ->; rewrite Ek in Hv; vm_compute in Hv; discriminate Hv).
    assert (¬ 1 < k) by (intros Hlt; pose proof (Hn 1 ltac:(lia)) as H1; vm_compute in H1; discriminate H1). lia.
Defined.

Lemma map_and_verify_table_spec_witness :
  (exists vm', map_and_verify_table small_firmware 0x7FE1000 boot_acpi = Ok (win 0x7FE1000, with_vmm boot_acpi vm')) ∧
  map_and_verify_table small_firmware 0x7FE2FF0 boot_acpi = UB.
Proof.
  destruct vmm_boot_tables as (tab & B & F). pose proof (boot_direct _ _ B) as D. split.
  - destruct (map_and_verify_table_spec small_firmware 0x7FE1000 boot_acpi tab D) as (vm' & tab' & _ & _ & E);
      [lia|vm_compute; intros [=]|vm_compute; intros [=]|cbn [a_vmm boot_acpi]; change (pages_mapped _) with 1; lia|].
    exists vm'. exact E.
  - pose proof (map_and_verify_table_spec small_firmware 0x7FE2FF0 boot_acpi tab D) as H.
    refine (H _ _ _ _ _); [lia|vm_compute; intros [=]|vm_compute; intros [=]|cbn [a_vmm boot_acpi]; change (pages_mapped _) with 1; lia|].
    unfold absent. rewrite (direct_lookup _ _ _ D) by (vm_compute; split; [intros [=]|reflexivity]).
    destruct (boot_mappable vmm_boot tab (win 0x7FE3000) B) as [_ E]; [intros (E & _); vm_compute in E; discriminate E|].
    change (page_base 0x7FE2FF0 + 4096 * pages_mapped _) with 0x7FE3000. by rewrite E.
Defined.

(** The kernel after the root table was mapped, as [init_acpi] leaves it. *)
Example acpi_found :
  match init_acpi small_firmware boot_acpi with
  | Ok (ok, s) => ok = true ∧ g_rsdt s = win 0x7FE0000 ∧ g_madt s = win 0x7FE1000
  | _ => False
  end.
Proof. vm_compute. done. Qed.

Lemma find_acpi_table_spec_witness :
  exists s s', g_rsdt s = win 0x7FE0000 ∧
    find_acpi_table small_firmware (text "APIC") s = Ok (win 0x7FE1000, s').
Proof.
  destruct vmm_boot_tables as (tab & B & F). pose proof (boot_direct _ _ B) as D.
  assert (Hg : good_table small_firmware 0x7FE0000) by (vm_compute; intuition discriminate).
  assert (Hg' : good_table small_firmware 0x7FE1000) by (vm_compute; intuition discriminate).
  destruct (good_table_mapped small_firmware 0x7FE0000 boot_acpi tab Hg D) as (vm' & tab' & W & Ht & F' & _).
  { cbn [a_vmm boot_acpi]. change (pages_mapped _) with 1. lia. }
  set (s := set_rsdt (win 0x7FE0000) (with_vmm boot_acpi vm')).
  destruct (find_acpi_table_spec small_firmware 0x7FE0000 1 (text "APIC") s tab') as (vm'' & tab'' & _ & E).
  - apply W.
  - done.
  - done.
  - lia.
  - exact Ht.
  - by vm_compute.
  - done.
  - by repeat constructor.
  - change (pages_of small_firmware _) with 1. cbn [a_vmm boot_acpi] in F'. change (pages_mapped _) with 1 in F'. cbn [a_vmm s set_rsdt set_tables with_vmm]. lia.
  - exists s, (with_vmm s vm''). split; [done|]. exact E.
Defined.
