(* ===== verification/Smp.v ===== *)
(** * The processors (src/kernel/src/hw/smp.{hpp,cpp})

    The list of processors the ACPI tables announce, their interrupt controllers,
    the start of the application processors and the interrupts between
    processors.  The local interrupt controllers are the log of the register
    writes; which processors answer their start is a parameter, as is the
    processor's feature bit. *)

From Stdlib Require Strings.String.
From Stdlib Require Import (notations) Strings.String.
From S2P Require Import Prelude Pmm Vmm CStr Pages Terminal Printf Acpi.

(** ** Definitions *)

Definition LAPIC_TPR : Z := 0x80.
Definition LAPIC_LDR : Z := 0xD0.
Definition LAPIC_DFR : Z := 0xE0.
Definition LAPIC_SVR : Z := 0xF0.
Definition LAPIC_ICR_LOW : Z := 0x300.
Definition LAPIC_ICR_HIGH : Z := 0x310.
Definition LAPIC_TIMER : Z := 0x320.
Definition LAPIC_LINT0 : Z := 0x350.
Definition LAPIC_LINT1 : Z := 0x360.
Definition LAPIC_TIMER_DIV : Z := 0x3E0.
Definition CPU_STACK_SIZE : Z := 16 * 1024.
Definition CPU_TRAMPOLINE_ADDR : Z := 0x8000.
Definition AP_STARTUP_VECTOR : Z := 0x08.
Definition MSR_APIC_ENABLE : Z := Z.shiftl 1 11.
Definition MSR_BSP_FLAG : Z := Z.shiftl 1 8.
Definition DEFAULT_LAPIC_BASE : Z := 0xFEE00000.
Definition sizeof_ACPIMADT : Z := 44.

Record CPUInfo := Cpui {
  id : Z;
  lapic_id : Z;
  is_bsp : bool;
  local_apic_base : Z;
  kernel_stack : Z;
  tss_address : Z;
  is_active : bool
}.

Definition with_active (b : bool) (c : CPUInfo) : CPUInfo :=
  Cpui (id c) (lapic_id c) (is_bsp c) (local_apic_base c) (kernel_stack c) (tss_address c) b.
Definition with_base (a : Z) (c : CPUInfo) : CPUInfo :=
  Cpui (id c) (lapic_id c) (is_bsp c) a (kernel_stack c) (tss_address c) (is_active c).

Record SMPManager := Smpm { m_cpu_count : Z; m_cpus : list CPUInfo; m_smp_enabled : bool }.

(** The manager, the ACPI state, the model-specific register of the interrupt
    controller's base, the controller writes (base, register, value), the count
    and target the started processors share, and whether the trampoline is in
    place. *)
Record Smp := SmpState {
  s_smp : SMPManager;
  s_acpi : Acpi;
  s_apic_base : Z;
  s_lapic : list (Z * Z * Z);
  g_ap_ready_count : Z;
  g_ap_target_cpu : Z;
  s_trampoline : bool
}.

Abbreviation SMP := (ST Smp).

Definition set_smp (m : SMPManager) (s : Smp) : Smp :=
  SmpState m (s_acpi s) (s_apic_base s) (s_lapic s) (g_ap_ready_count s) (g_ap_target_cpu s) (s_trampoline s).
Definition set_acpi (a : Acpi) (s : Smp) : Smp :=
  SmpState (s_smp s) a (s_apic_base s) (s_lapic s) (g_ap_ready_count s) (g_ap_target_cpu s) (s_trampoline s).
Definition write_msr (v : Z) (s : Smp) : Smp :=
  SmpState (s_smp s) (s_acpi s) v (s_lapic s) (g_ap_ready_count s) (g_ap_target_cpu s) (s_trampoline s).
Definition lapic_write (base reg value : Z) (s : Smp) : Smp :=
  SmpState (s_smp s) (s_acpi s) (s_apic_base s) (s_lapic s ++ [(base, reg, value)]) (g_ap_ready_count s)
    (g_ap_target_cpu s) (s_trampoline s).
Definition set_ap (ready target : Z) (trampoline : bool) (s : Smp) : Smp :=
  SmpState (s_smp s) (s_acpi s) (s_apic_base s) (s_lapic s) ready target trampoline.

Definition set_cpus (l : list CPUInfo) (s : Smp) : Smp := set_smp (Smpm (m_cpu_count (s_smp s)) l (m_smp_enabled (s_smp s))) s.
Definition set_count (n : Z) (s : Smp) : Smp := set_smp (Smpm n (m_cpus (s_smp s)) (m_smp_enabled (s_smp s))) s.
Definition set_enabled (b : bool) (s : Smp) : Smp := set_smp (Smpm (m_cpu_count (s_smp s)) (m_cpus (s_smp s)) b) s.

Definition on_acpi {A} (m : ACPI A) : SMP A := λ s, r ← m (s_acpi s); Ok (r.1, set_acpi r.2 s).
Definition on_frames {A} (m : ST VirtualMemoryManager A) : SMP A := on_acpi (on_pages m).
Definition tell (msg : String.string) (args : list arg) : SMP unit := on_acpi (say msg args).
Definition get_cpus : SMP (list CPUInfo) := gets (λ s, m_cpus (s_smp s)).
Definition read_msr : SMP Z := gets s_apic_base.

(** The processor the tables do not describe. *)
Definition default_bsp : CPUInfo := Cpui 0 0 true DEFAULT_LAPIC_BASE 0 0 true.

(** *** Looking processors up: a pointer into the list is an index *)

Fixpoint index_where (f : CPUInfo → bool) (l : list CPUInfo) : option nat :=
  match l with
  | [] => None
  | c :: l => if f c then Some O else S <$> index_where f l
  end.

Definition get_cpu_info (i : Z) : SMP (option nat) := l ← get_cpus; mret (index_where (λ c, id c =? i) l).

Definition get_current_cpu_id : SMP Z :=
  apic_base ← read_msr;
  let current_lapic_id := Z.land (Z.shiftr apic_base 24) 0xFF in
  l ← get_cpus;
  match index_where (λ c, lapic_id c =? current_lapic_id) l with
  | Some k => mret (from_option id 0 (l !! k))
  | None =>
      match index_where is_bsp l with
      | Some k => mret (from_option id 0 (l !! k))
      | None => mret 0
      end
  end.

Definition get_current_cpu_info : SMP (option nat) := i ← get_current_cpu_id; get_cpu_info i.

(** [cpu->...] through a pointer, and assignments through it. *)
Definition cpu_at (k : nat) : SMP CPUInfo := l ← get_cpus; lift (match l !! k with Some c => Ok c | None => UB end).
Definition cpu_set (k : nat) (f : CPUInfo → CPUInfo) : SMP unit := modify (λ s, set_cpus (alter f k (m_cpus (s_smp s))) s).

Definition set_cpu_active (lapic : Z) : SMP unit :=
  l ← get_cpus;
  match index_where (λ c, lapic_id c =? lapic) l with
  | Some k => cpu_set k (with_active true)
  | None => mret tt
  end.

Section smp.
Variable firmware : Z → Z.
(** Whether processor [i] comes to [ap_main] before the wait for it ends. *)
Variable ap_started : Z → bool.
(** [check_apic_available]: the feature bit. *)
Variable apic_available : bool.

Definition byte_at (a : Z) : SMP Z := on_acpi (rd8 firmware (u64 a)).
Definition word_at (a : Z) : SMP Z := on_acpi (rd32 firmware (u64 a)).

(** *** [detect_cpus] *)

(** The frames of a stack: the address of the first. *)
Fixpoint stack_frames (n : nat) (first : bool) (start : Z) : SMP Z :=
  match n with
  | O => mret start
  | S n' => frame ← on_frames vm_allocate_frame; stack_frames n' false (if first then frame else start)
  end.

Fixpoint map_stack (n : nat) (i virt phys : Z) : SMP unit :=
  match n with
  | O => mret tt
  | S n' => on_frames (vm_map_page (u64 (virt + i)) (u64 (phys + i)) true);; map_stack n' (i + 4096) virt phys
  end.

Definition STACK_FRAMES : nat := Z.to_nat (CPU_STACK_SIZE / 4096).

(** One enabled processor of the table. *)
Definition add_cpu (madt entry cpu_count : Z) : SMP unit :=
  apic_id ← byte_at (entry + 3);
  apic_base ← read_msr;
  let bsp := negb (Z.land apic_base MSR_BSP_FLAG =? 0) && (apic_id =? Z.shiftr apic_base 24) in
  base ← word_at (madt + 36);
  start ← stack_frames STACK_FRAMES true 0;
  stack ← (if start =? 0 then mret 0 else
             let stack_virt := u64 (start + HIGHER_HALF) in
             map_stack STACK_FRAMES 0 stack_virt start;;
             mret (u64 (stack_virt + CPU_STACK_SIZE)));
  modify (λ s, set_cpus (m_cpus (s_smp s) ++ [Cpui cpu_count apic_id bsp base stack 0 bsp]) s).

(** The walk through the entries: the number of enabled processors. *)
Fixpoint detect_entries (fuel : nat) (madt entries end_ cpu_count : Z) : SMP Z :=
  match fuel with
  | O => no_fuel
  | S fuel' =>
      if negb (entries <? end_) then mret cpu_count else
      type ← byte_at entries;
      count ← (if type =? 0 then
                 flags ← word_at (entries + 4);
                 if negb (Z.land flags 1 =? 0) then add_cpu madt entries cpu_count;; mret (cpu_count + 1)
                 else mret cpu_count
               else mret cpu_count);
      length ← byte_at (entries + 1);
      detect_entries fuel' madt (entries + length) end_ count
  end.

(** [fuel] bounds the number of entries: an entry of length 0 has no end. *)
Definition detect_cpus (fuel : nat) : SMP unit :=
  madt ← on_acpi get_madt;
  if madt =? 0 then
    tell "Could not find MADT, assuming single CPU" [];;
    modify (λ s, set_cpus (m_cpus (s_smp s) ++ [default_bsp]) s);;
    modify (set_count 1)
  else
    length ← word_at (madt + 4);
    count ← detect_entries fuel madt (madt + sizeof_ACPIMADT) (madt + length) 0;
    modify (set_count (if count =? 0 then 1 else count));;
    l ← get_cpus;
    (if decide (l = []) then modify (set_cpus [default_bsp]);; modify (set_count 1) else mret tt);;
    n ← gets (λ s, m_cpu_count (s_smp s));
    tell "Detected %u CPUs" [AInt n].

(** *** The interrupt controllers *)

Definition init_local_apic : SMP unit :=
  apic_base ← read_msr;
  modify (write_msr (Z.lor apic_base MSR_APIC_ENABLE));;
  let apic_phys := Z.land apic_base 0xFFFFF000 in
  let apic_virt := u64 (apic_phys + HIGHER_HALF) in
  on_frames (vm_map_page apic_virt apic_phys true);;
  cpu_info ← get_current_cpu_info;
  match cpu_info with Some k => cpu_set k (with_base apic_virt) | None => mret tt end;;
  modify (lapic_write apic_virt LAPIC_SVR 0x1FF);;
  modify (lapic_write apic_virt LAPIC_DFR 0xFFFFFFFF);;
  modify (lapic_write apic_virt LAPIC_LDR 0x01000000);;
  modify (lapic_write apic_virt LAPIC_TPR 0);;
  modify (lapic_write apic_virt LAPIC_LINT0 0x700);;
  modify (lapic_write apic_virt LAPIC_LINT1 0x400);;
  modify (lapic_write apic_virt LAPIC_TIMER_DIV 0x3);;
  modify (lapic_write apic_virt LAPIC_TIMER 0x10000);;
  i ← get_current_cpu_id;
  tell "Local APIC initialized for CPU %u" [AInt i].

Fixpoint io_entries (fuel : nat) (entries end_ : Z) : SMP unit :=
  match fuel with
  | O => no_fuel
  | S fuel' =>
      if negb (entries <? end_) then mret tt else
      type ← byte_at entries;
      (if type =? 1 then
         address ← word_at (entries + 4);
         on_frames (vm_map_page (u64 (address + HIGHER_HALF)) address true);;
         io_id ← byte_at (entries + 2);
         base ← word_at (entries + 8);
         tell "I/O APIC found at address 0x%x, ID %u, GSI base %u" [AInt address; AInt io_id; AInt base]
       else mret tt);;
      length ← byte_at (entries + 1);
      io_entries fuel' (entries + length) end_
  end.

Definition init_io_apic (fuel : nat) : SMP unit :=
  madt ← on_acpi get_madt;
  if madt =? 0 then tell "Could not find MADT, I/O APIC not initialized" [] else
  length ← word_at (madt + 4);
  io_entries fuel (madt + sizeof_ACPIMADT) (madt + length).

Definition smp_initialize (fuel : nat) : SMP unit :=
  if negb apic_available then tell "APIC not available, SMP not supported" [] else
  ok ← on_acpi (init_acpi firmware);
  if negb ok then
    tell "ACPI initialization failed, SMP not fully supported" [];;
    init_local_apic;;
    modify (set_enabled false)
  else
    detect_cpus fuel;;
    init_local_apic;;
    init_io_apic fuel;;
    modify (set_enabled true);;
    n ← gets (λ s, m_cpu_count (s_smp s));
    tell "SMP initialized with %u CPUs" [AInt n].

(** *** Starting the application processors *)

(** What a started processor does; it then halts forever. *)
Definition ap_main (cpu_id : Z) : SMP unit :=
  cpu_info ← get_cpu_info cpu_id;
  match cpu_info with
  | None => tell "AP CPU ID %u not found in CPU info table" [AInt cpu_id]
  | Some k =>
      cpu_set k (with_active true);;
      modify (λ s, set_ap (u32 (g_ap_ready_count s + 1)) (g_ap_target_cpu s) (s_trampoline s) s);;
      c ← cpu_at k;
      tell "AP CPU %u (LAPIC ID: %u) is now active" [AInt cpu_id; AInt (lapic_id c)]
  end.

Definition detect_active_cores : SMP unit :=
  m ← gets s_smp;
  if negb (m_smp_enabled m) || (m_cpu_count m <=? 1) then mret tt else
  current_cpu ← get_current_cpu_info;
  match current_cpu with
  | None => mret tt
  | Some k =>
      c ← cpu_at k;
      if local_apic_base c =? 0 then mret tt else
      modify (λ s, set_cpus (map (λ c, with_active (if is_bsp c then true else negb (kernel_stack c =? 0)) c) (m_cpus (s_smp s))) s)
  end.

(** The interrupts that start a processor. *)
Definition send_startup (base lapic : Z) : SMP unit :=
  let icr_high := u32 (Z.shiftl lapic 24) in
  modify (lapic_write base LAPIC_ICR_HIGH icr_high);;
  modify (lapic_write base LAPIC_ICR_LOW 0x4500);;
  modify (lapic_write base LAPIC_ICR_HIGH icr_high);;
  modify (lapic_write base LAPIC_ICR_LOW (Z.lor 0x4600 AP_STARTUP_VECTOR));;
  modify (lapic_write base LAPIC_ICR_HIGH icr_high);;
  modify (lapic_write base LAPIC_ICR_LOW (Z.lor 0x4600 AP_STARTUP_VECTOR)).

(** The loop over [m_cpus]; [bsp] is the index of the bootstrap processor. *)
Fixpoint start_cpus (n k bsp : nat) : SMP unit :=
  match n with
  | O => mret tt
  | S n' =>
      cpu ← cpu_at k;
      (if is_bsp cpu then mret tt else
         tell "Starting AP CPU %u (LAPIC ID: %u)..." [AInt (id cpu); AInt (lapic_id cpu)];;
         modify (λ s, set_ap (g_ap_ready_count s) (id cpu) (s_trampoline s) s);;
         bsp_info ← cpu_at bsp;
         send_startup (local_apic_base bsp_info) (lapic_id cpu);;
         (if ap_started (id cpu) then ap_main (id cpu) else mret tt);;
         cpu ← cpu_at k;
         if is_active cpu then mret tt else tell "Failed to start AP CPU %u" [AInt (id cpu)]);;
      start_cpus n' (S k) bsp
  end.

Definition startup_application_processors : SMP unit :=
  m ← gets s_smp;
  if negb (m_smp_enabled m) || (m_cpu_count m <=? 1) then
    tell "SMP not enabled or only one CPU detected, skipping AP startup" []
  else
    modify (λ s, set_ap 0 (g_ap_target_cpu s) (s_trampoline s) s);;
    on_frames (vm_map_page CPU_TRAMPOLINE_ADDR CPU_TRAMPOLINE_ADDR true);;
    modify (λ s, set_ap (g_ap_ready_count s) (g_ap_target_cpu s) true s);;
    l ← get_cpus;
    match index_where is_bsp l with
    | None => tell "Could not find BSP info, aborting AP startup" []
    | Some bsp =>
        start_cpus (length l) 0 bsp;;
        detect_active_cores;;
        ready ← gets g_ap_ready_count;
        tell "SMP initialization complete: %u/%u CPUs active" [AInt (u32 (ready + 1)); AInt (m_cpu_count m)]
    end.

(** *** Interrupts between processors *)

Definition send_ipi (cpu_id vector : Z) : SMP unit :=
  target_cpu ← get_cpu_info cpu_id;
  match target_cpu with
  | None => mret tt
  | Some t =>
      current_cpu ← get_current_cpu_info;
      match current_cpu with
      | None => mret tt
      | Some k =>
          target ← cpu_at t;
          current ← cpu_at k;
          modify (lapic_write (local_apic_base current) LAPIC_ICR_HIGH (u32 (Z.shiftl (lapic_id target) 24)));;
          modify (lapic_write (local_apic_base current) LAPIC_ICR_LOW (Z.lor 0x4000 vector))
      end
  end.

Definition send_ipi_all_excluding_self (vector : Z) : SMP unit :=
  current_cpu ← get_current_cpu_info;
  match current_cpu with
  | None => mret tt
  | Some k =>
      current ← cpu_at k;
      modify (lapic_write (local_apic_base current) LAPIC_ICR_HIGH 0);;
      modify (lapic_write (local_apic_base current) LAPIC_ICR_LOW (Z.lor 0xC000 vector))
  end.
End smp.

(** ** The window of the manager *)

Definition vm_of (s : Smp) : VirtualMemoryManager := a_vmm (s_acpi s).
Definition with_pages (s : Smp) (vm : VirtualMemoryManager) : Smp := set_acpi (with_vmm (s_acpi s) vm) s.

Lemma with_pages_id s : with_pages s (vm_of s) = s.
Proof. unfold with_pages, vm_of. rewrite with_vmm_id. by destruct s. Qed.

Lemma on_acpi_same {A} (m : ACPI A) s a : m (s_acpi s) = Ok (a, s_acpi s) → on_acpi m s = Ok (a, s).
Proof. intros E. unfold on_acpi. rewrite E. by destruct s. Qed.

Lemma on_frames_ok {A} (m : ST VirtualMemoryManager A) s a vm :
  m (vm_of s) = Ok (a, vm) → on_frames m s = Ok (a, with_pages s vm).
Proof. intros E. unfold on_frames, on_acpi. by rewrite (on_pages_ok _ _ a vm E). Qed.

(** Every frame of memory, and the stack behind it, is in the window. *)
Definition small_memory (vm : VirtualMemoryManager) : Prop :=
  m_memory_start (v_pmm vm) + m_total_frames (v_pmm vm) * PAGE_SIZE + CPU_STACK_SIZE ≤ 2 ^ 46.

Lemma small_memory_layout vm vm' : same_layout (v_pmm vm) (v_pmm vm') → small_memory vm → small_memory vm'.
Proof. intros [E1 E2]. unfold small_memory. by rewrite E1, E2. Qed.

(** A frame taken from the window's manager. *)
Lemma take_frame vm tab : direct vm tab → small_memory vm → 1 ≤ m_free_frames (v_pmm vm) →
  exists f vm', vm_allocate_frame vm = Ok (f, vm') ∧ widens vm tab vm' tab ∧
    4096 ≤ f < 2 ^ 46 - CPU_STACK_SIZE ∧ m_free_frames (v_pmm vm') = m_free_frames (v_pmm vm) - 1.
Proof.
  intros D Hsm Hf. pose proof (dr_inv _ _ D) as Hi. pose proof (vi_pmm _ _ Hi) as Hwf.
  destruct (allocate_frame_takes (v_pmm vm) Hwf ltac:(lia)) as (k & s & Ht & Ea).
  destruct (take_inv _ _ _ _ Ht Hi) as [Hi1 G1]. pose proof (tk_range _ _ _ Ht) as Hk.
  pose proof (sh_start _ (wf_shape _ Hwf)).
  exists (frame_addr (v_pmm vm) k), (set_pmm vm s). split; [unfold vm_allocate_frame; by rewrite Ea|].
  assert (4096 ≤ frame_addr (v_pmm vm) k).
  { pose proof (vi_aligned _ _ Hi) as Ha. apply Z.mod_divide in Ha as [x Hx]; [|done]. unfold frame_addr, PAGE_SIZE. lia. }
  split; [|split; [unfold small_memory, frame_addr, PAGE_SIZE, CPU_STACK_SIZE in *; lia|apply Ht]].
  destruct D as [? Hh Hm]. split; [by split|done|apply Ht].
Qed.

Lemma stack_frames_ok n : ∀ s tab start, direct (vm_of s) tab → small_memory (vm_of s) →
  Z.of_nat n ≤ m_free_frames (v_pmm (vm_of s)) →
  exists vm', stack_frames n false start s = Ok (start, with_pages s vm') ∧ widens (vm_of s) tab vm' tab ∧
    m_free_frames (v_pmm vm') = m_free_frames (v_pmm (vm_of s)) - Z.of_nat n.
Proof.
  induction n as [|n IH]; intros s tab start D Hsm Hf; cbn [stack_frames].
  { exists (vm_of s). rewrite with_pages_id. split; [done|]. split; [by apply widens_refl|lia]. }
  destruct (take_frame (vm_of s) tab D Hsm ltac:(lia)) as (f & vm1 & E1 & W1 & _ & F1).
  rewrite (bind_run _ _ _ _ _ (on_frames_ok _ s f vm1 E1)).
  destruct (IH (with_pages s vm1) tab start (wd_direct _ _ _ _ W1)) as (vm2 & E2 & W2 & F2).
  { by apply (small_memory_layout (vm_of s)); [apply W1|]. }
  { cbn. lia. }
  exists vm2. split; [exact E2|]. split; [by eapply widens_trans|]. cbn in F2. lia.
Qed.

Lemma on_acpi_bind {A B} (m : ACPI A) (f : A → ACPI B) s :
  on_acpi (m ≫= f) s = (on_acpi m ≫= λ a, on_acpi (f a)) s.
Proof. unfold on_acpi, mbind, st_bind. by destruct (m (s_acpi s)) as [[a x]| |]. Qed.

Lemma map_stack_rest n : ∀ i virt phys s,
  map_stack n i virt phys s = on_acpi (map_rest n i virt phys) s.
Proof.
  induction n as [|n IH]; intros i virt phys s; cbn [map_stack map_rest]; [by destruct s|].
  rewrite on_acpi_bind. unfold on_frames, mbind, st_bind. destruct (on_acpi _ s) as [[u x]| |]; [apply IH|done..].
Qed.

Section smp_walk.
Variable firmware : Z → Z.

Lemma byte_at_ok s p : in_window p → 4096 ≤ p → there (vm_of s) p → byte_at firmware (win p) s = Ok (fw8 firmware p, s).
Proof.
  intros Hp H0 Ht. pose proof (win_range p Hp). unfold HIGHER_HALF in *. unfold byte_at. rewrite u64_small by lia.
  apply on_acpi_same. by apply reads_win.
Qed.

Lemma word_at_ok s p : 4096 ≤ p → p + 4 < 2 ^ 46 → (∀ q, p ≤ q < p + 4 → there (vm_of s) q) →
  word_at firmware (win p) s = Ok (fw32 firmware p, s).
Proof.
  intros H0 Hp Ht. pose proof (win_range p ltac:(unfold in_window; lia)). unfold HIGHER_HALF in *.
  unfold word_at. rewrite u64_small by lia. apply on_acpi_same. apply rd32_ok, run_win; [lia|lia|done].
Qed.

(** The processor the code makes of an entry with an identifier. *)
Definition cpu_of (m apic_id : Z) (msr : Z) (i stack : Z) : CPUInfo :=
  let bsp := negb (Z.land msr MSR_BSP_FLAG =? 0) && (apic_id =? Z.shiftr msr 24) in
  Cpui i apic_id bsp (fw32 firmware (m + 36)) stack 0 bsp.

(** The frames it takes: four for the stack, and at most three tables for each of
    the four pages mapped. *)
Lemma add_cpu_ok s tab m e i :
  direct (vm_of s) tab → small_memory (vm_of s) → 16 ≤ m_free_frames (v_pmm (vm_of s)) →
  4096 ≤ m < 2 ^ 45 → m ≤ e < 2 ^ 45 → (∀ q, m ≤ q < m + 44 → there (vm_of s) q) → there (vm_of s) (e + 3) →
  exists vm' tab' f, widens (vm_of s) tab vm' tab' ∧ m_free_frames (v_pmm (vm_of s)) - 16 ≤ m_free_frames (v_pmm vm') ∧
    4096 ≤ f < 2 ^ 46 - CPU_STACK_SIZE ∧ (∀ j, 0 ≤ j < 4 → there vm' (f + 4096 * j)) ∧
    add_cpu firmware (win m) (win e) i s =
      Ok (tt, set_cpus (m_cpus (s_smp s) ++ [cpu_of m (fw8 firmware (e + 3)) (s_apic_base s) i (win (f + CPU_STACK_SIZE))]) (with_pages s vm')).
Proof.
  intros D Hsm Hf Hm He Htm Hte. unfold add_cpu.
  replace (win e + 3) with (win (e + 3)) by (unfold win; lia). replace (win m + 36) with (win (m + 36)) by (unfold win; lia).
  rewrite (bind_run _ _ _ _ _ (byte_at_ok s (e + 3) ltac:(unfold in_window; lia) ltac:(lia) Hte)).
  unfold read_msr. st.
  rewrite (bind_run _ _ _ _ _ (word_at_ok s (m + 36) ltac:(lia) ltac:(lia) ltac:(intros q Hq; apply Htm; lia))).
  destruct (take_frame (vm_of s) tab D Hsm ltac:(lia)) as (f & vm1 & E1 & W1 & Hf0 & F1).
  destruct (stack_frames_ok 3 (with_pages s vm1) tab f (wd_direct _ _ _ _ W1)) as (vm2 & E2 & W2 & F2).
  { by apply (small_memory_layout (vm_of s)); [apply W1|]. }
  { cbn. lia. }
  assert (Es : stack_frames STACK_FRAMES true 0 s = Ok (f, with_pages s vm2)).
  { change STACK_FRAMES with 4%nat. cbn [stack_frames]. rewrite (bind_run _ _ _ _ _ (on_frames_ok _ s f vm1 E1)). exact E2. }
  rewrite (bind_run _ _ _ _ _ Es), (proj2 (Z.eqb_neq f 0)) by lia. cbn in F2. unfold CPU_STACK_SIZE in *.
  destruct (map_rest_ok f STACK_FRAMES 0 (s_acpi (with_pages s vm2)) tab (wd_direct _ _ _ _ W2) ltac:(lia) ltac:(lia)
    ltac:(change (Z.of_nat STACK_FRAMES) with 4; lia) ltac:(change (Z.of_nat STACK_FRAMES) with 4; cbn; lia))
    as (vm3 & tab3 & E3 & W3 & P3 & F3 & _). cbn in W3, F3. change (Z.of_nat STACK_FRAMES) with 4 in *.
  replace (u64 (f + HIGHER_HALF)) with (win f) by (unfold win, HIGHER_HALF; rewrite u64_small; lia).
  assert (Em : map_stack STACK_FRAMES 0 (win f) f (with_pages s vm2) = Ok (tt, with_pages s vm3)).
  { rewrite map_stack_rest. unfold on_acpi. rewrite E3. reflexivity. }
  exists vm3, tab3, f. split; [by eapply widens_trans; [|eapply widens_trans]|]. split; [lia|]. split; [done|]. split.
  { intros j Hj. apply (direct_there vm3 tab3); [apply W3|unfold in_window; lia|]. rewrite <- (P3 j Hj). do 4 f_equal. lia. }
  rewrite (bind_run (map_stack STACK_FRAMES 0 (win f) f;; mret _) _ _ (win (f + 16384)) (with_pages s vm3)).
  - reflexivity.
  - rewrite (bind_run _ _ _ _ _ Em).
    replace (u64 (win f + 16 * 1024)) with (win (f + 16384)) by (unfold win, HIGHER_HALF; rewrite u64_small; lia). done.
Qed.

(** *** The entries of the table *)

Definition wf_entry (e : list Z) : Prop :=
  (2 ≤ length e)%nat ∧ nthz e 1 = Z.of_nat (length e) ∧ (nthz e 0 = 0 → (8 ≤ length e)%nat).
Definition enabled (e : list Z) : Prop := nthz e 0 = 0 ∧ Z.land (nthz e 4) 1 ≠ 0.
#[export] Instance enabled_dec e : Decision (enabled e).
Proof. unfold enabled. apply _. Defined.

Lemma fw_bytes_length n : ∀ p, length (fw_bytes firmware n p) = n.
Proof. induction n as [|n IH]; intros p; cbn; [done|by rewrite IH]. Qed.

Lemma nthz_tail x l j : 0 < j → nthz (x :: l) j = nthz l (j - 1).
Proof.
  intros Hj. unfold nthz. rewrite !(proj2 (Z.leb_le 0 _)) by lia.
  by replace (Z.to_nat j) with (S (Z.to_nat (j - 1))) by lia.
Qed.

Lemma fw_bytes_nthz n : ∀ p j, 0 ≤ j < Z.of_nat n → nthz (fw_bytes firmware n p) j = fw8 firmware (p + j).
Proof.
  induction n as [|n IH]; intros p j Hj; [lia|]. cbn [fw_bytes]. destruct (decide (j = 0)) as [->|Hne].
  { by rewrite Z.add_0_r. }
  rewrite nthz_tail, IH by lia. f_equal. lia.
Qed.

Lemma fw_bytes_app n k : ∀ p, fw_bytes firmware (n + k) p = fw_bytes firmware n p ++ fw_bytes firmware k (p + Z.of_nat n).
Proof.
  induction n as [|n IH]; intros p; [by rewrite Z.add_0_r|]. cbn [Nat.add fw_bytes app]. rewrite IH. do 3 f_equal. lia.
Qed.

Lemma fw_bytes_split p es e : fw_bytes firmware (length (concat (e :: es))) p = concat (e :: es) →
  fw_bytes firmware (length e) p = e ∧ fw_bytes firmware (length (concat es)) (p + Z.of_nat (length e)) = concat es.
Proof.
  cbn [concat]. rewrite length_app, fw_bytes_app. intros E. apply app_inj_1 in E; [done|apply fw_bytes_length].
Qed.

Lemma land_word_bit p : Z.land (fw32 firmware p) 1 = Z.land (fw8 firmware p) 1.
Proof.
  change 1 with (Z.ones 1). rewrite !Z.land_ones by done. change (2 ^ 1) with 2. unfold fw32, fw16.
  replace (_ + _) with (fw8 firmware p + (2 ^ 7 * fw8 firmware (p + 1) + 2 ^ 15 * (fw8 firmware (p + 2) + 2 ^ 8 * fw8 firmware (p + 2 + 1))) * 2) by lia.
  by rewrite Z.mod_add.
Qed.

(** The processors an announcement of enabled entries becomes, numbered from [i]. *)
Definition announced (m msr i : Z) (es : list (list Z)) (vm : VirtualMemoryManager) (cpus : list CPUInfo) : Prop :=
  length cpus = length (filter enabled es) ∧
  forall k c, cpus !! k = Some c → exists e f, filter enabled es !! k = Some e ∧
    c = cpu_of m (nthz e 3) msr (i + Z.of_nat k) (win (f + CPU_STACK_SIZE)) ∧ 4096 ≤ f < 2 ^ 46 - CPU_STACK_SIZE ∧
    forall j, 0 ≤ j < 4 → there vm (f + 4096 * j).

Definition count_enabled (es : list (list Z)) : Z := Z.of_nat (length (filter enabled es)).

(** The entry at [p] and what the loop reads of it. *)
Lemma entry_read s p e es : 4096 ≤ p → p + Z.of_nat (length (concat (e :: es))) < 2 ^ 45 →
  (∀ q, p ≤ q < p + Z.of_nat (length (concat (e :: es))) → there (vm_of s) q) →
  fw_bytes firmware (length (concat (e :: es))) p = concat (e :: es) → wf_entry e →
  byte_at firmware (win p) s = Ok (nthz e 0, s) ∧ byte_at firmware (win p + 1) s = Ok (Z.of_nat (length e), s) ∧
  (nthz e 0 = 0 → there (vm_of s) (p + 3) ∧ fw8 firmware (p + 3) = nthz e 3 ∧
     exists flags, word_at firmware (win p + 4) s = Ok (flags, s) ∧ Z.land flags 1 = Z.land (nthz e 4) 1).
Proof.
  intros H0 Hb Ht E (H2 & H1 & H8). destruct (fw_bytes_split _ _ _ E) as [Ee _]. cbn [concat] in Hb, Ht. rewrite length_app in Hb, Ht.
  assert (Hn : ∀ j, 0 ≤ j < Z.of_nat (length e) → fw8 firmware (p + j) = nthz e j).
  { intros j Hj. rewrite <- Ee. by rewrite fw_bytes_nthz. }
  assert (Hr : ∀ j, 0 ≤ j < Z.of_nat (length e) → byte_at firmware (win p + j) s = Ok (nthz e j, s)).
  { intros j Hj. replace (win p + j) with (win (p + j)) by (unfold win; lia).
    rewrite byte_at_ok, Hn; [done|done|unfold in_window; lia|lia|apply Ht; lia]. }
  split; [rewrite <- (Z.add_0_r (win p)); apply Hr; lia|]. split; [rewrite Hr, H1 by lia; done|].
  intros Hz. specialize (H8 Hz). split; [apply Ht; lia|]. split; [apply Hn; lia|]. exists (fw32 firmware (p + 4)).
  replace (win p + 4) with (win (p + 4)) by (unfold win; lia).
  rewrite word_at_ok; [|lia|lia|intros q Hq; apply Ht; lia]. rewrite land_word_bit, Hn by lia. done.
Qed.

Lemma announced_nil m msr i vm : announced m msr i [] vm [].
Proof. split; [done|]. intros k c Hk. done. Qed.

Lemma announced_widens m msr i es vm tab vm' tab' cpus : widens vm tab vm' tab' → direct vm tab →
  announced m msr i es vm cpus → announced m msr i es vm' cpus.
Proof.
  intros W D [Hl Hc]. split; [done|]. intros k c Hk. destruct (Hc k c Hk) as (e & f & He & Ec & Hf & Ht).
  exists e, f. split_and!; [done..|lia|lia|]. intros j Hj. unfold CPU_STACK_SIZE in Hf.
  apply (widens_there vm tab vm' tab'); [done|done|lia|unfold in_window; lia|by apply Ht].
Qed.

Lemma announced_cons m msr i e es vm c cpus f : enabled e →
  c = cpu_of m (nthz e 3) msr i (win (f + CPU_STACK_SIZE)) → 4096 ≤ f < 2 ^ 46 - CPU_STACK_SIZE →
  (∀ j, 0 ≤ j < 4 → there vm (f + 4096 * j)) → announced m msr (i + 1) es vm cpus →
  announced m msr i (e :: es) vm (c :: cpus).
Proof.
  intros He Hc Hf Ht [Hl Hcs]. unfold announced. rewrite filter_cons_True by done. split; [cbn; by rewrite Hl|].
  intros [|k] c' Hk; cbn in Hk.
  - injection Hk as <-. exists e, f. rewrite Z.add_0_r. done.
  - destruct (Hcs k c' Hk) as (e' & f' & He' & Ec' & Hf' & Ht'). exists e', f'. split; [done|].
    replace (i + Z.of_nat (S k)) with (i + 1 + Z.of_nat k) by lia. done.
Qed.

Lemma announced_skip m msr i e es vm cpus : ¬ enabled e → announced m msr i es vm cpus → announced m msr i (e :: es) vm cpus.
Proof. intros He H. unfold announced. by rewrite filter_cons_False. Qed.

Lemma detect_entries_ok m es : ∀ p i s tab fuel,
  direct (vm_of s) tab → small_memory (vm_of s) → 16 * count_enabled es ≤ m_free_frames (v_pmm (vm_of s)) →
  4096 ≤ m → m + 44 ≤ p → p + Z.of_nat (length (concat es)) < 2 ^ 45 →
  (∀ q, m ≤ q < p + Z.of_nat (length (concat es)) → there (vm_of s) q) →
  fw_bytes firmware (length (concat es)) p = concat es → Forall wf_entry es → (length es ≤ fuel)%nat →
  exists vm' tab' cpus, widens (vm_of s) tab vm' tab' ∧ announced m (s_apic_base s) i es vm' cpus ∧
    detect_entries firmware (S fuel) (win m) (win p) (win (p + Z.of_nat (length (concat es)))) i s =
      Ok (i + count_enabled es, set_cpus (m_cpus (s_smp s) ++ cpus) (with_pages s vm')).
Proof.
  induction es as [|e es IH]; intros p i s tab fuel D Hsm Hf H0 Hmp Hb Ht E Hwf Hfuel; cbn [detect_entries].
  { cbn [concat length]. rewrite Z.add_0_r, (proj2 (Z.ltb_ge (win p) (win p))) by lia. exists (vm_of s), tab, [].
    split; [by apply widens_refl|]. split; [apply announced_nil|]. unfold count_enabled. cbn. rewrite app_nil_r, Z.add_0_r, with_pages_id.
    by destruct s as [[] ? ? ? ? ? ?]. }
  apply Forall_cons in Hwf as [Hwe Hwf]. pose proof Hwe as (He2 & He1 & He8).
  destruct (entry_read s p e es ltac:(lia) ltac:(lia) ltac:(intros q Hq; apply Ht; lia) E Hwe) as (Er0 & Er1 & Er).
  destruct (fw_bytes_split _ _ _ E) as [_ Ees].
  assert (Hlen : Z.of_nat (length (concat (e :: es))) = Z.of_nat (length e) + Z.of_nat (length (concat es)))
    by (cbn [concat]; rewrite length_app; lia). rewrite Hlen in *.
  replace (p + (Z.of_nat (length e) + Z.of_nat (length (concat es)))) with (p + Z.of_nat (length e) + Z.of_nat (length (concat es))) in * by lia.
  destruct fuel as [|fuel]; [cbn in Hfuel; lia|].
  rewrite (proj2 (Z.ltb_lt (win p) _)) by (unfold win; lia). cbn [negb]. rewrite (bind_run _ _ _ _ _ Er0).
  replace (win p + Z.of_nat (length e)) with (win (p + Z.of_nat (length e))) by (unfold win; lia).
  destruct (decide (enabled e)) as [Hen|Hen].
  - assert (Hce : count_enabled (e :: es) = 1 + count_enabled es) by (unfold count_enabled; rewrite filter_cons_True by done; cbn [length]; lia).
    rewrite Hce in *. destruct Hen as [Hz Hbit]. destruct (Er Hz) as (Ht3 & Ef3 & flags & Ew & Eb).
    assert (0 ≤ count_enabled es) by (unfold count_enabled; lia).
    destruct (add_cpu_ok s tab m p i D Hsm ltac:(lia) ltac:(lia) ltac:(lia) ltac:(intros q Hq; apply Ht; lia) Ht3)
      as (vm1 & tab1 & f & W1 & F1 & Hf0 & Hst & Ea).
    rewrite Ef3 in Ea. set (s1 := set_cpus _ _) in Ea.
    destruct (IH (p + Z.of_nat (length e)) (i + 1) s1 tab1 fuel) as (vm2 & tab2 & cpus & W2 & Han & E2); try done.
    { apply W1. } { apply (small_memory_layout (vm_of s)); [apply W1|done]. } { cbn. lia. } { lia. }
    { intros q Hq. apply (widens_there (vm_of s) tab vm1 tab1); [done|done|lia|unfold in_window; lia|]. apply Ht. lia. }
    { cbn in Hfuel. lia. }
    exists vm2, tab2, (cpu_of m (nthz e 3) (s_apic_base s) i (win (f + CPU_STACK_SIZE)) :: cpus).
    split; [by eapply widens_trans|]. split.
    { apply (announced_cons _ _ _ _ _ _ _ _ f); [done|done|done| |exact Han]. intros j Hj. unfold CPU_STACK_SIZE in Hf0.
      apply (widens_there vm1 tab1 vm2 tab2); [done|apply W1|lia|unfold in_window; lia|by apply Hst]. }
    rewrite Hz. cbn [Z.eqb].
    rewrite (bind_run _ _ _ (i + 1) s1).
    2:{ rewrite (bind_run _ _ _ _ _ Ew), Eb, (proj2 (Z.eqb_neq _ 0)) by done. cbn [negb]. by rewrite (bind_run _ _ _ _ _ Ea). }
    destruct (entry_read s1 p e es) as (_ & Er1' & _); try done; rewrite ?Hlen; try lia.
    { intros q Hq. apply (widens_there (vm_of s) tab vm1 tab1); [done|done|lia|unfold in_window; lia|]. apply Ht. lia. }
    rewrite (bind_run _ _ _ _ _ Er1'). replace (win p + Z.of_nat (length e)) with (win (p + Z.of_nat (length e))) by (unfold win; lia).
    rewrite E2. f_equal. f_equal; [lia|]. unfold s1. cbn. by rewrite <- app_assoc.
  - assert (Hce : count_enabled (e :: es) = count_enabled es) by (unfold count_enabled; by rewrite filter_cons_False).
    rewrite Hce in *.
    destruct (IH (p + Z.of_nat (length e)) i s tab fuel) as (vm2 & tab2 & cpus & W2 & Han & E2); try done; try lia.
    { cbn in Hfuel. lia. }
    exists vm2, tab2, cpus. split; [done|]. split; [by apply announced_skip|].
    rewrite (bind_run _ _ _ i s); [rewrite (bind_run _ _ _ _ _ Er1); replace (win p + Z.of_nat (length e)) with (win (p + Z.of_nat (length e))) by (unfold win; lia); exact E2|].
    destruct (Z.eqb_spec (nthz e 0) 0) as [Hz|Hz]; [|done]. destruct (Er Hz) as (_ & _ & flags & Ew & Eb).
    rewrite (bind_run _ _ _ _ _ Ew), Eb. destruct (Z.eqb_spec (Z.land (nthz e 4) 1) 0); [done|]. by destruct Hen.
Qed.

(** An entry of length 0 that is no enabled processor: the walk never leaves it. *)
Lemma detect_entries_stuck fuel p m end_ i s : in_window p → in_window (p + 1) → 4096 ≤ p → win p < end_ →
  there (vm_of s) p → there (vm_of s) (p + 1) → fw8 firmware p ≠ 0 → fw8 firmware (p + 1) = 0 →
  detect_entries firmware fuel m (win p) end_ i s = OutOfFuel.
Proof.
  intros Hp Hp1 H0 He Ht Ht1 Ez El. induction fuel as [|fuel IH]; [done|]. cbn [detect_entries].
  rewrite (proj2 (Z.ltb_lt _ _)) by done. cbn [negb].
  rewrite (bind_run _ _ _ _ _ (byte_at_ok s p Hp H0 Ht)), (proj2 (Z.eqb_neq _ 0)) by done. st.
  replace (win p + 1) with (win (p + 1)) by (unfold win; lia).
  rewrite (bind_run _ _ _ _ _ (byte_at_ok s (p + 1) Hp1 ltac:(lia) Ht1)), El, Z.add_0_r. exact IH.
Qed.
End smp_walk.

(** ** Messages *)

Definition screen_wf (s : Smp) : Prop := term_wf (a_screen (s_acpi s)).
Definition with_message (s : Smp) (t : Terminal) : Smp := set_acpi (Acpi.with_screen (s_acpi s) t) s.

Lemma tell_ok msg args l n s : vprintf (text msg ++ [0x0A]) args = Ok (l, n) → screen_wf s →
  exists t, tell msg args s = Ok (tt, with_message s t) ∧ term_wf t.
Proof.
  intros E Ht. destruct (say_ok msg args l n (s_acpi s) E Ht) as (t & Es & Hw). exists t. split; [|done].
  unfold tell, on_acpi. by rewrite Es.
Qed.

(** [tell_run]: runs the message at the head of a computation. *)
Ltac tell_run t Ht :=
  match goal with
  | |- context [tell ?msg ?args ?s] =>
      let E := fresh in
      destruct (tell_ok msg args _ _ s eq_refl ltac:(assumption)) as (t & E & Ht); try rewrite (bind_run _ _ _ _ _ E); try rewrite E; clear E
  | |- context [(tell ?msg ?args ≫= _) ?s] =>
      let E := fresh in
      destruct (tell_ok msg args _ _ s eq_refl ltac:(assumption)) as (t & E & Ht); rewrite (bind_run _ _ _ _ _ E); clear E
  end.

Section smp_theorems.
Variable firmware : Z → Z.

(** The walk through the table of processors: the enabled ones, in the
    order of their entries, numbered from 0, each with its interrupt controller's
    number, the flag of the bootstrap processor, and a stack of four mapped pages;
    when there is none, one default processor. *)
Theorem detect_cpus_spec m es s tab :
  g_madt (s_acpi s) = win m → m_cpus (s_smp s) = [] → screen_wf s →
  direct (vm_of s) tab → small_memory (vm_of s) → 16 * count_enabled es ≤ m_free_frames (v_pmm (vm_of s)) →
  4096 ≤ m → m + fw32 firmware (m + 4) < 2 ^ 45 → (∀ q, m ≤ q < m + fw32 firmware (m + 4) → there (vm_of s) q) →
  fw32 firmware (m + 4) = 44 + Z.of_nat (length (concat es)) →
  fw_bytes firmware (length (concat es)) (m + 44) = concat es → Forall wf_entry es →
  exists s' tab', detect_cpus firmware (S (length es)) s = Ok (tt, s') ∧ direct (vm_of s') tab' ∧
    m_cpu_count (s_smp s') = Z.max 1 (count_enabled es) ∧
    if decide (filter enabled es = []) then m_cpus (s_smp s') = [default_bsp]
    else announced firmware m (s_apic_base s) 0 es (vm_of s') (m_cpus (s_smp s')).
Proof.
  intros Em Ec Hs D Hsm Hf H0 Hb Ht HL Eb Hwf. unfold detect_cpus.
  assert (Eg : on_acpi get_madt s = Ok (win m, s)) by (apply on_acpi_same; unfold get_madt, gets; by rewrite Em).
  rewrite (bind_run _ _ _ _ _ Eg). pose proof (win_range m ltac:(unfold in_window; lia)). unfold HIGHER_HALF in *.
  rewrite (proj2 (Z.eqb_neq (win m) 0)) by lia. replace (win m + 4) with (win (m + 4)) by (unfold win; lia).
  rewrite (bind_run _ _ _ _ _ (word_at_ok firmware s (m + 4) ltac:(lia) ltac:(lia) ltac:(intros q Hq; apply Ht; lia))).
  destruct (detect_entries_ok firmware m es (m + 44) 0 s tab (length es)) as (vm' & tab' & cpus & W & Han & E); try done; try lia.
  { intros q Hq. apply Ht. lia. }
  replace (win m + sizeof_ACPIMADT) with (win (m + 44)) by (unfold win, sizeof_ACPIMADT; lia).
  replace (win m + fw32 firmware (m + 4)) with (win (m + 44 + Z.of_nat (length (concat es)))) by (unfold win; lia).
  rewrite (bind_run _ _ _ _ _ E), Ec, Z.add_0_l. cbn [app]. st. unfold get_cpus. st. cbn [m_cpus set_cpus set_count set_smp s_smp].
  pose proof (proj1 Han) as Hlen.
  assert (Hz : filter enabled es = [] ↔ cpus = []).
  { split; [intros E0; rewrite E0 in Hlen; by apply length_zero_iff_nil in Hlen|intros ->; symmetry in Hlen; by apply length_zero_iff_nil in Hlen]. }
  assert (Hcnt : count_enabled es = Z.of_nat (length cpus)) by (unfold count_enabled; by rewrite Hlen).
  destruct (decide (filter enabled es = [])) as [E0|E0].
  - apply Hz in E0 as ->. rewrite Hcnt. cbn [length Z.of_nat Z.eqb].
    rewrite decide_True, (bind_run (modify _;; modify _) _ _ _ _ eq_refl) by done. st. cbn [s_smp set_cpus set_count set_smp m_cpu_count].
    match goal with |- context [tell _ _ ?x] => assert (Hx : screen_wf x) by exact Hs end.
    tell_run t Hw. eexists _, tab'. split; [reflexivity|]. split; [apply W|]. done.
  - assert (Hne : cpus ≠ []) by (intros E1; by apply E0, Hz). rewrite (decide_False (P := cpus = [])) by done.
    assert (length cpus ≠ 0%nat) by (by rewrite length_zero_iff_nil). rewrite (proj2 (Z.eqb_neq (count_enabled es) 0)) by lia.
    st. cbn [s_smp set_cpus set_count set_smp m_cpu_count].
    match goal with |- context [tell _ _ ?x] => assert (Hx : screen_wf x) by exact Hs end.
    tell_run t Hw. eexists _, tab'. split; [reflexivity|]. split; [apply W|]. split; [cbn; lia|exact Han].
Qed.

(** ** Starting the processors *)

Variable ap_started : Z → bool.

(** The processors but for which of them are running. *)
Definition core (l : list CPUInfo) : list CPUInfo := map (with_active false) l.

(** The two interrupts, the second sent twice, each in two writes. *)
Definition startup_writes (base lapic : Z) : list (Z * Z * Z) :=
  let icr_high := u32 (Z.shiftl lapic 24) in
  let send icr_low := [(base, LAPIC_ICR_HIGH, icr_high); (base, LAPIC_ICR_LOW, icr_low)] in
  send 0x4500 ++ send 0x4608 ++ send 0x4608.

(** What the start of processors leaves alone. *)
Record same_machine (s s' : Smp) : Prop := {
  sm_core : core (m_cpus (s_smp s')) = core (m_cpus (s_smp s));
  sm_count : m_cpu_count (s_smp s') = m_cpu_count (s_smp s);
  sm_enabled : m_smp_enabled (s_smp s') = m_smp_enabled (s_smp s);
  sm_msr : s_apic_base s' = s_apic_base s;
  sm_vmm : vm_of s' = vm_of s
}.

Lemma same_machine_refl s : same_machine s s.
Proof. by split. Qed.
Lemma same_machine_trans s1 s2 s3 : same_machine s1 s2 → same_machine s2 s3 → same_machine s1 s3.
Proof. intros [] []. split; congruence. Qed.

Lemma core_alter k b l : core (alter (with_active b) k l) = core l.
Proof.
  apply list_eq. intros j. unfold core. rewrite !list_lookup_fmap.
  destruct (decide (j = k)) as [->|]; [rewrite list_lookup_alter_eq|by rewrite list_lookup_alter_ne].
  by destruct (l !! k).
Qed.

Lemma core_lookup l l' k c : core l = core l' → l !! k = Some c → exists c', l' !! k = Some c' ∧ with_active false c' = with_active false c.
Proof.
  intros E Hk. assert (H : core l !! k = Some (with_active false c)) by (unfold core; by rewrite list_lookup_fmap, Hk).
  rewrite E in H. unfold core in H. apply list_lookup_fmap_Some in H as (c' & Ec & Hk'). by exists c'.
Qed.

Lemma cpu_at_ok k s c : m_cpus (s_smp s) !! k = Some c → cpu_at k s = Ok (c, s).
Proof. intros E. unfold cpu_at, get_cpus. st. by rewrite E. Qed.

Lemma index_where_Some f l : ∀ k, index_where f l = Some k → exists c, l !! k = Some c ∧ f c = true.
Proof.
  induction l as [|c l IH]; intros k; cbn; [done|]. destruct (f c) eqn:Ef; [intros [= <-]; by exists c|].
  intros (k' & Ek & ->)%fmap_Some. by apply IH.
Qed.

(** Reads of the list and the messages, at the head of a computation. *)
Lemma get_cpu_info_run {A} (f : option nat → SMP A) i s :
  (get_cpu_info i ≫= f) s = f (index_where (λ c, id c =? i) (m_cpus (s_smp s))) s.
Proof. done. Qed.

Lemma with_message_same s t : same_machine s (with_message s t).
Proof. by split. Qed.

Lemma ap_main_ok i s : screen_wf s →
  exists s', ap_main i s = Ok (tt, s') ∧ same_machine s s' ∧ s_lapic s' = s_lapic s ∧ screen_wf s'.
Proof.
  intros Hs. unfold ap_main. rewrite get_cpu_info_run. destruct (index_where _ _) as [k|] eqn:Ek.
  - apply index_where_Some in Ek as (c & Ek & _). unfold cpu_set. st. set (s1 := set_ap _ _ _ (set_cpus _ s)).
    assert (E1 : m_cpus (s_smp s1) !! k = Some (with_active true c)) by (cbn; by rewrite list_lookup_alter_eq, Ek).
    rewrite (bind_run _ _ _ _ _ (cpu_at_ok k s1 _ E1)). assert (H1 : screen_wf s1) by exact Hs.
    tell_run t Ht. eexists. split; [reflexivity|]. split; [|done].
    split; [|done..]. apply core_alter.
  - tell_run t Ht. eexists. split; [reflexivity|]. done.
Qed.

Lemma send_startup_ok base lapic s : exists s',
  send_startup base lapic s = Ok (tt, s') ∧ same_machine s s' ∧ s_lapic s' = s_lapic s ++ startup_writes base lapic ∧
  s_acpi s' = s_acpi s.
Proof. eexists. split; [reflexivity|]. split; [by split|]. split; [|done]. cbn. by rewrite <- !app_assoc. Qed.

(** One processor of the list. *)
Definition start_writes (base : Z) (c : CPUInfo) : list (Z * Z * Z) :=
  if is_bsp c then [] else startup_writes base (lapic_id c).

Lemma start_cpus_ok n bsp b L : L !! bsp = Some b → ∀ k s, core (m_cpus (s_smp s)) = core L → (k + n)%nat = length L → screen_wf s →
  exists s', start_cpus ap_started n k bsp s = Ok (tt, s') ∧ same_machine s s' ∧ screen_wf s' ∧
    s_lapic s' = s_lapic s ++ (drop k L ≫= start_writes (local_apic_base b)).
Proof.
  intros Hb. induction n as [|n IH]; intros k s Hcore Hk Hs; cbn [start_cpus].
  { exists s. rewrite drop_ge by lia. cbn. rewrite app_nil_r. split_and!; [done|apply same_machine_refl|done..]. }
  destruct (lookup_lt_is_Some_2 L k) as [c Ec]; [lia|].
  rewrite (drop_S L c k Ec). cbn [mbind list_bind].
  destruct (core_lookup L _ k c (eq_sym Hcore) Ec) as (c1 & Ec1 & Hc1). rewrite (bind_run _ _ _ _ _ (cpu_at_ok k s c1 Ec1)).
  assert (Hbs : is_bsp c1 = is_bsp c) by (by destruct c, c1; injection Hc1 as ->).
  assert (Hlp : lapic_id c1 = lapic_id c) by (by destruct c, c1; injection Hc1 as ->).
  assert (Hstep : exists s2, (if is_bsp c1 then mret tt else
         tell "Starting AP CPU %u (LAPIC ID: %u)..." [AInt (id c1); AInt (lapic_id c1)];;
         modify (λ s, set_ap (g_ap_ready_count s) (id c1) (s_trampoline s) s);;
         bsp_info ← cpu_at bsp;
         send_startup (local_apic_base bsp_info) (lapic_id c1);;
         (if ap_started (id c1) then ap_main (id c1) else mret tt);;
         cpu ← cpu_at k;
         if is_active cpu then mret tt else tell "Failed to start AP CPU %u" [AInt (id cpu)]) s = Ok (tt, s2) ∧
       same_machine s s2 ∧ screen_wf s2 ∧ s_lapic s2 = s_lapic s ++ start_writes (local_apic_base b) c).
  { unfold start_writes. rewrite Hbs. destruct (is_bsp c).
    { exists s. rewrite app_nil_r. split_and!; [done|apply same_machine_refl|done..]. }
    tell_run t Ht. st. set (s1 := set_ap _ _ _ _).
    assert (Hs1 : same_machine s s1) by done.
    destruct (core_lookup L (m_cpus (s_smp s1)) bsp b (eq_sym Hcore) Hb) as (b1 & Eb1 & Hb1).
    rewrite (bind_run _ _ _ _ _ (cpu_at_ok bsp s1 b1 Eb1)).
    assert (Hbase : local_apic_base b1 = local_apic_base b) by (by destruct b, b1; injection Hb1 as ->).
    destruct (send_startup_ok (local_apic_base b1) (lapic_id c1) s1) as (s2 & E2 & M2 & L2 & A2). rewrite (bind_run _ _ _ _ _ E2).
    assert (Hs2 : screen_wf s2) by (unfold screen_wf; rewrite A2; exact Ht).
    assert (Hap : exists s3, (if ap_started (id c1) then ap_main (id c1) else mret tt) s2 = Ok (tt, s3) ∧ same_machine s2 s3 ∧
      s_lapic s3 = s_lapic s2 ∧ screen_wf s3).
    { destruct (ap_started _); [by apply ap_main_ok|]. exists s2. split_and!; [done|apply same_machine_refl|done..]. }
    destruct Hap as (s3 & E3 & M3 & L3 & Hs3). rewrite (bind_run _ _ _ _ _ E3).
    destruct (core_lookup L (m_cpus (s_smp s3)) k c) as (c3 & Ec3 & _); [by rewrite (sm_core _ _ M3), (sm_core _ _ M2)|done|].
    rewrite (bind_run _ _ _ _ _ (cpu_at_ok k s3 c3 Ec3)).
    assert (M : same_machine s s3) by (eapply same_machine_trans; [exact Hs1|]; by eapply same_machine_trans).
    assert (HL : s_lapic s3 = s_lapic s ++ startup_writes (local_apic_base b) (lapic_id c)) by (by rewrite L3, L2, Hbase, Hlp).
    destruct (is_active c3); [by exists s3|]. tell_run t3 Ht3. eexists. split; [reflexivity|].
    split; [by eapply same_machine_trans; [exact M|]|done]. }
  destruct Hstep as (s2 & E2 & M2 & Hs2 & L2). rewrite (bind_run _ _ _ _ _ E2).
  destruct (IH (S k) s2) as (s3 & E3 & M3 & Hs3 & L3); [by rewrite (sm_core _ _ M2)|lia|done|].
  exists s3. split; [exact E3|]. split; [by eapply same_machine_trans|]. split; [done|]. by rewrite L3, L2, <- app_assoc.
Qed.

(** Which processors [detect_active_cores] calls running. *)
Definition counted_active (c : CPUInfo) : bool := is_bsp c || negb (kernel_stack c =? 0).

Lemma core_map f l : core (map (λ c, with_active (f c) c) l) = core l.
Proof. unfold core. rewrite map_map. by apply map_ext. Qed.

Lemma get_current_cpu_info_ok s : exists r, get_current_cpu_info s = Ok (r, s) ∧
  forall k, r = Some k → exists c, m_cpus (s_smp s) !! k = Some c.
Proof.
  assert (Hcur : ∃ i, get_current_cpu_id s = Ok (i, s)).
  { unfold get_current_cpu_id, read_msr, get_cpus. st. destruct (index_where _ _); [by eexists|]. destruct (index_where _ _); by eexists. }
  destruct Hcur as (i & Ei). unfold get_current_cpu_info. rewrite (bind_run _ _ _ _ _ Ei). eexists. split; [reflexivity|].
  intros k (c & Ec & _)%index_where_Some. by exists c.
Qed.

(** A processor with a stack is called active, whether or not it answered. *)
Lemma detect_active_cores_ok s : screen_wf s →
  exists s', detect_active_cores s = Ok (tt, s') ∧ same_machine s s' ∧ s_lapic s' = s_lapic s ∧ screen_wf s' ∧
    (m_cpus (s_smp s') = m_cpus (s_smp s) ∨ m_cpus (s_smp s') = map (λ c, with_active (counted_active c) c) (m_cpus (s_smp s))).
Proof.
  intros Hs. unfold detect_active_cores. st. destruct (_ || _).
  { exists s. split; [done|]. split; [apply same_machine_refl|]. auto. }
  destruct (get_current_cpu_info_ok s) as (r & Er & Hr). rewrite (bind_run _ _ _ _ _ Er).
  destruct r as [k|]; cycle 1.
  { exists s. split; [done|]. split; [apply same_machine_refl|]. auto. }
  destruct (Hr k eq_refl) as (c & Ec). rewrite (bind_run _ _ _ _ _ (cpu_at_ok k s c Ec)).
  destruct (local_apic_base c =? 0).
  { exists s. split; [done|]. split; [apply same_machine_refl|]. auto. }
  eexists. split; [reflexivity|]. split; [split; [apply core_map|done..]|]. split; [done|]. split; [done|].
  right. cbn. apply map_ext. intros c'. unfold counted_active. by destruct (is_bsp c').
Qed.

(** [C34] The start of the application processors: every processor but the first
    marked as the bootstrap processor is sent the reset and two start interrupts,
    in the order of the list, through the bootstrap processor's controller; when
    none is so marked, nothing is sent.  Nothing else about the processors
    changes but which are called active. *)
Theorem startup_application_processors_spec s :
  screen_wf s → m_smp_enabled (s_smp s) = true → 1 < m_cpu_count (s_smp s) →
  vm_map_page CPU_TRAMPOLINE_ADDR CPU_TRAMPOLINE_ADDR true (vm_of s) = Ok (tt, vm_of s) →
  exists s', startup_application_processors ap_started s = Ok (tt, s') ∧ same_machine s s' ∧
    s_lapic s' = s_lapic s ++
      match index_where is_bsp (m_cpus (s_smp s)) with
      | Some k => m_cpus (s_smp s) ≫= start_writes (from_option local_apic_base 0 (m_cpus (s_smp s) !! k))
      | None => []
      end.
Proof.
  intros Hs He Hc Ep. unfold startup_application_processors. st. rewrite He, (proj2 (Z.leb_gt _ 1)) by lia. cbn [negb orb]. st.
  set (s1 := set_ap _ _ _ s).
  assert (Ep1 : on_frames (vm_map_page CPU_TRAMPOLINE_ADDR CPU_TRAMPOLINE_ADDR true) s1 = Ok (tt, with_pages s1 (vm_of s))).
  { by apply on_frames_ok. }
  rewrite (bind_run _ _ _ _ _ Ep1). st. set (s2 := set_ap _ _ _ (with_pages s1 _)). unfold get_cpus. st.
  assert (M2 : same_machine s s2) by done. assert (L2 : s_lapic s2 = s_lapic s) by done. assert (Hs2 : screen_wf s2) by exact Hs.
  change (m_cpus (s_smp s2)) with (m_cpus (s_smp s)).
  destruct (index_where is_bsp (m_cpus (s_smp s))) as [k|] eqn:Ek; cycle 1.
  { tell_run t Ht. eexists. split; [reflexivity|]. split; [done|]. cbn. by rewrite app_nil_r. }
  apply index_where_Some in Ek as (b & Eb & _). rewrite Eb. cbn [from_option].
  destruct (start_cpus_ok (length (m_cpus (s_smp s))) k b (m_cpus (s_smp s)) Eb 0 s2) as (s3 & E3 & M3 & Hs3 & L3); [done|done|done|].
  rewrite (bind_run _ _ _ _ _ E3). rewrite drop_0 in L3.
  destruct (detect_active_cores_ok s3) as (s4 & E4 & M4 & L4 & Hs4 & _); [done|].
  rewrite (bind_run _ _ _ _ _ E4). st. tell_run t Ht. eexists. split; [reflexivity|]. split; [|cbn; by rewrite L4, L3, L2].
  eapply same_machine_trans; [exact M2|]. eapply same_machine_trans; [exact M3|]. eapply same_machine_trans; [exact M4|]. done.
Qed.
End smp_theorems.

(** ** Which processor is the first *)

(** The code takes the top of the controller's base address for the number of the
    running processor.  With the address processors start with, that number is
    0xFE: no processor with another one is marked as the bootstrap processor. *)
Lemma default_base_no_bsp firmware m i es vm cpus :
  Forall (λ e, nthz e 3 ≠ 0xFE) es → announced firmware m (DEFAULT_LAPIC_BASE + 0x900) i es vm cpus →
  index_where is_bsp cpus = None.
Proof.
  intros He [_ Hc]. assert (H : ∀ c, c ∈ cpus → is_bsp c = false).
  { intros c (k & Hk)%list_elem_of_lookup. destruct (Hc k c Hk) as (e & f & Hke & -> & _).
    apply list_elem_of_lookup_2, list_elem_of_filter in Hke as [_ Hin]. rewrite Forall_forall in He.
    unfold cpu_of. cbn [is_bsp]. specialize (He e Hin). cbn beta in He. change (Z.shiftr (DEFAULT_LAPIC_BASE + 0x900) 24) with 0xFE.
    rewrite (proj2 (Z.eqb_neq _ _) He). apply andb_false_r. }
  clear Hc. induction cpus as [|c cpus IH]; [done|]. cbn. rewrite H by left. rewrite IH; [done|]. intros c' Hc'. apply H. by right.
Qed.

(** The numbers of the processors and of their controllers. *)
Lemma announced_numbers firmware m msr i es vm cpus : announced firmware m msr i es vm cpus →
  map (λ c, (id c, lapic_id c)) cpus = imap (λ k e, (i + Z.of_nat k, nthz e 3)) (filter enabled es).
Proof.
  intros [Hl Hc]. apply list_eq. intros k. rewrite list_lookup_imap, list_lookup_fmap.
  destruct (cpus !! k) as [c|] eqn:Ek.
  - destruct (Hc k c Ek) as (e & f & -> & -> & _). done.
  - apply lookup_ge_None in Ek. rewrite (proj2 (lookup_ge_None (filter enabled es) k)) by lia. done.
Qed.

(** ** Witnesses *)

(** Two processors, the second of them disabled in the second table. *)
Definition lapic_entry (n flags : Z) : list Z := [0; 8; n; n; flags; 0; 0; 0].
Definition io_entry : list Z := [1; 12; 4; 0; 0; 0; 0xC0; 0xFE; 0; 0; 0; 0].
Definition small_entries : list (list Z) := [lapic_entry 0 1; io_entry; lapic_entry 1 1; lapic_entry 2 0].
Definition smp_firmware : Z → Z :=
  place [(0x7FE1000, sdt (text "APIC") ([0; 0; 0xE0; 0xFE; 1; 0; 0; 0] ++ concat small_entries))].

Definition boot_smp : Smp :=
  SmpState (Smpm 1 [] false) (set_madt (win 0x7FE1000) boot_acpi) (DEFAULT_LAPIC_BASE + 0x900) [] 0 0 false.

Lemma detect_cpus_spec_witness : exists s s',
  s_apic_base s = DEFAULT_LAPIC_BASE + 0x900 ∧ detect_cpus smp_firmware 5 s = Ok (tt, s') ∧ m_cpu_count (s_smp s') = 2 ∧
  map (λ c, (id c, lapic_id c)) (m_cpus (s_smp s')) = [(0, 0); (1, 1)] ∧
  index_where is_bsp (m_cpus (s_smp s')) = None.
Proof.
  destruct vmm_boot_tables as (tab & B & F). pose proof (boot_direct _ _ B) as D.
  assert (Hg : good_table smp_firmware 0x7FE1000) by (vm_compute; intuition discriminate).
  destruct (good_table_mapped smp_firmware 0x7FE1000 boot_acpi tab Hg D) as (vm' & tab' & W & Ht & F' & _).
  { cbn [a_vmm boot_acpi]. change (pages_mapped _) with 1. lia. }
  change (pages_mapped _) with 1 in F'. cbn [a_vmm boot_acpi] in F', W.
  set (s := with_pages boot_smp vm').
  destruct (detect_cpus_spec smp_firmware 0x7FE1000 small_entries s tab') as (s' & tab'' & E & _ & Hcount & Han).
  - done.
  - done.
  - exact boot_terminal_wf.
  - apply W.
  - apply (small_memory_layout vmm_boot); [apply W|]. unfold small_memory. vm_compute. intros [=].
  - change (16 * count_enabled small_entries) with 32. cbn [vm_of s with_pages set_acpi s_acpi with_vmm a_vmm]. lia.
  - lia.
  - by vm_compute.
  - exact Ht.
  - by vm_compute.
  - by vm_compute.
  - apply (bool_decide_unpack _). by vm_compute.
  - change (count_enabled small_entries) with 2 in Hcount. exists s, s'. split; [done|]. split; [exact E|]. split; [done|].
    rewrite decide_False in Han by (vm_compute; intros [=]). split; [by rewrite (announced_numbers _ _ _ _ _ _ _ Han)|].
    assert (Hne : Forall (λ e, nthz e 3 ≠ 0xFE) small_entries) by (apply (bool_decide_unpack _); by vm_compute).
    exact (default_base_no_bsp _ _ _ _ _ _ Hne Han).
Defined.

(** Two processors of which the second is the first's to start. *)
Definition two_cpus : list CPUInfo :=
  [Cpui 0 0 true (win 0xFEE00000) (win 0x110000) 0 true; Cpui 1 1 false (win 0xFEE00000) (win 0x120000) 0 false].
Definition two_smp (l : list CPUInfo) : Smp :=
  SmpState (Smpm 2 l true) boot_acpi (DEFAULT_LAPIC_BASE + 0x900) [] 0 0 false.

Lemma startup_application_processors_spec_witness :
  (exists s', startup_application_processors (λ _, true) (two_smp two_cpus) = Ok (tt, s') ∧
     s_lapic s' = startup_writes (win 0xFEE00000) 1) ∧
  (exists s', startup_application_processors (λ _, true) (two_smp (drop 1 two_cpus)) = Ok (tt, s') ∧ s_lapic s' = []).
Proof.
  destruct vmm_boot_tables as (tab & B & _).
  assert (Hm : vm_map_page CPU_TRAMPOLINE_ADDR CPU_TRAMPOLINE_ADDR true vmm_boot = Ok (tt, vmm_boot)).
  { unfold vm_map_page. by rewrite (boot_map_low vmm_boot tab CPU_TRAMPOLINE_ADDR CPU_TRAMPOLINE_ADDR true eq_refl B). }
  split.
  - destruct (startup_application_processors_spec (λ _, true) (two_smp two_cpus)) as (s' & E & _ & L);
      [exact boot_terminal_wf|done|done|exact Hm|]. exists s'. split; [exact E|exact L].
  - destruct (startup_application_processors_spec (λ _, true) (two_smp (drop 1 two_cpus))) as (s' & E & _ & L);
      [exact boot_terminal_wf|done|done|exact Hm|]. exists s'. split; [exact E|exact L].
Defined.
