(* ===== verification/Blocks.v ===== *)
(** * Blocks of the C++ heap (operator new and delete of src/kernel/src/lib/lib.cpp,
      as src/kernel/src/lib/{vector,string}.hpp use them)

    The memory the containers of the library own: blocks of slots, each slot
    either an object or raw storage.  Building, reading and destroying objects and
    giving blocks back is checked: what the C++ rules leave undefined is.  The
    block numbers are never used again, so that a pointer kept too long is found
    out; Heap.v is about where the blocks really are. *)

From S2P Require Import Prelude.

(** A block number is never 0, the null pointer. *)
Record Store (T : Type) := St { blocks : gmap Z (list (option T)); next_block : Z }.
Arguments St {T} _ _.
Arguments blocks {T} _.
Arguments next_block {T} _.

(** ** The middle of a list *)

Lemma insert_middle {A} (l1 l2 : list A) x y n : n = length l1 → <[n := y]> (l1 ++ x :: l2) = l1 ++ y :: l2.
Proof. intros ->. induction l1 as [|a l1 IH]; [done|]. cbn. f_equal. exact IH. Qed.

Lemma lookup_middle {A} (l1 l2 : list A) x n : n = length l1 → (l1 ++ x :: l2) !! n = Some x.
Proof. intros ->. by apply list_lookup_middle. Qed.

Section blocks.
Context {T : Type}.
Implicit Types (st : Store T) (b i n : Z) (x : T).

#[local] Abbreviation M := (ST (Store T)).

(** [operator new]: raw storage for [n] objects.  [served n] is whether the
    allocator has the room; it gives the null pointer otherwise. *)
Definition new_block (served : Z → bool) n : M Z := λ st,
  if served n
  then Ok (next_block st, St (<[next_block st := replicate (Z.to_nat n) None]> (blocks st)) (next_block st + 1))
  else Ok (0, st).

(** [operator delete] of a block: a second time is undefined. *)
Definition delete_block b : M unit := λ st,
  match blocks st !! b with
  | Some _ => Ok (tt, St (delete b (blocks st)) (next_block st))
  | None => UB
  end.

(** [if (m_data) operator delete(m_data)] *)
Definition delete_if b : M unit := if b =? 0 then mret tt else delete_block b.

(** [p[i]] *)
Definition slot b i : M T := λ st,
  match blocks st !! b with
  | Some l => if 0 <=? i then match l !! Z.to_nat i with Some (Some x) => Ok (x, st) | _ => UB end else UB
  | None => UB
  end.

(** A write into a block: a slot of it. *)
Definition put_slot b i (v : option T) : M unit := λ st,
  match blocks st !! b with
  | Some l =>
      if (0 <=? i) && (i <? Z.of_nat (length l))
      then Ok (tt, St (<[b := <[Z.to_nat i := v]> l]> (blocks st)) (next_block st))
      else UB
  | None => UB
  end.

(** [new (&p[i]) T(x)] *)
Definition construct b i x : M unit := put_slot b i (Some x).

(** [p[i].~T()]: there must be an object. *)
Definition destroy b i : M unit := slot b i;; put_slot b i None.

(** ** The shape of a block *)

(** Block [b] holds the slots [l]. *)
Definition holds st b (l : list (option T)) : Prop := blocks st !! b = Some l.

(** [upd_block b l st]: the store with other slots in a block. *)
Definition upd_block b (l : list (option T)) st : Store T := St (<[b := l]> (blocks st)) (next_block st).

Lemma holds_upd st b l : holds (upd_block b l st) b l.
Proof. unfold holds, upd_block. cbn. by rewrite lookup_insert_eq. Qed.

Lemma upd_block_twice st b l l' : upd_block b l' (upd_block b l st) = upd_block b l' st.
Proof. unfold upd_block. cbn. by rewrite insert_insert_eq. Qed.

Lemma upd_block_same st b l : holds st b l → upd_block b l st = st.
Proof. intros H. unfold upd_block. rewrite insert_id by done. by destruct st. Qed.

Lemma slot_ok st b l i x : holds st b l → 0 ≤ i → l !! Z.to_nat i = Some (Some x) → slot b i st = Ok (x, st).
Proof. intros H Hi E. unfold slot. by rewrite H, (proj2 (Z.leb_le 0 i) Hi), E. Qed.

Lemma put_slot_ok st b l i v : holds st b l → 0 ≤ i < Z.of_nat (length l) →
  put_slot b i v st = Ok (tt, upd_block b (<[Z.to_nat i := v]> l) st).
Proof. intros H Hi. unfold put_slot. by rewrite H, (proj2 (Z.leb_le 0 i)), (proj2 (Z.ltb_lt i _)) by lia. Qed.

Lemma destroy_ok st b l i x : holds st b l → 0 ≤ i → l !! Z.to_nat i = Some (Some x) →
  destroy b i st = Ok (tt, upd_block b (<[Z.to_nat i := None]> l) st).
Proof.
  intros H Hi E. unfold destroy. rewrite (bind_run _ _ _ _ _ (slot_ok st b l i x H Hi E)).
  apply put_slot_ok; [done|]. apply lookup_lt_Some in E. lia.
Qed.

(** The store is in order: no block has the null pointer's number or one that is
    still to be given out. *)
Definition store_wf st : Prop := 1 ≤ next_block st ∧ forall b l, holds st b l → 1 ≤ b < next_block st.

Lemma upd_block_wf st b l l' : holds st b l → store_wf st → store_wf (upd_block b l' st).
Proof.
  intros H [Hn Hb]. split; [done|]. intros b' l0 H'. unfold holds, upd_block in H'. cbn in H'.
  destruct (decide (b' = b)) as [->|]; [by apply (Hb b l)|]. rewrite lookup_insert_ne in H' by done. by apply (Hb b' l0).
Qed.

(** One slot in the middle of a block. *)
Section middle.
Context (st : Store T) (b i : Z) (l1 l2 : list (option T)).
Hypothesis Hi : i = Z.of_nat (length l1).

Lemma slot_middle x : holds st b (l1 ++ Some x :: l2) → slot b i st = Ok (x, st).
Proof. intros H. apply (slot_ok st b _ i x H); [lia|]. apply lookup_middle. lia. Qed.

Lemma put_middle v w : holds st b (l1 ++ v :: l2) → put_slot b i w st = Ok (tt, upd_block b (l1 ++ w :: l2) st).
Proof.
  intros H. rewrite (put_slot_ok st b _ i w H) by (rewrite length_app; cbn; lia).
  by rewrite insert_middle by lia.
Qed.

Lemma destroy_middle x : holds st b (l1 ++ Some x :: l2) → destroy b i st = Ok (tt, upd_block b (l1 ++ None :: l2) st).
Proof. intros H. unfold destroy. rewrite (bind_run _ _ _ _ _ (slot_middle x H)). by apply (put_middle (Some x)). Qed.
End middle.

Lemma upd_block_comm (st : Store T) a b la lb : a ≠ b → upd_block a la (upd_block b lb st) = upd_block b lb (upd_block a la st).
Proof. intros H. unfold upd_block. cbn. by rewrite insert_insert_ne. Qed.

Lemma holds_upd_ne (st : Store T) a b l l' : a ≠ b → holds st b l → holds (upd_block a l' st) b l.
Proof. intros H E. unfold holds, upd_block. cbn. by rewrite lookup_insert_ne. Qed.

(** A fresh block. *)
Definition with_block (st : Store T) (n : Z) : Store T :=
  St (<[next_block st := replicate (Z.to_nat n) None]> (blocks st)) (next_block st + 1).

Lemma with_block_wf st n : store_wf st → store_wf (with_block st n).
Proof.
  intros [H1 H]. split; [cbn; lia|]. intros b l Hb. cbn. unfold holds, with_block in Hb. cbn in Hb.
  destruct (decide (b = next_block st)) as [->|]; [lia|]. rewrite lookup_insert_ne in Hb by done. pose proof (H b l Hb). lia.
Qed.

Lemma with_block_fresh st n b l : store_wf st → holds st b l → b ≠ next_block st ∧ holds (with_block st n) b l.
Proof.
  intros [_ H] Hb. pose proof (H b l Hb). split; [lia|]. unfold holds, with_block. cbn. rewrite lookup_insert_ne by lia. done.
Qed.

Lemma delete_block_ok (st : Store T) b l : holds st b l → delete_block b st = Ok (tt, St (delete b (blocks st)) (next_block st)).
Proof. intros H. unfold delete_block. by rewrite H. Qed.

Lemma delete_wf (st : Store T) b : store_wf st → store_wf (St (delete b (blocks st)) (next_block st)).
Proof.
  intros [H1 H]. split; [done|]. intros b' l Hb. unfold holds in Hb. cbn in Hb. apply lookup_delete_Some in Hb as [_ Hb]. by apply (H b' l).
Qed.
End blocks.
