(* ===== verification/Vector.v ===== *)
(** * The vector (src/kernel/src/lib/vector.hpp)

    The growing array of the kernel, which the scheduler, the message queues and
    the list of processors are kept in, over the checked blocks of Blocks.v, and
    the proof that it is a list: that every sequence of its operations does what
    it does to the list, touches no other block and leaves none behind. *)

From S2P Require Import Prelude Blocks.

Section vector.
Context {T : Type}.
(** The size of an object in bytes, whether the allocator serves a number of
    bytes, what a moved object is left as, and [T()]. *)
Variable sizeof_T : Z.
Variable served : Z → bool.
Variable moved : T → T.
Variable default_T : T.

#[local] Abbreviation M := (ST (Store T)).

(** ** Definitions *)

Record Vector := Vec { m_data : Z; m_size : Z; m_capacity : Z }.

(** A reference to an object: outside the blocks, or a slot of one. *)
Inductive ref := Outside (x : T) | Slot (b i : Z).

Definition read_ref (r : ref) : M T := match r with Outside x => mret x | Slot b i => slot b i end.

(** The object moved out of a reference. *)
Definition move_ref (r : ref) : M T :=
  match r with
  | Outside x => mret x
  | Slot b i => x ← slot b i; put_slot b i (Some (moved x));; mret x
  end.

(** [operator new(sizeof(T) * n)] *)
Definition new_array (n : Z) : M Z :=
  new_block (λ n, served (sizeof_T * n)) (u64 (sizeof_T * n) / sizeof_T).

Definition vector : Vector := Vec 0 0 0.

Definition vector_of_capacity (n : Z) : M Vector :=
  if 0 <? n then b ← new_array n; mret (Vec b 0 n) else mret (Vec 0 0 n).

(** The loops over the elements. *)
Fixpoint destroy_range (n : nat) (i b : Z) : M unit :=
  match n with O => mret tt | S n' => destroy b i;; destroy_range n' (i + 1) b end.

Fixpoint move_range (n : nat) (i dst src : Z) : M unit :=
  match n with
  | O => mret tt
  | S n' => x ← move_ref (Slot src i); construct dst i x;; destroy src i;; move_range n' (i + 1) dst src
  end.

Fixpoint copy_range (n : nat) (i dst src : Z) : M unit :=
  match n with O => mret tt | S n' => x ← slot src i; construct dst i x;; copy_range n' (i + 1) dst src end.

Fixpoint fill_range (n : nat) (i b : Z) : M unit :=
  match n with O => mret tt | S n' => construct b i default_T;; fill_range n' (i + 1) b end.

Fixpoint shift_range (n : nat) (i b : Z) : M unit :=
  match n with
  | O => mret tt
  | S n' => x ← move_ref (Slot b (i + 1)); construct b i x;; destroy b (i + 1);; shift_range n' (i + 1) b
  end.

Definition clear (v : Vector) : M Vector :=
  destroy_range (Z.to_nat (m_size v)) 0 (m_data v);; mret (Vec (m_data v) 0 (m_capacity v)).

Definition destroy_vector (v : Vector) : M unit := v ← clear v; delete_if (m_data v).

Definition vector_copy (other : Vector) : M Vector :=
  if 0 <? m_capacity other then
    b ← new_array (m_capacity other);
    copy_range (Z.to_nat (m_size other)) 0 b (m_data other);;
    mret (Vec b (m_size other) (m_capacity other))
  else mret (Vec 0 (m_size other) (m_capacity other)).

(** The moved vector, and what is left of the other. *)
Definition vector_move (other : Vector) : M (Vector * Vector) := mret (other, Vec 0 0 0).

(** [self] is whether both sides of the assignment are the same object. *)
Definition assign_copy (self : bool) (v other : Vector) : M Vector :=
  if self then mret v else
  v ← clear v;
  v ← (if m_capacity v <? m_size other then
         delete_if (m_data v);;
         b ← new_array (m_capacity other);
         mret (Vec b (m_size v) (m_capacity other))
       else mret v);
  copy_range (Z.to_nat (m_size other)) 0 (m_data v) (m_data other);;
  mret (Vec (m_data v) (m_size other) (m_capacity v)).

Definition assign_move (self : bool) (v other : Vector) : M (Vector * Vector) :=
  if self then mret (v, v) else
  v ← clear v;
  delete_if (m_data v);;
  mret (other, Vec 0 0 0).

Definition reserve (new_capacity : Z) (v : Vector) : M Vector :=
  if new_capacity <=? m_capacity v then mret v else
  new_data ← new_array new_capacity;
  move_range (Z.to_nat (m_size v)) 0 new_data (m_data v);;
  delete_if (m_data v);;
  mret (Vec new_data (m_size v) new_capacity).

(** [if (m_size >= m_capacity) reserve(...)] *)
Definition grow (v : Vector) : M Vector :=
  if m_capacity v <=? m_size v then reserve (if m_capacity v =? 0 then 1 else u64 (m_capacity v * 2)) v else mret v.

Definition push_back (value : ref) (v : Vector) : M Vector :=
  v ← grow v;
  x ← read_ref value;
  construct (m_data v) (m_size v) x;;
  mret (Vec (m_data v) (m_size v + 1) (m_capacity v)).

Definition push_back_move (value : ref) (v : Vector) : M Vector :=
  v ← grow v;
  x ← move_ref value;
  construct (m_data v) (m_size v) x;;
  mret (Vec (m_data v) (m_size v + 1) (m_capacity v)).

(** The vector and the reference returned. *)
Definition emplace_back (x : T) (v : Vector) : M (Vector * ref) :=
  v ← grow v;
  construct (m_data v) (m_size v) x;;
  mret (Vec (m_data v) (m_size v + 1) (m_capacity v), Slot (m_data v) (m_size v)).

Definition pop_back (v : Vector) : M Vector :=
  if 0 <? m_size v then
    destroy (m_data v) (m_size v - 1);; mret (Vec (m_data v) (m_size v - 1) (m_capacity v))
  else mret v.

Definition resize (new_size : Z) (v : Vector) : M Vector :=
  v ← (if m_capacity v <? new_size then reserve new_size v else mret v);
  fill_range (Z.to_nat (new_size - m_size v)) (m_size v) (m_data v);;
  destroy_range (Z.to_nat (m_size v - new_size)) new_size (m_data v);;
  mret (Vec (m_data v) new_size (m_capacity v)).

Definition at_index (index : Z) (v : Vector) : M T := slot (m_data v) index.
Definition size (v : Vector) : Z := m_size v.
Definition empty (v : Vector) : bool := m_size v =? 0.
Definition front (v : Vector) : M T := slot (m_data v) 0.
Definition back (v : Vector) : M T := slot (m_data v) (u64 (m_size v - 1)).

(** [position - begin()] is [index]. *)
Definition erase (index : Z) (v : Vector) : M Vector :=
  if (index <? 0) || (m_size v <=? index) then mret v else
  destroy (m_data v) index;;
  shift_range (Z.to_nat (m_size v - 1 - index)) index (m_data v);;
  mret (Vec (m_data v) (m_size v - 1) (m_capacity v)).

(** ** Lists of slots *)

Definition objects (l : list T) : list (option T) := map Some l.
Definition raw (n : nat) : list (option T) := replicate n None.

Lemma objects_app l l' : objects (l ++ l') = objects l ++ objects l'.
Proof. apply map_app. Qed.

Lemma objects_length l : length (objects l) = length l.
Proof. apply length_map. Qed.

Lemma raw_length n : length (raw n) = n.
Proof. apply length_replicate. Qed.

Lemma raw_S n : raw (S n) = None :: raw n.
Proof. done. Qed.

Lemma raw_snoc n r : raw n ++ None :: r = raw (S n) ++ r.
Proof. induction n as [|n IH]; [done|]. cbn. f_equal. exact IH. Qed.

(** ** The loops *)

Lemma destroy_range_ok xs : ∀ i b st done_ r, i = Z.of_nat (length done_) → holds st b (done_ ++ objects xs ++ r) →
  destroy_range (length xs) i b st = Ok (tt, upd_block b (done_ ++ raw (length xs) ++ r) st).
Proof.
  induction xs as [|x xs IH]; intros i b st dn r Hi H; cbn [length destroy_range].
  { by rewrite upd_block_same. }
  cbn [objects map app] in H. rewrite (bind_run _ _ _ _ _ (destroy_middle st b i dn _ Hi x H)).
  rewrite (IH (i + 1) b _ (dn ++ [None]) r); [|rewrite length_app; cbn; lia|].
  - rewrite upd_block_twice. rewrite <- app_assoc. done.
  - rewrite <- app_assoc. apply holds_upd.
Qed.

Lemma fill_range_ok n : ∀ i b st done_ r, i = Z.of_nat (length done_) → holds st b (done_ ++ raw n ++ r) →
  fill_range n i b st = Ok (tt, upd_block b (done_ ++ objects (replicate n default_T) ++ r) st).
Proof.
  induction n as [|n IH]; intros i b st dn r Hi H; cbn [fill_range].
  { by rewrite upd_block_same. }
  rewrite raw_S in H. unfold construct. rewrite (bind_run _ _ _ _ _ (put_middle st b i dn _ Hi None (Some default_T) H)).
  rewrite (IH (i + 1) b _ (dn ++ [Some default_T]) r); [|rewrite length_app; cbn; lia|].
  - rewrite upd_block_twice. rewrite <- app_assoc. done.
  - rewrite <- app_assoc. apply holds_upd.
Qed.

Lemma move_range_ok xs : ∀ i dst src st done_ p r r', dst ≠ src → i = Z.of_nat (length done_) → length p = length done_ →
  holds st src (p ++ objects xs ++ r) → holds st dst (done_ ++ raw (length xs) ++ r') →
  move_range (length xs) i dst src st =
    Ok (tt, upd_block dst (done_ ++ objects xs ++ r') (upd_block src (p ++ raw (length xs) ++ r) st)).
Proof.
  induction xs as [|x xs IH]; intros i dst src st dn p r r' Hne Hi Hp Hs Hd; cbn [length move_range].
  { rewrite (upd_block_same _ src), (upd_block_same _ dst); done. }
  cbn [objects map app] in Hs. cbn [length] in Hd. rewrite raw_S in Hd. cbn [app] in Hd. unfold move_ref.
  assert (Hip : i = Z.of_nat (length p)) by lia.
  set (st1 := upd_block src (p ++ Some (moved x) :: map Some xs ++ r) st).
  assert (E1 : (x ← slot src i; put_slot src i (Some (moved x));; mret x) st = Ok (x, st1)).
  { rewrite (bind_run _ _ _ _ _ (slot_middle st src i p _ Hip x Hs)).
    by rewrite (bind_run _ _ _ _ _ (put_middle st src i p _ Hip (Some x) (Some (moved x)) Hs)). }
  rewrite (bind_run _ _ _ _ _ E1). assert (Hd1 : holds st1 dst (dn ++ None :: raw (length xs) ++ r')) by (by apply holds_upd_ne).
  unfold construct. rewrite (bind_run _ _ _ _ _ (put_middle st1 dst i dn _ Hi None (Some x) Hd1)).
  set (st2 := upd_block dst _ st1). assert (Hs2 : holds st2 src (p ++ Some (moved x) :: map Some xs ++ r)).
  { apply holds_upd_ne; [done|]. apply holds_upd. }
  rewrite (bind_run _ _ _ _ _ (destroy_middle st2 src i p _ Hip (moved x) Hs2)).
  rewrite (IH (i + 1) dst src _ (dn ++ [Some x]) (p ++ [None]) r r'); [|done| | | |].
  - f_equal. f_equal. unfold st2, st1. rewrite <- !app_assoc. cbn [app].
    rewrite (upd_block_comm _ src dst) by done. rewrite !upd_block_twice. rewrite (upd_block_comm _ src dst) by done. rewrite !upd_block_twice. done.
  - rewrite length_app. cbn. lia.
  - rewrite !length_app. cbn. lia.
  - rewrite <- app_assoc. apply holds_upd.
  - rewrite <- app_assoc. apply holds_upd_ne; [done|]. apply holds_upd.
Qed.

Lemma copy_range_ok xs : ∀ i dst src st done_ p r r', dst ≠ src → i = Z.of_nat (length done_) → length p = length done_ →
  holds st src (p ++ objects xs ++ r) → holds st dst (done_ ++ raw (length xs) ++ r') →
  copy_range (length xs) i dst src st = Ok (tt, upd_block dst (done_ ++ objects xs ++ r') st).
Proof.
  induction xs as [|x xs IH]; intros i dst src st dn p r r' Hne Hi Hp Hs Hd; cbn [length copy_range].
  { by rewrite upd_block_same. }
  cbn [objects map app] in Hs. cbn [length] in Hd. rewrite raw_S in Hd. cbn [app] in Hd.
  rewrite (bind_run _ _ _ _ _ (slot_middle st src i p _ ltac:(lia) x Hs)). unfold construct.
  rewrite (bind_run _ _ _ _ _ (put_middle st dst i dn _ Hi None (Some x) Hd)).
  rewrite (IH (i + 1) dst src _ (dn ++ [Some x]) (p ++ [Some x]) r r'); [|done| | | |].
  - by rewrite upd_block_twice, <- app_assoc.
  - rewrite length_app. cbn. lia.
  - rewrite !length_app. cbn. lia.
  - rewrite <- app_assoc. by apply holds_upd_ne.
  - rewrite <- app_assoc. apply holds_upd.
Qed.

Lemma shift_range_ok xs : ∀ i b st done_ r, i = Z.of_nat (length done_) →
  holds st b (done_ ++ None :: objects xs ++ r) →
  shift_range (length xs) i b st = Ok (tt, upd_block b (done_ ++ objects xs ++ None :: r) st).
Proof.
  induction xs as [|x xs IH]; intros i b st dn r Hi H; cbn [length shift_range].
  { by rewrite upd_block_same. }
  cbn [objects map app] in H. unfold move_ref.
  assert (Hi1 : i + 1 = Z.of_nat (length (dn ++ [None]))) by (rewrite length_app; cbn; lia).
  assert (H1 : holds st b ((dn ++ [None]) ++ Some x :: map Some xs ++ r)) by (by rewrite <- app_assoc).
  set (st1 := upd_block b (dn ++ None :: Some (moved x) :: map Some xs ++ r) st).
  assert (E1 : (x ← slot b (i + 1); put_slot b (i + 1) (Some (moved x));; mret x) st = Ok (x, st1)).
  { rewrite (bind_run _ _ _ _ _ (slot_middle st b (i + 1) _ _ Hi1 x H1)).
    rewrite (bind_run _ _ _ _ _ (put_middle st b (i + 1) _ _ Hi1 (Some x) (Some (moved x)) H1)). by rewrite <- app_assoc. }
  rewrite (bind_run _ _ _ _ _ E1). unfold construct.
  rewrite (bind_run _ _ _ _ _ (put_middle st1 b i dn _ Hi None (Some x) (holds_upd _ _ _))).
  assert (Hi2 : i + 1 = Z.of_nat (length (dn ++ [Some x]))) by (rewrite length_app; cbn; lia).
  set (st2 := upd_block b _ st1).
  assert (H2 : holds st2 b ((dn ++ [Some x]) ++ Some (moved x) :: map Some xs ++ r)) by (rewrite <- app_assoc; apply holds_upd).
  rewrite (bind_run _ _ _ _ _ (destroy_middle st2 b (i + 1) _ _ Hi2 (moved x) H2)).
  rewrite (IH (i + 1) b _ (dn ++ [Some x]) r Hi2); [|apply holds_upd].
  unfold st2, st1. rewrite !upd_block_twice, <- app_assoc. done.
Qed.

(** ** A vector is a list *)

(** The elements are the objects at the front of the block; the rest is raw. *)
Definition rep (v : Vector) (l : list T) (st : Store T) : Prop :=
  m_size v = Z.of_nat (length l) ∧
  exists k, m_capacity v = Z.of_nat (length l + k) ∧
    if m_data v =? 0 then (length l + k)%nat = 0%nat else holds st (m_data v) (objects l ++ raw k).

(** The blocks that are not the vector's. *)
Definition others (v : Vector) (st : Store T) : gmap Z (list (option T)) := delete (m_data v) (blocks st).

(** [becomes v l st m v' l']: the operation [m] on a vector that is the list [l]. *)
Definition becomes (v : Vector) (st : Store T) (m : M Vector) (l' : list T) (cap : Z → Prop) : Prop :=
  exists v' st', m st = Ok (v', st') ∧ rep v' l' st' ∧ store_wf st' ∧ others v' st' = others v st ∧ cap (m_capacity v').

Lemma others_upd v st l : others v (upd_block (m_data v) l st) = others v st.
Proof. unfold others, upd_block. cbn. by rewrite delete_insert_eq. Qed.

Lemma others_null v st : m_data v = 0 → store_wf st → others v st = blocks st.
Proof.
  intros E [_ H]. unfold others. rewrite E. apply delete_id. destruct (blocks st !! 0) as [l|] eqn:E0; [|done].
  pose proof (H 0 l E0). lia.
Qed.

Section reserving.
(** No vector grows beyond [max] elements, and twice their size is served. *)
Variable max : Z.
Hypothesis sizeof_pos : 0 < sizeof_T.
Hypothesis max_bytes : sizeof_T * (2 * max) < 2 ^ 64.
Hypothesis max_served : ∀ n, 0 ≤ n ≤ sizeof_T * (2 * max) → served n = true.

Lemma new_array_ok n st : 0 ≤ n ≤ 2 * max → new_array n st = Ok (next_block st, with_block st n).
Proof.
  intros Hn. unfold new_array, new_block. rewrite u64_small by nia. rewrite (Z.mul_comm sizeof_T n), Z.div_mul by lia.
  by rewrite max_served by nia.
Qed.

Lemma reserve_ok c v l st : rep v l st → store_wf st → c ≤ 2 * max → m_capacity v ≤ 2 * max →
  becomes v st (reserve c v) l (λ n, n = Z.max (m_capacity v) c).
Proof.
  intros (Hs & k & Hc & Hb) Hwf Hmax Hcm. unfold becomes, reserve. destruct (Z.leb_spec c (m_capacity v)) as [Hle|Hgt].
  { exists v, st. split; [done|]. split; [by split; [|exists k]|]. split; [done|]. split; [done|lia]. }
  rewrite (bind_run _ _ _ _ _ (new_array_ok c st ltac:(lia))). set (b := next_block st). set (st1 := with_block st c).
  rewrite Hs, Nat2Z.id. set (k' := (Z.to_nat c - length l)%nat).
  assert (Hbn : holds st1 b ([] ++ raw (length l) ++ raw k')).
  { unfold holds, st1, with_block. cbn. rewrite lookup_insert_eq. unfold raw. rewrite <- replicate_add. do 2 f_equal. lia. }
  assert (Hwf1 : store_wf st1) by (by apply with_block_wf). pose proof (proj1 Hwf) as Hn1.
  destruct (Z.eqb_spec (m_data v) 0) as [E0|E0].
  - assert (l = []) as -> by (by destruct l). cbn [length move_range]. unfold delete_if. rewrite E0. cbn [Z.eqb].
    exists (Vec b 0 c), st1. split; [done|]. split; [|split; [done|split; [|cbn [m_capacity]; lia]]].
    + split; [done|]. exists (Z.to_nat c). split; [cbn; lia|]. cbn [m_data]. rewrite (proj2 (Z.eqb_neq b 0)) by (unfold b; lia).
      cbn in Hbn. unfold k' in Hbn. cbn in Hbn. by rewrite Nat.sub_0_r in Hbn.
    + rewrite (others_null v) by done. unfold others. cbn. rewrite delete_insert_eq. apply delete_id.
      destruct (blocks st !! b) as [l0|] eqn:El; [|done]. pose proof (proj2 Hwf b l0 El). unfold b in *. lia.
  - destruct (with_block_fresh st c (m_data v) _ Hwf Hb) as [Hne Hs1]. fold st1 b in Hs1, Hne.
    rewrite (bind_run _ _ _ _ _ (move_range_ok l 0 b (m_data v) st1 [] [] (raw k) (raw k') ltac:(done) eq_refl eq_refl Hs1 Hbn)).
    unfold delete_if. rewrite (proj2 (Z.eqb_neq _ 0)) by done. set (st2 := upd_block b _ _).
    assert (H2 : holds st2 (m_data v) ([] ++ raw (length l) ++ raw k)) by (apply holds_upd_ne; [done|]; apply holds_upd).
    rewrite (bind_run _ _ _ _ _ (delete_block_ok st2 _ _ H2)).
    exists (Vec b (Z.of_nat (length l)) c). eexists. split; [reflexivity|]. split; [|split; [|split; [|cbn [m_capacity]; lia]]].
    + split; [done|]. exists k'. split; [cbn; unfold k'; lia|]. cbn [m_data]. rewrite (proj2 (Z.eqb_neq b 0)) by (unfold b; lia).
      unfold holds. cbn. rewrite lookup_delete_ne by done. by rewrite lookup_insert_eq.
    + apply delete_wf. unfold st2. eapply upd_block_wf; [|eapply upd_block_wf; [exact Hs1|done]]. apply holds_upd_ne; [done|exact Hbn].
    + unfold others, st2, upd_block. cbn. apply map_eq. intros a. destruct (decide (a = b)) as [->|Hab].
      * rewrite lookup_delete_eq. rewrite lookup_delete_ne by done. symmetry.
        destruct (blocks st !! b) as [l0|] eqn:El; [|done]. pose proof (proj2 Hwf b l0 El). unfold b in *. lia.
      * rewrite lookup_delete_ne by done. destruct (decide (a = m_data v)) as [->|Ha]; [by rewrite !lookup_delete_eq|].
        rewrite !lookup_delete_ne by done. rewrite !lookup_insert_ne by done. done.
Qed.

(** An operation that only writes its block. *)
Lemma becomes_upd v st (m : M Vector) slots n l' cap : store_wf st → (∃ l0, holds st (m_data v) l0) → m_data v ≠ 0 →
  m st = Ok (Vec (m_data v) n (m_capacity v), upd_block (m_data v) slots st) → n = Z.of_nat (length l') →
  (∃ k, m_capacity v = Z.of_nat (length l' + k) ∧ slots = objects l' ++ raw k) → cap (m_capacity v) →
  becomes v st m l' cap.
Proof.
  intros Hwf [l0 H0] Hb E -> (k & Hk & ->) Hcap. eexists _, _. split; [exact E|]. split; [|split; [by eapply upd_block_wf|split; [exact (others_upd v st _)|done]]].
  split; [done|]. exists k. split; [done|]. cbn [m_data]. rewrite (proj2 (Z.eqb_neq _ 0)) by done. apply holds_upd.
Qed.

Lemma becomes_same v l st (cap : Z → Prop) : rep v l st → store_wf st → cap (m_capacity v) → becomes v st (mret v) l cap.
Proof. intros H Hwf Hc. by exists v, st. Qed.

Lemma becomes_bind v l st (m : M Vector) (f : Vector → M Vector) l1 cap1 l' cap : becomes v st m l1 cap1 →
  (∀ v1 st1, rep v1 l1 st1 → store_wf st1 → cap1 (m_capacity v1) → becomes v1 st1 (f v1) l' cap) →
  rep v l st → becomes v st (m ≫= f) l' cap.
Proof.
  intros (v1 & st1 & E1 & R1 & W1 & O1 & C1) Hf _. destruct (Hf v1 st1 R1 W1 C1) as (v2 & st2 & E2 & R2 & W2 & O2 & C2).
  exists v2, st2. rewrite (bind_run _ _ _ _ _ E1). split; [exact E2|]. split_and!; [done|done|congruence|done].
Qed.

Lemma clear_vector_ok v l st : rep v l st → store_wf st → becomes v st (clear v) [] (eq (m_capacity v)).
Proof.
  intros R Hwf. pose proof R as (Hs & k & Hc & Hb). unfold clear. destruct (Z.eqb_spec (m_data v) 0) as [E0|E0].
  - assert (l = []) as -> by (by destruct l). rewrite Hs. cbn. exists v, st. split; [|done]. unfold mret, st_ret. do 2 f_equal. destruct v; cbn in *. by rewrite Hs.
  - apply (becomes_upd v st _ (raw (length l) ++ raw k) 0); [done|by eexists|done| |done| |done].
    + rewrite Hs, Nat2Z.id. by rewrite (bind_run _ _ _ _ _ (destroy_range_ok l 0 (m_data v) st [] (raw k) eq_refl Hb)).
    + exists (length l + k)%nat. split; [done|]. cbn. unfold raw. by rewrite replicate_add.
Qed.

Lemma grow_ok v l st : rep v l st → store_wf st → Z.of_nat (length l) < max → m_capacity v ≤ 2 * max →
  becomes v st (grow v) l (λ n, Z.of_nat (length l) < n ≤ 2 * max).
Proof.
  intros R Hwf Hl Hcm. pose proof R as (Hs & k & Hc & Hb). unfold grow. destruct (Z.leb_spec (m_capacity v) (m_size v)).
  - assert (k = 0%nat) as -> by lia. assert (2 * max < 2 ^ 64) by nia.
    destruct (reserve_ok (if m_capacity v =? 0 then 1 else u64 (m_capacity v * 2)) v l st R Hwf) as (v' & st' & E & R' & W' & O' & C').
    { destruct (Z.eqb_spec (m_capacity v) 0); [lia|]. rewrite u64_small by lia. lia. }
    { done. }
    exists v', st'. split_and!; [done..| |].
    + rewrite C'. destruct (Z.eqb_spec (m_capacity v) 0); [lia|]. rewrite u64_small by lia. lia.
    + rewrite C'. destruct (Z.eqb_spec (m_capacity v) 0); [lia|]. rewrite u64_small by lia. lia.
  - apply becomes_same; [done|done|lia].
Qed.

(** The new object behind the others. *)
Lemma append_ok x v l st : rep v l st → store_wf st → Z.of_nat (length l) < m_capacity v →
  becomes v st (construct (m_data v) (m_size v) x;; mret (Vec (m_data v) (m_size v + 1) (m_capacity v))) (l ++ [x]) (eq (m_capacity v)).
Proof.
  intros (Hs & k & Hc & Hb) Hwf Hl. destruct k as [|k]; [lia|]. destruct (Z.eqb_spec (m_data v) 0) as [E0|E0]; [lia|].
  rewrite raw_S in Hb. apply (becomes_upd v st _ (objects (l ++ [x]) ++ raw k) (m_size v + 1)); [done|by eexists|done| | | |done].
  - unfold construct. rewrite (bind_run _ _ _ _ _ (put_middle st (m_data v) (m_size v) (objects l) _ ltac:(by rewrite objects_length) None (Some x) Hb)).
    by rewrite objects_app, <- app_assoc.
  - rewrite length_app. cbn. lia.
  - exists k. split; [rewrite length_app; cbn; lia|done].
Qed.

Lemma becomes_weaken v st m l (c1 c2 : Z → Prop) : (∀ n, c1 n → c2 n) → becomes v st m l c1 → becomes v st m l c2.
Proof. intros H (v' & st' & E & R & W & O & C). exists v', st'. split_and!; auto. Qed.

Lemma push_back_ok x v l st : rep v l st → store_wf st → Z.of_nat (length l) < max → m_capacity v ≤ 2 * max →
  becomes v st (push_back (Outside x) v) (l ++ [x]) (λ n, n ≤ 2 * max).
Proof.
  intros R Hwf Hl Hc. eapply becomes_bind; [by apply grow_ok| |exact R]. intros v1 st1 R1 W1 C1. cbn beta in C1.
  eapply (becomes_weaken v1 st1 _ _ (eq (m_capacity v1))); [intros n <-; lia|]. apply (append_ok x v1 l st1 R1 W1). lia.
Qed.

Lemma push_back_move_ok x v l st : rep v l st → store_wf st → Z.of_nat (length l) < max → m_capacity v ≤ 2 * max →
  becomes v st (push_back_move (Outside x) v) (l ++ [x]) (λ n, n ≤ 2 * max).
Proof. exact (push_back_ok x v l st). Qed.

Lemma pop_back_ok v l st : rep v l st → store_wf st → becomes v st (pop_back v) (take (length l - 1) l) (eq (m_capacity v)).
Proof.
  intros R Hwf. pose proof R as (Hs & k & Hc & Hb). unfold pop_back. destruct (Z.ltb_spec 0 (m_size v)) as [H0|H0]; cycle 1.
  { assert (l = []) as -> by (destruct l; [done|cbn in Hs; lia]). by apply becomes_same. }
  destruct (exists_last (l := l)) as (l' & x & ->); [by intros ->; cbn in Hs; lia|]. rewrite length_app in *. cbn [length] in *.
  replace (length l' + 1 - 1)%nat with (length l') by lia. rewrite take_app_length.
  destruct (Z.eqb_spec (m_data v) 0) as [E0|E0]; [lia|]. rewrite objects_app, <- app_assoc in Hb.
  apply (becomes_upd v st _ (objects l' ++ None :: raw k) (m_size v - 1)); [done|by eexists|done| |lia| |done].
  - assert (Hi : m_size v - 1 = Z.of_nat (length (objects l'))) by (rewrite objects_length; lia).
    by rewrite (bind_run _ _ _ _ _ (destroy_middle st (m_data v) (m_size v - 1) (objects l') _ Hi x Hb)).
  - exists (S k). split; [lia|done].
Qed.

Lemma resize_ok n v l st : rep v l st → store_wf st → 0 ≤ n ≤ max → m_capacity v ≤ 2 * max →
  becomes v st (resize n v) (take (Z.to_nat n) l ++ replicate (Z.to_nat n - length l) default_T) (λ c, c ≤ 2 * max).
Proof.
  intros R Hwf Hn Hcm. unfold resize.
  eapply (becomes_bind v l st _ _ l (λ c, n ≤ c ≤ 2 * max)); [| |exact R].
  { destruct (Z.ltb_spec (m_capacity v) n); [|apply becomes_same; [done|done|lia]].
    eapply becomes_weaken; [|apply (reserve_ok n v l st R Hwf); lia]. cbn. lia. }
  clear R Hwf Hcm v st. intros v st (Hs & k & Hc & Hb) Hwf Hcap. cbn beta in Hcap.
  destruct (Z.eqb_spec (m_data v) 0) as [E0|E0].
  { assert (l = []) as -> by (by destruct l). assert (n = 0) as -> by (cbn in Hs, Hc; lia). rewrite Hs. cbn.
    exists v, st. split; [unfold mret, st_ret; do 2 f_equal; destruct v; cbn in *; by rewrite Hs|]. split; [|split_and!; [done|done|lia]].
    split; [done|]. exists k. split; [done|]. by rewrite E0. }
  eapply (becomes_weaken v st _ _ (eq (m_capacity v))); [intros c <-; lia|].
  destruct (Z.leb_spec n (m_size v)) as [Hle|Hgt].
  - replace (Z.to_nat (n - m_size v)) with 0%nat by lia. replace (Z.to_nat n - length l)%nat with 0%nat by lia.
    cbn [fill_range replicate]. rewrite app_nil_r. st.
    rewrite <- (take_drop (Z.to_nat n) l), objects_app, <- app_assoc in Hb.
    apply (becomes_upd v st _ (objects (take (Z.to_nat n) l) ++ raw (length l - Z.to_nat n) ++ raw k) n);
      [done|by eexists|done| |rewrite length_take; lia| |done].
    + unfold mbind, st_bind. cbn. replace (Z.to_nat (m_size v - n)) with (length (drop (Z.to_nat n) l)) by (rewrite length_drop; lia).
      rewrite (destroy_range_ok _ n (m_data v) st (objects (take (Z.to_nat n) l)) (raw k)); [by rewrite length_drop|rewrite objects_length, length_take; lia|done].
    + exists (length l - Z.to_nat n + k)%nat. split; [rewrite length_take; lia|]. unfold raw. by rewrite replicate_add.
  - replace (Z.to_nat (m_size v - n)) with 0%nat by lia. rewrite take_ge by lia.
    set (d := (Z.to_nat n - length l)%nat). replace (Z.to_nat (n - m_size v)) with d by lia.
    assert (Hb' : holds st (m_data v) (objects l ++ raw d ++ raw (k - d))).
    { unfold holds in *. rewrite Hb. unfold raw. rewrite <- replicate_add. do 3 f_equal. lia. }
    apply (becomes_upd v st _ (objects l ++ objects (replicate d default_T) ++ raw (k - d)) n);
      [done|by eexists|done| |rewrite length_app, length_replicate; lia| |done].
    + cbn [destroy_range]. assert (Hi : m_size v = Z.of_nat (length (objects l))) by (by rewrite objects_length).
      by rewrite (bind_run _ _ _ _ _ (fill_range_ok d (m_size v) (m_data v) st (objects l) (raw (k - d)) Hi Hb')).
    + exists (k - d)%nat. split; [rewrite length_app, length_replicate; lia|]. by rewrite objects_app, <- app_assoc.
Qed.

Lemma erase_ok i v l st : rep v l st → store_wf st →
  becomes v st (erase i v) (if decide (0 ≤ i) then delete (Z.to_nat i) l else l) (eq (m_capacity v)).
Proof.
  intros R Hwf. pose proof R as (Hs & k & Hc & Hb). unfold erase.
  destruct ((i <? 0) || (m_size v <=? i)) eqn:Eg.
  { assert (Hd : (if decide (0 ≤ i) then delete (Z.to_nat i) l else l) = l).
    { destruct (decide (0 ≤ i)); [|done]. rewrite delete_take_drop, take_ge, drop_ge, app_nil_r by lia. done. }
    rewrite Hd. by apply becomes_same. }
  rewrite decide_True by lia. destruct (lookup_lt_is_Some_2 l (Z.to_nat i)) as [x Hx]; [lia|].
  destruct (Z.eqb_spec (m_data v) 0) as [E0|E0]; [lia|].
  pose proof (take_drop_middle l _ x Hx) as Hl. set (l1 := take (Z.to_nat i) l) in *. set (l2 := drop (S (Z.to_nat i)) l) in *.
  assert (Hl1 : length l1 = Z.to_nat i) by (unfold l1; rewrite length_take; lia).
  assert (Hl2 : length l2 = Z.to_nat (m_size v - 1 - i)) by (unfold l2; rewrite length_drop; lia).
  assert (Hb' : holds st (m_data v) (objects l1 ++ Some x :: objects l2 ++ raw k)).
  { unfold holds in *. rewrite Hb, <- Hl, objects_app, <- app_assoc. done. }
  assert (Hi : i = Z.of_nat (length (objects l1))) by (rewrite objects_length; lia).
  rewrite delete_take_drop. fold l1 l2. rewrite <- Hl2.
  apply (becomes_upd v st _ (objects l1 ++ objects l2 ++ None :: raw k) (m_size v - 1));
    [done|by eexists|done| |rewrite length_app; lia| |done].
  - rewrite (bind_run _ _ _ _ _ (destroy_middle st (m_data v) i (objects l1) _ Hi x Hb')).
    rewrite (bind_run _ _ _ _ _ (shift_range_ok l2 i (m_data v) _ (objects l1) (raw k) Hi (holds_upd _ _ _))).
    by rewrite upd_block_twice.
  - exists (S k). split; [rewrite length_app; lia|]. by rewrite objects_app, <- app_assoc.
Qed.

(** A fresh block with a copy of the objects of another. *)
Lemma fresh_copy src lo k st (cap := Z.of_nat (length lo + k)) (b := next_block st) :
  holds st src (objects lo ++ raw k) → store_wf st → cap ≤ 2 * max →
  exists st1 st2, new_array cap st = Ok (b, st1) ∧ copy_range (length lo) 0 b src st1 = Ok (tt, st2) ∧
    rep (Vec b (Z.of_nat (length lo)) cap) lo st2 ∧ store_wf st2 ∧ delete b (blocks st2) = blocks st ∧
    b ≠ src ∧ holds st2 src (objects lo ++ raw k).
Proof.
  intros Hb Hwf Hcm. pose proof (proj1 Hwf) as Hn1.
  destruct (with_block_fresh st cap src _ Hwf Hb) as [Hne Hb1]. fold b in Hne. set (st1 := with_block st cap) in *.
  assert (Hbn : holds st1 b ([] ++ raw (length lo) ++ raw k)).
  { unfold holds, st1, with_block. cbn. rewrite lookup_insert_eq. unfold raw. rewrite <- replicate_add. do 2 f_equal. lia. }
  exists st1, (upd_block b ([] ++ objects lo ++ raw k) st1). split; [apply new_array_ok; lia|].
  split; [exact (copy_range_ok lo 0 b src st1 [] [] (raw k) (raw k) (not_eq_sym Hne) eq_refl eq_refl Hb1 Hbn)|].
  split; [|split; [|split; [|split; [done|by apply holds_upd_ne]]]].
  - split; [done|]. exists k. split; [done|]. cbn [m_data]. rewrite (proj2 (Z.eqb_neq b 0)) by (unfold b; lia). apply holds_upd.
  - eapply upd_block_wf; [exact Hbn|]. by apply with_block_wf.
  - unfold upd_block. cbn. rewrite insert_insert_eq, delete_insert_eq. apply delete_id.
    destruct (blocks st !! b) as [l0|] eqn:El; [|done]. pose proof (proj2 Hwf b l0 El). unfold b in *. lia.
Qed.

(** A copy has its own block. *)
Lemma vector_copy_ok o l st : rep o l st → store_wf st → m_capacity o ≤ 2 * max →
  exists w st', vector_copy o st = Ok (w, st') ∧ rep w l st' ∧ rep o l st' ∧ store_wf st' ∧ others w st' = blocks st ∧
    m_capacity w = m_capacity o ∧ (m_data w ≠ 0 → m_data w ≠ m_data o).
Proof.
  intros (Hs & k & Hc & Hb) Hwf Hcm. unfold vector_copy. destruct (Z.ltb_spec 0 (m_capacity o)) as [H0|H0]; cycle 1.
  { assert (l = [] ∧ k = 0%nat) as [-> ->] by (destruct l; cbn in Hc; [split; [done|lia]|lia]).
    exists (Vec 0 (m_size o) (m_capacity o)), st. split; [done|]. split; [split; [done|by exists 0%nat]|].
    split; [split; [done|by exists 0%nat]|]. split; [done|]. split; [by apply others_null|done]. }
  destruct (Z.eqb_spec (m_data o) 0) as [E0|E0]; [lia|]. rewrite Hc in *.
  destruct (fresh_copy (m_data o) l k st Hb Hwf Hcm) as (st1 & st2 & E1 & E2 & R & W & O & Hne & Hb2).
  rewrite (bind_run _ _ _ _ _ E1), Hs, Nat2Z.id, (bind_run _ _ _ _ _ E2). eexists _, _. split; [reflexivity|].
  split; [exact R|]. split; [|split; [done|split; [exact O|done]]].
  split; [done|]. exists k. split; [done|]. by rewrite (proj2 (Z.eqb_neq _ 0)).
Qed.

(** Giving the block of a cleared vector back. *)
Lemma delete_if_ok v st : rep v [] st → store_wf st →
  exists st', delete_if (m_data v) st = Ok (tt, st') ∧ store_wf st' ∧ blocks st' = others v st.
Proof.
  intros (_ & k & _ & Hb) Hwf. unfold delete_if. destruct (Z.eqb_spec (m_data v) 0) as [E0|E0].
  - exists st. split; [done|]. split; [done|]. symmetry. by apply others_null.
  - rewrite (delete_block_ok st _ _ Hb). eexists. split; [reflexivity|]. split; [by apply delete_wf|done].
Qed.

Lemma destroy_vector_ok v l st : rep v l st → store_wf st →
  exists st', destroy_vector v st = Ok (tt, st') ∧ store_wf st' ∧ blocks st' = others v st.
Proof.
  intros R Hwf. destruct (clear_vector_ok v l st R Hwf) as (v1 & st1 & E1 & R1 & W1 & O1 & _).
  destruct (delete_if_ok v1 st1 R1 W1) as (st2 & E2 & W2 & B2). exists st2. unfold destroy_vector.
  rewrite (bind_run _ _ _ _ _ E1). split; [exact E2|]. split; [done|congruence].
Qed.

(** What is in another block stays when the vector changes. *)
Lemma others_holds v v1 st st1 b l : others v1 st1 = others v st → b ≠ m_data v → holds st b l → holds st1 b l.
Proof.
  unfold others, holds. intros O Hne H. assert (E : delete (m_data v1) (blocks st1) !! b = Some l) by (by rewrite O, lookup_delete_ne).
  apply lookup_delete_Some in E. apply E.
Qed.

(** The copy into a vector that was cleared and has the room. *)
Lemma copy_into_ok v o lo st : rep v [] st → rep o lo st → store_wf st → m_size o ≤ m_capacity v → (m_data o ≠ 0 → m_data v ≠ m_data o) →
  becomes v st (copy_range (Z.to_nat (m_size o)) 0 (m_data v) (m_data o);; mret (Vec (m_data v) (m_size o) (m_capacity v))) lo (eq (m_capacity v)).
Proof.
  intros (_ & k & Hc & Hb) (Hso & ko & Hco & Hbo) Hwf Hle Hne. rewrite Hso, Nat2Z.id. cbn in Hc.
  destruct (Z.eqb_spec (m_data v) 0) as [E0|E0].
  { cbn in Hb. assert (lo = []) as -> by (destruct lo; [done|cbn in Hso; lia]). cbn [length copy_range].
    exists (Vec (m_data v) 0 (m_capacity v)), st. split; [done|]. split; [|done]. split; [done|]. exists k. split; [done|]. cbn [m_data]. by rewrite E0. }
  assert (Hb' : holds st (m_data v) ([] ++ raw (length lo) ++ raw (k - length lo))).
  { unfold holds in *. rewrite Hb. cbn [objects map app]. unfold raw. rewrite <- replicate_add. do 2 f_equal. lia. }
  apply (becomes_upd v st _ (objects lo ++ raw (k - length lo)) (Z.of_nat (length lo))); [done|by eexists|done| |done| |done].
  - destruct (decide (m_data o = 0)) as [Eo|Eo].
    + rewrite Eo in Hbo. cbn in Hbo. assert (lo = []) as -> by (by destruct lo). cbn [length copy_range]. st. rewrite upd_block_same; done.
    + rewrite (proj2 (Z.eqb_neq _ 0)) in Hbo by done.
      by rewrite (bind_run _ _ _ _ _ (copy_range_ok lo 0 (m_data v) (m_data o) st [] [] (raw ko) (raw (k - length lo)) (Hne Eo) eq_refl eq_refl Hbo Hb')).
  - exists (k - length lo)%nat. split; [lia|done].
Qed.

(** Assignment of another vector. *)
Lemma assign_copy_ok v l o lo st : rep v l st → rep o lo st → store_wf st → m_data o = 0 ∨ m_data v ≠ m_data o →
  m_capacity o ≤ 2 * max →
  becomes v st (assign_copy false v o) lo (λ c, c = m_capacity v ∨ c = m_capacity o).
Proof.
  intros R Ro Hwf Hne Hcm. unfold assign_copy. destruct (clear_vector_ok v l st R Hwf) as (v1 & st1 & E1 & R1 & W1 & O1 & C1).
  unfold becomes. rewrite (bind_run _ _ _ _ _ E1).
  assert (Hdata : m_data v1 = m_data v).
  { revert E1. unfold clear. intros (u & s' & _ & E)%bind_run_inv. by injection E as <- _. }
  pose proof Ro as (Hso & ko & Hco & Hbo).
  assert (Ro1 : rep o lo st1).
  { split; [done|]. exists ko. split; [done|]. destruct (Z.eqb_spec (m_data o) 0); [done|]. apply (others_holds v v1 st); [done|naive_solver|done]. }
  destruct (Z.ltb_spec (m_capacity v1) (m_size o)) as [Hlt|Hge]; cycle 1.
  { st. destruct (copy_into_ok v1 o lo st1 R1 Ro1 W1 Hge) as (v2 & st2 & E2 & R2 & W2 & O2 & C2); [naive_solver congruence|].
    exists v2, st2. split; [exact E2|]. split; [done|]. split; [done|]. split; [congruence|left; congruence]. }
  pose proof R1 as (_ & k1 & Hc1 & _). destruct (Z.eqb_spec (m_data o) 0) as [E0|E0]; [lia|].
  destruct (delete_if_ok v1 st1 R1 W1) as (st2 & E2 & W2 & B2).
  assert (Hb2 : holds st2 (m_data o) (objects lo ++ raw ko)).
  { unfold holds. rewrite B2. destruct Ro1 as (_ & k' & Hk' & Hb1). rewrite (proj2 (Z.eqb_neq _ 0)) in Hb1 by done.
    assert (k' = ko) as -> by lia. unfold others. rewrite lookup_delete_ne; [exact Hb1|]. rewrite Hdata. by destruct Hne. }
  rewrite Hco in *. destruct (fresh_copy (m_data o) lo ko st2 Hb2 W2 Hcm) as (st3 & st4 & E3 & E4 & R4 & W4 & O4 & _).
  rewrite (bind_run _ _ _ _ _ (eq_trans (bind_run _ _ _ _ _ E2) (bind_run _ _ _ _ _ E3))). cbn [m_data m_capacity].
  rewrite Hso, Nat2Z.id, (bind_run _ _ _ _ _ E4). eexists _, _. split; [reflexivity|]. split; [exact R4|]. split; [done|].
  split; [|by right]. unfold others at 1. cbn [m_data]. by rewrite O4, B2, O1.
Qed.

(** ** Sequences of operations *)

Inductive command := Push (x : T) | PushMove (x : T) | Pop | Reserve (n : Z) | Resize (n : Z) | Erase (i : Z) | Clear | Replace.

(** [Replace] copies the vector and destroys the original. *)
Definition run_command (c : command) (v : Vector) : M Vector :=
  match c with
  | Push x => push_back (Outside x) v
  | PushMove x => push_back_move (Outside x) v
  | Pop => pop_back v
  | Reserve n => reserve n v
  | Resize n => resize n v
  | Erase i => erase i v
  | Clear => clear v
  | Replace => w ← vector_copy v; destroy_vector v;; mret w
  end.

(** What the command is on lists. *)
Definition list_command (c : command) (l : list T) : list T :=
  match c with
  | Push x | PushMove x => l ++ [x]
  | Pop => take (length l - 1) l
  | Reserve _ | Replace => l
  | Resize n => take (Z.to_nat n) l ++ replicate (Z.to_nat n - length l) default_T
  | Erase i => if decide (0 ≤ i) then delete (Z.to_nat i) l else l
  | Clear => []
  end.

(** The list stays within [max]. *)
Definition allowed (c : command) (l : list T) : Prop :=
  match c with
  | Push _ | PushMove _ => Z.of_nat (length l) < max
  | Reserve n => n ≤ 2 * max
  | Resize n => 0 ≤ n ≤ max
  | _ => True
  end.

Fixpoint run_commands (cs : list command) (v : Vector) : M Vector :=
  match cs with [] => mret v | c :: cs => v ← run_command c v; run_commands cs v end.

Fixpoint all_allowed (cs : list command) (l : list T) : Prop :=
  match cs with [] => True | c :: cs => allowed c l ∧ all_allowed cs (list_command c l) end.

Lemma replace_ok v l st : rep v l st → store_wf st → m_capacity v ≤ 2 * max →
  becomes v st (run_command Replace v) l (eq (m_capacity v)).
Proof.
  intros R Hwf Hc. cbn [run_command]. destruct (vector_copy_ok v l st R Hwf Hc) as (w & st1 & E1 & Rw & R1 & W1 & O1 & Ec & Hne).
  destruct (destroy_vector_ok v l st1 R1 W1) as (st2 & E2 & W2 & B2).
  unfold becomes. rewrite (bind_run _ _ _ _ _ E1), (bind_run _ _ _ _ _ E2). exists w, st2. split; [done|].
  split; [|split; [done|split; [|done]]].
  - destruct Rw as (Hs & k & Hk & Hb). split; [done|]. exists k. split; [done|]. destruct (Z.eqb_spec (m_data w) 0); [done|].
    unfold holds. rewrite B2. unfold others. rewrite lookup_delete_ne; [exact Hb|]. by apply not_eq_sym, Hne.
  - unfold others. rewrite B2. unfold others. rewrite delete_delete. unfold others in O1. by rewrite O1.
Qed.

Lemma run_command_ok c v l st : rep v l st → store_wf st → m_capacity v ≤ 2 * max → allowed c l →
  becomes v st (run_command c v) (list_command c l) (λ n, n ≤ 2 * max).
Proof.
  intros R Hwf Hc Ha. destruct c; cbn [allowed list_command] in *.
  - by apply push_back_ok.
  - by apply push_back_move_ok.
  - eapply becomes_weaken; [|by apply pop_back_ok]. by intros ? <-.
  - eapply becomes_weaken; [|by apply reserve_ok]. cbn. lia.
  - by apply resize_ok.
  - eapply becomes_weaken; [|by apply erase_ok]. by intros ? <-.
  - eapply becomes_weaken; [|by eapply clear_vector_ok]. by intros ? <-.
  - eapply becomes_weaken; [|by apply replace_ok]. by intros ? <-.
Qed.

Lemma run_commands_ok cs : ∀ v l st, rep v l st → store_wf st → m_capacity v ≤ 2 * max → all_allowed cs l →
  becomes v st (run_commands cs v) (foldl (flip list_command) l cs) (λ n, n ≤ 2 * max).
Proof.
  induction cs as [|c cs IH]; intros v l st R Hwf Hc Ha; cbn [run_commands foldl].
  { by apply becomes_same. }
  destruct Ha as [Hac Ha]. eapply becomes_bind; [by apply run_command_ok| |exact R].
  intros v1 st1 R1 W1 C1. by apply IH.
Qed.

(** [C10] The vector is a list: any sequence of its operations on a fresh vector
    returns, without an access to raw storage, to a destroyed object or outside a
    block, and leaves in it, at every index, what the sequence does to the list;
    destroying it then gives back every block it ever took and touches no other. *)
Theorem vector_refines_list cs st : store_wf st → 0 ≤ max → all_allowed cs [] →
  exists v st', run_commands cs vector st = Ok (v, st') ∧ size v = Z.of_nat (length (foldl (flip list_command) [] cs)) ∧
    (forall i x, foldl (flip list_command) [] cs !! i = Some x → at_index (Z.of_nat i) v st' = Ok (x, st')) ∧
    exists st'', destroy_vector v st' = Ok (tt, st'') ∧ blocks st'' = blocks st.
Proof.
  intros Hwf Hm Ha. assert (R0 : rep vector [] st) by (split; [done|by exists 0%nat]).
  destruct (run_commands_ok cs vector [] st R0 Hwf ltac:(cbn; lia) Ha) as (v & st' & E & R & W & O & _).
  exists v, st'. split; [exact E|]. pose proof R as (Hs & k & Hc & Hb). split; [exact Hs|]. split.
  - intros i x Hi. set (l := foldl _ _ _) in *. destruct (Z.eqb_spec (m_data v) 0) as [E0|E0].
    { apply lookup_lt_Some in Hi. lia. }
    apply (slot_ok _ _ _ _ x Hb); [lia|]. rewrite Nat2Z.id. unfold objects.
    rewrite lookup_app_l by (rewrite length_map; by eapply lookup_lt_Some). by rewrite list_lookup_fmap, Hi.
  - destruct (destroy_vector_ok v _ st' R W) as (st'' & Ed & _ & B). exists st''. split; [exact Ed|].
    rewrite B, O. by apply others_null.
Qed.

(** Assigning a vector to another makes it the same list, in a block of its
    own; the other vector and every other block stay as they were. *)
Theorem assign_copy_spec v l o lo st : rep v l st → rep o lo st → store_wf st → m_data o = 0 ∨ m_data v ≠ m_data o →
  m_capacity o ≤ 2 * max →
  exists v' st', assign_copy false v o st = Ok (v', st') ∧ rep v' lo st' ∧ store_wf st' ∧ others v' st' = others v st.
Proof.
  intros R Ro Hwf Hne Hc. destruct (assign_copy_ok v l o lo st R Ro Hwf Hne Hc) as (v' & st' & E & R' & W & O & _).
  by exists v', st'.
Qed.
End reserving.

End vector.

(** ** Witnesses *)

Definition empty_store : Store Z := St ∅ 1.

Lemma empty_store_wf : store_wf empty_store.
Proof. split; [done|]. intros b l H. unfold holds in H. cbn in H. by rewrite lookup_empty in H. Qed.

Definition small_run : list (@command Z) := [Push 7; PushMove 8; Push 9; Erase 1; Replace; Resize 4; Pop; Reserve 20].
Definition serves (n : Z) : bool := n <=? 1024.

Lemma vector_refines_list_witness :
  exists v st', run_commands 8 serves id 0 small_run vector empty_store = Ok (v, st') ∧ size v = 3 ∧
    at_index 1 v st' = Ok (9, st') ∧ exists st'', destroy_vector v st' = Ok (tt, st'') ∧ blocks st'' = ∅.
Proof.
  destruct (vector_refines_list 8 serves id 0 64 ltac:(lia) ltac:(lia) ltac:(unfold serves; lia) small_run empty_store empty_store_wf ltac:(lia))
    as (v & st' & E & Hs & Hi & Hd); [cbn; lia|].
  exists v, st'. split; [exact E|]. split; [exact Hs|]. split; [exact (Hi 1%nat 9 eq_refl)|exact Hd].
Defined.

Lemma assign_copy_spec_witness :
  exists v' st', assign_copy 8 serves false (Vec 1 1 1) (Vec 2 2 2) (St {[1 := [Some 5]; 2 := [Some 6; Some 7]]} 3) = Ok (v', st') ∧
    rep v' [6; 7] st'.
Proof.
  destruct (assign_copy_spec 8 serves id 0 64 ltac:(lia) ltac:(lia) ltac:(unfold serves; lia) (Vec 1 1 1) [5] (Vec 2 2 2) [6; 7]
    (St {[1 := [Some 5]; 2 := [Some 6; Some 7]]} 3)) as (v' & st' & E & R & _).
  - split; [done|]. by exists 0%nat.
  - split; [done|]. by exists 0%nat.
  - split; [done|]. intros b l H. unfold holds in H. cbn in H. apply lookup_insert_Some in H as [[<- _]|[_ H]]; [cbn; lia|].
    apply lookup_singleton_Some in H as [<- _]. cbn. lia.
  - by right.
  - cbn. lia.
  - by exists v', st'.
Defined.

(** A reference into the vector itself does not survive its growth: a full vector
    that is given its own first element reads the block it gave back. *)
Example push_back_own_element_full :
  push_back 8 serves id (Slot 1 0) (Vec 1 1 1) (St {[1 := [Some 5]]} 2) = UB.
Proof. vm_compute. reflexivity. Qed.
