(* ===== verification/KString.v ===== *)
(** * The string (src/kernel/src/lib/string.hpp)

    The growing text of the kernel's library, over the checked blocks of Blocks.v.
    A character that was never written is a raw slot: copying one copies nothing,
    and looking at one is undefined.  A [const char*] argument is null, an
    array outside the blocks or a place in a block, which may be the string's own.
    Any program over several strings does to them what it does to texts, and they
    share no block and leave none behind; the three operations that break on the
    string's own characters are shown to at the end. *)

From S2P Require Import Prelude CStr Blocks.

Section string.
(** Whether the allocator serves a number of bytes. *)
Variable served : Z → bool.

#[local] Abbreviation M := (ST (Store Z)).

(** ** Pointers to characters *)

Inductive cptr := Null | Array (a : list Z) | At (b i : Z).

(** The byte [j] places behind the pointer. *)
Definition byte_at (p : cptr) (j : Z) (st : Store Z) : outcome (option Z) :=
  match p with
  | Null => UB
  | Array a => c ← aget a j; Ok (Some c)
  | At b i => match blocks st !! b with Some l => aget l (i + j) | None => UB end
  end.

Definition load (p : cptr) (j : Z) : M (option Z) := λ st, v ← byte_at p j st; Ok (v, st).

(** The characters from the pointer to the first byte that was never written, or
    to the end of the array. *)
Fixpoint written (l : list (option Z)) : list Z :=
  match l with Some c :: l' => c :: written l' | _ => [] end.

Definition chars_at (p : cptr) (st : Store Z) : outcome (list Z) :=
  match p with
  | Null => UB
  | Array a => Ok a
  | At b i =>
      match blocks st !! b with
      | Some l => if (0 <=? i) && (i <=? Z.of_nat (length l)) then Ok (written (drop (Z.to_nat i) l)) else UB
      | None => UB
      end
  end.

Definition see (p : cptr) : M (list Z) := λ st, l ← chars_at p st; Ok (l, st).

(** The library's functions on them. *)
Definition strlen (p : cptr) : M Z := l ← see p; lift (CStr.strlen l).

Definition strcmp (p q : cptr) : M Z := l ← see p; r ← see q; lift (CStr.strcmp l r).

Definition memcmp (p q : cptr) (n : Z) : M Z := l ← see p; r ← see q; lift (CStr.memcmp l r (Z.to_nat n)).

(** One byte after the other, upwards: where the two arrays overlap, a byte that
    was written is read again. *)
Fixpoint memcpy_from (n : nat) (j b d : Z) (p : cptr) : M unit :=
  match n with
  | O => mret tt
  | S n' => v ← load p j; put_slot b (d + j) v;; memcpy_from n' (j + 1) b d p
  end.

(** [memcpy(data + d, p, n)] *)
Definition memcpy (b d : Z) (p : cptr) (n : Z) : M unit := memcpy_from (Z.to_nat n) 0 b d p.

(** ** The string *)

Record String := Str { m_data : Z; m_size : Z; m_capacity : Z }.

Definition npos : Z := u64 (-1).

(** [String()] *)
Definition string_empty : String := Str 0 0 0.

(** [new char[n]] *)
Definition new_chars (n : Z) : M Z := new_block served n.

(** The block of a copy of [n] characters of [str] and the terminator. *)
Definition string_of_chars (str : cptr) : M String :=
  m_size ← strlen str;
  let m_capacity := u64 (m_size + 1) in
  m_data ← new_chars m_capacity;
  memcpy m_data 0 str (u64 (m_size + 1));;
  mret (Str m_data m_size m_capacity).

(** The string of a C string. *)
Definition string_of (str : cptr) : M String :=
  match str with Null => mret (Str 0 0 0) | _ => string_of_chars str end.

(** The copy constructor. *)
Definition string_copy (other : String) : M String :=
  if 0 <? m_capacity other then
    b ← new_chars (m_capacity other);
    memcpy b 0 (At (m_data other) 0) (u64 (m_size other + 1));;
    mret (Str b (m_size other) (m_capacity other))
  else mret (Str 0 (m_size other) (m_capacity other)).

(** [String(String&&)]: the new string, and what is left of the other. *)
Definition string_move (other : String) : M (String * String) := mret (other, Str 0 0 0).

(** [delete[]]: of the null pointer nothing. *)
Definition destroy_string (s : String) : M unit := delete_if (m_data s).

(** [self] is whether both sides are the same object. *)
Definition assign_copy (self : bool) (s other : String) : M String :=
  if self then mret s else
  delete_if (m_data s);;
  string_copy other.

Definition assign_move (self : bool) (s other : String) : M (String * String) :=
  if self then mret (s, s) else
  delete_if (m_data s);;
  mret (other, Str 0 0 0).

Definition assign_chars (str : cptr) (s : String) : M String :=
  delete_if (m_data s);;
  match str with Null => mret (Str 0 0 0) | _ => string_of_chars str end.

(** The first half of both [operator+=]: room for [new_size] characters. *)
Definition widen (new_size : Z) (s : String) : M String :=
  if m_capacity s <? u64 (new_size + 1) then
    let new_capacity := u64 (new_size + 1) in
    new_data ← new_chars new_capacity;
    (if m_data s =? 0 then mret tt
     else memcpy new_data 0 (At (m_data s) 0) (m_size s);; delete_block (m_data s));;
    mret (Str new_data (m_size s) new_capacity)
  else mret s.

(** [operator+=(const String&)]: the other string is read again after the room was
    made. *)
Definition append_other (self : bool) (other s : String) : M String :=
  if m_size other =? 0 then mret s else
  let new_size := u64 (m_size s + m_size other) in
  s ← widen new_size s;
  let other := if self then s else other in
  memcpy (m_data s) (m_size s) (At (m_data other) 0) (u64 (m_size other + 1));;
  mret (Str (m_data s) new_size (m_capacity s)).

(** [*p] *)
Definition first_char (p : cptr) : M Z := v ← load p 0; match v with Some c => mret c | None => lift UB end.

(** [operator+=] of a C string. *)
Definition append_cstr (str : cptr) (s : String) : M String :=
  match str with
  | Null => mret s
  | _ =>
      c ← first_char str;
      if c =? 0 then mret s else
      str_len ← strlen str;
      let new_size := u64 (m_size s + str_len) in
      s ← widen new_size s;
      memcpy (m_data s) (m_size s) str (u64 (str_len + 1));;
      mret (Str (m_data s) new_size (m_capacity s))
  end.

Definition equals (s other : String) : M bool :=
  if negb (m_size s =? m_size other) then mret false
  else if m_size s =? 0 then mret true
  else z ← memcmp (At (m_data s) 0) (At (m_data other) 0) (m_size s); mret (z =? 0).

Definition equals_chars (s : String) (str : cptr) : M bool :=
  match str with
  | Null => mret (m_size s =? 0)
  | _ =>
      if m_data s =? 0 then c ← first_char str; mret (c =? 0)
      else z ← strcmp (At (m_data s) 0) str; mret (z =? 0)
  end.

Definition differs (s other : String) : M bool := b ← equals s other; mret (negb b).
Definition differs_chars (s : String) (str : cptr) : M bool := b ← equals_chars s str; mret (negb b).

(** [s[index]], read and written: the index is not compared with the size. *)
Definition at_index (index : Z) (s : String) : M Z := slot (m_data s) index.
Definition set_char_at (index c : Z) (s : String) : M unit := put_slot (m_data s) index (Some c).

Definition c_str (s : String) : cptr := if m_data s =? 0 then Array [0] else At (m_data s) 0.
Definition size (s : String) : Z := m_size s.
Definition empty (s : String) : bool := m_size s =? 0.

Definition reserve (new_capacity : Z) (s : String) : M String :=
  if new_capacity <=? m_capacity s then mret s else
  new_data ← new_chars new_capacity;
  (if m_data s =? 0 then put_slot new_data 0 (Some 0)
   else memcpy new_data 0 (At (m_data s) 0) (u64 (m_size s + 1));; delete_block (m_data s));;
  mret (Str new_data (m_size s) new_capacity).

Definition clear (s : String) : M String :=
  (if m_data s =? 0 then mret tt else put_slot (m_data s) 0 (Some 0));;
  mret (Str (m_data s) 0 (m_capacity s)).

Definition substr (pos len : Z) (s : String) : M String :=
  if m_size s <=? pos then mret string_empty else
  let len := if (len =? npos) || (m_size s <? u64 (pos + len)) then u64 (m_size s - pos) else len in
  result ← reserve (u64 (len + 1)) string_empty;
  memcpy (m_data result) 0 (At (m_data s) pos) len;;
  put_slot (m_data result) len (Some 0);;
  mret (Str (m_data result) len (m_capacity result)).

(** [strstr] of the C library, which [find] calls and nothing in the kernel
    defines: the first suffix that starts with the second string. *)
Fixpoint starts_with (l needle : list Z) : bool :=
  match needle, l with
  | [], _ => true
  | c :: needle', x :: l' => (x =? c) && starts_with l' needle'
  | _ :: _, [] => false
  end.

Fixpoint strstr_from (l needle : list Z) (i : Z) : option Z :=
  if starts_with l needle then Some i
  else match l with [] => None | _ :: l' => strstr_from l' needle (i + 1) end.

(** The characters of a C string. *)
Fixpoint until_nul (l : list Z) : outcome (list Z) :=
  match l with
  | [] => UB
  | c :: l' => if c =? 0 then Ok [] else r ← until_nul l'; Ok (c :: r)
  end.

Definition strstr (p q : cptr) : M (option Z) :=
  l ← see p; r ← see q; s ← lift (until_nul l); needle ← lift (until_nul r); mret (strstr_from s needle 0).

Definition find (str : cptr) (pos : Z) (s : String) : M Z :=
  match str with
  | Null => mret npos
  | _ =>
      if (m_data s =? 0) || (m_size s <=? pos) then mret npos else
      found ← strstr (At (m_data s) pos) str;
      mret match found with None => npos | Some i => pos + i end
  end.

Definition find_string (str : String) (pos : Z) (s : String) : M Z := find (c_str str) pos s.

(** ** Copying characters *)

(** The text as slots, with its terminator behind it. *)
Definition slots (l : list Z) : list (option Z) := map Some l.
Definition terminated (l : list Z) : list (option Z) := slots l ++ [Some 0].

Lemma slots_length l : length (slots l) = length l.
Proof. apply length_map. Qed.

Lemma terminated_length l : length (terminated l) = S (length l).
Proof. unfold terminated. rewrite length_app, slots_length. cbn. lia. Qed.

Lemma slots_app l l' : slots (l ++ l') = slots l ++ slots l'.
Proof. apply map_app. Qed.

Lemma terminated_app l r : terminated l ++ r = slots l ++ Some 0 :: r.
Proof. unfold terminated. by rewrite <- app_assoc. Qed.

Lemma written_slots l r : written (slots l ++ r) = l ++ written r.
Proof. induction l as [|c l IH]; [done|]. cbn. by f_equal. Qed.

Lemma see_ok p l st : chars_at p st = Ok l → see p st = Ok (l, st).
Proof. intros E. unfold see. by rewrite E. Qed.

(** The pointer is not into block [b]. *)
Definition apart (p : cptr) (b : Z) : Prop := match p with At b' _ => b' ≠ b | _ => True end.

(** From the pointer on, the bytes [xs] can be copied. *)
Definition source (p : cptr) (xs : list (option Z)) (st : Store Z) : Prop :=
  ∀ k x, xs !! k = Some x → byte_at p (Z.of_nat k) st = Ok x.

Lemma byte_at_upd p b j l st : apart p b → byte_at p j (upd_block b l st) = byte_at p j st.
Proof. destruct p as [|a|b' i]; cbn; [done|done|]. intros H. by rewrite lookup_insert_ne. Qed.

Lemma source_block st b pre xs post i : holds st b (pre ++ xs ++ post) → i = Z.of_nat (length pre) → source (At b i) xs st.
Proof.
  intros H -> k x Hk. cbn. rewrite H. rewrite <- Nat2Z.inj_add. apply aget_lookup.
  rewrite lookup_app_r by lia. rewrite Nat.add_comm, Nat.add_sub. by rewrite lookup_app_l by (by eapply lookup_lt_Some).
Qed.

Lemma source_array st s r : source (Array (s ++ 0 :: r)) (terminated s) st.
Proof.
  intros k x Hk. cbn. assert (aget (s ++ 0 :: r) (Z.of_nat k) = Ok (default 0 x) ∧ x = Some (default 0 x)) as [E Ex].
  { unfold terminated in Hk. apply lookup_app_Some in Hk as [Hk|[Hl Hk]].
    - unfold slots in Hk. rewrite list_lookup_fmap in Hk. apply fmap_Some in Hk as (c & Hc & ->). split; [|done].
      apply aget_lookup. by rewrite lookup_app_l by (by eapply lookup_lt_Some).
    - rewrite slots_length in *. apply list_lookup_singleton_Some in Hk as [E0 <-]. split; [|done].
      apply aget_lookup. rewrite lookup_app_r by done. by rewrite E0. }
  rewrite E, Ex. done.
Qed.

Lemma memcpy_from_ok xs : ∀ j b d p st dn old r, apart p b →
  (∀ k x, xs !! k = Some x → byte_at p (j + Z.of_nat k) st = Ok x) →
  d + j = Z.of_nat (length dn) → length old = length xs → holds st b (dn ++ old ++ r) →
  memcpy_from (length xs) j b d p st = Ok (tt, upd_block b (dn ++ xs ++ r) st).
Proof.
  induction xs as [|x xs IH]; intros j b d p st dn old r Ha Hs Hd Ho H; cbn [length memcpy_from].
  { destruct old; [|done]. by rewrite upd_block_same. }
  destruct old as [|o old]; [done|]. injection Ho as Ho.
  assert (El : load p j st = Ok (x, st)).
  { unfold load. pose proof (Hs 0%nat x eq_refl) as E. rewrite Z.add_0_r in E. by rewrite E. }
  rewrite (bind_run _ _ _ _ _ El), (bind_run _ _ _ _ _ (put_middle st b (d + j) dn _ Hd o x H)).
  rewrite (IH (j + 1) b d p _ (dn ++ [x]) old r); [|done| | |done|].
  - by rewrite upd_block_twice, <- app_assoc.
  - intros k y Hk. rewrite byte_at_upd by done. rewrite <- (Hs (S k) y Hk). f_equal. lia.
  - rewrite length_app. cbn. lia.
  - rewrite <- app_assoc. apply holds_upd.
Qed.

(** [memcpy] of [n] bytes to the place behind [dn]. *)
Lemma str_memcpy_ok xs n b d p st dn old r : apart p b → source p xs st → n = Z.of_nat (length xs) →
  d = Z.of_nat (length dn) → length old = length xs → holds st b (dn ++ old ++ r) →
  memcpy b d p n st = Ok (tt, upd_block b (dn ++ xs ++ r) st).
Proof.
  intros Ha Hs -> Hd Ho H. unfold memcpy. rewrite Nat2Z.id. apply (memcpy_from_ok xs 0 b d p st dn old r); try done.
  by rewrite Z.add_0_r.
Qed.

(** ** A string is a text *)

Section bounded.
Implicit Types (st : Store Z) (l : list Z).
(** No string takes more than [limit] bytes, which the allocator serves. *)
Variable limit : Z.
Hypothesis limit_size : limit < 2 ^ 64.
Hypothesis limit_served : ∀ n, 0 ≤ n ≤ limit → served n = true.

(** The characters, their terminator behind them, and room. *)
Definition rep (v : String) (l : list Z) (st : Store Z) : Prop :=
  m_size v = Z.of_nat (length l) ∧ m_capacity v ≤ limit ∧
  if m_data v =? 0 then l = [] ∧ m_capacity v = 0
  else ∃ rest, holds st (m_data v) (terminated l ++ rest) ∧ m_capacity v = Z.of_nat (length l + 1 + length rest).

(** The blocks that are not the string's. *)
Definition others (v : String) (st : Store Z) : gmap Z (list (option Z)) := delete (m_data v) (blocks st).

(** The operation makes the string that is the text [l]; the other blocks are [base]. *)
Definition makes (base : gmap Z (list (option Z))) (st : Store Z) (m : M String) (l : list Z) : Prop :=
  exists v st', m st = Ok (v, st') ∧ rep v l st' ∧ store_wf st' ∧ others v st' = base.

Lemma no_block_0 st : store_wf st → blocks st !! 0 = None.
Proof. intros [_ H]. destruct (blocks st !! 0) as [l|] eqn:E; [|done]. pose proof (H 0 l E). lia. Qed.

Lemma no_next_block st : store_wf st → blocks st !! next_block st = None.
Proof. intros [_ H]. destruct (blocks st !! _) as [l|] eqn:E; [|done]. pose proof (H _ l E). lia. Qed.

Lemma str_others_null v st : m_data v = 0 → store_wf st → others v st = blocks st.
Proof. intros E H. unfold others. rewrite E. by apply delete_id, no_block_0. Qed.

Lemma empty_rep st : 0 ≤ limit → rep string_empty [] st.
Proof. intros H. unfold rep. cbn. done. Qed.

(** The block of another string stays when the blocks beside this one do. *)
Lemma str_others_holds v v1 st st1 b (l : list (option Z)) : others v1 st1 = others v st → b ≠ m_data v → holds st b l → holds st1 b l.
Proof.
  unfold others, holds. intros O Hne H. assert (E : delete (m_data v1) (blocks st1) !! b = Some l) by (by rewrite O, lookup_delete_ne).
  apply lookup_delete_Some in E. apply E.
Qed.

Lemma others_rep v v1 st st1 w l : others v1 st1 = others v st → (m_data w = 0 ∨ m_data w ≠ m_data v) → rep w l st → rep w l st1.
Proof.
  intros O Hne (Hs & Hl & Hb). split; [done|]. split; [done|]. destruct (Z.eqb_spec (m_data w) 0); [done|].
  destruct Hb as (rest & Hb & Hc). exists rest. split; [|done]. by eapply str_others_holds; [done|naive_solver|].
Qed.

Lemma new_chars_ok n st : 0 ≤ n ≤ limit → new_chars n st = Ok (next_block st, with_block st n).
Proof. intros Hn. unfold new_chars, new_block. by rewrite limit_served. Qed.

Lemma with_block_raw st n (k : nat) : n = Z.of_nat k → holds (with_block st n) (next_block st) (replicate k None).
Proof. intros ->. unfold holds, with_block. cbn. by rewrite lookup_insert_eq, Nat2Z.id. Qed.

Lemma with_block_source st n p xs : store_wf st → source p xs st → xs ≠ [] → apart p (next_block st) ∧ source p xs (with_block st n).
Proof.
  intros Hwf Hs Hx. destruct p as [|a|b i]; cbn; [done..|].
  assert (Hb : b ≠ next_block st).
  { intros ->. destruct xs as [|x xs]; [done|]. specialize (Hs 0%nat x eq_refl). cbn in Hs. by rewrite (no_next_block st Hwf) in Hs. }
  split; [done|]. intros k x Hk. rewrite <- (Hs k x Hk). cbn. by rewrite lookup_insert_ne.
Qed.

(** A new block with the bytes [xs] at the front. *)
Lemma new_copy st p xs cap (k : nat) : store_wf st → source p xs st → xs ≠ [] → cap = Z.of_nat (length xs + k) → cap ≤ limit →
  let b := next_block st in
  new_chars cap st = Ok (b, with_block st cap) ∧
  memcpy b 0 p (Z.of_nat (length xs)) (with_block st cap) = Ok (tt, upd_block b (xs ++ replicate k None) (with_block st cap)) ∧
  store_wf (upd_block b (xs ++ replicate k None) (with_block st cap)) ∧
  delete b (blocks (upd_block b (xs ++ replicate k None) (with_block st cap))) = blocks st ∧ b ≠ 0.
Proof.
  intros Hwf Hs Hx Hc Hl b. destruct (with_block_source st cap p xs Hwf Hs Hx) as [Ha Hs'].
  pose proof (with_block_raw st cap _ Hc) as Hraw. fold b in Hraw. rewrite replicate_add in Hraw.
  split; [apply new_chars_ok; lia|]. split; [|split; [|split]].
  - apply (str_memcpy_ok xs _ b 0 p _ [] (replicate (length xs) None) (replicate k None)); try done. by rewrite length_replicate.
  - eapply upd_block_wf; [exact Hraw|]. by apply with_block_wf.
  - unfold upd_block, with_block. cbn. fold b. rewrite insert_insert_eq, delete_insert_eq. by apply delete_id, no_next_block.
  - pose proof (proj1 Hwf). unfold b. lia.
Qed.

(** A new string with the text of another place. *)
Lemma fresh_string st p l cap : store_wf st → source p (terminated l) st → Z.of_nat (length l) < cap ≤ limit →
  makes (blocks st) st (b ← new_chars cap; memcpy b 0 p (Z.of_nat (length l) + 1);; mret (Str b (Z.of_nat (length l)) cap)) l.
Proof.
  intros Hwf Hs Hc. set (k := (Z.to_nat cap - S (length l))%nat).
  destruct (new_copy st p (terminated l) cap k) as (E1 & E2 & W & D & Hb); try done.
  { unfold terminated. by destruct (slots l). }
  { rewrite terminated_length. lia. }
  { lia. }
  rewrite terminated_length in E2. replace (Z.of_nat (S (length l))) with (Z.of_nat (length l) + 1) in E2 by lia.
  unfold makes. rewrite (bind_run _ _ _ _ _ E1), (bind_run _ _ _ _ _ E2). eexists _, _. split; [reflexivity|].
  split; [|split; [exact W|exact D]]. split; [done|]. split; [cbn; lia|]. cbn [m_data m_capacity].
  rewrite (proj2 (Z.eqb_neq _ 0)) by done. exists (replicate k None). split; [apply holds_upd|]. rewrite length_replicate. lia.
Qed.

(** The C string at [p]. *)
Definition text_at (p : cptr) (s : list Z) st : Prop :=
  chars s ∧ p ≠ Null ∧ source p (terminated s) st ∧ exists r, chars_at p st = Ok (s ++ 0 :: r).

Lemma text_at_array s r st : chars s → text_at (Array (s ++ 0 :: r)) s st.
Proof. intros Hs. split; [done|]. split; [done|]. split; [apply source_array|by exists r]. Qed.

Lemma first_char_ok p s st : text_at p s st → first_char p st = Ok (hd 0 s, st).
Proof.
  intros (_ & _ & Hs & _). assert (E : load p 0 st = Ok (Some (hd 0 s), st)).
  { unfold load. change 0 with (Z.of_nat 0) at 1. rewrite (Hs 0%nat (Some (hd 0 s))); [done|]. by destruct s. }
  unfold first_char. by rewrite (bind_run _ _ _ _ _ E).
Qed.

Lemma strlen_ok p s st : text_at p s st → strlen p st = Ok (Z.of_nat (length s), st).
Proof. intros (Hs & _ & _ & r & E). unfold strlen. rewrite (bind_run _ _ _ _ _ (see_ok _ _ _ E)). unfold lift. by rewrite strlen_app. Qed.

Lemma string_of_chars_ok p s st : store_wf st → text_at p s st → Z.of_nat (length s) < limit →
  makes (blocks st) st (string_of_chars p) s.
Proof.
  intros Hwf Ht Hl. unfold string_of_chars, makes. rewrite (bind_run _ _ _ _ _ (strlen_ok p s st Ht)).
  rewrite u64_small by lia. apply fresh_string; [done|apply Ht|lia].
Qed.

Lemma rep_source v l st : rep v l st → m_data v ≠ 0 → source (At (m_data v) 0) (terminated l) st.
Proof.
  intros (_ & _ & H) E. rewrite (proj2 (Z.eqb_neq _ 0)) in H by done. destruct H as (rest & H & _).
  by apply (source_block st _ [] _ rest).
Qed.

Lemma rep_size v l st : rep v l st → Z.of_nat (length l) ≤ limit.
Proof. intros (_ & Hc & H). destruct (m_data v =? 0); [destruct H as [-> E]; cbn in *; lia|]. destruct H as (rest & _ & E). lia. Qed.

Lemma string_copy_ok o l st : store_wf st → rep o l st → makes (blocks st) st (string_copy o) l.
Proof.
  intros Hwf R. pose proof R as (Hs & Hl & H). unfold string_copy. destruct (Z.eqb_spec (m_data o) 0) as [E|E].
  - destruct H as [-> Hc]. rewrite Hc. cbn. exists (Str 0 (m_size o) 0), st. split; [done|].
    split; [|split; [done|by apply str_others_null]]. split; [done|]. split; [cbn; lia|done].
  - pose proof (rep_source o l st R E) as Hsrc. destruct H as (rest & H & Hc). rewrite (proj2 (Z.ltb_lt 0 _)) by lia.
    rewrite u64_small by lia. rewrite Hs. apply fresh_string; [done|done|lia].
Qed.

(** Giving a string's block back. *)
Lemma str_delete_ok v l st : store_wf st → rep v l st →
  exists st', delete_if (m_data v) st = Ok (tt, st') ∧ store_wf st' ∧ blocks st' = others v st.
Proof.
  intros Hwf (_ & _ & H). unfold delete_if. destruct (Z.eqb_spec (m_data v) 0) as [E|E].
  - exists st. split; [done|]. split; [done|]. symmetry. by apply str_others_null.
  - destruct H as (rest & H & _). rewrite (delete_block_ok st _ _ H). eexists. split; [reflexivity|]. split; [by apply delete_wf|done].
Qed.

Lemma others_same v v1 st st1 : blocks st1 = others v st → store_wf st → m_data v1 = 0 → store_wf st1 → others v1 st1 = others v st.
Proof. intros E _ E0 H. rewrite <- E. by apply str_others_null. Qed.

(** Giving the block back first, as the assignments do. *)
Lemma delete_then v l st (m : M String) l' : store_wf st → rep v l st →
  (∀ st1, store_wf st1 → blocks st1 = others v st → makes (blocks st1) st1 m l') →
  makes (others v st) st (delete_if (m_data v);; m) l'.
Proof.
  intros Hwf R Hm. destruct (str_delete_ok v l st Hwf R) as (st1 & E & W & B). destruct (Hm st1 W B) as (w & st2 & E2 & R2 & W2 & O2).
  exists w, st2. rewrite (bind_run _ _ _ _ _ E). split_and!; try done. congruence.
Qed.

(** What is in another place stays when the string's block is given back. *)
Lemma rep_kept v st st1 w l : blocks st1 = others v st → (m_data w = 0 ∨ m_data w ≠ m_data v) → rep w l st → rep w l st1.
Proof.
  intros B Hne (Hs & Hl & H). split; [done|]. split; [done|]. destruct (Z.eqb_spec (m_data w) 0); [done|]. destruct H as (rest & H & Hc).
  exists rest. split; [|done]. unfold holds. rewrite B. unfold others. rewrite lookup_delete_ne; [exact H|naive_solver].
Qed.

Lemma str_assign_copy_ok v l o lo st : store_wf st → rep v l st → rep o lo st → (m_data o = 0 ∨ m_data o ≠ m_data v) →
  makes (others v st) st (assign_copy false v o) lo.
Proof.
  intros Hwf R Ro Hne. apply (delete_then v l); [done|done|]. intros st1 W1 B1. apply string_copy_ok; [done|]. by eapply rep_kept.
Qed.

Lemma assign_chars_ok v l s r st : store_wf st → rep v l st → chars s → Z.of_nat (length s) < limit →
  makes (others v st) st (assign_chars (Array (s ++ 0 :: r)) v) s.
Proof.
  intros Hwf R Hs Hl. apply (delete_then v l); [done|done|]. intros st1 W1 B1. apply string_of_chars_ok; [done|by apply text_at_array|done].
Qed.

Lemma assign_null_ok v l st : 0 ≤ limit → store_wf st → rep v l st → makes (others v st) st (assign_chars Null v) [].
Proof.
  intros Hl Hwf R. apply (delete_then v l); [done|done|]. intros st1 W1 B1. exists string_empty, st1. split; [done|].
  split; [by apply empty_rep|]. split; [done|]. by apply str_others_null.
Qed.

(** ** Growing *)

(** The string's block with [room] behind the characters. *)
Definition roomy (v : String) l (need : Z) st : Prop :=
  m_size v = Z.of_nat (length l) ∧ m_capacity v ≤ limit ∧ m_data v ≠ 0 ∧
  exists room, holds st (m_data v) (slots l ++ room) ∧ m_capacity v = Z.of_nat (length l + length room) ∧ need ≤ m_capacity v.

Lemma widen_ok v l n st : store_wf st → rep v l st → Z.of_nat (length l) ≤ n → n + 1 ≤ limit →
  exists v' st', widen n v st = Ok (v', st') ∧ roomy v' l (n + 1) st' ∧ store_wf st' ∧ others v' st' = others v st.
Proof.
  intros Hwf R Hn Hlim. pose proof R as (Hs & Hl & H). unfold widen. rewrite u64_small by lia. destruct (Z.ltb_spec (m_capacity v) (n + 1)) as [Hlt|Hge].
  - destruct (Z.eqb_spec (m_data v) 0) as [E|E].
    + destruct H as [-> Hc]. rewrite (bind_run _ _ _ _ _ (new_chars_ok (n + 1) st ltac:(lia))).
      eexists _, _. split; [reflexivity|]. pose proof (proj1 Hwf). split; [|split; [by apply with_block_wf|]].
      * split; [done|]. split; [cbn; lia|]. split; [cbn; lia|]. exists (replicate (Z.to_nat (n + 1)) None).
        split; [apply with_block_raw; lia|]. cbn. rewrite length_replicate. lia.
      * rewrite (str_others_null v st E Hwf). unfold others. cbn. rewrite delete_insert_eq. by apply delete_id, no_next_block.
    + destruct H as (rest & H & Hc). rewrite terminated_app in H.
      set (k := (Z.to_nat (n + 1) - length l)%nat).
      assert (Hk : n + 1 = Z.of_nat (length (slots l) + k)) by (rewrite slots_length; lia).
      set (st1 := with_block st (n + 1)). set (b := next_block st).
      destruct (with_block_fresh st (n + 1) (m_data v) _ Hwf H) as [Hne H1]. fold st1 b in Hne, H1.
      pose proof (with_block_raw st (n + 1) _ Hk) as Hraw. rewrite replicate_add in Hraw. fold st1 b in Hraw.
      assert (E2 : memcpy b 0 (At (m_data v) 0) (m_size v) st1 = Ok (tt, upd_block b (slots l ++ replicate k None) st1)).
      { apply (str_memcpy_ok (slots l) _ b 0 _ st1 [] (replicate (length (slots l)) None)); try done.
        - by apply (source_block st1 _ [] _ (Some 0 :: rest)).
        - by rewrite slots_length.
        - by rewrite length_replicate. }
      rewrite (bind_run _ _ _ _ _ (new_chars_ok (n + 1) st ltac:(lia))). fold st1 b.
      set (st2 := upd_block b (slots l ++ replicate k None) st1) in *.
      assert (H2 : holds st2 (m_data v) (slots l ++ Some 0 :: rest)) by (by apply holds_upd_ne).
      rewrite (bind_run _ _ _ _ _ (eq_trans (bind_run _ _ _ _ _ E2) (delete_block_ok st2 _ _ H2))).
      eexists _, _. split; [reflexivity|]. pose proof (proj1 Hwf). split; [|split].
      * split; [done|]. split; [cbn; lia|]. split; [cbn; unfold b; lia|]. exists (replicate k None). split; [|cbn; rewrite length_replicate, slots_length in *; lia].
        unfold holds. cbn. rewrite lookup_delete_ne by done. by rewrite lookup_insert_eq.
      * apply delete_wf. eapply upd_block_wf; [exact Hraw|]. by apply with_block_wf.
      * unfold others, st2, st1. cbn. fold b. rewrite insert_insert_eq. rewrite delete_delete, delete_insert_eq.
        f_equal. by apply delete_id, no_next_block.
  - exists v, st. split; [done|]. destruct (Z.eqb_spec (m_data v) 0) as [E|E]; [lia|]. split; [|done].
    split; [done|]. split; [done|]. split; [done|]. destruct H as (rest & H & Hc). exists (Some 0 :: rest). rewrite terminated_app in H.
    split; [done|]. cbn. lia.
Qed.

(** Text written behind the characters. *)
Lemma extend_ok v l s p st : store_wf st → roomy v l (Z.of_nat (length l + length s) + 1) st → source p (terminated s) st → apart p (m_data v) →
  makes (others v st) st (memcpy (m_data v) (m_size v) p (Z.of_nat (length s) + 1);; mret (Str (m_data v) (Z.of_nat (length l + length s)) (m_capacity v))) (l ++ s).
Proof.
  intros Hwf (Hs & Hl & E & room & H & Hc & Hn) Hsrc Ha. set (rest := drop (S (length s)) room).
  assert (Hsplit : room = take (S (length s)) room ++ rest) by (unfold rest; by rewrite take_drop). rewrite Hsplit in H.
  assert (Em : memcpy (m_data v) (m_size v) p (Z.of_nat (length s) + 1) st = Ok (tt, upd_block (m_data v) (slots l ++ terminated s ++ rest) st)).
  { apply (str_memcpy_ok (terminated s) _ _ _ p st (slots l) (take (S (length s)) room)); try done.
    - rewrite terminated_length. lia.
    - by rewrite slots_length.
    - rewrite terminated_length, length_take. lia. }
  unfold makes. rewrite (bind_run _ _ _ _ _ Em). eexists _, _. split; [reflexivity|]. split; [|split].
  - split; [cbn; by rewrite length_app|]. split; [done|]. cbn [m_data m_capacity]. rewrite (proj2 (Z.eqb_neq _ 0)) by done.
    exists rest. split; [|rewrite length_app; unfold rest; rewrite length_drop; lia].
    replace (terminated (l ++ s) ++ rest) with (slots l ++ terminated s ++ rest) by (by rewrite !terminated_app, slots_app, <- app_assoc).
    apply holds_upd.
  - by eapply upd_block_wf.
  - unfold others, upd_block. cbn. by rewrite delete_insert_eq.
Qed.

(** Appending another string's text. *)
Lemma str_append_ok v l o lo st : store_wf st → rep v l st → rep o lo st → (m_data o = 0 ∨ m_data o ≠ m_data v) →
  Z.of_nat (length l + length lo) < limit → makes (others v st) st (append_other false o v) (l ++ lo).
Proof.
  intros Hwf R Ro Hne Hl. pose proof R as (Hs & _). pose proof Ro as (Hso & _ & Hbo). unfold append_other, makes. rewrite Hso.
  destruct (Z.eqb_spec (Z.of_nat (length lo)) 0) as [E0|E0].
  { assert (lo = []) as -> by (by destruct lo). rewrite app_nil_r. by exists v, st. }
  assert (Eo : m_data o ≠ 0). { intros E. rewrite E in Hbo. cbn in Hbo. destruct Hbo as [-> _]. done. }
  rewrite Hs, u64_small, <- Nat2Z.inj_add by lia.
  destruct (widen_ok v l (Z.of_nat (length l + length lo)) st Hwf R ltac:(lia) ltac:(lia)) as (v1 & st1 & E1 & R1 & W1 & O1).
  rewrite (bind_run _ _ _ _ _ E1). rewrite u64_small by lia.
  assert (Ro1 : rep o lo st1) by (by eapply others_rep).
  assert (Hd : m_data o ≠ m_data v1).
  { intros Hd. rewrite (proj2 (Z.eqb_neq _ 0)) in Hbo by done. destruct Hbo as (ro & Hbo & _).
    assert (Ho : others v1 st1 !! m_data o = Some (terminated lo ++ ro)) by (rewrite O1; unfold others; rewrite lookup_delete_ne; [exact Hbo|naive_solver]).
    unfold others in Ho. rewrite Hd, lookup_delete_eq in Ho. done. }
  destruct (extend_ok v1 l lo (At (m_data o) 0) st1 W1 R1) as (v2 & st2 & E2 & R2 & W2 & O2); [by apply rep_source|done|].
  exists v2, st2. split; [exact E2|]. split_and!; try done. congruence.
Qed.

(** Appending a C string that is not in a block. *)
Lemma str_append_cstr_ok v l s r st : store_wf st → rep v l st → chars s → Z.of_nat (length l + length s) < limit →
  makes (others v st) st (append_cstr (Array (s ++ 0 :: r)) v) (l ++ s).
Proof.
  intros Hwf R Hc Hl. pose proof R as (Hs & _). unfold append_cstr, makes.
  rewrite (bind_run _ _ _ _ _ (first_char_ok _ s st (text_at_array s r st Hc))). destruct s as [|c s0]; [rewrite app_nil_r; by exists v, st|]. set (s := c :: s0) in *.
  pose proof Hc as Hc0. apply chars_cons in Hc0 as [Hc0 _]. change (hd 0 s) with c. rewrite (proj2 (Z.eqb_neq c 0)) by done.
  rewrite (bind_run _ _ _ _ _ (strlen_ok _ s st (text_at_array s r st Hc))).
  rewrite Hs, u64_small, <- Nat2Z.inj_add by lia.
  destruct (widen_ok v l (Z.of_nat (length l + length s)) st Hwf R ltac:(lia) ltac:(lia)) as (v1 & st1 & E1 & R1 & W1 & O1).
  rewrite (bind_run _ _ _ _ _ E1). rewrite u64_small by lia.
  destruct (extend_ok v1 l s (Array (s ++ 0 :: r)) st1 W1 R1) as (v2 & st2 & E2 & R2 & W2 & O2); [apply source_array|done|].
  exists v2, st2. split; [exact E2|]. split_and!; try done. congruence.
Qed.

Lemma str_reserve_ok v l n st : store_wf st → rep v l st → n ≤ limit → makes (others v st) st (reserve n v) l.
Proof.
  intros Hwf R Hn. pose proof R as (Hs & Hl & H). unfold reserve, makes. destruct (Z.leb_spec n (m_capacity v)) as [Hle|Hgt].
  { by exists v, st. }
  pose proof (proj1 Hwf). destruct (Z.eqb_spec (m_data v) 0) as [E|E].
  - destruct H as [-> Hc]. rewrite (bind_run _ _ _ _ _ (new_chars_ok n st ltac:(lia))).
    destruct (Z.to_nat n) as [|k] eqn:Ek; [lia|]. pose proof (with_block_raw st n (S k) ltac:(lia)) as Hraw.
    rewrite (bind_run _ _ _ _ _ (put_middle _ _ 0 [] (replicate k None) eq_refl None (Some 0) Hraw)). eexists _, _. split; [reflexivity|].
    split; [|split].
    + split; [done|]. split; [cbn; lia|]. cbn [m_data m_capacity]. rewrite (proj2 (Z.eqb_neq _ 0)) by lia. exists (replicate k None).
      split; [apply holds_upd|]. cbn. rewrite length_replicate. lia.
    + eapply upd_block_wf; [exact Hraw|]. by apply with_block_wf.
    + rewrite (str_others_null v st E Hwf). unfold others, upd_block, with_block. cbn. rewrite insert_insert_eq, delete_insert_eq. by apply delete_id, no_next_block.
  - pose proof (rep_source v l st R E) as Hsrc. destruct H as (rest & H & Hc). rewrite u64_small by lia. rewrite Hs.
    set (k := (Z.to_nat n - S (length l))%nat).
    destruct (new_copy st (At (m_data v) 0) (terminated l) n k Hwf Hsrc) as (E1 & E2 & W2 & D2 & Hb).
    { unfold terminated. by destruct (slots l). }
    { rewrite terminated_length. lia. }
    { done. }
    rewrite terminated_length in E2. replace (Z.of_nat (S (length l))) with (Z.of_nat (length l) + 1) in E2 by lia.
    destruct (with_block_fresh st n (m_data v) _ Hwf H) as [Hne H1].
    set (st2 := upd_block _ _ (with_block st n)) in *. assert (H2 : holds st2 (m_data v) (terminated l ++ rest)) by (by apply holds_upd_ne).
    rewrite (bind_run _ _ _ _ _ E1), (bind_run _ _ _ _ _ (eq_trans (bind_run _ _ _ _ _ E2) (delete_block_ok st2 _ _ H2))).
    eexists _, _. split; [reflexivity|]. split; [|split].
    + split; [done|]. split; [cbn; lia|]. cbn [m_data m_capacity]. rewrite (proj2 (Z.eqb_neq _ 0)) by done. exists (replicate k None).
      split; [|rewrite length_replicate; lia]. unfold holds. cbn. rewrite lookup_delete_ne by done. by rewrite lookup_insert_eq.
    + by apply delete_wf.
    + unfold others. cbn [m_data blocks]. by rewrite delete_delete, D2.
Qed.

Lemma str_clear_ok v l st : store_wf st → rep v l st → makes (others v st) st (clear v) [].
Proof.
  intros Hwf R. pose proof R as (Hs & Hl & H). unfold clear, makes. destruct (Z.eqb_spec (m_data v) 0) as [E|E].
  - destruct H as [-> Hc]. st. eexists _, _. split; [reflexivity|]. split; [|done]. split; [done|]. split; [done|]. cbn [m_data]. by rewrite E.
  - destruct H as (rest & H & Hc).
    assert (Hx : exists x rest', terminated l ++ rest = x :: rest' ∧ length rest' = (length l + length rest)%nat).
    { destruct l as [|c l]; [by exists (Some 0), rest|]. eexists _, _. split; [reflexivity|]. rewrite length_app, length_app, slots_length. cbn. lia. }
    destruct Hx as (x & rest' & Ex & Hr). rewrite Ex in H.
    rewrite (bind_run _ _ _ _ _ (put_middle st _ 0 [] rest' eq_refl x (Some 0) H)). eexists _, _. split; [reflexivity|]. split; [|split].
    + split; [done|]. split; [done|]. cbn [m_data m_capacity]. rewrite (proj2 (Z.eqb_neq _ 0)) by done. exists rest'.
      split; [apply holds_upd|]. cbn. lia.
    + by eapply upd_block_wf.
    + unfold others, upd_block. cbn. by rewrite delete_insert_eq.
Qed.

(** ** Parts of a string *)

Lemma reserve_capacity n v st v' st' : reserve n v st = Ok (v', st') → n ≤ m_capacity v'.
Proof.
  unfold reserve. destruct (Z.leb_spec n (m_capacity v)); [by intros [= <- <-]|].
  intros (b & s1 & _ & E)%bind_run_inv. apply bind_run_inv in E as (u & s2 & _ & E). injection E as <- _. cbn. lia.
Qed.

(** [len] characters from [pos] on. *)
Definition part (pos len : Z) (l : list Z) : list Z :=
  let l := drop (Z.to_nat (Z.min pos (Z.of_nat (length l)))) l in take (Z.to_nat (Z.min len (Z.of_nat (length l)))) l.

Lemma part_length pos len l : 0 ≤ pos < Z.of_nat (length l) → 0 ≤ len →
  Z.of_nat (length (part pos len l)) = Z.min len (Z.of_nat (length l) - pos).
Proof. intros Hp Hl. unfold part. rewrite length_take, length_drop. lia. Qed.

Lemma part_split pos len l : 0 ≤ pos < Z.of_nat (length l) →
  exists r, l = take (Z.to_nat pos) l ++ part pos len l ++ r.
Proof.
  intros Hp. unfold part. rewrite (Z.min_l pos) by lia. eexists. symmetry. rewrite take_drop. apply take_drop.
Qed.

Lemma substr_ok v l pos len st : 0 ≤ limit → store_wf st → rep v l st → 0 ≤ pos → 0 ≤ len → (pos + len < 2 ^ 64 ∨ len = npos) →
  makes (blocks st) st (substr pos len v) (part pos len l).
Proof.
  intros Hlim Hwf R Hp Hlen Hw. pose proof R as (Hs & Hl & H). pose proof (rep_size v l st R) as Hsz. unfold substr. rewrite Hs.
  destruct (Z.leb_spec (Z.of_nat (length l)) pos) as [Hout|Hin].
  { exists string_empty, st. split; [done|]. split; [|split; [done|by apply str_others_null]]. unfold part.
    rewrite drop_ge by lia. rewrite take_nil. by apply empty_rep. }
  assert (Elen : (if (len =? npos) || (Z.of_nat (length l) <? u64 (pos + len)) then u64 (Z.of_nat (length l) - pos) else len) = Z.of_nat (length (part pos len l))).
  { rewrite part_length by lia. rewrite (u64_small (_ - _)) by lia. destruct (Z.eqb_spec len npos) as [->|Hne]; cbn [orb].
    - change npos with (2 ^ 64 - 1). lia.
    - destruct Hw as [Hw|Hw]; [|done]. rewrite u64_small by lia. destruct (Z.ltb_spec (Z.of_nat (length l)) (pos + len)); lia. }
  cbv zeta. rewrite Elen. pose proof (part_length pos len l ltac:(lia) Hlen) as Hpl. destruct (part_split pos len l ltac:(lia)) as [r Hr].
  set (sub := part pos len l) in *. assert (E : m_data v ≠ 0). { intros E. rewrite E in H. cbn in H. destruct H as [-> _]. cbn in Hin. lia. }
  rewrite (proj2 (Z.eqb_neq _ 0)) in H by done. destruct H as (rest & H & Hc).
  rewrite (u64_small (_ + 1)) by lia.
  destruct (str_reserve_ok string_empty [] (Z.of_nat (length sub) + 1) st Hwf (empty_rep st Hlim) ltac:(lia)) as (w & st1 & E1 & (_ & Hwl & Hw1) & W1 & O1).
  pose proof (reserve_capacity _ _ _ _ _ E1) as Hcap. rewrite (str_others_null string_empty st eq_refl Hwf) in O1.
  destruct (Z.eqb_spec (m_data w) 0) as [E0|E0]; [lia|]. destruct Hw1 as (room & Hw1 & Hcw). cbn in Hw1, Hcw.
  assert (Hne : m_data v ≠ m_data w). { intros Ev. unfold holds in H. rewrite <- O1, Ev in H. unfold others in H. by rewrite lookup_delete_eq in H. }
  assert (H1 : holds st1 (m_data v) (terminated l ++ rest)).
  { unfold holds in *. rewrite <- O1 in H. unfold others in H. by rewrite lookup_delete_ne in H. }
  set (tail := Some 0 :: room) in *. assert (Ht : tail = take (length sub) tail ++ drop (length sub) tail) by (by rewrite take_drop).
  assert (Htl : (length sub < length tail)%nat) by (unfold tail; cbn; lia). rewrite Ht in Hw1.
  destruct (drop (length sub) tail) as [|x r'] eqn:Ed; [apply (f_equal length) in Ed; rewrite length_drop in Ed; cbn in Ed; lia|].
  assert (Em : memcpy (m_data w) 0 (At (m_data v) pos) (Z.of_nat (length sub)) st1 = Ok (tt, upd_block (m_data w) (slots sub ++ x :: r') st1)).
  { apply (str_memcpy_ok (slots sub) _ _ 0 _ st1 [] (take (length sub) tail)); try done.
    - apply (source_block st1 _ (slots (take (Z.to_nat pos) l)) _ (slots r ++ Some 0 :: rest)); [|rewrite slots_length, length_take; lia].
      rewrite terminated_app in H1. unfold holds in *. rewrite H1. f_equal. rewrite Hr at 1. by rewrite !slots_app, <- !app_assoc.
    - by rewrite slots_length.
    - rewrite slots_length, length_take. lia. }
  unfold makes. rewrite (bind_run _ _ _ _ _ E1), (bind_run _ _ _ _ _ Em).
  rewrite (bind_run _ _ _ _ _ (put_middle _ _ (Z.of_nat (length sub)) (slots sub) r' ltac:(by rewrite slots_length) x (Some 0) (holds_upd _ _ _))).
  eexists _, _. split; [reflexivity|]. rewrite upd_block_twice. split; [|split].
  - split; [done|]. split; [done|]. cbn [m_data m_capacity]. rewrite (proj2 (Z.eqb_neq _ 0)) by done. exists r'. rewrite terminated_app.
    split; [apply holds_upd|]. apply (f_equal length) in Ed. rewrite length_drop in Ed. unfold tail in Ed. cbn in Ed. lia.
  - by eapply upd_block_wf.
  - unfold others, upd_block. cbn. rewrite delete_insert_eq. exact O1.
Qed.

(** ** Comparing and searching *)

Lemma memcmp_app l1 : ∀ l2 r1 r2, length l1 = length l2 →
  exists z, CStr.memcmp (l1 ++ r1) (l2 ++ r2) (length l1) = Ok z ∧ (z =? 0) = bool_decide (l1 = l2).
Proof.
  induction l1 as [|c l1 IH]; intros [|d l2] r1 r2 Hl; try done; cbn [app length CStr.memcmp].
  { exists 0. split; [by destruct r1|]. by rewrite bool_decide_true. }
  destruct (Z.eqb_spec c d) as [->|Hne]; cbn [negb].
  - destruct (IH l2 r1 r2) as (z & E & Hz); [cbn in Hl; lia|]. exists z. split; [done|]. rewrite Hz. apply bool_decide_ext. naive_solver.
  - exists (c - d). split; [done|]. rewrite bool_decide_false by naive_solver. lia.
Qed.

Lemma chars_at_block st b l rest pos : holds st b (terminated l ++ rest) → 0 ≤ pos ≤ Z.of_nat (length l) →
  chars_at (At b pos) st = Ok (drop (Z.to_nat pos) l ++ 0 :: written rest).
Proof.
  intros H Hp. unfold chars_at. rewrite H. rewrite length_app, terminated_length, (proj2 (Z.leb_le 0 pos)), (proj2 (Z.leb_le pos _)) by lia. cbn [andb].
  rewrite terminated_app, drop_app_le by (rewrite slots_length; lia).
  replace (drop (Z.to_nat pos) (slots l)) with (slots (drop (Z.to_nat pos) l)); [by rewrite written_slots|]. symmetry. apply skipn_map.
Qed.

Lemma see_block st b l rest : holds st b (terminated l ++ rest) → see (At b 0) st = Ok (l ++ 0 :: written rest, st).
Proof. intros H. apply see_ok. apply (chars_at_block st b l rest 0 H). lia. Qed.

Lemma equals_ok v l o lo st : rep v l st → rep o lo st → equals v o st = Ok (bool_decide (l = lo), st).
Proof.
  intros (Hs & _ & H) (Hso & _ & Ho). unfold equals. rewrite Hs, Hso.
  destruct (Z.eqb_spec (Z.of_nat (length l)) (Z.of_nat (length lo))) as [El|El]; cbn [negb]; cycle 1.
  { rewrite bool_decide_false; [done|]. intros ->. done. }
  destruct (Z.eqb_spec (Z.of_nat (length l)) 0) as [E0|E0].
  { rewrite bool_decide_true; [done|]. destruct l, lo; cbn in *; try done; lia. }
  destruct (Z.eqb_spec (m_data v) 0); [destruct H as [-> _]; done|]. destruct (Z.eqb_spec (m_data o) 0); [destruct Ho as [-> _]; cbn in *; lia|].
  destruct H as (rest & H & _), Ho as (ro & Ho & _). destruct (memcmp_app l lo (0 :: written rest) (0 :: written ro) ltac:(lia)) as (z & E & Hz).
  assert (Em : memcmp (At (m_data v) 0) (At (m_data o) 0) (Z.of_nat (length l)) st = Ok (z, st)).
  { unfold memcmp. rewrite (bind_run _ _ _ _ _ (see_block _ _ _ _ H)), (bind_run _ _ _ _ _ (see_block _ _ _ _ Ho)). rewrite Nat2Z.id, E. done. }
  rewrite (bind_run _ _ _ _ _ Em), Hz. done.
Qed.

(** [c_str] is the text. *)
Lemma c_str_ok v l st : rep v l st → chars l → text_at (c_str v) l st.
Proof.
  intros R Hc. pose proof R as (_ & _ & H). unfold c_str. destruct (Z.eqb_spec (m_data v) 0) as [E|E].
  - destruct H as [-> _]. by apply (text_at_array []).
  - destruct H as (rest & H & Hcap). split; [done|]. split; [done|]. split; [by apply (rep_source v)|]. exists (written rest).
    exact (chars_at_block st _ l rest 0 H ltac:(lia)).
Qed.

Lemma equals_chars_ok v l p s st : rep v l st → chars l → text_at p s st → equals_chars v p st = Ok (bool_decide (l = s), st).
Proof.
  intros R Hc Ht. pose proof R as (_ & _ & H). pose proof Ht as (Hcs & Hp & _ & r & Er).
  assert (E : equals_chars v p st = (if m_data v =? 0 then c ← first_char p; mret (c =? 0) else z ← strcmp (At (m_data v) 0) p; mret (z =? 0)) st) by (by destruct p).
  rewrite E. clear E. destruct (Z.eqb_spec (m_data v) 0) as [E|E].
  - destruct H as [-> _]. rewrite (bind_run _ _ _ _ _ (first_char_ok p s st Ht)). unfold mret, st_ret. do 2 f_equal.
    destruct s as [|c s]; [done|]. apply chars_cons in Hcs as [Hcs _]. cbn. rewrite bool_decide_false by done. lia.
  - destruct H as (rest & H & _). destruct (strcmp_eqb l (written rest) s r Hc Hcs) as (z & Ez & Hz).
    assert (Ec : strcmp (At (m_data v) 0) p st = Ok (z, st)).
    { unfold strcmp. rewrite (bind_run _ _ _ _ _ (see_block _ _ _ _ H)). rewrite (bind_run _ _ _ _ _ (see_ok _ _ _ Er)). unfold lift. by rewrite Ez. }
    rewrite (bind_run _ _ _ _ _ Ec), Hz. done.
Qed.

Lemma starts_with_spec l s : starts_with l s = true ↔ s `prefix_of` l.
Proof.
  revert l. induction s as [|c s IH]; intros l.
  { split; [intros _; apply prefix_nil|]. by destruct l. }
  destruct l as [|x l]; [split; [done|]; by intros [k ?]|]. cbn [starts_with]. rewrite andb_true_iff, Z.eqb_eq, IH. split.
  - intros [-> Hl]. by apply prefix_cons.
  - intros Hl. split; [symmetry; by eapply prefix_cons_inv_1|by eapply prefix_cons_inv_2].
Qed.

Lemma strstr_from_spec l s : ∀ i,
  match strstr_from l s i with
  | Some k => i ≤ k ≤ i + Z.of_nat (length l) ∧ s `prefix_of` drop (Z.to_nat (k - i)) l ∧ ∀ j : nat, Z.of_nat j < k - i → ¬ s `prefix_of` drop j l
  | None => ∀ j, ¬ s `prefix_of` drop j l
  end.
Proof.
  induction l as [|x l IH]; intros i; cbn [strstr_from].
  all: destruct (starts_with _ s) eqn:E; [apply starts_with_spec in E; rewrite Z.sub_diag; split_and!; [lia|lia|done|lia]|].
  all: assert (Hn : ∀ q, s `prefix_of` q → starts_with q s = true) by (intros q; apply starts_with_spec).
  - intros j Hj. rewrite drop_nil in Hj. apply Hn in Hj. congruence.
  - specialize (IH (i + 1)). destruct (strstr_from l s (i + 1)) as [k|].
    + destruct IH as (Hk & Hp & Hm). split; [cbn [length]; lia|]. split.
      * replace (Z.to_nat (k - i)) with (S (Z.to_nat (k - (i + 1)))) by lia. done.
      * intros [|j] Hj Hd; [apply Hn in Hd; rewrite drop_0 in Hd; congruence|]. apply (Hm j); [lia|done].
    + intros [|j] Hd; [apply Hn in Hd; rewrite drop_0 in Hd; congruence|]. by apply (IH j).
Qed.

Lemma until_nul_app s r : chars s → until_nul (s ++ 0 :: r) = Ok s.
Proof.
  induction s as [|c s IH]; intros Hs; [done|]. apply chars_cons in Hs as [Hc Hs]. cbn. rewrite (proj2 (Z.eqb_neq c 0)) by done. by rewrite IH.
Qed.

(** [find] gives the first place from [pos] on. *)
Lemma find_ok v l p s pos st : rep v l st → chars l → text_at p s st → 0 ≤ pos < Z.of_nat (length l) →
  exists k, find p pos v st = Ok (k, st) ∧
    ((k = npos ∧ ∀ j : nat, pos ≤ Z.of_nat j → ¬ s `prefix_of` drop j l) ∨
     (pos ≤ k ≤ Z.of_nat (length l) ∧ s `prefix_of` drop (Z.to_nat k) l ∧ ∀ j : nat, pos ≤ Z.of_nat j < k → ¬ s `prefix_of` drop j l)).
Proof.
  intros (Hs & _ & H) Hc (Hcs & Hp & _ & r & Er) Hpos. destruct (Z.eqb_spec (m_data v) 0) as [E|E]; [destruct H as [-> _]; cbn in Hpos; lia|].
  destruct H as (rest & H & Hcap). set (q := drop (Z.to_nat pos) l).
  assert (El : chars_at (At (m_data v) pos) st = Ok (q ++ 0 :: written rest)).
  { apply (chars_at_block st _ l rest pos H). lia. }
  assert (Hq : chars q) by (by apply Forall_drop).
  assert (Ef : strstr (At (m_data v) pos) p st = Ok (strstr_from q s 0, st)).
  { unfold strstr. rewrite (bind_run _ _ _ _ _ (see_ok _ _ _ El)), (bind_run _ _ _ _ _ (see_ok _ _ _ Er)).
    by rewrite (bind_lift _ q) by (by apply until_nul_app); rewrite (bind_lift _ s) by (by apply until_nul_app). }
  assert (E2 : find p pos v st = Ok (match strstr_from q s 0 with None => npos | Some i => pos + i end, st)).
  { unfold find. destruct p; [done|..]; rewrite (proj2 (Z.eqb_neq _ 0)), Hs, (proj2 (Z.leb_gt _ pos)) by (done || lia); cbn [orb];
      rewrite (bind_run _ _ _ _ _ Ef); done. }
  eexists. split; [exact E2|]. pose proof (strstr_from_spec q s 0) as Hspec.
  assert (Hdrop : ∀ j : nat, drop j q = drop (Z.to_nat pos + j) l) by (intros j; unfold q; by rewrite drop_drop).
  assert (Hql : length q = (length l - Z.to_nat pos)%nat) by (unfold q; by rewrite length_drop).
  destruct (strstr_from q s 0) as [k|]; [right|left].
  - destruct Hspec as (Hk & Hpre & Hm). split; [lia|]. split.
    + rewrite Hdrop in Hpre. by replace (Z.to_nat (pos + k)) with (Z.to_nat pos + Z.to_nat (k - 0))%nat by lia.
    + intros j Hj Hd. apply (Hm (j - Z.to_nat pos)%nat); [lia|]. rewrite Hdrop. by replace (Z.to_nat pos + (j - Z.to_nat pos))%nat with j by lia.
  - split; [done|]. intros j Hj Hd. apply (Hspec (j - Z.to_nat pos)%nat). rewrite Hdrop. by replace (Z.to_nat pos + (j - Z.to_nat pos))%nat with j by lia.
Qed.

(** ** Programs over several strings *)

Inductive op :=
| AssignText (i : nat) (s : list Z) | AssignNull (i : nat) | Copy (i j : nat) | Move (i j : nat)
| Append (i j : nat) | AppendText (i : nat) (s : list Z) | Reserve (i : nat) (n : Z) | Clear (i : nat)
| Substr (i j : nat) (pos len : Z).

Definition var (vs : list String) (i : nat) : M String := λ st, match vs !! i with Some v => Ok (v, st) | None => UB end.

(** [t = s] of a temporary string, which is then destroyed. *)
Definition assign_temporary (m : M String) (v : String) : M String :=
  t ← m;
  r ← assign_move false v t;
  destroy_string (snd r);;
  mret (fst r).

Definition run_op (o : op) (vs : list String) : M (list String) :=
  match o with
  | AssignText i s => v ← var vs i; v ← assign_chars (Array (s ++ [0])) v; mret (<[i := v]> vs)
  | AssignNull i => v ← var vs i; v ← assign_chars Null v; mret (<[i := v]> vs)
  | Copy i j => v ← var vs i; o ← var vs j; v ← assign_copy (i =? j)%nat v o; mret (<[i := v]> vs)
  | Move i j => v ← var vs i; o ← var vs j; r ← assign_move (i =? j)%nat v o; mret (<[i := fst r]> (<[j := snd r]> vs))
  | Append i j => v ← var vs i; o ← var vs j; v ← append_other (i =? j)%nat o v; mret (<[i := v]> vs)
  | AppendText i s => v ← var vs i; v ← append_cstr (Array (s ++ [0])) v; mret (<[i := v]> vs)
  | Reserve i n => v ← var vs i; v ← reserve n v; mret (<[i := v]> vs)
  | Clear i => v ← var vs i; v ← clear v; mret (<[i := v]> vs)
  | Substr i j pos len => v ← var vs i; o ← var vs j; v ← assign_temporary (substr pos len o) v; mret (<[i := v]> vs)
  end.

Fixpoint run_ops (os : list op) (vs : list String) : M (list String) :=
  match os with [] => mret vs | o :: os => vs ← run_op o vs; run_ops os vs end.

Fixpoint destroy_strings (vs : list String) : M unit :=
  match vs with [] => mret tt | v :: vs => destroy_string v;; destroy_strings vs end.

(** The same on texts. *)
Definition text_op (o : op) (ls : list (list Z)) : list (list Z) :=
  match o with
  | AssignText i s => <[i := s]> ls
  | AssignNull i | Clear i => <[i := []]> ls
  | Copy i j => <[i := ls !!! j]> ls
  | Move i j => if decide (i = j) then ls else <[i := ls !!! j]> (<[j := []]> ls)
  | Append i j => <[i := ls !!! i ++ ls !!! j]> ls
  | AppendText i s => <[i := ls !!! i ++ s]> ls
  | Reserve _ _ => ls
  | Substr i j pos len => <[i := part pos len (ls !!! j)]> ls
  end.

(** The strings exist, the texts stay within [limit], and a string is not appended
    to itself. *)
Definition op_allowed (o : op) (ls : list (list Z)) : Prop :=
  match o with
  | AssignText i s => (i < length ls)%nat ∧ chars s ∧ Z.of_nat (length s) < limit
  | AssignNull i | Clear i => (i < length ls)%nat
  | Copy i j | Move i j => (i < length ls ∧ j < length ls)%nat
  | Append i j => (i < length ls ∧ j < length ls)%nat ∧ i ≠ j ∧ Z.of_nat (length (ls !!! i) + length (ls !!! j)) < limit
  | AppendText i s => (i < length ls)%nat ∧ chars s ∧ Z.of_nat (length (ls !!! i) + length s) < limit
  | Reserve i n => (i < length ls)%nat ∧ n ≤ limit
  | Substr i j pos len => (i < length ls ∧ j < length ls)%nat ∧ 0 ≤ pos ∧ 0 ≤ len ∧ (pos + len < 2 ^ 64 ∨ len = npos)
  end.

Fixpoint ops_allowed (os : list op) (ls : list (list Z)) : Prop :=
  match os with [] => True | o :: os => op_allowed o ls ∧ ops_allowed os (text_op o ls) end.

(** Each string has a block of its own, and the other blocks are as at the start. *)
Record owned (base : gmap Z (list (option Z))) (vs : list String) (ls : list (list Z)) st : Prop := {
  owned_wf : store_wf st;
  owned_base0 : base !! 0 = None;
  owned_rep : Forall2 (λ v l, rep v l st) vs ls;
  owned_apart : ∀ i j v w, i ≠ j → vs !! i = Some v → vs !! j = Some w → m_data v = 0 ∨ m_data v ≠ m_data w;
  owned_new : ∀ i v, vs !! i = Some v → base !! m_data v = None;
  owned_rest : ∀ b, b ≠ 0 → (∀ i v, vs !! i = Some v → m_data v ≠ b) → blocks st !! b = base !! b }.

Lemma owned_lookup base vs ls st i : owned base vs ls st → (i < length ls)%nat →
  exists v, vs !! i = Some v ∧ ls !! i = Some (ls !!! i) ∧ rep v (ls !!! i) st.
Proof.
  intros O Hi. destruct (lookup_lt_is_Some_2 ls i Hi) as [l El]. destruct (Forall2_lookup_r _ _ _ _ _ (owned_rep _ _ _ _ O) El) as (v & Ev & R).
  exists v. by rewrite (list_lookup_total_correct _ _ _ El).
Qed.

Lemma var_ok vs i v st : vs !! i = Some v → var vs i st = Ok (v, st).
Proof. intros E. unfold var. by rewrite E. Qed.

(** One string changes, with what it owns. *)
Lemma owned_replace base vs ls st i v (m : M String) l' : owned base vs ls st → vs !! i = Some v → makes (others v st) st m l' →
  exists v' st', m st = Ok (v', st') ∧ owned base (<[i := v']> vs) (<[i := l']> ls) st'.
Proof.
  intros [Hwf H0 Hr Hap Hnew Hrest] Ev (v' & st' & E & R & W & Oth). exists v', st'. split; [exact E|].
  assert (Hother : ∀ j w, i ≠ j → vs !! j = Some w → m_data w ≠ 0 → m_data w ≠ m_data v').
  { intros j w Hij Ew Hw0 Ed. destruct (Forall2_lookup_l _ _ _ _ _ Hr Ew) as (lw & _ & _ & _ & Hb).
    rewrite (proj2 (Z.eqb_neq _ 0)) in Hb by done. destruct Hb as (rw & Hb & _).
    assert (Hl : others v' st' !! m_data w = Some (terminated lw ++ rw)).
    { rewrite Oth. unfold others. rewrite lookup_delete_ne; [exact Hb|]. destruct (Hap j i w v) as [?|?]; try done; congruence. }
    unfold others in Hl. by rewrite Ed, lookup_delete_eq in Hl. }
  assert (Hlook : ∀ j w, <[i := v']> vs !! j = Some w → j = i ∧ w = v' ∨ j ≠ i ∧ vs !! j = Some w).
  { intros j w Hw. destruct (decide (j = i)) as [->|Hne]; [left|right; by rewrite list_lookup_insert_ne in Hw].
    rewrite list_lookup_insert_eq in Hw by (by eapply lookup_lt_Some). by injection Hw as <-. }
  assert (Hfresh : base !! m_data v' = None).
  { destruct (decide (m_data v' = 0)) as [->|Hz]; [done|]. apply eq_None_not_Some. intros [l Hl].
    assert (Hv : m_data v ≠ m_data v') by (intros Ed; rewrite <- Ed, (Hnew i v Ev) in Hl; done).
    assert (Hs : others v' st' !! m_data v' = blocks st !! m_data v') by (rewrite Oth; unfold others; by rewrite lookup_delete_ne).
    unfold others in Hs. rewrite lookup_delete_eq in Hs. rewrite Hrest, Hl in Hs; [done|done|].
    intros j w Ew Ed. rewrite <- Ed, (Hnew j w Ew) in Hl. done. }
  split; [done|done| | | |].
  - apply Forall2_same_length_lookup. pose proof (Forall2_length _ _ _ Hr) as Hlen. split; [by rewrite !length_insert|].
    intros j w lw Hw Hlw. destruct (Hlook j w Hw) as [[-> ->]|[Hne Ew]].
    + rewrite list_lookup_insert_eq in Hlw by (rewrite <- Hlen; by eapply lookup_lt_Some). by injection Hlw as <-.
    + rewrite list_lookup_insert_ne in Hlw by done. eapply others_rep; [exact Oth| |].
      * by apply (Hap j i w v).
      * exact (Forall2_lookup_lr _ _ _ _ _ _ Hr Ew Hlw).
  - intros j k w x Hjk Hw Hx. destruct (Hlook j w Hw) as [[-> ->]|[Hj Ew]], (Hlook k x Hx) as [[-> ->]|[Hk Ex]]; [done| | |by apply (Hap j k)].
    + destruct (decide (m_data v' = 0)); [by left|right]. intros Ed. by apply (Hother k x (not_eq_sym Hk) Ex); [congruence|].
    + destruct (decide (m_data w = 0)); [by left|right]. by apply (Hother j w (not_eq_sym Hj) Ew).
  - intros j w Hw. destruct (Hlook j w Hw) as [[-> ->]|[Hj Ew]]; [done|by apply (Hnew j)].
  - intros b Hb Hno. assert (Hbv : m_data v' ≠ b).
    { apply (Hno i). rewrite list_lookup_insert_eq; [done|by eapply lookup_lt_Some]. }
    assert (Hs : others v' st' !! b = others v st !! b) by (by rewrite Oth). unfold others in Hs. rewrite lookup_delete_ne in Hs by done.
    rewrite Hs. destruct (decide (m_data v = b)) as [<-|Hne]; [by rewrite lookup_delete_eq, (Hnew i v Ev)|].
    rewrite lookup_delete_ne by done. apply Hrest; [done|]. intros j w Ew. destruct (decide (j = i)) as [->|Hj]; [congruence|].
    apply (Hno j). by rewrite list_lookup_insert_ne.
Qed.

(** The assignment of a temporary string. *)
Lemma assign_temporary_ok v l st (m : M String) l' : store_wf st → rep v l st → makes (blocks st) st m l' →
  makes (others v st) st (assign_temporary m v) l'.
Proof.
  intros Hwf R (t & st1 & E1 & Rt & W1 & O1).
  assert (rep v l st1 ∧ (m_data v = 0 ∨ m_data t ≠ m_data v)) as [Rv Hne].
  { destruct R as (Hs & Hl & H). destruct (Z.eqb_spec (m_data v) 0) as [E0|E0].
    - split; [|by left]. split; [done|]. split; [done|]. by rewrite E0.
    - destruct H as (rest & H & Hc). unfold holds in H. rewrite <- O1 in H. unfold others in H. apply lookup_delete_Some in H as [Hne H].
      split; [|by right]. split; [done|]. split; [done|]. rewrite (proj2 (Z.eqb_neq _ 0)) by done. by exists rest. }
  destruct (str_delete_ok v l st1 W1 Rv) as (st2 & E2 & W2 & B2).
  assert (E3 : assign_move false v t st1 = Ok ((t, Str 0 0 0), st2)) by (unfold assign_move; by rewrite (bind_run _ _ _ _ _ E2)).
  unfold makes, assign_temporary. rewrite (bind_run _ _ _ _ _ E1), (bind_run _ _ _ _ _ E3). exists t, st2. split; [done|].
  split; [|split; [done|]].
  - apply (rep_kept v st1); [done| |done]. destruct Hne as [E0|Hne]; [|by right]. destruct (decide (m_data t = 0)); [by left|right; congruence].
  - unfold others. rewrite B2. unfold others. rewrite delete_delete. unfold others in O1. by rewrite O1.
Qed.

(** What is owned does not depend on which variable owns it. *)
Lemma owned_permute base vs ls vs' ls' st (f g : nat → nat) : owned base vs ls st → (∀ k, g (f k) = k) → (∀ k, f (g k) = k) →
  (∀ k, vs' !! k = vs !! f k) → (∀ k, ls' !! k = ls !! f k) → owned base vs' ls' st.
Proof.
  intros [Hwf H0 Hr Hap Hnew Hrest] Hgf Hfg Hv Hl. split; [done|done| | | |].
  - apply Forall2_lookup. intros k. rewrite Hv, Hl. by apply Forall2_lookup.
  - intros i j v w Hij. rewrite !Hv. apply Hap. intros E. apply Hij. by rewrite <- (Hgf i), E, Hgf.
  - intros i v. rewrite Hv. apply Hnew.
  - intros b Hb Hno. apply Hrest; [done|]. intros i v Ev. apply (Hno (g i)). by rewrite Hv, Hfg.
Qed.

Definition swap (i j k : nat) : nat := if decide (k = i) then j else if decide (k = j) then i else k.

Lemma swap_swap i j k : swap i j (swap i j k) = k.
Proof. unfold swap. repeat case_decide; congruence. Qed.

Lemma swap_lookup {A} (l : list A) i j x y k : i ≠ j → l !! i = Some x → l !! j = Some y →
  <[i := y]> (<[j := x]> l) !! k = l !! swap i j k.
Proof.
  intros Hij Hi Hj. apply lookup_lt_Some in Hi as Hil. apply lookup_lt_Some in Hj as Hjl. unfold swap. case_decide; subst.
  { rewrite list_lookup_insert_eq; [done|by rewrite length_insert]. }
  rewrite list_lookup_insert_ne by done. case_decide; subst; [by rewrite list_lookup_insert_eq|]. by rewrite list_lookup_insert_ne.
Qed.

Lemma owned_move base vs ls st i j v o : owned base vs ls st → i ≠ j → vs !! i = Some v → vs !! j = Some o → 0 ≤ limit →
  exists st', assign_move false v o st = Ok ((o, Str 0 0 0), st') ∧
    owned base (<[i := o]> (<[j := Str 0 0 0]> vs)) (<[i := ls !!! j]> (<[j := []]> ls)) st'.
Proof.
  intros O Hij Ev Eo Hl. pose proof (lookup_lt_Some _ _ _ Ev) as Hi. pose proof (lookup_lt_Some _ _ _ Eo) as Hj.
  rewrite (Forall2_length _ _ _ (owned_rep _ _ _ _ O)) in Hi, Hj.
  destruct (owned_lookup _ _ _ _ i O Hi) as (v0 & Ev0 & Eli & R). rewrite Ev in Ev0. injection Ev0 as <-.
  destruct (owned_lookup _ _ _ _ j O Hj) as (o0 & _ & Elj & _).
  assert (Hm : makes (others v st) st (delete_if (m_data v);; mret string_empty) []).
  { apply (delete_then v (ls !!! i)); [apply O|done|]. intros st1 W1 B1. exists string_empty, st1. split; [done|].
    split; [by apply empty_rep|]. split; [done|]. by apply str_others_null. }
  destruct (owned_replace _ _ _ _ i v _ [] O Ev Hm) as (v' & st' & E & O'). exists st'.
  apply bind_run_inv in E as ([] & s1 & E1 & [= <- <-]). split; [unfold assign_move; by rewrite (bind_run _ _ _ _ _ E1)|].
  apply (owned_permute base _ _ _ _ s1 (swap i j) (swap i j) O'); [apply swap_swap|apply swap_swap| |]; intros k.
  - rewrite <- (swap_lookup _ i j string_empty o k); [|done| |].
    + rewrite (list_insert_insert_ne vs j i) by done. by rewrite list_insert_insert_eq.
    + apply list_lookup_insert_eq. by eapply lookup_lt_Some.
    + by rewrite list_lookup_insert_ne.
  - rewrite <- (swap_lookup _ i j [] (ls !!! j) k); [|done| |].
    + rewrite (list_insert_insert_ne ls j i) by done. by rewrite list_insert_insert_eq.
    + by apply list_lookup_insert_eq.
    + by rewrite list_lookup_insert_ne.
Qed.

Lemma text_op_length o ls : length (text_op o ls) = length ls.
Proof. destruct o; cbn; try case_decide; by rewrite ?length_insert. Qed.

(** The variable [i], replaced. *)
Lemma owned_step base vs ls st i (f : String → M String) l' : owned base vs ls st → (i < length ls)%nat →
  (∀ v, vs !! i = Some v → rep v (ls !!! i) st → makes (others v st) st (f v) l') →
  exists vs' st', (v ← var vs i; v ← f v; mret (<[i := v]> vs)) st = Ok (vs', st') ∧ owned base vs' (<[i := l']> ls) st'.
Proof.
  intros O Hi Hf. destruct (owned_lookup _ _ _ _ i O Hi) as (v & Ev & _ & R).
  destruct (owned_replace _ _ _ _ i v _ l' O Ev (Hf v Ev R)) as (v' & st' & E & O'). exists (<[i := v']> vs), st'.
  rewrite (bind_run _ _ _ _ _ (var_ok _ _ _ _ Ev)), (bind_run _ _ _ _ _ E). done.
Qed.

(** The same with another variable as the argument. *)
Lemma owned_step2 base vs ls st i j (f : String → String → M String) l' : owned base vs ls st → (i < length ls ∧ j < length ls)%nat →
  (∀ v o, vs !! i = Some v → vs !! j = Some o → rep v (ls !!! i) st → rep o (ls !!! j) st → makes (others v st) st (f v o) l') →
  exists vs' st', (v ← var vs i; o ← var vs j; v ← f v o; mret (<[i := v]> vs)) st = Ok (vs', st') ∧ owned base vs' (<[i := l']> ls) st'.
Proof.
  intros O [Hi Hj] Hf. destruct (owned_lookup _ _ _ _ i O Hi) as (v & Ev & _ & R), (owned_lookup _ _ _ _ j O Hj) as (o & Eo & _ & Ro).
  destruct (owned_replace _ _ _ _ i v _ l' O Ev (Hf v o Ev Eo R Ro)) as (v' & st' & E & O'). exists (<[i := v']> vs), st'.
  rewrite (bind_run _ _ _ _ _ (var_ok _ _ _ _ Ev)), (bind_run _ _ _ _ _ (var_ok _ _ _ _ Eo)), (bind_run _ _ _ _ _ E). done.
Qed.

Lemma run_op_ok base o vs ls st : 0 ≤ limit → owned base vs ls st → op_allowed o ls →
  exists vs' st', run_op o vs st = Ok (vs', st') ∧ owned base vs' (text_op o ls) st'.
Proof.
  intros Hl O Ha. pose proof (owned_wf _ _ _ _ O) as Hwf. pose proof (owned_apart _ _ _ _ O) as Hap.
  destruct o as [i s|i|i j|i j|i j|i s|i n|i|i j pos len]; cbn [op_allowed text_op run_op] in *.
  - destruct Ha as (Hi & Hs & Hsl). apply owned_step; [done|done|]. intros v Ev R. by apply (assign_chars_ok v (ls !!! i)).
  - apply owned_step; [done|done|]. intros v Ev R. by apply (assign_null_ok v (ls !!! i)).
  - apply owned_step2; [done|done|]. intros v o Ev Eo R Ro. destruct (Nat.eqb_spec i j) as [->|Hne].
    + assert (o = v) as -> by congruence. by exists v, st.
    + apply (str_assign_copy_ok v (ls !!! i)); try done. by apply (Hap j i).
  - destruct Ha as [Hi Hj]. destruct (owned_lookup _ _ _ _ i O Hi) as (v & Ev & Eli & R), (owned_lookup _ _ _ _ j O Hj) as (o & Eo & Elo & Ro).
    rewrite (bind_run _ _ _ _ _ (var_ok _ _ _ _ Ev)), (bind_run _ _ _ _ _ (var_ok _ _ _ _ Eo)). case_decide as Hij.
    + subst j. rewrite Nat.eqb_refl. exists vs, st. split; [|done]. unfold assign_move. st. cbn [fst snd].
      by rewrite (list_insert_id vs i v Ev), (list_insert_id vs i v Ev).
    + rewrite (proj2 (Nat.eqb_neq i j) Hij). destruct (owned_move _ _ _ _ i j v o O Hij Ev Eo Hl) as (st' & E & O').
      rewrite (bind_run _ _ _ _ _ E). eexists _, st'. by split.
  - destruct Ha as (Hij & Hne & Hlen). apply owned_step2; [done|done|]. intros v o Ev Eo R Ro. rewrite (proj2 (Nat.eqb_neq i j) Hne).
    apply str_append_ok; try done. by apply (Hap j i).
  - destruct Ha as (Hi & Hs & Hsl). apply owned_step; [done|done|]. intros v Ev R. by apply str_append_cstr_ok.
  - destruct Ha as (Hi & Hn). destruct (owned_step base vs ls st i (reserve n) (ls !!! i) O Hi) as (vs' & st' & E & O').
    { intros v Ev R. by apply str_reserve_ok. }
    exists vs', st'. split; [exact E|]. destruct (owned_lookup _ _ _ _ i O Hi) as (_ & _ & El & _). by rewrite (list_insert_id ls i _ El) in O'.
  - apply owned_step; [done|done|]. intros v Ev R. by apply (str_clear_ok v (ls !!! i)).
  - destruct Ha as (Hij & Hp & Hlen & Hw). apply (owned_step2 _ _ _ _ i j (λ v o, assign_temporary (substr pos len o) v)); [done|done|].
    intros v o Ev Eo R Ro. apply (assign_temporary_ok v (ls !!! i)); [done|done|]. by apply substr_ok.
Qed.

Lemma run_ops_ok base os : ∀ vs ls st, 0 ≤ limit → owned base vs ls st → ops_allowed os ls →
  exists vs' st', run_ops os vs st = Ok (vs', st') ∧ owned base vs' (foldl (flip text_op) ls os) st'.
Proof.
  induction os as [|o os IH]; intros vs ls st Hl O Ha; cbn [run_ops foldl]; [by exists vs, st|].
  destruct Ha as [Ho Ha]. destruct (run_op_ok base o vs ls st Hl O Ho) as (vs1 & st1 & E1 & O1).
  destruct (IH vs1 _ st1 Hl O1 Ha) as (vs2 & st2 & E2 & O2). exists vs2, st2. by rewrite (bind_run _ _ _ _ _ E1).
Qed.

(** At the start every string is empty and owns nothing. *)
Lemma owned_start st n : 0 ≤ limit → store_wf st → owned (blocks st) (replicate n string_empty) (replicate n []) st.
Proof.
  intros Hl Hwf. split; [done|by apply no_block_0| | | |done].
  - apply Forall2_replicate. by apply empty_rep.
  - intros i j v w _ Hv _. apply lookup_replicate in Hv as [-> _]. by left.
  - intros i v Hv. apply lookup_replicate in Hv as [-> _]. by apply no_block_0.
Qed.

Lemma destroy_strings_ok base vs : ∀ ls st, owned base vs ls st →
  exists st', destroy_strings vs st = Ok (tt, st') ∧ blocks st' = base.
Proof.
  induction vs as [|v vs IH]; intros ls st [Hwf H0 Hr Hap Hnew Hrest]; cbn [destroy_strings].
  { exists st. split; [done|]. apply map_eq. intros b. destruct (decide (b = 0)) as [->|Hb]; [by rewrite H0, no_block_0|]. by apply Hrest. }
  destruct ls as [|l ls]; [inversion Hr|]. apply Forall2_cons in Hr as [R Hr]. destruct (str_delete_ok v l st Hwf R) as (st1 & E1 & W1 & B1).
  destruct (IH ls st1) as (st2 & E2 & B2); [|exists st2; split; [by rewrite (bind_run _ _ _ _ _ E1)|done]].
  split; [done|done| | | |].
  - apply Forall2_same_length_lookup. split; [by eapply Forall2_length|]. intros i w lw Hw Hlw.
    apply (rep_kept v st); [done| |exact (Forall2_lookup_lr _ _ _ _ _ _ Hr Hw Hlw)]. by apply (Hap (S i) 0%nat).
  - intros i j w x Hij Hw Hx. by apply (Hap (S i) (S j)); [congruence| |].
  - intros i w Hw. by apply (Hnew (S i)).
  - intros b Hb Hno. rewrite B1. unfold others. destruct (decide (m_data v = b)) as [<-|Hne].
    + rewrite lookup_delete_eq. symmetry. by apply (Hnew 0%nat).
    + rewrite lookup_delete_ne by done. apply Hrest; [done|]. intros [|i] w Hw; [by injection Hw as <-|by apply (Hno i)].
Qed.

Lemma part_chars pos len l : chars l → chars (part pos len l).
Proof. intros H. unfold part. by apply Forall_take, Forall_drop. Qed.

Lemma texts_lookup ls i : Forall chars ls → chars (ls !!! i).
Proof.
  intros H. destruct (ls !! i) as [l|] eqn:E.
  - rewrite (list_lookup_total_correct _ _ _ E). by eapply Forall_lookup_1.
  - rewrite list_lookup_total_alt, E. by apply Forall_nil.
Qed.

Lemma text_op_chars o ls : op_allowed o ls → Forall chars ls → Forall chars (text_op o ls).
Proof.
  intros Ha H. pose proof (λ i, texts_lookup ls i H) as Hl.
  destruct o; cbn [op_allowed text_op] in *; try case_decide; try done; repeat apply Forall_insert; try done; try by apply Forall_nil.
  - naive_solver.
  - by apply chars_app.
  - apply chars_app. naive_solver.
  - by apply part_chars.
Qed.

Lemma text_ops_chars os : ∀ ls, ops_allowed os ls → Forall chars ls → Forall chars (foldl (flip text_op) ls os).
Proof.
  induction os as [|o os IH]; intros ls Ha H; [done|]. destruct Ha as [Ho Ha]. cbn. apply IH; [done|]. by apply text_op_chars.
Qed.


(** Looking for a text in a string finds the first place at or behind [pos] where it
    stands, and [npos] when there is none. *)
Theorem find_spec v l p s pos st : rep v l st → chars l → text_at p s st → 0 ≤ pos < Z.of_nat (length l) →
  exists k, find p pos v st = Ok (k, st) ∧
    ((k = npos ∧ ∀ j : nat, pos ≤ Z.of_nat j → ¬ s `prefix_of` drop j l) ∨
     (pos ≤ k ≤ Z.of_nat (length l) ∧ s `prefix_of` drop (Z.to_nat k) l ∧ ∀ j : nat, pos ≤ Z.of_nat j < k → ¬ s `prefix_of` drop j l)).
Proof. apply find_ok. Qed.

(** Comparing a string with a C string compares the texts. *)
Theorem equals_chars_spec v l p s st : rep v l st → chars l → text_at p s st → equals_chars v p st = Ok (bool_decide (l = s), st).
Proof. apply equals_chars_ok. Qed.
End bounded.
End string.

(** ** Witnesses *)

Definition serves (n : Z) : bool := n <=? 1000.
Definition no_blocks : Store Z := St ∅ 1.

Lemma no_blocks_wf : store_wf no_blocks.
Proof. split; [done|]. intros b l H. unfold holds in H. cbn in H. by rewrite lookup_empty in H. Qed.

(** a = "abc"; b = a; b += "de"; a = b.substr(1, 3); c = std::move(b); c += a *)
Definition demo_ops : list op :=
  [AssignText 0 [97; 98; 99]; Copy 1 0; AppendText 1 [100; 101]; Substr 0 1 1 3; Move 2 1; Append 2 0].


Definition one_string : Store Z := St {[1 := [Some 97; Some 98; Some 97; Some 98; Some 0]]} 2.

Lemma one_string_rep : rep 1000 (Str 1 4 5) [97; 98; 97; 98] one_string.
Proof. split; [done|]. split; [cbn; lia|]. by exists []. Qed.

Lemma find_spec_witness : exists k, find (Array [97; 98; 0]) 1 (Str 1 4 5) one_string = Ok (k, one_string) ∧ 1 ≤ k.
Proof.
  destruct (find_spec 1000 (Str 1 4 5) [97; 98; 97; 98] (Array ([97; 98] ++ 0 :: [])) [97; 98] 1 one_string one_string_rep) as (k & E & Hk).
  - repeat constructor; discriminate.
  - apply text_at_array. repeat constructor; discriminate.
  - cbn. lia.
  - exists k. split; [exact E|]. destruct Hk as [[-> _]|[H _]]; [discriminate|lia].
Defined.

Lemma equals_chars_spec_witness : equals_chars (Str 1 4 5) (Array [97; 98; 0]) one_string = Ok (false, one_string).
Proof.
  apply (equals_chars_spec 1000 (Str 1 4 5) [97; 98; 97; 98] (Array ([97; 98] ++ 0 :: [])) [97; 98] one_string one_string_rep).
  - repeat constructor; discriminate.
  - apply text_at_array. repeat constructor; discriminate.
Defined.

(** ** The string's own characters *)

Definition ab : Store Z := St {[1 := [Some 97; Some 98; Some 0]]} 2.
Definition ab_room : Store Z := St {[1 := [Some 97; Some 98; Some 0; None; None; None]]} 2.

(** [s += s] copies upwards over its own terminator, which then is nowhere: the
    string has four characters and does not end, with room and without. *)
Example append_self_unterminated :
  (s ← append_other serves true (Str 1 2 3) (Str 1 2 3); n ← strlen (c_str s); mret n) ab = UB ∧
  (s ← append_other serves true (Str 1 2 6) (Str 1 2 6); n ← strlen (c_str s); mret n) ab_room = UB.
Proof. by vm_compute. Qed.

(** [s = s.c_str()] gives the block back and then reads it. *)
Example assign_own_chars : assign_chars serves (At 1 0) (Str 1 2 3) ab = UB.
Proof. by vm_compute. Qed.

(** [s += s.c_str()] reads the block after it was given back. *)
Example append_own_chars : append_cstr serves (At 1 0) (Str 1 2 3) ab = UB.
Proof. by vm_compute. Qed.

(** [pos + len] wraps around, the part is taken for as long as was asked, and the
    null pointer that the allocator answers with is written to. *)
Example substr_wraps : substr serves 3 (2 ^ 64 - 2) (Str 1 4 5) one_string = UB.
Proof. by vm_compute. Qed.

(** The string is not asked for room it has not got: when the allocator has none,
    the null pointer is written to. *)
Example string_no_memory : string_of (λ _, false) (Array [97; 0]) no_blocks = UB.
Proof. by vm_compute. Qed.
