(* ===== verification/Runtime.v ===== *)
(** * Tokens and start code (strtok of src/kernel/src/lib/lib.cpp,
      src/kernel/src/lib/cxxabi.cpp, src/kernel/src/core/init.cpp)

    [strtok], which writes into the array it cuts up and remembers where it was;
    the guards the compiler puts around the kernel's static objects; and the call
    of the global constructors.  Cutting a text up to its end is shown to give the
    words it is made of, each a C string in the array. *)

From S2P Require Import Prelude CStr.

(** ** strtok *)

(** A place: an array and an index. *)
Definition place : Type := Z * Z.

Record Tok := T { arrays : gmap Z (list Z); strtok_ptr : option place }.

#[local] Abbreviation M := (ST Tok).

(** The bytes from a place to the end of its array. *)
Definition bytes_from (p : place) (t : Tok) : outcome (list Z) :=
  match arrays t !! p.1 with
  | Some l => if (0 <=? p.2) && (p.2 <=? Z.of_nat (length l)) then Ok (drop (Z.to_nat p.2) l) else UB
  | None => UB
  end.

Definition look (p : place) : M (list Z) := λ t, l ← bytes_from p t; Ok (l, t).

Definition write_byte (p : place) (c : Z) : M unit := λ t,
  match arrays t !! p.1 with
  | Some l => l ← aset l p.2 c; Ok (tt, T (<[p.1 := l]> (arrays t)) (strtok_ptr t))
  | None => UB
  end.

Definition set_ptr (p : place) : M unit := modify (λ t, T (arrays t) (Some p)).

Definition is_delimiter (delimiters : list Z) (c : Z) : outcome bool :=
  r ← strchr delimiters c; Ok (match r with Some _ => true | None => false end).

(** The two loops: past the delimiters, and past what is none; the number of
    steps. *)
Fixpoint skip_while (inside : bool) (delimiters l : list Z) (n : Z) : outcome Z :=
  match l with
  | [] => UB
  | c :: l' =>
      if c =? 0 then Ok n else
      b ← is_delimiter delimiters c;
      if Bool.eqb b inside then skip_while inside delimiters l' (n + 1) else Ok n
  end.

Definition strtok (str : option place) (delimiters : list Z) : M (option place) :=
  ptr ← gets strtok_ptr;
  match (match str with Some p => Some p | None => ptr end) with
  | None => mret None
  | Some (a, current_pos) =>
      l ← look (a, current_pos);
      c ← lift (aget l 0);
      if c =? 0 then mret None else
      n ← lift (skip_while true delimiters l 0);
      c ← lift (aget l n);
      if c =? 0 then set_ptr (a, current_pos + n);; mret None else
      let token_start := current_pos + n in
      m ← lift (skip_while false delimiters (drop (Z.to_nat n) l) 0);
      c ← lift (aget l (n + m));
      (if negb (c =? 0) then
         write_byte (a, token_start + m) 0;;
         set_ptr (a, token_start + m + 1)
       else set_ptr (a, token_start + m));;
      mret (Some (a, token_start))
  end.

(** The usual loop over the tokens of a string. *)
Fixpoint strtok_loop (fuel : nat) (str : option place) (delimiters : list Z) : M (list place) :=
  match fuel with
  | O => no_fuel
  | S fuel =>
      r ← strtok str delimiters;
      match r with
      | None => mret []
      | Some p => ps ← strtok_loop fuel None delimiters; mret (p :: ps)
      end
  end.

(** ** The C++ runtime *)

Definition cxa_guard_acquire (guard_object : Z) : Z := if Z.land guard_object 1 =? 0 then 1 else 0.
Definition cxa_guard_release (guard_object : Z) : Z := 1.
Definition cxa_guard_abort (guard_object : Z) : Z := 0.
Definition cxa_atexit : Z := 0.

(** The constructors from [__init_array_start] up to [__init_array_end]. *)
Fixpoint init_global_constructors {S} (ctors : list (ST S unit)) : ST S unit :=
  match ctors with [] => mret tt | ctor :: ctors => ctor;; init_global_constructors ctors end.

(** ** Words *)

Section words.
Variable d : Z → bool.

(** The words of a text: its longest runs without a delimiter, [cur] being the one
    that is read, backwards. *)
Fixpoint words (cur s : list Z) : list (list Z) :=
  match s with
  | [] => match cur with [] => [] | _ => [rev cur] end
  | c :: s =>
      if d c then match cur with [] => words [] s | _ => rev cur :: words [] s end
      else words (c :: cur) s
  end.

Lemma words_skip ds s : Forall (λ c, d c = true) ds → words [] (ds ++ s) = words [] s.
Proof. induction 1 as [|c ds Hc _ IH]; [done|]. cbn. by rewrite Hc. Qed.

Lemma words_run w : ∀ cur s, Forall (λ c, d c = false) w → words cur (w ++ s) = words (rev w ++ cur) s.
Proof.
  induction w as [|c w IH]; intros cur s H; [done|]. apply Forall_cons in H as [Hc H]. cbn. rewrite Hc, IH by done.
  by rewrite <- app_assoc.
Qed.

Lemma words_word w c s : Forall (λ c, d c = false) w → w ≠ [] → d c = true → words [] (w ++ c :: s) = w :: words [] s.
Proof.
  intros Hw Hne Hc. rewrite words_run, app_nil_r by done. cbn. rewrite Hc, rev_involutive.
  destruct (rev w) eqn:E; [|done]. apply (f_equal (@rev Z)) in E. by rewrite rev_involutive in E.
Qed.

Lemma words_last w : Forall (λ c, d c = false) w → w ≠ [] → words [] w = [w].
Proof.
  intros Hw Hne. rewrite <- (app_nil_r w) at 1. rewrite words_run, app_nil_r by done. cbn. rewrite rev_involutive.
  destruct (rev w) eqn:E; [|done]. apply (f_equal (@rev Z)) in E. by rewrite rev_involutive in E.
Qed.
End words.

(** ** Cutting a text up *)

Definition delimiter (ds : list Z) (c : Z) : bool := bool_decide (c ∈ ds).

Section cutting.
Context (ds rd : list Z) (Hds : chars ds).
#[local] Abbreviation delimiters := (ds ++ 0 :: rd).

Lemma is_delimiter_ok c : c ≠ 0 → is_delimiter delimiters c = Ok (delimiter ds c).
Proof.
  intros Hc. unfold is_delimiter, delimiter. destruct (decide (c ∈ ds)) as [Hin|Hin].
  - rewrite bool_decide_true by done. apply list_elem_of_split_l in Hin as (l1 & l2 & -> & Hl).
    apply chars_app in Hds as [H1 _]. rewrite <- app_assoc. cbn [app]. by rewrite strchr_found.
  - rewrite bool_decide_false by done. by rewrite strchr_none.
Qed.

(** The characters the loop passes, and where it stops. *)
Lemma skip_while_ok b s r : chars s → exists s1 s2, s = s1 ++ s2 ∧ Forall (λ c, delimiter ds c = b) s1 ∧
  (forall c s', s2 = c :: s' → delimiter ds c = negb b) ∧
  ∀ n, skip_while b delimiters (s ++ 0 :: r) n = Ok (n + Z.of_nat (length s1)).
Proof.
  induction s as [|c s IH]; intros Hs.
  { exists [], []. split; [done|]. split; [done|]. split; [done|]. intros n. cbn. f_equal. lia. }
  apply chars_cons in Hs as [Hc Hs]. destruct (decide (delimiter ds c = b)) as [Hd|Hd].
  - destruct (IH Hs) as (s1 & s2 & -> & H1 & H2 & E). exists (c :: s1), s2. split; [done|]. split; [by constructor|]. split; [done|].
    intros n. cbn [app skip_while length]. rewrite (proj2 (Z.eqb_neq c 0)), is_delimiter_ok, bind_Ok by done. rewrite Hd, Bool.eqb_reflx.
    rewrite E. f_equal. lia.
  - exists [], (c :: s). split; [done|]. split; [done|]. split.
    + intros c' s' [= <- <-]. by destruct (delimiter ds c), b.
    + intros n. cbn [app skip_while length]. rewrite (proj2 (Z.eqb_neq c 0)), is_delimiter_ok, bind_Ok by done.
      rewrite (proj2 (eqb_false_iff _ _) Hd). f_equal. lia.
Qed.

(** The array holds [pre], and from there the C string [s]. *)
Definition array_at (a : Z) (pre s r : list Z) (t : Tok) : Prop := arrays t !! a = Some (pre ++ s ++ 0 :: r).

Lemma look_ok a pre s r t : array_at a pre s r t → look (a, Z.of_nat (length pre)) t = Ok (s ++ 0 :: r, t).
Proof.
  intros H. unfold look, bytes_from. cbn. rewrite H. rewrite length_app, (proj2 (Z.leb_le 0 _)), (proj2 (Z.leb_le _ _)) by lia. cbn.
  by rewrite Nat2Z.id, drop_app_length.
Qed.

Lemma aget_middle {A} (l1 l2 : list A) x i : i = Z.of_nat (length l1) → aget (l1 ++ x :: l2) i = Ok x.
Proof. intros ->. apply aget_lookup. by apply list_lookup_middle. Qed.

(** Where [strtok] goes on: at [pre] behind the start of the array. *)
Definition goes_on (a : Z) (pre : list Z) (str : option place) (t : Tok) : Prop :=
  str = Some (a, Z.of_nat (length pre)) ∨ str = None ∧ strtok_ptr t = Some (a, Z.of_nat (length pre)).

(** What a call leaves: the word at [p1], a terminator, and the rest. *)
Definition after_word (a : Z) (p1 w z s' r : list Z) (t t' : Tok) : Prop :=
  (z = [0] ∨ z = [] ∧ s' = []) ∧ arrays t' = <[a := (p1 ++ w ++ z) ++ s' ++ 0 :: r]> (arrays t) ∧
  strtok_ptr t' = Some (a, Z.of_nat (length (p1 ++ w ++ z))).

Lemma strtok_ok a pre s r t str : array_at a pre s r t → chars s → goes_on a pre str t →
  match words (delimiter ds) [] s with
  | [] => exists t', strtok str delimiters t = Ok (None, t') ∧ arrays t' = arrays t
  | w :: ws => exists mid z s' t', strtok str delimiters t = Ok (Some (a, Z.of_nat (length (pre ++ mid))), t') ∧
      words (delimiter ds) [] s' = ws ∧ chars s' ∧ length s = length (mid ++ w ++ z ++ s') ∧ w ≠ [] ∧ chars w ∧
      after_word a (pre ++ mid) w z s' r t t'
  end.
Proof.
  intros Ha Hs Hstr. destruct (skip_while_ok true s r Hs) as (s1 & s2 & -> & H1 & H2 & E1).
  apply chars_app in Hs as [Hs1 Hs2]. rewrite words_skip by done. unfold strtok. st.
  replace (match str with Some p => Some p | None => strtok_ptr t end) with (Some (a, Z.of_nat (length pre))) by (by destruct Hstr as [->|[-> ->]]).
  rewrite (bind_run _ _ _ _ _ (look_ok a pre _ r t Ha)).
  rewrite (bind_lift _ (hd 0 (s1 ++ s2))) by (by destruct s1, s2). destruct (Z.eqb_spec (hd 0 (s1 ++ s2)) 0) as [E0|E0].
  { assert (s2 = []) as -> by (destruct s1, s2; [done|apply chars_cons in Hs2 as [? _]; cbn in E0; done|apply chars_cons in Hs1 as [? _]; cbn in E0; done..]).
    cbn. by exists t. }
  rewrite (bind_lift _ _ _ _ (E1 0)), Z.add_0_l, <- !app_assoc. destruct s2 as [|c s2]; cbn [app].
  { rewrite (bind_lift _ 0) by (by apply aget_middle). cbn. eexists. split; [reflexivity|done]. }
  rewrite (bind_lift _ c) by (by apply aget_middle). pose proof Hs2 as Hc. apply chars_cons in Hc as [Hc _]. rewrite (proj2 (Z.eqb_neq c 0)) by done.
  destruct (skip_while_ok false (c :: s2) r Hs2) as (w & s3 & Ew & Hw & H3 & E2). rewrite Nat2Z.id, drop_app_length.
  change (c :: s2 ++ 0 :: r) with ((c :: s2) ++ 0 :: r). rewrite (bind_lift _ _ _ _ (E2 0)), Z.add_0_l.
  assert (Hne : w ≠ []). { intros ->. cbn in Ew. specialize (H2 c s2 eq_refl). specialize (H3 c s2 (eq_sym Ew)). cbn in H2, H3; congruence. }
  rewrite Ew in *. clear c s2 Ew Hc E0 H2. apply chars_app in Hs2 as [Hcw Hs3].
  destruct s3 as [|c s4].
  - rewrite app_nil_r in *. rewrite words_last by done. rewrite (bind_lift _ 0) by (rewrite app_assoc; apply aget_middle; rewrite length_app; lia).
    cbn [negb Z.eqb]. exists s1, [], []. eexists. split; [unfold set_ptr; st; rewrite length_app, Nat2Z.inj_add; reflexivity|].
    split; [done|]. split; [by apply Forall_nil|]. split; [by rewrite !app_nil_r|]. split; [done|]. split; [done|]. split; [by right|].
    cbn [arrays strtok_ptr]. split; [|do 2 f_equal; rewrite !length_app; cbn; lia]. symmetry. apply insert_id. rewrite Ha. by rewrite !app_nil_r, <- !app_assoc.
  - pose proof (H3 c s4 eq_refl) as Hd. pose proof Hs3 as Hc. apply chars_cons in Hc as [Hc Hs4]. rewrite words_word by done.
    rewrite <- app_assoc. cbn [app]. rewrite (bind_lift _ c) by (rewrite app_assoc; apply aget_middle; rewrite length_app; lia).
    rewrite (proj2 (Z.eqb_neq c 0)) by done. cbn [negb]. exists s1, [0], s4.
    assert (Ewr : write_byte (a, Z.of_nat (length pre) + Z.of_nat (length s1) + Z.of_nat (length w)) 0 t =
      Ok (tt, T (<[a := ((pre ++ s1) ++ w ++ [0]) ++ s4 ++ 0 :: r]> (arrays t)) (strtok_ptr t))).
    { unfold write_byte. cbn [fst snd]. rewrite Ha, aset_Ok by (rewrite !length_app; cbn; lia). cbn. do 4 f_equal.
      rewrite <- !app_assoc. cbn [app]. rewrite (app_assoc pre s1), (app_assoc (pre ++ s1) w). rewrite insert_app_r_alt by (rewrite !length_app; lia).
      rewrite <- !app_assoc. do 3 f_equal. rewrite !length_app. by replace (Z.to_nat _ - _)%nat with 0%nat by lia. }
    rewrite (bind_run _ _ _ _ _ (eq_trans (bind_run _ _ _ _ _ Ewr) eq_refl)). eexists. split; [rewrite length_app, Nat2Z.inj_add; reflexivity|].
    split; [done|]. split; [done|]. split; [by rewrite !length_app|]. split; [done|]. split; [done|]. split; [by left|].
    split; [done|]. cbn. do 2 f_equal. rewrite !length_app. cbn. lia.
Qed.
(** The token at a place of the array. *)
Definition token (l : list Z) (a : Z) (p : place) (w : list Z) : Prop := p.1 = a ∧ cstr (drop (Z.to_nat p.2) l) w.

(** The loop, from a place of the array on: it writes nothing before it, nothing
    behind the text, and no other array. *)
Lemma strtok_loop_ok a r fuel : ∀ pre s t str, array_at a pre s r t → chars s → goes_on a pre str t → (length s < fuel)%nat →
  exists ps s'' t', strtok_loop fuel str delimiters t = Ok (ps, t') ∧ length s'' = length s ∧
    arrays t' = <[a := pre ++ s'' ++ 0 :: r]> (arrays t) ∧
    Forall2 (token (pre ++ s'' ++ 0 :: r) a) ps (words (delimiter ds) [] s).
Proof.
  induction fuel as [|fuel IH]; intros pre s t str Ha Hs Hg Hf; [lia|]. cbn [strtok_loop].
  pose proof (strtok_ok a pre s r t str Ha Hs Hg) as H. destruct (words (delimiter ds) [] s) as [|w ws].
  { destruct H as (t' & E & Earr). rewrite (bind_run _ _ _ _ _ E). exists [], s, t'. split; [done|]. split; [done|].
    split; [rewrite Earr; symmetry; by apply insert_id|constructor]. }
  destruct H as (mid & z & s' & t1 & E & Ew & Hs' & Hlen & Hne & Hcw & Hz & Earr & Eptr). rewrite (bind_run _ _ _ _ _ E).
  set (pre1 := (pre ++ mid) ++ w ++ z) in *. rewrite !length_app in Hlen.
  assert (Hw0 : (0 < length w)%nat) by (destruct w; [done|cbn; lia]).
  destruct (IH pre1 s' t1 None) as (ps & s2 & t2 & E2 & Hl2 & Earr2 & Htok); [|done|by right|lia|].
  { unfold array_at. by rewrite Earr, lookup_insert_eq. }
  rewrite (bind_run _ _ _ _ _ E2). exists ((a, Z.of_nat (length (pre ++ mid))) :: ps), (mid ++ w ++ z ++ s2), t2.
  assert (Eall : pre ++ (mid ++ w ++ z ++ s2) ++ 0 :: r = pre1 ++ s2 ++ 0 :: r) by (unfold pre1; by rewrite <- !app_assoc).
  split; [done|]. split; [rewrite !length_app, Hl2; lia|]. rewrite Eall. split; [by rewrite Earr2, Earr, insert_insert_eq|].
  constructor; [|by rewrite Ew in Htok]. split; [done|]. cbn [snd]. unfold pre1. rewrite <- (app_assoc _ (w ++ z)), Nat2Z.id, drop_app_length.
  split; [done|]. destruct Hz as [->|[-> ->]].
  - exists (s2 ++ 0 :: r). by rewrite <- app_assoc.
  - destruct s2; [|done]. exists r. by rewrite <- app_assoc.
Qed.

(** Cutting a string up with [strtok], once with the string and then with null, ends
    and gives the words of the string in order: each is a C string in the array, the
    bytes behind the string and the other arrays are as they were. *)
Theorem strtok_gives_words a s r t : arrays t !! a = Some (s ++ 0 :: r) → chars s →
  exists ps s' t', strtok_loop (S (length s)) (Some (a, 0)) delimiters t = Ok (ps, t') ∧ length s' = length s ∧
    arrays t' = <[a := s' ++ 0 :: r]> (arrays t) ∧
    Forall2 (token (s' ++ 0 :: r) a) ps (words (delimiter ds) [] s).
Proof. intros Ha Hs. apply (strtok_loop_ok a r _ []); [done|done|by left|lia]. Qed.
End cutting.

(** ** Guards and constructors *)

(** A released guard is not acquired again, whatever it was; an aborted one is. *)
Lemma guard_once g : cxa_guard_acquire (cxa_guard_release g) = 0 ∧ cxa_guard_acquire (cxa_guard_abort g) = 1.
Proof. done. Qed.

(** Every constructor of the table runs, in its order: one that comes to an end
    leaves its state to the next. *)
Theorem constructors_in_order {S} (c1 c2 : list (ST S unit)) s s' : init_global_constructors c1 s = Ok (tt, s') →
  init_global_constructors (c1 ++ c2) s = init_global_constructors c2 s'.
Proof.
  revert s. induction c1 as [|c c1 IH]; intros s; cbn; [by intros [= <-]|].
  intros ([] & s1 & E & E2)%bind_run_inv. rewrite (bind_run _ _ _ _ _ E). by apply IH.
Qed.

(** ** Witnesses *)

(** " ab,,c" at the delimiters " ,". *)
Definition demo_text : Tok := T {[1 := [32; 97; 98; 44; 44; 99; 0; 7]]} None.

Lemma strtok_gives_words_witness :
  exists ps t', strtok_loop 7 (Some (1, 0)) [32; 44; 0] demo_text = Ok (ps, t') ∧ length ps = 2%nat.
Proof.
  destruct (strtok_gives_words [32; 44] [] ltac:(repeat constructor; discriminate) 1 [32; 97; 98; 44; 44; 99] [7] demo_text eq_refl)
    as (ps & s' & t' & E & _ & _ & H); [repeat constructor; discriminate|].
  exists ps, t'. split; [exact E|]. exact (Forall2_length _ _ _ H).
Defined.

Lemma constructors_in_order_witness :
  init_global_constructors ([modify (λ n : Z, n + 1)] ++ [modify (λ n, n * 2)]) 1 = Ok (tt, 4).
Proof. exact (constructors_in_order [modify (λ n : Z, n + 1)] [modify (λ n, n * 2)] 1 2 eq_refl). Defined.

(** An empty string leaves the old place: the next call with null goes on in the
    string before, which the caller had left. *)
Example strtok_empty_keeps_old :
  exists t', (r ← strtok (Some (1, 0)) [44; 0]; e ← strtok (Some (2, 0)) [44; 0]; n ← strtok None [44; 0]; mret (r, e, n))
    (T {[1 := [97; 44; 98; 0]; 2 := [0]]} None) = Ok (Some (1, 0), None, Some (1, 2), t').
Proof. eexists. vm_compute. reflexivity. Qed.
