(* ===== verification/World.v ===== *)
(** * What the commands of the shell work on (src/kernel/src/shell/commands/)

    The programs of the console share the screen, the files, the editor, the
    pager, the processes and a few globals: [World].  [Directories] is what the
    commands use of the file system beyond [Files] of Console.v.  Names, paths and
    lines are the characters before the terminating zero. *)

From S2P Require Import Prelude CStr Disk Pmm Vmm Fat32 Pages Kernel Terminal Printf Console Editor Pager Acpi Smp.

(** ** Directories *)

Class Directories (F : Type) `{Files F} := {
  f_path : ST F (list Z);
  f_set_path : list Z → ST F unit;
  f_cluster : ST F Z;
  f_set_cluster : Z → ST F unit;
  (** name, path, cluster *)
  f_push : list Z → list Z → Z → ST F bool;
  f_pop : ST F bool;
  f_rename : list Z → list Z → ST F bool;
  f_delete : list Z → ST F bool;
  f_delete_recursive : list Z → ST F bool
}.

#[export] Instance no_directories : @Directories unit no_disk := {|
  f_path := mret [0x2F];
  f_set_path _ := mret tt;
  f_cluster := mret ROOT_CLUSTER;
  f_set_cluster _ := mret tt;
  f_push _ _ _ := mret false;
  f_pop := mret false;
  f_rename _ _ := mret false;
  f_delete _ := mret false;
  f_delete_recursive _ := mret false
|}.

Section fat32.
Context {D} `{BlockDevice D}.
Variables fuel depth : nat.

#[export] Instance fat32_as_directories : @Directories (CFat32FileSystem D) (fat32_as_files fuel) := {|
  f_path := gets (λ s, chars_of (m_currentPath s));
  f_set_path path := set_current_path (path ++ [0]);
  f_cluster := gets m_currentDirectoryCluster;
  f_set_cluster cluster := set_current_directory_cluster cluster;
  f_push name path cluster := push_directory (name ++ [0]) (path ++ [0]) cluster;
  f_pop := pop_directory;
  f_rename a b := renameFile fuel (a ++ [0]) (b ++ [0]);
  f_delete name := deleteFile fuel (name ++ [0]);
  f_delete_recursive name := deleteDirectoryRecursive fuel depth (name ++ [0])
|}.
End fat32.

(** ** The world *)

(** The table of alias.cpp: names of 64 and values of 256 bytes. *)
Record Aliases := Als { aliases : list (list Z * list Z); alias_count : Z; last_file_size : Z }.

(** [w_ports] are the port writes made, oldest first; [w_cmos] is what the clock's
    registers read as. *)
Record World (F : Type) := Wd {
  w_console : Console F;
  w_editor : TextEditor;
  w_pager : Pager;
  w_kernel : Kernel;
  w_smp : Smp;
  w_aliases : Aliases;
  w_frequency : Z;
  w_cmos : Z → Z;
  w_ports : list (Z * Z);
  shell_pid : Z
}.
Arguments Wd {F}. Arguments w_console {F}. Arguments w_editor {F}. Arguments w_pager {F}.
Arguments w_kernel {F}. Arguments w_smp {F}. Arguments w_aliases {F}. Arguments w_frequency {F}.
Arguments w_cmos {F}. Arguments w_ports {F}. Arguments shell_pid {F}.

Section world.
Context {F : Type} `{Directories F}.
#[local] Abbreviation W := (ST (World F)).

Definition with_console (k : Console F) (w : World F) : World F :=
  Wd k (w_editor w) (w_pager w) (w_kernel w) (w_smp w) (w_aliases w) (w_frequency w) (w_cmos w) (w_ports w) (shell_pid w).
Definition with_editor (e : TextEditor) (w : World F) : World F :=
  Wd (w_console w) e (w_pager w) (w_kernel w) (w_smp w) (w_aliases w) (w_frequency w) (w_cmos w) (w_ports w) (shell_pid w).
Definition with_pager (p : Pager) (w : World F) : World F :=
  Wd (w_console w) (w_editor w) p (w_kernel w) (w_smp w) (w_aliases w) (w_frequency w) (w_cmos w) (w_ports w) (shell_pid w).
Definition with_kernel (k : Kernel) (w : World F) : World F :=
  Wd (w_console w) (w_editor w) (w_pager w) k (w_smp w) (w_aliases w) (w_frequency w) (w_cmos w) (w_ports w) (shell_pid w).
Definition with_smp (s : Smp) (w : World F) : World F :=
  Wd (w_console w) (w_editor w) (w_pager w) (w_kernel w) s (w_aliases w) (w_frequency w) (w_cmos w) (w_ports w) (shell_pid w).
Definition with_aliases (a : Aliases) (w : World F) : World F :=
  Wd (w_console w) (w_editor w) (w_pager w) (w_kernel w) (w_smp w) a (w_frequency w) (w_cmos w) (w_ports w) (shell_pid w).
Definition with_ports (l : list (Z * Z)) (w : World F) : World F :=
  Wd (w_console w) (w_editor w) (w_pager w) (w_kernel w) (w_smp w) (w_aliases w) (w_frequency w) (w_cmos w) l (shell_pid w).
Definition with_shell_pid (n : Z) (w : World F) : World F :=
  Wd (w_console w) (w_editor w) (w_pager w) (w_kernel w) (w_smp w) (w_aliases w) (w_frequency w) (w_cmos w) (w_ports w) n.

(** A computation on a part of the world. *)
Definition on_part {S A} (get : World F → S) (put : S → World F → World F) (m : ST S A) : W A := λ w,
  match m (get w) with
  | Ok (a, s) => Ok (a, put s w)
  | UB => UB
  | OutOfFuel => OutOfFuel
  end.

Definition con {A} (m : ST (Console F) A) : W A := on_part w_console with_console m.
Definition scr (m : TM unit) : W unit := con (on_screen m).
Definition say (format : list Z) (args : list arg) : W unit := scr (printf format args;; mret tt).
Definition fil {A} (m : ST F A) : W A := con (on_files m).
Definition krn {A} (m : ST Kernel A) : W A := on_part w_kernel with_kernel m.
Definition smp {A} (m : SMP A) : W A := on_part w_smp with_smp m.
Definition als (f : Aliases → outcome Aliases) : W unit :=
  a ← gets w_aliases; a ← lift (f a); modify (with_aliases a).
Definition edt {A} (m : ST (EditorState F) A) : W A :=
  on_part (λ w, ES (w_editor w) (w_console w)) (λ s, with_editor (es_editor s) ∘ with_console (es_console s)) m.
Definition pgr {A} (m : ST (PagerState F) A) : W A :=
  on_part (λ w, PS (w_pager w) (w_console w)) (λ s, with_pager (ps_pager s) ∘ with_console (ps_console s)) m.
Definition outb (port value : Z) : W unit := modify (λ w, with_ports (w_ports w ++ [(port, value)]) w).

Lemma on_part_run {S A} (get : World F → S) put (m : ST S A) w a s :
  m (get w) = Ok (a, s) → on_part get put m w = Ok (a, put s w).
Proof. intros E. unfold on_part. by rewrite E. Qed.
End world.

(** ** Strings in buffers *)

(** The characters up to the terminator; without one the read runs off. *)
Definition c_string (b : list Z) : outcome (list Z) := n ← strlen b; Ok (take (Z.to_nat n) b).

Lemma c_string_app s r : CStr.chars s → c_string (s ++ 0 :: r) = Ok s.
Proof. intros Hs. unfold c_string. rewrite strlen_app, bind_Ok, Nat2Z.id by done. by rewrite take_app_length. Qed.

(** [memcpy(name, entry, 11)] into an array of zeros. *)
Definition raw_name (entry : list Z) : outcome (list Z) := memcpy (replicate 13 0) entry 11.

(** ** The loops over a directory's first kilobyte

    [for (size_t i = 0; i < sizeof(buffer); i += 32)]: the loop ends at an entry
    that begins with 0 and passes over deleted ones.  The body says whether to
    leave the loop. *)
Fixpoint entry_loop {S} (n : nat) (buffer : list Z) (body : list Z → ST S bool) : ST S unit :=
  match n with
  | O => mret tt
  | Datatypes.S n' =>
      c ← lift (aget buffer 0);
      if c =? 0 then mret tt
      else if c =? DELETED then entry_loop n' (drop 32 buffer) body
      else
        stop ← body (take 32 buffer);
        if stop : bool then mret tt else entry_loop n' (drop 32 buffer) body
  end.

(** ** Running an example

    A run of a big state is compared by what is read off it, never printed. *)
Definition succeeds {A} (m : outcome A) : bool := match m with Ok _ => true | _ => false end.

Lemma ran {S A} (d : A * S) (m : outcome (A * S)) (a : A) :
  succeeds m = true → (ok_or d m).1 = a → m = Ok (a, (ok_or d m).2).
Proof. destruct m as [[b s]| |]; cbn; [by intros _ ->|done|done]. Qed.
