(* ===== verification/Commands.v ===== *)
(** * The commands of the shell (src/kernel/src/shell/commands/)

    One definition per command, from the process it registers to the one it
    removes, over the world of World.v. *)

From Stdlib Require Strings.String.
From Stdlib Require Import (notations) Strings.String.
From Stdlib Require Import Floats.SpecFloat.
From S2P Require Import Prelude CStr Disk Pmm Vmm Fat32 Pages Kernel Sched Proc Ipc Terminal Printf Console Editor Pager.
From S2P Require Import Clock Acpi Smp World.

#[local] Open Scope string_scope.
#[local] Open Scope Z_scope.

Section commands.
Context {F : Type} `{Directories F}.
#[local] Abbreviation W := (ST (World F)).

(** The assembly that switches stacks; whether the heap has room for a number of
    bytes, and what is in memory that nothing was written to; bytes written to
    and read from virtual memory; the exception that follows [ud2]. *)
Variable switch_context : Z → Z → ST Kernel unit.
Variable served : Z → bool.
Variable uninit : Z → list Z.
Variable store : Z → list Z → ST VirtualMemoryManager unit.
Variable mem : VirtualMemoryManager → Z → list Z.
Variable ud2 : W unit.

(** [pm.create_process(name, shell_pid)] and [pm.terminate_process(pid)]. *)
Definition start (name : String.string) : W Z :=
  shell ← gets shell_pid; krn (create_process (text name) shell).
Definition finish (pid_ : Z) : W unit := krn (terminate_process switch_context pid_).

(** The message of an error, and the end of the process. *)
Definition fail (pid_ : Z) (format : String.string) (args : list arg) : W unit :=
  say (text format) args;; finish pid_.

Definition red_line (format : String.string) (args : list arg) : W unit :=
  scr set_red;; say (text format) args;; scr reset_color.

(** [if (!fs.findFile(...)) ...] *)
Definition unless_found {A B} (found : option A) (m : W B) : W unit :=
  match found with Some _ => mret tt | None => m;; mret tt end.

(** ** alias.cpp *)

Definition MAX_ALIASES : Z := 100.

(** The table is static: zero. *)
Definition no_aliases : Aliases := Als (replicate 100 (replicate 64 0, replicate 256 0)) 0 0.

(** A line "name=value", without its end. *)
Definition load_alias_line (line : list Z) (a : Aliases) : outcome Aliases :=
  let line := (line ++ [0])%list in
  equals ← strchr line 0x3D;
  match equals with
  | None => Ok a
  | Some rest =>
      slot ← aget (aliases a) (alias_count a);
      name ← strncpy slot.1 (take (length line - length rest) line ++ [0])%list 63;
      value ← strncpy slot.2 (drop 1 rest) 255;
      l ← aset (aliases a) (alias_count a) (name, value);
      Ok (Als l (alias_count a + 1) (last_file_size a))
  end.

(** The text is at least one byte longer than the number of lines in it. *)
Fixpoint load_alias_lines (fuel : nat) (content : list Z) (a : Aliases) : outcome Aliases :=
  match fuel, content with
  | O, _ => OutOfFuel
  | _, [] => UB
  | S fuel', c :: _ =>
      if (c =? 0) || negb (alias_count a <? MAX_ALIASES) then Ok a else
      line_end ← strchr content NL;
      match line_end with
      | Some rest =>
          a ← (if c =? NL then Ok a else load_alias_line (take (length content - length rest) content) a);
          load_alias_lines fuel' (drop 1 rest) a
      | None => line ← c_string content; load_alias_line line a
      end
  end.

Definition default_aliases : list Z := text "c=clear
..=cd ..
".

Definition FILE_BUFFER : Z := 4096.
Definition file_buffer : list Z := replicate (Z.to_nat FILE_BUFFER) 0.

Definition load_aliases : W unit :=
  shell ← fil (f_find (text "/shell"));
  unless_found shell (fil (f_create_directory (text "shell")));;
  config ← fil (f_find (text "/shell/config"));
  unless_found config (fil (f_create_with_content (text "/shell/config") default_aliases 0));;
  r ← fil (f_read_path (text "/shell/config") file_buffer (FILE_BUFFER - 1));
  if r.1 : bool then als (λ a, load_alias_lines (S (length r.2)) r.2 (Als (aliases a) 0 (last_file_size a))) else mret tt.

(** The table is searched from its start. *)
Fixpoint find_alias (n : nat) (l : list (list Z * list Z)) (name : list Z) : outcome (option (list Z)) :=
  match n with
  | O => Ok None
  | S n' =>
      match l with
      | [] => UB
      | a :: l =>
          c ← strcmp a.1 (name ++ [0])%list;
          if c =? 0 then value ← c_string a.2; Ok (Some value) else find_alias n' l name
      end
  end.

Definition get_alias (name : list Z) : W (option (list Z)) :=
  config ← fil (f_find (text "/shell/config"));
  (match config with
   | Some (_, size, _) =>
       last ← gets (λ w, last_file_size (w_aliases w));
       if negb (size =? last) then
         load_aliases;; als (λ a, Ok (Als (aliases a) (alias_count a) size))
       else mret tt
   | None => mret tt
   end);;
  a ← gets w_aliases;
  lift (find_alias (Z.to_nat (alias_count a)) (aliases a) name).

Fixpoint print_aliases (n : nat) (l : list (list Z * list Z)) : W unit :=
  match n with
  | O => mret tt
  | S n' =>
      match l with
      | [] => lift UB
      | a :: l =>
          name ← lift (c_string a.1);
          value ← lift (c_string a.2);
          say (text "%s='%s'
") [AStr (Some name); AStr (Some value)];;
          print_aliases n' l
      end
  end.

Definition cmd_alias : W unit :=
  a ← gets w_aliases; print_aliases (Z.to_nat (alias_count a)) (aliases a).

(** ** history.cpp *)

Definition append_to_history_file (command : list Z) : W unit :=
  shell ← fil (f_find (text "/shell"));
  unless_found shell (fil (f_create_directory (text "shell")));;
  history ← fil (f_find (text "/shell/history"));
  unless_found history (fil (f_create_with_content (text "/shell/history") [] 0));;
  r ← fil (f_read_path (text "/shell/history") file_buffer (FILE_BUFFER - 1));
  current_length ← lift (strlen r.2);
  let command_length := Z.of_nat (length command) in
  if current_length + command_length + 2 <? FILE_BUFFER then
    buffer ← lift (put r.2 current_length command);
    buffer ← lift (aset buffer (current_length + command_length) NL);
    buffer ← lift (aset buffer (current_length + command_length + 1) 0);
    n ← lift (strlen buffer);
    fil (f_write_path (text "/shell/history") buffer n);;
    mret tt
  else mret tt.

Definition show_history_line (n : Z) (line : list Z) : W unit :=
  number ← lift (Printf.print_number (i32 n) 10 4 false false);
  scr (print number);;
  say (text "  %s
") [AStr (Some line)].

Fixpoint history_lines (fuel : nat) (content : list Z) (n : Z) : W unit :=
  match fuel, content with
  | O, _ => no_fuel
  | _, [] => lift UB
  | S fuel', c :: _ =>
      if c =? 0 then mret tt else
      line_end ← lift (strchr content NL);
      match line_end with
      | Some rest =>
          if c =? NL then history_lines fuel' (drop 1 rest) n
          else
            show_history_line n (take (length content - length rest) content);;
            history_lines fuel' (drop 1 rest) (n + 1)
      | None => line ← lift (c_string content); show_history_line n line
      end
  end.

Definition cmd_history : W unit :=
  pid_ ← start "history";
  history ← fil (f_find (text "/shell/history"));
  (match history with
   | Some _ =>
       r ← fil (f_read_path (text "/shell/history") file_buffer (FILE_BUFFER - 1));
       if r.1 : bool then history_lines (S (length r.2)) r.2 1
       else say (text "Failed to read history file
") []
   | None => say (text "No history file found
") []
   end);;
  finish pid_.

(** ** cat.cpp *)

Definition CHUNK_SIZE : Z := 4096.

(** A byte printed, and whether it ends a line. *)
Definition cat_char (c : Z) : Z := if c =? NL then NL else if (32 <=? c) && (c <=? 126) then c else 0x2E.

Fixpoint cat_bytes (l : list Z) (ends_with_newline : bool) : W bool :=
  match l with
  | [] => mret ends_with_newline
  | c :: l => scr (terminal_putchar (cat_char c));; cat_bytes l (c =? NL)
  end.

(** Every turn reads from the beginning of the file. *)
Fixpoint cat_chunks (fuel : nat) (cluster : Z) (buffer : list Z) (remaining : Z) (ends_with_newline : bool) : W bool :=
  if remaining <=? 0 then mret ends_with_newline else
  match fuel with
  | O => no_fuel
  | S fuel' =>
      let chunk := if remaining <? CHUNK_SIZE then remaining else CHUNK_SIZE in
      buffer ← fil (f_read cluster buffer chunk);
      ends_with_newline ← cat_bytes (take (Z.to_nat chunk) buffer) ends_with_newline;
      cat_chunks fuel' cluster buffer (remaining - chunk) ends_with_newline
  end.

Definition cmd_cat (path : option (list Z)) : W unit :=
  pid_ ← start "cat";
  match path with
  | None | Some [] => fail pid_ "cat: missing operand
" []
  | Some path =>
      found ← fil (f_find path);
      match found with
      | None => fail pid_ "File not found: %s
" [AStr (Some path)]
      | Some (cluster, size, attributes) =>
          if negb (Z.land attributes 0x10 =? 0) then fail pid_ "%s is a directory
" [AStr (Some path)]
          else if size =? 0 then finish pid_
          else if negb (served CHUNK_SIZE) then lift UB
          else
            ends ← cat_chunks (Z.to_nat (size / CHUNK_SIZE + 1)) cluster (uninit CHUNK_SIZE) size false;
            (if ends : bool then mret tt else scr (terminal_putchar NL));;
            finish pid_
      end
  end.

(** ** cd.cpp *)

Definition root : list Z := [slash].

Definition to_root : W unit :=
  fil (f_set_path root);; fil (f_set_dir_name root);; fil (f_set_cluster ROOT_CLUSTER).

(** A kilobyte on the stack, with the beginning of a directory read into it. *)
Definition DIRECTORY_BUFFER : Z := 1024.
Definition DIRECTORY_ENTRIES : nat := 32.
Definition read_directory (cluster : Z) : W (list Z) := fil (f_read cluster (uninit DIRECTORY_BUFFER) DIRECTORY_BUFFER).

(** The new path is formatted with [snprintf] into 256 zero bytes. *)
Definition new_path (format : String.string) : outcome (list Z) :=
  '(_, b) ← snprintf (replicate MAX_PATH 0) MAX_PATH (text format ++ [0])%list; c_string b.

Definition enter_directory (path entry : list Z) : W bool :=
  name ← lift (entry_name entry);
  c ← lift (strcmp name (path ++ [0])%list);
  if negb (c =? 0) then mret false else
  attributes ← lift (aget entry 11);
  if Z.land attributes 0x10 =? 0 then mret true else
  dir_cluster ← lift (get16 entry 26);
  current ← fil f_path;
  p ← lift (new_path (if bool_decide (current = root) then "/%s" else "%s/%s"));
  fil (f_push path p dir_cluster);;
  fil (f_set_path p);;
  fil (f_set_dir_name path);;
  fil (f_set_cluster dir_cluster);;
  mret true.

(** A file of the name ends the command before the last line: its process is
    terminated there. *)
Definition cmd_cd (path : option (list Z)) : W unit :=
  pid_ ← start "cd";
  match path with
  | None | Some [] => to_root;; finish pid_
  | Some path =>
      if bool_decide (path = root) then to_root;; finish pid_
      else if bool_decide (path = text "..") then
        ok ← fil f_pop;
        if ok : bool then finish pid_ else to_root;; finish pid_
      else
        cluster ← fil f_cluster;
        buffer ← read_directory cluster;
        entry_loop DIRECTORY_ENTRIES buffer (enter_directory path);;
        finish pid_
  end.

(** ** ls.cpp *)

Definition list_callback (name : list Z) (attributes size : Z) : W unit :=
  if bool_decide (name = text "." ∨ name = text "..") then mret tt else
  (if negb (Z.land attributes 0x10 =? 0) then say (text "d ") []
   else
     say (text "f ") [];;
     if size <? 1024 then say (text "(%u B) ") [AInt size]
     else if size <? 1024 * 1024 then say (text "(%u KB) ") [AInt (size / 1024)]
     else say (text "(%u MB) ") [AInt (size / (1024 * 1024))]);;
  say (text "%s
") [AStr (Some name)].

Definition list_entry (entry : list Z) : W bool :=
  name ← lift (entry_name entry);
  name ← lift (c_string name);
  match name with
  | [] => mret false
  | _ =>
      attributes ← lift (aget entry 11);
      size ← lift (get32 entry 28);
      list_callback name attributes size;;
      mret false
  end.

Definition cmd_ls (path : option (list Z)) : W unit :=
  pid_ ← start "ls";
  let list_directory cluster :=
    buffer ← read_directory cluster;
    entry_loop DIRECTORY_ENTRIES buffer list_entry;;
    finish pid_ in
  match path with
  | None | Some [] => cluster ← fil f_cluster; list_directory cluster
  | Some path =>
      found ← fil (f_find path);
      match found with
      | None => fail pid_ "Directory not found: %s
" [AStr (Some path)]
      | Some (cluster, _, attributes) =>
          if Z.land attributes 0x10 =? 0 then fail pid_ "Not a directory: %s
" [AStr (Some path)]
          else list_directory cluster
      end
  end.

(** ** less.cpp *)

Definition less_entry (pid_ : Z) (path entry : list Z) : W (option bool) :=
  name ← lift (raw_name entry);
  c ← lift (strcmp name (path ++ [0])%list);
  if negb (c =? 0) then mret None else
  cluster ← lift (get16 entry 26);
  size ← lift (get32 entry 28);
  if negb (served (u32 (size + 1))) then
    fail pid_ "less: memory allocation failed
" [];; mret (Some false)
  else
    text_ ← fil (f_read cluster (uninit (u32 (size + 1))) size);
    text_ ← lift (aset text_ size 0);
    pgr (show_text text_);;
    mret (Some true).

(** The loop of [cmd_less]: the result is [None] when no entry has the name, and
    otherwise whether the command goes on to its end. *)
Fixpoint less_loop (n : nat) (pid_ : Z) (path buffer : list Z) : W (option bool) :=
  match n with
  | O => mret None
  | S n' =>
      c ← lift (aget buffer 0);
      if c =? 0 then mret None
      else if c =? DELETED then less_loop n' pid_ path (drop 32 buffer)
      else
        r ← less_entry pid_ path (take 32 buffer);
        match r with
        | None => less_loop n' pid_ path (drop 32 buffer)
        | Some b => mret (Some b)
        end
  end.

Definition cmd_less (path : option (list Z)) : W unit :=
  pid_ ← start "less";
  match path with
  | None => fail pid_ "Usage: less <path>
" []
  | Some path =>
      buffer ← read_directory ROOT_CLUSTER;
      r ← less_loop DIRECTORY_ENTRIES pid_ path buffer;
      match r with
      | Some false => mret tt
      | Some true => finish pid_
      | None => fail pid_ "less: cannot read '%s': No such file
" [AStr (Some path)]
      end
  end.

(** ** mv.cpp *)

(** [while ( *space == ' ') space++;] *)
Fixpoint skip_spaces (l : list Z) : outcome (list Z) :=
  match l with
  | [] => UB
  | c :: l' => if c =? space then skip_spaces l' else Ok l
  end.

(** The two operands, written to arrays of [MAX_PATH] bytes. *)
Definition split_operands (input first second : list Z) : outcome (list Z * list Z) :=
  space_ ← strchr input space;
  match space_ with
  | None => first ← strcpy first input; second ← aset second 0 0; Ok (first, second)
  | Some rest =>
      let first_len := (length input - length rest)%nat in
      first ← strncpy first input first_len;
      first ← aset first (Z.of_nat first_len) 0;
      rest ← skip_spaces rest;
      second ← strcpy second rest;
      Ok (first, second)
  end.

Definition cmd_mv (args : option (list Z)) : W unit :=
  pid_ ← start "mv";
  match args with
  | None => lift UB
  | Some args =>
      let path := uninit (Z.of_nat MAX_PATH) in
      '(src, dst) ← lift (split_operands (args ++ [0])%list path path);
      src ← lift (c_string src);
      dst ← lift (c_string dst);
      match src, dst with
      | _ :: _, _ :: _ =>
          found ← fil (f_find src);
          match found with
          | None => fail pid_ "mv: cannot stat '%s': No such file or directory
" [AStr (Some src)]
          | Some _ => fil (f_rename src dst);; finish pid_
          end
      | _, _ => fail pid_ "mv: missing source or destination operand
" []
      end
  end.

(** ** rm.cpp *)

(** The names the loop gives to the function are the eleven bytes of the entries,
    of the root directory, with their spaces. *)
Definition handle_wildcard_command (pattern : list Z) (cmd_fn : list Z → W unit) : W unit :=
  buffer ← read_directory ROOT_CLUSTER;
  entry_loop DIRECTORY_ENTRIES buffer (λ entry,
    name ← lift (raw_name entry);
    matches ← lift (match_wildcard (pattern ++ [0])%list name);
    name ← lift (c_string name);
    (if matches : bool then cmd_fn name else mret tt);;
    mret false).

Definition remove (path : list Z) (attributes : Z) : W unit :=
  (if negb (Z.land attributes 0x10 =? 0) then fil (f_delete_recursive path) else fil (f_delete path));; mret tt.

Definition remove_matching (name : list Z) : W unit :=
  found ← fil (f_find name);
  match found with
  | Some (_, _, attributes) => remove name attributes
  | None => mret tt
  end.

Definition cmd_rm (path : option (list Z)) : W unit :=
  pid_ ← start "rm";
  match path with
  | None | Some [] => fail pid_ "rm: missing operand
" []
  | Some path =>
      if bool_decide (star ∈ path) then handle_wildcard_command path remove_matching;; finish pid_
      else
        found ← fil (f_find path);
        match found with
        | None => fail pid_ "%s: no such file or directory
" [AStr (Some path)]
        | Some (_, _, attributes) => remove path attributes;; finish pid_
        end
  end.

(** ** touch.cpp, mkdir.cpp *)

Definition cmd_touch (path : option (list Z)) : W unit :=
  pid_ ← start "touch";
  match path with
  | None | Some [] => fail pid_ "touch: missing operand
" []
  | Some path =>
      found ← fil (f_find path);
      match found with
      | Some _ => fail pid_ "%s already exists
" [AStr (Some path)]
      | None => fil (f_create path 0x20);; finish pid_
      end
  end.

Definition cmd_mkdir (path : option (list Z)) : W unit :=
  pid_ ← start "mkdir";
  match path with
  | None | Some [] => fail pid_ "mkdir: missing operand
" []
  | Some path =>
      found ← fil (f_find path);
      match found with
      | Some _ => fail pid_ "%s already exists
" [AStr (Some path)]
      | None => fil (f_create_directory path);; finish pid_
      end
  end.

(** ** edit.cpp, echo.cpp, help.cpp *)

Definition cmd_edit (path : list Z) : W unit :=
  pid_ ← start "edit"; edt (Editor.cmd_edit path);; finish pid_.

(** The arguments are the format. *)
Definition cmd_echo (args : option (list Z)) : W unit :=
  pid_ ← start "echo";
  match args with
  | None => lift UB
  | Some args => say args [];; say [NL] [];; finish pid_
  end.

Definition help_text : list Z := text "Available commands:

  help     - Display this help message
  echo     - Echo arguments
  clear    - Clear the screen
  crash    - Trigger a kernel panic (for testing)
  shutdown - Power off the system
  memory   - Display memory usage information
  ls       - List directory contents
  mkdir    - Create a new directory
  cd       - Change current directory
  cat      - Display file contents
  mv       - Move or rename a file
  rm       - Remove a file or directory
  touch    - Create an empty file
  edit     - Edit a file
  history  - Display command history
  uptime   - Display system uptime
  time     - Display system time
  ps       - List running processes
  pkill    - Kill a process
  ipctest  - Run IPC test
  cores    - List CPU cores
".

Definition cmd_help : W unit := pid_ ← start "help"; pgr (show_text (help_text ++ [0])%list);; finish pid_.

(** ** pkill.cpp, ps.cpp *)

(** [target_pid] is an [int32_t]: overflow is undefined. *)
Fixpoint read_pid (args : list Z) (target_pid : Z) : outcome (option Z) :=
  match args with
  | [] => Ok (Some target_pid)
  | c :: args =>
      if (c <? 0x30) || (0x39 <? c) then Ok None
      else
        let n := target_pid * 10 + (c - 0x30) in
        if n <? 2 ^ 31 then read_pid args n else UB
  end.

Definition cmd_pkill (args : option (list Z)) : W unit :=
  pid_ ← start "pkill";
  match args with
  | None => fail pid_ "pkill: missing process id
" []
  | Some args =>
      target_pid ← lift (read_pid args 0);
      match target_pid with
      | None => fail pid_ "pkill: invalid process id
" []
      | Some target_pid =>
          shell ← gets shell_pid;
          if target_pid =? shell then fail pid_ "pkill: cannot kill shell process
" []
          else
            target ← krn (get_process target_pid);
            if target =? 0 then fail pid_ "pkill: no such process
" []
            else finish target_pid;; finish pid_
      end
  end.

Definition state_text (s : ProcessState) : String.string :=
  match s with
  | Running => "Running  "
  | Stopped => "Stopped  "
  | Zombie => "Zombie   "
  | Ready => "Ready    "
  | Waiting => "Waiting  "
  end.

(** The name of a process is printed as a format. *)
Fixpoint ps_lines (l : list Z) : W unit :=
  match l with
  | [] => mret tt
  | p :: l =>
      x ← krn (deref p);
      say (text "%5d %5d  ") [AInt (pid x); AInt (ppid x)];;
      say (text (state_text (state x))) [];;
      say (p_name x) [];;
      say [NL] [];;
      ps_lines l
  end.

Definition cmd_ps : W unit :=
  pid_ ← start "ps";
  say (text "  PID  PPID  STATE    NAME
") [];;
  l ← gets (λ w, m_processes (k_pm (w_kernel w)));
  ps_lines l;;
  finish pid_.

(** ** memory.cpp *)

Definition BYTES_PER_MB : Z := 1024 * 1024.
Definition in_mb (bytes : Z) : double := SFdiv PREC EMAX (of_int bytes) (of_int BYTES_PER_MB).

Definition cmd_memory : W unit :=
  pid_ ← start "memory";
  pmm ← gets (λ w, v_pmm (mc_vmm (k_machine (w_kernel w))));
  let free_frames := m_free_frames pmm in
  let total_frames := m_total_frames pmm in
  if (total_frames =? 0) || (total_frames <? free_frames) then
    red_line "Error: Invalid memory state
" [];; finish pid_
  else
    let used_frames := total_frames - free_frames in
    if (2 ^ 64 - 1) / PAGE_SIZE <? total_frames then
      red_line "Error: Memory size too large to represent
" [];; finish pid_
    else
      let total_bytes := u64 (total_frames * PAGE_SIZE) in
      let used_bytes := u64 (used_frames * PAGE_SIZE) in
      say (text "%.2f MB used of available %.2f MB
") [ADouble (in_mb used_bytes); ADouble (in_mb total_bytes)];;
      finish pid_.

(** ** uptime.cpp, time.cpp *)

Definition cmd_uptime : W unit :=
  pid_ ← start "uptime";
  ticks ← krn get_ticks;
  frequency ← gets w_frequency;
  uptime_str ← lift (format_uptime ticks frequency (replicate 100 0) 100);
  say (text "System uptime: ") [];;
  uptime_str ← lift (c_string uptime_str);
  say uptime_str [];;
  say [NL] [];;
  finish pid_.

Definition cmd_time : W unit :=
  pid_ ← start "time";
  cmos ← gets w_cmos;
  let time := get_rtc_time cmos in
  say (text "Current UTC time: %02u:%02u:%02u
") [AInt (hours time); AInt (minutes time); AInt (seconds time)];;
  finish pid_.

(** ** cores.cpp *)

Definition yes_no (b : bool) : arg := AStr (Some (text (if b then "Yes" else "No"))).

(** The rows; the loop before them counts the active processors into a variable
    nothing reads. *)
Fixpoint core_lines (n : nat) (i : Z) : W unit :=
  match n with
  | O => mret tt
  | S n' =>
      info ← smp (get_cpu_info i);
      (match info with
       | Some k =>
           c ← smp (cpu_at k);
           say (text "%2u | %7u | %3s | %6s | 0x%016lx
") [AInt (Smp.id c); AInt (lapic_id c); yes_no (is_bsp c); yes_no (is_active c); AInt (Smp.kernel_stack c)]
       | None => mret tt
       end);;
      core_lines n' (i + 1)
  end.

Definition cmd_cores : W unit :=
  pid_ ← start "cores";
  smp detect_active_cores;;
  cpu_count ← smp (gets (λ s, m_cpu_count (s_smp s)));
  say (text "ID | LAPIC ID | BSP | Active | Stack Address
") [];;
  say (text "---+---------+-----+--------+-------------
") [];;
  core_lines (Z.to_nat cpu_count) 0;;
  finish pid_.

(** ** ipc_test.cpp *)

(** [snprintf] leaves the name of the queue as its format. *)
Definition queue_name : outcome (list Z) :=
  '(_, b) ← snprintf (uninit 64) 64 (text "test_queue_%d_%lu" ++ [0])%list; c_string b.

Definition outcome_line (ok : bool) (bad good : String.string) : W unit := say (text (if ok then good else bad)) [].

Definition cmd_ipc_test : W unit :=
  test_pid ← start "ipc_test";
  name ← lift queue_name;
  queue_id ← krn (create_message_queue test_pid name);
  if queue_id <? 0 then fail test_pid "Failed to create message queue
" [] else
  say (text "Created message queue with ID: %d
") [AInt queue_id];;
  let message := text "Hello from IPC test!" in
  sent ← krn (send_message queue_id test_pid (message ++ [0])%list (Z.of_nat (length message) + 1));
  if negb sent then
    say (text "Failed to send message
") [];; krn (destroy_message_queue queue_id);; finish test_pid
  else
  say [0x53; 0x65; 0x6E; 0x74; 0x20; 0x6D; 0x65; 0x73; 0x73; 0x61; 0x67; 0x65; 0x3A; 0x20; 0x22; 0x25; 0x73; 0x22; NL] [AStr (Some message)];;
  received ← krn (receive_message switch_context queue_id false);
  match received with
  | None => say (text "Failed to receive message
") [];; krn (destroy_message_queue queue_id);; finish test_pid
  | Some received_msg =>
      data ← lift (c_string (msg_data received_msg));
      say (text "Received message from PID %d: " ++ [0x22; 0x25; 0x73; 0x22; NL])%list [AInt (sender received_msg); AStr (Some data)];;
      shm_id ← krn (create_shared_memory test_pid 4096);
      if shm_id <? 0 then
        say (text "Failed to create shared memory
") [];; krn (destroy_message_queue queue_id);; finish test_pid
      else
      say (text "Created shared memory with ID: %d
") [AInt shm_id];;
      shm_addr ← krn (attach_shared_memory shm_id test_pid);
      if shm_addr =? 0 then
        say (text "Failed to attach shared memory
") [];; krn (destroy_shared_memory shm_id);; krn (destroy_message_queue queue_id);; finish test_pid
      else
      say (text "Attached shared memory at address: 0x%llx
") [AInt shm_addr];;
      let shm_message := text "Hello from shared memory!" in
      krn (on_vmm (store shm_addr (shm_message ++ [0])%list));;
      say (text "Wrote to shared memory: " ++ [0x22; 0x25; 0x73; 0x22; NL])%list [AStr (Some shm_message)];;
      bytes ← gets (λ w, mem (mc_vmm (k_machine (w_kernel w))) shm_addr);
      line ← lift (c_string bytes);
      say (text "Read from shared memory: " ++ [0x22; 0x25; 0x73; 0x22; NL])%list [AStr (Some line)];;
      ok ← krn (detach_shared_memory shm_id test_pid);
      outcome_line ok "Failed to detach shared memory
" "Detached shared memory
";;
      ok ← krn (destroy_shared_memory shm_id);
      outcome_line ok "Failed to destroy shared memory
" "Destroyed shared memory
";;
      ok ← krn (destroy_message_queue queue_id);
      outcome_line ok "Failed to destroy message queue
" "Destroyed message queue
";;
      say (text "IPC test completed successfully!
") [];;
      finish test_pid
  end.

(** ** crash.cpp, shutdown.cpp *)

(** What is left of the command when the exception's handler returns. *)
Definition cmd_crash : W unit := pid_ ← start "crash"; ud2;; finish pid_.

(** [for (;;) hlt]: no number of turns is enough. *)
Fixpoint halt_forever (fuel : nat) : W unit :=
  match fuel with O => no_fuel | S fuel' => halt_forever fuel' end.

(** The writes that switch the machine off; when none does, the processor stops. *)
Definition power_off : W unit :=
  outb 0x604 0x00;; outb 0x604 0x01;; outb 0xB004 0x00;; outb 0x4004 0x00;; outb 0x64 0xFE.

Definition cmd_shutdown (fuel : nat) : W unit :=
  start "shutdown";;
  say (text "
Shutting down the system...
") [];;
  power_off;;
  say (text "Shutdown failed.
") [];;
  halt_forever fuel.
End commands.
