(* ===== verification/Shell.v ===== *)
(** * The command line (src/kernel/src/shell/shell.cpp)

    The line being typed, the completion of its last word, and the commands it is
    split into and given to.  Places in the line are indices into its buffer. *)

From Stdlib Require Strings.String.
From Stdlib Require Import (notations) Strings.String.
From S2P Require Import Prelude CStr Disk Vmm Fat32 Kernel Proc Terminal Printf Console Editor Pager World Commands.

#[local] Open Scope string_scope.
#[local] Open Scope Z_scope.

Definition INPUT_SIZE : nat := 256.
Definition MAX_TAB_MATCHES : Z := 16.

Record Line := Ln {
  input_buffer : list Z;
  input_pos : Z;
  current_tab_match : Z;
  current_tab_prefix : list Z;
  tab_matches : list (list Z);
  tab_match_count : Z
}.

Record Session (F : Type) := Ses { s_line : Line; s_world : World F }.
Arguments Ses {F}. Arguments s_line {F}. Arguments s_world {F}.

Definition set_input (buf : list Z) (pos : Z) (l : Line) : Line :=
  Ln buf pos (current_tab_match l) (current_tab_prefix l) (tab_matches l) (tab_match_count l).
Definition set_match (i : Z) (l : Line) : Line :=
  Ln (input_buffer l) (input_pos l) i (current_tab_prefix l) (tab_matches l) (tab_match_count l).
Definition set_prefix (p : list Z) (l : Line) : Line :=
  Ln (input_buffer l) (input_pos l) (current_tab_match l) p (tab_matches l) (tab_match_count l).
Definition set_matches (m : list (list Z)) (n : Z) (l : Line) : Line :=
  Ln (input_buffer l) (input_pos l) (current_tab_match l) (current_tab_prefix l) m n.

(** The globals: zero. *)
Definition no_input : list Z := replicate INPUT_SIZE 0.
Definition empty_line : Line := Ln no_input 0 0 no_input (replicate 16 no_input) 0.

(** ** get_dir_name *)

(** The buffer is static; [strncpy] fills all of it but its last byte. *)
Definition get_dir_name (path : option (list Z)) : outcome (list Z) :=
  match path with
  | None | Some [] => Ok [slash]
  | Some path =>
      if bool_decide (path = [slash]) then Ok [slash] else
      buffer ← strncpy (replicate MAX_PATH 0) (path ++ [0])%list (MAX_PATH - 1);
      buffer ← aset buffer (Z.of_nat MAX_PATH - 1) 0;
      len ← strlen buffer;
      last ← (if 1 <? len then aget buffer (len - 1) else Ok 0);
      buffer ← (if (1 <? len) && (last =? slash) then aset buffer (len - 1) 0 else Ok buffer);
      last_slash ← strrchr buffer slash;
      c_string (match last_slash with Some rest => drop 1 rest | None => buffer end)
  end.

Section shell.
Context {F : Type} `{Directories F}.
#[local] Abbreviation S := (ST (Session F)).

Variable switch_context : Z → Z → ST Kernel unit.
Variable served : Z → bool.
Variable uninit : Z → list Z.
Variable store : Z → list Z → ST VirtualMemoryManager unit.
Variable mem : VirtualMemoryManager → Z → list Z.
Variable ud2 : ST (World F) unit.
(** The turns the processor is watched for after a failed shutdown. *)
Variable fuel : nat.

Definition on_world {A} (m : ST (World F) A) : S A := λ s,
  match m (s_world s) with
  | Ok (a, w) => Ok (a, Ses (s_line s) w)
  | UB => UB
  | OutOfFuel => OutOfFuel
  end.
Definition get_line : S Line := gets s_line.
Definition set_line (f : Line → Line) : S unit := modify (λ s, Ses (f (s_line s)) (s_world s)).
Definition clear_line : S unit := set_line (set_input no_input 0).
Definition prompt : S unit := on_world (con print_prompt).

(** ** The line's buffer *)

(** [strcpy(input_buffer + pos, src)] and [strncpy(input_buffer + pos, src, n)]. *)
Definition strcpy_at (buf : list Z) (pos : Z) (src : list Z) : outcome (list Z) :=
  r ← strcpy (at_offset buf pos) src; Ok (take (Z.to_nat pos) buf ++ r)%list.
Definition strncpy_at (buf : list Z) (pos : Z) (src : list Z) (n : Z) : outcome (list Z) :=
  r ← strncpy (at_offset buf pos) src (Z.to_nat n); Ok (take (Z.to_nat pos) buf ++ r)%list.

(** The index of a place that is the suffix [rest] of the buffer. *)
Definition place (buf rest : list Z) : Z := Z.of_nat (length buf - length rest).

(** ** interrupt_command, handle_redirection *)

Fixpoint interrupt_first (l : list Z) : S unit :=
  match l with
  | [] => mret tt
  | p :: l =>
      x ← on_world (krn (deref p));
      shell ← on_world (gets shell_pid);
      if bool_decide (state x = Running) && negb (pid x =? shell) then
        on_world (say (text "
Command interrupted
") []);;
        on_world (finish switch_context (pid x))
      else interrupt_first l
  end.

Definition interrupt_command : S unit :=
  l ← on_world (gets (λ w, m_processes (k_pm (w_kernel w)))); interrupt_first l.

(** [while (end > filename && *end == ' ') *end-- = '\0';] from index [n]. *)
Fixpoint trim_filename (n : nat) (filename : list Z) : outcome (list Z) :=
  match n with
  | O => Ok filename
  | Datatypes.S n' =>
      c ← aget filename (Z.of_nat n);
      if c =? space then filename ← aset filename (Z.of_nat n) 0; trim_filename n' filename else Ok filename
  end.

Definition handle_redirection (command : list Z) : S unit :=
  redirect ← lift (strchr command 0x3E);
  match redirect with
  | None => mret tt
  | Some rest =>
      text_ ← lift (strncpy (replicate 256 0) command (length command - length rest));
      file_start ← lift (skip_spaces (drop 1 rest));
      filename ← lift (strcpy (replicate MAX_PATH 0) file_start);
      n ← lift (strlen filename);
      filename ← lift (trim_filename (Z.to_nat (n - 1)) filename);
      c ← lift (aget filename 0);
      if c =? 0 then on_world (say (text "No output file specified
") [])
      else
        n ← lift (strlen text_);
        on_world (fil (f_write ROOT_CLUSTER text_ n));;
        clear_line
  end.

(** The copy of [handle_wildcard_command] in this file, which nothing calls, is the
    one of rm.cpp. *)

(** ** Completion *)

(** An entry of the directory; the names are the padded ones on the disk. *)
Definition tab_entry (command entry : list Z) : S bool :=
  l ← get_line;
  name ← lift (raw_name entry);
  n ← lift (strlen (current_tab_prefix l));
  c ← lift (strncmp name (current_tab_prefix l) (Z.to_nat n));
  if negb (c =? 0) then mret false else
  attributes ← lift (aget entry 11);
  d ← lift (strcmp command (text "cd" ++ [0])%list);
  if (d =? 0) && (Z.land attributes 0x10 =? 0) then mret false else
  (if tab_match_count l <? MAX_TAB_MATCHES then
     row ← lift (aget (tab_matches l) (tab_match_count l));
     row ← lift (strcpy row name);
     m ← lift (aset (tab_matches l) (tab_match_count l) row);
     set_line (set_matches m (tab_match_count l + 1))
   else mret tt);;
  mret false.

Definition find_matches (space_ : option (list Z)) (last_word : list Z) : S unit :=
  l ← get_line;
  set_line (set_match 0);;
  set_line (set_matches (tab_matches l) 0);;
  prefix ← lift (strcpy (current_tab_prefix l) last_word);
  set_line (set_prefix prefix);;
  command ← lift
    (match space_ with
     | Some rest => strncpy (replicate 256 0) (input_buffer l) (length (input_buffer l) - length rest)
     | None => strcpy (replicate 256 0) (input_buffer l)
     end);
  found ← on_world (fil (f_find (text ".")));
  let current_cluster := match found with Some (cluster, _, _) => cluster | None => ROOT_CLUSTER end in
  buffer ← on_world (read_directory uninit current_cluster);
  entry_loop DIRECTORY_ENTRIES buffer (tab_entry command).

Fixpoint erase_cells (n : nat) (i : Z) : TM unit :=
  match n with
  | O => mret tt
  | Datatypes.S n' =>
      color ← gets terminal_color;
      row ← gets terminal_row;
      terminal_putchar_at space color i row;;
      erase_cells n' (i + 1)
  end.

Definition erase_line : TM unit :=
  put_text [0x0D];;
  column ← gets terminal_column;
  erase_cells (Z.to_nat column) 0;;
  modify (λ t, set_position (terminal_row t) 0 t).

Definition show_match (space_ : option (list Z)) : S unit :=
  l ← get_line;
  match_ ← lift (aget (tab_matches l) (current_tab_match l));
  on_world (scr erase_line);;
  buf ← lift
    (match space_ with
     | Some rest =>
         let pos := place (input_buffer l) rest + 1 in
         buf ← aset (input_buffer l) pos 0; strcpy_at buf pos match_
     | None => strcpy (input_buffer l) match_
     end);
  n ← lift (strlen buf);
  set_line (set_input buf n);;
  prompt;;
  shown ← lift (c_string buf);
  on_world (say (text "%s") [AStr (Some shown)]);;
  set_line (set_match ((current_tab_match l + 1) `mod` tab_match_count l)).

Definition handle_tab_completion : S unit :=
  l ← get_line;
  space_ ← lift (strrchr (input_buffer l) space);
  let last_word := match space_ with Some rest => drop 1 rest | None => input_buffer l end in
  word_len ← lift (strlen last_word);
  if word_len =? 0 then mret tt else
  (if 0 <? tab_match_count l then mret tt else find_matches space_ last_word);;
  count ← gets (λ s, tab_match_count (s_line s));
  if 0 <? count then show_match space_ else mret tt.

(** ** Commands *)

(** The chain of [strcmp]: the command of a name, but for "edit". *)
Definition dispatch (cmd : list Z) (args : option (list Z)) : ST (World F) unit :=
  if bool_decide (cmd = text "help") then cmd_help switch_context
  else if bool_decide (cmd = text "echo") then cmd_echo switch_context args
  else if bool_decide (cmd = text "clear") then scr terminal_clear
  else if bool_decide (cmd = text "crash") then cmd_crash switch_context ud2
  else if bool_decide (cmd = text "shutdown" ∨ cmd = text "poweroff") then cmd_shutdown fuel
  else if bool_decide (cmd = text "memory") then cmd_memory switch_context
  else if bool_decide (cmd = text "ls") then cmd_ls switch_context uninit args
  else if bool_decide (cmd = text "mkdir") then cmd_mkdir switch_context args
  else if bool_decide (cmd = text "cd") then cmd_cd switch_context uninit args
  else if bool_decide (cmd = text "cat") then cmd_cat switch_context served uninit args
  else if bool_decide (cmd = text "mv") then cmd_mv switch_context uninit args
  else if bool_decide (cmd = text "rm") then cmd_rm switch_context uninit args
  else if bool_decide (cmd = text "touch") then cmd_touch switch_context args
  else if bool_decide (cmd = text "history") then cmd_history switch_context
  else if bool_decide (cmd = text "uptime") then cmd_uptime switch_context
  else if bool_decide (cmd = text "ps") then cmd_ps switch_context
  else if bool_decide (cmd = text "pkill") then cmd_pkill switch_context args
  else if bool_decide (cmd = text "time") then cmd_time switch_context
  else if bool_decide (cmd = text "less") then cmd_less switch_context served uninit args
  else if bool_decide (cmd = text "ipctest") then cmd_ipc_test switch_context uninit store mem
  else if bool_decide (cmd = text "cores") then cmd_cores switch_context
  else if bool_decide (cmd = text "alias") then cmd_alias
  else red_line "Unknown command: %s
" [AStr (Some cmd)].

(** [for (size_t i = 0; cmd[i]; ++i) if (cmd[i] == ' ')]: where the first space is. *)
Fixpoint find_space (s : list Z) (i : Z) : outcome (option Z) :=
  match s with
  | [] => UB
  | c :: s => if c =? 0 then Ok None else if c =? space then Ok (Some i) else find_space s (i + 1)
  end.

(** The command at [cur] is ended at its first space; its name, its arguments. *)
Definition split_args (buf : list Z) (cur : Z) : outcome (list Z * list Z * option (list Z)) :=
  i ← find_space (at_offset buf cur) 0;
  match i with
  | None => cmd ← c_string (at_offset buf cur); Ok (buf, cmd, None)
  | Some i =>
      buf ← aset buf (cur + i) 0;
      cmd ← c_string (at_offset buf cur);
      args ← c_string (at_offset buf (cur + i + 1));
      Ok (buf, cmd, Some args)
  end.

(** The text of an alias replaces the command in the line. *)
Definition expand_alias (buf : list Z) (cur : Z) (alias_value : list Z) (args : option (list Z)) : outcome (list Z) :=
  expanded_cmd ←
    match args with
    | Some _ => '(_, b) ← snprintf (replicate 512 0) 512 (text "%s %s" ++ [0])%list; Ok b
    | None => strncpy (replicate 512 0) (alias_value ++ [0])%list 511
    end;
  n ← strlen expanded_cmd;
  strncpy_at buf cur expanded_cmd n.

Fixpoint skip_blanks (s : list Z) (i : Z) : outcome Z :=
  match s with
  | [] => UB
  | c :: s => if (c =? space) || (c =? 0x09) then skip_blanks s (i + 1) else Ok i
  end.

Definition set_buffer (buf : list Z) : S unit := set_line (λ l, set_input buf (input_pos l) l).

(** The command at [cur]: whether it was "edit", which ends the line. *)
Definition run_one (cur : Z) : S bool :=
  l ← get_line;
  '(buf, cmd, args) ← lift (split_args (input_buffer l) cur);
  set_buffer buf;;
  alias_value ← on_world (get_alias cmd);
  '(cmd, args) ←
    (match alias_value with
     | Some value =>
         buf ← lift (expand_alias buf cur value args);
         '(buf, cmd, args) ← lift (split_args buf cur);
         set_buffer buf;;
         mret (cmd, args)
     | None => mret (cmd, args)
     end);
  if bool_decide (cmd = text "edit") then
    clear_line;; on_world (cmd_edit switch_context (default [] args));; mret true
  else on_world (dispatch cmd args);; mret false.

(** The loop over the commands of the line; each turn moves past a semicolon. *)
Fixpoint run_line (n : nat) (cur : Z) : S bool :=
  match n with
  | O => no_fuel
  | Datatypes.S n' =>
      l ← get_line;
      let buf := input_buffer l in
      c ← lift (aget buf cur);
      if c =? 0 then mret false else
      semicolon ← lift (strchr (at_offset buf cur) 0x3B);
      let next_cmd := match semicolon with Some rest => Some (place buf rest + 1) | None => None end in
      buf ← lift (match semicolon with Some rest => aset buf (place buf rest) 0 | None => Ok buf end);
      set_buffer buf;;
      cur ← lift (skip_blanks (at_offset buf cur) cur);
      c ← lift (aget buf cur);
      edited ← (if c =? 0 then mret false else run_one cur);
      if edited : bool then mret true
      else match next_cmd with Some next => run_line n' next | None => mret false end
  end.

(** Blanks at the end of the line are dropped. *)
Fixpoint trim_input (n : nat) (buf : list Z) : outcome (list Z * Z) :=
  match n with
  | O => Ok (buf, 0)
  | Datatypes.S n' =>
      c ← aget buf (Z.of_nat n');
      if (c =? space) || (c =? 0x09) then buf ← aset buf (Z.of_nat n') 0; trim_input n' buf
      else Ok (buf, Z.of_nat n)
  end.

Definition process_command : S unit :=
  l ← get_line;
  '(buf, pos) ← lift (trim_input (Z.to_nat (input_pos l)) (input_buffer l));
  set_line (set_input buf pos);;
  if pos =? 0 then prompt else
  command ← lift (c_string buf);
  on_world (append_to_history_file command);;
  edited ← run_line (Datatypes.S INPUT_SIZE) 0;
  if edited : bool then mret tt else
  clear_line;;
  active ← on_world (gets (λ w, pager_active (w_pager w)));
  if active : bool then mret tt else prompt.

(** ** Keys *)

Definition erase_key : S unit :=
  l ← get_line;
  if 0 <? input_pos l then
    let pos := input_pos l - 1 in
    buf ← lift (aset (input_buffer l) pos 0);
    set_line (set_input buf pos);;
    on_world (scr (
      modify (λ t, set_position (terminal_row t) (u16 (terminal_column t - 1)) t);;
      color ← gets terminal_color;
      column ← gets terminal_column;
      row ← gets terminal_row;
      terminal_putchar_at space color column row;;
      Terminal.update_cursor))
  else mret tt.

Definition input_char (c : Z) : S unit :=
  l ← get_line;
  let pos := input_pos l in
  if pos <? Z.of_nat INPUT_SIZE - 1 then
    buf ← lift (aset (input_buffer l) pos c);
    buf ← lift (aset buf (pos + 1) 0);
    set_line (set_input buf (pos + 1));;
    on_world (scr (terminal_putchar c))
  else mret tt.

Definition process_keypress (c : Z) : S unit :=
  editing ← on_world (gets (λ w, m_active (w_editor w)));
  if editing : bool then on_world (edt (Editor.process_keypress c)) else
  paging ← on_world (gets (λ w, pager_active (w_pager w)));
  if paging : bool then on_world (pgr (Pager.process_keypress c)) else
  if c =? 0x09 then handle_tab_completion else
  set_line (λ l, set_matches (tab_matches l) 0 l);;
  if c =? 0x0A then on_world (scr (terminal_putchar NL));; process_command
  else if c =? 0x08 then erase_key
  else input_char c.

(** ** init_shell *)

Definition welcome_msg : list Z := text "Welcome to the kernel!
".

Definition init_shell : S unit :=
  clear_line;;
  pid_ ← on_world (krn (create_process (text "shell") 0));
  on_world (modify (with_shell_pid pid_));;
  on_world (modify (with_pager init_pager));;
  on_world (scr screen_init);;
  on_world (fil (f_set_path root));;
  on_world (fil (f_set_dir_name root));;
  on_world (fil (f_set_cluster ROOT_CLUSTER));;
  found ← on_world (fil (f_find (text "tmp")));
  on_world (unless_found found (fil (f_create_directory (text "tmp"))));;
  on_world (fil (f_create_with_content (text "tmp/welcome") welcome_msg 0));;
  on_world load_aliases;;
  on_world (say [NL] []);;
  prompt.
End shell.
