(* ===== verification/ShellRun.v ===== *)
(** * What a line of commands does (src/kernel/src/shell/shell.cpp)

    The line cut by semicolons, its blanks dropped and its words split off, as
    functions on lists, and the proof that [process_command] of Shell.v runs
    exactly these commands, in their order. *)

From Stdlib Require Strings.String.
From Stdlib Require Import (notations) Strings.String.
From S2P Require Import Prelude Acpi Smp CStr Disk Vmm Fat32 Kernel Proc Terminal Printf Console Editor Pager World Commands.
From S2P Require Import Shell.

#[local] Open Scope Z_scope.

(** ** The commands of a line *)

Definition SEMICOLON : Z := 0x3B.
Definition is_blank (c : Z) : bool := (c =? space) || (c =? 0x09).

Fixpoint drop_blanks (l : list Z) : list Z :=
  match l with
  | [] => []
  | c :: l' => if is_blank c then drop_blanks l' else l
  end.

(** The word before the first space, and what follows the space. *)
Fixpoint first_word (l : list Z) : list Z * option (list Z) :=
  match l with
  | [] => ([], None)
  | c :: l => if c =? space then ([], Some l) else let '(w, a) := first_word l in (c :: w, a)
  end.

Definition command_of (segment : list Z) : option (list Z * option (list Z)) :=
  match drop_blanks segment with [] => None | s => Some (first_word s) end.

Definition commands_of (line : list Z) : list (list Z * option (list Z)) := omap command_of (split_on SEMICOLON line).

(** A line without the blanks at its end. *)
Fixpoint trim_blanks (l : list Z) : list Z :=
  match l with
  | [] => []
  | c :: l => match trim_blanks l with [] => if is_blank c then [] else [c] | t => c :: t end
  end.

(** ** Lists *)

Lemma drop_blanks_split l : exists b, l = b ++ drop_blanks l ∧ Forall (λ c, is_blank c = true) b.
Proof.
  induction l as [|c l (b & E & Hb)]; [by exists []|]. cbn [drop_blanks]. destruct (is_blank c) eqn:Ec.
  - exists (c :: b). split; [cbn; by f_equal|by constructor].
  - exists []. done.
Qed.

Lemma drop_blanks_head l c s : drop_blanks l = c :: s → is_blank c = false.
Proof. induction l as [|d l IH]; [done|]. cbn [drop_blanks]. destruct (is_blank d) eqn:E; [done|]. by intros [= -> _]. Qed.

Lemma at_offset_app (pre rest : list Z) : at_offset (pre ++ rest) (Z.of_nat (length pre)) = rest.
Proof. unfold at_offset. by rewrite Nat2Z.id, drop_app_length. Qed.

Lemma aget_app (pre rest : list Z) c : aget (pre ++ c :: rest) (Z.of_nat (length pre)) = Ok c.
Proof. apply aget_lookup. by apply list_lookup_middle. Qed.

Lemma aset_app (pre rest : list Z) c d i : i = Z.of_nat (length pre) → aset (pre ++ c :: rest) i d = Ok (pre ++ d :: rest).
Proof.
  intros ->. rewrite aset_Ok by (rewrite length_app; cbn; lia). f_equal. rewrite Nat2Z.id.
  rewrite <- (Nat.add_0_r (length pre)), insert_app_r. done.
Qed.

Lemma skip_blanks_ok b c s i : Forall (λ c, is_blank c = true) b → is_blank c = false →
  skip_blanks (b ++ c :: s) i = Ok (i + Z.of_nat (length b)).
Proof.
  intros Hb Hc. revert i. induction Hb as [|x b Hx Hb IH]; intros i; cbn [app skip_blanks].
  - unfold is_blank in Hc. rewrite Hc. f_equal. cbn. lia.
  - unfold is_blank in Hx. rewrite Hx, IH. f_equal. cbn [length]. lia.
Qed.

Lemma find_space_ok s r : ∀ i, chars s →
  find_space (s ++ 0 :: r) i =
    Ok (match (first_word s).2 with Some _ => Some (i + Z.of_nat (length (first_word s).1)) | None => None end).
Proof.
  induction s as [|c s IH]; intros i Hs; cbn [find_space app first_word]; [done|].
  apply chars_cons in Hs as [Hc Hs]. rewrite (proj2 (Z.eqb_neq c 0)) by done. destruct (c =? space).
  - cbn. do 2 f_equal. lia.
  - rewrite IH by done. destruct (first_word s) as [w [a|]]; cbn; [|done]. do 2 f_equal. lia.
Qed.

Lemma first_word_split s : s = (first_word s).1 ++ match (first_word s).2 with Some a => space :: a | None => [] end.
Proof.
  induction s as [|c s IH]; [done|]. cbn [first_word]. destruct (Z.eqb_spec c space) as [->|]; [done|].
  destruct (first_word s) as [w a]. cbn in *. by rewrite <- IH.
Qed.

(** The segment with a terminator for its first space. *)
Definition cut (s : list Z) : list Z :=
  (first_word s).1 ++ match (first_word s).2 with Some a => 0 :: a | None => [] end.

Lemma cut_length s : length (cut s) = length s.
Proof.
  pose proof (f_equal length (first_word_split s)) as E. unfold cut.
  destruct (first_word s) as [w [a|]]; cbn in *.
  all: rewrite E, !length_app; done.
Qed.

Lemma split_args_ok pre s r : chars s →
  split_args (pre ++ s ++ 0 :: r) (Z.of_nat (length pre)) =
    Ok (pre ++ cut s ++ 0 :: r, (first_word s).1, (first_word s).2).
Proof.
  intros Hs. unfold split_args, cut. rewrite at_offset_app, find_space_ok, bind_Ok by done.
  pose proof (first_word_split s) as Es. destruct (first_word s) as [w [a|]] eqn:Ew; cbn [fst snd] in *.
  - rewrite Es in Hs |- *. apply chars_app in Hs as [Hw Ha]. apply chars_cons in Ha as [_ Ha].
    replace (pre ++ (w ++ space :: a) ++ 0 :: r) with ((pre ++ w) ++ space :: a ++ 0 :: r) by (by rewrite <- !app_assoc).
    rewrite (aset_app (pre ++ w)), bind_Ok by (rewrite length_app; lia). rewrite <- app_assoc, at_offset_app.
    rewrite c_string_app, bind_Ok by done. rewrite app_assoc.
    replace (Z.of_nat (length pre) + (0 + Z.of_nat (length w)) + 1) with (Z.of_nat (length ((pre ++ w) ++ [0])))
      by (rewrite !length_app; cbn; lia).
    replace ((pre ++ w) ++ 0 :: a ++ 0 :: r) with (((pre ++ w) ++ [0]) ++ a ++ 0 :: r) by (by rewrite <- !app_assoc).
    rewrite at_offset_app, c_string_app, bind_Ok by done. by rewrite <- !app_assoc.
  - rewrite app_nil_r in Es. rewrite c_string_app by done. cbn. by rewrite app_nil_r, <- Es.
Qed.

(** ** Running the line *)

Section run.
Context {F : Type} `{Directories F}.
Variable switch_context : Z → Z → ST Kernel unit.
Variable served : Z → bool.
Variable uninit : Z → list Z.
Variable store : Z → list Z → ST VirtualMemoryManager unit.
Variable mem : VirtualMemoryManager → Z → list Z.
Variable ud2 : ST (World F) unit.
Variable fuel : nat.

#[local] Abbreviation dispatch := (dispatch switch_context served uninit store mem ud2 fuel).
#[local] Abbreviation run_one := (run_one switch_context served uninit store mem ud2 fuel).
#[local] Abbreviation run_line := (run_line switch_context served uninit store mem ud2 fuel).
#[local] Abbreviation process_command := (process_command switch_context served uninit store mem ud2 fuel).

(** The commands one after the other; [false] when one of them is an alias or
    "edit", which the line is not over after. *)
Fixpoint run_commands (cs : list (list Z * option (list Z))) : ST (World F) bool :=
  match cs with
  | [] => mret true
  | (cmd, args) :: cs =>
      alias_value ← get_alias cmd;
      match alias_value with
      | Some _ => mret false
      | None =>
          if bool_decide (cmd = text "edit"%string) then mret false
          else dispatch cmd args;; run_commands cs
      end
  end.

(** Only the text of the line may differ. *)
Definition same_tabs (l l' : Line) : Prop := set_input no_input 0 l = set_input no_input 0 l'.

Lemma on_world_run {A} (m : ST (World F) A) l w a w' : m w = Ok (a, w') → on_world m (Ses l w) = Ok (a, Ses l w').
Proof. intros E. unfold on_world. cbn. by rewrite E. Qed.

Lemma bind_world_gets {A B} (g : World F → A) (f : A → ST (Session F) B) s :
  (on_world (gets g) ≫= f) s = f (g (s_world s)) s.
Proof. by destruct s. Qed.

Lemma bind_set_line {B} (g : Line → Line) (f : unit → ST (Session F) B) s :
  (set_line g ≫= f) s = f tt (Ses (g (s_line s)) (s_world s)).
Proof. done. Qed.

Lemma run_one_ok l w pre s tail w1 w2 : input_buffer l = pre ++ s ++ 0 :: tail → chars s →
  get_alias (first_word s).1 w = Ok (None, w1) → (first_word s).1 ≠ text "edit"%string →
  dispatch (first_word s).1 (first_word s).2 w1 = Ok (tt, w2) →
  exists l', run_one (Z.of_nat (length pre)) (Ses l w) = Ok (false, Ses l' w2) ∧
    input_buffer l' = pre ++ cut s ++ 0 :: tail ∧ same_tabs l l'.
Proof.
  intros El Hs Ea He Ed. exists (set_input (pre ++ cut s ++ 0 :: tail) (input_pos l) l). split; [|done].
  unfold Shell.run_one, get_line. st. cbn [s_line]. rewrite El, split_args_ok by done. st.
  unfold set_buffer, set_line. st. cbn [s_line s_world].
  rewrite (bind_run _ _ _ _ _ (on_world_run _ _ _ _ _ Ea)). st.
  rewrite bool_decide_eq_false_2 by done. by rewrite (bind_run _ _ _ _ _ (on_world_run _ _ _ _ _ Ed)).
Qed.

(** The part of the line before a semicolon, with its command if it has one. *)
Lemma run_segment_ok l w pre s tail w2 : input_buffer l = pre ++ s ++ 0 :: tail → chars s →
  run_commands (option_list (command_of s)) w = Ok (true, w2) →
  exists l' s', (cur ← lift (skip_blanks (s ++ 0 :: tail) (Z.of_nat (length pre)));
      c ← lift (aget (pre ++ s ++ 0 :: tail) cur);
      if c =? 0 then mret false else run_one cur) (Ses l w) = Ok (false, Ses l' w2) ∧
    input_buffer l' = pre ++ s' ++ 0 :: tail ∧ length s' = length s ∧ same_tabs l l'.
Proof.
  intros El Hs Hrun. destruct (drop_blanks_split s) as (b & Es & Hb). unfold command_of in Hrun.
  set (d := drop_blanks s) in *. assert (E : ∃ c r, d ++ 0 :: tail = c :: r ∧ is_blank c = false ∧ (c = 0 ↔ d = [])).
  { destruct d as [|c d'] eqn:Ed; [by exists 0, tail|]. exists c, (d' ++ 0 :: tail). split; [done|].
    split; [by eapply drop_blanks_head|]. rewrite Es in Hs. apply chars_app in Hs as [_ [? _]%chars_cons]. done. }
  destruct E as (c & r & Ec & Hbl & Hc0). assert (Es' : s ++ 0 :: tail = b ++ c :: r) by (by rewrite Es, <- app_assoc, Ec).
  rewrite Es', skip_blanks_ok by done. st. rewrite app_assoc. rewrite <- Nat2Z.inj_add, <- length_app, aget_app. st. destruct d as [|x d'] eqn:Ed.
  - rewrite (proj2 Hc0) by done. rewrite Z.eqb_refl. cbn in Hrun. injection Hrun as <-. by exists l, s.
  - rewrite (proj2 (Z.eqb_neq c 0)) by naive_solver. rewrite <- Ed in *. destruct (first_word d) as [cmd args] eqn:Ew.
    cbn [option_list run_commands] in Hrun. apply bind_run_inv in Hrun as ([v|] & w1 & Ea & Hrun); [done|].
    case_bool_decide as He; [done|]. apply bind_run_inv in Hrun as ([] & w3 & Edp & [= <-]).
    destruct (run_one_ok l w (pre ++ b) d tail w1 w3) as (l' & E & El' & Ht); rewrite ?Ew; cbn [fst snd]; try done.
    + by rewrite El, Es, <- !app_assoc.
    + rewrite Es in Hs. by apply chars_app in Hs as [_ ?].
    + exists l', (b ++ cut d). split; [exact E|]. split; [by rewrite El', <- !app_assoc|]. split; [|done].
      rewrite Es, !length_app, cut_length. lia.
Qed.

Lemma run_commands_app cs1 cs2 w w2 : run_commands (cs1 ++ cs2) w = Ok (true, w2) →
  exists w1, run_commands cs1 w = Ok (true, w1) ∧ run_commands cs2 w1 = Ok (true, w2).
Proof.
  revert w. induction cs1 as [|[cmd args] cs1 IH]; intros w; cbn [app run_commands]; [by exists w|].
  intros ([v|] & w1 & Ea & Hr)%bind_run_inv; [done|]. rewrite (bind_run _ _ _ _ _ Ea).
  case_bool_decide; [done|]. apply bind_run_inv in Hr as ([] & w3 & Ed & Hr). rewrite (bind_run _ _ _ _ _ Ed). by apply IH.
Qed.

Lemma commands_of_cons s ss : omap command_of (s :: ss) = option_list (command_of s) ++ omap command_of ss.
Proof. cbn. by destruct (command_of s). Qed.

(** The first three steps of a computation. *)
Lemma bind_run3 {A B C E} (m1 : ST (Session F) A) (m2 : A → ST (Session F) B) (m3 : A → B → ST (Session F) C)
    (k : C → ST (Session F) E) s c s' :
  (a ← m1; b ← m2 a; m3 a b) s = Ok (c, s') → (a ← m1; b ← m2 a; c ← m3 a b; k c) s = k c s'.
Proof.
  intros (a & s1 & E1 & (b & s2 & E2 & E3)%bind_run_inv)%bind_run_inv.
  by rewrite (bind_run _ _ _ _ _ E1), (bind_run _ _ _ _ _ E2), (bind_run _ _ _ _ _ E3).
Qed.

Lemma run_line_ok n : ∀ l w pre rest tail w2, (length rest < n)%nat → chars rest →
  input_buffer l = pre ++ rest ++ 0 :: tail → run_commands (commands_of rest) w = Ok (true, w2) →
  exists l', run_line n (Z.of_nat (length pre)) (Ses l w) = Ok (false, Ses l' w2) ∧ same_tabs l l'.
Proof.
  induction n as [|n IH]; intros l w pre rest tail w2 Hn Hr El Hrun; [lia|].
  cbn [Shell.run_line]. unfold get_line. st. cbn [s_line]. rewrite El.
  destruct rest as [|c rest].
  { cbn [app]. rewrite aget_app. st. rewrite Z.eqb_refl. cbn in Hrun. injection Hrun as <-. by exists l. }
  cbn [app]. rewrite aget_app. st. pose proof Hr as [Hc _]%chars_cons. rewrite (proj2 (Z.eqb_neq c 0)) by done.
  change (c :: rest ++ 0 :: tail) with ((c :: rest) ++ 0 :: tail). rewrite at_offset_app.
  set (rest' := c :: rest) in *. unfold commands_of in Hrun. destruct (first_on SEMICOLON rest') as [(s & r & Es & Hs)|Hs].
  - rewrite Es in *. apply chars_app in Hr as [Hcs [_ Hcr]%chars_cons]. rewrite <- app_assoc. cbn [app].
    rewrite strchr_found by done. st. rewrite split_on_first in Hrun by done. rewrite commands_of_cons in Hrun.
    apply run_commands_app in Hrun as (w1 & E1 & E2).
    assert (Ep : place (pre ++ s ++ SEMICOLON :: r ++ 0 :: tail) (SEMICOLON :: r ++ 0 :: tail) = Z.of_nat (length (pre ++ s)))
      by (unfold place; rewrite !length_app; cbn; lia).
    change 0x3B with SEMICOLON. rewrite Ep, app_assoc, aset_app by done. st. rewrite <- app_assoc. unfold set_buffer, set_line. st. cbn [s_line s_world].
    rewrite at_offset_app. set (l1 := set_input _ _ _).
    destruct (run_segment_ok l1 w pre s (r ++ 0 :: tail) w1 eq_refl Hcs E1) as (l2 & s' & Er & El2 & Hl & Ht).
    rewrite (bind_run3 _ _ _ _ _ _ _ Er). cbv iota.
    replace (Z.of_nat (length (pre ++ s)) + 1) with (Z.of_nat (length (pre ++ s' ++ [0]))) by (rewrite !length_app; cbn; lia).
    destruct (IH l2 w1 (pre ++ s' ++ [0]) r tail w2) as (l3 & E3 & Ht3); [|done|by rewrite El2, <- !app_assoc|done|].
    { rewrite length_app in Hn. cbn in Hn. lia. }
    exists l3. split; [exact E3|]. by etransitivity; [exact Ht|].
  - rewrite strchr_none by done. st. unfold set_buffer, set_line. st. cbn [s_line s_world].
    rewrite split_on_none in Hrun by done. rewrite commands_of_cons in Hrun. apply run_commands_app in Hrun as (w1 & E1 & [= <-]).
    rewrite at_offset_app. set (l1 := set_input _ _ _).
    destruct (run_segment_ok l1 w pre rest' tail w1 eq_refl Hr E1) as (l2 & s' & Er & _ & _ & Ht).
    rewrite (bind_run3 _ _ _ _ _ _ _ Er). by exists l2.
Qed.

(** ** The whole line *)

(** The buffer of a line being typed. *)
Definition holds_line (l : Line) (text_ : list Z) : Prop :=
  chars text_ ∧ input_pos l = Z.of_nat (length text_) ∧ length (input_buffer l) = INPUT_SIZE ∧
  exists r, input_buffer l = text_ ++ 0 :: r.

Lemma trim_blanks_snoc l c : trim_blanks (l ++ [c]) = if is_blank c then trim_blanks l else l ++ [c].
Proof.
  induction l as [|d l IH]; cbn [app trim_blanks]; [done|]. rewrite IH. destruct (is_blank c); [done|]. by destruct l.
Qed.

Lemma trim_input_ok t : ∀ r, exists r', trim_input (length t) (t ++ r) = Ok (trim_blanks t ++ r', Z.of_nat (length (trim_blanks t))) ∧
  (trim_blanks t ≠ t → head r' = Some 0) ∧ (trim_blanks t = t → r' = r).
Proof.
  induction t as [|c t IH] using rev_ind; intros r; [by exists r|].
  rewrite length_app. cbn [length]. rewrite Nat.add_1_r. cbn [trim_input]. rewrite <- app_assoc. cbn [app].
  rewrite aget_app, bind_Ok, trim_blanks_snoc. change ((c =? space) || (c =? 0x09)) with (is_blank c). destruct (is_blank c).
  - rewrite aset_app, bind_Ok by done. destruct (IH (0 :: r)) as (r' & E & H1 & H2). exists r'. split; [exact E|].
    destruct (decide (trim_blanks t = t)) as [Et|Et].
    + rewrite Et, H2 by done. split; [done|]. intros Ex%(f_equal length). rewrite length_app in Ex. cbn in Ex. lia.
    + split; [auto|]. intros Ex. assert (length (trim_blanks t) ≤ length t)%nat; [|rewrite Ex, length_app in *; cbn in *; lia].
      clear. induction t as [|d t IH]; [done|]. cbn [trim_blanks]. destruct (trim_blanks t); [destruct (is_blank d)|]; cbn in *; lia.
  - exists r. by rewrite length_app, Nat.add_1_r, <- app_assoc.
Qed.

Lemma trim_blanks_chars t : chars t → chars (trim_blanks t).
Proof.
  induction t as [|c t IH]; [done|]. intros [Hc Ht]%chars_cons. cbn [trim_blanks].
  pose proof (IH Ht) as Hr. destruct (trim_blanks t); [destruct (is_blank c); [done|]|]; apply chars_cons; by split.
Qed.

Lemma trim_blanks_length t : (length (trim_blanks t) ≤ length t)%nat.
Proof. induction t as [|d t IH]; [done|]. cbn [trim_blanks]. destruct (trim_blanks t); [destruct (is_blank d)|]; cbn in *; lia. Qed.

(** The blanks at the end are gone from the buffer. *)
Lemma trim_line l t : holds_line l t → exists r,
  trim_input (Z.to_nat (input_pos l)) (input_buffer l) = Ok (trim_blanks t ++ 0 :: r, Z.of_nat (length (trim_blanks t))).
Proof.
  intros (Hc & Hp & Hl & r & E). rewrite Hp, Nat2Z.id, E. destruct (trim_input_ok t (0 :: r)) as (r' & Er & H1 & H2).
  rewrite Er. destruct (decide (trim_blanks t = t)) as [Et|Et].
  - rewrite H2 by done. by exists r.
  - destruct r' as [|x r']; [by specialize (H1 Et)|]. specialize (H1 Et) as [= ->]. by exists r'.
Qed.

Lemma trim_input_length n : ∀ buf buf' pos, trim_input n buf = Ok (buf', pos) → length buf' = length buf.
Proof.
  induction n as [|n IH]; intros buf buf' pos; cbn [trim_input]; [by intros [= <- _]|].
  intros (c & _ & E)%bind_Ok_inv. destruct (_ || _); [|by injection E as <- _].
  apply bind_Ok_inv in E as (b & [_ ->]%aset_Ok_inv & E). rewrite (IH _ _ _ E). apply length_insert.
Qed.

Lemma process_blank_line l w t : holds_line l t → trim_blanks t = [] →
  exists l', process_command (Ses l w) = prompt (Ses l' w) ∧ holds_line l' [].
Proof.
  intros Hl Ht. destruct (trim_line l t Hl) as (r & E). rewrite Ht in E. cbn in E.
  pose proof (trim_input_length _ _ _ _ E) as Hlen. destruct Hl as (_ & _ & Hn & _).
  exists (set_input (0 :: r) 0 l). unfold Shell.process_command, get_line. st. cbn [s_line]. rewrite E. st.
  unfold set_line. st. split; [done|]. unfold holds_line. cbn [set_input input_buffer input_pos].
  split_and!; [by constructor|done|congruence|by exists r].
Qed.

End run.

#[export] Hint Rewrite @bind_world_gets @bind_set_line : st.

(** ** Witnesses *)

#[local] Existing Instance no_disk.

(** A machine without a disk, with the alias "c=clear", and the shell as process 2. *)
Definition clear_alias : outcome Aliases := load_alias_line (text "c=clear"%string) no_aliases.
Definition demo_world : World unit :=
  Wd (Cons boot_terminal tt) (Ed [] [] 0 0 0 0 0 0 false false NORMAL false 0 0) init_pager
    (boot_kernel two_procs 2) boot_smp (ok_or no_aliases clear_alias) 100 (λ _, 0) [] 2.

Definition typed (t : list Z) : Line :=
  set_input (t ++ replicate (INPUT_SIZE - length t) 0) (Z.of_nat (length t)) empty_line.

(** The characters of a row of the screen. *)
Definition row_text (t : Terminal) (row : nat) : list Z := map (λ c, Z.land c 0xFF) (take 80 (drop (80 * row) (VGA_MEMORY t))).

#[local] Abbreviation demo_process_command :=
  (process_command (λ _ _, no_fuel) (λ _, true) (λ n, replicate (Z.to_nat n) 0) (λ _ _, no_fuel) (λ _ _, []) no_fuel 0).
#[local] Abbreviation demo_run_commands :=
  (run_commands (λ _ _, no_fuel) (λ _, true) (λ n, replicate (Z.to_nat n) 0) (λ _ _, no_fuel) (λ _ _, []) no_fuel 0).

Lemma holds_line_typed (t : list Z) : chars t → (length t < 256)%nat → holds_line (typed t) t.
Proof.
  intros Hc Hl. unfold holds_line, typed, INPUT_SIZE. cbn. split_and!; [done|done| |].
  - rewrite length_app, length_replicate. lia.
  - destruct (256 - length t)%nat eqn:E; [lia|]. by eexists.
Qed.


(** The value of an alias is written over the line without its end, into the
    command behind the semicolon: "c;foo" goes on with "ear". *)
Example alias_overwrites_next_command :
  exists s, demo_process_command (Ses (typed (text "c;foo"%string)) demo_world) = Ok (tt, s) ∧
    take 22 (row_text (co_screen (w_console (s_world s))) 0) = text "Unknown command: ear  "%string.
Proof. eexists. split; [apply ran with (d := (tt, Ses empty_line demo_world)); vm_compute; reflexivity|vm_compute; reflexivity]. Qed.

(** With arguments the text of the command becomes "%s %s", which the message of an
    unknown command prints as a format without arguments. *)
Example alias_with_arguments : demo_process_command (Ses (typed (text "c x"%string)) demo_world) = UB.
Proof. vm_compute. reflexivity. Qed.
