(* ===== verification/ShellTyping.v ===== *)
(** * Typing a line (src/kernel/src/shell/shell.cpp)

    The keys that edit the line, and the proof that after any of them the buffer
    holds the line they make and the screen shows exactly it. *)

From S2P Require Import Prelude CStr Disk Vmm Fat32 Kernel Terminal Printf Console Editor Pager World Commands Shell.
From S2P Require Import ShellRun.

(** ** The line of some keys *)

Definition BACKSPACE : Z := 0x08.

Definition edit_key (l : list Z) (c : Z) : list Z :=
  if c =? BACKSPACE then take (length l - 1) l else if bool_decide (length l < 255)%nat then l ++ [c] else l.

Definition typed_line (keys : list Z) : list Z := foldl edit_key [] keys.

(** The keys with a character of their own, and backspace. *)
Definition line_key (c : Z) : Prop := c = BACKSPACE ∨ 0x20 ≤ c ≤ 0x7E.

Lemma edit_key_length l c : (length l ≤ 255)%nat → (length (edit_key l c) ≤ 255)%nat.
Proof.
  intros Hl. unfold edit_key. destruct (c =? BACKSPACE); [rewrite length_take; lia|].
  case_bool_decide; [rewrite length_app; cbn; lia|done].
Qed.

(** ** The screen behind the prompt *)

(** The cells of a line behind the cells [v], on a screen blank behind it. *)
Definition line_cells (v l : list Z) : list Z :=
  v ++ map (λ c, vga_entry c 15) l ++ replicate (CELLS - length v - length l) BLANK.

(** The column is counted down through 0 by backspace: it stands for the number
    [x], which is below zero when the line went over the end of a row and came
    back. *)
Record shows_line (v l : list Z) (t : Terminal) : Prop := {
  sl_cells : VGA_MEMORY t = line_cells v l;
  sl_color : terminal_color t = 15;
  sl_row : 0 ≤ terminal_row t < 25;
  sl_column : exists x, terminal_column t = u16 x ∧ x < 80 ∧
    terminal_row t * 80 + x = Z.of_nat (length v + length l)
}.

Lemma u16_idemp_r a b : u16 (a + u16 b) = u16 (a + b).
Proof. unfold u16. apply Zplus_mod_idemp_r. Qed.

Lemma u16_idemp a : u16 (u16 a) = u16 a.
Proof. unfold u16. apply Z.mod_mod. done. Qed.

Section line.
Context (v : list Z).
Implicit Types (l : list Z) (t : Terminal) (c : Z).

Lemma line_cells_length l : (length v + length l ≤ 2000)%nat → length (line_cells v l) = CELLS.
Proof. intros Hl. unfold line_cells, CELLS in *. rewrite !length_app, length_map, length_replicate. lia. Qed.

Lemma line_cells_snoc l c : (length v + length l < 2000)%nat →
  <[(length v + length l)%nat := vga_entry c 15]> (line_cells v l) = line_cells v (l ++ [c]).
Proof.
  intros Hl. unfold line_cells, CELLS. rewrite map_app, length_app. cbn [map length].
  replace (2000 - length v - length l)%nat with (S (2000 - length v - (length l + 1))) by lia.
  rewrite insert_app_r. f_equal. rewrite <- (length_map (λ c, vga_entry c 15) l), <- (Nat.add_0_r (length (map _ l))), insert_app_r.
  by rewrite <- app_assoc, length_map, Nat.add_0_r.
Qed.

Lemma line_cells_blank l : (length v + length l < 2000)%nat → line_cells v l !! (length v + length l)%nat = Some BLANK.
Proof.
  intros Hl. unfold line_cells, CELLS. rewrite lookup_app_r by lia.
  rewrite lookup_app_r by (rewrite length_map; lia). rewrite length_map. apply lookup_replicate. split; [done|lia].
Qed.

Lemma line_cells_pop l c : (length v + length l < 2000)%nat →
  <[(length v + length l)%nat := BLANK]> (line_cells v (l ++ [c])) = line_cells v l.
Proof.
  intros Hl. rewrite <- line_cells_snoc by done. rewrite list_insert_insert_eq. apply list_insert_id. by apply line_cells_blank.
Qed.

(** The position of the next character. *)
Lemma line_position l t : shows_line v l t → (length v + length l < 2000)%nat →
  u16 (terminal_row t * 80 + terminal_column t) = Z.of_nat (length v + length l).
Proof.
  intros [_ _ _ (x & -> & _ & E)] Hl. rewrite u16_idemp_r, E. apply u16_small. lia.
Qed.

Lemma update_cursor_line l t : shows_line v l t → (length v + length l < 2000)%nat →
  exists t', Terminal.update_cursor t = Ok (tt, t') ∧ shows_line v l t'.
Proof.
  intros Hs Hl. unfold Terminal.update_cursor. st. change VGA_WIDTH with 80. rewrite (line_position l t Hs Hl).
  pose proof Hs as [Ev _ _ _]. rewrite Ev.
  assert (Eg : aget (line_cells v l) (Z.of_nat (length v + length l)) = Ok BLANK) by (apply aget_lookup; by apply line_cells_blank).
  rewrite (bind_lift _ _ _ _ Eg).
  assert (Ea : aset (line_cells v l) (Z.of_nat (length v + length l)) (Z.lor (Z.land BLANK 0x0FFF) (Z.shiftl VGA_COLOR_BLACK 12)) =
    Ok (line_cells v l)).
  { rewrite aset_Ok by (rewrite line_cells_length by lia; unfold CELLS; lia). f_equal. rewrite Nat2Z.id.
    apply list_insert_id. change (Z.lor _ _) with BLANK. by apply line_cells_blank. }
  rewrite (bind_lift _ _ _ _ Ea). st. eexists. split; [reflexivity|]. destruct Hs. constructor; done.
Qed.

(** A write at the position of a line [k] characters long. *)
Lemma putchar_at_line (k : nat) t c d x y : length (VGA_MEMORY t) = CELLS → (length v + k < 2000)%nat →
  u16 (u16 y * 80 + u16 x) = Z.of_nat (length v + k) →
  terminal_putchar_at c d x y t = Ok (tt, set_vga (<[(length v + k)%nat := vga_entry c d]> (VGA_MEMORY t)) t).
Proof.
  intros Hc Hl Ep. unfold terminal_putchar_at. st. change VGA_WIDTH with 80. rewrite Ep.
  rewrite aset_Ok by (rewrite Hc; unfold CELLS; lia). st. by rewrite Nat2Z.id.
Qed.

Lemma u16_row y x : 0 ≤ y < 25 → u16 (u16 y * 80 + u16 (u16 x)) = u16 (y * 80 + x).
Proof. intros Hy. rewrite (u16_small y) by lia. by rewrite u16_idemp, u16_idemp_r. Qed.

Lemma terminal_putchar_line l t c : shows_line v l t → plain c → (length v + length l < 1999)%nat →
  exists t', terminal_putchar c t = Ok (tt, t') ∧ shows_line v (l ++ [c]) t'.
Proof.
  intros Hs [Hc Hnl] Hl. pose proof Hs as [Ev Ecol Hrow (x & Ex & Hx & E)]. unfold terminal_putchar.
  rewrite (proj2 (Z.eqb_neq c _)) by done. st. rewrite Ecol.
  assert (Ep : terminal_putchar_at c 15 (terminal_column t) (terminal_row t) t = Ok (tt, set_vga (line_cells v (l ++ [c])) t)).
  { rewrite (putchar_at_line (length l)); [|by rewrite Ev; apply line_cells_length; lia|lia|].
    - by rewrite Ev, line_cells_snoc by lia.
    - rewrite Ex, u16_row, E by done. apply u16_small. lia. }
  rewrite (bind_run _ _ _ _ _ Ep). st. cbn [terminal_column terminal_row set_vga set_position].
  rewrite Ex, Z.add_comm, u16_idemp_r, Z.add_comm. change VGA_WIDTH with 80.
  assert (Hlen : (length v + length (l ++ [c]))%nat = S (length v + length l)) by (rewrite length_app; cbn; lia).
  assert (Hu : u16 (x + 1) = if x =? 79 then 80 else u16 (x + 1)).
  { destruct (Z.eqb_spec x 79) as [->|]; done. }
  destruct (Z.eqb_spec x 79) as [->|Hx79].
  - change (u16 (79 + 1) =? 80) with true. cbv iota. set (t1 := set_position _ _ _).
    assert (En : next_row t1 = Ok (tt, set_position (terminal_row t + 1) 0 t1)).
    { unfold next_row. st. unfold t1. cbn [terminal_row set_position set_vga]. rewrite u16_small by lia.
      by rewrite (proj2 (Z.eqb_neq _ VGA_HEIGHT)) by (unfold VGA_HEIGHT; lia). }
    rewrite (bind_run _ _ _ _ _ En). unfold t1.
    apply update_cursor_line; [|lia]. constructor; cbn; [done|done|lia|]. exists 0. split; [done|]. split; [lia|]. rewrite Hlen. lia.
  - assert (Hne : u16 (x + 1) ≠ 80).
    { unfold u16. intros E80. destruct (decide (0 ≤ x + 1)); [rewrite Z.mod_small in E80 by lia; lia|].
      replace ((x + 1) `mod` 2 ^ 16) with (x + 1 + 2 ^ 16) in E80; [lia|].
      apply (Z.mod_unique _ _ (-1)); lia. }
    rewrite (proj2 (Z.eqb_neq _ 80)) by done. st.
    apply update_cursor_line; [|lia]. constructor; cbn; [done|done|lia|]. exists (x + 1). split; [done|]. split; [lia|]. rewrite Hlen. lia.
Qed.

(** The part of [erase_key] that works on the screen. *)
Definition erase_char : TM unit :=
  modify (λ t, set_position (terminal_row t) (u16 (terminal_column t - 1)) t);;
  color ← gets terminal_color;
  column ← gets terminal_column;
  row ← gets terminal_row;
  terminal_putchar_at space color column row;;
  Terminal.update_cursor.

Lemma erase_char_line l t c : shows_line v (l ++ [c]) t → (length v + length l < 1999)%nat →
  exists t', erase_char t = Ok (tt, t') ∧ shows_line v l t'.
Proof.
  intros Hs Hl. pose proof Hs as [Ev Ecol Hrow (x & Ex & Hx & E)]. rewrite length_app in E. cbn in E.
  unfold erase_char. st. cbn [terminal_column terminal_row terminal_color set_position]. rewrite Ex, Ecol.
  assert (Eu : u16 (u16 x - 1) = u16 (x - 1)) by (unfold u16; apply Zminus_mod_idemp_l). rewrite Eu.
  set (t1 := set_position _ _ t).
  assert (Ep : terminal_putchar_at space 15 (u16 (x - 1)) (terminal_row t) t1 = Ok (tt, set_vga (line_cells v l) t1)).
  { rewrite (putchar_at_line (length l)); [| |lia|].
    - unfold t1. cbn [VGA_MEMORY set_position]. rewrite Ev. change (vga_entry space 15) with BLANK.
      by rewrite line_cells_pop by lia.
    - unfold t1. cbn [VGA_MEMORY set_position]. rewrite Ev. apply line_cells_length. rewrite length_app. cbn. lia.
    - rewrite u16_row by done. rewrite u16_small; lia. }
  rewrite (bind_run _ _ _ _ _ Ep). apply update_cursor_line; [|lia].
  constructor; cbn; [done|done|lia|]. exists (x - 1). split; [done|lia].
Qed.
End line.

(** ** The session *)

Section typing.
Context {F : Type} `{Directories F}.
Variable switch_context : Z → Z → ST Kernel unit.
Variable served : Z → bool.
Variable uninit : Z → list Z.
Variable store : Z → list Z → ST VirtualMemoryManager unit.
Variable mem : VirtualMemoryManager → Z → list Z.
Variable ud2 : ST (World F) unit.
Variable fuel : nat.

#[local] Abbreviation process_keypress := (Shell.process_keypress switch_context served uninit store mem ud2 fuel).

Fixpoint press (keys : list Z) : ST (Session F) unit :=
  match keys with [] => mret tt | c :: keys => process_keypress c;; press keys end.

(** A world of which only the screen is another. *)
Definition with_terminal (t : Terminal) (w : World F) : World F := with_console (Cons t (co_files (w_console w))) w.
Definition screen_of (s : Session F) : Terminal := co_screen (w_console (s_world s)).

Record typing (v l : list Z) (w : World F) (s : Session F) : Prop := {
  ty_line : holds_line (s_line s) l;
  ty_screen : shows_line v l (screen_of s);
  ty_world : s_world s = with_terminal (screen_of s) w
}.

Lemma on_world_scr (m : TM unit) l w t : m (co_screen (w_console w)) = Ok (tt, t) →
  on_world (scr m) (Ses l w) = Ok (tt, Ses l (with_terminal t w)).
Proof. intros E. unfold on_world, scr, con, on_part, on_screen. cbn. by rewrite E. Qed.

Lemma with_terminal_twice t t' (w : World F) : with_terminal t' (with_terminal t w) = with_terminal t' w.
Proof. done. Qed.

Lemma input_char_ok v l w s c : typing v l w s → 0x20 ≤ c ≤ 0x7E → (length v + 255 < 2000)%nat → (length l < 255)%nat →
  exists s', input_char c s = Ok (tt, s') ∧ typing v (l ++ [c]) w s'.
Proof.
  intros [Hl Hs Hw] Hc Hv Hn. destruct s as [ln ws]. cbn [s_line s_world] in *. destruct Hl as (Hch & Hp & Hb & r & Er).
  assert (exists y r', r = y :: r') as (y & r' & ->).
  { rewrite Er, length_app in Hb. unfold INPUT_SIZE in Hb. destruct r; [cbn in Hb; lia|by eexists _, _]. }
  unfold input_char, get_line. st. cbn [s_line]. rewrite Hp, (proj2 (Z.ltb_lt _ _)) by (unfold INPUT_SIZE; lia).
  rewrite Er, aset_app by done. st.
  assert (Ea : aset (l ++ c :: y :: r') (Z.of_nat (length l) + 1) 0 = Ok ((l ++ [c]) ++ 0 :: r')).
  { rewrite <- (aset_app (l ++ [c]) r' y 0 (Z.of_nat (length l) + 1)) by (rewrite length_app; cbn; lia). by rewrite <- app_assoc. }
  rewrite Ea. st. unfold set_line. st. cbn [s_line s_world].
  destruct (terminal_putchar_line v l _ c Hs) as (t' & Et & Hs'); [split; lia|lia|].
  rewrite (on_world_scr _ _ _ _ Et). eexists. split; [reflexivity|]. constructor; cbn [s_line s_world].
  - unfold holds_line. cbn [set_input input_buffer input_pos]. split_and!.
    + apply chars_app. split; [done|]. apply chars_cons. split; [lia|by constructor].
    + rewrite length_app. cbn. lia.
    + rewrite Er in Hb. rewrite <- Hb, !length_app. cbn. lia.
    + by exists r'.
  - exact Hs'.
  - rewrite Hw. apply with_terminal_twice.
Qed.

Lemma erase_key_ok v l w s c : typing v (l ++ [c]) w s → (length v + 255 < 2000)%nat → (length l < 255)%nat →
  exists s', erase_key s = Ok (tt, s') ∧ typing v l w s'.
Proof.
  intros [Hl Hs Hw] Hv Hn. destruct s as [ln ws]. cbn [s_line s_world] in *. destruct Hl as (Hch & Hp & Hb & r & Er).
  rewrite length_app in Hp. cbn in Hp. unfold erase_key, get_line. st. cbn [s_line]. rewrite Hp, (proj2 (Z.ltb_lt _ _)) by lia.
  rewrite Er, <- app_assoc. cbn [app]. rewrite aset_app by lia. st. unfold set_line. st. cbn [s_line s_world].
  destruct (erase_char_line v l _ c Hs) as (t' & Et & Hs'); [lia|].
  rewrite (on_world_scr _ _ _ _ Et). eexists. split; [reflexivity|]. constructor; cbn [s_line s_world].
  - unfold holds_line. cbn [set_input input_buffer input_pos]. split_and!.
    + by apply chars_app in Hch as [? _].
    + lia.
    + rewrite Er in Hb. rewrite <- Hb, !length_app. cbn. lia.
    + by exists (0 :: r).
  - exact Hs'.
  - rewrite Hw. apply with_terminal_twice.
Qed.

Lemma process_keypress_ok v l w s c : typing v l w s → m_active (w_editor w) = false → pager_active (w_pager w) = false →
  line_key c → (length v + 255 < 2000)%nat → (length l ≤ 255)%nat →
  exists s', process_keypress c s = Ok (tt, s') ∧ typing v (edit_key l c) w s'.
Proof.
  intros Hty He Hpg Hk Hv Hl. destruct s as [ln ws]. pose proof (ty_world _ _ _ _ Hty) as Hw. cbn [s_world] in Hw.
  assert (Hty1 : typing v l w (Ses (set_matches (tab_matches ln) 0 ln) ws)) by (destruct Hty; by constructor).
  unfold Shell.process_keypress. st. cbn [s_world].
  assert (Ee : m_active (w_editor ws) = false) by (by rewrite Hw). assert (Ep : pager_active (w_pager ws) = false) by (by rewrite Hw).
  rewrite Ee. st. cbn [s_world]. rewrite Ep.
  rewrite (proj2 (Z.eqb_neq c 0x09)) by (unfold line_key, BACKSPACE in Hk; lia).
  st. cbn [s_line s_world].
  rewrite (proj2 (Z.eqb_neq c 0x0A)) by (unfold line_key, BACKSPACE in Hk; lia).
  unfold edit_key. change BACKSPACE with 0x08 in *. destruct (Z.eqb_spec c 0x08) as [->|Hc].
  - destruct l as [|x l' _] using rev_ind.
    + cbn. unfold erase_key, get_line. st. destruct Hty1 as [(Hch & Hp & Hb) Hs _]. cbn [s_line] in *. rewrite Hp. cbn.
      eexists. split; [reflexivity|]. destruct Hty as [? ? ?]. by constructor.
    + rewrite length_app in Hl |- *. cbn in Hl. replace (length l' + length [x] - 1)%nat with (length l') by (cbn; lia).
      rewrite take_app_length. eapply erase_key_ok; [exact Hty1|done|lia].
  - assert (Hr : 0x20 ≤ c ≤ 0x7E) by (unfold line_key, BACKSPACE in Hk; lia). case_bool_decide as Hn.
    + by apply input_char_ok.
    + assert (length l = 255%nat) as E by lia. exists (Ses (set_matches (tab_matches ln) 0 ln) ws). split; [|done].
      unfold input_char, get_line. st. destruct Hty1 as [(_ & Hp & _) _ _]. rewrite Hp, E. done.
Qed.

Lemma press_line_ok v w s keys : typing v [] w s → m_active (w_editor w) = false → pager_active (w_pager w) = false →
  (length v + 255 < 2000)%nat → Forall line_key keys →
  exists s', press keys s = Ok (tt, s') ∧ typing v (typed_line keys) w s' ∧ (length (typed_line keys) ≤ 255)%nat.
Proof.
  intros Hty He Hp Hv Hk. unfold typed_line. assert (Hl : (length (@nil Z) ≤ 255)%nat) by (cbn; lia). revert s Hty Hl.
  generalize (@nil Z). induction Hk as [|c keys Hc Hk IH]; intros l s Hty Hl; cbn [press foldl]; [by exists s|].
  destruct (process_keypress_ok v l w s c Hty He Hp Hc Hv Hl) as (s1 & E1 & H1). rewrite (bind_run _ _ _ _ _ E1).
  apply IH; [done|]. by apply edit_key_length.
Qed.

(** [C12] What is on the screen is the line: after any characters and backspaces the
    buffer holds the line they make, of at most 255 characters, and the cells behind
    the prompt are its characters and blanks; nothing else has changed. *)
Theorem typing_shows_line v w s keys : typing v [] w s → m_active (w_editor w) = false → pager_active (w_pager w) = false →
  (length v + 255 < 2000)%nat → Forall line_key keys →
  exists s', press keys s = Ok (tt, s') ∧ typing v (typed_line keys) w s' ∧ (length (typed_line keys) ≤ 255)%nat.
Proof. exact (press_line_ok v w s keys). Qed.
End typing.

(** ** Witness *)

#[local] Existing Instance no_disk.

Definition dollar : list Z := [vga_entry 0x24 15; vga_entry 0x20 15].
Definition prompt_world : World unit :=
  with_terminal (Term (line_cells dollar []) 0 2 15 0 0 0 (Saved [] 0 0 0) 0) demo_world.

#[local] Abbreviation demo_press :=
  (press (λ _ _, no_fuel) (λ _, true) (λ n, replicate (Z.to_nat n) 0) (λ _ _, no_fuel) (λ _ _, []) no_fuel 0).

Lemma at_prompt : typing dollar [] prompt_world (Ses empty_line prompt_world).
Proof.
  constructor; cbn [s_line s_world].
  - apply (holds_line_typed []); [by constructor|cbn; lia].
  - constructor; [reflexivity|done|done|]. exists 2. done.
  - reflexivity.
Qed.

Lemma typing_shows_line_witness :
  exists s', demo_press [0x6C; 0x73; 0x08; 0x61] (Ses empty_line prompt_world) = Ok (tt, s') ∧
    typing dollar [0x6C; 0x61] prompt_world s'.
Proof.
  destruct (typing_shows_line (λ _ _, no_fuel) (λ _, true) (λ n, replicate (Z.to_nat n) 0) (λ _ _, no_fuel) (λ _ _, []) no_fuel 0
    dollar prompt_world (Ses empty_line prompt_world) [0x6C; 0x73; 0x08; 0x61] at_prompt eq_refl eq_refl) as (s' & E & Ht & _).
  - cbn. lia.
  - repeat constructor; unfold line_key, BACKSPACE; lia.
  - exists s'. split; [exact E|exact Ht].
Defined.

(** A line that went over the end of a row and came back leaves the row too far
    down: the newline after it passes over a row. *)
Example newline_after_erasing_over_the_edge :
  exists t, (terminal_putchar 0x61;; erase_char;; terminal_putchar NL) (Term (replicate CELLS BLANK) 0 79 15 0 0 0 (Saved [] 0 0 0) 0) = Ok (tt, t) ∧
    terminal_row t = 2.
Proof. eexists. split; [apply ran with (d := (tt, boot_terminal)); vm_compute; reflexivity|vm_compute; reflexivity]. Qed.

(** The eleven bytes of the entry "ABC". *)
Definition text_row : list Z := [0x41; 0x42; 0x43] ++ replicate 8 space ++ replicate 245 0.

(** A completion is copied to the end of the line without a look at its room. *)
Example completion_overflows :
  let line := set_prefix [0x61; 0] (set_matches (text_row :: replicate 15 no_input) 1 (typed (replicate 250 0x62 ++ [space; 0x61]))) in
  handle_tab_completion (F := unit) (λ n, replicate (Z.to_nat n) 0) (Ses line prompt_world) = UB.
Proof. vm_compute. reflexivity. Qed.
