(* ===== verification/AliasTable.v ===== *)
(** * The table of aliases (src/kernel/src/shell/commands/alias.cpp)

    What [load_aliases] and [get_alias] of Commands.v promise: whatever text the
    file has, the table holds terminated strings, those of the file's lines, and
    a name is found in it at its first line. *)

From S2P Require Import Prelude Disk Fat32 Terminal Printf Console Editor Pager World Commands CStr.

#[local] Open Scope Z_scope.

Definition EQUALS : Z := 0x3D.

(** ** The lines of a file *)

(** The text before and after the first [sep]. *)
Fixpoint cut (sep : Z) (l : list Z) : option (list Z * list Z) :=
  match l with
  | [] => None
  | c :: l =>
      if c =? sep then Some ([], l)
      else match cut sep l with Some (a, b) => Some (c :: a, b) | None => None end
  end.

Lemma cut_found sep a b : sep ∉ a → cut sep (a ++ sep :: b) = Some (a, b).
Proof.
  induction a as [|c a IH]; intros Ha; cbn [app cut]; [by rewrite Z.eqb_refl|].
  rewrite (proj2 (Z.eqb_neq c sep)) by set_solver. by rewrite IH by set_solver.
Qed.

Lemma cut_none sep l : sep ∉ l → cut sep l = None.
Proof.
  induction l as [|c l IH]; intros Hl; cbn [cut]; [done|].
  rewrite (proj2 (Z.eqb_neq c sep)) by set_solver. by rewrite IH by set_solver.
Qed.

(** What a slot keeps of a line. *)
Definition alias_of (line : list Z) : option (list Z * list Z) :=
  match cut EQUALS line with Some (name, value) => Some (take 63 name, take 255 value) | None => None end.

Definition aliases_of (content : list Z) : list (list Z * list Z) := omap alias_of (split_on NL content).

Fixpoint lookup_alias (l : list (list Z * list Z)) (name : list Z) : option (list Z) :=
  match l with
  | [] => None
  | (n, v) :: l => if bool_decide (n = name) then Some v else lookup_alias l name
  end.

(** ** The invariant

    Every slot has its size and a zero at its end, and the slots in use hold the
    names and values [l]. *)

Definition slot_ok (s : list Z * list Z) : Prop :=
  (exists n, length n = 63%nat ∧ s.1 = n ++ [0]) ∧ (exists v, length v = 255%nat ∧ s.2 = v ++ [0]).

Definition slot_holds (s e : list Z * list Z) : Prop := cstr s.1 e.1 ∧ cstr s.2 e.2.

Record holds_aliases (a : Aliases) (l : list (list Z * list Z)) : Prop := {
  ha_size : length (aliases a) = Z.to_nat MAX_ALIASES;
  ha_slots : Forall slot_ok (aliases a);
  ha_count : alias_count a = Z.of_nat (length l);
  ha_used : Forall2 slot_holds (take (length l) (aliases a)) l
}.

Definition alias_table (a : Aliases) : Prop := exists l, holds_aliases a l.

Lemma holds_length a l : holds_aliases a l → (length l ≤ 100)%nat.
Proof. intros [Hs _ _ Hu]. apply Forall2_length in Hu. rewrite length_take, Hs in Hu. change (Z.to_nat MAX_ALIASES) with 100%nat in Hu. lia. Qed.

Lemma no_aliases_hold : holds_aliases no_aliases [].
Proof.
  constructor; [done| |done|constructor]. unfold no_aliases. cbn [aliases]. apply Forall_replicate.
  split; eexists (replicate _ 0); (split; [apply length_replicate|]); cbn [fst snd]; by rewrite <- replicate_cons_app.
Qed.

(** The table emptied keeps its slots. *)
Lemma holds_reset a l n : holds_aliases a l → holds_aliases (Als (aliases a) 0 n) [].
Proof. intros [Hs Ho _ _]. constructor; [exact Hs|exact Ho|done|constructor]. Qed.

(** ** Storing *)

Lemma padded_cstr n s : chars s → cstr (padded n s ++ [0]) (take n s).
Proof.
  intros Hs. split; [by apply Forall_take|]. destruct (decide (n ≤ length s)%nat) as [Hl|Hl].
  - exists []. by rewrite padded_long.
  - rewrite padded_short by lia. rewrite take_ge by lia. exists (replicate (n - length s) 0).
    by rewrite <- app_assoc, <- replicate_cons_app.
Qed.

(** Copying into all of a slot's array but its last byte. *)
Lemma strncpy_slot d n s r : length n = d → chars s → strncpy (n ++ [0]) (s ++ 0 :: r) d = Ok (padded d s ++ [0]).
Proof.
  intros Hn Hs. rewrite strncpy_ok by (done || rewrite length_app; lia). f_equal. by rewrite <- Hn, drop_app_length.
Qed.

Lemma slot_stored n v : chars n → chars v →
  slot_ok (padded 63 n ++ [0], padded 255 v ++ [0]) ∧ slot_holds (padded 63 n ++ [0], padded 255 v ++ [0]) (take 63 n, take 255 v).
Proof.
  intros Hn Hv. split; [|split; by apply padded_cstr].
  split; eexists; (split; [|reflexivity]); apply length_padded.
Qed.

Lemma holds_store a l s e : holds_aliases a l → (length l < 100)%nat → slot_ok s → slot_holds s e →
  holds_aliases (Als (<[length l := s]> (aliases a)) (alias_count a + 1) (last_file_size a)) (l ++ [e]).
Proof.
  intros [Hs Ho Hc Hu] Hl Hok He. change (Z.to_nat MAX_ALIASES) with 100%nat in Hs. constructor; cbn [aliases alias_count].
  - by rewrite length_insert.
  - by apply Forall_insert.
  - rewrite length_app, Hc. cbn. lia.
  - rewrite length_app. cbn [length]. rewrite Nat.add_1_r.
    rewrite (take_S_r _ _ s) by (apply list_lookup_insert_eq; lia). rewrite take_insert_ge by done.
    apply Forall2_app; [exact Hu|by constructor].
Qed.

Lemma load_alias_line_ok line a l : chars line → holds_aliases a l → (length l < 100)%nat → exists a',
  load_alias_line line a = Ok a' ∧ holds_aliases a' (l ++ option_list (alias_of line)) ∧ last_file_size a' = last_file_size a.
Proof.
  intros Hc Ha Hl. unfold load_alias_line, alias_of. change 0x3D with EQUALS.
  destruct (first_on EQUALS line) as [(n & v & -> & Hn)|Hn].
  - apply chars_app in Hc as [Hcn [_ Hcv]%chars_cons]. rewrite <- app_assoc. cbn [app].
    rewrite (strchr_found n EQUALS (v ++ [0])) by done. rewrite bind_Ok, cut_found by done.
    pose proof Ha as [Hs Ho Hco _]. change (Z.to_nat MAX_ALIASES) with 100%nat in Hs.
    destruct (lookup_lt_is_Some_2 (aliases a) (length l)) as [slot Eslot]; [lia|].
    destruct (proj1 (Forall_lookup _ _) Ho _ _ Eslot) as [(bn & Lbn & En) (bv & Lbv & Ev)].
    rewrite Hco, (aget_lookup _ _ _ Eslot), bind_Ok, En, Ev.
    replace (length (n ++ EQUALS :: v ++ [0%Z]) - length (EQUALS :: v ++ [0%Z]))%nat with (length n) by (rewrite !length_app; cbn; lia).
    rewrite take_app_length, (strncpy_slot 63 bn n []), bind_Ok by done.
    change (drop 1 (EQUALS :: v ++ [0])) with (v ++ [0]). rewrite (strncpy_slot 255 bv v []), bind_Ok by done.
    rewrite aset_Ok, bind_Ok by lia. eexists. split; [reflexivity|]. split; [|done].
    rewrite Nat2Z.id, <- Hco. cbn [option_list]. destruct (slot_stored n v Hcn Hcv) as [H1 H2]. by apply holds_store.
  - rewrite strchr_none, bind_Ok, cut_none by done. exists a. cbn [option_list]. by rewrite app_nil_r.
Qed.

(** ** Loading *)

Lemma aliases_of_line s r : NL ∉ s → aliases_of (s ++ NL :: r) = option_list (alias_of s) ++ aliases_of r.
Proof. intros Hs. unfold aliases_of. rewrite split_on_first by done. cbn [omap list_omap]. by destruct (alias_of s). Qed.

Lemma aliases_of_last s : NL ∉ s → aliases_of s = option_list (alias_of s).
Proof. intros Hs. unfold aliases_of. rewrite split_on_none by done. cbn [omap list_omap]. by destruct (alias_of s). Qed.

Lemma take_full {A} (l r : list A) (n : nat) : length l = n → take n (l ++ r) = l.
Proof. intros <-. apply take_app_length. Qed.

(** A line that is empty is passed over, which is what its having no name means. *)
Lemma load_line_ok s a l : chars s → holds_aliases a l → (length l < 100)%nat → exists a',
  (if bool_decide (s = []) then Ok a else load_alias_line s a) = Ok a' ∧ holds_aliases a' (l ++ option_list (alias_of s)) ∧
  last_file_size a' = last_file_size a.
Proof.
  intros Hs Ha Hl. case_bool_decide as He; [|by apply load_alias_line_ok].
  exists a. subst s. cbn. by rewrite app_nil_r.
Qed.

Lemma load_alias_lines_ok r : ∀ fuel s a l, chars s → (length s < fuel)%nat → holds_aliases a l → exists a',
  load_alias_lines fuel (s ++ 0 :: r) a = Ok a' ∧ holds_aliases a' (take 100 (l ++ aliases_of s)) ∧ last_file_size a' = last_file_size a.
Proof.
  induction fuel as [|fuel IH]; intros s a l Hs Hf Ha; [lia|]. pose proof (holds_length a l Ha) as Hl.
  assert (Hstop : ∀ r', length l = 100%nat → holds_aliases a (take 100 (l ++ r'))) by (intros r' E; by rewrite take_full).
  pose proof (ha_count a l Ha) as Hco.
  destruct s as [|c s].
  { exists a. split; [done|]. split; [|done]. change (aliases_of []) with (@nil (list Z * list Z)). by rewrite app_nil_r, take_ge. }
  pose proof Hs as [Hc _]%chars_cons. cbn [app load_alias_lines]. rewrite (proj2 (Z.eqb_neq c 0)) by done. cbn [orb].
  destruct (Z.ltb_spec (alias_count a) MAX_ALIASES) as [Hlt|Hge]; cbn [negb]; cycle 1.
  { exists a. split; [done|]. split; [|done]. apply Hstop. unfold MAX_ALIASES in Hge. lia. }
  assert (Hl1 : (length l < 100)%nat) by (unfold MAX_ALIASES in Hlt; lia). change (c :: s ++ 0 :: r) with ((c :: s) ++ 0 :: r).
  destruct (first_on NL (c :: s)) as [(s1 & s2 & E & Hn)|Hn]; cycle 1.
  { rewrite strchr_none, bind_Ok, c_string_app, bind_Ok, aliases_of_last by done.
    destruct (load_alias_line_ok (c :: s) a l Hs Ha Hl1) as (a' & E & Ha' & Ef). exists a'. split; [done|]. split; [|done].
    by rewrite take_ge by (by apply (holds_length a')). }
  rewrite E in Hs, Hf |- *. apply chars_app in Hs as [Hs1 [_ Hs2]%chars_cons]. rewrite <- app_assoc. cbn [app].
  rewrite strchr_found, bind_Ok by done.
  replace (length (s1 ++ NL :: s2 ++ 0%Z :: r) - length (NL :: s2 ++ 0%Z :: r))%nat with (length s1) by (rewrite !length_app; cbn; lia).
  rewrite take_app_length. change (drop 1 (NL :: s2 ++ 0 :: r)) with (s2 ++ 0 :: r).
  destruct (load_line_ok s1 a l Hs1 Ha Hl1) as (a1 & E1 & Ha1 & Ef1).
  assert (Eif : (if c =? NL then Ok a else load_alias_line s1 a) = Ok a1).
  { rewrite <- E1. destruct s1 as [|c1 s1]; injection E as -> _; [by rewrite Z.eqb_refl|].
    rewrite (proj2 (Z.eqb_neq c1 NL)) by set_solver. by rewrite bool_decide_false. }
  rewrite Eif, bind_Ok. destruct (IH s2 a1 _ Hs2 ltac:(rewrite length_app in Hf; cbn in Hf; lia) Ha1) as (a' & E' & Ha' & Ef').
  exists a'. split; [done|]. split; [|congruence]. by rewrite aliases_of_line, app_assoc.
Qed.

(** ** Looking up *)

Lemma find_alias_ok name : chars name → ∀ l t, Forall2 slot_holds (take (length l) t) l →
  find_alias (length l) t name = Ok (lookup_alias l name).
Proof.
  intros Hn. induction l as [|[n v] l IH]; intros t Ht; [done|]. destruct t as [|s t]; [by apply Forall2_nil_cons_inv in Ht|].
  apply Forall2_cons in Ht as [[[Hcn (rn & En)] [Hcv (rv & Ev)]] Ht]. cbn [fst snd] in *. cbn [length find_alias lookup_alias].
  rewrite En. destruct (strcmp_app n rn name [] Hcn Hn) as (z & Ez & Hz). rewrite Ez, bind_Ok. rewrite Ev.
  destruct (Z.eqb_spec z 0) as [H0|H0].
  - rewrite c_string_app, bind_Ok, bool_decide_true by (done || by apply Hz). done.
  - rewrite bool_decide_false by (by intros ?%Hz). by apply IH.
Qed.

Lemma find_alias_table a l name : holds_aliases a l → chars name →
  find_alias (Z.to_nat (alias_count a)) (aliases a) name = Ok (lookup_alias l name).
Proof. intros [_ _ Hc Hu] Hn. rewrite Hc, Nat2Z.id. by apply find_alias_ok. Qed.

(** ** The file *)

(** [C13] Whatever text the file has, loading it comes to an end and leaves a table
    of which every slot is a terminated name and a terminated value within their
    arrays, so that no reader of it goes over their ends; and a name is then found
    in it at the first of the file's first hundred lines with an equals sign that
    has it before the sign. *)
Theorem alias_table_loaded a s r name : alias_table a → chars s → chars name → exists a',
  load_alias_lines (S (length (s ++ 0 :: r))) (s ++ 0 :: r) (Als (aliases a) 0 (last_file_size a)) = Ok a' ∧
  alias_table a' ∧ find_alias (Z.to_nat (alias_count a')) (aliases a') name = Ok (lookup_alias (take 100 (aliases_of s)) name).
Proof.
  intros [l Hl] Hs Hn.
  destruct (load_alias_lines_ok r (S (length (s ++ 0 :: r))) s _ [] Hs ltac:(rewrite length_app; lia) (holds_reset a l (last_file_size a) Hl))
    as (a' & E & Ha & _).
  exists a'. split; [done|]. split; [by eexists|]. by apply find_alias_table.
Qed.

(** The second "c" is not found, and "x", without an equals sign, is no line. *)
Lemma alias_table_loaded_witness :
  let s := [0x63; EQUALS; 0x31; NL; 0x78; NL; NL; 0x63; EQUALS; 0x32; NL; 0x64; EQUALS; 0x33] in exists a',
  load_alias_lines 18 (s ++ [0; 7; 7]) no_aliases = Ok a' ∧ find_alias (Z.to_nat (alias_count a')) (aliases a') [0x63] = Ok (Some [0x31]).
Proof.
  intros s. destruct (alias_table_loaded no_aliases s [7; 7] [0x63] (ex_intro _ [] no_aliases_hold)) as (a' & E & _ & Ef).
  - by apply (bool_decide_unpack _).
  - by apply (bool_decide_unpack _).
  - exists a'. split; [exact E|exact Ef].
Defined.
