(* ===== verification/ShellStart.v ===== *)
(** * The start of the shell (init_shell, src/kernel/src/shell/shell.cpp)

    What the shell's start leaves: its process, the aliases of the file, and the
    prompt on a screen that is ready for a line. *)

From Stdlib Require Strings.String.
From Stdlib Require Import (notations) Strings.String.
From S2P Require Import Prelude Acpi Smp Disk Vmm Fat32 Kernel Proc Terminal Printf Console Editor Pager World Commands CStr.
From S2P Require Import Shell ShellRun ShellTyping AliasTable.

#[local] Open Scope Z_scope.

Section start.
Context {F : Type} `{Directories F}.
Implicit Types w : World F.

(** ** The files

    What the start asks of the file system, in order: the text of the aliases, if
    there is one, and the name the prompt shows. *)

Definition unless {A B} (found : option A) (m : ST F B) : ST F unit :=
  match found with Some _ => mret tt | None => m;; mret tt end.

Definition config_files : ST F (bool * list Z) :=
  shell ← f_find (text "/shell"%string);
  unless shell (f_create_directory (text "shell"%string));;
  config ← f_find (text "/shell/config"%string);
  unless config (f_create_with_content (text "/shell/config"%string) default_aliases 0);;
  f_read_path (text "/shell/config"%string) file_buffer (FILE_BUFFER - 1).

Definition shell_files : ST F ((bool * list Z) * list Z) :=
  f_set_path root;;
  f_set_dir_name root;;
  f_set_cluster ROOT_CLUSTER;;
  found ← f_find (text "tmp"%string);
  unless found (f_create_directory (text "tmp"%string));;
  f_create_with_content (text "tmp/welcome"%string) welcome_msg 0;;
  config ← config_files;
  name ← f_dir_name;
  mret (config, name).

(** A world of which only the files are others. *)
Definition with_files (f : F) w : World F := with_console (Cons (co_screen (w_console w)) f) w.

Lemma with_files_same w : with_files (co_files (w_console w)) w = w.
Proof. by destruct w as [[]]. Qed.

Lemma fil_bind {A B} (m : ST F A) (k : A → ST (World F) B) f w a f' : m f = Ok (a, f') →
  (fil m ≫= k) (with_files f w) = k a (with_files f' w).
Proof. intros E. apply (bind_run _ _ _ _ _). unfold fil, con, on_part, Console.on_files. cbn. by rewrite E. Qed.

Lemma unless_files {A B} (found : option A) (m : ST F B) f w u f' : unless found m f = Ok (u, f') →
  unless_found found (fil m) (with_files f w) = Ok (tt, with_files f' w).
Proof.
  unfold unless, unless_found. destruct found; [by intros [= _ <-]|].
  intros (b & f1 & E & [= _ <-])%bind_run_inv. by rewrite (fil_bind _ _ _ _ _ _ E).
Qed.

Lemma load_aliases_files w f r f' : config_files f = Ok (r, f') →
  load_aliases (with_files f w) = (if r.1 : bool
    then als (λ a, load_alias_lines (S (length r.2)) r.2 (Als (aliases a) 0 (last_file_size a))) else mret tt) (with_files f' w).
Proof.
  intros (shell & f1 & E1 & (u1 & f2 & E2 & (config & f3 & E3 & (u2 & f4 & E4 & E5)%bind_run_inv)%bind_run_inv)%bind_run_inv)%bind_run_inv.
  unfold load_aliases. rewrite (fil_bind _ _ _ _ _ _ E1), (bind_run _ _ _ _ _ (unless_files _ _ _ _ _ _ E2)), (fil_bind _ _ _ _ _ _ E3).
  by rewrite (bind_run _ _ _ _ _ (unless_files _ _ _ _ _ _ E4)), (fil_bind _ _ _ _ _ _ E5).
Qed.

(** ** The aliases *)

(** What the table is after loading from a file system that answered [r]: as it was
    when there is no file. *)
Definition aliases_loaded (r : bool * list Z) (a a' : Aliases) : Prop :=
  if r.1 then exists s rest, r.2 = s ++ 0 :: rest ∧ chars s ∧ holds_aliases a' (take 100 (aliases_of s)) else a' = a.

(** The answer's text has an end. *)
Definition terminated_text (r : bool * list Z) : Prop := r.1 = true → exists s rest, r.2 = s ++ 0 :: rest ∧ chars s.

Lemma load_aliases_ok w f r f' : config_files f = Ok (r, f') → terminated_text r → alias_table (w_aliases w) → exists a',
  load_aliases (with_files f w) = Ok (tt, with_aliases a' (with_files f' w)) ∧ aliases_loaded r (w_aliases w) a'.
Proof.
  intros E Ht [l Hl]. rewrite (load_aliases_files _ _ _ _ E). unfold aliases_loaded. destruct (r.1) eqn:Er.
  - destruct (Ht Er) as (s & rest & Es & Hs).
    destruct (load_alias_lines_ok rest (S (length r.2)) s _ [] Hs ltac:(rewrite Es, length_app; lia) (holds_reset _ l (last_file_size (w_aliases w)) Hl))
      as (a' & Ea & Ha & _).
    exists a'. split; [|by exists s, rest]. unfold als. st. cbn [with_files with_console w_aliases]. rewrite Es in Ea |- *. rewrite Ea. by st.
  - exists (w_aliases w). split; [|done]. by destruct w.
Qed.

(** ** The prompt *)

(** An empty row, and "[kernel /]$ ". *)
Definition prompt_cells : list Z :=
  replicate 80 BLANK ++
  map (λ x, vga_entry x.1 x.2) [(0x5B, 15); (0x6B, 7); (0x65, 7); (0x72, 7); (0x6E, 7); (0x65, 7); (0x6C, 7); (0x20, 15); (0x2F, 7); (0x5D, 15);
    (0x24, 7); (0x20, 15)].

(** A screen that was just cleared. *)
Record cleared (t : Terminal) : Prop := {
  cl_cells : VGA_MEMORY t = replicate CELLS BLANK;
  cl_row : terminal_row t = 0;
  cl_column : terminal_column t = 0;
  cl_color : terminal_color t = 15
}.

Lemma first_prompt_ok t : cleared t → exists t', ((printf [NL] [];; mret tt);; write_prompt root) t = Ok (tt, t') ∧ shows_line prompt_cells [] t'.
Proof.
  destruct t as [v row col color loc b e saved cs]. intros [Ev Er Ec Ek]. cbn in *. subst. eexists. split; [vm_compute; reflexivity|].
  constructor; [vm_compute; reflexivity|reflexivity|cbn; lia|]. exists 12. split_and!; vm_compute; reflexivity.
Qed.

(** ** init_shell *)

Lemma world_bind {A B} (m : ST (World F) A) (k : A → ST (Session F) B) l w a w' : m w = Ok (a, w') →
  (on_world m ≫= k) (Ses l w) = k a (Ses l w').
Proof. intros E. by apply bind_run, on_world_run. Qed.

Lemma session_file {A B} (m : ST F A) (k : A → ST (Session F) B) l f w a f' : m f = Ok (a, f') →
  (on_world (fil m) ≫= k) (Ses l (with_files f w)) = k a (Ses l (with_files f' w)).
Proof. intros E. apply world_bind. unfold fil, con, on_part, Console.on_files. cbn. by rewrite E. Qed.

Lemma on_screen_run {A} (m : TM A) (c : Console F) a t : m (co_screen c) = Ok (a, t) → on_screen m c = Ok (a, Cons t (co_files c)).
Proof. intros E. unfold on_screen. by rewrite E. Qed.

(** The prompt of the root directory. *)
Lemma prompt_root_ok (c : Console F) f t : f_dir_name (co_files c) = Ok (root, f) → write_prompt root (co_screen c) = Ok (tt, t) →
  print_prompt c = Ok (tt, Cons t f).
Proof.
  intros E Et. unfold print_prompt. rewrite (bind_run _ _ c root (Cons (co_screen c) f)) by (unfold Console.on_files; by rewrite E).
  by apply on_screen_run.
Qed.

Lemma cleared_line l : holds_line (set_input no_input 0 l) [].
Proof. split_and!; [by constructor|done|done|by exists (replicate 255 0)]. Qed.

(** The shell has been started: the process [p] is its own, in the kernel [k]; the
    files are [f], and what was there of the editor, the processors and the clock
    is as it was. *)
Record started w p (k : Kernel) (f : F) r (s : Session F) : Prop := {
  st_typing : typing prompt_cells [] (s_world s) s;
  st_pid : shell_pid (s_world s) = p;
  st_kernel : w_kernel (s_world s) = k;
  st_files : co_files (w_console (s_world s)) = f;
  st_aliases : aliases_loaded r (w_aliases w) (w_aliases (s_world s));
  st_pager : w_pager (s_world s) = init_pager;
  st_editor : w_editor (s_world s) = w_editor w;
  st_smp : w_smp (s_world s) = w_smp w;
  st_clock : w_frequency (s_world s) = w_frequency w ∧ w_cmos (s_world s) = w_cmos w
}.

Lemma init_shell_ok l w p k r f : cleared (co_screen (w_console w)) → alias_table (w_aliases w) →
  create_process (text "shell"%string) 0 (w_kernel w) = Ok (p, k) →
  shell_files (co_files (w_console w)) = Ok ((r, root), f) → terminated_text r →
  exists s, init_shell (Ses l w) = Ok (tt, s) ∧ started w p k f r s.
Proof.
  intros Hc Hal Ep Ef Hr. unfold init_shell, clear_line, set_line. st. cbn [s_line s_world].
  set (ln := set_input no_input 0 l).
  rewrite (world_bind _ _ _ _ _ _ (on_part_run w_kernel with_kernel _ w p k Ep)).
  set (w0 := with_kernel k w). rewrite (world_bind _ _ ln w0 tt (with_shell_pid p w0) eq_refl).
  rewrite (world_bind _ _ ln _ tt (with_pager init_pager (with_shell_pid p w0)) eq_refl).
  set (w1 := with_pager init_pager (with_shell_pid p w0)).
  set (t1 := set_saved (Saved (replicate (Z.to_nat SCREEN_SIZE) 0) 0 0 0) (co_screen (w_console w))).
  rewrite (world_bind _ _ ln w1 tt (with_terminal t1 w1) eq_refl). set (w2 := with_terminal t1 w1).
  rewrite <- (with_files_same w2). change (co_files (w_console w2)) with (co_files (w_console w)).
  apply bind_run_inv in Ef as (? & f1 & E1 & (? & f2 & E2 & (? & f3 & E3 & (found & f4 & E4 & (? & f5 & E5 & Ef)%bind_run_inv)%bind_run_inv)%bind_run_inv)%bind_run_inv).
  apply bind_run_inv in Ef as (? & f6 & E6 & (r' & f7 & E7 & (name & f8 & E8 & E9)%bind_run_inv)%bind_run_inv).
  injection E9 as -> -> ->. rewrite (session_file _ _ _ _ _ _ _ E1), (session_file _ _ _ _ _ _ _ E2), (session_file _ _ _ _ _ _ _ E3).
  rewrite (session_file _ _ _ _ _ _ _ E4), (world_bind _ _ _ _ _ _ (unless_files _ _ _ _ _ _ E5)), (session_file _ _ _ _ _ _ _ E6).
  destruct (load_aliases_ok w2 f6 r f7 E7 Hr Hal) as (a & Ea & Ha). rewrite (world_bind _ _ _ _ _ _ Ea).
  set (w3 := with_aliases a (with_files f7 w2)).
  assert (Ht1 : cleared t1) by (destruct Hc; by constructor).
  destruct (first_prompt_ok t1 Ht1) as (t & (u & t2 & E10 & E11)%bind_run_inv & Hsh). destruct u.
  rewrite (world_bind (say [NL] []) _ ln w3 tt (with_terminal t2 w3)); [|exact (on_part_run _ _ (on_screen _) w3 tt _ (on_screen_run _ _ _ _ E10))].
  exists (Ses ln (with_terminal t (with_files f w3))). split.
  - unfold prompt. apply on_world_run.
    exact (on_part_run w_console with_console _ (with_terminal t2 w3) tt (Cons t f) (prompt_root_ok (Cons t2 f7) f t E8 E11)).
  - constructor; try done. constructor; [by apply cleared_line|exact Hsh|reflexivity].
Qed.
End start.
