(* ===== verification/Elf.v ===== *)
(** * ELF images (src/kernel/src/core/elf.cpp)

    Sections and program headers of an image, and the loader that maps it and
    reports what it needs.  An image is its bytes; a pointer into it is an offset,
    and a read outside it is undefined.  The checks of the header are in
    Loader.v.  [store] is the processor's store to a virtual address. *)

From Stdlib Require Strings.String.
From Stdlib Require Import (notations) Strings.String.
From S2P Require Import Prelude Pmm Vmm CStr Disk Fat32 Pages Kernel Loader Terminal Printf Console World.

#[local] Open Scope Z_scope.

Definition SHT_DYNSYM : Z := 11.
Definition SHT_STRTAB : Z := 3.
Definition SHT_DYNAMIC : Z := 6.
Definition DT_NULL : Z := 0.
Definition DT_NEEDED : Z := 1.
Definition R_X86_64_JUMP_SLOT : Z := 7.

(** ** Structures (elf.hpp) *)

Definition SHDR_SIZE : Z := 64.
Definition SYM_SIZE : Z := 24.
Definition RELA_SIZE : Z := 24.
Definition DYN_SIZE : Z := 16.

Definition e_shoff (img : list Z) : outcome Z := get64 img 40.
Definition e_shstrndx (img : list Z) : outcome Z := get16 img 62.

(** The fields of a section header, symbol, relocation or entry of the dynamic
    section at an offset. *)
Definition sh_name (img : list Z) (o : Z) : outcome Z := get32 img o.
Definition sh_type (img : list Z) (o : Z) : outcome Z := get32 img (o + 4).
Definition sh_addr (img : list Z) (o : Z) : outcome Z := get64 img (o + 16).
Definition sh_offset (img : list Z) (o : Z) : outcome Z := get64 img (o + 24).
Definition sh_size (img : list Z) (o : Z) : outcome Z := get64 img (o + 32).
Definition st_name (img : list Z) (o : Z) : outcome Z := get32 img o.
Definition st_value (img : list Z) (o : Z) : outcome Z := get64 img (o + 8).
Definition r_offset (img : list Z) (o : Z) : outcome Z := get64 img o.
Definition r_info (img : list Z) (o : Z) : outcome Z := get64 img (o + 8).
Definition d_tag (img : list Z) (o : Z) : outcome Z := get64 img o.
Definition d_val (img : list Z) (o : Z) : outcome Z := get64 img (o + 8).

Definition ELF64_R_SYM (i : Z) : Z := Z.shiftr i 32.
Definition ELF64_R_TYPE (i : Z) : Z := Z.land i 0xFFFFFFFF.

(** The string at an offset. *)
Definition string_at (img : list Z) (o : Z) : outcome (list Z) := c_string (at_offset img o).

(** ** Sections *)

Fixpoint section_of_type (n : nat) (img : list Z) (o type : Z) : outcome (option Z) :=
  match n with
  | O => Ok None
  | S n' =>
      t ← sh_type img o;
      if t =? type then Ok (Some o) else section_of_type n' img (o + SHDR_SIZE) type
  end.

Definition find_section_by_type (img : list Z) (type : Z) : outcome (option Z) :=
  sections ← e_shoff img;
  n ← e_shnum img;
  section_of_type (Z.to_nat n) img sections type.

Fixpoint section_of_name (n : nat) (img : list Z) (o strtab : Z) (name : list Z) : outcome (option Z) :=
  match n with
  | O => Ok None
  | S n' =>
      i ← sh_name img o;
      c ← strcmp (at_offset img (strtab + i)) name;
      if c =? 0 then Ok (Some o) else section_of_name n' img (o + SHDR_SIZE) strtab name
  end.

(** The name is terminated. *)
Definition find_section_by_name (img : list Z) (name : list Z) : outcome (option Z) :=
  sections ← e_shoff img;
  shstrndx ← e_shstrndx img;
  strtab ← sh_offset img (sections + shstrndx * SHDR_SIZE);
  n ← e_shnum img;
  section_of_name (Z.to_nat n) img sections strtab name.

(** ** The loader *)

Record Loading := Load { l_screen : Terminal; l_vmm : VirtualMemoryManager }.

#[local] Abbreviation L := (ST Loading).

Definition l_print (format : list Z) (args : list arg) : L unit := λ s,
  '(_, t) ← printf format args (l_screen s); Ok (tt, Load t (l_vmm s)).
Definition on_frames {A} (m : ST VirtualMemoryManager A) : L A := λ s,
  '(a, vm) ← m (l_vmm s); Ok (a, Load (l_screen s) vm).

Section loader.
Variable store : Z → list Z → ST VirtualMemoryManager unit.

(** The header at offset [o]. *)
Definition map_segment (img : list Z) (o : Z) : L bool :=
  type ← lift (get32 img o);
  if negb (type =? PT_LOAD) then mret true else
  ph ← lift (get_phdr img o);
  let vaddr_start := page_down (p_vaddr ph) in
  let vaddr_end := page_down (u64 (p_vaddr ph + p_memsz ph + 0xFFF)) in
  ok ← on_frames (map_range (S (Z.to_nat ((vaddr_end - vaddr_start) / 4096))) vaddr_start vaddr_end
                    (negb (Z.land (p_flags ph) PF_W =? 0)));
  if negb ok then mret false else
  if Z.of_nat (length img) <? p_offset ph + p_filesz ph then lift UB else
  on_frames (store (p_vaddr ph) (take (Z.to_nat (p_filesz ph)) (drop (Z.to_nat (p_offset ph)) img)));;
  (if p_filesz ph <? p_memsz ph
   then on_frames (store (u64 (p_vaddr ph + p_filesz ph)) (replicate (Z.to_nat (p_memsz ph - p_filesz ph)) 0))
   else mret tt);;
  mret true.

Fixpoint map_segments (n : nat) (img : list Z) (o : Z) : L bool :=
  match n with
  | O => mret true
  | S n' =>
      ok ← map_segment img o;
      if negb ok then mret false else map_segments n' img (o + PHDR_SIZE)
  end.

Definition load_program_headers (img : list Z) : L bool :=
  phoff ← lift (e_phoff img);
  phnum ← lift (e_phnum img);
  map_segments (Z.to_nat phnum) img phoff.
End loader.

(** The relocations for calls are reported, none is made. *)
Fixpoint report_relocations (n : nat) (img : list Z) (o symbols strings : Z) : L unit :=
  match n with
  | O => mret tt
  | S n' =>
      info ← lift (r_info img o);
      (if ELF64_R_TYPE info =? R_X86_64_JUMP_SLOT then
         name ← lift (st_name img (symbols + ELF64_R_SYM info * SYM_SIZE));
         symbol_name ← lift (string_at img (strings + name));
         l_print (text "Unresolved symbol: %s
"%string) [AStr (Some symbol_name)]
       else mret tt);;
      report_relocations n' img (o + RELA_SIZE) symbols strings
  end.

Definition process_relocations (img : list Z) : L bool :=
  rela_plt ← lift (find_section_by_name img (text ".rela.plt"%string ++ [0]));
  match rela_plt with
  | None => mret true
  | Some rela_plt =>
      dynsym ← lift (find_section_by_type img SHT_DYNSYM);
      match dynsym with
      | None => mret false
      | Some dynsym =>
          dynstr ← lift (find_section_by_type img SHT_STRTAB);
          match dynstr with
          | None => mret false
          | Some dynstr =>
              symbols ← lift (sh_offset img dynsym);
              strings ← lift (sh_offset img dynstr);
              relocations ← lift (sh_offset img rela_plt);
              size ← lift (sh_size img rela_plt);
              report_relocations (Z.to_nat (size / RELA_SIZE)) img relocations symbols strings;;
              mret true
          end
      end
  end.

(** The entries up to the one tagged [DT_NULL]: each is inside the image. *)
Fixpoint report_needed (fuel : nat) (img : list Z) (o strtab : Z) : L unit :=
  match fuel with
  | O => no_fuel
  | S fuel' =>
      tag ← lift (d_tag img o);
      if tag =? DT_NULL then mret tt else
      (if tag =? DT_NEEDED then
         v ← lift (d_val img o);
         lib_name ← lift (string_at img (strtab + v));
         l_print (text "Required shared library: %s
"%string) [AStr (Some lib_name)]
       else mret tt);;
      report_needed fuel' img (o + DYN_SIZE) strtab
  end.

Definition process_dynamic_section (img : list Z) : L bool :=
  dyn_section ← lift (find_section_by_type img SHT_DYNAMIC);
  match dyn_section with
  | None => mret true
  | Some dyn_section =>
      dyn_entries ← lift (sh_offset img dyn_section);
      strtab_section ← lift (find_section_by_type img SHT_STRTAB);
      match strtab_section with
      | None => mret false
      | Some strtab_section =>
          strtab ← lift (sh_offset img strtab_section);
          report_needed (S (length img)) img dyn_entries strtab;;
          mret true
      end
  end.

(** The image is what [path] points to; the entry point is set last. *)
Definition load_elf (store : Z → list Z → ST VirtualMemoryManager unit) (path : list Z) : L (option Z) :=
  ok ← lift (validate_elf_header path);
  if negb ok then mret None else
  ok ← load_program_headers store path;
  if negb ok then mret None else
  ok ← process_dynamic_section path;
  if negb ok then mret None else
  ok ← process_relocations path;
  if negb ok then mret None else
  entry_point ← lift (e_entry path);
  mret (Some entry_point).

(** ** The section table *)

(** The offset of section [i] of a table. *)
Definition section (sections : Z) (i : nat) : Z := sections + Z.of_nat i * SHDR_SIZE.

(** [first f n r]: [r] is the first of the numbers below [n] that [f] holds for. *)
Definition first (f : nat → Prop) (n : nat) (r : option nat) : Prop :=
  match r with
  | Some i => (i < n)%nat ∧ f i ∧ ∀ j, (j < i)%nat → ¬ f j
  | None => ∀ j, (j < n)%nat → ¬ f j
  end.

Lemma first_here (f : nat → Prop) n : f 0%nat → first f (S n) (Some 0%nat).
Proof. intros H. split; [lia|]. split; [done|lia]. Qed.

Lemma first_next (f : nat → Prop) n r : ¬ f 0%nat → first (λ i, f (S i)) n r → first f (S n) (S <$> r).
Proof.
  intros H0 Hr. destruct r as [i|]; cbn in *.
  - destruct Hr as (Hi & Hf & Hj). split; [lia|]. split; [done|]. intros [|j] Hlt; [done|apply Hj; lia].
  - intros [|j] Hlt; [done|apply Hr; lia].
Qed.

Lemma section_S sections i : section (sections + SHDR_SIZE) i = section sections (S i).
Proof. unfold section. lia. Qed.

(** A section table inside the image. *)
Definition table_inside (img : list Z) (sections : Z) (n : nat) : Prop :=
  0 ≤ sections ∧ section sections n ≤ Z.of_nat (length img).

Lemma get32_inside img o : 0 ≤ o → o + 4 ≤ Z.of_nat (length img) → exists v, get32 img o = Ok v.
Proof.
  intros Ho Hl. unfold get32. destruct (aget_is_ok img o) as [a Ea]; [lia|]. destruct (aget_is_ok img (o + 1)) as [b Eb]; [lia|].
  destruct (aget_is_ok img (o + 2)) as [c Ec]; [lia|]. destruct (aget_is_ok img (o + 3)) as [d Ed]; [lia|].
  rewrite Ea, Eb, Ec, Ed. by eexists.
Qed.

Lemma section_of_type_ok n : ∀ img o type, table_inside img o n →
  exists r, section_of_type n img o type = Ok (section o <$> r) ∧ first (λ i, sh_type img (section o i) = Ok type) n r.
Proof.
  induction n as [|n IH]; intros img o type [Ho Hn]; cbn [section_of_type].
  { exists None. split; [done|]. intros j Hj. lia. }
  unfold section, SHDR_SIZE in Hn. unfold sh_type at 1. destruct (get32_inside img (o + 4)) as [t Et]; [lia..|]. rewrite Et, bind_Ok.
  assert (E0 : section o 0 = o) by (unfold section; lia). destruct (Z.eqb_spec t type) as [->|Hne].
  - exists (Some 0%nat). split; [by rewrite <- E0 at 1|]. apply first_here. by rewrite E0.
  - destruct (IH img (o + SHDR_SIZE) type) as (r & Er & Hr); [split; unfold section, SHDR_SIZE in *; lia|].
    exists (S <$> r). split; [rewrite Er; f_equal; destruct r as [i|]; cbn; [by rewrite section_S|done]|].
    apply first_next; [rewrite E0; unfold sh_type; rewrite Et; congruence|].
    destruct r as [i|]; cbn in *.
    + rewrite section_S in Hr. destruct Hr as (Hi & Hf & Hj). split; [done|]. split; [done|]. intros j Hlt.
      rewrite <- section_S. by apply Hj.
    + intros j Hlt. rewrite <- section_S. by apply Hr.
Qed.

(** ** Mapping a segment *)

Lemma map_range_loop n : ∀ fuel i base stop w vm, run_ok base i n → (n < fuel)%nat → stop = page base (i + Z.of_nat n) → stop < 2 ^ 64 →
  map_range fuel (page base i) stop w vm =
    match map_loop n i base w vm with
    | Ok (r, vm') => Ok (match r with None => true | Some _ => false end, vm')
    | UB => UB
    | OutOfFuel => OutOfFuel
    end.
Proof.
  induction n as [|n IH]; intros fuel i base stop w vm Hr Hf Es Hs; (destruct fuel as [|fuel]; [lia|]); cbn [map_range map_loop].
  - rewrite Es. replace (i + Z.of_nat 0) with i by lia. by rewrite Z.leb_refl.
  - unfold page in Es. rewrite (proj2 (Z.leb_gt _ _)) by (unfold page; lia).
    pose proof Hr as (Hb & _ & Hi & _ & _). assert (Ea : u64 (base + i * 4096) = page base i) by (apply u64_small; unfold page; lia).
    rewrite Ea. unfold mbind at 1, st_bind at 1. unfold mbind at 2, st_bind at 2.
    destruct (vm_allocate_frame vm) as [[phys vm1]| |]; [|done..]. destruct (phys =? 0); [done|].
    unfold mbind at 1, st_bind at 1. unfold mbind at 1, st_bind at 1.
    destruct (vm_map_page (page base i) phys w vm1) as [[[] vm2]| |]; [|done..].
    replace (u64 (page base i + 4096)) with (page base (i + 1)) by (rewrite u64_small; unfold page; lia).
    apply IH; [by apply run_ok_next|lia|unfold page; lia|done].
Qed.

(** The pages of a segment. *)
Definition segment_start (ph : Elf64_Phdr) : Z := page_down (p_vaddr ph).
Definition segment_pages (ph : Elf64_Phdr) : nat :=
  Z.to_nat ((page_down (u64 (p_vaddr ph + p_memsz ph + 0xFFF)) - segment_start ph) / 4096).

Lemma page_down_eq a : is_u64 a → page_down a = a / 4096 * 4096.
Proof. intros Ha. unfold page_down. change (u64 (Z.lnot 0xFFF)) with PAGE_MASK. by apply land_page_mask. Qed.

Record segment_fits (ph : Elf64_Phdr) : Prop := {
  sf_addr : 0 ≤ p_vaddr ph;
  sf_size : 0 ≤ p_memsz ph;
  sf_end : p_vaddr ph + p_memsz ph + 0xFFF < 2 ^ 48
}.

(** The pages begin at the first byte's and go on through the last one's. *)
Lemma segment_bounds ph : segment_fits ph →
  run_ok (segment_start ph) 0 (segment_pages ph) ∧ segment_start ph ≤ p_vaddr ph ∧
  page_down (u64 (p_vaddr ph + p_memsz ph + 0xFFF)) = page (segment_start ph) (Z.of_nat (segment_pages ph)) ∧
  p_vaddr ph + p_memsz ph ≤ page (segment_start ph) (Z.of_nat (segment_pages ph)) < 2 ^ 48.
Proof.
  intros [Ha Hs He]. unfold segment_pages, segment_start. rewrite u64_small by lia.
  rewrite !page_down_eq by (unfold is_u64; lia). unfold run_ok, page.
  pose proof (Z.mul_div_le (p_vaddr ph) 4096 ltac:(lia)). pose proof (Z.mul_div_le (p_vaddr ph + p_memsz ph + 4095) 4096 ltac:(lia)).
  pose proof (Z.mul_succ_div_gt (p_vaddr ph) 4096 ltac:(lia)). pose proof (Z.mul_succ_div_gt (p_vaddr ph + p_memsz ph + 4095) 4096 ltac:(lia)).
  set (a := p_vaddr ph / 4096) in *. set (b := (p_vaddr ph + p_memsz ph + 4095) / 4096) in *. assert (0 ≤ a) by (apply Z.div_pos; lia). assert (a ≤ b) by (apply Z.div_le_mono; lia).
  replace ((b * 4096 - a * 4096) / 4096) with (b - a) by (rewrite <- Z.mul_sub_distr_r, Z.div_mul; lia).
  rewrite Z2Nat.id by lia. rewrite Z.mod_mul by lia. split_and!; lia.
Qed.

Lemma map_segment_ok store img o ph t vm tab : get32 img o = Ok PT_LOAD → get_phdr img o = Ok ph → segment_fits ph →
  vmm_inv vm tab → 4 * Z.of_nat (segment_pages ph) ≤ m_free_frames (v_pmm vm) →
  (∀ j, 0 ≤ j < Z.of_nat (segment_pages ph) → mappable vm tab (page (segment_start ph) j)) →
  p_offset ph + p_filesz ph ≤ Z.of_nat (length img) →
  exists fs vm' tab', length fs = segment_pages ph ∧ mapped vm tab vm' tab' (segment_start ph) 0 fs ∧
    map_segment store img o (Load t vm) =
      (on_frames (store (p_vaddr ph) (take (Z.to_nat (p_filesz ph)) (drop (Z.to_nat (p_offset ph)) img)));;
       (if p_filesz ph <? p_memsz ph
        then on_frames (store (u64 (p_vaddr ph + p_filesz ph)) (replicate (Z.to_nat (p_memsz ph - p_filesz ph)) 0))
        else mret tt);;
       mret true) (Load t vm').
Proof.
  intros Et Eh Hfit Hi Hf Hmap Hlen. destruct (segment_bounds ph Hfit) as (Hrun & _ & Est & _ & Hlt).
  destruct (map_loop_ok (segment_pages ph) 0 (segment_start ph) (negb (Z.land (p_flags ph) PF_W =? 0)) vm tab Hi Hrun Hf)
    as (fs & vm' & tab' & E & Hl & M); [intros j Hj; apply Hmap; lia|].
  exists fs, vm', tab'. split; [done|]. split; [done|]. unfold map_segment. rewrite Et, Eh. st. rewrite Z.eqb_refl. cbn [negb]. st.
  assert (Em : on_frames (map_range (S (Z.to_nat ((page_down (u64 (p_vaddr ph + p_memsz ph + 0xFFF)) - page_down (p_vaddr ph)) / 4096)))
      (page_down (p_vaddr ph)) (page_down (u64 (p_vaddr ph + p_memsz ph + 0xFFF))) (negb (Z.land (p_flags ph) PF_W =? 0))) (Load t vm) =
    Ok (true, Load t vm')).
  { fold (segment_start ph). fold (segment_pages ph). unfold on_frames. cbn [l_vmm l_screen].
    replace (segment_start ph) with (page (segment_start ph) 0) at 1 by (unfold page; lia).
    rewrite (map_range_loop (segment_pages ph)); [|done|lia|by rewrite Est|rewrite Est; lia].
    by rewrite E. }
  rewrite (bind_run _ _ _ _ _ Em). cbn [negb]. by rewrite (proj2 (Z.ltb_ge _ _)) by lia.
Qed.

(** ** Claims *)

(** A section is found by its type: over a table inside the image, the search
    returns the first section header of the type, or null when there is none. *)
Theorem find_section_by_type_spec img sections n type : e_shoff img = Ok sections → e_shnum img = Ok n →
  table_inside img sections (Z.to_nat n) →
  exists r, find_section_by_type img type = Ok (section sections <$> r) ∧
    first (λ i, sh_type img (section sections i) = Ok type) (Z.to_nat n) r.
Proof. intros Eo En Hin. unfold find_section_by_type. rewrite Eo, bind_Ok, En, bind_Ok. by apply section_of_type_ok. Qed.

(** A segment is mapped whole: when there are frames for its pages and none of
    them is mapped yet, every byte of the segment is on a page of its own fresh
    frame, and what is left to do is to store the bytes of the file at its address
    and zeros behind them. *)
Theorem map_segment_spec store img o ph t vm tab : get32 img o = Ok PT_LOAD → get_phdr img o = Ok ph → segment_fits ph →
  vmm_inv vm tab → 4 * Z.of_nat (segment_pages ph) ≤ m_free_frames (v_pmm vm) →
  (∀ j, 0 ≤ j < Z.of_nat (segment_pages ph) → mappable vm tab (page (segment_start ph) j)) →
  p_offset ph + p_filesz ph ≤ Z.of_nat (length img) →
  exists fs vm' tab', mapped vm tab vm' tab' (segment_start ph) 0 fs ∧
    (∀ a, p_vaddr ph ≤ a < p_vaddr ph + p_memsz ph → exists (j : nat) f, fs !! j = Some f ∧
       page (segment_start ph) (Z.of_nat j) ≤ a < page (segment_start ph) (Z.of_nat j + 1) ∧
       translate vm' tab' (page (segment_start ph) (Z.of_nat j)) = f) ∧
    map_segment store img o (Load t vm) =
      (on_frames (store (p_vaddr ph) (take (Z.to_nat (p_filesz ph)) (drop (Z.to_nat (p_offset ph)) img)));;
       (if p_filesz ph <? p_memsz ph
        then on_frames (store (u64 (p_vaddr ph + p_filesz ph)) (replicate (Z.to_nat (p_memsz ph - p_filesz ph)) 0))
        else mret tt);;
       mret true) (Load t vm').
Proof.
  intros Et Eh Hfit Hi Hf Hmap Hlen.
  destruct (map_segment_ok store img o ph t vm tab Et Eh Hfit Hi Hf Hmap Hlen) as (fs & vm' & tab' & Hfs & M & E).
  exists fs, vm', tab'. split; [done|]. split; [|exact E]. intros a Ha.
  destruct (segment_bounds ph Hfit) as (_ & Hlo & _ & Hhi & _). unfold page in *. set (s := segment_start ph) in *.
  set (q := (a - s) / 4096). assert (0 ≤ q) by (apply Z.div_pos; lia).
  pose proof (Z.mul_div_le (a - s) 4096 ltac:(lia)). pose proof (Z.mul_succ_div_gt (a - s) 4096 ltac:(lia)). fold q in H0, H1.
  destruct (lookup_lt_is_Some_2 fs (Z.to_nat q)) as [f Ef]; [lia|].
  exists (Z.to_nat q), f. split; [done|]. rewrite Z2Nat.id by lia. split; [lia|].
  pose proof (mp_translate _ _ _ _ _ _ _ M _ _ Ef) as Ht. rewrite Z2Nat.id in Ht by lia. exact Ht.
Qed.

(** ** Witnesses *)

Fixpoint le_bytes (n : nat) (v : Z) : list Z :=
  match n with O => [] | S n => v `mod` 256 :: le_bytes n (v / 256) end.

(** An image of the beginning of a header that has a section table of two, of the
    types given, at its end. *)
Definition two_sections (a b : Z) : list Z :=
  ELFMAG ++ [2; 1] ++ replicate 10 0 ++ le_bytes 2 2 ++ replicate 22 0 ++ le_bytes 8 64 ++ replicate 12 0 ++ le_bytes 2 2 ++ le_bytes 2 0 ++
  replicate 4 0 ++ le_bytes 4 a ++ replicate 56 0 ++ replicate 4 0 ++ le_bytes 4 b ++ replicate 56 0.

Lemma find_section_by_type_spec_witness :
  exists r, find_section_by_type (two_sections 1 SHT_STRTAB) SHT_STRTAB = Ok (section 64 <$> r) ∧
    first (λ i, sh_type (two_sections 1 SHT_STRTAB) (section 64 i) = Ok SHT_STRTAB) 2 r.
Proof.
  apply (find_section_by_type_spec (two_sections 1 SHT_STRTAB) 64 2 SHT_STRTAB); [vm_compute; reflexivity..|].
  split; [lia|]. by vm_compute.
Defined.

(** A writable segment of 32 bytes, 4 of them in the file, over the end of a page. *)
Definition segment_image : list Z :=
  le_bytes 4 1 ++ le_bytes 4 6 ++ le_bytes 8 56 ++ le_bytes 8 0x3100FF0 ++ le_bytes 8 0 ++ le_bytes 8 4 ++ le_bytes 8 32 ++ le_bytes 8 4096 ++
  [1; 2; 3; 4].
Definition demo_phdr : Elf64_Phdr := Phdr 6 56 0x3100FF0 4 32.

Lemma map_segment_spec_witness :
  exists tab fs vm' tab', mapped (vmm_booted 64) tab vm' tab' 0x3100000 0 fs ∧
    (exists (j : nat) f, fs !! j = Some f ∧ page 0x3100000 (Z.of_nat j) ≤ 0x310100F < page 0x3100000 (Z.of_nat j + 1) ∧
       translate vm' tab' (page 0x3100000 (Z.of_nat j)) = f) ∧
    map_segment (λ _ _, mret tt) segment_image 0 (Load boot_terminal (vmm_booted 64)) = Ok (true, Load boot_terminal vm').
Proof.
  destruct (vmm_booted_tables 64) as (tab & B & F); [lia|].
  destruct (map_segment_spec (λ _ _, mret tt) segment_image 0 demo_phdr boot_terminal (vmm_booted 64) tab) as (fs & vm' & tab' & M & Hb & E).
  - vm_compute. reflexivity.
  - vm_compute. reflexivity.
  - constructor; cbn; lia.
  - apply B.
  - change (segment_pages demo_phdr) with 2%nat. lia.
  - intros j Hj. change (segment_pages demo_phdr) with 2%nat in Hj. apply (boot_mappable _ _ _ B).
    assert (j = 0 ∨ j = 1) as [->| ->] by lia; intros (_ & _ & Hpd); vm_compute in Hpd; discriminate Hpd.
  - vm_compute. done.
  - exists tab, fs, vm', tab'. split; [exact M|]. split; [|exact E]. exact (Hb 0x310100F ltac:(cbn; lia)).
Defined.
