(* ===== verification/DynLink.v ===== *)
(** * The dynamic linker (src/kernel/src/core/dynamic_linker.cpp)

    The list of libraries, the lookup of symbols in their images, the dynamic
    section and the relocations.  A pointer to the header of a loaded image is the
    image with its address. *)

From Stdlib Require Strings.String.
From Stdlib Require Import (notations) Strings.String.
From S2P Require Import Prelude Pmm Vmm CStr Disk Fat32 Pages Kernel Loader Terminal Printf Console World Elf.

#[local] Open Scope Z_scope.

Definition MAX_LOADED_LIBRARIES : Z := 16.

Definition Image : Type := list Z * Z.

Record LoadedLibrary := Lib { name : option (list Z); header : option Image; base : Z; got_base : Z }.
Definition no_library : LoadedLibrary := Lib None None 0 0.

Record Linker := Link {
  loaded_libraries : list LoadedLibrary;
  num_loaded_libraries : Z;
  main_executable : LoadedLibrary;
  k_screen : Terminal;
  k_vmm : VirtualMemoryManager
}.

#[local] Abbreviation D := (ST Linker).

Definition set_libraries (l : list LoadedLibrary) (n : Z) (s : Linker) : Linker :=
  Link l n (main_executable s) (k_screen s) (k_vmm s).
Definition set_main (m : LoadedLibrary) (s : Linker) : Linker :=
  Link (loaded_libraries s) (num_loaded_libraries s) m (k_screen s) (k_vmm s).
Definition set_screen (t : Terminal) (s : Linker) : Linker :=
  Link (loaded_libraries s) (num_loaded_libraries s) (main_executable s) t (k_vmm s).
Definition set_memory (vm : VirtualMemoryManager) (s : Linker) : Linker :=
  Link (loaded_libraries s) (num_loaded_libraries s) (main_executable s) (k_screen s) vm.

Definition print_line (format : list Z) : D unit := λ s,
  '(_, t) ← printf format [] (k_screen s); Ok (tt, set_screen t s).
Definition error (message : String.string) : D bool := print_line (text message);; mret false.
Definition on_memory {A} (m : ST VirtualMemoryManager A) : D A := λ s,
  '(a, vm) ← m (k_vmm s); Ok (a, set_memory vm s).

(** The file has its own copies of the two searches of elf.cpp. *)
Definition find_section_by_type (ehdr : list Z) (type : Z) : outcome (option Z) := Elf.find_section_by_type ehdr type.
Definition find_section_by_name (ehdr : list Z) (name : list Z) : outcome (option Z) := Elf.find_section_by_name ehdr name.

Definition locate_got (ehdr : list Z) : D (option Z) :=
  got_plt ← lift (find_section_by_name ehdr (text ".got.plt"%string ++ [0]));
  match got_plt with
  | None => error "ERROR: Could not find .got.plt section
"%string;; mret None
  | Some o => a ← lift (sh_addr ehdr o); mret (Some a)
  end.

(** The loop over the symbols; a name of 0 is none. *)
Fixpoint symbol_named (n : nat) (img : list Z) (o strings : Z) (name : list Z) : outcome (option Z) :=
  match n with
  | O => Ok None
  | S n' =>
      i ← st_name img o;
      if i =? 0 then symbol_named n' img (o + SYM_SIZE) strings name else
      c ← strcmp (at_offset img (strings + i)) name;
      if c =? 0 then v ← st_value img o; Ok (Some v) else symbol_named n' img (o + SYM_SIZE) strings name
  end.

(** The address of a symbol, 0 when the image has none of the name. *)
Definition lookup_symbol (name : list Z) (lib : Image) : outcome Z :=
  let '(img, address) := lib in
  symtab ← find_section_by_type img SHT_DYNSYM;
  match symtab with
  | None => Ok 0
  | Some symtab =>
      strtab ← find_section_by_type img SHT_STRTAB;
      match strtab with
      | None => Ok 0
      | Some strtab =>
          symbols ← sh_offset img symtab;
          strings ← sh_offset img strtab;
          size ← sh_size img symtab;
          v ← symbol_named (Z.to_nat (size / SYM_SIZE)) img symbols strings name;
          Ok (match v with Some v => u64 (address + v) | None => 0 end)
      end
  end.

Definition lookup_in (name : list Z) (lib : LoadedLibrary) : outcome Z :=
  match header lib with Some h => lookup_symbol name h | None => Ok 0 end.

Fixpoint lookup_libraries (name : list Z) (l : list LoadedLibrary) : outcome Z :=
  match l with
  | [] => Ok 0
  | lib :: l => addr ← lookup_in name lib; if addr =? 0 then lookup_libraries name l else Ok addr
  end.

Definition resolve_symbol (symbol_name : list Z) : D Z :=
  main ← gets main_executable;
  addr ← lift (lookup_in symbol_name main);
  if negb (addr =? 0) then mret addr else
  n ← gets num_loaded_libraries;
  l ← gets loaded_libraries;
  lift (if Z.of_nat (length l) <? n then UB else lookup_libraries symbol_name (take (Z.to_nat n) l)).

Definition initialize : D bool :=
  modify (λ s, set_libraries (loaded_libraries s) 0 s);;
  modify (set_main no_library);;
  mret true.

Section linker.
(** Whether the heap has room for a number of bytes; a store to memory. *)
Variable served : Z → bool.
Variable store : Z → list Z → ST VirtualMemoryManager unit.

(** Only the name is kept. *)
Definition load_shared_library (path : list Z) : D bool :=
  n ← gets num_loaded_libraries;
  if MAX_LOADED_LIBRARIES <=? n then error "ERROR: Too many loaded libraries
"%string else
  l ← gets loaded_libraries;
  lib ← lift (aget l n);
  if negb (served (Z.of_nat (length path) + 1)) then
    l ← lift (aset l n (Lib None (header lib) (base lib) (got_base lib)));
    modify (set_libraries l n);;
    error "ERROR: Failed to allocate memory for library name
"%string
  else
    l ← lift (aset l n (Lib (Some path) (header lib) (base lib) (got_base lib)));
    modify (set_libraries l (n + 1));;
    mret true.

(** The name of a library is printed as a format. *)
Fixpoint load_needed (fuel : nat) (img : list Z) (o strtab : Z) : D bool :=
  match fuel with
  | O => no_fuel
  | S fuel' =>
      tag ← lift (d_tag img o);
      if tag =? DT_NULL then mret true else
      if tag =? DT_NEEDED then
        v ← lift (d_val img o);
        lib_name ← lift (string_at img (strtab + v));
        print_line (text "Loading shared library: "%string);;
        print_line lib_name;;
        print_line [0x0A];;
        ok ← load_shared_library lib_name;
        if negb ok then error "ERROR: Failed to load shared library
"%string
        else load_needed fuel' img (o + DYN_SIZE) strtab
      else load_needed fuel' img (o + DYN_SIZE) strtab
  end.

Definition process_dynamic_section (ehdr : list Z) : D bool :=
  dyn_section ← lift (find_section_by_type ehdr SHT_DYNAMIC);
  match dyn_section with
  | None => error "ERROR: Could not find dynamic section
"%string
  | Some dyn_section =>
      dyn_entries ← lift (sh_offset ehdr dyn_section);
      strtab_section ← lift (find_section_by_type ehdr SHT_STRTAB);
      match strtab_section with
      | None => error "ERROR: Could not find string table section
"%string
      | Some strtab_section =>
          strtab ← lift (sh_offset ehdr strtab_section);
          load_needed (S (length ehdr)) ehdr dyn_entries strtab
      end
  end.

Fixpoint relocate (n : nat) (img : list Z) (o symbols strings : Z) : D bool :=
  match n with
  | O => mret true
  | S n' =>
      info ← lift (r_info img o);
      if negb (ELF64_R_TYPE info =? R_X86_64_JUMP_SLOT) then relocate n' img (o + RELA_SIZE) symbols strings else
      i ← lift (st_name img (symbols + ELF64_R_SYM info * SYM_SIZE));
      symbol_name ← lift (string_at img (strings + i));
      symbol_addr ← resolve_symbol (symbol_name ++ [0]);
      if negb (symbol_addr =? 0) then
        slot ← lift (r_offset img o);
        on_memory (store slot (bytes64 symbol_addr));;
        relocate n' img (o + RELA_SIZE) symbols strings
      else
        print_line (text "ERROR: Could not resolve symbol: "%string);;
        print_line symbol_name;;
        print_line [0x0A];;
        mret false
  end.

Definition process_relocations (ehdr : list Z) : D bool :=
  rela_plt ← lift (find_section_by_name ehdr (text ".rela.plt"%string ++ [0]));
  match rela_plt with
  | None => error "ERROR: Could not find relocation table
"%string
  | Some rela_plt =>
      dynsym ← lift (find_section_by_type ehdr SHT_DYNSYM);
      match dynsym with
      | None => error "ERROR: Could not find dynamic symbol table
"%string
      | Some dynsym =>
          dynstr ← lift (find_section_by_type ehdr SHT_STRTAB);
          match dynstr with
          | None => error "ERROR: Could not find dynamic string table
"%string
          | Some dynstr =>
              symbols ← lift (sh_offset ehdr dynsym);
              strings ← lift (sh_offset ehdr dynstr);
              relocations ← lift (sh_offset ehdr rela_plt);
              got_base ← locate_got ehdr;
              match got_base with
              | None => mret false
              | Some _ =>
                  size ← lift (sh_size ehdr rela_plt);
                  relocate (Z.to_nat (size / RELA_SIZE)) ehdr relocations symbols strings
              end
          end
      end
  end.
End linker.

(** ** Symbols *)

(** The symbol at an offset has a name: the string of a string table. *)
Definition symbol_is (img : list Z) (strings o : Z) (name : list Z) : Prop :=
  exists i r, st_name img o = Ok i ∧ i ≠ 0 ∧ at_offset img (strings + i) = name ++ 0 :: r.

Definition symbol_at (symbols : Z) (i : nat) : Z := symbols + Z.of_nat i * SYM_SIZE.

(** Every symbol of a table is in the image, and its name, if it has one, ends there. *)
Definition symbols_inside (img : list Z) (symbols strings : Z) (n : nat) : Prop :=
  forall i, (i < n)%nat → 0 ≤ symbol_at symbols i ∧ symbol_at symbols i + SYM_SIZE ≤ Z.of_nat (length img) ∧
    (st_name img (symbol_at symbols i) = Ok 0 ∨ exists name, chars name ∧ symbol_is img strings (symbol_at symbols i) name).

Lemma get64_inside img o : 0 ≤ o → o + 8 ≤ Z.of_nat (length img) → exists v, get64 img o = Ok v.
Proof.
  intros Ho Hl. unfold get64. destruct (get32_inside img o) as [a ->]; [lia..|].
  destruct (get32_inside img (o + 4)) as [b ->]; [lia..|]. by eexists.
Qed.

Lemma symbol_at_S symbols i : symbol_at (symbols + SYM_SIZE) i = symbol_at symbols (S i).
Proof. unfold symbol_at. lia. Qed.

Lemma first_shift (f : nat → Prop) (g : nat → Prop) n r : (∀ i, f i ↔ g i) → first f n r → first g n r.
Proof.
  intros H. destruct r as [i|]; cbn.
  - intros (Hi & Hf & Hj). split; [done|]. split; [by apply H|]. intros j Hlt Hg. by apply (Hj j), H.
  - intros Hj j Hlt Hg. by apply (Hj j), H.
Qed.

Lemma symbol_named_ok n : ∀ img symbols strings name, chars name → symbols_inside img symbols strings n →
  exists r, symbol_named n img symbols strings (name ++ [0]) =
      match r with Some i => v ← st_value img (symbol_at symbols i); Ok (Some v) | None => Ok None end ∧
    first (λ i, symbol_is img strings (symbol_at symbols i) name) n r.
Proof.
  induction n as [|n IH]; intros img symbols strings name Hn Hs; cbn [symbol_named].
  { exists None. split; [done|]. intros j Hj. lia. }
  assert (E0 : symbol_at symbols 0 = symbols) by (unfold symbol_at; lia).
  destruct (Hs 0%nat) as (Hlo & Hhi & Hname); [lia|]. rewrite E0 in *.
  destruct (IH img (symbols + SYM_SIZE) strings name Hn) as (r & Er & Hr).
  { intros i Hi. rewrite symbol_at_S. apply Hs. lia. }
  assert (Hr' : first (λ i, symbol_is img strings (symbol_at symbols (S i)) name) n r)
    by (refine (first_shift _ _ _ _ _ Hr); intros i; cbn beta; by rewrite symbol_at_S).
  assert (Hnext : ¬ symbol_is img strings symbols name →
    symbol_named n img (symbols + SYM_SIZE) strings (name ++ [0]) =
      match S <$> r with Some i => v ← st_value img (symbol_at symbols i); Ok (Some v) | None => Ok None end ∧
    first (λ i, symbol_is img strings (symbol_at symbols i) name) (S n) (S <$> r)).
  { intros Hno. split; [rewrite Er; destruct r as [i|]; [|done]; by rewrite symbol_at_S|].
    apply first_next; [by rewrite E0|done]. }
  destruct Hname as [E|(nm & Hnm & i & rest & Ei & Hi & Es)].
  - rewrite E, bind_Ok. cbn [Z.eqb]. exists (S <$> r). apply Hnext. intros (i & rest & Ei & Hi & _). congruence.
  - rewrite Ei, bind_Ok, (proj2 (Z.eqb_neq i 0)) by done. rewrite Es.
    destruct (strcmp_app nm rest name [] Hnm Hn) as (z & Ez & Hz). rewrite Ez, bind_Ok. destruct (Z.eqb_spec z 0) as [E|E].
    + exists (Some 0%nat). rewrite E0. split; [done|]. apply first_here. rewrite E0. exists i, rest.
      rewrite <- (proj1 Hz E). done.
    + exists (S <$> r). apply Hnext. intros (i' & rest' & Ei' & _ & Es'). assert (i' = i) as -> by congruence.
      rewrite Es in Es'. apply E, Hz. apply (cstr_inj (nm ++ 0 :: rest)); [by apply cstr_intro|rewrite Es'; by apply cstr_intro].
Qed.

(** The tables of an image that [lookup_symbol] goes by. *)
Record symbol_tables (img : list Z) (symbols strings : Z) (n : nat) : Prop := {
  st_found : exists a b size, find_section_by_type img SHT_DYNSYM = Ok (Some a) ∧ find_section_by_type img SHT_STRTAB = Ok (Some b) ∧
    sh_offset img a = Ok symbols ∧ sh_offset img b = Ok strings ∧ sh_size img a = Ok size ∧ n = Z.to_nat (size / SYM_SIZE);
  st_inside : symbols_inside img symbols strings n
}.

(** A symbol is found by its name: over tables inside the image, the lookup
    returns the value of the first symbol of the name, from the image's address
    on, and 0 when there is none. *)
Theorem lookup_symbol_spec img address symbols strings n name : symbol_tables img symbols strings n → chars name →
  exists r, first (λ i, symbol_is img strings (symbol_at symbols i) name) n r ∧
    match r with
    | Some i => exists v, st_value img (symbol_at symbols i) = Ok v ∧
        lookup_symbol (name ++ [0]) (img, address) = Ok (u64 (address + v))
    | None => lookup_symbol (name ++ [0]) (img, address) = Ok 0
    end.
Proof.
  intros [(a & b & size & Ea & Eb & Eo & Es & Ez & En) Hin] Hn.
  destruct (symbol_named_ok n img symbols strings name Hn Hin) as (r & Er & Hr). exists r. split; [done|].
  unfold lookup_symbol. rewrite Ea, bind_Ok, Eb, bind_Ok, Eo, bind_Ok, Es, bind_Ok, Ez, bind_Ok, <- En, Er.
  destruct r as [i|]; [|done]. destruct Hr as (Hi & _). destruct (Hin i Hi) as (H1 & H2 & _).
  destruct (get64_inside img (symbol_at symbols i + 8)) as [v Ev]; [unfold SYM_SIZE in *; lia..|].
  exists v. unfold st_value. by rewrite Ev.
Qed.

(** ** Libraries without images *)

(** Nothing sets the header of a library or of the program. *)
Record unlinked (s : Linker) : Prop := {
  ul_main : header (main_executable s) = None;
  ul_libraries : Forall (λ l, header l = None) (loaded_libraries s);
  ul_length : length (loaded_libraries s) = 16%nat;
  ul_count : 0 ≤ num_loaded_libraries s ≤ 16
}.

Lemma lookup_libraries_none name l : Forall (λ l, header l = None) l → lookup_libraries name l = Ok 0.
Proof. induction 1 as [|lib l Hl _ IH]; [done|]. cbn. unfold lookup_in. rewrite Hl. cbn. exact IH. Qed.

Lemma resolve_symbol_null s name : unlinked s → resolve_symbol name s = Ok (0, s).
Proof.
  intros [Hm Hl Hn Hc]. unfold resolve_symbol. st. unfold lookup_in at 1. rewrite Hm. st. cbn [Z.eqb negb]. st.
  rewrite Hn, (proj2 (Z.ltb_ge _ _)) by lia. rewrite lookup_libraries_none by (by apply Forall_take). done.
Qed.

Section unlinked.
Variable served : Z → bool.
Variable store : Z → list Z → ST VirtualMemoryManager unit.

(** The images and the memory stay as they are. *)
Definition untouched (vm : VirtualMemoryManager) (s : Linker) : Prop := unlinked s ∧ k_vmm s = vm.
Context (vm : VirtualMemoryManager).
#[local] Abbreviation I := (untouched vm).

Lemma untouched_print f : preserves I (print_line f).
Proof. intros s a s' [[] ?] E. unfold print_line in E. ok_inv. destruct x. by ok_inv. Qed.

Hint Resolve untouched_print : preserves.

Lemma untouched_error m : preserves I (error m).
Proof. unfold error. preserves. Qed.

Hint Resolve untouched_error : preserves.

Lemma untouched_initialize : preserves I initialize.
Proof. unfold initialize. preserves; apply preserves_modify; intros s [[] ?]; (split; [by constructor|done]). Qed.

Lemma unlinked_insert s n lib name_ k : unlinked s → 0 ≤ n < 16 → 0 ≤ k ≤ 16 → loaded_libraries s !! Z.to_nat n = Some lib →
  exists l, aset (loaded_libraries s) n (Lib name_ (header lib) (base lib) (got_base lib)) = Ok l ∧ unlinked (set_libraries l k s).
Proof.
  intros [Hm Hl Hn Hc] Hr Hk Hlib. eexists. split; [apply aset_Ok; lia|].
  constructor; cbn; [done| |by rewrite length_insert|done]. apply Forall_insert; [done|]. cbn.
  rewrite Forall_lookup in Hl. by apply (Hl _ _ Hlib).
Qed.

Lemma untouched_load path : preserves I (load_shared_library served path).
Proof.
  intros s a s' [Hu Hv] E. unfold load_shared_library in E. revert E. st. pose proof (ul_count s Hu) as Hc.
  destruct (Z.leb_spec MAX_LOADED_LIBRARIES (num_loaded_libraries s)) as [Hle|Hlt]; [by intros E; eapply untouched_error|].
  unfold MAX_LOADED_LIBRARIES in Hlt. destruct (aget_is_ok (loaded_libraries s) (num_loaded_libraries s)) as [lib El]; [rewrite (ul_length s Hu); lia|].
  st. rewrite El. st. apply aget_Ok in El as [_ El]. destruct (served _); cbn [negb].
  - destruct (unlinked_insert s (num_loaded_libraries s) lib (Some path) (num_loaded_libraries s + 1) Hu ltac:(lia) ltac:(lia) El) as (l & El' & Hl').
    rewrite El'. st. intros [= <- <-]. by split.
  - destruct (unlinked_insert s (num_loaded_libraries s) lib None (num_loaded_libraries s) Hu ltac:(lia) ltac:(lia) El) as (l & El' & Hl').
    rewrite El'. st. apply untouched_error. by split.
Qed.

Hint Resolve untouched_initialize untouched_load : preserves.

Lemma untouched_needed fuel : ∀ img o strtab, preserves I (load_needed served fuel img o strtab).
Proof. induction fuel as [|fuel IH]; intros img o strtab; cbn [load_needed]; preserves. Qed.

Hint Resolve untouched_needed : preserves.

Lemma untouched_dynamic img : preserves I (process_dynamic_section served img).
Proof. unfold process_dynamic_section. preserves. Qed.

Lemma untouched_locate_got img : preserves I (locate_got img).
Proof. unfold locate_got. preserves. Qed.

Hint Resolve untouched_locate_got : preserves.

(** The branch that stores an address is never taken. *)
Lemma untouched_relocate n : ∀ img o symbols strings, preserves I (relocate store n img o symbols strings).
Proof.
  induction n as [|n IH]; intros img o symbols strings; cbn [relocate]; [preserves|].
  apply preserves_bind; [apply preserves_lift|]. intros info. apply preserves_if; [apply IH|].
  apply preserves_bind; [apply preserves_lift|]. intros i. apply preserves_bind; [apply preserves_lift|]. intros nm.
  intros s b s' [Hu Hv] E. rewrite (bind_run _ _ _ _ _ (resolve_symbol_null s (nm ++ [0]) Hu)) in E. cbn [Z.eqb negb] in E.
  assert (P : preserves I (print_line (text "ERROR: Could not resolve symbol: "%string);; print_line nm;; print_line [0x0A];; (mret false : D bool)))
    by preserves.
  eapply P; [|exact E]. by split.
Qed.

Hint Resolve untouched_relocate : preserves.

Lemma untouched_relocations img : preserves I (process_relocations store img).
Proof. unfold process_relocations. preserves. Qed.
End unlinked.

(** What the kernel can do with the linker. *)
Inductive linker_op := Initialize | LoadLibrary (path : list Z) | Dynamic (ehdr : list Z) | Relocations (ehdr : list Z).

Definition run_op (served : Z → bool) (store : Z → list Z → ST VirtualMemoryManager unit) (o : linker_op) : D bool :=
  match o with
  | Initialize => initialize
  | LoadLibrary path => load_shared_library served path
  | Dynamic ehdr => process_dynamic_section served ehdr
  | Relocations ehdr => process_relocations store ehdr
  end.

(** The states the linker can come to from the start of the program. *)
Inductive reachable served store (s0 : Linker) : Linker → Prop :=
| reach_start : reachable served store s0 s0
| reach_step s o r s' : reachable served store s0 s → run_op served store o s = Ok (r, s') → reachable served store s0 s'.

Definition start_state (t : Terminal) (vm : VirtualMemoryManager) : Linker := Link (replicate 16 no_library) 0 no_library t vm.

(** [C31] Dynamic linking never links: whatever libraries are loaded and images
    processed, in whatever order, no symbol is ever found, no address is ever
    stored, and the table of libraries never has more than its sixteen places. *)
Theorem dynamic_linking_finds_nothing served store t vm s name : reachable served store (start_state t vm) s →
  resolve_symbol name s = Ok (0, s) ∧ k_vmm s = vm ∧ 0 ≤ num_loaded_libraries s ≤ MAX_LOADED_LIBRARIES.
Proof.
  intros Hr. assert (H : untouched vm s).
  { induction Hr as [|s o r s' _ IH E].
    - split; [|done]. constructor; cbn; [done| |done|done]. by repeat constructor.
    - revert E. destruct o; cbn [run_op].
      + by apply untouched_initialize.
      + by apply untouched_load.
      + by apply untouched_dynamic.
      + by apply untouched_relocations. }
  destruct H as [Hu Hv]. split; [by apply resolve_symbol_null|]. split; [done|apply Hu].
Qed.

(** ** Witnesses *)

(** A section header with a type, an address, an offset and a size. *)
Definition shdr (type addr offset size : Z) : list Z :=
  le_bytes 4 0 ++ le_bytes 4 type ++ le_bytes 8 0 ++ le_bytes 8 addr ++ le_bytes 8 offset ++ le_bytes 8 size ++ replicate 24 0.

Definition sym (name_ value : Z) : list Z := le_bytes 4 name_ ++ replicate 4 0 ++ le_bytes 8 value ++ replicate 8 0.

(** An image with a symbol table of three, of which the last two are "f" and "g",
    and a string table. *)
Definition demo_image : list Z :=
  ELFMAG ++ [2; 1] ++ replicate 10 0 ++ le_bytes 2 3 ++ replicate 22 0 ++ le_bytes 8 64 ++ replicate 12 0 ++ le_bytes 2 2 ++ le_bytes 2 0 ++
  shdr SHT_DYNSYM 0 192 72 ++ shdr SHT_STRTAB 0 264 5 ++
  sym 0 0 ++ sym 1 0x100 ++ sym 3 0x200 ++ [0; 0x66; 0; 0x67; 0].

Lemma demo_tables : symbol_tables demo_image 192 264 3.
Proof.
  constructor.
  - exists 64, 128, 72. by vm_compute.
  - intros i Hi. split; [unfold symbol_at, SYM_SIZE; lia|]. split; [change (Z.of_nat (length demo_image)) with 269; unfold symbol_at, SYM_SIZE; lia|].
    destruct i as [|[|[|i]]]; [left; by vm_compute|right..|lia].
    + exists [0x66]. split; [by apply (bool_decide_unpack _)|]. exists 1, [0x67; 0]. by vm_compute.
    + exists [0x67]. split; [by apply (bool_decide_unpack _)|]. exists 3, []. by vm_compute.
Qed.

Lemma lookup_symbol_spec_witness :
  exists r, first (λ i, symbol_is demo_image 264 (symbol_at 192 i) [0x67]) 3 r ∧
    match r with
    | Some i => exists v, st_value demo_image (symbol_at 192 i) = Ok v ∧
        lookup_symbol [0x67; 0] (demo_image, 0x400000) = Ok (u64 (0x400000 + v))
    | None => lookup_symbol [0x67; 0] (demo_image, 0x400000) = Ok 0
    end.
Proof. exact (lookup_symbol_spec demo_image 0x400000 192 264 3 [0x67] demo_tables ltac:(by apply (bool_decide_unpack _))). Defined.

Example lookup_g : lookup_symbol [0x67; 0] (demo_image, 0x400000) = Ok 0x400200.
Proof. vm_compute. reflexivity. Qed.

Definition demo_linker : Linker := start_state boot_terminal vmm_boot.

Lemma dynamic_linking_finds_nothing_witness :
  exists s, reachable (λ _, true) (λ _ _, no_fuel) demo_linker s ∧ num_loaded_libraries s = 1 ∧ resolve_symbol [0x66; 0] s = Ok (0, s).
Proof.
  pose (s := set_libraries (Lib (Some [0x6C]) None 0 0 :: replicate 15 no_library) 1 demo_linker).
  assert (Hr : reachable (λ _, true) (λ _ _, no_fuel) demo_linker s).
  { eapply (reach_step _ _ _ demo_linker (LoadLibrary [0x6C]) true); [constructor|reflexivity]. }
  exists s. split; [exact Hr|]. split; [reflexivity|].
  exact (proj1 (dynamic_linking_finds_nothing (λ _, true) (λ _ _, no_fuel) boot_terminal vmm_boot s [0x66; 0] Hr)).
Defined.
