(* ===== verification/Ata.v ===== *)
(** * The ATA driver (src/kernel/src/drivers/ata.{hpp,cpp})

    Programmed input and output through the ports of a drive.  The ports are the
    class [Ports]; what the ATA standard promises of a drive behind them is the
    class [AtaDrive], of which [demo_drive] below is an instance.  The driver is
    then the [BlockDevice] of Disk.v that the file system runs on, and satisfies
    its laws. *)

From Stdlib Require Strings.String.
From Stdlib Require Import (notations) Strings.String.
From S2P Require Import Prelude CStr Disk Terminal Printf World.

#[local] Open Scope Z_scope.

Definition ATA_PRIMARY_IO : Z := 0x1F0.
Definition ATA_DATA : Z := 0.
Definition ATA_SECTOR_COUNT : Z := 2.
Definition ATA_LBA_LOW : Z := 3.
Definition ATA_LBA_MID : Z := 4.
Definition ATA_LBA_HIGH : Z := 5.
Definition ATA_DRIVE_HEAD : Z := 6.
Definition ATA_STATUS : Z := 7.
Definition ATA_COMMAND : Z := 7.
Definition ATA_CMD_READ_SECTORS : Z := 0x20.
Definition ATA_CMD_WRITE_SECTORS : Z := 0x30.
Definition ATA_CMD_IDENTIFY : Z := 0xEC.
Definition ATA_STATUS_ERR : Z := 0x01.
Definition ATA_STATUS_DRQ : Z := 0x08.
Definition ATA_STATUS_RDY : Z := 0x40.
Definition ATA_STATUS_BSY : Z := 0x80.

(** [for (int i = 0; i < 100000; i++)] *)
Definition POLLS : nat := Z.to_nat 100000.

(** [status & bit] as a condition. *)
Definition has (bit status : Z) : bool := negb (Z.land status bit =? 0).

(** The instructions on ports (io.cpp). *)
Class Ports (D : Type) := {
  port_inb : Z → D → Z * D;
  port_inw : Z → D → Z * D;
  port_outb : Z → Z → D → D;
  port_outw : Z → Z → D → D
}.

Record CATADriver (D : Type) := Ata {
  m_initialized : bool;
  m_is_slave : bool;
  m_io_base : Z;
  m_sectors : Z;
  m_model : list Z;
  m_serial : list Z;
  a_screen : Terminal;
  a_bus : D
}.
Arguments Ata {D}. Arguments m_initialized {D}. Arguments m_is_slave {D}. Arguments m_io_base {D}. Arguments m_sectors {D}.
Arguments m_model {D}. Arguments m_serial {D}. Arguments a_screen {D}. Arguments a_bus {D}.

Section driver.
Context {D : Type} `{Ports D}.
#[local] Abbreviation A := (ST (CATADriver D)).

(** The member initialisers. *)
Definition new_driver (t : Terminal) (d : D) : CATADriver D :=
  Ata false false ATA_PRIMARY_IO 0 (replicate 41 0) (replicate 21 0) t d.

Definition set_bus (d : D) (s : CATADriver D) : CATADriver D :=
  Ata (m_initialized s) (m_is_slave s) (m_io_base s) (m_sectors s) (m_model s) (m_serial s) (a_screen s) d.
Definition set_identity (n : Z) (model serial : list Z) (s : CATADriver D) : CATADriver D :=
  Ata (m_initialized s) (m_is_slave s) (m_io_base s) n model serial (a_screen s) (a_bus s).
Definition set_ready (s : CATADriver D) : CATADriver D :=
  Ata true (m_is_slave s) (m_io_base s) (m_sectors s) (m_model s) (m_serial s) (a_screen s) (a_bus s).
Definition set_shown (t : Terminal) (s : CATADriver D) : CATADriver D :=
  Ata (m_initialized s) (m_is_slave s) (m_io_base s) (m_sectors s) (m_model s) (m_serial s) t (a_bus s).

(** A register is a port from [m_io_base] on. *)
Definition inb (r : Z) : A Z := λ s, let '(v, d) := port_inb (u16 (m_io_base s + r)) (a_bus s) in Ok (v, set_bus d s).
Definition inw (r : Z) : A Z := λ s, let '(v, d) := port_inw (u16 (m_io_base s + r)) (a_bus s) in Ok (v, set_bus d s).
Definition outb (r v : Z) : A unit := λ s, Ok (tt, set_bus (port_outb (u16 (m_io_base s + r)) v (a_bus s)) s).
Definition outw (r v : Z) : A unit := λ s, Ok (tt, set_bus (port_outw (u16 (m_io_base s + r)) v (a_bus s)) s).
Definition log (format : String.string) (args : list arg) : A unit := λ s,
  '(_, t) ← printf (text format) args (a_screen s); Ok (tt, set_shown t s).

(** ** Waiting *)

Fixpoint poll (n : nat) (good : Z → bool) : A bool :=
  match n with
  | O => mret false
  | S n' => status ← inb ATA_STATUS; if good status then mret true else poll n' good
  end.

Definition wait_not_busy : A bool := poll POLLS (λ status, negb (has ATA_STATUS_BSY status)).
Definition wait_ready : A bool := poll POLLS (has ATA_STATUS_RDY).

Fixpoint delay (n : nat) : A unit :=
  match n with O => mret tt | S n' => inb ATA_STATUS;; delay n' end.

Definition select_drive (slave : bool) : A unit :=
  outb ATA_DRIVE_HEAD (Z.lor 0xE0 (Z.shiftl (if slave then 1 else 0) 4));; delay 10.

(** ** identify *)

(** [while (true)]: whether the drive has its data, or reports an error. *)
Fixpoint wait_data (fuel : nat) : A bool :=
  match fuel with
  | O => no_fuel
  | S fuel' =>
      status ← inb ATA_STATUS;
      if has ATA_STATUS_ERR status then mret false
      else if negb (has ATA_STATUS_BSY status) && has ATA_STATUS_DRQ status then mret true
      else wait_data fuel'
  end.

Fixpoint in_words (n : nat) : A (list Z) :=
  match n with O => mret [] | S n' => w ← inw ATA_DATA; l ← in_words n'; mret (w :: l) end.

(** [(char)((data[i] >> 8) | (data[i] << 8))]: the high byte of the word. *)
Definition swapped (w : Z) : Z :=
  let c := u8 (Z.lor (Z.shiftr w 8) (Z.shiftl w 8)) in if c =? 0x20 then 0x5F else c.

(** [n] characters from word [from] on, into an array. *)
Fixpoint identity (n : nat) (i from : Z) (data dest : list Z) : outcome (list Z) :=
  match n with
  | O => Ok dest
  | S n' => w ← aget data (from + i); dest ← aset dest i (swapped w); identity n' (i + 1) from data dest
  end.

Definition identify (fuel : nat) : A bool :=
  slave ← gets m_is_slave;
  select_drive slave;;
  outb ATA_SECTOR_COUNT 0;; outb ATA_LBA_LOW 0;; outb ATA_LBA_MID 0;; outb ATA_LBA_HIGH 0;;
  outb ATA_COMMAND ATA_CMD_IDENTIFY;;
  status ← inb ATA_STATUS;
  if status =? 0 then mret false else
  ok ← wait_data fuel;
  if negb ok then mret false else
  data ← in_words 256;
  lo ← lift (aget data 60);
  hi ← lift (aget data 61);
  serial ← gets m_serial;
  serial ← lift (identity 20 0 10 data serial);
  model ← gets m_model;
  model ← lift (identity 40 0 27 data model);
  modify (set_identity (u32 (Z.lor lo (Z.shiftl hi 16))) model serial);;
  m ← lift (c_string model);
  n ← lift (c_string serial);
  log "ATA: Model: %s, Serial: %s, Sectors: %u
" [AStr (Some m); AStr (Some n); AInt (u32 (Z.lor lo (Z.shiftl hi 16)))];;
  mret true.

Definition initialize (fuel : nat) : A bool :=
  ready ← gets m_initialized;
  if ready : bool then mret true else
  ok ← identify fuel;
  if negb ok then log "ATA: Drive not found
" [];; mret false
  else modify set_ready;; log "ATA: Drive initialized
" [];; mret true.

(** ** Sectors *)

Definition set_up (lba sectors command : Z) : A unit :=
  outb ATA_SECTOR_COUNT sectors;;
  outb ATA_LBA_LOW (Z.land lba 0xFF);;
  outb ATA_LBA_MID (Z.land (Z.shiftr lba 8) 0xFF);;
  outb ATA_LBA_HIGH (Z.land (Z.shiftr lba 16) 0xFF);;
  outb ATA_DRIVE_HEAD (Z.lor 0xE0 (Z.land (Z.shiftr lba 24) 0x0F));;
  outb ATA_COMMAND command.

Definition WORDS : nat := 256.

(** The bytes of a word, low one first. *)
Definition word_bytes (w : Z) : list Z := [Z.land w 0xFF; Z.land (Z.shiftr w 8) 0xFF].

Fixpoint read_words (n : nat) : A (list Z) :=
  match n with O => mret [] | S n' => w ← inw ATA_DATA; l ← read_words n'; mret (word_bytes w ++ l) end.

(** The sectors read, [None] when the drive was not ready for one. *)
Fixpoint read_loop (n : nat) : A (option (list Z)) :=
  match n with
  | O => mret (Some [])
  | S n' =>
      ok ← wait_not_busy;
      if negb ok then mret None else
      ok ← wait_ready;
      if negb ok then mret None else
      sector ← read_words WORDS;
      rest ← read_loop n';
      mret ((sector ++.) <$> rest)
  end.

Definition read_sectors (lba sectors : Z) : A (option (list Z)) :=
  ready ← gets m_initialized;
  if negb ready then mret None else
  ok ← wait_not_busy;
  if negb ok then mret None else
  slave ← gets m_is_slave;
  select_drive slave;;
  set_up lba sectors ATA_CMD_READ_SECTORS;;
  read_loop (Z.to_nat sectors).

Fixpoint write_words (n : nat) (i : Z) (buffer : list Z) : A unit :=
  match n with
  | O => mret tt
  | S n' =>
      lo ← lift (aget buffer (i * 2));
      hi ← lift (aget buffer (i * 2 + 1));
      outw ATA_DATA (Z.lor lo (Z.shiftl hi 8));;
      write_words n' (i + 1) buffer
  end.

Fixpoint write_loop (n : nat) (buffer : list Z) : A bool :=
  match n with
  | O => mret true
  | S n' =>
      ok ← wait_not_busy;
      if negb ok then mret false else
      ok ← wait_ready;
      if negb ok then mret false else
      write_words WORDS 0 buffer;;
      write_loop n' (drop 512 buffer)
  end.

Definition write_sectors (lba sectors : Z) (buffer : list Z) : A bool :=
  ready ← gets m_initialized;
  if negb ready then mret false else
  ok ← wait_not_busy;
  if negb ok then mret false else
  slave ← gets m_is_slave;
  select_drive slave;;
  set_up lba sectors ATA_CMD_WRITE_SECTORS;;
  write_loop (Z.to_nat sectors) buffer.
End driver.

(** ** Calls that fail *)

Section failing.
Context {D : Type} `{Ports D}.

Lemma not_initialized (s : CATADriver D) lba n buffer : m_initialized s = false →
  read_sectors lba n s = Ok (None, s) ∧ write_sectors lba n buffer s = Ok (false, s).
Proof. intros E. unfold read_sectors, write_sectors. st. by rewrite E. Qed.

(** A drive that is busy and stays so. *)
Variable stuck : Z → D → Prop.
Hypothesis stuck_inb : ∀ b d, stuck b d → exists v d', port_inb (u16 (b + ATA_STATUS)) d = (v, d') ∧ has ATA_STATUS_BSY v = true ∧ stuck b d'.

Lemma poll_stuck n : ∀ s : CATADriver D, stuck (m_io_base s) (a_bus s) → exists d',
  poll n (λ status, negb (has ATA_STATUS_BSY status)) s = Ok (false, set_bus d' s).
Proof.
  induction n as [|n IH]; intros s Hs; cbn [poll].
  { exists (a_bus s). by destruct s. }
  destruct (stuck_inb _ _ Hs) as (v & d1 & E & Hv & H1).
  assert (Ei : inb ATA_STATUS s = Ok (v, set_bus d1 s)) by (unfold inb; by rewrite E).
  rewrite (bind_run _ _ _ _ _ Ei), Hv. cbn [negb]. destruct (IH (set_bus d1 s) H1) as (d2 & E2). by exists d2.
Qed.

(** The driver gives up, and has given the drive no command. *)
Theorem stuck_drive_fails (s : CATADriver D) lba n buffer : stuck (m_io_base s) (a_bus s) → exists d',
  read_sectors lba n s = Ok (None, set_bus d' s) ∧ write_sectors lba n buffer s = Ok (false, set_bus d' s).
Proof.
  intros Hs. destruct (m_initialized s) eqn:Ei.
  - destruct (poll_stuck POLLS s Hs) as (d' & E). exists d'.
    unfold read_sectors, write_sectors, wait_not_busy. st. rewrite Ei. cbn [negb].
    by rewrite !(bind_run _ _ _ _ _ E).
  - exists (a_bus s). destruct s. by apply not_initialized.
Qed.
End failing.

(** Of each word [identify] takes the high byte, as many words as there are
    characters. *)
Lemma swapped_high w : 0 ≤ w < 2 ^ 16 → swapped w = if w / 2 ^ 8 =? 0x20 then 0x5F else w / 2 ^ 8.
Proof.
  intros Hw. unfold swapped. replace (u8 _) with (w / 2 ^ 8); [done|].
  unfold u8. rewrite <- Z.land_ones by lia. rewrite Z.land_lor_distr_l.
  rewrite Z.shiftr_div_pow2, Z.shiftl_mul_pow2 by lia. rewrite !Z.land_ones by lia.
  rewrite Z_mod_mult, Z.lor_0_r. symmetry. apply Z.mod_small. Z.div_mod_to_equations. lia.
Qed.

Theorem identity_spec n : ∀ i from data dest, (from + i + n <= length data)%nat → (i + n <= length dest)%nat →
  identity n (Z.of_nat i) (Z.of_nat from) data dest =
  Ok (take i dest ++ (swapped <$> take n (drop (from + i) data)) ++ drop (i + n) dest).
Proof.
  induction n as [|n IH]; intros i from data dest Hd Hl; cbn [identity].
  { rewrite take_0. cbn [fmap list_fmap app]. by rewrite Nat.add_0_r, take_drop. }
  destruct (lookup_lt_is_Some_2 data (from + i)) as [w Ew]; [lia|].
  replace (Z.of_nat from + Z.of_nat i) with (Z.of_nat (from + i)) by lia. rewrite (aget_lookup _ _ _ Ew). cbn [mbind outcome_bind].
  rewrite aset_Ok by lia. cbn [mbind outcome_bind]. rewrite Nat2Z.id.
  replace (Z.of_nat i + 1) with (Z.of_nat (S i)) by lia. rewrite IH by (rewrite ?length_insert; lia). f_equal.
  rewrite (take_S_r _ _ (swapped w)) by (apply list_lookup_insert_eq; lia). rewrite take_insert_ge by lia. rewrite drop_insert_lt by lia.
  rewrite <- app_assoc. f_equal. rewrite (drop_S data w (from + i)) by done. cbn [take fmap list_fmap app].
  by rewrite Nat.add_succ_r, (Nat.add_succ_r i n), (Nat.add_succ_l i n).
Qed.

(** ** What a drive promises *)

(** Where a drive is in a command: between two, or sending or taking the words of
    a sector, with the sectors left. *)
Inductive phase := Idle | Sending (lba left word : Z) | Taking (lba left : Z) (words : list Z).

(** The address in the registers, and the phase after a sector. *)
Definition lba_of (reg : Z → Z) : Z :=
  reg ATA_LBA_LOW + reg ATA_LBA_MID * 2 ^ 8 + reg ATA_LBA_HIGH * 2 ^ 16 + Z.land (reg ATA_DRIVE_HEAD) 0x0F * 2 ^ 24.

Definition words_bytes (l : list Z) : list Z := concat (word_bytes <$> l).

(** The standard's protocol for a drive that works.  [d_busy] is how many more reads of the status show the drive busy; the
    registers are written, a command given and words moved only when it is not. *)
Class AtaDrive (D : Type) `{Ports D} := {
  d_wf : D → Prop;
  d_phase : D → phase;
  d_busy : D → nat;
  d_reg : D → Z → Z;
  d_disk : D → Z → list Z;
  d_limit : D → Z;
  d_same d d' := d_wf d' ∧ d_reg d' = d_reg d ∧ d_disk d' = d_disk d ∧ d_limit d' = d_limit d;
  d_limit_bound d : d_wf d → 0 ≤ d_limit d ≤ 2 ^ 28;
  d_sector d s : d_wf d → length (d_disk d s) = SECTOR ∧ Forall is_u8 (d_disk d s);
  d_prompt d : d_wf d → (d_busy d < POLLS)%nat;
  d_status d : d_wf d → exists v d', port_inb (ATA_PRIMARY_IO + ATA_STATUS) d = (v, d') ∧
    d_same d d' ∧ d_phase d' = d_phase d ∧ d_busy d' = Nat.pred (d_busy d) ∧
    has ATA_STATUS_BSY v = (0 <? d_busy d)%nat ∧ (d_busy d = 0%nat → has ATA_STATUS_RDY v = true);
  d_write_reg d r v : d_wf d → d_phase d = Idle → d_busy d = 0%nat → ATA_SECTOR_COUNT ≤ r ≤ ATA_DRIVE_HEAD → is_u8 v →
    let d' := port_outb (ATA_PRIMARY_IO + r) v d in
    d_wf d' ∧ d_phase d' = Idle ∧ d_busy d' = 0%nat ∧ d_disk d' = d_disk d ∧ d_limit d' = d_limit d ∧
    ∀ k, d_reg d' k = if k =? r then v else d_reg d k;
  d_command d c : d_wf d → d_phase d = Idle → d_busy d = 0%nat → c = ATA_CMD_READ_SECTORS ∨ c = ATA_CMD_WRITE_SECTORS →
    1 ≤ d_reg d ATA_SECTOR_COUNT → lba_of (d_reg d) + d_reg d ATA_SECTOR_COUNT ≤ d_limit d →
    let d' := port_outb (ATA_PRIMARY_IO + ATA_COMMAND) c d in
    d_same d d' ∧ d_phase d' = if c =? ATA_CMD_READ_SECTORS then Sending (lba_of (d_reg d)) (d_reg d ATA_SECTOR_COUNT) 0
                               else Taking (lba_of (d_reg d)) (d_reg d ATA_SECTOR_COUNT) [];
  d_send d lba left word : d_wf d → d_phase d = Sending lba left word → d_busy d = 0%nat → 0 ≤ word < 256 →
    exists v d', port_inw (ATA_PRIMARY_IO + ATA_DATA) d = (v, d') ∧ d_same d d' ∧
      word_bytes v = take 2 (drop (Z.to_nat word * 2) (d_disk d lba)) ∧
      (if word =? 255 then d_phase d' = (if left =? 1 then Idle else Sending (lba + 1) (left - 1) 0)
       else d_phase d' = Sending lba left (word + 1) ∧ d_busy d' = 0%nat);
  d_take d lba left words v : d_wf d → d_phase d = Taking lba left words → d_busy d = 0%nat → (length words < 256)%nat → 0 ≤ v < 2 ^ 16 →
    let d' := port_outw (ATA_PRIMARY_IO + ATA_DATA) v d in
    d_wf d' ∧ d_reg d' = d_reg d ∧ d_limit d' = d_limit d ∧
    (if (length words =? 255)%nat
     then d_phase d' = (if left =? 1 then Idle else Taking (lba + 1) (left - 1) []) ∧
          d_disk d' = (λ s, if s =? lba then words_bytes (words ++ [v]) else d_disk d s)
     else d_phase d' = Taking lba left (words ++ [v]) ∧ d_busy d' = 0%nat ∧ d_disk d' = d_disk d)
}.

Section device.
Context {D : Type} `{AtaDrive D}.
#[local] Abbreviation A := (ST (CATADriver D)).

(** The driver after [initialize], between two commands. *)
Definition ready (s : CATADriver D) : Prop :=
  m_initialized s = true ∧ m_is_slave s = false ∧ m_io_base s = ATA_PRIMARY_IO ∧ d_wf (a_bus s) ∧ d_phase (a_bus s) = Idle.

(** Nothing but the busy count differs. *)
Definition quiet (d d' : D) : Prop := d_same d d' ∧ d_phase d' = d_phase d.

Lemma same_refl d : d_wf d → d_same d d.
Proof. done. Qed.

Lemma same_trans d1 d2 d3 : d_same d1 d2 → d_same d2 d3 → d_same d1 d3.
Proof. intros (?&E1&E2&E3) (?&E4&E5&E6). split_and!; [done|congruence..]. Qed.

Lemma quiet_trans d1 d2 d3 : quiet d1 d2 → quiet d2 d3 → quiet d1 d3.
Proof. intros [H1 H2] [H3 H4]. split; [by eapply same_trans|congruence]. Qed.

Lemma inb_status s : m_io_base s = ATA_PRIMARY_IO → d_wf (a_bus s) → exists v d',
  inb ATA_STATUS s = Ok (v, set_bus d' s) ∧ quiet (a_bus s) d' ∧ d_busy d' = Nat.pred (d_busy (a_bus s)) ∧
  has ATA_STATUS_BSY v = (0 <? d_busy (a_bus s))%nat ∧ (d_busy (a_bus s) = 0%nat → has ATA_STATUS_RDY v = true).
Proof.
  intros Eb Hw. destruct (d_status _ Hw) as (v & d' & E & Hs & Hp & Hb & Hv & Hr).
  exists v, d'. unfold inb. rewrite Eb. change (u16 _) with (ATA_PRIMARY_IO + ATA_STATUS). by rewrite E.
Qed.

Lemma poll_S n good (s : CATADriver D) : (0 < n)%nat →
  poll n good s = (status ← inb ATA_STATUS; if good status then mret true else poll (Nat.pred n) good) s.
Proof. by destruct n; [lia|]. Qed.

Lemma poll_not_busy n s : m_io_base s = ATA_PRIMARY_IO → d_wf (a_bus s) → (d_busy (a_bus s) < n)%nat → exists d',
  poll n (λ status, negb (has ATA_STATUS_BSY status)) s = Ok (true, set_bus d' s) ∧ quiet (a_bus s) d' ∧ d_busy d' = 0%nat.
Proof.
  revert s. induction n as [|n IH]; intros s Eb Hw Hn; [lia|]. cbn [poll].
  destruct (inb_status s Eb Hw) as (v & d1 & E & Hq & Hb & Hv & _). rewrite (bind_run _ _ _ _ _ E), Hv.
  destruct (Nat.ltb_spec 0 (d_busy (a_bus s))); cbn [negb].
  - destruct (IH (set_bus d1 s)) as (d2 & E2 & Hq2 & Hb2); [done|apply Hq|simpl; lia|].
    rewrite E2. exists d2. split_and!; [done|by eapply quiet_trans|done].
  - exists d1. split_and!; [done|done|lia].
Qed.

Lemma wait_not_busy_ok s : m_io_base s = ATA_PRIMARY_IO → d_wf (a_bus s) → exists d',
  wait_not_busy s = Ok (true, set_bus d' s) ∧ quiet (a_bus s) d' ∧ d_busy d' = 0%nat.
Proof. intros Eb Hw. apply poll_not_busy; [done..|by apply d_prompt]. Qed.

Lemma wait_ready_ok s : m_io_base s = ATA_PRIMARY_IO → d_wf (a_bus s) → d_busy (a_bus s) = 0%nat → exists d',
  wait_ready s = Ok (true, set_bus d' s) ∧ quiet (a_bus s) d' ∧ d_busy d' = 0%nat.
Proof.
  intros Eb Hw B0. unfold wait_ready. rewrite poll_S by (pose proof (d_prompt _ Hw); lia).
  destruct (inb_status s Eb Hw) as (v & d1 & E & Hq & Hb & _ & Hr). rewrite (bind_run _ _ _ _ _ E), (Hr B0).
  exists d1. split_and!; [done|done|lia].
Qed.

Lemma delay_ok n s : m_io_base s = ATA_PRIMARY_IO → d_wf (a_bus s) → d_busy (a_bus s) = 0%nat → exists d',
  delay n s = Ok (tt, set_bus d' s) ∧ quiet (a_bus s) d' ∧ d_busy d' = 0%nat.
Proof.
  revert s. induction n as [|n IH]; intros s Eb Hw B0; cbn [delay].
  { exists (a_bus s). destruct s. split_and!; [done|split; [by apply same_refl|done]|done]. }
  destruct (inb_status s Eb Hw) as (v & d1 & E & Hq & Hb & _). rewrite (bind_run _ _ _ _ _ E).
  destruct (IH (set_bus d1 s)) as (d2 & E2 & Hq2 & Hb2); [done|apply Hq|simpl; lia|].
  rewrite E2. exists d2. split_and!; [done|by eapply quiet_trans|done].
Qed.

(** Idle and not busy, with the disk of [d]. *)
Definition idle (d d' : D) : Prop :=
  d_wf d' ∧ d_phase d' = Idle ∧ d_busy d' = 0%nat ∧ d_disk d' = d_disk d ∧ d_limit d' = d_limit d.

Lemma outb_reg d s r v : m_io_base s = ATA_PRIMARY_IO → idle d (a_bus s) →
  ATA_SECTOR_COUNT ≤ r ≤ ATA_DRIVE_HEAD → is_u8 v → exists d',
  outb r v s = Ok (tt, set_bus d' s) ∧ idle d d' ∧ ∀ k, d_reg d' k = if k =? r then v else d_reg (a_bus s) k.
Proof.
  intros Eb (Hw & Hp & Hb & Hd & Hl) Hr Hv.
  destruct (d_write_reg (a_bus s) r v Hw Hp Hb Hr Hv) as (W & P & B & E1 & E2 & E3).
  unfold ATA_SECTOR_COUNT, ATA_DRIVE_HEAD in Hr.
  exists (port_outb (ATA_PRIMARY_IO + r) v (a_bus s)). unfold outb. rewrite Eb.
  replace (u16 (ATA_PRIMARY_IO + r)) with (ATA_PRIMARY_IO + r)
    by (symmetry; apply Z.mod_small; unfold ATA_PRIMARY_IO; lia).
  split_and!; [done| |done]. split_and!; [done|done|done|congruence|congruence].
Qed.

Lemma select_ok d s : m_io_base s = ATA_PRIMARY_IO → idle d (a_bus s) → exists d',
  select_drive false s = Ok (tt, set_bus d' s) ∧ idle d d'.
Proof.
  intros Eb Hi. unfold select_drive.
  destruct (outb_reg d s ATA_DRIVE_HEAD (Z.lor 0xE0 (Z.shiftl 0 4)) Eb Hi) as (d1 & E1 & (W & P & B & Hd & Hl) & _); [done|split; done|].
  rewrite (bind_run _ _ _ _ _ E1).
  destruct (delay_ok 10 (set_bus d1 s) Eb W B) as (d2 & E2 & [(W2 & _ & D2 & L2) P2] & B2).
  exists d2. rewrite E2. split_and!; [done|]. simpl in *. split_and!; [done|congruence|done|congruence|congruence].
Qed.

Lemma land_low x k m : 0 ≤ k → m = Z.ones k → Z.land x m = x mod 2 ^ k.
Proof. intros ? ->. by apply Z.land_ones. Qed.

Lemma lba_parts lba : 0 ≤ lba < 2 ^ 28 →
  Z.land lba 0xFF + Z.land (Z.shiftr lba 8) 0xFF * 2 ^ 8 + Z.land (Z.shiftr lba 16) 0xFF * 2 ^ 16 +
    Z.land (Z.lor 0xE0 (Z.land (Z.shiftr lba 24) 0x0F)) 0x0F * 2 ^ 24 = lba.
Proof.
  intros. rewrite Z.land_lor_distr_l. change (Z.land 0xE0 0x0F) with 0.
  rewrite Z.lor_0_l, <- Z.land_assoc. change (Z.land 0x0F 0x0F) with 0x0F.
  rewrite !(land_low _ 8 0xFF), (land_low _ 4 0x0F) by done. rewrite !Z.shiftr_div_pow2 by lia.
  Z.div_mod_to_equations. lia.
Qed.

Lemma byte_land x : is_u8 (Z.land x 0xFF).
Proof. rewrite (land_low _ 8) by done. apply Z.mod_pos_bound. lia. Qed.

Lemma head_u8 x : is_u8 (Z.lor 0xE0 (Z.land x 0x0F)).
Proof.
  rewrite (land_low _ 4) by done. pose proof (Z.mod_pos_bound x (2 ^ 4) ltac:(lia)).
  change 0xE0 with (14 * 2 ^ 4). rewrite lor_add_pow by lia. unfold is_u8. lia.
Qed.

Lemma set_up_ok d s lba n c : m_io_base s = ATA_PRIMARY_IO → idle d (a_bus s) →
  0 ≤ lba → 1 ≤ n < 256 → lba + n ≤ d_limit d → c = ATA_CMD_READ_SECTORS ∨ c = ATA_CMD_WRITE_SECTORS → exists d',
  set_up lba n c s = Ok (tt, set_bus d' s) ∧ d_wf d' ∧ d_disk d' = d_disk d ∧ d_limit d' = d_limit d ∧
  d_phase d' = if c =? ATA_CMD_READ_SECTORS then Sending lba n 0 else Taking lba n [].
Proof.
  intros Eb Hi Hl Hn Hlim Hc. unfold set_up.
  assert (Hlba : 0 ≤ lba < 2 ^ 28).
  { destruct Hi as (W & _ & _ & _ & L). pose proof (d_limit_bound _ W). lia. }
  destruct (outb_reg d s ATA_SECTOR_COUNT n Eb Hi) as (d1 & E1 & I1 & R1); [done|unfold is_u8; lia|].
  rewrite (bind_run _ _ _ _ _ E1).
  destruct (outb_reg d (set_bus d1 s) ATA_LBA_LOW (Z.land lba 0xFF) Eb I1) as (d2 & E2 & I2 & R2); [done|apply byte_land|].
  rewrite (bind_run _ _ _ _ _ E2).
  destruct (outb_reg d (set_bus d2 s) ATA_LBA_MID (Z.land (Z.shiftr lba 8) 0xFF) Eb I2) as (d3 & E3 & I3 & R3); [done|apply byte_land|].
  rewrite (bind_run _ _ _ _ _ E3).
  destruct (outb_reg d (set_bus d3 s) ATA_LBA_HIGH (Z.land (Z.shiftr lba 16) 0xFF) Eb I3) as (d4 & E4 & I4 & R4); [done|apply byte_land|].
  rewrite (bind_run _ _ _ _ _ E4).
  destruct (outb_reg d (set_bus d4 s) ATA_DRIVE_HEAD (Z.lor 0xE0 (Z.land (Z.shiftr lba 24) 0x0F)) Eb I4) as (d5 & E5 & I5 & R5);
    [done|apply head_u8|].
  rewrite (bind_run _ _ _ _ _ E5). cbn [a_bus set_bus] in *.
  assert (Ec : d_reg d5 ATA_SECTOR_COUNT = n) by (rewrite R5, R4, R3, R2, R1; done).
  assert (El : lba_of (d_reg d5) = lba).
  { etransitivity; [|apply (lba_parts lba Hlba)]. unfold lba_of. rewrite !R5, !R4, !R3, !R2. done. }
  destruct I5 as (W & P & B & Hd & L).
  destruct (d_command d5 c W P B Hc) as [(W' & _ & Hd' & L') P']; [rewrite Ec; lia|rewrite Ec, El, L; lia|].
  rewrite Ec, El in P'. exists (port_outb (ATA_PRIMARY_IO + ATA_COMMAND) c d5). unfold outb. cbn [m_io_base set_bus a_bus]. rewrite Eb.
  split_and!; [done|done|congruence|congruence|done].
Qed.

(** ** Reading *)

(** The phase of a transfer with [left] sectors still to come. *)
Definition sending (lba left : Z) : phase := if left =? 0 then Idle else Sending lba left 0.
Definition taking (lba left : Z) : phase := if left =? 0 then Idle else Taking lba left [].

Lemma read_words_ok n : ∀ s lba left word, m_io_base s = ATA_PRIMARY_IO → d_wf (a_bus s) →
  d_phase (a_bus s) = Sending lba left word → d_busy (a_bus s) = 0%nat → 0 ≤ word → (0 < n)%nat → word + Z.of_nat n = 256 → exists d',
  read_words n s = Ok (drop (Z.to_nat word * 2) (d_disk (a_bus s) lba), set_bus d' s) ∧
  d_same (a_bus s) d' ∧ d_phase d' = sending (lba + 1) (left - 1).
Proof.
  induction n as [|n IH]; intros s lba left word Eb W P B Hw Hn Hs; [lia|]. cbn [read_words].
  destruct (d_send _ _ _ _ W P B) as (v & d1 & E & S1 & Ev & Hp); [lia|].
  assert (Ei : inw ATA_DATA s = Ok (v, set_bus d1 s)).
  { unfold inw. rewrite Eb. change (u16 _) with (ATA_PRIMARY_IO + ATA_DATA). by rewrite E. }
  rewrite (bind_run _ _ _ _ _ Ei). rewrite Ev.
  destruct (d_sector _ lba W) as [Hlen _]. unfold SECTOR in Hlen.
  destruct (Z.eqb_spec word 255) as [->|Hne].
  - destruct n; [|lia]. exists d1. split_and!; [|done|].
    + cbn [read_words]. rewrite bind_ret. unfold mret, st_ret. do 2 f_equal. rewrite app_nil_r. apply take_ge.
      rewrite length_drop, Hlen. lia.
    + rewrite Hp. unfold sending. repeat case_bool_decide; repeat match goal with |- context [?a =? ?b] => destruct (Z.eqb_spec a b) end; done || lia.
  - destruct Hp as [P1 B1].
    destruct (IH (set_bus d1 s) lba left (word + 1)) as (d2 & E2 & S2 & P2); [done|apply S1|done|done|lia|lia|lia|].
    rewrite (bind_run _ _ _ _ _ E2). exists d2. split_and!; [|by eapply same_trans|done].
    unfold mret, st_ret. cbn [a_bus set_bus]. destruct S1 as (_ & _ & -> & _). do 2 f_equal.
    rewrite <- (take_drop 2 (drop (Z.to_nat word * 2) _)) at 2. rewrite drop_drop. f_equal. f_equal. lia.
Qed.

(** The contents of [n] sectors from [lba] on. *)
Definition contents (disk : Z → list Z) (lba : Z) (n : nat) : list Z :=
  concat ((λ i, disk (lba + Z.of_nat i)) <$> seq 0 n).

Lemma contents_S disk lba n : contents disk lba (S n) = disk lba ++ contents disk (lba + 1) n.
Proof.
  unfold contents. rewrite <- cons_seq, <- fmap_S_seq. cbn [fmap list_fmap concat]. rewrite Z.add_0_r. f_equal.
  f_equal. rewrite <- list_fmap_compose. apply list_fmap_ext. intros i x _. simpl. f_equal. lia.
Qed.

Lemma read_loop_ok n : ∀ s lba, m_io_base s = ATA_PRIMARY_IO → d_wf (a_bus s) →
  d_phase (a_bus s) = sending lba (Z.of_nat n) → exists d',
  read_loop n s = Ok (Some (contents (d_disk (a_bus s)) lba n), set_bus d' s) ∧ d_same (a_bus s) d' ∧ d_phase d' = Idle.
Proof.
  induction n as [|n IH]; intros s lba Eb W P; cbn [read_loop].
  { exists (a_bus s). destruct s. split_and!; [done|by apply same_refl|done]. }
  destruct (wait_not_busy_ok s Eb W) as (d1 & E1 & [S1 P1] & B1). rewrite (bind_run _ _ _ _ _ E1). cbn [negb].
  destruct (wait_ready_ok (set_bus d1 s) Eb ltac:(apply S1) B1) as (d2 & E2 & [S2 P2] & B2).
  rewrite (bind_run _ _ _ _ _ E2). cbn [negb]. cbn [a_bus set_bus] in *.
  destruct (read_words_ok WORDS (set_bus d2 s) lba (Z.of_nat (S n)) 0) as (d3 & E3 & S3 & P3);
    [done|apply S2| |done|done|unfold WORDS; lia|done|].
  { cbn [a_bus set_bus]. rewrite P2, P1, P. unfold sending. destruct (Z.eqb_spec (Z.of_nat (S n)) 0); [lia|done]. }
  replace (Z.of_nat (S n) - 1) with (Z.of_nat n) in P3 by lia.
  rewrite (bind_run _ _ _ _ _ E3). cbn [a_bus set_bus] in *.
  destruct (IH (set_bus d3 s) (lba + 1)) as (d4 & E4 & S4 & P4); [done|apply S3|done|].
  cbn [a_bus set_bus] in *. rewrite (bind_run _ _ _ _ _ E4).
  pose proof (same_trans _ _ _ S1 S2) as S12. pose proof (same_trans _ _ _ S12 S3) as S13.
  exists d4. split_and!; [|by eapply same_trans|done].
  unfold mret, st_ret. rewrite contents_S. cbn [fmap option_fmap option_map].
  destruct S12 as (_ & _ & -> & _). by destruct S13 as (_ & _ & -> & _).
Qed.

Lemma ata_read_ok s lba n : ready s → 0 ≤ lba → 1 ≤ n < 256 → lba + n ≤ d_limit (a_bus s) → exists d',
  read_sectors lba n s = Ok (Some (contents (d_disk (a_bus s)) lba (Z.to_nat n)), set_bus d' s) ∧ ready (set_bus d' s) ∧
  d_disk d' = d_disk (a_bus s) ∧ d_limit d' = d_limit (a_bus s).
Proof.
  intros (Hi & Hs & Eb & W & P) Hl Hn Hlim. unfold read_sectors. st. rewrite Hi. cbn [negb].
  destruct (wait_not_busy_ok s Eb W) as (d1 & E1 & [(W1 & _ & D1 & L1) P1] & B1).
  rewrite (bind_run _ _ _ _ _ E1). cbn [negb]. st. cbn [m_is_slave set_bus]. rewrite Hs.
  destruct (select_ok (a_bus s) (set_bus d1 s) Eb) as (d2 & E2 & I2); [cbn [a_bus set_bus]; split_and!; [done|congruence|done..]|].
  rewrite (bind_run _ _ _ _ _ E2).
  destruct (set_up_ok _ (set_bus d2 s) lba n ATA_CMD_READ_SECTORS Eb I2) as (d3 & E3 & W3 & D3 & L3 & P3); [done..|by left|].
  rewrite (bind_run _ _ _ _ _ E3). cbn [Z.eqb] in P3. change (_ =? _) with true in P3. cbn iota in P3.
  destruct (read_loop_ok (Z.to_nat n) (set_bus d3 s) lba Eb W3) as (d4 & E4 & (W4 & _ & D4 & L4) & P4).
  { rewrite Z2Nat.id by lia. unfold sending. destruct (Z.eqb_spec n 0); [lia|done]. }
  cbn [a_bus set_bus] in *. exists d4. rewrite D3 in E4. split_and!; [exact E4|done|congruence|congruence].
Qed.

(** ** Writing *)

Lemma word_of lo hi : is_u8 lo → is_u8 hi →
  0 ≤ Z.lor lo (Z.shiftl hi 8) < 2 ^ 16 ∧ word_bytes (Z.lor lo (Z.shiftl hi 8)) = [lo; hi].
Proof.
  unfold is_u8. intros Hlo Hhi. rewrite Z.shiftl_mul_pow2, Z.lor_comm, lor_add_pow by lia. split; [lia|].
  unfold word_bytes. rewrite !(land_low _ 8) by done. rewrite Z.shiftr_div_pow2 by lia.
  repeat f_equal; Z.div_mod_to_equations; lia.
Qed.

Lemma words_bytes_snoc l w : words_bytes (l ++ [w]) = words_bytes l ++ word_bytes w.
Proof. unfold words_bytes. by rewrite fmap_app, concat_app. Qed.

Lemma take_S2 (l : list Z) i a b : l !! (i * 2)%nat = Some a → l !! (i * 2 + 1)%nat = Some b →
  take (S i * 2) l = take (i * 2) l ++ [a; b].
Proof.
  intros Ha Hb. replace (S i * 2)%nat with (S (S (i * 2))) by lia.
  rewrite (take_S_r _ _ b) by (rewrite <- Hb; f_equal; lia). rewrite (take_S_r _ _ a) by done. by rewrite <- app_assoc.
Qed.

Lemma write_words_ok n : ∀ s lba left words buffer, m_io_base s = ATA_PRIMARY_IO → d_wf (a_bus s) →
  d_phase (a_bus s) = Taking lba left words → d_busy (a_bus s) = 0%nat →
  Forall is_u8 buffer → (512 ≤ length buffer)%nat → words_bytes words = take (length words * 2) buffer →
  (0 < n)%nat → (length words + n = 256)%nat → exists d',
  write_words n (Z.of_nat (length words)) buffer s = Ok (tt, set_bus d' s) ∧ d_wf d' ∧
  d_phase d' = taking (lba + 1) (left - 1) ∧ d_limit d' = d_limit (a_bus s) ∧
  d_disk d' = λ k, if k =? lba then take 512 buffer else d_disk (a_bus s) k.
Proof.
  induction n as [|n IH]; intros s lba left words buffer Eb W P B Hu Hlen Hw Hn Hs; [lia|]. cbn [write_words].
  destruct (lookup_lt_is_Some_2 buffer (length words * 2)) as [lo Elo]; [lia|].
  destruct (lookup_lt_is_Some_2 buffer (length words * 2 + 1)) as [hi Ehi]; [lia|].
  assert (Alo : aget buffer (Z.of_nat (length words) * 2) = Ok lo) by (apply aget_Ok; split; [lia|rewrite <- Elo; f_equal; lia]).
  assert (Ahi : aget buffer (Z.of_nat (length words) * 2 + 1) = Ok hi) by (apply aget_Ok; split; [lia|rewrite <- Ehi; f_equal; lia]).
  rewrite (bind_lift _ _ _ _ Alo), (bind_lift _ _ _ _ Ahi).
  destruct (word_of lo hi) as [Hr Ewb]; [by eapply Forall_lookup_1|by eapply Forall_lookup_1|].
  set (v := Z.lor lo (Z.shiftl hi 8)) in *.
  assert (Ebytes : words_bytes (words ++ [v]) = take (S (length words) * 2) buffer).
  { rewrite words_bytes_snoc, Ewb, Hw. symmetry. by apply take_S2. }
  destruct (d_take _ _ _ _ v W P B) as (W1 & _ & L1 & Hp); [lia|done|].
  set (d1 := port_outw (ATA_PRIMARY_IO + ATA_DATA) v (a_bus s)) in *.
  assert (Ei : outw ATA_DATA v s = Ok (tt, set_bus d1 s)).
  { unfold outw. by rewrite Eb. }
  rewrite (bind_run _ _ _ _ _ Ei).
  destruct (Nat.eqb_spec (length words) 255) as [E255|Hne].
  - destruct n; [|lia]. destruct Hp as [P1 D1]. exists d1. rewrite E255 in Ebytes.
    split_and!; [done|done| |done|by rewrite D1, Ebytes].
    rewrite P1. unfold taking. destruct (Z.eqb_spec left 1), (Z.eqb_spec (left - 1) 0); done || lia.
  - destruct Hp as (P1 & B1 & D1).
    assert (El : length (words ++ [v]) = S (length words)) by (rewrite length_app; simpl; lia).
    destruct (IH (set_bus d1 s) lba left (words ++ [v]) buffer) as (d2 & E2 & W2 & P2 & L2 & D2);
      [done..|by rewrite El|lia|lia|].
    replace (Z.of_nat (length words) + 1) with (Z.of_nat (length (words ++ [v]))) by lia.
    rewrite E2. cbn [a_bus set_bus] in *. exists d2. split_and!; [done|done|done|congruence|by rewrite D2, D1].
Qed.

Lemma mem_write_S disk lba n buffer k :
  mem_write disk lba (Z.of_nat (S n)) buffer k =
  mem_write (λ k, if k =? lba then take 512 buffer else disk k) (lba + 1) (Z.of_nat n) (drop 512 buffer) k.
Proof.
  unfold mem_write.
  destruct (Z.leb_spec lba k), (Z.leb_spec (lba + 1) k), (Z.ltb_spec k (lba + Z.of_nat (S n))),
    (Z.ltb_spec k (lba + 1 + Z.of_nat n)), (Z.eqb_spec k lba); cbn [andb]; try lia; try done.
  - rewrite drop_drop. unfold SECTOR. f_equal. f_equal. lia.
  - subst. by rewrite Z.sub_diag, drop_0.
Qed.

Lemma write_loop_ok n : ∀ s lba buffer, m_io_base s = ATA_PRIMARY_IO → d_wf (a_bus s) →
  d_phase (a_bus s) = taking lba (Z.of_nat n) → Forall is_u8 buffer → (n * 512 ≤ length buffer)%nat → exists d',
  write_loop n buffer s = Ok (true, set_bus d' s) ∧ d_wf d' ∧ d_phase d' = Idle ∧ d_limit d' = d_limit (a_bus s) ∧
  ∀ k, d_disk d' k = mem_write (d_disk (a_bus s)) lba (Z.of_nat n) buffer k.
Proof.
  induction n as [|n IH]; intros s lba buffer Eb W P Hu Hlen; cbn [write_loop].
  { exists (a_bus s). destruct s. split_and!; [done..|]. intros k. unfold mem_write.
    destruct (Z.leb_spec lba k), (Z.ltb_spec k (lba + Z.of_nat 0)); done || lia. }
  destruct (wait_not_busy_ok s Eb W) as (d1 & E1 & [S1 P1] & B1). rewrite (bind_run _ _ _ _ _ E1). cbn [negb].
  destruct (wait_ready_ok (set_bus d1 s) Eb ltac:(apply S1) B1) as (d2 & E2 & [S2 P2] & B2).
  rewrite (bind_run _ _ _ _ _ E2). cbn [negb]. cbn [a_bus set_bus] in *.
  destruct (same_trans _ _ _ S1 S2) as (_ & _ & D12 & L12).
  destruct (write_words_ok WORDS (set_bus d2 s) lba (Z.of_nat (S n)) [] buffer) as (d3 & E3 & W3 & P3 & L3 & D3);
    [done|apply S2| |done|done|lia|done|unfold WORDS; lia|done|].
  { cbn [a_bus set_bus]. rewrite P2, P1, P. unfold taking. destruct (Z.eqb_spec (Z.of_nat (S n)) 0); [lia|done]. }
  change (Z.of_nat (length [])) with 0 in E3.
  replace (Z.of_nat (S n) - 1) with (Z.of_nat n) in P3 by lia.
  rewrite (bind_run _ _ _ _ _ E3). cbn [a_bus set_bus] in *.
  destruct (IH (set_bus d3 s) (lba + 1) (drop 512 buffer)) as (d4 & E4 & W4 & P4 & L4 & D4);
    [done|done|done|by apply Forall_drop|rewrite length_drop; lia|].
  cbn [a_bus set_bus] in *. exists d4. split_and!; [done|done|done|congruence|].
  intros k. by rewrite D4, mem_write_S, D3, D12.
Qed.

Lemma ata_write_ok s lba n buffer : ready s → 0 ≤ lba → 1 ≤ n < 256 → lba + n ≤ d_limit (a_bus s) →
  Forall is_u8 buffer → n * 512 ≤ Z.of_nat (length buffer) → exists d',
  write_sectors lba n buffer s = Ok (true, set_bus d' s) ∧ ready (set_bus d' s) ∧
  (∀ k, d_disk d' k = mem_write (d_disk (a_bus s)) lba n buffer k) ∧ d_limit d' = d_limit (a_bus s).
Proof.
  intros (Hi & Hs & Eb & W & P) Hl Hn Hlim Hu Hlen. unfold write_sectors. st. rewrite Hi. cbn [negb].
  destruct (wait_not_busy_ok s Eb W) as (d1 & E1 & [(W1 & _ & D1 & L1) P1] & B1).
  rewrite (bind_run _ _ _ _ _ E1). cbn [negb]. st. cbn [m_is_slave set_bus]. rewrite Hs.
  destruct (select_ok (a_bus s) (set_bus d1 s) Eb) as (d2 & E2 & I2); [cbn [a_bus set_bus]; split_and!; [done|congruence|done..]|].
  rewrite (bind_run _ _ _ _ _ E2).
  destruct (set_up_ok _ (set_bus d2 s) lba n ATA_CMD_WRITE_SECTORS Eb I2) as (d3 & E3 & W3 & D3 & L3 & P3); [done..|by right|].
  rewrite (bind_run _ _ _ _ _ E3). change (_ =? _) with false in P3. cbn iota in P3.
  destruct (write_loop_ok (Z.to_nat n) (set_bus d3 s) lba buffer Eb W3) as (d4 & E4 & W4 & P4 & L4 & D4);
    [|done|lia|].
  { rewrite Z2Nat.id by lia. unfold taking. destruct (Z.eqb_spec n 0); [lia|done]. }
  cbn [a_bus set_bus] in *. rewrite Z2Nat.id in D4 by lia. exists d4.
  split_and!; [done|done|intros k; by rewrite D4, D3|congruence].
Qed.

Lemma contents_written n : ∀ disk lba buffer, (n * 512 ≤ length buffer)%nat →
  contents (mem_write disk lba (Z.of_nat n) buffer) lba n = take (n * 512) buffer.
Proof.
  induction n as [|n IH]; intros disk lba buffer Hl; [done|]. rewrite contents_S.
  replace (S n * 512)%nat with (512 + n * 512)%nat by lia. rewrite <- take_take_drop. f_equal.
  - rewrite mem_write_S. unfold mem_write at 1. rewrite (proj2 (Z.leb_gt (lba + 1) lba)) by lia. cbn [andb].
    by rewrite Z.eqb_refl.
  - rewrite <- (IH (λ k, if k =? lba then take 512 buffer else disk k) (lba + 1)) by (rewrite length_drop; lia).
    unfold contents. f_equal. apply list_fmap_ext. intros i x _. apply mem_write_S.
Qed.

Lemma contents_ext disk disk' lba n : (∀ k, disk k = disk' k) → contents disk lba n = contents disk' lba n.
Proof. intros E. unfold contents. f_equal. apply list_fmap_ext. intros i x _. apply E. Qed.

(** On a drive that works, [read_sectors] gives the bytes of the sectors
    asked for, in order, and changes none. *)
Theorem read_sectors_spec s lba n : ready s → 0 ≤ lba → 1 ≤ n < 256 → lba + n ≤ d_limit (a_bus s) → exists s',
  read_sectors lba n s = Ok (Some (contents (d_disk (a_bus s)) lba (Z.to_nat n)), s') ∧ ready s' ∧
  d_disk (a_bus s') = d_disk (a_bus s).
Proof.
  intros Hr Hl Hn Hlim. destruct (ata_read_ok s lba n Hr Hl Hn Hlim) as (d' & E & R & D' & _).
  by exists (set_bus d' s).
Qed.

(** [C16] What [write_sectors] writes [read_sectors] reads back, and no other
    sector of the drive changes. *)
Theorem write_read_sectors s lba n buffer : ready s → 0 ≤ lba → 1 ≤ n < 256 → lba + n ≤ d_limit (a_bus s) →
  Forall is_u8 buffer → n * 512 ≤ Z.of_nat (length buffer) → exists s1 s2,
  write_sectors lba n buffer s = Ok (true, s1) ∧
  read_sectors lba n s1 = Ok (Some (take (Z.to_nat n * 512) buffer), s2) ∧ ready s2 ∧
  ∀ k, k < lba ∨ lba + n ≤ k → d_disk (a_bus s2) k = d_disk (a_bus s) k.
Proof.
  intros Hr Hl Hn Hlim Hu Hlen.
  destruct (ata_write_ok s lba n buffer Hr Hl Hn Hlim Hu Hlen) as (d1 & E1 & R1 & D1 & L1).
  destruct (ata_read_ok (set_bus d1 s) lba n R1 Hl Hn) as (d2 & E2 & R2 & D2 & _); [simpl; lia|].
  exists (set_bus d1 s), (set_bus d2 (set_bus d1 s)). cbn [a_bus set_bus] in *. split_and!; [done| |done|].
  - rewrite E2. do 3 f_equal. rewrite (contents_ext _ _ lba (Z.to_nat n) D1), <- (contents_written (Z.to_nat n) (d_disk (a_bus s)) lba) by lia.
    by rewrite Z2Nat.id by lia.
  - intros k Hk. rewrite D2, D1. unfold mem_write.
    destruct (Z.leb_spec lba k), (Z.ltb_spec k (lba + n)); done || lia.
Qed.

(** ** The block device of the file system *)

(** A call that does not end fails. *)
Definition ended {B} (fail : B) (s : CATADriver D) (m : outcome (B * CATADriver D)) : B * CATADriver D :=
  match m with Ok r => r | _ => (fail, s) end.

#[export] Instance ata_device : BlockDevice (CATADriver D) := {
  dev_initialize s := ended false s (initialize POLLS s);
  dev_read s lba n := ended None s (read_sectors lba n s);
  dev_write s lba n data := ended false s (write_sectors lba n data s)
}.

#[export] Program Instance ata_laws : DeviceLaws (CATADriver D) := {
  dev_ready := ready;
  dev_sector s := d_disk (a_bus s);
  dev_limit s := d_limit (a_bus s)
}.
Next Obligation. intros s (_ & _ & _ & W & _). pose proof (d_limit_bound _ W). lia. Qed.
Next Obligation. intros s k (_ & _ & _ & W & _). apply (d_sector _ k W). Qed.
Next Obligation. intros s k (_ & _ & _ & W & _). apply (d_sector _ k W). Qed.
Next Obligation.
  intros s Hr. exists s. split_and!; [|done..]. unfold dev_initialize, ata_device, initialize. st.
  destruct Hr as [-> _]. done.
Qed.
Next Obligation.
  intros s k Hr Hk. destruct (ata_read_ok s k 1 Hr) as (d' & E & R & D' & L'); [lia..|].
  exists (set_bus d' s). cbn [a_bus set_bus] in *. split_and!; [|done|done|by rewrite D'].
  unfold dev_read, ata_device. rewrite E. cbn [ended]. do 3 f_equal.
  change (Z.to_nat 1) with 1%nat. unfold contents. cbn. by rewrite app_nil_r, Z.add_0_r.
Qed.
Next Obligation.
  intros s k data Hr Hk Hl Hu. unfold SECTOR in Hl.
  destruct (ata_write_ok s k 1 data Hr) as (d' & E & R & D' & L'); [lia..|done|lia|].
  exists (set_bus d' s). cbn [a_bus set_bus] in *. split_and!; [|done|done|].
  - unfold dev_write, ata_device. by rewrite E.
  - intros j. rewrite D'. change 1 with (Z.of_nat 1). rewrite mem_write_S. unfold mem_write.
    destruct (Z.leb_spec (k + 1) j), (Z.ltb_spec j (k + 1 + Z.of_nat 0)); cbn [andb]; try lia;
      destruct (Z.eqb_spec j k); rewrite ?(take_ge data) by lia; done.
Qed.
End device.

(** ** A drive that keeps the protocol *)

Record DemoDrive := Demo { p_phase : phase; p_busy : nat; p_reg : Z → Z; p_disk : Z → list Z }.

Definition demo_status (d : DemoDrive) : Z :=
  if (0 <? p_busy d)%nat then ATA_STATUS_BSY
  else match p_phase d with Idle => ATA_STATUS_RDY | _ => Z.lor ATA_STATUS_RDY ATA_STATUS_DRQ end.

Definition demo_inb (p : Z) (d : DemoDrive) : Z * DemoDrive :=
  if p =? ATA_PRIMARY_IO + ATA_STATUS then (demo_status d, Demo (p_phase d) (Nat.pred (p_busy d)) (p_reg d) (p_disk d)) else (0, d).

Definition demo_word (l : list Z) : Z := match l with a :: b :: _ => a + b * 2 ^ 8 | _ => 0 end.

Definition demo_inw (p : Z) (d : DemoDrive) : Z * DemoDrive :=
  match p_phase d with
  | Sending lba n word =>
      (demo_word (drop (Z.to_nat word * 2) (p_disk d lba)),
       if word =? 255 then Demo (if n =? 1 then Idle else Sending (lba + 1) (n - 1) 0) 3 (p_reg d) (p_disk d)
       else Demo (Sending lba n (word + 1)) 0 (p_reg d) (p_disk d))
  | _ => (0, d)
  end.

Definition demo_outb (p v : Z) (d : DemoDrive) : DemoDrive :=
  if p =? ATA_PRIMARY_IO + ATA_COMMAND
  then Demo (if v =? ATA_CMD_READ_SECTORS then Sending (lba_of (p_reg d)) (p_reg d ATA_SECTOR_COUNT) 0
             else Taking (lba_of (p_reg d)) (p_reg d ATA_SECTOR_COUNT) []) 3 (p_reg d) (p_disk d)
  else Demo (p_phase d) (p_busy d) (λ k, if k =? p - ATA_PRIMARY_IO then v else p_reg d k) (p_disk d).

Definition demo_outw (p v : Z) (d : DemoDrive) : DemoDrive :=
  match p_phase d with
  | Taking lba n words =>
      if (length words =? 255)%nat
      then Demo (if n =? 1 then Idle else Taking (lba + 1) (n - 1) []) 3 (p_reg d)
             (λ s, if s =? lba then words_bytes (words ++ [v]) else p_disk d s)
      else Demo (Taking lba n (words ++ [v])) 0 (p_reg d) (p_disk d)
  | _ => d
  end.

#[export] Instance demo_ports : Ports DemoDrive :=
  {| port_inb := demo_inb; port_inw := demo_inw; port_outb := demo_outb; port_outw := demo_outw |}.

Definition demo_wf (d : DemoDrive) : Prop :=
  (p_busy d < POLLS)%nat ∧ ∀ s, length (p_disk d s) = SECTOR ∧ Forall is_u8 (p_disk d s).

Lemma small_polls n : (n <= 3)%nat → (n < POLLS)%nat.
Proof. unfold POLLS. lia. Qed.

Lemma words_bytes_length l : length (words_bytes l) = (length l * 2)%nat.
Proof. induction l as [|w l IH]; [done|]. change (words_bytes (w :: l)) with (word_bytes w ++ words_bytes l). rewrite length_app, IH. done. Qed.

Lemma words_bytes_u8 l : Forall is_u8 (words_bytes l).
Proof.
  induction l as [|w l IH]; [constructor|]. change (words_bytes (w :: l)) with (word_bytes w ++ words_bytes l).
  apply Forall_app. split; [|done]. repeat constructor; apply byte_land.
Qed.

Lemma demo_word_bytes l i : (i * 2 + 2 <= length l)%nat → Forall is_u8 l →
  word_bytes (demo_word (drop (i * 2) l)) = take 2 (drop (i * 2) l).
Proof.
  intros Hl Hu%(Forall_drop _ (i * 2)). destruct (drop (i * 2) l) as [|a [|b r]] eqn:E.
  1,2: apply (f_equal length) in E; rewrite length_drop in E; simpl in E; lia.
  inversion_clear Hu as [|? ? Ha Hu1]. inversion_clear Hu1 as [|? ? Hb _]. cbn [demo_word]. change (take 2 (a :: b :: r)) with [a; b].
  destruct (word_of a b Ha Hb) as [_ E2]. rewrite <- E2. f_equal. unfold is_u8 in *.
  rewrite Z.shiftl_mul_pow2, Z.lor_comm, lor_add_pow by lia. lia.
Qed.

#[export] Program Instance demo_ata : AtaDrive DemoDrive := {
  d_wf := demo_wf; d_phase := p_phase; d_busy := p_busy; d_reg := p_reg; d_disk := p_disk; d_limit _ := 2 ^ 28
}.
Next Obligation. simpl. lia. Qed.
Next Obligation. intros d s [_ Hd]. apply Hd. Qed.
Next Obligation. intros d [Hd _]. done. Qed.
Next Obligation.
  intros d [Hb Hd]. eexists _, _. unfold port_inb, demo_ports, demo_inb. rewrite Z.eqb_refl. split; [reflexivity|].
  cbn [p_phase p_busy p_reg p_disk]. split_and!; [|done..| |].
  - unfold demo_wf. cbn [p_busy p_disk]. split; [lia|done].
  - unfold demo_status. destruct (0 <? p_busy d)%nat; [done|]. by destruct (p_phase d).
  - intros E. unfold demo_status. rewrite E. by destruct (p_phase d).
Qed.
Next Obligation.
  intros d r v Hw Hp Hb Hr Hv. unfold ATA_SECTOR_COUNT, ATA_DRIVE_HEAD in Hr.
  unfold port_outb, demo_ports, demo_outb, ATA_COMMAND.
  destruct (Z.eqb_spec (ATA_PRIMARY_IO + r) (ATA_PRIMARY_IO + 7)); [lia|]. cbn [p_phase p_busy p_reg p_disk].
  split_and!; try done. intros k. by replace (ATA_PRIMARY_IO + r - ATA_PRIMARY_IO) with r by lia.
Qed.
Next Obligation.
  intros d c [Hw Hd] Hp Hb Hc _ _. unfold port_outb, demo_ports, demo_outb. rewrite Z.eqb_refl.
  cbn [p_phase p_busy p_reg p_disk]. split; [|by destruct Hc; subst].
  split_and!; try done. split; [by apply small_polls|done].
Qed.
Next Obligation.
  intros d lba left word [Hw Hd] Hp Hb Hr. eexists _, _. unfold port_inw, demo_ports, demo_inw. rewrite Hp.
  split; [reflexivity|]. split; [|split].
  - destruct (word =? 255); split_and!; try done; (split; [apply small_polls; simpl; lia|done]).
  - destruct (Hd lba) as [Hl Hu]. unfold SECTOR in Hl. apply demo_word_bytes; [lia|done].
  - by destruct (word =? 255).
Qed.
Next Obligation.
  intros d lba left words v [Hw Hd] Hp Hb Hl Hv. unfold port_outw, demo_ports, demo_outw. rewrite Hp.
  destruct (Nat.eqb_spec (length words) 255) as [E|]; cbn [p_phase p_busy p_reg p_disk]; (split; [|done]);
    (split; [apply small_polls; simpl; lia|]); cbn [p_disk]; [|done].
  intros s. destruct (s =? lba); [|apply Hd]. split; [|apply words_bytes_u8].
  rewrite words_bytes_length, length_app, E. done.
Qed.

Definition demo_blank : Terminal := Term (replicate CELLS 0) 0 0 7 0 0 0 (Saved [] 0 0 0) 0.

(** An initialised driver of a drive whose sector [k] holds [k mod 256]. *)
Definition demo_ata_driver : CATADriver DemoDrive :=
  set_ready (new_driver demo_blank (Demo Idle 2 (λ _, 0) (λ k, replicate 512 (k `mod` 256)))).

Lemma demo_ready : ready demo_ata_driver.
Proof.
  split_and!; try done. split; [apply small_polls; simpl; lia|]. intros s.
  change (p_disk _ s) with (replicate 512 (s `mod` 256)). rewrite length_replicate. split; [done|].
  apply Forall_replicate. unfold is_u8. pose proof (Z.mod_pos_bound s 256). lia.
Qed.

Lemma read_sectors_spec_witness : exists s', read_sectors 7 2 demo_ata_driver =
  Ok (Some (contents (λ k, replicate 512 (k `mod` 256)) 7 2), s').
Proof.
  destruct (read_sectors_spec demo_ata_driver 7 2 demo_ready) as (s' & E & _); [lia|lia|done|]. exists s'. exact E.
Defined.

Lemma write_read_sectors_witness : exists s1 s2,
  write_sectors 9 2 (replicate 1024 0xAA) demo_ata_driver = Ok (true, s1) ∧
  read_sectors 9 2 s1 = Ok (Some (replicate 1024 0xAA), s2) ∧ d_disk (a_bus s2) 8 = replicate 512 8.
Proof.
  destruct (write_read_sectors demo_ata_driver 9 2 (replicate 1024 0xAA) demo_ready) as (s1 & s2 & E1 & E2 & _ & D);
    [lia|lia|done|apply Forall_replicate; done|rewrite length_replicate; lia|].
  exists s1, s2. split_and!; [exact E1| |rewrite D; [done|lia]].
  rewrite E2. change (Z.to_nat 2 * 512)%nat with 1024%nat. rewrite take_ge; [done|]. rewrite length_replicate. lia.
Defined.
