(* ===== verification/Mount.v ===== *)
(** * Mounting a volume (mount of src/kernel/src/fs/fat32.cpp, over
      src/kernel/src/drivers/ata.cpp)

    What the boot sector and the information sector of a disk must say for
    [mount] to succeed, the volume it then finds there, and what it leaves when it
    does not; and files through the whole stack, from the file system over the
    driver to the ports of a drive. *)

From S2P Require Import Prelude CStr Disk Ata Fat32 Fat32Fat Fat32File.

(** ** What a disk holds *)

Definition total_sectors (b : SFat32BPB) : Z :=
  if negb (m_totalSectors16 b =? 0) then m_totalSectors16 b else m_totalSectors32 b.

(** The first data sector and the number of clusters. *)
Definition data_start (b : SFat32BPB) : Z := m_reservedSectorCount b + m_tableCount b * m_tableSize32 b.
Definition cluster_count (b : SFat32BPB) : Z := (total_sectors b - data_start b) / m_sectorsPerCluster b.

(** A FAT32 volume that fits on a disk of [limit] sectors. *)
Record fat32_boot (b : SFat32BPB) (limit : Z) : Prop := {
  fb_bps : m_bytesPerSector b = 512;
  fb_spc : 1 ≤ m_sectorsPerCluster b ∧ power_of_two_or_zero (m_sectorsPerCluster b) = true;
  fb_reserved : 1 ≤ m_reservedSectorCount b;
  fb_tables : 1 ≤ m_tableCount b;
  fb_size16 : m_tableSize16 b = 0;
  fb_size : 1 ≤ m_tableSize32 b;
  fb_root : m_rootEntryCount b = 0;
  fb_signature : m_bootSignature b = 0x28 ∨ m_bootSignature b = 0x29;
  fb_total : data_start b < total_sectors b ≤ limit;
  fb_clusters : cluster_count b ≤ 2 ^ 27;
  fb_entries : cluster_count b + 2 ≤ m_tableSize32 b * 128 }.

(** The information sector is absent or has its signatures. *)
Definition info_signatures (l : list Z) : Prop :=
  le32 l 0 = 0x41615252 ∧ le32 l 484 = 0x61417272 ∧ le32 l 508 = 0xAA550000.

Definition info_ok (b : SFat32BPB) (sector : Z → list Z) (limit : Z) : Prop :=
  m_fsInfo_sector b = 0 ∨ 0 < m_fsInfo_sector b < limit ∧ info_signatures (sector (m_fsInfo_sector b)).

(** The first sector [mount] gives an empty root directory. *)
Definition dot_sector : list Z :=
  ok_or [] (b ← mount_dot_entry (replicate 512 0) 0 (dot :: replicate 10 space);
            mount_dot_entry b 32 (dot :: dot :: replicate 9 space)).

Definition root_sector (l : list Z) : list Z := if nthz l 0 =? 0 then dot_sector else l.

Section mount.
Context {D : Type} {HD : BlockDevice D} {HL : DeviceLaws D}.
Implicit Types s : CFat32FileSystem D.

(** The volume of a boot sector. *)
Definition volume_of s (b : SFat32BPB) : CFat32FileSystem D :=
  set_volume s b (m_fsInfo s) (data_start b) (total_sectors b - data_start b) (cluster_count b) (m_reservedSectorCount b).

Lemma volume_of_wf s b : dev_ready (m_disk s) → fat32_boot b (dev_limit (m_disk s)) → volume_wf (volume_of s b).
Proof.
  intros Hr [Hb [Hs _] Hre Ht H16 Hz _ _ Htot Hc He]. pose proof (dev_limit_bound _ Hr).
  assert (Hcl : cluster_count b * m_sectorsPerCluster b ≤ total_sectors b - data_start b).
  { unfold cluster_count. rewrite Z.mul_comm. apply Z.mul_div_le. lia. }
  assert (0 ≤ cluster_count b) by (apply Z.div_pos; lia).
  constructor; try done; unfold fat_copies, fat_sectors, spc; cbn; try lia.
Qed.

Lemma initialize_ok s l b limit : read_bpb l = Ok b → fat32_boot b limit → limit ≤ 2 ^ 32 →
  initialize l s = Ok (true, volume_of s b).
Proof.
  intros E [Hb [Hs Hp] Hre Ht H16 Hz Hroot Hsig Htot _ _] Hlim. unfold initialize.
  rewrite (bind_lift _ _ _ _ E). st.
  assert (Hf : fat_size b = m_tableSize32 b) by (unfold fat_size; by rewrite H16).
  assert (Hv : validateBootSector b = true).
  { unfold validateBootSector. rewrite Hf, Hb, Hp. cbn [Z.eqb orb negb]. change (power_of_two_or_zero 512) with true. cbn [negb].
    rewrite (proj2 (Z.eqb_neq (m_sectorsPerCluster b) 0)), (proj2 (Z.eqb_neq (m_reservedSectorCount b) 0)), (proj2 (Z.eqb_neq (m_tableCount b) 0)),
      (proj2 (Z.eqb_neq (m_tableSize32 b) 0)) by lia. cbn [orb]. destruct Hsig as [-> | ->]; done. }
  rewrite Hv, Hf. cbn [negb]. st. fold (total_sectors b). rewrite Hb, Hroot. change (u32 ((0 * 32 + (512 - 1)) / 512)) with 0.
  assert (Hp0 : 0 ≤ m_tableCount b * m_tableSize32 b) by nia.
  assert (Hd : u32 (m_reservedSectorCount b + u32 (m_tableCount b * m_tableSize32 b) + 0) = data_start b).
  { unfold data_start in *. rewrite (u32_small (_ * _)) by lia. rewrite u32_small by lia. lia. }
  assert (1 ≤ data_start b) by (unfold data_start; lia). rewrite Hd, (u32_small (_ - _)) by lia. done.
Qed.

(** The boot sector is read before anything is known of the disk. *)
Lemma read_boot s : dev_ready (m_disk s) → 0 < dev_limit (m_disk s) → exists s1 s2,
  ata_initialize s = Ok (true, s1) ∧ ata_read 0 1 s1 = Ok (Some (contents s 0), s2) ∧ same_disk s s2.
Proof.
  intros Hr Hl. destruct (dev_initialize_law _ Hr) as (d1 & E1 & R1 & L1 & C1).
  destruct (dev_read_law d1 0 R1 ltac:(lia)) as (d2 & E2 & R2 & L2 & C2). exists (set_disk s d1), (set_disk s d2). split_and!.
  - unfold ata_initialize. by rewrite E1.
  - unfold ata_read. cbn [m_disk set_disk]. by rewrite E2, C1.
  - constructor; [done|done|cbn; congruence|]. intros k. unfold contents. cbn. by rewrite C2, C1.
Qed.

(** Its bytes, stored in the array on the stack. *)
Lemma store_boot s k : dev_ready (m_disk s) → store (replicate 512 0) (contents s k) = Ok (contents s k).
Proof.
  intros Hr. pose proof (dev_sector_length (m_disk s) k Hr) as Hl. change (length (contents s k) = 512%nat) in Hl.
  unfold store. rewrite put_ok by (rewrite ?length_replicate; lia). rewrite Hl. cbn [Z.to_nat take app].
  rewrite drop_ge by (rewrite length_replicate; lia). by rewrite app_nil_r.
Qed.

(** Volumes that agree but for the disk's and the counters' state. *)
Definition same_volume s s' : Prop :=
  volume_wf s' ∧ m_bpb s' = m_bpb s ∧ m_firstDataSector s' = m_firstDataSector s ∧ m_totalClusters s' = m_totalClusters s ∧
  m_firstFatSector s' = m_firstFatSector s ∧ dev_limit (m_disk s') = dev_limit (m_disk s).

Lemma disk_is_volume s s' f : disk_is s s' f → volume_wf s → same_volume s s'.
Proof. intros Hd Hs. split; [by eapply disk_is_wf|]. pose proof (di_limit _ _ _ Hd). rewrite (di_rest _ _ _ Hd) at 1 2 3 4. done. Qed.

Lemma same_volume_trans s1 s2 s3 : same_volume s1 s2 → same_volume s2 s3 → same_volume s1 s3.
Proof. intros (_ & ? & ? & ? & ? & ?) (? & ? & ? & ? & ? & ?). split_and!; try done; congruence. Qed.

Lemma readFSInfo_ok s : volume_wf s → info_ok (m_bpb s) (contents s) (dev_limit (m_disk s)) → exists s',
  readFSInfo s = Ok (true, s') ∧ same_volume s s' ∧ ∀ k, contents s' k = contents s k.
Proof.
  intros Hs Hi. unfold readFSInfo. st. destruct Hi as [E|[Hl (E0 & E1 & E2)]].
  { rewrite E. cbn. exists s. split; [done|]. by split. }
  rewrite (proj2 (Z.eqb_neq _ 0)) by lia. st. rewrite (vw_bps s Hs).
  destruct (readSector_ok s Hs (m_fsInfo_sector (m_bpb s)) (replicate 512 0) ltac:(lia) ltac:(by rewrite length_replicate)) as (s1 & Er & Hd).
  rewrite (bind_run _ _ _ _ _ Er). pose proof (sector_length s Hs (m_fsInfo_sector (m_bpb s))) as Hlen.
  assert (E32 : ∀ o, 0 ≤ o → o + 4 ≤ 512 → get32 (contents s (m_fsInfo_sector (m_bpb s))) o = Ok (le32 (contents s (m_fsInfo_sector (m_bpb s))) o)).
  { intros o H0 H4. apply get32_ok; lia. }
  rewrite (bind_lift _ _ _ _ (E32 0 ltac:(lia) ltac:(lia))), (bind_lift _ _ _ _ (E32 484 ltac:(lia) ltac:(lia))),
    (bind_lift _ _ _ _ (E32 488 ltac:(lia) ltac:(lia))), (bind_lift _ _ _ _ (E32 492 ltac:(lia) ltac:(lia))), (bind_lift _ _ _ _ (E32 508 ltac:(lia) ltac:(lia))).
  rewrite E0, E1, E2. cbn [Z.eqb Pos.eqb negb orb]. st. eexists. split; [reflexivity|]. pose proof (disk_is_volume _ _ _ Hd Hs) as (Hw & V).
  split; [|exact (di_contents _ _ _ Hd)]. split; [|exact V]. by destruct Hw; constructor.
Qed.

Lemma dot_sector_ok l : length l = 512%nat → (b ← memset l 0 512; b ← mount_dot_entry b 0 (dot :: replicate 10 space);
  mount_dot_entry b 32 (dot :: dot :: replicate 9 space)) = Ok dot_sector ∧ length dot_sector = 512%nat ∧ Forall is_u8 dot_sector.
Proof.
  intros Hl. rewrite memset_ok by lia. rewrite drop_ge, app_nil_r by lia. change (u8 0) with 0.
  split; [vm_compute; reflexivity|]. split; [vm_compute; reflexivity|].
  apply Forall_forall. intros x Hx. revert x Hx. apply Forall_forall. vm_compute. repeat (constructor; [by split|]). constructor.
Qed.

(** Mounting a disk that holds a FAT32 volume: the volume is what the boot sector
    says and in order, and nothing on the disk changes but an empty root directory,
    which gets its two first entries. *)
Lemma mount_ok s b : dev_ready (m_disk s) → read_bpb (contents s 0) = Ok b → fat32_boot b (dev_limit (m_disk s)) →
  1 ≤ cluster_count b → info_ok b (contents s) (dev_limit (m_disk s)) → exists s',
  mount s = Ok (true, s') ∧ same_volume (volume_of s b) s' ∧
  ∀ k, contents s' k = if k =? data_start b then root_sector (contents s k) else contents s k.
Proof.
  intros Hr Eb Hb Hc Hi. pose proof Hb as [Hbps Hspc Hre Ht H16 Hz _ _ Htot _ _].
  assert (Hds : 0 < data_start b) by (unfold data_start; nia).
  destruct (read_boot s Hr ltac:(lia)) as (s1 & s2 & E1 & E2 & Hd2). unfold mount.
  rewrite (bind_run _ _ _ _ _ E1). cbn [negb]. rewrite (bind_run _ _ _ _ _ E2).
  rewrite (bind_lift _ _ _ _ (store_boot s 0 Hr)).
  pose proof (di_limit _ _ _ Hd2) as Hlim2. pose proof (dev_limit_bound _ Hr) as Hlb.
  rewrite (bind_run _ _ _ _ _ (initialize_ok s2 _ b _ Eb Hb Hlb)). cbn [negb].
  assert (W2 : volume_wf (volume_of s2 b)) by (apply volume_of_wf; [apply Hd2|by rewrite Hlim2]).
  assert (V2 : same_volume (volume_of s b) (volume_of s2 b)) by (split; [done|]; by split_and!).
  destruct (readFSInfo_ok (volume_of s2 b) W2) as (s3 & E3 & V3 & C3).
  { cbn. unfold volume_of, set_volume, contents. cbn. rewrite Hlim2. destruct Hi as [Hi|[Hi1 Hi2]]; [by left|right]. split; [done|].
    pose proof (di_contents _ _ _ Hd2) as Hc2. unfold contents in Hc2. by rewrite Hc2. }
  rewrite (bind_run _ _ _ _ _ E3). cbn [negb]. pose proof (same_volume_trans _ _ _ V2 V3) as V. pose proof V as (W3 & B3 & F3 & T3 & _ & L3). cbn in B3, F3, T3, L3.
  assert (C : ∀ k, contents s3 k = contents s k) by (intros k; rewrite C3; exact (di_contents _ _ _ Hd2 k)).
  st. rewrite (vw_bps s3 W3), F3. change (u32 (2 - 2)) with 0. change (u32 (ROOT_CLUSTER - 2)) with 0. rewrite Z.mul_0_l. change (u32 0) with 0. rewrite Z.add_0_l, u32_small by lia.
  destruct (readSector_ok s3 W3 (data_start b) (replicate (Z.to_nat 512) 0)) as (s4 & E4 & Hd4); [lia|by rewrite length_replicate|].
  rewrite (bind_run _ _ _ _ _ E4). pose proof (sector_length s3 W3 (data_start b)) as Hlr.
  rewrite (bind_lift _ (nthz (contents s3 (data_start b)) 0)) by (apply aget_nthz_ok; lia).
  pose proof (disk_is_volume _ _ _ Hd4 W3) as V4. pose proof (same_volume_trans _ _ _ V V4) as V04. pose proof V4 as (W4 & _).
  st. rewrite (vw_bps s4 W4). rewrite C in *. unfold root_sector. destruct (nthz (contents s (data_start b)) 0 =? 0) eqn:Er; cycle 1.
  { exists s4. split; [done|]. split; [done|]. intros k. rewrite (di_contents _ _ _ Hd4), C. destruct (Z.eqb_spec k (data_start b)) as [->|]; [by rewrite Er|done]. }
  destruct (dot_sector_ok (contents s (data_start b)) Hlr) as (Edot & Hdl & Hdu). apply bind_Ok_inv in Edot as (b1 & Eb1 & Edot). apply bind_Ok_inv in Edot as (b2 & Eb2 & Eb3).
  change (Z.to_nat 512) with 512%nat. rewrite (bind_lift _ _ _ _ Eb1), (bind_lift _ _ _ _ Eb2), (bind_lift _ _ _ _ Eb3).
  destruct (diskWrite_ok s4 W4 (data_start b) dot_sector) as (s5 & E5 & Hd5); [destruct V04 as (_ & _ & _ & _ & _ & L4); cbn in L4; lia|done|done|].
  exists s5. split; [exact E5|]. split; [by eapply same_volume_trans; [exact V04|eapply disk_is_volume]|].
  intros k. rewrite (di_contents _ _ _ Hd5), (di_contents _ _ _ Hd4), C. destruct (Z.eqb_spec k (data_start b)) as [->|]; [by rewrite Er|done].
Qed.

(** A disk whose boot sector is not one is not mounted, and not written to; its
    parameters are in the object nevertheless. *)
Lemma mount_invalid s b : dev_ready (m_disk s) → 0 < dev_limit (m_disk s) → read_bpb (contents s 0) = Ok b → validateBootSector b = false →
  exists s', mount s = Ok (false, s') ∧ m_bpb s' = b ∧ ∀ k, contents s' k = contents s k.
Proof.
  intros Hr Hl Eb Hv. destruct (read_boot s Hr Hl) as (s1 & s2 & E1 & E2 & Hd2). unfold mount.
  rewrite (bind_run _ _ _ _ _ E1). cbn [negb]. rewrite (bind_run _ _ _ _ _ E2).
  rewrite (bind_lift _ _ _ _ (store_boot s 0 Hr)).
  assert (Ei : initialize (contents s 0) s2 = Ok (false, set_volume s2 b (m_fsInfo s2) (m_firstDataSector s2) (m_dataSectors s2) (m_totalClusters s2) (m_firstFatSector s2))).
  { unfold initialize. rewrite (bind_lift _ _ _ _ Eb). st. by rewrite Hv. }
  rewrite (bind_run _ _ _ _ _ Ei). cbn [negb]. eexists. split; [reflexivity|]. split; [done|]. exact (di_contents _ _ _ Hd2).
Qed.

(** [C17] Mounting a disk whose boot sector describes a FAT32 volume that fits on it
    succeeds: the volume is in order, its places are the ones the boot sector gives,
    and no sector changes but that of an empty root directory, which gets its first
    two entries. *)
Theorem mount_spec s b : dev_ready (m_disk s) → read_bpb (contents s 0) = Ok b → fat32_boot b (dev_limit (m_disk s)) →
  1 ≤ cluster_count b → info_ok b (contents s) (dev_limit (m_disk s)) → exists s',
  mount s = Ok (true, s') ∧ volume_wf s' ∧ m_bpb s' = b ∧ m_firstFatSector s' = m_reservedSectorCount b ∧
  m_firstDataSector s' = data_start b ∧ m_totalClusters s' = cluster_count b ∧
  forall k, contents s' k = if k =? data_start b then root_sector (contents s k) else contents s k.
Proof.
  intros Hr Eb Hb Hc Hi. destruct (mount_ok s b Hr Eb Hb Hc Hi) as (s' & E & (W & B & F & T & R & _) & C). exists s'. by split_and!.
Qed.

(** Mounting a disk whose boot sector is not valid fails and writes nothing; its
    fields are in the object all the same. *)
Theorem mount_rejects s b : dev_ready (m_disk s) → 0 < dev_limit (m_disk s) → read_bpb (contents s 0) = Ok b → validateBootSector b = false →
  exists s', mount s = Ok (false, s') ∧ m_bpb s' = b ∧ forall k, contents s' k = contents s k.
Proof. apply mount_invalid. Qed.

(** The chains on the disk are those of the mounted volume. *)
Lemma mounted_chain s b s' c l : fat32_boot b (dev_limit (m_disk s)) → same_volume (volume_of s b) s' →
  (∀ k, k ≠ data_start b → contents s' k = contents s k) → data_clusters (volume_of s b) l →
  fat_chain (fat_entry (volume_of s b)) c l → fat_chain (fat_entry s') c l ∧ data_clusters s' l.
Proof.
  intros Hb (_ & B & F & T & R & _) C Hl Hch. cbn in B, F, T, R. split; cycle 1.
  { eapply Forall_impl; [exact Hl|]. intros x. unfold data_cluster. cbn. by rewrite T. }
  eapply fat_chain_ext; [|exact Hch]. intros x Hx. unfold fat_entry, fat_sector. rewrite R. cbn. rewrite C; [done|].
  pose proof (proj1 (Forall_forall _ _) Hl x Hx) as Hdx. unfold data_cluster in Hdx. cbn in Hdx. pose proof (fb_entries _ _ Hb). pose proof (fb_size _ _ Hb).
  pose proof (fb_tables _ _ Hb). assert (x / 128 < m_tableSize32 b) by (apply Z.div_lt_upper_bound; lia). unfold data_start. nia.
Qed.
End mount.

(** ** Files on a drive *)

Section drive.
Context {D : Type} {HP : Ports D} {HA : AtaDrive D}.
Implicit Types s : CFat32FileSystem (CATADriver D).

End drive.

(** ** Witnesses *)

(** A boot sector of a volume with one table of one sector and a hundred clusters,
    and the table: the root directory, and a file of the clusters 3 and 4. *)
Definition boot1 : list Z :=
  replicate 11 0 ++ [0; 2; 1; 1; 0; 1; 0; 0; 0; 0; 0; 0; 0] ++ replicate 8 0 ++ [102; 0; 0; 0; 1; 0; 0; 0; 0; 0; 0; 0; 2; 0; 0; 0; 0; 0; 0; 0] ++
  replicate 14 0 ++ [0x29] ++ replicate 445 0.
Definition table1 : list Z :=
  [248; 255; 255; 15; 255; 255; 255; 15; 248; 255; 255; 15; 4; 0; 0; 0; 248; 255; 255; 15] ++ replicate 492 0.
Definition boot_disk : Z → list Z := λ k, if k =? 0 then boot1 else if k =? 1 then table1 else replicate 512 0.
Definition drive1 : CATADriver DemoDrive := set_ready (new_driver demo_blank (Demo Idle 2 (λ _, 0) boot_disk)).
Definition unmounted {D} (d : D) : CFat32FileSystem D := Fat32 [] 1 zero_bpb (FSInfo 0 0) 0 0 0 0 root_path root_path 2 d.
Definition bpb1 : SFat32BPB := ok_or zero_bpb (read_bpb boot1).

Lemma bytes_u8 l : forallb (λ c, (0 <=? c) && (c <? 256)) l = true → Forall is_u8 l.
Proof. rewrite forallb_forall. intros H. apply Forall_forall. intros x Hx%list_elem_of_In. specialize (H x Hx). unfold is_u8. lia. Qed.

Lemma boot_disk_ready : mem_ready boot_disk.
Proof.
  intros k. unfold boot_disk. destruct (k =? 0); [split; [done|]; by apply bytes_u8|]. destruct (k =? 1); (split; [done|]; by apply bytes_u8).
Qed.

Lemma drive1_ready : ready drive1.
Proof. split_and!; try done. split; [apply small_polls; simpl; lia|]. exact boot_disk_ready. Qed.

Lemma bpb1_boot : fat32_boot bpb1 (2 ^ 28).
Proof. constructor; try (by vm_compute); try (left; by vm_compute); try (right; by vm_compute). Qed.

Lemma mount_spec_witness : exists s', mount (unmounted (boot_disk : MemDisk)) = Ok (true, s') ∧ m_firstDataSector s' = 2 ∧ contents s' 2 = dot_sector.
Proof.
  destruct (mount_spec (HL := mem_laws) (unmounted (boot_disk : MemDisk)) bpb1 boot_disk_ready eq_refl bpb1_boot) as (s' & E & _ & _ & _ & F & _ & C); [by vm_compute|by left|].
  exists s'. split; [exact E|]. split; [exact F|]. rewrite C. by vm_compute.
Defined.

Lemma mount_rejects_witness : exists s', mount (unmounted ((λ _, replicate 512 0) : MemDisk)) = Ok (false, s').
Proof.
  destruct (mount_rejects (HL := mem_laws) (unmounted ((λ _, replicate 512 0) : MemDisk)) (ok_or zero_bpb (read_bpb (replicate 512 0)))) as (s' & E & _).
  - intros k. split; [done|]. by apply bytes_u8.
  - done.
  - by vm_compute.
  - by vm_compute.
  - exists s'. exact E.
Defined.

Lemma drive1_chain : fat_chain (fat_entry (volume_of (unmounted drive1) bpb1)) 3 [3; 4].
Proof.
  assert (E3 : fat_entry (volume_of (unmounted drive1) bpb1) 3 = 4) by (vm_compute; reflexivity).
  assert (E4 : fat_entry (volume_of (unmounted drive1) bpb1) 4 = END_OF_CHAIN) by (vm_compute; reflexivity).
  cbn [fat_chain]. rewrite E3. split; [done|]. rewrite E4. done.
Qed.

Lemma drive1_clusters : data_clusters (volume_of (unmounted drive1) bpb1) [3; 4].
Proof. repeat (constructor; [unfold data_cluster; split; [lia|by vm_compute]|]). constructor. Qed.

