(* ===== verification/VmmBoot.v ===== *)
(** * Page tables at boot (VirtualMemoryManager::initialize and
      load_page_directory, src/kernel/src/memory/virtual_memory.cpp)

    The two operations with all they write: the cells of the VGA memory, by their
    number from 0xB8000 on, and the control registers.  [vmm_initialize] of Vmm.v is
    the first without its text, and [initialize_is_vmm_initialize] says so. *)

From Stdlib Require Strings.String.
From Stdlib Require Import (notations) Strings.String.
From S2P Require Import Prelude Pmm Vmm CStr.

#[local] Open Scope Z_scope.

Record VmmBoot := Vb {
  vb_vm : VirtualMemoryManager;
  vb_cells : list (Z * Z);
  vb_cr0 : Z;
  vb_cr3 : Z;
  vb_cr4 : Z
}.

#[local] Abbreviation V := (ST VmmBoot).

Definition vb_write (l : list (Z * Z)) (s : VmmBoot) : VmmBoot := Vb (vb_vm s) (vb_cells s ++ l) (vb_cr0 s) (vb_cr3 s) (vb_cr4 s).
Definition vb_put (vm : VirtualMemoryManager) (s : VmmBoot) : VmmBoot := Vb vm (vb_cells s) (vb_cr0 s) (vb_cr3 s) (vb_cr4 s).
Definition vb_control (cr0 cr3 cr4 : Z) (s : VmmBoot) : VmmBoot := Vb (vb_vm s) (vb_cells s) cr0 cr3 cr4.

(** [vga[i + offset + line * 80] = attribute | text[i]] *)
Definition cells (attribute start : Z) (l : list Z) : list (Z * Z) :=
  imap (λ i c, (Z.of_nat i + start, Z.lor attribute c)) l.

Definition write_debug (attribute : Z) (msg : String.string) (line offset : Z) : V unit :=
  modify (vb_write (cells attribute (offset + line * 80) (text msg))).

Definition hex_char (digit : Z) : Z := if digit <? 10 then 0x30 + digit else 0x41 + digit - 10.

(** The sixteen digits of a value, the highest first. *)
Definition hex_digits (value : Z) : list Z :=
  map (λ i, hex_char (Z.land (Z.shiftr value (Z.of_nat i * 4)) 0xF)) (rev (seq 0 16)).

Definition write_hex (value line offset : Z) : V unit :=
  modify (vb_write (cells 0x0200 (offset + line * 80) (hex_digits value))).

Definition on_tables (f : VirtualMemoryManager → outcome VirtualMemoryManager) : V unit := λ s,
  vm ← f (vb_vm s); Ok (tt, vb_put vm s).
Definition new_table : V Z := λ s, '(a, vm) ← create_page_table (vb_vm s); Ok (a, vb_put vm s).
Definition read_entry (table index : Z) : V Z := λ s, v ← rd_pte (vb_vm s) table index; Ok (v, s).

(** ** initialize *)

#[local] Abbreviation debug := (write_debug 0x0200).

(** One of the eight 2 MB entries, and its line. *)
Definition map_huge_line (pd i : Z) : V unit :=
  let v := set_huge_page 0 true in
  let v := set_address v (i * 0x200000) in
  let v := set_user (set_writable (set_present v true) true) false in
  on_tables (λ vm, wr_pte vm pd i v);;
  debug "VMM: PD["%string (22 + i) 0;;
  write_hex i (22 + i) 8;;
  debug "] PA: "%string (22 + i) 10;;
  v ← read_entry pd i;
  write_hex (address v) (22 + i) 15;;
  debug " Flags: "%string (22 + i) 32;;
  debug (if present v then "P" else "-")%string (22 + i) 40;;
  debug (if writable v then "W" else "-")%string (22 + i) 41;;
  debug (if huge_page v then "H" else "-")%string (22 + i) 42.

Fixpoint map_huge_lines (n : nat) (i pd : Z) : V unit :=
  match n with
  | O => mret tt
  | S n' => map_huge_line pd i;; map_huge_lines n' (i + 1) pd
  end.

Fixpoint verify_lines (n : nat) (i pd : Z) : V unit :=
  match n with
  | O => mret tt
  | S n' =>
      v ← read_entry pd i;
      (if negb (present v) then
         debug "VMM: ERROR - PD entry not present: "%string (32 + i) 0;; write_hex i (32 + i) 30
       else if negb (huge_page v) then
         debug "VMM: ERROR - PD entry not huge page: "%string (32 + i) 0;; write_hex i (32 + i) 35
       else
         debug "VMM: PD["%string (32 + i) 0;; write_hex i (32 + i) 8;;
         debug "] OK - PA: "%string (32 + i) 10;; write_hex (address v) (32 + i) 20);;
      verify_lines n' (i + 1) pd
  end.

(** [initialize] with the root allocated. *)
Definition lower (pml4 : Z) : V unit :=
  debug "VMM: PML4 at: "%string 16 0;; write_hex pml4 16 12;;
  on_tables (λ vm, zero_table vm pml4);;
  debug "VMM: PML4 cleared"%string 17 0;;
  pdpt ← new_table;
  if pdpt =? 0 then debug "VMM: Failed to allocate PDPT!"%string 18 0 else
  debug "VMM: PDPT at: "%string 18 0;; write_hex pdpt 18 12;;
  on_tables (λ vm, wr_pte vm pml4 0 (table_entry 0 pdpt));;
  debug "VMM: PML4[0] value: "%string 19 0;;
  v ← read_entry pml4 0;
  write_hex v 19 16;;
  pd ← new_table;
  if pd =? 0 then debug "VMM: Failed to allocate PD!"%string 20 0 else
  debug "VMM: PD at: "%string 20 0;; write_hex pd 20 12;;
  on_tables (λ vm, wr_pte vm pdpt 0 (pdpt_entry pd));;
  debug "VMM: PDPT[0] value: "%string 21 0;;
  v ← read_entry pdpt 0;
  write_hex v 21 16;;
  debug " Flags: "%string 21 35;;
  debug (if present v then "P " else "- ")%string 21 43;;
  debug (if writable v then "W " else "- ")%string 21 45;;
  map_huge_lines 8 0 pd;;
  debug "VMM: Verifying page mappings"%string 31 0;;
  verify_lines 8 0 pd;;
  debug "VMM: First 16MB mapped with 2MB pages"%string 30 0;;
  kernel_pdpt ← new_table;
  if kernel_pdpt =? 0 then debug "VMM: Failed to allocate kernel PDPT!"%string 31 0 else
  v ← read_entry pml4 511;
  on_tables (λ vm, wr_pte vm pml4 511 (table_entry v kernel_pdpt));;
  debug "VMM: Kernel PDPT created"%string 32 0;;
  on_tables (λ vm, map_page vm 0xB8000 0xB8000 true);;
  debug "VMM: VGA buffer mapped"%string 33 0;;
  debug "VMM: Initialization complete"%string 34 0.

Definition initialize : V unit :=
  debug "VMM: Starting init"%string 15 0;;
  vm ← gets vb_vm;
  '(pml4, frames) ← lift (allocate_frame (v_pmm vm));
  modify (vb_put (Vmm frames (v_mem vm) pml4));;
  if pml4 =? 0 then debug "VMM: Failed to allocate PML4!"%string 16 0 else lower pml4.

(** ** load_page_directory *)

(** [for (int i = 15; i >= 2; i--) hex[i] = ...] over "0x0000000000000000". *)
Definition cr3_text (cr3_val : Z) : list Z :=
  text "0x"%string ++
  map (λ i, hex_char (Z.land (Z.shiftr cr3_val ((15 - Z.of_nat i) * 4)) 0xF)) (seq 2 14) ++ text "00"%string.

Definition load_page_directory : V unit :=
  write_debug 0x0400 "VMM: Loading page directory"%string 23 0;;
  modify (λ s, vb_control (vb_cr0 s) (vb_cr3 s) (Z.lor (Z.lor (vb_cr4 s) (Z.shiftl 1 5)) (Z.shiftl 1 4)) s);;
  write_debug 0x0400 "VMM: PAE and PSE enabled in CR4"%string 24 0;;
  modify (λ s, vb_control (Z.lor (vb_cr0 s) (Z.shiftl 1 16)) (vb_cr3 s) (vb_cr4 s) s);;
  write_debug 0x0400 "VMM: Write protection enabled"%string 25 0;;
  write_debug 0x0400 "VMM: CR3 value: "%string 26 0;;
  cr3_val ← gets (λ s, m_pml4 (vb_vm s));
  modify (vb_write (cells 0x0400 (16 + 26 * 80) (cr3_text cr3_val)));;
  modify (λ s, vb_control (vb_cr0 s) cr3_val (vb_cr4 s) s);;
  write_debug 0x0400 "VMM: CR3 updated"%string 27 0;;
  write_debug 0x0400 "VMM: TLB flushed"%string 28 0.

(** ** The text changes nothing else *)

(** The 32 KB of the text mode's memory. *)
Definition VGA_CELLS : Z := 16384.
Definition in_vga (c : Z * Z) : Prop := 0 ≤ c.1 < VGA_CELLS.

(** [m] does to the tables what [f] does, nothing to the control registers, and
    writes inside the VGA memory only. *)
Definition does (m : V unit) (f : VirtualMemoryManager → outcome VirtualMemoryManager) : Prop := ∀ s,
  match f (vb_vm s) with
  | Ok vm => exists l, m s = Ok (tt, vb_write l (vb_put vm s)) ∧ Forall in_vga l
  | UB => m s = UB
  | OutOfFuel => m s = OutOfFuel
  end.

Lemma does_ret : does (mret tt) Ok.
Proof. intros [vm c r0 r3 r4]. exists []. split; [|constructor]. unfold vb_write, vb_put. cbn. by rewrite app_nil_r. Qed.

Lemma does_write l : Forall in_vga l → does (modify (vb_write l)) Ok.
Proof. intros Hl [vm c r0 r3 r4]. by exists l. Qed.

Lemma does_tables f : does (on_tables f) f.
Proof.
  intros s. unfold on_tables. destruct (f (vb_vm s)) as [vm| |]; [|done..].
  exists []. split; [|constructor]. unfold vb_write, vb_put. cbn. by rewrite app_nil_r.
Qed.

Lemma does_seq m1 m2 f g : does m1 f → does m2 g → does (m1;; m2) (λ vm, vm ← f vm; g vm).
Proof.
  intros H1 H2 s. specialize (H1 s). destruct (f (vb_vm s)) as [vm1| |].
  - destruct H1 as (l1 & E1 & F1). rewrite (bind_run _ _ _ _ _ E1). cbn [mbind outcome_bind].
    specialize (H2 (vb_write l1 (vb_put vm1 s))). change (vb_vm (vb_write l1 (vb_put vm1 s))) with vm1 in H2.
    destruct (g vm1) as [vm2| |]; [|done..]. destruct H2 as (l2 & E2 & F2). exists (l1 ++ l2). split; [|by apply Forall_app]. rewrite E2.
    unfold vb_write, vb_put. cbn. by rewrite app_assoc.
  - cbn. unfold mbind, st_bind. by rewrite H1.
  - cbn. unfold mbind, st_bind. by rewrite H1.
Qed.

Lemma does_silent m1 m2 g : does m1 Ok → does m2 g → does (m1;; m2) g.
Proof. intros H1 H2. exact (does_seq m1 m2 Ok g H1 H2). Qed.

Lemma does_new (k : Z → V unit) g : (∀ a, does (k a) (g a)) →
  does (a ← new_table; k a) (λ vm, '(a, vm) ← create_page_table vm; g a vm).
Proof.
  intros H s. destruct (create_page_table (vb_vm s)) as [[a vm]| |] eqn:E.
  - assert (E1 : new_table s = Ok (a, vb_put vm s)) by (unfold new_table; by rewrite E).
    rewrite (bind_run _ _ _ _ _ E1). exact (H a (vb_put vm s)).
  - unfold mbind, st_bind, new_table. by rewrite E.
  - unfold mbind, st_bind, new_table. by rewrite E.
Qed.

Lemma does_if (b : bool) m1 m2 f g : does m1 f → does m2 g → does (if b then m1 else m2) (λ vm, if b then f vm else g vm).
Proof. by destruct b. Qed.

(** An entry is read to be written, or for the text. *)
Lemma does_read (k : Z → V unit) g table index : (∀ v, does (k v) (g v)) →
  does (v ← read_entry table index; k v) (λ vm, v ← rd_pte vm table index; g v vm).
Proof.
  intros H s. unfold read_entry, mbind, st_bind, outcome_bind, rd_pte. destruct (table =? 0); [done|]. exact (H _ s).
Qed.

Lemma does_look (k : Z → V unit) g table index : table ≠ 0 → (∀ v, does (k v) g) → does (v ← read_entry table index; k v) g.
Proof.
  intros Ht H s. unfold read_entry, mbind, st_bind, rd_pte. rewrite (proj2 (Z.eqb_neq table 0) Ht). exact (H _ s).
Qed.

Lemma cells_in_vga a start l : 0 ≤ start → start + Z.of_nat (length l) ≤ VGA_CELLS → Forall in_vga (cells a start l).
Proof.
  intros H0 H1. apply Forall_lookup_2. intros i c E. unfold cells in E. rewrite list_lookup_imap in E.
  destruct (l !! i) as [x|] eqn:El; [|done]. injection E as <-. apply lookup_lt_Some in El. unfold in_vga. cbn. lia.
Qed.

Lemma does_debug a msg line offset : 0 ≤ offset + line * 80 → offset + line * 80 + Z.of_nat (length (text msg)) ≤ VGA_CELLS →
  does (write_debug a msg line offset) Ok.
Proof. intros. by apply does_write, cells_in_vga. Qed.

Lemma does_hex v line offset : 0 ≤ offset + line * 80 → offset + line * 80 + 16 ≤ VGA_CELLS → does (write_hex v line offset) Ok.
Proof. intros. apply does_write, cells_in_vga; [done|]. exact H0. Qed.

Lemma does_ext m f g : (∀ vm, f vm = g vm) → does m f → does m g.
Proof. intros E H s. rewrite <- E. apply H. Qed.

Lemma bind_Ok_r {A} (m : outcome A) : (a ← m; Ok a) = m.
Proof. by destruct m. Qed.

Ltac inside := match goal with |- context [if ?b then _ else _] => destruct b | _ => idtac end; cbn; unfold VGA_CELLS; lia.
Ltac line := first [apply does_debug; [lia|inside] | apply does_hex; [lia|unfold VGA_CELLS; lia]].
Ltac silent := repeat (apply does_silent; [line|]); try line.

Lemma map_huge_line_does pd i : pd ≠ 0 → 0 ≤ i < 8 → does (map_huge_line pd i)
  (λ vm, wr_pte vm pd i (set_user (set_writable (set_present (set_address (set_huge_page 0 true) (i * 0x200000)) true) true) false)).
Proof.
  intros Hpd Hi. unfold map_huge_line. cbv zeta.
  eapply does_ext; [|eapply does_seq; [apply does_tables|]]; [intros vm; apply bind_Ok_r|].
  silent. apply does_look; [done|]. intros v. silent.
Qed.

Lemma map_huge_lines_does n : ∀ i pd, pd ≠ 0 → 0 ≤ i → i + Z.of_nat n ≤ 8 → does (map_huge_lines n i pd) (λ vm, map_huge n i vm pd).
Proof.
  induction n as [|n IH]; intros i pd Hpd Hi Hn; cbn [map_huge_lines map_huge]; [apply does_ret|].
  apply does_seq; [apply map_huge_line_does; [done|lia]|apply IH; [done|lia..]].
Qed.

Lemma verify_lines_does n : ∀ i pd, pd ≠ 0 → 0 ≤ i → i + Z.of_nat n ≤ 8 → does (verify_lines n i pd) Ok.
Proof.
  induction n as [|n IH]; intros i pd Hpd Hi Hn; cbn [verify_lines]; [apply does_ret|].
  apply does_look; [done|]. intros v. apply does_silent; [|apply IH; [done|lia..]].
  destruct (present v); cbn [negb]; [destruct (huge_page v); cbn [negb]|]; silent.
Qed.

(** The body of [initialize] behind the allocation of the root. *)
Lemma lower_does pml4 : pml4 ≠ 0 → does (lower pml4)
  (λ vm,
  vm ← zero_table vm pml4;
  '(pdpt, vm) ← create_page_table vm;
  if pdpt =? 0 then Ok vm else
  vm ← wr_pte vm pml4 0 (table_entry 0 pdpt);
  '(pd, vm) ← create_page_table vm;
  if pd =? 0 then Ok vm else
  vm ← wr_pte vm pdpt 0 (pdpt_entry pd);
  vm ← map_huge 8 0 vm pd;
  '(kernel_pdpt, vm) ← create_page_table vm;
  if kernel_pdpt =? 0 then Ok vm else
  v ← rd_pte vm pml4 511;
  vm ← wr_pte vm pml4 511 (table_entry v kernel_pdpt);
  map_page vm 0xB8000 0xB8000 true).
Proof.
  intros Hp. unfold lower. silent. apply does_seq; [apply does_tables|]. silent. apply does_new. intros pdpt.
  destruct (Z.eqb_spec pdpt 0) as [|Hpdpt]; [line|].
  silent. apply does_seq; [apply does_tables|]. silent. apply does_look; [done|]. intros v. silent. apply does_new. intros pd.
  destruct (Z.eqb_spec pd 0) as [|Hpd]; [line|].
  silent. apply does_seq; [apply does_tables|]. silent. apply does_look; [done|]. intros v'. silent.
  apply does_seq; [apply map_huge_lines_does; [done|lia..]|]. silent. apply does_silent; [apply verify_lines_does; [done|lia..]|]. silent.
  apply does_new. intros kp. apply does_if; [line|]. apply does_read. intros v''.
  apply does_seq; [apply does_tables|]. silent.
  eapply does_ext; [|eapply does_seq; [apply does_tables|]]; [intros vm; apply bind_Ok_r|]. silent.
Qed.

Lemma initialize_erases s :
  match vmm_initialize (vb_vm s) with
  | Ok vm => exists l, initialize s = Ok (tt, vb_write l (vb_put vm s)) ∧ Forall in_vga l
  | UB => initialize s = UB
  | OutOfFuel => initialize s = OutOfFuel
  end.
Proof.
  unfold vmm_initialize. set (s1 := vb_write (cells 0x0200 (0 + 15 * 80) (text "VMM: Starting init"%string)) s).
  assert (E1 : debug "VMM: Starting init"%string 15 0 s = Ok (tt, s1)) by reflexivity.
  unfold initialize. rewrite (bind_run _ _ _ _ _ E1), bind_gets. change (vb_vm s1) with (vb_vm s).
  destruct (allocate_frame (v_pmm (vb_vm s))) as [[pml4 frames]| |]; [|done..].
  rewrite bind_lift_Ok, bind_modify, bind_Ok.
  set (s2 := vb_put (Vmm frames (v_mem (vb_vm s)) pml4) s1).
  destruct (Z.eqb_spec pml4 0) as [->|Hp].
  { exists (cells 0x0200 (0 + 15 * 80) (text "VMM: Starting init"%string) ++ cells 0x0200 (0 + 16 * 80) (text "VMM: Failed to allocate PML4!"%string)).
    split; [unfold vb_write at 1; rewrite app_assoc; reflexivity|].
    apply Forall_app. split; apply cells_in_vga; by unfold VGA_CELLS. }
  pose proof (lower_does pml4 Hp s2) as H. change (vb_vm s2) with (Vmm frames (v_mem (vb_vm s)) pml4) in H.
  match type of H with match ?x with _ => _ end => change (match x with
    | Ok vm => exists l, (lower pml4) s2 = Ok (tt, vb_write l (vb_put vm s)) ∧ Forall in_vga l
    | UB => (lower pml4) s2 = UB
    | OutOfFuel => (lower pml4) s2 = OutOfFuel
    end); destruct x as [vm| |]; [|exact H..] end.
  destruct H as (l & E & F). exists (cells 0x0200 (0 + 15 * 80) (text "VMM: Starting init"%string) ++ l).
  split; [|apply Forall_app; split; [apply cells_in_vga; by unfold VGA_CELLS|done]]. rewrite E.
  unfold vb_write, vb_put. cbn [vb_vm vb_cells vb_cr0 vb_cr3 vb_cr4 s2 s1]. by rewrite app_assoc.
Qed.


(** The new tables are loaded: CR3 holds the root, the extensions and the write
    protection are on, the tables are as they were. *)
Theorem load_page_directory_spec s : Forall in_vga (vb_cells s) → exists s', load_page_directory s = Ok (tt, s') ∧
  vb_vm s' = vb_vm s ∧ Forall in_vga (vb_cells s') ∧ vb_cr3 s' = m_pml4 (vb_vm s) ∧
  Z.testbit (vb_cr0 s') 16 = true ∧ Z.testbit (vb_cr4 s') 5 = true ∧ Z.testbit (vb_cr4 s') 4 = true.
Proof.
  intros Hs. eexists. split; [reflexivity|]. cbv beta iota zeta delta [vb_vm vb_cells vb_cr0 vb_cr3 vb_cr4 vb_write vb_control].
  split; [done|]. split.
  { rewrite !Forall_app. split_and!; [exact Hs|apply cells_in_vga; by unfold VGA_CELLS..]. }
  split_and!; [done|by rewrite Z.lor_spec, orb_true_r|by rewrite !Z.lor_spec, orb_true_r|by rewrite !Z.lor_spec, orb_true_r].
Qed.

(** The value shown for CR3 is two digits off. *)
Example cr3_text_wrong : cr3_text 0x00205000 = text "0x0000000020500000"%string.
Proof. reflexivity. Qed.

(** Half of the text is written behind the last row of the screen. *)
Example off_screen :
  match initialize (Vb (vmm_all_free 64) [] 0 0 0) with Ok (_, s) => existsb (λ c, 2000 <=? c.1) (vb_cells s) | _ => false end = true.
Proof. vm_compute. reflexivity. Qed.
