(* ===== verification/BootMemory.v ===== *)
(** * The memory at boot (src/kernel/src/core/kernel.cpp)

    The three steps of [kernel_main] that set memory up: the frames, the page
    tables and the pages of the heap.  They are one component each
    (Pmm.v, VmmBoot.v with Vmm.v); here is that they fit together: the heap has its
    pages, and no frame of it is ever given to anyone else. *)

From S2P Require Import Prelude Pmm Vmm Pages.

#[local] Open Scope Z_scope.
#[local] Abbreviation VM := (ST VirtualMemoryManager).

Definition HEAP_SIZE : Z := 16 * 1024 * 1024.
Definition HEAP_START : Z := MEMORY_START + MEMORY_SIZE - HEAP_SIZE.
Definition HEAP_PAGES : nat := Z.to_nat (HEAP_SIZE / 4096).

Definition init_frames : VM unit := λ vm,
  s ← pmm_initialize (v_pmm vm) MEMORY_START MEMORY_SIZE; Ok (tt, set_pmm vm s).

(** [for (addr = heap_start; addr < heap_start + HEAP_SIZE; addr += 4096)] *)
Fixpoint map_heap (n : nat) (addr : Z) : VM unit :=
  match n with O => mret tt | S n' => vm_map_page addr addr true;; map_heap n' (addr + 4096) end.

Definition boot_memory : VM unit :=
  init_frames;;
  (λ vm, vm ← vmm_initialize vm; Ok (tt, vm));;
  map_heap HEAP_PAGES HEAP_START.

(** ** Mapping into a table that is there *)

Lemma parent_down vm tab p i a : vmm_inv vm tab → tab !! (p ++ [i]) = Some a → (length p < 3)%nat → index_ok i →
  points_down (ent vm tab p i) = true ∧ a = address (ent vm tab p i).
Proof.
  intros Hi E Hl Hii. rewrite (vi_child _ _ Hi p i Hl Hii) in E. by destruct (points_down _); simplify_eq.
Qed.

Lemma map_page_existing vm tab va pa w pt : vmm_inv vm tab → tab !! path va = Some pt → present (leaf vm tab va) = false →
  exists vm', map_page vm va pa w = Ok vm' ∧ retains vm tab vm' tab (path va) (pt_index va) ∧
    leaf vm' tab va = leaf_entry 0 (Z.land pa PAGE_MASK) w ∧ v_pmm vm' = v_pmm vm.
Proof.
  intros Hi Ept Hpr. unfold map_page. destruct (indices_masked va) as (-> & -> & -> & ->).
  assert (I : index_ok (pml4_index va) ∧ index_ok (pdpt_index va) ∧ index_ok (pd_index va) ∧ index_ok (pt_index va))
    by (split_and!; apply index_mask_ok). destruct I as (I4 & I3 & I2 & I1).
  destruct (vi_closed _ _ Hi [pml4_index va; pdpt_index va] (pd_index va) pt Ept) as [[pd Epd] _].
  destruct (vi_closed _ _ Hi [pml4_index va] (pdpt_index va) pd Epd) as [[pdpt Epdpt] _].
  destruct (parent_down vm tab [] _ pdpt Hi Epdpt) as [D4 A4]; [simpl; lia|done|].
  destruct (parent_down vm tab [pml4_index va] _ pd Hi Epd) as [D3 A3]; [simpl; lia|done|].
  destruct (parent_down vm tab [pml4_index va; pdpt_index va] _ pt Hi Ept) as [D2 A2]; [simpl; lia|done|].
  destruct (next_level_found vm tab [] (m_pml4 vm) (pml4_index va) true Hi (vi_root _ _ Hi)) as [-> _]; [simpl; lia|done..|].
  rewrite bind_Ok, <- A4. pose proof (inv_table _ _ _ _ Hi Epdpt). rewrite (proj2 (Z.eqb_neq pdpt 0)) by lia.
  destruct (next_level_found vm tab _ pdpt (pdpt_index va) true Hi Epdpt) as [-> _]; [simpl; lia|done..|].
  rewrite bind_Ok, <- A3. pose proof (inv_table _ _ _ _ Hi Epd). rewrite (proj2 (Z.eqb_neq pd 0)) by lia.
  destruct (next_level_found vm tab _ pd (pd_index va) true Hi Epd) as [-> _]; [simpl; lia|done..|].
  rewrite bind_Ok, <- A2. pose proof (inv_table _ _ _ _ Hi Ept). rewrite (proj2 (Z.eqb_neq pt 0)) by lia.
  rewrite (rd_pte_ent vm tab (path va) pt _ Hi Ept), bind_Ok.
  change (ent vm tab (path va) (pt_index va)) with (leaf vm tab va). rewrite Hpr. cbn [negb].
  assert (Z0 : leaf vm tab va = 0) by (by apply (vi_absent _ _ Hi)).
  unfold wr_pte. rewrite (proj2 (Z.eqb_neq pt 0)), Z0 by lia.
  destruct (leaf_write vm tab (path va) pt (pt_index va) (leaf_entry 0 (Z.land pa PAGE_MASK) w)) as [R L];
    [done..|apply leaf_entry_not_huge|by rewrite leaf_entry_present|].
  eexists. split; [reflexivity|]. split; [exact R|]. split; [exact L|done].
Qed.

(** What one mapping needs: a table there, or room for three. *)
Definition needs (tab : gmap (list Z) Z) (va : Z) : Z := match tab !! path va with Some _ => 0 | None => 3 end.

Lemma map_page_needs vm tab va pa w : vmm_inv vm tab → mappable vm tab va → needs tab va ≤ m_free_frames (v_pmm vm) →
  exists vm' tab', map_page vm va pa w = Ok vm' ∧ retains vm tab vm' tab' (path va) (pt_index va) ∧
    leaf vm' tab' va = leaf_entry 0 (Z.land pa PAGE_MASK) w ∧
    m_free_frames (v_pmm vm) - needs tab va ≤ m_free_frames (v_pmm vm') ∧ is_Some (tab' !! path va).
Proof.
  intros Hi [Hn Hpr] Hf. unfold needs in *. destruct (tab !! path va) as [pt|] eqn:Ept.
  - destruct (map_page_existing vm tab va pa w pt Hi Ept Hpr) as (vm' & E & R & L & Ep).
    exists vm', tab. split_and!; [done|done|done|rewrite Ep; lia|by exists pt].
  - destruct (map_page_ok vm tab va pa w Hi Hn Hf) as (vm' & tab' & E & R & L & F). rewrite Hpr in L.
    exists vm', tab'. split_and!; [done|done|done|done|].
    destruct (tab' !! path va) eqn:E'; [by eexists|].
    pose proof (leaf_entry_present (Z.land pa PAGE_MASK) w) as Hp. rewrite <- L in Hp.
    unfold leaf, ent in Hp. rewrite E' in Hp. discriminate.
Qed.

(** ** The pages of the heap *)

(** The page table a page is in. *)
Definition group (base i : Z) : Z := (base / 4096 + i) / 512.

Lemma path_group base i j : 0 ≤ base → base `mod` 4096 = 0 → group base i = group base j → path (page base i) = path (page base j).
Proof.
  intros Hb Ha E. unfold path, pml4_index, pdpt_index, pd_index. rewrite !index_div by done.
  assert (Hg : ∀ k, page base k / 2 ^ 21 = group base k).
  { intros k. unfold page, group. change (2 ^ 21) with (4096 * 512). rewrite <- Z.div_div by done. by rewrite Z.div_add. }
  assert (H30 : ∀ k, page base k / 2 ^ 30 = group base k / 512).
  { intros k. rewrite <- Hg. by rewrite Z.div_div. }
  assert (H39 : ∀ k, page base k / 2 ^ 39 = group base k / 512 / 512).
  { intros k. rewrite <- Hg. by rewrite !Z.div_div. }
  by rewrite !Hg, !H30, !H39, E.
Qed.

Lemma group_next base i : group base (i + 1) = group base i ∨ group base (i + 1) = group base i + 1.
Proof. unfold group. Z.div_mod_to_equations. lia. Qed.

(** The run of pages [i] to [i + n - 1] from [base] on, each mapped to itself. *)
Record identity_mapped vm tab vm' tab' (base i : Z) (n : nat) : Prop := {
  im_inv : vmm_inv vm' tab';
  im_grown : grown vm tab vm' tab';
  im_leaf j : i ≤ j < i + Z.of_nat n → leaf vm' tab' (page base j) = leaf_entry 0 (Z.land (page base j) PAGE_MASK) true;
  im_huge va : no_huge vm tab va → no_huge vm' tab' va;
  im_other va : (∀ j, i ≤ j < i + Z.of_nat n → ¬ same_page (page base j) va) → leaf vm' tab' va = leaf vm tab va
}.

Lemma identity_mapped_step vm tab vm1 tab1 vm' tab' base i n : run_ok base i (S n) →
  retains vm tab vm1 tab1 (path (page base i)) (pt_index (page base i)) →
  leaf vm1 tab1 (page base i) = leaf_entry 0 (Z.land (page base i) PAGE_MASK) true →
  identity_mapped vm1 tab1 vm' tab' base (i + 1) n → identity_mapped vm tab vm' tab' base i (S n).
Proof.
  intros Hrun R L M. constructor.
  - apply M.
  - eapply grown_trans; [apply R|apply M].
  - intros j Hj. destruct (decide (j = i)) as [->|]; [|apply (im_leaf _ _ _ _ _ _ _ M); lia].
    rewrite (im_other _ _ _ _ _ _ _ M); [done|]. intros k Hk Hsp.
    apply (run_ok_distinct base i n k Hrun ltac:(lia)). by destruct Hsp.
  - intros va Hva. apply (im_huge _ _ _ _ _ _ _ M). by eapply retains_no_huge.
  - intros va Hva. rewrite (im_other _ _ _ _ _ _ _ M) by (intros j Hj; apply Hva; lia).
    apply (retains_translate_eq _ _ _ _ _ _ R). apply Hva. lia.
Qed.

Lemma map_heap_ok n : ∀ base i vm tab, vmm_inv vm tab → run_ok base i (S n) →
  (∀ j, i ≤ j ≤ i + Z.of_nat n → mappable vm tab (page base j)) →
  3 * (group base (i + Z.of_nat n) - group base i) + needs tab (page base i) ≤ m_free_frames (v_pmm vm) →
  exists vm' tab', map_heap (S n) (page base i) vm = Ok (tt, vm') ∧ identity_mapped vm tab vm' tab' base i (S n) ∧
    m_free_frames (v_pmm vm) - (3 * (group base (i + Z.of_nat n) - group base i) + needs tab (page base i)) ≤ m_free_frames (v_pmm vm').
Proof.
  induction n as [|n IH]; intros base i vm tab Hi Hrun Hmap Hf.
  all: destruct (map_page_needs vm tab (page base i) (page base i) true Hi (Hmap i ltac:(lia))) as (vm1 & tab1 & E1 & R & L & F & Hs).
  { replace (i + Z.of_nat 0) with i in Hf by lia. lia. }
  2: { assert (group base i ≤ group base (i + Z.of_nat (S n))) by (unfold group; apply Z.div_le_mono; lia). lia. }
  all: assert (Es : vm_map_page (page base i) (page base i) true vm = Ok (tt, vm1)) by (unfold vm_map_page; by rewrite E1).
  - exists vm1, tab1. split; [cbn [map_heap]; by rewrite (bind_run _ _ _ _ _ Es)|].
    split; [|replace (i + Z.of_nat 0) with i by lia; lia]. apply (identity_mapped_step _ _ vm1 tab1); [done|done|done|].
    constructor; [apply R|by apply grown_same|lia|done|done].
  - pose proof Hrun as (Hb & Ha & Hi0 & Hle & Hn).
    assert (Hneeds : needs tab1 (page base (i + 1)) ≤ 3 * (group base (i + 1) - group base i)).
    { unfold needs. destruct (group_next base i) as [Eg|Eg]; [|rewrite Eg; destruct (tab1 !! path (page base (i + 1))); lia].
      rewrite (path_group base (i + 1) i Hb Ha Eg). destruct Hs as [pt ->]. lia. }
    destruct (IH base (i + 1) vm1 tab1) as (vm' & tab' & E & M & Ff).
    + apply R.
    + by apply run_ok_next.
    + intros j Hj. destruct (Hmap j ltac:(lia)) as [Hnh Hpr]. split; [by eapply retains_no_huge|].
      rewrite (retains_translate_eq _ _ _ _ _ _ R); [done|]. apply (run_ok_distinct _ _ (S n)); [done|lia].
    + replace (i + 1 + Z.of_nat n) with (i + Z.of_nat (S n)) by lia. lia.
    + exists vm', tab'. split; [|split; [by apply (identity_mapped_step _ _ vm1 tab1)|]]; cycle 1.
      { replace (i + 1 + Z.of_nat n) with (i + Z.of_nat (S n)) in Ff by lia. lia. }
      change (map_heap (S (S n)) (page base i)) with (vm_map_page (page base i) (page base i) true;; map_heap (S n) (page base i + 4096)).
      rewrite (bind_run _ _ _ _ _ Es). by replace (page base i + 4096) with (page base (i + 1)) by (unfold page; lia).
Qed.

(** ** Frames stay taken *)

(** No frame is given back and the layout stays. *)
Definition keeps (s s' : PhysicalMemoryManager) : Prop :=
  pmm_wf s' ∧ same_layout s s' ∧ ∀ k, 0 ≤ k → used s k = true → used s' k = true.

Lemma keeps_refl s : pmm_wf s → keeps s s.
Proof. done. Qed.

Lemma keeps_trans s1 s2 s3 : keeps s1 s2 → keeps s2 s3 → keeps s1 s3.
Proof.
  intros (W1 & [L1 L1'] & U1) (W2 & [L2 L2'] & U2). split; [done|]. split; [split; congruence|]. auto.
Qed.

Lemma keeps_allocate s a s' : pmm_wf s → allocate_frame s = Ok (a, s') → keeps s s'.
Proof.
  intros Hwf E. destruct (allocate_frame_cases s a s' Hwf E) as [[-> ->]|(_ & i & -> & Ht)]; [by apply keeps_refl|].
  split; [apply Ht|]. split; [apply Ht|]. intros k Hk Hu. by rewrite (tk_used _ _ _ Ht), Hu.
Qed.

Lemma keeps_table vm a vm' : pmm_wf (v_pmm vm) → create_page_table vm = Ok (a, vm') → keeps (v_pmm vm) (v_pmm vm').
Proof.
  intros Hwf E. unfold create_page_table in E. destruct (allocate_frame (v_pmm vm)) as [[t s]| |] eqn:Ea; [|done..].
  cbn in E. unfold zero_table in E. destruct (t =? 0); [done|]. cbn in E. simplify_eq. by eapply keeps_allocate.
Qed.

Lemma wr_pte_pmm vm t i v vm' : wr_pte vm t i v = Ok vm' → v_pmm vm' = v_pmm vm.
Proof. unfold wr_pte. destruct (t =? 0); [done|]. intros. by simplify_eq. Qed.

Lemma map_huge_pmm n : ∀ i vm pd vm', map_huge n i vm pd = Ok vm' → v_pmm vm' = v_pmm vm.
Proof.
  induction n as [|n IH]; intros i vm pd vm' E; cbn [map_huge] in E; [by simplify_eq|].
  destruct (wr_pte _ _ _ _) as [vm1| |] eqn:E1; [|done..]. apply wr_pte_pmm in E1. cbn in E. apply IH in E. congruence.
Qed.

Lemma keeps_level vm t i b a vm' : pmm_wf (v_pmm vm) → get_next_level vm t i b = Ok (a, vm') → keeps (v_pmm vm) (v_pmm vm').
Proof.
  intros Hwf E. unfold get_next_level in E. destruct (rd_pte vm t i) as [v| |]; [|done..]. cbn in E.
  destruct (negb (present v) && b).
  - destruct (create_page_table vm) as [[c vm1]| |] eqn:E1; [|done..]. cbn in E.
    destruct (wr_pte vm1 t i _) as [vm2| |] eqn:E2; [|done..]. cbn in E. apply wr_pte_pmm in E2.
    destruct (rd_pte vm2 t i) as [v2| |]; [|done..]. cbn in E. apply keeps_table in E1; [|done].
    by destruct (present v2); cbn in E; simplify_eq; rewrite E2.
  - cbn in E. destruct (rd_pte vm t i) as [v2| |]; [|done..]. cbn in E. by destruct (present v2); cbn in E; simplify_eq.
Qed.

Lemma keeps_map_page vm va pa w vm' : pmm_wf (v_pmm vm) → map_page vm va pa w = Ok vm' → keeps (v_pmm vm) (v_pmm vm').
Proof.
  intros Hwf E. unfold map_page in E. cbv zeta in E.
  destruct (get_next_level vm _ _ true) as [[a1 vm1]| |] eqn:E1; [|done..]. cbn in E. apply keeps_level in E1; [|done].
  destruct (a1 =? 0); [by simplify_eq|].
  destruct (get_next_level vm1 _ _ true) as [[a2 vm2]| |] eqn:E2; [|done..]. cbn in E. apply keeps_level in E2; [|apply E1].
  pose proof (keeps_trans _ _ _ E1 E2) as K2. destruct (a2 =? 0); [by simplify_eq|].
  destruct (get_next_level vm2 _ _ true) as [[a3 vm3]| |] eqn:E3; [|done..]. cbn in E. apply keeps_level in E3; [|apply E2].
  pose proof (keeps_trans _ _ _ K2 E3) as K3. destruct (a3 =? 0); [by simplify_eq|].
  destruct (rd_pte vm3 a3 _) as [v| |]; [|done..]. cbn in E.
  destruct (present v); cbn in E; [by simplify_eq|]. apply wr_pte_pmm in E. by rewrite E.
Qed.

#[local] Arguments map_huge : simpl never.
#[local] Arguments map_page : simpl never.

Lemma keeps_initialize vm vm' : pmm_wf (v_pmm vm) → vmm_initialize vm = Ok vm' → keeps (v_pmm vm) (v_pmm vm').
Proof.
  intros Hwf E. unfold vmm_initialize in E.
  destruct (allocate_frame (v_pmm vm)) as [[pml4 s]| |] eqn:Ea; [|done..]. cbn in E. apply keeps_allocate in Ea; [|done].
  destruct (pml4 =? 0) eqn:Z0; [by simplify_eq|]. unfold zero_table in E. rewrite Z0 in E. cbn in E.
  destruct (create_page_table _) as [[pdpt vm1]| |] eqn:E1 in E; [|done..]. cbn in E. apply keeps_table in E1; [|apply Ea]. cbn in E1.
  pose proof (keeps_trans _ _ _ Ea E1) as K1. destruct (pdpt =? 0); [by simplify_eq|].
  destruct (wr_pte vm1 _ _ _) as [vm2| |] eqn:W2; [|done..]. cbn in E. apply wr_pte_pmm in W2. rewrite <- W2 in K1.
  destruct (create_page_table vm2) as [[pd vm3]| |] eqn:E3; [|done..]. cbn in E. apply keeps_table in E3; [|apply K1].
  pose proof (keeps_trans _ _ _ K1 E3) as K3. destruct (pd =? 0); [by simplify_eq|].
  destruct (wr_pte vm3 _ _ _) as [vm4| |] eqn:W4; [|done..]. cbn in E. apply wr_pte_pmm in W4.
  destruct (map_huge 8 0 vm4 pd) as [vm5| |] eqn:W5; [|done..]. cbn in E. apply map_huge_pmm in W5.
  rewrite <- W4, <- W5 in K3.
  destruct (create_page_table vm5) as [[kp vm6]| |] eqn:E6; [|done..]. cbn in E. apply keeps_table in E6; [|apply K3].
  pose proof (keeps_trans _ _ _ K3 E6) as K6. destruct (kp =? 0); [by simplify_eq|].
  destruct (rd_pte vm6 _ _) as [v| |]; [|done..]. cbn in E.
  destruct (wr_pte vm6 _ _ _) as [vm7| |] eqn:W7; [|done..]. cbn in E. apply wr_pte_pmm in W7. rewrite <- W7 in K6.
  eapply keeps_trans; [exact K6|]. eapply keeps_map_page; [apply K6|exact E].
Qed.

(** ** The steps together *)

(** The frame of a page of the heap. *)
Definition heap_frame (j : Z) : Z := (MEMORY_SIZE - HEAP_SIZE) / PAGE_SIZE + j.

Lemma heap_page j : page HEAP_START j = MEMORY_START + heap_frame j * PAGE_SIZE.
Proof. unfold page, HEAP_START, heap_frame, MEMORY_SIZE, HEAP_SIZE, PAGE_SIZE. change ((64 * 1024 * 1024 - 16 * 1024 * 1024) / 4096) with 12288. lia. Qed.

Lemma heap_page_mappable vm tab j : boot_tables vm tab → 0 ≤ j < 4096 → mappable vm tab (page HEAP_START j).
Proof.
  intros B Hj. apply (boot_mappable vm tab _ B). intros (_ & _ & Hpd). revert Hpd.
  unfold pd_index. rewrite index_div by done. unfold page, HEAP_START, MEMORY_START, MEMORY_SIZE, HEAP_SIZE.
  change (2 ^ 21) with 2097152. Z.div_mod_to_equations. lia.
Qed.

(** The upper two gigabytes, where the kernel stacks are. *)
Definition KERNEL_HALF : Z := 0xFFFFFFFF80000000.

Lemma upper_index va : KERNEL_HALF ≤ va < 2 ^ 64 → pml4_index va = 511.
Proof.
  intros Hva. unfold pml4_index. rewrite index_div by done. unfold KERNEL_HALF in Hva. change (2 ^ 39) with 549755813888. change (2 ^ 64) with 18446744073709551616 in Hva.
  Z.div_mod_to_equations. lia.
Qed.

Lemma upper_mappable vm tab va : boot_tables vm tab → KERNEL_HALF ≤ va < 2 ^ 64 → mappable vm tab va.
Proof. intros B Hva. apply (boot_mappable vm tab _ B). rewrite upper_index by done. by intros (? & _). Qed.

Lemma heap_not_upper j va : 0 ≤ j < 4096 → KERNEL_HALF ≤ va < 2 ^ 64 → ¬ same_page (page HEAP_START j) va.
Proof.
  intros Hj Hva [Hp _]. unfold path in Hp. injection Hp as Hp _ _. rewrite upper_index in Hp by done. revert Hp.
  unfold pml4_index. rewrite index_div by done. unfold page, HEAP_START, MEMORY_START, MEMORY_SIZE, HEAP_SIZE.
  change (2 ^ 39) with 549755813888. Z.div_mod_to_equations. lia.
Qed.

(** After each step. *)
Definition frames_unset vm : Prop := length (m_bitmap (v_pmm vm)) = BITMAP_WORDS ∧ Forall is_u32 (m_bitmap (v_pmm vm)).

Definition heap_taken vm : Prop :=
  m_memory_start (v_pmm vm) = MEMORY_START ∧ ∀ j, 0 ≤ j < 4096 → used (v_pmm vm) (heap_frame j) = true.

Definition frames_ready vm : Prop :=
  pmm_wf (v_pmm vm) ∧ m_total_frames (v_pmm vm) = 16384 ∧ m_free_frames (v_pmm vm) = 16384 - 4357 ∧ heap_taken vm.

Definition tables_ready vm : Prop := exists tab, boot_tables vm tab ∧ 16384 - 4361 ≤ m_free_frames (v_pmm vm) ∧ heap_taken vm.

Definition heap_mapped vm tab : Prop := ∀ j, 0 ≤ j < HEAP_SIZE / 4096 →
  get_physical_address vm (page HEAP_START j) = Ok (page HEAP_START j) ∧ writable (leaf vm tab (page HEAP_START j)) = true.

(** Room for processes: nothing is mapped there, and there are frames. *)
Definition upper_free vm tab : Prop :=
  7600 ≤ m_free_frames (v_pmm vm) ∧ ∀ va, KERNEL_HALF ≤ va < 2 ^ 64 → mappable vm tab va.

Definition heap_ready vm : Prop := exists tab, vmm_inv vm tab ∧ heap_mapped vm tab ∧ heap_taken vm ∧ upper_free vm tab.

Lemma heap_frame_value j : heap_frame j = 12288 + j.
Proof. unfold heap_frame. by change ((MEMORY_SIZE - HEAP_SIZE) / PAGE_SIZE) with 12288. Qed.

Lemma heap_taken_keeps vm vm' : heap_taken vm → same_layout (v_pmm vm) (v_pmm vm') →
  (∀ k, 0 ≤ k → used (v_pmm vm) k = true → used (v_pmm vm') k = true) → heap_taken vm'.
Proof.
  intros [Hs Hu] [_ Ls] Hk. split; [congruence|]. intros j Hj. apply Hk; [rewrite heap_frame_value; lia|by apply Hu].
Qed.

Lemma heap_page_range j : 0 ≤ j < 4096 → 0 ≤ page HEAP_START j < 2 ^ 48 ∧ page HEAP_START j `mod` 4096 = 0.
Proof.
  intros Hj. unfold page, HEAP_START, MEMORY_START, MEMORY_SIZE, HEAP_SIZE. split; [lia|]. by rewrite Z.mod_add.
Qed.

Lemma init_frames_ready vm : frames_unset vm → exists vm', init_frames vm = Ok (tt, vm') ∧ frames_ready vm'.
Proof.
  intros [Hl Hw].
  destruct (pmm_initialize_ok (v_pmm vm) MEMORY_START MEMORY_SIZE Hl Hw) as (s & Es & Hwf & Hst & Htot & Hfree & Hused);
    [done|unfold MEMORY_START, MEMORY_SIZE; lia|unfold MEMORY_SIZE, PAGE_SIZE; lia|].
  change (MEMORY_SIZE / PAGE_SIZE) with 16384 in *. exists (set_pmm vm s). split; [unfold init_frames; by rewrite Es|].
  split; [done|]. split; [done|]. split; [done|]. split; [done|]. intros j Hj. cbn. rewrite heap_frame_value.
  rewrite Hused by lia. unfold reserved. rewrite Htot.
  rewrite (proj2 (Z.leb_le _ _)), (proj2 (Z.ltb_lt _ 16384)) by (change heap_frames with 4096; lia). apply orb_true_r.
Qed.

Lemma initialize_ready vm : frames_ready vm → exists vm', vmm_initialize vm = Ok vm' ∧ tables_ready vm'.
Proof.
  intros (Hwf & Htot & Hfree & Ht). destruct (vmm_initialize_ok vm Hwf) as (vm' & tab & E & Bt & F).
  { by rewrite (proj1 Ht). }
  { rewrite (proj1 Ht), Htot. unfold MEMORY_START, PAGE_SIZE. lia. }
  { lia. }
  exists vm'. split; [done|]. exists tab. split; [done|]. split; [lia|].
  destruct (keeps_initialize vm vm' Hwf E) as (_ & L & Hk). by eapply heap_taken_keeps.
Qed.

Lemma map_heap_ready vm : tables_ready vm → exists vm', map_heap HEAP_PAGES HEAP_START vm = Ok (tt, vm') ∧ heap_ready vm'.
Proof.
  intros (tab & Bt & F & Ht).
  destruct (map_heap_ok 4095 HEAP_START 0 vm tab (bt_inv _ _ Bt)) as (vm' & tab' & E & M & Ff).
  - unfold run_ok. split_and!; by vm_compute.
  - intros j Hj. apply heap_page_mappable; [done|lia].
  - change (group HEAP_START (0 + Z.of_nat 4095) - group HEAP_START 0) with 8. unfold needs. destruct (tab !! _); lia.
  - exists vm'. replace (page HEAP_START 0) with HEAP_START in E by (unfold page; lia). split; [exact E|].
    exists tab'. pose proof (im_inv _ _ _ _ _ _ _ M) as Hi. split; [done|]. split_and!.
    + unfold heap_mapped. change (HEAP_SIZE / 4096) with 4096. intros j Hj. destruct (heap_page_range j Hj) as [Hr Ha].
      assert (El : leaf vm' tab' (page HEAP_START j) = leaf_entry 0 (page HEAP_START j) true).
      { rewrite (im_leaf _ _ _ _ _ _ _ M) by lia. f_equal. clear -Hr Ha. rewrite land_page_mask by lia.
        Z.div_mod_to_equations. lia. }
      split; [|by rewrite El, leaf_entry_writable].
      rewrite (get_physical_address_translate vm' tab' _ Hi) by (by apply (im_huge _ _ _ _ _ _ _ M), (heap_page_mappable vm tab j Bt)).
      unfold translate. rewrite El, leaf_entry_present, leaf_entry_address. by rewrite land_addr_mask.
    + eapply heap_taken_keeps; [done|apply (im_grown _ _ _ _ _ _ _ M)|apply (im_grown _ _ _ _ _ _ _ M)].
    + split.
      * change (group HEAP_START (0 + Z.of_nat 4095) - group HEAP_START 0) with 8 in Ff. unfold needs in Ff. destruct (tab !! _); lia.
      * intros va Hva. destruct (upper_mappable vm tab va Bt Hva) as [Hn Hl]. split; [by apply (im_huge _ _ _ _ _ _ _ M)|].
        rewrite (im_other _ _ _ _ _ _ _ M); [done|]. intros j Hj. apply heap_not_upper; [lia|done].
Qed.

Lemma heap_not_allocated vm n l s : heap_ready vm → allocate_many n (v_pmm vm) = Ok (l, s) →
  Forall (λ a, a + PAGE_SIZE ≤ HEAP_START ∨ HEAP_START + HEAP_SIZE ≤ a) l.
Proof.
  intros (tab & Hi & _ & [Hst Hheap] & _) Ea. destruct (allocate_many_spec n _ _ _ (vi_pmm _ _ Hi) Ea) as (_ & _ & _ & Hall & _).
  apply Forall_forall. intros a Ha. destruct (Hall a Ha) as (i & -> & Hr & Hu & _).
  unfold frame_addr. rewrite Hst. unfold HEAP_START, MEMORY_START, MEMORY_SIZE, HEAP_SIZE, PAGE_SIZE in *.
  destruct (decide (12288 ≤ i < 16384)) as [Hin|]; [|lia].
  pose proof (Hheap (i - 12288)) as Hu'. rewrite heap_frame_value in Hu'. replace (12288 + (i - 12288)) with i in Hu' by lia.
  rewrite Hu' in Hu by lia. done.
Qed.


