(* ===== verification/Boot.v ===== *)
(** * The start of the kernel (kernel_main, src/kernel/src/core/kernel.cpp)

    Everything the other files model, put together in the order it is started in.
    [Computer] holds the parts; a part with a copy of the screen or of the page
    tables is given the current ones when it runs and its own are put back after
    it.  Cells of the VGA memory behind the page that is shown are kept apart. *)

From Stdlib Require Strings.String.
From Stdlib Require Import (notations) Strings.String.
From S2P Require Import Fat32 Fat32Fat Mount.
From S2P Require Import Prelude Pmm Vmm Heap CStr Disk Fat32 Pages Kernel Sched Proc Terminal Printf Console Editor Pager.
From S2P Require Import Interrupts Clock Acpi Smp World Commands AliasTable Shell ShellTyping ShellStart DynLink VmmBoot BootMemory.

#[local] Open Scope Z_scope.

Record Computer (D : Type) := Comp {
  b_cpu : Cpu;
  b_session : Session (CFat32FileSystem D);
  b_heap : HeapAllocator;
  b_linker : Linker;
  b_memory_map : Z;
  b_cr3 : Z;
  b_hidden : list (Z * Z)
}.
Arguments Comp {D}. Arguments b_cpu {D}. Arguments b_session {D}. Arguments b_heap {D}. Arguments b_linker {D}.
Arguments b_memory_map {D}. Arguments b_cr3 {D}. Arguments b_hidden {D}.

Section boot.
Context {D : Type} `{BlockDevice D}.
#[local] Abbreviation F := (CFat32FileSystem D).
#[local] Abbreviation B := (ST (Computer D)).
Implicit Types c : Computer D.

(** ** The parts *)

Definition b_world c : World F := s_world (b_session c).
Definition b_screen c : Terminal := co_screen (w_console (b_world c)).
Definition b_kernel c : Kernel := w_kernel (b_world c).
Definition b_vmm c : VirtualMemoryManager := mc_vmm (k_machine (b_kernel c)).

Definition put_cpu (k : Cpu) c : Computer D :=
  Comp k (b_session c) (b_heap c) (b_linker c) (b_memory_map c) (b_cr3 c) (b_hidden c).
Definition put_session (s : Session F) c : Computer D :=
  Comp (b_cpu c) s (b_heap c) (b_linker c) (b_memory_map c) (b_cr3 c) (b_hidden c).
Definition put_heap (h : HeapAllocator) c : Computer D :=
  Comp (b_cpu c) (b_session c) h (b_linker c) (b_memory_map c) (b_cr3 c) (b_hidden c).
Definition put_linker (l : Linker) c : Computer D :=
  Comp (b_cpu c) (b_session c) (b_heap c) l (b_memory_map c) (b_cr3 c) (b_hidden c).
Definition put_cr3 (v : Z) c : Computer D :=
  Comp (b_cpu c) (b_session c) (b_heap c) (b_linker c) (b_memory_map c) v (b_hidden c).
Definition put_hidden (l : list (Z * Z)) c : Computer D :=
  Comp (b_cpu c) (b_session c) (b_heap c) (b_linker c) (b_memory_map c) (b_cr3 c) l.
Definition put_world (w : World F) c : Computer D := put_session (Ses (s_line (b_session c)) w) c.
Definition put_screen (t : Terminal) c : Computer D :=
  put_world (with_console (Cons t (co_files (w_console (b_world c)))) (b_world c)) c.
Definition put_kernel (k : Kernel) c : Computer D := put_world (with_kernel k (b_world c)) c.
Definition put_vmm (vm : VirtualMemoryManager) c : Computer D := put_kernel (with_machine (set_vmm vm) (b_kernel c)) c.

(** A computation on a part. *)
Definition part {S A} (get : Computer D → S) (put : S → Computer D → Computer D) (m : ST S A) : B A := λ c,
  match m (get c) with
  | Ok (a, s) => Ok (a, put s c)
  | UB => UB
  | OutOfFuel => OutOfFuel
  end.

Definition on_cpu {A} : CPU A → B A :=
  part (λ c, Interrupts.set_screen (b_screen c) (b_cpu c)) (λ k, put_screen (c_screen k) ∘ put_cpu k).
Definition on_session {A} : ST (Session F) A → B A := part b_session put_session.
Definition on_world {A} (m : ST (World F) A) : B A := on_session (Shell.on_world m).
Definition on_terminal {A} : TM A → B A := part b_screen put_screen.
Definition on_kernel {A} : ST Kernel A → B A := part b_kernel put_kernel.
Definition on_vmm {A} : ST VirtualMemoryManager A → B A := part b_vmm put_vmm.
Definition on_smp {A} : SMP A → B A :=
  part (λ c, let s := w_smp (b_world c) in set_acpi (Acpi.with_screen (with_vmm (s_acpi s) (b_vmm c)) (b_screen c)) s)
       (λ s c, put_screen (a_screen (s_acpi s)) (put_vmm (a_vmm (s_acpi s)) (put_world (with_smp s (b_world c)) c))).
Definition on_linker {A} : ST Linker A → B A := part b_linker put_linker.

(** ** Text *)

(** [vga[i] = v] *)
Definition poke (cell : Z * Z) : B unit :=
  if cell.1 <? Z.of_nat CELLS
  then on_terminal (v ← gets VGA_MEMORY; v ← lift (aset v cell.1 cell.2); modify (set_vga v))
  else modify (λ c, put_hidden (b_hidden c ++ [cell]) c).

Fixpoint poke_all (l : list (Z * Z)) : B unit :=
  match l with [] => mret tt | x :: l => poke x;; poke_all l end.

(** [for (int i = 0; msg[i] != '\0'; i++) vga[i + start] = 0x0F00 | msg[i];] *)
Definition progress (start : Z) (msg : String.string) : B unit := poke_all (cells 0x0F00 start (text msg)).

(** An operation on the page tables that writes to the screen and the control registers. *)
Definition on_tables_text (m : ST VmmBoot unit) : B unit :=
  c ← gets (λ c, c);
  match m (Vb (b_vmm c) [] (c_cr0 (b_cpu c)) (b_cr3 c) (c_cr4 (b_cpu c))) with
  | Ok (_, s) =>
      modify (put_cr3 (vb_cr3 s) ∘ put_cpu (set_cr (vb_cr0 s) (vb_cr4 s) (b_cpu c)) ∘ put_vmm (vb_vm s));;
      poke_all (vb_cells s)
  | UB => lift UB
  | OutOfFuel => no_fuel
  end.

(** ** kernel_main *)

(** The addresses of the tables and of the stubs; the fuel of the file system. *)
Variables gdt_addr idt_addr timer_handler : Z.
Variable isr : Z → Z.
Variables fuel depth smp_fuel : nat.
(** What the firmware has in memory, the feature bit, the processors that start. *)
Variable firmware : Z → Z.
Variable apic_available : bool.
Variable ap_started : Z → bool.

#[local] Instance boot_files : Files F := fat32_as_files fuel.
#[local] Instance boot_directories : Directories F := fat32_as_directories fuel depth.

(** The number of processors is one of the manager's that the scheduler asks for. *)
Definition set_cpu_count (n : Z) (m : Machine) : Machine :=
  Mach (mc_cpu m) n (mc_ticks m) (mc_interrupts m) (mc_ipis m) (mc_vmm m).
Definition get_cpu_count : B unit :=
  n ← on_smp (gets (λ s, m_cpu_count (s_smp s)));
  on_kernel (modify (with_machine (set_cpu_count n))).
Definition init_scheduler : B unit := get_cpu_count;; on_kernel (sched_initialize RoundRobin).

(** [sti] *)
Definition set_interrupts (m : Machine) : Machine :=
  Mach (mc_cpu m) (mc_cpu_count m) (mc_ticks m) true (mc_ipis m) (mc_vmm m).

(** Both branches on the memory map are the same. *)
Definition init_pmm : B unit :=
  mb_memory_map ← gets b_memory_map;
  if negb (mb_memory_map =? 0) then on_vmm init_frames else on_vmm init_frames.

(** What comes before the file system. *)
Definition boot_hardware : B unit :=
  progress 0 "[1] Kernel Start"%string;;
  on_cpu (init_gdt gdt_addr);;
  progress 80 "[2] GDT Init Done"%string;;
  on_cpu init_pic;;
  progress 160 "[3] PIC Init Done"%string;;
  on_cpu (init_idt isr idt_addr);;
  progress 240 "[4] IDT Init Done"%string;;
  init_pmm;;
  progress 320 "[5] PMM Init Done"%string;;
  on_tables_text VmmBoot.initialize;;
  progress 400 "[6] VMM Init Done"%string;;
  on_vmm (map_heap HEAP_PAGES HEAP_START);;
  progress 480 "[7] Heap Mapped"%string;;
  on_tables_text load_page_directory;;
  progress 560 "[8] Page Tables Loaded"%string;;
  on_cpu init_keyboard;;
  progress 640 "[9] Keyboard Init Done"%string;;
  on_cpu register_keyboard_handler;;
  progress 720 "[10] Keyboard Handler Registered"%string;;
  frequency ← on_cpu (init_timer timer_handler 100);
  on_world (modify (λ w, Wd (w_console w) (w_editor w) (w_pager w) (w_kernel w) (w_smp w) (w_aliases w) frequency (w_cmos w) (w_ports w) (shell_pid w)));;
  progress 800 "[11] Timer Init Done"%string;;
  on_world (modify (λ w, Wd (w_console w) (w_editor w) (w_pager w) (w_kernel w) (w_smp w) (w_aliases w) (w_frequency w) (init_rtc (w_cmos w)) (w_ports w) (shell_pid w)));;
  progress 880 "[12] RTC Init Done"%string;;
  modify (λ c, put_heap (heap_initialize (b_heap c) HEAP_START HEAP_SIZE) c).

(** What comes after it, up to the shell. *)
Definition boot_services : B unit :=
  progress 960 "[13] Filesystem Mounted"%string;;
  init_scheduler;;
  progress 1120 "[14] Scheduler Init Done"%string;;
  on_smp (smp_initialize firmware apic_available smp_fuel);;
  get_cpu_count;;
  progress 1200 "[15] SMP Init Done"%string;;
  is_smp_enabled ← on_smp (gets (λ s, m_smp_enabled (s_smp s)));
  (if is_smp_enabled : bool then
     on_smp (startup_application_processors ap_started);;
     progress 1280 "[16] AP Startup Done"%string
   else mret tt);;
  on_linker DynLink.initialize;;
  on_terminal terminal_initialize.

(** The shell, and then interrupts. *)
Definition start_shell : B bool :=
  on_session init_shell;;
  on_kernel (modify (with_machine set_interrupts));;
  mret true.

(** The result is whether the processor waits for interrupts at the end. *)
Definition kernel_main : B bool :=
  boot_hardware;;
  mounted ← on_world (fil mount);
  if negb mounted then
    on_world (say (text "FAT32: Failed to mount filesystem
"%string) []);;
    mret false
  else
    boot_services;;
    start_shell.

(** ** Steps that return *)

(** From a state of [P] the step returns, in a state of [Q]. *)
Definition leads {A} (P Q : Computer D → Prop) (m : B A) : Prop := ∀ c, P c → exists a c', m c = Ok (a, c') ∧ Q c'.

Lemma leads_bind {A A'} P Q R (m : B A) (k : A → B A') : leads P Q m → (∀ a, leads Q R (k a)) → leads P R (m ≫= k).
Proof.
  intros H1 H2 c Hc. destruct (H1 c Hc) as (a & c1 & E1 & Hc1). destruct (H2 a c1 Hc1) as (a' & c2 & E2 & Hc2).
  exists a', c2. by rewrite (bind_run _ _ _ _ _ E1).
Qed.

Lemma leads_seq {A A'} P Q R (m : B A) (m' : B A') : leads P Q m → leads Q R m' → leads P R (m;; m').
Proof. intros H1 H2. by apply (leads_bind P Q). Qed.

(** What the steps on the screen, the processor and the page tables leave alone. *)
Definition kept c := (mc_interrupts (k_machine (b_kernel c)), w_aliases (b_world c), w_editor (b_world c)).
Definition rest c :=
  (k_pm (b_kernel c), k_sched (b_kernel c), k_ipc (b_kernel c), kept c,
   s_smp (w_smp (b_world c)), co_files (w_console (b_world c)), b_heap c, b_linker c).

(** The screen and the interrupt table have their sizes, the page tables and CR3
    are as [M] says, and [r] is the rest. *)
Record calm (M : VirtualMemoryManager → Z → Prop) r c : Prop := {
  ca_screen : term_wf (b_screen c);
  ca_idt : length (c_idt (b_cpu c)) = 256%nat;
  ca_tables : M (b_vmm c) (b_cr3 c);
  ca_rest : rest c = r
}.

Lemma calm_poke M r x : 0 ≤ x.1 → leads (calm M r) (calm M r) (poke x).
Proof.
  intros Hx c [Hs Hi Ht Hr]. unfold poke. destruct (Z.ltb_spec x.1 (Z.of_nat CELLS)) as [Hlt|Hge].
  - unfold on_terminal, part. st. rewrite (bind_lift _ _ _ _ (aset_Ok (VGA_MEMORY (b_screen c)) x.1 x.2 ltac:(rewrite (tm_cells _ Hs); lia))).
    eexists _, _. split; [reflexivity|]. constructor; [|done..].
    constructor; cbn; [by rewrite length_insert, (tm_cells _ Hs)|apply Hs|apply Hs].
  - eexists _, _. split; [reflexivity|]. by constructor.
Qed.

Lemma calm_poke_all M r l : Forall in_vga l → leads (calm M r) (calm M r) (poke_all l).
Proof.
  induction 1 as [|x l Hx _ IH]; cbn [poke_all].
  - intros c Hc. by exists tt, c.
  - eapply leads_seq; [apply calm_poke; apply Hx|exact IH].
Qed.

Lemma calm_progress M r start msg : 0 ≤ start → start + Z.of_nat (length (text msg)) ≤ VGA_CELLS →
  leads (calm M r) (calm M r) (progress start msg).
Proof. intros H0 H1. by apply calm_poke_all, cells_in_vga. Qed.

(** *** The processor *)

Definition cpu_ok (k : Cpu) : Prop := term_wf (c_screen k) ∧ length (c_idt k) = 256%nat.
Definition cpu_runs {A} (m : CPU A) : Prop := ∀ k, cpu_ok k → exists a k', m k = Ok (a, k') ∧ cpu_ok k'.

Lemma cpu_seq {A A'} (m : CPU A) (m' : CPU A') : cpu_runs m → cpu_runs m' → cpu_runs (m;; m').
Proof.
  intros H1 H2 k Hk. destruct (H1 k Hk) as (a & k1 & E1 & Hk1). destruct (H2 k1 Hk1) as (a' & k2 & E2 & Hk2).
  exists a', k2. by rewrite (bind_run _ _ _ _ _ E1).
Qed.

Lemma cpu_modify f : (∀ k, cpu_ok k → cpu_ok (f k)) → cpu_runs (modify f).
Proof. intros Hf k Hk. exists tt, (f k). auto. Qed.

Lemma cpu_ret {A} (a : A) : cpu_runs (mret a).
Proof. intros k Hk. by exists a, k. Qed.

Lemma cpu_mark i v : 0 ≤ i < 2000 → cpu_runs (mark i v).
Proof.
  intros Hi k [Hs Hl]. unfold mark, Interrupts.on_screen. st.
  rewrite (bind_lift _ _ _ _ (aset_Ok (VGA_MEMORY (c_screen k)) i (Z.lor 0x0400 v) ltac:(rewrite (tm_cells _ Hs); unfold CELLS; lia))).
  eexists _, _. split; [reflexivity|]. split; [|done]. constructor; cbn; [by rewrite length_insert, (tm_cells _ Hs)|apply Hs|apply Hs].
Qed.

Lemma cpu_handler v h flags : cpu_runs (set_interrupt_handler v h flags).
Proof.
  unfold set_interrupt_handler. destruct (h =? 0); [apply cpu_ret|]. apply cpu_modify. intros k [Hs Hl]. split; [done|].
  cbn. by rewrite length_insert.
Qed.

Lemma cpu_handlers n : ∀ v f, cpu_runs (set_handlers n v f).
Proof. induction n as [|n IH]; intros v f; cbn [set_handlers]; [apply cpu_ret|apply cpu_seq; [apply cpu_handler|apply IH]]. Qed.

Ltac cpu := repeat (apply cpu_seq; [first [apply cpu_mark; lia | by apply cpu_modify | apply cpu_handler | apply cpu_handlers]|]);
  first [apply cpu_mark; lia | by apply cpu_modify | apply cpu_handler | apply cpu_handlers | apply cpu_ret].

Lemma calm_cpu {A} M r (m : CPU A) : cpu_runs m → leads (calm M r) (calm M r) (on_cpu m).
Proof.
  intros Hm c [Hs Hi Ht Hr]. unfold on_cpu, part.
  destruct (Hm (Interrupts.set_screen (b_screen c) (b_cpu c))) as (a & k & E & Hs' & Hl'); [by split|]. rewrite E.
  eexists _, _. split; [reflexivity|]. by constructor.
Qed.

Lemma calm_world M r f : (∀ w, w_console (f w) = w_console w ∧ w_kernel (f w) = w_kernel w ∧ s_smp (w_smp (f w)) = s_smp (w_smp w) ∧
    w_aliases (f w) = w_aliases w ∧ w_editor (f w) = w_editor w) →
  leads (calm M r) (calm M r) (on_world (modify f)).
Proof.
  intros Hf c [Hs Hi Ht Hr]. exists tt, (put_world (f (b_world c)) c). split; [done|]. destruct (Hf (b_world c)) as (E1 & E2 & E3 & E4 & E5).
  assert (Ew : b_world (put_world (f (b_world c)) c) = f (b_world c)) by done.
  constructor; unfold b_screen, b_vmm, rest, kept, b_kernel in *; rewrite ?Ew, ?E1, ?E2, ?E3, ?E4, ?E5; done.
Qed.

(** *** The page tables *)

Lemma calm_vmm M M' r (m : ST VirtualMemoryManager unit) : (∀ vm x, M vm x → exists vm', m vm = Ok (tt, vm') ∧ M' vm' x) →
  leads (calm M r) (calm M' r) (on_vmm m).
Proof.
  intros Hm c [Hs Hi Ht Hr]. destruct (Hm _ _ Ht) as (vm' & E & Ht'). unfold on_vmm, part. rewrite E.
  eexists _, _. split; [reflexivity|]. by constructor.
Qed.

Lemma calm_tables_text M M' r (m : ST VmmBoot unit) :
  (∀ vm x cr0 cr4, M vm x → exists s, m (Vb vm [] cr0 x cr4) = Ok (tt, s) ∧ Forall in_vga (vb_cells s) ∧ M' (vb_vm s) (vb_cr3 s)) →
  leads (calm M r) (calm M' r) (on_tables_text m).
Proof.
  intros Hm c [Hs Hi Ht Hr]. unfold on_tables_text. st.
  destruct (Hm _ _ (c_cr0 (b_cpu c)) (c_cr4 (b_cpu c)) Ht) as (s & E & Hv & Ht'). rewrite E. st.
  apply (calm_poke_all M' r _ Hv). by constructor.
Qed.

(** ** Before the file system *)

Definition unset_tables (vm : VirtualMemoryManager) (cr3 : Z) : Prop := frames_unset vm.
(** The heap is mapped and CR3 holds the tables. *)
Definition booted (vm : VirtualMemoryManager) (cr3 : Z) : Prop := heap_ready vm ∧ cr3 = m_pml4 vm.

Lemma cpu_hardware :
  cpu_runs (init_gdt gdt_addr) ∧ cpu_runs init_pic ∧ cpu_runs (init_idt isr idt_addr) ∧ cpu_runs init_keyboard ∧
  cpu_runs register_keyboard_handler ∧ cpu_runs (init_timer timer_handler 100).
Proof.
  unfold init_gdt, init_pic, init_idt, init_keyboard, register_keyboard_handler, init_timer. cbv zeta.
  split_and!; cpu.
Qed.

Lemma calm_initialize r : leads (calm (λ vm _, frames_ready vm) r) (calm (λ vm _, tables_ready vm) r) (on_tables_text VmmBoot.initialize).
Proof.
  apply calm_tables_text. intros vm x cr0 cr4 Hr. destruct (initialize_ready vm Hr) as (vm' & E & Hr').
  pose proof (initialize_erases (Vb vm [] cr0 x cr4)) as Hi. cbn [vb_vm] in Hi. rewrite E in Hi. destruct Hi as (l & Ei & Hl).
  exists (vb_write l (vb_put vm' (Vb vm [] cr0 x cr4))). split; [exact Ei|]. split; [exact Hl|exact Hr'].
Qed.

Lemma calm_load r : leads (calm (λ vm _, heap_ready vm) r) (calm booted r) (on_tables_text load_page_directory).
Proof.
  apply calm_tables_text. intros vm x cr0 cr4 Hr.
  destruct (load_page_directory_spec (Vb vm [] cr0 x cr4) ltac:(constructor)) as (s & E & Ev & Hv & E3 & _).
  exists s. split; [exact E|]. split; [exact Hv|]. rewrite Ev, E3. by split.
Qed.

Ltac message := eapply leads_seq; [apply calm_progress; [lia|by vm_compute]|].

Lemma boot_hardware_ok r : let '(pm, sched, ipc, irq, smp, files, heap, linker) := r in
  leads (calm unset_tables r) (calm booted (pm, sched, ipc, irq, smp, files, heap_initialize heap HEAP_START HEAP_SIZE, linker)) boot_hardware.
Proof.
  destruct r as [[[[[[[pm sched] ipc] irq] smp] files] heap] linker] eqn:Er. rewrite <- Er.
  destruct cpu_hardware as (C1 & C2 & C3 & C4 & C5 & C6). unfold boot_hardware.
  message. eapply leads_seq; [by apply calm_cpu|]. message. eapply leads_seq; [by apply calm_cpu|].
  message. eapply leads_seq; [by apply calm_cpu|]. message.
  eapply leads_seq with (Q := calm (λ vm _, frames_ready vm) r).
  { unfold init_pmm. intros c Hc. st. destruct (negb _).
    all: refine (calm_vmm _ _ _ _ _ c Hc); intros vm x Hv; by apply init_frames_ready. }
  message. eapply leads_seq; [apply calm_initialize|]. message.
  eapply leads_seq with (Q := calm (λ vm _, heap_ready vm) r).
  { apply calm_vmm. intros vm x Hv. by apply map_heap_ready. }
  message. eapply leads_seq; [apply calm_load|]. message. eapply leads_seq; [by apply calm_cpu|]. message.
  eapply leads_seq; [by apply calm_cpu|]. message.
  eapply leads_bind; [by apply calm_cpu|]. intros frequency.
  eapply leads_seq; [by apply calm_world|]. message. eapply leads_seq; [by apply calm_world|]. message.
  intros c' [Hs Hi Ht Hr]. eexists _, _. split; [reflexivity|]. constructor; [done..|].
  unfold rest in *. rewrite Er in Hr. by injection Hr as <- <- <- <- <- <- <- <-.
Qed.

(** ** After it *)

Lemma calm_mount M pm sched ipc irq smp files heap linker c ok files' : calm M (pm, sched, ipc, irq, smp, files, heap, linker) c →
  mount files = Ok (ok, files') →
  exists c', on_world (fil mount) c = Ok (ok, c') ∧ calm M (pm, sched, ipc, irq, smp, files', heap, linker) c'.
Proof.
  intros [Hs Hi Ht Hr] E. unfold rest in Hr. injection Hr as <- <- <- <- <- Ef <- <-.
  set (w := with_console (Cons (b_screen c) files') (b_world c)).
  exists (put_world w c). split; [|by constructor].
  unfold on_world, on_session, part, Shell.on_world, fil, con, on_part, Console.on_files.
  unfold b_world in Ef. by rewrite Ef, E.
Qed.

Lemma calm_terminal M r m : writes m → leads (calm M r) (calm M r) (on_world (scr m)).
Proof.
  intros Hm c [Hs Hi Ht Hr]. destruct (Hm _ Hs) as (t & E & Hw & _). exists tt, (put_screen t c). split; [|by constructor].
  unfold on_world, on_session, part, Shell.on_world, scr, con, on_part, Console.on_screen.
  unfold b_screen, b_world in E. by rewrite E.
Qed.

(** A question to the processors' manager, or a message of it. *)
Lemma calm_smp {A} M r (m : SMP A) : (∀ s, Smp.screen_wf s → exists a s', m s = Ok (a, s') ∧ Smp.screen_wf s' ∧
    a_vmm (s_acpi s') = a_vmm (s_acpi s) ∧ s_smp s' = s_smp s) →
  leads (calm M r) (calm M r) (on_smp m).
Proof.
  intros Hm c [Hs Hi Ht Hr]. unfold on_smp, part.
  match goal with |- context [m ?x] => destruct (Hm x) as (a & s & E & Hw & Ev & Es); [exact Hs|rewrite E] end.
  eexists _, _. split; [reflexivity|].
  assert (Ev' : a_vmm (s_acpi s) = b_vmm c) by (rewrite Ev; done). constructor; [done|done| |].
  - change (M (a_vmm (s_acpi s)) (b_cr3 c)). by rewrite Ev'.
  - unfold rest in *. cbn. rewrite Es. exact Hr.
Qed.

Lemma calm_scheduler M pm sched ipc irq smp files heap linker : leads (calm M (pm, sched, ipc, irq, smp, files, heap, linker))
  (calm M (pm, Sched (new_runqueue ∘ Z.of_nat <$> seq 0 (Z.to_nat (m_cpu_count smp))) RoundRobin 0, ipc, irq, smp, files, heap, linker)) init_scheduler.
Proof.
  intros c [Hs Hi Ht Hr]. unfold rest in Hr. injection Hr as <- <- <- <- <- <- <- <-.
  eexists _, _. split; [reflexivity|]. by constructor.
Qed.

Lemma calm_count M r : leads (calm M r) (calm M r) get_cpu_count.
Proof. intros c [Hs Hi Ht Hr]. eexists _, _. split; [reflexivity|]. by constructor. Qed.

Lemma calm_linker M pm sched ipc irq smp files heap linker : leads (calm M (pm, sched, ipc, irq, smp, files, heap, linker))
  (calm M (pm, sched, ipc, irq, smp, files, heap, set_main no_library (set_libraries (loaded_libraries linker) 0 linker))) (on_linker DynLink.initialize).
Proof.
  intros c [Hs Hi Ht Hr]. unfold rest in Hr. injection Hr as <- <- <- <- <- <- <- <-.
  eexists _, _. split; [reflexivity|]. by constructor.
Qed.

Lemma rest_parts c pm sched ipc k smp files heap linker : rest c = (pm, sched, ipc, k, smp, files, heap, linker) →
  k_pm (b_kernel c) = pm ∧ k_sched (b_kernel c) = sched ∧ kept c = k ∧ co_files (w_console (b_world c)) = files ∧
  b_heap c = heap ∧ b_linker c = linker.
Proof. unfold rest. by intros [= -> -> _ -> _ -> -> ->]. Qed.

(** One run queue, whatever processors are found afterwards. *)
Definition one_queue : Scheduler := Sched [new_runqueue 0] RoundRobin 0.

Definition ready_for_shell M r c : Prop := calm M r c ∧ cleared (b_screen c).

Lemma boot_services_ok M pm sched ipc irq smp files heap linker :
  apic_available = false → m_cpu_count smp = 1 → m_smp_enabled smp = false →
  leads (calm M (pm, sched, ipc, irq, smp, files, heap, linker))
    (ready_for_shell M (pm, one_queue, ipc, irq, smp, files, heap, set_main no_library (set_libraries (loaded_libraries linker) 0 linker))) boot_services.
Proof.
  intros Ha Hn Hen. unfold boot_services. message.
  pose proof (calm_scheduler M pm sched ipc irq smp files heap linker) as Hsch. rewrite Hn in Hsch.
  eapply leads_seq; [exact Hsch|]. message.
  set (r := (pm, one_queue, ipc, irq, smp, files, heap, linker)).
  eapply leads_seq with (Q := calm M r).
  { apply calm_smp. intros s Hw. unfold smp_initialize. rewrite Ha. cbn [negb].
    destruct (tell_ok "APIC not available, SMP not supported"%string [] (text "APIC not available, SMP not supported"%string ++ [0x0A]) 38 s
      eq_refl Hw) as (t & E & Ht). exists tt, (with_message s t). by split_and!. }
  eapply leads_seq; [apply calm_count|]. message.
  intros c Hc. assert (Een : exists c1, on_smp (gets (λ s, m_smp_enabled (s_smp s))) c = Ok (false, c1) ∧ calm M r c1).
  { destruct Hc as [Hs Hi Ht Hr]. pose proof Hr as Es. unfold rest, r in Es. injection Es as _ _ _ _ Es _ _ _.
    assert (Ex : m_smp_enabled (s_smp (w_smp (b_world c))) = false) by (by rewrite Es).
    eexists. split; [unfold on_smp, part, gets; cbn; rewrite Ex; reflexivity|by constructor]. }
  destruct Een as (c1 & E1 & Hc1). rewrite (bind_run _ _ _ _ _ E1). cbn iota. rewrite bind_ret. clear c Hc E1.
  destruct (calm_linker M pm one_queue ipc irq smp files heap linker c1 Hc1) as (? & c2 & E2 & Hc2). rewrite (bind_run _ _ _ _ _ E2).
  destruct Hc2 as [Hs Hi Ht Hr]. pose proof (terminal_clear_ok (b_screen c2) (tm_cells _ Hs)) as E.
  exists tt, (put_screen (shows (set_color 15 (b_screen c2)) (replicate CELLS BLANK, 0)) c2).
  split; [unfold on_terminal, part; unfold terminal_clear in E; by rewrite E|]. split; [|done].
  constructor; [|done..]. by apply shows_wf.
Qed.

(** ** The start as a whole *)

(** The machine when [kernel_main] is called, as the loader and the constructors
    leave it. *)
Record powered c : Prop := {
  po_screen : term_wf (b_screen c);
  po_idt : length (c_idt (b_cpu c)) = 256%nat;
  po_frames : frames_unset (b_vmm c);
  po_smp : m_cpu_count (s_smp (w_smp (b_world c))) = 1 ∧ m_smp_enabled (s_smp (w_smp (b_world c))) = false
}.

(** The heap is one block over pages that are mapped, CR3 holds the tables, and
    interrupts are as they were. *)
Record hardware_ready c c' : Prop := {
  hr_tables : heap_ready (b_vmm c');
  hr_cr3 : b_cr3 c' = m_pml4 (b_vmm c');
  hr_heap : b_heap c' = heap_initialize (b_heap c) HEAP_START HEAP_SIZE;
  hr_kept : kept c' = kept c;
  hr_processes : k_pm (b_kernel c') = k_pm (b_kernel c)
}.

Lemma kernel_main_ok c mounted files : powered c → apic_available = false → mount (co_files (w_console (b_world c))) = Ok (mounted, files) →
  exists c', hardware_ready c c' ∧ co_files (w_console (b_world c')) = files ∧
    if mounted : bool
    then kernel_main c = start_shell c' ∧
      cleared (b_screen c') ∧ k_sched (b_kernel c') = one_queue ∧ num_loaded_libraries (b_linker c') = 0
    else kernel_main c = Ok (false, c') ∧ k_sched (b_kernel c') = k_sched (b_kernel c).
Proof.
  intros [Hs Hi Hf [Hn Hen]] Ha Em. unfold kernel_main.
  destruct (boot_hardware_ok (rest c) c) as (? & c1 & E1 & Hc1); [by constructor|]. rewrite (bind_run _ _ _ _ _ E1).
  destruct (calm_mount _ _ _ _ _ _ _ _ _ c1 mounted files Hc1 Em) as (c2 & E2 & Hc2). rewrite (bind_run _ _ _ _ _ E2).
  destruct mounted; cbn [negb].
  - destruct (boot_services_ok _ _ _ _ _ _ _ _ _ Ha Hn Hen c2 Hc2) as (? & c3 & E3 & [Hs3 Hi3 [Ht3 H3] Hr3] & Hv).
    exists c3. destruct (rest_parts _ _ _ _ _ _ _ _ _ Hr3) as (Hpm & Hsched & Hk & Hfiles & Hheap & Hlink). split; [by constructor|]. split; [done|].
    rewrite (bind_run _ _ _ _ _ E3). split; [done|]. split; [done|]. split; [done|]. by rewrite Hlink.
  - assert (Hw : writes (printf (text "FAT32: Failed to mount filesystem
"%string) [];; mret tt)).
    { eapply writes_printf; [vm_compute; reflexivity|apply writes_ret]. }
    destruct (calm_terminal _ _ _ Hw c2 Hc2) as (? & c3 & E3 & [Hs3 Hi3 [Ht3 H3] Hr3]).
    exists c3. destruct (rest_parts _ _ _ _ _ _ _ _ _ Hr3) as (Hpm & Hsched & Hk & Hfiles & Hheap & Hlink). split; [by constructor|]. split; [done|].
    unfold say. rewrite (bind_run _ _ _ _ _ E3). done.
Qed.

(** [kernel_main] starts the parts in an order in which each finds what it
    needs.  On a machine without a local interrupt controller it always gets to the
    file system, with the heap mapped and set up and interrupts as they were.
    When the file system is not mounted it says so and returns, with nothing
    scheduled; when it is, it comes to the shell with a blank screen and one run
    queue, and enables interrupts only after it. *)
Theorem kernel_main_spec c mounted files : powered c → apic_available = false →
  mount (co_files (w_console (b_world c))) = Ok (mounted, files) →
  exists c', hardware_ready c c' ∧ co_files (w_console (b_world c')) = files ∧
    if mounted : bool
    then kernel_main c = start_shell c' ∧
      VGA_MEMORY (b_screen c') = replicate CELLS BLANK ∧ k_sched (b_kernel c') = one_queue ∧ num_loaded_libraries (b_linker c') = 0
    else kernel_main c = Ok (false, c') ∧ k_sched (b_kernel c') = k_sched (b_kernel c).
Proof.
  intros Hp Ha Em. destruct (kernel_main_ok c mounted files Hp Ha Em) as (c' & H1 & H2 & H3). exists c'. split; [done|]. split; [done|].
  destruct mounted; [|done]. destruct H3 as (E & Hc & Hr). split; [done|]. split; [apply Hc|done].
Qed.
(** ** Up to the prompt *)

Context {HL : DeviceLaws D}.

(** No process yet, the identifiers from a small one on, a table of aliases, and an
    editor that is not open. *)
Record fresh c : Prop := {
  fr_table : table_wf (k_pm (b_kernel c));
  fr_next : 0 < m_next_pid (k_pm (b_kernel c)) < 2 ^ 17 - 1;
  fr_aliases : alias_table (w_aliases (b_world c));
  fr_editor : m_active (w_editor (b_world c)) = false
}.

Lemma one_queue_wf k : k_sched k = one_queue → sched_wf k ∧ all_queued k = [].
Proof.
  intros E. assert (Eq : all_queued k = []) by (unfold all_queued; by rewrite E). split; [|done].
  constructor; rewrite ?Eq; [|by constructor|constructor|done].
  intros [|i] q; rewrite E; [intros [= <-]; split; [done|by left]|done].
Qed.

Lemma stacks_free vm tab pid_ : upper_free vm tab → 0 < pid_ < 2 ^ 17 - 1 → stack_free vm tab pid_.
Proof.
  intros [_ Hu] Hp j Hj. destruct (kernel_stack_base_small pid_) as [E _]; [lia|]. apply Hu.
  unfold page, KERNEL_HALF. rewrite E. unfold KERNEL_STACK_SIZE, KERNEL_STACK_PAGES in *. lia.
Qed.

(** The shell's process can be made. *)
Lemma shell_process k name : heap_ready (mc_vmm (k_machine k)) → k_sched k = one_queue → table_wf (k_pm k) → 0 < m_next_pid (k_pm k) < 2 ^ 17 - 1 →
  exists k', create_process name 0 k = Ok (m_next_pid (k_pm k), k') ∧ table_wf (k_pm k') ∧ sched_wf k' ∧
    is_process k' (m_next_pid (k_pm k)) (pm_new (k_pm k)) ∧ all_queued k' = [pm_new (k_pm k)].
Proof.
  intros (tab & Hi & _ & _ & Hu) Es Ht Hp. destruct (one_queue_wf k Es) as [Hs Eq].
  destruct (create_process_ok name 0 k tab Ht Hs) as (fs & vm' & tab' & k' & E & _ & _ & _ & Ht' & Hs' & Hpr & _ & Hq).
  - by rewrite Es.
  - done.
  - by rewrite Eq.
  - done.
  - destruct Hu. lia.
  - by apply stacks_free.
  - exists k'. rewrite Eq in Hq. apply Permutation_singleton_r in Hq. by split_and!.
Qed.

(** The kernel waits for keys: interrupts are on, the shell's process is queued,
    the files and aliases are as [f] and [r] say, and the line at the prompt is
    empty. *)
Record at_prompt c r (f : F) c' : Prop := {
  ap_interrupts : mc_interrupts (k_machine (b_kernel c')) = true;
  ap_shell : is_process (b_kernel c') (shell_pid (b_world c')) (pm_new (k_pm (b_kernel c)));
  ap_queued : all_queued (b_kernel c') = [pm_new (k_pm (b_kernel c))];
  ap_files : co_files (w_console (b_world c')) = f;
  ap_aliases : aliases_loaded r (w_aliases (b_world c)) (w_aliases (b_world c'));
  ap_line : typing prompt_cells [] (b_world c') (b_session c');
  ap_idle : m_active (w_editor (b_world c')) = false ∧ pager_active (w_pager (b_world c')) = false
}.

Lemma session_screen (s : Session F) : s_world s = with_terminal (screen_of s) (s_world s).
Proof. by destruct s as [? [[]]]. Qed.

Lemma start_shell_ok c c' r f : fresh c → hardware_ready c c' → cleared (b_screen c') → k_sched (b_kernel c') = one_queue →
  shell_files (co_files (w_console (b_world c'))) = Ok ((r, root), f) → terminated_text r →
  exists c2, start_shell c' = Ok (true, c2) ∧ at_prompt c r f c2.
Proof.
  intros [Ht Hp Ha He] [Hh _ _ Hk Hpm] Hc Es Ef Hr. unfold kept in Hk. injection Hk as _ Hal Hed.
  destruct (shell_process (b_kernel c') (text "shell"%string) Hh Es) as (k & Ek & Htk & Hsk & Hpr & Hq); [by rewrite Hpm..|].
  rewrite Hpm in Ek, Hpr, Hq.
  destruct (init_shell_ok (s_line (b_session c')) (b_world c') (m_next_pid (k_pm (b_kernel c))) k r f) as (s & E & Hs);
    [exact Hc|by rewrite Hal|exact Ek|exact Ef|done|].
  exists (put_kernel (with_machine set_interrupts (w_kernel (s_world s))) (put_session s c')). split.
  - unfold start_shell. assert (Eo : on_session init_shell c' = Ok (tt, put_session s c')).
    { unfold on_session, part. destruct (b_session c') as [ln w] eqn:Eb. unfold b_world in E. rewrite Eb in E. cbn [s_line s_world] in E. by rewrite E. }
    by rewrite (bind_run _ _ _ _ _ Eo).
  - destruct Hs as [[Hl Hsc _] Hpid Hkn Hfi Hali Hpg Hen _ _]. rewrite Hkn. constructor.
    + done.
    + change (is_process k (shell_pid (s_world s)) (pm_new (k_pm (b_kernel c)))). by rewrite Hpid.
    + exact Hq.
    + exact Hfi.
    + change (aliases_loaded r (w_aliases (b_world c)) (w_aliases (s_world s))). by rewrite <- Hal.
    + constructor; [exact Hl|exact Hsc|apply session_screen].
    + split; [change (m_active (w_editor (s_world s)) = false); by rewrite Hen, Hed|].
      change (pager_active (w_pager (s_world s)) = false). by rewrite Hpg.
Qed.

End boot.

(** ** A machine *)

(** A disk of empty sectors with a boot sector for sectors of 512 bytes, clusters of
    one sector and one table of one sector, in which the root directory is one
    cluster. *)
Definition boot_sector : list Z :=
  foldr (λ '(i, v) l, <[i := v]> l) (replicate 512 0) [(12%nat, 2); (13%nat, 1); (14%nat, 1); (16%nat, 1); (32%nat, 128); (36%nat, 1); (66%nat, 0x29)].
Definition boot_table : list Z := [0xF8; 0xFF; 0xFF; 0x0F; 0xFF; 0xFF; 0xFF; 0x0F; 0xFF; 0xFF; 0xFF; 0x0F] ++ replicate 500 0.
Definition boot_disk : MemDisk := λ s, if s =? 0 then boot_sector else if s =? 1 then boot_table else replicate 512 0.

Definition boot_volume (d : MemDisk) : CFat32FileSystem MemDisk :=
  ok_or (Fat32 [] 0 zero_bpb (FSInfo 0 0) 0 0 0 0 [] [] 0 d) (Fat32.construct d).

Definition demo_computer (d : MemDisk) : Computer MemDisk :=
  Comp (Cp [] 0 0 0 (replicate 256 (Idt 0 0 0 0 0 0 0)) 0 [] boot_terminal false false false false [])
    (Ses empty_line
       (Wd (Cons boot_terminal (boot_volume d)) (Ed [] [] 0 0 0 0 0 0 false false NORMAL false 0 0) init_pager
          (kernel_on (Mach 0 1 0 false [] (Vmm pmm_unset (λ _, 0) 0)) [] 0) boot_smp no_aliases 0 (λ _, 0) [] 0))
    (HeapA ∅ 0 0 0 pmm_unset) (Link (replicate 16 no_library) 0 no_library boot_terminal (Vmm pmm_unset (λ _, 0) 0)) 0 0 [].

Lemma demo_powered d : powered (demo_computer d).
Proof. constructor; [exact boot_terminal_wf|apply length_replicate|exact unset_bitmap|done]. Qed.

#[local] Abbreviation demo_main :=
  (kernel_main 0x1000 0x2000 0x3000 (λ v, 0x4000 + v) 10 10 10 (λ _, 0) false (λ _, true)).

(** With the disk the kernel comes to the shell, the root directory of the new
    volume written; without a boot sector it returns. *)
Lemma kernel_main_spec_witness :
  (exists c' files, demo_main (demo_computer (λ _, replicate 512 0)) = Ok (false, c') ∧ co_files (w_console (b_world c')) = files) ∧
  exists c', demo_main (demo_computer boot_disk) = start_shell 10 10 c' ∧
    k_sched (b_kernel c') = one_queue.
Proof.
  split.
  - set (c := demo_computer (λ _, replicate 512 0)).
    assert (Em : mount (co_files (w_console (b_world c))) = Ok (false, (ok_or (false, boot_volume boot_disk) (mount (co_files (w_console (b_world c))))).2)).
    { apply ran; vm_compute; reflexivity. }
    destruct (kernel_main_spec 0x1000 0x2000 0x3000 (λ v, 0x4000 + v) 10 10 10 (λ _, 0) false (λ _, true) c false _ (demo_powered _) eq_refl Em)
      as (c' & _ & Ef & E & _). exists c', (co_files (w_console (b_world c'))). split; [exact E|reflexivity].
  - set (c := demo_computer boot_disk).
    assert (Em : mount (co_files (w_console (b_world c))) = Ok (true, (ok_or (false, boot_volume boot_disk) (mount (co_files (w_console (b_world c))))).2)).
    { apply ran; vm_compute; reflexivity. }
    destruct (kernel_main_spec 0x1000 0x2000 0x3000 (λ v, 0x4000 + v) 10 10 10 (λ _, 0) false (λ _, true) c true _ (demo_powered _) eq_refl Em)
      as (c' & _ & Ef & E & _ & Es & _). exists c'. split; [exact E|exact Es].
Defined.

(** ** A disk with the shell's files

    The files are made by the shell's own operations, with their texts filled up to
    a sector: [writeFile] takes whole sectors. *)

#[local] Instance demo_files : Files (CFat32FileSystem MemDisk) := fat32_as_files 10.
#[local] Instance demo_directories : Directories (CFat32FileSystem MemDisk) := fat32_as_directories 10 10.

Definition whole_sector (l : list Z) : list Z := l ++ replicate (512 - length l) 0.

Definition install : ST (CFat32FileSystem MemDisk) bool :=
  mount;;
  f_set_path root;; f_set_dir_name root;; f_set_cluster ROOT_CLUSTER;;
  f_create_directory (text "tmp"%string);;
  f_create_with_content (text "tmp/welcome"%string) (whole_sector welcome_msg) 0;;
  f_create_directory (text "shell"%string);;
  f_create_with_content (text "/shell/config"%string) (whole_sector default_aliases) 0.

Definition installed : CFat32FileSystem MemDisk := (ok_or (false, boot_volume boot_disk) (install (boot_volume boot_disk))).2.
Definition installed_sectors : list (list Z) := map (m_disk installed) [0; 1; 2; 3; 4; 5; 6; 7].
Definition installed_disk : MemDisk := λ k, if (0 <=? k) && (k <? 8) then nth (Z.to_nat k) installed_sectors [] else replicate 512 0.

Lemma installed_ready : mem_ready installed_disk.
Proof.
  assert (Ha : Forall (λ l, length l = 512%nat ∧ forallb (λ c, (0 <=? c) && (c <? 256)) l = true) installed_sectors).
  { apply (bool_decide_unpack _). vm_compute. exact I. }
  intros k. unfold installed_disk. destruct (Z.leb_spec 0 k) as [H0|]; [|split; [done|]; by apply bytes_u8].
  destruct (Z.ltb_spec k 8) as [H8|]; [|split; [done|]; by apply bytes_u8]. cbn [andb].
  assert (Hin : nth (Z.to_nat k) installed_sectors [] ∈ installed_sectors) by (apply list_elem_of_In, nth_In; change (length installed_sectors) with 8%nat; lia).
  destruct (proj1 (Forall_forall _ _) Ha _ Hin) as [Hl Hb]. split; [done|]. by apply bytes_u8.
Qed.

Definition installed_boot : SFat32BPB := ok_or zero_bpb (read_bpb boot_sector).

Lemma installed_is_fat32 : read_bpb (installed_disk 0) = Ok installed_boot ∧ fat32_boot installed_boot (2 ^ 28).
Proof.
  split; [by vm_compute|]. constructor; try (by vm_compute); try (left; by vm_compute); try (right; by vm_compute).
Qed.

Lemma demo_fresh d : fresh (demo_computer d).
Proof.
  constructor; [|done| |done].
  - constructor; cbn; [constructor|constructor|intros; apply lookup_empty|lia|..]; intros p *; by intros ?%elem_of_nil.
  - exists []. exact no_aliases_hold.
Qed.

Lemma same_result {A S} (m : outcome (A * S)) a s s' : m = Ok (a, s) → m = Ok (a, s') → s = s'.
Proof. congruence. Qed.

(** The volume, and the shell's files on it. *)
Definition mounted_volume : CFat32FileSystem MemDisk := (ok_or (false, installed) (mount (boot_volume installed_disk))).2.
Definition found_files : ((bool * list Z) * list Z) * CFat32FileSystem MemDisk :=
  ok_or (((false, []), []), installed) (shell_files mounted_volume).

Lemma found_aliases : found_files.1.1.1 = true ∧ exists rest, found_files.1.1.2 = default_aliases ++ 0 :: rest.
Proof. split; [by vm_compute|]. exists (drop 18 found_files.1.1.2). by vm_compute. Qed.

Lemma default_aliases_chars : chars default_aliases.
Proof. by apply (bool_decide_unpack _). Qed.

Lemma ls_keys : Forall line_key (text "ls"%string).
Proof. change (text "ls"%string) with [0x6C; 0x73]. do 2 (constructor; [unfold line_key, BACKSPACE; lia|]). constructor. Qed.


(** On a disk without them the start reads past the end of the text it makes
    "tmp/welcome" of. *)
Example first_start_overreads :
  shell_files (ok_or (false, installed) (mount (boot_volume boot_disk))).2 = UB.
Proof. vm_compute. reflexivity. Qed.
